(* ===== verification/_CoqProject ===== *)
-Q . S2P
Prelude.v
Engine.v
EngineTest.v
EngineSpec.v
EngineProps.v
Queue.v
CString.v
MyString.v
CheatList.v
Parser.v
ParserProps.v
LibCheats.v
ElfId.v
LoaderUtil.v
CheatMan.v
Pattern.v
RamFile.v
Bytes.v
Debugger.v
IopReset.v
Syscalls.v
MemDisk.v
Ntpb.v
NtpbServer.v
NtpbClient.v
Remote.v
LwipMem.v
LwipHeap.v
Inet.v
IpFrag.v
ElfLdr.v
SCache.v
MassStor.v
MassStorProps.v
Fat.v
FatChain.v
FatRead.v
FatFile.v
FatDir.v
UsbMass.v
LibConfig.v
LibConfigTree.v
LibConfigProps.v
LibConfigWrite.v
Grammar.v
GrammarProps.v
ConfigParse.v
Scanner.v
ScannerProps.v
ScannerTokens.v
ConfigRoundTrip.v
ConfigMan.v
ErlMan.v
Loader.v
LoaderMain.v
