(* ===== verification/Prelude.v ===== *)
(** * PS2rd: a verification of the PS2 remote debugger

    PS2rd is a cheat engine and remote debugger for the PlayStation 2.  Its parts:

    - the loader (ee/loader/): a menu program that reads its configuration with libconfig and
      cheat files with libcheats, finds the cheats of the game in the drive, copies the engine,
      the debugger and the IOP modules to memory that survives the start of the game, and
      starts the game;
    - libconfig (ee/libconfig/): a third-party library for configuration files;
    - libcheats (ee/libcheats/): the parser and the data structure of cheat files;
    - the cheat engine (ee/engine/): the code handler, in assembly, that the game calls many
      times a second through a hook, with the tables of codes and hooks;
    - the debugger on the EE (ee/debugger/): it patches the game, takes over IOP resets and
      serves remote commands;
    - the debugger on the IOP (iop/debugger/): a TCP server for the client on the PC that
      hands requests to the EE by RPC;
    - the client on the PC (pc/ntpbclient/): a script that halts and resumes the game and
      stores dumps of its memory;
    - the ELF loader (ee/elfldr/) that stays resident and starts the game's other programs;
    - the USB mass storage driver (iop/usb_mass/): a sector cache, the FAT file system;
    - third-party code that is built with them: a TCP/IP stack (iop/SMSTCPIP/), network drivers.

    ** Method

    The code is translated to Rocq functions.  Stateful code runs in the monad [M S A] of
    this file (a state and a fault); return codes of the source are ordinary values, and
    [Err] stands for what has no value in C: null dereference, access out of bounds,
    misaligned access, a loop that does not end.  Integers are elements of Z with their
    wrap-around written out.  The EE's memory is a map from addresses to bytes, C objects of
    libcheats live in a heap of typed cells, character arrays are lists of bytes.  Loops
    that are not structural carry fuel, and the theorems show that the fuel given is
    enough.  Functions of the SDK, the kernel and the network stack are parameters, or
    scripts of results in the state (what the next receive brings, which allocation fails).

    ** Files

    - [Prelude]: faults, the monad, machine integers, byte memory, shared lemmas, the
      tactic [zlia].
    - [Engine]: ee/engine/engine_asm.S ([Asm]: [CodeHandler] with a definition per code type,
      [EngineHandler], [HookSetupThread]), ee/engine/engine.c ([EngineC]: [add_code], [add_hook],
      [clear_codes], ...), on the loads and stores of [Mips] with their alignment traps.
    - [EngineTest]: the test driver ee/engine/test.c, run on the model.
    - [EngineSpec]: a specification of the code types after
      Documentation/technical/code_types.txt: codes are decoded to operations, and [run]
      is their step relation.  The assembly refines it (C1) and always ends (C2).
    - [EngineProps]: what codes may write (C4), the conversion of type E codes, the
      effects of serial writes and copies, the code and hook tables (C8), the thread hook (C11).
    - [Queue]: the STAILQ macros of ee/libcheats/include/queue.h on linked cells; they
      implement lists (C13).
    - [CString], [MyString]: C strings, and ee/libcheats/src/mystring.c.
    - [CheatList]: ee/libcheats/src/cheatlist.c on a heap with a failing allocator; [games_rep]
      relates the heap to a tree of games, cheats and codes; freeing a list frees exactly
      its objects (C14).
    - [Parser], [ParserProps]: ee/libcheats/src/parser.c; memory safety (C15), the grammar
      (C16), streams against buffers (C17), the unterminated last line (C18).
    - [LibCheats]: ee/libcheats/src/libcheats.c; saved cheats are loaded again (C19).
    - [ElfId], [LoaderUtil]: ee/loader/elfid.c (C20), and ee/loader/myutil.h, mycdvd.h and
      the path functions of loader.c.
    - [CheatMan]: ee/loader/cheatman.c against the interface [EngineLaws], which engine.c
      satisfies (instance [engine_c_laws]): which codes are activated (C22), which game is
      found (C23).
    - [Pattern]: ee/debugger/pattern.c, the pattern tables, padread_hooks.c and
      loadmodule_hooks.c: search, redirection of calls (C25).
    - [RamFile]: the table of modules in kernel RAM, written by ee/loader/irxman.c and read
      by ee/debugger/debugger.c (C27).
    - [Bytes]: little-endian integers and copies in byte buffers.
    - [Debugger]: ee/debugger/debugger_rpc.c, and dumps and commands of debugger.c: dumps
      cover the requested memory, a halted game serves commands until it is resumed (C33),
      and the hooks of padread_hooks.c return what the game's own functions return.
    - [IopReset]: the reset hook of debugger.c, with loadfile.c and syscall_hooks.S: a handled
      reset (C34), the skipped syscalls, the network configuration.
    - [Syscalls]: the [_init] and [_fini] functions of the engine, the debugger and the ELF
      loader: in whatever order the modules are loaded and unloaded, no handler of the kernel
      is lost (C36).
    - [Ntpb]: iop/debugger/ntpbserver.c: reassembly of requests (C29), replies, the
      semaphore after an error (C31), the size limit of the RPC blocks (C32).
    - [NtpbServer]: the dispatch of its RPC calls, and the thread that accepts clients, on the
      socket table of iop/SMSTCPIP/sockets.c: no socket is lost (C35).
    - [NtpbClient]: pc/ntpbclient/ntpbclient.  [Remote]: client, server and the command loop on the
      EE put together: sessions of any length halt, dump and resume the game (C3).
    - [MemDisk]: iop/memdisk/memdisk.c, from which the IOP reads the patched image, and
      iop/eesync/eesync.c, the module that tells the EE that the IOP is ready.
    - [LwipMem], [LwipHeap]: iop/SMSTCPIP/mem.c, the heap of the TCP/IP stack, on its array of
      bytes; regions in use never overlap and keep their contents, and no memory is lost (C30).
    - [Inet]: iop/SMSTCPIP/inet.s: the checksum routines in assembly are the Internet checksum
      (C28).  [IpFrag]: iop/SMSTCPIP/ip_frag.c: packets in fragments are put together (C26).
    - [ElfLdr]: ee/elfldr/elfldr.c: the replaced LoadExecPS2 and the loading of segments (C37).
    - [SCache]: iop/usb_mass/scache.c: the cache is transparent (C38).
    - [MassStor], [MassStorProps]: iop/usb_mass/mass_stor.c on a USB driver that is a parameter
      (class [UsbDriver]); on devices of the bulk-only transport (class [BulkOnly]) it is the disk
      that [SCache] works on (C12), and what it does when the device does not answer (C24).
    - [Fat], [FatChain], [FatRead], [FatFile], [FatDir], [UsbMass]: iop/usb_mass/fat_driver.c as it
      is built: mounting, cluster chains, reading, directories and names, open files; a session
      of opens, reads, seeks and closes on a FAT16 or FAT32 volume gives the bytes of the
      files (C39).
    - [LibConfig], [LibConfigTree], [LibConfigProps]: the settings of ee/libconfig/src/libconfig.c
      on a heap; [crep] relates the heap to a tree, and every sequence of calls keeps it a
      well-typed tree (C40).  [LibConfigWrite]: the text that [config_write] makes of them.
    - [Grammar], [GrammarProps]: the parser ee/libconfig/src/grammar.c with its LALR tables;
      [runs] are runs of its driver.  [ConfigParse]: the language of configuration files, and
      that [__config_read] builds the settings a file denotes, where [config_lookup] finds
      them (C10).
    - [Scanner], [ScannerProps]: the scanner ee/libconfig/src/scanner.c with its flex tables, its
      input buffer, its actions and included files (scanctx.c, strbuf.c); on every text it ends
      and finds the longest matches of the reference (C6).  [ScannerTokens]: the tokens of names,
      numbers, strings and punctuation.  [ConfigRoundTrip]: the text of a configuration, and that
      reading it gives the same settings (C7).
    - [ConfigMan]: ee/loader/configman.c and configman.h: keys, defaults and accessors.
    - [ErlMan]: ee/loader/erlman.c: the modules are installed as the configuration says (C21).
    - [Loader]: the menu of ee/loader/loader.c on top of the configuration, the cheat manager
      and the engine; it refines a menu of two cursors (C9).
    - [LoaderMain]: [main] of ee/loader/loader.c with ee/loader/irxman.c, from the path it was
      started from to its end: the components above put together follow a plan that the
      settings of the file alone determine (C5).

    ** Fuel and bounds

    The loops of the code handler take the number of codes, of cells of a serial write and
    of bytes of a copy, read from the registers as the code does; C2 shows that they do not
    run out.  Searches and transfers take the length of what they work on, since each pass
    consumes at least one element; the command loop takes the number of pending requests.
    Loops over FAT chains take the number of clusters, the destruction of settings the number
    of settings, lookups the length of the path.  The searches of the heap take its size, which
    bounds the number of blocks (C30), the checksum loops the number of bytes (C28), the loops
    of the PC client the number of pieces that arrive.  The parser of libconfig takes any fuel above
    five times the number of tokens (C10), for files whose nesting fits its stack of 10000.
    The scanner ends on every text (C6); the fuel it takes depends on the included files, whose
    nesting is at most ten deep, and is shown to exist.  A write takes the number of settings.
    The parser theorems are about lines of at most 255 characters, titles and descriptions
    shorter than the 80 bytes of their fields; what happens beyond is in the manifest's
    findings.

    ** Not modelled

    What the loader prints; the hooks of libconfig's settings; the RPC server of the USB driver;
    fat_write.c, which is not built; the third-party network drivers, printf and logging, and of
    the TCP/IP stack everything but the heap, the socket table, the checksums and the fragments;
    what two threads of the server do at the same time, which run in turns in [Remote]; hardware
    registers, caches and interrupts; timing.  Reads of EE memory outside the modelled maps
    give 0. *)

From stdpp Require Export base tactics numbers list gmap.
From Stdlib Require Export ZArith Lia.

#[export] Set Default Goal Selector "!".

(** ** Faults and the state-with-fault monad

    Return codes of the C code are ordinary values.  [Err] is kept for what has
    no C-level value: undefined behaviour, a processor exception, a loop that
    does not end. *)

Inductive fault : Type :=
| NullDeref
| OutOfBounds
| Misaligned (a : Z)
| OutOfFuel
| Hang.

Inductive res (A : Type) : Type :=
| Ok (x : A)
| Err (f : fault).
Arguments Ok {A} x.
Arguments Err {A} f.

Definition M (S A : Type) : Type := S -> res (A * S).

Definition ret {S A} (x : A) : M S A := fun s => Ok (x, s).
Definition fail {S A} (f : fault) : M S A := fun _ => Err f.
Definition bind {S A B} (c : M S A) (k : A -> M S B) : M S B :=
  fun s => match c s with
           | Ok (x, s') => k x s'
           | Err f => Err f
           end.
Definition get {S} : M S S := fun s => Ok (s, s).
Definition put {S} (s : S) : M S unit := fun _ => Ok (tt, s).
Definition gets {S A} (f : S -> A) : M S A := fun s => Ok (f s, s).
Definition modify {S} (f : S -> S) : M S unit := fun s => Ok (tt, f s).

Declare Scope ps2rd_scope.
Delimit Scope ps2rd_scope with ps2rd.

Notation "'let*' x := c 'in' k" := (bind c (fun x => k))
  (at level 10, x name, c at level 200, k at level 200) : ps2rd_scope.
Notation "'let*' ' p := c 'in' k" := (bind c (fun x => match x with p => k end))
  (at level 10, p pattern, c at level 200, k at level 200) : ps2rd_scope.
Notation "c ;; k" := (bind c (fun _ => k))
  (at level 100, right associativity) : ps2rd_scope.

(** Run a computation and keep only the final state. *)
Definition exec {S A} (c : M S A) (s : S) : res S :=
  match c s with
  | Ok (_, s') => Ok s'
  | Err f => Err f
  end.

(** The final state of a run that does not fault; [d] otherwise. *)
Definition state_or {S A} (d : S) (r : res (A * S)) : S :=
  match r with Ok (_, s) => s | Err _ => d end.

Definition is_ok {A} (r : res A) : bool :=
  match r with Ok _ => true | Err _ => false end.

(** A pure fallible computation as a state computation. *)
Definition lift {S A} (r : res A) : M S A :=
  fun s => match r with Ok x => Ok (x, s) | Err f => Err f end.

Definition rbind {A B} (c : res A) (k : A -> res B) : res B :=
  match c with Ok x => k x | Err f => Err f end.

Notation "'let?' x := c 'in' k" := (rbind c (fun x => k))
  (at level 10, x name, c at level 200, k at level 200) : ps2rd_scope.
Notation "'let?' ' p := c 'in' k" := (rbind c (fun x => match x with p => k end))
  (at level 10, p pattern, c at level 200, k at level 200) : ps2rd_scope.

Definition of_option {A} (f : fault) (o : option A) : res A :=
  match o with Some x => Ok x | None => Err f end.

(** ** Machine integers: w-bit values are elements of Z in range. *)

Open Scope Z_scope.

Definition u8 (x : Z) : Z := x mod 2 ^ 8.
Definition u16 (x : Z) : Z := x mod 2 ^ 16.
Definition u32 (x : Z) : Z := x mod 2 ^ 32.
(** The signed reading of a 32-bit pattern. *)
Definition s32 (x : Z) : Z := (x + 2 ^ 31) mod 2 ^ 32 - 2 ^ 31.
(** The signed reading of an 8-bit pattern ([char] on these targets). *)
Definition s8 (x : Z) : Z := (x + 2 ^ 7) mod 2 ^ 8 - 2 ^ 7.

Definition is_u8 (x : Z) : Prop := 0 <= x < 2 ^ 8.
Definition is_u16 (x : Z) : Prop := 0 <= x < 2 ^ 16.
Definition is_u32 (x : Z) : Prop := 0 <= x < 2 ^ 32.

(** ** Byte-addressed, little-endian memory. *)

Definition load8 (m : gmap Z Z) (a : Z) : Z := u8 (default 0 (m !! a)).
Definition load16 (m : gmap Z Z) (a : Z) : Z :=
  load8 m a + 2 ^ 8 * load8 m (a + 1).
Definition load32 (m : gmap Z Z) (a : Z) : Z :=
  load16 m a + 2 ^ 16 * load16 m (a + 2).

Definition store8 (m : gmap Z Z) (a v : Z) : gmap Z Z := <[a := u8 v]> m.
Definition store16 (m : gmap Z Z) (a v : Z) : gmap Z Z :=
  store8 (store8 m a v) (a + 1) (v / 2 ^ 8).
Definition store32 (m : gmap Z Z) (a v : Z) : gmap Z Z :=
  store16 (store16 m a v) (a + 2) (v / 2 ^ 16).

(** [n] bytes from address [a]; writing a byte list at [a]. *)
Fixpoint load_bytes (m : gmap Z Z) (a : Z) (n : nat) : list Z :=
  match n with
  | O => []
  | S n' => load8 m a :: load_bytes m (a + 1) n'
  end.

Fixpoint store_bytes (m : gmap Z Z) (a : Z) (l : list Z) : gmap Z Z :=
  match l with
  | [] => m
  | b :: l' => store_bytes (store8 m a b) (a + 1) l'
  end.

(** ** Automation *)

Create HintDb mach.
Create Rewrite HintDb mach.
Create HintDb memdb.

Ltac unwrap := unfold u8, u16, u32, s32, s8, is_u8, is_u16, is_u32 in *.

(** Linear arithmetic with division and modulo by constants. *)
Ltac zlia := unwrap; Z.to_euclidean_division_equations; lia.

(** Case analysis on the scrutinee of the outermost [match] or [if]. *)
Ltac case_on :=
  match goal with
  | |- context [match ?x with _ => _ end] => destruct x eqn:?
  end.

(** Closed goals about concrete integers and memories, by evaluation. *)
Ltac concrete :=
  vm_compute; repeat split;
  first [ reflexivity | (let H := fresh in intros H; discriminate H)
        | (left; concrete) | (right; concrete) ].

(** ** Integer lemmas *)

Lemma u8_range x : 0 <= u8 x < 256.
Proof. zlia. Qed.
Lemma u16_range x : 0 <= u16 x < 65536.
Proof. zlia. Qed.
Lemma u32_range x : 0 <= u32 x < 4294967296.
Proof. zlia. Qed.
Lemma s32_range x : - 2147483648 <= s32 x < 2147483648.
Proof. zlia. Qed.

Lemma u8_id x : 0 <= x < 256 -> u8 x = x.
Proof. intros; zlia. Qed.
Lemma u16_id x : 0 <= x < 65536 -> u16 x = x.
Proof. intros; zlia. Qed.
Lemma u32_id x : 0 <= x < 4294967296 -> u32 x = x.
Proof. intros; zlia. Qed.
Lemma s32_id x : - 2147483648 <= x < 2147483648 -> s32 x = x.
Proof. intros; zlia. Qed.

Lemma s8_id x : - 128 <= x < 128 -> s8 x = x.
Proof. intros; zlia. Qed.

Lemma u8_u8 x : u8 (u8 x) = u8 x.
Proof. zlia. Qed.
Lemma u16_u16 x : u16 (u16 x) = u16 x.
Proof. zlia. Qed.
Lemma u32_u32 x : u32 (u32 x) = u32 x.
Proof. zlia. Qed.
Lemma u8_u32 x : u8 (u32 x) = u8 x.
Proof. zlia. Qed.
Lemma u16_u32 x : u16 (u32 x) = u16 x.
Proof. zlia. Qed.
Lemma s32_u32 x : s32 (u32 x) = s32 x.
Proof. zlia. Qed.
Lemma u32_add_l x y : u32 (u32 x + y) = u32 (x + y).
Proof. zlia. Qed.
Lemma u32_add_r x y : u32 (x + u32 y) = u32 (x + y).
Proof. zlia. Qed.
Lemma u32_sub_l x y : u32 (u32 x - y) = u32 (x - y).
Proof. zlia. Qed.
Lemma u32_mul_r x y : u32 (x * u32 y) = u32 (x * y).
Proof. unfold u32. by rewrite Z.mul_mod_idemp_r. Qed.

#[export] Hint Rewrite u8_u8 u16_u16 u32_u32 u8_u32 u16_u32 s32_u32
  u32_add_l u32_add_r u32_sub_l : mach.
#[export] Hint Resolve u8_range u16_range u32_range s32_range : mach.

(** A low mask is a remainder, a right shift a quotient. *)
Lemma land_ones_mod x n : 0 <= n -> Z.land x (Z.ones n) = x mod 2 ^ n.
Proof. intros; by apply Z.land_ones. Qed.
Lemma land_1 x : Z.land x 1 = x mod 2.
Proof. change 1 with (Z.ones 1) at 1. by rewrite Z.land_ones by lia. Qed.

(** ** Memory lemmas *)

Lemma load8_range m a : 0 <= load8 m a < 256.
Proof. apply u8_range. Qed.
Lemma load16_range m a : 0 <= load16 m a < 65536.
Proof.
  unfold load16. pose proof (load8_range m a). pose proof (load8_range m (a + 1)). lia.
Qed.
Lemma load32_range m a : 0 <= load32 m a < 4294967296.
Proof.
  unfold load32. pose proof (load16_range m a). pose proof (load16_range m (a + 2)). lia.
Qed.
#[export] Hint Resolve load8_range load16_range load32_range : mach.

Lemma load8_store8 m a v b :
  load8 (store8 m a v) b = if decide (a = b) then u8 v else load8 m b.
Proof.
  unfold load8, store8. case_decide; subst.
  - rewrite lookup_insert_eq. simpl. apply u8_u8.
  - by rewrite lookup_insert_ne.
Qed.

Lemma load8_store8_eq m a v : load8 (store8 m a v) a = u8 v.
Proof. rewrite load8_store8. by case_decide. Qed.
Lemma load8_store8_ne m a v b : a <> b -> load8 (store8 m a v) b = load8 m b.
Proof. intros. rewrite load8_store8. by case_decide. Qed.

Lemma load8_store16_ne m a v b :
  b < a \/ a + 2 <= b -> load8 (store16 m a v) b = load8 m b.
Proof. intros. unfold store16. rewrite !load8_store8_ne by lia. done. Qed.
Lemma load8_store32_ne m a v b :
  b < a \/ a + 4 <= b -> load8 (store32 m a v) b = load8 m b.
Proof. intros. unfold store32. rewrite !load8_store16_ne by lia. done. Qed.

Lemma load16_store16_eq m a v : load16 (store16 m a v) a = u16 v.
Proof.
  unfold load16, store16. rewrite load8_store8_eq, load8_store8_ne by lia.
  rewrite load8_store8_eq. zlia.
Qed.
Lemma load16_store16_ne m a v b :
  b + 2 <= a \/ a + 2 <= b -> load16 (store16 m a v) b = load16 m b.
Proof. intros. unfold load16. rewrite !load8_store16_ne by lia. done. Qed.

Lemma load32_store32_eq m a v : load32 (store32 m a v) a = u32 v.
Proof.
  unfold load32, store32. rewrite load16_store16_eq, load16_store16_ne by lia.
  rewrite load16_store16_eq. zlia.
Qed.
Lemma load32_store32_ne m a v b :
  b + 4 <= a \/ a + 4 <= b -> load32 (store32 m a v) b = load32 m b.
Proof.
  intros. unfold load32, load16. rewrite !load8_store32_ne by lia. done.
Qed.
Lemma load32_store8_ne m a v b :
  a < b \/ b + 4 <= a -> load32 (store8 m a v) b = load32 m b.
Proof. intros. unfold load32, load16. rewrite !load8_store8_ne by lia. done. Qed.

Lemma load32_ext m1 m2 a :
  (forall b, a <= b < a + 4 -> load8 m1 b = load8 m2 b) -> load32 m1 a = load32 m2 a.
Proof. intros H. unfold load32, load16. rewrite !H by lia. done. Qed.

(** Disjoint fields: [or] is addition. *)
Lemma lor_shift_add x y k : 0 <= k -> 0 <= x < 2 ^ k -> Z.lor x (y * 2 ^ k) = x + y * 2 ^ k.
Proof.
  intros Hk Hx. rewrite <- Z.shiftl_mul_pow2 by lia.
  rewrite Z.add_nocarry_lxor; [symmetry; apply Z.lxor_lor|];
    apply Z.bits_inj'; intros n Hn; rewrite Z.land_spec, Z.bits_0;
    destruct (decide (n < k)).
  all: try (rewrite (Z.shiftl_spec_low y) by lia; apply andb_false_r).
  all: rewrite <- (Z.mod_small x (2 ^ k)) by lia;
    rewrite Z.mod_pow2_bits_high by lia; done.
Qed.

Lemma length_load_bytes m a n : length (load_bytes m a n) = n.
Proof. revert a; induction n as [|n IH]; intros a; simpl; [done|]. by rewrite IH. Qed.

Lemma lookup_load_bytes m a n i :
  (i < n)%nat -> load_bytes m a n !! i = Some (load8 m (a + Z.of_nat i)).
Proof.
  revert a i. induction n as [|n IH]; intros a i Hi; [lia|]. destruct i as [|i]; simpl.
  - by rewrite Z.add_0_r.
  - rewrite IH by lia. do 2 f_equal. lia.
Qed.

Lemma load_bytes_app m a n k :
  load_bytes m a (n + k) = load_bytes m a n ++ load_bytes m (a + Z.of_nat n) k.
Proof.
  revert a; induction n as [|n IH]; intros a; simpl.
  - f_equal. lia.
  - rewrite IH. do 2 f_equal. f_equal. lia.
Qed.

Lemma load8_store_bytes_ne m a l b :
  b < a \/ a + Z.of_nat (length l) <= b -> load8 (store_bytes m a l) b = load8 m b.
Proof.
  revert m a; induction l as [|x l IH]; intros m a H; simpl in *; [done|].
  rewrite IH by lia. apply load8_store8_ne. lia.
Qed.

(** A byte of a stored list. *)
Lemma load8_store_bytes_in m a l i v :
  l !! i = Some v -> load8 (store_bytes m a l) (a + Z.of_nat i) = u8 v.
Proof.
  revert m a i. induction l as [|b l IH]; intros m a [|i] Hi; try done; simpl in *.
  - injection Hi as ->. rewrite load8_store_bytes_ne, Z.add_0_r by lia. apply load8_store8_eq.
  - replace (a + Z.of_nat (S i)) with (a + 1 + Z.of_nat i) by lia. by apply IH.
Qed.

Lemma load_bytes_ext m1 m2 a n :
  (forall b, a <= b < a + Z.of_nat n -> load8 m1 b = load8 m2 b) ->
  load_bytes m1 a n = load_bytes m2 a n.
Proof.
  revert a; induction n as [|n IH]; intros a H; simpl; [done|].
  f_equal; [apply H; lia|]. apply IH. intros; apply H; lia.
Qed.

Lemma load_store_bytes m a l :
  Forall is_u8 l -> load_bytes (store_bytes m a l) a (length l) = l.
Proof.
  revert m a; induction l as [|x l IH]; intros m a H; simpl; [done|].
  inv H. f_equal.
  - rewrite load8_store_bytes_ne by lia. rewrite load8_store8_eq. by apply u8_id.
  - by apply IH.
Qed.

(** ** Fault-free results *)

Lemma bind_ok {S A B} (c : M S A) (k : A -> M S B) s x s' :
  c s = Ok (x, s') -> bind c k s = k x s'.
Proof. intros H. unfold bind. by rewrite H. Qed.

Lemma bind_inv {S A B} (c : M S A) (k : A -> M S B) s y s'' :
  bind c k s = Ok (y, s'') -> exists x s', c s = Ok (x, s') /\ k x s' = Ok (y, s'').
Proof.
  unfold bind. destruct (c s) as [[x s']|f]; [|done]. eauto.
Qed.

Lemma bind_assoc {S A B C} (c : M S A) (k : A -> M S B) (g : B -> M S C) s :
  bind (bind c k) g s = bind c (fun x => bind (k x) g) s.
Proof. unfold bind. by destruct (c s) as [[x s']|f]. Qed.

Lemma bind_ret {S A B} (x : A) (k : A -> M S B) s : bind (ret x) k s = k x s.
Proof. done. Qed.

(** ** Generic list lemmas *)

Lemma Forall_u8_load_bytes m a n : Forall is_u8 (load_bytes m a n).
Proof.
  revert a; induction n as [|n IH]; intros a; simpl; constructor; auto.
  apply load8_range.
Qed.
