(* ===== verification/Engine.v ===== *)
(** * The cheat engine (ee/engine/engine.c, ee/engine/engine_asm.S)

    The engine keeps its tables in EE memory and is called many times a second
    from the hooked game.  [engine.c] fills the tables, [HookSetupThread]
    installs the hook, [CodeHandler] runs the codes.  The assembly is translated
    instruction by instruction: a register is a [let], a memory access is an
    operation of the monad over byte memory, a branch is an [if], a loop is a
    fixpoint on fuel. *)

From S2P Require Import Prelude.
Local Open Scope ps2rd_scope.

(** ** The processor operations the engine uses

    Registers hold 32-bit patterns.  The Emotion Engine sign-extends the result
    of 32-bit operations, which no comparison of the engine can observe. *)
Module Mips.

Definition sll (x n : Z) : Z := u32 (Z.shiftl x n).
Definition srl (x n : Z) : Z := Z.shiftr x n.
Definition addu (x y : Z) : Z := u32 (x + y).
Definition subu (x y : Z) : Z := u32 (x - y).
Definition sltu (x y : Z) : Z := if x <? y then 1 else 0.
Definition bgtz (x : Z) : bool := 0 <? s32 x.

(** Loads and stores fault on an address that is not a multiple of the size. *)
Definition lbu (a : Z) : M (gmap Z Z) Z := fun m => Ok (load8 m a, m).
Definition lb (a : Z) : M (gmap Z Z) Z := fun m => Ok (u32 (s8 (load8 m a)), m).
Definition lhu (a : Z) : M (gmap Z Z) Z := fun m =>
  if a mod 2 =? 0 then Ok (load16 m a, m) else Err (Misaligned a).
Definition lw (a : Z) : M (gmap Z Z) Z := fun m =>
  if a mod 4 =? 0 then Ok (load32 m a, m) else Err (Misaligned a).
Definition sb (v a : Z) : M (gmap Z Z) unit := fun m => Ok (tt, store8 m a v).
Definition sh (v a : Z) : M (gmap Z Z) unit := fun m =>
  if a mod 2 =? 0 then Ok (tt, store16 m a v) else Err (Misaligned a).
Definition sw (v a : Z) : M (gmap Z Z) unit := fun m =>
  if a mod 4 =? 0 then Ok (tt, store32 m a v) else Err (Misaligned a).

End Mips.
Import Mips.

(** Link-time addresses of the engine's symbols. *)
Record symbols : Type := Symbols {
  numcodes : Z;
  maxcodes : Z;
  codelist : Z;
  numhooks : Z;
  maxhooks : Z;
  hooklist : Z;
  callbacks : Z;
  eh_backup : Z;
  jal_EngineHandler : Z;
}.

(** ** CodeHandler *)
Module Asm.

(** Where a code type handler continues: [next] with the number of codes done,
    or [ch_ret]. *)
Inductive cont : Type :=
| Next (t4 : Z)
| ChRet.

(** A handler gets the pointer to the current code [t2], the codes done [t4],
    the RAM address [a0] (already cut to 25 bits) and the code value [a1]. *)
Definition handler : Type := Z -> Z -> Z -> Z -> M (gmap Z Z) cont.

Definition type_0 : handler := fun t2 t4 a0 a1 =>
  sb a1 a0 ;; ret (Next t4).

Definition type_1 : handler := fun t2 t4 a0 a1 =>
  sh a1 a0 ;; ret (Next t4).

Definition type_2 : handler := fun t2 t4 a0 a1 =>
  sw a1 a0 ;; ret (Next t4).

Definition type_3 : handler := fun t2 t4 a0 a1 =>
  let t6 := srl a0 20 in
  let at_ := Z.land t6 1 in
  let a0 := Z.land a0 0xffff in
  let a1 := sll a1 7 in
  let a1 := srl a1 7 in
  let t6 := Z.land t6 6 in
  let a2 := Z.land t6 2 in
  let* '(t5, a0, t4) :=
    (if t6 =? 0 then let* t5 := lbu a1 in ret (t5, a0, t4)
     else if negb (a2 =? 0) then let* t5 := lhu a1 in ret (t5, a0, t4)
     else let* t5 := lw a1 in
          let* a0 := lw (addu t2 8) in
          ret (t5, a0, addu t4 1)) in
  let t5 := if at_ =? 0 then addu t5 a0 else subu t5 a0 in
  (if t6 =? 0 then sb t5 a1
   else if negb (a2 =? 0) then sh t5 a1
   else sw t5 a1) ;;
  ret (Next t4).

(** Fuel for a loop that decrements its counter [c] and goes on while the result
    is positive: the cycle that is always done and one per positive value left. *)
Definition cycles (c : Z) : nat := S (Z.to_nat (s32 (addu c (-1)))).

(** The store loop of type 4: [t5] cycles are left when it is entered. *)
Fixpoint type_4_loop (fuel : nat) (a0 a1 a2 a3 t5 : Z) : M (gmap Z Z) unit :=
  match fuel with
  | O => fail OutOfFuel
  | S fuel' =>
      sw a2 a0 ;;
      let a2 := addu a2 a3 in
      let t5 := addu t5 (-1) in
      let a0 := addu a0 a1 in
      if bgtz t5 then type_4_loop fuel' a0 a1 a2 a3 t5 else ret tt
  end.

Definition type_4 : handler := fun t2 t4 a0 a1 =>
  let* a2 := lw (addu t2 8) in
  let* a3 := lw (addu t2 12) in
  let t5 := srl a1 16 in
  let a1 := Z.land a1 0xffff in
  let a1 := sll a1 2 in
  type_4_loop (cycles t5) a0 a1 a2 a3 t5 ;;
  ret (Next (addu t4 1)).

(** The copy loop of type 5. *)
Fixpoint type_5_loop (fuel : nat) (a0 a1 a2 : Z) : M (gmap Z Z) unit :=
  match fuel with
  | O => fail OutOfFuel
  | S fuel' =>
      let* t5 := lb a0 in
      sb t5 a2 ;;
      let a2 := addu a2 1 in
      let a1 := addu a1 (-1) in
      let a0 := addu a0 1 in
      if bgtz a1 then type_5_loop fuel' a0 a1 a2 else ret tt
  end.

Definition type_5 : handler := fun t2 t4 a0 a1 =>
  let* a2 := lw (addu t2 8) in
  type_5_loop (cycles a1) a0 a1 a2 ;;
  ret (Next (addu t4 1)).

Definition type_6 : handler := fun t2 t4 a0 a1 =>
  let* t5 := lw a0 in
  let t5 := Z.land t5 0x3ffffffc in
  let* a2 := lhu (addu t2 10) in
  (if t5 =? 0 then ret tt
   else
     let* a3 := lw (addu t2 12) in
     let t5 := addu t5 a3 in
     if a2 =? 0 then sb a1 t5
     else
       let a2 := addu a2 (-1) in
       if a2 =? 0 then sh a1 t5
       else sw a1 t5) ;;
  ret (Next (addu t4 1)).

Definition type_7 : handler := fun t2 t4 a0 a1 =>
  let t6 := srl a1 20 in
  let at_ := Z.land t6 1 in
  let t6 := Z.land t6 6 in
  let* t5 := (if negb (at_ =? 0) then lhu a0 else lbu a0) in
  let t5 :=
    if t6 =? 0 then Z.lor t5 a1
    else
      let t6 := addu t6 (-2) in
      if t6 =? 0 then Z.land t5 a1
      else Z.lxor t5 a1 in
  (if negb (at_ =? 0) then sh t5 a0 else sb t5 a0) ;;
  ret (Next t4).

Definition type_c : handler := fun t2 t4 a0 a1 =>
  let* t5 := lw a0 in
  if negb (t5 =? a1) then ret ChRet else ret (Next t4).

Definition type_d : handler := fun t2 t4 a0 a1 =>
  let a3 := srl a1 16 in
  let a3 := Z.land a3 1 in
  let t6 := srl a1 20 in
  let a2 := srl a1 24 in
  let a2 := if a2 =? 0 then 1 else a2 in
  let t6 := Z.land t6 7 in
  let* '(t5, a1) :=
    (if a3 =? 0 then let* t5 := lhu a0 in ret (t5, Z.land a1 0xffff)
     else let* t5 := lbu a0 in ret (t5, Z.land a1 0xff)) in
  let skip_if_nonzero t5 := ret (Next (if negb (t5 =? 0) then addu t4 a2 else t4)) in
  let skip_if_zero t5 := ret (Next (if t5 =? 0 then addu t4 a2 else t4)) in
  if t6 =? 0 then skip_if_nonzero (subu t5 a1)
  else if t6 =? 1 then skip_if_zero (subu t5 a1)
  else if t6 =? 2 then skip_if_zero (sltu t5 a1)
  else if t6 =? 3 then skip_if_zero (sltu a1 t5)
  else if t6 =? 4 then skip_if_nonzero (Z.land t5 a1)
  else if t6 =? 5 then skip_if_zero (Z.land t5 a1)
  else if t6 =? 6 then skip_if_nonzero (Z.lor t5 a1)
  else skip_if_zero (Z.lor t5 a1).

(** Type E rewrites the current code as a type D code and runs that. *)
Definition type_e : handler := fun t2 t4 a0 a1 =>
  let a2 := Z.land a0 0xffff in
  let at_ := srl a1 28 in
  let at_ := sll at_ 20 in
  let a2 := Z.lor a2 at_ in
  let at_ := srl a0 24 in
  let at_ := sll at_ 16 in
  let a2 := Z.lor a2 at_ in
  let at_ := srl a0 16 in
  let at_ := sll at_ 24 in
  let a2 := Z.lor a2 at_ in
  let a0 := sll a1 7 in
  let a0 := srl a0 7 in
  let t5 := 0xd0000000 in
  let t5 := Z.lor t5 a0 in
  let a1 := a2 in
  sw t5 t2 ;;
  sw a1 (addu t2 4) ;;
  type_d t2 t4 a0 a1.

(** The jump table; [None] is a zero entry. *)
Definition type_tab (i : Z) : option handler :=
  match i with
  | 0 => Some type_0
  | 1 => Some type_1
  | 2 => Some type_2
  | 3 => Some type_3
  | 4 => Some type_4
  | 5 => Some type_5
  | 6 => Some type_6
  | 7 => Some type_7
  | 12 => Some type_c
  | 13 => Some type_d
  | 14 => Some type_e
  | _ => None
  end.

(** One pass of [ch_loop] up to [next]. *)
Definition ch_body (sym : symbols) (t4 : Z) : M (gmap Z Z) cont :=
  let t2 := addu (codelist sym) (sll t4 3) in
  let* a0 := lw t2 in
  if a0 =? 0 then ret (Next t4)
  else
    match type_tab (srl a0 28) with
    | None => ret (Next t4)
    | Some h =>
        let a0 := srl (sll a0 7) 7 in
        let* a1 := lw (addu t2 4) in
        h t2 t4 a0 a1
    end.

Fixpoint ch_loop (fuel : nat) (sym : symbols) (t3 t4 : Z) : M (gmap Z Z) unit :=
  match fuel with
  | O => fail OutOfFuel
  | S fuel' =>
      let* c := ch_body sym t4 in
      match c with
      | ChRet => ret tt
      | Next t4 =>
          let t4 := addu t4 1 in
          if negb (sltu t4 t3 =? 0) then ch_loop fuel' sym t3 t4 else ret tt
      end
  end.

Definition CodeHandler (sym : symbols) : M (gmap Z Z) unit :=
  let* t3 := lw (numcodes sym) in
  if t3 =? 0 then ret tt
  else ch_loop (Z.to_nat t3) sym t3 0.

(** The callback loop of [EngineHandler]; [call f] runs the function at [f]. *)
Fixpoint callback_loop (fuel : nat) (call : Z -> M (gmap Z Z) unit) (s0 : Z)
  : M (gmap Z Z) unit :=
  match fuel with
  | O => fail OutOfFuel
  | S fuel' =>
      let* s1 := lw s0 in
      if s1 =? 0 then ret tt
      else call s1 ;; callback_loop fuel' call (addu s0 4)
  end.

(** [EngineHandler] between the register saves and the restores. *)
Definition EngineHandler (fuel : nat) (call : Z -> M (gmap Z Z) unit) (sym : symbols)
  : M (gmap Z Z) unit :=
  callback_loop fuel call (callbacks sym) ;; CodeHandler sym.

(** The hook loop: [t1] hooks are left, [t3] points at the current one. *)
Fixpoint hook_loop (fuel : nat) (sym : symbols) (t1 t3 : Z) : M (gmap Z Z) unit :=
  match fuel with
  | O => fail OutOfFuel
  | S fuel' =>
      let next_hook :=
        let t1 := addu t1 (-1) in
        if bgtz t1 then hook_loop fuel' sym t1 (addu t3 8) else ret tt in
      let* v0 := lw t3 in
      let* v1 := lw (addu t3 4) in
      if v0 =? 0 then next_hook
      else
        let* t2 := lw v0 in
        if negb (t2 =? v1) then next_hook
        else
          sw t2 (eh_backup sym) ;;
          let* v1 := lw (addu v0 4) in
          sw v1 (addu (eh_backup sym) 4) ;;
          let* v1 := lw (jal_EngineHandler sym) in
          sw v1 v0 ;;
          sw 0 (addu v0 4)
  end.

Definition HookSetupThread (sym : symbols) : M (gmap Z Z) unit :=
  let* t1 := lw (numhooks sym) in
  if t1 =? 0 then ret tt
  else hook_loop (cycles t1) sym t1 (hooklist sym).

End Asm.

(** ** engine.c

    The same memory, accessed through the C declarations of the symbols. *)
Module EngineC.

(** [codelist[i]] and [hooklist[i]]: arrays of [u32]. *)
Definition elem (base i : Z) : Z := u32 (base + 4 * i).

Definition get_max_codes (sym : symbols) : M (gmap Z Z) Z :=
  let* n := lw (maxcodes sym) in ret (s32 n).

Definition set_max_codes (sym : symbols) (num : Z) : M (gmap Z Z) unit :=
  sw (u32 num) (maxcodes sym).

Definition get_num_codes (sym : symbols) : M (gmap Z Z) Z :=
  let* n := lw (numcodes sym) in ret (s32 n).

Definition get_code_list (sym : symbols) : M (gmap Z Z) Z := ret (codelist sym).

Definition add_code (sym : symbols) (addr val : Z) : M (gmap Z Z) Z :=
  let* n := lw (numcodes sym) in
  let* mx := lw (maxcodes sym) in
  if mx <=? n then ret (-1)
  else
    sw addr (elem (codelist sym) (u32 (n * 2))) ;;
    let* n := lw (numcodes sym) in
    sw val (elem (codelist sym) (u32 (n * 2 + 1))) ;;
    let* n := lw (numcodes sym) in
    sw (u32 (n + 1)) (numcodes sym) ;;
    ret 0.

(** [for (i = 0; i < n * 2; i++) list[i] = 0]; the bound is read again in every
    test, as in the source. *)
Fixpoint clear_loop (fuel : nat) (num base i : Z) : M (gmap Z Z) unit :=
  let* n := lw num in
  if i <? u32 (n * 2) then
    match fuel with
    | O => fail OutOfFuel
    | S fuel' => sw 0 (elem base i) ;; clear_loop fuel' num base (i + 1)
    end
  else ret tt.

Definition clear_codes (sym : symbols) : M (gmap Z Z) unit :=
  let* n := lw (numcodes sym) in
  clear_loop (Z.to_nat (u32 (n * 2))) (numcodes sym) (codelist sym) 0 ;;
  sw 0 (numcodes sym).

Definition get_max_hooks (sym : symbols) : M (gmap Z Z) Z :=
  let* n := lw (maxhooks sym) in ret (s32 n).

Definition get_num_hooks (sym : symbols) : M (gmap Z Z) Z :=
  let* n := lw (numhooks sym) in ret (s32 n).

Definition get_hook_list (sym : symbols) : M (gmap Z Z) Z := ret (hooklist sym).

Definition add_hook (sym : symbols) (addr val : Z) : M (gmap Z Z) Z :=
  let* n := lw (numhooks sym) in
  let* mx := lw (maxhooks sym) in
  if mx <=? n then ret (-1)
  else
    sw (Z.land addr 0x01FFFFFC) (elem (hooklist sym) (u32 (n * 2))) ;;
    let* n := lw (numhooks sym) in
    sw val (elem (hooklist sym) (u32 (n * 2 + 1))) ;;
    let* n := lw (numhooks sym) in
    sw (u32 (n + 1)) (numhooks sym) ;;
    ret 0.

Definition clear_hooks (sym : symbols) : M (gmap Z Z) unit :=
  let* n := lw (numhooks sym) in
  clear_loop (Z.to_nat (u32 (n * 2))) (numhooks sym) (hooklist sym) 0 ;;
  sw 0 (numhooks sym).

Definition register_callback (sym : symbols) (func : Z) : M (gmap Z Z) Z :=
  sw func (elem (callbacks sym) 0) ;; ret 0.

End EngineC.
