(* ===== verification/EngineTest.v ===== *)
(** * The engine's test driver (ee/engine/test.c)

    Each test fills a RAM area, adds codes, calls [CodeHandler] and compares the
    area with the expected words.  The driver has its own [add_code] and
    [clear_codes] ([test_add_code] and [test_clear_codes] here), without the capacity check of engine.c.  The two static
    arrays of the type 5 test are given by their addresses. *)

From S2P Require Import Prelude Engine.
Import Mips Asm.
Local Open Scope ps2rd_scope.

(** [p[i]] for a [u32 *p] and for a [u16 *p]. *)
Definition p32 (p i : Z) : M (gmap Z Z) Z := lw (p + 4 * i).
Definition set32 (p i v : Z) : M (gmap Z Z) unit := sw v (p + 4 * i).
Definition p16 (p i : Z) : M (gmap Z Z) Z := lhu (p + 2 * i).
Definition set16 (p i v : Z) : M (gmap Z Z) unit := sh v (p + 2 * i).

Definition memset (p c : Z) (n : nat) : M (gmap Z Z) unit :=
  modify (fun m => store_bytes m p (replicate n (u8 c))).

Definition test_clear_codes (sym : symbols) : M (gmap Z Z) unit :=
  let* n := lw (numcodes sym) in
  EngineC.clear_loop (Z.to_nat (u32 (n * 2))) (numcodes sym) (codelist sym) 0 ;;
  sw 0 (numcodes sym).

Definition test_add_code (sym : symbols) (addr val : Z) : M (gmap Z Z) unit :=
  let* n := lw (numcodes sym) in
  sw (u32 addr) (EngineC.elem (codelist sym) (u32 (n * 2))) ;;
  let* n := lw (numcodes sym) in
  sw (u32 val) (EngineC.elem (codelist sym) (u32 (n * 2 + 1))) ;;
  let* n := lw (numcodes sym) in
  sw (u32 (n + 1)) (numcodes sym).

(** The verdict of a test: [-1] when some comparison fails. *)
Definition verdict (ok : bool) : Z := if ok then 0 else -1.

Definition test_type_0 (sym : symbols) : M (gmap Z Z) Z :=
  let addr := 0x00400000 in
  test_clear_codes sym ;;
  set32 addr 0 0xffffffff ;;
  test_add_code sym (addr + 0) 0x00000012 ;;
  test_add_code sym (addr + 1) 0x00000034 ;;
  test_add_code sym (addr + 2) 0x00000056 ;;
  test_add_code sym (addr + 3) 0x00000078 ;;
  CodeHandler sym ;;
  let* x := p32 addr 0 in
  ret (verdict (x =? 0x78563412)).

Definition test_type_1 (sym : symbols) : M (gmap Z Z) Z :=
  let addr := 0x00400100 in
  test_clear_codes sym ;;
  set32 addr 0 0xffffffff ;;
  test_add_code sym (addr + 0x10000000) 0x00001234 ;;
  test_add_code sym (addr + 0x10000002) 0x00005678 ;;
  CodeHandler sym ;;
  let* x := p32 addr 0 in
  ret (verdict (x =? 0x56781234)).

Definition test_type_2 (sym : symbols) : M (gmap Z Z) Z :=
  let addr := 0x00400200 in
  test_clear_codes sym ;;
  set32 addr 0 0xffffffff ;;
  set32 addr 1 0xffffffff ;;
  test_add_code sym (addr + 0x20000000) 0x12345678 ;;
  test_add_code sym (addr + 0x20000004) 0x9abcdef0 ;;
  CodeHandler sym ;;
  let* x0 := p32 addr 0 in
  let* x1 := p32 addr 1 in
  ret (verdict ((x0 =? 0x12345678) && (x1 =? 0x9abcdef0))).

Definition test_type_3 (sym : symbols) : M (gmap Z Z) Z :=
  let addr := 0x00400300 in
  test_clear_codes sym ;;
  set32 addr 0 0x33333333 ;;
  set32 addr 1 0x33333333 ;;
  set32 addr 2 0x33333333 ;;
  test_add_code sym 0x30000011 addr ;;
  test_add_code sym 0x301000c6 addr ;;
  test_add_code sym 0x30208907 (addr + 4) ;;
  test_add_code sym 0x3030b2e9 (addr + 4) ;;
  test_add_code sym 0x30400000 (addr + 8) ;;
  test_add_code sym 0xb16b00b5 0x00000000 ;;
  test_add_code sym 0x30500000 (addr + 8) ;;
  test_add_code sym 0x12345678 0x00000000 ;;
  CodeHandler sym ;;
  let* x0 := p32 addr 0 in
  let* x1 := p32 addr 1 in
  let* x2 := p32 addr 2 in
  ret (verdict ((x0 =? 0x3333337e) && (x1 =? 0x33330951) && (x2 =? 0xd269dd70))).

Definition test_type_4 (sym : symbols) : M (gmap Z Z) Z :=
  let addr := 0x00400400 in
  test_clear_codes sym ;;
  memset addr (-1) 32 ;;
  test_add_code sym (addr + 0x40000000) 0x00040002 ;;
  test_add_code sym 0x80000000 0x00100000 ;;
  CodeHandler sym ;;
  let* x0 := p32 addr 0 in
  let* x2 := p32 addr 2 in
  let* x4 := p32 addr 4 in
  let* x6 := p32 addr 6 in
  ret (verdict ((x0 =? 0x80000000) && (x2 =? 0x80100000) &&
                (x4 =? 0x80200000) && (x6 =? 0x80300000))).

Definition test_type_5 (source dest : Z) (sym : symbols) : M (gmap Z Z) Z :=
  modify (fun m => store_bytes m source
            [0; 1; 2; 3; 4; 5; 6; 7; 8; 9; 0xa; 0xb; 0xc; 0xd; 0xe; 0xf]) ;;
  test_clear_codes sym ;;
  memset dest (-1) 16 ;;
  test_add_code sym (source + 0x50000000) 16 ;;
  test_add_code sym dest 0x00000000 ;;
  CodeHandler sym ;;
  let* s := gets (fun m => load_bytes m source 16) in
  let* d := gets (fun m => load_bytes m dest 16) in
  ret (verdict (bool_decide (s = d))).

Definition test_type_6 (sym : symbols) : M (gmap Z Z) Z :=
  let addr := 0x00400600 in
  test_clear_codes sym ;;
  set32 addr 0 0x00400604 ;;
  set32 addr 2 0xffffffff ;;
  set32 addr 3 0xffffffff ;;
  test_add_code sym (addr + 0x60000000) 0x00000012 ;;
  test_add_code sym 0x00000000 0x00000004 ;;
  test_add_code sym (addr + 0x60000000) 0x00001234 ;;
  test_add_code sym 0x00010000 0x00000006 ;;
  test_add_code sym (addr + 0x60000000) 0x12345678 ;;
  test_add_code sym 0x00020000 0x00000008 ;;
  CodeHandler sym ;;
  let* x2 := p32 addr 2 in
  let* x3 := p32 addr 3 in
  ret (verdict ((x2 =? 0x1234ff12) && (x3 =? 0x12345678))).

Definition test_type_7 (sym : symbols) : M (gmap Z Z) Z :=
  let addr := 0x00400700 in
  test_clear_codes sym ;;
  set32 addr 0 0x56565656 ;;
  set32 addr 1 0x56565656 ;;
  test_add_code sym (addr + 0x70000000) 0x00000078 ;;
  test_add_code sym (addr + 0x70000001) 0x00200078 ;;
  test_add_code sym (addr + 0x70000002) 0x00400078 ;;
  test_add_code sym (addr + 0x70000004) 0x00107878 ;;
  test_add_code sym (addr + 0x70000004) 0x00300f0f ;;
  test_add_code sym (addr + 0x70000004) 0x00501234 ;;
  CodeHandler sym ;;
  let* x0 := p32 addr 0 in
  let* x1 := p32 addr 1 in
  ret (verdict ((x0 =? 0x562e507e) && (x1 =? 0x56561c3a))).

Definition test_type_c (sym : symbols) : M (gmap Z Z) Z :=
  let addr := 0x00400c00 in
  test_clear_codes sym ;;
  memset addr 0xff 12 ;;
  test_add_code sym (addr + 0xc0000000) 0x12345678 ;;
  test_add_code sym (addr + 0x20000004) 0x11111111 ;;
  test_add_code sym (addr + 0x20000008) 0x22222222 ;;
  CodeHandler sym ;;
  let* x1 := p32 addr 1 in
  let* x2 := p32 addr 2 in
  if negb ((x1 =? 0xffffffff) && (x2 =? 0xffffffff)) then ret (-1)
  else
    set32 addr 0 0x12345678 ;;
    CodeHandler sym ;;
    let* x1 := p32 addr 1 in
    let* x2 := p32 addr 2 in
    ret (verdict ((x1 =? 0x11111111) && (x2 =? 0x22222222))).

(** The half words both conditional tests compare with. *)
Definition fill_cond (p : Z) : M (gmap Z Z) unit :=
  set16 p 0 0x1234 ;;
  set16 p 1 0x1235 ;;
  set16 p 2 0x1233 ;;
  set16 p 3 0x1235 ;;
  set16 p 4 0x0101 ;;
  set16 p 5 0x1006 ;;
  set16 p 6 0x0000 ;;
  set16 p 7 0x1011 ;;
  set16 p 8 0x0000.

Definition test_type_d (sym : symbols) : M (gmap Z Z) Z :=
  let addr := 0x00400d00 in
  test_clear_codes sym ;;
  fill_cond addr ;;
  test_add_code sym (addr + 0xd0000000) 0x10010034 ;;
  test_add_code sym (addr + 0xd0000002) 0x0f110034 ;;
  test_add_code sym (addr + 0xd0000004) 0x0e210034 ;;
  test_add_code sym (addr + 0xd0000006) 0x0d310034 ;;
  test_add_code sym (addr + 0xd0000008) 0x0c410034 ;;
  test_add_code sym (addr + 0xd000000a) 0x0b510034 ;;
  test_add_code sym (addr + 0xd000000c) 0x0a610000 ;;
  test_add_code sym (addr + 0xd000000e) 0x09710034 ;;
  test_add_code sym (addr + 0xd0000000) 0x08001234 ;;
  test_add_code sym (addr + 0xd0000002) 0x07101234 ;;
  test_add_code sym (addr + 0xd0000004) 0x06201234 ;;
  test_add_code sym (addr + 0xd0000006) 0x05301234 ;;
  test_add_code sym (addr + 0xd0000008) 0x04401234 ;;
  test_add_code sym (addr + 0xd000000a) 0x03501234 ;;
  test_add_code sym (addr + 0xd000000c) 0x02600000 ;;
  test_add_code sym (addr + 0xd000000e) 0x00701234 ;;
  test_add_code sym (addr + 0x10000010) 0x00001234 ;;
  CodeHandler sym ;;
  let* x8 := p16 addr 8 in
  ret (verdict (x8 =? 0x1234)).

Definition test_type_e (sym : symbols) : M (gmap Z Z) Z :=
  let addr := 0x00400e00 in
  test_clear_codes sym ;;
  fill_cond addr ;;
  test_add_code sym 0xe1100034 (addr + 0x00000000) ;;
  test_add_code sym 0xe10f0034 (addr + 0x10000002) ;;
  test_add_code sym 0xe10e0034 (addr + 0x20000004) ;;
  test_add_code sym 0xe10d0034 (addr + 0x30000006) ;;
  test_add_code sym 0xe10c0034 (addr + 0x40000008) ;;
  test_add_code sym 0xe10b0034 (addr + 0x5000000a) ;;
  test_add_code sym 0xe10a0000 (addr + 0x6000000c) ;;
  test_add_code sym 0xe1090034 (addr + 0x7000000e) ;;
  test_add_code sym 0xe0081234 (addr + 0x00000000) ;;
  test_add_code sym 0xe0071234 (addr + 0x10000002) ;;
  test_add_code sym 0xe0061234 (addr + 0x20000004) ;;
  test_add_code sym 0xe0051234 (addr + 0x30000006) ;;
  test_add_code sym 0xe0041234 (addr + 0x40000008) ;;
  test_add_code sym 0xe0031234 (addr + 0x5000000a) ;;
  test_add_code sym 0xe0020000 (addr + 0x6000000c) ;;
  test_add_code sym 0xe0011234 (addr + 0x7000000e) ;;
  test_add_code sym (addr + 0x10000010) 0x00001234 ;;
  CodeHandler sym ;;
  let* x8 := p16 addr 8 in
  ret (verdict (x8 =? 0x1234)).

(** [main] runs the tests one after the other; the verdicts are collected. *)
Definition test_main (source dest : Z) (sym : symbols) : M (gmap Z Z) (list Z) :=
  let* r0 := test_type_0 sym in
  let* r1 := test_type_1 sym in
  let* r2 := test_type_2 sym in
  let* r3 := test_type_3 sym in
  let* r4 := test_type_4 sym in
  let* r5 := test_type_5 source dest sym in
  let* r6 := test_type_6 sym in
  let* r7 := test_type_7 sym in
  let* rc := test_type_c sym in
  let* rd := test_type_d sym in
  let* re := test_type_e sym in
  ret [r0; r1; r2; r3; r4; r5; r6; r7; rc; rd; re].

(** A layout of the engine at the default load address ENGINE_ADDR. *)
Definition sample_symbols : symbols := {|
  jal_EngineHandler := 0x00080000;
  eh_backup := 0x000800f8;
  callbacks := 0x00081000;
  maxhooks := 0x00080f00;
  maxcodes := 0x00080f04;
  numhooks := 0x00081010;
  hooklist := 0x00081014;
  numcodes := 0x0008103c;
  codelist := 0x00081040;
|}.

(** An engine with three codes (a word write, a type E condition, a serial write
    over two lines) and one hook whose opcode is in place. *)
Definition sample_mem : gmap Z Z := state_or ∅
  ((sw 100 (maxcodes sample_symbols) ;;
    sw 5 (maxhooks sample_symbols) ;;
    sw 0x0c020002 (jal_EngineHandler sample_symbols) ;;
    sw 0x0c0b95f6 0x002d51f8 ;;
    EngineC.add_hook sample_symbols 0x902d51f8 0x0c0b95f6 ;;
    EngineC.add_code sample_symbols 0x20400000 0x12345678 ;;
    EngineC.add_code sample_symbols 0xe0015678 0x00400000 ;;
    EngineC.add_code sample_symbols 0x40400100 0x00040002 ;;
    EngineC.add_code sample_symbols 0x80000000 0x00100000) ∅).

(** The verdicts of a run of the driver, if it returns. *)
Definition verdicts (r : res (list Z * gmap Z Z)) : option (list Z) :=
  match r with Ok (rs, _) => Some rs | Err _ => None end.

(** Every test of the engine's own test driver returns 0, run one after the
    other from cleared memory with the engine at its default address. *)
Theorem test_main_passes :
  verdicts (test_main 0x00100000 0x00100010 sample_symbols ∅) = Some (replicate 11 0).
Proof. vm_compute. reflexivity. Qed.
