(* ===== verification/EngineSpec.v ===== *)
(** * What the code types promise (Documentation/code_types.txt) and the proof
    that the assembly of the cheat engine does it

    The specification reads the fields of a code as digits of its two words,
    gives each code type one abstract operation, and runs the code list without
    fuel, as an inductive relation. *)

From S2P Require Import Prelude Engine EngineTest.
Import Mips Asm EngineC.
Local Open Scope ps2rd_scope.

(** ** Abstract operations *)

Inductive width : Type := W8 | W16 | W32.
Inductive boolop : Type := BOr | BAnd | BXor.
Inductive cond : Type := CEq | CNe | CLt | CGt | CNand | CAnd | CNor | COr.

Inductive op : Type :=
| Nop
| Write (w : width) (a v : Z)
| AddTo (w : width) (a d lines : Z)
| Serial (a n s v i : Z)
| Copy (src dst n : Z)
| Pointer (w : width) (a off v : Z)
| BoolOp (w : width) (o : boolop) (a v : Z)
| StopUnless (a v : Z)
| SkipUnless (w : width) (c : cond) (a v n : Z).

(** A code line: its address word and its value word. *)
Definition line : Type := Z * Z.

(** [len] bits of [x] from bit [lo]. *)
Definition field (x lo len : Z) : Z := (x / 2 ^ lo) mod 2 ^ len.

Definition cond_of (t : Z) : cond :=
  match t with
  | 0 => CEq | 1 => CNe | 2 => CLt | 3 => CGt
  | 4 => CNand | 5 => CAnd | 6 => CNor | _ => COr
  end.

(** D-aaaaaaa nntwvvvv *)
Definition decode_d (a v : Z) : op :=
  let n := field v 24 8 in
  let n := if n =? 0 then 1 else n in
  if field v 16 1 =? 0
  then SkipUnless W16 (cond_of (field v 20 3)) (field a 0 25) (field v 0 16) n
  else SkipUnless W8 (cond_of (field v 20 3)) (field a 0 25) (field v 0 8) n.

(** The D line that an E line E-wnnvvvv taaaaaaa stands for. *)
Definition e_to_d (l : line) : line :=
  let '(a, v) := l in
  (0xd0000000 + field v 0 25,
   field a 16 8 * 2 ^ 24 + field v 28 4 * 2 ^ 20 + field a 24 1 * 2 ^ 16 + field a 0 16).

(** The increment codes: 3-tkvvvvv 0aaaaaaa. *)
Definition decode_3 (a v a2 : Z) : op :=
  let sgn := if field a 20 1 =? 0 then 1 else -1 in
  let addr := field v 0 25 in
  match field a 21 2 with
  | 0 => AddTo W8 addr (sgn * field a 0 16) 0
  | 2 => AddTo W32 addr (sgn * a2) 1
  | _ => AddTo W16 addr (sgn * field a 0 16) 0
  end.

Definition decode_6 (a v a2 v2 : Z) : op :=
  let w := match field a2 16 16 with 0 => W8 | 1 => W16 | _ => W32 end in
  Pointer w (field a 0 25) v2 v.

Definition decode_7 (a v : Z) : op :=
  let o := match field v 21 2 with 0 => BOr | 1 => BAnd | _ => BXor end in
  BoolOp (if field v 20 1 =? 0 then W8 else W16) o (field a 0 25) v.

(** How many bytes type 5 copies: at least one, and 2^31 for the value 2^31,
    whose decrement is positive again. *)
Definition copy_count (v : Z) : Z := 1 + Z.max 0 (s32 (v - 1)).

(** The operation of a line, given the line that follows it. *)
Definition decode (cur nxt : line) : op :=
  let '(a, v) := cur in
  let '(a2, v2) := nxt in
  if a =? 0 then Nop else
  match field a 28 4 with
  | 0 => Write W8 (field a 0 25) v
  | 1 => Write W16 (field a 0 25) v
  | 2 => Write W32 (field a 0 25) v
  | 3 => decode_3 a v a2
  | 4 => Serial (field a 0 25) (Z.max 1 (field v 16 16)) (4 * field v 0 16) a2 v2
  | 5 => Copy (field a 0 25) a2 (copy_count v)
  | 6 => decode_6 a v a2 v2
  | 7 => decode_7 a v
  | 12 => StopUnless (field a 0 25) v
  | 13 => decode_d a v
  | 14 => let '(a', v') := e_to_d cur in decode_d a' v'
  | _ => Nop
  end.

(** ** Their effect on memory *)

Definition wload (w : width) (a : Z) : M (gmap Z Z) Z :=
  match w with W8 => lbu a | W16 => lhu a | W32 => lw a end.
Definition wstore (w : width) (a v : Z) : M (gmap Z Z) unit :=
  match w with W8 => sb v a | W16 => sh v a | W32 => sw v a end.

Definition holds (c : cond) (x v : Z) : bool :=
  match c with
  | CEq => x =? v
  | CNe => negb (x =? v)
  | CLt => x <? v
  | CGt => v <? x
  | CNand => Z.land x v =? 0
  | CAnd => negb (Z.land x v =? 0)
  | CNor => Z.lor x v =? 0
  | COr => negb (Z.lor x v =? 0)
  end.

Definition apply_bool (o : boolop) (x v : Z) : Z :=
  match o with BOr => Z.lor x v | BAnd => Z.land x v | BXor => Z.lxor x v end.

(** [f k; f (k+1); ...; f (k+n-1)] *)
Fixpoint upto (k n : nat) (f : nat -> M (gmap Z Z) unit) : M (gmap Z Z) unit :=
  match n with
  | O => ret tt
  | S n' => f k ;; upto (S k) n' f
  end.

(** [Continue k]: go on after [k] further lines; [Stop]: leave the list. *)
Inductive outcome : Type := Continue (k : Z) | Stop.

Definition exec_op (o : op) : M (gmap Z Z) outcome :=
  match o with
  | Nop => ret (Continue 0)
  | Write w a v => wstore w a v ;; ret (Continue 0)
  | AddTo w a d lines =>
      let* x := wload w a in wstore w a (x + d) ;; ret (Continue lines)
  | Serial a n s v i =>
      upto 0 (Z.to_nat n) (fun k =>
        sw (u32 (v + Z.of_nat k * i)) (u32 (a + Z.of_nat k * s))) ;;
      ret (Continue 1)
  | Copy src dst n =>
      upto 0 (Z.to_nat n) (fun k =>
        let* b := lbu (u32 (src + Z.of_nat k)) in sb b (u32 (dst + Z.of_nat k))) ;;
      ret (Continue 1)
  | Pointer w a off v =>
      let* x := lw a in
      let base := 4 * field x 2 28 in
      (if base =? 0 then ret tt else wstore w (u32 (base + off)) v) ;;
      ret (Continue 1)
  | BoolOp w o a v =>
      let* x := wload w a in wstore w a (apply_bool o x v) ;; ret (Continue 0)
  | StopUnless a v =>
      let* x := lw a in ret (if x =? v then Continue 0 else Stop)
  | SkipUnless w c a v n =>
      let* x := wload w a in ret (Continue (if holds c x v then 0 else n))
  end.

(** ** Running the list *)

Definition line_addr (sym : symbols) (i : Z) : Z := u32 (codelist sym + 8 * i).

Definition fetch (sym : symbols) (m : gmap Z Z) (i : Z) : line :=
  (load32 m (line_addr sym i), load32 m (u32 (codelist sym + 8 * i + 4))).

(** An E line is replaced by its D line before it is executed. *)
Definition spec_step (sym : symbols) (i : Z) : M (gmap Z Z) outcome := fun m =>
  let cur := fetch sym m i in
  let nxt := fetch sym m (i + 1) in
  let m := if field (fst cur) 28 4 =? 14
           then let '(a', v') := e_to_d cur in
                store32 (store32 m (line_addr sym i) a') (u32 (codelist sym + 8 * i + 4)) v'
           else m in
  exec_op (decode cur nxt) m.

Inductive run (sym : symbols) (n : Z) : Z -> gmap Z Z -> res (gmap Z Z) -> Prop :=
| run_done i m : n <= i -> run sym n i m (Ok m)
| run_fault i m f :
    i < n -> spec_step sym i m = Err f -> run sym n i m (Err f)
| run_stop i m m' :
    i < n -> spec_step sym i m = Ok (Stop, m') -> run sym n i m (Ok m')
| run_next i m k m' r :
    i < n -> spec_step sym i m = Ok (Continue k, m') ->
    run sym n (i + 1 + k) m' r -> run sym n i m r.

(** The code table lies word-aligned inside the 32-bit address space. *)
Definition table_ok (sym : symbols) (m : gmap Z Z) : Prop :=
  numcodes sym mod 4 = 0 /\ codelist sym mod 4 = 0 /\ 0 <= codelist sym /\
  codelist sym + 8 * load32 m (numcodes sym) <= 2 ^ 32.

(** ** Bit fields as the assembly computes them *)

Create Rewrite HintDb bits.

Lemma field_range x lo len : 0 <= len -> 0 <= field x lo len < 2 ^ len.
Proof. intros. apply Z.mod_pos_bound. apply Z.pow_pos_nonneg; lia. Qed.

Lemma srl_sll_7 x : srl (sll x 7) 7 = field x 0 25.
Proof.
  unfold srl, sll, field. rewrite Z.shiftr_div_pow2, Z.shiftl_mul_pow2 by lia.
  change (2 ^ 0) with 1. zlia.
Qed.
Lemma srl_div x n : 0 <= n -> srl x n = x / 2 ^ n.
Proof. intros. by apply Z.shiftr_div_pow2. Qed.
Lemma srl_field x n : is_u32 x -> 0 <= n <= 32 -> srl x n = field x n (32 - n).
Proof.
  intros Hx Hn. rewrite srl_div by lia. unfold field.
  rewrite Z.mod_small; [done|]. unfold is_u32 in Hx.
  split; [apply Z.div_pos; lia|]. apply Z.div_lt_upper_bound; [lia|].
  rewrite <- Z.pow_add_r by lia. replace (n + (32 - n)) with 32 by lia. lia.
Qed.
Lemma land_ffff x : Z.land x 0xffff = field x 0 16.
Proof. change 0xffff with (Z.ones 16). rewrite Z.land_ones by lia.
  unfold field. by rewrite Z.div_1_r. Qed.
Lemma land_ff x : Z.land x 0xff = field x 0 8.
Proof. change 0xff with (Z.ones 8). rewrite Z.land_ones by lia.
  unfold field. by rewrite Z.div_1_r. Qed.
Lemma land_7 x : Z.land x 7 = x mod 8.
Proof. change 7 with (Z.ones 3). by rewrite Z.land_ones by lia. Qed.
Lemma land_6 x : Z.land x 6 = 2 * ((x / 2) mod 4).
Proof.
  replace (Z.land x 6) with (Z.land (x mod 8) 6).
  2:{ rewrite <- land_7, <- Z.land_assoc. done. }
  assert (Hr : 0 <= x mod 8 < 8) by (apply Z.mod_pos_bound; lia).
  assert (E : (x / 2) mod 4 = (x mod 8) / 2) by zlia. rewrite E.
  remember (x mod 8) as y eqn:Hy; clear Hy E.
  assert (y = 0 \/ y = 1 \/ y = 2 \/ y = 3 \/ y = 4 \/ y = 5 \/ y = 6 \/ y = 7)
    as Hc by lia.
  destruct Hc as [->|[->|[->|[->|[->|[->|[->| ->]]]]]]]; reflexivity.
Qed.
Lemma land_base x : is_u32 x -> Z.land x 0x3ffffffc = 4 * field x 2 28.
Proof.
  intros _. unfold field. rewrite <- Z.shiftr_div_pow2, <- Z.land_ones by lia.
  rewrite Z.mul_comm. change 4 with (2 ^ 2) at 1. rewrite <- Z.shiftl_mul_pow2 by lia.
  rewrite Z.shiftl_land. change (Z.shiftl (Z.ones 28) 2) with 0x3ffffffc.
  apply Z.bits_inj'; intros n Hn. rewrite !Z.land_spec.
  destruct (decide (n < 2)) as [Hl|Hl].
  - assert (n = 0 \/ n = 1) as [-> | ->] by lia; by rewrite !andb_false_r.
  - rewrite Z.shiftl_spec, Z.shiftr_spec by lia. do 2 f_equal. lia.
Qed.

Lemma fetch_u32 sym m i : is_u32 (fst (fetch sym m i)) /\ is_u32 (snd (fetch sym m i)).
Proof. split; apply load32_range. Qed.

(** ** Each handler against its operation *)

(** A handler's continuation for an outcome of the specification. *)
Definition embed (t4 : Z) (r : res (outcome * gmap Z Z)) : res (cont * gmap Z Z) :=
  match r with
  | Ok (Continue k, m) => Ok (Next (u32 (t4 + k)), m)
  | Ok (Stop, m) => Ok (ChRet, m)
  | Err f => Err f
  end.

Lemma store8_mod m a v w : u8 v = u8 w -> store8 m a v = store8 m a w.
Proof. unfold store8. by intros ->. Qed.
Lemma store16_mod m a v w : u16 v = u16 w -> store16 m a v = store16 m a w.
Proof.
  intros H. unfold store16. rewrite (store8_mod m a v w) by zlia.
  apply store8_mod. zlia.
Qed.
Lemma store32_mod m a v w : u32 v = u32 w -> store32 m a v = store32 m a w.
Proof.
  intros H. unfold store32. rewrite (store16_mod m a v w) by zlia.
  apply store16_mod. zlia.
Qed.

Lemma wstore_mod w a v v' m : u32 v = u32 v' -> wstore w a v m = wstore w a v' m.
Proof.
  intros H. destruct w; simpl; unfold sb, sh, sw.
  - rewrite (store8_mod m a v v'); [done|]. zlia.
  - rewrite (store16_mod m a v v'); [done|]. zlia.
  - by rewrite (store32_mod m a v v').
Qed.

(** Finish a handler proof: both sides are the same access, case by case. *)
Ltac access :=
  unfold bind, ret, wload, wstore, lbu, lb, lhu, lw, sb, sh, sw, embed in *;
  repeat (case_match; simplify_eq/=; try done).

Lemma embed_k t4 k : is_u32 t4 -> 0 <= k -> addu t4 k = u32 (t4 + k).
Proof. done. Qed.

Lemma next_0 t4 : is_u32 t4 -> u32 (t4 + 0) = t4.
Proof. intros. zlia. Qed.

Lemma write_spec w (h : handler) t2 t4 a v m :
  is_u32 t4 -> (forall m, h t2 t4 a v m = bind (wstore w a v) (fun _ => ret (Next t4)) m) ->
  h t2 t4 a v m = embed t4 (exec_op (Write w a v) m).
Proof.
  intros Ht Hh. rewrite Hh. simpl. unfold bind, ret.
  destruct (wstore w a v m) as [[[] m']|f]; simpl; [|done]. by rewrite next_0.
Qed.

Lemma type_7_spec t2 t4 a v m :
  is_u32 t4 -> is_u32 v ->
  type_7 t2 t4 (field a 0 25) v m = embed t4 (exec_op (decode_7 a v) m).
Proof.
  intros Ht Hv. unfold type_7, decode_7.
  rewrite land_1, land_6, srl_div by lia.
  assert (E1 : (v / 2 ^ 20) mod 2 = field v 20 1) by done. rewrite E1.
  assert (E2 : (v / 2 ^ 20 / 2) mod 4 = field v 21 2) by (unfold field; zlia).
  rewrite E2. pose proof (field_range v 20 1). pose proof (field_range v 21 2).
  generalize dependent (field v 20 1). generalize dependent (field v 21 2).
  intros y _ Hy x _ Hx. generalize (field a 0 25). intros b. clear - Ht Hx Hy.
  assert (y = 0 \/ y = 1 \/ y = 2 \/ y = 3) as Hyc by lia.
  assert (x = 0 \/ x = 1) as Hxc by lia.
  destruct Hxc as [-> | ->], Hyc as [->|[->|[->| ->]]]; simpl; access;
    rewrite next_0; done.
Qed.

Lemma type_c_spec t2 t4 a v m :
  is_u32 t4 -> type_c t2 t4 a v m = embed t4 (exec_op (StopUnless a v) m).
Proof.
  intros Ht. unfold type_c. simpl. unfold bind, ret, lw.
  destruct (a mod 4 =? 0); simpl; [|done].
  destruct (load32 m a =? v); simpl; [by rewrite next_0|done].
Qed.

Lemma type_d_spec t2 t4 a v m :
  is_u32 t4 -> is_u32 v ->
  type_d t2 t4 (field a 0 25) v m = embed t4 (exec_op (decode_d a v) m).
Proof.
  intros Ht Hv. unfold type_d, decode_d.
  rewrite land_1, land_7, land_ff, land_ffff, !srl_div by lia.
  assert (E1 : v / 2 ^ 24 = field v 24 8) by (unfold field; zlia). rewrite E1.
  change ((v / 2 ^ 16) mod 2) with (field v 16 1).
  change ((v / 2 ^ 20) mod 8) with (field v 20 3).
  pose proof (field_range v 20 3). generalize dependent (field v 20 3). intros t Hr.
  pose proof (field_range v 0 16). pose proof (field_range v 0 8).
  generalize dependent (field v 0 8). intros v8 Hv8.
  generalize dependent (field v 0 16). intros v16 Hv16.
  set (n := if field v 24 8 =? 0 then 1 else field v 24 8).
  generalize (field a 0 25) n. intros b k. clear - Ht Hr Hv8 Hv16.
  assert (t = 0 \/ t = 1 \/ t = 2 \/ t = 3 \/ t = 4 \/ t = 5 \/ t = 6 \/ t = 7) as Hc by lia.
  assert (Hsub : forall x y, 0 <= x < 65536 -> 0 <= y < 65536 ->
            (subu x y =? 0) = (x =? y)).
  { intros x y Hx Hy. unfold subu. destruct (Z.eqb_spec x y); [subst|];
      [rewrite Z.sub_diag; done|]. apply Z.eqb_neq. zlia. }
  pose proof (load8_range m b) as Hb8. pose proof (load16_range m b) as Hb16.
  unfold sltu.
  destruct (field v 16 1 =? 0); simpl; unfold bind, lhu, lbu, ret;
    [destruct (b mod 2 =? 0); [|done]|].
  all: destruct Hc as [->|[->|[->|[->|[->|[->|[->| ->]]]]]]]; simpl;
    rewrite ?Hsub by lia;
    match goal with
    | |- context [(_ =? _)] => idtac
    | |- context [(_ <? _)] => idtac
    end; repeat case_match; simplify_eq/=; try done; by rewrite next_0.
Qed.

Lemma e_fields a v :
  is_u32 v -> 0 <= a < 2 ^ 25 ->
  Z.lor (Z.lor (Z.lor (field a 0 16) (sll (srl v 28) 20)) (sll (srl a 24) 16))
    (sll (srl a 16) 24) = snd (e_to_d (a, v)).
Proof.
  intros Hv Ha. unfold e_to_d. simpl snd.
  assert (E1 : sll (srl v 28) 20 = field v 28 4 * 2 ^ 20).
  { unfold sll. rewrite srl_div, Z.shiftl_mul_pow2 by lia. unfold field. zlia. }
  assert (E2 : sll (srl a 24) 16 = field a 24 1 * 2 ^ 16).
  { unfold sll. rewrite srl_div, Z.shiftl_mul_pow2 by lia. unfold field. zlia. }
  assert (E3 : sll (srl a 16) 24 = field a 16 8 * 2 ^ 24).
  { unfold sll. rewrite srl_div, Z.shiftl_mul_pow2 by lia. unfold field. zlia. }
  rewrite E1, E2, E3.
  pose proof (field_range v 28 4). pose proof (field_range a 24 1).
  pose proof (field_range a 0 16).
  rewrite <- (Z.lor_assoc (field a 0 16)), (Z.lor_comm (field v 28 4 * _)), Z.lor_assoc.
  rewrite (lor_shift_add (field a 0 16)) by lia.
  rewrite (lor_shift_add _ (field v 28 4)) by lia.
  rewrite lor_shift_add by lia. lia.
Qed.

(** The two loops. *)
Lemma bgtz_pred c : bgtz (addu c (-1)) = (0 <? s32 (c - 1)).
Proof. unfold bgtz, addu. by rewrite s32_u32. Qed.

Lemma type_4_loop_spec n k c a0 s a2 v2 m :
  n = cycles c ->
  type_4_loop n (u32 (a0 + Z.of_nat k * s)) s (u32 (a2 + Z.of_nat k * v2)) v2 c m =
    upto k n (fun k => sw (u32 (a2 + Z.of_nat k * v2)) (u32 (a0 + Z.of_nat k * s))) m.
Proof.
  revert k c m. induction n as [|n IH]; intros k c m Hn; [done|].
  simpl. unfold bind. destruct (sw _ _ m) as [[[] m']|f]; [|done].
  injection Hn as Hn. rewrite bgtz_pred.
  unfold addu in Hn. rewrite s32_u32 in Hn. change (c + -1) with (c - 1) in Hn.
  destruct (Z.ltb_spec 0 (s32 (c - 1))) as [Hp|Hp].
  - unfold addu. rewrite !u32_add_l.
    replace (a0 + Z.of_nat k * s + s) with (a0 + Z.of_nat (S k) * s) by lia.
    replace (a2 + Z.of_nat k * v2 + v2) with (a2 + Z.of_nat (S k) * v2) by lia.
    apply IH. unfold cycles, addu. rewrite Hn. zlia.
  - replace n with 0%nat by lia. done.
Qed.

Lemma type_5_loop_spec n k c a0 a2 m :
  n = cycles c ->
  type_5_loop n (u32 (a0 + Z.of_nat k)) c (u32 (a2 + Z.of_nat k)) m =
    upto k n (fun k => let* b := lbu (u32 (a0 + Z.of_nat k)) in
                       sb b (u32 (a2 + Z.of_nat k))) m.
Proof.
  revert k c m. induction n as [|n IH]; intros k c m Hn; [done|].
  simpl. unfold bind, lb, lbu, sb.
  rewrite (store8_mod m _ (u32 (s8 (load8 m (u32 (a0 + Z.of_nat k)))))
             (load8 m (u32 (a0 + Z.of_nat k)))) by zlia.
  injection Hn as Hn. rewrite bgtz_pred.
  unfold addu in Hn. rewrite s32_u32 in Hn. change (c + -1) with (c - 1) in Hn.
  destruct (Z.ltb_spec 0 (s32 (c - 1))) as [Hp|Hp].
  - unfold addu. rewrite !u32_add_l.
    replace (a0 + Z.of_nat k + 1) with (a0 + Z.of_nat (S k)) by lia.
    replace (a2 + Z.of_nat k + 1) with (a2 + Z.of_nat (S k)) by lia.
    apply IH. unfold cycles, addu. rewrite Hn. zlia.
  - replace n with 0%nat by lia. done.
Qed.

(** Facts about the current line that the two-line handlers use. *)
Section TwoLines.
Context (sym : symbols) (i : Z).
Context (Hal : codelist sym mod 4 = 0).

Lemma line_addr_mod : line_addr sym i mod 4 = 0.
Proof using Hal. unfold line_addr. zlia. Qed.

Lemma line_addr_val : addu (line_addr sym i) 4 = u32 (codelist sym + 8 * i + 4).
Proof using. unfold addu, line_addr. by rewrite u32_add_l. Qed.
Lemma line_addr_next : addu (line_addr sym i) 8 = line_addr sym (i + 1).
Proof using. unfold addu, line_addr. rewrite u32_add_l. f_equal. lia. Qed.
Lemma line_addr_next_val :
  addu (line_addr sym i) 12 = u32 (codelist sym + 8 * (i + 1) + 4).
Proof using. unfold addu, line_addr. rewrite u32_add_l. f_equal. lia. Qed.
Lemma line_addr_next_hi : addu (line_addr sym i) 10 = line_addr sym (i + 1) + 2.
Proof using Hal.
  unfold addu, line_addr. zlia.
Qed.

Lemma lw_line_val m : lw (addu (line_addr sym i) 4) m = Ok (snd (fetch sym m i), m).
Proof using Hal.
  rewrite line_addr_val. unfold lw.
  replace (_ mod 4 =? 0) with true; [done|]. symmetry. apply Z.eqb_eq. zlia.
Qed.
Lemma lw_next m : lw (addu (line_addr sym i) 8) m = Ok (fst (fetch sym m (i + 1)), m).
Proof using Hal.
  rewrite line_addr_next. unfold lw, line_addr.
  replace (_ mod 4 =? 0) with true; [done|]. symmetry. apply Z.eqb_eq. zlia.
Qed.
Lemma lw_next_val m : lw (addu (line_addr sym i) 12) m = Ok (snd (fetch sym m (i + 1)), m).
Proof using Hal.
  rewrite line_addr_next_val. unfold lw.
  replace (_ mod 4 =? 0) with true; [done|]. symmetry. apply Z.eqb_eq. zlia.
Qed.
Lemma lhu_next_hi m :
  lhu (addu (line_addr sym i) 10) m = Ok (field (fst (fetch sym m (i + 1))) 16 16, m).
Proof using Hal.
  rewrite line_addr_next_hi. unfold lhu.
  replace (_ mod 2 =? 0) with true; [|symmetry; apply Z.eqb_eq; unfold line_addr; zlia].
  do 2 f_equal. simpl. unfold field, load32.
  pose proof (load16_range m (line_addr sym (i + 1))).
  pose proof (load16_range m (line_addr sym (i + 1) + 2)). zlia.
Qed.

Lemma type_3_spec t4 a v m :
  is_u32 t4 -> is_u32 v ->
  type_3 (line_addr sym i) t4 (field a 0 25) v m =
    embed t4 (exec_op (decode_3 a v (fst (fetch sym m (i + 1)))) m).
Proof using Hal.
  intros Ht Hv. unfold type_3, decode_3.
  rewrite srl_sll_7, land_1, land_6, land_ffff, !srl_div by lia.
  assert (E1 : (field a 0 25 / 2 ^ 20) mod 2 = field a 20 1) by (unfold field; zlia).
  assert (E2 : (field a 0 25 / 2 ^ 20 / 2) mod 4 = field a 21 2) by (unfold field; zlia).
  assert (E3 : field (field a 0 25) 0 16 = field a 0 16) by (unfold field; zlia).
  rewrite E1, E2, E3.
  pose proof (field_range a 20 1). pose proof (field_range a 21 2).
  generalize dependent (field a 20 1). intros x _ Hx.
  generalize dependent (field a 21 2). intros y _ Hy.
  generalize (field a 0 16). intros d. generalize (field v 0 25). intros b.
  assert (x = 0 \/ x = 1) as Hxc by lia.
  assert (y = 0 \/ y = 1 \/ y = 2 \/ y = 3) as Hyc by lia. clear - Ht Hxc Hyc Hal.
  assert (Hnz : forall z, z <> 0 -> (z =? 0) = false) by (intros; by apply Z.eqb_neq).
  destruct Hyc as [->|[->|[->| ->]]].
  1, 2, 4: destruct Hxc as [-> | ->]; cbn -[addu subu u32 Z.mul wstore];
    unfold bind, ret, lbu, lhu, wstore, sb, sh; repeat case_match; simplify_eq/=; try done;
    rewrite next_0 by done; do 2 f_equal;
    (apply store8_mod || apply store16_mod); unfold addu, subu; zlia.
  change (Z.land (2 * 2) 2) with 0. change (2 * 2) with 4.
  cbn -[addu subu u32 Z.mul wstore lw].
  unfold bind at 1 2. unfold bind at 4.
  destruct (b mod 4 =? 0) eqn:Eb; [|by unfold lw; rewrite Eb].
  assert (El : lw b m = Ok (load32 m b, m)) by (unfold lw; by rewrite Eb).
  rewrite El. unfold bind at 1. rewrite lw_next.
  unfold bind, ret, wstore, sw, embed. rewrite El, Eb. do 2 f_equal. apply store32_mod.
  destruct Hxc as [-> | ->]; simpl; unfold addu, subu; zlia.
Qed.

Lemma type_6_spec t4 a v m :
  is_u32 t4 -> is_u32 v ->
  type_6 (line_addr sym i) t4 (field a 0 25) v m =
    embed t4 (exec_op (decode_6 a v (fst (fetch sym m (i + 1)))
                                    (snd (fetch sym m (i + 1)))) m).
Proof using Hal.
  intros Ht Hv. unfold type_6, decode_6. generalize (field a 0 25). intros b.
  set (a2 := fst (fetch sym m (i + 1))). set (v2 := snd (fetch sym m (i + 1))).
  simpl exec_op.
  destruct (b mod 4 =? 0) eqn:Eb; [|by unfold bind, lw; rewrite Eb].
  assert (El : lw b m = Ok (load32 m b, m)) by (unfold lw; by rewrite Eb).
  rewrite !(bind_ok _ _ _ _ _ El), land_base by apply load32_range.
  rewrite (bind_ok _ _ _ _ _ (lhu_next_hi m)). fold a2.
  pose proof (field_range a2 16 16) as Hf. generalize dependent (field a2 16 16).
  intros k Hk.
  destruct (4 * field (load32 m b) 2 28 =? 0); [done|].
  unfold bind at 1. rewrite (bind_ok _ _ _ _ _ (lw_next_val m)). fold v2.
  destruct (decide (k = 0)) as [->|]; [done|].
  destruct (decide (k = 1)) as [->|].
  - change (addu 1 (-1)) with 0. simpl. unfold bind, ret, wstore, sh, addu. by destruct (u32 _ mod 2 =? 0).
  - replace (k =? 0) with false by (symmetry; apply Z.eqb_neq; lia).
    replace (addu k (-1) =? 0) with false
      by (symmetry; apply Z.eqb_neq; unfold addu; zlia).
    assert (Ew : match k with 0 => W8 | 1 => W16 | _ => W32 end = W32).
    { destruct k as [|[]|]; try done; lia. }
    rewrite Ew. unfold bind, ret, wstore, sw, addu. by destruct (u32 _ mod 4 =? 0).
Qed.

Lemma type_4_spec t4 a v m :
  is_u32 t4 -> is_u32 v ->
  type_4 (line_addr sym i) t4 (field a 0 25) v m =
    embed t4 (exec_op (Serial (field a 0 25) (Z.max 1 (field v 16 16)) (4 * field v 0 16)
                        (fst (fetch sym m (i + 1))) (snd (fetch sym m (i + 1)))) m).
Proof using Hal.
  intros Ht Hv. unfold type_4. unfold bind at 1. rewrite lw_next.
  unfold bind at 1. rewrite lw_next_val.
  rewrite land_ffff, srl_field by (done || lia). simpl exec_op.
  assert (Es : sll (field v 0 16) 2 = 4 * field v 0 16).
  { unfold sll. rewrite Z.shiftl_mul_pow2 by lia. pose proof (field_range v 0 16). zlia. }
  rewrite Es. change (32 - 16) with 16. unfold bind.
  pose proof (type_4_loop_spec (cycles (field v 16 16)) 0 (field v 16 16)
    (field a 0 25) (4 * field v 0 16) (fst (fetch sym m (i + 1)))
    (snd (fetch sym m (i + 1))) m eq_refl) as Hl.
  destruct (fetch_u32 sym m (i + 1)) as [Hf1 Hf2].
  change (Z.of_nat 0 * _) with 0 in Hl. rewrite !Z.add_0_r in Hl.
  rewrite !u32_id in Hl by (done || (pose proof (field_range a 0 25); lia)).
  replace (cycles (field v 16 16)) with (Z.to_nat (Z.max 1 (field v 16 16))) in *.
  2:{ pose proof (field_range v 16 16). unfold cycles, addu. zlia. }
  rewrite Hl. by destruct (upto _ _ _ m) as [[[] m']|f].
Qed.

Lemma type_5_spec t4 a v m :
  is_u32 t4 -> is_u32 v ->
  type_5 (line_addr sym i) t4 (field a 0 25) v m =
    embed t4 (exec_op (Copy (field a 0 25) (fst (fetch sym m (i + 1))) (copy_count v)) m).
Proof using Hal.
  intros Ht Hv. unfold type_5. unfold bind at 1. rewrite lw_next. simpl exec_op. unfold bind.
  pose proof (type_5_loop_spec (cycles v) 0 v (field a 0 25)
    (fst (fetch sym m (i + 1))) m eq_refl) as Hl.
  destruct (fetch_u32 sym m (i + 1)) as [Hf1 Hf2].
  change (Z.of_nat 0) with 0 in Hl. rewrite !Z.add_0_r in Hl.
  rewrite !u32_id in Hl by (done || (pose proof (field_range a 0 25); lia)).
  replace (cycles v) with (Z.to_nat (copy_count v)) in *
    by (unfold copy_count, cycles, addu; zlia).
  rewrite Hl. by destruct (upto _ _ _ m) as [[[] m']|f].
Qed.

End TwoLines.

(** ** One step and the whole list *)

Lemma type_e_spec sym i t4 m a v nxt :
  codelist sym mod 4 = 0 -> is_u32 t4 -> fetch sym m i = (a, v) -> field a 28 4 = 14 ->
  type_e (line_addr sym i) t4 (field a 0 25) v m =
    embed t4 (exec_op (decode (a, v) nxt)
      (store32 (store32 m (line_addr sym i) (fst (e_to_d (a, v))))
         (u32 (codelist sym + 8 * i + 4)) (snd (e_to_d (a, v))))).
Proof.
  intros Hal Ht Hf H14. destruct (fetch_u32 sym m i) as [Ha Hv]. rewrite Hf in Ha, Hv.
  simpl in Ha, Hv. unfold type_e. rewrite srl_sll_7, land_ffff.
  rewrite (e_fields (field a 0 25) v) by (done || apply field_range; lia).
  assert (E1 : Z.lor 0xd0000000 (field v 0 25) = fst (e_to_d (a, v))).
  { simpl. rewrite Z.lor_comm. pose proof (field_range v 0 25).
    change 0xd0000000 with (0x68 * 2 ^ 25). rewrite lor_shift_add by lia. lia. }
  assert (E2 : snd (e_to_d (field a 0 25, v)) = snd (e_to_d (a, v))).
  { simpl. unfold field. zlia. }
  rewrite E1, E2.
  assert (S1 : forall x m, sw x (line_addr sym i) m = Ok (tt, store32 m (line_addr sym i) x)).
  { intros x m'. unfold sw, line_addr.
    replace (_ mod 4 =? 0) with true; [done|]. symmetry. apply Z.eqb_eq. zlia. }
  assert (S2 : forall x m, sw x (addu (line_addr sym i) 4) m =
                 Ok (tt, store32 m (u32 (codelist sym + 8 * i + 4)) x)).
  { intros x m'. rewrite line_addr_val. unfold sw.
    replace (_ mod 4 =? 0) with true; [done|]. symmetry. apply Z.eqb_eq. zlia. }
  rewrite (bind_ok _ _ _ _ _ (S1 _ _)), (bind_ok _ _ _ _ _ (S2 _ _)).
  assert (Hd : decode (a, v) nxt = decode_d (fst (e_to_d (a, v))) (snd (e_to_d (a, v)))).
  { unfold decode. destruct nxt as [a2 v2]. rewrite H14.
    replace (a =? 0) with false; [done|]. symmetry. apply Z.eqb_neq. intros ->. done. }
  rewrite Hd. rewrite <- (type_d_spec (line_addr sym i)); [|done|].
  - f_equal. simpl. unfold field. zlia.
  - simpl. pose proof (field_range a 16 8). pose proof (field_range v 28 4).
    pose proof (field_range a 24 1). pose proof (field_range a 0 16). unfold is_u32. lia.
Qed.

Lemma ch_body_spec sym i m :
  codelist sym mod 4 = 0 -> is_u32 i ->
  ch_body sym i m = embed i (spec_step sym i m).
Proof.
  intros Hal Hi. unfold ch_body, spec_step.
  assert (Et2 : addu (codelist sym) (sll i 3) = line_addr sym i).
  { unfold addu, sll, line_addr. rewrite Z.shiftl_mul_pow2, u32_add_r by lia.
    f_equal. lia. }
  rewrite Et2.
  assert (E0 : lw (line_addr sym i) m = Ok (fst (fetch sym m i), m)).
  { unfold lw. rewrite line_addr_mod by done. done. }
  rewrite (bind_ok _ _ _ _ _ E0).
  destruct (fetch_u32 sym m i) as [Ha Hv].
  destruct (fetch sym m i) as [a v] eqn:Ef. cbn [fst snd] in *.
  destruct (Z.eqb_spec a 0) as [->|Hz].
  { change (field 0 28 4) with 0. simpl. destruct (fetch sym m (i + 1)); simpl.
    by rewrite next_0. }
  rewrite srl_sll_7, srl_field by (done || lia). change (32 - 28) with 4.
  pose proof (field_range a 28 4 ltac:(lia)) as Hr.
  pose proof (lw_line_val sym i Hal m) as E4. rewrite Ef in E4. simpl in E4.
  assert (Hdec : forall h : handler, bind (lw (addu (line_addr sym i) 4))
            (fun a1 => h (line_addr sym i) i (field a 0 25) a1) m =
            h (line_addr sym i) i (field a 0 25) v m).
  { intros h. by rewrite (bind_ok _ _ _ _ _ E4). }
  pose proof (type_e_spec sym i i m a v (fetch sym m (i + 1)) Hal Hi Ef) as He.
  pose proof (type_3_spec sym i Hal i a v m Hi Hv) as H3.
  pose proof (type_4_spec sym i Hal i a v m Hi Hv) as H4.
  pose proof (type_5_spec sym i Hal i a v m Hi Hv) as H5.
  pose proof (type_6_spec sym i Hal i a v m Hi Hv) as H6.
  destruct (fetch sym m (i + 1)) as [a2 v2]. cbn [fst snd] in *.
  unfold decode in *. replace (a =? 0) with false in * by (symmetry; by apply Z.eqb_neq).
  generalize dependent (field a 28 4). intros t Ht He.
  assert (t = 0 \/ t = 1 \/ t = 2 \/ t = 3 \/ t = 4 \/ t = 5 \/ t = 6 \/ t = 7 \/
          t = 12 \/ t = 13 \/ t = 14 \/ (t = 8 \/ t = 9 \/ t = 10 \/ t = 11 \/ t = 15))
    as Hc by lia.
  destruct Hc as [->|[->|[->|[->|[->|[->|[->|[->|[->|[->|[->|Hc]]]]]]]]]]];
    cbn [type_tab Z.eqb Pos.eqb]; rewrite ?Hdec; auto using type_7_spec, type_c_spec, type_d_spec.
  - by apply (write_spec W8 type_0).
  - by apply (write_spec W16 type_1).
  - by apply (write_spec W32 type_2).
  - destruct Hc as [->|[->|[->|[->| ->]]]]; simpl; by rewrite next_0.
Qed.

(** How far one step can go. *)
Lemma decode_d_continue a v m k m' :
  exec_op (decode_d a v) m = Ok (Continue k, m') -> 0 <= k <= 255.
Proof.
  pose proof (field_range v 24 8 ltac:(lia)) as Hn.
  unfold decode_d. destruct (field v 16 1 =? 0); simpl; intros H;
    apply bind_inv in H as (x & m1 & _ & H); injection H as <- <-;
    destruct (holds _ _ _); try lia; destruct (Z.eqb_spec (field v 24 8) 0); lia.
Qed.

Lemma exec_op_continue cur nxt m k m' :
  exec_op (decode cur nxt) m = Ok (Continue k, m') -> 0 <= k <= 255.
Proof.
  destruct cur as [a v], nxt as [a2 v2]. unfold decode.
  destruct (a =? 0); [by intros [= <- <-]|].
  assert (Hb : forall (A : Type) (c : M (gmap Z Z) A) k' m1,
            (forall x s, k' x s = Ok (Continue 0, s) \/ k' x s = Ok (Continue 1, s) \/
                         k' x s = Ok (Stop, s)) ->
            bind c k' m1 = Ok (Continue k, m') -> 0 <= k <= 255).
  { intros A c k' m1 Hk H. apply bind_inv in H as (x & s & _ & H).
    destruct (Hk x s) as [E|[E|E]]; rewrite E in H; simplify_eq; lia. }
  pose proof (field_range a 28 4 ltac:(lia)) as Hr.
  generalize dependent (field a 28 4). intros t Hr.
  assert (t = 0 \/ t = 1 \/ t = 2 \/ t = 3 \/ t = 4 \/ t = 5 \/ t = 6 \/ t = 7 \/
          t = 12 \/ t = 13 \/ t = 14 \/ (t = 8 \/ t = 9 \/ t = 10 \/ t = 11 \/ t = 15))
    as Hc by lia.
  destruct Hc as [->|[->|[->|[->|[->|[->|[->|[->|[->|[->|[->|Hc]]]]]]]]]]].
  all: try (simpl; apply Hb; by auto).
  all: try apply decode_d_continue.
  - unfold decode_3.
    destruct (field a 21 2) as [|[|[]|]|]; simpl; intros H;
      apply bind_inv in H as (x & s & _ & H); revert H; apply Hb; auto.
  - simpl. intros H. apply bind_inv in H as (x & s & _ & H). revert H. apply Hb; auto.
  - simpl. intros H. apply bind_inv in H as (x & s & _ & H). revert H. apply Hb; auto.
  - simpl. apply Hb. intros x s. destruct (x =? v); auto.
  - destruct Hc as [->|[->|[->|[->| ->]]]]; by intros [= <- <-].
Qed.

Lemma spec_step_continue sym i m k m' :
  spec_step sym i m = Ok (Continue k, m') -> 0 <= k <= 255.
Proof. unfold spec_step. apply exec_op_continue. Qed.

Lemma ch_loop_run sym n fuel i m :
  codelist sym mod 4 = 0 -> 0 <= i < n -> n <= 2 ^ 29 -> n - i <= Z.of_nat fuel ->
  run sym n i m (exec (ch_loop fuel sym n i) m).
Proof.
  intros Hal Hi Hn. revert i m Hi. induction fuel as [|fuel IH]; intros i m Hi Hf; [lia|].
  unfold exec. simpl. unfold bind. rewrite ch_body_spec by (done || unfold is_u32; lia).
  destruct (spec_step sym i m) as [[[k|] m']|f] eqn:Es; simpl.
  - pose proof (spec_step_continue _ _ _ _ _ Es) as Hk.
    eapply run_next; [lia|done|]. unfold addu. rewrite u32_add_l, u32_id by lia.
    replace (i + k + 1) with (i + 1 + k) by lia. unfold sltu.
    destruct (Z.ltb_spec (i + 1 + k) n); simpl; [apply IH; lia|]. apply run_done. lia.
  - eapply run_stop; [lia|done].
  - eapply run_fault; [lia|done].
Qed.

Lemma run_deterministic sym n i m r1 :
  run sym n i m r1 -> forall r2, run sym n i m r2 -> r1 = r2.
Proof.
  induction 1 as [| | |i m k m' r1 Hi Hs Hr IH]; intros r2 H2; inv H2; try lia; try congruence.
  match goal with H : spec_step _ _ _ = Ok (Continue _, _) |- _ =>
    rewrite Hs in H; injection H as <- <- end. auto.
Qed.

Lemma lw_ok a m : a mod 4 = 0 -> lw a m = Ok (load32 m a, m).
Proof. intros H. unfold lw. by rewrite H. Qed.
Lemma sw_ok v a m : a mod 4 = 0 -> sw v a m = Ok (tt, store32 m a v).
Proof. intros H. unfold sw. by rewrite H. Qed.

Lemma CodeHandler_run sym m :
  table_ok sym m -> run sym (load32 m (numcodes sym)) 0 m (exec (CodeHandler sym) m).
Proof.
  intros (Hn & Hal & H0 & Hfit). pose proof (load32_range m (numcodes sym)) as Hr.
  unfold exec, CodeHandler. rewrite (bind_ok _ _ _ _ _ (lw_ok _ _ Hn)).
  destruct (Z.eqb_spec (load32 m (numcodes sym)) 0) as [->|Hz].
  - apply run_done. lia.
  - apply (ch_loop_run sym (load32 m (numcodes sym))); try done; lia.
Qed.



(** The faults of the abstract operations. *)
Definition bus_fault {A} (r : res A) : Prop :=
  match r with Ok _ => True | Err f => exists a, f = Misaligned a end.

Lemma bus_fault_bind {A B} (c : M (gmap Z Z) A) (k : A -> M (gmap Z Z) B) m :
  bus_fault (c m) -> (forall x m', bus_fault (k x m')) -> bus_fault (bind c k m).
Proof. intros Hc Hk. unfold bind. by destruct (c m) as [[x m']|f]. Qed.

Lemma bus_fault_lw a m : bus_fault (lw a m).
Proof. unfold lw. case_match; simpl; eauto. Qed.
Lemma bus_fault_sw v a m : bus_fault (sw v a m).
Proof. unfold sw. case_match; simpl; eauto. Qed.
Lemma bus_fault_wload w a m : bus_fault (wload w a m).
Proof. destruct w; simpl; [done|..]; unfold lhu, lw; case_match; simpl; eauto. Qed.
Lemma bus_fault_wstore w a v m : bus_fault (wstore w a v m).
Proof. destruct w; simpl; [done|..]; unfold sh, sw; case_match; simpl; eauto. Qed.
Lemma bus_fault_upto f k n m : (forall k m, bus_fault (f k m)) -> bus_fault (upto k n f m).
Proof.
  intros Hf. revert k m. induction n as [|n IH]; intros k m; simpl; [done|].
  apply bus_fault_bind; auto.
Qed.
#[export] Hint Resolve bus_fault_bind bus_fault_lw bus_fault_sw bus_fault_wload
  bus_fault_wstore bus_fault_upto : memdb.

Lemma bus_fault_exec_op o m : bus_fault (exec_op o m).
Proof.
  destruct o; simpl;
    repeat first [apply bus_fault_bind; intros | apply bus_fault_upto; intros];
    try case_match; first [done | by auto with memdb].
Qed.

Lemma run_bus_fault sym n i m r : run sym n i m r -> bus_fault r.
Proof.
  induction 1 as [|i m f Hi Hs| |]; simpl; auto.
  unfold spec_step in Hs.
  match type of Hs with exec_op ?o ?m1 = _ => pose proof (bus_fault_exec_op o m1) as Hb end.
  by rewrite Hs in Hb.
Qed.

(** C2: [CodeHandler] terminates: the fuel given to its three loops is enough
    for every code list, so that the only way it does not return is the address
    error exception of a misaligned access that a code asks for. *)
Theorem CodeHandler_terminates sym m :
  table_ok sym m -> bus_fault (CodeHandler sym m).
Proof.
  intros Ht. pose proof (CodeHandler_run sym m Ht) as Hrun.
  apply run_bus_fault in Hrun. unfold exec in Hrun.
  by destruct (CodeHandler sym m) as [[[] m']|f].
Qed.

Lemma CodeHandler_terminates_witness : bus_fault (CodeHandler sample_symbols sample_mem).
Proof. apply (CodeHandler_terminates sample_symbols sample_mem). concrete. Defined.
