(* ===== verification/EngineProps.v ===== *)
(** * Properties of the cheat engine

    What single code types leave in memory, what they leave alone, the
    replacement of type E lines, the code and hook tables of engine.c and the
    installation of the hook. *)

From S2P Require Import Prelude Engine EngineSpec EngineTest.
Import Mips Asm EngineC.
Local Open Scope ps2rd_scope.

(** ** Footprints *)

Definition size (w : width) : Z := match w with W8 => 1 | W16 => 2 | W32 => 4 end.

(** The bytes an operation may write, in memory [m]. *)
Definition footprint (m : gmap Z Z) (o : op) (b : Z) : Prop :=
  match o with
  | Nop | StopUnless _ _ | SkipUnless _ _ _ _ _ => False
  | Write w a _ | AddTo w a _ _ | BoolOp w _ a _ => a <= b < a + size w
  | Serial a n s _ _ =>
      exists k, 0 <= k < n /\ u32 (a + k * s) <= b < u32 (a + k * s) + 4
  | Copy _ dst n => exists k, 0 <= k < n /\ b = u32 (dst + k)
  | Pointer w a off _ =>
      let p := u32 (4 * field (load32 m a) 2 28 + off) in p <= b < p + size w
  end.

Lemma wstore_frame w a v m m' b :
  wstore w a v m = Ok (tt, m') -> ~ (a <= b < a + size w) -> load8 m' b = load8 m b.
Proof.
  destruct w; simpl; unfold sb, sh, sw; intros H Hb; repeat case_match; simplify_eq.
  - apply load8_store8_ne. lia.
  - apply load8_store16_ne. lia.
  - apply load8_store32_ne. lia.
Qed.

Lemma wload_frame w a m x m' : wload w a m = Ok (x, m') -> m' = m.
Proof. destruct w; simpl; unfold lbu, lhu, lw; intros; repeat case_match; by simplify_eq. Qed.

(** A loop leaves alone what each of its cycles leaves alone. *)
Lemma upto_frame f (P : nat -> Prop) b :
  (forall k m m', P k -> f k m = Ok (tt, m') -> load8 m' b = load8 m b) ->
  forall n k m m', (forall j, (k <= j < k + n)%nat -> P j) ->
  upto k n f m = Ok (tt, m') -> load8 m' b = load8 m b.
Proof.
  intros Hf. induction n as [|n IH]; intros k m m' HP H; simpl in H.
  - by injection H as <-.
  - apply bind_inv in H as ([] & m1 & H1 & H2).
    assert (HP' : forall j, (S k <= j < S k + n)%nat -> P j) by (intros; apply HP; lia).
    rewrite (IH _ _ _ HP' H2). eapply Hf; [|done]. apply HP. lia.
Qed.

Lemma exec_op_frame o m r m' b :
  exec_op o m = Ok (r, m') -> ~ footprint m o b -> load8 m' b = load8 m b.
Proof.
  destruct o; simpl; intros H Hb.
  - by injection H as <- <-.
  - apply bind_inv in H as ([] & m1 & H1 & [= <- <-]). eauto using wstore_frame.
  - apply bind_inv in H as (x & m1 & H1 & H2). apply wload_frame in H1 as ->.
    apply bind_inv in H2 as ([] & m1 & H1 & [= <- <-]). eauto using wstore_frame.
  - apply bind_inv in H as ([] & m1 & H1 & [= <- <-]).
    eapply (upto_frame _ (fun k => ~ (u32 (a + Z.of_nat k * s) <= b <
      u32 (a + Z.of_nat k * s) + 4)) b) in H1; [done| |].
    + intros k m0 m2 HP Hs. by eapply (wstore_frame W32) in Hs.
    + intros k Hk HP. apply Hb. exists (Z.of_nat k). split; [lia|done].
  - apply bind_inv in H as ([] & m1 & H1 & [= <- <-]).
    eapply (upto_frame _ (fun k => b <> u32 (dst + Z.of_nat k)) b) in H1; [done| |].
    + intros k m0 m2 HP Hs. apply bind_inv in Hs as (x & m3 & [= _ <-] & [= <-]).
      apply load8_store8_ne. congruence.
    + intros k Hk HP. apply Hb. exists (Z.of_nat k). split; [lia|done].
  - apply bind_inv in H as (x & m1 & H1 & H2). pose proof (wload_frame W32 _ _ _ _ H1) as ->.
    apply bind_inv in H2 as ([] & m1 & H2 & [= <- <-]).
    unfold lw in H1. case_match; [|done]. injection H1 as <-.
    case_match; [by injection H2 as <-|]. eauto using wstore_frame.
  - apply bind_inv in H as (x & m1 & H1 & H2). apply wload_frame in H1 as ->.
    apply bind_inv in H2 as ([] & m1 & H1 & [= <- <-]). eauto using wstore_frame.
  - apply bind_inv in H as (x & m1 & H1 & [= <- <-]). by apply (wload_frame W32) in H1 as ->.
  - apply bind_inv in H as (x & m1 & H1 & [= <- <-]). by apply wload_frame in H1 as ->.
Qed.



(** ** Type E *)

Lemma e_to_d_type a v : field (fst (e_to_d (a, v))) 28 4 = 13.
Proof. simpl. unfold field. zlia. Qed.

Lemma decode_e_to_d a v nxt :
  field a 28 4 = 14 -> decode (e_to_d (a, v)) nxt = decode (a, v) nxt.
Proof.
  intros H. pose proof (e_to_d_type a v) as H13. destruct (e_to_d (a, v)) as [a' v'] eqn:Ee.
  simpl in H13. destruct nxt as [a2 v2]. unfold decode. rewrite H, H13, Ee.
  replace (a =? 0) with false by (symmetry; apply Z.eqb_neq; intros ->; done).
  replace (a' =? 0) with false by (symmetry; apply Z.eqb_neq; intros ->; done). done.
Qed.

Lemma e_to_d_u32 a v : is_u32 (fst (e_to_d (a, v))) /\ is_u32 (snd (e_to_d (a, v))).
Proof.
  simpl. pose proof (field_range v 0 25). pose proof (field_range a 16 8).
  pose proof (field_range v 28 4). pose proof (field_range a 24 1).
  pose proof (field_range a 0 16). unfold is_u32. lia.
Qed.

Lemma decode_d_pure a v m c m' : exec_op (decode_d a v) m = Ok (c, m') -> m' = m.
Proof.
  unfold decode_d. case_match; simpl; intros Hx;
    apply bind_inv in Hx as (x & m1 & H1 & [= <- <-]);
    [by apply (wload_frame W16) in H1|by apply (wload_frame W8) in H1].
Qed.

Lemma fetch_store_line sym m i a v :
  codelist sym mod 4 = 0 -> is_u32 a -> is_u32 v ->
  fetch sym (store32 (store32 m (line_addr sym i) a) (u32 (codelist sym + 8 * i + 4)) v) i
  = (a, v).
Proof.
  intros Hal Ha Hv. unfold fetch.
  assert (Hd : line_addr sym i + 4 <= u32 (codelist sym + 8 * i + 4) \/
               u32 (codelist sym + 8 * i + 4) + 4 <= line_addr sym i)
    by (unfold line_addr; zlia).
  rewrite load32_store32_ne by lia. rewrite !load32_store32_eq.
  f_equal; by apply u32_id.
Qed.

(** The first pass over a type E line stores the equivalent type D line in its
    place; a second pass over the stored line takes the same decision and leaves
    memory as it is. *)
Lemma type_e_converted_once sym i m c m' :
  codelist sym mod 4 = 0 -> is_u32 i -> field (fst (fetch sym m i)) 28 4 = 14 ->
  ch_body sym i m = Ok (c, m') ->
  fetch sym m' i = e_to_d (fetch sym m i) /\ ch_body sym i m' = Ok (c, m').
Proof.
  intros Hal Hi H14 H. rewrite ch_body_spec in H by done. unfold spec_step in H.
  rewrite H14 in H. destruct (fetch sym m i) as [a v] eqn:Ef. cbn [fst] in *.
  change (14 =? 14) with true in H. cbn iota in H.
  destruct (e_to_d (a, v)) as [a' v'] eqn:Ee.
  destruct (e_to_d_u32 a v) as [Ha' Hv']. rewrite Ee in Ha', Hv'.
  set (m1 := store32 _ _ v') in H.
  destruct (exec_op _ m1) as [[o m2]|f] eqn:E; [|done].
  rewrite <- (decode_e_to_d a v) in E by done.
  assert (Hm : m' = m2) by (destruct o; simpl in H; by injection H). subst m2.
  pose proof (e_to_d_type a v) as H13. rewrite Ee in E, H13. simpl in H13.
  assert (Hd : forall nxt, decode (a', v') nxt = decode_d a' v').
  { intros [a2 v2]. unfold decode. rewrite H13.
    replace (a' =? 0) with false; [done|]. symmetry. apply Z.eqb_neq. by intros ->. }
  rewrite Hd in E. pose proof (decode_d_pure _ _ _ _ _ E) as ->.
  assert (Hf : fetch sym m1 i = (a', v')) by (by apply fetch_store_line).
  split; [done|]. rewrite ch_body_spec by done. unfold spec_step.
  rewrite Hf, Hd. cbn [fst]. rewrite H13. simpl Z.eqb. cbn iota. by rewrite E.
Qed.

Example type_e_sample :
  fetch sample_symbols (state_or ∅ (ch_body sample_symbols 1 sample_mem)) 1 =
    e_to_d (fetch sample_symbols sample_mem 1) /\
  ch_body sample_symbols 1 (state_or ∅ (ch_body sample_symbols 1 sample_mem)) =
    Ok (Next 2, state_or ∅ (ch_body sample_symbols 1 sample_mem)).
Proof. apply (type_e_converted_once sample_symbols 1 sample_mem (Next 2)); concrete. Qed.

(** ** Block operations *)

(** A type 4 code whose cells lie within the address space leaves [v + k*i] in
    cell [k]: the documented effect of the serial write. *)
Lemma serial_write_cells a n s v i m m' k :
  0 <= a -> 4 <= s -> a + (n - 1) * s < 2 ^ 32 ->
  exec_op (Serial a n s v i) m = Ok (Continue 1, m') -> 0 <= k < n ->
  load32 m' (a + k * s) = u32 (v + k * i).
Proof.
  intros Ha Hs Hfit H Hk. simpl in H. apply bind_inv in H as ([] & m1 & H & [= <-]).
  set (f := fun k => _) in H.
  assert (Hgen : forall c j m m', (Z.of_nat j + Z.of_nat c <= n) ->
            upto j c f m = Ok (tt, m') ->
            (forall x, 0 <= x < Z.of_nat j -> load32 m' (a + x * s) = load32 m (a + x * s)) /\
            (forall x, Z.of_nat j <= x < Z.of_nat j + Z.of_nat c ->
                       load32 m' (a + x * s) = u32 (v + x * i))).
  { clear m m1 H. induction c as [|c IH]; intros j m m1 Hc H; simpl in H.
    - injection H as <-. split; intros; [done|lia].
    - apply bind_inv in H as ([] & m2 & H1 & H2). unfold f, sw in H1.
      rewrite (u32_id (a + _)) in H1 by nia. case_match; [|done]. injection H1 as <-.
      destruct (IH (S j) _ _ ltac:(lia) H2) as [IH1 IH2]. split; intros x Hx.
      + rewrite IH1 by lia. apply load32_store32_ne. nia.
      + destruct (decide (x = Z.of_nat j)) as [->|]; [|apply IH2; lia].
        rewrite IH1 by lia. rewrite load32_store32_eq. apply u32_u32. }
  destruct (Hgen (Z.to_nat n) 0%nat m m1 ltac:(lia) H) as [_ Hc]. apply Hc. lia.
Qed.

Example serial_write_sample :
  load32 (state_or ∅ (exec_op (Serial 0x400100 4 8 0x80000000 0x100000) ∅)) (0x400100 + 2 * 8)
  = u32 (0x80000000 + 2 * 0x100000).
Proof. apply (serial_write_cells 0x400100 4 8 0x80000000 0x100000 ∅); concrete. Qed.

(** A type 5 code copies its block when source and destination do not
    overlap and lie within the address space. *)
Lemma copy_bytes_block src dst n m m' :
  0 <= src -> 0 <= dst -> 0 <= n -> src + n <= 2 ^ 32 -> dst + n <= 2 ^ 32 ->
  src + n <= dst \/ dst + n <= src ->
  exec_op (Copy src dst n) m = Ok (Continue 1, m') ->
  load_bytes m' dst (Z.to_nat n) = load_bytes m src (Z.to_nat n).
Proof.
  intros Hs Hd Hn Hsf Hdf Hov H. simpl in H. apply bind_inv in H as ([] & m1 & H & [= <-]).
  set (f := fun k => _) in H.
  assert (Hgen : forall c j m m1, Z.of_nat j + Z.of_nat c <= n ->
            upto j c f m = Ok (tt, m1) ->
            (forall b, b < dst + Z.of_nat j \/ dst + n <= b -> load8 m1 b = load8 m b) /\
            load_bytes m1 (dst + Z.of_nat j) c = load_bytes m (src + Z.of_nat j) c).
  { clear m m1 H. induction c as [|c IH]; intros j m m1 Hc H; simpl in H.
    - by injection H as <-.
    - apply bind_inv in H as ([] & m2 & H1 & H2). unfold f, bind, lbu, sb in H1.
      rewrite !u32_id in H1 by lia. injection H1 as <-.
      destruct (IH (S j) _ _ ltac:(lia) H2) as [IH1 IH2]. split.
      + intros b Hb. rewrite IH1 by lia. apply load8_store8_ne. lia.
      + simpl. f_equal.
        * rewrite IH1 by lia. rewrite load8_store8_eq. apply u8_id, load8_range.
        * replace (dst + Z.of_nat j + 1) with (dst + Z.of_nat (S j)) by lia.
          rewrite IH2.
          replace (src + Z.of_nat j + 1) with (src + Z.of_nat (S j)) by lia.
          apply load_bytes_ext. intros b Hb. apply load8_store8_ne. lia. }
  destruct (Hgen (Z.to_nat n) 0%nat m m1 ltac:(lia) H) as [_ Hc].
  by rewrite !Z.add_0_r in Hc.
Qed.

Example copy_bytes_sample :
  load_bytes (state_or ∅ (exec_op (Copy 0x2d51f8 0x400000 4) sample_mem)) 0x400000
    (Z.to_nat 4) = load_bytes sample_mem 0x2d51f8 (Z.to_nat 4).
Proof. apply (copy_bytes_block 0x2d51f8 0x400000 4 sample_mem); concrete. Qed.

(** ** The tables of engine.c

    [add_code] and [add_hook] append to a bounded table; [entries] is the list the
    table stands for. *)
Section Tables.
Context (num mx base : Z).

Definition entry (m : gmap Z Z) (i : Z) : line :=
  (load32 m (base + 8 * i), load32 m (base + 8 * i + 4)).
Definition entries (m : gmap Z Z) : list line := entry m <$> seqZ 0 (load32 m num).

Definition full (m : gmap Z Z) : bool := load32 m mx <=? load32 m num.

(** The three objects are aligned, apart from each other and inside the address
    space, and the table is not overfull. *)
Record table_inv (m : gmap Z Z) : Prop := {
  ti_num : num mod 4 = 0;
  ti_mx : mx mod 4 = 0;
  ti_base : base mod 4 = 0;
  ti_base0 : 0 <= base;
  ti_fit : base + 8 * load32 m mx <= 2 ^ 32;
  ti_apart : num + 4 <= mx \/ mx + 4 <= num;
  ti_num_out : num + 4 <= base \/ base + 8 * load32 m mx <= num;
  ti_mx_out : mx + 4 <= base \/ base + 8 * load32 m mx <= mx;
  ti_le : load32 m num <= load32 m mx;
}.

(** What [add_code] and [add_hook] do after the address is masked. *)
Definition push (addr val : Z) : M (gmap Z Z) Z :=
  let* n := lw num in
  let* max := lw mx in
  if max <=? n then ret (-1)
  else
    sw addr (elem base (u32 (n * 2))) ;;
    let* n := lw num in
    sw val (elem base (u32 (n * 2 + 1))) ;;
    let* n := lw num in
    sw (u32 (n + 1)) num ;;
    ret 0.

Lemma push_spec addr val m :
  table_inv m -> is_u32 addr -> is_u32 val ->
  exists m', push addr val m = Ok (if full m then -1 else 0, m') /\
    entries m' = (if full m then entries m else entries m ++ [(addr, val)]) /\
    table_inv m' /\
    (forall b, ~ (num <= b < num + 4) -> ~ (base <= b < base + 8 * load32 m mx) ->
               load8 m' b = load8 m b).
Proof.
  intros [H1 H2 H3 H4 H5 H6 H7 H8 H9] Ha Hv. unfold push, full.
  rewrite (bind_ok _ _ _ _ _ (lw_ok _ _ H1)), (bind_ok _ _ _ _ _ (lw_ok _ _ H2)).
  set (n := load32 m num). set (x := load32 m mx).
  pose proof (load32_range m num) as Hn. pose proof (load32_range m mx) as Hx.
  fold n in Hn, H9. fold x in Hx, H5, H7, H8, H9.
  destruct (Z.leb_spec x n) as [Hf|Hf].
  { exists m. repeat split; auto; by fold x n. }
  unfold elem. rewrite (u32_id (n * 2)), (u32_id (base + _)) by lia.
  set (a1 := base + 4 * (n * 2)). set (m1 := store32 m a1 addr).
  assert (E1 : sw addr a1 m = Ok (tt, m1)) by (apply sw_ok; unfold a1; zlia).
  rewrite (bind_ok _ _ _ _ _ E1), (bind_ok _ _ _ _ _ (lw_ok _ _ H1)).
  assert (N1 : load32 m1 num = n) by (apply load32_store32_ne; unfold a1; lia).
  rewrite N1, (u32_id (n * 2 + 1)), (u32_id (base + _)) by lia.
  set (a2 := base + 4 * (n * 2 + 1)). set (m2 := store32 m1 a2 val).
  assert (E2 : sw val a2 m1 = Ok (tt, m2)) by (apply sw_ok; unfold a2; zlia).
  rewrite (bind_ok _ _ _ _ _ E2), (bind_ok _ _ _ _ _ (lw_ok _ _ H1)).
  assert (N2 : load32 m2 num = n).
  { unfold m2. rewrite load32_store32_ne; [done|]. unfold a2; lia. }
  rewrite N2, (u32_id (n + 1)) by lia.
  set (m3 := store32 m2 num (n + 1)).
  rewrite (bind_ok _ _ _ _ _ (sw_ok _ _ _ H1)). fold m3.
  assert (N3 : load32 m3 num = n + 1) by (unfold m3; rewrite load32_store32_eq; apply u32_id; lia).
  assert (X3 : load32 m3 mx = x).
  { unfold m3, m2, m1. rewrite !load32_store32_ne; [done|..]; unfold a1, a2; lia. }
  exists m3. split; [done|]. split; [|split].
  - unfold entries. rewrite N3. fold n. rewrite seqZ_app by lia. rewrite fmap_app.
    f_equal.
    + apply list_fmap_ext. intros j y Hy. apply lookup_seqZ in Hy as [-> Hj].
      unfold entry, m3, m2, m1. rewrite !load32_store32_ne; [done|..]; unfold a1, a2; lia.
    + simpl. unfold entry. rewrite !Z.add_0_l.
      replace (base + 8 * n + 4) with a2 by (unfold a2; lia).
      replace (base + 8 * n) with a1 by (unfold a1; lia).
      unfold m3, m2, m1. do 2 f_equal.
      * rewrite load32_store32_ne by (unfold a1; lia).
        rewrite load32_store32_ne by (unfold a1, a2; lia).
        rewrite load32_store32_eq. by apply u32_id.
      * rewrite load32_store32_ne by (unfold a2; lia).
        rewrite load32_store32_eq. by apply u32_id.
  - split; rewrite ?X3, ?N3; done || lia.
  - intros b Hb1 Hb2. unfold m3, m2, m1.
    rewrite !load8_store32_ne; [done|..]; unfold a1, a2; lia.
Qed.

Lemma clear_loop_spec m0 fuel i m :
  num mod 4 = 0 -> base mod 4 = 0 -> 0 <= base ->
  (num + 4 <= base \/ base + 8 * load32 m0 num <= num) ->
  base + 8 * load32 m0 num <= 2 ^ 32 -> load32 m num = load32 m0 num ->
  0 <= i <= 2 * load32 m0 num -> 2 * load32 m0 num - i <= Z.of_nat fuel ->
  exists m', clear_loop fuel num base i m = Ok (tt, m') /\
    (forall j, i <= j < 2 * load32 m0 num -> load32 m' (base + 4 * j) = 0) /\
    (forall b, ~ (base + 4 * i <= b < base + 8 * load32 m0 num) -> load8 m' b = load8 m b).
Proof.
  intros H1 H3 H4 Hout Hfit. pose proof (load32_range m0 num) as Hr.
  revert i m. induction fuel as [|fuel IH]; intros i m Hn Hi Hf.
  - simpl. rewrite (bind_ok _ _ _ _ _ (lw_ok _ _ H1)), Hn, u32_id by lia.
    replace (i <? load32 m0 num * 2) with false by (symmetry; apply Z.ltb_ge; lia).
    exists m. split; [done|]. split; [lia|done].
  - simpl. rewrite (bind_ok _ _ _ _ _ (lw_ok _ _ H1)), Hn, u32_id by lia.
    destruct (Z.ltb_spec i (load32 m0 num * 2)) as [Hlt|Hge].
    + unfold elem. rewrite u32_id by lia.
      assert (E1 : (base + 4 * i) mod 4 = 0) by zlia.
      rewrite (bind_ok _ _ _ _ _ (sw_ok 0 _ _ E1)).
      destruct (IH (i + 1) (store32 m (base + 4 * i) 0)) as (m' & Hm & Hz & Hfr); try lia.
      { rewrite load32_store32_ne by lia. done. }
      exists m'. split; [done|]. split.
      * intros j Hj. destruct (decide (j = i)) as [->|]; [|apply Hz; lia].
        unfold load32, load16. rewrite !Hfr by lia.
        change (load32 (store32 m (base + 4 * i) 0) (base + 4 * i) = 0).
        by rewrite load32_store32_eq.
      * intros b Hb. rewrite Hfr by lia. apply load8_store32_ne. lia.
    + exists m. split; [done|]. split; [lia|done].
Qed.

(** Clearing the table: [n] entries are zeroed, then the count is. *)
Definition clear : M (gmap Z Z) unit :=
  let* n := lw num in
  clear_loop (Z.to_nat (u32 (n * 2))) num base 0 ;;
  sw 0 num.

Lemma clear_spec m :
  table_inv m ->
  exists m', clear m = Ok (tt, m') /\ entries m' = [] /\ table_inv m' /\
    (forall j, 0 <= j < 2 * load32 m num -> load32 m' (base + 4 * j) = 0) /\
    (forall b, ~ (num <= b < num + 4) -> ~ (base <= b < base + 8 * load32 m mx) ->
               load8 m' b = load8 m b).
Proof.
  intros [H1 H2 H3 H4 H5 H6 H7 H8 H9]. unfold clear.
  pose proof (load32_range m num) as Hn. pose proof (load32_range m mx) as Hx.
  rewrite (bind_ok _ _ _ _ _ (lw_ok _ _ H1)), u32_id by lia.
  destruct (clear_loop_spec m (Z.to_nat (load32 m num * 2)) 0 m)
    as (m1 & Hm & Hz & Hf); try done; try lia.
  rewrite (bind_ok _ _ _ _ _ Hm), (sw_ok _ _ _ H1). eexists; split; [done|].
  set (m2 := store32 m1 num 0).
  assert (X2 : load32 m2 mx = load32 m mx).
  { unfold m2. rewrite load32_store32_ne by lia. apply load32_ext.
    intros; apply Hf; lia. }
  assert (N2 : load32 m2 num = 0) by (unfold m2; by rewrite load32_store32_eq).
  split; [|split; [|split]].
  - unfold entries. by rewrite N2.
  - split; rewrite ?X2, ?N2; done || lia.
  - intros j Hj. unfold m2. rewrite load32_store32_ne by lia. by apply Hz.
  - intros b Hb1 Hb2. unfold m2. rewrite load8_store32_ne by lia. apply Hf. lia.
Qed.
End Tables.

Definition code_inv (sym : symbols) : gmap Z Z -> Prop :=
  table_inv (numcodes sym) (maxcodes sym) (codelist sym).
Definition codes (sym : symbols) : gmap Z Z -> list line :=
  entries (numcodes sym) (codelist sym).
Definition hook_inv (sym : symbols) : gmap Z Z -> Prop :=
  table_inv (numhooks sym) (maxhooks sym) (hooklist sym).
Definition hooks (sym : symbols) : gmap Z Z -> list line :=
  entries (numhooks sym) (hooklist sym).

(** C8: [add_code] appends the code to the code list and returns 0, or returns -1
    and changes nothing when the list is full; it keeps the table invariant and
    writes nothing outside the table and its counter. *)
Theorem add_code_appends sym addr val m :
  code_inv sym m -> is_u32 addr -> is_u32 val ->
  let f := full (numcodes sym) (maxcodes sym) m in
  exists m', add_code sym addr val m = Ok (if f then -1 else 0, m') /\
    codes sym m' = (if f then codes sym m else codes sym m ++ [(addr, val)]) /\
    code_inv sym m' /\
    (forall b, ~ (numcodes sym <= b < numcodes sym + 4) ->
       ~ (codelist sym <= b < codelist sym + 8 * load32 m (maxcodes sym)) ->
       load8 m' b = load8 m b).
Proof. intros Hi Ha Hv. by apply push_spec. Qed.

Lemma add_code_appends_witness :
  exists m', add_code sample_symbols 0x10400000 7 sample_mem = Ok (0, m') /\
    codes sample_symbols m' = codes sample_symbols sample_mem ++ [(0x10400000, 7)].
Proof.
  destruct (add_code_appends sample_symbols 0x10400000 7 sample_mem)
    as (m' & H1 & H2 & _).
  - constructor; concrete.
  - concrete.
  - concrete.
  - exists m'. split; [exact H1|exact H2].
Defined.

(** [add_hook] appends the hook with its address cut to a word-aligned 25-bit
    address, under the same capacity rule. *)
Theorem add_hook_appends sym addr val m :
  hook_inv sym m -> is_u32 addr -> is_u32 val ->
  let f := full (numhooks sym) (maxhooks sym) m in
  exists m', add_hook sym addr val m = Ok (if f then -1 else 0, m') /\
    hooks sym m' =
      (if f then hooks sym m else hooks sym m ++ [(4 * field addr 2 23, val)]) /\
    hook_inv sym m'.
Proof.
  intros Hi Ha Hv.
  assert (E : Z.land addr 0x01FFFFFC = 4 * field addr 2 23).
  { unfold field. change 0x01FFFFFC with (Z.shiftl (Z.ones 23) 2).
    rewrite <- Z.shiftr_div_pow2, <- (Z.land_ones _ 23) by lia.
    rewrite Z.mul_comm. change 4 with (2 ^ 2). rewrite <- Z.shiftl_mul_pow2 by lia.
    rewrite Z.shiftl_land. apply Z.bits_inj'. intros n Hn. rewrite !Z.land_spec.
    destruct (decide (n < 2)).
    - by rewrite !(Z.shiftl_spec_low (Z.ones 23)), !andb_false_r by lia.
    - rewrite (Z.shiftl_spec _ _ n), (Z.shiftl_spec _ _ n), Z.shiftr_spec by lia.
      do 2 f_equal. lia. }
  unfold add_hook. rewrite E.
  destruct (push_spec (numhooks sym) (maxhooks sym) (hooklist sym)
              (4 * field addr 2 23) val m) as (m' & H1 & H2 & H3 & _); try done.
  { pose proof (field_range addr 2 23). unfold is_u32. lia. }
  exists m'. done.
Qed.

Lemma add_hook_appends_witness :
  exists m', add_hook sample_symbols 0x90400003 7 sample_mem = Ok (0, m') /\
    hooks sample_symbols m' = hooks sample_symbols sample_mem ++ [(0x400000, 7)].
Proof.
  destruct (add_hook_appends sample_symbols 0x90400003 7 sample_mem)
    as (m' & H1 & H2 & _).
  - constructor; concrete.
  - concrete.
  - concrete.
  - exists m'. split; [exact H1|exact H2].
Defined.

(** [clear_codes] empties the code list, zeroes the words of every removed
    code, keeps the invariant and touches nothing else. *)
Theorem clear_codes_empties sym m :
  code_inv sym m ->
  exists m', clear_codes sym m = Ok (tt, m') /\ codes sym m' = [] /\ code_inv sym m' /\
    (forall j, 0 <= j < 2 * load32 m (numcodes sym) ->
               load32 m' (codelist sym + 4 * j) = 0) /\
    (forall b, ~ (numcodes sym <= b < numcodes sym + 4) ->
       ~ (codelist sym <= b < codelist sym + 8 * load32 m (maxcodes sym)) ->
       load8 m' b = load8 m b).
Proof. intros Hi. by apply clear_spec. Qed.

Lemma clear_codes_empties_witness :
  exists m', clear_codes sample_symbols sample_mem = Ok (tt, m') /\
    codes sample_symbols m' = [].
Proof.
  destruct (clear_codes_empties sample_symbols sample_mem) as (m' & H1 & H2 & _).
  - constructor; concrete.
  - exists m'. split; [exact H1|exact H2].
Defined.

(** ** The hook *)

(** The first hook whose opcode is in place. *)
Fixpoint find_hook (m : gmap Z Z) (hs : list line) : option Z :=
  match hs with
  | [] => None
  | (a, v) :: hs' =>
      if negb (a =? 0) && (load32 m a =? v) then Some a else find_hook m hs'
  end.

(** The two opcodes at [a] saved, the jump to the engine and a [nop] put there. *)
Definition activate (sym : symbols) (a : Z) (m : gmap Z Z) : gmap Z Z :=
  let m1 := store32 m (eh_backup sym) (load32 m a) in
  let m2 := store32 m1 (eh_backup sym + 4) (load32 m1 (a + 4)) in
  let m3 := store32 m2 a (load32 m2 (jal_EngineHandler sym)) in
  store32 m3 (a + 4) 0.

Record hook_layout (sym : symbols) : Prop := {
  hl_backup : eh_backup sym mod 4 = 0;
  hl_backup_fit : 0 <= eh_backup sym < 2 ^ 32 - 4;
  hl_jal : jal_EngineHandler sym mod 4 = 0;
}.

Lemma hook_loop_spec sym m n k i t1 :
  hook_layout sym -> hooklist sym mod 4 = 0 -> 0 <= hooklist sym ->
  hooklist sym + 8 * n <= 2 ^ 32 -> n < 2 ^ 31 -> 0 <= i ->
  t1 = n - i -> 0 < t1 -> k = Z.to_nat t1 ->
  Forall (fun h => fst h mod 4 = 0 /\ 0 <= fst h < 2 ^ 32 - 4)
    (entry (hooklist sym) m <$> seqZ i (n - i)) ->
  hook_loop k sym t1 (hooklist sym + 8 * i) m =
    Ok (tt, match find_hook m (entry (hooklist sym) m <$> seqZ i (n - i)) with
            | None => m
            | Some a => activate sym a m
            end).
Proof.
  intros [Hb Hbf Hj] Hal H0 Hfit Hn. revert i t1.
  induction k as [|k IH]; intros i t1 Hi Ht Hpos Hk Hall; [lia|].
  rewrite seqZ_cons in * by lia. rewrite fmap_cons in *. cbn [find_hook].
  apply Forall_cons in Hall as [[Ha4 Ha] Hall].
  unfold entry at 1. unfold entry in Ha4, Ha. simpl in Ha4, Ha.
  assert (E1 : (hooklist sym + 8 * i) mod 4 = 0) by zlia.
  assert (E2 : addu (hooklist sym + 8 * i) 4 = hooklist sym + 8 * i + 4)
    by (unfold addu; apply u32_id; lia).
  assert (E3 : (hooklist sym + 8 * i + 4) mod 4 = 0) by zlia.
  simpl hook_loop. rewrite (bind_ok _ _ _ _ _ (lw_ok _ _ E1)), E2.
  rewrite (bind_ok _ _ _ _ _ (lw_ok _ _ E3)).
  set (a := load32 m (hooklist sym + 8 * i)) in *.
  set (v := load32 m (hooklist sym + 8 * i + 4)).
  set (nxt := if bgtz _ then _ else _).
  assert (Hnext : nxt m = Ok (tt, match find_hook m (entry (hooklist sym) m <$>
      seqZ (Z.succ i) (Z.pred (n - i))) with None => m | Some a => activate sym a m end)).
  { unfold nxt, bgtz, addu. rewrite s32_u32, s32_id by lia.
    destruct (Z.ltb_spec 0 (t1 + -1)) as [Hp|Hp].
    - rewrite (u32_id (t1 + -1)), (u32_id (_ + 8)) by lia.
      replace (hooklist sym + 8 * i + 8) with (hooklist sym + 8 * (i + 1)) by lia.
      replace (Z.succ i) with (i + 1) in * by lia.
      replace (Z.pred (n - i)) with (n - (i + 1)) in * by lia.
      apply IH; auto; lia.
    - replace (Z.pred (n - i)) with 0 by lia. done. }
  destruct (Z.eqb_spec a 0) as [Hz|Hz]; [exact Hnext|].
  rewrite (bind_ok _ _ _ _ _ (lw_ok _ _ Ha4)).
  destruct (Z.eqb_spec (load32 m a) v) as [Hv|Hv]; [|exact Hnext].
  cbn [negb andb].
  rewrite (bind_ok _ _ _ _ _ (sw_ok _ _ _ Hb)).
  assert (A4 : addu a 4 = a + 4) by (unfold addu; apply u32_id; lia).
  assert (B4 : addu (eh_backup sym) 4 = eh_backup sym + 4) by (unfold addu; apply u32_id; lia).
  assert (A4m : (a + 4) mod 4 = 0) by zlia.
  assert (B4m : (eh_backup sym + 4) mod 4 = 0) by zlia.
  rewrite !A4, B4, (bind_ok _ _ _ _ _ (lw_ok _ _ A4m)), (bind_ok _ _ _ _ _ (sw_ok _ _ _ B4m)).
  rewrite (bind_ok _ _ _ _ _ (lw_ok _ _ Hj)), (bind_ok _ _ _ _ _ (sw_ok _ _ _ Ha4)).
  by rewrite sw_ok.
Qed.

Lemma HookSetupThread_spec sym m :
  hook_layout sym -> hook_inv sym m -> load32 m (numhooks sym) < 2 ^ 31 ->
  Forall (fun h => fst h mod 4 = 0 /\ 0 <= fst h < 2 ^ 32 - 4) (hooks sym m) ->
  HookSetupThread sym m =
    Ok (tt, match find_hook m (hooks sym m) with
            | None => m
            | Some a => activate sym a m
            end).
Proof.
  intros Hl [H1 H2 H3 H4 H5 H6 H7 H8 H9] Hs Hall. pose proof (load32_range m (numhooks sym)).
  unfold HookSetupThread. rewrite (bind_ok _ _ _ _ _ (lw_ok _ _ H1)).
  unfold hooks, entries in *.
  destruct (Z.eqb_spec (load32 m (numhooks sym)) 0) as [->|Hz]; [done|].
  pose proof (hook_loop_spec sym m (load32 m (numhooks sym))
    (cycles (load32 m (numhooks sym))) 0 (load32 m (numhooks sym))) as Hloop.
  rewrite Z.sub_0_r, Z.mul_0_r, Z.add_0_r in Hloop. apply Hloop; auto; try lia.
  unfold cycles, addu. rewrite s32_u32, s32_id by lia. lia.
Qed.

(** C11: [HookSetupThread] activates the first hook whose expected opcode is at its
    address and no other: there it leaves the jump to the engine followed by a
    [nop], with the two replaced opcodes in the backup slots; when no hook
    matches it changes nothing. *)
Theorem HookSetupThread_first_match sym m :
  hook_layout sym -> hook_inv sym m -> load32 m (numhooks sym) < 2 ^ 31 ->
  Forall (fun h => fst h mod 4 = 0 /\ 0 <= fst h < 2 ^ 32 - 4 /\
    (fst h + 8 <= eh_backup sym \/ eh_backup sym + 8 <= fst h) /\
    (fst h + 8 <= jal_EngineHandler sym \/ jal_EngineHandler sym + 4 <= fst h)) (hooks sym m) ->
  (jal_EngineHandler sym + 4 <= eh_backup sym \/
   eh_backup sym + 8 <= jal_EngineHandler sym) ->
  exists m', HookSetupThread sym m = Ok (tt, m') /\
    match find_hook m (hooks sym m) with
    | None => m' = m
    | Some a =>
        load32 m' a = load32 m (jal_EngineHandler sym) /\ load32 m' (a + 4) = 0 /\
        load32 m' (eh_backup sym) = load32 m a /\
        load32 m' (eh_backup sym + 4) = load32 m (a + 4) /\
        (forall b, ~ (a <= b < a + 8) -> ~ (eh_backup sym <= b < eh_backup sym + 8) ->
                   load8 m' b = load8 m b)
    end.
Proof.
  intros Hl Hi Hs Hall Hapart. eexists. split.
  { apply HookSetupThread_spec; try done. eapply Forall_impl; [done|]. simpl. tauto. }
  destruct (find_hook m (hooks sym m)) as [a|] eqn:Hf; [|done].
  assert (Ha : (a + 8 <= eh_backup sym \/ eh_backup sym + 8 <= a) /\
    (a + 8 <= jal_EngineHandler sym \/ jal_EngineHandler sym + 4 <= a)).
  { clear Hs Hi. induction Hall as [|[x v] hs (_ & _ & Hx) Hall IH]; simpl in Hf; [done|].
    destruct (negb (x =? 0) && _); [by injection Hf as <-|auto]. }
  destruct Ha as [Ha1 Ha2]. unfold activate.
  pose proof (load32_range m a). pose proof (load32_range m (a + 4)).
  pose proof (load32_range m (jal_EngineHandler sym)).
  repeat split.
  - rewrite load32_store32_ne by lia. rewrite load32_store32_eq, !load32_store32_ne by lia.
    by apply u32_id.
  - by rewrite load32_store32_eq.
  - rewrite !load32_store32_ne by lia. rewrite load32_store32_eq. by apply u32_id.
  - rewrite load32_store32_ne, load32_store32_ne, load32_store32_eq, load32_store32_ne by lia.
    by apply u32_id.
  - intros b Hb1 Hb2. rewrite !load8_store32_ne by lia. done.
Qed.

Lemma HookSetupThread_first_match_witness :
  exists m', HookSetupThread sample_symbols sample_mem = Ok (tt, m') /\
    load32 m' 0x002d51f8 = 0x0c020002.
Proof.
  assert (Hh : hooks sample_symbols sample_mem = [(0x002d51f8, 0x0c0b95f6)])
    by (vm_compute; reflexivity).
  assert (Hf : find_hook sample_mem [(0x002d51f8, 0x0c0b95f6)] = Some 0x002d51f8)
    by (vm_compute; reflexivity).
  assert (Hj : load32 sample_mem (jal_EngineHandler sample_symbols) = 0x0c020002)
    by (vm_compute; reflexivity).
  destruct (HookSetupThread_first_match sample_symbols sample_mem) as (m' & H1 & H2).
  - constructor; concrete.
  - constructor; concrete.
  - concrete.
  - rewrite Hh. constructor; [concrete|constructor].
  - concrete.
  - exists m'. split; [exact H1|]. rewrite Hh, Hf, Hj in H2. exact (proj1 H2).
Defined.
