(* ===== verification/Queue.v ===== *)
(** * Singly-linked tail queues (ee/libcheats/include/queue.h)

    The STAILQ macros at the level of pointers: an object store maps locations to
    structures that carry a [next] pointer, a queue head holds the first element
    and the address of the last [next] field (its own [stqh_first] when empty).
    [stq_rep] relates a head and a store to the list of its elements, and every
    macro is shown to implement the list operation it stands for. *)

From S2P Require Import Prelude.
Local Open Scope ps2rd_scope.

Abbreviation loc := positive.

(** STAILQ_ENTRY: structures with a [stqe_next] field. *)
Class Linked (T : Type) : Type := {
  stqe_next : T -> option loc;
  set_next : option loc -> T -> T;
  next_set : forall p o, stqe_next (set_next p o) = p;
  set_set : forall p q o, set_next p (set_next q o) = set_next p o;
}.

(** What [stqh_last] can point at. *)
Inductive lastp : Type :=
| AtHead
| AtNext (l : loc)
| LastNull.                     (** a head cleared with memset *)

(** STAILQ_HEAD *)
Record stailq : Type := StailQ {
  stqh_first : option loc;
  stqh_last : lastp;
}.

Section Macros.
Context {T : Type} `{Linked T}.
Implicit Types (q : stailq) (m : gmap loc T) (elm : loc).

Definition STAILQ_INIT : stailq := StailQ None AtHead.
Definition STAILQ_EMPTY q : bool :=
  match stqh_first q with None => true | Some _ => false end.
Definition STAILQ_FIRST q : option loc := stqh_first q.

(** A dereference of [elm]. *)
Definition deref m elm : res T := of_option OutOfBounds (m !! elm).

(** A dereference of a pointer that may be NULL. *)
Definition deref_opt m (p : option loc) : res (loc * T) :=
  match p with
  | None => Err NullDeref
  | Some l => let? o := deref m l in Ok (l, o)
  end.

Definition STAILQ_NEXT m elm : res (option loc) :=
  let? o := deref m elm in Ok (stqe_next o).

(** [*(head)->stqh_last = p] *)
Definition write_last q m (p : option loc) : res (stailq * gmap loc T) :=
  match stqh_last q with
  | AtHead => Ok (StailQ p AtHead, m)
  | LastNull => Err NullDeref
  | AtNext l => let? o := deref m l in Ok (q, <[l := set_next p o]> m)
  end.

Definition STAILQ_INSERT_HEAD q elm m : res (stailq * gmap loc T) :=
  let? o := deref m elm in
  let m := <[elm := set_next (stqh_first q) o]> m in
  let last := match stqh_first q with None => AtNext elm | Some _ => stqh_last q end in
  Ok (StailQ (Some elm) last, m).

Definition STAILQ_INSERT_TAIL q elm m : res (stailq * gmap loc T) :=
  let? o := deref m elm in
  let m := <[elm := set_next None o]> m in
  let? '(q, m) := write_last q m (Some elm) in
  Ok (StailQ (stqh_first q) (AtNext elm), m).

Definition STAILQ_INSERT_AFTER q listelm elm m : res (stailq * gmap loc T) :=
  let? o := deref m elm in
  let? lo := deref m listelm in
  let m := <[elm := set_next (stqe_next lo) o]> m in
  let last := match stqe_next lo with None => AtNext elm | Some _ => stqh_last q end in
  let? lo := deref m listelm in
  Ok (StailQ (stqh_first q) last, <[listelm := set_next (Some elm) lo]> m).

Definition STAILQ_REMOVE_HEAD q m : res stailq :=
  let? '(_, o) := deref_opt m (stqh_first q) in
  let last := match stqe_next o with None => AtHead | Some _ => stqh_last q end in
  Ok (StailQ (stqe_next o) last).

(** [while (curelm->next != elm) curelm = curelm->next] *)
Fixpoint find_prev (fuel : nat) m (curelm : option loc) elm : res (loc * T) :=
  match fuel with
  | O => Err OutOfFuel
  | S fuel' =>
      let? '(l, o) := deref_opt m curelm in
      if decide (stqe_next o = Some elm) then Ok (l, o)
      else find_prev fuel' m (stqe_next o) elm
  end.

Definition STAILQ_REMOVE q elm m : res (stailq * gmap loc T) :=
  if decide (stqh_first q = Some elm) then
    let? q := STAILQ_REMOVE_HEAD q m in Ok (q, m)
  else
    let? '(cur, co) := find_prev (S (size m)) m (stqh_first q) elm in
    let? eo := deref m elm in
    let m := <[cur := set_next (stqe_next eo) co]> m in
    let last := match stqe_next eo with None => AtNext cur | Some _ => stqh_last q end in
    Ok (StailQ (stqh_first q) last, m).

(** STAILQ_CONCAT: the second head is left empty. *)
Definition STAILQ_CONCAT q1 q2 m : res (stailq * stailq * gmap loc T) :=
  if STAILQ_EMPTY q2 then Ok (q1, q2, m)
  else
    let? '(q1, m) := write_last q1 m (stqh_first q2) in
    Ok (StailQ (stqh_first q1) (stqh_last q2), STAILQ_INIT, m).

(** STAILQ_FOREACH: the elements in the order the loop visits them. *)
Fixpoint STAILQ_FOREACH (fuel : nat) m (p : option loc) : res (list loc) :=
  match p with
  | None => Ok []
  | Some l =>
      match fuel with
      | O => Err OutOfFuel
      | S fuel' =>
          let? o := deref m l in
          let? ls := STAILQ_FOREACH fuel' m (stqe_next o) in
          Ok (l :: ls)
      end
  end.

(** ** Representation *)

(** From [p] the [next] pointers lead through [xs] to [e]. *)
Fixpoint chain m (p : option loc) (xs : list loc) (e : option loc) : Prop :=
  match xs with
  | [] => p = e
  | x :: xs' => p = Some x /\ exists o, m !! x = Some o /\ chain m (stqe_next o) xs' e
  end.

Definition last_of (xs : list loc) : lastp :=
  match last xs with None => AtHead | Some l => AtNext l end.

Definition stq_rep q m (xs : list loc) : Prop :=
  chain m (stqh_first q) xs None /\ stqh_last q = last_of xs /\ NoDup xs.

Lemma chain_app m p xs ys e :
  chain m p (xs ++ ys) e <-> exists mid, chain m p xs mid /\ chain m mid ys e.
Proof.
  revert p. induction xs as [|x xs IH]; intros p; simpl.
  - split; [eauto|]. by intros (mid & -> & ?).
  - split.
    + intros (-> & o & Hx & Hc). apply IH in Hc as (mid & H1 & H2). eauto 10.
    + intros (mid & (-> & o & Hx & Hc) & H2). split; [done|]. exists o. split; [done|].
      apply IH. eauto.
Qed.

Lemma chain_ext m m' p xs e :
  (forall x, x ∈ xs -> m' !! x = m !! x) -> chain m p xs e -> chain m' p xs e.
Proof.
  revert p. induction xs as [|x xs IH]; intros p Hext; simpl; [done|].
  intros (-> & o & Hx & Hc). split; [done|]. exists o. split.
  - rewrite Hext; [done|]. by left.
  - apply IH; [|done]. intros y Hy. apply Hext. by right.
Qed.

Lemma chain_insert m p xs e x o :
  x ∉ xs -> chain m p xs e -> chain (<[x := o]> m) p xs e.
Proof.
  intros Hx. apply chain_ext. intros y Hy. apply lookup_insert_ne. by intros ->.
Qed.

Lemma chain_elem m p xs e x : chain m p xs e -> x ∈ xs -> is_Some (m !! x).
Proof.
  revert p. induction xs as [|y xs IH]; intros p; simpl.
  - intros _ Hx. by apply not_elem_of_nil in Hx.
  - intros (-> & o & Hy & Hc) [->|Hx]%elem_of_cons; eauto.
Qed.

Lemma stq_rep_ext q m m' xs :
  (forall x, x ∈ xs -> m' !! x = m !! x) -> stq_rep q m xs -> stq_rep q m' xs.
Proof. intros Hext (Hc & Hl & Hn). split; [by eapply chain_ext|done]. Qed.

(** Changing an object outside its [next] field keeps every queue. *)
Lemma chain_update m p xs e x o o' :
  m !! x = Some o -> stqe_next o' = stqe_next o -> chain m p xs e -> chain (<[x := o']> m) p xs e.
Proof.
  intros Hx Hn. revert p. induction xs as [|y xs IH]; intros p; simpl; [done|].
  intros (-> & oy & Hy & Hc). split; [done|]. destruct (decide (x = y)) as [->|Hne].
  - exists o'. rewrite lookup_insert_eq. split; [done|]. apply IH. rewrite Hn. by simplify_eq.
  - exists oy. rewrite lookup_insert_ne by done. split; [done|]. by apply IH.
Qed.

Lemma stq_rep_update q m xs x o o' :
  m !! x = Some o -> stqe_next o' = stqe_next o ->
  stq_rep q m xs -> stq_rep q (<[x := o']> m) xs.
Proof. intros Hx Hn (Hc & Hl & Hd). split; [by eapply chain_update|done]. Qed.

Lemma STAILQ_INIT_spec m : stq_rep STAILQ_INIT m [].
Proof. repeat split. constructor. Qed.

Lemma STAILQ_EMPTY_spec q m xs :
  stq_rep q m xs -> STAILQ_EMPTY q = true <-> xs = [].
Proof.
  intros (Hc & _ & _). unfold STAILQ_EMPTY. destruct xs as [|x xs]; simpl in Hc.
  - by rewrite Hc.
  - destruct Hc as [-> _]. done.
Qed.

(** Redirecting the last [next] pointer of a queue extends its chain. *)
Lemma write_last_spec q m xs p :
  stq_rep q m xs ->
  exists q' m', write_last q m p = Ok (q', m') /\ chain m' (stqh_first q') xs p /\
    (forall x, last xs <> Some x -> m' !! x = m !! x) /\
    (forall l o, last xs = Some l -> m !! l = Some o -> m' !! l = Some (set_next p o)) /\
    dom m' = dom m.
Proof.
  intros (Hc & Hl & Hn). unfold write_last. rewrite Hl. unfold last_of.
  destruct (last xs) as [l|] eqn:El.
  - apply last_Some in El as [ys ->]. apply chain_app in Hc as (mid & Hc1 & Hc2).
    simpl in Hc2. destruct Hc2 as (-> & o & Ho & _).
    unfold deref. rewrite Ho. simpl. eexists _, _. split; [done|]. split; [|split; [|split]].
    + apply chain_app. exists (Some l). split.
      * apply chain_insert; [|done]. apply NoDup_app in Hn as (_ & Hn & _).
        intros Hin. by apply (Hn l Hin), list_elem_of_singleton.
      * simpl. split; [done|]. eexists. rewrite lookup_insert_eq. split; [done|].
        by rewrite next_set.
    + intros x Hx. apply lookup_insert_ne. congruence.
    + intros l' o' [= <-] Ho'. rewrite lookup_insert_eq. by simplify_eq.
    + apply dom_insert_lookup_L. eauto.
  - apply last_None in El as ->. eexists _, _. split; [done|]. split; [done|].
    split; [done|]. split; [done|]. done.
Qed.

(** Inserting a fresh object at the tail. *)
Lemma STAILQ_INSERT_TAIL_spec q m xs elm o :
  stq_rep q m xs -> elm ∉ xs -> m !! elm = Some o ->
  exists q' m', STAILQ_INSERT_TAIL q elm m = Ok (q', m') /\ stq_rep q' m' (xs ++ [elm]) /\
    m' !! elm = Some (set_next None o) /\
    (forall x, x <> elm -> last xs <> Some x -> m' !! x = m !! x) /\
    (forall l o', last xs = Some l -> m !! l = Some o' ->
                  m' !! l = Some (set_next (Some elm) o')) /\
    dom m' = dom m.
Proof.
  intros Hr Hx Ho. unfold STAILQ_INSERT_TAIL, deref. rewrite Ho. simpl.
  assert (Hr' : stq_rep q (<[elm := set_next None o]> m) xs).
  { eapply stq_rep_ext; [|done]. intros y Hy. apply lookup_insert_ne. by intros ->. }
  destruct (write_last_spec _ _ _ (Some elm) Hr') as (q' & m' & Hw & Hc & Hfr & Hlast & Hdom).
  rewrite Hw. simpl. eexists _, _. split; [done|].
  assert (Hne : last xs <> Some elm).
  { intros Hl. apply Hx. apply last_Some in Hl as [ys ->]. set_solver. }
  assert (He : m' !! elm = Some (set_next None o)).
  { rewrite Hfr by done. apply lookup_insert_eq. }
  split; [split; [|split]|split; [|split; [|split]]].
  - apply chain_app. exists (Some elm). split; [done|]. simpl. split; [done|].
    eexists. split; [done|]. apply next_set.
  - unfold last_of. by rewrite last_snoc.
  - apply NoDup_app. destruct Hr as (_ & _ & Hn). split; [done|]. split.
    + set_solver.
    + apply NoDup_singleton.
  - done.
  - intros x Hxe Hxl. rewrite Hfr by done. by apply lookup_insert_ne.
  - intros l o' Hl Ho'. apply Hlast; [done|].
    rewrite lookup_insert_ne; [done|]. intros ->. by apply Hne.
  - rewrite Hdom. apply dom_insert_lookup_L. eauto.
Qed.

Lemma STAILQ_INSERT_HEAD_spec q m xs elm o :
  stq_rep q m xs -> elm ∉ xs -> m !! elm = Some o ->
  exists q' m', STAILQ_INSERT_HEAD q elm m = Ok (q', m') /\ stq_rep q' m' (elm :: xs) /\
    (forall x, x <> elm -> m' !! x = m !! x) /\ dom m' = dom m.
Proof.
  intros (Hc & Hl & Hn) Hx Ho. unfold STAILQ_INSERT_HEAD, deref. rewrite Ho. simpl.
  eexists _, _. split; [done|]. split; [split; [|split]|].
  - simpl. split; [done|]. eexists. rewrite lookup_insert_eq. split; [done|].
    rewrite next_set. by apply chain_insert.
  - simpl. destruct xs as [|y ys]; simpl in Hc.
    + by rewrite Hc.
    + destruct Hc as [-> _]. rewrite Hl. unfold last_of. by rewrite last_cons_cons.
  - by constructor.
  - split; [intros x Hne; by apply lookup_insert_ne|].
    apply dom_insert_lookup_L. eauto.
Qed.

Lemma STAILQ_REMOVE_HEAD_spec q m x xs :
  stq_rep q m (x :: xs) ->
  exists q', STAILQ_REMOVE_HEAD q m = Ok q' /\ stq_rep q' m xs.
Proof.
  intros (Hc & Hl & Hn). simpl in Hc. destruct Hc as (Hf & o & Ho & Hc).
  unfold STAILQ_REMOVE_HEAD, deref_opt, deref. rewrite Hf, Ho. simpl.
  eexists. split; [done|]. split; [done|]. inv Hn. split; [|done]. simpl.
  destruct xs as [|y ys]; simpl in Hc.
  - by rewrite Hc.
  - destruct Hc as [-> _]. rewrite Hl. unfold last_of. by rewrite last_cons_cons.
Qed.

Lemma find_prev_spec m elm xs ys p fuel :
  chain m p (xs ++ elm :: ys) None -> xs <> [] -> NoDup (xs ++ elm :: ys) ->
  (length xs <= fuel)%nat ->
  exists xs' cur co, xs = xs' ++ [cur] /\ m !! cur = Some co /\
    stqe_next co = Some elm /\ find_prev fuel m p elm = Ok (cur, co).
Proof.
  revert p fuel. induction xs as [|x xs IH]; intros p fuel Hc Hne Hn Hf; [done|].
  destruct fuel as [|fuel]; simpl in Hf; [lia|].
  simpl in Hc. destruct Hc as (-> & o & Ho & Hc). simpl. unfold deref. rewrite Ho. simpl.
  destruct xs as [|y xs].
  - simpl in Hc. destruct Hc as (Hnx & _). exists [], x, o. rewrite decide_True by done. done.
  - simpl in Hc. destruct Hc as (Hnx & Hc).
    rewrite decide_False.
    2:{ rewrite Hnx. intros [= ->]. apply NoDup_cons in Hn as [_ Hn].
        apply NoDup_cons in Hn as [Hn _]. apply Hn. set_solver. }
    destruct (IH (stqe_next o) fuel) as (xs' & cur & co & Hxs & Hcur & Hnext & Hfind);
      try done.
    + by apply NoDup_cons in Hn as [_ Hn].
    + simpl in *. lia.
    + exists (x :: xs'), cur, co. rewrite Hxs. done.
Qed.

Lemma chain_size m p xs e : chain m p xs e -> NoDup xs -> (length xs <= size m)%nat.
Proof.
  intros Hc Hn. rewrite <- (size_list_to_set (C := gset loc) xs) by done.
  rewrite <- size_dom. apply subseteq_size. intros x Hx.
  apply elem_of_list_to_set in Hx. apply elem_of_dom. by eapply chain_elem.
Qed.

Lemma STAILQ_REMOVE_spec q m xs elm ys :
  stq_rep q m (xs ++ elm :: ys) ->
  exists q' m', STAILQ_REMOVE q elm m = Ok (q', m') /\ stq_rep q' m' (xs ++ ys) /\
    (forall x, last xs <> Some x -> m' !! x = m !! x) /\
    dom m' = dom m.
Proof.
  intros Hr. pose proof Hr as (Hc & Hl & Hn). unfold STAILQ_REMOVE.
  destruct xs as [|x0 xs0] eqn:Exs.
  - simpl in *. destruct Hc as (Hf & _). rewrite decide_True by done.
    destruct (STAILQ_REMOVE_HEAD_spec q m elm ys Hr) as (q' & Hq & Hr').
    rewrite Hq. simpl. eexists _, _. split; [done|]. done.
  - rewrite <- Exs in *. assert (Hne : xs <> []) by (by rewrite Exs). clear Exs x0 xs0.
    assert (Hff : stqh_first q <> Some elm).
    { destruct xs as [|x xs]; [done|]. simpl in *. destruct Hc as [-> _]. intros [= ->].
      apply NoDup_cons in Hn as [Hn _]. set_solver. }
    rewrite decide_False by done.
    pose proof (chain_size _ _ _ _ Hc Hn) as Hsz. rewrite length_app in Hsz.
    destruct (find_prev_spec m elm xs ys (stqh_first q) (S (size m)))
      as (xs' & cur & co & -> & Hcur & Hnext & Hfind); try done; [lia|].
    rewrite Hfind. simpl. apply chain_app in Hc as (mid & Hc1 & Hc2).
    simpl in Hc2. destruct Hc2 as (-> & eo & He & Hc2).
    unfold deref. rewrite He. simpl. eexists _, _. split; [done|].
    apply chain_app in Hc1 as (mid & Hc1 & Hcc). simpl in Hcc. destruct Hcc as (-> & _).
    rewrite <- app_assoc in Hn. simpl in Hn.
    assert (Hcx : cur ∉ xs' /\ cur ∉ ys /\ cur <> elm).
    { apply NoDup_app in Hn as (_ & Hd & Hn2). apply NoDup_cons in Hn2 as [Hn2 _]. set_solver. }
    destruct Hcx as (Hcx & Hcy & Hce).
    split; [split; [|split]|split].
    + simpl. rewrite <- app_assoc. apply chain_app. exists (Some cur).
      split; [by apply chain_insert|]. simpl. split; [done|]. eexists.
      rewrite lookup_insert_eq. split; [done|]. rewrite next_set. by apply chain_insert.
    + simpl. rewrite Hl. destruct ys as [|y ys]; simpl in Hc2.
      * rewrite Hc2. unfold last_of. by rewrite app_nil_r, last_snoc.
      * destruct Hc2 as [-> _]. unfold last_of.
        rewrite !last_app. rewrite last_cons_cons. done.
    + rewrite <- app_assoc. simpl. apply NoDup_app in Hn as (Hn1 & Hd & Hn2).
      apply NoDup_app. split; [done|]. inv Hn2. inv H3. split; [set_solver|].
      constructor; [set_solver|done].
    + intros x Hx. rewrite last_snoc in Hx. apply lookup_insert_ne. congruence.
    + apply dom_insert_lookup_L. eauto.
Qed.

Lemma STAILQ_CONCAT_spec q1 q2 m xs ys :
  stq_rep q1 m xs -> stq_rep q2 m ys -> (forall x, x ∈ xs -> x ∉ ys) ->
  exists q1' q2' m', STAILQ_CONCAT q1 q2 m = Ok (q1', q2', m') /\
    stq_rep q1' m' (xs ++ ys) /\ stq_rep q2' m' [] /\
    (forall x, last xs <> Some x -> m' !! x = m !! x).
Proof.
  intros Hr1 Hr2 Hd. unfold STAILQ_CONCAT.
  destruct (STAILQ_EMPTY q2) eqn:He.
  - pose proof (proj1 (STAILQ_EMPTY_spec _ _ _ Hr2) He) as ->.
    eexists _, _, _. split; [done|]. rewrite app_nil_r. done.
  - destruct (write_last_spec q1 m xs (stqh_first q2) Hr1) as (q' & m' & Hw & Hc & Hfr & _).
    rewrite Hw. simpl. eexists _, _, _. split; [done|].
    destruct Hr1 as (_ & _ & Hn1), Hr2 as (Hc2 & Hl2 & Hn2).
    assert (Hys : ys <> []).
    { intros ->. simpl in Hc2. unfold STAILQ_EMPTY in He. by rewrite Hc2 in He. }
    split; [split; [|split]|split; [apply STAILQ_INIT_spec|done]].
    + apply chain_app. exists (stqh_first q2). split; [done|].
      eapply chain_ext; [|done]. intros x Hx. apply Hfr. intros Hlast.
      apply last_Some in Hlast as [zs ->]. apply (Hd x); [set_solver|done].
    + simpl. rewrite Hl2. unfold last_of. rewrite last_app.
      destruct (last ys) eqn:E; [done|]. by apply last_None in E.
    + apply NoDup_app. eauto.
Qed.

Lemma STAILQ_INSERT_AFTER_spec q m xs listelm ys elm o :
  stq_rep q m (xs ++ listelm :: ys) -> elm ∉ xs ++ listelm :: ys -> m !! elm = Some o ->
  exists q' m', STAILQ_INSERT_AFTER q listelm elm m = Ok (q', m') /\
    stq_rep q' m' (xs ++ listelm :: elm :: ys) /\
    (forall x, x <> elm -> x <> listelm -> m' !! x = m !! x) /\ dom m' = dom m.
Proof.
  intros (Hc & Hl & Hn) Hx Ho. unfold STAILQ_INSERT_AFTER, deref. rewrite Ho. simpl.
  apply chain_app in Hc as (mid & Hc1 & Hc2). simpl in Hc2.
  destruct Hc2 as (-> & lo & Hlo & Hc2). rewrite Hlo. simpl.
  assert (Hne : elm <> listelm /\ elm ∉ xs /\ elm ∉ ys) by set_solver.
  destruct Hne as (Hne & Hex & Hey).
  apply NoDup_app in Hn as (Hn1 & Hd & Hn2). apply NoDup_cons in Hn2 as [Hly Hn2].
  assert (Hlx : listelm ∉ xs) by (intros Hin; apply (Hd _ Hin); set_solver).
  rewrite lookup_insert_ne, Hlo by done. simpl. eexists _, _. split; [done|].
  split; [split; [|split]|split].
  - apply chain_app. exists (Some listelm). split; [by do 2 (apply chain_insert; [done|])|].
    simpl. split; [done|]. eexists. rewrite lookup_insert_eq. split; [done|].
    rewrite next_set. split; [done|]. eexists.
    rewrite lookup_insert_ne, lookup_insert_eq by done. split; [done|].
    rewrite next_set. by do 2 (apply chain_insert; [done|]).
  - simpl. destruct ys as [|y ys]; simpl in Hc2.
    + rewrite Hc2. unfold last_of. rewrite last_app. done.
    + destruct Hc2 as [-> _]. rewrite Hl. unfold last_of. rewrite !last_app. done.
  - apply NoDup_app. split; [done|]. split; [set_solver|].
    constructor; [set_solver|]. by constructor.
  - intros x H1 H2. by rewrite !lookup_insert_ne.
  - rewrite !dom_insert_lookup_L; [done|by rewrite Ho|].
    rewrite lookup_insert_ne by done. by rewrite Hlo.
Qed.

Lemma STAILQ_FOREACH_spec m p xs fuel :
  chain m p xs None -> (length xs <= fuel)%nat -> STAILQ_FOREACH fuel m p = Ok xs.
Proof.
  revert p fuel. induction xs as [|x xs IH]; intros p fuel Hc Hf; simpl in Hc.
  - subst. by destruct fuel.
  - destruct Hc as (-> & o & Ho & Hc). destruct fuel as [|fuel]; simpl in *; [lia|].
    unfold deref. rewrite Ho. simpl. rewrite (IH _ fuel) by (done || lia). done.
Qed.
End Macros.

(** ** Queues of abstract values

    [list_rep P key m q vs]: the queue [q] holds, in order, the objects at the
    locations [key v] of the values [vs], and each object is described by its
    value through [P].  [P] does not look at the [next] field. *)
Section ListRep.
Context {T : Type} `{Linked T} {V : Type}.
Context (P : V -> T -> Prop) (key : V -> loc).

Definition obj_rep (m : gmap loc T) (v : V) : Prop := exists o, m !! key v = Some o /\ P v o.

Definition list_rep (m : gmap loc T) (q : stailq) (vs : list V) : Prop :=
  stq_rep q m (key <$> vs) /\ Forall (obj_rep m) vs.

Lemma list_rep_init m : list_rep m STAILQ_INIT [].
Proof. split; [apply STAILQ_INIT_spec|constructor]. Qed.

Lemma list_rep_ext m m' q vs :
  (forall v, v ∈ vs -> m' !! key v = m !! key v) -> list_rep m q vs -> list_rep m' q vs.
Proof.
  intros Hext (Hr & Hf). split.
  - eapply stq_rep_ext; [|done]. intros x (v & -> & Hv)%list_elem_of_fmap. by apply Hext.
  - apply Forall_forall. intros v Hv. rewrite Forall_forall in Hf.
    destruct (Hf v Hv) as (o & Ho & HP). exists o. by rewrite Hext.
Qed.

Lemma list_rep_foreach m q vs fuel :
  list_rep m q vs -> (length vs <= fuel)%nat ->
  STAILQ_FOREACH fuel m (stqh_first q) = Ok (key <$> vs).
Proof.
  intros ((Hc & _ & _) & _) Hf. apply STAILQ_FOREACH_spec; [done|]. by rewrite length_fmap.
Qed.

Lemma list_rep_size m q vs : list_rep m q vs -> (length vs <= size m)%nat.
Proof.
  intros ((Hc & _ & Hn) & _). pose proof (chain_size _ _ _ _ Hc Hn) as Hs.
  by rewrite length_fmap in Hs.
Qed.

Context (P_next : forall v p o, P v o -> P v (set_next p o)).

Lemma list_rep_insert_tail m q vs v o :
  list_rep m q vs -> key v ∉ key <$> vs -> m !! key v = Some o -> P v o ->
  exists q' m', STAILQ_INSERT_TAIL q (key v) m = Ok (q', m') /\
    list_rep m' q' (vs ++ [v]) /\ dom m' = dom m /\
    (forall l, l ∉ key <$> (vs ++ [v]) -> m' !! l = m !! l).
Proof using P_next.
  intros (Hr & Hf) Hv Ho HP.
  destruct (STAILQ_INSERT_TAIL_spec q m (key <$> vs) (key v) o Hr Hv Ho)
    as (q' & m' & Hi & Hr' & Hn & Hfr & Hl & Hdom).
  exists q', m'. split; [done|].
  assert (Hobj : Forall (obj_rep m') vs).
  { apply Forall_forall. intros w Hw. rewrite Forall_forall in Hf.
    destruct (Hf w Hw) as (ow & How & HPw).
    assert (Hwv : key w <> key v).
    { intros E. apply Hv. rewrite <- E. by apply list_elem_of_fmap_2. }
    destruct (decide (last (key <$> vs) = Some (key w))) as [El|El].
    - exists (set_next (Some (key v)) ow). split; [by apply Hl|by apply P_next].
    - exists ow. split; [|done]. by rewrite Hfr. }
  split; [split|split].
  - by rewrite fmap_app.
  - apply Forall_app. split; [done|]. constructor; [|constructor].
    exists (set_next None o). split; [done|by apply P_next].
  - done.
  - intros l Hx. rewrite fmap_app in Hx. apply Hfr.
    + intros ->. apply Hx. set_solver.
    + intros El. apply Hx. apply last_Some in El as [ys ->]. set_solver.
Qed.

Lemma list_rep_remove_head m q v vs :
  list_rep m q (v :: vs) ->
  stqh_first q = Some (key v) /\
  exists q', STAILQ_REMOVE q (key v) m = Ok (q', m) /\ list_rep m q' vs.
Proof.
  intros (Hr & Hf). assert (Hq : stqh_first q = Some (key v)) by apply Hr.
  split; [done|]. inv Hf. destruct (STAILQ_REMOVE_HEAD_spec _ _ _ _ Hr) as (q' & Hq' & Hr').
  exists q'. unfold STAILQ_REMOVE. rewrite decide_True by done. rewrite Hq'. done.
Qed.

End ListRep.

(** ** Sequences of queue operations *)
Section Ops.
Context {T : Type} `{Linked T}.

Inductive qop : Type :=
| QInsertHead (elm : loc)
| QInsertTail (elm : loc)
| QInsertAfter (listelm elm : loc)
| QRemoveHead
| QRemove (elm : loc).

(** One macro call on a queue head and the store. *)
Definition run_op (o : qop) (q : stailq) (m : gmap loc T) : res (stailq * gmap loc T) :=
  match o with
  | QInsertHead elm => STAILQ_INSERT_HEAD q elm m
  | QInsertTail elm => STAILQ_INSERT_TAIL q elm m
  | QInsertAfter listelm elm => STAILQ_INSERT_AFTER q listelm elm m
  | QRemoveHead => let? q := STAILQ_REMOVE_HEAD q m in Ok (q, m)
  | QRemove elm => STAILQ_REMOVE q elm m
  end.

Fixpoint run_ops (os : list qop) (q : stailq) (m : gmap loc T) : res (stailq * gmap loc T) :=
  match os with
  | [] => Ok (q, m)
  | o :: os' => let? '(q, m) := run_op o q m in run_ops os' q m
  end.

Fixpoint insert_after (listelm elm : loc) (xs : list loc) : list loc :=
  match xs with
  | [] => []
  | x :: xs' => if decide (x = listelm) then x :: elm :: xs' else x :: insert_after listelm elm xs'
  end.

Fixpoint remove_first (elm : loc) (xs : list loc) : list loc :=
  match xs with
  | [] => []
  | x :: xs' => if decide (x = elm) then xs' else x :: remove_first elm xs'
  end.

(** The list operation a macro stands for, and when it may be used: only
    allocated elements outside the queue go in, only elements of it come out. *)
Definition list_op (D : gset loc) (o : qop) (xs : list loc) : option (list loc) :=
  match o with
  | QInsertHead elm => if decide (elm ∈ D /\ elm ∉ xs) then Some (elm :: xs) else None
  | QInsertTail elm => if decide (elm ∈ D /\ elm ∉ xs) then Some (xs ++ [elm]) else None
  | QInsertAfter listelm elm =>
      if decide (elm ∈ D /\ elm ∉ xs /\ listelm ∈ xs) then Some (insert_after listelm elm xs)
      else None
  | QRemoveHead => match xs with [] => None | _ :: xs' => Some xs' end
  | QRemove elm => if decide (elm ∈ xs) then Some (remove_first elm xs) else None
  end.

Fixpoint list_ops (D : gset loc) (os : list qop) (xs : list loc) : option (list loc) :=
  match os with
  | [] => Some xs
  | o :: os' => match list_op D o xs with Some xs' => list_ops D os' xs' | None => None end
  end.

Lemma insert_after_split l1 listelm l2 elm :
  listelm ∉ l1 -> insert_after listelm elm (l1 ++ listelm :: l2) = l1 ++ listelm :: elm :: l2.
Proof.
  induction l1 as [|x l1 IH]; simpl; intros Hx.
  - by rewrite decide_True.
  - rewrite decide_False by set_solver. rewrite IH; [done|set_solver].
Qed.

Lemma remove_first_split l1 elm l2 :
  elm ∉ l1 -> remove_first elm (l1 ++ elm :: l2) = l1 ++ l2.
Proof.
  induction l1 as [|x l1 IH]; simpl; intros Hx.
  - by rewrite decide_True.
  - rewrite decide_False by set_solver. rewrite IH; [done|set_solver].
Qed.

Lemma NoDup_split_at (x : loc) xs :
  x ∈ xs -> NoDup xs -> exists l1 l2, xs = l1 ++ x :: l2 /\ (x ∉ l1).
Proof.
  intros (l1 & l2 & ->)%list_elem_of_split Hn. exists l1, l2. split; [done|].
  apply NoDup_app in Hn as (_ & Hd & _). intros Hx. apply (Hd x Hx). set_solver.
Qed.

Lemma run_op_spec o q m xs xs' :
  stq_rep q m xs -> list_op (dom m) o xs = Some xs' ->
  exists q' m', run_op o q m = Ok (q', m') /\ stq_rep q' m' xs' /\ dom m' = dom m.
Proof.
  intros Hr. pose proof Hr as (_ & _ & Hn).
  destruct o as [e|e|le e| |e]; simpl; repeat case_decide; intros E; simplify_eq.
  - destruct H0 as [[o Ho]%elem_of_dom Hx].
    destruct (STAILQ_INSERT_HEAD_spec _ _ _ _ _ Hr Hx Ho) as (q' & m' & ? & ? & _ & ?). eauto.
  - destruct H0 as [[o Ho]%elem_of_dom Hx].
    destruct (STAILQ_INSERT_TAIL_spec _ _ _ _ _ Hr Hx Ho) as (q' & m' & ? & ? & _ & _ & _ & ?).
    eauto.
  - destruct H0 as ([o Ho]%elem_of_dom & Hx & Hl).
    destruct (NoDup_split_at le xs Hl Hn) as (l1 & l2 & -> & Hl1).
    rewrite insert_after_split by done.
    destruct (STAILQ_INSERT_AFTER_spec _ _ _ _ _ _ _ Hr Hx Ho) as (q' & m' & ? & ? & _ & ?).
    eauto.
  - destruct xs as [|x xs]; simplify_eq.
    destruct (STAILQ_REMOVE_HEAD_spec _ _ _ _ Hr) as (q' & -> & ?). simpl. eauto.
  - destruct (NoDup_split_at e xs H0 Hn) as (l1 & l2 & -> & Hl1).
    rewrite remove_first_split by done.
    destruct (STAILQ_REMOVE_spec _ _ _ _ _ Hr) as (q' & m' & ? & ? & _ & ?). eauto.
Qed.

(** C13: the STAILQ macros implement lists.  Any sequence of insertions and
    removals that respects the callers' obligations runs on the pointers without
    a fault, and the queue then holds exactly the elements of the list on which the
    corresponding list operations were done; its last-pointer is right again. *)
Theorem STAILQ_implements_list os q m xs xs' :
  stq_rep q m xs -> list_ops (dom m) os xs = Some xs' ->
  exists q' m', run_ops os q m = Ok (q', m') /\ stq_rep q' m' xs' /\
    STAILQ_FOREACH (size m') m' (STAILQ_FIRST q') = Ok xs'.
Proof.
  revert q m xs. induction os as [|o os IH]; intros q m xs Hr; simpl.
  - intros [= <-]. eexists _, _. split; [done|]. split; [done|].
    destruct Hr as (Hc & Hl & Hn). apply STAILQ_FOREACH_spec; [done|].
    by eapply chain_size.
  - destruct (list_op (dom m) o xs) as [xs1|] eqn:Eo; [|done]. intros Hs.
    destruct (run_op_spec o q m xs xs1 Hr Eo) as (q1 & m1 & -> & Hr1 & Hd). simpl.
    apply (IH q1 m1 xs1); [done|]. by rewrite Hd.
Qed.
End Ops.

(** A bare list node. *)
#[export] Instance linked_node : Linked (option loc).
Proof. by refine {| stqe_next := fun o => o; set_next := fun p _ => p |}. Defined.

Lemma STAILQ_implements_list_witness :
  let m : gmap loc (option loc) := {[1%positive := None; 2%positive := None; 3%positive := None]} in
  let os := [QInsertTail 1; QInsertHead 2; QInsertAfter 2 3; QRemove 1; QInsertTail 1;
             QRemoveHead]%positive in
  exists q' m', run_ops os STAILQ_INIT m = Ok (q', m') /\ stq_rep q' m' [3; 1]%positive /\
    STAILQ_FOREACH (size m') m' (STAILQ_FIRST q') = Ok [3; 1]%positive.
Proof.
  intros m os. apply (STAILQ_implements_list os STAILQ_INIT m []).
  - apply STAILQ_INIT_spec.
  - vm_compute. reflexivity.
Defined.
