(* ===== verification/CString.v ===== *)
(** * C strings and the library functions the sources use on them

    A C string is the list of its bytes before the terminating NUL; a pointer into
    a string is the rest of it from there.  Reading the terminator gives 0,
    reading behind it is out of bounds.  Character classes are those of the C
    locale. *)

From S2P Require Import Prelude.
From stdpp Require Export strings.
Open Scope Z_scope.
Local Open Scope ps2rd_scope.

Abbreviation cstring := (list Z).

(** A string literal. *)
Definition str (s : string) : cstring :=
  (fun a => Z.of_N (Ascii.N_of_ascii a)) <$> String.list_ascii_of_string s.

(** The C string stored in a char array: the bytes before the first NUL. *)
Fixpoint cstr (b : list Z) : cstring :=
  match b with
  | [] => []
  | c :: b' => if c =? 0 then [] else c :: cstr b'
  end.

(** Reading a char array as a string; without a terminator the read leaves it. *)
Definition c_string (b : list Z) : res cstring :=
  if bool_decide (0 ∈ b) then Ok (cstr b) else Err OutOfBounds.

(** No NUL inside: what every C string satisfies. *)
Definition nul_free (s : cstring) : Prop := Forall (fun c => c <> 0) s.

(** [s[i]], terminator included. *)
Definition char_at (s : cstring) (i : Z) : res Z :=
  if (0 <=? i) && (i <? Z.of_nat (length s)) then Ok (nth (Z.to_nat i) s 0)
  else if i =? Z.of_nat (length s) then Ok 0
  else Err OutOfBounds.

Definition strlen (s : cstring) : Z := Z.of_nat (length s).

(** ** ctype.h *)
Definition isspace (c : Z) : bool := (c =? 32) || ((9 <=? c) && (c <=? 13)).
Definition isdigit (c : Z) : bool := (48 <=? c) && (c <=? 57).
Definition isxdigit (c : Z) : bool :=
  isdigit c || ((65 <=? c) && (c <=? 70)) || ((97 <=? c) && (c <=? 102)).
Definition isgraph (c : Z) : bool := (33 <=? c) && (c <=? 126).

(** ** string.h *)

Definition strcmp_eq (s1 s2 : cstring) : bool := bool_decide (s1 = s2).

(** [!strncmp(s, t, n)] *)
Definition strncmp_eq (s t : cstring) (n : nat) : bool := bool_decide (take n s = take n t).

(** [strncpy(dst, src, n)] on the first [n] bytes of an array: the string, cut to
    [n] bytes or padded with NULs. *)
Definition strncpy (dst : list Z) (src : cstring) (n : nat) : list Z :=
  take n src ++ replicate (n - length src) 0 ++ drop n dst.

(** [strstr]: the rest of [s] from the first occurrence of [t]. *)
Fixpoint strstr (s t : cstring) : option cstring :=
  if bool_decide (take (length t) s = t) then Some s
  else match s with
       | [] => None
       | _ :: s' => strstr s' t
       end.

(** [strtok] with the separators [sep]: the tokens of the whole string. *)
Fixpoint span_tok (sep : cstring) (s : cstring) : cstring * cstring :=
  match s with
  | [] => ([], [])
  | c :: s' => if bool_decide (c ∈ sep) then ([], s)
               else let '(t, r) := span_tok sep s' in (c :: t, r)
  end.

Fixpoint skip_sep (sep : cstring) (s : cstring) : cstring :=
  match s with
  | [] => []
  | c :: s' => if bool_decide (c ∈ sep) then skip_sep sep s' else s
  end.

Fixpoint strtok_all (fuel : nat) (sep : cstring) (s : cstring) : list cstring :=
  match fuel with
  | O => []
  | S fuel' =>
      match skip_sep sep s with
      | [] => []
      | s' => let '(t, r) := span_tok sep s' in t :: strtok_all fuel' sep r
      end
  end.

(** All tokens [strtok] yields; the length of the string is fuel enough. *)
Definition strtok (sep s : cstring) : list cstring := strtok_all (length s) sep s.

(** ** Hexadecimal numbers: [%08X] of printf and of scanf *)

Definition hex_digit (d : Z) : Z := if d <? 10 then 48 + d else 55 + d.

Definition digit_val (c : Z) : Z :=
  if isdigit c then c - 48
  else if (65 <=? c) && (c <=? 70) then c - 55
  else c - 87.

Fixpoint hex_digits (n : nat) (x : Z) : cstring :=
  match n with
  | O => []
  | S n' => hex_digits n' (x / 16) ++ [hex_digit (x mod 16)]
  end.

(** printf("%08X", x) for a 32-bit [x]. *)
Definition print_08X (x : Z) : cstring := hex_digits 8 x.

(** The value of a string of hexadecimal digits. *)
Definition hex_value (s : cstring) : Z :=
  fold_left (fun acc c => 16 * acc + digit_val c) s 0.

(** ** Lemmas *)

Lemma cstr_nul_free b : nul_free (cstr b).
Proof.
  induction b as [|c b IH]; simpl; [constructor|].
  destruct (Z.eqb_spec c 0); [constructor|]. by constructor.
Qed.

Lemma cstr_app_nul s b : nul_free s -> cstr (s ++ 0 :: b) = s.
Proof.
  induction 1 as [|c s Hc Hs IH]; simpl; [done|].
  destruct (Z.eqb_spec c 0); [done|]. by rewrite IH.
Qed.

Lemma cstr_id s : nul_free s -> cstr s = s.
Proof.
  induction 1 as [|c s Hc Hs IH]; simpl; [done|].
  destruct (Z.eqb_spec c 0); [done|]. by rewrite IH.
Qed.

Lemma length_strncpy dst src n : (n <= length dst)%nat -> length (strncpy dst src n) = length dst.
Proof.
  intros. unfold strncpy. rewrite !length_app, length_take, length_replicate, length_drop. lia.
Qed.

(** A string shorter than the array part is stored whole and terminated. *)
Lemma cstr_strncpy dst src n :
  nul_free src -> (length src < n)%nat -> cstr (strncpy dst src n) = src.
Proof.
  intros Hs Hn. unfold strncpy. rewrite take_ge by lia.
  destruct (n - length src)%nat as [|k] eqn:E; [lia|]. simpl. by apply cstr_app_nul.
Qed.

Lemma c_string_strncpy dst src n :
  nul_free src -> (length src < n)%nat -> c_string (strncpy dst src n) = Ok src.
Proof.
  intros Hs Hn. unfold c_string. rewrite cstr_strncpy by done.
  rewrite bool_decide_eq_true_2; [done|]. unfold strncpy.
  destruct (n - length src)%nat as [|k] eqn:E; [lia|]. simpl. set_solver.
Qed.

Lemma nul_free_app s t : nul_free (s ++ t) <-> nul_free s /\ nul_free t.
Proof. apply Forall_app. Qed.

Lemma nul_free_take n s : nul_free s -> nul_free (take n s).
Proof. apply Forall_take. Qed.
Lemma nul_free_drop n s : nul_free s -> nul_free (drop n s).
Proof. apply Forall_drop. Qed.

Lemma hex_digit_spec d :
  0 <= d < 16 ->
  isxdigit (hex_digit d) = true /\ digit_val (hex_digit d) = d /\ hex_digit d <> 0.
Proof.
  intros H. assert (d = 0 \/ d = 1 \/ d = 2 \/ d = 3 \/ d = 4 \/ d = 5 \/ d = 6 \/ d = 7 \/
    d = 8 \/ d = 9 \/ d = 10 \/ d = 11 \/ d = 12 \/ d = 13 \/ d = 14 \/ d = 15) as Hc by lia.
  repeat destruct Hc as [->|Hc]; try subst d; vm_compute; done.
Qed.

Lemma length_hex_digits n x : length (hex_digits n x) = n.
Proof.
  revert x. induction n as [|n IH]; intros x; simpl; [done|].
  rewrite length_app, IH. simpl. lia.
Qed.

Lemma hex_digits_xdigit n x : Forall (fun c => isxdigit c = true) (hex_digits n x).
Proof.
  revert x. induction n as [|n IH]; intros x; simpl; [constructor|].
  apply Forall_app. split; [done|]. constructor; [|constructor].
  apply hex_digit_spec. apply Z.mod_pos_bound. lia.
Qed.

Lemma hex_value_snoc s c : hex_value (s ++ [c]) = 16 * hex_value s + digit_val c.
Proof. unfold hex_value. by rewrite fold_left_app. Qed.

Lemma hex_value_digits n x :
  hex_value (hex_digits n x) = x mod 16 ^ Z.of_nat n.
Proof.
  revert x. induction n as [|n IH]; intros x.
  - simpl. by rewrite Z.mod_1_r.
  - cbn [hex_digits]. rewrite hex_value_snoc, IH.
    assert (Hr : 0 <= x mod 16 < 16) by (apply Z.mod_pos_bound; lia).
    destruct (hex_digit_spec (x mod 16) Hr) as (_ & -> & _).
    rewrite Nat2Z.inj_succ, Z.pow_succ_r by lia.
    assert (0 < 16 ^ Z.of_nat n) by (apply Z.pow_pos_nonneg; lia).
    rewrite Z.rem_mul_r by lia. lia.
Qed.
