(* ===== verification/MyString.v ===== *)
(** * String helpers of libcheats (ee/libcheats/src/mystring.c) *)

From S2P Require Import Prelude CString.
Local Open Scope ps2rd_scope.

(** Some character defines of mystring.h. *)
Definition LF : Z := 0x0A.

(** The scan of [chr_idx] from index [i]; NUL ends it. *)
Fixpoint chr_idx_from (s : cstring) (c i : Z) : Z :=
  match s with
  | [] => if 0 =? c then i else -1
  | x :: s' => if x =? c then i else chr_idx_from s' c (i + 1)
  end.

(** [chr_idx] as the [int] its callers store it in. *)
Definition chr_idx (s : cstring) (c : Z) : Z := chr_idx_from s c 0.

(** [term_str] on the string behind [s]; [None] is the NULL callback. *)
Fixpoint term_str_loop (s : cstring) (callback : cstring -> bool) : cstring :=
  match s with
  | [] => []
  | c :: s' => if callback s then [] else c :: term_str_loop s' callback
  end.

Definition term_str (s : cstring) (callback : option (cstring -> bool)) : cstring :=
  match callback with
  | None => s
  | Some cb => term_str_loop s cb
  end.

Fixpoint is_empty_str (s : cstring) : bool :=
  match s with
  | [] => true
  | c :: s' => if isgraph c then false else is_empty_str s'
  end.

(** The first [count] bytes from a pointer; it may run into the terminator and
    behind it. *)
Fixpoint is_empty_substr (s : cstring) (count : nat) : res bool :=
  match count with
  | O => Ok true
  | S count' =>
      match s with
      | [] => match count' with O => Ok true | S _ => Err OutOfBounds end
      | c :: s' => if isgraph c then Ok false else is_empty_substr s' count'
      end
  end.

(** [while (isspace( *t++)) first++] *)
Fixpoint count_spaces (s : cstring) : nat :=
  match s with
  | [] => 0
  | c :: s' => if isspace c then S (count_spaces s') else 0
  end.

(** [trim_str]: return value and the string left in the buffer.  The backward
    scan from the last character is a forward scan of the reversed string. *)
Definition trim_str (s : cstring) : Z * cstring :=
  if is_empty_str s then (-1, s)
  else
    let first := Z.of_nat (count_spaces s) in
    let last := strlen s - 1 - Z.of_nat (count_spaces (rev s)) in
    let slen := last - first + 1 in
    (slen, take (Z.to_nat slen) (drop (Z.to_nat first) s)).

(** ** Lemmas *)

Lemma isgraph_not_space c : isgraph c = true -> isspace c = false.
Proof.
  unfold isgraph, isspace. rewrite andb_true_iff, Z.leb_le, Z.leb_le. intros.
  rewrite orb_false_iff, andb_false_iff, Z.eqb_neq, !Z.leb_gt. lia.
Qed.

Lemma is_empty_str_false s : is_empty_str s = false <-> exists c, c ∈ s /\ isgraph c = true.
Proof.
  induction s as [|x s IH]; simpl.
  - split; [done|]. intros (c & Hc & _). by apply not_elem_of_nil in Hc.
  - destruct (isgraph x) eqn:E.
    + split; [|done]. intros _. exists x. split; [by left|done].
    + rewrite IH. split.
      * intros (c & Hc & Hg). exists c. split; [by right|done].
      * intros (c & [->|Hc]%elem_of_cons & Hg); [congruence|]. eauto.
Qed.

Lemma count_spaces_split s :
  Forall (fun c => isspace c = true) (take (count_spaces s) s) /\
  match drop (count_spaces s) s with [] => True | c :: _ => isspace c = false end.
Proof.
  induction s as [|x s [IH1 IH2]]; simpl; [split; [constructor|done]|].
  destruct (isspace x) eqn:E; simpl; [|split; [constructor|done]].
  split; [by constructor|done].
Qed.

Lemma count_spaces_le s : (count_spaces s <= length s)%nat.
Proof. induction s as [|x s IH]; simpl; [lia|]. destruct (isspace x); lia. Qed.

Lemma count_spaces_app s t :
  Forall (fun c => isspace c = true) s ->
  match t with [] => True | c :: _ => isspace c = false end ->
  count_spaces (s ++ t) = length s.
Proof.
  intros Hs Ht. induction Hs as [|x s Hx Hs IH]; simpl.
  - destruct t as [|c t]; simpl; [done|]. by rewrite Ht.
  - by rewrite Hx, IH.
Qed.

(** Leading and trailing blanks around a core that starts and ends with a
    non-blank. *)
Lemma trim_str_core l core r x y :
  Forall (fun c => isspace c = true) l -> Forall (fun c => isspace c = true) r ->
  head core = Some x -> isspace x = false -> last core = Some y -> isspace y = false ->
  is_empty_str (l ++ core ++ r) = false ->
  trim_str (l ++ core ++ r) = (Z.of_nat (length core), core).
Proof.
  intros Hl Hr Hx Hxs Hy Hys He. unfold trim_str. rewrite He.
  assert (E1 : count_spaces (l ++ core ++ r) = length l).
  { apply count_spaces_app; [done|]. destruct core as [|c core]; [done|]. simpl in *.
    by simplify_eq. }
  assert (E2 : count_spaces (rev (l ++ core ++ r)) = length r).
  { rewrite !rev_app_distr, <- app_assoc. rewrite <- (length_rev r).
    apply count_spaces_app; [by apply Forall_rev|].
    apply last_Some in Hy as [core' ->]. rewrite rev_app_distr. simpl. done. }
  rewrite E1, E2. unfold strlen. rewrite !length_app.
  replace (Z.of_nat (length l + (length core + length r)) - 1 - Z.of_nat (length r) -
           Z.of_nat (length l) + 1) with (Z.of_nat (length core)) by lia.
  rewrite !Nat2Z.id, drop_app_length, take_app_length. done.
Qed.

(** [trim_str] on a string with a printable character returns its length and
    the string without its leading and trailing white space: the removed ends are
    all blanks and the result neither starts nor ends with one. *)
Lemma trim_str_spec s :
  is_empty_str s = false ->
  exists l core r, s = l ++ core ++ r /\ trim_str s = (Z.of_nat (length core), core) /\
    Forall (fun c => isspace c = true) l /\ Forall (fun c => isspace c = true) r /\
    (exists x y, head core = Some x /\ isspace x = false /\
                 last core = Some y /\ isspace y = false).
Proof.
  intros He. destruct (count_spaces_split s) as [Hl Hd].
  set (l := take (count_spaces s) s) in *. set (t := drop (count_spaces s) s) in *.
  assert (Es : s = l ++ t) by (by unfold l, t; rewrite take_drop).
  destruct (proj1 (is_empty_str_false s) He) as (c & Hc & Hg).
  apply isgraph_not_space in Hg.
  assert (Hct : c ∈ t).
  { rewrite Es in Hc. apply elem_of_app in Hc as [Hc|]; [|done].
    rewrite Forall_forall in Hl. apply Hl in Hc. congruence. }
  destruct (count_spaces_split (rev t)) as [Hr Hd2].
  set (r := rev (take (count_spaces (rev t)) (rev t))).
  set (core := rev (drop (count_spaces (rev t)) (rev t))).
  assert (Et : t = core ++ r).
  { unfold core, r. rewrite <- rev_app_distr, take_drop. by rewrite rev_involutive. }
  assert (Hrs : Forall (fun c => isspace c = true) r) by (by apply Forall_rev).
  assert (Hcc : c ∈ core).
  { rewrite Et in Hct. apply elem_of_app in Hct as [|Hct]; [done|].
    rewrite Forall_forall in Hrs. apply Hrs in Hct. congruence. }
  destruct core as [|x core'] eqn:Ecore; [by apply not_elem_of_nil in Hcc|].
  assert (Hx : isspace x = false) by (rewrite Et in Hd; exact Hd).
  assert (Hlast : exists y, last (x :: core') = Some y /\ isspace y = false).
  { rewrite <- Ecore in *. unfold core in *.
    destruct (drop (count_spaces (rev t)) (rev t)) as [|y ys]; [done|].
    exists y. simpl. rewrite last_snoc. done. }
  destruct Hlast as (y & Hy & Hys).
  exists l, (x :: core'), r. rewrite Es, Et. split; [done|]. split.
  - rewrite Es, Et in He. by apply (trim_str_core l (x :: core') r x y).
  - split; [done|]. split; [done|]. exists x, y. done.
Qed.

Example trim_str_sample :
  exists l core r, str "  Inf. Ammo " = l ++ core ++ r /\
    trim_str (str "  Inf. Ammo ") = (Z.of_nat (length core), core) /\
    Forall (fun c => isspace c = true) l /\ Forall (fun c => isspace c = true) r /\
    (exists x y, head core = Some x /\ isspace x = false /\
                 last core = Some y /\ isspace y = false).
Proof. apply (trim_str_spec (str "  Inf. Ammo ")). vm_compute. reflexivity. Qed.

Lemma chr_idx_from_spec s c i :
  c <> 0 ->
  (chr_idx_from s c i = -1 /\ c ∉ s) \/
  (exists l r, s = l ++ c :: r /\ (c ∉ l) /\ chr_idx_from s c i = i + Z.of_nat (length l)).
Proof.
  intros Hc. revert i. induction s as [|x s IH]; intros i; simpl.
  - left. split; [by destruct c | apply not_elem_of_nil].
  - destruct (Z.eqb_spec x c) as [->|Hx].
    + right. exists [], s. simpl. split; [done|]. split; [apply not_elem_of_nil|lia].
    + destruct (IH (i + 1)) as [(-> & Hn)|(l & r & -> & Hn & ->)].
      * left. split; [done|]. set_solver.
      * right. exists (x :: l), r. simpl. split; [done|]. split; [set_solver|lia].
Qed.

(** [chr_idx] finds the first occurrence, or returns -1 when there is none. *)
Lemma chr_idx_spec s c :
  c <> 0 ->
  (chr_idx s c = -1 /\ c ∉ s) \/
  (exists l r, s = l ++ c :: r /\ (c ∉ l) /\ chr_idx s c = Z.of_nat (length l)).
Proof. intros Hc. exact (chr_idx_from_spec s c 0 Hc). Qed.

Lemma is_empty_substr_prefix s n :
  (n <= length s)%nat -> is_empty_substr s n = Ok (is_empty_str (take n s)).
Proof.
  revert s. induction n as [|n IH]; intros s Hn; [by destruct s|].
  destruct s as [|c s]; simpl in *; [lia|]. destruct (isgraph c); [done|]. apply IH. lia.
Qed.

(** No suffix of the string satisfies the callback: [term_str] keeps it whole. *)
Lemma term_str_loop_id s cb :
  (forall t, t `suffix_of` s -> t <> [] -> cb t = false) -> term_str_loop s cb = s.
Proof.
  induction s as [|c s IH]; simpl; intros H; [done|].
  rewrite H by done. f_equal. apply IH. intros t Ht. apply H. by apply suffix_cons_r.
Qed.

Lemma term_str_loop_prefix s cb : term_str_loop s cb `prefix_of` s.
Proof.
  induction s as [|c s IH]; simpl; [done|]. destruct (cb _); [apply prefix_nil|].
  by apply prefix_cons.
Qed.
