(* ===== verification/CheatList.v ===== *)
(** * Cheat lists of libcheats (ee/libcheats/src/cheatlist.c, include/cheatlist.h)

    The heap keeps code, cheat and game objects by location.  [malloc] takes its
    outcome from an oracle and hands out memory with arbitrary contents; [free]
    removes the object and faults on memory that is not allocated. *)

From S2P Require Import Prelude CString Queue.
Local Open Scope ps2rd_scope.

(** ** Objects *)

Record code_t : Type := Code {
  addr : Z;
  val : Z;
  code_tag : Z;
  code_node : option loc;
}.

Definition CHEAT_DESC_MAX : nat := 80.

Record cheat_t : Type := Cheat {
  desc : list Z;
  codes : stailq;
  cheat_tag : Z;
  cheat_node : option loc;
}.

Definition GAME_TITLE_MAX : nat := 80.

Record game_t : Type := Game {
  title : list Z;
  cheats : stailq;
  game_tag : Z;
  game_node : option loc;
}.

#[export] Instance linked_code : Linked code_t.
Proof.
  by refine {| stqe_next := code_node;
               set_next := fun p o => Code (addr o) (val o) (code_tag o) p |}.
Defined.
#[export] Instance linked_cheat : Linked cheat_t.
Proof.
  by refine {| stqe_next := cheat_node;
               set_next := fun p o => Cheat (desc o) (codes o) (cheat_tag o) p |}.
Defined.
#[export] Instance linked_game : Linked game_t.
Proof.
  by refine {| stqe_next := game_node;
               set_next := fun p o => Game (title o) (cheats o) (game_tag o) p |}.
Defined.

(** ** The heap *)

Record heap : Type := Heap {
  h_codes : gmap loc code_t;
  h_cheats : gmap loc cheat_t;
  h_games : gmap loc game_t;
  h_fresh : loc;                (** no location from here on is allocated *)
  h_oracle : list bool;         (** outcomes of the next calls of malloc *)
  h_junk : Z;                   (** a byte of malloc'd memory *)
  h_junk_ptr : option loc;      (** a pointer in malloc'd memory *)
}.

Definition set_h_codes (m : gmap loc code_t) (h : heap) : heap :=
  Heap m (h_cheats h) (h_games h) (h_fresh h) (h_oracle h) (h_junk h) (h_junk_ptr h).
Definition set_h_cheats (m : gmap loc cheat_t) (h : heap) : heap :=
  Heap (h_codes h) m (h_games h) (h_fresh h) (h_oracle h) (h_junk h) (h_junk_ptr h).
Definition set_h_games (m : gmap loc game_t) (h : heap) : heap :=
  Heap (h_codes h) (h_cheats h) m (h_fresh h) (h_oracle h) (h_junk h) (h_junk_ptr h).

(** The location of a new object, [None] when memory is short.  An exhausted
    oracle means success. *)
Definition malloc : M heap (option loc) := fun h =>
  let ok := match h_oracle h with [] => true | b :: _ => b end in
  let l := if ok then Pos.succ (h_fresh h) else h_fresh h in
  Ok (if ok then Some (h_fresh h) else None,
      Heap (h_codes h) (h_cheats h) (h_games h) l (tail (h_oracle h)) (h_junk h) (h_junk_ptr h)).

(** [free] of each kind of object. *)
Definition free_code (l : loc) : M heap unit := fun h =>
  let? _ := deref (h_codes h) l in Ok (tt, set_h_codes (delete l (h_codes h)) h).
Definition free_cheat (l : loc) : M heap unit := fun h =>
  let? _ := deref (h_cheats h) l in Ok (tt, set_h_cheats (delete l (h_cheats h)) h).
Definition free_game (l : loc) : M heap unit := fun h =>
  let? _ := deref (h_games h) l in Ok (tt, set_h_games (delete l (h_games h)) h).

(** Queue macros on the store of one kind of object. *)
Definition on_codes {A} (f : gmap loc code_t -> res (A * gmap loc code_t)) : M heap A := fun h =>
  let? '(x, m) := f (h_codes h) in Ok (x, set_h_codes m h).
Definition on_cheats {A} (f : gmap loc cheat_t -> res (A * gmap loc cheat_t)) : M heap A := fun h =>
  let? '(x, m) := f (h_cheats h) in Ok (x, set_h_cheats m h).
Definition on_games {A} (f : gmap loc game_t -> res (A * gmap loc game_t)) : M heap A := fun h =>
  let? '(x, m) := f (h_games h) in Ok (x, set_h_games m h).

Definition concat_on {T} `{Linked T} (q1 q2 : stailq) (m : gmap loc T) :
    res ((stailq * stailq) * gmap loc T) :=
  STAILQ_CONCAT q1 q2 m.

(** ** Construction *)

Definition make_code (addr val tag : Z) : M heap (option loc) :=
  let* code := malloc in
  match code with
  | None => ret None
  | Some l =>
      modify (fun h => set_h_codes (<[l := Code addr val tag (h_junk_ptr h)]> (h_codes h)) h);;
      ret (Some l)
  end.

(** [strncpy(dst, src, max)] or [strcpy(dst, "-")] into fresh memory of [max + 1]
    bytes. *)
Definition fill_name (junk : Z) (max : nat) (s : option cstring) : list Z :=
  let fresh := replicate (S max) junk in
  match s with
  | Some s => strncpy fresh s max
  | None => str "-" ++ 0 :: drop 2 fresh
  end.

(** The list handed in is emptied; its new head is part of the result. *)
Definition make_cheat (d : option cstring) (cs : option stailq) (tag : Z) :
    M heap (option loc * option stailq) :=
  let* cheat := malloc in
  match cheat with
  | None => ret (None, cs)
  | Some l =>
      let* junk := gets h_junk in
      let name := fill_name junk CHEAT_DESC_MAX d in
      let* '(q, cs) :=
        match cs with
        | None => ret (STAILQ_INIT, None)
        | Some c => let* '(q, c) := on_codes (concat_on STAILQ_INIT c) in ret (q, Some c)
        end in
      modify (fun h => set_h_cheats (<[l := Cheat name q tag (h_junk_ptr h)]> (h_cheats h)) h);;
      ret (Some l, cs)
  end.

Definition make_game (t : option cstring) (cs : option stailq) (tag : Z) :
    M heap (option loc * option stailq) :=
  let* game := malloc in
  match game with
  | None => ret (None, cs)
  | Some l =>
      let* junk := gets h_junk in
      let name := fill_name junk GAME_TITLE_MAX t in
      let* '(q, cs) :=
        match cs with
        | None => ret (STAILQ_INIT, None)
        | Some c => let* '(q, c) := on_cheats (concat_on STAILQ_INIT c) in ret (q, Some c)
        end in
      modify (fun h => set_h_games (<[l := Game name q tag (h_junk_ptr h)]> (h_games h)) h);;
      ret (Some l, cs)
  end.

(** ** Removal; the head of the list is threaded through *)

Fixpoint remove_codes_loop (fuel : nat) (list : stailq) (free : bool) : M heap stailq :=
  match STAILQ_FIRST list with
  | None => ret list
  | Some code =>
      match fuel with
      | O => fail OutOfFuel
      | S fuel' =>
          let* list := on_codes (STAILQ_REMOVE list code) in
          (if free then free_code code else ret tt);;
          remove_codes_loop fuel' list free
      end
  end.

Definition __remove_codes (list : stailq) (free : bool) : M heap stailq :=
  let* fuel := gets (fun h => size (h_codes h)) in
  remove_codes_loop fuel list free.

(** [__remove_codes(&cheat->codes, _free)] for the cheat object at [cheat]. *)
Definition remove_codes_of (cheat : loc) (free : bool) : M heap unit :=
  let* o := (fun h => let? o := deref (h_cheats h) cheat in Ok (o, h)) in
  let* q := __remove_codes (codes o) free in
  modify (fun h => set_h_cheats
    (<[cheat := Cheat (desc o) q (cheat_tag o) (cheat_node o)]> (h_cheats h)) h).

Fixpoint remove_cheats_loop (fuel : nat) (list : stailq) (free : bool) : M heap stailq :=
  match STAILQ_FIRST list with
  | None => ret list
  | Some cheat =>
      match fuel with
      | O => fail OutOfFuel
      | S fuel' =>
          remove_codes_of cheat free;;
          let* list := on_cheats (STAILQ_REMOVE list cheat) in
          (if free then free_cheat cheat else ret tt);;
          remove_cheats_loop fuel' list free
      end
  end.

Definition __remove_cheats (list : stailq) (free : bool) : M heap stailq :=
  let* fuel := gets (fun h => size (h_cheats h)) in
  remove_cheats_loop fuel list free.

Definition remove_cheats_of (game : loc) (free : bool) : M heap unit :=
  let* o := (fun h => let? o := deref (h_games h) game in Ok (o, h)) in
  let* q := __remove_cheats (cheats o) free in
  modify (fun h => set_h_games
    (<[game := Game (title o) q (game_tag o) (game_node o)]> (h_games h)) h).

Fixpoint remove_games_loop (fuel : nat) (list : stailq) (free : bool) : M heap stailq :=
  match STAILQ_FIRST list with
  | None => ret list
  | Some game =>
      match fuel with
      | O => fail OutOfFuel
      | S fuel' =>
          remove_cheats_of game free;;
          let* list := on_games (STAILQ_REMOVE list game) in
          (if free then free_game game else ret tt);;
          remove_games_loop fuel' list free
      end
  end.

Definition __remove_games (list : stailq) (free : bool) : M heap stailq :=
  let* fuel := gets (fun h => size (h_games h)) in
  remove_games_loop fuel list free.

Definition remove_code (list : stailq) (code : loc) (free : bool) : M heap stailq :=
  let* list := on_codes (STAILQ_REMOVE list code) in
  (if free then free_code code else ret tt);;
  ret list.

Definition remove_cheat (list : stailq) (cheat : loc) (free : bool) : M heap stailq :=
  remove_codes_of cheat free;;
  let* list := on_cheats (STAILQ_REMOVE list cheat) in
  (if free then free_cheat cheat else ret tt);;
  ret list.

Definition remove_game (list : stailq) (game : loc) (free : bool) : M heap stailq :=
  remove_cheats_of game free;;
  let* list := on_games (STAILQ_REMOVE list game) in
  (if free then free_game game else ret tt);;
  ret list.

Definition free_codes (list : stailq) : M heap stailq := __remove_codes list true.
Definition free_cheats (list : stailq) : M heap stailq := __remove_cheats list true.
Definition free_games (list : stailq) : M heap stailq := __remove_games list true.

(** ** Insertion into a list that is a member of another object *)

Definition GAMES_INSERT_TAIL (list : stailq) (game : loc) : M heap stailq :=
  on_games (STAILQ_INSERT_TAIL list game).

(** [CHEATS_INSERT_TAIL(&game->cheats, cheat)] *)
Definition CHEATS_INSERT_TAIL (game : option loc) (cheat : loc) : M heap unit :=
  let* '(g, o) := (fun h => let? x := deref_opt (h_games h) game in Ok (x, h)) in
  let* q := on_cheats (STAILQ_INSERT_TAIL (cheats o) cheat) in
  modify (fun h => set_h_games
    (<[g := Game (title o) q (game_tag o) (game_node o)]> (h_games h)) h).

(** [CODES_INSERT_TAIL(&cheat->codes, code)] *)
Definition CODES_INSERT_TAIL (cheat : option loc) (code : loc) : M heap unit :=
  let* '(c, o) := (fun h => let? x := deref_opt (h_cheats h) cheat in Ok (x, h)) in
  let* q := on_codes (STAILQ_INSERT_TAIL (codes o) code) in
  modify (fun h => set_h_cheats
    (<[c := Cheat (desc o) q (cheat_tag o) (cheat_node o)]> (h_cheats h)) h).

(** ** Search *)

Fixpoint find_game_loop (fuel : nat) (m : gmap loc game_t) (game : option loc)
    (t : cstring) : res (option loc) :=
  match game with
  | None => Ok None
  | Some l =>
      match fuel with
      | O => Err OutOfFuel
      | S fuel' =>
          let? o := deref m l in
          let? s := c_string (title o) in
          if strcmp_eq s t then Ok (Some l)
          else find_game_loop fuel' m (game_node o) t
      end
  end.

Definition find_game_by_title (t : cstring) (list : stailq) (h : heap) : res (option loc) :=
  find_game_loop (size (h_games h)) (h_games h) (STAILQ_FIRST list) t.

(** ** Representation

    The abstract value of a list of games: the objects with their locations, the
    name arrays as stored. *)

Record acode : Type := ACode { ac_loc : loc; ac_addr : Z; ac_val : Z }.
Record acheat : Type := ACheat { ah_loc : loc; ah_desc : list Z; ah_codes : list acode }.
Record agame : Type := AGame { ag_loc : loc; ag_title : list Z; ag_cheats : list acheat }.

Definition code_desc (a : acode) (o : code_t) : Prop :=
  addr o = ac_addr a /\ val o = ac_val a.

Abbreviation codes_rep := (list_rep code_desc ac_loc).

Definition cheat_desc (mc : gmap loc code_t) (a : acheat) (o : cheat_t) : Prop :=
  desc o = ah_desc a /\ codes_rep mc (codes o) (ah_codes a).

Abbreviation cheats_rep mc := (list_rep (cheat_desc mc) ah_loc).

Definition game_desc (mc : gmap loc code_t) (mch : gmap loc cheat_t)
    (a : agame) (o : game_t) : Prop :=
  title o = ag_title a /\ cheats_rep mc mch (cheats o) (ag_cheats a).

Definition code_locs_of (chs : list acheat) : list loc := chs ≫= fun c => ac_loc <$> ah_codes c.
Definition cheat_locs (gs : list agame) : list loc := gs ≫= fun g => ah_loc <$> ag_cheats g.
Definition code_locs (gs : list agame) : list loc := gs ≫= fun g => code_locs_of (ag_cheats g).

(** Everything allocated lies below the next fresh location. *)
Definition heap_wf (h : heap) : Prop :=
  (forall l, h_fresh h <= l -> h_codes h !! l = None)%positive /\
  (forall l, h_fresh h <= l -> h_cheats h !! l = None)%positive /\
  (forall l, h_fresh h <= l -> h_games h !! l = None)%positive.

Definition games_rep (h : heap) (q : stailq) (gs : list agame) : Prop :=
  list_rep (game_desc (h_codes h) (h_cheats h)) ag_loc (h_games h) q gs /\
  NoDup (cheat_locs gs) /\ NoDup (code_locs gs).

(** The next fields play no role in the description of an object. *)
Lemma code_desc_next a p o : code_desc a o -> code_desc a (set_next p o).
Proof. done. Qed.
Lemma cheat_desc_next mc a p o : cheat_desc mc a o -> cheat_desc mc a (set_next p o).
Proof. done. Qed.
Lemma game_desc_next mc mch a p o : game_desc mc mch a o -> game_desc mc mch a (set_next p o).
Proof. done. Qed.

Create HintDb heapdb.
#[export] Hint Resolve code_desc_next cheat_desc_next game_desc_next : heapdb.

(** ** Frames *)

Lemma cheat_desc_ext mc mc' a o :
  (forall l, l ∈ ac_loc <$> ah_codes a -> mc' !! l = mc !! l) ->
  cheat_desc mc a o -> cheat_desc mc' a o.
Proof.
  intros Hext (Hd & Hr). split; [done|]. eapply list_rep_ext; [|done].
  intros v Hv. apply Hext. by apply list_elem_of_fmap_2.
Qed.

Lemma cheats_rep_ext mc mc' mch mch' q chs :
  (forall l, l ∈ code_locs_of chs -> mc' !! l = mc !! l) ->
  (forall l, l ∈ ah_loc <$> chs -> mch' !! l = mch !! l) ->
  cheats_rep mc mch q chs -> cheats_rep mc' mch' q chs.
Proof.
  intros Hc Hch Hr.
  assert (Hr' : cheats_rep mc mch' q chs).
  { eapply list_rep_ext; [|done]. intros v Hv. apply Hch. by apply list_elem_of_fmap_2. }
  destruct Hr' as (Hs & Hf). split; [done|]. apply Forall_forall. intros a Ha.
  rewrite Forall_forall in Hf. destruct (Hf a Ha) as (o & Ho & Hd). exists o. split; [done|].
  eapply cheat_desc_ext; [|done]. intros l Hl. apply Hc. apply list_elem_of_bind. eauto.
Qed.

Lemma game_desc_ext mc mc' mch mch' a o :
  (forall l, l ∈ code_locs_of (ag_cheats a) -> mc' !! l = mc !! l) ->
  (forall l, l ∈ ah_loc <$> ag_cheats a -> mch' !! l = mch !! l) ->
  game_desc mc mch a o -> game_desc mc' mch' a o.
Proof. intros Hc Hch (Ht & Hr). split; [done|]. by eapply cheats_rep_ext. Qed.

Lemma objs_ext mc mc' mch mch' mg mg' gs :
  (forall l, l ∈ code_locs gs -> mc' !! l = mc !! l) ->
  (forall l, l ∈ cheat_locs gs -> mch' !! l = mch !! l) ->
  (forall l, l ∈ ag_loc <$> gs -> mg' !! l = mg !! l) ->
  Forall (obj_rep (game_desc mc mch) ag_loc mg) gs ->
  Forall (obj_rep (game_desc mc' mch') ag_loc mg') gs.
Proof.
  intros Hc Hch Hg. rewrite !Forall_forall. intros Hf g Hin.
  destruct (Hf g Hin) as (o & Ho & Hd). exists o. split.
  - rewrite Hg; [done|]. by apply list_elem_of_fmap_2.
  - eapply game_desc_ext; [| |done].
    + intros l Hl. apply Hc. apply list_elem_of_bind. eauto.
    + intros l Hl. apply Hch. apply list_elem_of_bind. eauto.
Qed.

(** ** Freeing *)

Definition del_locs {T} (ls : list loc) (m : gmap loc T) : gmap loc T :=
  fold_left (fun m l => delete l m) ls m.

Lemma lookup_del_locs {T} ls (m : gmap loc T) x :
  del_locs ls m !! x = if decide (x ∈ ls) then None else m !! x.
Proof.
  revert m. induction ls as [|l ls IH]; intros m.
  - rewrite decide_False; [done|]. apply not_elem_of_nil.
  - change (del_locs (l :: ls) m) with (del_locs ls (delete l m)). rewrite IH.
    destruct (decide (x = l)) as [->|Hx].
    + rewrite lookup_delete_eq. repeat case_decide; set_solver.
    + rewrite lookup_delete_ne by done. repeat case_decide; set_solver.
Qed.

Lemma del_locs_app {T} xs ys (m : gmap loc T) :
  del_locs (xs ++ ys) m = del_locs ys (del_locs xs m).
Proof. apply fold_left_app. Qed.

Lemma stq_rep_nil {T} `{Linked T} (q : stailq) (m : gmap loc T) :
  stq_rep q m [] -> q = STAILQ_INIT.
Proof. intros (Hc & Hl & _). destruct q as [f l]. simpl in *. by subst. Qed.

(** The head loop of [__remove_codes]: the list is emptied, and with [free] set
    exactly its objects are gone. *)
Lemma remove_codes_loop_spec free cs fuel q h :
  codes_rep (h_codes h) q cs -> (length cs <= fuel)%nat ->
  remove_codes_loop fuel q free h =
  Ok (STAILQ_INIT,
      set_h_codes (if free then del_locs (ac_loc <$> cs) (h_codes h) else h_codes h) h).
Proof.
  revert fuel q h. induction cs as [|a cs IH]; intros fuel q h Hr Hf.
  - pose proof (stq_rep_nil _ _ (proj1 Hr)) as ->. destruct fuel; simpl; destruct h, free; done.
  - destruct (list_rep_remove_head _ _ _ _ _ _ Hr) as (Hq & q' & Hrm & Hr').
    destruct fuel as [|fuel]; simpl in Hf; [lia|].
    cbn [remove_codes_loop]. unfold STAILQ_FIRST. rewrite Hq.
    rewrite (bind_ok _ _ h q' h) by (unfold on_codes; rewrite Hrm; by destruct h).
    destruct Hr as (Hst & Hobj). apply Forall_inv in Hobj. destruct Hobj as (o & Ho & _).
    destruct free.
    + rewrite (bind_ok _ _ h tt (set_h_codes (delete (ac_loc a) (h_codes h)) h))
        by (unfold free_code, deref; by rewrite Ho).
      rewrite (IH fuel q'); [by destruct h| |lia].
      eapply list_rep_ext; [|done]. intros v Hv. simpl. apply lookup_delete_ne.
      destruct Hst as (_ & _ & Hn). apply NoDup_cons in Hn as [Hn _].
      intros E. apply Hn. rewrite E. by apply list_elem_of_fmap_2.
    + rewrite bind_ret, (IH fuel q' h Hr') by lia. done.
Qed.

(** [__remove_codes(&cheat->codes, 1)]. *)
Lemma remove_codes_of_spec c cs o h :
  h_cheats h !! c = Some o -> codes_rep (h_codes h) (codes o) cs ->
  remove_codes_of c true h =
  Ok (tt, set_h_cheats (<[c := Cheat (desc o) STAILQ_INIT (cheat_tag o) (cheat_node o)]>
                          (h_cheats h))
            (set_h_codes (del_locs (ac_loc <$> cs) (h_codes h)) h)).
Proof.
  intros Ho Hr. unfold remove_codes_of.
  rewrite (bind_ok _ _ h o h) by (unfold deref; by rewrite Ho).
  assert (Hl : __remove_codes (codes o) true h =
               Ok (STAILQ_INIT, set_h_codes (del_locs (ac_loc <$> cs) (h_codes h)) h)).
  { apply (remove_codes_loop_spec true cs _ (codes o) h Hr). by eapply list_rep_size. }
  by rewrite (bind_ok _ _ _ _ _ Hl).
Qed.

(** The head loop of [__remove_cheats] with [_free]. *)
Lemma remove_cheats_loop_spec chs fuel q h :
  cheats_rep (h_codes h) (h_cheats h) q chs -> NoDup (code_locs_of chs) ->
  (length chs <= fuel)%nat ->
  remove_cheats_loop fuel q true h =
  Ok (STAILQ_INIT, set_h_cheats (del_locs (ah_loc <$> chs) (h_cheats h))
                     (set_h_codes (del_locs (code_locs_of chs) (h_codes h)) h)).
Proof.
  revert fuel q h. induction chs as [|a chs IH]; intros fuel q h Hr Hnd Hf.
  - pose proof (stq_rep_nil _ _ (proj1 Hr)) as ->. destruct fuel; simpl; by destruct h.
  - destruct (list_rep_remove_head _ _ _ _ _ _ Hr) as (Hq & _).
    destruct Hr as (Hst & Hobj). pose proof (Forall_inv Hobj) as (o & Ho & Hd & Hcs).
    destruct fuel as [|fuel]; simpl in Hf; [lia|].
    cbn [remove_cheats_loop]. unfold STAILQ_FIRST. rewrite Hq.
    rewrite (bind_ok _ _ _ _ _ (remove_codes_of_spec _ _ _ _ Ho Hcs)).
    set (o' := Cheat _ _ _ _). set (mc' := del_locs _ (h_codes h)).
    set (h1 := set_h_cheats _ _).
    assert (Hst1 : stq_rep q (h_cheats h1) (ah_loc <$> a :: chs))
      by (by eapply stq_rep_update).
    destruct (STAILQ_REMOVE_HEAD_spec _ _ _ _ Hst1) as (q' & Hrm & Hst').
    rewrite (bind_ok _ _ h1 q' h1).
    2:{ unfold on_cheats, STAILQ_REMOVE. rewrite decide_True by done. by rewrite Hrm. }
    rewrite (bind_ok _ _ h1 tt (set_h_cheats (delete (ah_loc a) (h_cheats h1)) h1)).
    2:{ unfold free_cheat, deref. simpl. by rewrite lookup_insert_eq. }
    assert (Hna : forall l, l ∈ ah_loc <$> chs -> l <> ah_loc a).
    { destruct Hst as (_ & _ & Hn). apply NoDup_cons in Hn as [Hn _]. by intros l Hl ->. }
    unfold code_locs_of in Hnd. simpl in Hnd. apply NoDup_app in Hnd as (_ & Hdis & Hnd).
    rewrite (IH fuel q').
    + unfold h1, mc'. simpl. rewrite <- del_locs_app. rewrite delete_insert_eq. done.
    + apply (cheats_rep_ext (h_codes h) _ (h_cheats h)).
      * intros l Hl. simpl. unfold mc'. rewrite lookup_del_locs, decide_False; [done|].
        intros Hin. by apply (Hdis l Hin).
      * intros l Hl. simpl. rewrite lookup_delete_ne, lookup_insert_ne; [done| |];
          intros <-; by apply (Hna _ Hl).
      * split; [|by inv Hobj]. eapply stq_rep_ext; [|exact Hst'].
        intros x Hx. simpl. symmetry. apply lookup_insert_ne. intros <-. by apply (Hna _ Hx).
    + done.
    + lia.
Qed.

Lemma remove_cheats_of_spec g chs o h :
  h_games h !! g = Some o -> cheats_rep (h_codes h) (h_cheats h) (cheats o) chs ->
  NoDup (code_locs_of chs) ->
  remove_cheats_of g true h =
  Ok (tt, set_h_games (<[g := Game (title o) STAILQ_INIT (game_tag o) (game_node o)]> (h_games h))
            (set_h_cheats (del_locs (ah_loc <$> chs) (h_cheats h))
              (set_h_codes (del_locs (code_locs_of chs) (h_codes h)) h))).
Proof.
  intros Ho Hr Hn. unfold remove_cheats_of.
  rewrite (bind_ok _ _ h o h) by (unfold deref; by rewrite Ho).
  assert (Hl : __remove_cheats (cheats o) true h =
               Ok (STAILQ_INIT, set_h_cheats (del_locs (ah_loc <$> chs) (h_cheats h))
                     (set_h_codes (del_locs (code_locs_of chs) (h_codes h)) h))).
  { apply (remove_cheats_loop_spec chs _ (cheats o) h Hr Hn). by eapply list_rep_size. }
  by rewrite (bind_ok _ _ _ _ _ Hl).
Qed.

Definition del_games (gs : list agame) (h : heap) : heap :=
  set_h_games (del_locs (ag_loc <$> gs) (h_games h))
    (set_h_cheats (del_locs (cheat_locs gs) (h_cheats h))
      (set_h_codes (del_locs (code_locs gs) (h_codes h)) h)).

Lemma remove_games_loop_spec gs fuel q h :
  games_rep h q gs -> (length gs <= fuel)%nat ->
  remove_games_loop fuel q true h = Ok (STAILQ_INIT, del_games gs h).
Proof.
  revert fuel q h. induction gs as [|a gs IH]; intros fuel q h (Hr & Hnh & Hnc) Hf.
  - pose proof (stq_rep_nil _ _ (proj1 Hr)) as ->. destruct fuel; simpl; by destruct h.
  - destruct (list_rep_remove_head _ _ _ _ _ _ Hr) as (Hq & _).
    destruct Hr as (Hst & Hobj). pose proof (Forall_inv Hobj) as (o & Ho & Hd & Hcs).
    destruct fuel as [|fuel]; simpl in Hf; [lia|].
    cbn [remove_games_loop]. unfold STAILQ_FIRST. rewrite Hq.
    unfold code_locs, cheat_locs in Hnc, Hnh. simpl in Hnc, Hnh.
    apply NoDup_app in Hnc as (Hnc1 & Hdc & Hnc). apply NoDup_app in Hnh as (_ & Hdh & Hnh).
    rewrite (bind_ok _ _ _ _ _ (remove_cheats_of_spec _ _ _ _ Ho Hcs Hnc1)).
    set (o' := Game _ _ _ _). set (h1 := set_h_games _ _).
    assert (Hst1 : stq_rep q (h_games h1) (ag_loc <$> a :: gs))
      by (by eapply stq_rep_update).
    destruct (STAILQ_REMOVE_HEAD_spec _ _ _ _ Hst1) as (q' & Hrm & Hst').
    rewrite (bind_ok _ _ h1 q' h1).
    2:{ unfold on_games, STAILQ_REMOVE. rewrite decide_True by done. by rewrite Hrm. }
    rewrite (bind_ok _ _ h1 tt (set_h_games (delete (ag_loc a) (h_games h1)) h1)).
    2:{ unfold free_game, deref. simpl. by rewrite lookup_insert_eq. }
    assert (Hna : forall l, l ∈ ag_loc <$> gs -> ag_loc a <> l).
    { destruct Hst as (_ & _ & Hn). apply NoDup_cons in Hn as [Hn _]. by intros l Hl <-. }
    rewrite (IH fuel q'); [| |lia].
    + unfold del_games, h1. simpl. rewrite delete_insert_eq, <- !del_locs_app. done.
    + split; [split|done].
      * eapply stq_rep_ext; [|exact Hst']. intros x Hx. simpl.
        apply lookup_delete_ne. by apply Hna.
      * eapply objs_ext; [| | |by inv Hobj].
        -- intros l Hl. simpl. rewrite lookup_del_locs, decide_False; [done|].
           intros Hin. by apply (Hdc l Hin).
        -- intros l Hl. simpl. rewrite lookup_del_locs, decide_False; [done|].
           intros Hin. by apply (Hdh l Hin).
        -- intros l Hl. simpl. rewrite lookup_delete_ne, lookup_insert_ne by (by apply Hna).
           done.
Qed.

Lemma free_games_spec gs q h :
  games_rep h q gs -> free_games q h = Ok (STAILQ_INIT, del_games gs h).
Proof.
  intros Hr. apply (remove_games_loop_spec gs _ q h Hr). destruct Hr as (Hr & _).
  by eapply list_rep_size.
Qed.

(** C14: [free_games] releases a whole cheat list and nothing else.  Every code,
    cheat and game object of the list is freed exactly once (a second [free] would
    fault), every other object of the heap is untouched, and the list ends empty. *)
Theorem free_games_frees gs q h :
  games_rep h q gs ->
  exists h', free_games q h = Ok (STAILQ_INIT, h') /\
    (forall l, h_games h' !! l = if decide (l ∈ ag_loc <$> gs) then None else h_games h !! l) /\
    (forall l, h_cheats h' !! l = if decide (l ∈ cheat_locs gs) then None else h_cheats h !! l) /\
    (forall l, h_codes h' !! l = if decide (l ∈ code_locs gs) then None else h_codes h !! l).
Proof.
  intros Hr. exists (del_games gs h). split; [by apply free_games_spec|].
  repeat split; intros l; apply lookup_del_locs.
Qed.

Definition sample_heap : heap :=
  Heap {[3%positive := Code 0x20345678 1 0 None]}
    {[2%positive := Cheat [65; 0] (StailQ (Some 3%positive) (AtNext 3)) 0 None]}
    {[1%positive := Game [66; 0] (StailQ (Some 2%positive) (AtNext 2)) 0 None;
      9%positive := Game [67; 0] STAILQ_INIT 0 None]} 10%positive [] 0 None.

Lemma sample_heap_rep :
  games_rep sample_heap (StailQ (Some 1%positive) (AtNext 1))
    [AGame 1 [66; 0] [ACheat 2 [65; 0] [ACode 3 0x20345678 1]]].
Proof.
  assert (Hc : codes_rep (h_codes sample_heap) (StailQ (Some 3%positive) (AtNext 3))
                 [ACode 3 0x20345678 1]).
  { split; [|by repeat constructor; eexists]. split; [simpl; split; [done|]; by eexists|].
    split; [done|apply NoDup_singleton]. }
  assert (Hh : cheats_rep (h_codes sample_heap) (h_cheats sample_heap)
                 (StailQ (Some 2%positive) (AtNext 2)) [ACheat 2 [65; 0] [ACode 3 0x20345678 1]]).
  { split; [|by repeat constructor; eexists]. split; [simpl; split; [done|]; by eexists|].
    split; [done|apply NoDup_singleton]. }
  split; [split|split; apply NoDup_singleton].
  - split; [simpl; split; [done|]; by eexists|]. split; [done|apply NoDup_singleton].
  - by repeat constructor; eexists.
Qed.

Lemma free_games_frees_witness :
  exists h', free_games (StailQ (Some 1%positive) (AtNext 1)) sample_heap = Ok (STAILQ_INIT, h') /\
    h_games h' = {[9%positive := Game [67; 0] STAILQ_INIT 0 None]} /\
    h_cheats h' = ∅ /\ h_codes h' = ∅.
Proof.
  destruct (free_games_frees _ _ _ sample_heap_rep) as (h' & Hf & Hg & Hh & Hc).
  exists h'. split; [exact Hf|]. split; [|split]; apply map_eq; intros l.
  - rewrite Hg. simpl. case_decide as E.
    + apply list_elem_of_singleton in E as ->. done.
    + assert (l <> 1%positive) by set_solver. rewrite lookup_insert_ne by done. done.
  - rewrite Hh. simpl. case_decide as E; [done|]. simpl in E.
    assert (l <> 2%positive) by set_solver. by rewrite lookup_singleton_ne, lookup_empty.
  - rewrite Hc. simpl. case_decide as E; [done|]. simpl in E.
    assert (l <> 3%positive) by set_solver. by rewrite lookup_singleton_ne, lookup_empty.
Defined.

(** ** Appending: what the parser does with the objects it creates *)

Definition empty_heap (oracle : list bool) (junk : Z) (ptr : option loc) : heap :=
  Heap ∅ ∅ ∅ 1%positive oracle junk ptr.

Lemma heap_wf_empty oracle junk ptr : heap_wf (empty_heap oracle junk ptr).
Proof. repeat split; intros; apply lookup_empty. Qed.

Lemma games_rep_empty h : games_rep h STAILQ_INIT [].
Proof. split; [apply list_rep_init|]. split; constructor. Qed.

Lemma obj_rep_lookup {T V} (P : V -> T -> Prop) key m vs l :
  Forall (obj_rep P key m) vs -> l ∈ key <$> vs -> is_Some (m !! l).
Proof.
  intros Hf (v & -> & Hv)%list_elem_of_fmap. rewrite Forall_forall in Hf.
  destruct (Hf v Hv) as (o & -> & _). done.
Qed.

(** Whatever is part of a represented list is allocated. *)
Lemma games_rep_alloc h q gs :
  games_rep h q gs ->
  (forall l, l ∈ ag_loc <$> gs -> is_Some (h_games h !! l)) /\
  (forall l, l ∈ cheat_locs gs -> is_Some (h_cheats h !! l)) /\
  (forall l, l ∈ code_locs gs -> is_Some (h_codes h !! l)).
Proof.
  intros ((_ & Hf) & _). pose proof Hf as Hf'. rewrite Forall_forall in Hf'.
  split; [|split].
  - intros l. by apply obj_rep_lookup with (P := game_desc (h_codes h) (h_cheats h)).
  - intros l (g & Hl & Hg)%list_elem_of_bind.
    destruct (Hf' g Hg) as (o & _ & _ & _ & Hc). eapply obj_rep_lookup; done.
  - intros l (g & (c & Hl & Hc)%list_elem_of_bind & Hg)%list_elem_of_bind.
    destruct (Hf' g Hg) as (o & _ & _ & _ & Hcs). rewrite Forall_forall in Hcs.
    destruct (Hcs c Hc) as (oc & _ & _ & _ & Hco). eapply obj_rep_lookup; done.
Qed.

Lemma dom_None {T} (m m' : gmap loc T) l : dom m' = dom m -> m !! l = None -> m' !! l = None.
Proof. intros Hd. rewrite <- !not_elem_of_dom. by rewrite Hd. Qed.

(** [heap_wf] depends on the domains and the fresh location only. *)
Lemma heap_wf_dom h h' :
  heap_wf h -> h_fresh h' = h_fresh h ->
  dom (h_codes h') = dom (h_codes h) -> dom (h_cheats h') = dom (h_cheats h) ->
  dom (h_games h') = dom (h_games h) -> heap_wf h'.
Proof.
  intros (H1 & H2 & H3) Hf Hc Hh Hg. unfold heap_wf. rewrite Hf.
  split; [|split]; intros l Hl.
  - exact (dom_None _ _ _ Hc (H1 l Hl)).
  - exact (dom_None _ _ _ Hh (H2 l Hl)).
  - exact (dom_None _ _ _ Hg (H3 l Hl)).
Qed.

(** The heap parts [malloc] and the queue operations leave alone. *)
Definition same_env (h h' : heap) : Prop :=
  h_fresh h' = h_fresh h /\ h_oracle h' = h_oracle h /\ h_junk h' = h_junk h /\
  h_junk_ptr h' = h_junk_ptr h.

Lemma games_insert_tail_spec h q gs l name tag p :
  games_rep h q gs -> heap_wf h -> l ∉ ag_loc <$> gs ->
  h_games h !! l = Some (Game name STAILQ_INIT tag p) ->
  exists q' h', GAMES_INSERT_TAIL q l h = Ok (q', h') /\
    games_rep h' q' (gs ++ [AGame l name []]) /\ heap_wf h' /\ same_env h h'.
Proof.
  intros (Hr & Hnh & Hnc) Hwf Hl Ho.
  destruct (list_rep_insert_tail (game_desc (h_codes h) (h_cheats h)) ag_loc
    ltac:(eauto with heapdb) (h_games h) q gs (AGame l name []) _ Hr Hl Ho)
    as (q' & m' & Hi & Hr' & Hd & _).
  { split; [done|]. apply list_rep_init. }
  exists q', (set_h_games m' h). unfold GAMES_INSERT_TAIL, on_games. simpl in Hi. rewrite Hi.
  split; [done|]. split; [|split; [by eapply heap_wf_dom|done]].
  split; [done|]. unfold cheat_locs, code_locs. rewrite !bind_app. simpl. by rewrite !app_nil_r.
Qed.

Lemma NoDup_app_snoc (xs ys : list loc) l :
  NoDup (xs ++ ys) -> l ∉ xs ++ ys -> NoDup (xs ++ ys ++ [l]).
Proof.
  intros Hn Hl. rewrite app_assoc. apply NoDup_app. split; [done|].
  split; [set_solver|apply NoDup_singleton].
Qed.

Lemma NoDup_snoc_notin {V} (key : V -> loc) vs v :
  NoDup (key <$> (vs ++ [v])) -> key v ∉ key <$> vs.
Proof.
  rewrite fmap_app. intros (_ & Hd & _)%NoDup_app Hin. apply (Hd _ Hin). simpl. set_solver.
Qed.

(** Appending a cheat to the last game of the list. *)
Lemma cheats_insert_tail_spec h q gs g t chs l name tag p :
  games_rep h q (gs ++ [AGame g t chs]) -> heap_wf h ->
  l ∉ cheat_locs (gs ++ [AGame g t chs]) ->
  h_cheats h !! l = Some (Cheat name STAILQ_INIT tag p) ->
  exists h', CHEATS_INSERT_TAIL (Some g) l h = Ok (tt, h') /\
    games_rep h' q (gs ++ [AGame g t (chs ++ [ACheat l name []])]) /\ heap_wf h' /\
    same_env h h'.
Proof.
  intros ((Hst & Hobj) & Hnh & Hnc) Hwf Hl Ho.
  apply Forall_app in Hobj as [Hobj Hlast]. apply Forall_inv in Hlast as (o & Hg & Ht & Hr).
  simpl in Hg, Ht, Hr. unfold cheat_locs, code_locs in Hl, Hnh, Hnc.
  rewrite bind_app in Hl, Hnh, Hnc. simpl in Hl, Hnh, Hnc. rewrite app_nil_r in Hl, Hnh, Hnc.
  destruct (list_rep_insert_tail (cheat_desc (h_codes h)) ah_loc
    ltac:(eauto with heapdb) (h_cheats h) (cheats o) chs (ACheat l name []) _ Hr
    ltac:(set_solver) Ho) as (q' & m' & Hi & Hr' & Hd & Hfr).
  { split; [done|]. apply list_rep_init. }
  unfold CHEATS_INSERT_TAIL. simpl in Hi.
  rewrite (bind_ok _ _ h (g, o) h) by (unfold deref_opt, deref; simpl; by rewrite Hg).
  rewrite (bind_ok _ _ h q' (set_h_cheats m' h)) by (unfold on_cheats; by rewrite Hi).
  eexists. split; [done|].
  assert (Hn : g ∉ ag_loc <$> gs) by (by apply (NoDup_snoc_notin ag_loc gs (AGame g t chs)), Hst).
  assert (Hdis : forall x, x ∈ cheat_locs gs -> x ∉ ah_loc <$> chs ++ [ACheat l name []]).
  { intros x Hx. rewrite fmap_app. apply NoDup_app in Hnh as (_ & Hdis & _).
    specialize (Hdis x Hx). unfold cheat_locs in Hx. simpl. set_solver. }
  split; [|split; [|done]].
  - split; [split|].
    + simpl. rewrite fmap_app in *. by eapply stq_rep_update.
    + apply Forall_app. split.
      * eapply objs_ext; [| | |exact Hobj]; simpl; [done| |].
        -- intros x Hx. apply Hfr. by apply Hdis.
        -- intros x Hx. apply lookup_insert_ne. by intros ->.
      * constructor; [|constructor]. eexists. simpl. rewrite lookup_insert_eq. split; [done|].
        by split.
    + unfold cheat_locs, code_locs, code_locs_of in *. rewrite !bind_app. simpl.
      rewrite !app_nil_r, bind_app, fmap_app. simpl. rewrite !app_nil_r.
      split; [by apply NoDup_app_snoc|done].
  - eapply heap_wf_dom; [done|done|done|done|]. simpl. apply dom_insert_lookup_L. eauto.
Qed.

(** Appending a code to the last cheat of the last game. *)
Lemma codes_insert_tail_spec h q gs g t chs c d cs l a v tag p :
  games_rep h q (gs ++ [AGame g t (chs ++ [ACheat c d cs])]) -> heap_wf h ->
  l ∉ code_locs (gs ++ [AGame g t (chs ++ [ACheat c d cs])]) ->
  h_codes h !! l = Some (Code a v tag p) ->
  exists h', CODES_INSERT_TAIL (Some c) l h = Ok (tt, h') /\
    games_rep h' q (gs ++ [AGame g t (chs ++ [ACheat c d (cs ++ [ACode l a v])])]) /\
    heap_wf h' /\ same_env h h'.
Proof.
  intros ((Hst & Hobj) & Hnh & Hnc) Hwf Hl Ho.
  apply Forall_app in Hobj as [Hobj Hlast].
  apply Forall_inv in Hlast as (og & Hg & Ht & Hstc & Hchs). simpl in Hg, Ht, Hstc, Hchs.
  apply Forall_app in Hchs as [Hchs Hlast].
  apply Forall_inv in Hlast as (oc & Hc & Hd & Hr). simpl in Hc, Hd, Hr.
  unfold cheat_locs, code_locs, code_locs_of in Hl, Hnh, Hnc.
  rewrite bind_app in Hl, Hnh, Hnc. simpl in Hl, Hnh, Hnc.
  rewrite bind_app in Hl, Hnc. simpl in Hl, Hnc. rewrite !app_nil_r in Hl, Hnh, Hnc.
  destruct (list_rep_insert_tail code_desc ac_loc
    ltac:(eauto with heapdb) (h_codes h) (codes oc) cs (ACode l a v) _ Hr
    ltac:(set_solver) Ho) as (q' & m' & Hi & Hr' & Hdm & Hfr); [done|].
  unfold CODES_INSERT_TAIL. simpl in Hi.
  rewrite (bind_ok _ _ h (c, oc) h) by (unfold deref_opt, deref; simpl; by rewrite Hc).
  rewrite (bind_ok _ _ h q' (set_h_codes m' h)) by (unfold on_codes; by rewrite Hi).
  eexists. split; [done|].
  assert (Hnl : c ∉ ah_loc <$> chs)
    by (by apply (NoDup_snoc_notin ah_loc chs (ACheat c d cs)), Hstc).
  assert (Hdh : forall x, x ∈ cheat_locs gs -> x <> c).
  { intros x Hx ->. apply NoDup_app in Hnh as (_ & Hdis & _). apply (Hdis c Hx).
    rewrite fmap_app. simpl. set_solver. }
  assert (Hdc : forall x, x ∈ code_locs gs \/ x ∈ code_locs_of chs ->
                          x ∉ ac_loc <$> cs ++ [ACode l a v]).
  { intros x Hx. rewrite fmap_app. rewrite app_assoc in Hnc.
    apply NoDup_app in Hnc as (_ & Hdis & _). specialize (Hdis x).
    unfold code_locs, code_locs_of in Hx. simpl. set_solver. }
  split; [|split; [|done]].
  - split; [split|].
    + simpl. by rewrite fmap_app in *.
    + apply Forall_app. split.
      * eapply objs_ext; [| | |exact Hobj]; simpl; [| |done].
        -- intros x Hx. apply Hfr. apply Hdc. by left.
        -- intros x Hx. apply lookup_insert_ne. intros ->. by apply (Hdh x).
      * constructor; [|constructor]. exists og. split; [done|]. split; [done|]. simpl.
        split; [rewrite fmap_app in *; by eapply stq_rep_update|].
        apply Forall_app. split.
        -- rewrite Forall_forall in Hchs |- *. intros x Hx.
           destruct (Hchs x Hx) as (ox & Hox & Hdx). exists ox. split.
           ++ rewrite lookup_insert_ne; [done|]. intros ->. apply Hnl.
              by apply list_elem_of_fmap_2.
           ++ eapply cheat_desc_ext; [|done]. intros y Hy. apply Hfr. apply Hdc. right.
              apply list_elem_of_bind. eauto.
        -- constructor; [|constructor]. eexists. simpl. rewrite lookup_insert_eq.
           split; [done|]. by split.
    + unfold cheat_locs, code_locs, code_locs_of. rewrite !bind_app. simpl.
      rewrite !fmap_app, !bind_app. simpl. rewrite !app_nil_r, fmap_app.
      rewrite fmap_app in Hnh. split; [done|]. simpl.
      rewrite (app_assoc _ (chs ≫= _)) in *. rewrite app_nil_r in Hnc, Hl. rewrite app_assoc. apply NoDup_app.
      split; [done|]. split; [set_solver|apply NoDup_singleton].
  - eapply heap_wf_dom; [done|done|done| |done]. simpl. apply dom_insert_lookup_L. eauto.
Qed.
