(* ===== verification/Parser.v ===== *)
(** * The cheat parser of libcheats (ee/libcheats/src/parser.c)

    Cheats in text form are read line by line: a scanner cuts lines, a screener
    strips comments and blanks, the parser proper recognises game titles, cheat
    descriptions and cheat codes and appends objects to a list of games. *)

From S2P Require Import Prelude CString MyString Queue CheatList.
Local Open Scope ps2rd_scope.

Definition LINE_MAX : Z := 255.
Definition CODE_DIGITS : Z := 16.

Definition TOK_NO : Z := 0.
Definition TOK_GAME_TITLE : Z := 1.
Definition TOK_CHEAT_DESC : Z := 2.
Definition TOK_CHEAT_CODE : Z := 4.

Record parser_ctx_t : Type := Ctx {
  top : Z;
  next : Z;
  game : option loc;
  cheat : option loc;
  code : option loc;
}.

(** The context and the list being filled, with the heap and the globals that
    describe the last error. *)
Record pstate : Type := PState {
  ps_heap : heap;
  ps_ctx : parser_ctx_t;
  ps_list : stailq;
  parse_error_text : cstring;
  parse_error_line : Z;
}.

Definition set_ctx (c : parser_ctx_t) (s : pstate) : pstate :=
  PState (ps_heap s) c (ps_list s) (parse_error_text s) (parse_error_line s).
Definition set_list (q : stailq) (s : pstate) : pstate :=
  PState (ps_heap s) (ps_ctx s) q (parse_error_text s) (parse_error_line s).

Definition on_heap {A} (c : M heap A) : M pstate A := fun s =>
  match c (ps_heap s) with
  | Ok (x, h) => Ok (x, PState h (ps_ctx s) (ps_list s) (parse_error_text s) (parse_error_line s))
  | Err f => Err f
  end.

Definition set_next_tok (n : Z) (c : parser_ctx_t) : parser_ctx_t :=
  Ctx (top c) n (game c) (cheat c) (code c).
Definition set_game (g : option loc) (c : parser_ctx_t) : parser_ctx_t :=
  Ctx (top c) (next c) g (cheat c) (code c).
Definition set_cheat (h : option loc) (c : parser_ctx_t) : parser_ctx_t :=
  Ctx (top c) (next c) (game c) h (code c).
Definition set_code (d : option loc) (c : parser_ctx_t) : parser_ctx_t :=
  Ctx (top c) (next c) (game c) (cheat c) d.

Definition mod_ctx (f : parser_ctx_t -> parser_ctx_t) : M pstate unit :=
  modify (fun s => set_ctx (f (ps_ctx s)) s).

(** ** Tokens *)

Definition tok2str (tok : Z) : option cstring :=
  if tok =? TOK_GAME_TITLE then Some (str "game title")
  else if tok =? TOK_CHEAT_DESC then Some (str "cheat description")
  else if tok =? TOK_CHEAT_CODE then Some (str "cheat code")
  else None.

Definition QUOTE : Z := 34.
Definition HASH : Z := 35.

Definition is_cmt_str (s : cstring) : bool :=
  ((2 <=? strlen s) && strncmp_eq s (str "//") 2) ||
  match s with c :: _ => c =? HASH | [] => false end.

Definition is_game_title (s : cstring) : bool :=
  let len := strlen s in
  (2 <? len) && match s with c :: _ => c =? QUOTE | [] => false end &&
  match last s with Some c => c =? QUOTE | None => false end.

Fixpoint is_cheat_code_from (s : cstring) (i : Z) : bool :=
  match s with
  | [] => i =? CODE_DIGITS
  | c :: s' =>
      if isxdigit c then
        if CODE_DIGITS <? i + 1 then false else is_cheat_code_from s' (i + 1)
      else if negb (isspace c) then false
      else is_cheat_code_from s' i
  end.
Definition is_cheat_code (s : cstring) : bool := is_cheat_code_from s 0.

Definition get_token (s : cstring) (top : Z) : Z :=
  if is_game_title s then TOK_GAME_TITLE
  else if is_cheat_code s then TOK_CHEAT_CODE
  else TOK_CHEAT_DESC.

Definition next_token (tok : Z) : Z :=
  if tok =? TOK_GAME_TITLE then Z.lor TOK_GAME_TITLE TOK_CHEAT_DESC
  else if (tok =? TOK_CHEAT_DESC) || (tok =? TOK_CHEAT_CODE) then
    Z.lor (Z.lor TOK_GAME_TITLE TOK_CHEAT_DESC) TOK_CHEAT_CODE
  else TOK_NO.

(** ** Objects from lines *)

(** The title without its quotes goes through a buffer of [GAME_TITLE_MAX + 1]
    bytes on the stack. *)
Definition __make_game (title : cstring) : M heap (option loc) :=
  let n := (length title - 2)%nat in
  if (GAME_TITLE_MAX <? n)%nat then fail OutOfBounds
  else
    let buf := take n (tail title) in
    let* '(g, _) := make_game (Some buf) None 0 in
    ret g.

Definition __make_cheat (d : cstring) : M heap (option loc) :=
  let* '(c, _) := make_cheat (Some d) None 0 in
  ret c.

(** The hex digits of the line, stored one by one in a buffer of [CODE_DIGITS]. *)
Fixpoint collect_digits (s : cstring) (digits : list Z) : res (list Z) :=
  match s with
  | [] => Ok digits
  | c :: s' =>
      if isxdigit c then
        if Z.of_nat (length digits) <? CODE_DIGITS then collect_digits s' (digits ++ [c])
        else Err OutOfBounds
      else collect_digits s' digits
  end.

(** [sscanf(digits, "%08X %08X", ..)] takes the two groups of eight digits. *)
Definition __make_code (s : cstring) : M heap (option loc) :=
  let* digits := lift (collect_digits s []) in
  make_code (hex_value (take 8 digits)) (hex_value (take 8 (drop 8 digits))) 0.

(** ** The parser *)

Definition init_parser (ctx : parser_ctx_t) : parser_ctx_t :=
  Ctx (top ctx) TOK_GAME_TITLE None None None.

(** [parse_err] with its message already formatted. *)
Definition parse_err (nl : Z) (msg : option cstring) : M pstate unit :=
  modify (fun s => PState (ps_heap s) (ps_ctx s) (ps_list s)
    (match msg with Some m => m | None => str "-" end) nl).

Definition parse_line (line : cstring) (nl : Z) : M pstate Z :=
  let* ctx := gets ps_ctx in
  let tok := get_token line (top ctx) in
  if Z.land (next ctx) tok =? 0 then
    let* name := lift (of_option NullDeref (tok2str tok)) in
    parse_err nl (Some (str "parse error: " ++ name ++ str " invalid here"));;
    ret (-1)
  else
    let* fail :=
      if tok =? TOK_GAME_TITLE then
        let* g := on_heap (__make_game line) in
        mod_ctx (set_game g);;
        match g with
        | None => parse_err nl (Some (str "make_game() failed"));; ret true
        | Some g =>
            let* list := gets ps_list in
            let* list := on_heap (GAMES_INSERT_TAIL list g) in
            modify (set_list list);;
            ret false
        end
      else if tok =? TOK_CHEAT_DESC then
        let* c := on_heap (__make_cheat line) in
        mod_ctx (set_cheat c);;
        match c with
        | None => parse_err nl (Some (str "make_cheat() failed"));; ret true
        | Some c => on_heap (CHEATS_INSERT_TAIL (game ctx) c);; ret false
        end
      else
        let* d := on_heap (__make_code line) in
        mod_ctx (set_code d);;
        match d with
        | None => parse_err nl (Some (str "make_code() failed"));; ret true
        | Some d => on_heap (CODES_INSERT_TAIL (cheat ctx) d);; ret false
        end in
    if fail : bool then ret (-1)
    else mod_ctx (set_next_tok (next_token tok));; ret 0.

(** The screener: [term_str] at a comment, then [trim_str]. *)
Definition screen (line : cstring) : cstring := snd (trim_str (term_str line (Some is_cmt_str))).

(** Screener and parser on one line. *)
Definition parse_screened (line : cstring) (nl : Z) : M pstate Z :=
  let line := screen line in
  if 0 <? strlen line then parse_line line nl else ret 0.

(** [fgets(line, size, stream)] on the bytes left in the stream: what it stores
    before the terminator, and the rest; it stops behind a newline. *)
Fixpoint fgets (size : nat) (stream : list Z) : list Z * list Z :=
  match size, stream with
  | S (S _ as size'), c :: rest =>
      if c =? LF then ([c], rest)
      else let '(l, r) := fgets size' rest in (c :: l, r)
  | _, _ => ([], stream)
  end.

Fixpoint parse_stream_loop (fuel : nat) (stream : list Z) (nl : Z) : M pstate Z :=
  match stream with
  | [] => ret 0
  | _ =>
      match fuel with
      | O => fail OutOfFuel
      | S fuel' =>
          let '(l, stream') := fgets (Z.to_nat (LINE_MAX + 1)) stream in
          let line := cstr l in
          let* r := (if is_empty_str line then ret 0 else parse_screened line nl) in
          if r <? 0 then ret (-1) else parse_stream_loop fuel' stream' (nl + 1)
      end
  end.

(** [None] is the NULL pointer. *)
Definition parse_stream (games : option stailq) (stream : option (list Z)) : M pstate Z :=
  match games, stream with
  | Some q, Some bytes =>
      modify (set_list q);;
      mod_ctx init_parser;;
      parse_stream_loop (length bytes) bytes 1
  | _, _ => ret (-1)
  end.

(** The loop of [parse_buf].  [line] is the contents of the local line buffer up
    to its terminator; in the first round it is not initialised. *)
Fixpoint parse_buf_loop (fuel : nat) (buf : cstring) (line : list Z) (nl : Z) : M pstate Z :=
  match buf with
  | [] => ret 0
  | _ =>
      match fuel with
      | O => fail OutOfFuel
      | S fuel' =>
          let len0 := chr_idx buf LF in
          let* len :=
            if len0 <? 0 then let* s := lift (c_string line) in ret (strlen s)
            else ret (if LINE_MAX <? len0 then LINE_MAX else len0) in
          let n := Z.to_nat len in
          let* blank := lift (is_empty_substr buf n) in
          let* '(r, line) :=
            (if blank : bool then ret (0, line)
             else
               let s := take n buf in
               let* r := parse_screened s nl in ret (r, screen s ++ [0])) in
          if r <? 0 then ret (-1)
          else if (length buf <? n + 1)%nat then fail OutOfBounds
          else parse_buf_loop fuel' (drop (n + 1) buf) line (nl + 1)
      end
  end.

Definition parse_buf (games : option stailq) (buf : option cstring) (line : list Z) : M pstate Z :=
  match games, buf with
  | Some q, Some s =>
      modify (set_list q);;
      mod_ctx init_parser;;
      parse_buf_loop (length s) s line 1
  | _, _ => ret (-1)
  end.
