(* ===== verification/ParserProps.v ===== *)
(** * Correctness of the cheat parser

    [parse_line], [parse_buf] and [parse_stream] against a parser on plain trees,
    for every outcome of the memory allocations. *)

From S2P Require Import Prelude CString MyString Queue CheatList Parser.
Local Open Scope ps2rd_scope.

(** ** The abstract parser *)

(** Games with their cheats with their codes. *)
Definition tree : Type := list (cstring * list (cstring * list (Z * Z))).

Definition cheat_tree (c : acheat) : cstring * list (Z * Z) :=
  (cstr (ah_desc c), (fun d => (ac_addr d, ac_val d)) <$> ah_codes c).
Definition game_tree (g : agame) : cstring * list (cstring * list (Z * Z)) :=
  (cstr (ag_title g), cheat_tree <$> ag_cheats g).
Definition tree_of (gs : list agame) : tree := game_tree <$> gs.

Fixpoint on_last {A} (f : A -> A) (l : list A) : list A :=
  match l with
  | [] => []
  | [x] => [f x]
  | x :: l' => x :: on_last f l'
  end.

Lemma on_last_snoc {A} (f : A -> A) l x : on_last f (l ++ [x]) = l ++ [f x].
Proof.
  induction l as [|y l IH]; simpl; [done|]. rewrite IH. by destruct l.
Qed.

(** A title without its quotes. *)
Definition inner (s : cstring) : cstring := take (length s - 2) (tail s).
(** The two 32-bit numbers of a code line: blanks do not matter. *)
Definition code_of (s : cstring) : Z * Z :=
  let digits := filter (fun c => isxdigit c = true) s in
  (hex_value (take 8 digits), hex_value (drop 8 digits)).

Definition add_tok (tok : Z) (s : cstring) (t : tree) : tree :=
  if tok =? TOK_GAME_TITLE then t ++ [(inner s, [])]
  else if tok =? TOK_CHEAT_DESC then on_last (fun g => (g.1, g.2 ++ [(s, [])])) t
  else on_last (fun g => (g.1, on_last (fun c => (c.1, c.2 ++ [code_of s])) g.2)) t.

(** What parsing some lines should give. *)
Inductive verdict : Type :=
| Parsed (t : tree)
| Syntax (nl tok : Z)
| NoMemory (nl : Z).

(** [mem] tells which of the next allocations succeed; all do when it is used up. *)
Fixpoint spec_lines (ls : list cstring) (mem : list bool) (nl nxt : Z) (t : tree) : verdict :=
  match ls with
  | [] => Parsed t
  | l :: ls' =>
      let s := screen l in
      if is_empty_str l || bool_decide (s = []) then spec_lines ls' mem (nl + 1) nxt t
      else
        let tok := get_token s 0 in
        if Z.land nxt tok =? 0 then Syntax nl tok
        else if negb (default true (head mem)) then NoMemory nl
        else spec_lines ls' (tail mem) (nl + 1) (next_token tok) (add_tok tok s t)
  end.

(** Names fit their arrays with a terminator. *)
Definition name_ok (s : cstring) : Prop :=
  nul_free s /\
  if is_game_title s then (length (inner s) < GAME_TITLE_MAX)%nat
  else is_cheat_code s = true \/ (length s < CHEAT_DESC_MAX)%nat.

(** Titles fit the stack buffer of [__make_game]. *)
Definition title_fits (s : cstring) : Prop :=
  is_game_title s = true -> (length (inner s) <= GAME_TITLE_MAX)%nat.

(** ** Digits *)

Lemma is_cheat_code_count s i :
  is_cheat_code_from s i = true ->
  i + Z.of_nat (length (filter (fun c => isxdigit c = true) s)) = CODE_DIGITS.
Proof.
  revert i. induction s as [|c s IH]; intros i; simpl.
  - intros H%Z.eqb_eq. simpl. lia.
  - rewrite filter_cons. destruct (isxdigit c) eqn:E.
    + rewrite decide_True by done. destruct (CODE_DIGITS <? i + 1); [done|].
      intros H%IH. simpl. lia.
    + rewrite decide_False by congruence. destruct (negb (isspace c)); [done|]. apply IH.
Qed.

Lemma collect_digits_filter s acc :
  Z.of_nat (length acc + length (filter (fun c => isxdigit c = true) s)) <= CODE_DIGITS ->
  collect_digits s acc = Ok (acc ++ filter (fun c => isxdigit c = true) s).
Proof.
  revert acc. induction s as [|c s IH]; intros acc Hl.
  - simpl. by rewrite app_nil_r.
  - rewrite filter_cons in *. cbn [collect_digits]. destruct (isxdigit c) eqn:E.
    + rewrite decide_True in * by done. simpl in Hl.
      assert (Ha : Z.of_nat (length acc) < CODE_DIGITS) by lia.
      apply Z.ltb_lt in Ha. rewrite Ha. rewrite IH; [by rewrite <- app_assoc|].
      rewrite length_app. simpl. lia.
    + rewrite decide_False in * by congruence. by apply IH.
Qed.

(** On a code line the digits fill the buffer exactly. *)
Lemma make_code_line s h :
  is_cheat_code s = true ->
  __make_code s h = make_code (fst (code_of s)) (snd (code_of s)) 0 h.
Proof.
  intros Hc%is_cheat_code_count. unfold CODE_DIGITS in Hc. unfold __make_code, code_of, bind, lift.
  rewrite collect_digits_filter by (simpl; unfold CODE_DIGITS; lia). simpl.
  rewrite (take_ge (drop 8 _)); [done|]. rewrite length_drop. lia.
Qed.

(** ** Allocation *)

Definition oracle_ok (h : heap) : bool := match h_oracle h with [] => true | b :: _ => b end.

Lemma games_rep_frame h h' q gs :
  (forall l, is_Some (h_codes h !! l) -> h_codes h' !! l = h_codes h !! l) ->
  (forall l, is_Some (h_cheats h !! l) -> h_cheats h' !! l = h_cheats h !! l) ->
  (forall l, is_Some (h_games h !! l) -> h_games h' !! l = h_games h !! l) ->
  games_rep h q gs -> games_rep h' q gs.
Proof.
  intros Hc Hh Hg Hr. destruct (games_rep_alloc _ _ _ Hr) as (Ag & Ah & Ac).
  destruct Hr as ((Hst & Hobj) & Hn). split; [split|done].
  - eapply stq_rep_ext; [|done]. intros x Hx. apply Hg. by apply Ag.
  - eapply objs_ext; [| | |done]; intros l Hl; auto.
Qed.

Lemma fresh_ne {T} (m : gmap loc T) l x :
  m !! x = None -> is_Some (m !! l) -> x <> l.
Proof. intros Hx [o Ho] ->. congruence. Qed.

Lemma malloc_fail h :
  oracle_ok h = false ->
  exists h', malloc h = Ok (None, h') /\ h_codes h' = h_codes h /\ h_cheats h' = h_cheats h /\
    h_games h' = h_games h /\ h_fresh h' = h_fresh h.
Proof.
  unfold oracle_ok, malloc. destruct (h_oracle h) as [|[|] o]; intros E; simplify_eq.
  eexists. done.
Qed.

Lemma heap_wf_fail h h' :
  h_codes h' = h_codes h -> h_cheats h' = h_cheats h -> h_games h' = h_games h ->
  h_fresh h' = h_fresh h -> heap_wf h -> heap_wf h'.
Proof. unfold heap_wf. by intros -> -> -> ->. Qed.

Lemma games_rep_fail h h' q gs :
  h_codes h' = h_codes h -> h_cheats h' = h_cheats h -> h_games h' = h_games h ->
  games_rep h q gs -> games_rep h' q gs.
Proof. unfold games_rep. by intros -> -> ->. Qed.

(** The heap after a successful [malloc]. *)
Definition bump (h : heap) : heap :=
  Heap (h_codes h) (h_cheats h) (h_games h) (Pos.succ (h_fresh h)) (tail (h_oracle h))
    (h_junk h) (h_junk_ptr h).

Lemma malloc_ok h : oracle_ok h = true -> malloc h = Ok (Some (h_fresh h), bump h).
Proof. unfold oracle_ok, malloc, bump. by intros ->. Qed.

(** Objects put at the fresh location disturb nothing. *)
Lemma heap_wf_bump h fc fh fg :
  heap_wf h ->
  (fc = h_codes h \/ exists o, fc = <[h_fresh h := o]> (h_codes h)) ->
  (fh = h_cheats h \/ exists o, fh = <[h_fresh h := o]> (h_cheats h)) ->
  (fg = h_games h \/ exists o, fg = <[h_fresh h := o]> (h_games h)) ->
  heap_wf (set_h_codes fc (set_h_cheats fh (set_h_games fg (bump h)))).
Proof.
  intros (H1 & H2 & H3) Hc Hh Hg.
  split; [|split]; intros l Hl; simpl in *.
  - destruct Hc as [->|[o ->]]; [|rewrite lookup_insert_ne by lia]; apply H1; lia.
  - destruct Hh as [->|[o ->]]; [|rewrite lookup_insert_ne by lia]; apply H2; lia.
  - destruct Hg as [->|[o ->]]; [|rewrite lookup_insert_ne by lia]; apply H3; lia.
Qed.

Lemma games_rep_bump h fc fh fg q gs :
  heap_wf h ->
  (fc = h_codes h \/ exists o, fc = <[h_fresh h := o]> (h_codes h)) ->
  (fh = h_cheats h \/ exists o, fh = <[h_fresh h := o]> (h_cheats h)) ->
  (fg = h_games h \/ exists o, fg = <[h_fresh h := o]> (h_games h)) ->
  games_rep h q gs ->
  games_rep (set_h_codes fc (set_h_cheats fh (set_h_games fg (bump h)))) q gs.
Proof.
  intros (H1 & H2 & H3) Hc Hh Hg. apply games_rep_frame; simpl; intros l Hl.
  - destruct Hc as [->|[o ->]]; [done|]. apply lookup_insert_ne.
    eapply fresh_ne; [|done]. apply H1. lia.
  - destruct Hh as [->|[o ->]]; [done|]. apply lookup_insert_ne.
    eapply fresh_ne; [|done]. apply H2. lia.
  - destruct Hg as [->|[o ->]]; [done|]. apply lookup_insert_ne.
    eapply fresh_ne; [|done]. apply H3. lia.
Qed.

Lemma fresh_not_in h q gs :
  heap_wf h -> games_rep h q gs ->
  (h_fresh h ∉ ag_loc <$> gs) /\ (h_fresh h ∉ cheat_locs gs) /\ (h_fresh h ∉ code_locs gs).
Proof.
  intros (H1 & H2 & H3) Hr. destruct (games_rep_alloc _ _ _ Hr) as (Ag & Ah & Ac).
  split; [|split]; intros Hin.
  - destruct (Ag _ Hin) as [o Ho]. rewrite H3 in Ho by lia. done.
  - destruct (Ah _ Hin) as [o Ho]. rewrite H2 in Ho by lia. done.
  - destruct (Ac _ Hin) as [o Ho]. rewrite H1 in Ho by lia. done.
Qed.

(** ** One line *)

(** The parser's invariant: the list is well formed, and the context points at the
    last game and its last cheat whenever a token that needs them is allowed. *)
Definition parser_inv (st : pstate) (gs : list agame) : Prop :=
  let c := ps_ctx st in
  games_rep (ps_heap st) (ps_list st) gs /\ heap_wf (ps_heap st) /\
  (next c = TOK_GAME_TITLE \/
   (next c = next_token TOK_GAME_TITLE /\
    exists gs0 g t chs, gs = gs0 ++ [AGame g t chs] /\ game c = Some g) \/
   (next c = next_token TOK_CHEAT_DESC /\
    exists gs0 g t chs h d cs, gs = gs0 ++ [AGame g t (chs ++ [ACheat h d cs])] /\
      game c = Some g /\ cheat c = Some h)).

(** A game whose title is terminated in its array and whose codes are 32-bit numbers. *)
Definition game_stored (g : agame) : Prop :=
  0 ∈ ag_title g /\ (length (ag_title g) <= S GAME_TITLE_MAX)%nat /\
  Forall (fun c => Forall (fun d => is_u32 (ac_addr d) /\ is_u32 (ac_val d)) (ah_codes c)) (ag_cheats g).

(** The three possible outcomes of [parse_line]. *)
Definition line_result (st : pstate) (gs : list agame) (s : cstring) (nl : Z)
    (r : res (Z * pstate)) : Prop :=
  let tok := get_token s 0 in
  if Z.land (next (ps_ctx st)) tok =? 0 then
    exists st', r = Ok (-1, st') /\ ps_heap st' = ps_heap st /\ ps_list st' = ps_list st /\
      parse_error_line st' = nl /\
      parse_error_text st' = str "parse error: " ++ default [] (tok2str tok) ++ str " invalid here"
  else if oracle_ok (ps_heap st) then
    exists st' gs', r = Ok (0, st') /\ parser_inv st' gs' /\
      next (ps_ctx st') = next_token tok /\
      (name_ok s -> tree_of gs' = add_tok tok s (tree_of gs) /\
        (Forall game_stored gs -> Forall game_stored gs')) /\
      h_oracle (ps_heap st') = tail (h_oracle (ps_heap st)) /\
      h_junk (ps_heap st') = h_junk (ps_heap st)
  else
    exists st', r = Ok (-1, st') /\ parse_error_line st' = nl /\
      games_rep (ps_heap st') (ps_list st') gs /\ heap_wf (ps_heap st').

Lemma get_token_cases s top :
  (get_token s top = TOK_GAME_TITLE /\ is_game_title s = true) \/
  (get_token s top = TOK_CHEAT_CODE /\ is_game_title s = false /\ is_cheat_code s = true) \/
  (get_token s top = TOK_CHEAT_DESC /\ is_game_title s = false /\ is_cheat_code s = false).
Proof.
  unfold get_token. destruct (is_game_title s); [by left|]. right.
  destruct (is_cheat_code s); [by left|]. by right.
Qed.

Lemma on_heap_ok {A} (c : M heap A) st x h' :
  c (ps_heap st) = Ok (x, h') ->
  on_heap c st = Ok (x, PState h' (ps_ctx st) (ps_list st) (parse_error_text st)
                          (parse_error_line st)).
Proof. intros H. unfold on_heap. by rewrite H. Qed.

(** A syntax error. *)
Lemma parse_line_syntax st gs s nl :
  Z.land (next (ps_ctx st)) (get_token s 0) = 0 ->
  line_result st gs s nl (parse_line s nl st).
Proof.
  intros E. unfold line_result. rewrite E. simpl.
  unfold parse_line, bind at 1, gets.
  change (get_token s (top (ps_ctx st))) with (get_token s 0). rewrite E. simpl.
  destruct (get_token_cases s 0) as [(-> & _)|[(-> & _)|(-> & _)]];
    eexists; (split; [reflexivity|]); done.
Qed.

Lemma nul_free_inner s : nul_free s -> nul_free (inner s).
Proof. intros H. apply nul_free_take. destruct s; [done|]. by inv H. Qed.

Lemma tree_of_snoc gs g : tree_of (gs ++ [g]) = tree_of gs ++ [game_tree g].
Proof. unfold tree_of. by rewrite fmap_app. Qed.

(** *** Heap part: a new object at the end of its list *)

Lemma bump_games h o q gs :
  heap_wf h -> games_rep h q gs ->
  let h1 := set_h_games (<[h_fresh h := o]> (h_games h)) (bump h) in
  games_rep h1 q gs /\ heap_wf h1.
Proof.
  intros Hwf Hr h1. split.
  - apply games_rep_bump with (h := h) (fc := h_codes h) (fh := h_cheats h) (fg := h_games h1); eauto.
  - apply heap_wf_bump with (h := h) (fc := h_codes h) (fh := h_cheats h) (fg := h_games h1); eauto.
Qed.

Lemma bump_cheats h o q gs :
  heap_wf h -> games_rep h q gs ->
  let h1 := set_h_cheats (<[h_fresh h := o]> (h_cheats h)) (bump h) in
  games_rep h1 q gs /\ heap_wf h1.
Proof.
  intros Hwf Hr h1. split.
  - apply games_rep_bump with (h := h) (fc := h_codes h) (fh := h_cheats h1) (fg := h_games h); eauto.
  - apply heap_wf_bump with (h := h) (fc := h_codes h) (fh := h_cheats h1) (fg := h_games h); eauto.
Qed.

Lemma bump_codes h o q gs :
  heap_wf h -> games_rep h q gs ->
  let h1 := set_h_codes (<[h_fresh h := o]> (h_codes h)) (bump h) in
  games_rep h1 q gs /\ heap_wf h1.
Proof.
  intros Hwf Hr h1. split.
  - apply games_rep_bump with (h := h) (fc := h_codes h1) (fh := h_cheats h) (fg := h_games h); eauto.
  - apply heap_wf_bump with (h := h) (fc := h_codes h1) (fh := h_cheats h) (fg := h_games h); eauto.
Qed.

Lemma make_game_title s h :
  is_game_title s = true -> title_fits s ->
  __make_game s h =
  match make_game (Some (inner s)) None 0 h with Ok ((g, _), h') => Ok (g, h') | Err f => Err f end.
Proof.
  intros Ht Hfit. specialize (Hfit Ht). unfold __make_game, inner in *.
  assert (2 < strlen s) by (unfold is_game_title in Ht; destruct (2 <? strlen s) eqn:E; [lia|done]).
  rewrite length_take in Hfit. unfold strlen in *.
  destruct (Nat.ltb_spec GAME_TITLE_MAX (length s - 2)); [destruct s; simpl in *; lia|].
  unfold bind, ret. by destruct (make_game _ _ _ h) as [[[g q] h']|].
Qed.

(** What the heap operations of one token leave of the allocator. *)
Definition alloc_step (h h' : heap) : Prop :=
  h_oracle h' = tail (h_oracle h) /\ h_junk h' = h_junk h.

Lemma new_game s h q gs :
  heap_wf h -> games_rep h q gs -> oracle_ok h = true -> is_game_title s = true -> title_fits s ->
  exists l h1 q' h2, __make_game s h = Ok (Some l, h1) /\ GAMES_INSERT_TAIL q l h1 = Ok (q', h2) /\
    games_rep h2 q' (gs ++ [AGame l (fill_name (h_junk h) GAME_TITLE_MAX (Some (inner s))) []]) /\
    heap_wf h2 /\ alloc_step h h2.
Proof.
  intros Hwf Hr Eo Ht Hfit.
  pose (o := Game (fill_name (h_junk h) GAME_TITLE_MAX (Some (inner s))) STAILQ_INIT 0 (h_junk_ptr h)).
  destruct (bump_games h o q gs Hwf Hr) as (Hr1 & Hwf1).
  destruct (fresh_not_in _ _ _ Hwf Hr) as (Hfg & _ & _).
  destruct (games_insert_tail_spec _ q gs (h_fresh h) _ _ _ Hr1 Hwf1 Hfg (lookup_insert_eq _ _ _))
    as (q' & h2 & Hi & Hr2 & Hwf2 & (_ & Ho2 & Hj2 & _)).
  eexists _, _, q', h2. split; [|split; [exact Hi|]].
  - rewrite make_game_title by done. unfold make_game.
    by rewrite (bind_ok _ _ _ _ _ (malloc_ok _ Eo)).
  - split; [done|]. split; [done|]. split; [by rewrite Ho2|by rewrite Hj2].
Qed.

Lemma new_cheat s h q gs g t chs :
  heap_wf h -> games_rep h q (gs ++ [AGame g t chs]) -> oracle_ok h = true ->
  exists l h1 h2, __make_cheat s h = Ok (Some l, h1) /\
    CHEATS_INSERT_TAIL (Some g) l h1 = Ok (tt, h2) /\
    games_rep h2 q (gs ++ [AGame g t (chs ++
      [ACheat l (fill_name (h_junk h) CHEAT_DESC_MAX (Some s)) []])]) /\
    heap_wf h2 /\ alloc_step h h2.
Proof.
  intros Hwf Hr Eo.
  pose (o := Cheat (fill_name (h_junk h) CHEAT_DESC_MAX (Some s)) STAILQ_INIT 0 (h_junk_ptr h)).
  destruct (bump_cheats h o q _ Hwf Hr) as (Hr1 & Hwf1).
  destruct (fresh_not_in _ _ _ Hwf Hr) as (_ & Hfh & _).
  destruct (cheats_insert_tail_spec _ q gs g t chs (h_fresh h) _ _ _ Hr1 Hwf1 Hfh
    (lookup_insert_eq _ _ _)) as (h2 & Hi & Hr2 & Hwf2 & (_ & Ho2 & Hj2 & _)).
  eexists _, _, h2. split; [|split; [exact Hi|]].
  - unfold __make_cheat, make_cheat.
    rewrite bind_assoc. by rewrite (bind_ok _ _ _ _ _ (malloc_ok _ Eo)).
  - split; [done|]. split; [done|]. split; [by rewrite Ho2|by rewrite Hj2].
Qed.

Lemma new_code s h q gs g t chs c d cs :
  heap_wf h -> games_rep h q (gs ++ [AGame g t (chs ++ [ACheat c d cs])]) -> oracle_ok h = true ->
  is_cheat_code s = true ->
  exists l h1 h2, __make_code s h = Ok (Some l, h1) /\
    CODES_INSERT_TAIL (Some c) l h1 = Ok (tt, h2) /\
    games_rep h2 q (gs ++ [AGame g t (chs ++
      [ACheat c d (cs ++ [ACode l (fst (code_of s)) (snd (code_of s))])])]) /\
    heap_wf h2 /\ alloc_step h h2.
Proof.
  intros Hwf Hr Eo Hc.
  pose (o := Code (fst (code_of s)) (snd (code_of s)) 0 (h_junk_ptr h)).
  destruct (bump_codes h o q _ Hwf Hr) as (Hr1 & Hwf1).
  destruct (fresh_not_in _ _ _ Hwf Hr) as (_ & _ & Hfc).
  destruct (codes_insert_tail_spec _ q gs g t chs c d cs (h_fresh h) _ _ _ _ Hr1 Hwf1 Hfc
    (lookup_insert_eq _ _ _)) as (h2 & Hi & Hr2 & Hwf2 & (_ & Ho2 & Hj2 & _)).
  eexists _, _, h2. split; [|split; [exact Hi|]].
  - rewrite make_code_line by done. unfold make_code.
    by rewrite (bind_ok _ _ _ _ _ (malloc_ok _ Eo)).
  - split; [done|]. split; [done|]. split; [by rewrite Ho2|by rewrite Hj2].
Qed.

(** *** The three tokens *)

Lemma digit_val_bound c : isxdigit c = true -> 0 <= digit_val c < 16.
Proof.
  unfold isxdigit, digit_val, isdigit. intros H.
  destruct (Z.leb_spec 48 c), (Z.leb_spec c 57), (Z.leb_spec 65 c), (Z.leb_spec c 70), (Z.leb_spec 97 c), (Z.leb_spec c 102);
    cbn [andb orb] in *; try discriminate; lia.
Qed.

Lemma hex_value_bound s : Forall (fun c => isxdigit c = true) s -> 0 <= hex_value s < 16 ^ Z.of_nat (length s).
Proof.
  induction s as [|c s IH] using rev_ind; [done|]. rewrite Forall_app, Forall_singleton. intros [Hs Hc].
  rewrite hex_value_snoc, length_app, Nat2Z.inj_add, Z.pow_add_r by lia. specialize (IH Hs). pose proof (digit_val_bound c Hc).
  change (16 ^ Z.of_nat (length [c])) with 16. lia.
Qed.

Lemma code_of_u32 s : is_cheat_code s = true -> is_u32 (code_of s).1 /\ is_u32 (code_of s).2.
Proof.
  intros Hc%is_cheat_code_count. unfold CODE_DIGITS in Hc. unfold code_of. set (l := filter _ s) in *. cbn [fst snd].
  assert (Hl : Forall (fun c => isxdigit c = true) l) by (apply Forall_forall; intros c Hin; by apply list_elem_of_filter in Hin as [? _]).
  pose proof (hex_value_bound _ (Forall_take _ 8 _ Hl)) as H1. pose proof (hex_value_bound _ (Forall_drop _ 8 _ Hl)) as H2.
  rewrite length_take in H1. rewrite length_drop in H2. replace (Nat.min 8 (length l)) with 8%nat in H1 by lia.
  replace (length l - 8)%nat with 8%nat in H2 by lia. done.
Qed.

Lemma title_stored l junk s : (length s < GAME_TITLE_MAX)%nat -> game_stored (AGame l (fill_name junk GAME_TITLE_MAX (Some s)) []).
Proof.
  intros Hs. split; [|split; [|apply Forall_nil_2]]; cbn [ag_title]; unfold fill_name.
  - unfold strncpy. rewrite take_ge by lia. destruct (GAME_TITLE_MAX - length s)%nat as [|k] eqn:E; [lia|]. apply elem_of_app. right. by left.
  - rewrite length_strncpy by (rewrite length_replicate; lia). by rewrite length_replicate.
Qed.

Lemma stored_last gs g t chs chs' : Forall game_stored (gs ++ [AGame g t chs]) ->
  (Forall (fun c => Forall (fun d => is_u32 (ac_addr d) /\ is_u32 (ac_val d)) (ah_codes c)) chs ->
   Forall (fun c => Forall (fun d => is_u32 (ac_addr d) /\ is_u32 (ac_val d)) (ah_codes c)) chs') ->
  Forall game_stored (gs ++ [AGame g t chs']).
Proof. rewrite !Forall_app, !Forall_singleton. intros (? & ? & ? & ?) Hc. split; [done|]. split; [done|]. split; [done|]. by apply Hc. Qed.

Lemma parse_line_title st gs s nl :
  parser_inv st gs -> is_game_title s = true -> title_fits s ->
  Z.land (next (ps_ctx st)) TOK_GAME_TITLE <> 0 ->
  line_result st gs s nl (parse_line s nl st).
Proof.
  intros (Hr & Hwf & _) Ht Hfit Hn%Z.eqb_neq.
  assert (Htok : forall n, get_token s n = TOK_GAME_TITLE) by (intros; unfold get_token; by rewrite Ht).
  unfold line_result. rewrite Htok, Hn. unfold parse_line.
  rewrite (bind_ok _ _ st (ps_ctx st) st), Htok, Hn by done. cbn [Z.eqb TOK_GAME_TITLE Pos.eqb].
  destruct (oracle_ok (ps_heap st)) eqn:Eo.
  - destruct (new_game s _ _ _ Hwf Hr Eo Ht Hfit) as (l & h1 & q' & h2 & Hm & Hi & Hr2 & Hwf2 & Ha).
    rewrite bind_assoc, (bind_ok _ _ _ _ _ (on_heap_ok _ _ _ _ Hm)).
    unfold bind, mod_ctx, gets, modify, on_heap, ret. simpl. rewrite Hi. simpl.
    eexists _, _. split; [reflexivity|]. split.
    { split; [exact Hr2|]. split; [exact Hwf2|]. right. left. split; [done|].
      simpl. eexists gs, l, _, []. done. }
    split; [done|]. simpl. split; [|exact Ha].
    intros [Hnf Hnm]. rewrite Ht in Hnm. rewrite tree_of_snoc. unfold game_tree. simpl.
    unfold fill_name. rewrite cstr_strncpy; [|by apply nul_free_inner|done]. split; [done|].
    intros Hst. apply Forall_app. split; [done|]. by apply Forall_singleton, title_stored.
  - destruct (malloc_fail _ Eo) as (h' & Hm & Hc & Hh & Hg & Hf).
    assert (Hmg : __make_game s (ps_heap st) = Ok (None, h')).
    { rewrite make_game_title by done. unfold make_game. by rewrite (bind_ok _ _ _ _ _ Hm). }
    rewrite bind_assoc, (bind_ok _ _ _ _ _ (on_heap_ok _ _ _ _ Hmg)).
    eexists. split; [reflexivity|]. simpl. split; [done|].
    split; [by eapply games_rep_fail|by eapply heap_wf_fail].
Qed.

Lemma parse_line_desc st gs s nl :
  parser_inv st gs -> is_game_title s = false -> is_cheat_code s = false ->
  Z.land (next (ps_ctx st)) TOK_CHEAT_DESC <> 0 ->
  line_result st gs s nl (parse_line s nl st).
Proof.
  intros (Hr & Hwf & Hctx) Ht Hc Hn. assert (Hgame : exists gs0 g t chs,
    gs = gs0 ++ [AGame g t chs] /\ game (ps_ctx st) = Some g).
  { destruct Hctx as [E|[(_ & Hx)|(_ & gs0 & g & t & chs & h & d & cs & -> & Hg & _)]];
      [by rewrite E in Hn|done|]. eexists gs0, g, t, _. done. }
  destruct Hgame as (gs0 & g & t & chs & -> & Hg). apply Z.eqb_neq in Hn.
  assert (Htok : forall n, get_token s n = TOK_CHEAT_DESC)
    by (intros; unfold get_token; by rewrite Ht, Hc).
  unfold line_result. rewrite Htok, Hn. unfold parse_line.
  rewrite (bind_ok _ _ st (ps_ctx st) st), Htok, Hn by done.
  cbn [Z.eqb TOK_GAME_TITLE TOK_CHEAT_DESC Pos.eqb]. rewrite Hg.
  destruct (oracle_ok (ps_heap st)) eqn:Eo.
  - destruct (new_cheat s _ _ _ _ _ _ Hwf Hr Eo) as (l & h1 & h2 & Hm & Hi & Hr2 & Hwf2 & Ha).
    rewrite bind_assoc, (bind_ok _ _ _ _ _ (on_heap_ok _ _ _ _ Hm)).
    unfold bind, mod_ctx, gets, modify, on_heap, ret. simpl. rewrite Hi. simpl.
    eexists _, _. split; [reflexivity|]. split.
    { split; [exact Hr2|]. split; [exact Hwf2|]. right. right. split; [done|].
      simpl. eexists gs0, g, t, chs, l, _, []. done. }
    split; [done|]. simpl. split; [|exact Ha].
    intros [Hnf Hnm]. rewrite Ht in Hnm. destruct Hnm as [Hnm|Hnm]; [congruence|].
    rewrite !tree_of_snoc. unfold add_tok. simpl. rewrite on_last_snoc. unfold game_tree. simpl.
    rewrite fmap_app. simpl. unfold cheat_tree at 2. simpl. unfold fill_name.
    rewrite cstr_strncpy by done. split; [done|]. intros Hst. apply (stored_last _ _ _ _ _ Hst).
    intros Hcs. apply Forall_app. split; [done|]. by apply Forall_singleton.
  - destruct (malloc_fail _ Eo) as (h' & Hm & Hc' & Hh & Hg' & Hf).
    assert (Hmg : __make_cheat s (ps_heap st) = Ok (None, h'))
      by (unfold __make_cheat, make_cheat; by rewrite bind_assoc, (bind_ok _ _ _ _ _ Hm)).
    rewrite bind_assoc, (bind_ok _ _ _ _ _ (on_heap_ok _ _ _ _ Hmg)).
    eexists. split; [reflexivity|]. simpl. split; [done|].
    split; [by eapply games_rep_fail|by eapply heap_wf_fail].
Qed.

Lemma parse_line_code st gs s nl :
  parser_inv st gs -> is_game_title s = false -> is_cheat_code s = true ->
  Z.land (next (ps_ctx st)) TOK_CHEAT_CODE <> 0 ->
  line_result st gs s nl (parse_line s nl st).
Proof.
  intros (Hr & Hwf & Hctx) Ht Hc Hn.
  destruct Hctx as [E|[(E & _)|(_ & gs0 & g & t & chs & c & d & cs & -> & Hg & Hch)]];
    [by rewrite E in Hn|by rewrite E in Hn|]. apply Z.eqb_neq in Hn.
  assert (Htok : forall n, get_token s n = TOK_CHEAT_CODE)
    by (intros; unfold get_token; by rewrite Ht, Hc).
  unfold line_result. rewrite Htok, Hn. unfold parse_line.
  rewrite (bind_ok _ _ st (ps_ctx st) st), Htok, Hn by done.
  cbn [Z.eqb TOK_GAME_TITLE TOK_CHEAT_DESC TOK_CHEAT_CODE Pos.eqb]. rewrite Hch.
  destruct (oracle_ok (ps_heap st)) eqn:Eo.
  - destruct (new_code s _ _ _ _ _ _ _ _ _ Hwf Hr Eo Hc)
      as (l & h1 & h2 & Hm & Hi & Hr2 & Hwf2 & Ha).
    rewrite bind_assoc, (bind_ok _ _ _ _ _ (on_heap_ok _ _ _ _ Hm)).
    unfold bind, mod_ctx, gets, modify, on_heap, ret. simpl. rewrite Hi. simpl.
    eexists _, _. split; [reflexivity|]. split.
    { split; [exact Hr2|]. split; [exact Hwf2|]. right. right. split; [done|].
      simpl. eexists gs0, g, t, chs, c, d, _. done. }
    split; [done|]. simpl. split; [|exact Ha].
    intros _. rewrite !tree_of_snoc. unfold add_tok. simpl. rewrite on_last_snoc.
    unfold game_tree. simpl. rewrite !fmap_app. simpl. rewrite on_last_snoc.
    unfold cheat_tree. simpl. rewrite fmap_app. split; [done|]. intros Hst. apply (stored_last _ _ _ _ _ Hst).
    rewrite !Forall_app, !Forall_singleton. cbn [ah_codes]. rewrite Forall_app, Forall_singleton. cbn [ac_addr ac_val].
    intros [? ?]. split; [done|]. split; [done|]. by apply code_of_u32.
  - destruct (malloc_fail _ Eo) as (h' & Hm & Hc' & Hh & Hg' & Hf).
    assert (Hmg : __make_code s (ps_heap st) = Ok (None, h'))
      by (rewrite make_code_line by done; unfold make_code; by rewrite (bind_ok _ _ _ _ _ Hm)).
    rewrite bind_assoc, (bind_ok _ _ _ _ _ (on_heap_ok _ _ _ _ Hmg)).
    eexists. split; [reflexivity|]. simpl. split; [done|].
    split; [by eapply games_rep_fail|by eapply heap_wf_fail].
Qed.

(** Every line, in every state the parser can be in. *)
Lemma parse_line_spec st gs s nl :
  parser_inv st gs -> title_fits s -> line_result st gs s nl (parse_line s nl st).
Proof.
  intros Hinv Hfit. destruct (decide (Z.land (next (ps_ctx st)) (get_token s 0) = 0)) as [E|E];
    [by apply parse_line_syntax|].
  destruct (get_token_cases s 0) as [(Et & Ht)|[(Et & Ht & Hc)|(Et & Ht & Hc)]]; rewrite Et in E.
  - by apply parse_line_title.
  - by apply parse_line_code.
  - by apply parse_line_desc.
Qed.

(** ** Whole texts *)

(** Lines as [parse_buf] expects them: terminated, of a length that fits the line
    buffer, titles that fit theirs. *)
Definition line_ok (l : cstring) : Prop :=
  (LF ∉ l) /\ Z.of_nat (length l) <= LINE_MAX /\ title_fits (screen l).

Definition unlines (ls : list cstring) : cstring := ls ≫= fun l => l ++ [LF].

(** The lines that reach [parse_line] have names that fit. *)
Definition names_ok (ls : list cstring) : Prop := Forall (fun l => name_ok (screen l)) ls.

(** Both as tests. *)
Definition line_okb (l : cstring) : bool :=
  bool_decide (LF ∉ l) && (Z.of_nat (length l) <=? LINE_MAX) &&
  (negb (is_game_title (screen l)) || (length (inner (screen l)) <=? GAME_TITLE_MAX)%nat).

Definition name_okb (s : cstring) : bool :=
  forallb (fun c => negb (c =? 0)) s &&
  if is_game_title s then (length (inner s) <? GAME_TITLE_MAX)%nat
  else is_cheat_code s || (length s <? CHEAT_DESC_MAX)%nat.

Lemma line_okb_ok ls : forallb line_okb ls = true -> Forall line_ok ls.
Proof.
  rewrite forallb_forall. intros Hb. apply Forall_forall. intros l Hl.
  apply list_elem_of_In, Hb in Hl. revert Hl. unfold line_okb, line_ok, title_fits.
  rewrite !andb_true_iff, orb_true_iff, bool_decide_eq_true, Z.leb_le, Nat.leb_le,
    negb_true_iff.
  intros ((H1 & H2) & H3). split; [done|]. split; [done|]. intros Ht.
  destruct H3; congruence.
Qed.

Lemma name_okb_ok s : name_okb s = true -> name_ok s.
Proof.
  unfold name_okb, name_ok, nul_free. rewrite andb_true_iff, forallb_forall.
  intros (Hn & Hs). split.
  - apply Forall_forall. intros c Hc E. rewrite list_elem_of_In in Hc. apply Hn in Hc.
    by rewrite E in Hc.
  - destruct (is_game_title s); [by apply Nat.ltb_lt|].
    apply orb_true_iff in Hs as [Hs|Hs]; [by left|right; by apply Nat.ltb_lt].
Qed.

Lemma names_okb_ok ls : forallb (fun l => name_okb (screen l)) ls = true -> names_ok ls.
Proof.
  rewrite forallb_forall. intros H. apply Forall_forall. intros l Hl.
  apply name_okb_ok, H. by apply list_elem_of_In.
Qed.

(** The outcome of parsing lines from a state, as [spec_lines] predicts it. *)
Definition verdict_holds (v : verdict) (z : Z) (st' : pstate) (gs' : list agame) (named : Prop) : Prop :=
  match v with
  | Parsed t => z = 0 /\ (named -> tree_of gs' = t)
  | Syntax nl tok =>
      z = -1 /\ parse_error_line st' = nl /\
      parse_error_text st' = str "parse error: " ++ default [] (tok2str tok) ++ str " invalid here"
  | NoMemory nl => z = -1 /\ parse_error_line st' = nl
  end.

Definition text_result (st : pstate) (gs : list agame) (ls : list cstring) (nl : Z)
    (r : res (Z * pstate)) : Prop :=
  exists z st' gs', r = Ok (z, st') /\ games_rep (ps_heap st') (ps_list st') gs' /\
    heap_wf (ps_heap st') /\ (names_ok ls -> Forall game_stored gs -> Forall game_stored gs') /\
    verdict_holds (spec_lines ls (h_oracle (ps_heap st)) nl (next (ps_ctx st)) (tree_of gs))
      z st' gs' (names_ok ls).

Lemma oracle_ok_head h : oracle_ok h = default true (head (h_oracle h)).
Proof. unfold oracle_ok. by destruct (h_oracle h). Qed.

Lemma verdict_holds_weaken v z st gs (P Q : Prop) :
  (Q -> P) -> verdict_holds v z st gs P -> verdict_holds v z st gs Q.
Proof. intros H. destruct v; simpl; [|done|done]. intros (? & ?). split; auto. Qed.

(** The tree built so far has no influence on the verdict but through [Parsed]. *)
Lemma spec_lines_tree ls mem nl nxt t t' z st gs (P Q : Prop) :
  (Q -> P /\ t = t') ->
  verdict_holds (spec_lines ls mem nl nxt t) z st gs P ->
  verdict_holds (spec_lines ls mem nl nxt t') z st gs Q.
Proof.
  revert mem nl nxt t t'. induction ls as [|l ls IH]; intros mem nl nxt t t' HPQ; simpl.
  - intros (Hz & Ht). split; [done|]. intros HQ. destruct (HPQ HQ) as [HP <-]. by apply Ht.
  - destruct (is_empty_str l || _); [by apply IH|]. destruct (Z.land nxt _ =? 0); [done|].
    destruct (negb _); [done|]. apply IH. intros HQ. destruct (HPQ HQ) as [HP <-]. done.
Qed.

(** One line and the rest of the text, the way both readers go on. *)
Lemma parse_text_step st gs l ls nl (k : M pstate Z) :
  parser_inv st gs -> title_fits (screen l) ->
  (forall st1 gs1, parser_inv st1 gs1 -> text_result st1 gs1 ls (nl + 1) (k st1)) ->
  text_result st gs (l :: ls) nl
    ((let* r := (if is_empty_str l then ret 0 else parse_screened l nl) in
      if r <? 0 then ret (-1) else k) st).
Proof.
  intros Hinv Hfit Hk.
  assert (Hskip : is_empty_str l || bool_decide (screen l = []) = true ->
                  text_result st gs (l :: ls) nl (k st)).
  { intros E. destruct (Hk st gs Hinv) as (z & st' & gs' & Hr & Hg & Hw & Hst & Hv).
    exists z, st', gs'. split; [done|]. split; [done|]. split; [done|]. split; [intros Hn; inv Hn; by apply Hst|]. simpl. rewrite E.
    eapply verdict_holds_weaken; [|exact Hv]. intros Hn. by inv Hn. }
  unfold parse_screened. destruct (is_empty_str l) eqn:El; [by apply Hskip|].
  simpl in Hskip. destruct (screen l) as [|c s] eqn:Es; [by apply Hskip|].
  assert (Hlen : 0 <? strlen (c :: s) = true) by (apply Z.ltb_lt; unfold strlen; cbn [length]; lia).
  rewrite Hlen.
  pose proof (parse_line_spec st gs (c :: s) nl Hinv Hfit) as Hl. unfold line_result in Hl.
  unfold text_result. cbn [spec_lines]. rewrite El, Es. cbn [orb bool_decide decide_rel].
  rewrite bool_decide_eq_false_2 by done.
  destruct (Z.land (next (ps_ctx st)) (get_token (c :: s) 0) =? 0).
  - destruct Hl as (st' & Hl & Hh & Hq & He & Ht). rewrite (bind_ok _ _ _ _ _ Hl).
    exists (-1), st', gs. split; [done|]. rewrite Hh, Hq. split; [apply Hinv|].
    split; [apply Hinv|]. split; [done|done].
  - rewrite <- oracle_ok_head. destruct (oracle_ok (ps_heap st)); simpl.
    + destruct Hl as (st' & gs' & Hl & Hinv' & Hnx & Ht & Ho & _).
      rewrite (bind_ok _ _ _ _ _ Hl). cbn [Z.ltb Z.compare].
      destruct (Hk st' gs' Hinv') as (z & st2 & gs2 & Hr & Hg & Hw & Hst & Hv).
      exists z, st2, gs2. split; [done|]. split; [done|]. split; [done|].
      split; [intros Hn; inv Hn; rewrite Es in *; intros Hgs; apply Hst; [done|]; by apply Ht|].
      rewrite Ho, Hnx in Hv. eapply spec_lines_tree; [|exact Hv].
      intros Hn. inv Hn. rewrite Es in *. split; [done|by apply Ht].
    + destruct Hl as (st' & Hl & He & Hg & Hw). rewrite (bind_ok _ _ _ _ _ Hl).
      exists (-1), st', gs. split; [done|]. split; [done|]. split; [done|]. split; [done|done].
Qed.

Lemma unlines_cons l ls : unlines (l :: ls) = l ++ LF :: unlines ls.
Proof. unfold unlines. simpl. by rewrite <- app_assoc. Qed.

Lemma length_unlines ls : (length ls <= length (unlines ls))%nat.
Proof.
  induction ls as [|l ls IH]; [done|]. rewrite unlines_cons, length_app. simpl. lia.
Qed.

Lemma chr_idx_line l r : LF ∉ l -> chr_idx (l ++ LF :: r) LF = Z.of_nat (length l).
Proof.
  intros Hl. unfold chr_idx. enough (H : forall i, chr_idx_from (l ++ LF :: r) LF i
    = i + Z.of_nat (length l)) by (by rewrite H).
  induction l as [|c l IH]; intros i; simpl; [lia|].
  destruct (Z.eqb_spec c LF) as [->|_]; [set_solver|]. rewrite IH by set_solver. lia.
Qed.

Lemma if_bind {S A B} (b : bool) (c1 c2 : M S A) (k : A -> M S B) :
  bind (if b then c1 else c2) k = if b then bind c1 k else bind c2 k.
Proof. by destruct b. Qed.

Lemma parse_buf_loop_spec ls : forall fuel line nl st gs,
  Forall line_ok ls -> (length ls <= fuel)%nat -> parser_inv st gs ->
  text_result st gs ls nl (parse_buf_loop fuel (unlines ls) line nl st).
Proof.
  induction ls as [|l ls IH]; intros fuel line nl st gs Hok Hf Hinv.
  - exists 0, st, gs. destruct Hinv as (Hr & Hw & _). by destruct fuel.
  - inv Hok. destruct H1 as (HLF & Hlen & Hfit). destruct fuel as [|fuel]; simpl in Hf; [lia|].
    rewrite unlines_cons.
    assert (Hstep : parse_buf_loop (S fuel) (l ++ LF :: unlines ls) line nl st =
      (let* r := (if is_empty_str l then ret 0 else parse_screened l nl) in
       if r <? 0 then ret (-1)
       else parse_buf_loop fuel (unlines ls)
              (if is_empty_str l then line else screen l ++ [0]) (nl + 1)) st).
    { cbn [parse_buf_loop]. destruct (l ++ LF :: unlines ls) as [|b buf] eqn:Eb; [by destruct l|].
      rewrite <- Eb, chr_idx_line by done. clear Eb b buf.
      destruct (Z.ltb_spec (Z.of_nat (length l)) 0); [lia|].
      destruct (Z.ltb_spec LINE_MAX (Z.of_nat (length l))); [lia|].
      rewrite bind_ret, Nat2Z.id. rewrite is_empty_substr_prefix by (rewrite length_app; lia).
      rewrite take_app_length.
      replace (drop (length l + 1) (l ++ LF :: unlines ls)) with (unlines ls)
        by (rewrite <- drop_drop, drop_app_length; done).
      destruct (Nat.ltb_spec (length (l ++ LF :: unlines ls)) (length l + 1)) as [Hlt|_];
        [rewrite length_app in Hlt; simpl in Hlt; lia|].
      rewrite (bind_ok _ _ st (is_empty_str l) st) by done.
      destruct (is_empty_str l); [done|]. by rewrite bind_assoc. }
    rewrite Hstep. apply parse_text_step; [done|done|].
    intros st1 gs1 Hinv1. apply IH; [done|lia|done].
Qed.

(** The state before a text is parsed into an empty list. *)
Lemma parser_inv_init st :
  heap_wf (ps_heap st) ->
  parser_inv (set_ctx (init_parser (ps_ctx st)) (set_list STAILQ_INIT st)) [].
Proof. intros Hw. split; [apply games_rep_empty|]. split; [done|]. by left. Qed.



Definition sample_lines : list cstring :=
  [34 :: str "Jak II PAL" ++ [34]; str "Inf. Ammo  // all weapons"; str "202E1B50 24020063";
   []; str "  Moon Jump"; str "D0456780 0000BFFF"; str "2045678 44A00000 0"].

Definition sample_state : pstate :=
  PState (empty_heap [true; true; true; true; true; true; false] 205 None)
    (Ctx 0 0 None None None) STAILQ_INIT [] 0.



(** ** Streams: [fgets] keeps the newline, the screener drops it *)

Lemma is_empty_str_app s t : is_empty_str (s ++ t) = is_empty_str s && is_empty_str t.
Proof. induction s as [|c s IH]; simpl; [done|]. by destruct (isgraph c). Qed.

Lemma is_cmt_str_LF c s : is_cmt_str ((c :: s) ++ [LF]) = is_cmt_str (c :: s).
Proof.
  unfold is_cmt_str. f_equal. destruct s as [|d s].
  - change (strncmp_eq ([c] ++ [LF]) (str "//") 2) with (bool_decide ([c; LF] = str "//")).
    rewrite bool_decide_eq_false_2 by (intros [= _ E]; vm_compute in E; done).
    by rewrite andb_false_r.
  - f_equal. unfold strlen. cbn [length app].
    destruct (Z.leb_spec 2 (Z.of_nat (S (S (length (s ++ [LF]))))));
      destruct (Z.leb_spec 2 (Z.of_nat (S (S (length s))))); lia.
Qed.

Lemma term_str_LF l :
  term_str_loop (l ++ [LF]) is_cmt_str = term_str_loop l is_cmt_str \/
  (term_str_loop (l ++ [LF]) is_cmt_str = l ++ [LF] /\ term_str_loop l is_cmt_str = l).
Proof.
  induction l as [|c l IH]; [by right|].
  assert (Hc := is_cmt_str_LF c l). rewrite <- app_comm_cons in *. cbn [term_str_loop]. rewrite Hc.
  destruct (is_cmt_str (c :: l)); [by left|].
  destruct IH as [->|[-> ->]]; [by left|by right].
Qed.

Lemma count_spaces_nonempty s t :
  is_empty_str s = false -> count_spaces (s ++ t) = count_spaces s.
Proof.
  induction s as [|c s IH]; [done|]. cbn [app count_spaces is_empty_str].
  destruct (isgraph c) eqn:E.
  - by rewrite (isgraph_not_space _ E).
  - intros H. destruct (isspace c); [|done]. by rewrite IH.
Qed.

Lemma count_spaces_lt s : is_empty_str s = false -> (count_spaces s < length s)%nat.
Proof.
  induction s as [|c s IH]; [done|]. cbn [count_spaces is_empty_str length].
  destruct (isgraph c) eqn:E; [rewrite (isgraph_not_space _ E); lia|].
  intros H. destruct (isspace c); [|lia]. specialize (IH H). lia.
Qed.

Lemma trim_str_LF l :
  is_empty_str l = false -> snd (trim_str (l ++ [LF])) = snd (trim_str l).
Proof.
  intros He. unfold trim_str. rewrite is_empty_str_app, He. cbn [andb snd].
  rewrite count_spaces_nonempty by done. rewrite rev_app_distr. cbn [rev app count_spaces].
  change (isspace LF) with true. cbn [snd].
  unfold strlen. rewrite length_app. cbn [length].
  pose proof (count_spaces_lt l He) as Hlt.
  set (n := Z.to_nat _). set (k := Z.to_nat (Z.of_nat (length l) - 1 - _ - _ + 1)).
  assert (Hk : n = k) by (unfold n, k; lia). rewrite Hk.
  rewrite Nat2Z.id, drop_app_le by lia. apply take_app_le. rewrite length_drop. unfold k. lia.
Qed.

Lemma screen_LF l : is_empty_str l = false -> screen (l ++ [LF]) = screen l.
Proof.
  intros He. unfold screen, term_str. destruct (term_str_LF l) as [->|[-> ->]]; [done|].
  by apply trim_str_LF.
Qed.

Lemma fgets_line l r size :
  LF ∉ l -> (length l + 2 <= size)%nat -> fgets size (l ++ LF :: r) = (l ++ [LF], r).
Proof.
  revert size. induction l as [|c l IH]; intros size Hl Hs.
  - destruct size as [|[|size]]; simpl in *; [lia|lia|]. done.
  - destruct size as [|[|size]]; simpl in Hs; [lia|lia|].
    assert (IHs := IH (S size) ltac:(set_solver) ltac:(lia)).
    change (fgets (S (S size)) ((c :: l) ++ LF :: r)) with
      (if c =? LF then ([c], l ++ LF :: r)
       else let '(x, y) := fgets (S size) (l ++ LF :: r) in (c :: x, y)).
    rewrite IHs. destruct (Z.eqb_spec c LF) as [->|_]; [set_solver|done].
Qed.

Lemma parse_stream_loop_spec ls : forall fuel nl st gs,
  Forall line_ok ls -> Forall (fun l => nul_free l /\ Z.of_nat (length l) < LINE_MAX) ls ->
  (length ls <= fuel)%nat -> parser_inv st gs ->
  text_result st gs ls nl (parse_stream_loop fuel (unlines ls) nl st).
Proof.
  induction ls as [|l ls IH]; intros fuel nl st gs Hok Hs Hf Hinv.
  - exists 0, st, gs. destruct Hinv as (Hr & Hw & _). by destruct fuel.
  - apply Forall_cons in Hok as [(HLF & Hlen & Hfit) Hok].
    apply Forall_cons in Hs as [(Hnul & Hlt) Hs].
    destruct fuel as [|fuel]; simpl in Hf; [lia|].
    rewrite unlines_cons. cbn [parse_stream_loop].
    destruct (l ++ LF :: unlines ls) as [|b buf] eqn:Eb; [by destruct l|].
    rewrite <- Eb. clear Eb b buf.
    rewrite fgets_line by (done || (unfold LINE_MAX in *; lia)).
    rewrite cstr_id by (apply nul_free_app; split; [done|by repeat constructor]).
    rewrite is_empty_str_app. change (is_empty_str [LF]) with true. rewrite andb_true_r.
    assert (Hsc : is_empty_str l = false -> forall st, parse_screened (l ++ [LF]) nl st =
                                                       parse_screened l nl st).
    { intros He s. unfold parse_screened. by rewrite screen_LF. }
    pose proof (parse_text_step st gs l ls nl (parse_stream_loop fuel (unlines ls) (nl + 1))
      Hinv Hfit) as Hstep.
    destruct (is_empty_str l) eqn:El.
    + apply Hstep. intros st1 gs1 Hinv1. apply IH; [done|done|lia|done].
    + unfold bind in *. rewrite Hsc by done. apply Hstep.
      intros st1 gs1 Hinv1. apply IH; [done|done|lia|done].
Qed.

(** C17: [parse_stream] and [parse_buf] read the same texts.  From a FILE, with lines of
    fewer than 255 characters, the outcome is the one [spec_lines] prescribes for
    [parse_buf] too: the same tree, or the same error at the same line. *)
Theorem parse_stream_correct ls st :
  Forall line_ok ls -> names_ok ls ->
  Forall (fun l => nul_free l /\ Z.of_nat (length l) < LINE_MAX) ls -> heap_wf (ps_heap st) ->
  exists z st' gs, parse_stream (Some STAILQ_INIT) (Some (unlines ls)) st = Ok (z, st') /\
    games_rep (ps_heap st') (ps_list st') gs /\
    match spec_lines ls (h_oracle (ps_heap st)) 1 TOK_GAME_TITLE [] with
    | Parsed t => z = 0 /\ tree_of gs = t
    | Syntax nl tok =>
        z = -1 /\ parse_error_line st' = nl /\
        parse_error_text st' = str "parse error: " ++ default [] (tok2str tok) ++ str " invalid here"
    | NoMemory nl => z = -1 /\ parse_error_line st' = nl
    end.
Proof.
  intros Hok Hn Hs Hw. pose proof (parser_inv_init st Hw) as Hinv.
  destruct (parse_stream_loop_spec ls (length (unlines ls)) 1 _ [] Hok Hs (length_unlines ls) Hinv)
    as (z & st' & gs & Hr & Hg & Hw' & _ & Hv).
  exists z, st', gs. split; [exact Hr|]. split; [done|]. simpl in Hv.
  destruct (spec_lines _ _ _ _ _); simpl in Hv; [|done|done].
  destruct Hv as [-> Ht]. split; [done|by apply Ht].
Qed.

(** A code before any cheat is rejected. *)
Definition bad_lines : list cstring :=
  [34 :: str "Rez" ++ [34]; []; str "202E1B50 24020063"; str "Never read"].

Lemma parse_stream_correct_witness :
  exists st', parse_stream (Some STAILQ_INIT) (Some (unlines bad_lines)) sample_state
      = Ok (-1, st') /\ parse_error_line st' = 3 /\
    parse_error_text st' = str "parse error: cheat code invalid here".
Proof.
  destruct (parse_stream_correct bad_lines sample_state) as (z & st' & gs & Hr & Hg & Hv).
  - apply line_okb_ok. vm_compute. reflexivity.
  - apply names_okb_ok. vm_compute. reflexivity.
  - repeat constructor; vm_compute; congruence.
  - apply heap_wf_empty.
  - assert (E : spec_lines bad_lines (h_oracle (ps_heap sample_state)) 1 TOK_GAME_TITLE [] =
      Syntax 3 TOK_CHEAT_CODE) by (vm_compute; reflexivity).
    rewrite E in Hv. destruct Hv as (-> & Hl & Ht). exists st'. split; [exact Hr|].
    split; [exact Hl|]. rewrite Ht. vm_compute. reflexivity.
Defined.

(** A text whose last line has no newline; the line before it is longer. *)
Definition unterminated : cstring :=
  unlines [34 :: str "Rez" ++ [34]; str "Infinite Energy All Day"] ++ str "202E1B50 24020063".

