(* ===== verification/LibCheats.v ===== *)
(** * The interface of libcheats (ee/libcheats/src/libcheats.c) *)

From S2P Require Import Prelude CString MyString Queue CheatList Parser ParserProps.
Local Open Scope ps2rd_scope.

Definition CHEATS_TRUE : Z := 0.
Definition CHEATS_FALSE : Z := -1.

Record cheats_t : Type := Cheats {
  games : stailq;
  error_text : cstring;
  error_line : Z;
}.

(** What the library works on besides the object: the heap, the parser's globals,
    the files of the host and which of them can be opened for writing. *)
Record lib : Type := Lib {
  l_heap : heap;
  l_error_text : cstring;
  l_error_line : Z;
  l_files : gmap (list Z) (list Z);
  l_writable : cstring -> bool;
}.

Definition set_l_heap (h : heap) (s : lib) : lib :=
  Lib h (l_error_text s) (l_error_line s) (l_files s) (l_writable s).

Definition in_heap {A} (c : M heap A) : M lib A := fun s =>
  match c (l_heap s) with
  | Ok (x, h) => Ok (x, set_l_heap h s)
  | Err f => Err f
  end.

(** Run the parser on a list; the context is a local variable, its [top] field is
    never set. *)
Definition in_parser (top : Z) (q : stailq) (c : M pstate Z) : M lib (Z * stailq) := fun s =>
  match c (PState (l_heap s) (Ctx top 0 None None None) q (l_error_text s) (l_error_line s)) with
  | Ok (r, p) =>
      Ok ((r, ps_list p),
          Lib (ps_heap p) (parse_error_text p) (parse_error_line p) (l_files s) (l_writable s))
  | Err f => Err f
  end.

(** [memset(cheats, 0, sizeof(cheats_t))] *)
Definition zero_cheats : cheats_t := Cheats (StailQ None LastNull) [] 0.

(** [GAMES_INIT] on the cleared object. *)
Definition cheats_init : cheats_t := Cheats STAILQ_INIT [] 0.

Definition cheats_destroy (c : cheats_t) : M lib cheats_t :=
  in_heap (free_games (games c));;
  ret zero_cheats.

(** The common end of the readers. *)
Definition read_result (r : Z) (q : stailq) (c : cheats_t) : M lib (Z * cheats_t) :=
  if r <? 0 then
    let* s := get in
    ret (CHEATS_FALSE, Cheats q (l_error_text s) (l_error_line s))
  else ret (CHEATS_TRUE, Cheats q (error_text c) (error_line c)).

Definition cheats_read (c : cheats_t) (stream : option (list Z)) (top : Z) : M lib (Z * cheats_t) :=
  cheats_destroy c;;
  let c := cheats_init in
  let* '(r, q) := in_parser top (games c) (parse_stream (Some (games c)) stream) in
  read_result r q c.

(** [sprintf(cheats->error_text, "could not open ... file %s", filename)] into 256
    bytes. *)
Definition open_error (c : cheats_t) (msg : cstring) (filename : cstring) : res cheats_t :=
  let text := msg ++ filename in
  if (length text <? 256)%nat then Ok (Cheats (games c) text (error_line c)) else Err OutOfBounds.

Definition cheats_read_file (c : cheats_t) (filename : cstring) (top : Z) : M lib (Z * cheats_t) :=
  let* fs := gets l_files in
  match fs !! filename with
  | None =>
      let* c := lift (open_error c (str "could not open input file ") filename) in
      ret (CHEATS_FALSE, c)
  | Some bytes => cheats_read c (Some bytes) top
  end.

Definition cheats_read_buf (c : cheats_t) (buf : option cstring) (top : Z) (line : list Z) :
    M lib (Z * cheats_t) :=
  cheats_destroy c;;
  let c := cheats_init in
  let* '(r, q) := in_parser top (games c) (parse_buf (Some (games c)) buf line) in
  read_result r q c.

(** The text written for a code, a cheat, a game. *)
Definition write_code (h : heap) (l : loc) : res cstring :=
  let? o := deref (h_codes h) l in
  Ok (print_08X (addr o) ++ str " " ++ print_08X (val o) ++ [LF]).

Fixpoint concat_res (l : list (res cstring)) : res cstring :=
  match l with
  | [] => Ok []
  | r :: l' => let? s := r in let? t := concat_res l' in Ok (s ++ t)
  end.

Definition write_cheat (h : heap) (l : loc) : res cstring :=
  let? o := deref (h_cheats h) l in
  let? name := c_string (desc o) in
  let? ls := STAILQ_FOREACH (size (h_codes h)) (h_codes h) (STAILQ_FIRST (codes o)) in
  let? body := concat_res (write_code h <$> ls) in
  Ok (name ++ [LF] ++ body).

Definition write_game (h : heap) (l : loc) : res cstring :=
  let? o := deref (h_games h) l in
  let? name := c_string (title o) in
  let? ls := STAILQ_FOREACH (size (h_cheats h)) (h_cheats h) (STAILQ_FIRST (cheats o)) in
  let? body := concat_res (write_cheat h <$> ls) in
  Ok ([QUOTE] ++ name ++ [QUOTE; LF] ++ body ++ [LF] ++ str "//--------" ++ [LF; LF]).

(** [cheats_write]: the bytes that go to the stream. *)
Definition cheats_write (c : cheats_t) (h : heap) : res cstring :=
  let? ls := STAILQ_FOREACH (size (h_games h)) (h_games h) (STAILQ_FIRST (games c)) in
  concat_res (write_game h <$> ls).

Definition cheats_write_file (c : cheats_t) (filename : cstring) : M lib (Z * cheats_t) :=
  let* ok := gets (fun s => l_writable s filename) in
  if ok : bool then
    let* h := gets l_heap in
    let* text := lift (cheats_write c h) in
    modify (fun s => Lib (l_heap s) (l_error_text s) (l_error_line s)
                       (<[filename := text]> (l_files s)) (l_writable s));;
    ret (CHEATS_TRUE, c)
  else
    let* c := lift (open_error c (str "could not open output file ") filename) in
    ret (CHEATS_FALSE, c).

Definition cheats_error_text (c : cheats_t) : cstring := error_text c.
Definition cheats_error_line (c : cheats_t) : Z := error_line c.

(** ** The text of a tree *)

Definition code_line (d : Z * Z) : cstring := print_08X d.1 ++ str " " ++ print_08X d.2.
Definition cheat_lines (c : cstring * list (Z * Z)) : list cstring := c.1 :: (code_line <$> c.2).
Definition game_lines (g : cstring * list (cstring * list (Z * Z))) : list cstring :=
  ([QUOTE] ++ g.1 ++ [QUOTE]) :: (g.2 ≫= cheat_lines) ++ [[]; str "//--------"; []].
Definition tree_lines (t : tree) : list cstring := t ≫= game_lines.

#[local] Arguments unlines : simpl never.

Lemma unlines_app l1 l2 : unlines (l1 ++ l2) = unlines l1 ++ unlines l2.
Proof. unfold unlines. apply bind_app. Qed.

Lemma concat_res_ok l ts : Forall2 (fun r t => r = Ok t) l ts -> concat_res l = Ok (concat ts).
Proof. induction 1 as [|r t l ts -> _ IH]; simpl; [done|]. by rewrite IH. Qed.

(** Names are stored with their terminator. *)
Definition names_stored (gs : list agame) : Prop :=
  Forall (fun g => 0 ∈ ag_title g /\ Forall (fun c => 0 ∈ ah_desc c) (ag_cheats g)) gs.

Lemma write_codes_text h q cs :
  codes_rep (h_codes h) q cs ->
  concat_res (write_code h <$> (ac_loc <$> cs)) =
  Ok (unlines (code_line <$> ((fun d => (ac_addr d, ac_val d)) <$> cs))).
Proof.
  intros (_ & Hf). induction Hf as [|a cs (o & Ho & Ha & Hv) _ IH]; [done|].
  cbn [fmap list_fmap concat_res]. rewrite IH. unfold write_code at 1, deref. rewrite Ho. simpl.
  rewrite unlines_cons, Ha, Hv. unfold code_line. by rewrite <- !app_assoc.
Qed.

Lemma write_cheats_text h q chs :
  cheats_rep (h_codes h) (h_cheats h) q chs -> Forall (fun c => 0 ∈ ah_desc c) chs ->
  concat_res (write_cheat h <$> (ah_loc <$> chs)) =
  Ok (unlines ((cheat_tree <$> chs) ≫= cheat_lines)).
Proof.
  intros (_ & Hf) Hn. induction Hf as [|a chs (o & Ho & Hd & Hr) _ IH]; [done|].
  apply Forall_cons in Hn as [Hna Hn].
  cbn [fmap list_fmap concat_res]. rewrite (IH Hn). unfold write_cheat at 1, deref. rewrite Ho.
  simpl. unfold c_string. rewrite Hd, bool_decide_eq_true_2 by done. simpl.
  unfold STAILQ_FIRST. rewrite (list_rep_foreach _ _ _ _ _ _ Hr (list_rep_size _ _ _ _ _ Hr)).
  simpl. rewrite (write_codes_text _ _ _ Hr). simpl. rewrite unlines_cons, unlines_app.
  f_equal. simpl. by rewrite <- !app_assoc.
Qed.

(** [cheats_write] prints the tree of the list. *)
Lemma cheats_write_text h c gs :
  games_rep h (games c) gs -> names_stored gs ->
  cheats_write c h = Ok (unlines (tree_lines (tree_of gs))).
Proof.
  intros (Hr & _) Hn. unfold cheats_write, STAILQ_FIRST.
  rewrite (list_rep_foreach _ _ _ _ _ _ Hr (list_rep_size _ _ _ _ _ Hr)). simpl.
  destruct Hr as (_ & Hf). induction Hf as [|a gs (o & Ho & Ht & Hr) _ IH]; [done|].
  apply Forall_cons in Hn as [[Hna Hnc] Hn].
  cbn [fmap list_fmap concat_res]. rewrite (IH Hn). unfold write_game at 1, deref. rewrite Ho.
  simpl. unfold c_string. rewrite Ht, bool_decide_eq_true_2 by done. simpl.
  unfold STAILQ_FIRST. rewrite (list_rep_foreach _ _ _ _ _ _ Hr (list_rep_size _ _ _ _ _ Hr)).
  simpl. rewrite (write_cheats_text _ _ _ Hr Hnc). simpl.
  unfold tree_lines, tree_of. simpl. rewrite unlines_cons, !unlines_app. f_equal. simpl.
  rewrite <- !app_assoc. simpl. by rewrite <- !app_assoc.
Qed.

(** ** Reading the printed text back *)

(** A character that occurs in printed codes. *)
Definition code_char (c : Z) : Prop := isxdigit c = true \/ c = 32.

Lemma xdigit_facts c :
  isxdigit c = true ->
  isgraph c = true /\ isspace c = false /\ c <> 47 /\ c <> HASH /\ c <> QUOTE /\ c <> LF /\ c <> 0.
Proof.
  unfold isxdigit, isdigit, isgraph, isspace, HASH, QUOTE, LF.
  rewrite !orb_true_iff, !andb_true_iff, orb_false_iff, andb_false_iff, Z.eqb_neq, !Z.leb_le,
    !Z.leb_gt. lia.
Qed.

Lemma code_char_no_cmt s :
  Forall code_char s -> term_str s (Some is_cmt_str) = s.
Proof.
  intros H. apply term_str_loop_id. intros t Ht Hne. destruct t as [|c t]; [done|].
  assert (Hc : code_char c).
  { destruct Ht as [p ->]. apply Forall_app in H as [_ H]. by inv H. }
  unfold is_cmt_str. apply orb_false_iff.
  assert (Hx : c <> 47 /\ c <> HASH).
  { destruct Hc as [Hc| ->]; [|done]. apply xdigit_facts in Hc. tauto. }
  destruct Hx as [H47 Hh]. split; [|by apply Z.eqb_neq].
  apply andb_false_iff. right. apply bool_decide_eq_false_2. destruct t; [done|].
  intros [= E _]. apply H47. rewrite E. done.
Qed.

Lemma print_08X_chars x : Forall (fun c => isxdigit c = true) (print_08X x).
Proof. apply hex_digits_xdigit. Qed.

Lemma code_line_chars d : Forall code_char (code_line d).
Proof.
  unfold code_line. rewrite !Forall_app. split; [|split].
  - eapply Forall_impl; [apply print_08X_chars|]. by left.
  - by repeat constructor.
  - eapply Forall_impl; [apply print_08X_chars|]. by left.
Qed.

Lemma print_08X_ends x :
  exists a b, head (print_08X x) = Some a /\ last (print_08X x) = Some b /\
    isxdigit a = true /\ isxdigit b = true.
Proof.
  pose proof (print_08X_chars x) as H. pose proof (length_hex_digits 8 x) as Hl.
  fold (print_08X x) in Hl. destruct (print_08X x) as [|a s]; [done|].
  destruct (last (a :: s)) as [b|] eqn:El; [|by apply last_None in El].
  exists a, b. split; [done|]. split; [done|]. rewrite Forall_forall in H.
  split; apply H; [left|]. apply last_Some in El as [l ->]. set_solver.
Qed.

Lemma code_line_ends d :
  exists a b, head (code_line d) = Some a /\ last (code_line d) = Some b /\
    isxdigit a = true /\ isxdigit b = true.
Proof.
  destruct (print_08X_ends d.1) as (a & _ & Ha & _ & Hxa & _).
  destruct (print_08X_ends d.2) as (_ & b & _ & Hb & _ & Hxb).
  exists a, b. unfold code_line. split.
  - destruct (print_08X d.1); [done|]. done.
  - rewrite !last_app, Hb. done.
Qed.

Lemma is_empty_str_head s c : head s = Some c -> isgraph c = true -> is_empty_str s = false.
Proof. destruct s as [|x s]; [done|]. intros [= ->]. simpl. by intros ->. Qed.

Lemma screen_code_line d : screen (code_line d) = code_line d.
Proof.
  unfold screen. rewrite code_char_no_cmt by apply code_line_chars.
  destruct (code_line_ends d) as (a & b & Ha & Hb & Hxa & Hxb).
  apply xdigit_facts in Hxa as (Hga & Hsa & _), Hxb as (Hgb & Hsb & _).
  pose proof (trim_str_core [] (code_line d) [] a b) as Ht.
  rewrite app_nil_l, app_nil_r in Ht. rewrite Ht; try done.
  by apply (is_empty_str_head _ a).
Qed.

Lemma filter_code_line d :
  filter (fun c => isxdigit c = true) (code_line d) = print_08X d.1 ++ print_08X d.2.
Proof.
  unfold code_line. rewrite !filter_app.
  assert (H : forall x, filter (fun c => isxdigit c = true) (print_08X x) = print_08X x).
  { intros x. generalize (print_08X_chars x). induction 1 as [|c s Hc _ IH]; [done|].
    by rewrite filter_cons_True, IH. }
  by rewrite !H.
Qed.

Lemma code_of_code_line d : is_u32 d.1 -> is_u32 d.2 -> code_of (code_line d) = d.
Proof.
  intros H1 H2. unfold code_of. rewrite filter_code_line.
  assert (Hl : length (print_08X d.1) = 8%nat) by apply length_hex_digits.
  rewrite take_app_le, take_ge by lia. rewrite drop_app_length' by done.
  unfold print_08X. rewrite !hex_value_digits. destruct d as [a v]. simpl in *.
  unfold is_u32 in *. rewrite !Z.mod_small; done.
Qed.

Lemma is_cheat_code_chars s i :
  Forall code_char s -> i + Z.of_nat (length (filter (fun c => isxdigit c = true) s)) = CODE_DIGITS ->
  is_cheat_code_from s i = true.
Proof.
  intros H. revert i. induction H as [|c s Hc _ IH]; intros i; simpl.
  - intros E. apply Z.eqb_eq. simpl in E. lia.
  - rewrite filter_cons. destruct (isxdigit c) eqn:E.
    + rewrite decide_True by done. intros Hl. simpl in Hl.
      destruct (Z.ltb_spec CODE_DIGITS (i + 1)); [lia|]. apply IH. lia.
    + rewrite decide_False by congruence. destruct Hc as [Hc| ->]; [congruence|].
      simpl. apply IH.
Qed.

Lemma get_token_code_line d : get_token (code_line d) 0 = TOK_CHEAT_CODE.
Proof.
  unfold get_token. destruct (code_line_ends d) as (a & b & Ha & Hb & Hxa & Hxb).
  replace (is_game_title (code_line d)) with false.
  - replace (is_cheat_code (code_line d)) with true; [done|]. symmetry.
    apply is_cheat_code_chars; [apply code_line_chars|].
    rewrite filter_code_line, length_app. unfold print_08X. by rewrite !length_hex_digits.
  - symmetry. unfold is_game_title. rewrite Hb. apply xdigit_facts in Hxb as (_ & _ & _ & _ & Hq & _).
    apply Z.eqb_neq in Hq. rewrite Hq. apply andb_false_r.
Qed.

(** Names that survive being written and screened. *)
Definition title_clean (s : cstring) : Prop :=
  screen ([QUOTE] ++ s ++ [QUOTE]) = [QUOTE] ++ s ++ [QUOTE] /\ s <> [] /\ (LF ∉ s) /\
  nul_free s /\ (length s < GAME_TITLE_MAX)%nat.

Definition desc_clean (s : cstring) : Prop :=
  screen s = s /\ is_empty_str s = false /\ is_game_title s = false /\ is_cheat_code s = false /\
  (LF ∉ s) /\ nul_free s /\ (length s < CHEAT_DESC_MAX)%nat.

Definition tree_clean (t : tree) : Prop :=
  Forall (fun g => title_clean g.1 /\
    Forall (fun c => desc_clean c.1 /\ Forall (fun d => is_u32 d.1 /\ is_u32 d.2) c.2) g.2) t.

(** The step of [spec_lines] on a line that passes the screener unchanged. *)
Lemma spec_lines_token l ls nl nxt t :
  screen l = l -> is_empty_str l = false -> Z.land nxt (get_token l 0) <> 0 ->
  spec_lines (l :: ls) [] nl nxt t =
  spec_lines ls [] (nl + 1) (next_token (get_token l 0)) (add_tok (get_token l 0) l t).
Proof.
  intros Hs He Hn. cbn [spec_lines]. rewrite Hs, He. destruct l as [|c l]; [done|].
  rewrite bool_decide_eq_false_2 by done. cbn [orb]. apply Z.eqb_neq in Hn. by rewrite Hn.
Qed.

Lemma spec_lines_skip l ls nl nxt t :
  is_empty_str l || bool_decide (screen l = []) = true ->
  spec_lines (l :: ls) [] nl nxt t = spec_lines ls [] (nl + 1) nxt t.
Proof. intros H. cbn [spec_lines]. by rewrite H. Qed.

Definition AFTER_DESC : Z := next_token TOK_CHEAT_DESC.

Lemma spec_lines_codes cs ls nl t ti chs d cs0 :
  Forall (fun d => is_u32 d.1 /\ is_u32 d.2) cs ->
  spec_lines ((code_line <$> cs) ++ ls) [] nl AFTER_DESC (t ++ [(ti, chs ++ [(d, cs0)])]) =
  spec_lines ls [] (nl + Z.of_nat (length cs)) AFTER_DESC (t ++ [(ti, chs ++ [(d, cs0 ++ cs)])]).
Proof.
  intros H. revert nl cs0. induction H as [|c cs [H1 H2] _ IH]; intros nl cs0.
  - rewrite app_nil_r. simpl. by rewrite Z.add_0_r.
  - cbn [fmap list_fmap app length].
    destruct (code_line_ends c) as (a & _ & Ha & _ & Hxa & _).
    apply xdigit_facts in Hxa as (Hga & _).
    rewrite spec_lines_token; [|apply screen_code_line|by apply (is_empty_str_head _ a)|].
    2:{ by rewrite get_token_code_line. }
    rewrite get_token_code_line. unfold add_tok. cbn [Z.eqb TOK_CHEAT_CODE TOK_GAME_TITLE
      TOK_CHEAT_DESC Pos.eqb]. rewrite on_last_snoc. cbn [fst snd]. rewrite on_last_snoc.
    cbn [fst snd]. rewrite code_of_code_line by done.
    change (next_token TOK_CHEAT_CODE) with AFTER_DESC. rewrite IH.
    rewrite <- app_assoc. cbn [app]. f_equal. lia.
Qed.

Lemma spec_lines_cheats chs ls nl nxt t ti chs0 :
  Forall (fun c => desc_clean c.1 /\ Forall (fun d => is_u32 d.1 /\ is_u32 d.2) c.2) chs ->
  nxt = next_token TOK_GAME_TITLE \/ nxt = AFTER_DESC ->
  exists nxt' nl', (nxt' = next_token TOK_GAME_TITLE \/ nxt' = AFTER_DESC) /\
    spec_lines ((chs ≫= cheat_lines) ++ ls) [] nl nxt (t ++ [(ti, chs0)]) =
    spec_lines ls [] nl' nxt' (t ++ [(ti, chs0 ++ chs)]).
Proof.
  intros H. revert nl nxt chs0.
  induction H as [|[d cs] chs [(Hs & He & Ht & Hc & _) Hcs] _ IH]; intros nl nxt chs0 Hn.
  - exists nxt, nl. by rewrite app_nil_r.
  - cbn [mbind list_bind]. unfold cheat_lines at 1. cbn [fst snd] in *.
    assert (Htok : get_token d 0 = TOK_CHEAT_DESC) by (unfold get_token; by rewrite Ht, Hc).
    cbn [app]. rewrite spec_lines_token by (done || (rewrite Htok; destruct Hn as [-> | ->]; done)).
    rewrite Htok. unfold add_tok. cbn [Z.eqb TOK_CHEAT_DESC TOK_GAME_TITLE Pos.eqb].
    rewrite on_last_snoc. cbn [fst snd]. rewrite <- app_assoc.
    rewrite (spec_lines_codes cs _ _ t ti chs0 d []) by done.
    destruct (IH (nl + 1 + Z.of_nat (length cs)) AFTER_DESC (chs0 ++ [(d, cs)])) as
      (nxt' & nl' & Hn' & E); [by right|].
    exists nxt', nl'. split; [done|]. rewrite app_nil_l, E, <- app_assoc. done.
Qed.

(** Quoted titles are titles. *)
Lemma title_token s :
  s <> [] -> get_token ([QUOTE] ++ s ++ [QUOTE]) 0 = TOK_GAME_TITLE /\
  is_game_title ([QUOTE] ++ s ++ [QUOTE]) = true /\ inner ([QUOTE] ++ s ++ [QUOTE]) = s.
Proof.
  intros Hs. assert (Ht : is_game_title ([QUOTE] ++ s ++ [QUOTE]) = true).
  { unfold is_game_title. rewrite app_assoc, last_snoc. unfold strlen.
    rewrite !length_app. cbn [app length]. destruct s as [|c s]; [done|].
    cbn [length]. apply andb_true_iff. split; [|done]. apply andb_true_iff. split; [|done].
    apply Z.ltb_lt. lia. }
  split; [unfold get_token; by rewrite Ht|]. split; [done|].
  unfold inner. rewrite !length_app. cbn [app tail length].
  apply take_app_length'. lia.
Qed.

Lemma spec_lines_tree_lines t' t nl nxt :
  tree_clean t' -> Z.land nxt TOK_GAME_TITLE <> 0 ->
  spec_lines (tree_lines t') [] nl nxt t = Parsed (t ++ t').
Proof.
  intros H. revert t nl nxt.
  induction H as [|[ti chs] t' [(Hs & Hne & _) Hch] _ IH]; intros t nl nxt Hn.
  - by rewrite app_nil_r.
  - cbn [fst snd] in *. unfold tree_lines. cbn [mbind list_bind]. unfold game_lines at 1.
    cbn [fst snd]. destruct (title_token ti Hne) as (Htok & Htt & Hin).
    rewrite <- app_comm_cons. rewrite spec_lines_token; [|done|done|by rewrite Htok].
    rewrite Htok. unfold add_tok. cbn [Z.eqb TOK_GAME_TITLE Pos.eqb]. rewrite Hin, <- app_assoc.
    destruct (spec_lines_cheats chs ([[]; str "//--------"; []] ++ (t' ≫= game_lines)) (nl + 1)
      (next_token TOK_GAME_TITLE) t ti [] Hch (or_introl eq_refl)) as (nxt' & nl' & Hn' & E).
    rewrite E. cbn [app]. rewrite 3 spec_lines_skip by (vm_compute; reflexivity).
    unfold tree_lines in IH. rewrite IH by (destruct Hn' as [-> | ->]; done).
    by rewrite <- app_assoc.
Qed.

Lemma name_ok_desc s : nul_free s -> is_game_title s = false ->
  (length s < CHEAT_DESC_MAX)%nat -> name_ok s.
Proof. intros Hn Ht Hl. split; [done|]. rewrite Ht. by right. Qed.

Lemma code_line_ok d : line_ok (code_line d) /\ name_ok (screen (code_line d)).
Proof.
  rewrite screen_code_line. pose proof (code_line_chars d) as Hc.
  assert (Hlen : length (code_line d) = 17%nat).
  { unfold code_line, print_08X. rewrite !length_app, !length_hex_digits. done. }
  assert (Hnt : is_game_title (code_line d) = false).
  { pose proof (get_token_code_line d) as H. unfold get_token in H.
    by destruct (is_game_title (code_line d)). }
  split.
  - split; [|split].
    + intros Hin. rewrite Forall_forall in Hc. destruct (Hc _ Hin) as [Hx|Hx]; [|done].
      apply xdigit_facts in Hx. tauto.
    + rewrite Hlen. done.
    + rewrite screen_code_line. intros Ht. congruence.
  - apply name_ok_desc; [|done|rewrite Hlen; unfold CHEAT_DESC_MAX; lia].
    eapply Forall_impl; [exact Hc|]. intros x [Hx| ->]; [|done]. apply xdigit_facts in Hx. tauto.
Qed.

Lemma desc_line_ok s : desc_clean s -> line_ok s /\ name_ok (screen s).
Proof.
  intros (Hs & _ & Ht & _ & Hlf & Hn & Hl). rewrite Hs. split; [|by apply name_ok_desc].
  split; [done|]. split; [unfold LINE_MAX, CHEAT_DESC_MAX in *; lia|].
  rewrite Hs. intros E. congruence.
Qed.

Lemma title_line_ok s :
  title_clean s -> let q := [QUOTE] ++ s ++ [QUOTE] in line_ok q /\ name_ok (screen q).
Proof.
  intros (Hs & Hne & Hlf & Hn & Hl) q. subst q.
  destruct (title_token s Hne) as (_ & Ht & Hin). rewrite Hs. split.
  - split; [|split].
    + assert (LF <> QUOTE) by done. set_solver.
    + rewrite !length_app. simpl. unfold LINE_MAX, GAME_TITLE_MAX in *. lia.
    + rewrite Hs. intros _. rewrite Hin. lia.
  - split; [|rewrite Ht, Hin; done]. apply nul_free_app. split; [by repeat constructor|].
    apply nul_free_app. split; [done|by repeat constructor].
Qed.

Lemma tree_lines_ok t :
  tree_clean t -> Forall (fun l => line_ok l /\ name_ok (screen l)) (tree_lines t).
Proof.
  induction 1 as [|[ti chs] t [Hti Hch] _ IH]; [constructor|].
  unfold tree_lines. cbn [mbind list_bind]. apply Forall_app. split; [|done].
  constructor; [by apply title_line_ok|]. apply Forall_app. split.
  - cbn [fst snd] in *. clear -Hch. induction Hch as [|[d cs] chs [Hd _] _ IH]; [constructor|].
    cbn [mbind list_bind]. apply Forall_app. split; [|done].
    constructor; [by apply desc_line_ok|]. apply Forall_fmap, Forall_true. apply code_line_ok.
  - assert (H : forall l, line_okb l && name_okb (screen l) = true ->
                          line_ok l /\ name_ok (screen l)).
    { intros l [H1 H2]%andb_true_iff. split; [|by apply name_okb_ok].
      apply (Forall_inv (l := [])), line_okb_ok. simpl. by rewrite H1. }
    repeat constructor; apply H; vm_compute; reflexivity.
Qed.

Lemma heap_wf_del gs h : heap_wf h -> heap_wf (del_games gs h).
Proof.
  intros (H1 & H2 & H3). split; [|split]; intros l Hl; simpl in *; rewrite lookup_del_locs;
    case_decide; auto.
Qed.

(** Reading a text replaces the list of the object by what the text says; a text with an
    error leaves the games before the error. *)
Lemma cheats_read_buf_spec c s gs0 ls top line :
  games_rep (l_heap s) (games c) gs0 -> heap_wf (l_heap s) -> Forall line_ok ls -> names_ok ls ->
  exists z c' s' gs, cheats_read_buf c (Some (unlines ls)) top line s = Ok ((z, c'), s') /\
    games_rep (l_heap s') (games c') gs /\ Forall game_stored gs /\
    match spec_lines ls (h_oracle (l_heap s)) 1 TOK_GAME_TITLE [] with
    | Parsed t => z = CHEATS_TRUE /\ tree_of gs = t
    | _ => z = CHEATS_FALSE
    end.
Proof.
  intros Hr Hw Hok Hn.
  set (p0 := PState (del_games gs0 (l_heap s)) (Ctx top 0 None None None) STAILQ_INIT (l_error_text s) (l_error_line s)).
  pose proof (parser_inv_init p0 (heap_wf_del gs0 _ Hw)) as Hinv.
  destruct (parse_buf_loop_spec ls (length (unlines ls)) line 1 _ [] Hok (length_unlines ls) Hinv) as (z & p' & gs & Hp & Hg & _ & Hst & Hv).
  cbn [ps_heap ps_ctx set_ctx set_list init_parser next p0 h_oracle del_games] in Hv.
  assert (E : cheats_read_buf c (Some (unlines ls)) top line s =
    read_result z (ps_list p') cheats_init (Lib (ps_heap p') (parse_error_text p') (parse_error_line p') (l_files s) (l_writable s))).
  { unfold cheats_read_buf, cheats_destroy. rewrite bind_assoc. erewrite bind_ok; [|unfold in_heap; by rewrite (free_games_spec _ _ _ Hr)].
    rewrite bind_ret. erewrite bind_ok; [|unfold in_parser; cbn [parse_buf games cheats_init];
      unfold bind at 1 2, modify, mod_ctx; cbn [modify set_list set_ctx ps_ctx];
      exact (f_equal (fun r => match r with Ok (x, p) => _ | Err f => Err f end) Hp)]. reflexivity. }
  unfold read_result in E. change (tree_of []) with ([] : tree) in Hv. simpl in Hv.
  destruct (spec_lines ls _ 1 _ []) as [t|nl tok|nl] eqn:Es.
  - destruct Hv as [-> Ht]. cbn [Z.ltb Z.compare] in E. eexists _, _, _, gs. split; [exact E|]. split; [exact Hg|]. split; [by apply Hst|].
    split; [done|by apply Ht].
  - destruct Hv as [-> _]. eexists _, _, _, gs. split; [exact E|]. split; [exact Hg|]. by split; [apply Hst|].
  - destruct Hv as [-> _]. eexists _, _, _, gs. split; [exact E|]. split; [exact Hg|]. by split; [apply Hst|].
Qed.


Lemma sample_heap_wf : heap_wf sample_heap.
Proof.
  split; [|split]; intros l Hl; simpl in *.
  - apply lookup_singleton_ne. lia.
  - apply lookup_singleton_ne. lia.
  - rewrite lookup_insert_ne by lia. apply lookup_singleton_ne. lia.
Qed.

Definition sample_lib : lib := Lib sample_heap [] 0 ∅ (fun _ => true).
Definition sample_cheats : cheats_t := Cheats (StailQ (Some 1%positive) (AtNext 1)) [] 0.

