(* ===== verification/ElfId.v ===== *)
(** * Identification of ELF files (ee/loader/elfid.c)

    Games are recognised by the name and the size of their ELF.  Names are compared
    as substrings in which a wildcard character matches anything. *)

From S2P Require Import Prelude CString.
Local Open Scope ps2rd_scope.

Definition ELFID_NAME_MAX : nat := 255.
Definition ELFID_F_NONE : Z := 0.
Definition ELFID_F_NAME : Z := 1.
Definition ELFID_F_SIZE : Z := 2.

(** [id_name] is the string in the array of [ELFID_NAME_MAX + 1] bytes, which is cleared
    before at most [ELFID_NAME_MAX] bytes are copied, so that it is terminated. *)
Record elfid_t : Type := ElfId {
  id_name : cstring;
  id_size : Z;
  id_flags : Z;
}.

Definition zero_id : elfid_t := ElfId [] 0 0.

Definition id_set_name (s : cstring) (id : elfid_t) : elfid_t :=
  ElfId (take ELFID_NAME_MAX s) (id_size id) (Z.lor (id_flags id) ELFID_F_NAME).
Definition id_set_size (n : Z) (id : elfid_t) : elfid_t :=
  ElfId (id_name id) n (Z.lor (id_flags id) ELFID_F_SIZE).

(** [None] for a NULL [id] or [name]; the flags and the new contents of the id. *)
Definition elfid_set (id : option elfid_t) (nm : option cstring) (sz : Z) : Z * option elfid_t :=
  match id with
  | None => (ELFID_F_NONE, None)
  | Some _ =>
      let i := zero_id in
      let i := match nm with Some s => id_set_name s i | None => i end in
      let i := if 0 <? sz then id_set_size sz i else i in
      (id_flags i, Some i)
  end.

(** [open] and [lseek] to the end: [None] when the file cannot be opened, otherwise
    what [lseek] returns.  The result goes into an unsigned [size_t]. *)
Definition elfid_generate (fsize : cstring -> option Z) (filename : cstring) (id : elfid_t) :
    Z * elfid_t :=
  match fsize filename with
  | None => (-1, id)
  | Some r =>
      let sz := u32 r in
      if sz <? 0 then (-1, id)
      else match snd (elfid_set (Some id) (Some filename) sz) with
           | Some id' => (0, id')
           | None => (0, id)
           end
  end.

(** [__strncmp_wc]: [s1] is never read behind its terminator, [s2] could be. *)
Fixpoint __strncmp_wc (s1 s2 : cstring) (n : nat) (wc : Z) : res Z :=
  match n with
  | O => Ok 0
  | S n' =>
      let a := hd 0 s1 in
      let b := hd 0 s2 in
      if negb (a =? b) && negb (a =? wc) && negb (b =? wc) then Ok (a - b)
      else if a =? 0 then Ok 0
      else match s2, n' with
           | [], S _ => Err OutOfBounds
           | _, _ => __strncmp_wc (tail s1) (tail s2) n' wc
           end
  end.

Fixpoint strstr_wc_loop (pos needle : cstring) (wc : Z) : res (option cstring) :=
  match pos with
  | [] => Ok None
  | _ :: pos' =>
      let? r := __strncmp_wc pos needle (length needle) wc in
      if r =? 0 then Ok (Some pos) else strstr_wc_loop pos' needle wc
  end.

Definition __strstr_wc (haystack needle : cstring) (wc : Z) : res (option cstring) :=
  match needle with
  | [] => Ok (Some haystack)
  | _ => strstr_wc_loop haystack needle wc
  end.

Definition has (f : Z) (id : elfid_t) : bool := negb (Z.land (id_flags id) f =? 0).

Definition elfid_compare (id1 id2 : option elfid_t) (wc : Z) : res Z :=
  match id1, id2 with
  | Some i1, Some i2 =>
      let? m1 :=
        if has ELFID_F_NAME i1 && has ELFID_F_NAME i2 then
          let? p := __strstr_wc (id_name i1) (id_name i2) wc in
          Ok (match p with Some _ => Some ELFID_F_NAME | None => None end)
        else Ok (Some ELFID_F_NONE) in
      match m1 with
      | None => Ok (-1)
      | Some m =>
          if has ELFID_F_SIZE i1 && has ELFID_F_SIZE i2 then
            if id_size i1 =? id_size i2 then
              Ok (if Z.lor m ELFID_F_SIZE =? ELFID_F_NONE then -1 else 0)
            else Ok (-1)
          else Ok (if m =? ELFID_F_NONE then -1 else 0)
      end
  | _, _ => Ok (-1)
  end.

(** ** [sscanf(p, "%i", ..)] *)

(** The value of the leading digits of [s] in base [b], and how many there are. *)
Fixpoint scan_digits (b : Z) (s : cstring) (acc : Z) (n : nat) : Z * nat :=
  match s with
  | [] => (acc, n)
  | c :: s' =>
      if isxdigit c && (digit_val c <? b) then scan_digits b s' (b * acc + digit_val c) (S n)
      else (acc, n)
  end.

Fixpoint skip_spaces (s : cstring) : cstring :=
  match s with
  | [] => []
  | c :: s' => if isspace c then skip_spaces s' else s
  end.

Definition MINUS : Z := 45.
Definition PLUS : Z := 43.

(** [%i]: white space, a sign, then a number in base 16 after [0x], in base 8 after
    [0], in base 10 otherwise; [None] when no number can be read.  The result is
    stored into 32 bits. *)
Definition scan_i (s : cstring) : option Z :=
  let s := skip_spaces s in
  let '(neg, s) := match s with
                   | c :: s' => if c =? MINUS then (true, s')
                                else if c =? PLUS then (false, s') else (false, s)
                   | [] => (false, s)
                   end in
  let '(v, n) := match s with
                 | 48 :: x :: s' => if (x =? 120) || (x =? 88) then
                                      let '(v, n) := scan_digits 16 s' 0 0 in (v, S n)
                                    else scan_digits 8 s 0 0
                 | _ => scan_digits 10 s 0 0
                 end in
  if (n =? 0)%nat then None else Some (u32 (if neg : bool then - v else v)).

Definition SEP : cstring := [32; 9].

(** The tokens of the id string, in the order name, size, checksum; a leading '-'
    leaves a value unset. *)
Fixpoint parse_tokens (toks : list cstring) (i : nat) (id : elfid_t) : Z * elfid_t :=
  match toks with
  | [] => (0, id)
  | p :: toks' =>
      match i with
      | S (S (S _)) => (0, id)
      | _ =>
          if hd 0 p =? MINUS then parse_tokens toks' (S i) id
          else
            match i with
            | O => parse_tokens toks' 1 (id_set_name p id)
            | S O =>
                match scan_i p with
                | None => (-1, id)
                | Some n => parse_tokens toks' 2 (id_set_size n id)
                end
            | _ => parse_tokens toks' (S i) id
            end
      end
  end.

(** The local buffer takes [ELFID_NAME_MAX] bytes of the string; its last byte is
    never written, so that a longer string is left unterminated. *)
Definition elfid_parse (s : cstring) (junk : Z) : res (Z * elfid_t) :=
  let? buf := c_string (strncpy (replicate (S ELFID_NAME_MAX) junk) s ELFID_NAME_MAX) in
  Ok (parse_tokens (strtok SEP buf) 0 zero_id).

(** ** Wildcard matching *)

(** A character of the text against one of the pattern. *)
Definition wc_eq (wc x y : Z) : bool := (x =? y) || (x =? wc) || (y =? wc).

(** The pattern matches at the start of the text.  At the end of the text a wildcard
    matches too, and ends the comparison. *)
Fixpoint wc_prefix (wc : Z) (text pat : cstring) {struct pat} : bool :=
  match pat with
  | [] => true
  | y :: pat' =>
      match text with
      | [] => y =? wc
      | x :: text' => wc_eq wc x y && wc_prefix wc text' pat'
      end
  end.

Lemma strncmp_wc_prefix wc s1 s2 :
  nul_free s1 -> nul_free s2 -> wc <> 0 ->
  exists r, __strncmp_wc s1 s2 (length s2) wc = Ok r /\ (r =? 0) = wc_prefix wc s1 s2.
Proof.
  intros H1 H2 Hwc. revert s1 H1. induction H2 as [|y s2 Hy _ IH]; intros s1 H1; simpl.
  - by exists 0.
  - destruct H1 as [|x s1 Hx H1]; simpl.
    + unfold wc_prefix. destruct (Z.eqb_spec y wc) as [->|Hne].
      * rewrite andb_false_r. by exists 0.
      * assert (E : (match y with 0 => true | _ => false end) = false) by (by destruct y).
        destruct y; [done| |]; simpl; (destruct wc; [done| |]); simpl; eexists; done.
    + unfold wc_eq. destruct (Z.eqb_spec x y) as [->|Hne]; simpl.
      * destruct (Z.eqb_spec y 0); [done|]. destruct (IH s1 H1) as (r & Hr & Hz).
        exists r. split; [|done]. destruct s2; exact Hr.
      * destruct (Z.eqb_spec x wc) as [->|Hx']; simpl.
        -- destruct (Z.eqb_spec wc 0); [done|]. destruct (IH s1 H1) as (r & Hr & Hz).
           exists r. split; [|done]. destruct s2; exact Hr.
        -- destruct (Z.eqb_spec y wc) as [->|Hy']; simpl.
           ++ destruct (Z.eqb_spec x 0); [done|]. destruct (IH s1 H1) as (r & Hr & Hz).
              exists r. split; [|done]. destruct s2; exact Hr.
           ++ exists (x - y). split; [done|]. apply Z.eqb_neq. lia.
Qed.

(** The pattern occurs somewhere in the text. *)
Fixpoint wc_occurs (wc : Z) (text pat : cstring) : bool :=
  match text with
  | [] => false
  | _ :: text' => wc_prefix wc text pat || wc_occurs wc text' pat
  end.

Definition wc_contains (wc : Z) (text pat : cstring) : bool :=
  match pat with [] => true | _ => wc_occurs wc text pat end.

(** [__strstr_wc] finds the first occurrence. *)
Lemma strstr_wc_loop_spec wc h n :
  nul_free h -> nul_free n -> wc <> 0 ->
  exists r, strstr_wc_loop h n wc = Ok r /\
    match r with
    | None => wc_occurs wc h n = false
    | Some p => wc_occurs wc h n = true /\ exists l, h = l ++ p /\ wc_prefix wc p n = true /\
        (forall l1 x p1, l = l1 ++ x :: p1 -> wc_prefix wc (x :: p1 ++ p) n = false)
    end.
Proof.
  intros Hh Hn Hwc. induction Hh as [|x h Hx Hh IH].
  - by exists None.
  - cbn [strstr_wc_loop wc_occurs].
    assert (Hxh : nul_free (x :: h)) by (by constructor).
    destruct (strncmp_wc_prefix wc (x :: h) n Hxh Hn Hwc) as (r & -> & Hr). cbn [rbind].
    rewrite Hr. destruct (wc_prefix wc (x :: h) n) eqn:E; simpl.
    + exists (Some (x :: h)). split; [done|]. split; [done|]. exists []. split; [done|].
      split; [done|]. intros [|? ?] ? ? ?; done.
    + destruct IH as ([p|] & Hl & Hp).
      * exists (Some p). split; [done|]. destruct Hp as (Ho & l & -> & Hp & Hfirst).
        split; [done|]. exists (x :: l). split; [done|]. split; [done|].
        intros [|y l1] z p1 [= <- Hl1]; [by subst|]. by apply (Hfirst l1).
      * exists None. done.
Qed.

Lemma strstr_wc_spec wc h n :
  nul_free h -> nul_free n -> wc <> 0 ->
  exists r, __strstr_wc h n wc = Ok r /\
    (match r with Some _ => true | None => false end) = wc_contains wc h n.
Proof.
  intros Hh Hn Hwc. unfold __strstr_wc, wc_contains. destruct n as [|y n]; [by eexists|].
  destruct (strstr_wc_loop_spec wc h (y :: n) Hh Hn Hwc) as ([p|] & -> & Hp).
  - destruct Hp as (-> & _). by eexists.
  - rewrite Hp. by eexists.
Qed.

(** Two ids agree when everything both of them know agrees, and something is known by
    both. *)
Definition ids_agree (wc : Z) (i1 i2 : elfid_t) : bool :=
  let names := has ELFID_F_NAME i1 && has ELFID_F_NAME i2 in
  let sizes := has ELFID_F_SIZE i1 && has ELFID_F_SIZE i2 in
  (negb names || wc_contains wc (id_name i1) (id_name i2)) &&
  (negb sizes || (id_size i1 =? id_size i2)) && (names || sizes).

Lemma elfid_compare_agree wc i1 i2 :
  nul_free (id_name i1) -> nul_free (id_name i2) -> wc <> 0 ->
  elfid_compare (Some i1) (Some i2) wc = Ok (if ids_agree wc i1 i2 then 0 else -1).
Proof.
  intros H1 H2 Hwc. unfold elfid_compare, ids_agree.
  destruct (strstr_wc_spec wc (id_name i1) (id_name i2) H1 H2 Hwc) as (r & -> & Hr).
  rewrite <- Hr.
  destruct (has ELFID_F_NAME i1 && has ELFID_F_NAME i2) eqn:En;
    destruct (has ELFID_F_SIZE i1 && has ELFID_F_SIZE i2) eqn:Es; simpl;
    try (destruct r as [p|]; simpl); try done;
    destruct (id_size i1 =? id_size i2); done.
Qed.


