(* ===== verification/LoaderUtil.v ===== *)
(** * Utilities of the loader (ee/loader/myutil.h, mycdvd.h, loader.c) *)

From S2P Require Import Prelude CString MyString.
Local Open Scope ps2rd_scope.

(** ** MIPS instruction words *)

Definition MAKE_J (addr : Z) : Z :=
  Z.lor 0x08000000 (Z.land 0x03FFFFFF (Z.shiftr (u32 addr) 2)).
Definition MAKE_JAL (addr : Z) : Z :=
  Z.lor 0x0C000000 (Z.land 0x03FFFFFF (Z.shiftr (u32 addr) 2)).
Definition MAKE_ORI (rt rs imm : Z) : Z :=
  u32 (Z.lor (Z.lor (Z.lor (Z.shiftl 0x0D 26) (Z.shiftl rs 21)) (Z.shiftl rt 16)) imm).
Definition J_TARGET (j : Z) : Z := Z.shiftl (Z.land 0x03FFFFFF (u32 j)) 2.
Definition KSEG0 (x : Z) : Z := Z.lor (u32 x) 0x80000000.
Definition JR_RA : Z := 0x03E00008.
Definition NOP : Z := 0.

(** [kmem_read] and [kmem_write]: copies that run with interrupts off in kernel mode. *)
Definition kmem_read (addr : Z) (sz : nat) (m : gmap Z Z) : list Z * Z :=
  (load_bytes m addr sz, Z.of_nat sz).
Definition kmem_write (addr : Z) (buf : list Z) (m : gmap Z Z) : Z * gmap Z Z :=
  (Z.of_nat (length buf), store_bytes m addr buf).

(** The debug exception vector jumps to the handler. *)
Definition install_debug_handler (handler : Z) (m : gmap Z Z) : gmap Z Z :=
  let p := 0x80000100 in
  store32 (store32 m p (MAKE_J handler)) (p + 4) 0.

(** ** Devices *)

Inductive dev_id : Type := DEV_CD | DEV_HOST | DEV_MASS | DEV_MC0 | DEV_MC1 | DEV_UNKN.

#[export] Instance dev_id_eq_dec : EqDecision dev_id.
Proof. solve_decision. Defined.

Definition dev_prefix : list (dev_id * cstring) :=
  [(DEV_CD, str "cdrom0:"); (DEV_HOST, str "host:"); (DEV_MASS, str "mass:");
   (DEV_MC0, str "mc0:"); (DEV_MC1, str "mc1:")].

Fixpoint get_dev_from (tab : list (dev_id * cstring)) (path : cstring) : dev_id :=
  match tab with
  | [] => DEV_UNKN
  | (d, p) :: tab' => if strncmp_eq path p (length p) then d else get_dev_from tab' path
  end.
Definition get_dev (path : cstring) : dev_id := get_dev_from dev_prefix path.

(** ** Arguments *)

Definition ARG_SEP : cstring := [9; 32].

(** The arguments point into a static buffer of 256 bytes, of which the last stays
    zero; at most [max] of them are stored. *)
Definition build_argv (s : cstring) (max : nat) : list cstring :=
  take max (strtok ARG_SEP (take 255 s)).

(** [argv[0]]; the vector is cleared first, so that it is NULL without arguments. *)
Definition argv0 (args : list cstring) : option cstring := head args.

(** ** Files *)

(** A file system: the contents of the files that can be opened, and how many bytes a
    [read] of [n] from an open file returns. *)
Record fsys : Type := Fsys {
  fs_file : cstring -> option (list Z);
  fs_read : cstring -> Z -> Z;
}.

Definition file_exists (fs : fsys) (filename : cstring) : bool :=
  match fs_file fs filename with None => false | Some _ => true end.

(** [alloc] is the outcome of [malloc]; [None] is the NULL result.  The buffer is
    terminated behind the file's bytes. *)
Definition read_text_file (fs : fsys) (alloc : bool) (filename : cstring) (maxsize : Z) :
    option cstring :=
  match fs_file fs filename with
  | None => None
  | Some bytes =>
      let filesize := Z.of_nat (length bytes) in
      if negb (maxsize =? 0) && (maxsize <? filesize) then None
      else if negb alloc then None
      else if (0 <? filesize) && negb (fs_read fs filename filesize =? filesize) then None
      else Some (cstr bytes)
  end.

(** ** SYSTEM.CNF *)

Definition EQUALS : Z := 61.

Fixpoint skip_eq (s : cstring) : cstring :=
  match s with
  | [] => []
  | c :: s' => if isspace c || (c =? EQUALS) then skip_eq s' else s
  end.

(** The value of the first line with a BOOT2 entry. *)
Fixpoint find_boot2 (lines : list cstring) : option cstring :=
  match lines with
  | [] => None
  | tok :: lines' =>
      match strstr tok (str "BOOT2") with
      | Some p => Some (skip_eq (drop 5 p))
      | None => find_boot2 lines'
      end
  end.

(** [cnf] is what [read] returns of SYSTEM.CNF, at most 255 bytes; [None] when it
    cannot be opened.  The name found fits in a buffer of FIO_PATH_MAX bytes. *)
Definition FIO_PATH_MAX : nat := 256.

Definition cdGetElf (cnf : option (list Z)) : Z * option cstring :=
  match cnf with
  | None => (-2, None)
  | Some bytes =>
      let buf := take 255 bytes in
      match buf with
      | [] => (-3, None)
      | _ =>
          match find_boot2 (strtok [LF] (cstr buf)) with
          | None => (-4, None)
          | Some name => (0, Some name)
          end
      end
  end.

(** ** Paths *)

(** [while (i && s[--i] != c)]: the scan from the end. *)
Fixpoint last_chr_idx_loop (i : nat) (s : cstring) (c : Z) : nat :=
  match i with
  | O => O
  | S i' => if nth i' s 0 =? c then i' else last_chr_idx_loop i' s c
  end.

Definition last_chr_idx (s : cstring) (c : Z) : Z :=
  let i := last_chr_idx_loop (length s) s c in
  if nth i s 0 =? c then Z.of_nat i else -1.

Definition SLASH : Z := 47.
Definition BACKSLASH : Z := 92.
Definition COLON : Z := 58.

(** Return value and the string left in the buffer. *)
Definition __dirname (filename : option cstring) : Z * option cstring :=
  match filename with
  | None => (-1, None)
  | Some s =>
      let i := last_chr_idx s SLASH in
      let i := if i <? 0 then last_chr_idx s BACKSLASH else i in
      let i := if i <? 0 then chr_idx s COLON else i in
      if i <? 0 then (-2, Some s)
      else (0, Some (take (Z.to_nat i + 1) s))
  end.

Definition toupper (c : Z) : Z := if (97 <=? c) && (c <=? 122) then c - 32 else c.

(** The result is built in a static buffer of FIO_PATH_MAX bytes. *)
Definition __pathname (bootpath name : cstring) : res cstring :=
  let dev := get_dev name in
  let f := (if decide (dev = DEV_UNKN) then bootpath else []) ++ name in
  let f := if decide (dev = DEV_CD) then (toupper <$> f) ++ str ";1" else f in
  if (length f <? FIO_PATH_MAX)%nat then Ok f else Err OutOfBounds.

(** ** Theorems *)

Lemma land_shiftr2 a : 0 <= a -> Z.land 0x03FFFFFF (Z.shiftr a 2) = a / 4 mod 2 ^ 26.
Proof.
  intros. rewrite Z.land_comm. change 0x03FFFFFF with (Z.ones 26).
  rewrite Z.land_ones by lia. rewrite Z.shiftr_div_pow2 by lia. done.
Qed.

Lemma lor_op op x : 0 <= x < 2 ^ 26 -> Z.lor (op * 2 ^ 26) x = op * 2 ^ 26 + x.
Proof.
  intros Hx. rewrite <- Z.add_lor_land.
  enough (Hz : Z.land (op * 2 ^ 26) x = 0) by (rewrite Hz; lia).
  apply Z.bits_inj'. intros n Hn. rewrite Z.land_spec, Z.bits_0.
  destruct (decide (n < 26)) as [H|H].
  - rewrite Z.mul_pow2_bits_low by lia. done.
  - assert (Hb : Z.testbit x n = false).
    { rewrite <- (Z.mod_small x (2 ^ 26)) by lia. apply Z.mod_pow2_bits_high. lia. }
    rewrite Hb. apply andb_false_r.
Qed.

Lemma jump_target_word op a :
  0 <= a < 2 ^ 32 -> 0 <= op < 64 ->
  J_TARGET (op * 2 ^ 26 + a / 4 mod 2 ^ 26) = a mod 2 ^ 28 - a mod 4.
Proof.
  intros Ha Ho. unfold J_TARGET, u32. rewrite Z.land_comm. change 0x03FFFFFF with (Z.ones 26).
  rewrite Z.land_ones by lia. rewrite Z.shiftl_mul_pow2 by lia. zlia.
Qed.

(** The J and JAL macros are inverted by J_TARGET within the 256 MB segment. *)
Lemma J_TARGET_MAKE_J a : J_TARGET (MAKE_J a) = u32 a mod 2 ^ 28 - u32 a mod 4.
Proof.
  pose proof (u32_range a) as Ha. unfold MAKE_J. rewrite land_shiftr2 by lia.
  change 0x08000000 with (2 * 2 ^ 26). rewrite lor_op by zlia. apply jump_target_word; lia.
Qed.

Lemma J_TARGET_MAKE_JAL a : J_TARGET (MAKE_JAL a) = u32 a mod 2 ^ 28 - u32 a mod 4.
Proof.
  pose proof (u32_range a) as Ha. unfold MAKE_JAL. rewrite land_shiftr2 by lia.
  change 0x0C000000 with (3 * 2 ^ 26). rewrite lor_op by zlia. apply jump_target_word; lia.
Qed.

Lemma last_chr_idx_loop_spec i s c :
  (i <= length s)%nat ->
  (last_chr_idx_loop i s c = 0%nat /\ forall j, (0 < j < i)%nat -> nth j s 0 <> c) \/
  (exists k, last_chr_idx_loop i s c = k /\ (k < i)%nat /\ nth k s 0 = c /\
             forall j, (k < j < i)%nat -> nth j s 0 <> c).
Proof.
  induction i as [|i IH]; intros Hi; simpl; [left; split; [done|lia]|].
  destruct (Z.eqb_spec (nth i s 0) c) as [E|E].
  - right. exists i. split; [done|]. split; [lia|]. split; [done|lia].
  - destruct (IH ltac:(lia)) as [(Hz & Hn)|(k & Hk & Hlt & Hc & Hn)].
    + left. split; [done|]. intros j Hj. destruct (decide (j = i)) as [->|]; [done|]. apply Hn. lia.
    + right. exists k. split; [done|]. split; [lia|]. split; [done|].
      intros j Hj. destruct (decide (j = i)) as [->|]; [done|]. apply Hn. lia.
Qed.

Lemma last_chr_idx_spec s c :
  c <> 0 ->
  (last_chr_idx s c = -1 /\ c ∉ s) \/
  (exists l r, s = l ++ c :: r /\ (c ∉ r) /\ last_chr_idx s c = Z.of_nat (length l)).
Proof.
  intros Hc. unfold last_chr_idx.
  assert (Hat : forall k, (k < length s)%nat -> nth k s 0 = c ->
    (forall j, (k < j < length s)%nat -> nth j s 0 <> c) ->
    exists l r, s = l ++ c :: r /\ (c ∉ r) /\ length l = k).
  { intros k Hk Hck Hn. exists (take k s), (drop (S k) s). split.
    - rewrite <- (take_drop k s) at 1. f_equal.
      rewrite (drop_S s c k); [done|]. rewrite <- Hck.
      destruct (nth_lookup_or_length s k 0); [done|lia].
    - split; [|rewrite length_take; lia].
      intros Hin. apply list_elem_of_lookup in Hin as [j Hj]. rewrite lookup_drop in Hj.
      apply (Hn (S k + j)%nat); [apply lookup_lt_Some in Hj; lia|].
      by apply nth_lookup_Some. }
  destruct (last_chr_idx_loop_spec (length s) s c (Nat.le_refl _))
    as [(Hz & Hn)|(k & Hk & Hlt & Hck & Hn)].
  - rewrite Hz. destruct (Z.eqb_spec (nth 0 s 0) c) as [E|E].
    + right. destruct (Hat 0%nat) as (l & r & Hs & Hr & Hl); try done.
      * destruct s; [simpl in E; congruence|simpl; lia].
      * exists l, r. rewrite Hl. done.
    + left. split; [done|]. intros Hin. apply list_elem_of_lookup in Hin as [j Hj].
      pose proof (lookup_lt_Some _ _ _ Hj) as Hlt. apply (nth_lookup_Some _ _ 0) in Hj.
      destruct j as [|j]; [done|]. apply (Hn (S j)); [lia|done].
  - rewrite Hk, Hck, Z.eqb_refl. right. destruct (Hat k Hlt Hck Hn) as (l & r & Hs & Hr & Hl).
    exists l, r. by rewrite Hl.
Qed.

(** [__dirname] cuts a path behind its directory.  With a slash in the path the
    string is cut behind the last slash, otherwise behind the last backslash, otherwise
    behind the first colon; a path without any of them is left alone and reported with
    -2. *)
Theorem dirname_spec s :
  (exists l r, s = l ++ SLASH :: r /\ (SLASH ∉ r) /\
     __dirname (Some s) = (0, Some (l ++ [SLASH]))) \/
  ((SLASH ∉ s) /\ exists l r, s = l ++ BACKSLASH :: r /\ (BACKSLASH ∉ r) /\
     __dirname (Some s) = (0, Some (l ++ [BACKSLASH]))) \/
  ((SLASH ∉ s) /\ (BACKSLASH ∉ s) /\ exists l r, s = l ++ COLON :: r /\ (COLON ∉ l) /\
     __dirname (Some s) = (0, Some (l ++ [COLON]))) \/
  ((SLASH ∉ s) /\ (BACKSLASH ∉ s) /\ (COLON ∉ s) /\ __dirname (Some s) = (-2, Some s)).
Proof.
  assert (Hcut : forall (l : cstring) c r, take (Z.to_nat (Z.of_nat (length l)) + 1) (l ++ c :: r) = l ++ [c]).
  { intros l c r. rewrite Nat2Z.id, take_app_ge by lia. f_equal.
    replace (length l + 1 - length l)%nat with 1%nat by lia. done. }
  assert (Hge : forall l : cstring, Z.of_nat (length l) <? 0 = false) by (intros; apply Z.ltb_ge; lia).
  unfold __dirname.
  destruct (last_chr_idx_spec s SLASH) as [(-> & H1)|(l & r & -> & Hr & ->)]; [done| |].
  2:{ left. exists l, r. rewrite !Hge, Hcut. done. }
  right. destruct (last_chr_idx_spec s BACKSLASH) as [(-> & H2)|(l & r & -> & Hr & ->)]; [done| |].
  2:{ left. split; [done|]. exists l, r. cbn [Z.ltb Z.compare]. rewrite !Hge, Hcut. done. }
  right. cbn [Z.ltb Z.compare].
  destruct (chr_idx_spec s COLON) as [(-> & H3)|(l & r & -> & Hl & ->)]; [done| |].
  - right. done.
  - left. split; [done|]. split; [done|]. exists l, r. rewrite !Hge, Hcut. done.
Qed.
