(* ===== verification/CheatMan.v ===== *)
(** * The cheat manager of the loader (ee/loader/cheatman.c)

    It loads cheats from a file, finds the game that matches an ELF, and hands the codes
    of a game to the cheat engine.  The engine is reached through the function pointers of
    [engine_t] (ee/loader/engine.h); [EngineLaws] is what the manager relies on. *)

From S2P Require Import Prelude CString MyString Queue CheatList Parser ParserProps LibCheats.
From S2P Require Import LoaderUtil ElfId Engine EngineTest EngineSpec EngineProps.
Local Open Scope ps2rd_scope.

(** ** The engine as the loader sees it *)

Record engine_t (S : Type) : Type := EngineT {
  e_get_max_hooks : M S Z;
  e_get_num_hooks : M S Z;
  e_add_hook : Z -> Z -> M S Z;
  e_clear_hooks : M S unit;
  e_get_max_codes : M S Z;
  e_set_max_codes : Z -> M S unit;
  e_get_num_codes : M S Z;
  e_add_code : Z -> Z -> M S Z;
  e_clear_codes : M S unit;
  e_register_callback : Z -> M S Z;
}.
Arguments e_add_hook {S}. Arguments e_add_code {S}.
Arguments e_clear_hooks {S}. Arguments e_clear_codes {S}.

(** A bounded table of entries. *)
Definition push_entry (max : nat) (l : list line) (e : line) : list line :=
  if (max <=? length l)%nat then l else l ++ [e].

(** The address a hook is stored with. *)
Definition hook_entry (a v : Z) : line := (Z.land a 0x01FFFFFC, v).

Class EngineLaws {S : Type} (e : engine_t S) : Type := {
  e_inv : S -> Prop;
  e_codes : S -> list line;
  e_hooks : S -> list line;
  e_code_max : S -> nat;
  e_hook_max : S -> nat;
  e_add_code_law : forall s a v, e_inv s -> is_u32 a -> is_u32 v ->
    exists r s', e_add_code e a v s = Ok (r, s') /\ e_inv s' /\
      e_codes s' = push_entry (e_code_max s) (e_codes s) (a, v) /\ e_hooks s' = e_hooks s /\
      e_code_max s' = e_code_max s /\ e_hook_max s' = e_hook_max s;
  e_add_hook_law : forall s a v, e_inv s -> is_u32 a -> is_u32 v ->
    exists r s', e_add_hook e a v s = Ok (r, s') /\ e_inv s' /\
      e_hooks s' = push_entry (e_hook_max s) (e_hooks s) (hook_entry a v) /\
      e_codes s' = e_codes s /\
      e_code_max s' = e_code_max s /\ e_hook_max s' = e_hook_max s;
  e_clear_codes_law : forall s, e_inv s ->
    exists s', e_clear_codes e s = Ok (tt, s') /\ e_inv s' /\ e_codes s' = [] /\
      e_hooks s' = e_hooks s /\ e_code_max s' = e_code_max s /\ e_hook_max s' = e_hook_max s;
  e_clear_hooks_law : forall s, e_inv s ->
    exists s', e_clear_hooks e s = Ok (tt, s') /\ e_inv s' /\ e_hooks s' = [] /\
      e_codes s' = e_codes s /\ e_code_max s' = e_code_max s /\ e_hook_max s' = e_hook_max s;
}.

(** ** Operations *)

Definition GAME_ID_START : cstring := str "/ID".
Definition GAME_ID_WC : Z := 63.

(** The result and the object; [txt] is what [read_text_file] returns. *)
Definition load_cheats (txt : option cstring) (c : cheats_t) (top : Z) (line : list Z) :
    M lib (Z * cheats_t) :=
  let* c := cheats_destroy c in
  match txt with
  | None => ret (-1, c)
  | Some buf =>
      let c := cheats_init in
      let* '(r, c) := cheats_read_buf c (Some buf) top line in
      if r =? CHEATS_TRUE then ret (0, c)
      else let* c := cheats_destroy c in ret (-1, c)
  end.

(** The game at [l] has an id that agrees with [id]. *)
Definition game_matches (id : elfid_t) (junk : Z) (m : gmap loc game_t) (l : loc) : res bool :=
  let? o := deref m l in
  let? t := c_string (title o) in
  match strstr t GAME_ID_START with
  | None => Ok false
  | Some p =>
      let? '(r, id2) := elfid_parse (drop (length GAME_ID_START) p) junk in
      if r =? 0 then
        let? c := elfid_compare (Some id) (Some id2) GAME_ID_WC in Ok (c =? 0)
      else Ok false
  end.

Fixpoint first_match (p : loc -> res bool) (ls : list loc) : res (option loc) :=
  match ls with
  | [] => Ok None
  | l :: ls' => let? b := p l in if b : bool then Ok (Some l) else first_match p ls'
  end.

Definition __find_cheats (id : elfid_t) (list : stailq) (junk : Z) (h : heap) : res (option loc) :=
  let? ls := STAILQ_FOREACH (stdpp.base.size (h_games h)) (h_games h) (STAILQ_FIRST list) in
  first_match (game_matches id junk (h_games h)) ls.

(** [cnf] is the text of SYSTEM.CNF, [fsize] the size of the files that can be opened.
    Starting and stopping the disc drive has no effect on the result. *)
Definition find_cheats (boot2 : option cstring) (cnf : option (list Z))
    (fsize : cstring -> option Z) (c : cheats_t) (junk : Z) (h : heap) : res (option loc) :=
  let boot2 := match boot2 with Some b => Some b | None => snd (cdGetElf cnf) end in
  match boot2 with
  | None => Ok None
  | Some b =>
      match argv0 (build_argv b 1) with
      | None => Err NullDeref
      | Some elf =>
          let '(r, id) := elfid_generate fsize elf zero_id in
          if r <? 0 then Ok None else __find_cheats id (games c) junk h
      end
  end.

Section Activate.
Context {S : Type} (e : engine_t S).

(** One code; the flag says whether it may be a hook, the result whether the next may. *)
Definition activate_code (a v nextCodeCanBeHook : Z) : M S Z :=
  (if (Z.land a 0xfe000000 =? 0x90000000) && (nextCodeCanBeHook =? 1)
   then e_add_hook e a v
   else e_add_code e a v);;
  ret (if (Z.land a 0xf0000000 =? 0x40000000) || negb (0x30000000 =? 0) then 0 else 1).

Fixpoint activate_codes (mc : gmap loc code_t) (ls : list loc) (flag : Z) : M S Z :=
  match ls with
  | [] => ret flag
  | l :: ls' =>
      let* o := lift (deref mc l) in
      let* flag := activate_code (addr o) (val o) flag in
      activate_codes mc ls' flag
  end.

Fixpoint activate_list (h : heap) (ls : list loc) (flag : Z) : M S Z :=
  match ls with
  | [] => ret flag
  | l :: ls' =>
      let* o := lift (deref (h_cheats h) l) in
      let* cs := lift (STAILQ_FOREACH (stdpp.base.size (h_codes h)) (h_codes h)
                         (STAILQ_FIRST (CheatList.codes o))) in
      let* flag := activate_codes (h_codes h) cs flag in
      activate_list h ls' flag
  end.

Definition activate_cheats (game : loc) (h : heap) : M S unit :=
  let* o := lift (deref (h_games h) game) in
  let* ls := lift (STAILQ_FOREACH (stdpp.base.size (h_cheats h)) (h_cheats h)
                     (STAILQ_FIRST (cheats o))) in
  activate_list h ls 1;;
  ret tt.

Definition reset_cheats : M S unit :=
  e_clear_hooks e;;
  e_clear_codes e.

End Activate.

(** ** Activation *)

Definition is_hook (a : Z) : bool := Z.land a 0xfe000000 =? 0x90000000.

(** The codes of a game in the order in which they are visited. *)
Definition game_codes (chs : list acheat) : list line :=
  chs ≫= fun c => (fun d => (ac_addr d, ac_val d)) <$> ah_codes c.

Definition push_all (max : nat) (l : list line) (es : list line) : list line :=
  fold_left (push_entry max) es l.

Section ActivateSpec.
Context {S : Type} (e : engine_t S) {L : EngineLaws e}.

(** With the flag cleared, everything becomes a code. *)
Definition adds (s s' : S) (cs hs : list line) : Prop :=
  e_inv s' /\ e_codes s' = push_all (e_code_max s) (e_codes s) cs /\
  e_hooks s' = push_all (e_hook_max s) (e_hooks s) hs /\
  e_code_max s' = e_code_max s /\ e_hook_max s' = e_hook_max s.

Lemma adds_refl s : e_inv s -> adds s s [] [].
Proof. done. Qed.

Lemma adds_trans s1 s2 s3 cs1 cs2 hs1 hs2 :
  adds s1 s2 cs1 hs1 -> adds s2 s3 cs2 hs2 -> adds s1 s3 (cs1 ++ cs2) (hs1 ++ hs2).
Proof.
  intros (_ & Hc1 & Hh1 & Hm1 & Hk1) (Hi & Hc2 & Hh2 & Hm2 & Hk2). split; [done|].
  unfold push_all in *. rewrite !fold_left_app, Hc2, Hh2, Hc1, Hh1, Hm2, Hk2, Hm1, Hk1. done.
Qed.

(** What one code contributes. *)
Definition split_code (flag : Z) (d : line) : list line * list line :=
  if is_hook d.1 && (flag =? 1) then ([], [hook_entry d.1 d.2]) else ([d], []).

Lemma activate_code_spec a v flag s :
  e_inv s -> is_u32 a -> is_u32 v ->
  exists s', activate_code e a v flag s = Ok (0, s') /\
    adds s s' (fst (split_code flag (a, v))) (snd (split_code flag (a, v))).
Proof.
  intros Hi Ha Hv. unfold activate_code, split_code, is_hook. cbn [fst snd].
  rewrite orb_true_r. destruct (_ && _).
  - destruct (e_add_hook_law s a v Hi Ha Hv) as (r & s' & He & Hi' & Hh & Hc & Hm & Hk).
    exists s'. rewrite (bind_ok _ _ _ _ _ He). split; [done|]. by split.
  - destruct (e_add_code_law s a v Hi Ha Hv) as (r & s' & He & Hi' & Hc & Hh & Hm & Hk).
    exists s'. rewrite (bind_ok _ _ _ _ _ He). split; [done|]. by split.
Qed.

(** What a sequence of codes contributes: only its first code can be a hook. *)
Definition split_codes (flag : Z) (ds : list line) : list line * list line :=
  match ds with
  | [] => ([], [])
  | d :: ds' => ((split_code flag d).1 ++ ds', (split_code flag d).2)
  end.

Definition flag_after (flag : Z) (ds : list line) : Z := match ds with [] => flag | _ => 0 end.

Lemma split_codes_app flag ds1 ds2 :
  split_codes flag (ds1 ++ ds2) =
  ((split_codes flag ds1).1 ++ (split_codes (flag_after flag ds1) ds2).1,
   (split_codes flag ds1).2 ++ (split_codes (flag_after flag ds1) ds2).2).
Proof.
  destruct ds1 as [|d ds1]; simpl; [by destruct (split_codes flag ds2)|].
  destruct ds2 as [|d2 ds2]; simpl; [by rewrite !app_nil_r|].
  assert (E : split_code 0 d2 = ([d2], [])) by (unfold split_code; by rewrite andb_false_r).
  rewrite E. simpl. by rewrite app_nil_r, <- app_assoc.
Qed.

Lemma activate_codes_spec mc cs flag s :
  Forall (obj_rep code_desc ac_loc mc) cs ->
  let ds := (fun d => (ac_addr d, ac_val d)) <$> cs in
  Forall (fun d => is_u32 d.1 /\ is_u32 d.2) ds -> e_inv s ->
  exists s', activate_codes e mc (ac_loc <$> cs) flag s = Ok (flag_after flag ds, s') /\
    adds s s' (fst (split_codes flag ds)) (snd (split_codes flag ds)).
Proof.
  intros Hf ds. subst ds. revert flag s.
  induction Hf as [|a cs (o & Ho & Ha & Hv) _ IH]; intros flag s Hu Hi.
  - exists s. split; [done|]. by apply adds_refl.
  - cbn [fmap list_fmap activate_codes] in *. apply Forall_cons in Hu as [[Hu1 Hu2] Hu].
    rewrite (bind_ok _ _ s o s) by (unfold lift, deref; by rewrite Ho).
    rewrite Ha, Hv. cbn [fst snd] in Hu1, Hu2.
    destruct (activate_code_spec (ac_addr a) (ac_val a) flag s Hi Hu1 Hu2) as (s1 & H1 & Had).
    rewrite (bind_ok _ _ _ _ _ H1).
    destruct (IH 0 s1 Hu) as (s' & H2 & Had'); [apply Had|]. rewrite H2.
    exists s'. split; [by destruct cs|]. pose proof (adds_trans _ _ _ _ _ _ _ Had Had') as Ht.
    change (_ :: _) with ([(ac_addr a, ac_val a)] ++ ((fun d => (ac_addr d, ac_val d)) <$> cs)).
    rewrite split_codes_app. cbn [split_codes flag_after fst snd]. by rewrite app_nil_r.
Qed.

Lemma activate_list_spec h chs flag s :
  Forall (obj_rep (cheat_desc (h_codes h)) ah_loc (h_cheats h)) chs ->
  Forall (fun d => is_u32 d.1 /\ is_u32 d.2) (game_codes chs) -> e_inv s ->
  exists s', activate_list e h (ah_loc <$> chs) flag s
      = Ok (flag_after flag (game_codes chs), s') /\
    adds s s' (fst (split_codes flag (game_codes chs))) (snd (split_codes flag (game_codes chs))).
Proof.
  intros Hf. revert flag s. induction Hf as [|a chs (o & Ho & Hd & Hr) _ IH]; intros flag s Hu Hi.
  - exists s. split; [done|]. by apply adds_refl.
  - unfold game_codes in Hu |- *. cbn [mbind list_bind] in Hu |- *.
    apply Forall_app in Hu as [Hu1 Hu2]. fold (game_codes chs) in Hu2 |- *.
    cbn [fmap list_fmap activate_list].
    rewrite (bind_ok _ _ s o s) by (unfold lift, deref; by rewrite Ho).
    rewrite (bind_ok _ _ s (ac_loc <$> ah_codes a) s).
    2:{ unfold lift, STAILQ_FIRST.
        by rewrite (list_rep_foreach _ _ _ _ _ _ Hr (list_rep_size _ _ _ _ _ Hr)). }
    destruct (activate_codes_spec (h_codes h) (ah_codes a) flag s (proj2 Hr) Hu1 Hi)
      as (s1 & H1 & Had).
    rewrite (bind_ok _ _ _ _ _ H1).
    destruct (IH (flag_after flag ((fun d => (ac_addr d, ac_val d)) <$> ah_codes a)) s1 Hu2)
      as (s' & H2 & Had'); [apply Had|]. rewrite H2.
    exists s'. split.
    + do 2 f_equal. by destruct (ah_codes a), (game_codes chs).
    + rewrite split_codes_app. by eapply adds_trans.
Qed.

Lemma activate_cheats_adds h q gs1 g gs2 s :
  games_rep h q (gs1 ++ g :: gs2) ->
  Forall (fun d => is_u32 d.1 /\ is_u32 d.2) (game_codes (ag_cheats g)) -> e_inv s ->
  exists s', activate_cheats e (ag_loc g) h s = Ok (tt, s') /\
    adds s s' (fst (split_codes 1 (game_codes (ag_cheats g))))
              (snd (split_codes 1 (game_codes (ag_cheats g)))).
Proof.
  intros ((_ & Hf) & _) Hu Hi. apply Forall_app in Hf as [_ Hf]. apply Forall_cons in Hf as [Hg _].
  destruct Hg as (o & Ho & _ & Hr). unfold activate_cheats.
  rewrite (bind_ok _ _ s o s) by (unfold lift, deref; by rewrite Ho).
  rewrite (bind_ok _ _ s (ah_loc <$> ag_cheats g) s).
  2:{ unfold lift, STAILQ_FIRST.
      by rewrite (list_rep_foreach _ _ _ _ _ _ Hr (list_rep_size _ _ _ _ _ Hr)). }
  destruct (activate_list_spec h (ag_cheats g) 1 s (proj2 Hr) Hu Hi) as (s' & H1 & Had).
  exists s'. by rewrite (bind_ok _ _ _ _ _ H1).
Qed.

Lemma reset_cheats_clears s :
  e_inv s -> exists s', reset_cheats e s = Ok (tt, s') /\ e_inv s' /\ e_codes s' = [] /\
    e_hooks s' = [] /\ e_code_max s' = e_code_max s /\ e_hook_max s' = e_hook_max s.
Proof.
  intros Hi. unfold reset_cheats.
  destruct (e_clear_hooks_law s Hi) as (s1 & H1 & Hi1 & Hh1 & Hc1 & Hm1 & Hk1).
  rewrite (bind_ok _ _ _ _ _ H1).
  destruct (e_clear_codes_law s1 Hi1) as (s2 & H2 & Hi2 & Hc2 & Hh2 & Hm2 & Hk2).
  exists s2. rewrite H2. split; [done|]. split; [done|]. split; [done|].
  split; [by rewrite Hh2|]. split; congruence.
Qed.
End ActivateSpec.

Lemma push_all_take max es l :
  (length l <= max)%nat -> push_all max l es = take max (l ++ es).
Proof.
  revert l. induction es as [|x es IH]; intros l Hl.
  - rewrite app_nil_r, take_ge by done. done.
  - change (push_all max l (x :: es)) with (push_all max (push_entry max l x) es).
    unfold push_entry. destruct (Nat.leb_spec max (length l)) as [Hf|Hf].
    + rewrite IH by done. rewrite !take_app_le by lia. done.
    + rewrite IH by (rewrite length_app; simpl; lia). by rewrite <- app_assoc.
Qed.

(** What the engine holds for a game: its codes, the first one as a hook if it is one. *)
Definition game_tables (ds : list line) : list line * list line :=
  match ds with
  | (a, v) :: ds' => if is_hook a then (ds', [hook_entry a v]) else ((a, v) :: ds', [])
  | [] => ([], [])
  end.

Lemma reset_activate {S} (e : engine_t S) {L : EngineLaws e} h q gs1 g gs2 s :
  games_rep h q (gs1 ++ g :: gs2) ->
  Forall (fun d => is_u32 d.1 /\ is_u32 d.2) (game_codes (ag_cheats g)) -> e_inv s ->
  exists s', (reset_cheats e;; activate_cheats e (ag_loc g) h) s = Ok (tt, s') /\ e_inv s' /\
    e_codes s' = take (e_code_max s) (game_tables (game_codes (ag_cheats g))).1 /\
    e_hooks s' = take (e_hook_max s) (game_tables (game_codes (ag_cheats g))).2 /\
    e_code_max s' = e_code_max s /\ e_hook_max s' = e_hook_max s.
Proof.
  intros Hr Hu Hi.
  destruct (reset_cheats_clears e s Hi) as (s1 & H1 & Hi1 & Hc1 & Hh1 & Hm1 & Hk1).
  rewrite (bind_ok _ _ _ _ _ H1).
  destruct (activate_cheats_adds e h q gs1 g gs2 s1 Hr Hu Hi1)
    as (s2 & H2 & Hi2 & Hc2 & Hh2 & Hm2 & Hk2).
  exists s2. rewrite H2. split; [done|]. split; [done|]. 
  enough (Hab : e_codes s2 = take (e_code_max s) (game_tables (game_codes (ag_cheats g))).1 /\
    e_hooks s2 = take (e_hook_max s) (game_tables (game_codes (ag_cheats g))).2)
    by (destruct Hab; repeat split; congruence).
  rewrite Hc1, Hm1, push_all_take in Hc2 by (simpl; lia).
  rewrite Hh1, Hk1, push_all_take in Hh2 by (simpl; lia).
  destruct (game_codes (ag_cheats g)) as [|[a v] ds]; [done|].
  unfold split_codes, split_code, game_tables in *. cbn [fst snd] in *. rewrite andb_true_r in *.
  destruct (is_hook a); done.
Qed.

(** C22: starting a game activates its codes, the first one only as a hook.  After
    [reset_cheats] and [activate_cheats] the engine holds exactly the codes of the chosen
    game, in the order of the list and up to the capacity of its tables: a code of type 9
    becomes a hook only when it is the very first code of the game, every other code goes
    to the code table, whatever stands before it. *)
Theorem activate_cheats_spec {S} (e : engine_t S) {L : EngineLaws e} h q gs1 g gs2 s :
  games_rep h q (gs1 ++ g :: gs2) ->
  Forall (fun d => is_u32 d.1 /\ is_u32 d.2) (game_codes (ag_cheats g)) -> e_inv s ->
  exists s', (reset_cheats e;; activate_cheats e (ag_loc g) h) s = Ok (tt, s') /\ e_inv s' /\
    let '(cs, hs) := match game_codes (ag_cheats g) with
                     | (a, v) :: ds => if is_hook a then (ds, [hook_entry a v])
                                       else ((a, v) :: ds, [])
                     | [] => ([], [])
                     end in
    e_codes s' = take (e_code_max s) cs /\ e_hooks s' = take (e_hook_max s) hs.
Proof.
  intros Hr Hu Hi. destruct (reset_activate e h q gs1 g gs2 s Hr Hu Hi) as (s' & E & Hi' & Hc & Hh & _).
  exists s'. split; [done|]. split; [done|]. unfold game_tables in *.
  destruct (game_codes (ag_cheats g)) as [|[a v] ds]; [done|]. by destruct (is_hook a).
Qed.

(** ** The engine of engine.c satisfies the laws *)

Definition engine_c (sym : symbols) : engine_t (gmap Z Z) := EngineT _
  (EngineC.get_max_hooks sym) (EngineC.get_num_hooks sym) (EngineC.add_hook sym)
  (EngineC.clear_hooks sym) (EngineC.get_max_codes sym) (EngineC.set_max_codes sym)
  (EngineC.get_num_codes sym) (EngineC.add_code sym) (EngineC.clear_codes sym)
  (EngineC.register_callback sym).

(** The bytes of a table: its counter, its capacity and its entries. *)
Definition in_table (num mx base : Z) (m : gmap Z Z) (b : Z) : Prop :=
  num <= b < num + 4 \/ mx <= b < mx + 4 \/ base <= b < base + 8 * load32 m mx.

Definition tables_apart (sym : symbols) (m : gmap Z Z) : Prop := forall b,
  in_table (numcodes sym) (maxcodes sym) (codelist sym) m b ->
  in_table (numhooks sym) (maxhooks sym) (hooklist sym) m b -> False.

Definition engine_inv (sym : symbols) (m : gmap Z Z) : Prop :=
  code_inv sym m /\ hook_inv sym m /\ tables_apart sym m.

(** A table is not affected by writes outside of it. *)
Lemma table_frame num mx base m m' :
  table_inv num mx base m ->
  (forall b, in_table num mx base m b -> load8 m' b = load8 m b) ->
  table_inv num mx base m' /\ entries num base m' = entries num base m /\
  load32 m' mx = load32 m mx /\ load32 m' num = load32 m num.
Proof.
  intros Hi Hf.
  assert (Hn : load32 m' num = load32 m num).
  { apply load32_ext. intros b Hb. apply Hf. by left. }
  assert (Hm : load32 m' mx = load32 m mx).
  { apply load32_ext. intros b Hb. apply Hf. right. by left. }
  split; [|split; [|done]].
  - destruct Hi. split; rewrite ?Hn, ?Hm; done.
  - unfold entries. rewrite Hn. apply list_fmap_ext. intros j y Hy.
    apply lookup_seqZ in Hy as [-> Hj]. destruct Hi.
    unfold entry. f_equal; apply load32_ext; intros b Hb; apply Hf; right; right; lia.
Qed.

Lemma length_entries num base m : length (entries num base m) = Z.to_nat (load32 m num).
Proof. unfold entries. by rewrite length_fmap, length_seqZ. Qed.

(** The result of [push_spec] as a bounded push. *)
Lemma push_entry_full num mx base m d :
  (if full num mx m then entries num base m else entries num base m ++ [d]) =
  push_entry (Z.to_nat (load32 m mx)) (entries num base m) d.
Proof.
  unfold push_entry, full. rewrite length_entries.
  pose proof (load32_range m num). pose proof (load32_range m mx).
  destruct (Z.leb_spec (load32 m mx) (load32 m num));
    destruct (Nat.leb_spec (Z.to_nat (load32 m mx)) (Z.to_nat (load32 m num))); done || lia.
Qed.

Lemma land_hook_u32 a : 0 <= Z.land a 0x01FFFFFC < 2 ^ 32.
Proof.
  replace (Z.land a 0x01FFFFFC) with (Z.land (Z.land a 0x01FFFFFC) (Z.ones 25))
    by (by rewrite <- Z.land_assoc).
  rewrite Z.land_ones by lia. pose proof (Z.mod_pos_bound (Z.land a 0x01FFFFFC) (2 ^ 25)). lia.
Qed.

(** Pushing into and clearing one table of the engine, the other one apart. *)
Section TwoTables.
Context (n1 x1 b1 n2 x2 b2 : Z).

Definition two_tables (m : gmap Z Z) : Prop :=
  table_inv n1 x1 b1 m /\ table_inv n2 x2 b2 m /\
  (forall b, in_table n1 x1 b1 m b -> in_table n2 x2 b2 m b -> False).

(** A change confined to the first table. *)
Lemma two_tables_frame m m' :
  two_tables m -> table_inv n1 x1 b1 m' ->
  (forall b, ~ (n1 <= b < n1 + 4) -> ~ (b1 <= b < b1 + 8 * load32 m x1) -> load8 m' b = load8 m b) ->
  two_tables m' /\ entries n2 b2 m' = entries n2 b2 m /\
  load32 m' x1 = load32 m x1 /\ load32 m' x2 = load32 m x2.
Proof.
  intros (H1 & H2 & Ha) H1' Hf.
  assert (Hx : load32 m' x1 = load32 m x1).
  { destruct H1. apply load32_ext. intros b Hb. apply Hf; lia. }
  destruct (table_frame n2 x2 b2 m m' H2) as (H2' & He & Hm & Hn).
  { intros b Hb. apply Hf; intros Hc; apply (Ha b); try done; unfold in_table; lia. }
  split; [|done]. split; [done|]. split; [done|].
  intros b. unfold in_table. rewrite Hx, Hm. apply Ha.
Qed.

Lemma two_tables_push m a v :
  two_tables m -> is_u32 a -> is_u32 v ->
  exists r m', push n1 x1 b1 a v m = Ok (r, m') /\ two_tables m' /\
    entries n1 b1 m' = push_entry (Z.to_nat (load32 m x1)) (entries n1 b1 m) (a, v) /\
    entries n2 b2 m' = entries n2 b2 m /\
    load32 m' x1 = load32 m x1 /\ load32 m' x2 = load32 m x2.
Proof.
  intros Ht Ha Hv. destruct (push_spec n1 x1 b1 a v m (proj1 Ht) Ha Hv) as (m' & Hp & He & Hi & Hf).
  destruct (two_tables_frame m m' Ht Hi Hf) as (Ht' & He2 & Hx1 & Hx2).
  eexists _, m'. split; [exact Hp|]. split; [done|]. split; [|done].
  rewrite He. apply push_entry_full.
Qed.

Lemma two_tables_clear m :
  two_tables m ->
  exists m', clear n1 b1 m = Ok (tt, m') /\ two_tables m' /\ entries n1 b1 m' = [] /\
    entries n2 b2 m' = entries n2 b2 m /\
    load32 m' x1 = load32 m x1 /\ load32 m' x2 = load32 m x2.
Proof.
  intros Ht. destruct (clear_spec n1 x1 b1 m (proj1 Ht)) as (m' & Hp & He & Hi & _ & Hf).
  destruct (two_tables_frame m m' Ht Hi Hf) as (Ht' & He2 & Hx1 & Hx2).
  exists m'. done.
Qed.
End TwoTables.

Lemma two_tables_sym n1 x1 b1 n2 x2 b2 m :
  two_tables n1 x1 b1 n2 x2 b2 m -> two_tables n2 x2 b2 n1 x1 b1 m.
Proof. intros (H1 & H2 & H3). split; [done|]. split; [done|]. eauto. Qed.

#[export] Instance engine_c_laws (sym : symbols) : EngineLaws (engine_c sym).
Proof.
  refine {| e_inv := engine_inv sym; e_codes := EngineProps.codes sym; e_hooks := hooks sym;
            e_code_max := fun m => Z.to_nat (load32 m (maxcodes sym));
            e_hook_max := fun m => Z.to_nat (load32 m (maxhooks sym)) |}.
  - intros m a v Hi Ha Hv.
    destruct (two_tables_push _ _ _ _ _ _ m a v Hi Ha Hv)
      as (r & m' & Hp & Ht & He & He2 & Hx1 & Hx2).
    exists r, m'. rewrite Hx1, Hx2. done.
  - intros m a v Hi Ha Hv.
    destruct (two_tables_push _ _ _ _ _ _ m _ v (two_tables_sym _ _ _ _ _ _ _ Hi)
      (land_hook_u32 a) Hv) as (r & m' & Hp & Ht & He & He2 & Hx1 & Hx2).
    apply two_tables_sym in Ht. exists r, m'. rewrite Hx1, Hx2. done.
  - intros m Hi. destruct (two_tables_clear _ _ _ _ _ _ m Hi)
      as (m' & Hp & Ht & He & He2 & Hx1 & Hx2).
    exists m'. rewrite Hx1, Hx2. done.
  - intros m Hi. destruct (two_tables_clear _ _ _ _ _ _ m (two_tables_sym _ _ _ _ _ _ _ Hi))
      as (m' & Hp & Ht & He & He2 & Hx1 & Hx2).
    apply two_tables_sym in Ht. exists m'. rewrite Hx1, Hx2. done.
Defined.

Lemma sample_engine_inv : engine_inv sample_symbols sample_mem.
Proof.
  split; [constructor; concrete|]. split; [constructor; concrete|].
  intros b. unfold in_table.
  assert (Hc : load32 sample_mem (maxcodes sample_symbols) = 100) by (vm_compute; reflexivity).
  assert (Hh : load32 sample_mem (maxhooks sample_symbols) = 5) by (vm_compute; reflexivity).
  rewrite Hc, Hh. cbn. lia.
Qed.

Lemma activate_cheats_spec_witness :
  exists m', (reset_cheats (engine_c sample_symbols);;
              activate_cheats (engine_c sample_symbols) 1%positive sample_heap) sample_mem
      = Ok (tt, m') /\
    EngineProps.codes sample_symbols m' = [(0x20345678, 1)] /\ hooks sample_symbols m' = [].
Proof.
  destruct (activate_cheats_spec (engine_c sample_symbols) sample_heap _ []
    (AGame 1 [66; 0] [ACheat 2 [65; 0] [ACode 3 0x20345678 1]]) [] sample_mem sample_heap_rep)
    as (m' & H1 & _ & H2 & H3).
  - repeat constructor; vm_compute; congruence.
  - exact sample_engine_inv.
  - exists m'. split; [exact H1|]. split; [etransitivity; [exact H2|]|etransitivity; [exact H3|]];
      vm_compute; reflexivity.
Defined.

(** ** Finding cheats *)

(** The id a title carries behind its first "/ID". *)
Definition title_id (t : cstring) : option elfid_t :=
  match strstr t GAME_ID_START with
  | None => None
  | Some p =>
      let '(r, id) := parse_tokens (strtok SEP (drop (length GAME_ID_START) p)) 0 zero_id in
      if r =? 0 then Some id else None
  end.

Definition title_matches (id : elfid_t) (t : cstring) : bool :=
  match title_id t with
  | Some id2 => ids_agree GAME_ID_WC id id2
  | None => false
  end.

Lemma strstr_suffix s t p : strstr s t = Some p -> exists l, s = l ++ p.
Proof.
  revert p. induction s as [|c s IH]; intros p; simpl; case_bool_decide; intros E; simplify_eq.
  - by exists [].
  - by exists [].
  - destruct (IH p E) as [l ->]. by exists (c :: l).
Qed.

Lemma span_tok_nul_free sep s : nul_free s ->
  nul_free (span_tok sep s).1 /\ nul_free (span_tok sep s).2.
Proof.
  induction 1 as [|c s Hc Hs IH]; simpl; [split; constructor|].
  case_bool_decide; [split; by constructor|].
  destruct (span_tok sep s) as [t r]. simpl in *. split; [constructor; tauto|tauto].
Qed.

Lemma skip_sep_nul_free sep s : nul_free s -> nul_free (skip_sep sep s).
Proof.
  induction 1 as [|c s Hc Hs IH]; simpl; [constructor|]. case_bool_decide; [done|by constructor].
Qed.

Lemma strtok_nul_free fuel sep s : nul_free s -> Forall nul_free (strtok_all fuel sep s).
Proof.
  revert s. induction fuel as [|fuel IH]; intros s Hs; [constructor|]. cbn [strtok_all].
  pose proof (skip_sep_nul_free sep s Hs) as Hk. destruct (skip_sep sep s) as [|c s'] eqn:E; [constructor|].
  pose proof (span_tok_nul_free sep (c :: s') Hk) as [Ht Hr].
  destruct (span_tok sep (c :: s')) as [t r]. constructor; [done|by apply IH].
Qed.

Lemma parse_tokens_nul_free toks i id :
  Forall nul_free toks -> nul_free (id_name id) -> nul_free (id_name (parse_tokens toks i id).2).
Proof.
  intros Ht. revert i id. induction Ht as [|p toks Hp _ IH]; intros i id Hid; simpl; [done|].
  destruct i as [|[|[|i]]]; destruct (hd 0 p =? MINUS); auto.
  - apply IH. simpl. by apply nul_free_take.
  - destruct (scan_i p); [|done]. by apply IH.
Qed.

(** A game whose title is stored terminated, seen through its title. *)
Lemma game_matches_title id junk m l o :
  m !! l = Some o -> 0 ∈ title o -> (length (title o) < ELFID_NAME_MAX)%nat ->
  nul_free (id_name id) ->
  game_matches id junk m l = Ok (title_matches id (cstr (title o))).
Proof.
  intros Ho Hz Hlen Hid. unfold game_matches, title_matches, title_id, deref. rewrite Ho. cbn [rbind of_option].
  unfold c_string at 1. rewrite bool_decide_eq_true_2 by done. cbn [rbind].
  destruct (strstr (cstr (title o)) GAME_ID_START) as [p|] eqn:Es; [|done].
  destruct (strstr_suffix _ _ _ Es) as [l0 Hl0].
  pose proof (cstr_nul_free (title o)) as Hnf. rewrite Hl0 in Hnf. apply nul_free_app in Hnf as [_ Hp].
  assert (Hcl : (length (cstr (title o)) <= length (title o))%nat).
  { clear. induction (title o) as [|c b IH]; simpl; [lia|]. destruct (c =? 0); simpl; lia. }
  rewrite Hl0, length_app in Hcl.
  set (s := drop (length GAME_ID_START) p).
  assert (Hs : nul_free s) by (by apply nul_free_drop).
  unfold elfid_parse. rewrite c_string_strncpy.
  2:{ done. }
  2:{ unfold s. rewrite length_drop. lia. }
  cbn [rbind]. destruct (parse_tokens (strtok SEP s) 0 zero_id) as [r id2] eqn:Ep.
  destruct (r =? 0); [|done].
  assert (Hid2 : nul_free (id_name id2)).
  { replace id2 with (parse_tokens (strtok SEP s) 0 zero_id).2 by (by rewrite Ep).
    apply parse_tokens_nul_free; [by apply strtok_nul_free|constructor]. }
  rewrite elfid_compare_agree by done. simpl. by destruct (ids_agree GAME_ID_WC id id2).
Qed.

Lemma find_cheats_index h q gs id junk :
  games_rep h q gs ->
  Forall (fun g => 0 ∈ ag_title g /\ (length (ag_title g) < ELFID_NAME_MAX)%nat) gs ->
  nul_free (id_name id) ->
  match list_find (fun g => title_matches id (cstr (ag_title g)) = true) gs with
  | None => __find_cheats id q junk h = Ok None
  | Some (_, g) => __find_cheats id q junk h = Ok (Some (ag_loc g))
  end.
Proof.
  intros (Hr & _) Hn Hid. unfold __find_cheats, STAILQ_FIRST.
  rewrite (list_rep_foreach _ _ _ _ _ _ Hr (list_rep_size _ _ _ _ _ Hr)). simpl.
  destruct Hr as (_ & Hf). induction Hf as [|g gs (o & Ho & Ht & _) _ IH]; [done|].
  apply Forall_cons in Hn as [[Hz Hl] Hn]. simpl.
  rewrite (game_matches_title id junk _ _ o Ho) by (by rewrite ?Ht). rewrite Ht. simpl.
  destruct (title_matches id (cstr (ag_title g))); simpl; [done|].
  specialize (IH Hn). destruct (list_find _ gs) as [[i g']|]; exact IH.
Qed.

(** C23: [__find_cheats] selects the first game for the ELF.  It returns the first game of
    the list whose title carries an id ("/ID name size") that agrees with the id of the
    ELF, and NULL when no title does; titles without an id never match. *)
Theorem find_cheats_first h q gs id junk :
  games_rep h q gs ->
  Forall (fun g => 0 ∈ ag_title g /\ (length (ag_title g) < ELFID_NAME_MAX)%nat) gs ->
  nul_free (id_name id) ->
  match list_find (fun g => title_matches id (cstr (ag_title g)) = true) gs with
  | None => __find_cheats id q junk h = Ok None
  | Some (_, g) => __find_cheats id q junk h = Ok (Some (ag_loc g))
  end.
Proof. intros Hr Hn Hid. exact (find_cheats_index h q gs id junk Hr Hn Hid). Qed.

Definition id_title : list Z := fill_name 0 GAME_TITLE_MAX (Some (str "Rez /ID SLES_508.77 2838256")).

Definition id_heap : heap :=
  Heap ∅ ∅ {[1%positive := Game id_title STAILQ_INIT 0 None]} 2%positive [] 0 None.

Lemma find_cheats_first_witness :
  __find_cheats (ElfId (str "cdrom0:\SLES_508.77;1") 2838256 3)
    (StailQ (Some 1%positive) (AtNext 1)) 0 id_heap = Ok (Some 1%positive).
Proof.
  assert (Hr : games_rep id_heap (StailQ (Some 1%positive) (AtNext 1)) [AGame 1 id_title []]).
  { split; [split|split; constructor].
    - split; [simpl; split; [done|]; by eexists|]. split; [done|apply NoDup_singleton].
    - repeat constructor. eexists. split; [reflexivity|]. split; [reflexivity|].
      apply list_rep_init. }
  pose proof (find_cheats_first id_heap _ _ (ElfId (str "cdrom0:\SLES_508.77;1") 2838256 3) 0 Hr)
    as H. cbn [list_find] in H. rewrite decide_True in H by (vm_compute; reflexivity). apply H.
  - constructor; [|constructor]. split; [|vm_compute; lia].
    apply (bool_decide_eq_true (0 ∈ id_title)). vm_compute. reflexivity.
  - repeat constructor; vm_compute; congruence.
Defined.
