(* ===== verification/Pattern.v ===== *)
(** * Code patterns of the debugger (ee/debugger/pattern.c, padread_patterns.h,
    loadmodule_patterns.h, padread_hooks.c, loadmodule_hooks.c)

    The debugger looks for library functions of the game by masked patterns of
    instruction words, and redirects the calls of a function it found. *)

From S2P Require Import Prelude CString Engine EngineSpec LoaderUtil.
Local Open Scope ps2rd_scope.

Record pattern_t : Type := Pattern {
  p_seq : list Z;
  p_mask : list Z;
  p_len : Z;                    (** in bytes *)
  p_tag : Z;
}.

(** [for (j = 0; j < len; j++) if ((buf[i + j] & mask[j]) != seq[j]) break;]: whether
    [j] reaches [len]. *)
Fixpoint match_at (m : gmap Z Z) (a : Z) (sq msk : list Z) (n : nat) : res bool :=
  match n with
  | O => Ok true
  | S n' =>
      match sq, msk with
      | s :: sq', k :: msk' =>
          if Z.land (load32 m a) k =? s then match_at m (a + 4) sq' msk' n' else Ok false
      | _, _ => Err OutOfBounds
      end
  end.

Fixpoint find_loop (fuel : nat) (m : gmap Z Z) (buf i bound : Z) (sq msk : list Z) (n : nat) :
    res (option Z) :=
  if i <? bound then
    match fuel with
    | O => Err OutOfFuel
    | S fuel' =>
        let? b := match_at m (buf + 4 * i) sq msk n in
        if b : bool then Ok (Some (buf + 4 * i)) else find_loop fuel' m buf (i + 1) bound sq msk n
    end
  else Ok None.

(** The sizes are in bytes and not negative. *)
Definition find_pattern_with_mask (m : gmap Z Z) (buf bufsize : Z) (sq msk : list Z) (len : Z) :
    res (option Z) :=
  let len := len / 4 in
  let bufsize := bufsize / 4 in
  find_loop (Z.to_nat (bufsize - len)) m buf 0 (bufsize - len) sq msk (Z.to_nat len).

Definition find_pattern (m : gmap Z Z) (buf bufsize : Z) (pat : pattern_t) : res (option Z) :=
  find_pattern_with_mask m buf bufsize (p_seq pat) (p_mask pat) (p_len pat).

(** ** The patterns *)

(** [sizeof] of an array of words. *)
Definition sizeof (l : list Z) : Z := 4 * Z.of_nat (length l).

Definition padReadpattern0 : list Z :=
  [0x0080382d; 0x24030070; 0x2404001c; 0x70e31818; 0x00a42018; 0x27bdff00;
   0x3c020000; 0xff000000; 0xffbf0000; 0x24420000; 0x00000000; 0x00000000;
   0x00000000; 0x00000000; 0x00000000; 0x00000000; 0x00000000; 0x00000000;
   0x0c000000].
Definition padReadpattern0_mask : list Z :=
  [0xffffffff; 0xffffffff; 0xffffffff; 0xffffffff; 0xffffffff; 0xffffff00;
   0xffff0000; 0xff000000; 0xffff0000; 0xffff0000; 0x00000000; 0x00000000;
   0x00000000; 0x00000000; 0x00000000; 0x00000000; 0x00000000; 0x00000000;
   0xfc000000].
Definition padReadpattern1 : list Z :=
  [0x0080382d; 0x24020060; 0x24040180; 0x00a21018; 0x70e42018; 0x27bdff00;
   0x3c030000; 0xff000000; 0xffbf0000; 0x24630000; 0x00000000; 0x00000000;
   0x00000000; 0x00000000; 0x00000000; 0x00000000; 0x00000000; 0x00000000;
   0x0c000000].
Definition padReadpattern1_mask : list Z :=
  [0xffffffff; 0xffffffff; 0xffffffff; 0xffffffff; 0xffffffff; 0xffffff00;
   0xffff0000; 0xff000000; 0xffff0000; 0xffff0000; 0x00000000; 0x00000000;
   0x00000000; 0x00000000; 0x00000000; 0x00000000; 0x00000000; 0x00000000;
   0xfc000000].
Definition padReadpattern2 : list Z :=
  [0x27bdff00; 0x24030070; 0xffb10000; 0x3c020000; 0xffb20000; 0x0080882d;
   0x00a0902d; 0x2404001c; 0x72231818; 0x02442018; 0x00000000; 0x00000000;
   0x00000000; 0x00000000; 0x00000000; 0x00000000; 0x00000000; 0x00000000;
   0x00000000; 0x00000000; 0x00000000; 0x00000000; 0x0c000000].
Definition padReadpattern2_mask : list Z :=
  [0xffffff00; 0xffffffff; 0xffff0000; 0xffff0000; 0xffff0000; 0xffffffff;
   0xffffffff; 0xffffffff; 0xffffffff; 0xffffffff; 0x00000000; 0x00000000;
   0x00000000; 0x00000000; 0x00000000; 0x00000000; 0x00000000; 0x00000000;
   0x00000000; 0x00000000; 0x00000000; 0x00000000; 0xfc000000].
Definition padReadpattern3 : list Z :=
  [0x27bdff00; 0x24030070; 0xffb10000; 0x3c020000; 0xffb20000; 0x0080882d;
   0x00a0902d; 0x2404001c; 0x72231818; 0x02442018; 0x00000000; 0x00000000;
   0x00000000; 0x00000000; 0x00000000; 0x00000000; 0x00000000; 0x00000000;
   0x00000000; 0x00000000; 0x00000000; 0x0c000000].
Definition padReadpattern3_mask : list Z :=
  [0xffffff00; 0xffffffff; 0xffff0000; 0xffff0000; 0xffff0000; 0xffffffff;
   0xffffffff; 0xffffffff; 0xffffffff; 0xffffffff; 0x00000000; 0x00000000;
   0x00000000; 0x00000000; 0x00000000; 0x00000000; 0x00000000; 0x00000000;
   0x00000000; 0x00000000; 0x00000000; 0xfc000000].
Definition pad2Readpattern0 : list Z :=
  [0x27bdffc0; 0x24020000; 0xffb10010; 0x3c030000; 0x0080882d; 0xffb20020;
   0x02222018; 0x24660000; 0xffbf0030; 0x00a0902d; 0x00000000; 0x00000000;
   0x00000000; 0x00000000; 0x00000000; 0x00000000; 0x00000000; 0x00000000;
   0x00000000; 0x0c000000].
Definition pad2Readpattern0_mask : list Z :=
  [0xffffffff; 0xffff0000; 0xffffffff; 0xffff0000; 0xffffffff; 0xffffffff;
   0xffffffff; 0xffff0000; 0xffffffff; 0xffffffff; 0x00000000; 0x00000000;
   0x00000000; 0x00000000; 0x00000000; 0x00000000; 0x00000000; 0x00000000;
   0x00000000; 0xfc000000].
Definition padReadpattern4 : list Z :=
  [0x27bdffc0; 0x00052900; 0x000421c0; 0x3c020000; 0x00a42821; 0xffb20020;
   0xffb10010; 0x24420000; 0xffbf0030; 0x00451021; 0xffb00000; 0x00c0902d;
   0x8c50000c; 0x24050100; 0x0c000000].
Definition padReadpattern4_mask : list Z :=
  [0xffffffff; 0xffffffff; 0xffffffff; 0xffff0000; 0xffffffff; 0xffffffff;
   0xffffffff; 0xffff0000; 0xffffffff; 0xffffffff; 0xffffffff; 0xffffffff;
   0xffffffff; 0xffffffff; 0xfc000000].
Definition padReadpattern5 : list Z :=
  [0x24020060; 0x24070300; 0x00a21818; 0x70872018; 0x27bdffc0; 0x3c020000;
   0xffb20020; 0x24420000; 0xffb10010; 0x00c0902d; 0x00641821; 0xffbf0030;
   0xffb00000; 0x00621821; 0x8c70000c; 0x24050100; 0x0c000000].
Definition padReadpattern5_mask : list Z :=
  [0xffffffff; 0xffffffff; 0xffffffff; 0xffffffff; 0xffffffff; 0xffff0000;
   0xffffffff; 0xffff0000; 0xffffffff; 0xffffffff; 0xffffffff; 0xffffffff;
   0xffffffff; 0xffffffff; 0xffffffff; 0xffffffff; 0xfc000000].
Definition padReadpattern6 : list Z :=
  [0x24020060; 0x24030180; 0x00a22818; 0x70832018; 0x27bdffe0; 0x3c020000;
   0xffbf0010; 0x24420000; 0xffb00000; 0x00a42821; 0x00a22821; 0x8cb0000c;
   0x0200202d; 0x0c000000].
Definition padReadpattern6_mask : list Z :=
  [0xffffffff; 0xffffffff; 0xffffffff; 0xffffffff; 0xffffffff; 0xffff0000;
   0xffffffff; 0xffff0000; 0xffffffff; 0xffffffff; 0xffffffff; 0xffffffff;
   0xffffffff; 0xfc000000].
Definition padReadpattern7 : list Z :=
  [0x27bdffb0; 0xffb20020; 0xffb10010; 0x00c0902d; 0xffb00000; 0x0080882d;
   0xffb30030; 0xffbf0040; 0x0c000000; 0x00a0802d; 0x00000000; 0x00000000;
   0x00000000; 0x00000000; 0x00000000; 0x00000000; 0x00000000; 0x00000000;
   0x00000000; 0x00000000; 0x00000000; 0x0c000000].
Definition padReadpattern7_mask : list Z :=
  [0xffffffff; 0xffffffff; 0xffffffff; 0xffffffff; 0xffff0000; 0xffffffff;
   0xffffffff; 0xffffffff; 0xfc000000; 0xffffffff; 0x00000000; 0x00000000;
   0x00000000; 0x00000000; 0x00000000; 0x00000000; 0x00000000; 0x00000000;
   0x00000000; 0x00000000; 0x00000000; 0xfc000000].

Definition pat_of (s k : list Z) (t : Z) : pattern_t := Pattern s k (sizeof s) t.

Definition _padread_patterns : list pattern_t :=
  [pat_of padReadpattern0 padReadpattern0_mask 1; pat_of padReadpattern1 padReadpattern1_mask 1;
   pat_of padReadpattern2 padReadpattern2_mask 1; pat_of padReadpattern3 padReadpattern3_mask 1;
   pat_of padReadpattern4 padReadpattern4_mask 1; pat_of padReadpattern5 padReadpattern5_mask 1;
   pat_of padReadpattern6 padReadpattern6_mask 1; pat_of padReadpattern7 padReadpattern7_mask 1;
   pat_of pad2Readpattern0 pad2Readpattern0_mask 2].

Definition loadModulepattern0 : list Z :=
  [0x27bdff80; 0xffb40050; 0xffb30040; 0x00e0a02d; 0xffb20030; 0x0100982d;
   0xffb10020; 0x00a0902d; 0xffb00010; 0x0080882d; 0xffbf0070; 0x00c0802d;
   0x0c000000; 0xffb50060].
Definition loadModulepattern0_mask : list Z :=
  [0xffffffff; 0xffffffff; 0xffffffff; 0xffffffff; 0xffffffff; 0xffffffff;
   0xffffffff; 0xffffffff; 0xffffffff; 0xffffffff; 0xffffffff; 0xffffffff;
   0xfc000000; 0xffffffff].

Definition _loadmodule_patterns : list pattern_t :=
  [pat_of loadModulepattern0 loadModulepattern0_mask 0].

(** The first pattern of a table that occurs, with its tag. *)
Fixpoint find_any (m : gmap Z Z) (buf bufsize : Z) (pats : list pattern_t) :
    res (option (Z * Z)) :=
  match pats with
  | [] => Ok None
  | pat :: pats' =>
      let? p := find_pattern m buf bufsize pat in
      match p with
      | Some a => Ok (Some (a, p_tag pat))
      | None => find_any m buf bufsize pats'
      end
  end.

(** ** padread_hooks.c *)

Definition HOOKS_BASE : Z := 0x000fff00.
Definition MAX_HOOKS : Z := 30.

Definition clear_autohook_tab (m : gmap Z Z) : gmap Z Z :=
  store_bytes m HOOKS_BASE (replicate (Z.to_nat (8 * (MAX_HOOKS + 1))) 0).

(** The search for the address; [inl] is the early return of an existing entry, [inr]
    the index of the first free one. *)
Fixpoint autohook_scan (fuel : nat) (m : gmap Z Z) (hook_addr i : Z) : res (unit + Z) :=
  let a := load32 m (HOOKS_BASE + 8 * i) in
  if a =? 0 then Ok (inr i)
  else if a =? hook_addr then Ok (inl tt)
  else match fuel with
       | O => Err OutOfFuel
       | S fuel' => autohook_scan fuel' m hook_addr (i + 1)
       end.

Definition add_autohook (hook_addr orig_opcode : Z) : M (gmap Z Z) Z := fun m =>
  let? r := autohook_scan (Z.to_nat MAX_HOOKS) m hook_addr 0 in
  match r with
  | inl _ => Ok (0, m)
  | inr i =>
      if MAX_HOOKS <=? i then Ok (0, m)
      else Ok (1, store32 (store32 m (HOOKS_BASE + 8 * i) hook_addr)
                    (HOOKS_BASE + 8 * i + 4) orig_opcode)
  end.

(** The words that are searched. *)
Definition START : Z := 0x00100000.
Definition END : Z := 0x01f00000.

(** The instruction [jal func]. *)
Definition jal_word (func : Z) : Z := Z.lor 0x0c000000 (Z.land 0x03ffffff (Z.shiftr func 2)).

(** [while (ptr)]: replace the calls found from [ptr] on; [hit] is what is done with a
    call before it is overwritten.  Returns [pattern_found]. *)
Fixpoint patch_loop (fuel : nat) (hit : Z -> M (gmap Z Z) unit) (fin old new ptr found : Z) :
    M (gmap Z Z) Z :=
  match fuel with
  | O => fail OutOfFuel
  | S fuel' =>
      let* m := get in
      let* p := lift (find_pattern_with_mask m ptr (fin - ptr) [old] [0xffffffff] 4) in
      match p with
      | None => ret found
      | Some a =>
          hit a;;
          modify (fun m => store32 m a new);;
          patch_loop fuel' hit fin old new (a + 8) 1
      end
  end.

(** The two pointers that are saved. *)
Record pad_ptrs : Type := PadPtrs {
  scePadRead : Z;
  scePad2Read : Z;
  scePadRead_style : Z;
}.

(** [start] and [fin] are the bounds of the search, [hook1] and [hook2] the addresses of
    [Hook_scePadRead] and [Hook_scePad2Read]. *)
Definition patch_padRead_in (start fin hook1 hook2 : Z) (p : pad_ptrs) :
    M (gmap Z Z) (Z * pad_ptrs) :=
  let* m := get in
  let* r := lift (find_any m start (fin - start) _padread_patterns) in
  match r with
  | None => ret (0, p)
  | Some (ptr, t) =>
      let p := if t =? 2 then PadPtrs (scePadRead p) ptr t else PadPtrs ptr (scePad2Read p) t in
      let old := jal_word ptr in
      let new := jal_word (if t =? 2 then hook2 else hook1) in
      patch_loop (Z.to_nat (fin - start)) 
        (fun a => let* m := get in add_autohook a (load32 m a);; ret tt) fin old new start 0;;
      ret (1, p)
  end.

Definition patch_padRead := patch_padRead_in START END.

(** ** loadmodule_hooks.c *)

Definition module_tab : list cstring := [str "DEV9.IRX"; str "SMAP.IRX"].

(** A name occurs in the path, turned to upper case; [filename[i+j]] reads as far as the
    terminator. *)
Fixpoint name_occurs (filename nm : cstring) : bool :=
  match filename with
  | [] => false
  | _ :: filename' => bool_decide (take (length nm) filename = nm) || name_occurs filename' nm
  end.

(** The hook: [inl] is the faked result, [inr] the call of the original function.  The
    path goes through a buffer of 1024 bytes. *)
Definition Hook_SifLoadModule (path : cstring) (modres : option Z) : res (Z * option Z + cstring) :=
  if (1024 <=? length path)%nat then Err OutOfBounds
  else
    let filename := toupper <$> path in
    if existsb (name_occurs filename) module_tab then
      Ok (inl (0, match modres with Some _ => Some 0 | None => None end))
    else Ok (inr path).

Definition patch_loadModule_in (start fin hook : Z) (p : option Z) :
    M (gmap Z Z) (Z * option Z) :=
  let* m := get in
  let* r := lift (find_any m start (fin - start) _loadmodule_patterns) in
  match r with
  | None => ret (0, p)
  | Some (ptr, _) =>
      patch_loop (Z.to_nat (fin - start)) (fun _ => ret tt) fin (jal_word ptr) (jal_word hook)
        start 0;;
      ret (1, Some ptr)
  end.

Definition patch_loadModule := patch_loadModule_in START END.

(** ** What the search finds *)

(** The words at [a] agree with the pattern under its mask. *)
Fixpoint agrees (m : gmap Z Z) (a : Z) (sq msk : list Z) : bool :=
  match sq, msk with
  | s :: sq', k :: msk' => (Z.land (load32 m a) k =? s) && agrees m (a + 4) sq' msk'
  | _, _ => true
  end.

Lemma match_at_agrees m a sq msk :
  length sq = length msk -> match_at m a sq msk (length sq) = Ok (agrees m a sq msk).
Proof.
  revert a msk. induction sq as [|s sq IH]; intros a [|k msk] Hl; simpl in *; try done.
  destruct (Z.land (load32 m a) k =? s); simpl; [|done]. apply IH. lia.
Qed.

Lemma find_loop_spec m buf sq msk bound fuel i :
  length sq = length msk -> bound - i <= Z.of_nat fuel ->
  exists r, find_loop fuel m buf i bound sq msk (length sq) = Ok r /\
    match r with
    | Some a => exists j, a = buf + 4 * j /\ i <= j < bound /\ agrees m a sq msk = true /\
        (forall k, i <= k < j -> agrees m (buf + 4 * k) sq msk = false)
    | None => forall k, i <= k < bound -> agrees m (buf + 4 * k) sq msk = false
    end.
Proof.
  intros Hl. revert i. induction fuel as [|fuel IH]; intros i Hf; cbn [find_loop].
  - destruct (Z.ltb_spec i bound); [lia|]. exists None. split; [done|]. lia.
  - destruct (Z.ltb_spec i bound) as [Hi|Hi].
    2:{ exists None. split; [done|]. lia. }
    rewrite match_at_agrees by done. cbn [rbind].
    destruct (agrees m (buf + 4 * i) sq msk) eqn:E.
    + exists (Some (buf + 4 * i)). split; [done|]. exists i. split; [done|]. split; [lia|].
      split; [done|]. lia.
    + destruct (IH (i + 1)) as (r & -> & Hr); [lia|]. exists r. split; [done|].
      assert (Hk : forall k P, (i + 1 <= k < P -> agrees m (buf + 4 * k) sq msk = false) ->
                               i <= k < P -> agrees m (buf + 4 * k) sq msk = false).
      { intros k P H Hk. destruct (decide (k = i)) as [->|]; [done|]. apply H. lia. }
      destruct r as [a|].
      * destruct Hr as (j & -> & Hj & Ha & Hn). exists j. split; [done|]. split; [lia|].
        split; [done|]. intros k. apply Hk. apply Hn.
      * intros k. apply Hk. apply Hr.
Qed.

Lemma find_with_mask_spec m buf bufsize sq msk :
  length sq = length msk -> 
  exists r, find_pattern_with_mask m buf bufsize sq msk (sizeof sq) = Ok r /\
    match r with
    | Some a => exists j, a = buf + 4 * j /\ 0 <= j < bufsize / 4 - Z.of_nat (length sq) /\
        agrees m a sq msk = true /\
        (forall k, 0 <= k < j -> agrees m (buf + 4 * k) sq msk = false)
    | None => forall k, 0 <= k < bufsize / 4 - Z.of_nat (length sq) ->
        agrees m (buf + 4 * k) sq msk = false
    end.
Proof.
  intros Hl. unfold find_pattern_with_mask, sizeof.
  replace (4 * Z.of_nat (length sq) / 4) with (Z.of_nat (length sq)) by zlia.
  rewrite Nat2Z.id. apply find_loop_spec; [done|lia].
Qed.

(** Length and mask of a pattern are as the search needs them. *)
Definition pattern_wf (p : pattern_t) : bool :=
  (length (p_seq p) =? length (p_mask p))%nat && (p_len p =? sizeof (p_seq p)) &&
  forallb (fun '(s, k) => Z.land s k =? s) (zip (p_seq p) (p_mask p)).

(** [find_pattern] returns the first match.  For every pattern of the two tables the
    address returned is that of the first word from which the masked words equal the
    pattern, among all positions that end before the last word of the buffer; NULL means
    that none of these positions matches. *)
Lemma find_pattern_first m buf bufsize pat :
  pat ∈ _padread_patterns ++ _loadmodule_patterns ->
  exists r, find_pattern m buf bufsize pat = Ok r /\
    match r with
    | Some a => exists j, a = buf + 4 * j /\ 0 <= j < bufsize / 4 - p_len pat / 4 /\
        agrees m a (p_seq pat) (p_mask pat) = true /\
        (forall k, 0 <= k < j -> agrees m (buf + 4 * k) (p_seq pat) (p_mask pat) = false)
    | None => forall k, 0 <= k < bufsize / 4 - p_len pat / 4 ->
        agrees m (buf + 4 * k) (p_seq pat) (p_mask pat) = false
    end.
Proof.
  intros Hp. assert (Hwf : pattern_wf pat = true).
  { assert (H : forallb pattern_wf (_padread_patterns ++ _loadmodule_patterns) = true)
      by (vm_compute; reflexivity).
    rewrite forallb_forall in H. apply H. by apply list_elem_of_In. }
  unfold pattern_wf in Hwf. rewrite !andb_true_iff, Nat.eqb_eq, Z.eqb_eq in Hwf.
  destruct Hwf as ((Hl & Hz) & _). unfold find_pattern. rewrite Hz.
  replace (sizeof (p_seq pat) / 4) with (Z.of_nat (length (p_seq pat))) by (unfold sizeof; zlia).
  by apply find_with_mask_spec.
Qed.

(** A piece of code with one of the patterns in it. *)
Definition sample_code : gmap Z Z :=
  fst (fold_left (fun '(m, a) w => (store32 m a w, a + 4)) padReadpattern6 (∅, 0x00100008)).

Example find_pattern_sample :
  let pat := pat_of padReadpattern6 padReadpattern6_mask 1 in
  exists r, find_pattern sample_code 0x00100000 128 pat = Ok r /\
    match r with
    | Some a => exists j, a = 0x00100000 + 4 * j /\ 0 <= j < 128 / 4 - p_len pat / 4 /\
        agrees sample_code a (p_seq pat) (p_mask pat) = true /\
        (forall k, 0 <= k < j ->
           agrees sample_code (0x00100000 + 4 * k) (p_seq pat) (p_mask pat) = false)
    | None => forall k, 0 <= k < 128 / 4 - p_len pat / 4 ->
        agrees sample_code (0x00100000 + 4 * k) (p_seq pat) (p_mask pat) = false
    end.
Proof.
  intros pat. apply (find_pattern_first sample_code 0x00100000 128 pat).
  unfold _padread_patterns. do 6 right. left.
Qed.

(** ** Redirecting calls *)

(** The [n] words from address [a]. *)
Definition words (m : gmap Z Z) (a : Z) (n : nat) : list Z :=
  (fun i => load32 m (a + 4 * Z.of_nat i)) <$> List.seq 0 n.

Lemma words_S m a n : words m a (S n) = load32 m a :: words m (a + 4) n.
Proof.
  unfold words. cbn [List.seq fmap list_fmap]. f_equal; [f_equal; lia|].
  rewrite <- seq_shift, <- list_fmap_compose. apply list_fmap_ext. intros i x _. simpl. f_equal. lia.
Qed.

Lemma words_app m a n k : words m a (n + k) = words m a n ++ words m (a + 4 * Z.of_nat n) k.
Proof.
  revert a. induction n as [|n IH]; intros a; [simpl; f_equal; lia|].
  cbn [Nat.add]. rewrite !words_S, IH. simpl. do 3 f_equal. lia.
Qed.

Lemma words_ext m m' a n :
  (forall b, a <= b < a + 4 * Z.of_nat n -> load8 m' b = load8 m b) -> words m' a n = words m a n.
Proof.
  intros H. unfold words. apply list_fmap_ext. intros i x Hx.
  apply lookup_seq in Hx as [-> Hi]. unfold load32, load16. rewrite !H by lia. done.
Qed.

(** Every occurrence of [old] becomes [new]; the word behind a replaced one is skipped,
    and the last word is never looked at. *)
Fixpoint redirect (old new : Z) (ws : list Z) : list Z :=
  match ws with
  | w :: ((x :: ws') as t) =>
      if w =? old then new :: x :: redirect old new ws' else w :: redirect old new t
  | _ => ws
  end.

Lemma redirect_cons old new w x t :
  redirect old new (w :: x :: t) =
  if w =? old then new :: x :: redirect old new t else w :: redirect old new (x :: t).
Proof. done. Qed.

Lemma redirect_none old new ws w :
  Forall (fun x => x <> old) ws -> redirect old new (ws ++ [w]) = ws ++ [w].
Proof.
  induction 1 as [|x ws Hx _ IH]; [done|]. cbn [app].
  destruct (ws ++ [w]) as [|y t] eqn:E; [by destruct ws|].
  rewrite redirect_cons. destruct (Z.eqb_spec x old); [done|]. by rewrite IH.
Qed.

Lemma redirect_hit old new pre x post :
  Forall (fun x => x <> old) pre ->
  redirect old new (pre ++ old :: x :: post) = pre ++ new :: x :: redirect old new post.
Proof.
  induction 1 as [|w pre Hw _ IH]; [simpl; by rewrite Z.eqb_refl|]. cbn [app].
  destruct (pre ++ old :: x :: post) as [|y t] eqn:E; [by destruct pre|].
  rewrite redirect_cons. destruct (Z.eqb_spec w old); [done|]. by rewrite IH.
Qed.

Lemma agrees_word m a old : is_u32 old -> agrees m a [old] [0xffffffff] = (load32 m a =? old).
Proof.
  intros Ho. simpl. rewrite andb_true_r. change 0xffffffff with (Z.ones 32).
  rewrite Z.land_ones by lia. pose proof (load32_range m a). rewrite Z.mod_small by lia. done.
Qed.

Lemma words_none m a old n :
  (forall k, 0 <= k < Z.of_nat n -> (load32 m (a + 4 * k) =? old) = false) ->
  Forall (fun x => x <> old) (words m a n).
Proof.
  intros H. apply Forall_forall. intros x Hx. apply list_elem_of_fmap in Hx as (i & -> & Hi).
  apply elem_of_seq in Hi. specialize (H (Z.of_nat i) ltac:(lia)). by apply Z.eqb_neq in H.
Qed.

Section PatchLoop.
Context (hit : Z -> M (gmap Z Z) unit) (I : gmap Z Z -> Prop) (lo : Z).

(** What a hit may do: keep [I] and write below [lo] only. *)
Context (hit_ok : forall a m, I m -> lo <= a -> exists m', hit a m = Ok (tt, m') /\ I m' /\
           (forall b, lo <= b -> load8 m' b = load8 m b)).
Context (I_store : forall m a v, I m -> lo <= a -> I (store32 m a v)).

(** No opcode but perhaps the last one, which the search leaves out, is the one looked for. *)
Lemma redirect_absent m ptr old new n : is_u32 old ->
  (forall k, 0 <= k < Z.of_nat n - 1 -> agrees m (ptr + 4 * k) [old] [0xffffffff] = false) ->
  words m ptr n = redirect old new (words m ptr n).
Proof.
  intros Ho Hs. destruct n as [|n]; [done|]. replace (S n) with (n + 1)%nat by lia. rewrite words_app.
  cbn [words List.seq fmap list_fmap]. rewrite redirect_none; [done|].
  apply words_none. intros k Hk. specialize (Hs k ltac:(lia)). by rewrite agrees_word in Hs.
Qed.

Lemma patch_loop_spec fin old new n : forall fuel ptr found m,
  is_u32 old -> is_u32 new -> lo <= ptr -> I m -> fin = ptr + 4 * Z.of_nat n ->
  (n < fuel)%nat ->
  exists r m', patch_loop fuel hit fin old new ptr found m = Ok (r, m') /\ I m' /\
    words m' ptr n = redirect old new (words m ptr n) /\
    (forall b, lo <= b -> b < ptr \/ fin <= b -> load8 m' b = load8 m b).
Proof using hit_ok I_store.
  induction n as [n IH] using lt_wf_ind. intros fuel ptr found m Ho Hn Hlo HI Hfin Hf.
  destruct fuel as [|fuel]; [lia|]. cbn [patch_loop].
  rewrite (bind_ok _ _ m m m) by done.
  destruct (find_with_mask_spec m ptr (fin - ptr) [old] [0xffffffff] eq_refl) as (r & Hr & Hs).
  change (sizeof [old]) with 4 in Hr. rewrite Hfin in Hr, Hs |- *.
  replace (ptr + 4 * Z.of_nat n - ptr) with (4 * Z.of_nat n) in * by lia.
  replace (4 * Z.of_nat n / 4 - Z.of_nat (length [old])) with (Z.of_nat n - 1) in Hs
    by (cbn [length]; zlia).
  rewrite (bind_ok _ _ m r m) by (unfold lift; by rewrite Hr).
  destruct r as [a|].
  - destruct Hs as (j & -> & Hj & Ha & Hno). rewrite agrees_word in Ha by done. apply Z.eqb_eq in Ha.
    assert (Hpre : Forall (fun x => x <> old) (words m ptr (Z.to_nat j))).
    { apply words_none. intros k Hk. specialize (Hno k ltac:(lia)).
      by rewrite agrees_word in Hno. }
    set (i := Z.to_nat j) in *. assert (Hij : j = Z.of_nat i) by lia. clearbody i. subst j.
    destruct (hit_ok (ptr + 4 * Z.of_nat i) m HI ltac:(lia)) as (m1 & H1 & HI1 & Hf1).
    rewrite (bind_ok _ _ _ _ _ H1). rewrite (bind_ok _ _ m1 tt (store32 m1 (ptr + 4 * Z.of_nat i) new)) by done.
    set (a := ptr + 4 * Z.of_nat i) in *. set (m2 := store32 m1 a new).
    assert (Hn2 : (n = i + S (S (n - i - 2)))%nat) by lia.
    destruct (IH (n - i - 2)%nat ltac:(lia) fuel (a + 8) 1 m2) as (r & m' & Hp & HI' & Hw & Hfr);
      try done; try lia.
    { by apply I_store; [|lia]. }
    rewrite Hfin in Hp, Hfr.
    exists r, m'. split; [exact Hp|]. split; [done|]. split.
    + rewrite Hn2, (words_app m'), (words_app m). cbn [Nat.add].
      rewrite !words_S. fold a. rewrite Ha, redirect_hit by done.
      replace (a + 4 + 4) with (a + 8) by lia. f_equal; [|f_equal; [|f_equal]].
      * apply words_ext. intros b Hb. rewrite Hfr by lia. unfold m2.
        rewrite load8_store32_ne by lia. apply Hf1. lia.
      * transitivity (load32 m2 a); [|unfold m2; rewrite load32_store32_eq; by apply u32_id].
        unfold load32, load16. rewrite !Hfr by lia. done.
      * transitivity (load32 m2 (a + 4)).
        -- unfold load32, load16. rewrite !Hfr by lia. done.
        -- unfold m2. rewrite load32_store32_ne by lia.
           unfold load32, load16. rewrite !Hf1 by lia. done.
      * rewrite Hw. f_equal. apply words_ext. intros b Hb. unfold m2.
        rewrite load8_store32_ne by lia. apply Hf1. lia.
    + intros b Hb1 Hb2. rewrite Hfr by lia. unfold m2. rewrite load8_store32_ne by lia. by apply Hf1.
  - exists found, m. split; [done|]. split; [done|]. split; [by apply redirect_absent|done].
Qed.
End PatchLoop.

(** ** patch_padRead and patch_loadModule *)

Lemma jal_word_u32 f : 0 <= f -> is_u32 (jal_word f).
Proof.
  intros Hf. unfold jal_word. rewrite land_shiftr2 by done.
  change 0x0c000000 with (3 * 2 ^ 26). rewrite lor_op by zlia. zlia.
Qed.

(** The entry behind the last usable one is free, so that a scan of the hook table ends. *)
Definition autohook_inv (m : gmap Z Z) : Prop := load32 m (HOOKS_BASE + 8 * MAX_HOOKS) = 0.

Lemma autohook_scan_ok m a fuel i :
  autohook_inv m -> 0 <= i <= MAX_HOOKS -> MAX_HOOKS - i <= Z.of_nat fuel ->
  exists r, autohook_scan fuel m a i = Ok r /\
    match r with inr k => i <= k <= MAX_HOOKS /\ load32 m (HOOKS_BASE + 8 * k) = 0 | inl _ => True end.
Proof.
  intros HI. revert i. induction fuel as [|fuel IH]; intros i Hi Hf; cbn [autohook_scan].
  - replace i with MAX_HOOKS by lia. rewrite HI. simpl. eexists. split; [done|]. done.
  - destruct (Z.eqb_spec (load32 m (HOOKS_BASE + 8 * i)) 0) as [E|E].
    + eexists. split; [done|]. simpl. split; [lia|done].
    + destruct (_ =? a); [by eexists|].
      assert (Hne : i <> MAX_HOOKS) by (intros ->; done).
      destruct (IH (i + 1)) as (r & -> & Hr); [lia|lia|]. exists r. split; [done|].
      destruct r; [done|]. split; [lia|]. apply Hr.
Qed.

Lemma add_autohook_ok a op m :
  autohook_inv m ->
  exists r m', add_autohook a op m = Ok (r, m') /\ autohook_inv m' /\
    (forall b, ~ (HOOKS_BASE <= b < HOOKS_BASE + 8 * MAX_HOOKS) -> load8 m' b = load8 m b).
Proof.
  intros HI. unfold add_autohook.
  destruct (autohook_scan_ok m a (Z.to_nat MAX_HOOKS) 0 HI) as (r & -> & Hr);
    [unfold MAX_HOOKS; lia|unfold MAX_HOOKS; lia|]. simpl.
  destruct r as [[]|i]; [by eexists _, _|].
  destruct (Z.leb_spec MAX_HOOKS i) as [Hi|Hi]; [by eexists _, _|].
  eexists _, _. split; [done|]. unfold autohook_inv, MAX_HOOKS, HOOKS_BASE in *. split.
  - rewrite !load32_store32_ne by lia. done.
  - intros b Hb. rewrite !load8_store32_ne by lia. done.
Qed.

Lemma padread_hit_ok a m :
  autohook_inv m -> START <= a ->
  exists m', (let* m := get in add_autohook a (load32 m a);; ret tt) m = Ok (tt, m') /\
    autohook_inv m' /\ (forall b, START <= b -> load8 m' b = load8 m b).
Proof.
  intros HI Ha. rewrite (bind_ok _ _ m m m) by done.
  destruct (add_autohook_ok a (load32 m a) m HI) as (r & m' & Hm & HI' & Hf).
  exists m'. rewrite (bind_ok _ _ _ _ _ Hm). split; [done|]. split; [done|].
  intros b Hb. apply Hf. unfold START, HOOKS_BASE, MAX_HOOKS in *. lia.
Qed.

Lemma autohook_inv_store m a v : autohook_inv m -> START <= a -> autohook_inv (store32 m a v).
Proof.
  unfold autohook_inv, START, HOOKS_BASE, MAX_HOOKS. intros HI Ha.
  rewrite load32_store32_ne by lia. done.
Qed.

Lemma find_any_ok m buf bufsize pats :
  forallb pattern_wf pats = true ->
  exists r, find_any m buf bufsize pats = Ok r /\
    match r with Some (a, _) => buf <= a /\ 0 < bufsize | None => True end.
Proof.
  induction pats as [|p pats IH]; cbn [forallb find_any]; [by eexists|].
  rewrite andb_true_iff. intros [Hp Hps]. unfold pattern_wf in Hp.
  rewrite !andb_true_iff, Nat.eqb_eq, Z.eqb_eq in Hp. destruct Hp as ((Hl & Hz) & _).
  unfold find_pattern. rewrite Hz.
  destruct (find_with_mask_spec m buf bufsize (p_seq p) (p_mask p) Hl) as (r & -> & Hr).
  destruct r as [a|]; simpl; [|by apply IH].
  destruct Hr as (j & -> & Hj & _). eexists. split; [done|]. simpl. zlia.
Qed.


(** A small program that contains the function and two calls of it. *)
Definition sample_prog : gmap Z Z :=
  let m := store32 sample_code 0x00100048 (jal_word 0x00100008) in
  store32 m 0x00100054 (jal_word 0x00100008).


(** [patch_loadModule] redirects every call of [_sceSifLoadModule] the same way, and
    changes nothing outside the searched range. *)
Theorem patch_loadModule_redirects start n hook p m :
  0 <= start -> is_u32 hook ->
  let fin := start + 4 * Z.of_nat n in
  match find_any m start (fin - start) _loadmodule_patterns with
  | Ok (Some (ptr, _)) =>
      exists m', patch_loadModule_in start fin hook p m = Ok ((1, Some ptr), m') /\
        words m' start n = redirect (jal_word ptr) (jal_word hook) (words m start n) /\
        (forall b, 0 <= b -> b < start \/ fin <= b -> load8 m' b = load8 m b)
  | Ok None => patch_loadModule_in start fin hook p m = Ok ((0, p), m)
  | Err _ => False
  end.
Proof.
  intros Hs H1 fin. unfold patch_loadModule_in. rewrite (bind_ok _ _ m m m) by done.
  destruct (find_any_ok m start (fin - start) _loadmodule_patterns) as (r & Hr & Hb);
    [vm_compute; reflexivity|].
  rewrite Hr. rewrite (bind_ok _ _ m r m) by done.
  destruct r as [[ptr t]|]; [|done]. destruct Hb as [Hptr Hsz].
  destruct (patch_loop_spec (fun _ => ret tt) (fun _ => True) 0 ltac:(by eauto) ltac:(done) fin
    (jal_word ptr) (jal_word hook) n (Z.to_nat (fin - start)) start 0 m)
    as (r & m' & Hp & _ & Hw & Hf); try done; try (apply jal_word_u32; apply H1 || lia); [lia|].
  exists m'. rewrite (bind_ok _ _ _ _ _ Hp). done.
Qed.

Definition sample_loader : gmap Z Z :=
  fst (fold_left (fun '(m, a) w => (store32 m a w, a + 4)) 
    (loadModulepattern0 ++ [0; jal_word 0x00200000; 0; 0]) (∅, 0x00200000)).

Lemma patch_loadModule_redirects_witness :
  exists m', patch_loadModule_in 0x00200000 (0x00200000 + 4 * Z.of_nat 20) 0x00080300 None
      sample_loader = Ok ((1, Some 0x00200000), m') /\
    words m' 0x00200000 20 =
      redirect (jal_word 0x00200000) (jal_word 0x00080300) (words sample_loader 0x00200000 20) /\
    (forall b, 0 <= b -> b < 0x00200000 \/ 0x00200000 + 4 * Z.of_nat 20 <= b ->
       load8 m' b = load8 sample_loader b).
Proof.
  pose proof (patch_loadModule_redirects 0x00200000 20 0x00080300 None sample_loader) as H.
  cbv zeta in H.
  assert (E : find_any sample_loader 0x00200000 (0x00200000 + 4 * Z.of_nat 20 - 0x00200000)
    _loadmodule_patterns = Ok (Some (0x00200000, 0))) by (vm_compute; reflexivity).
  rewrite E in H. apply H; vm_compute; try split; congruence.
Defined.
