(* ===== verification/RamFile.v ===== *)
(** * IOP modules in kernel RAM (ee/loader/irxman.c, ee/debugger/debugger.c)

    The loader copies its IOP modules behind a table of hashes in kernel RAM; the debugger
    finds them there by hash when it reboots the IOP. *)

From S2P Require Import Prelude CString.
Local Open Scope ps2rd_scope.

Definition IRX_ADDR : Z := 0x80030000.
Definition IRX_NUM : nat := 6.

(** ** The loader's side: irxman.c *)

Fixpoint strhash_from (p : cstring) (h : Z) : Z :=
  match p with
  | [] => h
  | c :: p' =>
      let h := u32 (Z.shiftl h 4 + c) in
      let g := Z.land h 0xf0000000 in
      let h := if g =? 0 then h else Z.lxor h (Z.shiftr g 24) in
      strhash_from p' (Z.land h (u32 (Z.lnot g)))
  end.
Definition strhash (name : cstring) : Z := strhash_from name 0.

(** A table entry; [r_image] is the memory [r_addr] points at when the table is built. *)
Record ramfile_t : Type := RamFile {
  r_hash : Z;
  r_addr : Z;
  r_size : Z;
  r_image : list Z;
}.

Definition ramfile_set (name : option cstring) (addr : Z) (image : list Z) : ramfile_t :=
  RamFile (match name with Some n => strhash n | None => 0 end) addr
    (Z.of_nat (length image)) image.

(** [while (file_ptr->hash)]: copy the images one behind the other and let the entries
    point at the copies. *)
Fixpoint copy_modules (files : list ramfile_t) (addr : Z) (m : gmap Z Z) :
    list ramfile_t * gmap Z Z :=
  match files with
  | [] => ([], m)
  | f :: files' =>
      if r_hash f =? 0 then (files, m)
      else
        let '(fs, m') := copy_modules files' (addr + r_size f) (store_bytes m addr (r_image f)) in
        (RamFile (r_hash f) addr (r_size f) (r_image f) :: fs, m')
  end.

(** [memcpy(ktab, file_tab, sizeof(file_tab))] *)
Fixpoint store_table (m : gmap Z Z) (a : Z) (files : list ramfile_t) : gmap Z Z :=
  match files with
  | [] => m
  | f :: files' =>
      store_table (store32 (store32 (store32 m a (r_hash f)) (a + 4) (r_addr f)) (a + 8) (r_size f))
        (a + 12) files'
  end.

(** [images] are the statically linked modules: ps2ip, ps2smap, ps2dev9, debugger, memdisk,
    eesync; [srcs] their addresses. *)
Definition module_names : list cstring :=
  [str "ps2ip"; str "ps2smap"; str "ps2dev9"; str "debugger"; str "memdisk"; str "eesync"].

Definition file_table (srcs : list Z) (images : list (list Z)) : list ramfile_t :=
  zip_with (fun n '(s, i) => ramfile_set (Some n) s i) module_names (zip srcs images) ++
  [ramfile_set None 0 []].

Definition install_modules (srcs : list Z) (images : list (list Z)) (m : gmap Z Z) : gmap Z Z :=
  let file_tab := file_table srcs images in
  let ktab := IRX_ADDR in
  let addr := IRX_ADDR + 12 * Z.of_nat (S IRX_NUM) in
  let '(file_tab, m) := copy_modules file_tab addr m in
  store_table m ktab file_tab.

(** ** The debugger's side: debugger.c *)

Definition HASH_PS2DEV9 : Z := 0x0768ace9.
Definition HASH_PS2IP : Z := 0x00776900.
Definition HASH_PS2SMAP : Z := 0x0769a3f0.
Definition HASH_DEBUGGER : Z := 0x0b9bdb62.
Definition HASH_MEMDISK : Z := 0x03c3b0eb.
Definition HASH_EESYNC : Z := 0x06bcb043.

Fixpoint hash_loop (fuel : nat) (m : gmap Z Z) (irx_ptr hash : Z) : res (Z * Z) :=
  let h := load32 m irx_ptr in
  if h =? 0 then Ok (0, 0)
  else if h =? hash then Ok (load32 m (irx_ptr + 4), load32 m (irx_ptr + 8))
  else match fuel with
       | O => Err OutOfFuel
       | S fuel' => hash_loop fuel' m (irx_ptr + 12) hash
       end.

(** The address (0 for NULL) and the size. *)
Definition get_module_by_hash (m : gmap Z Z) (hash : Z) : res (Z * Z) :=
  let? '(addr, size) := hash_loop IRX_NUM m IRX_ADDR hash in
  if size =? 0 then Ok (0, 0) else Ok (addr, size).

Definition BUFSIZE : Z := 80 * 1024.

(** The bytes copied to the buffer, [None] when the module is not found.  [cap] is the size
    of the buffer. *)
Definition get_module_from_kernel (m : gmap Z Z) (hash cap : Z) : res (option (list Z)) :=
  let? '(addr, size) := get_module_by_hash m hash in
  if addr =? 0 then Ok None
  else if cap <? size then Err OutOfBounds
  else Ok (Some (load_bytes m addr (Z.to_nat size))).

(** [exec] is [SifExecModuleBuffer]. *)
Definition load_module_from_kernel (exec : list Z -> list Z -> Z) (m : gmap Z Z) (hash : Z)
    (args : list Z) : res Z :=
  let? r := get_module_from_kernel m hash BUFSIZE in
  match r with
  | None => Ok (-1)
  | Some image => Ok (exec image args)
  end.

(** ** The table found is the table written *)

(** A terminated table at [a]. *)
Fixpoint table_at (m : gmap Z Z) (a : Z) (files : list ramfile_t) : Prop :=
  match files with
  | [] => True
  | f :: files' =>
      load32 m a = r_hash f /\ load32 m (a + 4) = r_addr f /\ load32 m (a + 8) = r_size f /\
      table_at m (a + 12) files'
  end.

Definition file_u32 (f : ramfile_t) : Prop :=
  is_u32 (r_hash f) /\ is_u32 (r_addr f) /\ is_u32 (r_size f).

Lemma load32_store_table_low m a files b :
  b + 4 <= a -> load32 (store_table m a files) b = load32 m b.
Proof.
  revert m a. induction files as [|f files IH]; intros m a Hb; [done|].
  cbn [store_table]. rewrite IH by lia. rewrite !load32_store32_ne by lia. done.
Qed.

Lemma load8_store_table m a files b :
  a + 12 * Z.of_nat (length files) <= b -> load8 (store_table m a files) b = load8 m b.
Proof.
  revert m a. induction files as [|f files IH]; intros m a Hb; [done|].
  cbn [store_table length] in *. rewrite IH by lia. rewrite !load8_store32_ne by lia. done.
Qed.

Lemma store_table_at m a files : Forall file_u32 files -> table_at (store_table m a files) a files.
Proof.
  intros H. revert m a. induction H as [|f files (H1 & H2 & H3) _ IH]; intros m a; [done|].
  cbn [store_table table_at]. rewrite !load32_store_table_low by lia.
  rewrite load32_store32_ne, load32_store32_ne, load32_store32_eq by lia.
  rewrite load32_store32_ne, load32_store32_eq by lia. rewrite load32_store32_eq.
  rewrite !u32_id by done. done.
Qed.

(** The entries of the table after the copy. *)
Fixpoint placed (files : list ramfile_t) (addr : Z) : list ramfile_t :=
  match files with
  | [] => []
  | f :: files' =>
      RamFile (r_hash f) addr (r_size f) (r_image f) :: placed files' (addr + r_size f)
  end.

Definition sized (f : ramfile_t) : Prop :=
  r_hash f <> 0 /\ r_size f = Z.of_nat (length (r_image f)) /\ Forall is_u8 (r_image f).

Lemma copy_modules_spec files addr m rest :
  Forall sized files -> Forall (fun f => r_hash f = 0) rest -> rest <> [] ->
  exists m', copy_modules (files ++ rest) addr m = (placed files addr ++ rest, m') /\
    (forall b, b < addr -> load8 m' b = load8 m b) /\
    Forall (fun f => load_bytes m' (r_addr f) (Z.to_nat (r_size f)) = r_image f /\
                     addr <= r_addr f)
      (placed files addr).
Proof.
  intros Hf Hr Hne. revert addr m. induction Hf as [|f files (Hh & Hs & Hi) _ IH]; intros addr m.
  - exists m. split; [|done]. destruct rest as [|r rest]; [done|]. cbn [app copy_modules].
    apply Forall_cons in Hr as [-> _]. done.
  - cbn [app copy_modules placed]. apply Z.eqb_neq in Hh. rewrite Hh.
    destruct (IH (addr + r_size f) (store_bytes m addr (r_image f))) as (m' & Hc & Hlow & Hp).
    rewrite Hc. exists m'. split; [done|]. split.
    + intros b Hb. rewrite Hlow by lia. apply load8_store_bytes_ne. lia.
    + constructor.
      * simpl. split; [|lia]. rewrite Hs, Nat2Z.id.
        rewrite <- (load_store_bytes m addr (r_image f)) at 2 by done.
        apply load_bytes_ext. intros b Hb. apply Hlow. lia.
      * eapply Forall_impl; [exact Hp|]. intros g [Hg1 Hg2]. split; [done|lia].
Qed.

Lemma hash_loop_spec m a files term fuel h :
  table_at m a (files ++ [term]) -> r_hash term = 0 -> Forall (fun f => r_hash f <> 0) files ->
  (length files <= fuel)%nat ->
  hash_loop fuel m a h =
  Ok (match list_find (fun f => r_hash f = h) files with
      | Some (_, f) => (r_addr f, r_size f)
      | None => (0, 0)
      end).
Proof.
  intros Ht Hz Hf. revert a fuel Ht. induction Hf as [|f files Hh _ IH]; intros a fuel Ht Hl.
  - destruct Ht as (E & _). destruct fuel; cbn [hash_loop]; rewrite E, Hz; done.
  - cbn [app table_at] in Ht. destruct Ht as (E1 & E2 & E3 & Ht).
    destruct fuel as [|fuel]; simpl in Hl; [lia|].
    cbn [hash_loop list_find]. rewrite E1, E2, E3. apply Z.eqb_neq in Hh. rewrite Hh.
    destruct (Z.eqb_spec (r_hash f) h) as [->|Hne].
    + by rewrite decide_True.
    + rewrite decide_False by done. rewrite (IH (a + 12) fuel) by (done || lia).
      destruct (list_find _ files) as [[i g]|]; done.
Qed.

Definition module_hashes : list Z :=
  [HASH_PS2IP; HASH_PS2SMAP; HASH_PS2DEV9; HASH_DEBUGGER; HASH_MEMDISK; HASH_EESYNC].

(** The constants of the debugger are the hashes of the loader's names. *)
Lemma module_hashes_ok : strhash <$> module_names = module_hashes.
Proof. vm_compute. reflexivity. Qed.

Lemma placed_u32 files addr :
  Forall (fun f => is_u32 (r_hash f) /\ 0 <= r_size f) files -> 0 <= addr ->
  addr + foldr (fun f s => r_size f + s) 0 files < 2 ^ 32 -> Forall file_u32 (placed files addr).
Proof.
  intros H. revert addr. induction H as [|f files [Hh Hs] Hf IH]; intros addr Ha Ht; [constructor|].
  cbn [foldr placed] in *.
  assert (0 <= foldr (fun f s => r_size f + s) 0 files).
  { clear -Hf. induction Hf as [|g gs [_ Hg] _ IH]; simpl; lia. }
  constructor; [|apply IH; lia]. unfold file_u32, is_u32. simpl. unfold is_u32 in Hh. lia.
Qed.

Lemma list_find_placed files addr h i f :
  files !! i = Some f -> r_hash f = h -> NoDup (r_hash <$> files) ->
  exists g, list_find (fun f => r_hash f = h) (placed files addr) = Some (i, g) /\
    g ∈ placed files addr /\ r_image g = r_image f /\ r_size g = r_size f.
Proof.
  revert i addr. induction files as [|f0 files IH]; intros i addr Hi Hh Hn; [done|].
  apply NoDup_cons in Hn as [Hn0 Hn]. cbn [placed list_find]. destruct i as [|i]; simpl in Hi.
  - simplify_eq. rewrite decide_True by done. eexists. split; [done|]. split; [by left|]. done.
  - assert (Hne : r_hash f0 <> h).
    { intros E. apply Hn0. rewrite E, <- Hh. apply list_elem_of_fmap_2.
      by eapply list_elem_of_lookup_2. }
    cbn [r_hash]. rewrite decide_False by done.
    destruct (IH i (addr + r_size f0) Hi Hh Hn) as (g & -> & Hg & He & Hz).
    exists g. split; [done|]. split; [by right|]. done.
Qed.

(** A table of files found again after it was installed. *)
Lemma install_find files m :
  let fs := files ++ [ramfile_set None 0 []] in
  let addr := IRX_ADDR + 12 * Z.of_nat (S IRX_NUM) in
  length files = IRX_NUM -> Forall sized files -> Forall (fun f => is_u32 (r_hash f)) files ->
  NoDup (r_hash <$> files) ->
  addr + foldr (fun f s => r_size f + s) 0 files < 2 ^ 32 ->
  forall i f, files !! i = Some f -> 0 < r_size f <= BUFSIZE ->
  get_module_from_kernel
    (let '(file_tab, m) := copy_modules fs addr m in store_table m IRX_ADDR file_tab)
    (r_hash f) BUFSIZE = Ok (Some (r_image f)).
Proof.
  intros fs addr Hlen Hsz Hh Hnd Htot i f Hi Hf.
  destruct (copy_modules_spec files addr m [ramfile_set None 0 []] Hsz) as (m1 & Hc & _ & Hp);
    [by repeat constructor|done|]. unfold fs. rewrite Hc.
  set (m2 := store_table m1 IRX_ADDR _).
  assert (Hpl : length (placed files addr) = IRX_NUM).
  { rewrite <- Hlen. clear. generalize addr. induction files; intros a0; simpl; [done|]. by rewrite IHfiles. }
  assert (Hu : Forall file_u32 (placed files addr ++ [ramfile_set None 0 []])).
  { apply Forall_app. split; [|repeat constructor; vm_compute; congruence].
    apply placed_u32; [|unfold addr, IRX_ADDR; lia|done].
    apply Forall_and. split; [done|]. eapply Forall_impl; [exact Hsz|]. intros g (_ & -> & _). lia. }
  pose proof (store_table_at m1 IRX_ADDR _ Hu) as Htab. fold m2 in Htab.
  assert (Hnz : Forall (fun f => r_hash f <> 0) (placed files addr)).
  { clear -Hsz. generalize addr. induction Hsz as [|g gs (Hg & _) _ IH]; intros a0; simpl; constructor;
      [done|apply IH]. }
  destruct (list_find_placed files addr (r_hash f) i f Hi eq_refl Hnd) as (g & Hfind & Hg & Hgi & Hgs).
  unfold get_module_from_kernel, get_module_by_hash.
  rewrite (hash_loop_spec m2 IRX_ADDR _ _ IRX_NUM (r_hash f) Htab) by (done || lia).
  rewrite Hfind. cbn [rbind]. rewrite Hgs.
  destruct (Z.eqb_spec (r_size f) 0); [lia|]. cbn [rbind].
  rewrite Forall_forall in Hp. destruct (Hp g Hg) as [Hload Hga].
  destruct (Z.eqb_spec (r_addr g) 0); [unfold addr, IRX_ADDR in Hga; lia|].
  destruct (Z.ltb_spec BUFSIZE (r_size f)); [lia|].
  rewrite <- Hgi, <- Hload, Hgs. do 2 f_equal. apply load_bytes_ext. intros b Hb.
  apply load8_store_table. rewrite length_app, Hpl. cbn [length]. unfold addr in Hga. lia.
Qed.

(** The entries the loader makes of names, addresses and images. *)
Definition entries_of (names : list cstring) (srcs : list Z) (images : list (list Z)) :
    list ramfile_t :=
  zip_with (fun n '(s, i) => ramfile_set (Some n) s i) names (zip srcs images).

Lemma entries_of_spec names srcs images :
  length srcs = length names -> length images = length names ->
  Forall (fun n => strhash n <> 0) names ->
  Forall (fun i => 0 < Z.of_nat (length i) <= BUFSIZE /\ Forall is_u8 i) images ->
  r_hash <$> entries_of names srcs images = strhash <$> names /\
  Forall sized (entries_of names srcs images) /\
  r_image <$> entries_of names srcs images = images /\
  Forall (fun f => r_size f = Z.of_nat (length (r_image f))) (entries_of names srcs images) /\
  foldr (fun f s => r_size f + s) 0 (entries_of names srcs images)
    <= BUFSIZE * Z.of_nat (length names).
Proof.
  revert srcs images. induction names as [|n names IH]; intros [|s srcs] [|i images] Hl1 Hl2 Hh Hi;
    try done.
  apply Forall_cons in Hh as [Hh0 Hh]. apply Forall_cons in Hi as [[Hi0 Hi1] Hi].
  destruct (IH srcs images) as (E1 & E2 & E3 & E4 & E5); [simpl in *; lia|simpl in *; lia|done|done|].
  unfold entries_of in *. cbn [zip_with fmap list_fmap foldr length]. cbn [ramfile_set r_hash r_image r_size].
  unfold zip in *. rewrite E1, E3. split; [done|]. split; [by constructor|]. split; [done|].
  split; [by constructor|]. lia.
Qed.

Lemma module_installed srcs images m i h im :
  length srcs = IRX_NUM -> length images = IRX_NUM ->
  Forall (fun i => 0 < Z.of_nat (length i) <= BUFSIZE /\ Forall is_u8 i) images ->
  module_hashes !! i = Some h -> images !! i = Some im ->
  get_module_from_kernel (install_modules srcs images m) h BUFSIZE = Ok (Some im).
Proof.
  intros Hs Hl Hi Hh Him.
  assert (Hb : Forall (fun h => h <> 0 /\ is_u32 h) module_hashes)
    by (repeat constructor; vm_compute; congruence).
  rewrite <- module_hashes_ok in Hb, Hh.
  destruct (entries_of_spec module_names srcs images) as (E1 & E2 & E3 & E4 & E5); try done.
  { rewrite Forall_fmap in Hb. eapply Forall_impl; [exact Hb|]. by intros ? []. }
  rewrite <- E1 in Hh. apply list_lookup_fmap_Some in Hh as (f & -> & Hf).
  assert (Hfi : r_image f = im).
  { assert (Him' : (r_image <$> entries_of module_names srcs images) !! i = Some im) by (by rewrite E3).
    rewrite list_lookup_fmap, Hf in Him'. by simplify_eq/=. }
  rewrite <- Hfi. apply (install_find (entries_of module_names srcs images)) with (i := i); try done.
  - rewrite <- (length_fmap r_hash), E1. done.
  - rewrite <- E1, Forall_fmap in Hb. eapply Forall_impl; [exact Hb|]. by intros ? [].
  - rewrite E1, module_hashes_ok. apply (bool_decide_eq_true (NoDup module_hashes)).
    vm_compute. reflexivity.
  - change (length module_names) with 6%nat in E5. unfold IRX_ADDR, IRX_NUM, BUFSIZE in *. lia.
  - rewrite Forall_forall in E4. rewrite (E4 f (list_elem_of_lookup_2 _ _ _ Hf)).
    rewrite Forall_forall in Hi. rewrite Hfi. apply (Hi im). by eapply list_elem_of_lookup_2.
Qed.

(** C27: the debugger finds every module the loader installed.  For any six module images
    that fit the debugger's buffer, [install_modules] followed by
    [get_module_from_kernel] with each of the debugger's hash constants yields exactly the
    bytes of the module the loader linked under the corresponding name. *)
Theorem modules_found srcs images m :
  length srcs = IRX_NUM -> length images = IRX_NUM ->
  Forall (fun i => 0 < Z.of_nat (length i) <= BUFSIZE /\ Forall is_u8 i) images ->
  Forall2 (fun h i => get_module_from_kernel (install_modules srcs images m) h BUFSIZE = Ok (Some i))
    module_hashes images.
Proof.
  intros Hs Hl Hi. apply Forall2_same_length_lookup. split; [by rewrite Hl|]. intros i h im. by apply module_installed.
Qed.

Lemma modules_found_witness :
  let images := [[1]; [2; 3]; [4]; [5]; [6]; [0x7f; 0x45; 0x4c; 0x46]] in
  Forall2 (fun h i => get_module_from_kernel (install_modules [1; 2; 3; 4; 5; 6] images ∅) h BUFSIZE
                      = Ok (Some i)) module_hashes images.
Proof.
  intros images. apply (modules_found [1; 2; 3; 4; 5; 6] images ∅).
  - reflexivity.
  - reflexivity.
  - repeat constructor; vm_compute; congruence.
Defined.
