(* ===== verification/Bytes.v ===== *)
(** * Byte buffers

    Little-endian integers in byte arrays, and [memcpy] into one: what the RPC link, the
    network packets and the IOP reset images share. *)

From S2P Require Import Prelude.
Local Open Scope ps2rd_scope.

(** Little-endian bytes of an integer. *)
Definition le16 (x : Z) : list Z := [u8 x; u8 (x / 2 ^ 8)].
Definition le32 (x : Z) : list Z := le16 x ++ le16 (x / 2 ^ 16).

(** [memcpy] into a byte array at an offset. *)
Definition splice (l : list Z) (off : nat) (bs : list Z) : list Z :=
  take off l ++ bs ++ drop (off + length bs) l.

(** Reads of single bytes and of [u16]s in a buffer. *)
Definition byte_at (b : list Z) (i : nat) : Z := nth i b 0.
Definition u16_at (b : list Z) (i : nat) : Z := byte_at b i + 2 ^ 8 * byte_at b (i + 1).
Definition u32_at (b : list Z) (i : nat) : Z := u16_at b i + 2 ^ 16 * u16_at b (i + 2).

(** ** Copies *)

Lemma length_splice l off bs : (off + length bs <= length l)%nat -> length (splice l off bs) = length l.
Proof. intros H. unfold splice. rewrite !length_app, length_take, length_drop. lia. Qed.

Lemma take_splice l off bs : (off <= length l)%nat -> take off (splice l off bs) = take off l.
Proof. intros H. unfold splice. apply take_app_length'. rewrite length_take. lia. Qed.

Lemma splice_0 l bs : splice l 0 bs = bs ++ drop (length bs) l.
Proof. done. Qed.

(** Appending behind a written prefix. *)
Lemma splice_app l xs bs :
  splice (xs ++ drop (length xs) l) (length xs) bs = (xs ++ bs) ++ drop (length (xs ++ bs)) l.
Proof.
  unfold splice. rewrite take_app_length, length_app, <- app_assoc. f_equal. f_equal.
  rewrite drop_app_ge by lia. rewrite drop_drop. f_equal. lia.
Qed.

Lemma lookup_splice l off bs i :
  (off + length bs <= length l)%nat ->
  splice l off bs !! i =
  if decide (off <= i < off + length bs)%nat then bs !! (i - off)%nat else l !! i.
Proof.
  intros H. unfold splice. assert (Ht : length (take off l) = off) by (rewrite length_take; lia).
  destruct (decide (off <= i < off + length bs)%nat) as [Hi|Hi].
  - rewrite lookup_app_r by lia. rewrite Ht, lookup_app_l by lia. done.
  - destruct (decide (i < off)%nat).
    + rewrite lookup_app_l by lia. by apply lookup_take_lt.
    + rewrite lookup_app_r, lookup_app_r by lia. rewrite Ht, lookup_drop. f_equal. lia.
Qed.

(** A copy within the first [n] bytes. *)
Lemma take_splice_ge l off bs n :
  (off + length bs <= n)%nat -> (n <= length l)%nat ->
  take n (splice l off bs) = splice (take n l) off bs.
Proof.
  intros H Hn. unfold splice. rewrite take_app_ge by (rewrite length_take; lia).
  rewrite length_take, Nat.min_l, take_app_ge, take_take, Nat.min_l by lia.
  rewrite skipn_firstn_comm. do 3 f_equal. lia.
Qed.

(** Reading [n] bytes at [k]: two arrays that agree there. *)
Lemma window_ext (l1 l2 : list Z) k1 k2 n :
  (k1 + n <= length l1)%nat -> (k2 + n <= length l2)%nat ->
  (forall i, (i < n)%nat -> l1 !! (k1 + i)%nat = l2 !! (k2 + i)%nat) ->
  take n (drop k1 l1) = take n (drop k2 l2).
Proof.
  intros H1 H2 H. apply list_eq. intros i. destruct (decide (i < n)%nat) as [Hi|Hi].
  - rewrite !lookup_take_lt, !lookup_drop by done. by apply H.
  - rewrite !lookup_ge_None_2; [done| |]; rewrite length_take, length_drop; lia.
Qed.

(** ** Integers read back *)

Lemma le16_value x : is_u16 x -> u8 x + 2 ^ 8 * u8 (x / 2 ^ 8) = x.
Proof. intros H. zlia. Qed.

(** Reads depend on the bytes read only. *)
Lemma u16_at_app l1 l2 i : (i + 1 < length l1)%nat -> u16_at (l1 ++ l2) i = u16_at l1 i.
Proof. intros H. unfold u16_at, byte_at. by rewrite !app_nth1 by lia. Qed.

Lemma u16_at_take l n i : (i + 1 < n)%nat -> u16_at (take n l) i = u16_at l i.
Proof.
  intros H. unfold u16_at, byte_at. f_equal; [|f_equal].
  - rewrite <- (take_drop n l) at 2. destruct (decide (i < length (take n l))%nat) as [Hl|Hl].
    + by rewrite app_nth1.
    + rewrite length_take in Hl. rewrite (nth_overflow (take n l)) by (rewrite length_take; lia).
      rewrite (drop_ge l) by lia. rewrite app_nil_r, nth_overflow; [done|rewrite length_take; lia].
  - rewrite <- (take_drop n l) at 2. destruct (decide (i + 1 < length (take n l))%nat) as [Hl|Hl].
    + by rewrite app_nth1.
    + rewrite length_take in Hl. rewrite (nth_overflow (take n l)) by (rewrite length_take; lia).
      rewrite (drop_ge l) by lia. rewrite app_nil_r, nth_overflow; [done|rewrite length_take; lia].
Qed.

Lemma take_splice_le l off bs k : (k <= off <= length l)%nat -> take k (splice l off bs) = take k l.
Proof.
  intros H. unfold splice. rewrite take_app_le by (rewrite length_take; lia).
  rewrite take_take. f_equal. lia.
Qed.

Lemma read_splice l off bs : (off <= length l)%nat -> take (length bs) (drop off (splice l off bs)) = bs.
Proof.
  intros H. unfold splice. rewrite drop_app_length' by (rewrite length_take; lia).
  apply take_app_length.
Qed.

Lemma byte_at_take l i n k : (k <= i < k + n)%nat -> byte_at (take n (drop k l)) (i - k) = byte_at l i.
Proof.
  intros H. unfold byte_at. destruct (decide (i < length l)%nat) as [Hl|Hl].
  - rewrite <- (take_drop k l) at 2. rewrite app_nth2 by (rewrite length_take; lia).
    rewrite length_take, (Nat.min_l k) by lia.
    rewrite <- (take_drop n (drop k l)) at 2.
    rewrite app_nth1; [done|]. rewrite length_take, length_drop. lia.
  - rewrite !nth_overflow; [done|lia|]. rewrite length_take, length_drop. lia.
Qed.

Lemma u16_at_read l k x : is_u16 x -> take 2 (drop k l) = le16 x -> u16_at l k = x.
Proof.
  intros Hx E. unfold u16_at.
  rewrite <- (byte_at_take l k 2 k), <- (byte_at_take l (k + 1) 2 k), E by lia.
  replace (k - k)%nat with 0%nat by lia. replace (k + 1 - k)%nat with 1%nat by lia.
  exact (le16_value x Hx).
Qed.

Lemma u32_at_read l k x : is_u32 x -> take 4 (drop k l) = le32 x -> u32_at l k = x.
Proof.
  intros Hx E. unfold u32_at.
  assert (E1 : take 2 (drop k l) = le16 x).
  { assert (H : take 2 (take 4 (drop k l)) = take 2 (le32 x)) by (by rewrite E).
    rewrite take_take in H. exact H. }
  assert (E2 : take 2 (drop (k + 2) l) = le16 (x / 2 ^ 16)).
  { assert (H : drop 2 (take 4 (drop k l)) = drop 2 (le32 x)) by (by rewrite E).
    rewrite skipn_firstn_comm in H.
    rewrite drop_drop in H. exact H. }
  assert (Hlo : u16_at l k = x mod 2 ^ 16).
  { apply u16_at_read; [unfold is_u16; zlia|]. rewrite E1. unfold le16. f_equal; [zlia|]. f_equal. zlia. }
  rewrite Hlo, (u16_at_read l (k + 2) (x / 2 ^ 16)); [zlia|unfold is_u16, is_u32 in *; zlia|done].
Qed.

