(* ===== verification/Debugger.v ===== *)
(** * The EE side of the debugger: RPC client, dumps, remote commands
      (ee/debugger/debugger_rpc.c and the command part of ee/debugger/debugger.c)

    Requests of the PC come over the RPC link of the IOP and are carried out on the game's
    memory; a halted game stays in the command loop until it is resumed. *)

From S2P Require Import Prelude CString Bytes RamFile.
Local Open Scope ps2rd_scope.

(** ** The RPC client: debugger_rpc.c *)

Definition CMD_NONE : Z := 0.
Definition CMD_GETREMOTECMD : Z := 6.
Definition CMD_SENDDATA : Z := 14.
Definition CMD_ENDREPLY : Z := 15.

(** What goes over the link. *)
Inductive rpc_event : Type :=
| EvSend (packet : list Z)      (** CMD_SENDDATA with the 4096 bytes of [sendDataParam] *)
| EvEndReply
| EvGetCmd.

(** [sendDataParam] is a [u16] command, 4090 bytes and an [int] size at offset 4092;
    [getRemoteCmdParam] a [u16] command, 56 bytes, an [int] size, which the compiler aligns to
    offset 60, and padding to 68 bytes.  Both are kept with the bytes that follow them in
    memory.  [rpc_replies] are the blocks the server will answer CMD_GETREMOTECMD with; the
    flag tells whether a block arrives before [SifCallRpc] returns, which a call that does
    not wait leaves open.  [rpc_pending] is a block that arrives later. *)
Record rpc_state : Type := Rpc {
  RPCclient_Inited : bool;
  currentCmd : Z;
  sendDataParam : list Z;
  getRemoteCmdParam : list Z;
  Rpc_Buffer : Z;
  rpc_pending : option (list Z);
  rpc_replies : list (bool * list Z);
  rpc_log : list rpc_event;
}.

Definition PARAM_SIZE : nat := 4096.
Definition SIZE_OFF : nat := 4092.
Definition CMD_PARAM : nat := 68.
Definition CMD_SIZE_OFF : nat := 60.

(** [RPC_M_NORMAL]: the call returns when the server has answered. *)
Definition RPC_M_NORMAL : Z := 0.
Definition RPC_M_NOWAIT : Z := 1.

Definition set_inited (b : bool) (s : rpc_state) : rpc_state :=
  Rpc b (currentCmd s) (sendDataParam s) (getRemoteCmdParam s) (Rpc_Buffer s) (rpc_pending s)
    (rpc_replies s) (rpc_log s).
Definition set_send (p : list Z) (s : rpc_state) : rpc_state :=
  Rpc (RPCclient_Inited s) (currentCmd s) p (getRemoteCmdParam s) (Rpc_Buffer s) (rpc_pending s)
    (rpc_replies s) (rpc_log s).
Definition log (e : rpc_event) (s : rpc_state) : rpc_state :=
  Rpc (RPCclient_Inited s) (currentCmd s) (sendDataParam s) (getRemoteCmdParam s) (Rpc_Buffer s)
    (rpc_pending s) (rpc_replies s) (rpc_log s ++ [e]).
Definition done_cmd (c : Z) (s : rpc_state) : rpc_state :=
  Rpc (RPCclient_Inited s) c (sendDataParam s) (getRemoteCmdParam s) 1 (rpc_pending s)
    (rpc_replies s) (rpc_log s).

(** The answer to CMD_GETREMOTECMD: no command when the script of replies has ended. *)
Definition receive (mode : Z) (s : rpc_state) : rpc_state :=
  let '(early, blk) := default (true, replicate CMD_PARAM 0) (head (rpc_replies s)) in
  let now := (mode =? RPC_M_NORMAL) || early in
  Rpc (RPCclient_Inited s) (currentCmd s) (sendDataParam s)
    (if now then blk else getRemoteCmdParam s) (Rpc_Buffer s)
    (if now then rpc_pending s else Some blk) (tail (rpc_replies s)) (rpc_log s).

(** The end of a wait: whatever was on its way has arrived. *)
Definition finish (s : rpc_state) : rpc_state :=
  Rpc (RPCclient_Inited s) CMD_NONE (sendDataParam s)
    (default (getRemoteCmdParam s) (rpc_pending s)) (Rpc_Buffer s) None (rpc_replies s) (rpc_log s).

(** The result of [SifCallRpc] and [SifBindRpc] is that of the kernel library. *)
Section RpcClient.
Context (SifCallRpc : rpc_event -> Z).

(** [binds] are the results of the successive attempts to bind: an error code, or whether
    the server was there. *)
Fixpoint rpcNTPBinit (binds : list (Z + bool)) : M rpc_state Z := fun s =>
  if RPCclient_Inited s then Ok (-1, s)
  else match binds with
       | [] => Err Hang
       | inl e :: _ => Ok (e, s)
       | inr false :: binds' => rpcNTPBinit binds' s
       | inr true :: _ => Ok (1, set_inited true s)
       end.

Definition rpcNTPBreset : M rpc_state Z := modify (set_inited false);; ret 1.

(** The result, and what is stored through the pointers: command, data and size.  [cap] is
    the size of the caller's buffer. *)
Definition rpcNTPBgetRemoteCmd (cap mode : Z) : M rpc_state (Z * option (Z * list Z * Z)) := fun s =>
  if negb (RPCclient_Inited s) then Ok ((-1, None), s)
  else
    let s := log EvGetCmd s in
    let r := SifCallRpc EvGetCmd in
    if negb (r =? 0) then Ok ((r, None), s)
    else
      let s := receive mode s in
      let p := getRemoteCmdParam s in
      let size := s32 (u32_at p CMD_SIZE_OFF) in
      if cap <? size then Err OutOfBounds
      else Ok ((1, Some (u16_at p 0, take (Z.to_nat size) (drop 2 p), size)),
               done_cmd CMD_GETREMOTECMD s).

(** [buf] is [None] for a null pointer.  The copy of the data is not bounded by the [buf]
    member. *)
Definition rpcNTPBsendData (cmd : Z) (buf : option (list Z)) (size : nat) : M rpc_state Z := fun s =>
  if negb (RPCclient_Inited s) then Ok (-1, s)
  else if (length (sendDataParam s) <? 2 + size)%nat then Err OutOfBounds
  else
    let p := splice (sendDataParam s) 0 (le16 cmd) in
    let p := splice p 2 (match buf with Some b => take size b | None => replicate size 0 end) in
    let p := splice p SIZE_OFF (le32 (Z.of_nat size)) in
    let e := EvSend (take PARAM_SIZE p) in
    let s := log e (set_send p s) in
    let r := SifCallRpc e in
    if negb (r =? 0) then Ok (r, s) else Ok (1, done_cmd CMD_SENDDATA s).

Definition rpcNTPBEndReply : M rpc_state Z := fun s =>
  if negb (RPCclient_Inited s) then Ok (-1, s)
  else
    let s := log EvEndReply s in
    let r := SifCallRpc EvEndReply in
    if negb (r =? 0) then Ok (r, s) else Ok (1, done_cmd CMD_ENDREPLY s).

(** With mode 0 the call waits; [busy] tells whether the server still works otherwise.  The
    result, and what is stored through [cmd] and [result]. *)
Definition rpcNTPBSync (mode : Z) (busy : bool) : M rpc_state (Z * option Z * option Z) := fun s =>
  if currentCmd s =? CMD_NONE then Ok ((-1, None, None), s)
  else if negb (mode =? 0) && busy then Ok ((0, Some (currentCmd s), None), s)
  else Ok ((1, Some (currentCmd s), Some (Rpc_Buffer s)), finish s).

End RpcClient.

(** ** The debugger's globals: debugger.c *)

Record debugger_opts_t : Type := Opts {
  auto_hook : Z;
  patch_loadmodule : Z;
  unhook_iop_reset : Z;
  rpc_mode : Z;
  load_modules : Z;
  opt_ip : list Z;              (** 16 bytes each *)
  opt_netmask : list Z;
  opt_gateway : list Z;
}.

(** The memory of the EE with the globals the command loop uses. *)
Record dbg : Type := Dbg {
  d_mem : gmap Z Z;
  d_rpc : rpc_state;
  g_buf : list Z;
  g_debugger_opts : debugger_opts_t;
  haltState : Z;
  debugger_ready : Z;
}.

Definition set_d_rpc (r : rpc_state) (s : dbg) : dbg :=
  Dbg (d_mem s) r (g_buf s) (g_debugger_opts s) (haltState s) (debugger_ready s).
Definition set_g_buf (b : list Z) (s : dbg) : dbg :=
  Dbg (d_mem s) (d_rpc s) b (g_debugger_opts s) (haltState s) (debugger_ready s).
Definition set_haltState (h : Z) (s : dbg) : dbg :=
  Dbg (d_mem s) (d_rpc s) (g_buf s) (g_debugger_opts s) h (debugger_ready s).

Definition on_rpc {A} (c : M rpc_state A) : M dbg A := fun s =>
  match c (d_rpc s) with Ok (x, r) => Ok (x, set_d_rpc r s) | Err f => Err f end.

Definition NTPBCMD_SEND_DUMP : Z := 0x300.
Definition REMOTE_CMD_NONE : Z := 0.
Definition REMOTE_CMD_DUMP : Z := 0x100.
Definition REMOTE_CMD_HALT : Z := 0x201.
Definition REMOTE_CMD_RESUME : Z := 0x202.
Definition REMOTE_CMD_ADDMEMPATCHES : Z := 0x501.
Definition REMOTE_CMD_CLEARMEMPATCHES : Z := 0x502.
Definition REMOTE_CMD_ADDRAWCODES : Z := 0x601.
Definition REMOTE_CMD_CLEARRAWCODES : Z := 0x602.

Section Commands.
Context (SifCallRpc : rpc_event -> Z).

(** *** Dumps *)

(** [read_mem]: a copy with interrupts off. *)
Definition read_mem (addr size : Z) : M dbg Z := fun s =>
  if Z.of_nat (length (g_buf s)) <? size then Err OutOfBounds
  else Ok (0, set_g_buf (splice (g_buf s) 0 (load_bytes (d_mem s) addr (Z.to_nat size))) s).

(** [while (rpos < dumpSize)] *)
Fixpoint send_loop (fuel : nat) (dumpSize rpos sndSize : Z) : M dbg unit :=
  if rpos <? dumpSize then
    match fuel with
    | O => fail OutOfFuel
    | S fuel' =>
        let* b := gets g_buf in
        on_rpc (rpcNTPBsendData SifCallRpc NTPBCMD_SEND_DUMP (Some (drop (Z.to_nat rpos) b))
                  (Z.to_nat sndSize));;
        on_rpc (rpcNTPBSync 0 false);;
        let rpos := rpos + sndSize in
        let sndSize := if dumpSize - rpos <? 4096 then dumpSize - rpos else sndSize in
        send_loop fuel' dumpSize rpos sndSize
    end
  else ret tt.

(** [while (dpos < len)] *)
Fixpoint dump_loop (fuel : nat) (dump_start len dpos dumpSize : Z) : M dbg unit :=
  if dpos <? len then
    match fuel with
    | O => fail OutOfFuel
    | S fuel' =>
        read_mem (u32 (dump_start + dpos)) dumpSize;;
        let sndSize := if 4096 <? dumpSize then 4096 else dumpSize in
        send_loop (Z.to_nat dumpSize) dumpSize 0 sndSize;;
        let dpos := dpos + dumpSize in
        let dumpSize := if len - dpos <? BUFSIZE then len - dpos else dumpSize in
        dump_loop fuel' dump_start len dpos dumpSize
    end
  else ret tt.

(** The fuel is the number of bytes: every pass moves at least one. *)
Definition sendDump (dump_start dump_end : Z) : M dbg Z :=
  let len := s32 (dump_end - dump_start) in
  let dumpSize := if BUFSIZE <? len then BUFSIZE else len in
  dump_loop (Z.to_nat len) dump_start len 0 dumpSize;;
  on_rpc (rpcNTPBEndReply SifCallRpc);;
  on_rpc (rpcNTPBSync 0 false);;
  ret len.

(** *** Commands *)

(** [remote_cmd] and [cmd_buf] are local and not initialised: [junk] is what is there. *)
Context (junk : Z * list Z).

Definition end_reply : M dbg unit :=
  on_rpc (rpcNTPBEndReply SifCallRpc);; on_rpc (rpcNTPBSync 0 false);; ret tt.

(** [execRemoteCmd]; [halted] is the loop a halt request enters. *)
Definition exec_body (halted : M dbg unit) : M dbg Z :=
  let* opts := gets g_debugger_opts in
  if rpc_mode opts =? -1 then ret 0
  else
    let* '(_, out) := on_rpc (rpcNTPBgetRemoteCmd SifCallRpc 64 (rpc_mode opts)) in
    on_rpc (rpcNTPBSync 0 false);;
    let '(remote_cmd, cmd_buf) :=
      match out with
      | Some (c, data, _) => (c, splice (snd junk) 0 data)
      | None => junk
      end in
    (if remote_cmd =? REMOTE_CMD_NONE then ret tt
     else if remote_cmd =? REMOTE_CMD_DUMP then
       sendDump (u32_at cmd_buf 0) (u32_at cmd_buf 4);; ret tt
     else if remote_cmd =? REMOTE_CMD_HALT then
       end_reply;;
       let* h := gets haltState in
       if h =? 0 then modify (set_haltState 1);; halted else ret tt
     else if remote_cmd =? REMOTE_CMD_RESUME then
       end_reply;;
       let* h := gets haltState in
       if negb (h =? 0) then modify (set_haltState 0) else ret tt
     else if remote_cmd =? REMOTE_CMD_ADDMEMPATCHES then end_reply
     else if remote_cmd =? REMOTE_CMD_CLEARMEMPATCHES then end_reply
     else if remote_cmd =? REMOTE_CMD_ADDRAWCODES then end_reply
     else if remote_cmd =? REMOTE_CMD_CLEARRAWCODES then end_reply
     else ret tt);;
    ret 1.

Fixpoint execRemoteCmd (fuel : nat) : M dbg Z :=
  match fuel with
  | O => fail OutOfFuel
  | S fuel' => exec_body (halt_loop fuel')
  end
with halt_loop (fuel : nat) : M dbg unit :=
  match fuel with
  | O => fail OutOfFuel
  | S fuel' =>
      let* h := gets haltState in
      if negb (h =? 0) then execRemoteCmd fuel';; halt_loop fuel' else ret tt
  end.

Definition debugger_loop (fuel : nat) : M dbg Z :=
  let* r := gets debugger_ready in
  (if negb (r =? 0) then execRemoteCmd fuel;; ret tt else ret tt);;
  ret 0.

End Commands.

(** ** The pad hooks: padread_hooks.c *)

(** [Hook_scePadRead] and [Hook_scePad2Read]: the game's call of the pad function, [orig], and
    then the debugger. *)
Section PadHooks.
Context (SifCallRpc : rpc_event -> Z) (junk : Z * list Z) (fuel : nat).

Definition Hook_scePadRead (orig : M dbg Z) : M dbg Z :=
  let* r := orig in debugger_loop SifCallRpc junk fuel;; ret r.
Definition Hook_scePad2Read (orig : M dbg Z) : M dbg Z :=
  let* r := orig in debugger_loop SifCallRpc junk fuel;; ret r.

(** The game gets the result of its call; before the debugger is ready, nothing else happens. *)
Lemma pad_hook_transparent orig s r s1 r' s' : orig s = Ok (r, s1) ->
  Hook_scePadRead orig s = Ok (r', s') -> r' = r /\ (debugger_ready s1 = 0 -> s' = s1).
Proof.
  intros H. unfold Hook_scePadRead. rewrite (bind_ok _ _ _ _ _ H). intros (x & s3 & E & [= <- <-])%bind_inv.
  split; [done|]. intros Hr. unfold debugger_loop in E. rewrite (bind_ok _ _ _ _ _ eq_refl), Hr in E. cbn in E. by injection E.
Qed.
End PadHooks.

(** ** Properties of the RPC client *)

(** The block the RPC layer transmits for some data. *)
Definition send_block (param : list Z) (cmd : Z) (buf : list Z) : list Z :=
  take PARAM_SIZE (splice (splice (splice param 0 (le16 cmd)) 2 buf) SIZE_OFF
                     (le32 (Z.of_nat (length buf)))).

Lemma send_block_size param cmd buf after :
  (length buf <= 4096)%nat -> (4098 <= length param)%nat ->
  take 4 (drop SIZE_OFF (send_block param cmd buf ++ after)) = le32 (Z.of_nat (length buf)) /\
  length (send_block param cmd buf) = 4096%nat.
Proof.
  intros Hb Hp. unfold send_block. set (q := splice (splice param 0 (le16 cmd)) 2 buf).
  assert (Hq : length q = length param).
  { unfold q. rewrite !length_splice; try done; rewrite ?length_splice; simpl; lia. }
  set (p := splice q SIZE_OFF _).
  assert (Hlp : length p = length param).
  { unfold p. rewrite length_splice; [done|]. rewrite Hq. unfold SIZE_OFF. cbn [length le32 le16 app]. lia. }
  assert (Hl : length (take PARAM_SIZE p) = 4096%nat) by (rewrite length_take; unfold PARAM_SIZE; lia).
  split; [|done].
  rewrite drop_app_le by (rewrite Hl; unfold SIZE_OFF; lia).
  rewrite take_app_le by (rewrite length_drop, Hl; unfold SIZE_OFF; lia).
  rewrite skipn_firstn_comm, take_take.
  change (4 `min` (PARAM_SIZE - SIZE_OFF))%nat with (length (le32 (Z.of_nat (length buf)))).
  apply read_splice. rewrite Hq. unfold SIZE_OFF. lia.
Qed.

(** The part of the block before the size field is the command and the data. *)
Lemma send_block_prefix param cmd buf k :
  (k <= 4092)%nat -> (k <= 2 + length buf)%nat -> (4098 <= length param)%nat ->
  (length buf <= 4096)%nat ->
  take k (send_block param cmd buf) = take k (le16 cmd ++ buf).
Proof.
  intros Hk Hkb Hp Hb. unfold send_block, PARAM_SIZE. rewrite take_take, Nat.min_l by lia.
  set (r := splice param 0 (le16 cmd)).
  assert (Hr : length r = length param) by (apply length_splice; cbn [length le16]; lia).
  assert (E : take 2 r = le16 cmd) by exact (read_splice param 0 (le16 cmd) ltac:(lia)).
  rewrite take_splice_le.
  2:{ rewrite length_splice by lia. unfold SIZE_OFF. lia. }
  unfold splice at 1. rewrite E, (app_assoc (le16 cmd)).
  apply take_app_le. rewrite length_app. exact Hkb.
Qed.

(** The client is bound, its buffer has the room of a full chunk, nothing is on its way. *)
Record rpc_ok (r : rpc_state) : Prop := {
  ok_inited : RPCclient_Inited r = true;
  ok_room : (4098 <= length (sendDataParam r))%nat;
  ok_idle : rpc_pending r = None;
}.

(** From [r] to [r'] the calls [evs] were made. *)
Record advances (r r' : rpc_state) (evs : list rpc_event) : Prop := {
  adv_ok : rpc_ok r';
  adv_log : rpc_log r' = rpc_log r ++ evs;
  adv_replies : rpc_replies r' = rpc_replies r;
}.

Lemma advances_refl r : rpc_ok r -> advances r r [].
Proof. intros H. split; [done| |done]. by rewrite app_nil_r. Qed.

Lemma advances_trans r1 r2 r3 e1 e2 :
  advances r1 r2 e1 -> advances r2 r3 e2 -> advances r1 r3 (e1 ++ e2).
Proof.
  intros [H1 H2 H3] [H4 H5 H6]. split; [done| |congruence]. by rewrite H5, H2, app_assoc.
Qed.

(** A computation of the debugger that makes the calls [evs] and changes nothing else. *)
Definition calls {A} (c : M dbg A) (s : dbg) (x : A) (evs : list rpc_event) : Prop :=
  exists r', c s = Ok (x, set_d_rpc r' s) /\ advances (d_rpc s) r' evs.

Lemma Sync_advances r : rpc_ok r -> exists x r',
  rpcNTPBSync 0 false r = Ok (x, r') /\ advances r r' [].
Proof.
  intros [H1 H2 H3]. unfold rpcNTPBSync. destruct (currentCmd r =? CMD_NONE).
  - do 2 eexists. split; [done|]. by apply advances_refl.
  - do 2 eexists. split; [done|]. split; [split; done| |done]. by rewrite app_nil_r.
Qed.

Lemma sendData_advances call cmd b size r :
  rpc_ok r -> (size <= 4096)%nat -> (size <= length b)%nat -> exists x r',
  rpcNTPBsendData call cmd (Some b) size r = Ok (x, r') /\
  advances r r' [EvSend (send_block (sendDataParam r) cmd (take size b))].
Proof.
  intros [H1 H2 H3] Hs Hb. unfold rpcNTPBsendData. rewrite H1. cbn [negb].
  rewrite (proj2 (Nat.ltb_ge _ _)) by lia.
  assert (E : take PARAM_SIZE (splice (splice (splice (sendDataParam r) 0 (le16 cmd)) 2 (take size b))
                SIZE_OFF (le32 (Z.of_nat size))) = send_block (sendDataParam r) cmd (take size b)).
  { unfold send_block. rewrite length_take, Nat.min_l by lia. done. }
  rewrite E. set (p := splice _ SIZE_OFF _).
  assert (Hp : (4098 <= length p)%nat).
  { assert (L : length (splice (splice (sendDataParam r) 0 (le16 cmd)) 2 (take size b)) =
                length (sendDataParam r)).
    { rewrite length_splice; rewrite length_splice; rewrite ?length_take; cbn [length le16]; lia. }
    unfold p. rewrite length_splice; rewrite L; [done|]. unfold SIZE_OFF.
    cbn [length le16 le32 app]. lia. }
  destruct (negb (_ =? 0)); do 2 eexists; (split; [done|]); (split; [split; done| |done]); done.
Qed.

Lemma EndReply_advances call r : rpc_ok r -> exists x r',
  rpcNTPBEndReply call r = Ok (x, r') /\ advances r r' [EvEndReply].
Proof.
  intros [H1 H2 H3]. unfold rpcNTPBEndReply. rewrite H1. cbn [negb].
  destruct (negb (_ =? 0)); do 2 eexists; (split; [done|]); (split; [split; done| |done]); done.
Qed.

(** ** Properties of dumps *)

Lemma on_rpc_ok {A} (c : M rpc_state A) s x r' :
  c (d_rpc s) = Ok (x, r') -> on_rpc c s = Ok (x, set_d_rpc r' s).
Proof. intros H. unfold on_rpc. by rewrite H. Qed.

(** A call of the client followed by the wait for it. *)
Lemma call_sync {A B} (c : M rpc_state A) s (k : M dbg B) evs :
  (exists x r', c (d_rpc s) = Ok (x, r') /\ advances (d_rpc s) r' evs) ->
  exists r', (on_rpc c;; on_rpc (rpcNTPBSync 0 false);; k) s = k (set_d_rpc r' s) /\
    advances (d_rpc s) r' evs.
Proof.
  intros (x & r1 & H1 & A1). destruct (Sync_advances r1 (adv_ok _ _ _ A1)) as (y & r2 & H2 & A2).
  exists r2. rewrite (bind_ok _ _ _ _ _ (on_rpc_ok c s x r1 H1)).
  rewrite (bind_ok _ _ _ _ _ (on_rpc_ok _ (set_d_rpc r1 s) y r2 H2)).
  split; [done|]. pose proof (advances_trans _ _ _ _ _ A1 A2) as A3. by rewrite app_nil_r in A3.
Qed.

(** A packet that carries a chunk of a dump. *)
Definition dump_block (c : list Z) (p : list Z) : Prop :=
  exists q, (4098 <= length q)%nat /\ p = send_block q NTPBCMD_SEND_DUMP c.

Definition chunk_size (c : list Z) : Prop := 0 < Z.of_nat (length c) <= 4096.

(** Chunks that start at multiples of 4096, the first at [off]. *)
Fixpoint aligned (off : Z) (cs : list (list Z)) : Prop :=
  match cs with
  | [] => True
  | c :: cs' => off mod 4096 = 0 /\ aligned (off + Z.of_nat (length c)) cs'
  end.

(** The chunks [cs] of [data], which is what the range holds from offset [off] on, and their
    packets. *)
Definition chunked (off : Z) (data : list Z) (cs ps : list (list Z)) : Prop :=
  concat cs = data /\ Forall chunk_size cs /\ Forall2 dump_block cs ps /\ aligned off cs.

Lemma chunked_nil off : chunked off [] [] [].
Proof. by repeat split. Qed.

Lemma aligned_app c1 c2 : forall off,
  aligned off (c1 ++ c2) <-> aligned off c1 /\ aligned (off + Z.of_nat (length (concat c1))) c2.
Proof.
  induction c1 as [|c c1 IH]; intros off; cbn [app aligned concat length].
  - rewrite Z.add_0_r. naive_solver.
  - rewrite IH, length_app, Nat2Z.inj_add, Z.add_assoc. naive_solver.
Qed.

Lemma chunked_app off d1 d2 c1 c2 p1 p2 :
  chunked off d1 c1 p1 -> chunked (off + Z.of_nat (length d1)) d2 c2 p2 ->
  chunked off (d1 ++ d2) (c1 ++ c2) (p1 ++ p2).
Proof.
  intros (H1 & H2 & H3 & H7) (H4 & H5 & H6 & H8). split; [by rewrite concat_app, H1, H4|].
  split; [by apply Forall_app|]. split; [by apply Forall2_app|]. apply aligned_app. by rewrite H1.
Qed.

Lemma send_loop_spec call dumpSize fuel : forall off rpos sndSize s,
  rpc_ok (d_rpc s) -> (rpos < dumpSize -> off mod 4096 = 0) -> 0 <= rpos <= dumpSize -> dumpSize <= Z.of_nat (length (g_buf s)) ->
  (rpos < dumpSize -> sndSize = Z.min 4096 (dumpSize - rpos)) ->
  dumpSize - rpos <= Z.of_nat fuel ->
  exists cs ps, calls (send_loop call fuel dumpSize rpos sndSize) s tt (EvSend <$> ps) /\
    chunked off (take (Z.to_nat (dumpSize - rpos)) (drop (Z.to_nat rpos) (g_buf s))) cs ps.
Proof.
  induction fuel as [|fuel IH]; intros off rpos sndSize s Hok Ha Hr Hl Hs Hf; cbn [send_loop];
    destruct (Z.ltb_spec rpos dumpSize) as [Hlt|Hge]; try lia.
  1,3: exists [], []; replace (dumpSize - rpos) with 0 by lia; split; [|apply chunked_nil];
    exists (d_rpc s); split; [by destruct s|by apply advances_refl].
  specialize (Hs Hlt). specialize (Ha Hlt). unfold calls. rewrite (bind_ok _ _ s (g_buf s) s) by done.
  set (sz' := if _ <? _ then _ else _).
  set (b := drop (Z.to_nat rpos) (g_buf s)).
  destruct (call_sync (rpcNTPBsendData call NTPBCMD_SEND_DUMP (Some b) (Z.to_nat sndSize)) s
    (send_loop call fuel dumpSize (rpos + sndSize) sz')
    [EvSend (send_block (sendDataParam (d_rpc s)) NTPBCMD_SEND_DUMP (take (Z.to_nat sndSize) b))])
    as (r1 & E1 & A1).
  { apply sendData_advances; [done|lia|]. unfold b. rewrite length_drop. lia. }
  rewrite E1.
  destruct (IH (off + sndSize) (rpos + sndSize) sz' (set_d_rpc r1 s)) as (cs & ps & (r2 & E2 & A2) & Hc).
  - apply (adv_ok _ _ _ A1).
  - intros Hlt'. replace sndSize with 4096 by lia. rewrite Z.add_mod, Ha by lia. done.
  - lia.
  - done.
  - intros Hlt'. unfold sz'. destruct (Z.ltb_spec (dumpSize - (rpos + sndSize)) 4096); lia.
  - lia.
  - set (c := take (Z.to_nat sndSize) b) in *.
    exists (c :: cs), (send_block (sendDataParam (d_rpc s)) NTPBCMD_SEND_DUMP c :: ps). split.
    + exists r2. split; [exact E2|]. exact (advances_trans _ _ _ _ _ A1 A2).
    + replace (take (Z.to_nat (dumpSize - rpos)) b) with
        (c ++ take (Z.to_nat (dumpSize - (rpos + sndSize)))
                (drop (Z.to_nat (rpos + sndSize)) (g_buf s))).
      * change (c :: cs) with ([c] ++ cs).
        change (chunked off (c ++ take (Z.to_nat (dumpSize - (rpos + sndSize)))
                (drop (Z.to_nat (rpos + sndSize)) (g_buf s))) ([c] ++ cs)
                ([send_block (sendDataParam (d_rpc s)) NTPBCMD_SEND_DUMP c] ++ ps)).
        assert (Lc : Z.of_nat (length c) = sndSize).
        { unfold c. rewrite length_take. unfold b. rewrite length_drop. lia. }
        apply chunked_app; [|rewrite Lc; exact Hc]. split; [apply app_nil_r|].
        split; [repeat constructor; lia|]. split; [|by split].
        constructor; [|constructor]. exists (sendDataParam (d_rpc s)). split; [apply (ok_room _ Hok)|done].
      * unfold c, b. replace (Z.to_nat (rpos + sndSize)) with (Z.to_nat rpos + Z.to_nat sndSize)%nat by lia.
        rewrite <- drop_drop, take_take_drop. f_equal. lia.
Qed.

Lemma dump_loop_spec call start len fuel : forall dpos dumpSize s,
  rpc_ok (d_rpc s) -> Z.of_nat (length (g_buf s)) = BUFSIZE ->
  (dpos < len -> dpos mod 4096 = 0) -> 0 <= dpos <= len -> (dpos < len -> dumpSize = Z.min BUFSIZE (len - dpos)) ->
  len - dpos <= Z.of_nat fuel ->
  exists data cs ps r' b', dump_loop call fuel start len dpos dumpSize s =
      Ok (tt, set_g_buf b' (set_d_rpc r' s)) /\
    length b' = length (g_buf s) /\ advances (d_rpc s) r' (EvSend <$> ps) /\
    chunked dpos data cs ps /\
    (0 <= start -> start + len <= 2 ^ 32 ->
     data = load_bytes (d_mem s) (start + dpos) (Z.to_nat (len - dpos))).
Proof.
  induction fuel as [|fuel IH]; intros dpos dumpSize s Hok Hb Ha Hd Hs Hf; cbn [dump_loop];
    destruct (Z.ltb_spec dpos len) as [Hlt|Hge]; try lia.
  1,3: exists [], [], [], (d_rpc s), (g_buf s); replace (len - dpos) with 0 by lia;
    split; [by destruct s|]; split; [done|]; split; [by apply advances_refl|];
    split; [apply chunked_nil|done].
  specialize (Hs Hlt). specialize (Ha Hlt). assert (HB : BUFSIZE = 81920) by done.
  set (data := load_bytes (d_mem s) (u32 (start + dpos)) (Z.to_nat dumpSize)).
  assert (Ld : length data = Z.to_nat dumpSize) by apply length_load_bytes.
  set (b1 := splice (g_buf s) 0 data).
  assert (L1 : length b1 = length (g_buf s)) by (apply length_splice; lia).
  rewrite (bind_ok _ _ s 0 (set_g_buf b1 s)).
  2:{ unfold read_mem. destruct (Z.ltb_spec (Z.of_nat (length (g_buf s))) dumpSize); [lia|done]. }
  destruct (send_loop_spec call dumpSize (Z.to_nat dumpSize) dpos 0
    (if 4096 <? dumpSize then 4096 else dumpSize) (set_g_buf b1 s))
    as (cs & ps & (r1 & E1 & A1) & Hc).
  { done. } { done. } { lia. } { cbn [g_buf set_g_buf]. rewrite L1. lia. }
  { intros _. destruct (Z.ltb_spec 4096 dumpSize); lia. } { lia. }
  rewrite (bind_ok _ _ _ _ _ E1). set (sz' := if _ <? _ then _ else _).
  destruct (IH (dpos + dumpSize) sz' (set_d_rpc r1 (set_g_buf b1 s)))
    as (data' & cs' & ps' & r2 & b2 & E2 & L2 & A2 & Hc' & Hd').
  { apply (adv_ok _ _ _ A1). } { cbn [g_buf set_d_rpc set_g_buf]. by rewrite L1. }
  { intros Hlt'. replace dumpSize with (20 * 4096) by lia. by rewrite Z.mod_add. } { lia. }
  { intros Hlt'. unfold sz'. destruct (Z.ltb_spec (len - (dpos + dumpSize)) BUFSIZE); lia. } { lia. }
  exists (data ++ data'), (cs ++ cs'), (ps ++ ps'), r2, b2. split; [exact E2|].
  split; [by rewrite L2, <- L1|]. rewrite fmap_app. split; [by eapply advances_trans|]. split.
  - apply chunked_app; [|rewrite Ld, Z2Nat.id by lia; exact Hc'].
    cbn [g_buf set_g_buf] in Hc. rewrite Z.sub_0_r in Hc. unfold b1 in Hc. rewrite splice_0 in Hc.
    cbn [Z.to_nat] in Hc. rewrite drop_0, take_app_length' in Hc by lia. exact Hc.
  - intros Hst Hen. rewrite (Hd' Hst Hen). unfold data, u32. rewrite Z.mod_small by lia.
    replace (Z.to_nat (len - dpos)) with (Z.to_nat dumpSize + Z.to_nat (len - (dpos + dumpSize)))%nat
      by lia.
    rewrite load_bytes_app.
    replace (start + dpos + Z.of_nat (Z.to_nat dumpSize)) with (start + (dpos + dumpSize)) by lia.
    done.
Qed.

(** The debugger is ready for commands: bound, and with its buffer. *)
Definition dbg_ok (s : dbg) : Prop :=
  rpc_ok (d_rpc s) /\ Z.of_nat (length (g_buf s)) = BUFSIZE.

Lemma sendDump_spec call dump_start dump_end s :
  dbg_ok s ->
  exists data cs ps r' b', sendDump call dump_start dump_end s =
      Ok (s32 (dump_end - dump_start), set_g_buf b' (set_d_rpc r' s)) /\
    length b' = length (g_buf s) /\ advances (d_rpc s) r' ((EvSend <$> ps) ++ [EvEndReply]) /\
    chunked 0 data cs ps /\
    (0 <= dump_start <= dump_end -> dump_end <= 2 ^ 32 -> dump_end - dump_start < 2 ^ 31 ->
     data = load_bytes (d_mem s) dump_start (Z.to_nat (dump_end - dump_start))).
Proof.
  intros [Hok Hb]. unfold sendDump. set (len := s32 (dump_end - dump_start)).
  assert (exists data cs ps r' b',
    dump_loop call (Z.to_nat len) dump_start len 0 (if BUFSIZE <? len then BUFSIZE else len) s =
      Ok (tt, set_g_buf b' (set_d_rpc r' s)) /\
    length b' = length (g_buf s) /\ advances (d_rpc s) r' (EvSend <$> ps) /\
    chunked 0 data cs ps /\
    (0 <= len -> 0 <= dump_start -> dump_start + len <= 2 ^ 32 ->
     data = load_bytes (d_mem s) dump_start (Z.to_nat len)))
    as (data & cs & ps & r1 & b1 & E1 & L1 & A1 & Hc & Hd).
  { destruct (decide (0 <= len)) as [Hl|Hl].
    - destruct (dump_loop_spec call dump_start len (Z.to_nat len) 0
        (if BUFSIZE <? len then BUFSIZE else len) s)
        as (data & cs & ps & r1 & b1 & E1 & L1 & A1 & Hc & Hd); [done|done|done|lia| |lia|].
      { intros _. destruct (Z.ltb_spec BUFSIZE len); lia. }
      exists data, cs, ps, r1, b1. repeat (split; [done|]). intros _ H1 H2.
      specialize (Hd H1 H2). by rewrite Z.add_0_r, Z.sub_0_r in Hd.
    - exists [], [], [], (d_rpc s), (g_buf s). replace (Z.to_nat len) with 0%nat by lia.
      cbn [dump_loop]. destruct (Z.ltb_spec 0 len); [lia|]. split; [by destruct s|].
      split; [done|]. split; [by apply advances_refl|]. split; [apply chunked_nil|lia]. }
  rewrite (bind_ok _ _ _ _ _ E1). set (s1 := set_g_buf b1 (set_d_rpc r1 s)).
  destruct (call_sync (rpcNTPBEndReply call) s1 (ret len) [EvEndReply]) as (r2 & E2 & A2).
  { apply EndReply_advances, (adv_ok _ _ _ A1). }
  exists data, cs, ps, r2, b1. split; [exact E2|]. split; [done|].
  split; [exact (advances_trans _ _ _ _ _ A1 A2)|]. split; [done|].
  intros H1 H2 H3. assert (Hlen : len = dump_end - dump_start) by (apply s32_id; lia).
  rewrite Hlen in Hd. apply Hd; lia.
Qed.

(** A dump sends the requested memory, all of it and in order, and then one end of
    reply.  For any range of less than 2 GB, [sendDump] ends; the packets it hands to the RPC
    layer carry chunks of 1 to 4096 bytes that one after the other are exactly the bytes of
    the range, and the memory is unchanged. *)
Theorem sendDump_covers call dump_start dump_end s :
  dbg_ok s -> 0 <= dump_start <= dump_end -> dump_end <= 2 ^ 32 -> dump_end - dump_start < 2 ^ 31 ->
  exists cs ps s', sendDump call dump_start dump_end s = Ok (dump_end - dump_start, s') /\
    concat cs = load_bytes (d_mem s) dump_start (Z.to_nat (dump_end - dump_start)) /\
    Forall (fun c => 0 < Z.of_nat (length c) <= 4096) cs /\
    Forall2 (fun c p => exists q, p = send_block q NTPBCMD_SEND_DUMP c) cs ps /\
    rpc_log (d_rpc s') = rpc_log (d_rpc s) ++ (EvSend <$> ps) ++ [EvEndReply] /\
    d_mem s' = d_mem s.
Proof.
  intros Hok H1 H2 H3.
  destruct (sendDump_spec call dump_start dump_end s Hok)
    as (data & cs & ps & r' & b' & E & _ & A & (Hc & Hl & Hp & _) & Hd).
  rewrite s32_id in E by lia. rewrite (Hd H1 H2 H3) in Hc.
  do 3 eexists. split; [exact E|]. split; [exact Hc|]. split; [exact Hl|].
  split; [|split; [exact (adv_log _ _ _ A)|done]].
  eapply Forall2_impl; [exact Hp|]. intros c p (q & _ & ->). by exists q.
Qed.

(** A debugger that was just bound. *)
Definition fresh_rpc (replies : list (bool * list Z)) : rpc_state :=
  Rpc true 0 (replicate (Z.to_nat 4098) 0) (replicate CMD_PARAM 0) 0 None replies [].
Definition fresh_dbg (replies : list (bool * list Z)) : dbg :=
  Dbg ∅ (fresh_rpc replies) (replicate (Z.to_nat 81920) 0) (Opts 0 0 0 RPC_M_NORMAL 1 [] [] []) 0 1.

Lemma fresh_dbg_ok replies : dbg_ok (fresh_dbg replies).
Proof.
  split; [split|].
  - done.
  - cbn [fresh_dbg d_rpc fresh_rpc sendDataParam]. rewrite length_replicate. lia.
  - done.
  - cbn [fresh_dbg g_buf]. rewrite length_replicate, Z2Nat.id by lia. reflexivity.
Qed.

Lemma sendDump_covers_witness :
  exists cs ps s', sendDump (fun _ => 0) 0x00100000 0x00118001 (fresh_dbg []) = Ok (0x18001, s') /\
    concat cs = load_bytes ∅ 0x00100000 (Z.to_nat 0x18001) /\
    Forall (fun c => 0 < Z.of_nat (length c) <= 4096) cs /\
    Forall2 (fun c p => exists q, p = send_block q NTPBCMD_SEND_DUMP c) cs ps /\
    rpc_log (d_rpc s') = [] ++ (EvSend <$> ps) ++ [EvEndReply] /\ d_mem s' = ∅.
Proof.
  apply (sendDump_covers (fun _ => 0) 0x00100000 0x00118001 (fresh_dbg [])).
  - apply fresh_dbg_ok.
  - split; vm_compute; congruence.
  - vm_compute; congruence.
  - reflexivity.
Defined.

(** ** Properties of the command loop *)

(** The command of an answer to CMD_GETREMOTECMD, and the bound on its size field. *)
Definition block_cmd (blk : list Z) : Z := u16_at blk 0.
Definition block_data (blk : list Z) : list Z := take (Z.to_nat (s32 (u32_at blk CMD_SIZE_OFF))) (drop 2 blk).
Definition block_ok (blk : list Z) : Prop := s32 (u32_at blk CMD_SIZE_OFF) <= 64.

(** An answer that is there when the client looks at it. *)
Definition delivered (mode : Z) (a : bool * list Z) : Prop :=
  (mode = RPC_M_NORMAL \/ fst a = true) /\ block_ok (snd a).

(** The commands that are answered, with the calls each leads to, data packets aside. *)
Definition answered : list Z :=
  [REMOTE_CMD_DUMP; REMOTE_CMD_HALT; REMOTE_CMD_RESUME; REMOTE_CMD_ADDMEMPATCHES;
   REMOTE_CMD_CLEARMEMPATCHES; REMOTE_CMD_ADDRAWCODES; REMOTE_CMD_CLEARRAWCODES].
Definition answers (c : Z) : list rpc_event :=
  EvGetCmd :: if bool_decide (c ∈ answered) then [EvEndReply] else [].
Definition is_control (e : rpc_event) : bool := match e with EvSend _ => false | _ => true end.

Lemma control_sends ps : List.filter is_control (EvSend <$> ps) = [].
Proof. induction ps; done. Qed.

Lemma get_spec call mode r early blk rest :
  rpc_ok r -> call EvGetCmd = 0 -> rpc_replies r = (early, blk) :: rest ->
  delivered mode (early, blk) ->
  exists size r1, rpcNTPBgetRemoteCmd call 64 mode r = Ok ((1, Some (block_cmd blk, block_data blk, size)), r1) /\
    rpc_ok r1 /\ rpc_log r1 = rpc_log r ++ [EvGetCmd] /\ rpc_replies r1 = rest.
Proof.
  intros [H1 H2 H3] Hc Hr [Hd Hb]. cbn [fst snd] in Hd, Hb. unfold rpcNTPBgetRemoteCmd. rewrite H1, Hc. cbn [negb Z.eqb].
  assert (Hnow : (mode =? RPC_M_NORMAL) || early = true) by (destruct Hd as [->| ->]; [done|apply orb_true_r]).
  assert (Hrec : getRemoteCmdParam (receive mode (log EvGetCmd r)) = blk).
  { unfold receive. cbn [log rpc_replies]. rewrite Hr. cbn. by rewrite Hnow. }
  rewrite Hrec. unfold block_ok in Hb.
  destruct (Z.ltb_spec 64 (s32 (u32_at blk CMD_SIZE_OFF))); [lia|].
  do 2 eexists. split; [reflexivity|]. unfold receive. cbn [log rpc_replies]. rewrite Hr.
  cbn. rewrite Hnow. repeat split; done.
Qed.

(** The calls that serving a command makes; [ps] are the packets of a dump of the range in
    the command's data. *)
Definition reply_events (c : Z) (ps : list (list Z)) : list rpc_event :=
  EvGetCmd :: if bool_decide (c ∈ answered) then (EvSend <$> ps) ++ [EvEndReply] else [].

Definition dumps (m : gmap Z Z) (c : Z) (cmd_buf : list Z) (ps : list (list Z)) : Prop :=
  if c =? REMOTE_CMD_DUMP then
    let a := u32_at cmd_buf 0 in let b := u32_at cmd_buf 4 in
    exists data cs, chunked 0 data cs ps /\
      (0 <= a <= b -> b <= 2 ^ 32 -> b - a < 2 ^ 31 -> data = load_bytes m a (Z.to_nat (b - a)))
  else ps = [].

Lemma control_reply c ps : List.filter is_control (reply_events c ps) = answers c.
Proof.
  unfold reply_events, answers. cbn [List.filter is_control]. destruct (bool_decide (c ∈ answered)); [|done].
  by rewrite List.filter_app, control_sends.
Qed.

(** What serving one request does. *)
Record served (s s' : dbg) (c h : Z) (cmd_buf : list Z) : Prop := {
  sv_ok : dbg_ok s';
  sv_opts : g_debugger_opts s' = g_debugger_opts s;
  sv_halt : haltState s' = h;
  sv_replies : rpc_replies (d_rpc s') = tail (rpc_replies (d_rpc s));
  sv_mem : d_mem s' = d_mem s;
  sv_log : exists ps, rpc_log (d_rpc s') = rpc_log (d_rpc s) ++ reply_events c ps /\ dumps (d_mem s) c cmd_buf ps;
}.

(** Serving starts with the fetched command and an idle client. *)
Lemma exec_fetch call junk s early blk rest :
  dbg_ok s -> call EvGetCmd = 0 -> rpc_mode (g_debugger_opts s) <> -1 ->
  rpc_replies (d_rpc s) = (early, blk) :: rest ->
  delivered (rpc_mode (g_debugger_opts s)) (early, blk) ->
  exists r1, let cmd_buf := splice (snd junk) 0 (block_data blk) in rpc_ok r1 /\ rpc_log r1 = rpc_log (d_rpc s) ++ [EvGetCmd] /\ rpc_replies r1 = rest /\
    forall halted, exec_body call junk halted s =
    ((let remote_cmd := block_cmd blk in
      if remote_cmd =? REMOTE_CMD_NONE then ret tt
      else if remote_cmd =? REMOTE_CMD_DUMP then
        sendDump call (u32_at cmd_buf 0) (u32_at cmd_buf 4);; ret tt
      else if remote_cmd =? REMOTE_CMD_HALT then
        end_reply call;;
        let* h := gets haltState in
        if h =? 0 then modify (set_haltState 1);; halted else ret tt
      else if remote_cmd =? REMOTE_CMD_RESUME then
        end_reply call;;
        let* h := gets haltState in
        if negb (h =? 0) then modify (set_haltState 0) else ret tt
      else if remote_cmd =? REMOTE_CMD_ADDMEMPATCHES then end_reply call
      else if remote_cmd =? REMOTE_CMD_CLEARMEMPATCHES then end_reply call
      else if remote_cmd =? REMOTE_CMD_ADDRAWCODES then end_reply call
      else if remote_cmd =? REMOTE_CMD_CLEARRAWCODES then end_reply call
      else ret tt);; ret 1) (set_d_rpc r1 s).
Proof.
  intros [Hok Hb] Hc Hm Hr Hd.
  destruct (get_spec call _ (d_rpc s) early blk rest Hok Hc Hr Hd)
    as (size & r1 & E1 & Hok1 & Hlog1 & Hrep1).
  destruct (Sync_advances r1 Hok1) as (x & r2 & E2 & A2).
  exists r2. cbn zeta. split; [apply (adv_ok _ _ _ A2)|].
  split; [rewrite (adv_log _ _ _ A2), app_nil_r; exact Hlog1|].
  split; [rewrite (adv_replies _ _ _ A2); exact Hrep1|]. intros halted. unfold exec_body.
  rewrite (bind_ok _ _ s (g_debugger_opts s) s) by done.
  destruct (Z.eqb_spec (rpc_mode (g_debugger_opts s)) (-1)); [done|].
  rewrite (bind_ok _ _ _ _ _ (on_rpc_ok _ _ _ _ E1)).
  by rewrite (bind_ok _ _ _ _ _ (on_rpc_ok _ (set_d_rpc r1 s) _ _ E2)).
Qed.

Lemma end_reply_spec call s : rpc_ok (d_rpc s) -> calls (end_reply call) s tt [EvEndReply].
Proof.
  intros Hok. destruct (call_sync (rpcNTPBEndReply call) s (ret tt) [EvEndReply]) as (r' & E & A).
  { by apply EndReply_advances. }
  exists r'. by split.
Qed.

Lemma served_idle s r1 rest a c h buf :
  dbg_ok s -> rpc_ok r1 -> rpc_log r1 = rpc_log (d_rpc s) ++ [EvGetCmd] -> rpc_replies r1 = rest ->
  rpc_replies (d_rpc s) = a :: rest -> bool_decide (c ∈ answered) = false -> h = haltState s ->
  served s (set_d_rpc r1 s) c h buf.
Proof.
  intros [Hok Hb] Hok1 Hl Hr Hs Hc ->. split; [done|done|done|by rewrite Hs|done|].
  exists []. unfold reply_events, dumps. rewrite Hc. split; [done|]. destruct (Z.eqb_spec c REMOTE_CMD_DUMP) as [->|]; done.
Qed.

(** Serving ended with an end of reply. *)
Lemma served_reply s r1 rest a s2 ps c h buf :
  dbg_ok s -> rpc_log r1 = rpc_log (d_rpc s) ++ [EvGetCmd] -> rpc_replies r1 = rest ->
  rpc_replies (d_rpc s) = a :: rest -> bool_decide (c ∈ answered) = true ->
  advances r1 (d_rpc s2) ((EvSend <$> ps) ++ [EvEndReply]) ->
  length (g_buf s2) = length (g_buf s) -> g_debugger_opts s2 = g_debugger_opts s ->
  d_mem s2 = d_mem s -> haltState s2 = h -> dumps (d_mem s) c buf ps -> served s s2 c h buf.
Proof.
  intros [Hok Hb] Hl Hr Hs Hc A Hg Ho Hm Hh Hd. split.
  - split; [apply (adv_ok _ _ _ A)|by rewrite Hg].
  - done.
  - done.
  - by rewrite (adv_replies _ _ _ A), Hs.
  - done.
  - exists ps. split; [|done]. unfold reply_events. by rewrite Hc, (adv_log _ _ _ A), Hl, <- app_assoc.
Qed.

(** Serving a request that only needs an end of reply. *)
Lemma reply_only call s r1 rest a c h buf :
  dbg_ok s -> rpc_ok r1 -> rpc_log r1 = rpc_log (d_rpc s) ++ [EvGetCmd] -> rpc_replies r1 = rest ->
  rpc_replies (d_rpc s) = a :: rest -> c ∈ answered -> c <> REMOTE_CMD_DUMP ->
  exists r2, end_reply call (set_d_rpc r1 s) = Ok (tt, set_d_rpc r2 s) /\
    (h = haltState s -> served s (set_d_rpc r2 s) c h buf) /\
    served s (set_haltState h (set_d_rpc r2 s)) c h buf.
Proof.
  intros Hok Hok1 Hl Hr Hs Hin Hne. destruct (end_reply_spec call (set_d_rpc r1 s) Hok1) as (r2 & E2 & A2).
  assert (Hb : bool_decide (c ∈ answered) = true) by (by apply bool_decide_eq_true).
  assert (Hd : dumps (d_mem s) c buf []) by (unfold dumps; by destruct (Z.eqb_spec c REMOTE_CMD_DUMP)).
  exists r2. split; [exact E2|]. split.
  - intros Hh. by apply (served_reply s r1 rest a (set_d_rpc r2 s) [] c h buf Hok Hl Hr Hs Hb A2).
  - by apply (served_reply s r1 rest a (set_haltState h (set_d_rpc r2 s)) [] c h buf Hok Hl Hr Hs Hb A2).
Qed.

(** A dump is answered with its chunks. *)
Lemma dump_served call s r1 rest a buf :
  dbg_ok s -> rpc_ok r1 -> rpc_log r1 = rpc_log (d_rpc s) ++ [EvGetCmd] -> rpc_replies r1 = rest ->
  rpc_replies (d_rpc s) = a :: rest ->
  exists s', (sendDump call (u32_at buf 0) (u32_at buf 4);; ret tt) (set_d_rpc r1 s) = Ok (tt, s') /\
    served s s' REMOTE_CMD_DUMP (haltState s) buf.
Proof.
  intros Hok Hok1 Hl Hr Hs. set (s1 := set_d_rpc r1 s).
  destruct (sendDump_spec call (u32_at buf 0) (u32_at buf 4) s1) as (data & cs & ps & r' & b' & E & Hg & A & Hch & Hdata).
  { split; [done|apply Hok]. }
  exists (set_g_buf b' (set_d_rpc r' s1)). split; [by rewrite (bind_ok _ _ _ _ _ E)|].
  apply (served_reply s r1 rest a (set_g_buf b' (set_d_rpc r' s1)) ps REMOTE_CMD_DUMP _ _ Hok Hl Hr Hs eq_refl A); try done.
  by exists data, cs.
Qed.

Lemma cmd_answered c : c ∈ answered <-> bool_decide (c ∈ answered) = true.
Proof. by rewrite bool_decide_eq_true. Qed.

(** Every request but a halt that takes effect is served without entering the halt loop. *)
Lemma exec_step call junk s early blk rest :
  dbg_ok s -> call EvGetCmd = 0 -> rpc_mode (g_debugger_opts s) <> -1 ->
  rpc_replies (d_rpc s) = (early, blk) :: rest ->
  delivered (rpc_mode (g_debugger_opts s)) (early, blk) ->
  haltState s <> 0 \/ block_cmd blk <> REMOTE_CMD_HALT ->
  exists s', (forall halted, exec_body call junk halted s = Ok (1, s')) /\
    served s s' (block_cmd blk) (if block_cmd blk =? REMOTE_CMD_RESUME then 0 else haltState s) (splice (snd junk) 0 (block_data blk)).
Proof.
  intros Hok Hc Hm Hr Hd Hh.
  destruct (exec_fetch call junk s early blk rest Hok Hc Hm Hr Hd)
    as (r1 & Hok1 & Hl1 & Hr1 & E0). setoid_rewrite E0. clear E0. set (cmd_buf := splice (snd junk) 0 (block_data blk)) in *.
  set (c := block_cmd blk) in *. cbn zeta. set (s1 := set_d_rpc r1 s).
  assert (Hrep : forall h, bool_decide (c ∈ answered) = true -> c <> REMOTE_CMD_DUMP ->
    exists r2, end_reply call s1 = Ok (tt, set_d_rpc r2 s) /\ (h = haltState s -> served s (set_d_rpc r2 s) c h cmd_buf) /\
      served s (set_haltState h (set_d_rpc r2 s)) c h cmd_buf).
  { intros h Hin%cmd_answered Hne. by apply (reply_only call s r1 rest (early, blk)). }
  assert (Hsimple : forall k : M dbg unit, c <> REMOTE_CMD_RESUME -> c <> REMOTE_CMD_DUMP ->
    bool_decide (c ∈ answered) = true -> k = end_reply call ->
    exists s', (M dbg unit -> (k;; ret 1) s1 = Ok (1, s')) /\
    served s s' c (if c =? REMOTE_CMD_RESUME then 0 else haltState s) cmd_buf).
  { intros k Hne Hnd' Hin ->. destruct (Hrep (haltState s) Hin Hnd') as (r2 & E2 & S2 & _).
    eexists. split; [intros _; by rewrite (bind_ok _ _ _ _ _ E2)|].
    destruct (Z.eqb_spec c REMOTE_CMD_RESUME); [done|]. by apply S2. }
  destruct (Z.eqb_spec c REMOTE_CMD_NONE) as [E|_].
  { eexists. split; [intros _; reflexivity|]. rewrite E. cbn [Z.eqb].
    by apply (served_idle s r1 rest (early, blk)). }
  destruct (Z.eqb_spec c REMOTE_CMD_DUMP) as [E|N5].
  { destruct (dump_served call s r1 rest (early, blk) cmd_buf Hok Hok1 Hl1 Hr1 Hr) as (s' & E' & S'). exists s'.
    split; [intros _; by rewrite (bind_ok _ _ _ _ _ E')|]. by rewrite E. }
  destruct (Z.eqb_spec c REMOTE_CMD_HALT) as [E|N6].
  { destruct Hh as [Hh|Hh]; [|done]. destruct (Hrep (haltState s)) as (r2 & E2 & S2 & _); [by rewrite E..|].
    exists (set_d_rpc r2 s). split; [|rewrite E at 2; by apply S2]. intros halted.
    rewrite (bind_ok _ _ s1 tt (set_d_rpc r2 s)); [reflexivity|].
    rewrite (bind_ok _ _ _ _ _ E2). cbn. destruct (Z.eqb_spec (haltState s) 0); done. }
  destruct (Z.eqb_spec c REMOTE_CMD_RESUME) as [E|Hne].
  { destruct (Hrep 0) as (r2 & E2 & _ & S2); [by rewrite E..|].
    exists (set_haltState 0 (set_d_rpc r2 s)). split; [|done]. intros _.
    rewrite (bind_ok _ _ s1 tt (set_haltState 0 (set_d_rpc r2 s))); [reflexivity|].
    rewrite (bind_ok _ _ _ _ _ E2). cbn. destruct (Z.eqb_spec (haltState s) 0) as [H0|H0]; [|done].
    unfold set_haltState, set_d_rpc. cbn. by rewrite H0. }
  destruct (Z.eqb_spec c REMOTE_CMD_ADDMEMPATCHES) as [E|N1]; [apply Hsimple; by rewrite ?E|].
  destruct (Z.eqb_spec c REMOTE_CMD_CLEARMEMPATCHES) as [E|N2]; [apply Hsimple; by rewrite ?E|].
  destruct (Z.eqb_spec c REMOTE_CMD_ADDRAWCODES) as [E|N3]; [apply Hsimple; by rewrite ?E|].
  destruct (Z.eqb_spec c REMOTE_CMD_CLEARRAWCODES) as [E|N4]; [apply Hsimple; by rewrite ?E|].
  eexists. split; [intros _; reflexivity|]. apply (served_idle s r1 rest (early, blk)); try done.
  apply bool_decide_eq_false. unfold answered. rewrite !elem_of_cons, elem_of_nil.
  by intros [?|[?|[?|[?|[?|[?|[?|?]]]]]]].
Qed.

(** A halt that takes effect: the halt loop starts after the answer. *)
Lemma exec_halt call junk s early blk rest :
  dbg_ok s -> call EvGetCmd = 0 -> rpc_mode (g_debugger_opts s) <> -1 ->
  rpc_replies (d_rpc s) = (early, blk) :: rest ->
  delivered (rpc_mode (g_debugger_opts s)) (early, blk) ->
  haltState s = 0 -> block_cmd blk = REMOTE_CMD_HALT ->
  exists s', (forall halted, exec_body call junk halted s = (halted;; ret 1) s') /\
    served s s' (block_cmd blk) 1 (splice (snd junk) 0 (block_data blk)).
Proof.
  intros Hok Hc Hm Hr Hd Hh HH.
  destruct (exec_fetch call junk s early blk rest Hok Hc Hm Hr Hd) as (r1 & Hok1 & Hl1 & Hr1 & E0).
  destruct (reply_only call s r1 rest (early, blk) (block_cmd blk) 1 (splice (snd junk) 0 (block_data blk)) Hok Hok1 Hl1 Hr1 Hr)
    as (r2 & E2 & _ & S2).
  { apply cmd_answered. by rewrite HH. } { by rewrite HH. }
  exists (set_haltState 1 (set_d_rpc r2 s)). split; [|done]. intros halted. rewrite E0, HH. cbn [Z.eqb].
  cbn. unfold bind at 1 2. rewrite E2. unfold bind. cbn. by rewrite Hh.
Qed.

(** One pass of the command loop, whether the game runs or is halted. *)
Definition halt_after (c h : Z) : Z :=
  if c =? REMOTE_CMD_RESUME then 0 else if (c =? REMOTE_CMD_HALT) && (h =? 0) then 1 else h.

Lemma exec_pass call junk s early blk rest :
  dbg_ok s -> call EvGetCmd = 0 -> rpc_mode (g_debugger_opts s) <> -1 ->
  rpc_replies (d_rpc s) = (early, blk) :: rest ->
  delivered (rpc_mode (g_debugger_opts s)) (early, blk) ->
  exists s', (forall halted, exec_body call junk halted s =
      if (block_cmd blk =? REMOTE_CMD_HALT) && (haltState s =? 0) then (halted;; ret 1) s' else Ok (1, s')) /\
    served s s' (block_cmd blk) (halt_after (block_cmd blk) (haltState s)) (splice (snd junk) 0 (block_data blk)).
Proof.
  intros Hok Hc Hm Hr Hd. unfold halt_after. destruct ((block_cmd blk =? REMOTE_CMD_HALT) && (haltState s =? 0)) eqn:E.
  - apply andb_prop in E as [E1%Z.eqb_eq E2%Z.eqb_eq].
    destruct (exec_halt call junk s early blk rest) as (s' & H & S); try done. exists s'. split; [done|].
    by rewrite E1 in S |- *.
  - destruct (exec_step call junk s early blk rest) as (s' & H & S); try done.
    { destruct (Z.eqb_spec (haltState s) 0); [right|by left]. destruct (Z.eqb_spec (block_cmd blk) REMOTE_CMD_HALT); [|done].
      by rewrite ?andb_true_r in E. }
    exists s'. by split.
Qed.

(** The requests [reqs] were taken from the link and answered, in this order. *)
Record serves (s s' : dbg) (reqs : list (bool * list Z)) : Prop := {
  srv_ok : dbg_ok s';
  srv_opts : g_debugger_opts s' = g_debugger_opts s;
  srv_replies : rpc_replies (d_rpc s) = reqs ++ rpc_replies (d_rpc s');
  srv_log : exists evs, rpc_log (d_rpc s') = rpc_log (d_rpc s) ++ evs /\
    List.filter is_control evs = flat_map (fun a => answers (block_cmd (snd a))) reqs;
}.

Lemma served_serves s s' a rest h buf :
  rpc_replies (d_rpc s) = a :: rest -> served s s' (block_cmd (snd a)) h buf -> serves s s' [a].
Proof.
  intros Hr [H1 H2 H3 H4 H5 (ps & H6 & _)]. split; [done|done|by rewrite H4, Hr|].
  eexists. split; [exact H6|]. cbn [flat_map]. by rewrite app_nil_r, control_reply.
Qed.

Lemma serves_trans s1 s2 s3 r1 r2 : serves s1 s2 r1 -> serves s2 s3 r2 -> serves s1 s3 (r1 ++ r2).
Proof.
  intros [H1 H2 H3 (e1 & H4 & H5)] [H6 H7 H8 (e2 & H9 & H10)].
  split; [done|congruence|by rewrite H3, H8, app_assoc|].
  exists (e1 ++ e2). split; [by rewrite H9, H4, app_assoc|].
  by rewrite List.filter_app, H5, H10, flat_map_app.
Qed.

Lemma halt_loop_spec call junk resume : forall mids rest fuel s,
  (length mids + 3 <= fuel)%nat -> dbg_ok s -> call EvGetCmd = 0 ->
  rpc_mode (g_debugger_opts s) <> -1 -> haltState s <> 0 ->
  rpc_replies (d_rpc s) = mids ++ resume :: rest ->
  Forall (delivered (rpc_mode (g_debugger_opts s))) (mids ++ [resume]) ->
  Forall (fun a => block_cmd (snd a) <> REMOTE_CMD_RESUME) mids ->
  block_cmd (snd resume) = REMOTE_CMD_RESUME ->
  exists s', halt_loop call junk fuel s = Ok (tt, s') /\ serves s s' (mids ++ [resume]) /\
    haltState s' = 0.
Proof.
  induction mids as [|[e b] mids IH]; intros rest fuel s Hf Hok Hc Hm Hh Hr Hd Hn HR;
    (destruct fuel as [|[|fuel]]; [simpl in Hf; lia|simpl in Hf; lia|]).
  - destruct resume as [e b]. cbn [halt_loop]. rewrite (bind_ok _ _ s (haltState s) s) by done.
    destruct (Z.eqb_spec (haltState s) 0); [done|]. cbn [negb execRemoteCmd].
    apply Forall_cons in Hd as [Hd _].
    destruct (exec_step call junk s e b rest Hok Hc Hm Hr Hd)
      as (s1 & E1 & S1); [by left|].
    rewrite (bind_ok _ _ _ _ _ (E1 (halt_loop call junk fuel))). cbn [snd] in HR. rewrite HR in S1. cbn [Z.eqb] in S1.
    exists s1. cbn [halt_loop]. rewrite (bind_ok _ _ s1 (haltState s1) s1) by done.
    rewrite (sv_halt _ _ _ _ _ S1). split; [done|]. split; [|done].
    eapply served_serves; [exact Hr|]. rewrite <- HR in S1 at 1. exact S1.
  - cbn [halt_loop]. rewrite (bind_ok _ _ s (haltState s) s) by done.
    destruct (Z.eqb_spec (haltState s) 0); [done|]. cbn [negb execRemoteCmd].
    apply Forall_cons in Hd as [Hd0 Hd]. apply Forall_cons in Hn as [Hn0 Hn].
    destruct (exec_step call junk s e b (mids ++ resume :: rest)
      Hok Hc Hm Hr Hd0) as (s1 & E1 & S1); [by left|].
    rewrite (bind_ok _ _ _ _ _ (E1 (halt_loop call junk fuel))). cbn [snd] in Hn0.
    destruct (Z.eqb_spec (block_cmd b) REMOTE_CMD_RESUME); [done|].
    destruct (IH rest (S fuel) s1) as (s2 & E2 & S2 & H2); try done.
    + simpl in Hf. lia.
    + apply (sv_ok _ _ _ _ _ S1).
    + by rewrite (sv_opts _ _ _ _ _ S1).
    + by rewrite (sv_halt _ _ _ _ _ S1).
    + by rewrite (sv_replies _ _ _ _ _ S1), Hr.
    + by rewrite (sv_opts _ _ _ _ _ S1).
    + exists s2. split; [exact E2|]. split; [|done].
      apply (serves_trans s s1 s2 [(e, b)]); [|done]. eapply served_serves; [exact Hr|exact S1].
Qed.


(** An answer with a command and its data. *)
Definition cmd_block (c : Z) (data : list Z) : list Z :=
  le16 c ++ data ++ replicate (58 - length data) 0 ++ le32 (Z.of_nat (length data)) ++ [0; 0; 0; 0].

