(* ===== verification/IopReset.v ===== *)
(** * The IOP reset hook (ee/debugger/debugger.c, loadfile.c, syscall_hooks.S)

    The debugger takes over the syscalls a game resets the IOP with.  On a reset with an
    image from the disc it performs the reset itself, with its own EESYNC module in the
    image, reloads the debugger modules, and skips the syscalls the game still makes. *)

From S2P Require Import Prelude CString Bytes RamFile Debugger Engine LoaderUtil Pattern.
Local Open Scope ps2rd_scope.

(** ** State *)

(** What reaches the IOP or the kernel: calls of SDK functions, in order. *)
Inductive ext_ev : Type :=
| ExIopReset
| ExDma (dest : Z) (data : list Z)
| ExExec (image args : list Z)                  (** SifExecModuleBuffer *)
| ExLoadAsync (path args : cstring)             (** LF_F_MOD_LOAD without waiting *)
| ExSetReg (reg val : Z)                        (** the original SifSetReg *)
| ExSetDma (sdd len : Z).                       (** the original SifSetDma *)

Record rst : Type := Rst {
  r_dbg : dbg;
  set_reg_hook : Z;
  dma_hook_disabled : Z;
  iop_reboot_count : Z;
  g_ipconfig : list Z;
  g_ipconfig_len : Z;
  OldSifSetDma : Z;
  OldSifSetReg : Z;
  syscalls : gmap Z Z;
  r_pads : pad_ptrs;
  r_loadmod : option Z;
  r_ext : list ext_ev;
}.

Definition set_r_dbg (d : dbg) (s : rst) : rst :=
  Rst d (set_reg_hook s) (dma_hook_disabled s) (iop_reboot_count s) (g_ipconfig s) (g_ipconfig_len s)
    (OldSifSetDma s) (OldSifSetReg s) (syscalls s) (r_pads s) (r_loadmod s) (r_ext s).
Definition set_hooks (n dis cnt : Z) (s : rst) : rst :=
  Rst (r_dbg s) n dis cnt (g_ipconfig s) (g_ipconfig_len s)
    (OldSifSetDma s) (OldSifSetReg s) (syscalls s) (r_pads s) (r_loadmod s) (r_ext s).
Definition set_ipc (b : list Z) (n : Z) (s : rst) : rst :=
  Rst (r_dbg s) (set_reg_hook s) (dma_hook_disabled s) (iop_reboot_count s) b n
    (OldSifSetDma s) (OldSifSetReg s) (syscalls s) (r_pads s) (r_loadmod s) (r_ext s).
Definition set_sys (od og : Z) (t : gmap Z Z) (s : rst) : rst :=
  Rst (r_dbg s) (set_reg_hook s) (dma_hook_disabled s) (iop_reboot_count s) (g_ipconfig s)
    (g_ipconfig_len s) od og t (r_pads s) (r_loadmod s) (r_ext s).
Definition set_patches (p : pad_ptrs) (l : option Z) (s : rst) : rst :=
  Rst (r_dbg s) (set_reg_hook s) (dma_hook_disabled s) (iop_reboot_count s) (g_ipconfig s)
    (g_ipconfig_len s) (OldSifSetDma s) (OldSifSetReg s) (syscalls s) p l (r_ext s).
Definition emit (e : ext_ev) (s : rst) : rst :=
  Rst (r_dbg s) (set_reg_hook s) (dma_hook_disabled s) (iop_reboot_count s) (g_ipconfig s)
    (g_ipconfig_len s) (OldSifSetDma s) (OldSifSetReg s) (syscalls s) (r_pads s) (r_loadmod s)
    (r_ext s ++ [e]).

Definition set_d_mem (m : gmap Z Z) (d : dbg) : dbg :=
  Dbg m (d_rpc d) (g_buf d) (g_debugger_opts d) (haltState d) (debugger_ready d).
Definition set_opts (o : debugger_opts_t) (d : dbg) : dbg :=
  Dbg (d_mem d) (d_rpc d) (g_buf d) o (haltState d) (debugger_ready d).
Definition set_ready (n : Z) (d : dbg) : dbg :=
  Dbg (d_mem d) (d_rpc d) (g_buf d) (g_debugger_opts d) (haltState d) n.

Definition on_dbg {A} (c : M dbg A) : M rst A := fun s =>
  match c (r_dbg s) with Ok (x, d) => Ok (x, set_r_dbg d s) | Err f => Err f end.
Definition on_mem {A} (c : M (gmap Z Z) A) : M rst A := fun s =>
  match c (d_mem (r_dbg s)) with
  | Ok (x, m) => Ok (x, set_r_dbg (set_d_mem m (r_dbg s)) s)
  | Err f => Err f
  end.
Definition r_mem : M rst (gmap Z Z) := gets (fun s => d_mem (r_dbg s)).
Definition r_opts : M rst debugger_opts_t := gets (fun s => g_debugger_opts (r_dbg s)).

(** ** Options and the network configuration *)

(** [__strcpy]: [strncpy] with the length of the source, which stores no terminator. *)
Definition __strcpy (dst : list Z) (src : cstring) : list Z := strncpy dst src (length src).

Definition set_debugger_opts (o : debugger_opts_t) : M rst unit :=
  let* g := r_opts in
  let* ip := lift (c_string (opt_ip o)) in
  let* nm := lift (c_string (opt_netmask o)) in
  let* gw := lift (c_string (opt_gateway o)) in
  on_dbg (modify (set_opts
    (Opts (auto_hook o) (patch_loadmodule o) (unhook_iop_reset o) (rpc_mode o) (load_modules o)
       (__strcpy (opt_ip g) ip) (__strcpy (opt_netmask g) nm) (__strcpy (opt_gateway g) gw)))).

Definition IPCONFIG_MAX_LEN : nat := 64.

(** One address: 15 bytes of it behind the ones before. *)
Definition add_ip (addr : list Z) (b : list Z) (len : Z) : res (list Z * Z) :=
  let? a := c_string addr in
  if Z.of_nat (length b) <? len + 15 then Err OutOfBounds
  else Ok (take (Z.to_nat len) b ++ strncpy (drop (Z.to_nat len) b) a 15,
           len + Z.of_nat (length a) + 1).

Definition get_ipconfig : M rst unit :=
  let* g := r_opts in
  let* '(b, len) := lift (add_ip (opt_ip g) (replicate IPCONFIG_MAX_LEN 0) 0) in
  let* '(b, len) := lift (add_ip (opt_netmask g) b len) in
  let* '(b, len) := lift (add_ip (opt_gateway g) b len) in
  modify (set_ipc b len).

(** ** The reset image *)

(** An entry of the image's directory, [romdir_t]: 10 bytes of name, 2 of extended
    information size, a 32-bit file size. *)
Definition ROMDIR_ENT : nat := 16.

(** The name starts with [modname] (the comparison stops at the name's terminator). *)
Fixpoint name_starts (modname : cstring) (p : list Z) : bool :=
  match modname, p with
  | [], _ => true
  | c :: modname', b :: p' => negb (b =? 0) && (c =? b) && name_starts modname' p'
  | _, [] => false
  end.

(** The file size rounded up to 16 bytes. *)
Definition round16 (n : Z) : Z :=
  if Z.rem n 0x10 =? 0 then n else s32 (Z.land (u32 (n + 0x10)) 0xfffffff0).

(** The directory is read from the start of [b]; [off] is the sum so far. *)
Fixpoint mod_offset_loop (fuel : nat) (b : list Z) (modname : cstring) (off : Z) : res Z :=
  match fuel with
  | O => Err OutOfBounds
  | S fuel' =>
      if byte_at b 0 =? 0 then Ok (-1)
      else if name_starts modname b then Ok off
      else mod_offset_loop fuel' (drop ROMDIR_ENT b) modname (s32 (off + round16 (s32 (u32_at b 12))))
  end.

(** A directory without an end runs out of the buffer. *)
Definition Get_Mod_Offset (b : list Z) (modname : cstring) : res Z :=
  mod_offset_loop (length b / ROMDIR_ENT) b modname 0.

(** ** The reset *)

(** The SDK and the disc: files, the IOP's heap, the result of starting a module, the
    attempts to bind the RPC server, the addresses of the hook functions and the numbers of
    the syscalls. *)
Record reset_env : Type := Env {
  fio_file : cstring -> option (list Z);
  fio_fails : Z -> bool;        (** the read at this position fails or is short *)
  SifAllocIopHeap : Z -> Z;
  SifExecModuleBuffer : list Z -> list Z -> Z;
  rpc_binds : list (Z + bool);
  a_Hook_scePadRead : Z;
  a_Hook_scePad2Read : Z;
  a_Hook_SifLoadModule : Z;
  a_HookSifSetDma : Z;
  a_HookSifSetReg : Z;
  nr_SifSetDma : Z;
  nr_SifSetReg : Z;
  SIF_REG_SMFLAG : Z;
  SifLoadFileInit : Z;          (** results of the calls of [SifLoadModuleAsync] *)
  lf_call : Z;
  LF_PATH_MAX : nat;            (** sizes and error codes of the SDK *)
  LF_ARG_MAX : nat;
  E_LIB_API_INIT : Z;
  E_SIF_RPC_CALL : Z;
}.

Section Reset.
Context (env : reset_env).

(** [SifLoadModuleAsync]: the path and the arguments are cut to the sizes of the message's
    fields. *)
Definition SifLoadModuleAsync (path args : cstring) : M rst Z :=
  if SifLoadFileInit env <? 0 then ret (- E_LIB_API_INIT env)
  else
    modify (emit (ExLoadAsync (take (LF_PATH_MAX env - 1) path) (take (LF_ARG_MAX env) args)));;
    if lf_call env <? 0 then ret (- E_SIF_RPC_CALL env) else ret 0.

(** [memcpy] to the big buffer. *)
Definition fill (off : Z) (bs : list Z) : M rst unit := fun s =>
  let b := g_buf (r_dbg s) in
  if Z.of_nat (length b) <? off + Z.of_nat (length bs) then Err OutOfBounds
  else Ok (tt, set_r_dbg (set_g_buf (splice b (Z.to_nat off) bs) (r_dbg s)) s).

(** Our EESYNC replaces the bytes of the image's own one, which may be split between parts;
    returns what is left of it. *)
Definition put_eesync (m : gmap Z Z) (rpos rd_size ioprp_offset eesync_ptr eesync_offset
    eesync_size : Z) : M rst (Z * Z) :=
  if (ioprp_offset <=? rpos + rd_size) && (0 <? eesync_size) then
    let gbuf_offset := ioprp_offset - rpos in
    let gbuf_offset := if gbuf_offset <? 0 then 0 else gbuf_offset in
    let rp_size := if rd_size - gbuf_offset <? eesync_size
                   then rd_size - gbuf_offset else eesync_size in
    fill gbuf_offset (load_bytes m (eesync_ptr + eesync_offset) (Z.to_nat rp_size));;
    ret (eesync_offset + (rd_size - gbuf_offset), eesync_size - (rd_size - gbuf_offset))
  else ret (eesync_offset, eesync_size).

(** [while (rpos < ioprp_size)]: read a part, put our EESYNC in, send it. *)
Fixpoint image_loop (fuel : nat) (file : list Z) (ioprp_dest rpos ioprp_offset eesync_ptr
    eesync_offset eesync_size : Z) : M rst unit :=
  let ioprp_size := Z.of_nat (length file) in
  if rpos <? ioprp_size then
    match fuel with
    | O => fail OutOfFuel
    | S fuel' =>
        let rd_size := if BUFSIZE <? ioprp_size - rpos then BUFSIZE else ioprp_size - rpos in
        if fio_fails env rpos then fail Hang else
        fill 0 (take (Z.to_nat rd_size) (drop (Z.to_nat rpos) file));;
        let* m := r_mem in
        let* '(ioprp_offset, eesync_ptr, eesync_size) :=
          if rpos =? 0 then
            let* b := gets (fun s => g_buf (r_dbg s)) in
            let* o := lift (Get_Mod_Offset b (str "EESYNC")) in
            let* '(p, n) := lift (get_module_by_hash m HASH_EESYNC) in
            ret (o, p, s32 n)
          else ret (ioprp_offset, eesync_ptr, eesync_size) in
        let* '(eesync_offset, eesync_size) :=
          put_eesync m rpos rd_size ioprp_offset eesync_ptr eesync_offset eesync_size in
        let* b := gets (fun s => g_buf (r_dbg s)) in
        modify (emit (ExDma (ioprp_dest + rpos) (take (Z.to_nat rd_size) b)));;
        image_loop fuel' file ioprp_dest (rpos + rd_size) ioprp_offset eesync_ptr eesync_offset
          eesync_size
    end
  else ret tt.

(** [load_module_from_kernel] with its copy to the big buffer; a failure stops the EE. *)
Definition load_or_hang (hash : Z) (args : list Z) : M rst unit :=
  let* m := r_mem in
  let* r := lift (get_module_from_kernel m hash BUFSIZE) in
  match r with
  | None => fail Hang
  | Some image =>
      fill 0 image;;
      modify (emit (ExExec image args));;
      if SifExecModuleBuffer env image args <? 0 then fail Hang else ret tt
  end.

(** The modules are loaded again, and the RPC server is bound again. *)
Definition reload_modules : M rst unit :=
  load_or_hang HASH_PS2DEV9 [];;
  load_or_hang HASH_PS2IP [];;
  get_ipconfig;;
  let* '(b, n) := gets (fun s => (g_ipconfig s, g_ipconfig_len s)) in
  load_or_hang HASH_PS2SMAP (take (Z.to_nat n) b);;
  load_or_hang HASH_DEBUGGER [];;
  on_dbg (on_rpc rpcNTPBreset);;
  on_dbg (on_rpc (rpcNTPBinit (rpc_binds env)));;
  ret tt.

(** The memory disk module, patched with the address and the size of the image.  When it is
    not installed its size is -1 and the buffer holds the end of the image. *)
Definition start_memdisk (ioprp_dest ioprp_size : Z) : M rst unit :=
  let* m := r_mem in
  let* r := lift (get_module_from_kernel m HASH_MEMDISK BUFSIZE) in
  fill 0 (default [] r);;
  fill 0x19c (le32 ioprp_dest);;
  fill 0x1a8 (le32 ioprp_size);;
  let* b := gets (fun s => g_buf (r_dbg s)) in
  modify (emit (ExExec (match r with Some i => take (length i) b | None => [] end) []));;
  SifLoadModuleAsync (str "rom0:UDNL") (str "MDISK0:");;
  ret tt.

Definition MySifRebootIop (ioprp_path : cstring) : M rst Z :=
  let* '(n, cnt) := gets (fun s => (set_reg_hook s, iop_reboot_count s)) in
  modify (set_hooks n 1 cnt);;
  modify (emit ExIopReset);;
  modify (set_hooks n 0 cnt);;
  match fio_file env ioprp_path with
  | None => fail Hang
  | Some file =>
      let ioprp_size := Z.of_nat (length file) in
      let ioprp_dest := SifAllocIopHeap env ioprp_size in
      if ioprp_dest =? 0 then fail Hang
      else
        image_loop (length file) file ioprp_dest 0 0 0 0 0;;
        start_memdisk ioprp_dest ioprp_size;;
        modify (emit (ExSetReg (SIF_REG_SMFLAG env) 0x10000));;
        modify (emit (ExSetReg (SIF_REG_SMFLAG env) 0x20000));;
        modify (emit (ExSetReg 0x80000002 0));;
        modify (emit (ExSetReg 0x80000000 0));;
        let* o := r_opts in
        (if load_modules o =? 1 then reload_modules else ret tt);;
        (if auto_hook o =? 1 then
           let* p := gets r_pads in
           let* '(_, p) := on_mem (patch_padRead (a_Hook_scePadRead env) (a_Hook_scePad2Read env) p) in
           let* l := gets r_loadmod in
           modify (set_patches p l)
         else ret tt);;
        (if patch_loadmodule o =? 1 then
           let* l := gets r_loadmod in
           let* '(_, l) := on_mem (patch_loadModule (a_Hook_SifLoadModule env) l) in
           let* p := gets r_pads in
           modify (set_patches p l)
         else ret tt);;
        modify (set_hooks 4 0 cnt);;
        ret 1
  end.

(** ** The syscalls *)

(** [for (i=0; i<0x50; i++)]: the position of the text in the packet's argument, which is
    at [arg] in memory. *)
Definition ioprp_pattern : cstring := str "rom0:UDNL cdrom".
Fixpoint find_ioprp (fuel : nat) (m : gmap Z Z) (arg i : Z) : option Z :=
  match fuel with
  | O => None
  | S fuel' =>
      if bool_decide (load_bytes m (arg + i) 15 = ioprp_pattern) then Some i
      else find_ioprp fuel' m arg (i + 1)
  end.

(** The path goes to a local array of 80 bytes, which holds [junk] before. *)
Definition NewSifSetDma (junk : list Z) (sdd len : Z) : M rst Z :=
  let* m := r_mem in
  let arg := load32 m sdd + 20 in
  let* path :=
    match find_ioprp 0x50 m arg 0 with
    | None => ret None
    | Some i =>
        let p := cstr (load_bytes m (arg + i + 10) 81) in
        if (0x50 <? length p)%nat then fail OutOfBounds
        else ret (Some (__strcpy junk p))
    end in
  let* dis := gets dma_hook_disabled in
  match path with
  | Some buf =>
      if dis =? 0 then
        let* '(n, cnt) := gets (fun s => (set_reg_hook s, iop_reboot_count s)) in
        modify (set_hooks n dis (cnt + 1));;
        let* p := lift (c_string buf) in
        MySifRebootIop p;; ret 1
      else modify (emit (ExSetDma sdd len));; ret 1
  | None => modify (emit (ExSetDma sdd len));; ret 1
  end.

(** [HookSifSetDma] of syscall_hooks.S: only a reset packet is looked at. *)
Definition HookSifSetDma (junk : list Z) (sdd len : Z) : M rst Z :=
  let* m := r_mem in
  let src := load32 m sdd in
  if (load32 m (sdd + 0x0c) =? 0x44) && (load32 m (sdd + 0x08) =? 0x68) && (load8 m src =? 0x68) &&
     (load32 m (src + 0x08) =? 0x80000003)
  then NewSifSetDma junk sdd len
  else modify (emit (ExSetDma sdd len));; ret 1.

Definition NewSifSetReg (regnum regval : Z) : M rst unit :=
  let* '(n, dis) := gets (fun s => (set_reg_hook s, dma_hook_disabled s)) in
  let* cnt := gets iop_reboot_count in
  if negb (n =? 0) then
    modify (set_hooks (n - 1) dis cnt);;
    if n - 1 =? 0 then
      let* o := r_opts in
      (if load_modules o =? 1 then on_dbg (modify (set_ready 1)) else ret tt);;
      if negb (unhook_iop_reset o =? 0) then
        modify (fun s => set_sys (OldSifSetDma s) (OldSifSetReg s)
          (<[nr_SifSetReg env := OldSifSetReg s]> (<[nr_SifSetDma env := OldSifSetDma s]> (syscalls s))) s)
      else ret tt
    else ret tt
  else modify (emit (ExSetReg regnum regval)).

(** ** Loading and unloading *)

Definition AUTO_HOOK_OFF : Z := 0.
Definition PATCH_LM_OFF : Z := 0.
Definition LOAD_MODULES_ON : Z := 1.

Definition _init : M rst Z :=
  let* g := r_opts in
  on_dbg (modify (set_opts
    (Opts AUTO_HOOK_OFF PATCH_LM_OFF 0 RPC_M_NOWAIT LOAD_MODULES_ON
       (__strcpy (opt_ip g) (str "192.168.0.10")) (__strcpy (opt_netmask g) (str "255.255.255.0"))
       (__strcpy (opt_gateway g) (str "192.168.0.1")))));;
  on_mem (modify clear_autohook_tab);;
  modify (fun s => set_sys (default 0 (syscalls s !! nr_SifSetDma env)) (OldSifSetReg s)
                     (<[nr_SifSetDma env := a_HookSifSetDma env]> (syscalls s)) s);;
  modify (fun s => set_sys (OldSifSetDma s) (default 0 (syscalls s !! nr_SifSetReg env))
                     (<[nr_SifSetReg env := a_HookSifSetReg env]> (syscalls s)) s);;
  ret 0.

Definition _fini : M rst Z :=
  modify (fun s => set_sys (OldSifSetDma s) (OldSifSetReg s)
    (<[nr_SifSetReg env := OldSifSetReg s]> (<[nr_SifSetDma env := OldSifSetDma s]> (syscalls s))) s);;
  ret 0.

End Reset.

(** ** The image that reaches the IOP *)

Definition with_buf (b : list Z) (s : rst) : rst := set_r_dbg (set_g_buf b (r_dbg s)) s.
Definition emits (evs : list ext_ev) (s : rst) : rst :=
  Rst (r_dbg s) (set_reg_hook s) (dma_hook_disabled s) (iop_reboot_count s) (g_ipconfig s)
    (g_ipconfig_len s) (OldSifSetDma s) (OldSifSetReg s) (syscalls s) (r_pads s) (r_loadmod s)
    (r_ext s ++ evs).

Lemma emits_app e1 e2 s : emits e2 (emits e1 s) = emits (e1 ++ e2) s.
Proof. unfold emits. cbn. by rewrite <- app_assoc. Qed.

Lemma emit_emits e s : emit e s = emits [e] s.
Proof. done. Qed.

(** Transfers of consecutive parts from [a] on. *)
Fixpoint dma_events (a : Z) (parts : list (list Z)) : list ext_ev :=
  match parts with
  | [] => []
  | d :: parts' => ExDma a d :: dma_events (a + Z.of_nat (length d)) parts'
  end.

Lemma fill_ok off bs s :
  0 <= off -> off + Z.of_nat (length bs) <= Z.of_nat (length (g_buf (r_dbg s))) ->
  fill off bs s = Ok (tt, with_buf (splice (g_buf (r_dbg s)) (Z.to_nat off) bs) s).
Proof. intros H0 H. unfold fill. destruct (Z.ltb_spec (Z.of_nat (length (g_buf (r_dbg s)))) (off + Z.of_nat (length bs))); [lia|done]. Qed.

(** What is left of the module when [rpos] bytes of the image are done. *)
Definition left_over (off n rpos eo es : Z) : Prop :=
  let d := Z.max 0 (rpos - off) in (eo = d /\ es = n - d) \/ (es <= 0 /\ n <= d).

Section Image.
Context (m : gmap Z Z) (file : list Z) (off ptr n : Z).
Context (Hoff : 0 <= off) (Hn : 0 < n) (Hfit : off + n <= Z.of_nat (length file)).

(** The image with the module in its place. *)
Definition patched_image : list Z := splice file (Z.to_nat off) (load_bytes m ptr (Z.to_nat n)).

Lemma length_patched : length patched_image = length file.
Proof. apply length_splice. rewrite length_load_bytes. lia. Qed.

Lemma lookup_patched i :
  patched_image !! i =
  if decide (off <= Z.of_nat i < off + n) then Some (load8 m (ptr + (Z.of_nat i - off)))
  else file !! i.
Proof.
  unfold patched_image. rewrite lookup_splice by (rewrite length_load_bytes; lia).
  rewrite length_load_bytes.
  destruct (decide (off <= Z.of_nat i < off + n)); destruct (decide _); try lia; [|done].
  rewrite lookup_load_bytes by lia. do 2 f_equal. lia.
Qed.

Lemma put_eesync_spec rpos rd eo es b1 s :
  0 <= rpos -> 0 < rd -> rpos + rd <= Z.of_nat (length file) -> rd <= Z.of_nat (length b1) ->
  left_over off n rpos eo es -> g_buf (r_dbg s) = b1 ->
  (forall i, (i < Z.to_nat rd)%nat -> b1 !! i = file !! (Z.to_nat rpos + i)%nat) ->
  exists b2 eo' es', put_eesync m rpos rd off ptr eo es s = Ok ((eo', es'), with_buf b2 s) /\
    length b2 = length b1 /\ left_over off n (rpos + rd) eo' es' /\
    take (Z.to_nat rd) b2 = take (Z.to_nat rd) (drop (Z.to_nat rpos) patched_image).
Proof using Hoff Hn Hfit.
  intros H0 Hrd Hend Hb Hleft Hbuf Hread. unfold put_eesync.
  assert (Hnone : (rpos + rd <= off \/ off + n <= rpos) ->
    take (Z.to_nat rd) b1 = take (Z.to_nat rd) (drop (Z.to_nat rpos) patched_image)).
  { intros Hout. rewrite <- (drop_0 b1). apply window_ext; [lia|rewrite length_patched; lia|].
    intros i Hi. rewrite lookup_patched, Hread by done. destruct (decide _); [lia|done]. }
  destruct (Z.leb_spec off (rpos + rd)) as [Hin|Hout]; cbn [andb].
  2:{ exists b1, eo, es. split; [by destruct s, r_dbg0; cbn in *; subst|]. split; [done|].
      split; [unfold left_over in *; lia|]. apply Hnone. lia. }
  destruct (Z.ltb_spec 0 es) as [Hes|Hes].
  2:{ exists b1, eo, es. split; [by destruct s, r_dbg0; cbn in *; subst|]. split; [done|].
      unfold left_over in *. split; [lia|]. apply Hnone. lia. }
  destruct Hleft as [[-> ->]|]; [|lia]. cbn zeta. set (gb := if _ <? 0 then _ else _).
  set (rp := if _ <? _ then _ else _).
  assert (Hgb : gb = Z.max 0 (off - rpos)) by (unfold gb; destruct (Z.ltb_spec (off - rpos) 0); lia).
  assert (Hrp : rp = Z.min (rd - gb) (n - Z.max 0 (rpos - off)))
    by (unfold rp; destruct (Z.ltb_spec (rd - gb) (n - Z.max 0 (rpos - off))); lia).
  clearbody gb rp.
  set (bs := load_bytes m (ptr + Z.max 0 (rpos - off)) (Z.to_nat rp)).
  assert (Lbs : length bs = Z.to_nat rp) by apply length_load_bytes.
  rewrite (bind_ok _ _ s tt (with_buf (splice b1 (Z.to_nat gb) bs) s)).
  2:{ rewrite fill_ok by (rewrite ?Hbuf, ?Lbs; lia). by rewrite Hbuf. }
  do 3 eexists. split; [reflexivity|].
  assert (L2 : length (splice b1 (Z.to_nat gb) bs) = length b1) by (apply length_splice; rewrite Lbs; lia).
  split; [done|]. split; [unfold left_over; lia|].
  rewrite <- (drop_0 (splice b1 (Z.to_nat gb) bs)).
  apply window_ext; [lia|rewrite length_patched; lia|]. intros i Hi.
  rewrite lookup_patched, lookup_splice by (rewrite Lbs; lia). cbn [Nat.add].
  destruct (decide _) as [H1|H1]; rewrite Lbs in H1.
  - unfold bs. rewrite lookup_load_bytes by lia. destruct (decide _); [|lia]. do 2 f_equal. lia.
  - rewrite Hread by done. destruct (decide _); [lia|done].
Qed.

(** The part of the image at [rpos]. *)
Definition part (rpos rd : Z) : list Z := take (Z.to_nat rd) (drop (Z.to_nat rpos) patched_image).

Lemma length_part rpos rd :
  0 <= rpos -> 0 <= rd -> rpos + rd <= Z.of_nat (length file) -> Z.of_nat (length (part rpos rd)) = rd.
Proof using Hoff Hn Hfit.
  intros H1 H2 H3. unfold part. rewrite length_take, length_drop, length_patched. lia.
Qed.

(** The rest of a pass: the module is put in and the part is sent. *)
Lemma send_part_spec dest rpos rd eo es s (k : Z -> Z -> M rst unit) :
  0 <= rpos -> 0 < rd -> rpos + rd <= Z.of_nat (length file) ->
  rd <= Z.of_nat (length (g_buf (r_dbg s))) -> left_over off n rpos eo es ->
  (forall i, (i < Z.to_nat rd)%nat -> g_buf (r_dbg s) !! i = file !! (Z.to_nat rpos + i)%nat) ->
  exists b2 eo' es',
    (let* '(x, y) := put_eesync m rpos rd off ptr eo es in
     let* b := gets (fun s => g_buf (r_dbg s)) in
     modify (emit (ExDma (dest + rpos) (take (Z.to_nat rd) b)));; k x y) s =
    k eo' es' (emits [ExDma (dest + rpos) (part rpos rd)] (with_buf b2 s)) /\
    length b2 = length (g_buf (r_dbg s)) /\ left_over off n (rpos + rd) eo' es'.
Proof using Hoff Hn Hfit.
  intros H0 Hrd Hend Hb Hleft Hread.
  destruct (put_eesync_spec rpos rd eo es _ s H0 Hrd Hend Hb Hleft eq_refl Hread)
    as (b2 & eo' & es' & E & L & Hl & Hp).
  exists b2, eo', es'. rewrite (bind_ok _ _ _ _ _ E). cbn [fst snd]. split; [|done].
  unfold part. rewrite <- Hp. done.
Qed.

(** The file's bytes at the start of the buffer after a read. *)
Lemma read_part b rpos rd i :
  0 <= rpos -> rpos + rd <= Z.of_nat (length file) -> rd <= Z.of_nat (length b) -> (i < Z.to_nat rd)%nat ->
  splice b 0 (take (Z.to_nat rd) (drop (Z.to_nat rpos) file)) !! i = file !! (Z.to_nat rpos + i)%nat.
Proof.
  intros H1 H2 H3 Hi. assert (L : length (take (Z.to_nat rd) (drop (Z.to_nat rpos) file)) = Z.to_nat rd)
    by (rewrite length_take, length_drop; lia).
  rewrite lookup_splice by lia. rewrite L. destruct (decide _); [|lia].
  rewrite Nat.sub_0_r, lookup_take_lt, lookup_drop by lia. done.
Qed.

Lemma drop_part rpos rd :
  0 <= rpos -> 0 <= rd -> 
  drop (Z.to_nat rpos) patched_image = part rpos rd ++ drop (Z.to_nat (rpos + rd)) patched_image.
Proof.
  intros H1 H2. unfold part. replace (Z.to_nat (rpos + rd)) with (Z.to_nat rpos + Z.to_nat rd)%nat by lia.
  by rewrite <- drop_drop, take_drop.
Qed.

Lemma length_fill b rpos rd :
  0 <= rpos -> rpos + rd <= Z.of_nat (length file) -> rd <= Z.of_nat (length b) ->
  length (splice b 0 (take (Z.to_nat rd) (drop (Z.to_nat rpos) file))) = length b.
Proof. intros H1 H2 H3. apply length_splice. rewrite length_take, length_drop. lia. Qed.

Lemma image_loop_spec env dest fuel : forall rpos eo es s,
  (forall p, fio_fails env p = false) -> d_mem (r_dbg s) = m ->
  Z.of_nat (length (g_buf (r_dbg s))) = BUFSIZE ->
  0 < rpos <= Z.of_nat (length file) -> Z.of_nat (length file) - rpos <= Z.of_nat fuel ->
  left_over off n rpos eo es ->
  exists b' parts, image_loop env fuel file dest rpos off ptr eo es s =
      Ok (tt, emits (dma_events (dest + rpos) parts) (with_buf b' s)) /\
    Z.of_nat (length b') = BUFSIZE /\ concat parts = drop (Z.to_nat rpos) patched_image.
Proof using Hoff Hn Hfit.
  assert (HB : BUFSIZE = 81920) by done.
  induction fuel as [|fuel IH]; intros rpos eo es s Hio Hm Hb Hr Hf Hleft; cbn [image_loop];
    destruct (Z.ltb_spec rpos (Z.of_nat (length file))) as [Hlt|Hge]; try lia.
  1,3: exists (g_buf (r_dbg s)), []; split;
    [unfold emits; cbn; rewrite app_nil_r; by destruct s as [[]]|]; split; [done|];
    rewrite drop_ge; [done|rewrite length_patched; lia].
  set (rd := if _ <? _ then _ else _).
  assert (Hrd : rd = Z.min BUFSIZE (Z.of_nat (length file) - rpos))
    by (unfold rd; destruct (Z.ltb_spec BUFSIZE (Z.of_nat (length file) - rpos)); lia).
  clearbody rd. rewrite Hio.
  set (b1 := splice (g_buf (r_dbg s)) 0 (take (Z.to_nat rd) (drop (Z.to_nat rpos) file))).
  assert (L1 : length b1 = length (g_buf (r_dbg s))) by (apply length_fill; lia).
  rewrite (bind_ok _ _ s tt (with_buf b1 s)).
  2:{ rewrite fill_ok; [done|lia|]. rewrite length_take, length_drop. lia. }
  rewrite (bind_ok _ _ (with_buf b1 s) m (with_buf b1 s)) by (by rewrite <- Hm).
  destruct (Z.eqb_spec rpos 0); [lia|].
  rewrite (bind_ok _ _ (with_buf b1 s) (off, ptr, es) (with_buf b1 s)) by done. cbn [fst snd].
  destruct (send_part_spec dest rpos rd eo es (with_buf b1 s)
    (fun x y => image_loop env fuel file dest (rpos + rd) off ptr x y)) as (b2 & eo' & es' & E & L2 & Hl2).
  { lia. } { lia. } { lia. } { cbn. lia. } { done. } { intros i Hi. apply read_part; lia. }
  rewrite E.
  destruct (IH (rpos + rd) eo' es' (emits [ExDma (dest + rpos) (part rpos rd)] (with_buf b2 (with_buf b1 s))))
    as (b3 & parts & E3 & L3 & Hc); try done.
  { cbn. rewrite L2. cbn. lia. } { lia. } { lia. }
  exists b3, (part rpos rd :: parts). split.
  - rewrite E3. cbn [dma_events]. rewrite length_part, Z.add_assoc by lia.
    change (with_buf b3 (emits [ExDma (dest + rpos) (part rpos rd)] (with_buf b2 (with_buf b1 s))))
      with (emits [ExDma (dest + rpos) (part rpos rd)] (with_buf b3 s)).
    by rewrite emits_app.
  - split; [done|]. cbn [concat]. rewrite Hc, (drop_part rpos rd) by lia. done.
Qed.

(** The whole loop: the directory and the module are looked up in the first pass. *)
Lemma image_spec env dest s :
  (forall p, fio_fails env p = false) -> d_mem (r_dbg s) = m ->
  Z.of_nat (length (g_buf (r_dbg s))) = BUFSIZE -> n < 2 ^ 31 ->
  Get_Mod_Offset (splice (g_buf (r_dbg s)) 0 (take (Z.to_nat BUFSIZE) file)) (str "EESYNC") = Ok off ->
  get_module_by_hash m HASH_EESYNC = Ok (ptr, n) ->
  exists b' parts, image_loop env (length file) file dest 0 0 0 0 0 s =
      Ok (tt, emits (dma_events dest parts) (with_buf b' s)) /\
    Z.of_nat (length b') = BUFSIZE /\ concat parts = patched_image.
Proof using Hoff Hn Hfit.
  assert (HB : BUFSIZE = 81920) by done. intros Hio Hm Hb Hn31 Hdir Hmod.
  assert (exists fuel, length file = S fuel) as [fuel HN] by (exists (pred (length file)); lia).
  replace (image_loop env (length file)) with (image_loop env (S fuel)) by (by rewrite HN).
  cbn [image_loop].
  destruct (Z.ltb_spec 0 (Z.of_nat (length file))) as [_|]; [|lia]. rewrite Hio, Z.sub_0_r.
  set (rd := if _ <? _ then _ else _).
  assert (Hrd : rd = Z.min BUFSIZE (Z.of_nat (length file)))
    by (unfold rd; destruct (Z.ltb_spec BUFSIZE (Z.of_nat (length file))); lia).
  clearbody rd.
  assert (Htk : take (Z.to_nat rd) (drop (Z.to_nat 0) file) = take (Z.to_nat BUFSIZE) file).
  { change (Z.to_nat 0) with 0%nat. rewrite drop_0. destruct (decide (BUFSIZE <= Z.of_nat (length file))).
    - f_equal. lia.
    - rewrite !take_ge by lia. done. }
  set (b1 := splice (g_buf (r_dbg s)) 0 (take (Z.to_nat BUFSIZE) file)) in *.
  assert (L1 : length b1 = length (g_buf (r_dbg s))) by (unfold b1; rewrite <- Htk; apply length_fill; lia).
  rewrite (bind_ok _ _ s tt (with_buf b1 s)).
  2:{ rewrite Htk, fill_ok; [done|lia|]. rewrite length_take. lia. }
  rewrite (bind_ok _ _ (with_buf b1 s) m (with_buf b1 s)) by (by rewrite <- Hm).
  rewrite (bind_ok _ _ (with_buf b1 s) (off, ptr, n) (with_buf b1 s)).
  2:{ cbn [Z.eqb]. rewrite (bind_ok _ _ (with_buf b1 s) b1 (with_buf b1 s)) by done.
      rewrite (bind_ok _ _ (with_buf b1 s) off (with_buf b1 s)) by (unfold lift; by rewrite Hdir).
      rewrite (bind_ok _ _ (with_buf b1 s) (ptr, n) (with_buf b1 s)) by (unfold lift; by rewrite Hmod).
      unfold ret. rewrite s32_id by lia. done. }
  cbn [fst snd].
  destruct (send_part_spec dest 0 rd 0 n (with_buf b1 s)
    (fun x y => image_loop env fuel file dest (0 + rd) off ptr x y)) as (b2 & eo' & es' & E & L2 & Hl2).
  { lia. } { lia. } { lia. } { cbn. lia. } { left. lia. }
  { intros i Hi. cbn. unfold b1. rewrite <- Htk. apply read_part; lia. }
  rewrite E.
  destruct (image_loop_spec env dest fuel (0 + rd) eo' es'
    (emits [ExDma (dest + 0) (part 0 rd)] (with_buf b2 (with_buf b1 s)))) as (b3 & parts & E3 & L3 & Hc);
    try done.
  { cbn. rewrite L2. cbn. lia. } { lia. } { lia. }
  exists b3, (part 0 rd :: parts). split.
  - rewrite E3. cbn [dma_events]. rewrite length_part, Z.add_0_r, Z.add_0_l by lia.
    change (with_buf b3 (emits [ExDma dest (part 0 rd)] (with_buf b2 (with_buf b1 s))))
      with (emits [ExDma dest (part 0 rd)] (with_buf b3 s)).
    by rewrite emits_app.
  - split; [done|]. cbn [concat]. rewrite Hc, <- drop_part by lia. apply drop_0.
Qed.

End Image.

(** ** The network configuration *)

Lemma add_ip_spec addr a pre k :
  c_string addr = Ok a -> (length a <= 15)%nat -> (16 <= k)%nat ->
  add_ip addr (pre ++ replicate k 0) (Z.of_nat (length pre)) =
  Ok ((pre ++ a ++ [0]) ++ replicate (k - length a - 1) 0, Z.of_nat (length (pre ++ a ++ [0]))).
Proof.
  intros Ha Hl Hk. unfold add_ip. rewrite Ha. cbn [rbind]. rewrite length_app, length_replicate.
  destruct (Z.ltb_spec (Z.of_nat (length pre + k)) (Z.of_nat (length pre) + 15)); [lia|].
  rewrite Nat2Z.id, take_app_length, drop_app_length. unfold strncpy.
  rewrite take_ge, drop_replicate, <- replicate_add by lia. do 2 f_equal.
  - rewrite <- !app_assoc. do 2 f_equal. change [0] with (replicate 1 0).
    rewrite <- replicate_add. f_equal. lia.
  - rewrite !length_app. cbn [length]. lia.
Qed.

(** The three addresses of the options. *)
Record ip_opts (o : debugger_opts_t) (ip nm gw : cstring) : Prop := {
  io_ip : c_string (opt_ip o) = Ok ip;
  io_nm : c_string (opt_netmask o) = Ok nm;
  io_gw : c_string (opt_gateway o) = Ok gw;
  io_len : (length ip <= 15 /\ length nm <= 15 /\ length gw <= 15)%nat;
}.

(** What the network driver is passed: the three strings with their terminators. *)
Definition ip_args (ip nm gw : cstring) : list Z := ip ++ [0] ++ nm ++ [0] ++ gw ++ [0].

Lemma get_ipconfig_spec s ip nm gw :
  ip_opts (g_debugger_opts (r_dbg s)) ip nm gw ->
  exists b, get_ipconfig s = Ok (tt, set_ipc b (Z.of_nat (length (ip_args ip nm gw))) s) /\
    take (length (ip_args ip nm gw)) b = ip_args ip nm gw.
Proof.
  intros [H1 H2 H3 (L1 & L2 & L3)]. unfold get_ipconfig.
  rewrite (bind_ok _ _ s (g_debugger_opts (r_dbg s)) s) by done.
  pose proof (add_ip_spec _ ip [] IPCONFIG_MAX_LEN H1 L1) as E1.
  cbn [app length] in E1. change (Z.of_nat 0) with 0 in E1. unfold lift. rewrite E1 by (unfold IPCONFIG_MAX_LEN; lia).
  unfold bind at 1. cbn [fst snd].
  rewrite (add_ip_spec _ nm (ip ++ [0]) _ H2 L2) by (unfold IPCONFIG_MAX_LEN; lia).
  unfold bind at 1. cbn [fst snd].
  rewrite (add_ip_spec _ gw _ _ H3 L3) by (unfold IPCONFIG_MAX_LEN; lia).
  unfold bind at 1. cbn [fst snd].
  assert (E : ((ip ++ [0]) ++ nm ++ [0]) ++ gw ++ [0] = ip_args ip nm gw)
    by (unfold ip_args; by rewrite <- !app_assoc).
  rewrite E. eexists. split; [reflexivity|]. apply take_app_length.
Qed.

Lemma cstr_app_tail s t : nul_free s -> cstr (s ++ t) = s ++ cstr t.
Proof. induction 1 as [|c s Hc Hs IH]; [done|]. simpl. destruct (Z.eqb_spec c 0); [done|]. by rewrite IH. Qed.

(** A new address over an old one: the end of a longer old one stays. *)
Definition merged (new old : cstring) : cstring := new ++ drop (length new) old.

(** A 16-byte field with an address and zeros behind it. *)
Definition padded (a : cstring) : list Z := a ++ replicate (16 - length a) 0.

Lemma strcpy_padded old src :
  (length old <= 15)%nat -> (length src <= 15)%nat ->
  __strcpy (padded old) src = padded (merged src old).
Proof.
  intros Ho Hs. unfold __strcpy, strncpy, padded, merged.
  rewrite firstn_all, Nat.sub_diag. cbn [replicate app]. rewrite <- app_assoc. f_equal.
  rewrite length_app, length_drop. destruct (decide (length src <= length old)%nat).
  - rewrite drop_app_le by lia. do 2 f_equal. lia.
  - rewrite drop_app_ge, (drop_ge old), drop_replicate by lia. cbn [app]. f_equal. lia.
Qed.

Lemma c_string_padded a : nul_free a -> (length a <= 15)%nat -> c_string (padded a) = Ok a.
Proof.
  intros Ha Hl. unfold padded. destruct (16 - length a)%nat as [|k] eqn:E; [lia|]. cbn [replicate].
  unfold c_string. rewrite bool_decide_eq_true_2 by set_solver. by rewrite cstr_app_nul.
Qed.

Lemma nul_free_merged a b : nul_free a -> nul_free b -> nul_free (merged a b).
Proof. intros Ha Hb. apply nul_free_app. split; [done|]. by apply nul_free_drop. Qed.

Lemma length_merged a b : (length a <= 15)%nat -> (length b <= 15)%nat -> (length (merged a b) <= 15)%nat.
Proof. intros Ha Hb. unfold merged. rewrite length_app, length_drop. lia. Qed.

Definition address (a : cstring) : Prop := nul_free a /\ (length a <= 15)%nat.

(** The fields of the options hold these addresses. *)
Definition fields (o : debugger_opts_t) (ip nm gw : cstring) : Prop :=
  opt_ip o = padded ip /\ opt_netmask o = padded nm /\ opt_gateway o = padded gw /\
  address ip /\ address nm /\ address gw.

Lemma fields_ip_opts o ip nm gw : fields o ip nm gw -> ip_opts o ip nm gw.
Proof.
  intros (E1 & E2 & E3 & [A1 L1] & [A2 L2] & [A3 L3]).
  split; rewrite ?E1, ?E2, ?E3; by try apply c_string_padded.
Qed.

(** The addresses the network driver gets.  After [set_debugger_opts], [get_ipconfig]
    builds the three addresses one after the other with their terminators, but each one
    keeps the end of the address it replaces where that one was longer; only addresses at
    least as long as the old ones (the defaults, in the loader's use) arrive as they were
    given. *)
Theorem ipconfig_merges s o ip nm gw ip0 nm0 gw0 :
  fields o ip nm gw -> fields (g_debugger_opts (r_dbg s)) ip0 nm0 gw0 ->
  exists s', (set_debugger_opts o;; get_ipconfig) s = Ok (tt, s') /\
    take (Z.to_nat (g_ipconfig_len s')) (g_ipconfig s') =
      ip_args (merged ip ip0) (merged nm nm0) (merged gw gw0) /\
    ((length ip0 <= length ip)%nat -> (length nm0 <= length nm)%nat -> (length gw0 <= length gw)%nat ->
     take (Z.to_nat (g_ipconfig_len s')) (g_ipconfig s') = ip_args ip nm gw).
Proof.
  intros Ho Hg. destruct (fields_ip_opts _ _ _ _ Ho) as [H1 H2 H3 _].
  destruct Ho as (_ & _ & _ & [A1 L1] & [A2 L2] & [A3 L3]).
  destruct Hg as (E1 & E2 & E3 & [B1 M1] & [B2 M2] & [B3 M3]).
  set (o' := Opts (auto_hook o) (patch_loadmodule o) (unhook_iop_reset o) (rpc_mode o) (load_modules o)
    (padded (merged ip ip0)) (padded (merged nm nm0)) (padded (merged gw gw0))).
  set (s1 := set_r_dbg (set_opts o' (r_dbg s)) s).
  rewrite (bind_ok _ _ s tt s1).
  2:{ unfold set_debugger_opts. rewrite (bind_ok _ _ s (g_debugger_opts (r_dbg s)) s) by done.
      rewrite (bind_ok _ _ s ip s) by (unfold lift; by rewrite H1).
      rewrite (bind_ok _ _ s nm s) by (unfold lift; by rewrite H2).
      rewrite (bind_ok _ _ s gw s) by (unfold lift; by rewrite H3).
      rewrite E1, E2, E3, !strcpy_padded by done. done. }
  destruct (get_ipconfig_spec s1 (merged ip ip0) (merged nm nm0) (merged gw gw0)) as (b & E & Hb).
  { apply fields_ip_opts. repeat (split; [done|]).
    repeat split; auto using nul_free_merged, length_merged. }
  exists (set_ipc b (Z.of_nat (length (ip_args (merged ip ip0) (merged nm nm0) (merged gw gw0)))) s1).
  split; [exact E|]. cbn [g_ipconfig g_ipconfig_len set_ipc]. rewrite Nat2Z.id.
  split; [exact Hb|]. intros K1 K2 K3. rewrite Hb. unfold merged. by rewrite !drop_ge, !app_nil_r by done.
Qed.

(** 10.0.0.1 over the default 192.168.0.10 becomes 10.0.0.10.10. *)
Lemma ipconfig_merges_witness :
  let o ip nm gw := Opts 0 0 0 0 1 (padded (str ip)) (padded (str nm)) (padded (str gw)) in
  let s := Rst (set_opts (o "192.168.0.10" "255.255.255.0" "192.168.0.1") (fresh_dbg [])) 0 0 0 [] 0 0 0 ∅
             (PadPtrs 0 0 1) None [] in
  exists s', (set_debugger_opts (o "10.0.0.1" "255.255.255.0" "192.168.0.1");; get_ipconfig) s = Ok (tt, s') /\
    take (Z.to_nat (g_ipconfig_len s')) (g_ipconfig s') =
      ip_args (str "10.0.0.10.10") (str "255.255.255.0") (str "192.168.0.1").
Proof.
  intros o s.
  destruct (ipconfig_merges s (o "10.0.0.1" "255.255.255.0" "192.168.0.1")
    (str "10.0.0.1") (str "255.255.255.0") (str "192.168.0.1")
    (str "192.168.0.10") (str "255.255.255.0") (str "192.168.0.1")) as (s' & H1 & H2 & _).
  1,2: (do 3 (split; [reflexivity|])); repeat split;
    first [apply Nat.leb_le; vm_compute; reflexivity
          |repeat (constructor; [vm_compute; congruence|]); constructor].
  exists s'. split; [exact H1|exact H2].
Defined.

(** ** The skipped syscalls *)

(** Successive calls of the syscall. *)
Fixpoint set_regs (env : reset_env) (l : list (Z * Z)) : M rst unit :=
  match l with
  | [] => ret tt
  | (r, v) :: l' => NewSifSetReg env r v;; set_regs env l'
  end.

(** The state when the last of the skipped calls is over. *)
Definition reset_done (env : reset_env) (s : rst) : rst :=
  let o := g_debugger_opts (r_dbg s) in
  let s := set_hooks 0 (dma_hook_disabled s) (iop_reboot_count s) s in
  let s := if load_modules o =? 1 then set_r_dbg (set_ready 1 (r_dbg s)) s else s in
  if negb (unhook_iop_reset o =? 0) then
    set_sys (OldSifSetDma s) (OldSifSetReg s)
      (<[nr_SifSetReg env := OldSifSetReg s]> (<[nr_SifSetDma env := OldSifSetDma s]> (syscalls s))) s
  else s.

Lemma set_regs_pass env l : forall s, set_reg_hook s = 0 ->
  set_regs env l s = Ok (tt, emits ((fun x => ExSetReg (fst x) (snd x)) <$> l) s).
Proof.
  induction l as [|[r v] l IH]; intros s Hs; cbn [set_regs].
  - unfold emits. cbn. rewrite app_nil_r. by destruct s.
  - rewrite (bind_ok _ _ s tt (emits [ExSetReg r v] s)).
    2:{ unfold NewSifSetReg, bind, gets. rewrite Hs. done. }
    rewrite IH by done. by rewrite emits_app.
Qed.

Lemma NewSifSetReg_skip env r v s n :
  set_reg_hook s = n -> 1 < n ->
  NewSifSetReg env r v s = Ok (tt, set_hooks (n - 1) (dma_hook_disabled s) (iop_reboot_count s) s).
Proof.
  intros Hs Hn. unfold NewSifSetReg, bind, gets. rewrite Hs.
  destruct (Z.eqb_spec n 0); [lia|]. cbn. destruct (Z.eqb_spec (n - 1) 0); [lia|done].
Qed.

Lemma NewSifSetReg_last env r v s :
  set_reg_hook s = 1 -> NewSifSetReg env r v s = Ok (tt, reset_done env s).
Proof.
  intros Hs. unfold NewSifSetReg, bind, gets, r_opts, gets. rewrite Hs. cbn [negb Z.eqb Z.sub].
  change (1 - 1) with 0. cbn [Z.eqb modify]. unfold reset_done. cbn zeta.
  change (g_debugger_opts (r_dbg (set_hooks 0 (dma_hook_disabled s) (iop_reboot_count s) s)))
    with (g_debugger_opts (r_dbg s)).
  by destruct (load_modules _ =? 1), (unhook_iop_reset _ =? 0).
Qed.

Lemma set_regs_skip env k : forall l s, set_reg_hook s = Z.of_nat (S k) ->
  set_regs env l s =
  if decide (length l <= k)%nat
  then Ok (tt, set_hooks (Z.of_nat (S k) - Z.of_nat (length l)) (dma_hook_disabled s) (iop_reboot_count s) s)
  else set_regs env (drop (S k) l) (reset_done env s).
Proof.
  induction k as [|k IH]; intros [|[r v] l] s Hs; cbn [set_regs].
  - cbn [length]. destruct (decide _); [|lia]. rewrite Z.sub_0_r, <- Hs. by destruct s.
  - cbn [length]. destruct (decide _); [lia|]. rewrite (bind_ok _ _ _ _ _ (NewSifSetReg_last env r v s Hs)).
    done.
  - cbn [length]. destruct (decide _); [|lia]. rewrite Z.sub_0_r, <- Hs. by destruct s.
  - rewrite (bind_ok _ _ _ _ _ (NewSifSetReg_skip env r v s _ Hs ltac:(lia))).
    set (s1 := set_hooks _ _ _ s). rewrite (IH l s1) by (cbn; lia). cbn [length drop].
    destruct (decide (length l <= k)%nat); destruct (decide _); try lia; [|done].
    replace (Z.of_nat (S (S k)) - Z.of_nat (S (length l)))
      with (Z.of_nat (S k) - Z.of_nat (length l)) by lia. done.
Qed.

(** Exactly the four register writes of the game's reset are swallowed.  After a
    handled reset (the counter is at 4), the first four calls of SifSetReg do nothing but
    count; with the fourth one the debugger becomes ready, if its modules are loaded, and
    the syscalls are given back, if this is asked for; every later call goes to the
    original syscall, in order. *)
Theorem SifSetReg_skips_four env s l :
  set_reg_hook s = 4 ->
  exists s', set_regs env l s = Ok (tt, s') /\
    r_ext s' = r_ext s ++ ((fun x => ExSetReg (fst x) (snd x)) <$> drop 4 l) /\
    set_reg_hook s' = Z.max 0 (4 - Z.of_nat (length l)) /\
    debugger_ready (r_dbg s') =
      (if decide (4 <= length l)%nat then
         if load_modules (g_debugger_opts (r_dbg s)) =? 1 then 1 else debugger_ready (r_dbg s)
       else debugger_ready (r_dbg s)) /\
    syscalls s' =
      (if decide (4 <= length l)%nat then
         if unhook_iop_reset (g_debugger_opts (r_dbg s)) =? 0 then syscalls s
         else <[nr_SifSetReg env := OldSifSetReg s]> (<[nr_SifSetDma env := OldSifSetDma s]> (syscalls s))
       else syscalls s).
Proof.
  intros Hs. rewrite (set_regs_skip env 3 l s Hs). destruct (decide (length l <= 3)%nat) as [Hl|Hl].
  - eexists. split; [done|]. cbn [r_ext set_hooks set_reg_hook r_dbg syscalls].
    rewrite drop_ge by lia. rewrite app_nil_r. destruct (decide _); [lia|].
    split; [done|]. split; [lia|done].
  - assert (Hz : set_reg_hook (reset_done env s) = 0)
      by (unfold reset_done; destruct (load_modules _ =? 1), (negb _); done).
    rewrite (set_regs_pass env _ _ Hz). eexists. split; [done|]. cbn [emits r_ext set_reg_hook r_dbg syscalls].
    rewrite Hz. destruct (decide _); [|lia]. split.
    + f_equal. unfold reset_done. destruct (load_modules _ =? 1), (negb _); done.
    + split; [lia|]. unfold reset_done.
      destruct (load_modules _ =? 1), (unhook_iop_reset _ =? 0); done.
Qed.

Lemma SifSetReg_skips_four_witness :
  let env := Env (fun _ => None) (fun _ => false) (fun _ => 0) (fun _ _ => 0) [] 1 2 3 4 5 119 121 4 0 0 252 252 1 2 in
  let s := Rst (set_opts (Opts 0 0 1 0 1 [] [] []) (set_ready 0 (fresh_dbg []))) 4 0 1 [] 0 0x100 0x200 ∅
             (PadPtrs 0 0 1) None [] in
  exists s', set_regs env [(1, 1); (2, 2); (3, 3); (4, 4); (5, 5)] s = Ok (tt, s') /\
    r_ext s' = [ExSetReg 5 5] /\ debugger_ready (r_dbg s') = 1 /\
    syscalls s' = <[121 := 0x200]> (<[119 := 0x100]> ∅).
Proof.
  intros env s.
  destruct (SifSetReg_skips_four env s [(1, 1); (2, 2); (3, 3); (4, 4); (5, 5)])
    as (s' & H1 & H2 & _ & H4 & H5); [reflexivity|].
  exists s'. split; [exact H1|]. split; [exact H2|]. split; [exact H4|exact H5].
Defined.

(** ** A complete reset *)

(** From [s] to [s'] the SDK calls [evs] were made; the memory, the options and the size of
    the buffer are the same. *)
Record goes (s s' : rst) (evs : list ext_ev) : Prop := {
  go_mem : d_mem (r_dbg s') = d_mem (r_dbg s);
  go_opts : g_debugger_opts (r_dbg s') = g_debugger_opts (r_dbg s);
  go_buf : length (g_buf (r_dbg s')) = length (g_buf (r_dbg s));
  go_ext : r_ext s' = r_ext s ++ evs;
}.

Lemma goes_refl s : goes s s [].
Proof. split; try done. by rewrite app_nil_r. Qed.

Lemma goes_trans s1 s2 s3 e1 e2 : goes s1 s2 e1 -> goes s2 s3 e2 -> goes s1 s3 (e1 ++ e2).
Proof. intros [] []. split; try congruence. by rewrite go_ext1, go_ext0, app_assoc. Qed.

Lemma goes_emits s b evs : length b = length (g_buf (r_dbg s)) -> goes s (emits evs (with_buf b s)) evs.
Proof. intros Hb. by split. Qed.

Lemma goes_buf s b b' : length b' = length b -> goes (with_buf b s) (with_buf b' s) [].
Proof. intros Hb. split; try done. cbn. by rewrite app_nil_r. Qed.

(** A computation that makes these calls. *)
Definition runs {A} (c : M rst A) (s : rst) (x : A) (s' : rst) (evs : list ext_ev) : Prop :=
  c s = Ok (x, s') /\ goes s s' evs.

Lemma runs_bind {A B} (c : M rst A) (k : A -> M rst B) s x s1 e1 y s2 e2 :
  runs c s x s1 e1 -> runs (k x) s1 y s2 e2 -> runs (bind c k) s y s2 (e1 ++ e2).
Proof.
  intros [H1 G1] [H2 G2]. split; [by rewrite (bind_ok _ _ _ _ _ H1)|by eapply goes_trans].
Qed.

Lemma runs_emit e s : runs (modify (emit e)) s tt (emit e s) [e].
Proof. split; [done|]. by split. Qed.

Lemma get_module_fits m h i :
  get_module_from_kernel m h BUFSIZE = Ok (Some i) -> Z.of_nat (length i) <= BUFSIZE.
Proof.
  unfold get_module_from_kernel, rbind. destruct (get_module_by_hash m h) as [[a n]|]; [|done].
  destruct (a =? 0); [done|]. destruct (Z.ltb_spec BUFSIZE n); [done|]. intros [= <-].
  rewrite length_load_bytes. assert (0 <= BUFSIZE) by done. lia.
Qed.

Lemma load_or_hang_runs env h args i s :
  get_module_from_kernel (d_mem (r_dbg s)) h BUFSIZE = Ok (Some i) ->
  0 <= SifExecModuleBuffer env i args -> Z.of_nat (length (g_buf (r_dbg s))) = BUFSIZE ->
  exists s', runs (load_or_hang env h args) s tt s' [ExExec i args].
Proof.
  intros Hm He Hb. pose proof (get_module_fits _ _ _ Hm) as Hf.
  set (b := splice (g_buf (r_dbg s)) 0 i).
  assert (Lb : length b = length (g_buf (r_dbg s))) by (apply length_splice; lia).
  exists (emits [ExExec i args] (with_buf b s)). split; [|by apply goes_emits].
  unfold load_or_hang. rewrite (bind_ok _ _ s (d_mem (r_dbg s)) s) by done.
  rewrite (bind_ok _ _ s (Some i) s) by (unfold lift; by rewrite Hm).
  rewrite (bind_ok _ _ s tt (with_buf b s)) by (apply fill_ok; lia).
  rewrite (bind_ok _ _ _ _ _ eq_refl). destruct (Z.ltb_spec (SifExecModuleBuffer env i args) 0); [lia|done].
Qed.

(** The modules in kernel RAM, and the addresses of the options. *)
Record installed (m : gmap Z Z) (dev9 ps2ip smap debugger memdisk : list Z) : Prop := {
  in_dev9 : get_module_from_kernel m HASH_PS2DEV9 BUFSIZE = Ok (Some dev9);
  in_ps2ip : get_module_from_kernel m HASH_PS2IP BUFSIZE = Ok (Some ps2ip);
  in_smap : get_module_from_kernel m HASH_PS2SMAP BUFSIZE = Ok (Some smap);
  in_debugger : get_module_from_kernel m HASH_DEBUGGER BUFSIZE = Ok (Some debugger);
  in_memdisk : get_module_from_kernel m HASH_MEMDISK BUFSIZE = Ok (Some memdisk);
}.

Lemma reload_modules_runs env s dev9 ps2ip smap debugger memdisk ip nm gw binds :
  installed (d_mem (r_dbg s)) dev9 ps2ip smap debugger memdisk ->
  ip_opts (g_debugger_opts (r_dbg s)) ip nm gw ->
  (forall i a, 0 <= SifExecModuleBuffer env i a) -> rpc_binds env = inr true :: binds ->
  Z.of_nat (length (g_buf (r_dbg s))) = BUFSIZE ->
  exists s', runs (reload_modules env) s tt s'
      [ExExec dev9 []; ExExec ps2ip []; ExExec smap (ip_args ip nm gw); ExExec debugger []] /\
    RPCclient_Inited (d_rpc (r_dbg s')) = true.
Proof.
  intros [I1 I2 I3 I4 _] Hip He Hbd Hb. unfold reload_modules.
  destruct (load_or_hang_runs env _ [] _ s I1 (He _ _) Hb) as (s1 & R1). pose proof (proj2 R1) as G1.
  destruct (load_or_hang_runs env HASH_PS2IP [] ps2ip s1) as (s2 & R2);
    [by rewrite (go_mem _ _ _ G1)|done|by rewrite (go_buf _ _ _ G1)|].
  pose proof (goes_trans _ _ _ _ _ G1 (proj2 R2)) as G2.
  destruct (get_ipconfig_spec s2 ip nm gw) as (b & E3 & Hb3); [by rewrite (go_opts _ _ _ G2)|].
  set (s3 := set_ipc b _ s2) in E3.
  assert (G3 : goes s2 s3 []) by (split; try done; by rewrite app_nil_r).
  pose proof (goes_trans _ _ _ _ _ G2 G3) as G3'.
  destruct (load_or_hang_runs env HASH_PS2SMAP (ip_args ip nm gw) smap s3) as (s4 & R4);
    [by rewrite (go_mem _ _ _ G3')|done|by rewrite (go_buf _ _ _ G3')|].
  pose proof (goes_trans _ _ _ _ _ G3' (proj2 R4)) as G4.
  destruct (load_or_hang_runs env HASH_DEBUGGER [] debugger s4) as (s5 & R5);
    [by rewrite (go_mem _ _ _ G4)|done|by rewrite (go_buf _ _ _ G4)|].
  set (d := set_d_rpc (set_inited true (set_inited false (d_rpc (r_dbg s5)))) (r_dbg s5)).
  exists (set_r_dbg d s5). split; [|done].
  apply (runs_bind _ _ _ _ _ [_] _ _ [_; _; _] R1). apply (runs_bind _ _ _ _ _ [_] _ _ [_; _] R2).
  apply (runs_bind _ _ s2 tt s3 [] _ _ [_; _]); [by split|].
  apply (runs_bind _ _ s3 (b, Z.of_nat (length (ip_args ip nm gw))) s3 [] _ _ [_; _]);
    [split; [done|apply goes_refl]|].
  cbn [fst snd]. rewrite Nat2Z.id, Hb3.
  apply (runs_bind _ _ _ _ _ [_] _ _ [_] R4). apply (runs_bind _ _ _ _ _ [_] _ _ [] R5).
  split; [|split; try done; by rewrite app_nil_r].
  unfold bind, on_dbg, on_rpc, rpcNTPBreset, bind, modify, ret. cbn. rewrite Hbd. done.
Qed.

(** The memory disk driver with the address and the size of the image. *)
Definition patched_memdisk (md : list Z) (dest size : Z) : list Z :=
  splice (splice md (Z.to_nat 0x19c) (le32 dest)) (Z.to_nat 0x1a8) (le32 size).

Lemma SifLoadModuleAsync_runs env path args s :
  0 <= SifLoadFileInit env -> exists r,
  runs (SifLoadModuleAsync env path args) s r
    (emit (ExLoadAsync (take (LF_PATH_MAX env - 1) path) (take (LF_ARG_MAX env) args)) s)
    [ExLoadAsync (take (LF_PATH_MAX env - 1) path) (take (LF_ARG_MAX env) args)].
Proof.
  intros Hi. unfold SifLoadModuleAsync. destruct (Z.ltb_spec (SifLoadFileInit env) 0); [lia|].
  exists (if lf_call env <? 0 then - E_SIF_RPC_CALL env else 0). split; [|by split].
  rewrite (bind_ok _ _ _ _ _ eq_refl). by destruct (lf_call env <? 0).
Qed.

Lemma start_memdisk_runs env dest size md s :
  get_module_from_kernel (d_mem (r_dbg s)) HASH_MEMDISK BUFSIZE = Ok (Some md) ->
  0x1ac <= Z.of_nat (length md) -> 0 <= SifLoadFileInit env ->
  Z.of_nat (length (g_buf (r_dbg s))) = BUFSIZE ->
  exists s', runs (start_memdisk env dest size) s tt s'
    [ExExec (patched_memdisk md dest size) [];
     ExLoadAsync (take (LF_PATH_MAX env - 1) (str "rom0:UDNL")) (take (LF_ARG_MAX env) (str "MDISK0:"))].
Proof.
  intros Hm Hl Hi Hb. pose proof (get_module_fits _ _ _ Hm) as Hf.
  assert (L4 : forall x, length (le32 x) = 4%nat) by done.
  set (b1 := splice (g_buf (r_dbg s)) 0 md).
  assert (L1 : length b1 = length (g_buf (r_dbg s))) by (apply length_splice; lia).
  set (b2 := splice b1 (Z.to_nat 0x19c) (le32 dest)).
  assert (L2 : length b2 = length (g_buf (r_dbg s))) by (unfold b2; rewrite length_splice; rewrite ?L4; lia).
  set (b3 := splice b2 (Z.to_nat 0x1a8) (le32 size)).
  assert (L3 : length b3 = length (g_buf (r_dbg s))) by (unfold b3; rewrite length_splice; rewrite ?L4; lia).
  assert (E : take (length md) b3 = patched_memdisk md dest size).
  { unfold b3. rewrite take_splice_ge by (rewrite ?L4, ?L2; lia). unfold b2.
    rewrite take_splice_ge by (rewrite ?L4, ?L1; lia). unfold b1.
    rewrite splice_0, take_app_length. done. }
  eexists. unfold start_memdisk.
  apply (runs_bind _ _ s (d_mem (r_dbg s)) s []); [split; [done|apply goes_refl]|].
  apply (runs_bind _ _ s (Some md) s []); [split; [unfold lift; by rewrite Hm|apply goes_refl]|].
  apply (runs_bind _ _ s tt (with_buf b1 s) []).
  { split; [apply (fill_ok 0 md s); lia|split; try done; by rewrite app_nil_r]. }
  apply (runs_bind _ _ _ tt (with_buf b2 s) []).
  { split; [|apply goes_buf; by rewrite L1].
    apply (fill_ok 0x19c (le32 dest) (with_buf b1 s)); [lia|].
    change (g_buf (r_dbg (with_buf b1 s))) with b1. rewrite L4, L1. lia. }
  apply (runs_bind _ _ _ tt (with_buf b3 s) []).
  { split; [|apply goes_buf; by rewrite L2].
    apply (fill_ok 0x1a8 (le32 size) (with_buf b2 s)); [lia|].
    change (g_buf (r_dbg (with_buf b2 s))) with b2. rewrite L4, L2. lia. }
  apply (runs_bind _ _ _ b3 (with_buf b3 s) []); [split; [done|apply goes_refl]|]. rewrite E.
  eapply (runs_bind _ _ _ tt _ [_] _ _ [_]); [apply runs_emit|].
  destruct (SifLoadModuleAsync_runs env (str "rom0:UDNL") (str "MDISK0:")
    (emit (ExExec (patched_memdisk md dest size) []) (with_buf b3 s)) Hi) as (r & R).
  rewrite <- (app_nil_r [ExLoadAsync _ _]). eapply runs_bind; [exact R|].
  split; [done|apply goes_refl].
Qed.


(** A small image: its directory of four entries, and an EESYNC of 16 bytes. *)
Definition rom_entry (name : string) (size : Z) : list Z :=
  str name ++ replicate (12 - length (str name)) 0 ++ le32 size.
Definition sample_image : list Z :=
  rom_entry "RESET" 0 ++ rom_entry "ROMDIR" 64 ++ rom_entry "EESYNC" 16 ++ replicate 16 0 ++
  replicate 16 0xaa.
Definition sample_env : reset_env :=
  Env (fun _ => Some sample_image) (fun _ => false) (fun _ => 0x1000) (fun _ _ => 0) [inr true]
    1 2 3 4 5 119 121 4 0 0 252 252 1 2.
Definition sample_rst : rst :=
  Rst (set_d_mem (install_modules [1; 2; 3; 4; 5; 6]
         [[1]; [2]; [3]; [4]; replicate 500 5; [0x7f; 0x45; 0x4c; 0x46]] ∅)
         (set_opts (Opts 0 0 0 0 1 (padded (str "10.0.0.1")) (padded (str "255.0.0.0")) (padded (str "10.0.0.2")))
           (fresh_dbg []))) 0 0 0 [] 0 0 0 ∅ (PadPtrs 0 0 1) None [].

