(* ===== verification/Syscalls.v ===== *)
(** * The syscall hooks of the three ERL modules (the [_init] and [_fini] functions of
      ee/engine/engine.c, ee/debugger/debugger.c and ee/elfldr/elfldr.c)

    Each module replaces handlers of the kernel when it is loaded and puts the old ones back
    when it is unloaded; the debugger may do so earlier, after the game's reset. *)

From S2P Require Import Prelude CString Bytes RamFile Debugger Engine LoaderUtil Pattern IopReset.
Local Open Scope ps2rd_scope.

(** The kernel's table is the one the debugger's state has, and the memory too. *)
Record kernel : Type := Kernel {
  k_rst : rst;
  OldSetupThread : Z;
  OldLoadExecPS2 : Z;
}.

Definition k_table (k : kernel) : gmap Z Z := syscalls (k_rst k).
Definition k_mem (k : kernel) : gmap Z Z := d_mem (r_dbg (k_rst k)).

Definition set_k_rst (r : rst) (k : kernel) : kernel := Kernel r (OldSetupThread k) (OldLoadExecPS2 k).

Definition GetSyscallHandler (nr : Z) (k : kernel) : Z := default 0 (k_table k !! nr).
Definition SetSyscall (nr handler : Z) (k : kernel) : kernel :=
  let r := k_rst k in
  set_k_rst (set_sys (OldSifSetDma r) (OldSifSetReg r) (<[nr := handler]> (syscalls r)) r) k.

Definition on_rst {A} (c : M rst A) : M kernel A := fun k =>
  match c (k_rst k) with Ok (x, r) => Ok (x, set_k_rst r k) | Err f => Err f end.

(** Syscall numbers, and the addresses of the hook functions and of the jump that ends
    [HookSetupThread]. *)
Record hook_env : Type := HookEnv {
  dbg_env : reset_env;
  nr_SetupThread : Z;
  nr_LoadExecPS2 : Z;
  a_HookSetupThread : Z;
  a_HookLoadExecPS2 : Z;
  a_j_SetupThread : Z;
}.

Section Modules.
Context (env : hook_env).

Definition engine_init : M kernel Z :=
  modify (fun k => Kernel (k_rst k) (GetSyscallHandler (nr_SetupThread env) k) (OldLoadExecPS2 k));;
  let* old := gets OldSetupThread in
  on_rst (on_mem (modify (fun m => store32 m (a_j_SetupThread env) (MAKE_J old))));;
  modify (SetSyscall (nr_SetupThread env) (KSEG0 (a_HookSetupThread env)));;
  ret 0.

Definition engine_fini : M kernel Z :=
  let* old := gets OldSetupThread in
  modify (SetSyscall (nr_SetupThread env) old);; ret 0.

Definition elfldr_init : M kernel Z :=
  modify (fun k => Kernel (k_rst k) (OldSetupThread k) (GetSyscallHandler (nr_LoadExecPS2 env) k));;
  modify (SetSyscall (nr_LoadExecPS2 env) (a_HookLoadExecPS2 env));; ret 0.

Definition elfldr_fini : M kernel Z :=
  let* old := gets OldLoadExecPS2 in
  modify (SetSyscall (nr_LoadExecPS2 env) old);; ret 0.

(** ** Loading and unloading in any order *)

Inductive erl : Type := ErlEngine | ErlDebugger | ErlElfldr.

#[export] Instance erl_eq_dec : EqDecision erl.
Proof. solve_decision. Defined.

(** What can happen: a module that is not loaded is loaded, one that is loaded is unloaded,
    the game sets a register through the debugger's hook. *)
Inductive sys_op : Type :=
| Load (e : erl)
| Unload (e : erl)
| SetReg (regnum regval : Z).

Definition run_op (o : sys_op) : M kernel unit :=
  match o with
  | Load ErlEngine => engine_init;; ret tt
  | Load ErlDebugger => on_rst (_init (dbg_env env));; ret tt
  | Load ErlElfldr => elfldr_init;; ret tt
  | Unload ErlEngine => engine_fini;; ret tt
  | Unload ErlDebugger => on_rst (_fini (dbg_env env));; ret tt
  | Unload ErlElfldr => elfldr_fini;; ret tt
  | SetReg n v => on_rst (NewSifSetReg (dbg_env env) n v)
  end.

(** The modules loaded after an operation, if it is possible. *)
Definition next_loaded (l : list erl) (o : sys_op) : option (list erl) :=
  match o with
  | Load e => if bool_decide (e ∈ l) then None else Some (e :: l)
  | Unload e => if bool_decide (e ∈ l) then Some (List.filter (fun x => bool_decide (x <> e)) l) else None
  | SetReg _ _ => if bool_decide (ErlDebugger ∈ l) then Some l else None
  end.

Inductive loads (k0 : kernel) : list erl -> kernel -> Prop :=
| loads_none : loads k0 [] k0
| loads_op l k o l' k' : loads k0 l k -> next_loaded l o = Some l' ->
    run_op o k = Ok (tt, k') -> loads k0 l' k'.

(** The module a handler belongs to. *)
Definition owner (nr : Z) : option erl :=
  if nr =? nr_SetupThread env then Some ErlEngine
  else if nr =? nr_LoadExecPS2 env then Some ErlElfldr
  else if (nr =? nr_SifSetDma (dbg_env env)) || (nr =? nr_SifSetReg (dbg_env env)) then Some ErlDebugger
  else None.

(** Where a jump at [pc] leads: the word gives the address in the segment of [pc]. *)
Definition jump_target (pc word : Z) : Z := pc / 2 ^ 28 * 2 ^ 28 + J_TARGET word.

(** ** Properties *)

Context (t0 : gmap Z Z).

(** The syscalls are different ones, and the kernel has handlers for them. *)
Record env_ok : Prop := {
  nr_distinct : NoDup [nr_SetupThread env; nr_LoadExecPS2 env; nr_SifSetDma (dbg_env env); nr_SifSetReg (dbg_env env)];
  nr_known nr : is_Some (owner nr) -> is_Some (t0 !! nr);
  j_high : 0x100000 <= a_j_SetupThread env;
}.

Notation table := k_table.
Notation D := (nr_SifSetDma (dbg_env env)).
Notation R := (nr_SifSetReg (dbg_env env)).

(** A loaded module has its hooks in place (the debugger may have withdrawn them) and keeps the
    handlers of the kernel; the jump at the end of [HookSetupThread] is made for the old one. *)
Definition loaded_ok (e : erl) (k : kernel) : Prop :=
  match e with
  | ErlEngine => table k !! nr_SetupThread env = Some (KSEG0 (a_HookSetupThread env)) /\
      t0 !! nr_SetupThread env = Some (OldSetupThread k) /\
      load32 (k_mem k) (a_j_SetupThread env) = MAKE_J (OldSetupThread k)
  | ErlElfldr => table k !! nr_LoadExecPS2 env = Some (a_HookLoadExecPS2 env) /\
      t0 !! nr_LoadExecPS2 env = Some (OldLoadExecPS2 k)
  | ErlDebugger => t0 !! D = Some (OldSifSetDma (k_rst k)) /\ t0 !! R = Some (OldSifSetReg (k_rst k))
  end.

Definition unloaded_ok (e : erl) (k : kernel) : Prop := forall nr, owner nr = Some e -> table k !! nr = t0 !! nr.

Definition hooked (l : list erl) (k : kernel) : Prop :=
  (forall nr, owner nr = None -> table k !! nr = t0 !! nr) /\
  forall e, (e ∈ l -> loaded_ok e k) /\ (e ∉ l -> unloaded_ok e k).

(** What concerns a module is unchanged. *)
Definition keeps (e : erl) (k k' : kernel) : Prop :=
  (forall nr, owner nr = Some e -> table k' !! nr = table k !! nr) /\
  match e with
  | ErlEngine => OldSetupThread k' = OldSetupThread k /\
      load32 (k_mem k') (a_j_SetupThread env) = load32 (k_mem k) (a_j_SetupThread env)
  | ErlElfldr => OldLoadExecPS2 k' = OldLoadExecPS2 k
  | ErlDebugger => OldSifSetDma (k_rst k') = OldSifSetDma (k_rst k) /\ OldSifSetReg (k_rst k') = OldSifSetReg (k_rst k)
  end.

Context (Henv : env_ok).

Lemma owners : owner (nr_SetupThread env) = Some ErlEngine /\ owner (nr_LoadExecPS2 env) = Some ErlElfldr /\
  owner D = Some ErlDebugger /\ owner R = Some ErlDebugger /\ D <> R.
Proof using Henv.
  pose proof (nr_distinct Henv) as H. rewrite !NoDup_cons, !elem_of_cons in H. unfold owner.
  destruct H as (H1 & H2 & H3 & _). rewrite !Z.eqb_refl.
  repeat match goal with |- context [?a =? ?b] => destruct (Z.eqb_spec a b); [exfalso; naive_solver|] end.
  rewrite orb_true_r. naive_solver.
Qed.

Lemma owner_engine nr : owner nr = Some ErlEngine -> nr = nr_SetupThread env.
Proof. unfold owner. repeat case_match; intros [=]; by apply Z.eqb_eq. Qed.
Lemma owner_elfldr nr : owner nr = Some ErlElfldr -> nr = nr_LoadExecPS2 env.
Proof. unfold owner. repeat case_match; intros [=]; by apply Z.eqb_eq. Qed.
Lemma owner_debugger nr : owner nr = Some ErlDebugger -> nr = D \/ nr = R.
Proof.
  unfold owner. destruct (nr =? nr_SetupThread env); [done|]. destruct (nr =? nr_LoadExecPS2 env); [done|].
  destruct (Z.eqb_spec nr D) as [->|]; [by left|]. destruct (Z.eqb_spec nr R) as [->|]; [by right|]. done.
Qed.

Lemma keeps_ok e k k' : keeps e k k' -> (loaded_ok e k -> loaded_ok e k') /\ (unloaded_ok e k -> unloaded_ok e k').
Proof using Henv.
  destruct owners as (O1 & O2 & O3 & O4 & _). intros [Ht Ho]. split.
  - destruct e; cbn [loaded_ok].
    + destruct Ho as [-> ->]. by rewrite (Ht _ O1).
    + destruct Ho as [-> ->]. done.
    + rewrite Ho. by rewrite (Ht _ O2).
  - intros H nr Hn. rewrite (Ht nr Hn). by apply H.
Qed.

(** One operation: what it does to the module it is about, and that it leaves the others. *)
Lemma hooked_step e l l' k k' :
  hooked l k -> (forall nr, owner nr = None -> table k' !! nr = table k !! nr) ->
  (forall x, x <> e -> keeps x k k' /\ (x ∈ l' <-> x ∈ l)) ->
  (e ∈ l' -> loaded_ok e k') -> (e ∉ l' -> unloaded_ok e k') -> hooked l' k'.
Proof using Henv.
  intros [Hn Hh] Hn' Hx H1 H2. split; [intros nr Ho; rewrite (Hn' nr Ho); by apply Hn|].
  intros x. destruct (decide (x = e)) as [->|Hne]; [by split|].
  destruct (Hx x Hne) as [Hk Hl]. rewrite Hl. destruct (keeps_ok x k k' Hk), (Hh x). by split; auto.
Qed.

(** Inserting a handler of the module [e]. *)
Lemma insert_other e nr h k nr' : owner nr = Some e -> owner nr' <> Some e ->
  table (SetSyscall nr h k) !! nr' = table k !! nr'.
Proof. intros H1 H2. apply lookup_insert_ne. congruence. Qed.

Lemma old_handler nr k : table k !! nr = t0 !! nr -> is_Some (owner nr) -> t0 !! nr = Some (GetSyscallHandler nr k).
Proof using Henv.
  intros H Ho. destruct (nr_known Henv nr Ho) as [x Hx]. unfold GetSyscallHandler. by rewrite H, Hx.
Qed.

Lemma filter_out (x e : erl) l : x <> e -> (x ∈ List.filter (fun y => bool_decide (y <> e)) l <-> x ∈ l).
Proof.
  intros Hne. rewrite !list_elem_of_In, List.filter_In. split; [naive_solver|]. intros H. split; [done|].
  by apply bool_decide_eq_true.
Qed.
Lemma filter_gone (e : erl) l : e ∉ List.filter (fun y => bool_decide (y <> e)) l.
Proof. rewrite list_elem_of_In, List.filter_In. intros [_ H%bool_decide_eq_true]. done. Qed.

Lemma MAKE_J_u32 a : u32 (MAKE_J a) = MAKE_J a.
Proof.
  unfold MAKE_J. pose proof (u32_range a). rewrite Z.land_comm. change 0x03FFFFFF with (Z.ones 26).
  rewrite Z.land_ones by lia. pose proof (Z.mod_pos_bound (Z.shiftr (u32 a) 2) (2 ^ 26) eq_refl) as B.
  set (x := _ mod 2 ^ 26) in *. apply Z.mod_small. split; [apply Z.lor_nonneg; lia|].
  apply (Z.lt_le_trans _ (2 ^ 28)); [|done]. apply Z.log2_lt_cancel. rewrite Z.log2_lor by lia.
  change (Z.log2 0x08000000) with 27. change (Z.log2 (2 ^ 28)) with 28.
  pose proof (Z.log2_le_mono x (2 ^ 26) ltac:(lia)) as L. change (Z.log2 (2 ^ 26)) with 26 in L. lia.
Qed.

Lemma step_load e l k k' : hooked l k -> e ∉ l -> run_op (Load e) k = Ok (tt, k') -> hooked (e :: l) k'.
Proof using Henv.
  intros Hh Hl Hr. destruct owners as (O1 & O2 & O3 & O4 & Hdr).
  assert (U : unloaded_ok e k) by (by apply Hh).
  assert (Hin : forall x, x <> e -> (x ∈ e :: l <-> x ∈ l)) by (intros x Hx; rewrite elem_of_cons; naive_solver).
  destruct e; injection Hr as <-; (match goal with |- hooked (?e :: l) _ => apply (hooked_step e l (e :: l) k) end; [done| | | |set_solver]).
  - intros nr Hn. by apply lookup_insert_ne; intros <-; rewrite O1 in Hn.
  - intros x Hx. split; [|by apply Hin]. split; [intros nr Hn; by apply lookup_insert_ne; intros <-; rewrite O1 in Hn; injection Hn as <-|].
    by destruct x.
  - intros _. split; [apply lookup_insert_eq|]. split; [apply old_handler; [by apply U|by rewrite O1]|].
    change (load32 (store32 (k_mem k) (a_j_SetupThread env) (MAKE_J (GetSyscallHandler (nr_SetupThread env) k))) (a_j_SetupThread env) =
            MAKE_J (GetSyscallHandler (nr_SetupThread env) k)). by rewrite load32_store32_eq, MAKE_J_u32.
  - intros nr Hn. unfold table. cbn. rewrite !lookup_insert_ne; [done|by intros <-; rewrite O3 in Hn|by intros <-; rewrite O4 in Hn].
  - intros x Hx. split; [|by apply Hin]. split.
    { intros nr Hn. unfold table. cbn. rewrite !lookup_insert_ne; [done|intros <-; congruence|intros <-; congruence]. }
    destruct x; [|done|done]. split; [done|]. cbn. apply load32_ext. intros i Hi. apply load8_store_bytes_ne.
    rewrite length_replicate. pose proof (j_high Henv). unfold HOOKS_BASE, MAX_HOOKS. lia.
  - intros _. split; cbn; [apply (old_handler D k); [by apply U|by rewrite O3]|].
    rewrite lookup_insert_ne by done. apply (old_handler R k); [by apply U|by rewrite O4].
  - intros nr Hn. by apply lookup_insert_ne; intros <-; rewrite O2 in Hn.
  - intros x Hx. split; [|by apply Hin]. split; [intros nr Hn; by apply lookup_insert_ne; intros <-; rewrite O2 in Hn; injection Hn as <-|].
    by destruct x.
  - intros _. split; [apply lookup_insert_eq|]. apply old_handler; [by apply U|by rewrite O2].
Qed.

Lemma step_unload e l k k' : hooked l k -> e ∈ l -> run_op (Unload e) k = Ok (tt, k') ->
  hooked (List.filter (fun x => bool_decide (x <> e)) l) k'.
Proof using Henv.
  intros Hh Hl Hr. destruct owners as (O1 & O2 & O3 & O4 & Hdr).
  assert (L : loaded_ok e k) by (by apply Hh).
  destruct e; injection Hr as <-; (match type of L with loaded_ok ?e _ => eapply (hooked_step e l _ k) end; [done| | |by intros []%filter_gone|intros _]).
  - intros nr Hn. by apply lookup_insert_ne; intros <-; rewrite O1 in Hn.
  - intros x Hx. split; [|by apply filter_out]. split; [intros nr Hn; by apply lookup_insert_ne; intros <-; rewrite O1 in Hn; injection Hn as <-|].
    by destruct x.
  - intros nr ->%owner_engine. destruct L as (_ & -> & _). apply lookup_insert_eq.
  - intros nr Hn. unfold table. cbn. rewrite !lookup_insert_ne; [done|by intros <-; rewrite O3 in Hn|by intros <-; rewrite O4 in Hn].
  - intros x Hx. split; [|by apply filter_out]. split; [|by destruct x].
    intros nr Hn. unfold table. cbn. rewrite !lookup_insert_ne; [done|intros <-; congruence|intros <-; congruence].
  - destruct L as [LD LR]. intros nr [-> | ->]%owner_debugger; unfold table; cbn.
    + rewrite lookup_insert_ne by done. rewrite LD. apply lookup_insert_eq.
    + rewrite LR. apply lookup_insert_eq.
  - intros nr Hn. by apply lookup_insert_ne; intros <-; rewrite O2 in Hn.
  - intros x Hx. split; [|by apply filter_out]. split; [intros nr Hn; by apply lookup_insert_ne; intros <-; rewrite O2 in Hn; injection Hn as <-|].
    by destruct x.
  - intros nr ->%owner_elfldr. destruct L as (_ & ->). apply lookup_insert_eq.
Qed.

(** A register write of the game changes no handler, or gives the debugger's back. *)
Lemma set_reg_effect n v r r' : NewSifSetReg (dbg_env env) n v r = Ok (tt, r') ->
  OldSifSetDma r' = OldSifSetDma r /\ OldSifSetReg r' = OldSifSetReg r /\ d_mem (r_dbg r') = d_mem (r_dbg r) /\
  (syscalls r' = syscalls r \/ syscalls r' = <[R := OldSifSetReg r]> (<[D := OldSifSetDma r]> (syscalls r))).
Proof.
  unfold NewSifSetReg, bind, gets, modify, r_opts, on_dbg. cbn.
  destruct (negb (set_reg_hook r =? 0)); cbn; [|intros [= <-]; naive_solver].
  destruct (set_reg_hook r - 1 =? 0); cbn; [|intros [= <-]; naive_solver].
  destruct (load_modules _ =? 1); cbn; destruct (negb _); cbn; intros [= <-]; cbn; naive_solver.
Qed.

Lemma step_setreg n v l k k' : hooked l k -> ErlDebugger ∈ l -> run_op (SetReg n v) k = Ok (tt, k') -> hooked l k'.
Proof using Henv.
  intros Hh Hl Hr. destruct owners as (O1 & O2 & O3 & O4 & Hdr). cbn [run_op] in Hr. unfold on_rst in Hr.
  destruct (NewSifSetReg (dbg_env env) n v (k_rst k)) as [[[] r']|] eqn:E; [|done]. injection Hr as <-.
  destruct (set_reg_effect n v _ _ E) as (E1 & E2 & E3 & E4).
  assert (Ht : forall nr, owner nr <> Some ErlDebugger -> syscalls r' !! nr = syscalls (k_rst k) !! nr).
  { intros nr Hn. destruct E4 as [-> | ->]; [done|]. rewrite !lookup_insert_ne; [done|by intros <-|by intros <-]. }
  apply (hooked_step ErlDebugger l l k); [done| | | |done].
  - intros nr Hn. apply Ht. by rewrite Hn.
  - intros x Hx. split; [|done]. split; [intros nr Hn; apply Ht; congruence|].
    destruct x; [|done|done]. split; [done|]. unfold k_mem. cbn. by rewrite E3.
  - intros _. cbn. rewrite E1, E2. exact (proj1 (proj2 Hh ErlDebugger) Hl).
Qed.

Lemma loads_hooked k0 l k : table k0 = t0 -> loads k0 l k -> hooked l k.
Proof using Henv.
  intros Ht H. induction H as [|l k o l' k' H IH Hn Hr].
  - split; [by intros nr _; rewrite Ht|]. intros e. split; [by intros []%elem_of_nil|]. intros _ nr _. by rewrite Ht.
  - destruct o as [e|e|n v]; cbn [next_loaded] in Hn; case_bool_decide as Hin; try done; injection Hn as <-.
    + by apply (step_load e l k).
    + by apply (step_unload e l k).
    + by apply (step_setreg n v l k).
Qed.

Lemma jump_to_old pc a : pc / 2 ^ 28 = 8 -> 2 ^ 31 <= a < 2 ^ 31 + 2 ^ 28 -> a mod 4 = 0 -> jump_target pc (MAKE_J a) = a.
Proof.
  intros Hpc Ha H4. unfold jump_target. rewrite Hpc, J_TARGET_MAKE_J. unfold u32. rewrite (Z.mod_small a) by lia.
  rewrite H4. assert (a mod 2 ^ 28 = a - 2 ^ 31); [|lia]. symmetry. apply (Z.mod_unique _ _ 8); lia.
Qed.

End Modules.

(** C36: the hooks never lose a handler of the kernel.  However the engine, the debugger and the
    ELF loader are loaded and unloaded, and whatever register writes of a game come in between,
    every handler that belongs to no loaded module is the kernel's own; while the engine is
    loaded, SetupThread leads to its hook, and the jump that ends the hook leads to the kernel's
    handler; the ELF loader and the debugger keep the kernel's handlers too. *)
Theorem hooks_restored env k0 l k :
  env_ok env (k_table k0) -> loads env k0 l k ->
  (forall nr, (forall e, owner env nr = Some e -> e ∉ l) -> k_table k !! nr = k_table k0 !! nr) /\
  (ErlEngine ∈ l -> k_table k !! nr_SetupThread env = Some (KSEG0 (a_HookSetupThread env)) /\
     forall h pc, k_table k0 !! nr_SetupThread env = Some h -> pc / 2 ^ 28 = 8 -> 2 ^ 31 <= h < 2 ^ 31 + 2 ^ 28 -> h mod 4 = 0 ->
       jump_target pc (load32 (k_mem k) (a_j_SetupThread env)) = h) /\
  (ErlElfldr ∈ l -> k_table k0 !! nr_LoadExecPS2 env = Some (OldLoadExecPS2 k)) /\
  (ErlDebugger ∈ l -> k_table k0 !! nr_SifSetDma (dbg_env env) = Some (OldSifSetDma (k_rst k)) /\
     k_table k0 !! nr_SifSetReg (dbg_env env) = Some (OldSifSetReg (k_rst k))).
Proof.
  intros Henv Hl. destruct (loads_hooked env _ Henv k0 l k eq_refl Hl) as [Hn Hh]. split; [|split; [|split]].
  - intros nr Ho. destruct (owner env nr) as [e|] eqn:E; [|by apply Hn]. apply (proj2 (Hh e)); [by apply Ho|done].
  - intros (H1 & H2 & H3)%(Hh ErlEngine). split; [done|]. intros h pc Hk Hpc Hr H4. rewrite H3.
    replace (OldSetupThread k) with h by congruence. by apply jump_to_old.
  - by intros [_ H]%(Hh ErlElfldr).
  - by intros H%(Hh ErlDebugger).
Qed.

(** A kernel with handlers at 0x80001000 and on; the engine and the debugger are loaded, the
    engine is unloaded again. *)
Definition sample_hooks : hook_env :=
  HookEnv sample_env 0x3c 0x06 0x00030000 0x00040000 0x80030100.
Definition sample_kernel : kernel :=
  Kernel (set_sys 0 0 (list_to_map [(0x3c, 0x80001000); (0x06, 0x80001100); (nr_SifSetDma sample_env, 0x80001200);
                                    (nr_SifSetReg sample_env, 0x80001300)]) sample_rst) 0 0.

Lemma sample_hooks_ok : env_ok sample_hooks (k_table sample_kernel).
Proof.
  split.
  - apply (bool_decide_unpack _). vm_compute. exact I.
  - intros nr. unfold owner. cbn [nr_SetupThread nr_LoadExecPS2 dbg_env sample_hooks].
    destruct (Z.eqb_spec nr 0x3c) as [->|]; [by eexists|]. destruct (Z.eqb_spec nr 0x06) as [->|]; [by eexists|].
    destruct (Z.eqb_spec nr (nr_SifSetDma sample_env)) as [->|]; [by eexists|].
    destruct (Z.eqb_spec nr (nr_SifSetReg sample_env)) as [->|]; [by eexists|]. by intros [].
  - vm_compute. congruence.
Qed.

Lemma hooks_restored_witness :
  exists k, loads sample_hooks sample_kernel [ErlDebugger] k /\
    k_table k !! 0x3c = Some 0x80001000 /\ k_table k !! nr_SifSetDma sample_env <> Some 0x80001200 /\
    OldSifSetDma (k_rst k) = 0x80001200.
Proof.
  set (k1 := state_or sample_kernel (run_op sample_hooks (Load ErlEngine) sample_kernel)).
  set (k2 := state_or sample_kernel (run_op sample_hooks (Load ErlDebugger) k1)).
  set (k3 := state_or sample_kernel (run_op sample_hooks (Unload ErlEngine) k2)).
  assert (L1 : loads sample_hooks sample_kernel [ErlEngine] k1)
    by (eapply (loads_op _ _ _ _ (Load ErlEngine)); [apply loads_none|reflexivity|reflexivity]).
  assert (L2 : loads sample_hooks sample_kernel [ErlDebugger; ErlEngine] k2)
    by (eapply (loads_op _ _ _ _ (Load ErlDebugger)); [exact L1|reflexivity|reflexivity]).
  assert (L3 : loads sample_hooks sample_kernel [ErlDebugger] k3)
    by (eapply (loads_op _ _ _ _ (Unload ErlEngine)); [exact L2|reflexivity|reflexivity]).
  exists k3. split; [exact L3|].
  destruct (hooks_restored sample_hooks sample_kernel [ErlDebugger] k3 sample_hooks_ok L3) as (H1 & _ & _ & H4).
  split; [rewrite H1; [reflexivity|intros e [= <-]; apply (bool_decide_unpack _); exact I]|].
  split; [vm_compute; congruence|].
  destruct H4 as [H4 _]; [left|]. exact (eq_sym (f_equal (default 0) H4)).
Defined.
