(* ===== verification/MemDisk.v ===== *)
(** * The memory disk driver and the EESYNC module on the IOP (iop/memdisk/memdisk.c,
      iop/eesync/eesync.c)

    The device through which the IOP reads the image that the reset hook has put into its
    memory (addresses are taken to be aligned to four bytes), and the module in that image that
    tells the EE when the IOP is up again. *)

From S2P Require Import Prelude.
Local Open Scope ps2rd_scope.
Local Open Scope Z_scope.

(** The address and the size, which the reset hook writes into the module. *)
Record ioprp_img_t : Type := IoprpImg { i_buf : Z; i_size : Z }.

Definition mdisk_dummy : Z := 0.

(** The loop copies words while [i] is positive; every round takes four bytes. *)
Fixpoint mdisk_loop (fuel : nat) (i buf img : Z) (m : gmap Z Z) : res (gmap Z Z) :=
  if i <=? 0 then Ok m
  else match fuel with
       | O => Err OutOfFuel
       | S fuel' => mdisk_loop fuel' (i - 4) (buf + 4) (img + 4) (store32 m buf (load32 m img))
       end.

Definition mdisk_read (d : ioprp_img_t) (buf size : Z) (m : gmap Z Z) : res (Z * gmap Z Z) :=
  let i := s32 size in
  let? m := mdisk_loop (Z.to_nat i) i buf (i_buf d) m in Ok (s32 size, m).

Definition SEEK_SET : Z := 0.

Definition mdisk_lseek (d : ioprp_img_t) (pos where_ : Z) : Z := if where_ =? SEEK_SET then 0 else i_size d.

(** ** Reading *)

Lemma copy_word m d s k : 0 <= k < 4 -> load8 (store32 m d (load32 m s)) (d + k) = load8 m (s + k).
Proof.
  intros Hk. unfold store32, store16. set (v := load32 m s).
  assert (Hv : v = load8 m s + 2 ^ 8 * load8 m (s + 1) + 2 ^ 16 * (load8 m (s + 2) + 2 ^ 8 * load8 m (s + 3))).
  { unfold v, load32, load16. replace (s + 2 + 1) with (s + 3) by lia. reflexivity. }
  pose proof (load8_range m s). pose proof (load8_range m (s + 1)). pose proof (load8_range m (s + 2)). pose proof (load8_range m (s + 3)).
  assert (Hc : k = 0 \/ k = 1 \/ k = 2 \/ k = 3) by lia. destruct Hc as [->|[->|[->| ->]]].
  - rewrite Z.add_0_r. rewrite !load8_store8_ne by lia. rewrite load8_store8_eq, Z.add_0_r. unfold u8. rewrite Hv. zlia.
  - rewrite !load8_store8_ne by lia. rewrite load8_store8_eq. unfold u8. rewrite Hv. zlia.
  - rewrite load8_store8_ne by lia. rewrite load8_store8_eq. unfold u8. rewrite Hv. zlia.
  - replace (d + 2 + 1) with (d + 3) by lia. rewrite load8_store8_eq. unfold u8. rewrite Hv. zlia.
Qed.

(** [i] bytes rounded up to words are copied, and nothing else changes. *)
Lemma mdisk_loop_copies fuel : forall i buf img m,
  i <= Z.of_nat fuel -> buf + i + 3 <= img \/ img + i + 3 <= buf ->
  exists m', mdisk_loop fuel i buf img m = Ok m' /\
    (forall k, 0 <= k < i -> load8 m' (buf + k) = load8 m (img + k)) /\
    (forall a, a < buf \/ buf + i + 3 <= a -> load8 m' a = load8 m a).
Proof.
  induction fuel as [|fuel IH]; intros i buf img m Hf Hd; cbn [mdisk_loop]; destruct (Z.leb_spec i 0) as [Hi|Hi];
    try (exists m; split; [done|]; split; [lia|done]); [lia|].
  destruct (IH (i - 4) (buf + 4) (img + 4) (store32 m buf (load32 m img))) as (m' & E & H1 & H2); [lia|lia|].
  exists m'. split; [done|]. split.
  - intros k Hk. destruct (decide (k < 4)).
    + rewrite H2 by lia. apply copy_word. lia.
    + replace (buf + k) with (buf + 4 + (k - 4)) by lia. rewrite H1 by lia. rewrite load8_store32_ne by lia. f_equal. lia.
  - intros a Ha. rewrite H2 by lia. apply load8_store32_ne. lia.
Qed.

(** UDNL asks for the size of the image with a seek to the end, goes back to the start and
    reads all of it: it gets the image. *)
Lemma mdisk_reads_image d buf m :
  0 <= i_size d < 2 ^ 31 -> buf + i_size d + 3 <= i_buf d \/ i_buf d + i_size d + 3 <= buf ->
  exists m', mdisk_lseek d 0 2 = i_size d /\ mdisk_lseek d 0 SEEK_SET = 0 /\ mdisk_read d buf (i_size d) m = Ok (i_size d, m') /\
    load_bytes m' buf (Z.to_nat (i_size d)) = load_bytes m (i_buf d) (Z.to_nat (i_size d)).
Proof.
  intros Hs Hd. destruct (mdisk_loop_copies (Z.to_nat (i_size d)) (i_size d) buf (i_buf d) m) as (m' & E & H1 & _); [lia|lia|].
  exists m'. split; [done|]. split; [done|]. unfold mdisk_read. rewrite s32_id by lia. rewrite E. split; [done|].
  apply list_eq. intros k. destruct (decide (k < Z.to_nat (i_size d))%nat) as [Hk|Hk].
  - rewrite !lookup_load_bytes by lia. f_equal. apply H1. lia.
  - rewrite !lookup_ge_None_2 by (rewrite length_load_bytes; lia). done.
Qed.

(** ** EESYNC *)

(** What loadcore and sifman keep: whether the export table is registered, the priorities of the
    callbacks to run when all modules are loaded, and the flags the EE sees. *)
Record loadcore : Type := Loadcore {
  exp_eesync : bool;
  post_reset_cbs : list Z;
  sm_flag : Z;
}.

Definition MODULE_RESIDENT_END : Z := 0.
Definition MODULE_NO_RESIDENT_END : Z := 1.

(** [sceSifSetSMFlag] sets bits. *)
Definition PostResetcb : M loadcore Z :=
  modify (fun s => Loadcore (exp_eesync s) (post_reset_cbs s) (Z.lor (sm_flag s) 0x40000));; ret 0.

(** [r] is the word [QueryBootMode] leads to, if any; [registered] the result of
    [RegisterLibraryEntries]. *)
Definition eesync_start (r : option Z) (registered : Z) : M loadcore Z :=
  let skip := match r with
              | Some bootmode => negb (Z.land bootmode 1 =? 0) || negb (Z.land bootmode 2 =? 0)
              | None => false
              end in
  if skip then ret MODULE_NO_RESIDENT_END
  else if registered <? 0 then ret MODULE_NO_RESIDENT_END
  else
    modify (fun s => Loadcore true (post_reset_cbs s ++ [2]) (sm_flag s));;
    ret MODULE_RESIDENT_END.

(** Loadcore runs the callback of every module that asked for one. *)
Fixpoint run_callbacks (cbs : list Z) : M loadcore unit :=
  match cbs with [] => ret tt | _ :: cbs' => PostResetcb;; run_callbacks cbs' end.

(** The EE gets its flag exactly when the module stays resident. *)
Lemma eesync_signals r registered s : post_reset_cbs s = [] -> Z.testbit (sm_flag s) 18 = false ->
  exists c s1 s2, eesync_start r registered s = Ok (c, s1) /\ run_callbacks (post_reset_cbs s1) s1 = Ok (tt, s2) /\
    (c = MODULE_RESIDENT_END <-> Z.testbit (sm_flag s2) 18 = true).
Proof.
  intros Hc Hf. unfold eesync_start. destruct (match r with Some _ => _ | None => false end).
  { do 3 eexists. split; [reflexivity|]. rewrite Hc. split; [reflexivity|]. rewrite Hf. split; discriminate. }
  destruct (registered <? 0).
  { do 3 eexists. split; [reflexivity|]. rewrite Hc. split; [reflexivity|]. rewrite Hf. split; discriminate. }
  do 3 eexists. split; [reflexivity|]. cbn [post_reset_cbs]. rewrite Hc. split; [reflexivity|]. cbn [sm_flag].
  rewrite Z.lor_spec, Hf. done.
Qed.
