(* ===== verification/Ntpb.v ===== *)
(** * The NTPB server on the IOP (iop/debugger/ntpbserver.c)

    Requests of the PC client arrive on a TCP connection, are handed to the EE by RPC, and
    the EE's replies go back in packets of the same form: a magic, a 16-bit data size, a
    16-bit command, the data. *)

From S2P Require Import Prelude CString Bytes RamFile Debugger.
Local Open Scope ps2rd_scope.

Definition ntpb_MagicSize : nat := 6.
Definition ntpb_hdrSize : nat := 10.
Definition ntpb_hdrmagic : list Z := [0xff; 0x00; 0x4e; 0x54; 0x50; 0x42].

Definition NTPB_BUF : nat := 4096.      (** sizeof(ntpb_buf) *)
Definition CMD_BUF : nat := 256.        (** sizeof(cmdbuf) *)

(** What the next receive meets: a failing [lwip_select] or [lwip_recv], or up to [k] bytes
    of what the client sent. *)
Inductive recv_ev : Type :=
| SelectFails
| RecvFails
| Arrive (k : nat).

(** The server: its globals, with the bytes that follow [ntpb_buf] in memory, its semaphores,
    and the connection: bytes to come, how [lwip_recv] cuts them up, what [lwip_send] returns
    next, bytes sent. *)
Record ntpb : Type := Ntpb {
  remote_cmd : Z;
  cmdbuf : list Z;
  cmdsize : Z;
  ntpb_buf : list Z;
  io_sema : Z;
  cmd_sema : Z;
  sock_in : list Z;
  sock_frag : list recv_ev;
  sock_sends : list Z;
  sock_out : list Z;
}.

Definition set_buf (b : list Z) (s : ntpb) : ntpb :=
  Ntpb (remote_cmd s) (cmdbuf s) (cmdsize s) b (io_sema s) (cmd_sema s) (sock_in s) (sock_frag s)
    (sock_sends s) (sock_out s).
Definition set_semas (io cmd : Z) (s : ntpb) : ntpb :=
  Ntpb (remote_cmd s) (cmdbuf s) (cmdsize s) (ntpb_buf s) io cmd (sock_in s) (sock_frag s)
    (sock_sends s) (sock_out s).
Definition set_in (i : list Z) (f : list recv_ev) (s : ntpb) : ntpb :=
  Ntpb (remote_cmd s) (cmdbuf s) (cmdsize s) (ntpb_buf s) (io_sema s) (cmd_sema s) i f
    (sock_sends s) (sock_out s).
Definition set_out (r o : list Z) (s : ntpb) : ntpb :=
  Ntpb (remote_cmd s) (cmdbuf s) (cmdsize s) (ntpb_buf s) (io_sema s) (cmd_sema s) (sock_in s)
    (sock_frag s) r o.
Definition set_cmd (c : Z) (b : list Z) (n : Z) (s : ntpb) : ntpb :=
  Ntpb c b n (ntpb_buf s) (io_sema s) (cmd_sema s) (sock_in s) (sock_frag s) (sock_sends s)
    (sock_out s).

(** A wait on a semaphore nobody will signal does not return. *)
Definition wait_io : M ntpb unit := fun s =>
  if 0 <? io_sema s then Ok (tt, set_semas (io_sema s - 1) (cmd_sema s) s) else Err Hang.
Definition signal_io : M ntpb unit := fun s =>
  Ok (tt, set_semas (Z.min 1 (io_sema s + 1)) (cmd_sema s) s).
Definition signal_cmd : M ntpb unit := fun s =>
  Ok (tt, set_semas (io_sema s) (Z.min 1 (cmd_sema s + 1)) s).

(** [memcpy] into [ntpb_buf]. *)
Definition buf_write (off : nat) (bs : list Z) : M ntpb unit := fun s =>
  if (off + length bs <=? length (ntpb_buf s))%nat
  then Ok (tt, set_buf (splice (ntpb_buf s) off bs) s) else Err OutOfBounds.

Definition check_ntpb_header (b : list Z) : bool :=
  bool_decide (take ntpb_MagicSize b = ntpb_hdrmagic).

(** [recv_noblock]: up to [bsize] bytes of what the network delivers next, stored at [off];
    0 when the connection is closed. *)
Definition recv_noblock (off bsize : nat) : M ntpb Z := fun s =>
  match default (Arrive (length (sock_in s))) (head (sock_frag s)) with
  | SelectFails => Ok (-1, set_in (sock_in s) (tail (sock_frag s)) s)
  | RecvFails => Ok (-2, set_in (sock_in s) (tail (sock_frag s)) s)
  | Arrive k =>
      let n := Nat.min (Nat.min (Nat.max 1 k) bsize) (length (sock_in s)) in
      let s' := set_in (drop n (sock_in s)) (tail (sock_frag s)) s in
      let? '(_, s'') := buf_write off (take n (sock_in s)) s' in
      Ok (Z.of_nat n, s'')
  end.

(** [lwip_send] of the bytes from [off]: a negative result is an error, otherwise the number
    of bytes it took, at most [n]. *)
Definition lwip_send (off n : nat) : M ntpb Z := fun s =>
  let k := match sock_sends s with [] => Z.of_nat n | k :: _ => Z.min k (Z.of_nat n) end in
  if k <? 0 then Ok (k, set_out (tail (sock_sends s)) (sock_out s) s)
  else
    Ok (k, set_out (tail (sock_sends s))
             (sock_out s ++ take (Z.to_nat k) (drop off (ntpb_buf s))) s).

(** [while (sent_size < packetSize)]: true when everything was sent. *)
Fixpoint send_packet (fuel : nat) (sent packetSize : nat) : M ntpb bool :=
  if (sent <? packetSize)%nat then
    match fuel with
    | O => fail OutOfFuel
    | S fuel' =>
        let* r := lwip_send sent (packetSize - sent) in
        if r <? 0 then ret false else send_packet fuel' (sent + Z.to_nat r) packetSize
    end
  else ret true.

(** [while (recv_size < packetSize)]: true when the packet is complete. *)
Fixpoint recv_rest (fuel : nat) (recv_size packetSize : nat) : M ntpb bool :=
  if (recv_size <? packetSize)%nat then
    match fuel with
    | O => fail OutOfFuel
    | S fuel' =>
        let* r := recv_noblock recv_size (NTPB_BUF - recv_size) in
        if r <=? 0 then ret false else recv_rest fuel' (recv_size + Z.to_nat r) packetSize
    end
  else ret true.

(** Enough rounds: an accepted send is one of [sock_sends] or the last one, a receive that
    counts takes at least one byte. *)
Definition rounds (s : ntpb) : nat := S (length (sock_sends s) + length (sock_in s)).

(** A packet from the connection: when one is in [ntpb_buf], its data size as the first
    receive left it there ([ntpbpktSize]). *)
Definition recv_packet : M ntpb (option Z) :=
  let* r := recv_noblock 0 NTPB_BUF in
  if r <=? 0 then ret None
  else
    let* b := gets ntpb_buf in
    let ntpbpktSize := u16_at b ntpb_MagicSize in
    let packetSize := (Z.to_nat ntpbpktSize + ntpb_hdrSize)%nat in
    let* fuel := gets rounds in
    let* ok := recv_rest fuel (Z.to_nat r) packetSize in
    ret (if ok : bool then Some ntpbpktSize else None).

(** Send the first [packetSize] bytes of [ntpb_buf]. *)
Definition send_buf (packetSize : nat) : M ntpb bool :=
  let* fuel := gets rounds in
  send_packet fuel 0 packetSize.

(** The wait for the client's answer; the result on every exit. *)
Definition client_reply : M ntpb Z :=
  let* p := recv_packet in
  match p with
  | None => ret (-1)
  | Some _ =>
    let* b := gets ntpb_buf in
    if negb (check_ntpb_header b) then ret (-2)
    else if negb (u16_at b ntpb_hdrSize =? 1) then ret (-2)
    else ret 0
  end.

Definition ntpbserverEndReply : M ntpb Z :=
  wait_io;;
  buf_write 0 ntpb_hdrmagic;;
  buf_write ntpb_MagicSize (le16 0);;
  buf_write (ntpb_MagicSize + 2) (le16 0xffff);;
  let* ok := send_buf ntpb_hdrSize in
  if negb ok then ret (-1)
  else
    let* r := client_reply in
    if r <? 0 then ret r
    else signal_cmd;; signal_io;; ret 0.

Definition ntpbserverSendData (cmd : Z) (buf : list Z) : M ntpb Z :=
  wait_io;;
  buf_write 0 ntpb_hdrmagic;;
  buf_write ntpb_MagicSize (le16 (Z.of_nat (length buf)));;
  buf_write (ntpb_MagicSize + 2) (le16 cmd);;
  buf_write ntpb_hdrSize buf;;
  let* ok := send_buf (length buf + ntpb_hdrSize) in
  if negb ok then ret (-1)
  else
    let* r := client_reply in
    if r <? 0 then ret r
    else signal_io;; ret 0.

(** How a round of [handleClient] ends: it returns, it waits for the command semaphore
    before the next round, or, after a packet without the magic, it goes on at once. *)
Inductive round_end : Type :=
| ClientGone (r : Z)
| AwaitCmd
| NextPacket.

Definition handleClient_round : M ntpb round_end :=
  let* p := recv_packet in
  match p with
  | None => ret (ClientGone (-1))
  | Some ntpbpktSize =>
    let* b := gets ntpb_buf in
    if negb (check_ntpb_header b) then ret NextPacket
    else
      let n := Z.to_nat ntpbpktSize in
      let* old := gets cmdbuf in
      if (CMD_BUF <? n)%nat then fail OutOfBounds
      else
        modify (set_cmd (u16_at b 8) (splice old 0 (take n (drop ntpb_hdrSize b))) (Z.of_nat n));;
        buf_write 6 (le16 0);;
        buf_write ntpb_hdrSize (le16 1);;
        let* ok := send_buf (ntpb_hdrSize + 2) in
        if ok : bool then ret AwaitCmd else ret (ClientGone (-1))
  end.

(** ** RPC functions *)

(** [_rpcNTPBsendDataToClient]: the parameter block as it arrived, followed by whatever lies
    behind the RPC buffer. *)
Definition _rpcNTPBsendDataToClient (rpc_buf : list Z) : M ntpb Z :=
  let size := Z.to_nat (u32_at rpc_buf SIZE_OFF) in
  if (length rpc_buf <? 2 + size)%nat then fail OutOfBounds
  else ntpbserverSendData (u16_at rpc_buf 0) (take size (drop 2 rpc_buf)).

(** [_rpcNTPBgetRemoteCmd] fills the block in the RPC buffer; the pending command is
    cleared. *)
Definition _rpcNTPBgetRemoteCmd (rpc_buf : list Z) : M ntpb (list Z) := fun s =>
  let b := splice rpc_buf 0 (le16 (remote_cmd s)) in
  let b := splice b 2 (take (Z.to_nat (cmdsize s)) (cmdbuf s)) in
  let b := splice b CMD_SIZE_OFF (le32 (cmdsize s)) in
  Ok (b, set_cmd 0 (cmdbuf s) (cmdsize s) s).

(** ** Packets *)

Definition packet (cmd : Z) (data : list Z) : list Z :=
  ntpb_hdrmagic ++ le16 (Z.of_nat (length data)) ++ le16 cmd ++ data.

Lemma length_packet cmd data : length (packet cmd data) = (ntpb_hdrSize + length data)%nat.
Proof. done. Qed.

Lemma buf_write_ok off bs s :
  (off + length bs <= length (ntpb_buf s))%nat ->
  buf_write off bs s = Ok (tt, set_buf (splice (ntpb_buf s) off bs) s).
Proof. intros H. unfold buf_write. by rewrite (proj2 (Nat.leb_le _ _) H). Qed.

Lemma packet_size cmd data rest :
  Z.of_nat (length data) < 2 ^ 16 -> u16_at (packet cmd data ++ rest) 6 = Z.of_nat (length data).
Proof. intros H. apply (le16_value (Z.of_nat (length data))). unfold is_u16. lia. Qed.

Lemma packet_cmd cmd data rest : is_u16 cmd -> u16_at (packet cmd data ++ rest) 8 = cmd.
Proof. intros H. exact (le16_value cmd H). Qed.

Lemma packet_magic cmd data rest : check_ntpb_header (packet cmd data ++ rest) = true.
Proof. reflexivity. Qed.

(** ** Fragmentation *)

(** Everything but the send side is unchanged. *)
Lemma send_packet_spec n : forall fuel sent s,
  Forall (fun k => 0 <= k) (sock_sends s) -> (length (sock_sends s) < fuel)%nat ->
  (sent <= n <= length (ntpb_buf s))%nat ->
  exists rs, send_packet fuel sent n s =
      Ok (true, set_out rs (sock_out s ++ take (n - sent) (drop sent (ntpb_buf s))) s) /\
    Forall (fun k => 0 <= k) rs.
Proof.
  induction fuel as [|fuel IH]; intros sent s Hs Hf Hn; [lia|]. cbn [send_packet].
  destruct (Nat.ltb_spec sent n) as [Hlt|Hge].
  2:{ exists (sock_sends s). replace (n - sent)%nat with 0%nat by lia. simpl.
      rewrite app_nil_r. split; [by destruct s|done]. }
  unfold lwip_send at 1, bind at 1. destruct (sock_sends s) as [|k ks] eqn:Es.
  - destruct (Z.ltb_spec (Z.of_nat (n - sent)) 0); [lia|]. simpl.
    destruct (Z.ltb_spec (Z.of_nat (n - sent)) 0); [lia|].
    rewrite Nat2Z.id. exists []. split; [|done].
    destruct fuel; cbn [send_packet]; rewrite (proj2 (Nat.ltb_ge _ _)) by lia; done.
  - apply Forall_cons in Hs as [Hk Hks]. simpl in Hf.
    destruct (Z.ltb_spec (Z.min k (Z.of_nat (n - sent))) 0); [lia|]. simpl.
    destruct (Z.ltb_spec (Z.min k (Z.of_nat (n - sent))) 0); [lia|].
    set (j := Z.to_nat (Z.min k (Z.of_nat (n - sent)))).
    edestruct (IH (sent + j)%nat (set_out ks (sock_out s ++ take j (drop sent (ntpb_buf s))) s))
      as (rs & Hr & Hrs); [done|simpl; lia|simpl; lia|].
    rewrite Hr. exists rs. split; [|done]. simpl.
    assert (Ho : (sock_out s ++ take j (drop sent (ntpb_buf s))) ++
                 take (n - (sent + j)) (drop (sent + j) (ntpb_buf s)) =
                 sock_out s ++ take (n - sent) (drop sent (ntpb_buf s))).
    { rewrite <- app_assoc, <- drop_drop. f_equal.
      replace (n - sent)%nat with (j + (n - (sent + j)))%nat by lia. by rewrite take_take_drop. }
    unfold set_out. simpl. by rewrite Ho.
Qed.

(** No receive fails. *)
Definition arrives (s : ntpb) : Prop := Forall (fun e => exists k, e = Arrive k) (sock_frag s).

Lemma arrives_next s :
  arrives s -> exists k, default (Arrive (length (sock_in s))) (head (sock_frag s)) = Arrive k.
Proof. intros H. destruct H as [|e l [k ->] _]; by eexists. Qed.

Lemma arrives_tail s : arrives s -> Forall (fun e => exists k, e = Arrive k) (tail (sock_frag s)).
Proof. by intros []. Qed.

Lemma recv_rest_spec p : forall fuel k s, arrives s ->
  (k <= length p <= NTPB_BUF)%nat -> (NTPB_BUF <= length (ntpb_buf s))%nat ->
  (length (sock_in s) < fuel)%nat -> sock_in s = drop k p ->
  ntpb_buf s = take k p ++ drop k (ntpb_buf s) ->
  exists fs, recv_rest fuel k (length p) s =
    Ok (true, set_buf (p ++ drop (length p) (ntpb_buf s)) (set_in [] fs s)).
Proof.
  induction fuel as [|fuel IH]; intros k s Har Hk Hb Hf Hin Hbuf; [lia|]. cbn [recv_rest].
  destruct (Nat.ltb_spec k (length p)) as [Hlt|Hge].
  2:{ exists (sock_frag s). assert (Hkp : k = length p) by lia.
      rewrite Hkp in Hin, Hbuf. rewrite drop_ge in Hin by lia. rewrite take_ge in Hbuf by lia.
      rewrite <- Hbuf. destruct s; simpl in *. by subst. }
  unfold recv_noblock, bind at 1. destruct (arrives_next s Har) as (k0 & ->). cbn zeta.
  set (j := Nat.min _ (length (sock_in s))).
  assert (Hj : (0 < j <= length p - k)%nat).
  { unfold j. rewrite Hin, length_drop. unfold NTPB_BUF in *. lia. }
  rewrite buf_write_ok by (simpl; rewrite length_take; lia). cbn [rbind].
  destruct (Z.leb_spec (Z.of_nat j) 0); [lia|]. rewrite Nat2Z.id.
  set (s1 := set_buf _ _).
  assert (Hlk : length (take k p) = k) by (rewrite length_take; lia).
  assert (Hb1 : ntpb_buf s1 = take (k + j) p ++ drop (k + j) (ntpb_buf s)).
  { unfold s1. simpl. unfold splice. rewrite Hin, length_take, length_drop.
    rewrite Hbuf at 1. rewrite take_app_length' by lia.
    replace (take (k + j) p) with (take k p ++ take j (drop k p)) by (by rewrite take_take_drop).
    rewrite <- app_assoc. do 2 f_equal. f_equal. lia. }
  assert (Hl1 : length (ntpb_buf s1) = length (ntpb_buf s)).
  { rewrite Hb1, length_app, length_take, length_drop. lia. }
  destruct (IH (k + j)%nat s1) as (fs & Hr).
  - exact (arrives_tail s Har).
  - lia.
  - lia.
  - unfold s1. simpl. rewrite length_drop. lia.
  - unfold s1. simpl. by rewrite Hin, drop_drop.
  - rewrite Hb1 at 1. f_equal. rewrite Hb1, drop_app_length' by (rewrite length_take; lia). done.
  - exists fs. assert (Hd : drop (length p) (ntpb_buf s1) = drop (length p) (ntpb_buf s)).
    { rewrite Hb1, drop_app_ge by (rewrite length_take; lia). rewrite length_take, drop_drop.
      f_equal. lia. }
    by rewrite Hr, Hd.
Qed.

(** The first receive brings at least the size field, the rest comes in any pieces. *)
Definition first_ok (s : ntpb) : Prop :=
  arrives s /\ match sock_frag s with Arrive k :: _ => (8 <= k)%nat | _ => True end.

Lemma recv_packet_spec s cmd data :
  sock_in s = packet cmd data -> first_ok s -> (NTPB_BUF <= length (ntpb_buf s))%nat ->
  (ntpb_hdrSize + length data <= NTPB_BUF)%nat ->
  exists fs, recv_packet s =
    Ok (Some (Z.of_nat (length data)), set_buf (packet cmd data ++ drop (ntpb_hdrSize + length data) (ntpb_buf s))
                (set_in [] fs s)).
Proof.
  intros Hin [Har Hfirst] Hb Hlen. unfold recv_packet, recv_noblock, bind at 1.
  destruct (arrives_next s Har) as (k0 & Hk0). rewrite Hk0. cbn zeta.
  set (j := Nat.min _ (length (sock_in s))). set (p := packet cmd data) in *.
  assert (Hlp : length p = (ntpb_hdrSize + length data)%nat) by apply length_packet.
  assert (Hj : (8 <= j <= length p)%nat).
  { unfold j. rewrite Hin, Hlp. rewrite Hin, Hlp in Hk0.
    destruct (sock_frag s) as [|[]]; simpl in Hk0; simplify_eq;
      unfold NTPB_BUF, ntpb_hdrSize in *; lia. }
  rewrite buf_write_ok by (simpl; rewrite length_take; lia). cbn [rbind].
  destruct (Z.leb_spec (Z.of_nat j) 0); [lia|]. set (s1 := set_buf _ _).
  assert (Hb1 : ntpb_buf s1 = take j p ++ drop j (ntpb_buf s)).
  { unfold s1. simpl. rewrite Hin, splice_0, length_take. do 2 f_equal. lia. }
  rewrite (bind_ok _ _ s1 (ntpb_buf s1) s1) by done.
  rewrite (bind_ok _ _ s1 (rounds s1) s1) by done.
  assert (Hsize : u16_at (ntpb_buf s1) ntpb_MagicSize = Z.of_nat (length data)).
  { rewrite Hb1, u16_at_app by (rewrite length_take; unfold ntpb_MagicSize; lia).
    rewrite u16_at_take by (unfold ntpb_MagicSize; lia).
    rewrite <- (app_nil_r p). apply packet_size. unfold NTPB_BUF, ntpb_hdrSize in *. lia. }
  rewrite Hsize, !Nat2Z.id.
  replace (length data + ntpb_hdrSize)%nat with (length p) by lia.
  destruct (recv_rest_spec p (rounds s1) j s1) as (fs & Hr).
  - exact (arrives_tail s Har).
  - lia.
  - rewrite Hb1, length_app, length_take, length_drop. lia.
  - unfold rounds. lia.
  - unfold s1. simpl. by rewrite Hin.
  - rewrite Hb1 at 1. f_equal. rewrite Hb1, drop_app_length' by (rewrite length_take; lia). done.
  - exists fs. assert (Hd : drop (length p) (ntpb_buf s1) =
                            drop (ntpb_hdrSize + length data) (ntpb_buf s)).
    { rewrite Hb1, drop_app_ge by (rewrite length_take; lia). rewrite length_take, drop_drop.
      f_equal. lia. }
    by rewrite (bind_ok _ _ _ _ _ Hr), Hd.
Qed.

(** ** The server's operations *)

Lemma send_buf_spec n s :
  Forall (fun k => 0 <= k) (sock_sends s) -> (n <= length (ntpb_buf s))%nat ->
  exists rs, send_buf n s = Ok (true, set_out rs (sock_out s ++ take n (ntpb_buf s)) s) /\
    Forall (fun k => 0 <= k) rs.
Proof.
  intros Hs Hn. unfold send_buf. rewrite (bind_ok _ _ s (rounds s) s) by done.
  destruct (send_packet_spec n (rounds s) 0 s Hs) as (rs & Hr & Hrs); [unfold rounds; lia|lia|].
  exists rs. rewrite Hr, Nat.sub_0_r. done.
Qed.

(** The acknowledgement of a request. *)
Definition reply_ack (cmd : Z) : list Z := ntpb_hdrmagic ++ le16 0 ++ le16 cmd ++ le16 1.

(** One round of [handleClient] on a request. *)
Lemma round_ok s cmd data :
  sock_in s = packet cmd data -> first_ok s -> Forall (fun k => 0 <= k) (sock_sends s) ->
  (NTPB_BUF <= length (ntpb_buf s))%nat -> length (cmdbuf s) = CMD_BUF ->
  is_u16 cmd -> (length data <= CMD_BUF)%nat ->
  exists b fs rs, handleClient_round s = Ok (AwaitCmd, set_out rs (sock_out s ++ reply_ack cmd)
      (set_buf b (set_cmd cmd (data ++ drop (length data) (cmdbuf s)) (Z.of_nat (length data)) (set_in [] fs s)))) /\
    length b = length (ntpb_buf s) /\ Forall (fun k => 0 <= k) rs.
Proof.
  intros Hin Hfirst Hs Hb Hcb Hcmd Hd. unfold handleClient_round.
  destruct (recv_packet_spec s cmd data Hin Hfirst Hb) as (fs & Hr);
    [unfold NTPB_BUF, CMD_BUF, ntpb_hdrSize in *; lia|].
  rewrite (bind_ok _ _ _ _ _ Hr). set (s1 := set_buf _ _).
  rewrite (bind_ok _ _ s1 (ntpb_buf s1) s1) by done.
  assert (Hb1 : ntpb_buf s1 = packet cmd data ++ drop (ntpb_hdrSize + length data) (ntpb_buf s)) by done.
  rewrite Hb1, packet_magic, packet_cmd, Nat2Z.id by done.
  cbn [negb]. rewrite (bind_ok _ _ s1 (cmdbuf s1) s1) by done.
  rewrite (proj2 (Nat.ltb_ge _ _)) by done.
  change (drop ntpb_hdrSize (packet cmd data ++ drop (ntpb_hdrSize + length data) (ntpb_buf s)))
    with (data ++ drop (ntpb_hdrSize + length data) (ntpb_buf s)). rewrite take_app_length, splice_0.
  rewrite (bind_ok _ _ s1 tt _ eq_refl). set (s2 := set_cmd _ _ _ s1).
  assert (Hl2 : length (ntpb_buf s2) = length (ntpb_buf s)).
  { change (ntpb_buf s2) with (ntpb_buf s1). rewrite Hb1, length_app, length_packet, length_drop.
    unfold NTPB_BUF, ntpb_hdrSize, CMD_BUF in *. lia. }
  assert (Hlen : (12 <= length (ntpb_buf s2))%nat) by (rewrite Hl2; unfold NTPB_BUF in *; lia).
  rewrite (bind_ok _ _ _ _ _ (buf_write_ok 6 (le16 0) s2 (Nat.le_trans 8 12 _ ltac:(lia) Hlen))).
  set (s3 := set_buf _ s2).
  assert (Hl3 : length (ntpb_buf s3) = length (ntpb_buf s2)) by (apply length_splice; exact (Nat.le_trans 8 12 _ ltac:(lia) Hlen)).
  assert (Hlen3 : (12 <= length (ntpb_buf s3))%nat) by (by rewrite Hl3).
  rewrite (bind_ok _ _ _ _ _ (buf_write_ok ntpb_hdrSize (le16 1) s3 Hlen3)).
  set (s4 := set_buf _ s3).
  assert (Hl4 : length (ntpb_buf s4) = length (ntpb_buf s3))
    by (apply length_splice; exact Hlen3).
  destruct (send_buf_spec (ntpb_hdrSize + 2) s4 Hs) as (rs & Hsend & Hrs);
    [rewrite Hl4, Hl3; exact Hlen|].
  rewrite (bind_ok _ _ _ _ _ Hsend). exists (ntpb_buf s4), fs, rs. split; [reflexivity|]. split; [congruence|done].
Qed.

(** C29: a request survives any fragmentation.  When the client's packet arrives in pieces
    of any size, the first of them carrying at least the size field, one round of
    [handleClient] stores exactly its command and data and answers with one acknowledging
    packet, however the stack cuts the answer up. *)
Theorem handleClient_reassembles s cmd data :
  sock_in s = packet cmd data -> first_ok s -> Forall (fun k => 0 <= k) (sock_sends s) ->
  (NTPB_BUF <= length (ntpb_buf s))%nat -> length (cmdbuf s) = CMD_BUF ->
  is_u16 cmd -> (length data <= CMD_BUF)%nat ->
  exists s', handleClient_round s = Ok (AwaitCmd, s') /\
    remote_cmd s' = cmd /\ cmdsize s' = Z.of_nat (length data) /\
    take (length data) (cmdbuf s') = data /\
    sock_out s' = sock_out s ++ ntpb_hdrmagic ++ le16 0 ++ le16 cmd ++ le16 1.
Proof.
  intros Hin Hfirst Hs Hb Hcb Hcmd Hd.
  destruct (round_ok s cmd data Hin Hfirst Hs Hb Hcb Hcmd Hd) as (b & fs & rs & E & _). eexists. split; [exact E|].
  cbn [remote_cmd cmdsize cmdbuf sock_out set_out set_buf set_cmd set_in]. split; [done|]. split; [done|]. split; [|done]. apply take_app_length.
Qed.

Lemma handleClient_reassembles_witness :
  let s := Ntpb 0 (replicate 256 0) 0 (replicate 4106 0) 1 0
             (packet 0x100 (le32 0x00100000 ++ le32 0x00200000)) [Arrive 9; Arrive 2; Arrive 5] [3; 0; 4] [] in
  exists s', handleClient_round s = Ok (AwaitCmd, s') /\
    remote_cmd s' = 0x100 /\ cmdsize s' = 8 /\
    take 8 (cmdbuf s') = le32 0x00100000 ++ le32 0x00200000 /\
    sock_out s' = ntpb_hdrmagic ++ le16 0 ++ le16 0x100 ++ le16 1.
Proof.
  intros s. apply (handleClient_reassembles s 0x100 (le32 0x00100000 ++ le32 0x00200000)).
  - reflexivity.
  - split; [repeat constructor; by eexists|vm_compute; lia].
  - repeat constructor; vm_compute; congruence.
  - apply Nat.leb_le. vm_compute. reflexivity.
  - vm_compute. reflexivity.
  - split; vm_compute; congruence.
  - apply Nat.leb_le. vm_compute. reflexivity.
Defined.

(** Writing a packet piece by piece. *)
Definition header (size cmd : Z) : list Z := ntpb_hdrmagic ++ le16 size ++ le16 cmd.

Lemma build_header s size cmd : (ntpb_hdrSize <= length (ntpb_buf s))%nat ->
  forall (k : M ntpb Z),
  (buf_write 0 ntpb_hdrmagic;; buf_write ntpb_MagicSize (le16 size);; buf_write (ntpb_MagicSize + 2) (le16 cmd);; k) s =
  k (set_buf (header size cmd ++ drop ntpb_hdrSize (ntpb_buf s)) s).
Proof.
  intros Hl k. unfold ntpb_hdrSize in Hl.
  rewrite (bind_ok _ _ _ _ _ (buf_write_ok 0 ntpb_hdrmagic s ltac:(cbn [length ntpb_hdrmagic]; lia))).
  rewrite splice_0.
  set (s1 := set_buf _ s). set (m0 := ntpb_hdrmagic) in *.
  assert (L1 : length (ntpb_buf s1) = length (ntpb_buf s)).
  { unfold s1. cbn [ntpb_buf set_buf]. rewrite length_app, length_drop. unfold m0. cbn [length ntpb_hdrmagic]. lia. }
  rewrite (bind_ok _ _ _ _ _ (buf_write_ok ntpb_MagicSize (le16 size) s1
    ltac:(rewrite L1; unfold ntpb_MagicSize; cbn [length le16]; lia))).
  change (splice (ntpb_buf s1) ntpb_MagicSize (le16 size)) with
    (splice (m0 ++ drop (length m0) (ntpb_buf s)) (length m0) (le16 size)).
  rewrite splice_app. set (m1 := m0 ++ le16 size). set (s2 := set_buf _ s1).
  assert (L2 : length (ntpb_buf s2) = length (ntpb_buf s)).
  { unfold s2. cbn [ntpb_buf set_buf]. rewrite length_app, length_drop. unfold m1, m0.
    cbn [length ntpb_hdrmagic le16 app]. lia. }
  rewrite (bind_ok _ _ _ _ _ (buf_write_ok (ntpb_MagicSize + 2) (le16 cmd) s2
    ltac:(rewrite L2; unfold ntpb_MagicSize; cbn [length le16]; lia))).
  change (splice (ntpb_buf s2) (ntpb_MagicSize + 2) (le16 cmd)) with
    (splice (m1 ++ drop (length m1) (ntpb_buf s)) (length m1) (le16 cmd)).
  rewrite splice_app. done.
Qed.

Lemma build_packet s cmd data :
  (ntpb_hdrSize + length data <= length (ntpb_buf s))%nat ->
  forall (k : M ntpb Z),
  (buf_write 0 ntpb_hdrmagic;;
   buf_write ntpb_MagicSize (le16 (Z.of_nat (length data)));;
   buf_write (ntpb_MagicSize + 2) (le16 cmd);;
   buf_write ntpb_hdrSize data;; k) s =
  k (set_buf (packet cmd data ++ drop (ntpb_hdrSize + length data) (ntpb_buf s)) s).
Proof.
  intros Hl k. rewrite (build_header s (Z.of_nat (length data)) cmd ltac:(lia)). set (h := header _ _). set (s3 := set_buf _ s).
  assert (L3 : length (ntpb_buf s3) = length (ntpb_buf s)).
  { unfold s3. cbn [ntpb_buf set_buf]. rewrite length_app, length_drop. unfold h, header, ntpb_hdrSize in *.
    cbn [length ntpb_hdrmagic le16 app]. lia. }
  rewrite (bind_ok _ _ _ _ _ (buf_write_ok ntpb_hdrSize data s3 ltac:(rewrite L3; lia))).
  change (splice (ntpb_buf s3) ntpb_hdrSize data) with
    (splice (h ++ drop (length h) (ntpb_buf s)) (length h) data).
  rewrite splice_app. done.
Qed.

(** The client's acknowledgement. *)
Definition ack (c : Z) : list Z := packet c (le16 1).

Lemma client_reply_ack s c :
  sock_in s = ack c -> first_ok s -> (NTPB_BUF <= length (ntpb_buf s))%nat ->
  exists b fs, client_reply s = Ok (0, set_buf b (set_in [] fs s)) /\ length b = length (ntpb_buf s).
Proof.
  intros Hin Hf Hb. unfold client_reply.
  destruct (recv_packet_spec s c (le16 1) Hin Hf Hb) as (fs & Hr);
    [apply Nat.leb_le; vm_compute; reflexivity|].
  rewrite (bind_ok _ _ _ _ _ Hr). do 2 eexists. split; [reflexivity|].
  change (length (le16 1)) with 2%nat. rewrite length_app, length_packet, length_drop.
  change (length (le16 1)) with 2%nat. unfold ntpb_hdrSize, NTPB_BUF in *. lia.
Qed.

(** Bytes that count as an acknowledgement, arriving in these pieces. *)
Definition acks (inp : list Z) (frag : list recv_ev) : Prop := forall s,
  sock_in s = inp -> sock_frag s = frag -> (NTPB_BUF <= length (ntpb_buf s))%nat ->
  exists b fs, client_reply s = Ok (0, set_buf b (set_in [] fs s)) /\ length b = length (ntpb_buf s).

Lemma acks_ack s c : sock_in s = ack c -> first_ok s -> acks (sock_in s) (sock_frag s).
Proof.
  intros Hin [Har Hf] s' Hi Hfr Hb. apply (client_reply_ack s' c); [congruence| |done].
  unfold first_ok, arrives. by rewrite Hfr.
Qed.

(** What follows the packet in [ntpbserverSendData] and [ntpbserverEndReply], for a client that
    acknowledges. *)
Lemma send_wait_ok s p (fin : M ntpb Z) :
  take (length p) (ntpb_buf s) = p -> (length p <= length (ntpb_buf s))%nat ->
  acks (sock_in s) (sock_frag s) -> Forall (fun k => 0 <= k) (sock_sends s) -> (NTPB_BUF <= length (ntpb_buf s))%nat ->
  exists b fs rs, (let* ok := send_buf (length p) in
      if negb ok then ret (-1) else let* r := client_reply in if r <? 0 then ret r else fin) s =
    fin (set_buf b (set_in [] fs (set_out rs (sock_out s ++ p) s))) /\
    length b = length (ntpb_buf s) /\ Forall (fun k => 0 <= k) rs.
Proof.
  intros Hp Hl Hack Hs Hb. destruct (send_buf_spec (length p) s Hs Hl) as (rs & Hsend & Hrs).
  rewrite (bind_ok _ _ _ _ _ Hsend), Hp. cbn [negb]. set (s2 := set_out _ _ s).
  destruct (Hack s2 eq_refl eq_refl Hb) as (b & fs & Hrep & Hlen).
  rewrite (bind_ok _ _ _ _ _ Hrep). exists b, fs, rs. by split.
Qed.

Lemma packet_prefix cmd data rest : take (length (packet cmd data)) (packet cmd data ++ rest) = packet cmd data.
Proof. apply take_app_length. Qed.

(** Data for the client, and the end of a reply. *)
Lemma send_data_ok s cmd data :
  io_sema s = 1 -> acks (sock_in s) (sock_frag s) -> Forall (fun k => 0 <= k) (sock_sends s) ->
  (NTPB_BUF <= length (ntpb_buf s))%nat -> (ntpb_hdrSize + length data <= length (ntpb_buf s))%nat ->
  exists b fs rs, ntpbserverSendData cmd data s =
      Ok (0, set_out rs (sock_out s ++ packet cmd data) (set_buf b (set_in [] fs s))) /\
    length b = length (ntpb_buf s) /\ Forall (fun k => 0 <= k) rs.
Proof.
  intros Hio Hack Hs Hb Hd. unfold ntpbserverSendData.
  rewrite (bind_ok _ _ s tt (set_semas 0 (cmd_sema s) s)).
  2:{ unfold wait_io. by rewrite Hio. }
  set (s0 := set_semas 0 (cmd_sema s) s). rewrite (build_packet s0 cmd data Hd).
  set (s1 := set_buf _ s0).
  assert (Hl1 : length (ntpb_buf s1) = length (ntpb_buf s)).
  { unfold s1. cbn [ntpb_buf set_buf]. rewrite length_app, length_packet, length_drop.
    change (ntpb_buf s0) with (ntpb_buf s). lia. }
  destruct (send_wait_ok s1 (packet cmd data) (signal_io;; ret 0)) as (b & fs & rs & E & Hlb & Hrs); try done.
  { apply packet_prefix. }
  { rewrite Hl1, length_packet. lia. }
  { by rewrite Hl1. }
  rewrite length_packet in E. replace (length data + ntpb_hdrSize)%nat with (ntpb_hdrSize + length data)%nat by lia. rewrite E.
  exists b, fs, rs. split; [|split; [congruence|done]]. destruct s; cbn in Hio |- *. by subst.
Qed.

Lemma end_reply_ok s :
  io_sema s = 1 -> cmd_sema s = 0 -> acks (sock_in s) (sock_frag s) -> Forall (fun k => 0 <= k) (sock_sends s) ->
  (NTPB_BUF <= length (ntpb_buf s))%nat ->
  exists b fs rs, ntpbserverEndReply s =
      Ok (0, set_semas 1 1 (set_out rs (sock_out s ++ packet 0xffff []) (set_buf b (set_in [] fs s)))) /\
    length b = length (ntpb_buf s) /\ Forall (fun k => 0 <= k) rs.
Proof.
  intros Hio Hcs Hack Hs Hb. unfold ntpbserverEndReply.
  rewrite (bind_ok _ _ s tt (set_semas 0 (cmd_sema s) s)).
  2:{ unfold wait_io. by rewrite Hio. }
  set (s0 := set_semas 0 (cmd_sema s) s).
  rewrite (build_header s0 0 0xffff) by (change (ntpb_buf s0) with (ntpb_buf s); unfold NTPB_BUF, ntpb_hdrSize in *; lia).
  set (s1 := set_buf _ s0).
  assert (Hl1 : length (ntpb_buf s1) = length (ntpb_buf s)).
  { unfold s1. cbn [ntpb_buf set_buf]. rewrite length_app, length_drop. change (ntpb_buf s0) with (ntpb_buf s).
    change (length (header 0 65535)) with 10%nat. unfold NTPB_BUF, ntpb_hdrSize in *. lia. }
  destruct (send_wait_ok s1 (packet 0xffff []) (signal_cmd;; signal_io;; ret 0)) as (b & fs & rs & E & Hlb & Hrs); try done.
  { rewrite Hl1. change (length (packet 65535 [])) with 10%nat. unfold NTPB_BUF in *. lia. }
  { by rewrite Hl1. }
  change (length (packet 65535 [])) with ntpb_hdrSize in E. rewrite E.
  exists b, fs, rs. split; [|split; [congruence|done]]. destruct s; cbn in Hio, Hcs |- *. by subst.
Qed.

(** Data reaches the client unchanged.  With the io semaphore free and a client that
    acknowledges, [ntpbserverSendData] puts exactly one packet on the wire (magic, size,
    command, data), however the stack cuts it up, returns 0 and frees the semaphore; the
    packet can be read back unambiguously. *)
Theorem ntpbserverSendData_packet s cmd data c :
  io_sema s = 1 -> sock_in s = ack c -> first_ok s -> Forall (fun k => 0 <= k) (sock_sends s) ->
  (NTPB_BUF <= length (ntpb_buf s))%nat -> (ntpb_hdrSize + length data <= length (ntpb_buf s))%nat ->
  Z.of_nat (length data) < 2 ^ 16 -> is_u16 cmd ->
  exists s', ntpbserverSendData cmd data s = Ok (0, s') /\ io_sema s' = 1 /\
    sock_out s' = sock_out s ++ packet cmd data /\
    (forall rest, check_ntpb_header (packet cmd data ++ rest) = true /\
       u16_at (packet cmd data ++ rest) 8 = cmd /\
       take (Z.to_nat (u16_at (packet cmd data ++ rest) 6)) (drop ntpb_hdrSize (packet cmd data ++ rest))
         = data).
Proof.
  intros Hio Hin Hfirst Hs Hb Hd Hd16 Hcmd.
  destruct (send_data_ok s cmd data Hio (acks_ack s c Hin Hfirst) Hs Hb Hd) as (b & fs & rs & E & _). eexists. split; [exact E|].
  split; [done|]. split; [done|]. intros rest. rewrite packet_magic, packet_size, packet_cmd, Nat2Z.id by done.
  split; [done|]. split; [done|].
  change (drop ntpb_hdrSize (packet cmd data ++ rest)) with (data ++ rest). apply take_app_length.
Qed.

Lemma ntpbserverSendData_packet_witness :
  let s := Ntpb 0 [] 0 (replicate 4106 0) 1 0 (ack 0x300) [Arrive 8; Arrive 1] [1; 5] [] in
  exists s', ntpbserverSendData 0x300 [1; 2; 3] s = Ok (0, s') /\ io_sema s' = 1 /\
    sock_out s' = packet 0x300 [1; 2; 3].
Proof.
  intros s. destruct (ntpbserverSendData_packet s 0x300 [1; 2; 3] 0x300)
    as (s' & H1 & H2 & H3 & _).
  - reflexivity.
  - reflexivity.
  - split; [repeat constructor; by eexists|vm_compute; lia].
  - repeat constructor; vm_compute; congruence.
  - apply Nat.leb_le. vm_compute. reflexivity.
  - apply Nat.leb_le. vm_compute. reflexivity.
  - reflexivity.
  - split; vm_compute; congruence.
  - exists s'. split; [exact H1|]. split; [exact H2|exact H3].
Defined.

(** ** The io semaphore on the error paths *)

(** A computation that leaves the semaphore alone. *)
Definition keeps_io {A} (c : M ntpb A) : Prop :=
  forall s x s', c s = Ok (x, s') -> io_sema s' = io_sema s.

Lemma keeps_io_ret {A} (x : A) : keeps_io (ret x).
Proof. by intros s y s' [= <- <-]. Qed.
Lemma keeps_io_gets {A} (f : ntpb -> A) : keeps_io (gets f).
Proof. by intros s y s' [= <- <-]. Qed.
Lemma keeps_io_fail {A} f : keeps_io (fail f : M ntpb A).
Proof. by intros s y s' H. Qed.
Lemma keeps_io_bind {A B} (c : M ntpb A) (k : A -> M ntpb B) :
  keeps_io c -> (forall x, keeps_io (k x)) -> keeps_io (bind c k).
Proof.
  intros Hc Hk s y s' (x & s1 & H1 & H2)%bind_inv. rewrite (Hk x _ _ _ H2). by apply (Hc _ x).
Qed.
Lemma keeps_io_write off bs : keeps_io (buf_write off bs).
Proof. intros s x s'. unfold buf_write. destruct (_ <=? _)%nat; [|done]. by intros [= <- <-]. Qed.
Lemma keeps_io_recv off n : keeps_io (recv_noblock off n).
Proof.
  intros s x s'. unfold recv_noblock. destruct (default _ _); [by intros [= <- <-]..|].
  cbn zeta. unfold rbind.
  destruct (buf_write _ _ _) as [[[] s1]|] eqn:E; [|done]. intros [= <- <-].
  by rewrite (keeps_io_write _ _ _ _ _ E).
Qed.
Lemma keeps_io_send off n : keeps_io (lwip_send off n).
Proof. intros s x s'. unfold lwip_send. destruct (_ <? 0); by intros [= <- <-]. Qed.

Create HintDb iodb.
#[export] Hint Resolve keeps_io_ret keeps_io_gets keeps_io_fail keeps_io_bind keeps_io_write
  keeps_io_recv keeps_io_send : iodb.

Lemma keeps_io_send_packet fuel : forall sent n, keeps_io (send_packet fuel sent n).
Proof.
  induction fuel as [|fuel IH]; intros sent n; cbn [send_packet]; destruct (_ <? _)%nat; eauto with iodb.
  apply keeps_io_bind; [eauto with iodb|]. intros r. destruct (r <? 0); eauto with iodb.
Qed.
Lemma keeps_io_recv_rest fuel : forall k n, keeps_io (recv_rest fuel k n).
Proof.
  induction fuel as [|fuel IH]; intros k n; cbn [recv_rest]; destruct (_ <? _)%nat; eauto with iodb.
  apply keeps_io_bind; [eauto with iodb|]. intros r. destruct (r <=? 0); eauto with iodb.
Qed.
#[export] Hint Resolve keeps_io_send_packet keeps_io_recv_rest : iodb.

Lemma keeps_io_recv_packet : keeps_io recv_packet.
Proof.
  apply keeps_io_bind; [eauto with iodb|]. intros r. destruct (r <=? 0); [eauto with iodb|].
  repeat (apply keeps_io_bind; [eauto with iodb|intros ?]). eauto with iodb.
Qed.
Lemma keeps_io_client_reply : keeps_io client_reply.
Proof.
  apply keeps_io_bind; [apply keeps_io_recv_packet|]. intros [n|]; [|eauto with iodb].
  apply keeps_io_bind; [eauto with iodb|]. intros b.
  destruct (negb _); [eauto with iodb|]. destruct (negb _); eauto with iodb.
Qed.
Lemma keeps_io_send_buf n : keeps_io (send_buf n).
Proof. apply keeps_io_bind; eauto with iodb. Qed.
#[export] Hint Resolve keeps_io_client_reply keeps_io_send_buf : iodb.

Lemma wait_io_inv s x s' :
  wait_io s = Ok (x, s') -> io_sema s' = io_sema s - 1.
Proof. unfold wait_io. destruct (0 <? io_sema s); [|done]. by intros [= <- <-]. Qed.

(** What follows the packet in both functions: on every failure the semaphore is kept. *)
Lemma send_error_keeps n (fin : M ntpb Z) s r s' :
  (forall s r s', fin s = Ok (r, s') -> r = 0) ->
  (let* ok := send_buf n in
   if negb ok then ret (-1)
   else let* r := client_reply in if r <? 0 then ret r else fin) s = Ok (r, s') ->
  r < 0 -> io_sema s' = io_sema s.
Proof.
  intros Hfin H Hr. apply bind_inv in H as (ok & s1 & H1 & H).
  rewrite <- (keeps_io_send_buf _ _ _ _ H1). destruct (negb ok); [by inv H|].
  apply bind_inv in H as (r1 & s2 & H2 & H). rewrite <- (keeps_io_client_reply _ _ _ H2).
  destruct (r1 <? 0); [by inv H|]. apply Hfin in H. lia.
Qed.

(** C31: a failed transfer locks the server up.  When [ntpbserverSendData] returns an error
    (the connection broke, or the client's reply was not an acknowledgement), it has not
    given the io semaphore back, and every later [ntpbserverSendData] and
    [ntpbserverEndReply] waits for it forever. *)
Theorem send_error_deadlocks s cmd data r s' :
  io_sema s = 1 -> ntpbserverSendData cmd data s = Ok (r, s') -> r < 0 ->
  io_sema s' = 0 /\ (forall cmd' data', ntpbserverSendData cmd' data' s' = Err Hang) /\
  ntpbserverEndReply s' = Err Hang.
Proof.
  intros Hio H Hr. assert (Hz : io_sema s' = 0).
  { unfold ntpbserverSendData in H.
    apply bind_inv in H as (? & s1 & H1 & H). apply wait_io_inv in H1.
    apply bind_inv in H as (? & s2 & H2 & H). apply keeps_io_write in H2.
    apply bind_inv in H as (? & s3 & H3 & H). apply keeps_io_write in H3.
    apply bind_inv in H as (? & s4 & H4 & H). apply keeps_io_write in H4.
    apply bind_inv in H as (? & s5 & H5 & H). apply keeps_io_write in H5.
    apply send_error_keeps in H; [lia| |done].
    intros t q t' Hq. apply bind_inv in Hq as (? & ? & _ & Hq). by inv Hq. }
  split; [done|]. unfold ntpbserverSendData, ntpbserverEndReply, bind, wait_io. by rewrite Hz.
Qed.

Lemma send_error_deadlocks_witness :
  let s := Ntpb 0 [] 0 (replicate 4106 0) 1 0 [] [] [] [] in
  exists s', ntpbserverSendData 0x300 [1] s = Ok (-1, s') /\ io_sema s' = 0 /\
    (forall cmd' data', ntpbserverSendData cmd' data' s' = Err Hang) /\
    ntpbserverEndReply s' = Err Hang.
Proof.
  intros s. exists (state_or s (ntpbserverSendData 0x300 [1] s)).
  assert (E : ntpbserverSendData 0x300 [1] s = Ok (-1, state_or s (ntpbserverSendData 0x300 [1] s)))
    by (vm_compute; reflexivity).
  split; [exact E|].
  apply (send_error_deadlocks s 0x300 [1] (-1)); [reflexivity|exact E|reflexivity].
Defined.

(** ** From the EE's memory to the wire *)

(** What the IOP does with a block: the command and the data it finds there. *)
Lemma sendDataToClient_block param cmd buf after st :
  is_u16 cmd -> (length buf <= 4096)%nat -> (4098 <= length param)%nat ->
  (2 <= length after)%nat ->
  _rpcNTPBsendDataToClient (send_block param cmd buf ++ after) st =
  ntpbserverSendData cmd (take (length buf) (drop 2 (send_block param cmd buf ++ after))) st.
Proof.
  intros Hcmd Hb Hp Ha. destruct (send_block_size param cmd buf after Hb Hp) as (Hsz & Hl).
  unfold _rpcNTPBsendDataToClient.
  rewrite (u32_at_read _ _ (Z.of_nat (length buf))); [|unfold is_u32; lia|done].
  rewrite Nat2Z.id.
  destruct (Nat.ltb_spec (length (send_block param cmd buf ++ after)) (2 + length buf)) as [H|_].
  { rewrite length_app, Hl in H. lia. }
  rewrite (u16_at_read _ 0 cmd); [done|done|].
  rewrite drop_0, take_app_le by lia. rewrite send_block_prefix by lia. done.
Qed.

(** A block of at most 4090 bytes arrives as it was sent. *)
Lemma small_block param cmd buf after st :
  is_u16 cmd -> (length buf <= 4090)%nat -> (4098 <= length param)%nat -> (2 <= length after)%nat ->
  _rpcNTPBsendDataToClient (send_block param cmd buf ++ after) st = ntpbserverSendData cmd buf st.
Proof.
  intros Hcmd Hb Hp Ha. rewrite sendDataToClient_block by (done || lia). f_equal.
  destruct (send_block_size param cmd buf after ltac:(lia) Hp) as (_ & Hl).
  rewrite drop_app_le, take_app_le by (rewrite ?length_drop; lia).
  transitivity (drop 2 (take (2 + length buf) (send_block param cmd buf))).
  { rewrite skipn_firstn_comm. f_equal. lia. }
  rewrite send_block_prefix by lia. rewrite take_ge; [done|]. rewrite length_app. done.
Qed.

(** C32: dump data gets through the RPC link in blocks of up to 4090 bytes only.  What the
    EE sends for at most 4090 bytes makes the IOP reply with exactly this command and this
    data.  For a full chunk of 4096 bytes, the size [sendDump] uses, the IOP replies with
    4096 bytes of which those at 4090 to 4093 are the size field, whatever the memory held. *)
Theorem rpc_block_limit call cmd buf after s :
  is_u16 cmd -> rpc_ok s -> (length buf <= 4096)%nat -> (2 <= length after)%nat ->
  exists r s' blk, rpcNTPBsendData call cmd (Some buf) (length buf) s = Ok (r, s') /\
    rpc_log s' = rpc_log s ++ [EvSend blk] /\
    ((length buf <= 4090)%nat -> forall st,
       _rpcNTPBsendDataToClient (blk ++ after) st = ntpbserverSendData cmd buf st) /\
    (length buf = 4096%nat -> exists buf', length buf' = 4096%nat /\
       take 4 (drop 4090 buf') = [0; 16; 0; 0] /\ (forall st,
       _rpcNTPBsendDataToClient (blk ++ after) st = ntpbserverSendData cmd buf' st)).
Proof.
  intros Hcmd Hok Hb4 Ha. pose proof (ok_room _ Hok) as Hp.
  destruct (sendData_advances call cmd buf (length buf) s Hok Hb4 ltac:(lia)) as (r & s' & E & A).
  rewrite firstn_all in A.
  exists r, s', (send_block (sendDataParam s) cmd buf). split; [done|].
  split; [exact (adv_log _ _ _ A)|]. split.
  - intros Hb st. by apply small_block.
  - intros Hb. destruct (send_block_size (sendDataParam s) cmd buf after ltac:(lia) Hp) as (Hsz & Hl).
    eexists. split; [|split].
    3:{ intros st. apply sendDataToClient_block; done || lia. }
    + rewrite length_take, length_drop, length_app, Hl, Hb. lia.
    + rewrite Hb, skipn_firstn_comm, take_take, drop_drop.
      change (take (4 `min` (4096 - 4090)) (drop (2 + 4090) (send_block (sendDataParam s) cmd buf ++ after)))
        with (take 4 (drop SIZE_OFF (send_block (sendDataParam s) cmd buf ++ after))).
      rewrite Hsz, Hb. reflexivity.
Qed.

(** A chunk of zeros: the IOP sends on the bytes [0; 16; 0; 0] at 4090. *)
Lemma rpc_block_limit_witness :
  exists r s' blk buf',
    rpcNTPBsendData (fun _ => 0) 0x300 (Some (replicate (Z.to_nat 4096) 0))
      (length (replicate (Z.to_nat 4096) 0)) (fresh_rpc []) = Ok (r, s') /\
    rpc_log s' = [] ++ [EvSend blk] /\ take 4 (drop 4090 buf') = [0; 16; 0; 0] /\
    (forall st, _rpcNTPBsendDataToClient (blk ++ [0; 0]) st = ntpbserverSendData 0x300 buf' st).
Proof.
  set (buf := replicate (Z.to_nat 4096) 0).
  assert (Hb : length buf = Z.to_nat 4096) by apply length_replicate.
  destruct (rpc_block_limit (fun _ => 0) 0x300 buf [0; 0] (fresh_rpc []))
    as (r & s' & blk & H1 & H2 & _ & H3).
  - split; [discriminate|reflexivity].
  - apply (fresh_dbg_ok []).
  - rewrite Hb. lia.
  - cbn [length]. lia.
  - destruct H3 as (buf' & _ & H4 & H5); [rewrite Hb; lia|].
    exists r, s', blk, buf'. split; [exact H1|]. split; [exact H2|]. split; [exact H4|exact H5].
Defined.
