(* ===== verification/NtpbServer.v ===== *)
(** * The NTPB server's threads (iop/debugger/ntpbserver.c) on the socket table of the TCP/IP
      stack (iop/SMSTCPIP/sockets.c)

    One thread serves the EE's RPC calls, another accepts one PC client after the other.
    Sockets are slots of a fixed table; what the connections below them answer is an input of
    the model. *)

From S2P Require Import Prelude CString Bytes RamFile Debugger Ntpb.
Local Open Scope ps2rd_scope.

(** ** The RPC server *)

(** [ntpbserver_rpc_buf] is kept with the bytes that follow it in memory. *)
Record iop : Type := Iop {
  srv : ntpb;
  ntpbserver_rpc_buf : list Z;
  rpc_func_ret : Z;             (** [rpc_stat.rpc_func_ret] *)
}.

Definition set_srv (n : ntpb) (s : iop) : iop := Iop n (ntpbserver_rpc_buf s) (rpc_func_ret s).
Definition set_rpc_buf (b : list Z) (s : iop) : iop := Iop (srv s) b (rpc_func_ret s).
Definition set_func_ret (r : Z) (s : iop) : iop := Iop (srv s) (ntpbserver_rpc_buf s) r.

Definition on_srv {A} (c : M ntpb A) : M iop A := fun s =>
  match c (srv s) with Ok (x, n) => Ok (x, set_srv n s) | Err f => Err f end.

Definition rpcNTPBsendDataToClient : M iop Z :=
  let* b := gets ntpbserver_rpc_buf in on_srv (_rpcNTPBsendDataToClient b).

Definition rpcNTPBgetRemoteCmd_iop : M iop Z :=
  let* b := gets ntpbserver_rpc_buf in
  let* b' := on_srv (_rpcNTPBgetRemoteCmd b) in
  modify (set_rpc_buf b');; ret 1.

Definition rpcNTPBEndReply_iop : M iop Z := on_srv ntpbserverEndReply.

(** What [cb_rpc_S_0A10] hands back: the status record, or the buffer of the call. *)
Inductive rpc_result : Type :=
| RpcStat
| RpcBuf.

Section RpcServer.
(** [dummy] returns nothing: what its caller finds in the result register. *)
Context (v0 : Z).

Definition dummy : M iop Z := ret v0.

Definition rpc_funcs_array : list (M iop Z) :=
  [dummy; dummy; dummy; dummy; dummy; dummy; rpcNTPBgetRemoteCmd_iop; dummy; dummy; dummy; dummy; dummy;
   dummy; dummy; rpcNTPBsendDataToClient; rpcNTPBEndReply_iop].

Definition cb_rpc_S_0A10 (fno : Z) : M iop rpc_result :=
  if 16 <=? fno then ret RpcStat
  else
    let rpc_func := nth (Z.to_nat fno) rpc_funcs_array dummy in
    let* r := rpc_func in
    modify (set_func_ret r);; ret RpcBuf.

(** A call as the RPC layer makes it: the bytes sent are in the server's buffer when the
    callback runs, and the client gets the first [rsize] bytes of what it hands back. *)
Definition sif_call (fno : Z) (send : list Z) (rsize : nat) : M iop (list Z) :=
  modify (fun s => set_rpc_buf (splice (ntpbserver_rpc_buf s) 0 send) s);;
  let* r := cb_rpc_S_0A10 fno in
  let* s := get in
  ret (match r with
       | RpcBuf => take rsize (ntpbserver_rpc_buf s)
       | RpcStat => take rsize (le32 (u32 (rpc_func_ret s)))
       end).

(** The calls of the EE's client. *)
Definition serve_call (e : rpc_event) : M iop (list Z) :=
  match e with
  | EvSend p => sif_call CMD_SENDDATA p 4
  | EvEndReply => sif_call CMD_ENDREPLY [] 4
  | EvGetCmd => sif_call CMD_GETREMOTECMD [] CMD_PARAM
  end.

End RpcServer.

(** [_start]: the semaphores once the module is loaded; the two threads run below. *)
Definition ntpbserver_start : M iop Z := modify (fun s => set_srv (set_semas 1 0 (srv s)) s);; ret 0.

(** ** Sockets: sockets.c *)

Definition NUM_SOCKETS : nat := 15.

(** What a slot of the table is used for. *)
Inductive netconn : Type :=
| NcNew
| NcListen
| NcPeer
| NcUdp.

Notation sockets := (list (option netconn)).

(** One past the last slot is let through: the read is out of bounds. *)
Definition get_socket (s : Z) : M sockets (option netconn) := fun t =>
  if (s <? 0) || (Z.of_nat NUM_SOCKETS <? s) then Ok (None, t)
  else match t !! Z.to_nat s with
       | Some c => Ok (c, t)
       | None => Err OutOfBounds
       end.

(** [for(i = 0; i < NUM_SOCKETS; ++i)] *)
Fixpoint unused_socket (i : nat) (t : sockets) : option nat :=
  match t with
  | [] => None
  | None :: _ => Some i
  | Some _ :: t' => unused_socket (S i) t'
  end.

Definition alloc_socket (c : netconn) : M sockets Z := fun t =>
  match unused_socket 0 t with
  | Some i => Ok (Z.of_nat i, <[i := Some c]> t)
  | None => Ok (-1, t)
  end.

Definition lwip_close (s : Z) : M sockets Z :=
  let* c := get_socket s in
  match c with
  | None => ret (-1)
  | Some _ => modify (fun t => <[Z.to_nat s := None]> t);; ret 0
  end.

(** [conn]: whether [netconn_new] had the memory for a connection. *)
Definition lwip_socket (conn : bool) : M sockets Z :=
  if conn then alloc_socket NcNew else ret (-1).

(** [err] is the result of [netconn_bind] and [netconn_listen]. *)
Definition lwip_bind (s err : Z) : M sockets Z :=
  let* c := get_socket s in
  match c with
  | None => ret (-1)
  | Some _ => ret (if err =? 0 then 0 else -1)
  end.

Definition lwip_listen (s err : Z) : M sockets Z :=
  let* c := get_socket s in
  match c with
  | None => ret (-1)
  | Some _ =>
      if err =? 0 then modify (fun t => <[Z.to_nat s := Some NcListen]> t);; ret 0 else ret (-1)
  end.

(** A connection has arrived. *)
Definition lwip_accept (s : Z) : M sockets Z :=
  let* c := get_socket s in
  match c with
  | None => ret (-1)
  | Some _ => alloc_socket NcPeer
  end.

(** ** The server thread *)

Record server : Type := Server {
  client_socket : Z;
  tcp_socket : Z;
  table : sockets;
}.

Definition set_client (c : Z) (s : server) : server := Server c (tcp_socket s) (table s).
Definition set_tcp (t : Z) (s : server) : server := Server (client_socket s) t (table s).

Definition on_table {A} (c : M sockets A) : M server A := fun s =>
  match c (table s) with
  | Ok (x, t) => Ok (x, Server (client_socket s) (tcp_socket s) t)
  | Err f => Err f
  end.

(** Where the thread is: at [conn_retry], in [lwip_accept], in [handleClient]. *)
Inductive pc : Type :=
| Retry
| Accepting
| Serving.

(** [error:] *)
Definition conn_error : M server pc :=
  let* c := gets client_socket in
  on_table (lwip_close c);; ret Retry.

(** From [conn_retry] to the accept loop. *)
Definition open_server (conn : bool) (bound listening : Z) : M server pc :=
  let* t := on_table (lwip_socket conn) in
  modify (set_tcp t);;
  if t <? 0 then conn_error
  else
    let* r := on_table (lwip_bind t bound) in
    if r <? 0 then conn_error
    else
      let* r := on_table (lwip_listen t listening) in
      if r <? 0 then conn_error else ret Accepting.

Definition accept_client : M server pc :=
  let* t := gets tcp_socket in
  let* r := on_table (lwip_accept t) in
  if r <? 0 then conn_error
  else modify (set_client r);; ret Serving.

(** [handleClient] returned [r]. *)
Definition client_left (r : Z) : M server pc :=
  let* c := gets client_socket in
  (if r <? 0 then on_table (lwip_close c);; ret tt else ret tt);; ret Accepting.

(** What happens to the thread next: the answers of the stack when it opens its socket, a
    client that connects, the end of [handleClient], which only returns -1. *)
Inductive net_event : Type :=
| Opens (conn : bool) (bound listening : Z)
| Connects
| Leaves.

Definition thread_step (p : pc) (e : net_event) : option (M server pc) :=
  match p, e with
  | Retry, Opens c b l => Some (open_server c b l)
  | Accepting, Connects => Some accept_client
  | Serving, Leaves => Some (client_left (-1))
  | _, _ => None
  end.

(** [start_ServerThread] with the sockets other threads have open. *)
Definition start_ServerThread (t : sockets) : pc * server := (Retry, Server 0 0 t).

Inductive serverThread (t : sockets) : pc * server -> Prop :=
| thread_start : serverThread t (start_ServerThread t)
| thread_next p s e c p' s' : serverThread t (p, s) -> thread_step p e = Some c ->
    c s = Ok (p', s') -> serverThread t (p', s').

(** ** The server's sockets *)

Definition no_sockets : sockets := replicate NUM_SOCKETS None.

(** The descriptors in use at each point of the thread. *)
Definition expected (p : pc) : sockets :=
  match p with
  | Retry => no_sockets
  | Accepting => <[0%nat := Some NcListen]> no_sockets
  | Serving => <[1%nat := Some NcPeer]> (<[0%nat := Some NcListen]> no_sockets)
  end.

(** The thread is where its sockets say it is; before the first client, [client_socket] is
    still 0, which is also the first descriptor. *)
Definition socks_ok (p : pc) (s : server) : Prop :=
  table s = expected p /\
  match p with
  | Retry => client_socket s = 0
  | Accepting => tcp_socket s = 0
  | Serving => tcp_socket s = 0 /\ client_socket s = 1
  end.

Lemma open_server_ok c b l s : socks_ok Retry s ->
  exists p' s', open_server c b l s = Ok (p', s') /\ socks_ok p' s' /\ p' <> Serving /\
    (p' = Accepting <-> c = true /\ b = 0 /\ l = 0).
Proof.
  destruct s as [cl tcp tab]. intros [Ht Hc]. cbn [table client_socket] in Ht, Hc. subst.
  unfold open_server. destruct c.
  2:{ do 2 eexists. split; [reflexivity|]. split; [by split|]. split; [done|]. naive_solver. }
  destruct (Z.eqb_spec b 0) as [->|Hb].
  2:{ do 2 eexists. split.
      { unfold lwip_bind, on_table, bind. cbn. rewrite (proj2 (Z.eqb_neq _ _) Hb). reflexivity. }
      split; [by split|]. split; [done|]. naive_solver. }
  destruct (Z.eqb_spec l 0) as [->|Hl].
  - do 2 eexists. split; [reflexivity|]. split; [by split|]. split; [done|]. naive_solver.
  - do 2 eexists. split.
    { unfold lwip_bind, lwip_listen, on_table, bind. cbn. rewrite (proj2 (Z.eqb_neq _ _) Hl). reflexivity. }
    split; [by split|]. split; [done|]. naive_solver.
Qed.

Lemma step_ok p e c s : socks_ok p s -> thread_step p e = Some c ->
  exists p' s', c s = Ok (p', s') /\ socks_ok p' s' /\ (e = Connects -> p' = Serving).
Proof.
  intros H Hc. destruct p, e; try done; injection Hc as <-.
  - destruct (open_server_ok conn bound listening s H) as (p' & s' & E & Hs & _). by exists p', s'.
  - destruct s as [cl tcp tab]. destruct H as [Ht Hc]. cbn in Ht, Hc. subst.
    do 2 eexists. split; [reflexivity|]. done.
  - destruct s as [cl tcp tab]. destruct H as [Ht [Hc Hd]]. cbn in Ht, Hc, Hd. subst.
    do 2 eexists. split; [reflexivity|]. done.
Qed.

Lemma thread_inv p s : serverThread no_sockets (p, s) -> socks_ok p s.
Proof.
  remember (p, s) as x eqn:E. intros H. revert p s E. induction H as [|p0 s0 e c p' s' H IH Hc Hs]; intros p s [= <- <-].
  - by split.
  - destruct (step_ok p0 e c s0 (IH _ _ eq_refl) Hc) as (p1 & s1 & E1 & Hs1 & _).
    rewrite Hs in E1. by injection E1 as <- <-.
Qed.

(** C35: the server thread never loses a socket, and turns no client away.  At every point it
    can reach, when no other thread has sockets, exactly its listening socket and that of the
    client it serves are in use; whatever the stack answers next, the thread goes on without an
    access outside the socket table, and a client that connects is served. *)
Theorem serverThread_sockets p s :
  serverThread no_sockets (p, s) ->
  table s = expected p /\
  forall e c, thread_step p e = Some c ->
    exists p' s', c s = Ok (p', s') /\ (e = Connects -> p' = Serving).
Proof.
  intros H%thread_inv. split; [apply H|]. intros e c Hc.
  destruct (step_ok p e c s H Hc) as (p' & s' & E & _ & Hp). by exists p', s'.
Qed.

(** A bind that fails, then one that succeeds, then a client. *)
Lemma serverThread_sockets_witness :
  exists s, serverThread no_sockets (Serving, s) /\ table s = expected Serving /\
    exists p' s', client_left (-1) s = Ok (p', s').
Proof.
  assert (R : serverThread no_sockets (Serving, Server 1 0 (expected Serving))).
  { apply (thread_next _ Accepting (Server 0 0 (expected Accepting)) Connects accept_client); [|reflexivity|reflexivity].
    apply (thread_next _ Retry (Server 0 0 no_sockets) (Opens true 0 0) (open_server true 0 0)); [|reflexivity|reflexivity].
    apply (thread_next _ Retry (Server 0 0 no_sockets) (Opens true (-10) 0) (open_server true (-10) 0)); [|reflexivity|reflexivity].
    apply thread_start. }
  exists (Server 1 0 (expected Serving)). split; [exact R|].
  destruct (serverThread_sockets Serving (Server 1 0 (expected Serving)) R) as [H1 H2]. split; [exact H1|].
  destruct (H2 Leaves (client_left (-1)) eq_refl) as (p' & s' & H & _). exists p', s'. exact H.
Defined.

(** It is the first descriptor being 0, like the initial [client_socket], that makes the error
    path close the right socket: when descriptor 0 belongs to another thread, an address in use
    closes that thread's socket and leaks the server's own. *)
Lemma bind_error_closes_other err l : err <> 0 ->
  exists s', open_server true err l (Server 0 0 (<[0%nat := Some NcUdp]> no_sockets)) = Ok (Retry, s') /\
    table s' !! 0%nat = Some None /\ table s' !! 1%nat = Some (Some NcNew).
Proof.
  intros He. eexists. split.
  { unfold open_server, lwip_bind, on_table, bind. cbn. rewrite (proj2 (Z.eqb_neq _ _) He). reflexivity. }
  done.
Qed.

(** ** RPC calls *)

Lemma serve_send v0 p s x n :
  let b := splice (ntpbserver_rpc_buf s) 0 p in
  _rpcNTPBsendDataToClient b (srv s) = Ok (x, n) ->
  serve_call v0 (EvSend p) s = Ok (take 4 b, Iop n b x).
Proof.
  intros b H. unfold serve_call, sif_call. rewrite (bind_ok _ _ _ _ _ eq_refl). fold b.
  rewrite (bind_ok _ _ _ RpcBuf (Iop n b x)); [reflexivity|]. unfold cb_rpc_S_0A10.
  change (16 <=? CMD_SENDDATA) with false.
  change (nth (Z.to_nat CMD_SENDDATA) (rpc_funcs_array v0) (dummy v0)) with rpcNTPBsendDataToClient. cbn zeta iota.
  rewrite (bind_ok _ _ _ x (Iop n b (rpc_func_ret s))); [reflexivity|].
  unfold rpcNTPBsendDataToClient. rewrite (bind_ok _ _ _ _ _ eq_refl). unfold on_srv.
  cbn [srv set_rpc_buf ntpbserver_rpc_buf]. by rewrite H.
Qed.

Lemma serve_end v0 s x n :
  ntpbserverEndReply (srv s) = Ok (x, n) ->
  serve_call v0 EvEndReply s = Ok (take 4 (ntpbserver_rpc_buf s), Iop n (ntpbserver_rpc_buf s) x).
Proof.
  intros H. unfold serve_call, sif_call. rewrite (bind_ok _ _ _ _ _ eq_refl), splice_0. cbn [length app]. rewrite drop_0.
  rewrite (bind_ok _ _ _ RpcBuf (Iop n (ntpbserver_rpc_buf s) x)); [reflexivity|]. unfold cb_rpc_S_0A10.
  change (16 <=? CMD_ENDREPLY) with false.
  change (nth (Z.to_nat CMD_ENDREPLY) (rpc_funcs_array v0) (dummy v0)) with rpcNTPBEndReply_iop. cbn zeta iota.
  rewrite (bind_ok _ _ _ x (Iop n (ntpbserver_rpc_buf s) (rpc_func_ret s))); [reflexivity|].
  unfold rpcNTPBEndReply_iop, on_srv. cbn [srv set_rpc_buf]. by rewrite H.
Qed.

(** The block the EE gets for a command. *)
Definition fetched (b : list Z) (n : ntpb) : list Z :=
  splice (splice (splice b 0 (le16 (remote_cmd n))) 2 (take (Z.to_nat (cmdsize n)) (cmdbuf n)))
    CMD_SIZE_OFF (le32 (cmdsize n)).

Lemma serve_get v0 s :
  let b := fetched (ntpbserver_rpc_buf s) (srv s) in
  serve_call v0 EvGetCmd s = Ok (take CMD_PARAM b, Iop (set_cmd 0 (cmdbuf (srv s)) (cmdsize (srv s)) (srv s)) b 1).
Proof.
  intros b. unfold serve_call, sif_call. rewrite (bind_ok _ _ _ _ _ eq_refl), splice_0. cbn [length app]. rewrite drop_0.
  rewrite (bind_ok _ _ _ RpcBuf (Iop (set_cmd 0 (cmdbuf (srv s)) (cmdsize (srv s)) (srv s)) b 1)); [reflexivity|].
  unfold cb_rpc_S_0A10. change (16 <=? CMD_GETREMOTECMD) with false.
  change (nth (Z.to_nat CMD_GETREMOTECMD) (rpc_funcs_array v0) (dummy v0)) with rpcNTPBgetRemoteCmd_iop.
  reflexivity.
Qed.
