(* ===== verification/NtpbClient.v ===== *)
(** * The PC client (pc/ntpbclient/ntpbclient)

    A Perl script that connects to the NTPB server, sends one request, and stores what comes
    back.  [pack] uses the byte order of the PC, taken to be little-endian. *)

From S2P Require Import Prelude CString Bytes RamFile Debugger Ntpb.
Local Open Scope ps2rd_scope.

Definition NTPB_MAGIC : list Z := [0xff; 0x00; 0x4e; 0x54; 0x50; 0x42].
Definition NTPB_HDR_SIZE : nat := 6 + 2 + 2.
Definition NTPB_DUMP : Z := 0x0100.
Definition NTPB_HALT : Z := 0x0201.
Definition NTPB_RESUME : Z := 0x0202.
Definition NTPB_SEND_DUMP : Z := 0x0300.
Definition NTPB_EOT : Z := 0xffff.
Definition NTPB_ACK : Z := 0x0001.
Definition CLIENT_BUFSIZE : Z := 65536.

(** The client: what its next calls of [recv] find, an error or some bytes; whether its next
    calls of [send] succeed, which they do beyond the end of the list; the messages sent; the
    output file. *)
Record client : Type := Client {
  c_recv : list (option (list Z));
  c_send : list bool;
  c_sent : list (list Z);
  c_file : list Z;
}.

(** [$sock->recv($buf, n)]: [None] for undef.  Without data the call waits. *)
Definition sock_recv (n : Z) : M client (option (list Z)) := fun c =>
  match c_recv c with
  | [] => Err Hang
  | None :: r => Ok (None, Client r (c_send c) (c_sent c) (c_file c))
  | Some b :: r =>
      let got := take (Z.to_nat n) b in
      let left := drop (Z.to_nat n) b in
      Ok (Some got, Client (match left with [] => r | _ => Some left :: r end) (c_send c) (c_sent c) (c_file c))
  end.

(** [$sock->send($msg)] *)
Definition sock_send (msg : list Z) : M client bool := fun c =>
  let ok := default true (head (c_send c)) in
  Ok (ok, Client (c_recv c) (tail (c_send c)) (if ok then c_sent c ++ [msg] else c_sent c) (c_file c)).

Definition print_file (b : list Z) (c : client) : client :=
  Client (c_recv c) (c_send c) (c_sent c) (c_file c ++ b).
Definition open_file (c : client) : client := Client (c_recv c) (c_send c) (c_sent c) [].

(** [unpack] of a 16-bit field: undef, which counts as 0, when the bytes are not there. *)
Definition unpack_S (b : list Z) (i : nat) : Z := if (i + 2 <=? length b)%nat then u16_at b i else 0.

(** [$buf ||= ""] also replaces the string 0. *)
Definition or_empty (buf : list Z) : list Z := if bool_decide (buf = [0x30]) then [] else buf.

(** True when it did not return undef. *)
Definition ntpb_send_cmd (cmd : Z) (buf : list Z) : M client bool :=
  let buf := or_empty buf in
  let* ok := sock_send (NTPB_MAGIC ++ le16 (Z.of_nat (length buf)) ++ le16 cmd ++ buf) in
  if negb ok then ret false
  else
    let* r := sock_recv CLIENT_BUFSIZE in
    ret (match r with Some _ => true | None => false end).

(** [while (length($buf) < $size)] *)
Fixpoint recv_more (fuel : nat) (buf : list Z) (size : Z) : M client (option (list Z)) :=
  if Z.of_nat (length buf) <? size then
    match fuel with
    | O => fail OutOfFuel
    | S fuel' =>
        let* r := sock_recv (CLIENT_BUFSIZE - Z.of_nat (length buf)) in
        match r with
        | None => ret None
        | Some b => recv_more fuel' (buf ++ b) size
        end
    end
  else ret (Some buf).

(** [length NTPB_ACK] is the length of the string 1. *)
Definition client_ack : list Z := NTPB_MAGIC ++ le16 1 ++ le16 NTPB_EOT ++ le16 NTPB_ACK.

(** The [do] loop; [file] tells whether there is an output file. *)
Fixpoint recv_loop (fuel : nat) (file : bool) : M client bool :=
  match fuel with
  | O => fail OutOfFuel
  | S fuel' =>
      let* r := sock_recv CLIENT_BUFSIZE in
      match r with
      | None => ret false
      | Some buf =>
        let bytes := unpack_S buf 6 in
        let cmd := unpack_S buf 8 in
        let* more := recv_more fuel' buf (bytes + Z.of_nat NTPB_HDR_SIZE) in
        match more with
        | None => ret false
        | Some buf =>
          (if (cmd =? NTPB_SEND_DUMP) && file then modify (print_file (drop NTPB_HDR_SIZE buf)) else ret tt);;
          let* ok := sock_send client_ack in
          if negb ok then ret false
          else if cmd =? NTPB_EOT then ret true
          else recv_loop fuel' file
        end
      end
  end.

Definition ntpb_recv_data (fuel : nat) (file : bool) : M client bool :=
  (if file then modify open_file else ret tt);;
  recv_loop fuel file.

(** The commands of the script; the results of the steps are not looked at. *)
Inductive request : Type :=
| Halt
| Resume
| Dump (dump_start dump_end : Z).

Definition req_cmd (q : request) : Z :=
  match q with Halt => NTPB_HALT | Resume => NTPB_RESUME | Dump _ _ => NTPB_DUMP end.
Definition req_data (q : request) : list Z :=
  match q with Dump a b => le32 a ++ le32 b | _ => [] end.
Definition req_file (q : request) : bool := match q with Dump _ _ => true | _ => false end.

Definition ntpb_cmd (fuel : nat) (q : request) : M client unit :=
  ntpb_send_cmd (req_cmd q) (req_data q);;
  ntpb_recv_data fuel (req_file q);;
  ret tt.

(** ** Properties *)

(** A packet that arrives in pieces, the first with the header. *)
Definition cut (p : list Z) (ps : list (list Z)) : Prop :=
  concat ps = p /\ Forall (fun q => q <> []) ps /\
  match ps with q :: _ => (NTPB_HDR_SIZE <= length q)%nat | [] => False end.

Lemma sock_recv_all n b r c : c_recv c = Some b :: r -> (length b <= Z.to_nat n)%nat ->
  sock_recv n c = Ok (Some b, Client r (c_send c) (c_sent c) (c_file c)).
Proof. intros H Hn. unfold sock_recv. rewrite H, take_ge, drop_ge by done. done. Qed.

Lemma recv_more_spec size ps : forall fuel buf rest c,
  c_recv c = (Some <$> ps) ++ rest -> Forall (fun q => q <> []) ps ->
  Z.of_nat (length buf + length (concat ps)) = size -> size <= CLIENT_BUFSIZE -> (length ps <= fuel)%nat ->
  recv_more fuel buf size c = Ok (Some (buf ++ concat ps), Client rest (c_send c) (c_sent c) (c_file c)).
Proof.
  induction ps as [|p ps IH]; intros fuel buf rest c Hr Hn Hs Hb Hf; cbn [concat app fmap list_fmap length] in *.
  - rewrite app_nil_r, Nat.add_0_r in *. destruct fuel; cbn [recv_more]; rewrite (proj2 (Z.ltb_ge _ _)) by lia; by destruct c; cbn in *; subst.
  - apply Forall_cons in Hn as [Hp Hn]. destruct fuel as [|fuel]; [lia|]. cbn [recv_more].
    assert (0 < length p)%nat by (destruct p; [done|cbn; lia]). rewrite length_app in Hs.
    rewrite (proj2 (Z.ltb_lt _ _)) by lia.
    rewrite (bind_ok _ _ _ _ _ (sock_recv_all (CLIENT_BUFSIZE - Z.of_nat (length buf)) p ((Some <$> ps) ++ rest) c Hr ltac:(lia))).
    rewrite (IH fuel (buf ++ p) rest); [by rewrite <- app_assoc|done|done|rewrite length_app; lia|done|lia].
Qed.

Lemma unpack_u16 b rest i x : (i + 2 <= length b)%nat -> is_u16 x -> u16_at (b ++ rest) i = x -> unpack_S b i = x.
Proof.
  intros Hl Hx H. unfold unpack_S. rewrite (proj2 (Nat.leb_le _ _) Hl). rewrite <- H. symmetry. apply u16_at_app. lia.
Qed.

(** One packet is received, stored and acknowledged. *)
Lemma recv_one fuel file cmd data ps rest c :
  cut (packet cmd data) ps -> c_recv c = (Some <$> ps) ++ rest -> c_send c = [] -> is_u16 cmd ->
  Z.of_nat (length data) < 2 ^ 16 - 10 -> (length ps <= fuel)%nat ->
  recv_loop (S fuel) file c =
  (if cmd =? NTPB_EOT then ret true else recv_loop fuel file)
    (Client rest [] (c_sent c ++ [client_ack]) (if (cmd =? NTPB_SEND_DUMP) && file then c_file c ++ data else c_file c)).
Proof.
  intros (Hc & Hn & Hh) Hr Hs Hcmd Hd Hf. destruct ps as [|p ps]; [done|]. cbn [concat fmap list_fmap app length] in *.
  apply Forall_cons in Hn as [Hp Hn].
  assert (Hl : (length p + length (concat ps) = 10 + length data)%nat).
  { rewrite <- length_app, Hc. apply length_packet. }
  cbn [recv_loop]. rewrite (bind_ok _ _ _ _ _ (sock_recv_all CLIENT_BUFSIZE p ((Some <$> ps) ++ rest) c Hr ltac:(unfold CLIENT_BUFSIZE; lia))).
  unfold NTPB_HDR_SIZE in *.
  rewrite (unpack_u16 p (concat ps) 6 (Z.of_nat (length data))); [|lia|unfold is_u16; lia|].
  2:{ rewrite Hc, <- (app_nil_r (packet cmd data)). apply packet_size. lia. }
  rewrite (unpack_u16 p (concat ps) 8 cmd); [|lia|done|].
  2:{ rewrite Hc, <- (app_nil_r (packet cmd data)). by apply packet_cmd. }
  erewrite (bind_ok (recv_more _ _ _)).
  2:{ apply (recv_more_spec _ ps fuel p rest); [done|done| |unfold CLIENT_BUFSIZE; lia|lia]. lia. }
  rewrite Hc. change (drop (6 + 2 + 2) (packet cmd data)) with data. cbn [c_send c_sent c_file]. rewrite Hs.
  destruct ((cmd =? NTPB_SEND_DUMP) && file); rewrite (bind_ok _ _ _ _ _ eq_refl);
    (erewrite (bind_ok (sock_send client_ack)); [|reflexivity]); cbn; by destruct (cmd =? NTPB_EOT).
Qed.

(** Packets of a dump that arrive in pieces, and the end of the reply. *)
Lemma recv_loop_spec file e : forall ds cuts fuel c,
  Forall2 (fun d ps => cut (packet NTPB_SEND_DUMP d) ps /\ Z.of_nat (length d) < 2 ^ 16 - 10) ds cuts ->
  cut (packet NTPB_EOT []) e ->
  c_recv c = Some <$> (concat cuts ++ e) -> c_send c = [] ->
  (length ds + length (concat cuts) + length e < fuel)%nat ->
  recv_loop fuel file c =
  Ok (true, Client [] [] (c_sent c ++ replicate (S (length ds)) client_ack)
              (if file then c_file c ++ concat ds else c_file c)).
Proof.
  intros ds cuts fuel c H. revert fuel c. induction H as [|d ps ds cuts [Hc Hd] _ IH]; intros fuel c He Hr Hs Hf;
    (destruct fuel as [|fuel]; [lia|]); cbn [length concat app] in *.
  - rewrite (recv_one fuel file NTPB_EOT [] e [] c); [|done|by rewrite app_nil_r|done|split; vm_compute; congruence|cbn [length]; lia|lia].
    cbn [Z.eqb NTPB_EOT Pos.eqb andb NTPB_SEND_DUMP]. destruct file; [rewrite app_nil_r|]; reflexivity.
  - rewrite length_app in Hf. rewrite <- app_assoc, fmap_app in Hr.
    rewrite (recv_one fuel file NTPB_SEND_DUMP d ps _ c Hc Hr Hs); [|split; vm_compute; congruence|done|lia].
    change (NTPB_SEND_DUMP =? NTPB_EOT) with false. change (NTPB_SEND_DUMP =? NTPB_SEND_DUMP) with true. cbn [andb].
    rewrite IH; [|done|done|done|lia]. cbn [c_sent c_file replicate].
    rewrite <- app_assoc. destruct file; [rewrite <- app_assoc|]; reflexivity.
Qed.

Lemma or_empty_req q : or_empty (req_data q) = req_data q.
Proof. unfold or_empty. destruct q; try done. case_bool_decide as H; [|done]. discriminate H. Qed.

(** The whole command: the acknowledgement [a] of the request arrives by itself. *)
Lemma ntpb_cmd_spec q a e ds cuts fuel c :
  Forall2 (fun d ps => cut (packet NTPB_SEND_DUMP d) ps /\ Z.of_nat (length d) < 2 ^ 16 - 10) ds cuts ->
  cut (packet NTPB_EOT []) e -> Z.of_nat (length a) <= CLIENT_BUFSIZE ->
  c_recv c = Some <$> (a :: concat cuts ++ e) -> c_send c = [] ->
  (length ds + length (concat cuts) + length e < fuel)%nat ->
  ntpb_cmd fuel q c =
  Ok (tt, Client [] [] (c_sent c ++ packet (req_cmd q) (req_data q) :: replicate (S (length ds)) client_ack)
            (if req_file q then concat ds else c_file c)).
Proof.
  intros H He Ha Hr Hs Hf. unfold ntpb_cmd.
  set (c1 := Client (Some <$> (concat cuts ++ e)) [] (c_sent c ++ [packet (req_cmd q) (req_data q)]) (c_file c)).
  erewrite (bind_ok _ _ c true c1).
  2:{ unfold ntpb_send_cmd, sock_send, bind. rewrite Hs, or_empty_req. cbn [default head tail negb].
      rewrite (sock_recv_all _ a (Some <$> (concat cuts ++ e))); [done|by rewrite Hr|lia]. }
  assert (E : ntpb_recv_data fuel (req_file q) c1 = recv_loop fuel (req_file q) (if req_file q then open_file c1 else c1))
    by (by destruct q). erewrite (bind_ok (ntpb_recv_data fuel (req_file q))).
  2:{ rewrite E. apply (recv_loop_spec (req_file q) e ds cuts); by destruct (req_file q). }
  unfold ret. do 2 f_equal. destruct (req_file q); cbn [c_sent c_file open_file c1]; by rewrite <- app_assoc.
Qed.

(** The client's acknowledgement announces one byte of data and carries two.  When it arrives in
    one piece the server takes it. *)
Lemma client_ack_accepted f : match f with [] => True | Arrive k :: _ => (12 <= k)%nat | _ => False end -> acks client_ack f.
Proof.
  intros Hf s Hi Hfr Hb. assert (Hbuf : (12 <= length (ntpb_buf s))%nat) by (unfold NTPB_BUF in *; lia).
  set (b := client_ack ++ drop 12 (ntpb_buf s)).
  exists b, (tail f). split.
  2:{ unfold b. rewrite length_app, length_drop. change (length client_ack) with 12%nat. lia. }
  unfold client_reply, recv_packet.
  rewrite (bind_ok _ _ s (Some 1) (set_buf b (set_in [] (tail f) s))); [reflexivity|].
  rewrite (bind_ok _ _ s 12 (set_buf b (set_in [] (tail f) s))); [reflexivity|].
  unfold recv_noblock. rewrite Hfr, Hi. change (length client_ack) with 12%nat.
  assert (E : exists k, default (Arrive 12) (head f) = Arrive k /\ (12 <= k)%nat).
  { destruct f as [|[| |k] f]; try done; [by exists 12%nat|by exists k]. }
  destruct E as (k & -> & Hk). cbn zeta. replace (Nat.min (Nat.min (Nat.max 1 k) NTPB_BUF) 12) with 12%nat by (unfold NTPB_BUF; lia).
  rewrite buf_write_ok by (cbn [ntpb_buf set_in]; exact Hbuf). cbn [rbind ntpb_buf set_in]. rewrite splice_0. reflexivity.
Qed.

(** Cut after the byte it announces, it is taken for a refusal or leaves a byte behind that the
    next receive meets, depending on what the buffer held. *)
Lemma client_ack_cut s : sock_in s = client_ack -> sock_frag s = [Arrive 11] -> (NTPB_BUF <= length (ntpb_buf s))%nat ->
  exists r s', client_reply s = Ok (r, s') /\ sock_in s' = [0] /\ (byte_at (ntpb_buf s) 11 <> 0 -> r = -2).
Proof.
  intros Hi Hfr Hb. assert (Hbuf : (12 <= length (ntpb_buf s))%nat) by (unfold NTPB_BUF in *; lia).
  set (b := take 11 client_ack ++ drop 11 (ntpb_buf s)). set (s1 := set_buf b (set_in [0] [] s)).
  assert (E : recv_noblock 0 NTPB_BUF s = Ok (11, s1)).
  { unfold recv_noblock. rewrite Hfr, Hi. cbn [head default from_option id]. cbn zeta iota.
    replace (Nat.min (Nat.min (Nat.max 1 11) NTPB_BUF) (length client_ack)) with 11%nat by reflexivity.
    rewrite buf_write_ok by (cbn [ntpb_buf set_in]; cbn; lia). cbn [rbind ntpb_buf set_in]. rewrite splice_0. reflexivity. }
  unfold client_reply, recv_packet. rewrite (bind_ok _ _ s (Some 1) s1).
  2:{ by rewrite (bind_ok _ _ _ _ _ E). }
  rewrite (bind_ok _ _ _ _ _ eq_refl). change (check_ntpb_header (ntpb_buf s1)) with true. cbn [negb].
  do 2 eexists. split.
  { instantiate (2 := if negb (u16_at (ntpb_buf s1) ntpb_hdrSize =? 1) then -2 else 0). instantiate (1 := s1).
    by destruct (negb _). }
  split; [done|]. intros Hne.
  assert (E2 : u16_at (ntpb_buf s1) ntpb_hdrSize = 1 + 2 ^ 8 * byte_at (ntpb_buf s) 11).
  { unfold u16_at. f_equal. f_equal. change (byte_at (ntpb_buf s1) (ntpb_hdrSize + 1)) with (byte_at (drop 11 (ntpb_buf s)) 0).
    unfold byte_at. destruct (ntpb_buf s) as [|? [|? [|? [|? [|? [|? [|? [|? [|? [|? [|? ?]]]]]]]]]]] eqn:Eb; cbn; done. }
  rewrite E2. destruct (Z.eqb_spec (1 + 2 ^ 8 * byte_at (ntpb_buf s) 11) 1); [lia|done].
Qed.
