(* ===== verification/Remote.v ===== *)
(** * Remote debugging from end to end

    The PC client (NtpbClient), the NTPB server on the IOP (Ntpb, NtpbServer) and the command
    loop on the EE (Debugger) put together: what the client's messages make the console do,
    and what its answers make the client do.  Every message is one the other side waits for, so
    the three run in turns. *)

From S2P Require Import Prelude CString Bytes RamFile Debugger Ntpb NtpbServer NtpbClient.
Local Open Scope ps2rd_scope.

Record world : Type := World {
  ee : dbg;
  io : iop;
}.

Definition on_ee {A} (c : M dbg A) : M world A := fun w =>
  match c (ee w) with Ok (x, d) => Ok (x, World d (io w)) | Err f => Err f end.
Definition on_io {A} (c : M iop A) : M world A := fun w =>
  match c (io w) with Ok (x, i) => Ok (x, World (ee w) i) | Err f => Err f end.

(** Bytes of the client arrive in the pieces [f]. *)
Definition arrive (b : list Z) (f : list recv_ev) : M world unit :=
  on_io (modify (fun i => set_srv (set_in b f (srv i)) i)).

Definition wire (w : world) : list Z := sock_out (srv (io w)).

(** The result with the bytes the server sent meanwhile. *)
Definition sending {A} (c : M world A) : M world (A * list Z) := fun w =>
  match c w with
  | Ok (x, w') => Ok ((x, drop (length (wire w)) (wire w')), w')
  | Err f => Err f
  end.

(** The server thread goes on when a reply has ended. *)
Definition wait_cmd : M ntpb unit := fun s =>
  if 0 <? cmd_sema s then Ok (tt, set_semas (io_sema s) (cmd_sema s - 1) s) else Err Hang.

(** The answer to the next CMD_GETREMOTECMD. *)
Definition queue_reply (early : bool) (blk : list Z) (s : dbg) : dbg :=
  set_d_rpc (Rpc (RPCclient_Inited (d_rpc s)) (currentCmd (d_rpc s)) (sendDataParam (d_rpc s))
    (getRemoteCmdParam (d_rpc s)) (Rpc_Buffer (d_rpc s)) (rpc_pending (d_rpc s)) [(early, blk)]
    (rpc_log (d_rpc s))) s.

Section Console.
Context (v0 : Z) (call : rpc_event -> Z) (junk : Z * list Z).

(** One pass of the EE's command loop: it fetches what the server has, and the calls it makes
    then are the result.  A halted game stays in a loop of such passes, so that one that starts
    the loop ends where the loop's next pass begins.  [early] as in [rpc_replies]. *)
Definition ee_pass (early : bool) : M world (list rpc_event) :=
  let* blk := on_io (serve_call v0 EvGetCmd) in
  on_ee (modify (queue_reply early blk));;
  let* before := gets (fun w => length (rpc_log (d_rpc (ee w)))) in
  on_ee (exec_body call junk (ret tt));;
  let* log := gets (fun w => rpc_log (d_rpc (ee w))) in
  ret (drop (S before) log).

(** The server serves the calls, the client acknowledging each; what is sent for each. *)
Fixpoint serve_calls (evs : list rpc_event) (acks : list (list Z)) : M world (list (list Z)) :=
  match evs, acks with
  | [], _ => ret []
  | _ :: _, [] => fail Hang
  | e :: evs', a :: acks' =>
      arrive a [];;
      let* '(_, out) := sending (on_io (serve_call v0 e)) in
      let* outs := serve_calls evs' acks' in
      ret (out :: outs)
  end.

(** A connection with one request: the console's answers to the client's messages. *)
Definition console (early : bool) (f : list recv_ev) (req : list Z) (acks : list (list Z)) : M world (list (list Z)) :=
  arrive req f;;
  let* '(r, a) := sending (on_io (on_srv handleClient_round)) in
  match r with
  | AwaitCmd =>
      let* evs := ee_pass early in
      let* outs := serve_calls evs acks in
      on_io (on_srv wait_cmd);;
      arrive [] [];;
      let* r := on_io (on_srv handleClient_round) in
      match r with
      | ClientGone _ => ret (a :: outs)
      | _ => fail Hang
      end
  | _ => fail Hang
  end.

End Console.

(** ** The server *)

(** The server between two calls; [c] is the state of its command semaphore. *)
Record iop_ok (c : Z) (i : iop) : Prop := {
  i_io : io_sema (srv i) = 1;
  i_cmd : cmd_sema (srv i) = c;
  i_buf : (4106 <= length (ntpb_buf (srv i)))%nat;
  i_cmdbuf : length (cmdbuf (srv i)) = CMD_BUF;
  i_sends : Forall (fun k => 0 <= k) (sock_sends (srv i));
  i_rpc : (4098 <= length (ntpbserver_rpc_buf i))%nat;
}.

(** The request is untouched. *)
Definition same_cmd (i i' : iop) : Prop :=
  remote_cmd (srv i') = remote_cmd (srv i) /\ cmdbuf (srv i') = cmdbuf (srv i) /\ cmdsize (srv i') = cmdsize (srv i).

(** What the link makes of a chunk: as many bytes, the first 4090 as they were. *)
Definition through (c d : list Z) : Prop := length d = length c /\ take 4090 d = take 4090 c.

Lemma splice_block p b : (4096 <= length b)%nat -> length p = 4096%nat -> splice b 0 p = p ++ drop 4096 b.
Proof. intros H Hp. by rewrite splice_0, Hp. Qed.

Lemma link_data c p b : dump_block c p -> chunk_size c -> (4098 <= length b)%nat ->
  exists d, through c d /\ forall n, _rpcNTPBsendDataToClient (splice b 0 p) n = ntpbserverSendData NTPBCMD_SEND_DUMP d n.
Proof.
  intros (q & Hq & ->) Hc Hb. unfold chunk_size in Hc.
  destruct (send_block_size q NTPBCMD_SEND_DUMP c [] ltac:(lia) Hq) as (_ & Hl).
  rewrite (splice_block _ b ltac:(lia) Hl). set (after := drop 4096 b).
  assert (Ha : (2 <= length after)%nat) by (unfold after; rewrite length_drop; lia).
  set (blk := send_block q NTPBCMD_SEND_DUMP c) in *.
  exists (take (length c) (drop 2 (blk ++ after))). split.
  2:{ intros n. apply sendDataToClient_block; [split; vm_compute; congruence|lia|done|done]. }
  split; [rewrite length_take, length_drop, length_app; lia|].
  set (k := Nat.min 4090 (length c)).
  transitivity (take k (drop 2 (take (2 + k) blk))).
  { rewrite take_take. fold k. rewrite skipn_firstn_comm, take_take.
    replace (Nat.min k (2 + k - 2)) with k by lia. rewrite drop_app_le, take_app_le by (rewrite ?length_drop; lia). done. }
  unfold blk. rewrite send_block_prefix by lia. rewrite skipn_firstn_comm, take_take.
  replace (Nat.min k (2 + k - 2)) with k by lia. change (drop 2 (le16 NTPBCMD_SEND_DUMP ++ c)) with c.
  unfold k. destruct (Nat.min_spec 4090 (length c)) as [[? ->]|[? ->]]; [done|]. by rewrite !take_ge by lia.
Qed.

(** A chunk of a dump is served. *)
Lemma serve_chunk v0 c p w cs : iop_ok cs (io w) -> dump_block c p -> chunk_size c ->
  exists d i, through c d /\ iop_ok cs i /\ same_cmd (io w) i /\
    forall B (k : list Z -> M world B),
      (arrive client_ack [];; let* '(_, out) := sending (on_io (serve_call v0 (EvSend p))) in k out) w =
      k (packet NTPBCMD_SEND_DUMP d) (World (ee w) i).
Proof.
  intros [H1 H2 H3 H4 H5 H6] Hp Hc. destruct (link_data c p (ntpbserver_rpc_buf (io w)) Hp Hc H6) as (d & Hd & Hs).
  set (n := set_in client_ack [] (srv (io w))).
  destruct (send_data_ok n NTPBCMD_SEND_DUMP d) as (b & fs & rs & E & Hb & Hrs).
  { done. } { by apply client_ack_accepted. } { done. } { cbn [n ntpb_buf set_in]. unfold NTPB_BUF. lia. }
  { cbn [n ntpb_buf set_in]. destruct Hd as [-> _]. unfold chunk_size in Hc. unfold ntpb_hdrSize. lia. }
  set (n' := set_out _ _ _) in E. set (rb := splice (ntpbserver_rpc_buf (io w)) 0 p).
  exists d, (Iop n' rb 0). split; [done|]. split.
  { split; try done; cbn [n' srv ntpb_buf set_out set_buf]; [by rewrite Hb|].
    cbn [ntpbserver_rpc_buf]. unfold rb. destruct Hp as (q & Hq & ->).
    rewrite length_splice; [done|]. unfold chunk_size in Hc.
    destruct (send_block_size q NTPBCMD_SEND_DUMP c [] ltac:(lia) Hq) as (_ & ->). lia. }
  split; [done|]. intros B k. rewrite (bind_ok _ _ w tt (World (ee w) (set_srv n (io w))) eq_refl).
  rewrite (bind_ok _ _ _ (take 4 rb, packet NTPBCMD_SEND_DUMP d) (World (ee w) (Iop n' rb 0))); [done|].
  unfold sending, on_io. cbn [io ee]. rewrite (serve_send v0 p (set_srv n (io w)) 0 n').
  2:{ cbn [srv set_srv ntpbserver_rpc_buf]. by rewrite Hs. }
  cbn [wire io srv n' sock_out set_out set_srv]. unfold wire. cbn [io srv sock_out set_out set_srv n set_in]. by rewrite drop_app_length.
Qed.

(** The end of a reply is served. *)
Lemma serve_end_reply v0 w : iop_ok 0 (io w) ->
  exists i, iop_ok 1 i /\ same_cmd (io w) i /\
    forall B (k : list Z -> M world B),
      (arrive client_ack [];; let* '(_, out) := sending (on_io (serve_call v0 EvEndReply)) in k out) w =
      k (packet NTPB_EOT []) (World (ee w) i).
Proof.
  intros [H1 H2 H3 H4 H5 H6]. set (n := set_in client_ack [] (srv (io w))).
  destruct (end_reply_ok n) as (b & fs & rs & E & Hb & Hrs).
  { done. } { done. } { by apply client_ack_accepted. } { done. } { cbn [n ntpb_buf set_in]. unfold NTPB_BUF. lia. }
  set (n' := set_semas _ _ _) in E.
  exists (Iop n' (ntpbserver_rpc_buf (io w)) 0). split.
  { split; try done. cbn [n' srv ntpb_buf set_out set_buf set_semas]. by rewrite Hb. }
  split; [done|]. intros B k. rewrite (bind_ok _ _ w tt (World (ee w) (set_srv n (io w))) eq_refl).
  rewrite (bind_ok _ _ _ (take 4 (ntpbserver_rpc_buf (io w)), packet NTPB_EOT []) (World (ee w) (Iop n' (ntpbserver_rpc_buf (io w)) 0))); [done|].
  unfold sending, on_io. cbn [io ee]. rewrite (serve_end v0 (set_srv n (io w)) 0 n' E).
  unfold wire. cbn [io srv sock_out set_out set_srv n n' set_semas set_in]. by rewrite drop_app_length.
Qed.

(** All calls of a reply. *)
Lemma serve_reply v0 cs ps : Forall2 dump_block cs ps -> Forall chunk_size cs -> forall w, iop_ok 0 (io w) ->
  exists ds i, Forall2 through cs ds /\ iop_ok 1 i /\ same_cmd (io w) i /\
    serve_calls v0 ((EvSend <$> ps) ++ [EvEndReply]) (replicate (S (length ds)) client_ack) w =
    Ok ((packet NTPBCMD_SEND_DUMP <$> ds) ++ [packet NTPB_EOT []], World (ee w) i).
Proof.
  induction 1 as [|c p cs ps Hp _ IH]; intros Hcs w Hw.
  - destruct (serve_end_reply v0 w Hw) as (i & Hi & Hsame & E). exists [], i. split; [done|]. split; [done|]. split; [done|].
    cbn [fmap list_fmap app length replicate serve_calls]. by rewrite E.
  - apply Forall_cons in Hcs as [Hc Hcs]. destruct (serve_chunk v0 c p w 0 Hw Hp Hc) as (d & i & Hd & Hi & Hs & E).
    destruct (IH Hcs (World (ee w) i) Hi) as (ds & i' & Hds & Hi' & Hs' & E').
    exists (d :: ds), i'. split; [by constructor|]. split; [done|].
    split; [destruct Hs as (? & ? & ?), Hs' as (? & ? & ?); cbn [io] in *; repeat split; congruence|].
    change (fmap EvSend (p :: ps)) with (EvSend p :: (EvSend <$> ps)).
    change (replicate (S (length (d :: ds))) client_ack) with (client_ack :: replicate (S (length ds)) client_ack).
    cbn [app serve_calls]. rewrite E. by rewrite (bind_ok _ _ _ _ _ E').
Qed.

(** ** The command the EE gets *)

Lemma fetched_block b n data :
  cmdsize n = Z.of_nat (length data) -> take (length data) (cmdbuf n) = data -> (length data <= 58)%nat ->
  is_u16 (remote_cmd n) -> (68 <= length b)%nat ->
  let blk := take CMD_PARAM (fetched b n) in
  block_cmd blk = remote_cmd n /\ block_ok blk /\ block_data blk = data /\ length (fetched b n) = length b.
Proof.
  intros Hs Hd Hl Hc Hb. unfold fetched. rewrite Hs, Nat2Z.id, Hd. set (c := remote_cmd n) in *.
  set (b1 := splice (splice b 0 (le16 c)) 2 data).
  assert (E1 : b1 = (le16 c ++ data) ++ drop (2 + length data) b).
  { unfold b1. rewrite splice_0. change (length (le16 c)) with 2%nat. exact (splice_app b (le16 c) data). }
  assert (L1 : length b1 = length b).
  { rewrite E1, !length_app, length_drop. change (length (le16 c)) with 2%nat. lia. }
  set (b2 := splice b1 CMD_SIZE_OFF _).
  assert (L2 : length b2 = length b) by (rewrite <- L1; apply length_splice; rewrite L1; unfold CMD_SIZE_OFF; cbn [length le32 le16 app]; lia).
  assert (P : forall k, (k <= 2 + length data)%nat -> take k (take CMD_PARAM b2) = take k (le16 c ++ data)).
  { intros k Hk. rewrite take_take. unfold CMD_PARAM. rewrite Nat.min_l by lia. unfold b2.
    rewrite take_splice_le by (unfold CMD_SIZE_OFF; lia). rewrite E1, take_app_le; [done|].
    rewrite length_app. change (length (le16 c)) with 2%nat. lia. }
  assert (Sz : u32_at (take CMD_PARAM b2) CMD_SIZE_OFF = Z.of_nat (length data)).
  { apply u32_at_read; [unfold is_u32; lia|]. unfold CMD_PARAM. rewrite skipn_firstn_comm, take_take.
    change (Nat.min 4 (68 - CMD_SIZE_OFF)) with (length (le32 (Z.of_nat (length data)))).
    apply read_splice. unfold CMD_SIZE_OFF. lia. }
  cbn zeta. unfold block_cmd, block_ok, block_data. rewrite Sz, s32_id, Nat2Z.id by lia.
  split; [apply u16_at_read; [done|]; rewrite drop_0, (P 2%nat) by lia; done|].
  split; [lia|]. split; [|done].
  transitivity (drop 2 (take (2 + length data) (take CMD_PARAM b2))).
  { by rewrite skipn_firstn_comm. }
  rewrite P by lia. rewrite take_ge; [done|]. rewrite length_app. done.
Qed.

(** ** The EE *)

(** Both sides of the console wait for a request. *)
Record ready (w : world) : Prop := {
  r_ee : dbg_ok (ee w);
  r_mode : rpc_mode (g_debugger_opts (ee w)) <> -1;
  r_io : iop_ok 0 (io w);
  r_none : remote_cmd (srv (io w)) = 0;
  r_size : 0 <= cmdsize (srv (io w)) <= 58;
}.

Section Passes.
Context (v0 : Z) (call : rpc_event -> Z) (junk : Z * list Z).
Context (early : bool).

(** The command arrives before the EE looks at it. *)
Definition in_time (w : world) : Prop := rpc_mode (g_debugger_opts (ee w)) = RPC_M_NORMAL \/ early = true.

Lemma ee_pass_spec w data :
  dbg_ok (ee w) -> rpc_mode (g_debugger_opts (ee w)) <> -1 -> in_time w -> call EvGetCmd = 0 ->
  iop_ok 0 (io w) -> cmdsize (srv (io w)) = Z.of_nat (length data) -> take (length data) (cmdbuf (srv (io w))) = data ->
  (length data <= 58)%nat -> is_u16 (remote_cmd (srv (io w))) ->
  let c := remote_cmd (srv (io w)) in
  exists ps d i, ee_pass v0 call junk early w =
      Ok (if bool_decide (c ∈ answered) then (EvSend <$> ps) ++ [EvEndReply] else [], World d i) /\
    served (queue_reply early (take CMD_PARAM (fetched (ntpbserver_rpc_buf (io w)) (srv (io w)))) (ee w)) d c
      (halt_after c (haltState (ee w))) (splice (snd junk) 0 data) /\
    dumps (d_mem (ee w)) c (splice (snd junk) 0 data) ps /\
    iop_ok 0 i /\ remote_cmd (srv i) = 0 /\ cmdsize (srv i) = cmdsize (srv (io w)).
Proof.
  intros Hd Hm Ht Hc Hi Hs Hb Hl Hu c.
  destruct (fetched_block (ntpbserver_rpc_buf (io w)) (srv (io w)) data Hs Hb Hl Hu) as (B1 & B2 & B3 & B4).
  { pose proof (i_rpc _ _ Hi). lia. }
  set (b := fetched _ _) in *. set (blk := take CMD_PARAM b) in *.
  set (i := Iop (set_cmd 0 (cmdbuf (srv (io w))) (cmdsize (srv (io w))) (srv (io w))) b 1).
  set (e1 := queue_reply early blk (ee w)).
  assert (Hok : dbg_ok e1) by (destruct Hd as [[] ?]; done).
  destruct (exec_pass call junk e1 early blk [] Hok Hc Hm eq_refl) as (d & E & Sv); [by split|].
  rewrite B1, B3 in Sv. destruct (sv_log _ _ _ _ _ Sv) as (ps & Hlog & Hps). exists ps, d, i. split.
  - unfold ee_pass. rewrite (bind_ok _ _ w blk (World (ee w) i)).
    2:{ unfold on_io. by rewrite serve_get. }
    rewrite (bind_ok _ _ _ tt (World e1 i)) by done. rewrite (bind_ok _ _ (World e1 i) (length (rpc_log (d_rpc e1))) (World e1 i)) by done.
    rewrite (bind_ok _ _ _ 1 (World d i)).
    2:{ unfold on_ee. cbn [ee io]. rewrite E. by destruct (_ && _). }
    rewrite (bind_ok _ _ _ _ _ eq_refl). unfold ret. do 3 f_equal. cbn [ee io]. rewrite Hlog.
    unfold reply_events. rewrite cons_middle, app_assoc. apply drop_app_length'.
    rewrite length_app. cbn [length]. lia.
  - split; [done|]. split; [done|]. destruct Hi as [I1 I2 I3 I4 I5 I6]. split; [|done].
    split; try done. cbn [i ntpbserver_rpc_buf]. lia.
Qed.

End Passes.

(** ** A command of the client *)

Lemma through_concat cs ds : Forall2 through cs ds -> forall off,
  aligned off cs -> Forall chunk_size cs ->
  length (concat ds) = length (concat cs) /\
  forall i, (off + Z.of_nat i) mod 4096 < 4090 -> concat ds !! i = concat cs !! i.
Proof.
  induction 1 as [|c d cs ds [Hl Hp] _ IH]; intros off Ha Hs; [done|]. cbn [concat aligned] in *.
  destruct Ha as [H0 Ha]. apply Forall_cons in Hs as [Hc Hs]. destruct (IH _ Ha Hs) as [IL IA].
  rewrite !length_app, IL, Hl. split; [done|]. intros i Hi. unfold chunk_size in Hc.
  destruct (Nat.lt_ge_cases i (length c)) as [Hlt|Hge].
  - rewrite !lookup_app_l by lia. assert (Hi' : (i < 4090)%nat).
    { rewrite Z.add_mod, H0, Z.add_0_l, Z.mod_mod, Z.mod_small in Hi by lia. lia. }
    rewrite <- (lookup_take_lt d 4090), <- (lookup_take_lt c 4090) by done. by rewrite Hp.
  - rewrite !lookup_app_r, Hl by lia. apply IA.
    replace (off + Z.of_nat (length c) + Z.of_nat (i - length c)) with (off + Z.of_nat i) by lia. done.
Qed.

(** What a request asks for makes sense. *)
Definition valid (q : request) : Prop :=
  match q with Dump a b => 0 <= a <= b /\ b < 2 ^ 32 /\ b - a < 2 ^ 31 | _ => True end.

(** What the client stores: as many bytes as the range has, and in each 4096 of them the first
    4090 as the memory has them. *)
Definition dumped (m : gmap Z Z) (a b : Z) (f : list Z) : Prop :=
  length f = Z.to_nat (b - a) /\
  forall i, Z.of_nat i mod 4096 < 4090 -> f !! i = load_bytes m a (Z.to_nat (b - a)) !! i.

Definition stored (m : gmap Z Z) (q : request) (ds : list (list Z)) : Prop :=
  match q with Dump a b => dumped m a b (concat ds) | _ => ds = [] end.

Lemma dumps_chunks m q j ps : valid q -> dumps m (req_cmd q) (splice j 0 (req_data q)) ps ->
  exists cs, Forall2 dump_block cs ps /\ Forall chunk_size cs /\ forall ds, Forall2 through cs ds -> stored m q ds.
Proof.
  intros Hv Hd. assert (Hnil : q = Halt \/ q = Resume -> exists cs, Forall2 dump_block cs ps /\ Forall chunk_size cs /\ forall ds, Forall2 through cs ds -> stored m q ds).
  { intros Hq. assert (ps = []) as -> by (destruct Hq as [-> | ->]; exact Hd). exists []. split; [done|]. split; [done|].
    intros ds H. inversion H. by destruct Hq as [-> | ->]. }
  destruct q as [| |a b]; [apply Hnil; by left|apply Hnil; by right|].
  unfold dumps in Hd. cbn [req_cmd NTPB_DUMP REMOTE_CMD_DUMP Z.eqb Pos.eqb] in Hd. cbn zeta in Hd.
  destruct Hv as (Hab & Hb & Hn). rewrite splice_0 in Hd. cbn [req_data] in Hd.
  rewrite (u32_at_read _ 0 a) in Hd; [|unfold is_u32; lia|reflexivity].
  rewrite (u32_at_read _ 4 b) in Hd; [|unfold is_u32; lia|reflexivity].
  destruct Hd as (data & cs & (H1 & H2 & H3 & H4) & Hdata). exists cs. split; [done|]. split; [done|].
  intros ds Hds. destruct (through_concat cs ds Hds 0 H4 H2) as [HL HA].
  rewrite (Hdata Hab ltac:(lia) Hn) in H1. rewrite H1 in HL, HA. rewrite length_load_bytes in HL. by split.
Qed.

Lemma req_answered q : req_cmd q ∈ answered /\ is_u16 (req_cmd q) /\ (length (req_data q) <= 8)%nat.
Proof.
  split; [apply (bool_decide_unpack _); by destruct q|]. split; [destruct q; split; vm_compute; congruence|].
  destruct q; cbn; lia.
Qed.

Lemma client_leaves n : sock_in n = [] -> sock_frag n = [] ->
  handleClient_round n = Ok (ClientGone (-1), n).
Proof.
  intros Hi Hf. unfold handleClient_round, recv_packet, recv_noblock, bind. rewrite Hf, Hi. cbn.
  unfold splice. cbn. destruct n; cbn in *; subst. by rewrite drop_0.
Qed.

Section Command.
Context (v0 : Z) (call : rpc_event -> Z) (junk : Z * list Z) (early : bool).

(** The round of the server that takes a request. *)
Lemma take_request w q f : ready w -> Forall (fun e => exists k, e = Arrive k) f ->
  match f with Arrive k :: _ => (8 <= k)%nat | _ => True end ->
  exists i, iop_ok 0 i /\ remote_cmd (srv i) = req_cmd q /\ cmdsize (srv i) = Z.of_nat (length (req_data q)) /\
    take (length (req_data q)) (cmdbuf (srv i)) = req_data q /\
    forall B (k : round_end * list Z -> M world B),
      (arrive (packet (req_cmd q) (req_data q)) f;; bind (sending (on_io (on_srv handleClient_round))) k) w =
      k (AwaitCmd, reply_ack (req_cmd q)) (World (ee w) i).
Proof.
  intros [R1 R2 [I1 I2 I3 I4 I5 I6] R4 R5] Hf Hf8. destruct (req_answered q) as (_ & Hu & Hl).
  set (n := set_in (packet (req_cmd q) (req_data q)) f (srv (io w))).
  destruct (round_ok n (req_cmd q) (req_data q)) as (b & fs & rs & E & Hb & Hrs); try done.
  { cbn [n ntpb_buf set_in]. unfold NTPB_BUF. lia. } { unfold CMD_BUF. lia. }
  set (n' := set_out _ _ _) in E. exists (set_srv n' (io w)). cbn [n cmdbuf set_in] in *.
  assert (Hcb : length (cmdbuf n') = CMD_BUF).
  { cbn [n' cmdbuf set_out set_buf set_cmd]. rewrite length_app, length_drop, I4. unfold CMD_BUF. lia. }
  split.
  { split; try done. cbn [srv set_srv n' ntpb_buf set_out set_buf]. by rewrite Hb. }
  split; [done|]. split; [done|]. split; [apply take_app_length|]. intros B k.
  rewrite (bind_ok _ _ w tt (World (ee w) (set_srv n (io w)))) by done.
  rewrite (bind_ok _ _ _ (AwaitCmd, reply_ack (req_cmd q)) (World (ee w) (set_srv n' (io w)))); [done|].
  unfold sending, on_io, on_srv. cbn [io srv set_srv]. rewrite E. unfold wire.
  cbn [io srv set_srv n' sock_out set_out n set_in]. by rewrite drop_app_length.
Qed.

Lemma console_spec w q f :
  ready w -> in_time early w -> call EvGetCmd = 0 -> valid q -> Forall (fun e => exists k, e = Arrive k) f ->
  match f with Arrive k :: _ => (8 <= k)%nat | _ => True end ->
  exists ds w', console v0 call junk early f (packet (req_cmd q) (req_data q)) (replicate (S (length ds)) client_ack) w =
      Ok (reply_ack (req_cmd q) :: (packet NTPBCMD_SEND_DUMP <$> ds) ++ [packet NTPB_EOT []], w') /\
    ready w' /\ d_mem (ee w') = d_mem (ee w) /\ g_debugger_opts (ee w') = g_debugger_opts (ee w) /\
    haltState (ee w') = halt_after (req_cmd q) (haltState (ee w)) /\
    stored (d_mem (ee w)) q ds /\ Forall (fun d => Z.of_nat (length d) <= 4096) ds.
Proof.
  intros Hr Ht Hc Hv Hf Hf8. destruct (req_answered q) as (Ha & Hu & Hl).
  destruct (take_request w q f Hr Hf Hf8) as (i & Hi & Hrc & Hrs & Hrd & E1).
  set (w1 := World (ee w) i).
  destruct (ee_pass_spec v0 call junk early w1 (req_data q)) as (ps & d & i2 & E2 & Sv & Hps & Hi2 & Hn2 & Hs2);
    try done; [apply Hr|apply Hr|lia|by (cbn [w1 io]; rewrite Hrc)|].
  cbn [w1 io ee] in E2, Sv, Hps, Hs2. rewrite Hrc in E2, Sv, Hps.
  rewrite (bool_decide_eq_true_2 _ Ha) in E2.
  destruct (dumps_chunks _ q _ ps Hv Hps) as (cs & Hcs & Hsz & Hst).
  destruct (serve_reply v0 cs ps Hcs Hsz (World d i2) Hi2) as (ds & i3 & Hds & Hi3 & (Hk1 & Hk2 & Hk3) & E3).
  cbn [io] in Hk1, Hk2, Hk3.
  set (i4 := set_srv (set_in [] [] (set_semas 1 0 (srv i3))) i3). exists ds, (World d i4). split.
  - unfold console. rewrite E1. rewrite (bind_ok _ _ _ _ _ E2), (bind_ok _ _ _ _ _ E3).
    rewrite (bind_ok _ _ _ tt (World d (set_srv (set_semas 1 0 (srv i3)) i3))).
    2:{ unfold on_io, on_srv, wait_cmd. cbn [io ee]. by rewrite (i_cmd _ _ Hi3), (i_io _ _ Hi3). }
    rewrite (bind_ok _ _ _ tt (World d i4)) by done.
    rewrite (bind_ok _ _ _ (ClientGone (-1)) (World d i4)); [done|].
    unfold on_io, on_srv. cbn [io ee]. by rewrite client_leaves.
  - split.
    { split; cbn [ee io].
      - apply (sv_ok _ _ _ _ _ Sv).
      - rewrite (sv_opts _ _ _ _ _ Sv). apply Hr.
      - destruct Hi3. by split.
      - cbn [i4 srv set_srv remote_cmd set_in set_semas]. congruence.
      - cbn [i4 srv set_srv cmdsize set_in set_semas]. rewrite Hk3, Hs2, Hrs. lia. }
    split; [exact (sv_mem _ _ _ _ _ Sv)|]. split; [exact (sv_opts _ _ _ _ _ Sv)|].
    split; [exact (sv_halt _ _ _ _ _ Sv)|]. split; [by apply Hst|].
    clear -Hds Hsz. induction Hds as [|c d' cs ds [Hl _] _ IH]; [done|]. apply Forall_cons in Hsz as [Hc Hsz].
    constructor; [|by apply IH]. unfold chunk_size in Hc. lia.
Qed.

End Command.

(** ** A session *)

(** A run of the client after some passes of the EE without a request: the flags of the passes
    as in [rpc_replies], and how the request arrives. *)
Record visit : Type := Visit {
  v_polls : list bool;
  v_req : request;
  v_early : bool;
  v_frag : list recv_ev;
}.

Section Session.
Context (v0 : Z) (call : rpc_event -> Z) (junk : Z * list Z).

Fixpoint polls (es : list bool) : M world unit :=
  match es with
  | [] => ret tt
  | e :: es' =>
      let* evs := ee_pass v0 call junk e in
      match evs with [] => polls es' | _ :: _ => fail Hang end
  end.

(** The acknowledgement of the request is there by itself, each later message in pieces. *)
Definition arrives_as (outs pieces : list (list Z)) : Prop :=
  exists cuts, Forall2 cut (tail outs) cuts /\ pieces = default [] (head outs) :: concat cuts.

(** The client and the console agree: from the client's messages the console makes its answers,
    and from these the client, however they are cut up, makes its messages and the file. *)
Definition exchange (v : visit) (w w' : world) (file : list Z) : Prop := exists msgs outs,
  console v0 call junk (v_early v) (v_frag v) (default [] (head msgs)) (tail msgs) w = Ok (outs, w') /\
  forall pieces fuel, arrives_as outs pieces -> (2 * length pieces < fuel)%nat ->
    ntpb_cmd fuel (v_req v) (Client (Some <$> pieces) [] [] []) = Ok (tt, Client [] [] msgs file).

Inductive session : world -> list visit -> list (list Z) -> world -> Prop :=
| session_nil w : session w [] [] w
| session_cons w v vs w1 w2 file files w' :
    polls (v_polls v) w = Ok (tt, w1) -> exchange v w1 w2 file -> session w2 vs files w' ->
    session w (v :: vs) (file :: files) w'.

Context (Hcall : call EvGetCmd = 0).

(** Nothing but the client's state is left changed. *)
Definition same_game (w w' : world) : Prop :=
  d_mem (ee w') = d_mem (ee w) /\ g_debugger_opts (ee w') = g_debugger_opts (ee w).

Lemma idle_pass early w : ready w -> in_time early w ->
  exists w', ee_pass v0 call junk early w = Ok ([], w') /\ ready w' /\ same_game w w' /\ haltState (ee w') = haltState (ee w).
Proof using Hcall.
  intros [R1 R2 R3 R4 R5] Ht. set (data := take (Z.to_nat (cmdsize (srv (io w)))) (cmdbuf (srv (io w)))).
  assert (Hl : length data = Z.to_nat (cmdsize (srv (io w)))).
  { unfold data. rewrite length_take, (i_cmdbuf _ _ R3). unfold CMD_BUF. lia. }
  destruct (ee_pass_spec v0 call junk early w data) as (ps & d & i & E & Sv & _ & Hi & Hn & Hs); try done.
  { lia. } { rewrite Hl. done. } { lia. } { rewrite R4. split; [done|reflexivity]. }
  rewrite R4 in E, Sv. exists (World d i). split; [exact E|]. split.
  - split; cbn [ee io]; [apply (sv_ok _ _ _ _ _ Sv)|by rewrite (sv_opts _ _ _ _ _ Sv)|done|done|by rewrite Hs].
  - split; [split; [exact (sv_mem _ _ _ _ _ Sv)|exact (sv_opts _ _ _ _ _ Sv)]|exact (sv_halt _ _ _ _ _ Sv)].
Qed.

Lemma polls_spec es : forall w, ready w -> Forall (fun e => in_time e w) es ->
  exists w', polls es w = Ok (tt, w') /\ ready w' /\ same_game w w' /\ haltState (ee w') = haltState (ee w).
Proof using Hcall.
  induction es as [|e es IH]; intros w Hr He; cbn [polls].
  - by exists w.
  - apply Forall_cons in He as [He Hes]. destruct (idle_pass e w Hr He) as (w1 & E1 & R1 & [S1 O1] & H1).
    rewrite (bind_ok _ _ _ _ _ E1). destruct (IH w1 R1) as (w2 & E2 & R2 & [S2 O2] & H2).
    { eapply Forall_impl; [exact Hes|]. intros x. unfold in_time. by rewrite O1. }
    exists w2. split; [done|]. split; [done|]. unfold same_game. split; [split; congruence|congruence].
Qed.

(** Pieces of the console's answers, sorted by message. *)
Lemma arrives_packets c ds pieces :
  arrives_as (c :: (packet NTPBCMD_SEND_DUMP <$> ds) ++ [packet NTPB_EOT []]) pieces -> Forall (fun d => Z.of_nat (length d) <= 4096) ds ->
  exists cuts e, pieces = c :: concat cuts ++ e /\ cut (packet NTPB_EOT []) e /\ (length ds <= length (concat cuts))%nat /\
    Forall2 (fun d ps => cut (packet NTPB_SEND_DUMP d) ps /\ Z.of_nat (length d) < 2 ^ 16 - 10) ds cuts.
Proof.
  intros (cs & Hc & ->) Hd. cbn [tail head default from_option id] in *.
  apply Forall2_app_inv_l in Hc as (cuts & es & Hc & He & ->). apply Forall2_cons_inv_l in He as (e & es' & He & Hn & ->).
  apply Forall2_nil_inv_l in Hn as ->. exists cuts, e. rewrite concat_app. cbn [concat]. rewrite app_nil_r.
  split; [done|]. split; [done|]. rewrite Forall2_fmap_l in Hc. clear He. split.
  - clear -Hc. induction Hc as [|d ps ds' cuts' (_ & _ & H) _ IH]; [done|]. destruct ps as [|p ps]; [done|].
    cbn [length concat]. rewrite length_app. cbn [length]. lia.
  - clear -Hc Hd. induction Hc as [|d ps ds' cuts' H _ IH]; [done|]. apply Forall_cons in Hd as [Hd0 Hd].
    constructor; [|by apply IH]. split; [exact H|]. lia.
Qed.

Definition file_of (m : gmap Z Z) (v : visit) (file : list Z) : Prop :=
  match v_req v with Dump a b => dumped m a b file | _ => file = [] end.

Lemma exchange_spec v w : ready w -> in_time (v_early v) w -> valid (v_req v) ->
  Forall (fun e => exists k, e = Arrive k) (v_frag v) ->
  match v_frag v with Arrive k :: _ => (8 <= k)%nat | _ => True end ->
  exists w' file, exchange v w w' file /\ ready w' /\ same_game w w' /\
    haltState (ee w') = halt_after (req_cmd (v_req v)) (haltState (ee w)) /\ file_of (d_mem (ee w)) v file.
Proof using Hcall.
  intros Hr Ht Hv Hf Hf8.
  destruct (console_spec v0 call junk (v_early v) w (v_req v) (v_frag v) Hr Ht Hcall Hv Hf Hf8)
    as (ds & w' & E & R' & Hm & Ho & Hh & Hs & Hd).
  exists w', (if req_file (v_req v) then concat ds else []). split.
  - exists (packet (req_cmd (v_req v)) (req_data (v_req v)) :: replicate (S (length ds)) client_ack).
    eexists. split; [exact E|]. intros pieces fuel Ha Hfuel.
    destruct (arrives_packets _ ds pieces Ha Hd) as (cuts & e & -> & He & Hn & Hcuts).
    rewrite (ntpb_cmd_spec (v_req v) (reply_ack (req_cmd (v_req v))) e ds cuts fuel _ Hcuts He); try done.
    cbn [length] in Hfuel. rewrite length_app in Hfuel. lia.
  - split; [done|]. split; [by split|]. split; [done|]. unfold stored in Hs. unfold file_of. by destruct (v_req v).
Qed.

(** A visit that can be answered. *)
Definition visit_ok (w : world) (v : visit) : Prop :=
  Forall (fun e => in_time e w) (v_polls v) /\ in_time (v_early v) w /\ valid (v_req v) /\
  Forall (fun e => exists k, e = Arrive k) (v_frag v) /\
  match v_frag v with Arrive k :: _ => (8 <= k)%nat | _ => True end.

Lemma visit_ok_same w w' v : same_game w w' -> visit_ok w v -> visit_ok w' v.
Proof. intros [_ H]. unfold visit_ok, in_time. by rewrite H. Qed.

Lemma session_spec vs : forall w, ready w -> Forall (visit_ok w) vs ->
  exists files w', session w vs files w' /\ ready w' /\ same_game w w' /\
    haltState (ee w') = fold_left (fun h v => halt_after (req_cmd (v_req v)) h) vs (haltState (ee w)) /\
    Forall2 (file_of (d_mem (ee w))) vs files.
Proof using Hcall.
  induction vs as [|v vs IH]; intros w Hr Hv.
  - exists [], w. split; [constructor|]. done.
  - apply Forall_cons in Hv as [(V1 & V2 & V3 & V4 & V5) Hv].
    destruct (polls_spec (v_polls v) w Hr V1) as (w1 & E1 & R1 & [S1 O1] & H1).
    destruct (exchange_spec v w1 R1) as (w2 & file & E2 & R2 & [S2 O2] & H2 & F2); try done.
    { unfold in_time. by rewrite O1. }
    destruct (IH w2 R2) as (files & w3 & E3 & R3 & [S3 O3] & H3 & F3).
    { eapply Forall_impl; [exact Hv|]. intros x. apply visit_ok_same. split; congruence. }
    exists (file :: files), w3. split; [by apply (session_cons w v vs w1 w2)|]. split; [done|].
    split; [split; congruence|]. cbn [fold_left]. split; [by rewrite H3, H2, H1|].
    rewrite S1 in F2. constructor; [done|]. by rewrite S2, S1 in F3.
Qed.

End Session.


(** The statics of the server's module, and a console that has just loaded it, with three bytes
    of memory set. *)
Definition boot_iop : iop :=
  Iop (Ntpb 0 (replicate CMD_BUF 0) 0 (replicate (Z.to_nat 4106) 0) 0 0 [] [] [] []) (replicate (Z.to_nat 4098) 0) 0.
Definition fresh_world : world :=
  World (Dbg (list_to_map (zip [0x100000; 0x100001; 0x100002] [1; 2; 3])) (fresh_rpc []) (replicate (Z.to_nat 81920) 0)
           (Opts 0 0 0 RPC_M_NORMAL 1 [] [] []) 0 1)
    (state_or boot_iop (ntpbserver_start boot_iop)).

Lemma fresh_world_ready : ready fresh_world.
Proof.
  destruct (fresh_dbg_ok []) as [H1 H2]. split.
  - split; [exact H1|exact H2].
  - discriminate.
  - unfold fresh_world, ntpbserver_start, bind, modify, ret. cbn [io state_or boot_iop srv set_srv set_semas].
    split; cbn [io srv io_sema cmd_sema ntpb_buf cmdbuf sock_sends ntpbserver_rpc_buf];
      rewrite ?length_replicate; done || lia.
  - reflexivity.
  - cbn. lia.
Qed.

