(* ===== verification/LwipMem.v ===== *)
(** * The heap of the TCP/IP stack (iop/SMSTCPIP/mem.c)

    A first-fit allocator on one array: every block starts with a header of its successor, its
    predecessor and whether it is used; free neighbours are joined when a block is freed.
    Pointers are offsets into the array. *)

From S2P Require Import Prelude.
Local Open Scope ps2rd_scope.

Definition MEM_ALIGNMENT : Z := 4.
Definition SIZEOF_STRUCT_MEM : Z := 8.
Definition MIN_SIZE : Z := 12.

(** [ram], [lfree] and the count of [mem_sem].  Offsets fit the 16 bits of [mem_size_t]. *)
Record mheap : Type := MHeap {
  ram : gmap Z Z;
  lfree : Z;
  mem_sem : Z;
}.

(** ** Headers *)

Definition mem_next (m : gmap Z Z) (p : Z) : Z := load16 m p.
Definition mem_prev (m : gmap Z Z) (p : Z) : Z := load16 m (p + 2).
Definition mem_used (m : gmap Z Z) (p : Z) : Z := load32 m (p + 4).

Definition set_next (p v : Z) : M mheap unit := modify (fun h => MHeap (store16 (ram h) p v) (lfree h) (mem_sem h)).
Definition set_prev (p v : Z) : M mheap unit := modify (fun h => MHeap (store16 (ram h) (p + 2) v) (lfree h) (mem_sem h)).
Definition set_used (p v : Z) : M mheap unit := modify (fun h => MHeap (store32 (ram h) (p + 4) v) (lfree h) (mem_sem h)).
Definition set_lfree (p : Z) : M mheap unit := modify (fun h => MHeap (ram h) p (mem_sem h)).

Definition wait_mem : M mheap unit := fun h =>
  if 0 <? mem_sem h then Ok (tt, MHeap (ram h) (lfree h) (mem_sem h - 1)) else Err Hang.
Definition signal_mem : M mheap unit := modify (fun h => MHeap (ram h) (lfree h) (Z.min 1 (mem_sem h + 1))).

Section Mem.
Context (MEM_SIZE : Z).

(** ** Operations *)

(** The first array of the module is cleared, then the headers of one free block and of the end
    are written. *)
Definition mem_init : M mheap unit :=
  modify (fun h => MHeap (store_bytes (ram h) 0 (replicate (Z.to_nat MEM_SIZE) 0)) (lfree h) (mem_sem h));;
  set_next 0 MEM_SIZE;; set_prev 0 0;; set_used 0 0;;
  set_used MEM_SIZE 1;; set_next MEM_SIZE MEM_SIZE;; set_prev MEM_SIZE MEM_SIZE;;
  modify (fun h => MHeap (ram h) 0 1).

(** The block is joined with the next one, then with the one before, when they are free. *)
Definition plug_forward (mem : Z) : M mheap unit :=
  let* m := gets ram in
  let nmem := mem_next m mem in
  if negb (mem =? nmem) && (mem_used m nmem =? 0) && negb (nmem =? MEM_SIZE) then
    let* f := gets lfree in
    (if f =? nmem then set_lfree mem else ret tt);;
    set_next mem (mem_next m nmem);;
    set_prev (mem_next m nmem) mem
  else ret tt.

Definition plug_backward (mem : Z) : M mheap unit :=
  let* m := gets ram in
  let pmem := mem_prev m mem in
  if negb (pmem =? mem) && (mem_used m pmem =? 0) then
    let* f := gets lfree in
    (if f =? mem then set_lfree pmem else ret tt);;
    set_next pmem (mem_next m mem);;
    set_prev (mem_next m mem) pmem
  else ret tt.

Definition plug_holes (mem : Z) : M mheap unit := plug_forward mem;; plug_backward mem.

(** [None] is the null pointer. *)
Definition mem_free (rmem : option Z) : M mheap unit :=
  match rmem with
  | None => ret tt
  | Some r =>
      wait_mem;;
      if (r <? 0) || (MEM_SIZE <=? r) then signal_mem
      else
        let mem := r - SIZEOF_STRUCT_MEM in
        set_used mem 0;;
        let* f := gets lfree in
        (if mem <? f then set_lfree mem else ret tt);;
        plug_holes mem;;
        signal_mem
  end.

(** Room for the alignment, in 16 bits. *)
Definition align_size (size : Z) : Z :=
  if negb (size mod MEM_ALIGNMENT =? 0)
  then u16 (size + (MEM_ALIGNMENT - (size + SIZEOF_STRUCT_MEM) mod MEM_ALIGNMENT)) else size.

Definition mem_realloc (rmem newsize : Z) : M mheap (option Z) :=
  let newsize := align_size newsize in
  if MEM_SIZE <? newsize then ret None
  else
    wait_mem;;
    if (rmem <? 0) || (MEM_SIZE <=? rmem) then ret (Some rmem)
    else
      let ptr := rmem - SIZEOF_STRUCT_MEM in
      let* m := gets ram in
      let size := u16 (mem_next m ptr - ptr - SIZEOF_STRUCT_MEM) in
      (if newsize + SIZEOF_STRUCT_MEM + MIN_SIZE <? size then
         let ptr2 := u16 (ptr + SIZEOF_STRUCT_MEM + newsize) in
         set_used ptr2 0;;
         set_next ptr2 (mem_next m ptr);;
         set_prev ptr2 ptr;;
         set_next ptr ptr2;;
         let* m := gets ram in
         (if negb (mem_next m ptr2 =? MEM_SIZE) then set_prev (mem_next m ptr2) ptr2 else ret tt);;
         plug_holes ptr2
       else ret tt);;
      signal_mem;;
      ret (Some rmem).

(** The lowest free block from [f] on: [while (lfree->used && lfree != ram_end)]. *)
Fixpoint next_free (fuel : nat) (m : gmap Z Z) (f : Z) : res Z :=
  if negb (mem_used m f =? 0) && negb (f =? MEM_SIZE) then
    match fuel with O => Err OutOfFuel | S fuel' => next_free fuel' m (mem_next m f) end
  else Ok f.

(** The block at [ptr] is taken, the rest of it is a new block. *)
Definition take_block (fuel : nat) (ptr size : Z) : M mheap unit :=
  let ptr2 := u16 (ptr + SIZEOF_STRUCT_MEM + size) in
  set_prev ptr2 ptr;;
  let* m := gets ram in
  set_next ptr2 (mem_next m ptr);;
  set_next ptr ptr2;;
  let* m := gets ram in
  (if negb (mem_next m ptr2 =? MEM_SIZE) then set_prev (mem_next m ptr2) ptr2 else ret tt);;
  set_used ptr2 0;;
  set_used ptr 1;;
  let* f := gets lfree in
  if ptr =? f then
    let* m := gets ram in
    let* f' := lift (next_free fuel m f) in
    set_lfree f'
  else ret tt.

(** [for (ptr = lfree; ptr < MEM_SIZE; ptr = next)]; the sizes are compared as unsigned. *)
Fixpoint malloc_loop (fuel : nat) (ptr size : Z) : M mheap (option Z) :=
  if ptr <? MEM_SIZE then
    match fuel with
    | O => fail OutOfFuel
    | S fuel' =>
        let* m := gets ram in
        if (mem_used m ptr =? 0) && (size + SIZEOF_STRUCT_MEM <=? u32 (mem_next m ptr - (ptr + SIZEOF_STRUCT_MEM))) then
          take_block (Z.to_nat MEM_SIZE) ptr size;;
          signal_mem;;
          ret (Some (ptr + SIZEOF_STRUCT_MEM))
        else malloc_loop fuel' (mem_next m ptr) size
    end
  else signal_mem;; ret None.

(** The loops visit a block at most once, and there are fewer blocks than bytes. *)
Definition mem_malloc (size : Z) : M mheap (option Z) :=
  if size =? 0 then ret None
  else
    let size := align_size size in
    if MEM_SIZE <? size then ret None
    else
      wait_mem;;
      let* f := gets lfree in
      malloc_loop (Z.to_nat MEM_SIZE) f size.

(** [mem_reallocm]: a copy in a new block, or the old block made smaller. *)
Definition mem_reallocm (rmem newsize : Z) : M mheap (option Z) :=
  let* nmem := mem_malloc newsize in
  match nmem with
  | None => mem_realloc rmem newsize
  | Some p =>
      modify (fun h => MHeap (store_bytes (ram h) p (load_bytes (ram h) rmem (Z.to_nat newsize))) (lfree h) (mem_sem h));;
      mem_free (Some rmem);;
      ret (Some p)
  end.

End Mem.

(** ** Headers in memory *)

Definition rd (m : gmap Z Z) (p : Z) : Z * Z * Z := (mem_next m p, mem_prev m p, mem_used m p).

(** Bytes outside the header at [p] are the same. *)
Definition off_hdr (p : Z) (m m' : gmap Z Z) : Prop := forall a, a < p \/ p + 8 <= a -> load8 m' a = load8 m a.

Lemma rd_off p m m' q : off_hdr p m m' -> q + 8 <= p \/ p + 8 <= q -> rd m' q = rd m q.
Proof.
  intros H Hq. unfold rd, mem_next, mem_prev, mem_used, load32, load16. rewrite !H by lia. done.
Qed.

Lemma off_next p v m : off_hdr p m (store16 m p v).
Proof. intros a Ha. apply load8_store16_ne. lia. Qed.
Lemma off_prev p v m : off_hdr p m (store16 m (p + 2) v).
Proof. intros a Ha. apply load8_store16_ne. lia. Qed.
Lemma off_used p v m : off_hdr p m (store32 m (p + 4) v).
Proof. intros a Ha. apply load8_store32_ne. lia. Qed.

Lemma load16_off m m' a : (forall b, a <= b < a + 2 -> load8 m' b = load8 m b) -> load16 m' a = load16 m a.
Proof. intros H. unfold load16. rewrite !H by lia. done. Qed.

Lemma rd_next m p v : is_u16 v -> rd (store16 m p v) p = (v, mem_prev m p, mem_used m p).
Proof.
  intros Hv. unfold rd, mem_next, mem_prev, mem_used. rewrite load16_store16_eq. f_equal; [f_equal|].
  - by apply Z.mod_small.
  - apply load16_off. intros b Hb. apply load8_store16_ne. lia.
  - apply load32_ext. intros b Hb. apply load8_store16_ne. lia.
Qed.
Lemma rd_prev m p v : is_u16 v -> rd (store16 m (p + 2) v) p = (mem_next m p, v, mem_used m p).
Proof.
  intros Hv. unfold rd, mem_next, mem_prev, mem_used. rewrite load16_store16_eq. f_equal; [f_equal|].
  - apply load16_off. intros b Hb. apply load8_store16_ne. lia.
  - by apply Z.mod_small.
  - apply load32_ext. intros b Hb. apply load8_store16_ne. lia.
Qed.
Lemma rd_used m p v : is_u32 v -> rd (store32 m (p + 4) v) p = (mem_next m p, mem_prev m p, v).
Proof.
  intros Hv. unfold rd, mem_next, mem_prev, mem_used. rewrite load32_store32_eq. f_equal; [f_equal|].
  - apply load16_off. intros b Hb. apply load8_store32_ne. lia.
  - apply load16_off. intros b Hb. apply load8_store32_ne. lia.
  - by apply Z.mod_small.
Qed.

(** ** Chains of blocks *)

(** A block: its length with the header, and whether it is used. *)
Notation blk := (Z * bool)%type.

Definition b2z (u : bool) : Z := if u then 1 else 0.

(** The blocks [bs] lie one after the other from [p] on; [prev] starts the one before. *)
Fixpoint seg (m : gmap Z Z) (prev p : Z) (bs : list blk) : Prop :=
  match bs with
  | [] => True
  | (l, u) :: bs' => 8 <= l /\ l mod 4 = 0 /\ rd m p = (p + l, prev, b2z u) /\ seg m p (p + l) bs'
  end.

(** Where the blocks end, and where the last of them starts. *)
Fixpoint stop (p : Z) (bs : list blk) : Z :=
  match bs with [] => p | (l, _) :: bs' => stop (p + l) bs' end.
Fixpoint last_start (prev p : Z) (bs : list blk) : Z :=
  match bs with [] => prev | (l, _) :: bs' => last_start p (p + l) bs' end.

Lemma seg_app m b1 b2 : forall prev p,
  seg m prev p (b1 ++ b2) <-> seg m prev p b1 /\ seg m (last_start prev p b1) (stop p b1) b2.
Proof.
  induction b1 as [|[l u] b1 IH]; intros prev p; cbn [app seg stop last_start]; [tauto|]. rewrite IH. tauto.
Qed.
Lemma stop_app b1 b2 : forall p, stop p (b1 ++ b2) = stop (stop p b1) b2.
Proof. induction b1 as [|[l u] b1 IH]; intros p; cbn [app stop]; [done|]. apply IH. Qed.
Lemma last_start_snoc b l u : forall prev p, last_start prev p (b ++ [(l, u)]) = stop p b.
Proof. induction b as [|[l' u'] b IH]; intros prev p; cbn [app stop last_start]; [done|]. apply IH. Qed.

Lemma seg_bounds m bs : forall prev p, seg m prev p bs -> p <= stop p bs /\ (bs <> [] -> p + 8 <= stop p bs).
Proof.
  induction bs as [|[l u] bs IH]; intros prev p; cbn [seg stop]; [intros _; split; [lia|done]|].
  intros (H8 & _ & _ & Hs). apply IH in Hs. split; [lia|]. intros _. lia.
Qed.

Lemma seg_last m bs : forall prev p, seg m prev p bs -> bs <> [] ->
  p <= last_start prev p bs /\ last_start prev p bs + 8 <= stop p bs.
Proof.
  induction bs as [|[l u] bs IH]; intros prev p Hs Hne; [done|]. cbn [seg stop last_start] in *.
  destruct Hs as (H8 & _ & _ & Hs). destruct bs as [|b bs]; [cbn; lia|].
  specialize (IH p (p + l) Hs ltac:(done)). lia.
Qed.

(** Headers of the range are the same. *)
Lemma seg_frame m m' bs : forall prev p, seg m prev p bs ->
  (forall q, p <= q -> q + 8 <= stop p bs -> rd m' q = rd m q) -> seg m' prev p bs.
Proof.
  induction bs as [|[l u] bs IH]; intros prev p; cbn [seg stop]; [done|]. intros (H8 & H4 & Hr & Hs) Hf.
  pose proof (seg_bounds _ _ _ _ Hs) as [Hb _]. split; [done|]. split; [done|].
  split; [rewrite Hf by lia; done|]. apply IH; [done|]. intros q Hq1 Hq2. apply Hf; lia.
Qed.

Lemma seg_off w m m' prev p bs : seg m prev p bs -> off_hdr w m m' -> w + 8 <= p \/ stop p bs <= w -> seg m' prev p bs.
Proof. intros Hs Ho Hw. apply (seg_frame m); [done|]. intros q H1 H2. apply (rd_off w); [done|]. lia. Qed.

Section Chain.
Context (MEM_SIZE : Z).
Context (Hsize : 16 <= MEM_SIZE <= 64000) (Hal : MEM_SIZE mod 4 = 0).

(** The blocks from [p] on, up to the header at the end; its [prev] is not kept up to date. *)
Definition tail_ok (m : gmap Z Z) (prev p : Z) (bs : list blk) : Prop :=
  seg m prev p bs /\ stop p bs = MEM_SIZE /\ mem_next m MEM_SIZE = MEM_SIZE /\ mem_used m MEM_SIZE = 1.

Definition chain (m : gmap Z Z) (bs : list blk) : Prop := tail_ok m 0 0 bs.

Lemma tail_off w m m' prev p bs : tail_ok m prev p bs -> off_hdr w m m' -> w + 8 <= p -> p <= MEM_SIZE -> tail_ok m' prev p bs.
Proof.
  intros (H1 & H2 & H3 & H4) Ho Hw Hp. split; [by apply (seg_off w m); auto|]. split; [done|].
  assert (E : rd m' MEM_SIZE = rd m MEM_SIZE) by (apply (rd_off w); [done|lia]). injection E as E1 E2 E3.
  by rewrite E1, E3.
Qed.

Lemma tail_app m prev p b1 b2 : tail_ok m prev p (b1 ++ b2) <->
  seg m prev p b1 /\ tail_ok m (last_start prev p b1) (stop p b1) b2.
Proof. unfold tail_ok. rewrite seg_app, stop_app. tauto. Qed.

(** The first of the blocks, or the end, gets another predecessor. *)
Lemma relink m prev p bs v : tail_ok m prev p bs -> is_u16 v -> tail_ok (store16 m (p + 2) v) v p bs.
Proof.
  intros (H1 & H2 & H3 & H4) Hv. pose proof (off_prev p v m) as Ho. destruct bs as [|[l u] bs]; cbn [seg stop] in *.
  - pose proof (rd_prev m p v Hv) as E. injection E as E1 E2 E3. unfold tail_ok. cbn [seg stop].
    unfold mem_next, mem_used in *. subst. by rewrite E1, E3.
  - destruct H1 as (H8 & H4' & Hr & Hs). pose proof (seg_bounds _ _ _ _ Hs) as [Hb _].
    injection Hr as R1 R2 R3. pose proof (rd_prev m p v Hv) as E. rewrite R1, R3 in E.
    destruct (tail_off p m (store16 m (p + 2) v) p (p + l) bs) as (T1 & T2 & T3 & T4); [by split|done|lia|lia|].
    split; [|done]. cbn [seg]. done.
Qed.

(** Starts and ends are small. *)
Lemma tail_range m prev p bs : tail_ok m prev p bs -> p <= MEM_SIZE /\ (bs <> [] -> p + 8 <= MEM_SIZE).
Proof. intros (H1 & H2 & _). rewrite <- H2. by apply (seg_bounds m bs prev p). Qed.

Lemma stop_mod m bs : forall prev p, seg m prev p bs -> p mod 4 = 0 -> stop p bs mod 4 = 0.
Proof.
  induction bs as [|[l u] bs IH]; intros prev p; cbn [seg stop]; [done|]. intros (_ & H4 & _ & Hs) Hp.
  apply (IH p); [done|]. rewrite Z.add_mod, Hp, H4 by lia. done.
Qed.

(** ** Used blocks *)

(** Their starts and lengths, in order. *)
Fixpoint useds (p : Z) (bs : list blk) : list (Z * Z) :=
  match bs with
  | [] => []
  | (l, u) :: bs' => (if u then [(p, l)] else []) ++ useds (p + l) bs'
  end.

(** The bytes the callers have. *)
Definition live (us : list (Z * Z)) (a : Z) : Prop := exists s l, (s, l) ∈ us /\ s + 8 <= a < s + l.
Definition same_live (us : list (Z * Z)) (m m' : gmap Z Z) : Prop := forall a, live us a -> load8 m' a = load8 m a.

Lemma same_live_trans us m1 m2 m3 : same_live us m1 m2 -> same_live us m2 m3 -> same_live us m1 m3.
Proof. intros H1 H2 a Ha. rewrite (H2 a Ha). by apply H1. Qed.

Lemma useds_app b1 b2 : forall p, useds p (b1 ++ b2) = useds p b1 ++ useds (stop p b1) b2.
Proof. induction b1 as [|[l u] b1 IH]; intros p; cbn [app useds stop]; [done|]. by rewrite IH, app_assoc. Qed.

Lemma useds_range m bs : forall prev p s l, seg m prev p bs -> (s, l) ∈ useds p bs -> p <= s /\ 8 <= l /\ s + l <= stop p bs.
Proof.
  induction bs as [|[l' u] bs IH]; intros prev p s l; cbn [seg useds stop]; [by intros _ []%elem_of_nil|].
  intros (H8 & _ & _ & Hs) [Hin|Hin]%elem_of_app.
  - pose proof (seg_bounds _ _ _ _ Hs) as [Hb _]. destruct u; [|by apply elem_of_nil in Hin].
    apply list_elem_of_singleton in Hin. injection Hin as -> ->. lia.
  - destruct (IH p (p + l') s l Hs Hin) as (? & ? & ?). lia.
Qed.

(** A header is not part of what the callers have. *)
Lemma live_start m bs b1 b2 w m' : chain m bs -> bs = b1 ++ b2 -> w = stop 0 b1 -> off_hdr w m m' -> same_live (useds 0 bs) m m'.
Proof.
  intros [Hs [Hst _]] -> -> Ho a (s & l & Hin & Ha). apply Ho. rewrite useds_app in Hin. apply seg_app in Hs as [S1 S2].
  apply elem_of_app in Hin as [Hin|Hin].
  - pose proof (useds_range _ _ _ _ _ _ S1 Hin). lia.
  - pose proof (useds_range _ _ _ _ _ _ S2 Hin). lia.
Qed.

(** *** Joining two free blocks *)

Lemma join_ok m b1 l1 l2 b2 : let x := stop 0 b1 in let y := x + l1 + l2 in
  chain m (b1 ++ (l1, false) :: (l2, false) :: b2) ->
  let m' := store16 (store16 m x y) (y + 2) x in
  chain m' (b1 ++ (l1 + l2, false) :: b2) /\ same_live (useds 0 (b1 ++ (l1, false) :: (l2, false) :: b2)) m m' /\
  is_u16 x /\ is_u16 y.
Proof using Hsize Hal.
  intros x y H. set (m1 := store16 m x y). pose proof H as H0. apply tail_app in H as [S1 T]. fold x in T.
  pose proof (seg_bounds _ _ _ _ S1) as [Hx _]. fold x in Hx.
  destruct T as (T1 & T2 & T3 & T4). cbn [seg stop] in T1, T2. fold y in T1, T2.
  destruct T1 as (A8 & A4 & AR & B8 & B4 & BR & S2). fold y in S2.
  assert (Ty : tail_ok m (x + l1) y b2) by (by split).
  pose proof (tail_range _ _ _ _ Ty) as [Hy _].
  assert (Ux : is_u16 x) by (unfold is_u16; lia). assert (Uy : is_u16 y) by (unfold is_u16; lia).
  assert (O1 : off_hdr x m m1) by apply off_next.
  assert (O2 : off_hdr y m1 (store16 m1 (y + 2) x)) by apply off_prev.
  split; [|split; [|done]].
  - apply tail_app. fold x. split.
    { apply (seg_off y m1); [|done|fold x; lia]. apply (seg_off x m); [done|done|fold x; lia]. }
    assert (T' : tail_ok m1 (x + l1) y b2) by (apply (tail_off x m); [done|done|lia|lia]).
    destruct (relink m1 (x + l1) y b2 x T' Ux) as (R1 & R2 & R3 & R4).
    split; [|cbn [stop]; replace (x + (l1 + l2)) with y by lia; done]. cbn [seg].
    replace (x + (l1 + l2)) with y by lia. split; [lia|]. split; [rewrite Z.add_mod, A4, B4 by lia; done|].
    split; [|done]. rewrite (rd_off y m1 _ x O2) by lia. injection AR as N1 N2 N3. unfold m1. by rewrite (rd_next m x y Uy), N2, N3.
  - apply (same_live_trans _ m m1); [by apply (live_start m _ b1 ((l1, false) :: (l2, false) :: b2) x)|].
    intros a (s & l & Hin & Ha). apply O2.
    replace (useds 0 (b1 ++ (l1, false) :: (l2, false) :: b2)) with (useds 0 b1 ++ useds y b2) in Hin
      by (rewrite useds_app; cbn [useds app]; fold x; done).
    apply elem_of_app in Hin as [Hin|Hin].
    + pose proof (useds_range _ _ _ _ _ _ S1 Hin). fold x in H. lia.
    + pose proof (useds_range _ _ _ _ _ _ S2 Hin). lia.
Qed.

(** *** The lowest free block *)

(** A free block starts at [f]. *)
Definition free_at (bs : list blk) (f : Z) : Prop := exists b1 l b2, bs = b1 ++ (l, false) :: b2 /\ f = stop 0 b1.

Fixpoint first_free (p : Z) (bs : list blk) : Z :=
  match bs with
  | [] => p
  | (l, u) :: bs' => if u then first_free (p + l) bs' else p
  end.

(** No two neighbours are both free. *)
Definition free_head (bs : list blk) : Prop := match bs with (_, false) :: _ => True | _ => False end.
Fixpoint sparse (bs : list blk) : Prop :=
  match bs with [] => True | (_, u) :: bs' => sparse bs' /\ (free_head bs' -> u = true) end.
Definition free_last (bs : list blk) : Prop := match last bs with Some (_, false) => True | _ => False end.

Lemma sparse_app b1 b2 : sparse (b1 ++ b2) <-> sparse b1 /\ sparse b2 /\ ~ (free_last b1 /\ free_head b2).
Proof.
  induction b1 as [|[l u] b1 IH]; cbn [app sparse].
  - unfold free_last. cbn. tauto.
  - rewrite IH. unfold free_last. destruct b1 as [|[l' u'] b1].
    + cbn. destruct u; cbn; naive_solver.
    + change (last ((l, u) :: (l', u') :: b1)) with (last ((l', u') :: b1)). cbn [app free_head]. tauto.
Qed.

(** Where a block of a list with another one in its middle can be. *)
Lemma split_around (b1 b2 c1 c2 : list blk) b c : b1 ++ b :: b2 = c1 ++ c :: c2 ->
  (exists k, b1 = c1 ++ c :: k /\ c2 = k ++ b :: b2) \/ (c1 = b1 /\ c = b /\ c2 = b2) \/ (exists k, c1 = b1 ++ b :: k /\ b2 = k ++ c :: c2).
Proof.
  intros E. destruct (app_eq_inv _ _ _ _ E) as [(k & -> & Ek)|(k & -> & Ek)].
  - destruct k as [|b' k]; injection Ek as <- ->.
    + right; left. by rewrite app_nil_r.
    + left. by exists k.
  - destruct k as [|b' k]; injection Ek as <- ->.
    + right; left. by rewrite app_nil_r.
    + right; right. by exists k.
Qed.

Lemma free_at_join b1 l1 l2 b2 f : let x := stop 0 b1 in
  free_at (b1 ++ (l1, false) :: (l2, false) :: b2) f -> free_at (b1 ++ (l1 + l2, false) :: b2) (if f =? x + l1 then x else f).
Proof.
  intros x (c1 & l & c2 & E & ->). destruct (Z.eqb_spec (stop 0 c1) (x + l1)) as [_|Hne]; [by exists b1, (l1 + l2), b2|].
  destruct (split_around _ _ _ _ _ _ E) as [(k & -> & ->)|[(-> & _ & _)|(k & -> & Ek)]].
  - exists c1, l, (k ++ (l1 + l2, false) :: b2). by rewrite <- app_assoc.
  - by exists b1, (l1 + l2), b2.
  - destruct k as [|b' k]; injection Ek as <- ->; [by rewrite stop_app in Hne|].
    exists (b1 ++ (l1 + l2, false) :: k), l, c2. rewrite <- app_assoc. split; [done|]. rewrite !stop_app. cbn [stop].
    by rewrite Z.add_assoc.
Qed.

(** Where a block was used or is put in two, the other free blocks stay. *)
Lemma free_at_other b1 b2 mid l u f : free_at (b1 ++ (l, u) :: b2) f -> stop (stop 0 b1) mid = stop 0 b1 + l ->
  f <> stop 0 b1 \/ u = true -> free_at (b1 ++ mid ++ b2) f.
Proof.
  intros (c1 & n & c2 & E & ->) Hmid Hne. destruct (split_around _ _ _ _ _ _ E) as [(k & -> & ->)|[(-> & [= _ <-] & _)|(k & -> & ->)]].
  - exists c1, n, (k ++ mid ++ b2). by rewrite <- app_assoc.
  - by destruct Hne.
  - exists (b1 ++ mid ++ k), n, c2. rewrite <- !app_assoc. split; [done|]. by rewrite !stop_app, Hmid.
Qed.

Lemma first_free_app b1 b2 : forall p, first_free p (b1 ++ b2) =
  if bool_decide (Exists (fun b => b.2 = false) b1) then first_free p b1 else first_free (stop p b1) b2.
Proof.
  induction b1 as [|[l u] b1 IH]; intros p; cbn [app first_free stop].
  - rewrite bool_decide_eq_false_2; [done|]. by intros H%Exists_nil.
  - destruct u.
    + rewrite IH. assert (E : Exists (fun b : blk => b.2 = false) ((l, true) :: b1) <-> Exists (fun b => b.2 = false) b1)
        by (rewrite Exists_cons; cbn; naive_solver). by rewrite (bool_decide_ext _ _ E).
    + by rewrite bool_decide_eq_true_2 by (by left).
Qed.

Lemma first_free_le b1 l b2 m : seg m 0 0 b1 -> first_free 0 (b1 ++ (l, false) :: b2) <= stop 0 b1.
Proof.
  assert (G : forall b prev p, seg m prev p b -> first_free p b <= stop p b).
  { induction b as [|[l' u] b IH]; intros prev p; cbn [seg first_free stop]; [lia|]. intros (H8 & _ & _ & Hs).
    pose proof (seg_bounds _ _ _ _ Hs) as [Hb _]. destruct u; [by apply (IH p)|lia]. }
  intros Hs. rewrite first_free_app. case_bool_decide; [by apply (G b1 0)|]. cbn. lia.
Qed.

Lemma first_free_lt m bs : forall prev p, seg m prev p bs -> Exists (fun b => b.2 = false) bs -> first_free p bs < stop p bs.
Proof.
  induction bs as [|[l u] bs IH]; intros prev p; cbn [seg first_free stop]; [by intros _ ?%Exists_nil|]. intros (H8 & _ & _ & Hs) HE.
  pose proof (seg_bounds _ _ _ _ Hs) as [Hb _]. destruct u; [|lia]. apply (IH p (p + l) Hs). apply Exists_cons in HE as [?|?]; done.
Qed.

Lemma first_free_join b1 l1 l2 b2 : forall p,
  first_free p (b1 ++ (l1, false) :: (l2, false) :: b2) = first_free p (b1 ++ (l1 + l2, false) :: b2).
Proof. intros p. by rewrite !first_free_app. Qed.

Lemma useds_join b1 l1 l2 b2 : useds 0 (b1 ++ (l1, false) :: (l2, false) :: b2) = useds 0 (b1 ++ (l1 + l2, false) :: b2).
Proof. rewrite !useds_app. cbn [useds app]. by rewrite Z.add_assoc. Qed.

(** The state of the allocator with these blocks. *)
Record heap_rep (h : mheap) (bs : list blk) : Prop := {
  hr_chain : chain (ram h) bs;
  hr_lfree : free_at bs (lfree h);
}.

(** A step between two states that have the same used blocks. *)
Record keeps_used (h h' : mheap) (bs bs' : list blk) : Prop := {
  ku_rep : heap_rep h' bs';
  ku_used : useds 0 bs' = useds 0 bs;
  ku_live : same_live (useds 0 bs) (ram h) (ram h');
  ku_first : lfree h = first_free 0 bs -> lfree h' = first_free 0 bs';
  ku_sem : mem_sem h' = mem_sem h;
  ku_last : free_last bs -> free_last bs';
}.

Lemma keeps_used_refl h bs : heap_rep h bs -> keeps_used h h bs bs.
Proof. intros H. by split. Qed.
Lemma keeps_used_trans h1 h2 h3 b1 b2 b3 : keeps_used h1 h2 b1 b2 -> keeps_used h2 h3 b2 b3 -> keeps_used h1 h3 b1 b3.
Proof.
  intros [A1 A2 A3 A4 A5 A6] [B1 B2 B3 B4 B5 B6]. split; [done|congruence| |by auto|congruence|by auto].
  rewrite A2 in B3. by apply (same_live_trans _ _ (ram h2)).
Qed.

(** Two free neighbours are joined, with [lfree] moved away from the one that vanishes. *)
Lemma join_step h b1 l1 l2 b2 : let x := stop 0 b1 in let y := x + l1 + l2 in
  heap_rep h (b1 ++ (l1, false) :: (l2, false) :: b2) ->
  exists h', ((if lfree h =? x + l1 then set_lfree x else ret tt);; set_next x y;; set_prev y x) h = Ok (tt, h') /\
    keeps_used h h' (b1 ++ (l1, false) :: (l2, false) :: b2) (b1 ++ (l1 + l2, false) :: b2).
Proof using Hsize Hal.
  intros x y [Hc Hb]. destruct (join_ok (ram h) b1 l1 l2 b2 Hc) as (C & L & Ux & Uy). fold x y in C, L, Ux, Uy.
  set (f := if lfree h =? x + l1 then x else lfree h). set (m' := store16 (store16 (ram h) x y) (y + 2) x) in *.
  exists (MHeap m' f (mem_sem h)). split; [unfold f; by destruct (lfree h =? x + l1)|]. split.
  - split; [done|]. unfold f. by apply free_at_join.
  - symmetry. apply useds_join.
  - done.
  - intros Hf. cbn [lfree]. rewrite <- first_free_join. unfold f. destruct (Z.eqb_spec (lfree h) (x + l1)) as [E|]; [|done].
    exfalso. pose proof Hc as Hc'. apply tail_app in Hc' as [S1 (T1 & _)]. cbn [seg] in T1. destruct T1 as (A8 & _).
    pose proof (first_free_le b1 l1 ((l2, false) :: b2) (ram h) S1). fold x in H. lia.
  - done.
  - unfold free_last. rewrite !last_app. destruct b2 as [|b b2]; [done|]. cbn [last]. done.
Qed.

(** *** plug_holes *)

(** The header of a block in the middle, and what follows it. *)
Lemma chain_at m b1 l u b2 : chain m (b1 ++ (l, u) :: b2) -> let x := stop 0 b1 in
  seg m 0 0 b1 /\ 0 <= x /\ x + l <= MEM_SIZE /\ 8 <= l /\ l mod 4 = 0 /\ x mod 4 = 0 /\
  mem_next m x = x + l /\ mem_prev m x = last_start 0 0 b1 /\ mem_used m x = b2z u /\ tail_ok m x (x + l) b2.
Proof.
  intros H x. apply tail_app in H as [S1 (T1 & T2 & T3)]. fold x in T1, T2. cbn [seg stop] in T1, T2.
  destruct T1 as (H8 & H4 & R & S2). pose proof (seg_bounds _ _ _ _ S1) as [Hx _]. fold x in Hx.
  assert (T : tail_ok m x (x + l) b2) by (by split). pose proof (tail_range _ _ _ _ T) as [Hy _].
  pose proof (stop_mod _ _ _ _ S1 eq_refl) as Hm. fold x in Hm. injection R as R1 R2 R3. done.
Qed.

Lemma plug_forward_spec h b1 l b2 : heap_rep h (b1 ++ (l, false) :: b2) -> sparse b2 ->
  exists h' l' b2', plug_forward MEM_SIZE (stop 0 b1) h = Ok (tt, h') /\
    keeps_used h h' (b1 ++ (l, false) :: b2) (b1 ++ (l', false) :: b2') /\ sparse b2' /\ ~ free_head b2'.
Proof using Hsize Hal.
  intros Hr Hsp. set (x := stop 0 b1).
  destruct (chain_at _ _ _ _ _ (hr_chain _ _ Hr)) as (S1 & X0 & XL & L8 & _ & _ & N & _ & _ & T). fold x in X0, XL, N, T.
  unfold plug_forward. rewrite (bind_ok _ _ h (ram h) h) by done. rewrite N.
  assert (Hno : mem_used (ram h) (x + l) = 1 -> ~ free_head b2 -> exists h' l' b2', (if negb (x =? x + l) && (mem_used (ram h) (x + l) =? 0) && negb (x + l =? MEM_SIZE)
    then let* f := gets lfree in (if f =? x + l then set_lfree x else ret tt);; set_next x (mem_next (ram h) (x + l));; set_prev (mem_next (ram h) (x + l)) x
    else ret tt) h = Ok (tt, h') /\ keeps_used h h' (b1 ++ (l, false) :: b2) (b1 ++ (l', false) :: b2') /\ sparse b2' /\ ~ free_head b2').
  { intros -> Hf. rewrite andb_false_r. exists h, l, b2. split; [done|]. split; [by apply keeps_used_refl|done]. }
  destruct b2 as [|[l2 [|]] b2].
  - destruct T as (_ & <- & _ & U). cbn [stop] in *. apply Hno; [done|naive_solver].
  - destruct T as (T1 & _). cbn [seg] in T1. destruct T1 as (_ & _ & [= _ _ U] & _). apply Hno; [done|naive_solver].
  - destruct T as (T1 & T2 & _). cbn [seg stop] in T1, T2. destruct T1 as (B8 & _ & [= N2 _ U2] & S2).
    pose proof (seg_bounds _ _ _ _ S2) as [Hb _].
    rewrite U2, N2. destruct (Z.eqb_spec x (x + l)); [lia|]. destruct (Z.eqb_spec (x + l) MEM_SIZE); [lia|]. cbn [negb andb Z.eqb b2z].
    rewrite (bind_ok _ _ h (lfree h) h) by done.
    destruct (join_step h b1 l l2 b2 Hr) as (h' & E & K). exists h', (l + l2), b2. split; [exact E|]. split; [done|].
    cbn [sparse] in Hsp. destruct Hsp as [Hsp Hh]. split; [done|]. intros Hf. by specialize (Hh Hf).
Qed.

Lemma plug_backward_spec h b1 l b2 : heap_rep h (b1 ++ (l, false) :: b2) -> sparse b1 -> sparse b2 -> ~ free_head b2 ->
  exists h' bs', plug_backward (stop 0 b1) h = Ok (tt, h') /\ keeps_used h h' (b1 ++ (l, false) :: b2) bs' /\ sparse bs'.
Proof using Hsize Hal.
  intros Hr Hs1 Hs2 Hf. set (x := stop 0 b1).
  destruct (chain_at _ _ _ _ _ (hr_chain _ _ Hr)) as (S1 & X0 & XL & L8 & _ & _ & N & P & _ & T). fold x in X0, XL, N, P, T.
  unfold plug_backward. rewrite (bind_ok _ _ h (ram h) h) by done. rewrite P.
  assert (Hmid : sparse ((l, false) :: b2)) by (split; [done|by intros ?]).
  destruct b1 as [|[l0 u0] b1 _] using rev_ind.
  - exists h, ((l, false) :: b2). change x with 0. cbn [last_start Z.eqb negb andb]. split; [done|]. split; [by apply keeps_used_refl|done].
  - rewrite last_start_snoc in *. set (q := stop 0 b1) in *.
    assert (Hx : x = q + l0) by (unfold x; rewrite stop_app; done).
    assert (Hr' : heap_rep h (b1 ++ (l0, u0) :: (l, false) :: b2)) by (by rewrite <- app_assoc in Hr).
    destruct (chain_at _ _ _ _ _ (hr_chain _ _ Hr')) as (_ & Q0 & _ & L80 & _ & _ & NQ & _ & UQ & _). fold q in Q0, NQ, UQ.
    rewrite UQ. destruct (Z.eqb_spec q x); [lia|]. cbn [negb andb]. destruct u0; cbn [b2z Z.eqb].
    + exists h, (b1 ++ (l0, true) :: (l, false) :: b2). rewrite <- app_assoc. split; [done|]. split; [by apply keeps_used_refl|].
      rewrite cons_middle, app_assoc. apply sparse_app. split; [done|]. split; [done|]. unfold free_last. rewrite last_snoc. tauto.
    + rewrite (bind_ok _ _ h (lfree h) h) by done. rewrite N.
      destruct (join_step h b1 l0 l b2 Hr') as (h' & E & K). fold q in E. exists h', (b1 ++ (l0 + l, false) :: b2).
      rewrite Hx. split; [exact E|]. rewrite <- app_assoc. split; [exact K|].
      apply sparse_app in Hs1 as (H1 & _ & H3). apply sparse_app. split; [done|]. split; [by split|]. intros [Hl _]. by apply H3.
Qed.

Lemma plug_holes_spec h b1 l b2 : heap_rep h (b1 ++ (l, false) :: b2) -> sparse b1 -> sparse b2 ->
  exists h' bs', plug_holes MEM_SIZE (stop 0 b1) h = Ok (tt, h') /\ keeps_used h h' (b1 ++ (l, false) :: b2) bs' /\ sparse bs'.
Proof using Hsize Hal.
  intros Hr H1 H2. destruct (plug_forward_spec h b1 l b2 Hr H2) as (h1 & l' & b2' & E1 & K1 & S1 & F1).
  destruct (plug_backward_spec h1 b1 l' b2' (ku_rep _ _ _ _ K1) H1 S1 F1) as (h2 & bs' & E2 & K2 & S2).
  exists h2, bs'. unfold plug_holes. rewrite (bind_ok _ _ _ _ _ E1). split; [exact E2|]. split; [by eapply keeps_used_trans|done].
Qed.

(** ** mem_free *)

Lemma set_used_ok m b1 l u u' b2 : let x := stop 0 b1 in
  chain m (b1 ++ (l, u) :: b2) -> let m' := store32 m (x + 4) (b2z u') in
  chain m' (b1 ++ (l, u') :: b2) /\ same_live (useds 0 (b1 ++ (l, u) :: b2)) m m'.
Proof using Hsize Hal.
  intros x H m'. pose proof (off_used x (b2z u') m) as Ho. split; [|by apply (live_start m _ b1 ((l, u) :: b2) x)].
  destruct (chain_at _ _ _ _ _ H) as (S1 & X0 & XL & L8 & L4 & _ & N & P & _ & T). fold x in X0, XL, N, P, T, Ho.
  apply tail_app. fold x. split; [apply (seg_off x m); [done|done|fold x; lia]|].
  destruct (tail_off x m m' x (x + l) b2 T Ho ltac:(lia) XL) as (T1 & T2 & T3).
  split; [|done]. cbn [seg]. split; [done|]. split; [done|]. split; [|done].
  unfold m'. rewrite rd_used by (destruct u'; unfold is_u32; cbn; lia). by rewrite N, P.
Qed.

(** The used blocks without the one at [x]. *)
Lemma useds_free b1 l b2 : useds 0 (b1 ++ (l, true) :: b2) = useds 0 b1 ++ (stop 0 b1, l) :: useds (stop 0 b1 + l) b2.
Proof. by rewrite useds_app. Qed.

Lemma same_live_sub us us' m m' : us' ⊆ us -> same_live us m m' -> same_live us' m m'.
Proof. intros Hs H a (s & l & Hin & Ha). apply H. exists s, l. split; [by apply Hs|done]. Qed.

Lemma free_last_app b1 b2 : free_last b2 -> free_last (b1 ++ b2).
Proof. unfold free_last in *. rewrite last_app. by destruct (last b2). Qed.

(** Every allocation leaves a block behind it, so that the last block is always free. *)
Lemma free_last_tail b1 l b2 : free_last (b1 ++ (l, true) :: b2) -> b2 <> [] /\ free_last b2.
Proof.
  unfold free_last in *. rewrite last_app, last_cons. destruct b2 as [|b b2]; [done|].
  destruct (last (b :: b2)) eqn:E; [by intros H|]. by apply last_None in E.
Qed.

Lemma mem_free_spec h b1 l b2 : heap_rep h (b1 ++ (l, true) :: b2) -> sparse (b1 ++ (l, true) :: b2) ->
  free_last (b1 ++ (l, true) :: b2) -> mem_sem h = 1 ->
  exists h' bs', mem_free MEM_SIZE (Some (stop 0 b1 + 8)) h = Ok (tt, h') /\ heap_rep h' bs' /\ sparse bs' /\ free_last bs' /\ mem_sem h' = 1 /\
    useds 0 bs' = useds 0 b1 ++ useds (stop 0 b1 + l) b2 /\ same_live (useds 0 bs') (ram h) (ram h') /\
    (lfree h = first_free 0 (b1 ++ (l, true) :: b2) -> lfree h' = first_free 0 bs').
Proof using Hsize Hal.
  intros Hr Hsp Hlast Hm. destruct Hr as [Hc Hb]. set (x := stop 0 b1) in *.
  destruct (chain_at _ _ _ _ _ Hc) as (S1 & X0 & XL & L8 & _ & _ & _ & _ & _ & Tb). fold x in X0, XL, Tb.
  destruct (free_last_tail _ _ _ Hlast) as [Hne Hl2]. pose proof (proj2 (tail_range _ _ _ _ Tb) Hne) as Hend.
  destruct (set_used_ok _ _ _ true false _ Hc) as (C1 & L1). fold x in C1, L1. set (m1 := store32 (ram h) (x + 4) 0) in *.
  set (f := if x <? lfree h then x else lfree h). set (h1 := MHeap m1 f 0).
  assert (R1 : heap_rep h1 (b1 ++ (l, false) :: b2)).
  { split; [done|]. cbn [h1 lfree]. unfold f. destruct (x <? lfree h); [by exists b1, l, b2|].
    apply (free_at_other b1 b2 [(l, false)] l true); [done|done|by right]. }
  apply sparse_app in Hsp as (Sp1 & [Sp2 _] & _).
  destruct (plug_holes_spec h1 b1 l b2 R1 Sp1 Sp2) as (h2 & bs' & E & [K1 K2 K3 K4 K5 K6] & Sp').
  assert (Hsub : useds 0 (b1 ++ (l, false) :: b2) = useds 0 b1 ++ useds (x + l) b2) by (by rewrite useds_app).
  exists (MHeap (ram h2) (lfree h2) 1), bs'. split.
  { unfold mem_free. rewrite (bind_ok _ _ h tt (MHeap (ram h) (lfree h) 0)) by (unfold wait_mem; by rewrite Hm).
    destruct (Z.ltb_spec (x + 8) 0); [lia|]. destruct (Z.leb_spec MEM_SIZE (x + 8)) as [HB|].
    { exfalso. lia. }
    cbn [orb]. unfold SIZEOF_STRUCT_MEM. replace (x + 8 - 8) with x by lia.
    rewrite (bind_ok _ _ _ tt (MHeap m1 (lfree h) 0)) by done. rewrite (bind_ok _ _ _ (lfree h) (MHeap m1 (lfree h) 0)) by done.
    rewrite (bind_ok _ _ _ tt h1) by (unfold h1, f; by destruct (x <? lfree h)).
    rewrite (bind_ok _ _ _ _ _ E). unfold signal_mem, modify. by rewrite K5. }
  split; [by destruct K1|]. split; [done|].
  split; [apply K6; rewrite cons_middle, app_assoc; by apply free_last_app|].
  split; [done|]. split; [congruence|]. rewrite K2, Hsub. split.
  - apply (same_live_trans _ _ m1); [|by rewrite Hsub in K3].
    apply (same_live_sub (useds 0 (b1 ++ (l, true) :: b2))); [|done]. rewrite useds_free. fold x. set_solver.
  - intros Hf. apply K4. cbn [h1 lfree]. unfold f. rewrite Hf, !first_free_app.
    case_bool_decide as HE; [|fold x; cbn [first_free]].
    + pose proof (first_free_le b1 l b2 _ S1) as Hle. fold x in Hle. rewrite first_free_app, bool_decide_eq_true_2 in Hle by done.
      destruct (Z.ltb_spec x (first_free 0 b1)); [lia|done].
    + assert (Hge : x < first_free (x + l) b2).
      { destruct (chain_at _ _ _ _ _ Hc) as (_ & _ & _ & _ & _ & _ & _ & _ & _ & (T1 & _)).
        assert (G : forall b prev p, seg (ram h) prev p b -> p <= first_free p b).
        { induction b as [|[l' u] b IH]; intros prev p; cbn [seg first_free]; [lia|]. intros (H8 & _ & _ & Hs).
          destruct u; [|lia]. specialize (IH p (p + l') Hs). lia. }
        specialize (G b2 _ _ T1). fold x in G. lia. }
      destruct (Z.ltb_spec x (first_free (x + l) b2)); [done|lia].
Qed.

(** ** mem_malloc *)

(** A free block is split: the first [8 + size] bytes, the rest a free block behind them. *)
Lemma split_ok m b1 l u u' size b2 : let x := stop 0 b1 in let y := x + 8 + size in
  chain m (b1 ++ (l, u) :: b2) -> 0 <= size -> size mod 4 = 0 -> size + 16 <= l -> forall m1 m3 m4 m5 m6,
  off_hdr y m m1 -> rd m1 y = (x + l, x, mem_used m1 y) ->
  m3 = store16 m1 x y ->
  (m4 = store16 m3 (x + l + 2) y \/ (m4 = m3 /\ x + l = MEM_SIZE)) ->
  off_hdr y m4 m5 -> rd m5 y = (x + l, x, 0) ->
  off_hdr x m5 m6 -> rd m6 x = (mem_next m5 x, mem_prev m5 x, b2z u') ->
  chain m6 (b1 ++ (8 + size, u') :: (l - 8 - size, false) :: b2) /\
  (forall a, load8 m6 a = load8 m a \/ x <= a < x + 8 \/ y <= a < y + 8 \/ x + l <= a < x + l + 8) /\ is_u16 y.
Proof using Hsize Hal.
  intros x y H Hs Hs4 Hl m1 m3 m4 m5 m6 O1 R1 E3 E4 O5 R5 O6 R6.
  destruct (chain_at _ _ _ _ _ H) as (S1 & X0 & XL & L8 & L4 & X4 & N & P & U & T). fold x in X0, XL, N, P, U, T, X4.
  assert (Uy : is_u16 y) by (unfold is_u16; lia).
  assert (O3 : off_hdr x m1 m3) by (rewrite E3; apply off_next).
  assert (O4 : off_hdr (x + l) m3 m4) by (destruct E4 as [-> | [-> _]]; [apply off_prev|done]).
  assert (B : forall q, q + 8 <= x -> rd m6 q = rd m q).
  { intros q Hq. rewrite (rd_off x m5 m6), (rd_off y m4 m5), (rd_off (x + l) m3 m4), (rd_off x m1 m3), (rd_off y m m1); (done || lia). }
  split; [|split; [|done]].
  - apply tail_app. fold x. split; [apply (seg_frame m); [done|]; intros q H1 H2; apply B; fold x in H2; lia|].
    assert (T3 : tail_ok m3 x (x + l) b2).
    { apply (tail_off x m1); [|done|lia|done]. apply (tail_off y m); [done|done|lia|done]. }
    assert (T4 : tail_ok m4 y (x + l) b2).
    { destruct E4 as [-> | [-> HE]]; [by apply (relink m3 x)|]. destruct b2 as [|b b2]; [done|].
      destruct (tail_range _ _ _ _ T3) as [_ T3']. specialize (T3' ltac:(done)). lia. }
    destruct (tail_off x m5 m6 y (x + l) b2) as (T6 & T7 & T8); [|done|lia|done|].
    { apply (tail_off y m4); [done|done|lia|done]. }
    split; [|cbn [stop]; replace (x + (8 + size) + (l - 8 - size)) with (x + l) by lia; done].
    cbn [seg]. replace (x + (8 + size)) with y by lia. replace (y + (l - 8 - size)) with (x + l) by lia.
    split; [lia|]. split; [rewrite Z.add_mod, Hs4 by lia; done|]. split.
    { rewrite R6. assert (E : rd m5 x = rd m3 x) by (rewrite (rd_off y m4 m5), (rd_off (x + l) m3 m4); (done || lia)).
      rewrite E3 in E. rewrite (rd_next m1 x y Uy) in E. injection E as E1 E2 _. rewrite E1, E2.
      assert (E' : rd m1 x = rd m x) by (apply (rd_off y); [done|lia]). injection E' as _ E' _. by rewrite E', P. }
    split; [lia|]. split.
    { replace (l - 8 - size) with (l + (-1) * size + (-2) * 4) by lia. rewrite Z.mod_add by lia.
      rewrite Z.add_mod, Z.mul_mod, L4, Hs4 by lia. done. }
    split; [by rewrite (rd_off x m5 m6 y O6), R5 by lia|done].
  - intros a. destruct (decide (x <= a < x + 8)); [tauto|]. destruct (decide (y <= a < y + 8)); [tauto|].
    destruct (decide (x + l <= a < x + l + 8)); [tauto|]. left.
    rewrite (O6 a), (O5 a), (O4 a), (O3 a), (O1 a) by lia. done.
Qed.

(** Splitting does not touch what the callers have. *)
Lemma split_live m b1 l size b2 m6 : let x := stop 0 b1 in let y := x + 8 + size in
  chain m (b1 ++ (l, false) :: b2) -> 0 <= size -> size + 16 <= l ->
  (forall a, load8 m6 a = load8 m a \/ x <= a < x + 8 \/ y <= a < y + 8 \/ x + l <= a < x + l + 8) ->
  same_live (useds 0 (b1 ++ (l, false) :: b2)) m m6.
Proof using Hsize Hal.
  intros x y H H0 Hl Hb a (s & n & Hin & Ha). destruct (Hb a) as [E|Hc]; [done|]. exfalso.
  destruct (chain_at _ _ _ _ _ H) as (S1 & X0 & XL & L8 & _ & _ & _ & _ & _ & (S2 & _)). fold x in S2, X0.
  rewrite useds_app in Hin. cbn [useds app] in Hin. fold x in Hin. apply elem_of_app in Hin as [Hin|Hin].
  - pose proof (useds_range _ _ _ _ _ _ S1 Hin). fold x in H1. lia.
  - pose proof (useds_range _ _ _ _ _ _ S2 Hin). lia.
Qed.

Lemma next_free_spec m bs : forall fuel prev p, tail_ok m prev p bs -> (length bs <= fuel)%nat ->
  next_free MEM_SIZE fuel m p = Ok (first_free p bs).
Proof using Hsize Hal.
  induction bs as [|[l u] bs IH]; intros fuel prev p (Hs & Hst & H1 & H2) Hf; cbn [seg stop first_free length] in *.
  - subst p. destruct fuel; cbn [next_free]; by rewrite Z.eqb_refl, andb_false_r.
  - destruct Hs as (H8 & _ & [= N _ U] & Hs). assert (T : tail_ok m p (p + l) bs) by (by split).
    pose proof (tail_range _ _ _ _ T) as [Hp _]. destruct fuel as [|fuel]; [lia|]. cbn [next_free]. rewrite U, N.
    destruct u; cbn [b2z Z.eqb negb andb]; [|done]. destruct (Z.eqb_spec p MEM_SIZE); [lia|]. cbn [negb].
    apply (IH fuel p); [done|lia].
Qed.

Lemma seg_length m bs : forall prev p, seg m prev p bs -> 8 * Z.of_nat (length bs) <= stop p bs - p.
Proof.
  induction bs as [|[l u] bs IH]; intros prev p; cbn [seg stop length]; [lia|]. intros (H8 & _ & _ & Hs).
  apply IH in Hs. lia.
Qed.
Lemma chain_length m bs : chain m bs -> (length bs <= Z.to_nat MEM_SIZE)%nat.
Proof using Hsize Hal. intros (Hs & He & _). apply seg_length in Hs. lia. Qed.

(** [mem_next] of the block behind is looked at before its predecessor is set. *)
Lemma relink_choice m y q v : mem_next m y = q ->
  exists m', (forall f s, (if negb (mem_next m y =? MEM_SIZE) then set_prev (mem_next m y) v else ret tt) (MHeap m f s) = Ok (tt, MHeap m' f s)) /\
    (m' = store16 m (q + 2) v \/ (m' = m /\ q = MEM_SIZE)).
Proof.
  intros ->. destruct (Z.eqb_spec q MEM_SIZE) as [->|]; cbn [negb].
  - exists m. split; [done|by right].
  - exists (store16 m (q + 2) v). split; [done|by left].
Qed.

Lemma take_block_spec h b1 l size b2 : let x := stop 0 b1 in let bs := b1 ++ (l, false) :: b2 in
  let bs' := b1 ++ (8 + size, true) :: (l - 8 - size, false) :: b2 in
  heap_rep h bs -> 0 <= size -> size mod 4 = 0 -> size + 16 <= l ->
  exists h', take_block MEM_SIZE (Z.to_nat MEM_SIZE) x size h = Ok (tt, h') /\ heap_rep h' bs' /\ mem_sem h' = mem_sem h /\
    same_live (useds 0 bs) (ram h) (ram h') /\ (lfree h = first_free 0 bs -> lfree h' = first_free 0 bs').
Proof using Hsize Hal.
  intros x bs bs' [Hc Hb] Hs Hs4 Hl. set (y := x + 8 + size). set (m := ram h).
  destruct (chain_at _ _ _ _ _ Hc) as (S1 & X0 & XL & L8 & _ & _ & N & _ & _ & _). fold x m in S1, X0, XL, N.
  assert (Ux : is_u16 x) by (unfold is_u16; lia). assert (Uy : is_u16 y) by (unfold is_u16; lia).
  assert (Uz : is_u16 (x + l)) by (unfold is_u16; lia).
  set (m1a := store16 m (y + 2) x). set (m1 := store16 m1a y (x + l)). set (m3 := store16 m1 x y).
  assert (O1a : off_hdr y m m1a) by apply off_prev. assert (O1b : off_hdr y m1a m1) by apply off_next.
  assert (O1 : off_hdr y m m1) by (intros a Ha; by rewrite (O1b a Ha), (O1a a Ha)).
  assert (N1a : mem_next m1a x = x + l).
  { assert (E : rd m1a x = rd m x) by (apply (rd_off y); [done|lia]). injection E as E _ _. by rewrite E. }
  assert (R1 : rd m1 y = (x + l, x, mem_used m1 y)).
  { pose proof (rd_next m1a y (x + l) Uz) as E. pose proof (rd_prev m y x Ux) as E'. fold m1a in E'. fold m1 in E.
    injection E as E1 E2 E3. injection E' as _ E2' _. unfold rd. by rewrite E1, E2, E2'. }
  assert (N3 : mem_next m3 y = x + l).
  { assert (E : rd m3 y = rd m1 y) by (apply (rd_off x); [apply off_next|lia]). rewrite R1 in E. by injection E. }
  destruct (relink_choice m3 y (x + l) y N3) as (m4 & E4 & H4). set (m5 := store32 m4 (y + 4) 0). set (m6 := store32 m5 (x + 4) 1).
  assert (R5 : rd m5 y = (x + l, x, 0)).
  { unfold m5. rewrite (rd_used m4 y 0) by (unfold is_u32; lia).
    assert (E : rd m4 y = rd m3 y).
    { destruct H4 as [-> | [-> _]]; [apply (rd_off (x + l)); [apply off_prev|lia]|done]. }
    assert (E' : rd m3 y = rd m1 y) by (apply (rd_off x); [apply off_next|lia]). rewrite E', R1 in E. injection E as -> -> _. done. }
  destruct (split_ok m b1 l false true size b2 Hc Hs Hs4 Hl m1 m3 m4 m5 m6 O1 R1 eq_refl H4 (off_used y 0 m4) R5 (off_used x 1 m5)
    (rd_used m5 x 1 ltac:(unfold is_u32; lia))) as (C & Hm6 & _). fold x y in C, Hm6.
  set (f' := if x =? lfree h then first_free x ((8 + size, true) :: (l - 8 - size, false) :: b2) else lfree h).
  exists (MHeap m6 f' (mem_sem h)). split.
  { unfold take_block. replace (u16 (x + SIZEOF_STRUCT_MEM + size)) with y by (symmetry; apply Z.mod_small; exact Uy).
    rewrite (bind_ok _ _ h tt (MHeap m1a (lfree h) (mem_sem h))) by done. rewrite (bind_ok _ _ _ m1a (MHeap m1a (lfree h) (mem_sem h))) by done.
    rewrite N1a. rewrite (bind_ok _ _ _ tt (MHeap m1 (lfree h) (mem_sem h))) by done.
    rewrite (bind_ok _ _ _ tt (MHeap m3 (lfree h) (mem_sem h))) by done. rewrite (bind_ok _ _ _ m3 (MHeap m3 (lfree h) (mem_sem h))) by done.
    rewrite (bind_ok _ _ _ _ _ (E4 _ _)). rewrite (bind_ok _ _ _ tt (MHeap m5 (lfree h) (mem_sem h))) by done.
    rewrite (bind_ok _ _ _ tt (MHeap m6 (lfree h) (mem_sem h))) by done. rewrite (bind_ok _ _ _ (lfree h) (MHeap m6 (lfree h) (mem_sem h))) by done.
    unfold f'. destruct (Z.eqb_spec x (lfree h)) as [<-|]; [|done]. rewrite (bind_ok _ _ _ m6 (MHeap m6 x (mem_sem h))) by done.
    rewrite (bind_ok _ _ _ (first_free x ((8 + size, true) :: (l - 8 - size, false) :: b2)) (MHeap m6 x (mem_sem h))); [done|].
    unfold lift. pose proof C as C'. apply tail_app in C' as [_ C']. fold x in C'. rewrite (next_free_spec m6 _ _ _ _ C'); [done|].
    apply chain_length in C. rewrite length_app in C. lia. }
  split; [|split; [done|split; [by apply (split_live m b1 l size b2)|]]].
  - split; [done|]. cbn [lfree]. unfold f'. destruct (Z.eqb_spec x (lfree h)) as [|Hne].
    + cbn [first_free]. exists (b1 ++ [(8 + size, true)]), (l - 8 - size), b2. rewrite <- app_assoc. split; [done|]. by rewrite stop_app.
    + apply (free_at_other b1 b2 [(8 + size, true); (l - 8 - size, false)] l false); [done|cbn [stop]; lia|left; fold x; congruence].
  - intros Hf. cbn [lfree]. unfold f', bs'. rewrite first_free_app. unfold bs in Hf. rewrite first_free_app in Hf. fold x in Hf |- *.
    case_bool_decide as HE; [|by rewrite Hf; cbn [first_free]; rewrite Z.eqb_refl]. rewrite Hf.
    destruct (Z.eqb_spec x (first_free 0 b1)) as [Hx|]; [|done]. pose proof (first_free_lt m b1 0 0 S1 HE) as G. fold x in G. lia.
Qed.

(** A free block with room for [size] bytes and the header behind them. *)
Definition fits (size : Z) (b : blk) : Prop := b.2 = false /\ size + 16 <= b.1.

Lemma malloc_loop_spec h size : 0 <= size -> forall b2 b1 fuel, heap_rep h (b1 ++ b2) -> (length b2 <= fuel)%nat ->
  (exists c1 l c2, b2 = c1 ++ (l, false) :: c2 /\ size + 16 <= l /\ Forall (fun b => ~ fits size b) c1 /\
     malloc_loop MEM_SIZE fuel (stop 0 b1) size h =
     (take_block MEM_SIZE (Z.to_nat MEM_SIZE) (stop 0 (b1 ++ c1)) size;; signal_mem;; ret (Some (stop 0 (b1 ++ c1) + 8))) h) \/
  (Forall (fun b => ~ fits size b) b2 /\ malloc_loop MEM_SIZE fuel (stop 0 b1) size h = (signal_mem;; ret None) h).
Proof using Hsize Hal.
  intros Hs. induction b2 as [|[l u] b2 IH]; intros b1 fuel Hr Hf.
  - right. split; [done|]. rewrite app_nil_r in Hr. destruct (hr_chain _ _ Hr) as (_ & -> & _).
    destruct fuel; cbn [malloc_loop]; by rewrite (proj2 (Z.ltb_ge _ _)) by lia.
  - cbn [length] in Hf. destruct fuel as [|fuel]; [lia|]. set (x := stop 0 b1).
    destruct (chain_at _ _ _ _ _ (hr_chain _ _ Hr)) as (_ & X0 & XL & L8 & _ & _ & N & _ & U & _). fold x in X0, XL, N, U.
    cbn [malloc_loop]. rewrite (proj2 (Z.ltb_lt _ _)) by lia. rewrite (bind_ok _ _ h (ram h) h) by done. rewrite U, N.
    unfold SIZEOF_STRUCT_MEM. replace (u32 (x + l - (x + 8))) with (l - 8) by (unfold u32; rewrite Z.mod_small; lia).
    destruct ((b2z u =? 0) && (size + 8 <=? l - 8)) eqn:E.
    + apply andb_prop in E as [Eu Es%Z.leb_le]. destruct u; [done|].
      left. exists [], l, b2. rewrite app_nil_r. fold x. split; [done|]. split; [lia|]. done.
    + assert (Hn : ~ fits size (l, u)).
      { intros [Hu Hz]. cbn in Hu, Hz. subst u. cbn in E. apply Z.leb_gt in E. lia. }
      replace (x + l) with (stop 0 (b1 ++ [(l, u)])) by (by rewrite stop_app).
      destruct (IH (b1 ++ [(l, u)]) fuel) as [(c1 & n & c2 & -> & Hn1 & Hc & Ed)|[Hc Ed]]; [by rewrite <- app_assoc|lia| |].
      * left. exists ((l, u) :: c1), n, c2. split; [done|]. split; [done|]. split; [by constructor|].
        rewrite Ed. by rewrite <- app_assoc.
      * right. split; [by constructor|done].
Qed.

(** The aligned size: at least what was asked for, unless the 16 bits run over. *)
Lemma align_size_spec n : 0 <= n <= 65532 -> align_size n mod 4 = 0 /\ n <= align_size n < n + 4.
Proof.
  intros Hn. unfold align_size, MEM_ALIGNMENT, SIZEOF_STRUCT_MEM. destruct (Z.eqb_spec (n mod 4) 0) as [E|E]; cbn [negb]; [lia|].
  replace ((n + 8) mod 4) with (n mod 4) by (symmetry; exact (Z.mod_add n 2 4 ltac:(lia))).
  pose proof (Z.mod_pos_bound n 4 ltac:(lia)) as B. pose proof (Z.div_mod n 4 ltac:(lia)) as D.
  unfold u16. change (2 ^ 16) with 65536. set (q := n / 4) in *. set (r := n mod 4) in *. rewrite (Z.mod_small (n + (4 - r)) 65536) by lia. split; [|lia].
  replace (n + (4 - r)) with ((q + 1) * 4) by lia. apply Z.mod_mul. lia.
Qed.

(** The result of [mem_malloc]: a block of the list is put in two, or none has room. *)
Lemma mem_malloc_spec h bs n : heap_rep h bs -> sparse bs -> free_last bs -> mem_sem h = 1 -> 0 < n <= 65532 ->
  (exists b1 l b2 h', bs = b1 ++ (l, false) :: b2 /\ let size := align_size n in size + 16 <= l /\
     let bs' := b1 ++ (8 + size, true) :: (l - 8 - size, false) :: b2 in
     mem_malloc MEM_SIZE n h = Ok (Some (stop 0 b1 + 8), h') /\ heap_rep h' bs' /\ sparse bs' /\ free_last bs' /\ mem_sem h' = 1 /\
     same_live (useds 0 bs) (ram h) (ram h') /\ (lfree h = first_free 0 bs -> lfree h' = first_free 0 bs')) \/
  (mem_malloc MEM_SIZE n h = Ok (None, h) /\
   (lfree h = first_free 0 bs -> Forall (fun b => ~ fits (align_size n) b) bs)).
Proof using Hsize Hal.
  intros Hr Hsp Hla Hm Hn. destruct (align_size_spec n ltac:(lia)) as [A4 Ab]. set (size := align_size n) in *.
  unfold mem_malloc. destruct (Z.eqb_spec n 0); [lia|]. fold size.
  destruct (Z.ltb_spec MEM_SIZE size) as [Hbig|Hsm].
  { right. split; [done|]. intros _. apply Forall_forall. intros [l u] Hin%list_elem_of_In [_ Hf]. cbn in Hf.
    apply list_elem_of_In, list_elem_of_split in Hin as (b1 & b2 & ->).
    destruct (chain_at _ _ _ _ _ (hr_chain _ _ Hr)) as (_ & ? & ? & _). lia. }
  set (h0 := MHeap (ram h) (lfree h) 0). assert (R0 : heap_rep h0 bs) by (by destruct Hr).
  rewrite (bind_ok _ _ h tt h0) by (unfold wait_mem; by rewrite Hm). rewrite (bind_ok _ _ h0 (lfree h) h0) by done.
  destruct (hr_lfree _ _ Hr) as (b1 & l0 & b2 & Ebs & Ef).
  destruct (malloc_loop_spec h0 size ltac:(lia) ((l0, false) :: b2) b1 (Z.to_nat MEM_SIZE)) as [(c1 & l & c2 & Ec & Hl & _ & E)|[Hnf E]].
  { pose proof R0 as R0'. rewrite Ebs in R0'. exact R0'. } { pose proof (chain_length _ _ (hr_chain _ _ Hr)) as L. rewrite Ebs, length_app in L. lia. }
  - left. exists (b1 ++ c1), l, c2.
    assert (Ebs' : bs = (b1 ++ c1) ++ (l, false) :: c2) by (by rewrite Ebs, Ec, <- app_assoc).
    rewrite Ebs' in R0. destruct (take_block_spec h0 (b1 ++ c1) l size c2 R0 ltac:(lia) A4 Hl) as (h' & Et & Rt & Mt & Lt & Ft).
    exists (MHeap (ram h') (lfree h') 1). split; [done|]. cbn zeta. split; [done|]. split.
    { rewrite Ef, E, (bind_ok _ _ _ _ _ Et). unfold signal_mem, modify, bind. by rewrite Mt. }
    split; [by destruct Rt|]. rewrite Ebs' in Hsp, Hla |- *. split.
    { apply sparse_app in Hsp as (P1 & [P2 P3] & _). apply sparse_app. split; [done|]. split; [|by intros [_ []]]. cbn. done. }
    split; [|by split].
    unfold free_last in *. rewrite last_app, last_cons in Hla. rewrite last_app, !last_cons. by destruct (last c2).
  - right. rewrite Ef, E. split; [unfold signal_mem, modify, bind; cbn; by destruct h; cbn in *; subst|].
    intros Hlow. rewrite Ebs. apply Forall_app. split; [|done].
    rewrite Ebs, first_free_app in Hlow. case_bool_decide as HE.
    + exfalso. destruct (chain_at (ram h) b1 l0 false b2) as (S1 & _); [pose proof (hr_chain _ _ Hr) as Hc; rewrite Ebs in Hc; exact Hc|].
      pose proof (first_free_lt _ _ _ _ S1 HE). lia.
    + apply Forall_forall. intros b Hb [Hfr _]. apply HE, Exists_exists. by exists b.
Qed.

(** ** mem_realloc *)

Lemma split_live_used m b1 l size b2 m6 : let x := stop 0 b1 in let y := x + 8 + size in
  let bs' := b1 ++ (8 + size, true) :: (l - 8 - size, false) :: b2 in chain m6 bs' -> 0 <= size -> size + 16 <= l ->
  (forall a, load8 m6 a = load8 m a \/ x <= a < x + 8 \/ y <= a < y + 8 \/ x + l <= a < x + l + 8) ->
  same_live (useds 0 bs') m m6.
Proof using Hsize Hal.
  intros x y bs' H H0 Hl Hb a (s & n & Hin & Ha). destruct (Hb a) as [E|Hc]; [done|]. exfalso.
  unfold bs' in *. rewrite useds_app in Hin. cbn [useds app] in Hin. fold x in Hin.
  apply tail_app in H as (S1 & S2 & _). fold x in S2. cbn [seg] in S2. destruct S2 as (_ & _ & _ & _ & _ & _ & S2).
  replace (x + (8 + size) + (l - 8 - size)) with (x + l) in Hin, S2 by lia.
  apply elem_of_app in Hin as [Hin|[Hin|Hin]%elem_of_cons].
  - pose proof (useds_range _ _ _ _ _ _ S1 Hin). fold x in H. lia.
  - injection Hin as -> ->. lia.
  - pose proof (useds_range _ _ _ _ _ _ S2 Hin). lia.
Qed.

(** The block is cut and the rest given back. *)
Lemma shrink_spec h b1 l size b2 : let x := stop 0 b1 in
  heap_rep h (b1 ++ (l, true) :: b2) -> 0 <= size -> size mod 4 = 0 -> size + 16 <= l ->
  exists h1, (let ptr2 := u16 (x + 8 + size) in
      set_used ptr2 0;; set_next ptr2 (mem_next (ram h) x);; set_prev ptr2 x;; set_next x ptr2;;
      let* m := gets ram in
      (if negb (mem_next m ptr2 =? MEM_SIZE) then set_prev (mem_next m ptr2) ptr2 else ret tt);; plug_holes MEM_SIZE ptr2) h =
      plug_holes MEM_SIZE (stop 0 (b1 ++ [(8 + size, true)])) h1 /\
    heap_rep h1 (b1 ++ (8 + size, true) :: (l - 8 - size, false) :: b2) /\ mem_sem h1 = mem_sem h /\
    same_live (useds 0 (b1 ++ (8 + size, true) :: (l - 8 - size, false) :: b2)) (ram h) (ram h1).
Proof using Hsize Hal.
  intros x [Hc Hb] Hs Hs4 Hl. set (y := x + 8 + size). set (m := ram h).
  destruct (chain_at _ _ _ _ _ Hc) as (S1 & X0 & XL & L8 & _ & _ & N & _ & U & _). fold x m in S1, X0, XL, N, U.
  assert (Ux : is_u16 x) by (unfold is_u16; lia). assert (Uy : is_u16 y) by (unfold is_u16; lia).
  assert (Uz : is_u16 (x + l)) by (unfold is_u16; lia).
  set (ma := store32 m (y + 4) 0). set (mb := store16 ma y (x + l)). set (m1 := store16 mb (y + 2) x). set (m3 := store16 m1 x y).
  pose proof (off_used y 0 m : off_hdr y m ma) as Oa. pose proof (off_next y (x + l) ma : off_hdr y ma mb) as Ob.
  pose proof (off_prev y x mb : off_hdr y mb m1) as Oc. pose proof (off_next x y m1 : off_hdr x m1 m3) as O3.
  assert (O1 : off_hdr y m m1) by (intros a Ha; by rewrite (Oc a Ha), (Ob a Ha), (Oa a Ha)).
  assert (R1 : rd m1 y = (x + l, x, 0)).
  { unfold m1. rewrite (rd_prev mb y x Ux). pose proof (rd_next ma y (x + l) Uz) as E. fold mb in E. injection E as -> _ ->.
    pose proof (rd_used m y 0 ltac:(unfold is_u32; lia)) as E. fold ma in E. by injection E as _ _ ->. }
  assert (R1' : rd m1 y = (x + l, x, mem_used m1 y)) by (injection R1 as E1 E2 E3; unfold rd; by rewrite E1, E2).
  assert (R3 : rd m3 y = rd m1 y) by (apply (rd_off x); [done|lia]).
  assert (N3 : mem_next m3 y = x + l) by (rewrite R1 in R3; by injection R3).
  destruct (relink_choice m3 y (x + l) y N3) as (m4 & E4 & H4).
  assert (R4 : rd m4 y = (x + l, x, 0)).
  { rewrite <- R1, <- R3. destruct H4 as [-> | [-> _]]; [apply (rd_off (x + l)); [apply off_prev|lia]|done]. }
  assert (R6 : rd m4 x = (mem_next m4 x, mem_prev m4 x, b2z true)).
  { assert (E : mem_used m4 x = 1); [|unfold rd; by rewrite E].
    assert (E : rd m4 x = rd m3 x) by (destruct H4 as [-> | [-> _]]; [apply (rd_off (x + l)); [apply off_prev|lia]|done]).
    unfold m3 in E. rewrite (rd_next m1 x y Uy) in E. injection E as _ _ ->.
    assert (E : rd m1 x = rd m x) by (apply (rd_off y); [done|lia]). injection E as _ _ ->. exact U. }
  destruct (split_ok m b1 l true true size b2 Hc Hs Hs4 Hl m1 m3 m4 m4 m4 O1 R1' eq_refl H4 (fun a _ => eq_refl) R4 (fun a _ => eq_refl) R6) as (C & Hm & _).
  fold x y in C, Hm. exists (MHeap m4 (lfree h) (mem_sem h)). split.
  { cbn zeta. change (x + 8 + size) with y. replace (u16 y) with y by (symmetry; apply Z.mod_small; exact Uy). fold m. rewrite N.
    rewrite (bind_ok _ _ h tt (MHeap ma (lfree h) (mem_sem h))) by done. rewrite (bind_ok _ _ _ tt (MHeap mb (lfree h) (mem_sem h))) by done.
    rewrite (bind_ok _ _ _ tt (MHeap m1 (lfree h) (mem_sem h))) by done. rewrite (bind_ok _ _ _ tt (MHeap m3 (lfree h) (mem_sem h))) by done.
    rewrite (bind_ok _ _ _ m3 (MHeap m3 (lfree h) (mem_sem h))) by done. rewrite (bind_ok _ _ _ _ _ (E4 _ _)).
    rewrite stop_app. fold x. cbn [stop]. by replace (x + (8 + size)) with y by lia. }
  split; [|split; [done|by apply split_live_used]]. split; [done|].
  apply (free_at_other b1 b2 [(8 + size, true); (l - 8 - size, false)] l true); [done|cbn [stop]; lia|by right].
Qed.

Lemma mem_realloc_spec h b1 l b2 n : let bs := b1 ++ (l, true) :: b2 in let x := stop 0 b1 in
  heap_rep h bs -> sparse bs -> free_last bs -> mem_sem h = 1 -> 0 <= n <= l - 8 ->
  exists h' bs' l', mem_realloc MEM_SIZE (x + 8) n h = Ok (Some (x + 8), h') /\ heap_rep h' bs' /\ sparse bs' /\ free_last bs' /\
    mem_sem h' = 1 /\ n <= l' - 8 /\ l' <= l /\ useds 0 bs' = useds 0 b1 ++ (x, l') :: useds (x + l) b2 /\
    same_live (useds 0 bs') (ram h) (ram h').
Proof using Hsize Hal.
  intros bs x Hr Hsp Hla Hm Hn. destruct (chain_at _ _ _ _ _ (hr_chain _ _ Hr)) as (S1 & X0 & XL & L8 & L4 & _ & N & _ & _ & T).
  fold x in X0, XL, N, T. destruct (align_size_spec n ltac:(lia)) as [A4 Ab]. set (size := align_size n) in *.
  assert (Hfit : size <= l - 8).
  { assert (Hq : (l - 8) mod 4 = 0) by (replace (l - 8) with (l + (-2) * 4) by lia; rewrite Z.mod_add; lia).
    pose proof (Z.div_mod (l - 8) 4 ltac:(lia)). pose proof (Z.div_mod size 4 ltac:(lia)). lia. }
  destruct (free_last_tail _ _ _ Hla) as [Hne Hl2]. pose proof (proj2 (tail_range _ _ _ _ T) Hne) as Hend.
  unfold mem_realloc. fold size. destruct (Z.ltb_spec MEM_SIZE size); [lia|].
  set (h0 := MHeap (ram h) (lfree h) 0). assert (R0 : heap_rep h0 bs) by (by destruct Hr).
  rewrite (bind_ok _ _ h tt h0) by (unfold wait_mem; by rewrite Hm).
  destruct (Z.ltb_spec (x + 8) 0); [lia|]. destruct (Z.leb_spec MEM_SIZE (x + 8)); [lia|]. cbn [orb]. unfold SIZEOF_STRUCT_MEM, MIN_SIZE.
  replace (x + 8 - 8) with x by lia. rewrite (bind_ok _ _ h0 (ram h) h0) by done. rewrite N.
  replace (u16 (x + l - x - 8)) with (l - 8) by (unfold u16; rewrite Z.mod_small; lia).
  destruct (Z.ltb_spec (size + 8 + 12) (l - 8)) as [Hcut|Hkeep].
  - destruct (shrink_spec h0 b1 l size b2 R0 ltac:(lia) A4 ltac:(lia)) as (h1 & E & R1 & M1 & L1). fold x in E. change (ram h0) with (ram h) in E. rewrite N in E.
    assert (R1' : heap_rep h1 ((b1 ++ [(8 + size, true)]) ++ (l - 8 - size, false) :: b2)) by (by rewrite <- app_assoc).
    unfold bs in Hsp. apply sparse_app in Hsp as (P1 & [P2 _] & _).
    destruct (plug_holes_spec h1 _ _ _ R1') as (h2 & bs' & E2 & [K1 K2 K3 _ K5 K6] & Sp'); [|done|].
    { apply sparse_app. split; [done|]. split; [done|]. by intros [_ []]. }
    rewrite <- app_assoc in K2, K3, K6. cbn [app] in K2, K3, K6.
    exists (MHeap (ram h2) (lfree h2) 1), bs', (8 + size). split.
    { rewrite (bind_ok _ _ h0 tt h2); [unfold signal_mem, modify, bind; by rewrite K5, M1|]. rewrite <- E2. exact E. }
    split; [by destruct K1|]. split; [done|]. split; [apply K6; rewrite (cons_middle (8 + size, true)), app_assoc, (cons_middle (l - 8 - size, false)), app_assoc; by apply free_last_app|].
    split; [done|]. split; [lia|]. split; [lia|]. rewrite K2. split.
    { rewrite useds_app. cbn [useds app]. fold x. do 3 f_equal. lia. }
    by apply (same_live_trans _ _ (ram h1)).
  - exists h, bs, l. split; [unfold ret, signal_mem, modify, bind; cbn; by destruct h; cbn in *; subst|].
    split; [done|]. split; [done|]. split; [done|]. split; [done|]. split; [lia|]. split; [lia|]. split; [unfold bs; by rewrite useds_free|done].
Qed.
End Chain.
