(* ===== verification/LwipHeap.v ===== *)
(** * What the heap of the TCP/IP stack promises its callers (iop/SMSTCPIP/mem.c)

    The allocator of LwipMem seen from outside: pointers with the bytes their owners keep
    there.  Any sequence of allocations, writes of the owners, reductions and releases keeps
    the regions apart and their contents intact, and loses no memory. *)

From S2P Require Import Prelude Bytes LwipMem.
Local Open Scope ps2rd_scope.

Section Heap.
Context (MEM_SIZE : Z).
Context (Hsize : 16 <= MEM_SIZE <= 64000) (Hal : MEM_SIZE mod 4 = 0).

(** The pointers in use and the contents of their regions. *)
Notation regions := (gmap Z (list Z)).

(** A write of an owner to its region. *)
Definition client_write (p : Z) (off : nat) (bs : list Z) (h : mheap) : mheap :=
  MHeap (store_bytes (ram h) (p + Z.of_nat off) bs) (lfree h) (mem_sem h).

(** What the callers do; a size is a [mem_size_t] that does not run over when it is aligned. *)
Inductive mem_run : regions -> mheap -> Prop :=
| run_init h h' : mem_init MEM_SIZE h = Ok (tt, h') -> mem_run ∅ h'
| run_malloc A h n r h' : mem_run A h -> 0 <= n <= 65532 -> mem_malloc MEM_SIZE n h = Ok (r, h') ->
    mem_run (match r with Some p => <[p := load_bytes (ram h') p (Z.to_nat n)]> A | None => A end) h'
| run_free A h p h' : mem_run A h -> is_Some (A !! p) -> mem_free MEM_SIZE (Some p) h = Ok (tt, h') ->
    mem_run (delete p A) h'
| run_realloc A h p data n r h' : mem_run A h -> A !! p = Some data -> 0 <= n <= Z.of_nat (length data) ->
    mem_realloc MEM_SIZE p n h = Ok (r, h') -> mem_run (<[p := take (Z.to_nat n) data]> A) h'
| run_write A h p data off bs : mem_run A h -> A !! p = Some data -> (off + length bs <= length data)%nat ->
    Forall is_u8 bs -> mem_run (<[p := splice data off bs]> A) (client_write p off bs h).

(** ** The invariant *)

(** Every region is a used block with enough room, and the other way round. *)
Record heap_inv (A : regions) (h : mheap) (bs : list (Z * bool)) : Prop := {
  hi_rep : heap_rep MEM_SIZE h bs;
  hi_sparse : sparse bs;
  hi_last : free_last bs;
  hi_sem : mem_sem h = 1;
  hi_regions p data : A !! p = Some data -> exists l, (p - 8, l) ∈ useds 0 bs /\
    Z.of_nat (length data) <= l - 8 /\ load_bytes (ram h) p (length data) = data;
  hi_used s l : (s, l) ∈ useds 0 bs -> is_Some (A !! (s + 8));
}.

Lemma in_useds bs : forall p s l, (s, l) ∈ useds p bs -> exists b1 b2, bs = b1 ++ (l, true) :: b2 /\ s = stop p b1.
Proof.
  induction bs as [|[n u] bs IH]; intros p s l; cbn [useds]; [by intros []%elem_of_nil|].
  intros [Hin|Hin]%elem_of_app.
  - destruct u; [|by apply elem_of_nil in Hin]. apply list_elem_of_singleton in Hin. injection Hin as -> ->. by exists [], bs.
  - destruct (IH _ _ _ Hin) as (b1 & b2 & -> & ->). by exists ((n, u) :: b1), b2.
Qed.

Lemma useds_apart m bs : forall prev p s1 l1 s2 l2, seg m prev p bs -> (s1, l1) ∈ useds p bs -> (s2, l2) ∈ useds p bs ->
  (s1 = s2 /\ l1 = l2) \/ s1 + l1 <= s2 \/ s2 + l2 <= s1.
Proof.
  induction bs as [|[n u] bs IH]; intros prev p s1 l1 s2 l2; cbn [useds seg]; [by intros _ []%elem_of_nil|].
  intros (H8 & _ & _ & Hs) [H1|H1]%elem_of_app [H2|H2]%elem_of_app.
  - destruct u; [|by apply elem_of_nil in H1]. apply list_elem_of_singleton in H1, H2. left. split; congruence.
  - destruct u; [|by apply elem_of_nil in H1]. apply list_elem_of_singleton in H1. injection H1 as -> ->.
    pose proof (useds_range _ _ _ _ _ _ Hs H2). lia.
  - destruct u; [|by apply elem_of_nil in H2]. apply list_elem_of_singleton in H2. injection H2 as -> ->.
    pose proof (useds_range _ _ _ _ _ _ Hs H1). lia.
  - by apply (IH p (p + n)).
Qed.

Lemma live_bytes us m m' p l k : same_live us m m' -> (p - 8, l) ∈ us -> Z.of_nat k <= l - 8 ->
  load_bytes m' p k = load_bytes m p k.
Proof. intros H Hin Hk. apply load_bytes_ext. intros b Hb. apply H. exists (p - 8), l. split; [done|lia]. Qed.

(** The used blocks change around [x]; the regions stay. *)
Lemma regions_keep A h bs h' us' p data l : heap_inv A h bs -> same_live us' (ram h) (ram h') ->
  A !! p = Some data -> (p - 8, l) ∈ us' -> Z.of_nat (length data) <= l - 8 -> load_bytes (ram h') p (length data) = data.
Proof.
  intros Hi Hl Hp Hin Hn. rewrite (live_bytes us' (ram h) (ram h') p l) by done.
  by destruct (hi_regions _ _ _ Hi p data Hp) as (_ & _ & _ & H).
Qed.

Lemma region_block A h bs p : heap_inv A h bs -> is_Some (A !! p) ->
  exists b1 l b2, bs = b1 ++ (l, true) :: b2 /\ p = stop 0 b1 + 8.
Proof.
  intros Hi [data Hp]. destruct (hi_regions _ _ _ Hi p data Hp) as (l & Hin & _).
  destruct (in_useds _ _ _ _ Hin) as (b1 & b2 & E & Hs). exists b1, l, b2. split; [done|lia].
Qed.

(** What lies around a block. *)
Lemma useds_around m b1 l u b2 s n : chain MEM_SIZE m (b1 ++ (l, u) :: b2) ->
  (s, n) ∈ useds 0 b1 ++ useds (stop 0 b1 + l) b2 -> 8 <= n /\ (s + n <= stop 0 b1 \/ stop 0 b1 + l <= s).
Proof using Hsize Hal.
  intros Hc Hin. destruct (chain_at _ Hsize _ _ _ _ _ Hc) as (S1 & _ & _ & _ & _ & _ & _ & _ & _ & (S2 & _)).
  apply elem_of_app in Hin as [Hin|Hin].
  - pose proof (useds_range _ _ _ _ _ _ S1 Hin). lia.
  - pose proof (useds_range _ _ _ _ _ _ S2 Hin). lia.
Qed.

(** ** Every operation keeps it *)

Lemma init_inv h : exists h', mem_init MEM_SIZE h = Ok (tt, h') /\ heap_inv ∅ h' [(MEM_SIZE, false)] /\ lfree h' = 0.
Proof using Hsize Hal.
  eexists. split; [reflexivity|]. cbn [ram lfree mem_sem]. set (z := store_bytes (ram h) 0 _). set (S := MEM_SIZE) in *.
  assert (US : is_u16 S) by (unfold is_u16; lia).
  assert (U0 : is_u16 0) by (unfold is_u16; lia).
  set (m3 := store32 (store16 (store16 z 0 S) (0 + 2) 0) (0 + 4) 0).
  assert (R0 : rd m3 0 = (S, 0, 0)).
  { unfold m3. rewrite rd_used by (unfold is_u32; lia).
    pose proof (rd_prev (store16 z 0 S) 0 0 U0) as E. injection E as -> -> _.
    pose proof (rd_next z 0 S US) as E. by injection E as -> _ _. }
  set (m4 := store32 m3 (S + 4) 1). set (m5 := store16 m4 S S). set (m6 := store16 m5 (S + 2) S).
  assert (R6 : rd m6 0 = (S, 0, 0)).
  { unfold m6, m5, m4. rewrite (rd_off S _ _ _ (off_prev S _ _)), (rd_off S _ _ _ (off_next S _ _)), (rd_off S _ _ _ (off_used S _ _)) by lia. exact R0. }
  assert (RS : mem_next m6 S = S /\ mem_used m6 S = 1).
  { pose proof (rd_prev m5 S S US) as E. fold m6 in E. injection E as -> _ ->.
    pose proof (rd_next m4 S S US) as E. fold m5 in E. injection E as -> _ ->.
    pose proof (rd_used m3 S 1 ltac:(unfold is_u32; lia)) as E. fold m4 in E. by injection E as _ _ ->. }
  split; [|done]. split; try done.
  - split; [|by exists [], S, []]. split; [|cbn [stop]; split; [lia|exact RS]]. cbn [seg]. split; [lia|]. split; [done|].
    split; [exact R6|done].
  - intros s l []%elem_of_nil.
Qed.

Lemma malloc_inv A h bs n : heap_inv A h bs -> 0 <= n <= 65532 ->
  exists r h' bs', mem_malloc MEM_SIZE n h = Ok (r, h') /\ (forall p, r = Some p -> A !! p = None) /\
    heap_inv (match r with Some p => <[p := load_bytes (ram h') p (Z.to_nat n)]> A | None => A end) h' bs'.
Proof using Hsize Hal.
  intros Hi Hn. destruct (decide (n = 0)) as [->|Hn0]; [by exists None, h, bs|].
  destruct (mem_malloc_spec _ Hsize Hal h bs n (hi_rep _ _ _ Hi) (hi_sparse _ _ _ Hi) (hi_last _ _ _ Hi) (hi_sem _ _ _ Hi) ltac:(lia))
    as [(b1 & l & b2 & h' & Ebs & Hl & E & R' & Sp' & La' & M' & L' & _)|[E _]]; [|by exists None, h, bs].
  destruct (align_size_spec n Hn) as [_ Ha]. set (size := align_size n) in *. set (x := stop 0 b1) in *.
  set (bs' := b1 ++ (8 + size, true) :: (l - 8 - size, false) :: b2) in *.
  assert (Hc : chain MEM_SIZE (ram h) (b1 ++ (l, false) :: b2)) by (rewrite <- Ebs; apply (hi_rep _ _ _ Hi)).
  assert (Eu : useds 0 bs = useds 0 b1 ++ useds (x + l) b2) by (rewrite Ebs, useds_app; done).
  assert (Eu' : useds 0 bs' = useds 0 b1 ++ (x, 8 + size) :: useds (x + l) b2).
  { unfold bs'. rewrite useds_app. cbn [useds app]. fold x. do 3 f_equal. lia. }
  assert (Hnew : forall p data, A !! p = Some data -> p <> x + 8).
  { intros p data Hp ->. destruct (hi_regions _ _ _ Hi _ _ Hp) as (l' & Hin & _). rewrite Eu in Hin.
    destruct (useds_around _ _ _ _ _ _ _ Hc Hin) as [H8 Hor]. destruct (chain_at _ Hsize _ _ _ _ _ Hc) as (_ & _ & _ & L8 & _). fold x in Hor. lia. }
  exists (Some (x + 8)), h', bs'. split; [exact E|]. split.
  { intros p [= <-]. destruct (A !! (x + 8)) as [data|] eqn:Ep; [by destruct (Hnew _ _ Ep)|done]. }
  split; try done.
  - intros p data. destruct (decide (p = x + 8)) as [->|Hne].
    + rewrite lookup_insert_eq. intros [= <-]. exists (8 + size). rewrite length_load_bytes, Eu'.
      split; [replace (x + 8 - 8) with x by lia; set_solver|]. split; [lia|done].
    + rewrite lookup_insert_ne by done. intros Hp. destruct (hi_regions _ _ _ Hi p data Hp) as (l' & Hin & Hd & Hb).
      exists l'. split; [rewrite Eu'; rewrite Eu in Hin; set_solver|]. split; [done|].
      by apply (regions_keep A h bs h' (useds 0 bs) p data l').
  - intros s l' Hin. rewrite Eu' in Hin. destruct (decide (s + 8 = x + 8)) as [->|Hne]; [by rewrite lookup_insert_eq|].
    rewrite lookup_insert_ne by done. apply (hi_used _ _ _ Hi s l'). rewrite Eu.
    apply elem_of_app in Hin as [Hin|[[= -> ->]|Hin]%elem_of_cons]; [set_solver|lia|set_solver].
Qed.

Lemma free_inv A h bs p : heap_inv A h bs -> is_Some (A !! p) ->
  exists h' bs', mem_free MEM_SIZE (Some p) h = Ok (tt, h') /\ heap_inv (delete p A) h' bs'.
Proof using Hsize Hal.
  intros Hi Hp. destruct (region_block _ _ _ _ Hi Hp) as (b1 & l & b2 & Ebs & ->). set (x := stop 0 b1) in *.
  pose proof (hi_rep _ _ _ Hi) as Hr. pose proof (hi_sparse _ _ _ Hi) as Hs. pose proof (hi_last _ _ _ Hi) as Hl. rewrite Ebs in Hr, Hs, Hl.
  destruct (mem_free_spec _ Hsize Hal h b1 l b2 Hr Hs Hl (hi_sem _ _ _ Hi)) as (h' & bs' & E & R' & Sp' & La' & M' & Eu' & L' & _).
  fold x in E, Eu'. exists h', bs'. split; [exact E|].
  assert (Eu : useds 0 bs = useds 0 b1 ++ (x, l) :: useds (x + l) b2) by (rewrite Ebs; apply useds_free).
  destruct (chain_at _ Hsize _ _ _ _ _ (hr_chain _ _ _ Hr)) as (_ & _ & _ & L8 & _).
  split; try done.
  - intros p data. rewrite lookup_delete_Some. intros [Hne Hd]. destruct (hi_regions _ _ _ Hi p data Hd) as (l' & Hin & Hk & Hb).
    assert (Hin' : (p - 8, l') ∈ useds 0 bs').
    { rewrite Eu'. rewrite Eu in Hin. apply elem_of_app in Hin as [Hin|[[= Hx _]|Hin]%elem_of_cons]; [set_solver|lia|set_solver]. }
    exists l'. split; [done|]. split; [done|]. by apply (regions_keep A h bs h' (useds 0 bs') p data l').
  - intros s l' Hin. rewrite Eu' in Hin. destruct (useds_around _ _ _ _ _ _ _ (hr_chain _ _ _ Hr) Hin) as [H8 Hor]. fold x in Hor.
    rewrite lookup_delete_ne by lia. apply (hi_used _ _ _ Hi s l'). rewrite Eu. set_solver.
Qed.

Lemma realloc_inv A h bs p data n : heap_inv A h bs -> A !! p = Some data -> 0 <= n <= Z.of_nat (length data) ->
  exists h' bs', mem_realloc MEM_SIZE p n h = Ok (Some p, h') /\ heap_inv (<[p := take (Z.to_nat n) data]> A) h' bs'.
Proof using Hsize Hal.
  intros Hi Hp Hn. destruct (hi_regions _ _ _ Hi p data Hp) as (l & Hin & Hk & Hb).
  destruct (in_useds _ _ _ _ Hin) as (b1 & b2 & Ebs & Hx). set (x := stop 0 b1) in *. assert (p = x + 8) as -> by lia.
  pose proof (hi_rep _ _ _ Hi) as Hr. pose proof (hi_sparse _ _ _ Hi) as Hs. pose proof (hi_last _ _ _ Hi) as Hl. rewrite Ebs in Hr, Hs, Hl.
  destruct (mem_realloc_spec _ Hsize Hal h b1 l b2 n Hr Hs Hl (hi_sem _ _ _ Hi) ltac:(lia))
    as (h' & bs' & l' & E & R' & Sp' & La' & M' & Hl1 & Hl2 & Eu' & L'). fold x in E, Eu'.
  exists h', bs'. split; [exact E|].
  assert (Eu : useds 0 bs = useds 0 b1 ++ (x, l) :: useds (x + l) b2) by (rewrite Ebs; apply useds_free).
  split; try done.
  - intros q d. destruct (decide (q = x + 8)) as [->|Hne].
    + rewrite lookup_insert_eq. intros [= <-]. rewrite length_take, Nat.min_l by lia. exists l'.
      assert (Hq : (x + 8 - 8, l') ∈ useds 0 bs') by (rewrite Eu'; replace (x + 8 - 8) with x by lia; set_solver).
      split; [done|]. split; [lia|]. rewrite (live_bytes (useds 0 bs') (ram h) (ram h') (x + 8) l') by (done || lia).
      rewrite <- Hb. replace (length data) with (Z.to_nat n + (length data - Z.to_nat n))%nat by lia.
      rewrite load_bytes_app, take_app_length'; [done|by rewrite length_load_bytes].
    + rewrite lookup_insert_ne by done. intros Hd. destruct (hi_regions _ _ _ Hi q d Hd) as (l2 & Hin2 & Hk2 & _).
      assert (Hin' : (q - 8, l2) ∈ useds 0 bs').
      { rewrite Eu'. rewrite Eu in Hin2. apply elem_of_app in Hin2 as [Hin2|[[= Hx' _]|Hin2]%elem_of_cons]; [set_solver|lia|set_solver]. }
      exists l2. split; [done|]. split; [done|]. by apply (regions_keep A h bs h' (useds 0 bs') q d l2).
  - intros s l2 Hin2. rewrite Eu' in Hin2. destruct (decide (s + 8 = x + 8)) as [->|Hne]; [by rewrite lookup_insert_eq|].
    rewrite lookup_insert_ne by done. apply (hi_used _ _ _ Hi s l2). rewrite Eu.
    apply elem_of_app in Hin2 as [Hin2|[[= -> ->]|Hin2]%elem_of_cons]; [set_solver|lia|set_solver].
Qed.

(** Bytes of a used block do not matter to the chain. *)
Lemma chain_write m m' b1 l b2 : let x := stop 0 b1 in chain MEM_SIZE m (b1 ++ (l, true) :: b2) ->
  (forall a, a < x + 8 \/ x + l <= a -> load8 m' a = load8 m a) -> chain MEM_SIZE m' (b1 ++ (l, true) :: b2).
Proof using Hsize Hal.
  intros x Hc Hf. assert (Hrd : forall q, q <= x \/ x + l <= q -> rd m' q = rd m q).
  { intros q Hq. unfold rd, mem_next, mem_prev, mem_used. f_equal; [f_equal|].
    - apply load16_off. intros b Hb. apply Hf. lia.
    - apply load16_off. intros b Hb. apply Hf. lia.
    - apply load32_ext. intros b Hb. apply Hf. lia. }
  pose proof (chain_at _ Hsize _ _ _ _ _ Hc) as (S1 & X0 & XL & L8 & L4 & _ & N & P & U & (T1 & T2 & T3 & T4)). fold x in X0, XL, N, P, U, T1, T2.
  apply (tail_app _ Hsize). fold x. split; [apply (seg_frame m); [done|]; intros q H1 H2; apply Hrd; fold x in H2; lia|].
  split; [|split; [done|]].
  - cbn [seg]. split; [done|]. split; [done|]. split; [rewrite Hrd by lia; unfold rd; by rewrite N, P, U|].
    apply (seg_frame m); [done|]. intros q H1 H2. apply Hrd. lia.
  - assert (E : rd m' MEM_SIZE = rd m MEM_SIZE) by (apply Hrd; lia). injection E as E1 _ E3. by rewrite E1, E3.
Qed.

Lemma write_bytes m p data off bs : (off + length bs <= length data)%nat -> Forall is_u8 bs ->
  load_bytes m p (length data) = data ->
  load_bytes (store_bytes m (p + Z.of_nat off) bs) p (length data) = splice data off bs.
Proof.
  intros Hl Hu Hd. apply list_eq. intros i. rewrite (lookup_splice _ _ _ _ Hl).
  destruct (decide (i < length data)%nat) as [Hi|Hi].
  2:{ rewrite lookup_ge_None_2 by (rewrite length_load_bytes; lia). rewrite decide_False by lia. by rewrite lookup_ge_None_2 by lia. }
  rewrite lookup_load_bytes by done. destruct (decide (off <= i < off + length bs)%nat) as [Hin|Hout].
  - destruct (lookup_lt_is_Some_2 bs (i - off)%nat ltac:(lia)) as [v Hv]. rewrite Hv. f_equal.
    replace (p + Z.of_nat i) with (p + Z.of_nat off + Z.of_nat (i - off)) by lia. rewrite (load8_store_bytes_in _ _ _ _ _ Hv).
    apply u8_id. by apply (Forall_lookup_1 _ _ _ _ Hu Hv).
  - rewrite load8_store_bytes_ne by lia. rewrite <- Hd at 1. by rewrite lookup_load_bytes by done.
Qed.

Lemma write_inv A h bs p data off w : heap_inv A h bs -> A !! p = Some data -> (off + length w <= length data)%nat -> Forall is_u8 w ->
  heap_inv (<[p := splice data off w]> A) (client_write p off w h) bs.
Proof using Hsize Hal.
  intros Hi Hp Hl Hu. destruct (hi_regions _ _ _ Hi p data Hp) as (l & Hin & Hk & Hb).
  destruct (in_useds _ _ _ _ Hin) as (b1 & b2 & Ebs & Hx). set (x := stop 0 b1) in *. assert (p = x + 8) as -> by lia.
  assert (Hout : forall a, a < x + 8 \/ x + l <= a -> load8 (ram (client_write (x + 8) off w h)) a = load8 (ram h) a).
  { intros a Ha. apply load8_store_bytes_ne. lia. }
  destruct (hi_rep _ _ _ Hi) as [Hc Hf]. split; try apply Hi.
  - split; [|done]. rewrite Ebs in Hc |- *. by apply (chain_write (ram h)).
  - intros q d. destruct (decide (q = x + 8)) as [->|Hne].
    + rewrite lookup_insert_eq. intros [= <-]. rewrite length_splice by lia. exists l. split; [done|]. split; [done|]. by apply write_bytes.
    + rewrite lookup_insert_ne by done. intros Hd. destruct (hi_regions _ _ _ Hi q d Hd) as (l2 & Hin2 & Hk2 & Hb2).
      exists l2. split; [done|]. split; [done|]. rewrite <- Hb2 at 2. apply load_bytes_ext. intros a Ha. apply Hout.
      destruct Hc as [Hc _]. destruct (useds_apart _ _ _ _ _ _ _ _ Hc Hin Hin2) as [[? _]|Hor]; lia.
  - intros s n Hs. destruct (hi_used _ _ _ Hi s n Hs) as [d Hd]. destruct (decide (s + 8 = x + 8)) as [->|Hne];
      [by rewrite lookup_insert_eq|by rewrite lookup_insert_ne].
Qed.

Lemma run_inv A h : mem_run A h -> exists bs, heap_inv A h bs.
Proof using Hsize Hal.
  induction 1 as [h h' E|A h n r h' _ [bs Hi] Hn E|A h p h' _ [bs Hi] Hp E|A h p data n r h' _ [bs Hi] Hp Hn E|A h p data off w _ [bs Hi] Hp Hl Hu].
  - destruct (init_inv h) as (h1 & E1 & Hi & _). rewrite E in E1. injection E1 as ->. by eexists.
  - destruct (malloc_inv A h bs n Hi Hn) as (r1 & h1 & bs1 & E1 & _ & Hi1). rewrite E in E1. injection E1 as -> ->. by eexists.
  - destruct (free_inv A h bs p Hi Hp) as (h1 & bs1 & E1 & Hi1). rewrite E in E1. injection E1 as ->. by eexists.
  - destruct (realloc_inv A h bs p data n Hi Hp Hn) as (h1 & bs1 & E1 & Hi1). rewrite E in E1. injection E1 as -> ->. by eexists.
  - exists bs. by apply write_inv.
Qed.

(** When nothing is in use the heap is one block again. *)
Lemma useds_nil bs : forall p, useds p bs = [] -> Forall (fun b => b.2 = false) bs.
Proof.
  induction bs as [|[l u] bs IH]; intros p H; [done|]. cbn [useds] in H. apply app_eq_nil in H as [H1 H2].
  destruct u; [done|]. constructor; [done|]. by apply (IH (p + l)).
Qed.

Lemma empty_heap h bs : heap_inv ∅ h bs -> bs = [(MEM_SIZE, false)] /\ lfree h = 0.
Proof using Hsize Hal.
  intros Hi. assert (Hn : useds 0 bs = []).
  { destruct (useds 0 bs) as [|[s l] us] eqn:E; [done|]. destruct (hi_used _ _ _ Hi s l) as [d Hd]; [rewrite E; by left|done]. }
  apply useds_nil in Hn. pose proof (hi_sparse _ _ _ Hi) as Hs. destruct (hi_rep _ _ _ Hi) as [(Hg & Hst & _) (b1 & l0 & b2 & Eb & Ef)].
  destruct bs as [|[l u] bs]; [cbn in Hst; lia|]. apply Forall_cons in Hn as [Hu Hn]. cbn in Hu. subst u.
  assert (bs = []) as ->.
  { destruct bs as [|[l' u'] bs]; [done|]. apply Forall_cons in Hn as [Hu' _]. cbn in Hu'. subst u'. destruct Hs as [_ Hs]. by specialize (Hs I). }
  cbn [stop] in Hst. split; [by rewrite <- Hst|]. destruct b1 as [|b b1]; [done|]. by destruct b1.
Qed.
End Heap.

(** C30: the heap of the TCP/IP stack is safe and loses nothing.  After any sequence of
    allocations, releases, reductions and writes of the owners to what they have, the regions in
    use are aligned, inside the heap and apart from each other, and hold what their owners wrote;
    every further operation returns, an allocation with a pointer that is not in use or with
    null; and once everything is released the heap is whole again: a request that fits it is
    served at its start. *)
Theorem lwip_heap_safe MEM_SIZE A h :
  16 <= MEM_SIZE <= 64000 -> MEM_SIZE mod 4 = 0 -> mem_run MEM_SIZE A h ->
  (forall p d, A !! p = Some d -> 8 <= p /\ p mod 4 = 0 /\ p + Z.of_nat (length d) <= MEM_SIZE /\
     load_bytes (ram h) p (length d) = d) /\
  (forall p q d e, A !! p = Some d -> A !! q = Some e -> p <> q ->
     p + Z.of_nat (length d) <= q \/ q + Z.of_nat (length e) <= p) /\
  (forall n, 0 <= n <= 65532 -> exists r h', mem_malloc MEM_SIZE n h = Ok (r, h') /\ forall p, r = Some p -> A !! p = None) /\
  (forall p, is_Some (A !! p) -> exists h', mem_free MEM_SIZE (Some p) h = Ok (tt, h')) /\
  (forall p d n, A !! p = Some d -> 0 <= n <= Z.of_nat (length d) -> exists h', mem_realloc MEM_SIZE p n h = Ok (Some p, h')) /\
  (A = ∅ -> forall n, 0 < n <= 65532 -> align_size n + 16 <= MEM_SIZE -> exists h', mem_malloc MEM_SIZE n h = Ok (Some 8, h')).
Proof.
  intros Hsize Hal Hrun. destruct (run_inv MEM_SIZE Hsize Hal A h Hrun) as [bs Hi].
  destruct (hi_rep _ _ _ _ Hi) as [Hc Hf]. split; [|split; [|split; [|split; [|split]]]].
  - intros p d Hp. destruct (hi_regions _ _ _ _ Hi p d Hp) as (l & Hin & Hk & Hb).
    destruct (in_useds _ _ _ _ Hin) as (b1 & b2 & -> & Hx).
    destruct (chain_at _ Hsize _ _ _ _ _ Hc) as (_ & X0 & XL & _ & _ & X4 & _). rewrite <- Hx in X0, XL, X4.
    split; [lia|]. split; [|split; [lia|done]]. replace p with (p - 8 + 2 * 4) by lia. by rewrite Z.mod_add.
  - intros p q d e Hp Hq Hne. destruct (hi_regions _ _ _ _ Hi p d Hp) as (l1 & H1 & K1 & _).
    destruct (hi_regions _ _ _ _ Hi q e Hq) as (l2 & H2 & K2 & _).
    destruct (useds_apart _ _ _ _ _ _ _ _ (proj1 Hc) H1 H2) as [[? _]|Hor]; lia.
  - intros n Hn. destruct (malloc_inv _ Hsize Hal A h bs n Hi Hn) as (r & h' & _ & E & Hr & _). by exists r, h'.
  - intros p Hp. destruct (free_inv _ Hsize Hal A h bs p Hi Hp) as (h' & _ & E & _). by exists h'.
  - intros p d n Hp Hn. destruct (realloc_inv _ Hsize Hal A h bs p d n Hi Hp Hn) as (h' & _ & E & _). by exists h'.
  - intros -> n Hn Hfit. destruct (empty_heap _ Hsize Hal h bs Hi) as [-> Hl].
    destruct (mem_malloc_spec _ Hsize Hal h _ n (hi_rep _ _ _ _ Hi) (hi_sparse _ _ _ _ Hi) (hi_last _ _ _ _ Hi) (hi_sem _ _ _ _ Hi) Hn)
      as [(b1 & l & b2 & h' & Eb & _ & E & _)|[_ Hno]].
    + exists h'. destruct b1 as [|b b1]; [exact E|]. by destruct b1.
    + specialize (Hno Hl). apply Forall_cons in Hno as [Hno _]. destruct Hno. by split.
Qed.

(** A heap of 64 bytes: ten bytes are allocated and three of them written. *)
Definition start_heap : mheap := state_or (MHeap ∅ 0 0) (mem_init 64 (MHeap ∅ 0 0)).
Definition heap_10 : mheap := state_or start_heap (mem_malloc 64 10 start_heap).

Lemma lwip_heap_safe_witness :
  mem_malloc 64 10 start_heap = Ok (Some 8, heap_10) /\
  let h := client_write 8 2 [7; 8; 9] heap_10 in
  load_bytes (ram h) 8 10 = [0; 0; 7; 8; 9; 0; 0; 0; 0; 0] /\
  (exists h', mem_free 64 (Some 8) h = Ok (tt, h')) /\ (exists h', mem_realloc 64 8 4 h = Ok (Some 8, h')).
Proof.
  assert (E0 : mem_init 64 (MHeap ∅ 0 0) = Ok (tt, start_heap)) by (vm_compute; reflexivity).
  assert (E1 : mem_malloc 64 10 start_heap = Ok (Some 8, heap_10)) by (vm_compute; reflexivity).
  split; [exact E1|]. intros h.
  assert (R : mem_run 64 (<[8 := splice (load_bytes (ram heap_10) 8 10) 2 [7; 8; 9]]> (<[8 := load_bytes (ram heap_10) 8 10]> ∅)) h).
  { apply run_write.
    - apply (run_malloc 64 ∅ start_heap 10 (Some 8) heap_10); [apply (run_init 64 _ _ E0)|lia|exact E1].
    - apply lookup_insert_eq.
    - vm_compute. lia.
    - repeat constructor; vm_compute; congruence. }
  destruct (lwip_heap_safe 64 _ h ltac:(lia) eq_refl R) as (H1 & _ & _ & H4 & H5 & _).
  destruct (H1 8 _ (lookup_insert_eq _ _ _)) as (_ & _ & _ & Hb). split; [exact Hb|].
  split; [apply H4; rewrite lookup_insert_eq; eexists; reflexivity|].
  apply (H5 8 _ 4 (lookup_insert_eq _ _ _)). vm_compute. split; congruence.
Defined.

(** A request of 65533 bytes or more runs over when it is aligned: it gets a pointer to an empty
    block instead of null. *)
Lemma malloc_overflow n : 65533 <= n < 65536 -> align_size n = 0.
Proof.
  intros Hn. assert (n = 65533 \/ n = 65534 \/ n = 65535) as [-> | [-> | ->]] by lia; reflexivity.
Qed.

Example malloc_overflow_sample :
  match mem_malloc 64 65535 start_heap with Ok (r, _) => r | Err _ => None end = Some 8.
Proof. vm_compute. reflexivity. Qed.

(** [mem_realloc] does not move [lfree] to the block it gives back, so that an allocation that
    fits there can fail: a block of 28 bytes is given back, and 8 bytes are refused. *)
Definition realloc_scenario : M mheap (list (option Z)) :=
  mem_init 96;;
  let* a := mem_malloc 96 44 in
  let* b := mem_malloc 96 20 in
  let* c := mem_realloc 96 8 16 in
  let* d := mem_malloc 96 8 in
  mem_free 96 (Some 8);;
  let* e := mem_malloc 96 8 in
  ret [a; b; c; d; e].

Example realloc_hides :
  match realloc_scenario (MHeap ∅ 0 0) with Ok (l, _) => l | Err _ => [] end = [Some 8; Some 60; Some 8; None; Some 8].
Proof. vm_compute. reflexivity. Qed.

(** A pointer outside the heap makes [mem_realloc] return without giving its semaphore back. *)
Lemma realloc_locks MEM_SIZE h p n : mem_sem h = 1 -> p < 0 \/ MEM_SIZE <= p -> align_size n <= MEM_SIZE ->
  exists h', mem_realloc MEM_SIZE p n h = Ok (Some p, h') /\
    forall k, k <> 0 -> align_size k <= MEM_SIZE -> mem_malloc MEM_SIZE k h' = Err Hang.
Proof.
  intros Hs Hp Hn. exists (MHeap (ram h) (lfree h) 0). split.
  - unfold mem_realloc. destruct (Z.ltb_spec MEM_SIZE (align_size n)); [lia|].
    rewrite (bind_ok _ _ h tt (MHeap (ram h) (lfree h) 0)) by (unfold wait_mem; by rewrite Hs).
    destruct ((p <? 0) || (MEM_SIZE <=? p)) eqn:E; [done|]. apply orb_false_elim in E as [E1%Z.ltb_ge E2%Z.leb_gt]. lia.
  - intros k Hk Hka. unfold mem_malloc. destruct (Z.eqb_spec k 0); [done|]. by destruct (Z.ltb_spec MEM_SIZE (align_size k)); [lia|].
Qed.
