(* ===== verification/Inet.v ===== *)
(** * Internet checksums and byte order (iop/SMSTCPIP/inet.s)

    The checksum routines of the TCP/IP stack in assembly: a sum over words with an unrolled
    loop for 64 bytes at a time, used for IP headers and, over a chain of packet buffers and a
    pseudo header, for UDP and TCP.  They are compared with the sum of 16-bit words that the
    protocols ask for. *)

From S2P Require Import Prelude Engine.
Import Engine.Mips.
Local Open Scope ps2rd_scope.

Definition htons (a0 : Z) : Z :=
  let v1 := Z.land a0 0xffff in
  let a1 := Z.land v1 0xff in
  Z.lor (sll a1 8) (srl v1 8).

Definition htonl (a0 : Z) : Z :=
  let a2 := Z.lor (sll a0 24) (sll (Z.land a0 0xff00) 8) in
  let v0 := Z.lor a2 (Z.land (srl a0 8) 0xff00) in
  Z.lor v0 (srl a0 24).

(** ** ip_cksum

    Registers are named as in the source: [t0] is the address, [t1] the number of bytes left,
    [t2] the sum, [t4] tells that the region starts at an odd address. *)

(** Label 12: the last byte. *)
Fixpoint cksum_bytes (fuel : nat) (t0 t1 t2 : Z) : M (gmap Z Z) Z :=
  if t1 <=? 0 then ret t2
  else match fuel with
       | O => fail OutOfFuel
       | S fuel' =>
           let* t7 := lbu t0 in
           cksum_bytes fuel' (addu t0 1) (t1 - 1) (addu t2 t7)
       end.

(** Label 10: halfwords. *)
Fixpoint cksum_halves (fuel : nat) (t0 t1 t2 : Z) : M (gmap Z Z) (Z * Z * Z) :=
  if t1 <? 2 then ret (t0, t1, t2)
  else match fuel with
       | O => fail OutOfFuel
       | S fuel' =>
           let* a2 := lhu t0 in
           cksum_halves fuel' (addu t0 2) (t1 - 2) (addu t2 a2)
       end.

(** A word [w] is added to the sum of words [a1], its upper half to the sum [a2]. *)
Definition add_word (acc : Z * Z) (w : Z) : Z * Z := (addu acc.1 w, addu acc.2 (srl w 16)).

(** The sums of the lower and the upper halves are added to [t2]. *)
Definition add_halves (t2 : Z) (acc : Z * Z) : Z :=
  addu (addu t2 (subu acc.1 (sll acc.2 16))) acc.2.

(** Label 8: words. *)
Fixpoint cksum_words (fuel : nat) (t0 t1 : Z) (acc : Z * Z) : M (gmap Z Z) (Z * Z * (Z * Z)) :=
  if t1 <? 4 then ret (t0, t1, acc)
  else match fuel with
       | O => fail OutOfFuel
       | S fuel' =>
           let* a3 := lw t0 in
           cksum_words fuel' (addu t0 4) (t1 - 4) (add_word acc a3)
       end.

Fixpoint load_words (t0 : Z) (offs : list Z) : M (gmap Z Z) (list Z) :=
  match offs with
  | [] => ret []
  | o :: offs' => let* w := lw (t0 + o) in let* ws := load_words t0 offs' in ret (w :: ws)
  end.

(** Label 6: 16 words, of which the first two are loaded by the pass before. *)
Fixpoint cksum_blocks (fuel : nat) (t0 t1 v1 a3 : Z) (acc : Z * Z) : M (gmap Z Z) (Z * Z * (Z * Z)) :=
  match fuel with
  | O => fail OutOfFuel
  | S fuel' =>
      let* ws := load_words t0 [8; 12; 16; 20; 24; 28; 32; 36; 40; 44; 48; 52; 56; 60] in
      let acc := fold_left add_word (v1 :: a3 :: ws) acc in
      let t1 := t1 - 64 in
      let* v1 := lw (t0 + 64) in
      let* a3 := lw (t0 + 68) in
      let t0 := addu t0 64 in
      if t1 <? 72 then ret (t0, t1, acc) else cksum_blocks fuel' t0 t1 v1 a3 acc
  end.

(** Label 11. *)
Definition cksum_end (t2 t4 : Z) : Z :=
  let '(v0, v1) :=
    if t4 =? 0 then (Z.land t2 0xffff, srl t2 16)
    else
      let v0 := addu (Z.land t2 0xffff) (srl t2 16) in
      let t4 := addu (Z.land v0 0xffff) (srl v0 16) in
      (Z.land (srl t4 8) 0xff, sll (Z.land t4 0xff) 8) in
  let a1 := addu v0 v1 in
  addu (Z.land a1 0xffff) (srl a1 16).

(** Labels 1 to 11: [t0] is a multiple of 4. *)
Definition cksum_main (t0 t1 t2 t4 : Z) : M (gmap Z Z) Z :=
  let fuel := Z.to_nat t1 in
  let* '(t0, t1, t2) :=
    if t1 <? 72 then ret (t0, t1, t2)
    else
      let* v1 := lw t0 in
      let* a3 := lw (t0 + 4) in
      let* '(t0, t1, acc) := cksum_blocks fuel t0 t1 v1 a3 (0, 0) in
      ret (t0, t1, add_halves t2 acc) in
  let* '(t0, t1, acc) := cksum_words fuel t0 t1 (0, 0) in
  let* '(t0, t1, t2) := cksum_halves fuel t0 t1 (add_halves t2 acc) in
  let* t2 := cksum_bytes fuel t0 t1 t2 in
  ret (cksum_end t2 t4).

(** Label 14. *)
Definition cksum_half (t0 t1 t2 t4 : Z) : M (gmap Z Z) Z :=
  if Z.land t0 2 =? 0 then cksum_main t0 t1 t2 t4
  else
    let* t5 := lhu t0 in
    cksum_main (addu t0 2) (t1 - 2) (addu t2 t5) t4.

Definition ip_cksum (a0 a1 : Z) : M (gmap Z Z) Z :=
  if Z.land a0 3 =? 0 then cksum_main a0 a1 0 0
  else if a1 <? 3 then
    let* t2 := cksum_bytes (Z.to_nat a1) a0 a1 0 in
    ret (cksum_end t2 0)
  else if Z.land a0 1 =? 0 then cksum_half a0 a1 0 0
  else
    let* a2 := lbu a0 in
    cksum_half (addu a0 1) (a1 - 1) (sll a2 8) 1.

(** ** The checksums *)

(** The loops that add the carries until 16 bits are left. *)
Fixpoint fold_carries (fuel : nat) (v0 : Z) : res Z :=
  let v1 := srl v0 16 in
  if v1 =? 0 then Ok v0
  else match fuel with
       | O => Err OutOfFuel
       | S fuel' => fold_carries fuel' (addu (Z.land v0 0xffff) v1)
       end.

Definition nor0 (v : Z) : Z := u32 (Z.lnot v).

Definition inet_chksum (a0 a1 : Z) : M (gmap Z Z) Z :=
  let* v0 := ip_cksum a0 (Z.land a1 0xffff) in
  let* v0 := lift (fold_carries 2 v0) in
  ret (Z.land (nor0 v0) 0xffff).

Definition swap_bytes (s1 : Z) : Z := Z.lor (sll (Z.land s1 0xff) 8) (srl (Z.land s1 0xff00) 8).

(** The unaligned loads [lwl] and [lwr]. *)
Definition lwlr (a : Z) : M (gmap Z Z) Z := fun m => Ok (load32 m a, m).

(** [swap] is what the loop does to the sum behind a buffer of odd length. *)
Fixpoint chain_sum (swap : Z -> Z) (fuel : nat) (p sum swapped : Z) : M (gmap Z Z) (Z * Z) :=
  if p =? 0 then ret (sum, swapped)
  else match fuel with
       | O => fail OutOfFuel
       | S fuel' =>
           let* payload := lw (p + 4) in
           let* len := lhu (p + 10) in
           let* v0 := ip_cksum payload len in
           let* sum := lift (fold_carries 2 (addu sum v0)) in
           let '(sum, swapped) :=
             if Z.land len 1 =? 0 then (sum, swapped) else (swap sum, Z.land (subu 1 swapped) 0xff) in
           let* next := lw p in
           chain_sum swap fuel' next sum swapped
       end.

(** [fuel] bounds the number of buffers. *)
Definition inet_chksum_pseudo (fuel : nat) (p src dest proto proto_len : Z) : M (gmap Z Z) Z :=
  let* '(s1, s2) := chain_sum swap_bytes fuel p 0 0 in
  let s1 := if s2 =? 0 then s1 else swap_bytes s1 in
  let* v1 := lwlr src in
  let* s5 := lwlr dest in
  let s1 := addu s1 (Z.land v1 0xffff) in
  let s1 := addu s1 (srl v1 16) in
  let s1 := addu s1 (Z.land s5 0xffff) in
  let s1 := addu s1 (srl s5 16) in
  let s0 := addu s1 (htons (Z.land proto 0xff)) in
  let* v0 := lift (fold_carries 2 (addu s0 (htons proto_len))) in
  ret (Z.land (nor0 v0) 0xffff).

(** Here the bytes are not swapped behind a buffer of odd length, only at the end. *)
Definition inet_chksum_pbuf (fuel : nat) (p : Z) : M (gmap Z Z) Z :=
  let* '(s0, s2) := chain_sum (fun s => Z.land s 0xffff) fuel p 0 0 in
  ret (Z.land (nor0 (if s2 =? 0 then s0 else swap_bytes s0)) 0xffff).

(** ** The reference: sums of 16-bit words in ones' complement *)

Fixpoint sum16 (l : list Z) : Z :=
  match l with
  | [] => 0
  | [a] => a
  | a :: b :: l' => a + 256 * b + sum16 l'
  end.

(** The ones' complement value of a sum: congruent to it, and 0 only for 0. *)
Definition fold16 (s : Z) : Z := if s =? 0 then 0 else (s - 1) mod 65535 + 1.

Definition internet_checksum (l : list Z) : Z := 65535 - fold16 (sum16 l).

Lemma fold16_unique x s k : 0 <= x <= 65535 -> s = x + 65535 * k -> 0 <= k -> (x = 0 -> s = 0) -> fold16 s = x.
Proof.
  intros Hx Hs Hp Hz. unfold fold16. destruct (Z.eqb_spec s 0) as [->|Hn].
  - lia.
  - destruct (Z.eq_dec x 0) as [E|E]; [tauto|].
    assert ((s - 1) mod 65535 = x - 1); [|lia]. symmetry. apply (Z.mod_unique_pos _ _ k); lia.
Qed.

Lemma fold16_range s : 0 <= s -> 0 <= fold16 s <= 65535.
Proof. intros H. unfold fold16. case_on; [lia|]. pose proof (Z.mod_pos_bound (s - 1) 65535). lia. Qed.

Lemma fold16_small s : 0 <= s <= 65535 -> fold16 s = s.
Proof. intros H. apply (fold16_unique _ _ 0); lia. Qed.

Lemma fold16_spec s : 0 <= s -> exists k, s = fold16 s + 65535 * k /\ 0 <= k /\ (fold16 s = 0 -> s = 0).
Proof.
  intros H. unfold fold16. destruct (Z.eqb_spec s 0) as [->|Hn]; [exists 0; lia|].
  exists ((s - 1) / 65535). pose proof (Z.div_mod (s - 1) 65535). pose proof (Z.mod_pos_bound (s - 1) 65535).
  pose proof (Z.div_pos (s - 1) 65535). lia.
Qed.

(** Multiples of 65535 do not matter. *)
Lemma fold16_mod s k : 0 <= s -> 0 <= k -> (s = 0 -> k = 0) -> fold16 (s + 65535 * k) = fold16 s.
Proof.
  intros Hs Hk Hz. destruct (fold16_spec s Hs) as (j & Hj & Hj0 & Hz0).
  apply (fold16_unique _ _ (j + k)); [by apply fold16_range|lia|lia|lia].
Qed.

Lemma fold16_add a b : 0 <= a -> 0 <= b -> fold16 (fold16 a + b) = fold16 (a + b).
Proof.
  intros Ha Hb. destruct (fold16_spec a Ha) as (k & Hk & Hk0 & Hz). pose proof (fold16_range a Ha).
  rewrite Hk at 2. replace (fold16 a + 65535 * k + b) with (fold16 a + b + 65535 * k) by lia.
  symmetry. apply fold16_mod; lia.
Qed.

Lemma fold16_add_r a b : 0 <= a -> 0 <= b -> fold16 (a + fold16 b) = fold16 (a + b).
Proof. intros Ha Hb. rewrite !(Z.add_comm a). by apply fold16_add. Qed.

Lemma fold16_256 a : 0 <= a -> fold16 (256 * fold16 a) = fold16 (256 * a).
Proof.
  intros Ha. destruct (fold16_spec a Ha) as (k & Hk & Hk0 & Hz). pose proof (fold16_range a Ha).
  rewrite Hk at 2. replace (256 * (fold16 a + 65535 * k)) with (256 * fold16 a + 65535 * (256 * k)) by lia.
  symmetry. apply fold16_mod; lia.
Qed.

(** ** Sums of lists *)

Lemma sum16_step a b l : sum16 (a :: b :: l) = a + 256 * b + sum16 l.
Proof. done. Qed.

(** Induction in steps of two. *)
Lemma pairs_ind (P : list Z -> Prop) : P [] -> (forall a, P [a]) -> (forall a b l, P l -> P (a :: b :: l)) -> forall l, P l.
Proof.
  intros H0 H1 H2 l. assert (P l /\ forall a, P (a :: l)) as [H _]; [|done].
  induction l as [|b l [IH1 IH2]]; [by split|]. split; [done|]. intros a. by apply H2.
Qed.

Lemma sum16_bounds l : Forall is_u8 l -> 0 <= sum16 l <= 65535 * Z.of_nat ((length l + 1) / 2).
Proof.
  induction l as [|a|a b l IH] using pairs_ind; intros H.
  - cbn. lia.
  - apply Forall_cons in H as [H _]. change ((length [a] + 1) / 2)%nat with 1%nat. cbn [sum16]. unwrap. lia.
  - apply Forall_cons in H as [Ha [Hb Hl]%Forall_cons]. rewrite sum16_step. specialize (IH Hl). unwrap.
    cbn [length]. replace (S (S (length l)) + 1)%nat with (length l + 1 + 1 * 2)%nat by lia.
    rewrite Nat.div_add by lia. lia.
Qed.

Lemma sum16_pos l : Forall is_u8 l -> 0 <= sum16 l.
Proof. intros H. by apply sum16_bounds. Qed.

Lemma sum16_zero l : Forall is_u8 l -> sum16 l = 0 -> Forall (fun b => b = 0) l.
Proof.
  induction l as [|a|a b l IH] using pairs_ind; intros H E; [done|by repeat constructor|].
  apply Forall_cons in H as [Ha [Hb Hl]%Forall_cons]. rewrite sum16_step in E. pose proof (sum16_pos l Hl). unwrap.
  constructor; [lia|]. constructor; [lia|]. apply IH; [done|lia].
Qed.

Lemma sum16_even l1 l2 : Nat.even (length l1) = true -> sum16 (l1 ++ l2) = sum16 l1 + sum16 l2.
Proof.
  induction l1 as [|a|a b l IH] using pairs_ind; intros H; [done|done|].
  rewrite <-!app_comm_cons, !sum16_step, IH by done. lia.
Qed.

(** The bytes behind an odd number of bytes change their places in the words. *)
Lemma sum16_cons b l : is_u8 b -> Forall is_u8 l ->
  exists k, b + 256 * sum16 l = sum16 (b :: l) + 65535 * k /\ 0 <= k /\ (sum16 (b :: l) = 0 -> k = 0).
Proof.
  revert b. induction l as [|c|c d l IH] using pairs_ind; intros b Hb Hl.
  - exists 0. cbn. lia.
  - exists 0. cbn. lia.
  - apply Forall_cons in Hl as [Hc [Hd Hl]%Forall_cons]. destruct (IH d Hd Hl) as (k & E & Hk & Hz).
    exists (d + k). rewrite !sum16_step. pose proof (sum16_pos (d :: l)) as P.
    assert (Forall is_u8 (d :: l)) as F by by constructor. specialize (P F).
    pose proof (sum16_zero _ F) as Z0. unwrap. split; [lia|]. split; [lia|]. intros E0.
    assert (sum16 (d :: l) = 0) as E1 by lia. specialize (Z0 E1). apply Forall_cons in Z0 as [-> _]. lia.
Qed.

Lemma fold16_cons b l : is_u8 b -> Forall is_u8 l -> fold16 (b + 256 * sum16 l) = fold16 (sum16 (b :: l)).
Proof.
  intros Hb Hl. destruct (sum16_cons b l Hb Hl) as (k & -> & Hk & Hz). apply fold16_mod; [|done|done].
  apply sum16_pos. by constructor.
Qed.

Lemma fold16_odd l1 l2 : Forall is_u8 l1 -> Forall is_u8 l2 -> Nat.even (length l1) = false ->
  fold16 (sum16 (l1 ++ l2)) = fold16 (sum16 l1 + 256 * sum16 l2).
Proof.
  induction l1 as [|a|a b l IH] using pairs_ind; intros H1 H2 E; [done| |].
  - apply Forall_cons in H1 as [Ha _]. cbn [app]. rewrite <-fold16_cons by done. done.
  - apply Forall_cons in H1 as [Ha [Hb H1]%Forall_cons]. rewrite <-!app_comm_cons, !sum16_step.
    assert (Forall is_u8 (l ++ l2)) by by apply Forall_app. pose proof (sum16_pos _ H). pose proof (sum16_pos _ H1). pose proof (sum16_pos _ H2).
    unwrap. rewrite <-fold16_add_r, IH, fold16_add_r by (done || lia). f_equal. lia.
Qed.

(** ** The loops *)

(** The sum over [n] bytes of the memory. *)
Definition bsum (m : gmap Z Z) (a n : Z) : Z := sum16 (load_bytes m a (Z.to_nat n)).

Lemma bsum_split m a n k : 0 <= n -> n mod 2 = 0 -> 0 <= k -> bsum m a (n + k) = bsum m a n + bsum m (a + n) k.
Proof.
  intros Hn He Hk. unfold bsum. rewrite Z2Nat.inj_add, load_bytes_app, Z2Nat.id by done.
  apply sum16_even. rewrite length_load_bytes. apply Nat.even_spec. exists (Z.to_nat (n / 2)).
  apply Nat2Z.inj. rewrite Nat2Z.inj_mul, !Z2Nat.id by zlia. zlia.
Qed.

Lemma bsum_0 m a : bsum m a 0 = 0.
Proof. done. Qed.

Lemma bsum_2 m a : bsum m a 2 = load16 m a.
Proof. change (bsum m a 2) with (load8 m a + 256 * load8 m (a + 1) + 0). unfold load16. lia. Qed.

Lemma bsum_pos m a n : 0 <= bsum m a n.
Proof. apply sum16_pos, Forall_u8_load_bytes. Qed.

Lemma bsum_bound m a n : 0 <= n < 65536 -> bsum m a n <= 2147450880.
Proof.
  intros H. unfold bsum. pose proof (sum16_bounds _ (Forall_u8_load_bytes m a (Z.to_nat n))) as [_ B].
  rewrite length_load_bytes, Nat2Z.inj_div, Nat2Z.inj_add, Z2Nat.id in B by lia.
  assert ((n + Z.of_nat 1) / Z.of_nat 2 <= 32768) by (apply Z.div_le_upper_bound; lia). lia.
Qed.

Lemma addu_small x y : 0 <= x -> 0 <= y -> x + y < 2 ^ 32 -> addu x y = x + y.
Proof. intros. unfold addu, u32. by rewrite Z.mod_small by lia. Qed.

(** At most one byte. *)
Lemma cksum_bytes_spec m t0 t1 t2 fuel : 0 <= t1 <= 1 -> (Z.to_nat t1 <= fuel)%nat -> 0 <= t0 -> 0 <= t2 -> t2 + bsum m t0 t1 < 2 ^ 32 ->
  cksum_bytes fuel t0 t1 t2 m = Ok (t2 + bsum m t0 t1, m).
Proof.
  intros H1 Hf H0 H2 Hb. assert (t1 = 0 \/ t1 = 1) as [->| ->] by lia.
  - destruct fuel; cbn; unfold bsum; cbn; by rewrite Z.add_0_r.
  - destruct fuel as [|fuel]; [cbn in Hf; lia|]. change (bsum m t0 1) with (load8 m t0) in *. cbn [cksum_bytes Z.leb].
    change (1 <=? 0) with false. cbv iota. rewrite (bind_ok _ _ m (load8 m t0) m) by done.
    pose proof (load16_range m t0). pose proof (bsum_pos m t0 1) as P. change (bsum m t0 1) with (load8 m t0) in P.
    rewrite (addu_small t2) by lia. by destruct fuel.
Qed.

Lemma cksum_halves_spec m fuel : forall t0 t1 t2, 0 <= t1 -> (Z.to_nat t1 <= fuel)%nat -> t0 mod 2 = 0 -> 0 <= t0 -> t0 + t1 < 2 ^ 32 ->
  0 <= t2 -> t2 + bsum m t0 t1 < 2 ^ 32 ->
  exists n, 0 <= n <= t1 /\ n mod 2 = 0 /\ t1 - n < 2 /\
    cksum_halves fuel t0 t1 t2 m = Ok ((t0 + n, t1 - n, t2 + bsum m t0 n), m).
Proof.
  induction fuel as [|fuel IH]; intros t0 t1 t2 H1 Hf He H0 Ha H2 Hb; cbn [cksum_halves].
  { exists 0. assert (t1 = 0) as -> by lia. repeat (split; [done|]). cbn. unfold bsum. cbn. by rewrite !Z.add_0_r. }
  destruct (Z.ltb_spec t1 2) as [Hlt|Hge].
  { exists 0. split; [lia|]. split; [done|]. split; [lia|]. unfold bsum, ret. cbn. by rewrite !Z.add_0_r, Z.sub_0_r. }
  pose proof (bsum_split m t0 2 (t1 - 2)) as Hs. rewrite Z.add_sub_assoc, (Z.add_comm 2), Z.add_simpl_r, bsum_2 in Hs.
  specialize (Hs ltac:(lia) eq_refl ltac:(lia)). pose proof (load16_range m t0). pose proof (bsum_pos m (t0 + 2) (t1 - 2)).
  rewrite (bind_ok _ _ m (load16 m t0) m) by (unfold lhu; by rewrite (proj2 (Z.eqb_eq _ _) He)).
  rewrite !addu_small by lia.
  destruct (IH (t0 + 2) (t1 - 2) (t2 + load16 m t0)) as (n & Hn & Hn2 & Hlt & E); [lia|lia|zlia|lia|lia|lia|lia|].
  exists (2 + n). split; [lia|]. split; [zlia|]. split; [lia|]. rewrite E.
  rewrite (bsum_split m t0 2 n) by (done || lia). rewrite bsum_2. do 3 f_equal; [f_equal|]; lia.
Qed.

(** ** Words *)

(** Two sums [l] and [h] of lower and upper halves as the loop keeps them. *)
Definition halves (l h : Z) : Z * Z := (u32 (l + 65536 * h), u32 h).

Lemma add_word_halves l h m a : add_word (halves l h) (load32 m a) = halves (l + load16 m a) (h + load16 m (a + 2)).
Proof.
  unfold add_word, halves, addu, srl. cbn [fst snd]. rewrite Z.shiftr_div_pow2 by lia.
  pose proof (load16_range m a). assert (load32 m a / 2 ^ 16 = load16 m (a + 2)) as ->.
  { unfold load32. rewrite Z.mul_comm, Z.div_add by lia. rewrite Z.div_small by lia. lia. }
  unfold load32, u32. rewrite !Zplus_mod_idemp_l. do 2 f_equal; lia.
Qed.

Lemma add_halves_halves t2 l h : add_halves t2 (halves l h) = u32 (t2 + l + h).
Proof.
  unfold add_halves, halves, addu, subu, sll, u32. cbn [fst snd]. rewrite Z.shiftl_mul_pow2 by lia.
  change (2 ^ 16) with 65536. zlia.
Qed.

Lemma bsum_4 m a : bsum m a 4 = load16 m a + load16 m (a + 2).
Proof. change 4 with (2 + 2) at 1. rewrite bsum_split by (done || lia). by rewrite !bsum_2. Qed.

Lemma lw_aligned m a : a mod 4 = 0 -> lw a m = Ok (load32 m a, m).
Proof. intros H. unfold lw. by rewrite (proj2 (Z.eqb_eq _ _) H). Qed.

Lemma cksum_words_spec m fuel : forall t0 t1 l h, 0 <= t1 -> (Z.to_nat t1 <= fuel)%nat -> t0 mod 4 = 0 -> 0 <= t0 -> t0 + t1 < 2 ^ 32 ->
  exists n l' h', 0 <= n <= t1 /\ n mod 4 = 0 /\ t1 - n < 4 /\ l' + h' = l + h + bsum m t0 n /\
    cksum_words fuel t0 t1 (halves l h) m = Ok ((t0 + n, t1 - n, halves l' h'), m).
Proof.
  induction fuel as [|fuel IH]; intros t0 t1 l h H1 Hf He H0 Ha; cbn [cksum_words].
  { exists 0, l, h. assert (t1 = 0) as -> by lia. do 3 (split; [done|]). split; [rewrite bsum_0; lia|].
    change (0 <? 4) with true. unfold ret. by rewrite Z.add_0_r. }
  destruct (Z.ltb_spec t1 4) as [Hlt|Hge].
  { exists 0, l, h. split; [lia|]. split; [done|]. split; [lia|]. split; [rewrite bsum_0; lia|]. unfold ret. by rewrite Z.add_0_r, Z.sub_0_r. }
  rewrite (bind_ok _ _ m (load32 m t0) m) by by apply lw_aligned.
  rewrite add_word_halves, addu_small by lia.
  destruct (IH (t0 + 4) (t1 - 4) (l + load16 m t0) (h + load16 m (t0 + 2))) as (n & l' & h' & Hn & Hn4 & Hlt & Hs & E); [lia|lia|zlia|lia|lia|].
  exists (4 + n), l', h'. split; [lia|]. split; [zlia|]. split; [lia|].
  rewrite (bsum_split m t0 4 n), bsum_4 by (done || lia). split; [lia|]. by rewrite E, Z.add_assoc, Z.sub_add_distr.
Qed.

Lemma load_words_spec m t0 n k : t0 mod 4 = 0 -> k mod 4 = 0 ->
  load_words t0 (map (fun i => k + 4 * Z.of_nat i) (seq 0 n)) m = Ok (map (fun i => load32 m (t0 + k + 4 * Z.of_nat i)) (seq 0 n), m).
Proof.
  intros Ht Hk. generalize (seq 0 n) as js. intros js. induction js as [|i js IH]; [done|]. cbn [map load_words].
  rewrite (bind_ok _ _ m (load32 m (t0 + (k + 4 * Z.of_nat i))) m) by (apply lw_aligned; zlia).
  rewrite (bind_ok _ _ m _ m IH). unfold ret. do 4 f_equal. lia.
Qed.

Lemma fold_words m n : forall a l h, exists l' h', l' + h' = l + h + bsum m a (4 * Z.of_nat n) /\
  fold_left add_word (map (fun i => load32 m (a + 4 * Z.of_nat i)) (seq 0 n)) (halves l h) = halves l' h'.
Proof.
  induction n as [|n IH]; intros a l h; [exists l, h; split; [rewrite bsum_0; lia|done]|].
  destruct (IH (a + 4) (l + load16 m a) (h + load16 m (a + 2))) as (l' & h' & Hs & E). exists l', h'. split.
  - replace (4 * Z.of_nat (S n)) with (4 + 4 * Z.of_nat n) by lia. rewrite (bsum_split m a 4), bsum_4 by (done || lia). lia.
  - cbn [seq map fold_left]. rewrite Z.mul_0_r, Z.add_0_r, add_word_halves, <-E. f_equal.
    rewrite <-seq_shift, map_map. apply map_ext. intros i. f_equal. lia.
Qed.

Lemma cksum_blocks_spec m fuel : forall t0 t1 l h, 72 <= t1 -> (Z.to_nat t1 <= fuel)%nat -> t0 mod 4 = 0 -> 0 <= t0 -> t0 + t1 < 2 ^ 32 ->
  exists n l' h', 0 <= n <= t1 /\ n mod 4 = 0 /\ t1 - n < 72 /\ l' + h' = l + h + bsum m t0 n /\
    cksum_blocks fuel t0 t1 (load32 m t0) (load32 m (t0 + 4)) (halves l h) m = Ok ((t0 + n, t1 - n, halves l' h'), m).
Proof.
  induction fuel as [|fuel IH]; intros t0 t1 l h H1 Hf He H0 Ha; cbn [cksum_blocks]; [lia|].
  rewrite (bind_ok _ _ m _ m (load_words_spec m t0 14 8 He eq_refl)).
  destruct (fold_words m 16 t0 l h) as (l1 & h1 & S1 & E1). change (4 * Z.of_nat 16) with 64 in S1.
  assert (map (fun i => load32 m (t0 + 4 * Z.of_nat i)) (seq 0 16) =
    load32 m t0 :: load32 m (t0 + 4) :: map (fun i => load32 m (t0 + 8 + 4 * Z.of_nat i)) (seq 0 14)) as Ew.
  { change (seq 0 16) with (0%nat :: 1%nat :: seq 2 14). cbn [map]. f_equal; [f_equal; lia|]. f_equal.
    rewrite <-!seq_shift, !map_map. apply map_ext. intros i. f_equal. lia. }
  rewrite Ew in E1. rewrite E1. cbn zeta.
  rewrite (bind_ok _ _ m _ m (lw_aligned m (t0 + 64) ltac:(zlia))), (bind_ok _ _ m _ m (lw_aligned m (t0 + 68) ltac:(zlia))).
  rewrite addu_small by lia. destruct (Z.ltb_spec (t1 - 64) 72) as [Hlt|Hge].
  - exists 64, l1, h1. split; [lia|]. split; [done|]. split; [done|]. by split.
  - destruct (IH (t0 + 64) (t1 - 64) l1 h1) as (n & l' & h' & Hn & Hn4 & Hlt & Hs & E); [lia|lia|zlia|lia|lia|].
    exists (64 + n), l', h'. split; [lia|]. split; [zlia|]. split; [lia|].
    rewrite (bsum_split m t0 64 n) by (done || lia). split; [lia|].
    replace (t0 + 68) with (t0 + 64 + 4) by lia. by rewrite E, Z.add_assoc, Z.sub_add_distr.
Qed.

Lemma cksum_main_spec m t0 t1 t2 t4 : 0 <= t1 -> t0 mod 4 = 0 -> 0 <= t0 -> t0 + t1 < 2 ^ 32 ->
  0 <= t2 -> t2 + bsum m t0 t1 < 2 ^ 32 ->
  cksum_main t0 t1 t2 t4 m = Ok (cksum_end (t2 + bsum m t0 t1) t4, m).
Proof.
  intros H1 He H0 Ha H2 Hb. unfold cksum_main. cbn zeta.
  assert (exists n, 0 <= n <= t1 /\ n mod 4 = 0 /\
    (if t1 <? 72 then ret (t0, t1, t2) else
      let* v1 := lw t0 in let* a3 := lw (t0 + 4) in
      let* '(t0, t1, acc) := cksum_blocks (Z.to_nat t1) t0 t1 v1 a3 (0, 0) in
      ret (t0, t1, add_halves t2 acc)) m = Ok ((t0 + n, t1 - n, t2 + bsum m t0 n), m)) as (n & Hn & Hn4 & E).
  { destruct (Z.ltb_spec t1 72); [exists 0; rewrite bsum_0, !Z.add_0_r, Z.sub_0_r; split; [lia|by split]|].
    rewrite (bind_ok _ _ m _ m (lw_aligned m t0 He)), (bind_ok _ _ m _ m (lw_aligned m (t0 + 4) ltac:(zlia))).
    destruct (cksum_blocks_spec m (Z.to_nat t1) t0 t1 0 0) as (n & l & h & Hn & Hn4 & _ & Hs & E); [done|done|done|done|done|].
    exists n. split; [done|]. split; [done|]. change (halves 0 0) with (0, 0) in E.
    rewrite (bind_ok _ _ m _ m E). unfold ret. rewrite add_halves_halves. do 3 f_equal.
    pose proof (bsum_split m t0 n (t1 - n) ltac:(lia) ltac:(zlia) ltac:(lia)) as Hsp. rewrite Zplus_minus in Hsp.
    pose proof (bsum_pos m (t0 + n) (t1 - n)). pose proof (bsum_pos m t0 n). unfold u32. rewrite Z.mod_small by lia. lia. }
  pose proof (bsum_split m t0 n (t1 - n) ltac:(lia) ltac:(zlia) ltac:(lia)) as Hsp. rewrite Zplus_minus in Hsp.
  pose proof (bsum_pos m (t0 + n) (t1 - n)). pose proof (bsum_pos m t0 n).
  rewrite (bind_ok _ _ m _ m E). clear E. cbv beta iota.
  set (a := t0 + n) in *. set (k := t1 - n) in *. set (s := t2 + bsum m t0 n) in *.
  destruct (cksum_words_spec m (Z.to_nat t1) a k 0 0) as (j & l & h & Hj & Hj4 & _ & Hs & E); [lia|lia|zlia|lia|lia|].
  change (halves 0 0) with (0, 0) in E. rewrite (bind_ok _ _ m _ m E). clear E. cbv beta iota. rewrite add_halves_halves.
  pose proof (bsum_split m a j (k - j) ltac:(lia) ltac:(zlia) ltac:(lia)) as Hsp2. rewrite Zplus_minus in Hsp2.
  pose proof (bsum_pos m (a + j) (k - j)). pose proof (bsum_pos m a j).
  assert (u32 (s + l + h) = s + bsum m a j) as -> by (unfold u32; rewrite Z.mod_small; lia).
  destruct (cksum_halves_spec m (Z.to_nat t1) (a + j) (k - j) (s + bsum m a j)) as (i & Hi & Hi2 & Hlt & E); [lia|lia|zlia|lia|lia|lia|lia|].
  rewrite (bind_ok _ _ m _ m E). clear E. cbv beta iota.
  pose proof (bsum_split m (a + j) i (k - j - i) ltac:(lia) ltac:(zlia) ltac:(lia)) as Hsp3. rewrite Zplus_minus in Hsp3.
  pose proof (bsum_pos m (a + j + i) (k - j - i)). pose proof (bsum_pos m (a + j) i).
  rewrite (bind_ok _ _ m _ m (cksum_bytes_spec m (a + j + i) (k - j - i) (s + bsum m a j + bsum m (a + j) i) (Z.to_nat t1)
    ltac:(lia) ltac:(lia) ltac:(lia) ltac:(lia) ltac:(lia))).
  unfold ret. do 3 f_equal. lia.
Qed.

(** ** The end of the sum *)

Lemma land_u16 x : Z.land x 0xffff = x mod 65536.
Proof. change 0xffff with (Z.ones 16). by rewrite Z.land_ones. Qed.
Lemma land_u8 x : Z.land x 0xff = x mod 256.
Proof. change 0xff with (Z.ones 8). by rewrite Z.land_ones. Qed.
Lemma srl_16 x : srl x 16 = x / 65536.
Proof. unfold srl. by rewrite Z.shiftr_div_pow2. Qed.
Lemma srl_8 x : srl x 8 = x / 256.
Proof. unfold srl. by rewrite Z.shiftr_div_pow2. Qed.
Lemma sll_8 x : sll x 8 = u32 (x * 256).
Proof. unfold sll. by rewrite Z.shiftl_mul_pow2. Qed.

Lemma cksum_end_even t2 : 0 <= t2 < 2 ^ 32 -> cksum_end t2 0 = fold16 t2.
Proof.
  intros H. unfold cksum_end. cbn [Z.eqb]. rewrite !land_u16, !srl_16. symmetry.
  rewrite (addu_small (t2 mod 65536)) by zlia. set (a1 := t2 mod 65536 + t2 / 65536).
  assert (t2 = a1 + 65535 * (t2 / 65536) /\ 0 <= a1 <= 131070 /\ (a1 = 0 -> t2 = 0)) as (E & Ha & Hz) by zlia. clearbody a1.
  rewrite addu_small by zlia. apply (fold16_unique _ _ (t2 / 65536 + a1 / 65536)); zlia.
Qed.

Lemma cksum_end_odd t2 : 0 <= t2 < 2 ^ 32 -> cksum_end t2 1 = fold16 (256 * t2).
Proof.
  intros H. rewrite <-fold16_256, <-(cksum_end_even t2) by lia. unfold cksum_end. cbn [Z.eqb].
  change (1 =? 0) with false. change (0 =? 0) with true. cbv iota. rewrite !land_u16, !land_u8, !srl_16, !srl_8, !sll_8.
  rewrite (addu_small (t2 mod 65536)) by zlia. set (a1 := t2 mod 65536 + t2 / 65536).
  assert (0 <= a1 <= 131070) as Ha by (subst a1; zlia). clearbody a1. clear t2 H.
  rewrite (addu_small (a1 mod 65536) (a1 / 65536)) by zlia. set (x := a1 mod 65536 + a1 / 65536).
  assert (0 <= x <= 65535) as Hx by (subst x; zlia). clearbody x. clear a1 Ha.
  assert (u32 (x mod 256 * 256) = x mod 256 * 256) as -> by zlia. assert (x / 256 mod 256 = x / 256) as -> by zlia.
  rewrite (addu_small (x / 256)) by zlia. set (y := x / 256 + x mod 256 * 256).
  assert (0 <= y <= 65535 /\ 256 * x = y + 65535 * (x / 256) /\ (y = 0 -> x = 0)) as (Hy & E & Hz) by (subst y; zlia). clearbody y.
  rewrite addu_small by zlia. symmetry. apply (fold16_unique _ _ (x / 256)); zlia.
Qed.

Lemma land_3 x : Z.land x 3 = x mod 4.
Proof. change 3 with (Z.ones 2). by rewrite Z.land_ones. Qed.
Lemma land_2 x : x mod 2 = 0 -> Z.land x 2 = x mod 4.
Proof.
  intros H. rewrite <-land_3. change 3 with (Z.lor 2 1). rewrite Z.land_lor_distr_r, land_1, H. by rewrite Z.lor_0_r.
Qed.

(** The address and length for which [ip_cksum] is right: two bytes that are not at a multiple
    of 4 are both added as lower bytes. *)
Definition summable (a n : Z) : Prop := 0 <= a /\ 0 <= n < 65536 /\ a + n < 2 ^ 32 /\ (a mod 4 = 0 \/ n <> 2).

Lemma cksum_half_spec m t0 t1 t2 t4 : 2 <= t1 -> t0 mod 2 = 0 -> 0 <= t0 -> t0 + t1 < 2 ^ 32 ->
  0 <= t2 -> t2 + bsum m t0 t1 < 2 ^ 32 ->
  cksum_half t0 t1 t2 t4 m = Ok (cksum_end (t2 + bsum m t0 t1) t4, m).
Proof.
  intros H1 He H0 Ha H2 Hb. unfold cksum_half. rewrite land_2 by done.
  destruct (Z.eqb_spec (t0 mod 4) 0) as [E|E]; [apply cksum_main_spec; lia|].
  rewrite (bind_ok _ _ m (load16 m t0) m) by (unfold lhu; by rewrite (proj2 (Z.eqb_eq _ _) He)).
  pose proof (bsum_split m t0 2 (t1 - 2) ltac:(lia) eq_refl ltac:(lia)) as Hs. rewrite Zplus_minus, bsum_2 in Hs.
  pose proof (bsum_pos m (t0 + 2) (t1 - 2)). pose proof (load16_range m t0).
  rewrite !addu_small by lia. rewrite cksum_main_spec; [|lia|zlia|lia|lia|lia|lia]. do 3 f_equal. lia.
Qed.

Lemma ip_cksum_spec m a n : summable a n -> ip_cksum a n m = Ok (fold16 (bsum m a n), m).
Proof.
  intros (H0 & Hn & Ha & Hs). unfold ip_cksum. rewrite land_3, land_1.
  pose proof (bsum_bound m a n Hn) as Hb. pose proof (bsum_pos m a n) as Hp.
  destruct (Z.eqb_spec (a mod 4) 0) as [E4|E4].
  { rewrite cksum_main_spec by lia. by rewrite cksum_end_even by lia. }
  destruct (Z.ltb_spec n 3) as [H3|H3].
  { rewrite (bind_ok _ _ m _ m (cksum_bytes_spec m a n 0 (Z.to_nat n) ltac:(lia) ltac:(lia) H0 ltac:(lia) ltac:(lia))).
    unfold ret. by rewrite cksum_end_even by lia. }
  destruct (Z.eqb_spec (a mod 2) 0) as [E2|E2].
  { rewrite cksum_half_spec by lia. by rewrite cksum_end_even by lia. }
  rewrite (bind_ok _ _ m (load8 m a) m) by done.
  assert (is_u8 (load8 m a)) as H8.
  { pose proof (Forall_u8_load_bytes m a 1) as F. by apply Forall_cons in F as [F _]. }
  pose proof (bsum_bound m (a + 1) (n - 1) ltac:(lia)) as Hb1. pose proof (bsum_pos m (a + 1) (n - 1)).
  assert (sll (load8 m a) 8 = 256 * load8 m a) as -> by (rewrite sll_8; unwrap; rewrite Z.mod_small; lia).
  rewrite addu_small by lia. unwrap. rewrite cksum_half_spec; [|lia|zlia|lia|lia|lia|lia].
  rewrite cksum_end_odd by lia. do 2 f_equal.
  replace (256 * (256 * load8 m a + bsum m (a + 1) (n - 1))) with (load8 m a + 256 * bsum m (a + 1) (n - 1) + 65535 * load8 m a) by lia.
  rewrite fold16_mod by lia. unfold bsum. rewrite fold16_cons by (done || apply Forall_u8_load_bytes). do 2 f_equal.
  replace (Z.to_nat n) with (S (Z.to_nat (n - 1))) by lia. done.
Qed.

Lemma fold_carries_spec v : 0 <= v < 2 ^ 32 -> fold_carries 2 v = Ok (fold16 v).
Proof.
  intros H. cbn [fold_carries]. rewrite !srl_16, !land_u16.
  destruct (Z.eqb_spec (v / 65536) 0) as [E|E]; [rewrite fold16_small by zlia; done|].
  rewrite (addu_small (v mod 65536)) by zlia. set (w := v mod 65536 + v / 65536).
  assert (v = w + 65535 * (v / 65536) /\ 0 < w <= 131070) as [Ev Hw] by (subst w; zlia). clearbody w.
  rewrite Ev, fold16_mod by zlia. clear Ev E H v.
  destruct (Z.eqb_spec (w / 65536) 0) as [E|E]; [by rewrite fold16_small by zlia|].
  rewrite (addu_small (w mod 65536)) by zlia. set (x := w mod 65536 + w / 65536).
  assert (w = x + 65535 * (w / 65536) /\ 0 < x <= 65535) as [Ew Hx] by (subst x; zlia). clearbody x.
  rewrite Ew, fold16_mod, fold16_small by zlia. assert (x / 65536 = 0) as -> by zlia. done.
Qed.

Lemma complement x : 0 <= x <= 65535 -> Z.land (nor0 x) 0xffff = 65535 - x.
Proof. intros H. rewrite land_u16. unfold nor0, Z.lnot. unwrap. zlia. Qed.

(** [inet_chksum] is the Internet checksum of the bytes. *)
Lemma inet_chksum_spec m a n : summable a n ->
  inet_chksum a n m = Ok (internet_checksum (load_bytes m a (Z.to_nat n)), m).
Proof.
  intros H. unfold inet_chksum. rewrite land_u16, Z.mod_small by (destruct H; lia).
  rewrite (bind_ok _ _ m _ m (ip_cksum_spec m a n H)). pose proof (fold16_range _ (bsum_pos m a n)) as Hr.
  unfold lift. rewrite fold_carries_spec by lia. rewrite (bind_ok _ _ m _ m eq_refl). unfold ret.
  rewrite complement by (apply fold16_range; lia). rewrite (fold16_small (fold16 _)) by done. done.
Qed.

(** ** Chains of packet buffers *)

Fixpoint chained (m : gmap Z Z) (p : Z) (segs : list (Z * Z)) : Prop :=
  match segs with
  | [] => p = 0
  | (a, n) :: segs' => 0 < p /\ p mod 4 = 0 /\ load32 m (p + 4) = a /\ load16 m (p + 10) = n /\ summable a n /\
      chained m (load32 m p) segs'
  end.

(** The bytes of the packet. *)
Definition gather (m : gmap Z Z) (segs : list (Z * Z)) : list Z :=
  concat (map (fun s => load_bytes m s.1 (Z.to_nat s.2)) segs).

Lemma gather_u8 m segs : Forall is_u8 (gather m segs).
Proof. unfold gather. apply Forall_concat, Forall_map, Forall_forall. intros s _. apply Forall_u8_load_bytes. Qed.

Lemma swap_bytes_spec x : 0 <= x <= 65535 -> swap_bytes x = fold16 (256 * x).
Proof.
  intros H. unfold swap_bytes. rewrite land_u8, sll_8, srl_8.
  assert (Z.land x 0xff00 = x / 256 * 256) as ->.
  { change 0xff00 with (Z.shiftl (Z.ones 8) 8). apply Z.bits_inj_iff'. intros i Hi.
    change 256 with (2 ^ 8). rewrite <-Z.shiftr_div_pow2, <-Z.shiftl_mul_pow2 by lia.
    rewrite Z.land_spec. destruct (Z.ltb_spec i 8).
    { rewrite !Z.shiftl_spec_low by lia. by rewrite andb_false_r. }
    rewrite !Z.shiftl_spec_high, Z.shiftr_spec by lia. replace (i - 8 + 8) with i by lia.
    destruct (Z.ltb_spec i 16); [rewrite Z.ones_spec_low by lia; apply andb_true_r|].
    rewrite Z.ones_spec_high by lia. rewrite andb_false_r. symmetry.
    assert (x = x mod 2 ^ 16) as -> by zlia. rewrite Z.mod_pow2_bits_high by lia. done. }
  rewrite Z.div_mul by lia. assert (u32 (x mod 256 * 256) = x mod 256 * 2 ^ 8) as -> by zlia.
  rewrite Z.lor_comm, lor_shift_add by zlia. symmetry. apply (fold16_unique _ _ (x / 256)); zlia.
Qed.

(** What the loop keeps of the bytes [l] it has seen: their sum, with its bytes swapped when their
    number is odd. *)
Definition enc (l : list Z) : Z * Z :=
  if Nat.even (length l) then (fold16 (sum16 l), 0) else (fold16 (256 * sum16 l), 1).

Lemma enc_range l : Forall is_u8 l -> 0 <= (enc l).1 <= 65535.
Proof. intros H. pose proof (sum16_pos l H). unfold enc. case_on; apply fold16_range; lia. Qed.

Lemma enc_app l d : Forall is_u8 l -> Forall is_u8 d ->
  let x := fold16 ((enc l).1 + fold16 (sum16 d)) in
  enc (l ++ d) = if Nat.even (length d) then (x, (enc l).2) else (fold16 (256 * x), Z.land (subu 1 (enc l).2) 0xff).
Proof.
  intros Hl Hd x. pose proof (sum16_pos l Hl). pose proof (sum16_pos d Hd). pose proof (fold16_range _ (sum16_pos d Hd)).
  pose proof (fold16_range _ (sum16_pos l Hl)). pose proof (fold16_range (256 * sum16 l) ltac:(lia)).
  subst x. unfold enc. rewrite length_app, Nat.even_add.
  destruct (Nat.even (length l)) eqn:El, (Nat.even (length d)) eqn:Ed; cbn [fst snd eqb].
  - by rewrite sum16_even, fold16_add, fold16_add_r by (done || lia).
  - by rewrite sum16_even, fold16_add, fold16_add_r, fold16_256 by (done || lia).
  - f_equal. rewrite <-fold16_256, fold16_odd, fold16_256, fold16_add, fold16_add_r by (done || lia || (apply sum16_pos, Forall_app; done)).
    replace (256 * (sum16 l + 256 * sum16 d)) with (256 * sum16 l + sum16 d + 65535 * sum16 d) by lia. apply fold16_mod; lia.
  - f_equal. rewrite fold16_odd, fold16_add, fold16_add_r, fold16_256 by (done || lia).
    replace (256 * (256 * sum16 l + sum16 d)) with (sum16 l + 256 * sum16 d + 65535 * sum16 l) by lia. symmetry. apply fold16_mod; lia.
Qed.

Lemma even_land n : 0 <= n -> (Z.land n 1 =? 0) = Nat.even (Z.to_nat n).
Proof.
  intros H. rewrite land_1. destruct (Nat.even (Z.to_nat n)) eqn:E.
  - apply Nat.even_spec in E as [k Hk]. apply Z.eqb_eq. assert (n = 2 * Z.of_nat k) as -> by lia. zlia.
  - apply Z.eqb_neq. intros Hz. rewrite <-not_true_iff_false in E. apply E, Nat.even_spec. exists (Z.to_nat (n / 2)).
    apply Nat2Z.inj. rewrite Nat2Z.inj_mul, !Z2Nat.id by zlia. zlia.
Qed.

Lemma chain_sum_spec m segs : forall p l fuel, chained m p segs -> (length segs <= fuel)%nat -> Forall is_u8 l ->
  chain_sum swap_bytes fuel p (enc l).1 (enc l).2 m = Ok (enc (l ++ gather m segs), m).
Proof.
  induction segs as [|[a n] segs IH]; intros p l fuel Hc Hf Hl.
  { cbn in Hc. subst p. rewrite app_nil_r. destruct fuel; cbn; by destruct (enc l). }
  destruct Hc as (Hp & Hp4 & Ea & En & Hs & Hc). destruct fuel as [|fuel]; [cbn in Hf; lia|]. cbn [chain_sum].
  rewrite (proj2 (Z.eqb_neq p 0)) by lia.
  rewrite (bind_ok _ _ m _ m (lw_aligned m (p + 4) ltac:(zlia))), Ea.
  rewrite (bind_ok _ _ m (load16 m (p + 10)) m) by (unfold lhu; rewrite (proj2 (Z.eqb_eq ((p + 10) mod 2) 0)) by zlia; done).
  rewrite En, (bind_ok _ _ m _ m (ip_cksum_spec m a n Hs)).
  set (d := load_bytes m a (Z.to_nat n)). change (bsum m a n) with (sum16 d).
  assert (Forall is_u8 d) as Hd by apply Forall_u8_load_bytes. pose proof (enc_range l Hl) as Hr.
  pose proof (fold16_range _ (sum16_pos d Hd)) as Hr2. rewrite addu_small by lia.
  rewrite (bind_ok _ _ m (fold16 ((enc l).1 + fold16 (sum16 d))) m) by (unfold lift; by rewrite fold_carries_spec by lia).
  assert (0 <= n) as Hn by (destruct Hs; lia).
  pose proof (enc_app l d Hl Hd) as E. cbn zeta in E. unfold d in E at 2. rewrite length_load_bytes, <-even_land in E by done.
  rewrite (swap_bytes_spec (fold16 _)) by (apply fold16_range; lia).
  assert ((if Z.land n 1 =? 0 then (fold16 ((enc l).1 + fold16 (sum16 d)), (enc l).2)
    else (fold16 (256 * fold16 ((enc l).1 + fold16 (sum16 d))), Z.land (subu 1 (enc l).2) 0xff)) = enc (l ++ d)) as ->.
  { rewrite E. done. }
  pose proof (IH (load32 m p) (l ++ d) fuel Hc ltac:(cbn in Hf; lia) ltac:(by apply Forall_app)) as E2.
  destruct (enc (l ++ d)) as [s w]. cbn [fst snd] in E2.
  rewrite (bind_ok _ _ m _ m (lw_aligned m p Hp4)), E2. unfold gather. cbn [map concat fst snd]. fold d. by rewrite app_assoc.
Qed.

Lemma htons_spec x : 0 <= x < 65536 -> htons x = x mod 256 * 256 + x / 256.
Proof.
  intros H. unfold htons. rewrite land_u16, land_u8, sll_8, srl_8. rewrite (Z.mod_small x 65536) by lia.
  assert (u32 (x mod 256 * 256) = x mod 256 * 2 ^ 8) as -> by zlia.
  rewrite Z.lor_comm, lor_shift_add by zlia. lia.
Qed.

(** The header that UDP and TCP put in front of a packet for the checksum. *)
Definition pseudo_header (m : gmap Z Z) (src dest proto len : Z) : list Z :=
  load_bytes m src 4 ++ load_bytes m dest 4 ++ [0; proto] ++ [len / 256; len mod 256].

Lemma load32_halves m a : Z.land (load32 m a) 0xffff = load16 m a /\ srl (load32 m a) 16 = load16 m (a + 2).
Proof.
  rewrite land_u16, srl_16. pose proof (load16_range m a). unfold load32. split.
  - rewrite Z.mul_comm, Z_mod_plus_full. by apply Z.mod_small.
  - rewrite Z.mul_comm, Z.div_add by lia. rewrite Z.div_small by lia. lia.
Qed.

(** The value of a field of two bytes that makes the checksum of the whole 0. *)
Lemma checksum_field l1 l2 : Forall is_u8 (l1 ++ [0; 0] ++ l2) -> Nat.even (length l1) = true ->
  let c := internet_checksum (l1 ++ [0; 0] ++ l2) in internet_checksum (l1 ++ [c mod 256; c / 256] ++ l2) = 0.
Proof.
  intros Hu Hl1. cbn zeta. set (msg := l1 ++ [0; 0] ++ l2) in *. pose proof (sum16_pos msg Hu) as Pm. unfold internet_checksum.
  rewrite !sum16_even by done.
  assert (sum16 msg = sum16 l1 + sum16 l2) as Es by (subst msg; rewrite !sum16_even by done; cbn; lia).
  set (c := 65535 - fold16 (sum16 msg)). change (sum16 [c mod 256; c / 256]) with (c mod 256 + 256 * (c / 256) + 0).
  destruct (fold16_spec _ Pm) as (k & Hk & Hk0 & Hz).
  replace (sum16 l1 + (c mod 256 + 256 * (c / 256) + 0 + sum16 l2)) with (65535 + 65535 * k) by zlia.
  rewrite fold16_mod by lia. done.
Qed.

(** C28: the checksums of UDP and TCP packets are those the protocols define.  For a chain of
    packet buffers of any lengths at any addresses (two bytes alone excepted, which must be at
    a multiple of 4), [inet_chksum_pseudo] ends without a misaligned access and returns the
    complement of the ones' complement sum of the 16-bit words of the pseudo header and the
    packet, whatever the unrolled loop, the swapped bytes behind odd lengths and addresses, and
    the carries do on the way.  A receiver accepts it: when the field of the checksum was 0, and
    the value is stored there, the checksum of the whole is 0. *)
Theorem inet_chksum_pseudo_correct m segs fuel p src dest proto len :
  chained m p segs -> (length segs <= fuel)%nat -> is_u8 proto -> is_u16 len ->
  let msg := pseudo_header m src dest proto len ++ gather m segs in
  inet_chksum_pseudo fuel p src dest proto len m = Ok (internet_checksum msg, m) /\
  forall l1 l2, msg = l1 ++ [0; 0] ++ l2 -> Nat.even (length l1) = true ->
    let c := internet_checksum msg in internet_checksum (l1 ++ [c mod 256; c / 256] ++ l2) = 0.
Proof.
  intros Hc Hf Hp Hl msg. set (data := gather m segs) in msg. assert (Hd : Forall is_u8 data) by apply gather_u8.
  pose proof (sum16_pos data Hd) as Pd. pose proof (load16_range m src). pose proof (load16_range m (src + 2)).
  pose proof (load16_range m dest). pose proof (load16_range m (dest + 2)). unwrap.
  assert (sum16 msg = load16 m src + load16 m (src + 2) + (load16 m dest + load16 m (dest + 2)) + 256 * proto +
    (len / 256 + 256 * (len mod 256)) + sum16 data) as Em.
  { unfold msg. rewrite sum16_even by done. unfold pseudo_header. rewrite !sum16_even by done.
    change (sum16 (load_bytes m src 4)) with (bsum m src 4). change (sum16 (load_bytes m dest 4)) with (bsum m dest 4).
    rewrite !bsum_4. change (sum16 [0; proto]) with (0 + 256 * proto + 0).
    change (sum16 [len / 256; len mod 256]) with (len / 256 + 256 * (len mod 256) + 0). lia. }
  assert (0 <= sum16 msg) as Pm by zlia.
  pose proof (fold16_range _ Pm) as Rm. unfold internet_checksum. split.
  - unfold inet_chksum_pseudo. pose proof (chain_sum_spec m segs p [] fuel Hc Hf ltac:(constructor)) as E.
    change (enc []) with (0, 0) in E. cbn [fst snd app] in E. rewrite (bind_ok _ _ m _ m E). fold data. clear E.
    pose proof (fold16_range _ Pd).
    assert ((let '(s1, s2) := enc data in if s2 =? 0 then s1 else swap_bytes s1) = fold16 (sum16 data)) as Es.
    { unfold enc. destruct (Nat.even (length data)); [done|]. change (1 =? 0) with false. cbv iota.
      rewrite swap_bytes_spec by (apply fold16_range; lia). rewrite fold16_256 by lia.
      replace (256 * (256 * sum16 data)) with (sum16 data + 65535 * sum16 data) by lia. apply fold16_mod; lia. }
    destruct (enc data) as [s1 s2]. rewrite Es.
    destruct (load32_halves m src) as [E1 E2], (load32_halves m dest) as [E3 E4].
    rewrite (bind_ok _ _ m (load32 m src) m), (bind_ok _ _ m (load32 m dest) m) by done. rewrite E1, E2, E3, E4.
    rewrite land_u8, (Z.mod_small proto 256), !htons_spec by lia. rewrite (Z.mod_small proto 256), (Z.div_small proto 256) by lia.
    unfold addu. rewrite !u32_add_l, (u32_id (fold16 (sum16 data) + load16 m src + load16 m (src + 2))), !u32_id by zlia.
    rewrite (bind_ok _ _ m (fold16 (sum16 msg)) m).
    + unfold ret. by rewrite complement.
    + unfold lift. rewrite fold_carries_spec by zlia. do 2 f_equal. rewrite Em.
      set (r := load16 m src + load16 m (src + 2) + (load16 m dest + load16 m (dest + 2)) + 256 * proto + (len / 256 + 256 * (len mod 256))).
      transitivity (fold16 (fold16 (sum16 data) + r)); [f_equal; subst r; lia|]. rewrite fold16_add by zlia. f_equal. lia.
  - intros l1 l2 Emsg Hl1. cbn zeta. fold (internet_checksum msg). rewrite Emsg. apply checksum_field; [|done]. rewrite <-Emsg.
    unfold msg, pseudo_header. repeat (apply Forall_app; split); try apply Forall_u8_load_bytes; [..|done];
      repeat constructor; unwrap; zlia.
Qed.

(** A packet of three bytes at an odd address and four bytes behind them. *)
Definition sample_packet : gmap Z Z :=
  store_bytes (store32 (store32 (store16 (store32 (store32 (store16 (store_bytes (store_bytes ∅ 0x301 [1; 2; 3]) 0x310 [4; 5; 6; 7])
    0x10a 3) 0x104 0x301) 0x100 0x200) 0x20a 4) 0x204 0x310) 0x200 0) 0x400 [192; 168; 0; 10; 192; 168; 0; 2].

Lemma inet_chksum_pseudo_correct_witness :
  inet_chksum_pseudo 2 0x100 0x400 0x404 17 7 sample_packet = Ok (0x7e6e, sample_packet).
Proof.
  destruct (inet_chksum_pseudo_correct sample_packet [(0x301, 3); (0x310, 4)] 2 0x100 0x400 0x404 17 7) as [H _].
  - cbn [chained]. repeat split; try (vm_compute; reflexivity); try (vm_compute; discriminate); by right.
  - cbn. lia.
  - by unfold is_u8.
  - by unfold is_u16.
  - rewrite H. vm_compute. reflexivity.
Defined.

(** ** Where the routines differ from the definition *)

(** Two bytes that do not start at a multiple of 4 are added as if both were lower bytes. *)
Lemma inet_chksum_two_bytes m a : 0 <= a -> a + 2 < 2 ^ 32 -> a mod 4 <> 0 ->
  inet_chksum a 2 m = Ok (65535 - (load8 m a + load8 m (a + 1)), m).
Proof.
  intros H0 Ha E4. unfold inet_chksum, ip_cksum. rewrite land_3, (proj2 (Z.eqb_neq _ _) E4).
  change (Z.land 2 0xffff) with 2. change (2 <? 3) with true. cbv iota.
  assert (forall b, 0 <= load8 m b < 256) as H8 by (intros b; apply u8_range). pose proof (H8 a). pose proof (H8 (a + 1)).
  assert (cksum_bytes (Z.to_nat 2) a 2 0 m = Ok (load8 m a + load8 m (a + 1), m)) as E.
  { change (Z.to_nat 2) with 2%nat. cbn [cksum_bytes]. change (2 <=? 0) with false. cbv iota. rewrite (bind_ok _ _ m (load8 m a) m) by done.
    change (2 - 1) with 1. change (1 <=? 0) with false. cbv iota. rewrite (addu_small a 1) by lia.
    rewrite (bind_ok _ _ m (load8 m (a + 1)) m) by done. rewrite !addu_small by (lia || (rewrite addu_small by lia; lia)). done. }
  rewrite (bind_ok _ _ m (fold16 (load8 m a + load8 m (a + 1))) m).
  - unfold lift. rewrite (fold16_small (load8 m a + load8 m (a + 1))) by lia. rewrite fold_carries_spec by lia.
    rewrite (bind_ok _ _ m _ m eq_refl), fold16_small by lia. unfold ret. by rewrite complement by lia.
  - rewrite (bind_ok _ _ m _ m E). unfold ret. by rewrite cksum_end_even by lia.
Qed.

(** [inet_chksum_pbuf] gives the checksum of a packet of odd length with its bytes swapped. *)
Lemma inet_chksum_pbuf_single m p a n : chained m p [(a, n)] ->
  let s := sum16 (load_bytes m a (Z.to_nat n)) in
  inet_chksum_pbuf 1 p m = Ok (65535 - fold16 (if Nat.even (Z.to_nat n) then s else 256 * s), m).
Proof.
  intros (Hp & Hp4 & Ea & En & Hs & Hc) s. cbn in Hc. unfold inet_chksum_pbuf. cbn [chain_sum].
  pose proof (bsum_pos m a n) as Ps. change (bsum m a n) with s in Ps. pose proof (fold16_range _ Ps).
  rewrite (bind_ok _ _ m (if Nat.even (Z.to_nat n) then (fold16 s, 0) else (fold16 s, 1)) m).
  { assert (0 <= n) as Hn by (destruct Hs; lia). rewrite <-even_land by done.
    destruct (Z.land n 1 =? 0); [unfold ret; cbn; by rewrite complement|].
    change (1 =? 0) with false. cbv iota beta zeta. unfold ret. do 2 f_equal.
    rewrite swap_bytes_spec, fold16_256 by lia. apply complement, fold16_range. lia. }
  rewrite (proj2 (Z.eqb_neq p 0)) by lia.
  rewrite (bind_ok _ _ m _ m (lw_aligned m (p + 4) ltac:(zlia))), Ea.
  rewrite (bind_ok _ _ m (load16 m (p + 10)) m) by (unfold lhu; rewrite (proj2 (Z.eqb_eq ((p + 10) mod 2) 0)) by zlia; done).
  rewrite En, (bind_ok _ _ m _ m (ip_cksum_spec m a n Hs)). change (bsum m a n) with s.
  rewrite addu_small by lia. rewrite Z.add_0_l.
  rewrite (bind_ok _ _ m (fold16 s) m) by (unfold lift; rewrite fold_carries_spec, fold16_small by lia; done).
  assert (0 <= n) as Hn by (destruct Hs; lia). rewrite <-even_land by done. change (Z.land (subu 1 0) 255) with 1.
  rewrite land_u16, Z.mod_small by lia.
  destruct (Z.land n 1 =? 0); rewrite (bind_ok _ _ m _ m (lw_aligned m p Hp4)), Hc; done.
Qed.
