(* ===== verification/IpFrag.v ===== *)
(** * Fragments of IP packets (iop/SMSTCPIP/ip_frag.c)

    One packet at a time is put together in a static buffer, with a bitmap of its units of 8
    bytes.  A packet buffer chain is the list of the payloads of its buffers, which come from
    the pool of pbuf.c. *)

From S2P Require Import Prelude Bytes Inet.
Local Open Scope ps2rd_scope.

Definition IP_HLEN : nat := 20.
Definition IP_MF : Z := 0x2000.
Definition IP_OFFMASK : Z := 0x1fff.
Definition IP_REASS_BUFSIZE : Z := 5760.
Definition IP_REASS_MAXAGE : Z := 30.
Definition IP_REASS_FLAG_LASTFRAG : Z := 0x01.
Definition bitmap_bits : list Z := [0xff; 0x7f; 0x3f; 0x1f; 0x0f; 0x07; 0x03; 0x01].

(** Fields of a header as they are in memory. *)
Definition IPH_HL (h : list Z) : Z := Z.land (Z.shiftr (htons (u16_at h 0)) 8) 0x0f.
Definition IPH_LEN (h : list Z) : Z := u16_at h 2.
Definition IPH_ID (h : list Z) : Z := u16_at h 4.
Definition IPH_OFFSET (h : list Z) : Z := u16_at h 6.
Definition IPH_SRC (h : list Z) : Z := u32_at h 12.
Definition IPH_DEST (h : list Z) : Z := u32_at h 16.

(** ** Packet buffers of the pool: pbuf.c *)

Definition PBUF_POOL_SIZE : nat := 5.
Definition PBUF_POOL_BUFSIZE : Z := 1540.
Definition PBUF_LINK_HLEN : Z := 14.

(** The tail of a chain for [rem_len] bytes from [free] buffers: the lengths of its buffers. *)
Fixpoint pool_tail (free : nat) (rem_len : Z) : option (list Z) :=
  if rem_len <=? 0 then Some []
  else match free with
       | O => None
       | S free' =>
           let len := if PBUF_POOL_BUFSIZE <? rem_len then PBUF_POOL_BUFSIZE else rem_len in
           cons len <$> pool_tail free' (rem_len - len)
       end.

Definition MEM_ALIGN_SIZE (size : Z) : Z := Z.land (size + 4 - 1) (Z.lnot (4 - 1)).

(** [pbuf_alloc (PBUF_LINK, length, PBUF_POOL)]: the lengths of the buffers, each with the room that is
    behind its payload pointer, and how many buffers are left; a chain that cannot be completed
    goes back to the pool.  The payload of the first buffer starts at the next multiple of 4
    behind the room for the link header. *)
Definition pbuf_alloc (free : nat) (length : Z) : option (list (Z * Z)) * nat :=
  match free with
  | O => (None, free)
  | S free' =>
      let len := if PBUF_POOL_BUFSIZE - PBUF_LINK_HLEN <? length then PBUF_POOL_BUFSIZE - PBUF_LINK_HLEN else length in
      match pool_tail free' (length - len) with
      | None => (None, free)
      | Some ls =>
          (Some ((len, PBUF_POOL_BUFSIZE - MEM_ALIGN_SIZE PBUF_LINK_HLEN) :: map (fun l => (l, PBUF_POOL_BUFSIZE)) ls),
           (free' - List.length ls)%nat)
      end
  end.

(** ** copy_from_pbuf *)

(** The bytes copied, the buffer the loop stops at, and the size of the last copy. *)
Fixpoint copy_loop (p : list (list Z)) (len l : nat) : res (list Z * list (list Z) * nat) :=
  match len with
  | O => Ok ([], p, l)
  | _ => match p with
         | [] => Err NullDeref
         | q :: p' =>
             let l := if (len <? length q)%nat then len else length q in
             let? '(bs, r, l') := copy_loop p' (len - l) l in
             Ok (take l q ++ bs, r, l')
         end
  end.

Definition copy_from_pbuf (p : list (list Z)) (offset len : nat) : res (list Z * list (list Z) * nat) :=
  match p with
  | [] => Err NullDeref
  | q :: p' => if (length q <? offset)%nat then Err OutOfBounds else copy_loop (drop offset q :: p') len 0
  end.

(** ** Reassembly *)

(** The static variables of the file, whether the alarm is set, and the number of free buffers
    of the pool. *)
Record reass : Type := Reass {
  ip_reassbuf : list Z;
  ip_reassbitmap : list Z;
  ip_reasslen : Z;
  ip_reassflags : Z;
  ip_reasstmr : Z;
  alarm : bool;
  pool_free : nat;
}.

Definition set_reassbuf (b : list Z) (s : reass) : reass :=
  Reass b (ip_reassbitmap s) (ip_reasslen s) (ip_reassflags s) (ip_reasstmr s) (alarm s) (pool_free s).
Definition set_bitmap (b : list Z) (s : reass) : reass :=
  Reass (ip_reassbuf s) b (ip_reasslen s) (ip_reassflags s) (ip_reasstmr s) (alarm s) (pool_free s).
Definition set_last (len flags : Z) (s : reass) : reass :=
  Reass (ip_reassbuf s) (ip_reassbitmap s) len flags (ip_reasstmr s) (alarm s) (pool_free s).
Definition set_timer (tmr : Z) (al : bool) (s : reass) : reass :=
  Reass (ip_reassbuf s) (ip_reassbitmap s) (ip_reasslen s) (ip_reassflags s) tmr al (pool_free s).
Definition set_pool (n : nat) (s : reass) : reass :=
  Reass (ip_reassbuf s) (ip_reassbitmap s) (ip_reasslen s) (ip_reassflags s) (ip_reasstmr s) (alarm s) n.

(** The callback of the alarm, which is set again unless the result is 0. *)
Definition ip_reass_timer (lo : Z) : M reass Z :=
  let* tmr := gets ip_reasstmr in
  if tmr =? 0 then modify (set_timer 0 false);; ret 0
  else modify (set_timer (tmr - 1) true);; ret lo.

(** Buffers with one reference go back to the pool. *)
Definition pbuf_free (p : list (list Z)) : M reass unit :=
  modify (fun s => set_pool (pool_free s + length p) s).

Definition nullreturn (p : list (list Z)) : M reass (option (list (list Z))) := pbuf_free p;; ret None.

Definition bits (k : Z) : Z := nth (Z.to_nat (Z.land k 7)) bitmap_bits 0.

(** [ip_reassbitmap[i] = f (ip_reassbitmap[i])] *)
Definition upd_bitmap (i : Z) (f : Z -> Z) : M reass unit := fun s =>
  match ip_reassbitmap s !! Z.to_nat i with
  | None => Err OutOfBounds
  | Some b => Ok (tt, set_bitmap (<[Z.to_nat i := u8 (f b)]> (ip_reassbitmap s)) s)
  end.

Fixpoint fill_bitmap (i : Z) (n : nat) : M reass unit :=
  match n with
  | O => ret tt
  | S n' => upd_bitmap i (fun _ => 0xff);; fill_bitmap (i + 1) n'
  end.

Definition update_bitmap (offset len : Z) : M reass unit :=
  if offset / (8 * 8) =? (offset + len) / (8 * 8) then
    upd_bitmap (offset / (8 * 8)) (fun b => Z.lor b (Z.land (bits (offset / 8)) (Z.lnot (bits ((offset + len) / 8)))))
  else
    upd_bitmap (offset / (8 * 8)) (fun b => Z.lor b (bits (offset / 8)));;
    fill_bitmap (1 + offset / (8 * 8)) (Z.to_nat ((offset + len) / (8 * 8) - (1 + offset / (8 * 8))));;
    upd_bitmap ((offset + len) / (8 * 8)) (fun b => Z.lor b (Z.lnot (bits ((offset + len) / 8)))).

(** Whether the bitmap says that the packet is complete. *)
Definition check_bitmap : M reass bool := fun s =>
  let n := ip_reasslen s / (8 * 8) in
  if negb (forallb (fun b => b =? 0xff) (take (Z.to_nat (n - 1)) (ip_reassbitmap s))) then Ok (false, s)
  else match ip_reassbitmap s !! Z.to_nat n with
       | None => Err OutOfBounds
       | Some b => Ok (b =? u8 (Z.lnot (bits (ip_reasslen s / 8))), s)
       end.

(** The copy of the buffer to a new chain; [i] is the position in the buffer. *)
Fixpoint fill_chain (buf : list Z) (len : Z) (i : Z) (qs : list (Z * Z)) : res (list (list Z)) :=
  match qs with
  | [] => Ok []
  | (l, room) :: qs' =>
      let n := if len - i <? l then len - i else l in
      if room <? n then Err OutOfBounds
      else
        let? rest := fill_chain buf len (i + l) qs' in
        Ok (splice (replicate (Z.to_nat l) 0) 0 (take (Z.to_nat n) (drop (Z.to_nat i) buf)) :: rest)
  end.

Section Reass.
(** The address of [ip_reassbuf]. *)
Context (reassbuf : Z).

(** The header is made that of a packet in one piece. *)
Definition finish_header : M reass unit :=
  modify (fun s => set_last (u16 (ip_reasslen s + Z.of_nat IP_HLEN)) (ip_reassflags s) s);;
  let* s := get in
  let buf := splice (ip_reassbuf s) 2 (le16 (htons (ip_reasslen s))) in
  let buf := splice buf 6 (le16 0) in
  let buf := splice buf 10 (le16 0) in
  let* sum := lift (match inet_chksum reassbuf (Z.of_nat IP_HLEN) (store_bytes ∅ reassbuf (take IP_HLEN buf)) with
                    | Ok (x, _) => Ok x
                    | Err f => Err f
                    end) in
  modify (set_reassbuf (splice buf 10 (le16 sum))).

(** A complete packet is copied to new buffers. *)
Definition deliver (p : list (list Z)) : M reass (option (list (list Z))) :=
  finish_header;;
  modify (set_timer 0 false);;
  pbuf_free p;;
  let* s := get in
  let '(q, free) := pbuf_alloc (pool_free s) (ip_reasslen s) in
  modify (set_pool free);;
  match q with
  | None => ret None
  | Some qs => let* chain := lift (fill_chain (ip_reassbuf s) (ip_reasslen s) 0 qs) in ret (Some chain)
  end.

Definition check_complete (p : list (list Z)) : M reass (option (list (list Z))) :=
  let* flags := gets ip_reassflags in
  if Z.land flags IP_REASS_FLAG_LASTFRAG =? 0 then nullreturn p
  else
    let* full := check_bitmap in
    if full then deliver p else nullreturn p.

(** A fragment of the packet in the buffer. *)
Definition add_fragment (p : list (list Z)) (fraghdr : list Z) : M reass (option (list (list Z))) :=
  let hlen := IPH_HL fraghdr * 4 in
  let len := u16 (htons (IPH_LEN fraghdr) - hlen) in
  let offset := u16 (Z.land (htons (IPH_OFFSET fraghdr)) IP_OFFMASK * 8) in
  if (IP_REASS_BUFSIZE <? offset) || (IP_REASS_BUFSIZE <? offset + len) then
    modify (set_timer 0 false);; nullreturn p
  else
    let* '(bs, _, _) := lift (copy_from_pbuf p (Z.to_nat hlen) (Z.to_nat len)) in
    modify (fun s => set_reassbuf (splice (ip_reassbuf s) (IP_HLEN + Z.to_nat offset) bs) s);;
    update_bitmap offset len;;
    (if Z.land (htons (IPH_OFFSET fraghdr)) IP_MF =? 0
     then modify (fun s => set_last (offset + len) (Z.lor (ip_reassflags s) IP_REASS_FLAG_LASTFRAG) s)
     else ret tt);;
    check_complete p.

Definition ip_reass (p : list (list Z)) : M reass (option (list (list Z))) :=
  match p with
  | [] => fail NullDeref
  | fraghdr :: _ =>
      if (length fraghdr <? IP_HLEN)%nat then fail OutOfBounds
      else
        let* tmr := gets ip_reasstmr in
        (if tmr =? 0 then
           modify (fun s => set_reassbuf (splice (ip_reassbuf s) 0 (take IP_HLEN fraghdr)) s);;
           modify (set_timer IP_REASS_MAXAGE true);;
           modify (fun s => set_last (ip_reasslen s) 0 s);;
           modify (fun s => set_bitmap (replicate (length (ip_reassbitmap s)) 0) s)
         else ret tt);;
        let* iphdr := gets ip_reassbuf in
        if (IPH_SRC iphdr =? IPH_SRC fraghdr) && (IPH_DEST iphdr =? IPH_DEST fraghdr) && (IPH_ID iphdr =? IPH_ID fraghdr)
        then add_fragment p fraghdr
        else nullreturn p
  end.

End Reass.

(** A packet arrives: the driver takes its buffers from the pool, and hands it to IP. *)
Definition packet_in (reassbuf : Z) (p : list (list Z)) : M reass (option (list (list Z))) :=
  modify (fun s => set_pool (pool_free s - length p) s);;
  ip_reass reassbuf p.

(** The clock of the alarm, and what happens to the module. *)
Definition s_Clock_lo : Z := 0x01194000.

Inductive event : Type :=
| Tick
| Arrives (p : list (list Z)).

Definition handle (reassbuf : Z) (e : event) : M reass (option (list (list Z))) :=
  match e with
  | Tick => let* on := gets alarm in (if on : bool then ip_reass_timer s_Clock_lo;; ret tt else ret tt);; ret None
  | Arrives p => packet_in reassbuf p
  end.

Fixpoint handle_all (reassbuf : Z) (es : list event) : M reass (list (option (list (list Z)))) :=
  match es with
  | [] => ret []
  | e :: es' => let* r := handle reassbuf e in let* rs := handle_all reassbuf es' in ret (r :: rs)
  end.

(** ** Fragmentation *)

(** [ip_frag]: the packets that are sent, with the static buffer [buf]; its three kinds of
    buffers are taken to be available. *)
Section Frag.
Context (mtu : Z) (rambuf : Z).

Definition hdr_sum (h : list Z) : res Z :=
  match inet_chksum rambuf (Z.of_nat IP_HLEN) (store_bytes ∅ rambuf (take IP_HLEN h)) with
  | Ok (x, _) => Ok x
  | Err f => Err f
  end.

Fixpoint frag_loop (fuel : nat) (p : list (list Z)) (poff : nat) (buf : list Z) (ofo omf nfb left : Z) : res (list (list Z)) :=
  if left =? 0 then Ok []
  else match fuel with
       | O => Err OutOfFuel
       | S fuel' =>
           let last := left <=? mtu - Z.of_nat IP_HLEN in
           let ofo := u16 (ofo + nfb) in
           let tmp := Z.lor omf (Z.land IP_OFFMASK ofo) in
           let tmp := if last then tmp else Z.lor tmp IP_MF in
           let buf := splice buf 6 (le16 (htons tmp)) in
           let nfb := (mtu - Z.of_nat IP_HLEN) / 8 in
           let cop := if last then left else nfb * 8 in
           let? '(bs, p, poff) := copy_from_pbuf p poff (Z.to_nat cop) in
           let buf := splice buf IP_HLEN bs in
           let buf := splice buf 2 (le16 (htons (cop + Z.of_nat IP_HLEN))) in
           let buf := splice buf 10 (le16 0) in
           let? sum := hdr_sum buf in
           let buf := splice buf 10 (le16 sum) in
           let size := if last then Z.min mtu (left + Z.of_nat IP_HLEN) else mtu in
           let? sent := frag_loop fuel' p poff buf ofo omf nfb (left - cop) in
           Ok (take (Z.to_nat size) buf :: sent)
       end.

Definition ip_frag (buf : list Z) (p : list (list Z)) : res (list (list Z)) :=
  match p with
  | [] => Err NullDeref
  | q :: _ =>
      let buf := splice buf 0 (take IP_HLEN q) in
      let tmp := htons (IPH_OFFSET buf) in
      let left := Z.of_nat (length (concat p)) - Z.of_nat IP_HLEN in
      frag_loop (Z.to_nat left) p IP_HLEN buf (Z.land tmp IP_OFFMASK) (Z.land tmp IP_MF) 0 left
  end.

End Frag.

(** ** Copies and buffers *)

Lemma copy_loop_spec p : forall len l, (len <= length (concat p))%nat ->
  exists r l', copy_loop p len l = Ok (take len (concat p), r, l').
Proof.
  induction p as [|q p IH]; intros len l H; cbn [concat length] in H.
  - assert (len = 0)%nat as -> by lia. by do 2 eexists.
  - destruct len as [|n]; [by do 2 eexists|]. cbn [copy_loop concat]. rewrite length_app in H.
    destruct (Nat.ltb_spec (S n) (length q)) as [Hlt|Hge].
    + rewrite Nat.sub_diag. destruct (IH 0%nat (S n)) as (r & l' & ->); [lia|]. cbn [rbind]. do 2 eexists.
      by rewrite take_0, app_nil_r, take_app_le by lia.
    + destruct (IH (S n - length q)%nat (length q)) as (r & l' & ->); [lia|]. cbn [rbind]. do 2 eexists.
      by rewrite take_ge, take_app_ge by lia.
Qed.

Lemma copy_from_pbuf_spec q p off len : (off <= length q)%nat -> (off + len <= length (concat (q :: p)))%nat ->
  exists r l, copy_from_pbuf (q :: p) off len = Ok (take len (drop off (concat (q :: p))), r, l).
Proof.
  intros Ho Hl. unfold copy_from_pbuf. destruct (Nat.ltb_spec (length q) off); [lia|]. cbn [concat] in Hl |- *. rewrite length_app in Hl.
  destruct (copy_loop_spec (drop off q :: p) len 0) as (r & l & E).
  { cbn [concat]. rewrite length_app, length_drop. lia. }
  exists r, l. rewrite E. cbn [concat]. by rewrite drop_app_le by done.
Qed.

Definition total (ls : list Z) : Z := foldr Z.add 0 ls.

Lemma total_cons l ls : total (l :: ls) = l + total ls.
Proof. done. Qed.

Lemma pool_tail_spec free : forall rem, 0 <= rem <= PBUF_POOL_BUFSIZE * Z.of_nat free ->
  exists ls, pool_tail free rem = Some ls /\ total ls = rem /\ Forall (fun l => 0 <= l) ls /\ (length ls <= free)%nat.
Proof.
  unfold PBUF_POOL_BUFSIZE. induction free as [|free IH]; intros rem H; cbn [pool_tail].
  { destruct (Z.leb_spec rem 0); [|lia]. exists []. cbn. split; [done|]. split; [lia|]. by split. }
  destruct (Z.leb_spec rem 0).
  { exists []. cbn. split; [done|]. split; [lia|]. split; [done|lia]. }
  unfold PBUF_POOL_BUFSIZE. destruct (Z.ltb_spec 1540 rem).
  - destruct (IH (rem - 1540)) as (ls & E & Ht & Hf & Hl); [lia|]. rewrite E. exists (1540 :: ls).
    split; [done|]. split; [rewrite total_cons; lia|]. split; [by constructor|cbn [length]; lia].
  - destruct (IH (rem - rem)) as (ls & E & Ht & Hf & Hl); [lia|]. rewrite E. exists (rem :: ls).
    split; [done|]. split; [rewrite total_cons; lia|]. split; [constructor; [lia|done]|cbn [length]; lia].
Qed.

(** Up to 1524 bytes fit the first buffer. *)
Lemma pbuf_alloc_small free len : (1 <= free)%nat -> 0 < len <= 1524 -> pbuf_alloc free len = (Some [(len, 1524)], (free - 1)%nat).
Proof.
  intros Hf Hl. destruct free as [|free]; [lia|]. unfold pbuf_alloc, PBUF_POOL_BUFSIZE, PBUF_LINK_HLEN.
  change (1540 - 14) with 1526. destruct (Z.ltb_spec 1526 len); [lia|]. rewrite Z.sub_diag.
  assert (pool_tail free 0 = Some []) as -> by by destruct free. done.
Qed.

(** Above that, [pbuf_alloc] gives the first buffer up to two bytes more than it has room for. *)
Lemma pbuf_alloc_large free len : (4 <= free)%nat -> 1524 < len <= 5780 ->
  exists l qs n, pbuf_alloc free len = (Some ((l, 1524) :: qs), n) /\ 1524 < l <= len.
Proof.
  intros Hf Hl. destruct free as [|free]; [lia|]. unfold pbuf_alloc, PBUF_POOL_BUFSIZE, PBUF_LINK_HLEN.
  change (1540 - 14) with 1526. change (1540 - MEM_ALIGN_SIZE 14) with 1524. destruct (Z.ltb_spec 1526 len).
  - destruct (pool_tail_spec free (len - 1526)) as (ls & -> & _); [unfold PBUF_POOL_BUFSIZE; lia|]. do 3 eexists. split; [reflexivity|lia].
  - destruct (pool_tail_spec free (len - len)) as (ls & -> & _); [unfold PBUF_POOL_BUFSIZE; lia|]. do 3 eexists. split; [reflexivity|lia].
Qed.

(** ** The bitmap *)

Definition bit (bm : list Z) (u : Z) : bool :=
  match bm !! Z.to_nat (u / 8) with Some b => Z.testbit b (7 - u mod 8) | None => false end.

Definition bm_ok (bm : list Z) : Prop := length bm = 90%nat /\ Forall is_u8 bm.

Lemma bits_spec k r : 0 <= k -> 0 <= r < 8 -> Z.testbit (bits k) (7 - r) = (k mod 8 <=? r).
Proof.
  intros Hk Hr. unfold bits. change 7 with (Z.ones 3) at 1. rewrite Z.land_ones by lia. change (2 ^ 3) with 8.
  assert (0 <= k mod 8 < 8) as Hm by zlia. generalize dependent (k mod 8). intros j Hm.
  assert (j = 0 \/ j = 1 \/ j = 2 \/ j = 3 \/ j = 4 \/ j = 5 \/ j = 6 \/ j = 7) as Hj by lia.
  assert (r = 0 \/ r = 1 \/ r = 2 \/ r = 3 \/ r = 4 \/ r = 5 \/ r = 6 \/ r = 7) as Hr' by lia.
  destruct Hj as [->|[->|[->|[->|[->|[->|[->| ->]]]]]]]; destruct Hr' as [->|[->|[->|[->|[->|[->|[->| ->]]]]]]]; reflexivity.
Qed.

Lemma testbit_u8 x j : 0 <= j < 8 -> Z.testbit (u8 x) j = Z.testbit x j.
Proof. intros H. unfold u8. apply Z.mod_pow2_bits_low; lia. Qed.

Lemma upd_bitmap_spec i f s : bm_ok (ip_reassbitmap s) -> 0 <= i < 90 ->
  exists b bm, ip_reassbitmap s !! Z.to_nat i = Some b /\ upd_bitmap i f s = Ok (tt, set_bitmap bm s) /\ bm_ok bm /\
    forall u, 0 <= u -> bit bm u = if u / 8 =? i then Z.testbit (f b) (7 - u mod 8) else bit (ip_reassbitmap s) u.
Proof.
  intros [Hl Hb] Hi. destruct (lookup_lt_is_Some_2 (ip_reassbitmap s) (Z.to_nat i)) as [b E]; [lia|].
  exists b, (<[Z.to_nat i := u8 (f b)]> (ip_reassbitmap s)). split; [done|]. split; [unfold upd_bitmap; by rewrite E|]. split.
  - split; [by rewrite length_insert|]. apply Forall_insert; [done|]. apply u8_range.
  - intros u Hu. unfold bit. destruct (Z.eqb_spec (u / 8) i) as [->|Hn].
    + rewrite list_lookup_insert_eq by lia. apply testbit_u8. zlia.
    + rewrite list_lookup_insert_ne; [done|]. zlia.
Qed.

Lemma fill_bitmap_spec n : forall i s, bm_ok (ip_reassbitmap s) -> 0 <= i -> i + Z.of_nat n <= 90 ->
  exists bm, fill_bitmap i n s = Ok (tt, set_bitmap bm s) /\ bm_ok bm /\
    forall u, 0 <= u -> bit bm u = bit (ip_reassbitmap s) u || ((i <=? u / 8) && (u / 8 <? i + Z.of_nat n)).
Proof.
  induction n as [|n IH]; intros i s Hb Hi Hn.
  - exists (ip_reassbitmap s). split; [by destruct s|]. split; [done|]. intros u Hu.
    destruct (Z.leb_spec i (u / 8)), (Z.ltb_spec (u / 8) (i + Z.of_nat 0)); try lia; by rewrite orb_false_r.
  - cbn [fill_bitmap]. destruct (upd_bitmap_spec i (fun _ => 0xff) s Hb ltac:(lia)) as (b & bm & _ & E & Hb1 & Hu1).
    rewrite (bind_ok _ _ _ _ _ E). destruct (IH (i + 1) (set_bitmap bm s) Hb1 ltac:(lia) ltac:(lia)) as (bm2 & E2 & Hb2 & Hu2).
    exists bm2. split; [exact E2|]. split; [done|]. intros u Hu. rewrite Hu2 by done. cbn [set_bitmap ip_reassbitmap]. rewrite Hu1 by done.
    assert (Z.testbit 255 (7 - u mod 8) = true) as Ht by (apply (Z.ones_spec_low 8); zlia).
    destruct (Z.eqb_spec (u / 8) i), (Z.leb_spec i (u / 8)), (Z.leb_spec (i + 1) (u / 8)),
      (Z.ltb_spec (u / 8) (i + Z.of_nat (S n))), (Z.ltb_spec (u / 8) (i + 1 + Z.of_nat n)); try lia; try rewrite Ht;
      cbn [andb orb]; rewrite ?orb_true_r, ?orb_false_r; done.
Qed.

Lemma bit_lor bm b k u : bm !! Z.to_nat (u / 8) = Some b ->
  Z.testbit (Z.lor b k) (7 - u mod 8) = bit bm u || Z.testbit k (7 - u mod 8).
Proof. intros E. unfold bit. by rewrite E, Z.lor_spec. Qed.

(** A fragment marks its units of 8 bytes. *)
Lemma update_bitmap_spec off len s : bm_ok (ip_reassbitmap s) -> 0 <= off -> 0 <= len -> off mod 8 = 0 -> off + len < IP_REASS_BUFSIZE ->
  exists bm, update_bitmap off len s = Ok (tt, set_bitmap bm s) /\ bm_ok bm /\
    forall u, 0 <= u -> bit bm u = bit (ip_reassbitmap s) u || ((off / 8 <=? u) && (u <? (off + len) / 8)).
Proof.
  unfold IP_REASS_BUFSIZE. intros Hb Ho Hl Hm Ht. unfold update_bitmap. change (8 * 8) with 64. set (e := off + len) in *.
  assert (forall u, 0 <= u -> Z.testbit (bits (off / 8)) (7 - u mod 8) = ((off / 8) mod 8 <=? u mod 8)) as B1.
  { intros u Hu. apply bits_spec; zlia. }
  assert (forall u, 0 <= u -> Z.testbit (Z.lnot (bits (e / 8))) (7 - u mod 8) = negb ((e / 8) mod 8 <=? u mod 8)) as B2.
  { intros u Hu. rewrite Z.lnot_spec by zlia. f_equal. apply bits_spec; zlia. }
  destruct (Z.eqb_spec (off / 64) (e / 64)) as [He|He].
  - edestruct (upd_bitmap_spec (off / 64)) as (b & bm & Eb & E & Hb1 & Hu1); [exact Hb|zlia|]. exists bm.
    split; [exact E|]. split; [done|]. intros u Hu. rewrite Hu1 by done. destruct (Z.eqb_spec (u / 8) (off / 64)) as [Eu|Nu].
    + rewrite <-Eu in Eb. rewrite (bit_lor _ _ _ _ Eb), Z.land_spec, B1, B2 by done. f_equal.
      apply eq_true_iff_eq. rewrite !andb_true_iff, negb_true_iff, !Z.leb_le, Z.leb_gt, Z.ltb_lt. zlia.
    + symmetry. assert ((off / 8 <=? u) && (u <? e / 8) = false) as ->; [|apply orb_false_r].
      apply not_true_iff_false. rewrite andb_true_iff, Z.leb_le, Z.ltb_lt. zlia.
  - edestruct (upd_bitmap_spec (off / 64)) as (b & bm & Eb & E & Hb1 & Hu1); [exact Hb|zlia|].
    rewrite (bind_ok _ _ _ _ _ E). set (s1 := set_bitmap bm s) in *.
    destruct (fill_bitmap_spec (Z.to_nat (e / 64 - (1 + off / 64))) (1 + off / 64) s1 Hb1 ltac:(zlia) ltac:(zlia)) as (bm2 & E2 & Hb2 & Hu2).
    rewrite (bind_ok _ _ _ _ _ E2). set (s2 := set_bitmap bm2 s1) in *.
    destruct (upd_bitmap_spec (e / 64) (fun b => Z.lor b (Z.lnot (bits (e / 8)))) s2 Hb2 ltac:(zlia)) as (b3 & bm3 & Eb3 & E3 & Hb3 & Hu3).
    exists bm3.
    split; [exact E3|]. split; [done|]. intros u Hu. rewrite Hu3 by done.
    assert (bit bm2 u = (if u / 8 =? off / 64 then bit (ip_reassbitmap s) u || ((off / 8) mod 8 <=? u mod 8) else bit (ip_reassbitmap s) u)
      || ((1 + off / 64 <=? u / 8) && (u / 8 <? e / 64))) as Eu2.
    { rewrite Hu2 by done. cbn [s1 set_bitmap ip_reassbitmap]. rewrite Hu1 by done. f_equal; [|f_equal; f_equal; zlia].
      destruct (Z.eqb_spec (u / 8) (off / 64)) as [Eu|]; [|done]. rewrite <-Eu in Eb. by rewrite (bit_lor _ _ _ _ Eb), B1. }
    destruct (Z.eqb_spec (u / 8) (e / 64)) as [Eu|Nu].
    + rewrite <-Eu in Eb3. rewrite (bit_lor _ _ _ _ Eb3), B2 by done. cbn [s2 set_bitmap ip_reassbitmap]. rewrite Eu2.
      destruct (Z.eqb_spec (u / 8) (off / 64)); [lia|]. rewrite <-!orb_assoc. f_equal.
      apply eq_true_iff_eq. rewrite orb_true_iff, !andb_true_iff, negb_true_iff, !Z.leb_le, Z.leb_gt, !Z.ltb_lt. zlia.
    + cbn [s2 set_bitmap ip_reassbitmap]. rewrite Eu2. destruct (Z.eqb_spec (u / 8) (off / 64)); rewrite <-?orb_assoc; f_equal;
      apply eq_true_iff_eq; rewrite ?orb_true_iff, !andb_true_iff, !Z.leb_le, !Z.ltb_lt; zlia.
Qed.

Lemma byte_eq b c : is_u8 b -> is_u8 c -> (forall r, 0 <= r < 8 -> Z.testbit b (7 - r) = Z.testbit c (7 - r)) -> b = c.
Proof.
  intros Hb Hc H. rewrite <-(u8_id b Hb), <-(u8_id c Hc). apply Z.bits_inj'. intros j Hj. unfold u8.
  destruct (Z.ltb_spec j 8); [|by rewrite !Z.mod_pow2_bits_high by lia].
  rewrite !Z.mod_pow2_bits_low by lia. replace j with (7 - (7 - j)) by lia. apply H. lia.
Qed.

Lemma bit_byte bm i b r : bm !! Z.to_nat i = Some b -> 0 <= i -> 0 <= r < 8 -> bit bm (8 * i + r) = Z.testbit b (7 - r).
Proof.
  intros E Hi Hr. unfold bit. replace ((8 * i + r) / 8) with i by zlia. rewrite E. f_equal. zlia.
Qed.

(** What is checked: every byte of the bitmap but the one before the last, and in the last byte
    the units of the packet and no others. *)
Lemma check_bitmap_spec s : bm_ok (ip_reassbitmap s) -> 0 <= ip_reasslen s < IP_REASS_BUFSIZE ->
  exists full, check_bitmap s = Ok (full, s) /\
    let n := ip_reasslen s / 64 in
    (full = true <-> (forall u, 0 <= u < 8 * (n - 1) -> bit (ip_reassbitmap s) u = true) /\
                     (forall u, 8 * n <= u < 8 * n + 8 -> bit (ip_reassbitmap s) u = (u <? ip_reasslen s / 8))).
Proof.
  unfold IP_REASS_BUFSIZE. intros [Hl Hb] Hr. unfold check_bitmap. change (8 * 8) with 64. cbn zeta.
  set (len := ip_reasslen s) in *. set (bm := ip_reassbitmap s) in *. set (n := len / 64). assert (0 <= n < 90) as Hn by (subst n; zlia).
  assert (forall i, 0 <= i < n - 1 -> exists b, bm !! Z.to_nat i = Some b /\ take (Z.to_nat (n - 1)) bm !! Z.to_nat i = Some b) as Hi.
  { intros i Hi. destruct (lookup_lt_is_Some_2 bm (Z.to_nat i)) as [b E]; [lia|]. exists b. split; [done|].
    rewrite lookup_take_lt; [done|]. lia. }
  assert (forallb (fun b => b =? 0xff) (take (Z.to_nat (n - 1)) bm) = true <-> forall u, 0 <= u < 8 * (n - 1) -> bit bm u = true) as Hf.
  { rewrite forallb_forall. split.
    - intros H u Hu. destruct (Hi (u / 8)) as (b & E & Et); [zlia|].
      assert (b = 0xff) as ->. { apply Z.eqb_eq, H. apply list_elem_of_In. by eapply list_elem_of_lookup_2. }
      replace u with (8 * (u / 8) + u mod 8) by zlia. rewrite (bit_byte bm _ _ _ E) by zlia. apply (Z.ones_spec_low 8). zlia.
    - intros H b Hin. apply list_elem_of_In in Hin. apply list_elem_of_lookup in Hin as [i Ei].
      assert (i < Z.to_nat (n - 1))%nat as Hin. { apply lookup_lt_Some in Ei. rewrite length_take in Ei. lia. }
      rewrite lookup_take_lt in Ei by done. apply Z.eqb_eq. apply byte_eq; [by eapply Forall_lookup_1|done|].
      intros r Hr'. rewrite <-(bit_byte bm (Z.of_nat i) b r) by (rewrite ?Nat2Z.id; done || lia).
      rewrite H by lia. symmetry. apply (Z.ones_spec_low 8). lia. }
  destruct (forallb _ _) eqn:Ef; cbn [negb].
  - destruct (lookup_lt_is_Some_2 bm (Z.to_nat n)) as [b E]; [lia|]. rewrite E. eexists. split; [reflexivity|].
    rewrite Z.eqb_eq.
    assert (forall r, 0 <= r < 8 -> Z.testbit (u8 (Z.lnot (bits (len / 8)))) (7 - r) = (8 * n + r <? len / 8)) as Ht.
    { intros r Hr'. rewrite testbit_u8, Z.lnot_spec, bits_spec by zlia. apply eq_true_iff_eq.
      rewrite negb_true_iff, Z.leb_gt, Z.ltb_lt. subst n. zlia. }
    split.
    + intros ->. split; [by apply Hf|]. intros u Hu. replace u with (8 * n + (u - 8 * n)) by lia.
      rewrite (bit_byte bm n _ _ E) by lia. by rewrite Ht by lia.
    + intros [_ H]. apply byte_eq; [by eapply Forall_lookup_1|apply u8_range|]. intros r Hr'.
      rewrite Ht, <-(bit_byte bm n b r E) by lia. apply H. lia.
  - exists false. split; [done|]. split; [done|]. intros [H _]. apply Hf in H. congruence.
Qed.

Lemma take_splice_take l off bs n : (n <= off)%nat -> (off <= length l)%nat -> take n (splice l off bs) = take n l.
Proof. intros H1 H2. unfold splice. rewrite take_app_le by (rewrite length_take; lia). rewrite take_take. f_equal. lia. Qed.

(** ** Fragments of a packet *)

(** A fragment: its buffers, and the part of the packet it carries. *)
Record fragment : Type := Fragment {
  f_chain : list (list Z);
  f_off : Z;
  f_len : Z;
}.

Definition f_hdr (f : fragment) : list Z := hd [] (f_chain f).

Section Packet.
(** The data of the packet, and the source, destination and id of its fragments. *)
Context (d : list Z) (key : Z * Z * Z).

Notation size := (Z.of_nat (length d)).

Record frag_of (f : fragment) : Prop := {
  fr_bytes : Forall is_u8 (concat (f_chain f));
  fr_hdr : (IP_HLEN <= Z.to_nat (IPH_HL (f_hdr f) * 4) <= length (f_hdr f))%nat;
  fr_key : (IPH_SRC (f_hdr f), IPH_DEST (f_hdr f), IPH_ID (f_hdr f)) = key;
  fr_range : 0 <= f_off f /\ 0 <= f_len f /\ f_off f + f_len f <= size;
  fr_off : Z.land (htons (IPH_OFFSET (f_hdr f))) IP_OFFMASK * 8 = f_off f;
  fr_len : htons (IPH_LEN (f_hdr f)) = IPH_HL (f_hdr f) * 4 + f_len f;
  fr_more : Z.land (htons (IPH_OFFSET (f_hdr f))) IP_MF = 0 <-> f_off f + f_len f = size;
  fr_units : f_off f + f_len f < size -> f_len f mod 8 = 0;
  fr_data : (Z.to_nat (IPH_HL (f_hdr f) * 4 + f_len f) <= length (concat (f_chain f)))%nat /\
    take (Z.to_nat (f_len f)) (drop (Z.to_nat (IPH_HL (f_hdr f) * 4)) (concat (f_chain f))) =
    take (Z.to_nat (f_len f)) (drop (Z.to_nat (f_off f)) d);
}.

(** Fragment [f] brings byte [i], a unit of 8 bytes, the end of the packet. *)
Definition brings (i : Z) (f : fragment) : Prop := f_off f <= i < f_off f + f_len f.
Definition has_unit (u : Z) (f : fragment) : Prop := f_off f <= 8 * u /\ 8 * u + 8 <= f_off f + f_len f.
Definition is_last (f : fragment) : Prop := f_off f + f_len f = size.

(** What the code takes for a complete packet: the last fragment and every unit are there, but
    for the units of the byte before the last of the bitmap. *)
Definition counts_complete (fs : list fragment) : Prop :=
  Exists is_last fs /\ forall u, 0 <= u < size / 8 -> u / 8 <> size / 64 - 1 -> Exists (has_unit u) fs.

Definition complete (fs : list fragment) : Prop :=
  Exists is_last fs /\ forall u, 0 <= u < size / 8 -> Exists (has_unit u) fs.

(** The state with the fragments [fs] of a packet whose first header was [h]. *)
Record holds (h : list Z) (fs : list fragment) (s : reass) : Prop := {
  h_len : Z.of_nat (length (ip_reassbuf s)) = 5780;
  h_u8 : Forall is_u8 (ip_reassbuf s);
  h_hdr : take IP_HLEN (ip_reassbuf s) = h;
  h_bm : bm_ok (ip_reassbitmap s);
  h_bits : forall u, 0 <= u -> bit (ip_reassbitmap s) u = true <-> Exists (has_unit u) fs;
  h_flags : ip_reassflags s = 0 /\ ~ Exists is_last fs \/ ip_reassflags s = 1 /\ Exists is_last fs /\ ip_reasslen s = size;
  h_data : forall i, 0 <= i -> Exists (brings i) fs -> ip_reassbuf s !! Z.to_nat (20 + i) = d !! Z.to_nat i;
}.

(** No packet in the buffer. *)
Definition idle (s : reass) : Prop :=
  Z.of_nat (length (ip_reassbuf s)) = 5780 /\ Forall is_u8 (ip_reassbuf s) /\ bm_ok (ip_reassbitmap s) /\ ip_reasstmr s = 0.

Definition holding (fs : list fragment) (s : reass) : Prop :=
  match fs with
  | [] => idle s
  | f :: _ => holds (take IP_HLEN (f_hdr f)) fs s /\ 0 < ip_reasstmr s
  end.

Context (reassbuf : Z).

Lemma check_complete_spec h fs p s : holds h fs s -> Forall frag_of fs -> size < IP_REASS_BUFSIZE ->
  (counts_complete fs /\ ip_reasslen s = size /\ check_complete reassbuf p s = deliver reassbuf p s) \/
  (~ counts_complete fs /\ check_complete reassbuf p s = nullreturn p s).
Proof.
  intros H Hfs Hs. unfold check_complete. rewrite (bind_ok _ _ _ _ _ eq_refl).
  destruct (h_flags _ _ _ H) as [[-> Hn]|(-> & Hl & El)].
  - right. split; [by intros [? _]|]. done.
  - change (Z.land 1 IP_REASS_FLAG_LASTFRAG =? 0) with false. cbv iota.
    destruct (check_bitmap_spec s (h_bm _ _ _ H)) as (full & E & Hc); [lia|]. rewrite (bind_ok _ _ _ _ _ E). cbn zeta in Hc. rewrite El in Hc.
    assert (forall u, 0 <= u -> Exists (has_unit u) fs -> u < size / 8) as Hlt.
    { intros u Hu [f [Hf Hx]]%Exists_exists. rewrite Forall_forall in Hfs. destruct (fr_range _ (Hfs f Hf)), Hx. zlia. }
    assert (full = true <-> counts_complete fs) as Hfc.
    { rewrite Hc. split.
      - intros [H1 H2]. split; [done|]. intros u Hu Hne. apply (h_bits _ _ _ H); [lia|].
        destruct (Z.ltb_spec u (8 * (size / 64 - 1))); [apply H1; lia|]. rewrite H2 by zlia. apply Z.ltb_lt. lia.
      - intros [_ H2]. split.
        + intros u Hu. apply (h_bits _ _ _ H); [lia|]. apply H2; zlia.
        + intros u Hu. apply eq_true_iff_eq. rewrite Z.ltb_lt, (h_bits _ _ _ H) by zlia. split; [apply Hlt; zlia|].
          intros Hu2. apply H2; zlia. }
    destruct full.
    + left. split; [by apply Hfc|]. by split.
    + right. split; [|done]. intros Hcc. apply Hfc in Hcc. done.
Qed.

Lemma f_chain_hdr f : frag_of f -> exists r, f_chain f = f_hdr f :: r.
Proof.
  intros H. pose proof (fr_hdr _ H) as [H1 H2]. unfold f_hdr in *. destruct (f_chain f) as [|q r]; [|by exists r].
  cbn [hd length] in *. unfold IP_HLEN in H1. lia.
Qed.

Lemma exists_snoc {A} (P : A -> Prop) l x : Exists P (l ++ [x]) <-> Exists P l \/ P x.
Proof. rewrite Exists_app, Exists_cons, Exists_nil. tauto. Qed.

(** A fragment is stored and marked. *)
Lemma add_fragment_spec h fs f s : holds h fs s -> Forall frag_of fs -> frag_of f -> size < IP_REASS_BUFSIZE ->
  exists s1, holds h (fs ++ [f]) s1 /\ pool_free s1 = pool_free s /\ ip_reasstmr s1 = ip_reasstmr s /\ alarm s1 = alarm s /\
    add_fragment reassbuf (f_chain f) (f_hdr f) s = check_complete reassbuf (f_chain f) s1.
Proof.
  intros H Hfs Hf Hs. unfold IP_REASS_BUFSIZE in Hs. pose proof (fr_hdr _ Hf) as Hh. pose proof (fr_range _ Hf) as (Ho & Hn & Ht).
  destruct (f_chain_hdr f Hf) as [r Er]. destruct (fr_data _ Hf) as [Hd1 Hd2]. unfold IP_HLEN in Hh.
  pose proof (fr_off _ Hf) as Eo. assert (f_off f mod 8 = 0) as Hm by (rewrite <-Eo; zlia).
  unfold add_fragment. cbn zeta. rewrite (fr_len _ Hf), Eo.
  replace (IPH_HL (f_hdr f) * 4 + f_len f - IPH_HL (f_hdr f) * 4) with (f_len f) by lia. rewrite !u16_id by lia.
  destruct (Z.ltb_spec IP_REASS_BUFSIZE (f_off f)); [unfold IP_REASS_BUFSIZE in *; lia|].
  destruct (Z.ltb_spec IP_REASS_BUFSIZE (f_off f + f_len f)); [unfold IP_REASS_BUFSIZE in *; lia|]. cbn [orb].
  destruct (copy_from_pbuf_spec (f_hdr f) r (Z.to_nat (IPH_HL (f_hdr f) * 4)) (Z.to_nat (f_len f))) as (r' & l' & Ec); [lia|rewrite <-Er; lia|].
  rewrite <-Er in Ec. rewrite Hd2 in Ec. set (data := take (Z.to_nat (f_len f)) (drop (Z.to_nat (f_off f)) d)) in Ec.
  assert (length data = Z.to_nat (f_len f)) as Ld by (subst data; rewrite length_take, length_drop; lia).
  rewrite (bind_ok _ _ s (data, r', l') s) by (unfold lift; by rewrite Ec). rewrite (bind_ok _ _ _ _ _ eq_refl).
  set (b1 := splice (ip_reassbuf s) (IP_HLEN + Z.to_nat (f_off f)) data). set (s1 := set_reassbuf b1 s).
  pose proof (h_len _ _ _ H) as Hlen.
  destruct (update_bitmap_spec (f_off f) (f_len f) s1 (h_bm _ _ _ H) Ho Hn Hm) as (bm & Eb & Hbm & Hu); [unfold IP_REASS_BUFSIZE; lia|].
  rewrite (bind_ok _ _ _ _ _ Eb). set (s2 := set_bitmap bm s1).
  assert (Hb1 : forall i, b1 !! i = if decide (20 + Z.to_nat (f_off f) <= i < 20 + Z.to_nat (f_off f) + length data)%nat
    then data !! (i - (20 + Z.to_nat (f_off f)))%nat else ip_reassbuf s !! i).
  { intros i. apply lookup_splice. unfold IP_HLEN. lia. }
  assert (holds_but : forall s3, ip_reassbuf s3 = b1 -> ip_reassbitmap s3 = bm ->
    (ip_reassflags s3 = 0 /\ ~ Exists is_last (fs ++ [f]) \/ ip_reassflags s3 = 1 /\ Exists is_last (fs ++ [f]) /\ ip_reasslen s3 = size) ->
    holds h (fs ++ [f]) s3).
  { intros s3 E1 E2 E3. split; rewrite ?E1, ?E2.
    - unfold b1. rewrite length_splice by (unfold IP_HLEN; lia). done.
    - unfold b1, splice. apply Forall_app. split; [apply Forall_take, H|]. apply Forall_app. split; [|apply Forall_drop, H].
      unfold data; rewrite <-Hd2. apply Forall_take, Forall_drop, Hf.
    - rewrite <-(h_hdr _ _ _ H). unfold b1. rewrite take_splice_take by (unfold IP_HLEN; lia). done.
    - done.
    - intros u Hu0. rewrite Hu, orb_true_iff, andb_true_iff, Z.leb_le, Z.ltb_lt, exists_snoc by done.
      cbn [s1 set_reassbuf ip_reassbitmap]. rewrite (h_bits _ _ _ H) by done. unfold has_unit. split; (intros [?|?]; [by left|right; zlia]).
    - done.
    - intros i Hi Hx. rewrite Hb1. case_decide as Hin.
      + subst data. rewrite lookup_take_lt, lookup_drop by lia. f_equal. lia.
      + apply exists_snoc in Hx as [Hx|Hx]; [by apply (h_data _ _ _ H)|]. unfold brings in Hx. lia. }
  destruct (Z.eqb_spec (Z.land (htons (IPH_OFFSET (f_hdr f))) IP_MF) 0) as [Em|Em].
  - apply (fr_more _ Hf) in Em. rewrite (bind_ok _ _ _ _ _ eq_refl). exists (set_last (f_off f + f_len f) (Z.lor (ip_reassflags s2) IP_REASS_FLAG_LASTFRAG) s2).
    split; [apply holds_but; [done|done|]|repeat (split; [reflexivity|]); reflexivity].
    right. cbn [set_last ip_reassflags ip_reasslen s2 s1 set_bitmap set_reassbuf]. split; [|split; [apply exists_snoc; by right|done]].
    by destruct (h_flags _ _ _ H) as [[-> _]|[-> _]].
  - rewrite (bind_ok _ _ _ tt s2) by done. exists s2. split; [apply holds_but; [done|done|]|repeat (split; [reflexivity|]); reflexivity].
    cbn [ip_reassflags ip_reasslen s2 s1 set_bitmap set_reassbuf]. rewrite exists_snoc.
    assert (~ is_last f) as Hnl by (intros E; by apply Em, (fr_more _ Hf)).
    destruct (h_flags _ _ _ H) as [[-> ?]|(-> & ? & ?)]; [left; tauto|right; tauto].
Qed.

(** The header of the packet that is delivered, from that of the fragment that came first. *)
Definition zero_sum (h : list Z) : list Z :=
  splice (splice (splice h 2 (le16 (htons (size + 20)))) 6 (le16 0)) 10 (le16 0).
Definition packet_header (h : list Z) : list Z :=
  splice (zero_sum h) 10 (le16 (internet_checksum (zero_sum h))).

Lemma splice_app_l l1 l2 k bs : (k + length bs <= length l1)%nat -> splice (l1 ++ l2) k bs = splice l1 k bs ++ l2.
Proof. intros H. unfold splice. rewrite take_app_le, drop_app_le by lia. by rewrite <-!app_assoc. Qed.

Lemma zero_sum_app h : length h = IP_HLEN ->
  zero_sum h = take 10 (zero_sum h) ++ [0; 0] ++ drop 12 (zero_sum h) /\ length (zero_sum h) = IP_HLEN.
Proof.
  unfold IP_HLEN. intros H. set (g := splice (splice h 2 (le16 (htons (size + 20)))) 6 (le16 0)).
  assert (length g = 20)%nat as Hg by (unfold g; rewrite !length_splice; rewrite ?length_splice; cbn; lia).
  assert (zero_sum h = take 10 g ++ [0; 0] ++ drop 12 g) as E by done. split.
  - rewrite E. assert (length (take 10 g) = 10)%nat as HA by (rewrite length_take; lia). set (l := take 10 g) in *. clearbody l.
    rewrite (take_app_length' l) by done. rewrite (drop_app_ge l) by lia. by rewrite HA.
  - unfold zero_sum. fold g. rewrite length_splice; cbn; lia.
Qed.

Lemma u8_le16 x : Forall is_u8 (le16 x).
Proof. repeat constructor; apply u8_range. Qed.

Lemma Forall_splice (P : Z -> Prop) l k bs : Forall P l -> Forall P bs -> Forall P (splice l k bs).
Proof. intros H1 H2. unfold splice. apply Forall_app. split; [by apply Forall_take|]. apply Forall_app. split; [done|by apply Forall_drop]. Qed.

Lemma zero_sum_u8 h : Forall is_u8 h -> Forall is_u8 (zero_sum h).
Proof. intros H. repeat (apply Forall_splice; [|apply u8_le16]). done. Qed.

Lemma checksum_range l : Forall is_u8 l -> 0 <= internet_checksum l <= 65535.
Proof. intros H. unfold internet_checksum. pose proof (fold16_range _ (sum16_pos l H)). lia. Qed.

(** Its checksum is right. *)
Lemma packet_header_sum h : Forall is_u8 h -> length h = IP_HLEN -> internet_checksum (packet_header h) = 0.
Proof.
  intros Hu Hl. destruct (zero_sum_app h Hl) as [E Hz]. pose proof (zero_sum_u8 h Hu) as Hu2. pose proof (checksum_range _ Hu2) as Hr.
  unfold packet_header. unfold splice. set (z := zero_sum h) in *.
  assert (le16 (internet_checksum z) = [internet_checksum z mod 256; internet_checksum z / 256]) as -> by (unfold le16; do 2 f_equal; zlia).
  cbn [length]. change (10 + 2)%nat with 12%nat. rewrite E at 2 3. apply checksum_field; [by rewrite <-E|].
  rewrite length_take, Hz. done.
Qed.

Context (Haddr : 0 <= reassbuf /\ reassbuf + 20 < 2 ^ 32).

Lemma finish_header_spec h fs s : holds h fs s -> ip_reasslen s = size -> size < IP_REASS_BUFSIZE ->
  finish_header reassbuf s = Ok (tt, set_reassbuf (packet_header h ++ drop IP_HLEN (ip_reassbuf s)) (set_last (size + 20) (ip_reassflags s) s)) /\
  length (packet_header h) = IP_HLEN /\ Forall is_u8 (packet_header h).
Proof using Haddr.
  unfold IP_REASS_BUFSIZE. intros H El Hs. unfold finish_header. rewrite (bind_ok _ _ _ _ _ eq_refl), (bind_ok _ _ _ _ _ eq_refl).
  pose proof (h_len _ _ _ H) as Hlen. pose proof (h_hdr _ _ _ H) as Hh. pose proof (h_u8 _ _ _ H) as Hu.
  assert (length h = IP_HLEN) as Lh by (rewrite <-Hh, length_take; unfold IP_HLEN; lia).
  set (t := drop IP_HLEN (ip_reassbuf s)). assert (ip_reassbuf s = h ++ t) as Eb by (rewrite <-Hh; symmetry; apply take_drop).
  assert (Forall is_u8 h) as Hu8 by (rewrite <-Hh; by apply Forall_take).
  cbn [set_last ip_reasslen ip_reassbuf]. rewrite El. change (Z.of_nat IP_HLEN) with 20. rewrite u16_id by lia. rewrite Eb.
  destruct (zero_sum_app h Lh) as [_ Lz].
  assert (splice (splice (splice (h ++ t) 2 (le16 (htons (size + 20)))) 6 (le16 0)) 10 (le16 0) = zero_sum h ++ t) as ->.
  { unfold zero_sum. unfold IP_HLEN in Lh. rewrite !splice_app_l; [done|..]; rewrite ?length_splice; rewrite ?length_splice; cbn; lia. }
  rewrite take_app_length' by done.
  assert (inet_chksum reassbuf 20 (store_bytes ∅ reassbuf (zero_sum h)) =
    Ok (internet_checksum (zero_sum h), store_bytes ∅ reassbuf (zero_sum h))) as ->.
  { rewrite inet_chksum_spec by (repeat split; lia). do 3 f_equal. unfold IP_HLEN in Lz. change (Z.to_nat 20) with 20%nat. rewrite <-Lz.
    apply load_store_bytes. by apply zero_sum_u8. }
  rewrite (bind_ok _ _ _ _ _ eq_refl). unfold modify. rewrite splice_app_l by (unfold IP_HLEN in Lz; cbn; lia). split; [done|].
  unfold packet_header, IP_HLEN in *. split; [rewrite length_splice; cbn; lia|]. apply Forall_splice; [by apply zero_sum_u8|apply u8_le16].
Qed.

(** A packet for which the first buffer has room is delivered. *)
Lemma deliver_spec h fs p s : holds h fs s -> ip_reasslen s = size -> size + 20 <= 1524 -> (1 <= pool_free s + length p)%nat ->
  exists q s', deliver reassbuf p s = Ok (Some q, s') /\ idle s' /\ (pool_free s' + length q = pool_free s + length p)%nat /\
    concat q = packet_header h ++ take (length d) (drop IP_HLEN (ip_reassbuf s)).
Proof using Haddr.
  intros H El Hs Hf. destruct (finish_header_spec h fs s H El ltac:(unfold IP_REASS_BUFSIZE; lia)) as (E & Lp & Hp).
  unfold deliver. rewrite (bind_ok _ _ _ _ _ E), !(bind_ok _ _ _ _ _ eq_refl). set (t := drop IP_HLEN (ip_reassbuf s)).
  cbn [set_pool set_timer set_reassbuf set_last pool_free ip_reasslen ip_reassbuf].
  rewrite pbuf_alloc_small by lia. rewrite (bind_ok _ _ _ _ _ eq_refl). cbn [fill_chain]. rewrite Z.sub_0_r, Z.ltb_irrefl.
  destruct (Z.ltb_spec 1524 (size + 20)); [lia|]. cbn [rbind]. rewrite (bind_ok _ _ _ _ _ eq_refl).
  eexists _, _. split; [reflexivity|]. unfold IP_HLEN in Lp. pose proof (h_len _ _ _ H).
  assert (Z.of_nat (length (packet_header h ++ t)) = 5780) as Lb.
  { rewrite length_app, Lp. unfold t, IP_HLEN. rewrite length_drop. lia. }
  split; [split; [exact Lb|]; split; [apply Forall_app; split; [done|apply Forall_drop, H]|split; [apply H|done]]|].
  cbn [pool_free set_pool length]. split; [lia|]. cbn [concat]. rewrite app_nil_r, splice_0. change (Z.to_nat 0) with 0%nat.
  rewrite drop_0, length_take, Nat.min_l by lia. rewrite drop_replicate, Nat.sub_diag, app_nil_r.
  rewrite take_app_ge by lia. f_equal. f_equal. lia.
Qed.

(** A larger one writes behind the first buffer, over the next one of the pool. *)
Lemma deliver_large h fs p s : holds h fs s -> ip_reasslen s = size -> 1504 < size < IP_REASS_BUFSIZE -> (4 <= pool_free s + length p)%nat ->
  deliver reassbuf p s = Err OutOfBounds.
Proof using Haddr.
  unfold IP_REASS_BUFSIZE. intros H El Hs Hf. destruct (finish_header_spec h fs s H El ltac:(unfold IP_REASS_BUFSIZE; lia)) as (E & _ & _).
  unfold deliver. rewrite (bind_ok _ _ _ _ _ E), !(bind_ok _ _ _ _ _ eq_refl).
  cbn [set_pool set_timer set_reassbuf set_last pool_free ip_reasslen ip_reassbuf].
  destruct (pbuf_alloc_large (pool_free s + length p) (size + 20) Hf) as (l & qs & n & -> & Hl); [lia|].
  rewrite (bind_ok _ _ _ _ _ eq_refl). cbn [fill_chain]. rewrite Z.sub_0_r. destruct (Z.ltb_spec (size + 20) l); [lia|].
  destruct (Z.ltb_spec 1524 l); [|lia]. done.
Qed.

(** ** Arrivals *)

Lemma key_take l : (IPH_SRC (take IP_HLEN l), IPH_DEST (take IP_HLEN l), IPH_ID (take IP_HLEN l)) = (IPH_SRC l, IPH_DEST l, IPH_ID l).
Proof. unfold IPH_SRC, IPH_DEST, IPH_ID, u32_at, IP_HLEN. by rewrite !u16_at_take by lia. Qed.

(** The header of the packet is that of the first fragment. *)
Definition first_hdr (fs : list fragment) (f : fragment) : list Z := take IP_HLEN (f_hdr (hd f fs)).

Lemma start_holds f s : idle s -> frag_of f ->
  holds (first_hdr [] f) [] (set_bitmap (replicate (length (ip_reassbitmap s)) 0)
    (set_last (ip_reasslen s) 0 (set_timer IP_REASS_MAXAGE true (set_reassbuf (splice (ip_reassbuf s) 0 (take IP_HLEN (f_hdr f))) s)))).
Proof.
  intros (Hl & Hu & [Hb _] & _) Hf. pose proof (fr_hdr _ Hf) as Hh. destruct (f_chain_hdr f Hf) as [r Er]. unfold IP_HLEN in Hh.
  assert (length (take IP_HLEN (f_hdr f)) = 20)%nat as Lt by (rewrite length_take; unfold IP_HLEN; lia).
  split; cbn [set_bitmap set_last set_timer set_reassbuf ip_reassbuf ip_reassbitmap ip_reassflags ip_reasslen].
  - rewrite length_splice; lia.
  - apply Forall_splice; [done|]. apply Forall_take. pose proof (fr_bytes _ Hf) as F. rewrite Er in F. cbn in F. by apply Forall_app in F as [F _].
  - rewrite splice_0, take_app_length' by (by rewrite Lt). done.
  - split; [by rewrite length_replicate|]. apply Forall_replicate. done.
  - intros u Hu0. rewrite Exists_nil. split; [|done]. unfold bit. destruct (replicate _ 0 !! _) as [b|] eqn:E; [|done].
    apply lookup_replicate in E as [-> _]. by rewrite Z.bits_0.
  - left. split; [done|]. intros E. by apply Exists_nil in E.
  - intros i Hi E. by apply Exists_nil in E.
Qed.

(** What arrives where in the buffer: the test for the right packet always succeeds. *)
Lemma ip_reass_step fs f s : holding fs s -> Forall frag_of fs -> frag_of f ->
  exists s1, holds (first_hdr fs f) fs s1 /\ pool_free s1 = pool_free s /\ 0 < ip_reasstmr s1 /\
    (fs = [] -> ip_reasstmr s1 = IP_REASS_MAXAGE) /\ (fs <> [] -> ip_reasstmr s1 = ip_reasstmr s) /\
    ip_reass reassbuf (f_chain f) s = add_fragment reassbuf (f_chain f) (f_hdr f) s1.
Proof.
  intros H Hfs Hf. destruct (f_chain_hdr f Hf) as [r Er]. pose proof (fr_hdr _ Hf) as Hh.
  assert (exists s1, holds (first_hdr fs f) fs s1 /\ pool_free s1 = pool_free s /\ 0 < ip_reasstmr s1 /\
    (fs = [] -> ip_reasstmr s1 = IP_REASS_MAXAGE) /\ (fs <> [] -> ip_reasstmr s1 = ip_reasstmr s) /\
    (let* tmr := gets ip_reasstmr in
      if tmr =? 0 then
         modify (fun s => set_reassbuf (splice (ip_reassbuf s) 0 (take IP_HLEN (f_hdr f))) s);;
         modify (set_timer IP_REASS_MAXAGE true);;
         modify (fun s => set_last (ip_reasslen s) 0 s);;
         modify (fun s => set_bitmap (replicate (length (ip_reassbitmap s)) 0) s)
       else ret tt) s = Ok (tt, s1)) as (s1 & H1 & Hp & Ht & Ht1 & Ht2 & E1).
  { destruct fs as [|f1 fs].
    - eexists. split; [exact (start_holds f s H Hf)|]. split; [done|]. split; [done|]. split; [done|]. split; [done|].
      rewrite (bind_ok _ _ _ _ _ eq_refl). destruct H as (_ & _ & _ & ->). done.
    - destruct H as [H Ht]. exists s. split; [exact H|]. split; [done|]. split; [done|]. split; [done|]. split; [done|].
      rewrite (bind_ok _ _ _ _ _ eq_refl). by rewrite (proj2 (Z.eqb_neq _ 0)) by lia. }
  exists s1. split; [done|]. split; [done|]. split; [done|]. split; [done|]. split; [done|].
  unfold ip_reass. rewrite Er. destruct (Nat.ltb_spec (length (f_hdr f)) IP_HLEN); [lia|].
  rewrite (bind_ok _ _ _ _ _ eq_refl). unfold bind at 1 in E1. cbn [gets] in E1. rewrite (bind_ok _ _ _ _ _ E1), (bind_ok _ _ _ _ _ eq_refl).
  assert ((IPH_SRC (ip_reassbuf s1), IPH_DEST (ip_reassbuf s1), IPH_ID (ip_reassbuf s1)) = key) as Ek.
  { rewrite <-key_take, (h_hdr _ _ _ H1). unfold first_hdr. rewrite key_take. apply (fr_key (hd f fs)).
    destruct fs as [|f1 fs]; [done|]. by apply Forall_cons in Hfs as [? _]. }
  rewrite <-(fr_key _ Hf) in Ek. injection Ek as -> -> ->. by rewrite !Z.eqb_refl.
Qed.

Lemma packet_in_spec F fs f s : holding fs s -> Forall frag_of fs -> frag_of f -> size + 20 <= 1524 ->
  pool_free s = F -> (length (f_chain f) <= F)%nat ->
  (~ counts_complete (fs ++ [f]) /\ exists s', packet_in reassbuf (f_chain f) s = Ok (None, s') /\ holding (fs ++ [f]) s' /\ pool_free s' = F /\
     (fs = [] -> ip_reasstmr s' = IP_REASS_MAXAGE) /\ (fs <> [] -> ip_reasstmr s' = ip_reasstmr s)) \/
  (counts_complete (fs ++ [f]) /\ exists q s' D, packet_in reassbuf (f_chain f) s = Ok (Some q, s') /\ idle s' /\
     (pool_free s' + length q = F)%nat /\ concat q = packet_header (first_hdr fs f) ++ D /\ length D = length d /\
     forall i, 0 <= i -> Exists (brings i) (fs ++ [f]) -> D !! Z.to_nat i = d !! Z.to_nat i).
Proof using Haddr.
  intros H Hfs Hf Hs20 HF Hc. assert (size < IP_REASS_BUFSIZE) as Hs by (unfold IP_REASS_BUFSIZE; lia). unfold packet_in. rewrite (bind_ok _ _ _ _ _ eq_refl). set (s0 := set_pool _ s).
  assert (holding fs s0) as H0.
  { destruct fs; [exact H|]. destruct H as [[] Ht]. split; [by split|done]. }
  destruct (ip_reass_step fs f s0 H0 Hfs Hf) as (s1 & H1 & Hp & Ht & Ht1 & Ht2 & ->).
  destruct (add_fragment_spec _ fs f s1 H1 Hfs Hf Hs) as (s2 & H2 & Hp2 & Ht3 & _ & ->).
  assert (pool_free s2 = F - length (f_chain f))%nat as Ep by (rewrite Hp2, Hp; cbn; lia).
  destruct (check_complete_spec _ _ (f_chain f) s2 H2 ltac:(by apply Forall_app; split; [|constructor]) Hs) as [(Hcc & El & ->)|(Hcc & ->)].
  - right. split; [done|]. destruct (deliver_spec _ _ (f_chain f) s2 H2 El Hs20) as (q & s' & E & Hi & Hpl & Eq).
    { destruct (f_chain_hdr f Hf) as [r Er]. rewrite Er in *. cbn [length] in *. lia. }
    exists q, s', (take (length d) (drop IP_HLEN (ip_reassbuf s2))). split; [done|]. split; [done|]. split; [lia|]. split; [done|].
    pose proof (h_len _ _ _ H2). unfold IP_REASS_BUFSIZE in Hs. split; [rewrite length_take, length_drop; unfold IP_HLEN; lia|].
    intros i Hi0 Hx. pose proof (h_data _ _ _ H2 i Hi0 Hx) as Ed. rewrite <-Ed.
    assert (i < size).
    { apply Exists_exists in Hx as (g & Hg & Hx). apply elem_of_app in Hg as [Hg|Hg].
      - rewrite Forall_forall in Hfs. destruct (fr_range _ (Hfs g Hg)), Hx. lia.
      - apply list_elem_of_singleton in Hg as ->. destruct (fr_range _ Hf), Hx. lia. }
    rewrite lookup_take_lt, lookup_drop by lia. f_equal. unfold IP_HLEN. lia.
  - left. split; [done|]. unfold nullreturn. rewrite (bind_ok _ _ _ _ _ eq_refl). eexists. split; [reflexivity|].
    split; [|split; [cbn; lia|split; cbn; rewrite Ht3; done]].
    assert (holds (first_hdr fs f) (fs ++ [f]) (set_pool (pool_free s2 + length (f_chain f)) s2)) as H3 by (destruct H2; by split).
    destruct fs; (split; [exact H3|]); cbn; lia.
Qed.

Lemma counts_complete_app fs gs : counts_complete fs -> counts_complete (fs ++ gs).
Proof.
  intros [H1 H2]. split; [apply Exists_app; by left|]. intros u Hu Hn. apply Exists_app. left. by apply H2.
Qed.

(** A clock tick, or a fragment that arrives. *)
Definition ev (e : option fragment) : event := match e with None => Tick | Some f => Arrives (f_chain f) end.
Definition arrivals (es : list (option fragment)) : list fragment := omap id es.
Definition ticks (es : list (option fragment)) : nat := length (List.filter (fun e => match e with None => true | Some _ => false end) es).

Lemma tick_spec fs s k F : holding fs s -> (fs <> [] -> IP_REASS_MAXAGE - k <= ip_reasstmr s) -> k + 1 < IP_REASS_MAXAGE -> pool_free s = F ->
  exists s', handle reassbuf Tick s = Ok (None, s') /\ holding fs s' /\ (fs <> [] -> IP_REASS_MAXAGE - (k + 1) <= ip_reasstmr s') /\ pool_free s' = F.
Proof.
  unfold IP_REASS_MAXAGE. intros H Hk Ht HF. cbn [handle]. rewrite (bind_ok _ _ _ _ _ eq_refl). destruct (alarm s).
  2:{ exists s. split; [done|]. split; [done|]. split; [intros Hn; specialize (Hk Hn); lia|done]. }
  destruct fs as [|f1 fs].
  - destruct H as (Hl & Hu & Hb & Ht0). exists (set_timer 0 false s). split; [|split; [by split|done]].
    unfold ip_reass_timer, bind, gets. by rewrite Ht0.
  - destruct H as [[] Ht0]. specialize (Hk ltac:(done)). exists (set_timer (ip_reasstmr s - 1) true s).
    split; [|split; [split; [by split|cbn; lia]|split; [intros _; cbn; lia|done]]].
    unfold ip_reass_timer, bind, gets. by rewrite (proj2 (Z.eqb_neq _ 0)) by lia.
Qed.

Lemma waiting_spec F es : forall fs s k, holding fs s -> (fs <> [] -> IP_REASS_MAXAGE - k <= ip_reasstmr s) -> 0 <= k ->
  k + Z.of_nat (ticks es) < IP_REASS_MAXAGE -> size + 20 <= 1524 -> pool_free s = F ->
  Forall frag_of fs -> Forall (fun f => frag_of f /\ (length (f_chain f) <= F)%nat) (arrivals es) -> ~ counts_complete (fs ++ arrivals es) ->
  exists s', handle_all reassbuf (map ev es) s = Ok (replicate (length es) None, s') /\ holding (fs ++ arrivals es) s' /\ pool_free s' = F.
Proof using Haddr.
  unfold IP_REASS_MAXAGE. induction es as [|e es IH]; intros fs s k H Hk Hk0 Ht Hs HF Hfs Hes Hc.
  { exists s. cbn. by rewrite app_nil_r. }
  cbn [map handle_all length replicate]. destruct e as [f|].
  - change (arrivals (Some f :: es)) with (f :: arrivals es) in *. change (ticks (Some f :: es)) with (ticks es) in Ht.
    apply Forall_cons in Hes as [[Hf Hn] Hes].
    assert (fs ++ f :: arrivals es = (fs ++ [f]) ++ arrivals es) as Ea by by rewrite <-app_assoc. rewrite Ea in Hc |- *.
    destruct (packet_in_spec F fs f s H Hfs Hf Hs HF Hn) as [(_ & s' & E & Hh & Hp & Ht1 & Ht2)|[Hcc _]].
    2:{ by destruct (Hc (counts_complete_app _ _ Hcc)). }
    cbn [ev handle]. rewrite (bind_ok _ _ _ _ _ E).
    destruct (IH (fs ++ [f]) s' k Hh) as (s2 & E2 & H2); [|done|done|done|done|by apply Forall_app; split; [|constructor]|done|done|].
    { intros _. destruct fs as [|f1 fs']; [rewrite Ht1 by done; unfold IP_REASS_MAXAGE; lia|rewrite Ht2 by done; by apply Hk]. }
    exists s2. rewrite (bind_ok _ _ _ _ _ E2). done.
  - change (arrivals (None :: es)) with (arrivals es) in *. change (ticks (None :: es)) with (S (ticks es)) in Ht.
    destruct (tick_spec fs s k F H Hk ltac:(unfold IP_REASS_MAXAGE; lia) HF) as (s' & E & Hh & Hk' & Hp). cbn [ev]. rewrite (bind_ok _ _ _ _ _ E).
    destruct (IH fs s' (k + 1) Hh Hk') as (s2 & E2 & H2); [lia|lia|done|done|done|done|done|].
    exists s2. rewrite (bind_ok _ _ _ _ _ E2). done.
Qed.

(** Every byte is in a unit or at the end. *)
Lemma complete_brings fs i : Forall frag_of fs -> complete fs -> 0 <= i < size -> Exists (brings i) fs.
Proof.
  intros Hfs [Hl Hu] Hi. destruct (Z.ltb_spec (i / 8) (size / 8)).
  - destruct (proj1 (Exists_exists _ _) (Hu (i / 8) ltac:(zlia))) as (f & Hf & Hx). apply Exists_exists. exists f. split; [done|].
    unfold has_unit, brings in *. zlia.
  - apply Exists_exists in Hl as (f & Hf & Hx). apply Exists_exists. exists f. split; [done|].
    rewrite Forall_forall in Hfs. destruct (fr_range _ (Hfs f Hf)) as (H1 & H2 & H3). pose proof (fr_off _ (Hfs f Hf)) as Eo.
    unfold is_last, brings in *. zlia.
Qed.

Lemma handle_all_app es1 : forall es2 s rs s1, handle_all reassbuf es1 s = Ok (rs, s1) ->
  handle_all reassbuf (es1 ++ es2) s = (let* rs2 := handle_all reassbuf es2 in ret (rs ++ rs2)) s1.
Proof.
  induction es1 as [|e es1 IH]; intros es2 s rs s1 H.
  - injection H as <- <-. cbn [app]. unfold bind, ret. by destruct (handle_all reassbuf es2 s) as [[]|].
  - cbn [app handle_all] in *. unfold bind in H |- *. destruct (handle reassbuf e s) as [[r s2]|]; [|done].
    destruct (handle_all reassbuf es1 s2) as [[rs2 s3]|] eqn:E; [|done]. injection H as <- <-.
    rewrite (IH es2 s2 rs2 s3 E). unfold bind, ret. by destruct (handle_all reassbuf es2 s3) as [[]|].
Qed.

End Packet.

(** C26: packets in fragments are put together again.  Fragments of a packet of up to 1504
    bytes may arrive in any order, more than once, in any number of buffers, with less than 30
    ticks of the timer in between: until the last fragment and every unit of 8 bytes are there
    (but for the 64 bytes before the last, partial block of 64, which the code does not check)
    each is taken without a result; the fragment that completes the packet gives a chain of
    buffers with a header of the right length and checksum and the data, every byte that was
    received in its place, and all of them when no unit was missing.  No access is out of
    bounds, the buffers of all fragments are back in the pool, and the next packet can come. *)
Theorem ip_reass_correct reassbuf d key F es f s :
  0 <= reassbuf /\ reassbuf + 20 < 2 ^ 32 ->
  idle s -> pool_free s = F -> Z.of_nat (length d) <= 1504 ->
  let fs := arrivals es ++ [f] in
  Forall (fun g => frag_of d key g /\ (length (f_chain g) <= F)%nat) fs -> Z.of_nat (ticks es) < IP_REASS_MAXAGE ->
  ~ counts_complete d (arrivals es) -> counts_complete d fs ->
  exists q D s', handle_all reassbuf (map ev es ++ [Arrives (f_chain f)]) s = Ok (replicate (length es) None ++ [Some q], s') /\
    let h := packet_header d (first_hdr (arrivals es) f) in
    concat q = h ++ D /\ internet_checksum h = 0 /\ length D = length d /\
    (forall i, 0 <= i -> Exists (brings i) fs -> D !! Z.to_nat i = d !! Z.to_nat i) /\
    (complete d fs -> D = d) /\ idle s' /\ (pool_free s' + length q = F)%nat.
Proof.
  intros Ha Hi HF Hs fs Hfs Ht Hn Hc. apply Forall_app in Hfs as [Hes Hf]. apply Forall_cons in Hf as [[Hf Hl] _].
  assert (Forall (frag_of d key) (arrivals es)) as Hes' by (eapply Forall_impl; [exact Hes|]; by intros g [? _]).
  destruct (waiting_spec d key reassbuf Ha F es [] s 0) as (s1 & E1 & H1 & Hp1); [done|done|lia|lia|lia|done|done|done|done|].
  cbn [app] in H1. destruct (packet_in_spec d key reassbuf Ha F (arrivals es) f s1 H1 Hes' Hf ltac:(lia) Hp1 Hl) as [[Hc' _]|(_ & q & s' & D & E & Hid & Hpl & Eq & Ld & Hb)]; [done|].
  exists q, D, s'. split; [|split; [done|split; [|split; [done|split; [done|split; [|done]]]]]].
  - rewrite (handle_all_app reassbuf _ _ _ _ _ E1). cbn [handle_all handle]. unfold bind. rewrite E. done.
  - assert (frag_of d key (hd f (arrivals es))) as Hh.
    { destruct (arrivals es) as [|g gs]; [done|]. by apply Forall_cons in Hes' as [? _]. }
    pose proof (fr_hdr _ _ _ Hh) as Hlen. destruct (f_chain_hdr _ _ _ Hh) as [r Er]. pose proof (fr_bytes _ _ _ Hh) as Hu. rewrite Er in Hu. cbn in Hu.
    apply Forall_app in Hu as [Hu _]. unfold first_hdr. apply packet_header_sum; [by apply Forall_take|]. rewrite length_take. unfold IP_HLEN in *. lia.
  - intros Hall. apply list_eq. intros i. destruct (decide (i < length d)%nat) as [Hlt|Hge].
    + rewrite <-(Nat2Z.id i). apply Hb; [lia|]. apply (complete_brings d key); [apply Forall_app; by split; [|constructor]|done|lia].
    + rewrite !lookup_ge_None_2 by lia. done.
Qed.

(** ** Samples *)

Definition sample_hdr (len offs : Z) : list Z :=
  [0x45; 0; len / 256; len mod 256; 0; 7; offs / 256; offs mod 256; 64; 17; 0; 0; 10; 0; 0; 1; 10; 0; 0; 2].

(** A fragment with its header and its data in two buffers. *)
Definition sample_frag (d : list Z) (off len : Z) (more : bool) : fragment :=
  Fragment [sample_hdr (20 + len) ((if more then IP_MF else 0) + off / 8); take (Z.to_nat len) (drop (Z.to_nat off) d)] off len.

Definition sample_data : list Z := map Z.of_nat (seq 1 24).

Definition idle_state : reass :=
  Reass (replicate (Z.to_nat 5780) 0) (replicate 90 0) 0 0 0 false PBUF_POOL_SIZE.

Lemma idle_state_idle : idle idle_state.
Proof.
  unfold idle, idle_state. cbn [ip_reassbuf ip_reassbitmap ip_reasstmr]. rewrite length_replicate. split; [lia|].
  split; [by apply Forall_replicate|]. split; [split; [done|by apply Forall_replicate]|done].
Qed.

(** The second fragment of a packet of 24 bytes arrives first. *)
Lemma ip_reass_correct_witness :
  let f1 := sample_frag sample_data 16 8 false in
  let f2 := sample_frag sample_data 0 16 true in
  exists q s', handle_all 0x1000 [Arrives (f_chain f1); Tick; Arrives (f_chain f2)] idle_state = Ok ([None; None; Some q], s') /\
    concat q = packet_header sample_data (f_hdr f1) ++ sample_data /\ idle s'.
Proof.
  intros f1 f2.
  set (k := (IPH_SRC (f_hdr f1), IPH_DEST (f_hdr f1), IPH_ID (f_hdr f1))).
  assert (Forall (fun g => frag_of sample_data k g /\ (length (f_chain g) <= 5)%nat) [f1; f2]) as Hfs.
  { repeat constructor; try (vm_compute; (reflexivity || lia || congruence)); try (cbn; lia); try (vm_compute; tauto);
      repeat (apply (bool_decide_unpack _); vm_compute; reflexivity). }
  destruct (ip_reass_correct 0x1000 sample_data k 5 [Some f1; None] f2 idle_state) as (q & D & s' & E & Eq & _ & _ & _ & Hc & Hi & _).
  - lia.
  - exact idle_state_idle.
  - reflexivity.
  - vm_compute. discriminate.
  - exact Hfs.
  - vm_compute. reflexivity.
  - intros [_ H]. specialize (H 0 ltac:(vm_compute; split; congruence) ltac:(vm_compute; congruence)).
    apply Exists_exists in H as (g & Hg & Hx). apply list_elem_of_singleton in Hg as ->. unfold has_unit in Hx. cbn in Hx. lia.
  - split; [left; reflexivity|]. intros u Hu _. change (Z.of_nat (length sample_data) / 8) with 3 in Hu.
    change (Exists (has_unit u) [f1; f2]). rewrite !Exists_cons. unfold has_unit. cbn [f1 f2 sample_frag f_off f_len]. lia.
  - exists q, s'. split; [exact E|]. split; [|exact Hi]. rewrite Eq, Hc; [reflexivity|].
    split; [left; reflexivity|]. intros u Hu. change (Z.of_nat (length sample_data) / 8) with 3 in Hu.
    change (Exists (has_unit u) [f1; f2]). rewrite !Exists_cons. unfold has_unit. cbn [f1 f2 sample_frag f_off f_len]. lia.
Defined.

(** ** What goes wrong *)

(** Bytes 64 to 127 of a packet of 136 bytes have not arrived, and it counts as complete: they are
    what the buffer held before. *)
Example lost_block :
  let d := replicate 136 1 in
  let p1 := f_chain (sample_frag d 0 64 true) in
  let p2 := f_chain (sample_frag d 128 8 false) in
  match handle_all 0x1000 [Arrives p1; Arrives p2] idle_state with
  | Ok ([None; Some q], _) => drop 20 (concat q) = replicate 64 1 ++ replicate 64 0 ++ replicate 8 1
  | _ => False
  end.
Proof. vm_compute. reflexivity. Qed.

(** A packet that fills the buffer needs a byte behind the bitmap. *)
Lemma full_buffer off len s : bm_ok (ip_reassbitmap s) -> 0 <= off < IP_REASS_BUFSIZE -> off + len = IP_REASS_BUFSIZE ->
  update_bitmap off len s = Err OutOfBounds.
Proof.
  unfold IP_REASS_BUFSIZE. intros Hb Ho Ht. unfold update_bitmap. rewrite Ht. change (8 * 8) with 64. change (5760 / 64) with 90.
  destruct (Z.eqb_spec (off / 64) 90); [zlia|].
  edestruct (upd_bitmap_spec (off / 64)) as (b & bm & _ & E & Hb1 & _); [exact Hb|zlia|]. rewrite (bind_ok _ _ _ _ _ E).
  destruct (fill_bitmap_spec (Z.to_nat (90 - (1 + off / 64))) (1 + off / 64) (set_bitmap bm s) Hb1 ltac:(zlia) ltac:(zlia)) as (bm2 & E2 & [Hl2 _] & _).
  rewrite (bind_ok _ _ _ _ _ E2). unfold upd_bitmap. cbn [set_bitmap ip_reassbitmap].
  rewrite lookup_ge_None_2; [done|]. rewrite Hl2. done.
Qed.

(** [ip_frag] follows a null pointer for every packet in one buffer, since [copy_from_pbuf] leaves
    a buffer although bytes are left in it. *)
Lemma ip_frag_one_buffer mtu rambuf buf q : 28 <= mtu <= 1500 -> mtu < Z.of_nat (length q) -> Z.of_nat (length buf) = 1500 ->
  0 <= rambuf -> rambuf + 20 < 2 ^ 32 -> ip_frag mtu rambuf buf [q] = Err NullDeref.
Proof.
  intros Hm Hq Hb Ha1 Ha2. unfold ip_frag. cbn [concat]. rewrite app_nil_r. change (Z.of_nat IP_HLEN) with 20.
  set (left := Z.of_nat (length q) - 20). set (buf0 := splice _ _ _).
  destruct (Z.to_nat left) as [|[|fuel]] eqn:Ef; [lia|lia|].
  cbn [frag_loop]. destruct (Z.eqb_spec left 0); [lia|]. change (Z.of_nat IP_HLEN) with 20.
  destruct (Z.leb_spec left (mtu - 20)); [lia|]. cbn zeta. set (cop := (mtu - 20) / 8 * 8). assert (8 <= cop <= mtu - 20) as Hcop by (subst cop; zlia).
  assert (copy_from_pbuf [q] IP_HLEN (Z.to_nat cop) = Ok (take (Z.to_nat cop) (drop IP_HLEN q), [], Z.to_nat cop)) as ->.
  { unfold copy_from_pbuf, IP_HLEN. destruct (Nat.ltb_spec (length q) 20); [lia|].
    destruct (Z.to_nat cop) as [|c] eqn:Ec; [lia|]. cbn [copy_loop].
    destruct (Nat.ltb_spec (S c) (length (drop 20 q))) as [Hlt|Hge]; [|rewrite length_drop in Hge; lia].
    rewrite Nat.sub_diag. cbn [rbind]. by rewrite app_nil_r. }
  cbn [rbind]. match goal with |- context [hdr_sum rambuf ?h] => assert (exists x, hdr_sum rambuf h = Ok x) as [x ->] end.
  { unfold hdr_sum. eexists. change (Z.of_nat IP_HLEN) with 20. rewrite inet_chksum_spec by (repeat split; lia). reflexivity. }
  cbn [rbind]. destruct (Z.eqb_spec (left - cop) 0); [lia|]. reflexivity.
Qed.
