(* ===== verification/ElfLdr.v ===== *)
(** * The ELF loader (ee/elfldr/elfldr.c)

    A replacement of the kernel's LoadExecPS2: it keeps the arguments in its own memory,
    wipes the user memory, and loads the game's ELF file itself when the kernel's loader
    fails. *)

From S2P Require Import Prelude CString Bytes.
Local Open Scope ps2rd_scope.

Definition ELF_MAGIC : Z := 0x464c457f.
Definition ELF_PT_LOAD : Z := 1.
Definition MAX_ARGS : nat := 15.
Definition ARGBUF : nat := 256.         (** sizeof(_argbuf) *)

(** Calls of the SDK. *)
Inductive elf_ev : Type :=
| EvResetIop
| EvLoadModule (name : cstring).

(** The memory and the loader's globals; pointers of [_argv] are offsets in [_argbuf]. *)
Record elfldr : Type := ElfLdr {
  e_mem : gmap Z Z;
  _argc : Z;
  _argv : list (option nat);
  _argbuf : list Z;
  e_log : list elf_ev;
}.

Definition set_e_mem (m : gmap Z Z) (s : elfldr) : elfldr :=
  ElfLdr m (_argc s) (_argv s) (_argbuf s) (e_log s).
Definition set_args (c : Z) (v : list (option nat)) (b : list Z) (s : elfldr) : elfldr :=
  ElfLdr (e_mem s) c v b (e_log s).
Definition add_log (l : list elf_ev) (s : elfldr) : elfldr :=
  ElfLdr (e_mem s) (_argc s) (_argv s) (_argbuf s) (e_log s ++ l).

(** ** Arguments: MyLoadExecPS2 *)

(** Copy one argument to [p] ([__strcpy] stores no terminator, the buffer was cleared) and
    point [_argv[i]] to it; returns the next place. *)
Definition put_arg (p i : nat) (a : cstring) : M elfldr nat := fun s =>
  if (ARGBUF <? p + length a)%nat || (MAX_ARGS <? i)%nat then Err OutOfBounds
  else Ok ((p + length a + 1)%nat,
           set_args (_argc s) (<[i := Some p]> (_argv s)) (splice (_argbuf s) p a) s).

Fixpoint copy_args (p i : nat) (args : list cstring) : M elfldr unit :=
  match args with
  | [] => ret tt
  | a :: args' => let* p := put_arg p i a in copy_args p (i + 1) args'
  end.

(** [argc] limits the count that is passed on, not the number of arguments copied.  The
    loader is started as a new thread afterwards. *)
Definition MyLoadExecPS2 (filename : cstring) (args : list cstring) : M elfldr unit :=
  let argc := Z.of_nat (length args) in
  modify (fun s => set_args (if Z.of_nat MAX_ARGS <? argc then Z.of_nat MAX_ARGS else argc) (_argv s)
                     (replicate ARGBUF 0) s);;
  let* p := put_arg 0 0 filename in
  modify (fun s => set_args (_argc s + 1) (_argv s) (_argbuf s) s);;
  copy_args p 1 args.

(** The string an argument points to. *)
Definition arg_str (s : elfldr) (i : nat) : res cstring :=
  match _argv s !! i with
  | Some (Some p) => c_string (drop p (_argbuf s))
  | _ => Err NullDeref
  end.

(** ** Loading: loadElf *)

(** [memset] with zeros. *)
Definition clear_mem (m : gmap Z Z) (a n : Z) : gmap Z Z :=
  store_bytes m a (replicate (Z.to_nat n) 0).

Definition ELF_HEADER : nat := 52.      (** sizeof(elf_header_t) *)
Definition ELF_PHEADER : nat := 32.     (** sizeof(elf_pheader_t) *)

Definition hdr_entry (h : list Z) : Z := u32_at h 24.
Definition hdr_phoff (h : list Z) : Z := u32_at h 28.
Definition hdr_phnum (h : list Z) : Z := u16_at h 44.
Definition ph_type (p : list Z) : Z := u32_at p 0.
Definition ph_offset (p : list Z) : Z := u32_at p 4.
Definition ph_vaddr (p : list Z) : Z := u32_at p 8.
Definition ph_filesz (p : list Z) : Z := u32_at p 16.
Definition ph_memsz (p : list Z) : Z := u32_at p 20.

(** Up to [n] bytes of the file from [pos]. *)
Definition file_read (file : list Z) (pos n : Z) : list Z :=
  take (Z.to_nat n) (drop (Z.to_nat pos) file).

(** A segment: the file's bytes, and zeros up to its size in memory.  It must not leave the
    address space. *)
Definition load_segment (file ph : list Z) (m : gmap Z Z) : res (gmap Z Z) :=
  if negb (ph_type ph =? ELF_PT_LOAD) then Ok m
  else if 2 ^ 32 <? ph_vaddr ph + Z.max (ph_filesz ph) (ph_memsz ph) then Err OutOfBounds
  else
    let m := store_bytes m (ph_vaddr ph) (file_read file (ph_offset ph) (ph_filesz ph)) in
    Ok (if ph_filesz ph <? ph_memsz ph
        then clear_mem m (ph_vaddr ph + ph_filesz ph) (ph_memsz ph - ph_filesz ph) else m).

(** [for (i = 0; i < elf_header.phnum; i++)]; a short read leaves the end of the previous
    program header in [ph]. *)
Fixpoint load_segments (n : nat) (file : list Z) (phoff i : Z) (ph : list Z) (m : gmap Z Z) :
    res (gmap Z Z) :=
  match n with
  | O => Ok m
  | S n' =>
      let ph := splice ph 0 (file_read file (u32 (phoff + i * 32)) 32) in
      let? m := load_segment file ph m in
      load_segments n' file phoff (i + 1) ph m
  end.

(** What ends [loadElf]: the game is started at [epc], or the loader sleeps. *)
Inductive elf_end : Type :=
| Started (epc gp : Z)
| Sleeps.

Section LoadElf.
(** The kernel's loader (result, entry point, gp, memory) and the files. *)
Context (SifLoadElf : cstring -> gmap Z Z -> Z * Z * Z * gmap Z Z).
Context (file_open : cstring -> option (list Z)).
(** Uninitialised stack: the program header before the first read. *)
Context (junk : list Z).

(** [for (i = 0x00100000; i < 0x02000000; i += 64)] and the scratchpad. *)
Definition wipe_memory (m : gmap Z Z) : gmap Z Z :=
  filter (fun x => ~ (0x00100000 <= x.1 < 0x02000000) /\ ~ (0x70000000 <= x.1 < 0x70004000)) m.

Definition is_mass (path : cstring) : bool := bool_decide (take 4 path = str "mass").

Definition load_manually (path : cstring) : M elfldr elf_end := fun s =>
  match file_open path with
  | None => Ok (Sleeps, s)
  | Some file =>
      let h := file_read file 0 (Z.of_nat ELF_HEADER) in
      if negb (length h =? ELF_HEADER)%nat then Ok (Sleeps, s)
      else if negb (u32_at h 0 =? ELF_MAGIC) then Ok (Sleeps, s)
      else
        let? m := load_segments (Z.to_nat (hdr_phnum h)) file (hdr_phoff h) 0 junk (e_mem s) in
        Ok (Started (hdr_entry h) 0, set_e_mem m s)
  end.

Definition loadElf : M elfldr elf_end :=
  modify (fun s => set_e_mem (wipe_memory (e_mem s)) s);;
  let* path := (fun s => lift (arg_str s 0) s) in
  (if is_mass path then ret tt
   else modify (add_log [EvResetIop; EvLoadModule (str "rom0:SIO2MAN");
                         EvLoadModule (str "rom0:MCMAN"); EvLoadModule (str "rom0:MCSERV")]));;
  let* m := gets e_mem in
  let '(r, epc, gp, m) := SifLoadElf path m in
  modify (set_e_mem m);;
  if (r =? 0) && negb (epc =? 0) then ret (Started epc gp)
  else load_manually path.

End LoadElf.

(** ** The arguments arrive *)

(** Strings one after the other with their terminators. *)
Definition layout (args : list cstring) : list Z := concat ((fun a => a ++ [0]) <$> args).

Lemma layout_app l1 l2 : layout (l1 ++ l2) = layout l1 ++ layout l2.
Proof. unfold layout. by rewrite fmap_app, concat_app. Qed.

Lemma layout_singleton a : layout [a] = a ++ [0].
Proof. apply app_nil_r. Qed.

(** The buffer and the pointers after the arguments [done]. *)
Record placed (done : list cstring) (s : elfldr) : Prop := {
  pl_buf : _argbuf s = layout done ++ replicate (ARGBUF - length (layout done)) 0;
  pl_len : length (_argv s) = S MAX_ARGS;
  pl_ptr : forall i, (i < length done)%nat -> _argv s !! i = Some (Some (length (layout (take i done))));
}.

Lemma put_arg_spec done a s :
  placed done s -> (length (layout (done ++ [a])) <= ARGBUF)%nat -> (length done <= MAX_ARGS)%nat ->
  exists s', put_arg (length (layout done)) (length done) a s = Ok (length (layout (done ++ [a])), s') /\
    placed (done ++ [a]) s' /\ _argc s' = _argc s /\ e_mem s' = e_mem s.
Proof.
  intros [Hb Hl Hp] Hfit Hn. rewrite layout_app, layout_singleton in *.
  rewrite !length_app in *. cbn [length] in *. unfold put_arg.
  rewrite (proj2 (Nat.ltb_ge _ _)), (proj2 (Nat.ltb_ge _ _)) by lia. cbn [orb].
  eexists. split; [do 2 f_equal; lia|]. split; [|done]. split.
  - cbn [_argbuf set_args]. rewrite layout_app, layout_singleton, Hb, !length_app. cbn [length].
    assert (E : forall k (x : list Z), splice (x ++ replicate k 0) (length x) a =
      x ++ a ++ replicate (k - length a) 0).
    { intros k x. unfold splice. rewrite take_app_length, drop_app_ge, drop_replicate by lia.
      do 3 f_equal. lia. }
    rewrite E, <- !app_assoc. do 2 f_equal. change [0] with (replicate 1 0).
    rewrite <- replicate_add. f_equal. lia.
  - cbn [_argv set_args]. by rewrite length_insert.
  - cbn [_argv set_args]. rewrite length_app. cbn [length]. intros i Hi.
    destruct (decide (i = length done)) as [->|Hne].
    + rewrite list_lookup_insert_eq by lia. by rewrite take_app_length.
    + rewrite list_lookup_insert_ne by done. rewrite Hp by lia. by rewrite take_app_le by lia.
Qed.

Lemma copy_args_spec args : forall done s,
  placed done s -> (length (layout (done ++ args)) <= ARGBUF)%nat ->
  (length done + length args <= S MAX_ARGS)%nat ->
  exists s', copy_args (length (layout done)) (length done) args s = Ok (tt, s') /\
    placed (done ++ args) s' /\ _argc s' = _argc s /\ e_mem s' = e_mem s.
Proof.
  induction args as [|a args IH]; intros done s Hp Hfit Hn; cbn [copy_args].
  - exists s. by rewrite app_nil_r.
  - cbn [length] in Hn. change (a :: args) with ([a] ++ args) in Hfit. rewrite app_assoc in Hfit.
    assert (Hfit1 : (length (layout (done ++ [a])) <= ARGBUF)%nat)
      by (rewrite layout_app, length_app in Hfit; lia).
    destruct (put_arg_spec done a s Hp Hfit1 ltac:(lia)) as (s1 & E1 & P1 & C1 & M1).
    rewrite (bind_ok _ _ _ _ _ E1).
    replace (length done + 1)%nat with (length (done ++ [a])) by (by rewrite length_app).
    destruct (IH (done ++ [a]) s1 P1 Hfit) as (s2 & E2 & P2 & C2 & M2);
      [rewrite length_app; cbn [length]; lia|].
    exists s2. split; [exact E2|]. rewrite <- app_assoc in P2. split; [exact P2|]. split; congruence.
Qed.

Lemma placed_arg done s i a :
  placed done s -> Forall nul_free done -> done !! i = Some a -> arg_str s i = Ok a.
Proof.
  intros [Hb _ Hp] Hn Hi. pose proof (lookup_lt_Some _ _ _ Hi) as Hlt.
  unfold arg_str. rewrite Hp by done. rewrite Hb.
  rewrite <- (take_drop_middle done i a Hi) at 2. rewrite layout_app, <- app_assoc, drop_app_length.
  change (a :: drop (S i) done) with ([a] ++ drop (S i) done).
  rewrite layout_app, layout_singleton, <- !app_assoc. cbn [app].
  rewrite Forall_forall in Hn. pose proof (Hn a (list_elem_of_lookup_2 _ _ _ Hi)) as Ha.
  unfold c_string. rewrite bool_decide_eq_true_2 by set_solver. by rewrite cstr_app_nul.
Qed.

(** The arguments of a start: they fit the loader's arrays. *)
Definition args_ok (filename : cstring) (args : list cstring) : Prop :=
  (length args <= MAX_ARGS)%nat /\ Forall nul_free (filename :: args) /\
  (length (layout (filename :: args)) <= ARGBUF)%nat.

Lemma MyLoadExecPS2_spec filename args s :
  args_ok filename args -> length (_argv s) = S MAX_ARGS ->
  exists s', MyLoadExecPS2 filename args s = Ok (tt, s') /\ placed (filename :: args) s' /\
    _argc s' = 1 + Z.of_nat (length args) /\ e_mem s' = e_mem s.
Proof.
  intros (Hn & Hf & Hl) Hv. unfold MyLoadExecPS2. cbn zeta.
  destruct (Z.ltb_spec (Z.of_nat MAX_ARGS) (Z.of_nat (length args))); [lia|].
  rewrite (bind_ok _ _ _ _ _ eq_refl). set (s0 := set_args _ _ _ s).
  assert (P0 : placed [] s0) by (split; [done|done|intros i Hi; cbn in Hi; lia]).
  destruct (put_arg_spec [] filename s0 P0) as (s1 & E1 & P1 & C1 & M1).
  { change (filename :: args) with ([filename] ++ args) in Hl. rewrite layout_app, length_app in Hl.
    change ([] ++ [filename]) with [filename]. lia. }
  { cbn [length]. lia. }
  change (length (layout [])) with 0%nat in E1. cbn [length app] in E1, P1.
  rewrite (bind_ok _ _ _ _ _ E1), (bind_ok _ _ _ _ _ eq_refl).
  set (s2 := set_args _ _ _ s1). assert (P2 : placed [filename] s2) by (by destruct P1; split).
  destruct (copy_args_spec args [filename] s2 P2 Hl) as (s3 & E3 & P3 & C3 & M3); [cbn [length]; lia|].
  exists s3. split; [exact E3|]. split; [exact P3|]. split.
  { rewrite C3. change (_argc s2) with (_argc s1 + 1). rewrite C1.
    change (_argc s0) with (Z.of_nat (length args)). lia. }
  rewrite M3. cbn. by rewrite M1.
Qed.

(** ** The segments arrive *)

(** The program headers of a file, and the bytes a segment puts at an address. *)
Definition pheaders (file : list Z) : list (list Z) :=
  (fun i => file_read file (hdr_phoff file + Z.of_nat i * 32) 32) <$> seq 0 (Z.to_nat (hdr_phnum file)).

Definition covers (ph : list Z) (a : Z) : bool :=
  (ph_type ph =? ELF_PT_LOAD) && (ph_vaddr ph <=? a) &&
  (a <? ph_vaddr ph + Z.max (ph_filesz ph) (ph_memsz ph)).

Definition seg_byte (file ph : list Z) (a : Z) : Z :=
  if a <? ph_vaddr ph + ph_filesz ph
  then byte_at file (Z.to_nat (ph_offset ph + (a - ph_vaddr ph))) else 0.

(** The memory image: of several segments at an address the last one counts. *)
Definition image_byte (file : list Z) (phs : list (list Z)) (old a : Z) : Z :=
  foldl (fun b ph => if covers ph a then seg_byte file ph a else b) old phs.

(** A segment lies within the file and the address space. *)
Definition segment_ok (file ph : list Z) : Prop :=
  ph_type ph = ELF_PT_LOAD ->
  0 <= ph_vaddr ph /\ 0 <= ph_offset ph /\ 0 <= ph_filesz ph /\ 0 <= ph_memsz ph /\
  ph_offset ph + ph_filesz ph <= Z.of_nat (length file) /\
  ph_vaddr ph + Z.max (ph_filesz ph) (ph_memsz ph) <= 2 ^ 32.

Lemma load8_clear m a n b :
  0 <= n -> load8 (clear_mem m a n) b = if decide (a <= b < a + n) then 0 else load8 m b.
Proof.
  intros Hn. unfold clear_mem. destruct (decide (a <= b < a + n)) as [H|H].
  - replace b with (a + Z.of_nat (Z.to_nat (b - a))) by lia.
    rewrite (load8_store_bytes_in _ _ _ _ 0); [done|]. apply lookup_replicate. lia.
  - apply load8_store_bytes_ne. rewrite length_replicate. lia.
Qed.

Lemma file_read_lookup file pos n i :
  0 <= pos -> pos + n <= Z.of_nat (length file) -> (i < Z.to_nat n)%nat ->
  file_read file pos n !! i = Some (byte_at file (Z.to_nat (pos + Z.of_nat i))).
Proof.
  intros H0 Hn Hi. unfold file_read. rewrite lookup_take_lt, lookup_drop by lia.
  unfold byte_at. replace (Z.to_nat (pos + Z.of_nat i)) with (Z.to_nat pos + i)%nat by lia.
  rewrite nth_lookup. destruct (lookup_lt_is_Some_2 file (Z.to_nat pos + i)) as [x ->]; [lia|done].
Qed.

Lemma length_file_read file pos n :
  0 <= pos -> 0 <= n -> pos + n <= Z.of_nat (length file) -> length (file_read file pos n) = Z.to_nat n.
Proof. intros H0 H1 H2. unfold file_read. rewrite length_take, length_drop. lia. Qed.

Lemma load_segment_spec file ph m :
  Forall is_u8 file -> segment_ok file ph ->
  exists m', load_segment file ph m = Ok m' /\
    forall a, load8 m' a = if covers ph a then seg_byte file ph a else load8 m a.
Proof.
  intros Hf Hok. unfold load_segment, covers.
  destruct (Z.eqb_spec (ph_type ph) ELF_PT_LOAD) as [Ht|Ht]; cbn [negb andb]; [|by exists m].
  destruct (Hok Ht) as (Hv & Ho & Hfs & Hms & Hin & Hsp).
  destruct (Z.ltb_spec (2 ^ 32) (ph_vaddr ph + Z.max (ph_filesz ph) (ph_memsz ph))); [lia|].
  set (m1 := store_bytes m _ _).
  assert (H1 : forall a, load8 m1 a =
    if decide (ph_vaddr ph <= a < ph_vaddr ph + ph_filesz ph)
    then byte_at file (Z.to_nat (ph_offset ph + (a - ph_vaddr ph))) else load8 m a).
  { intros a. unfold m1. destruct (decide _) as [Ha|Ha].
    - replace a with (ph_vaddr ph + Z.of_nat (Z.to_nat (a - ph_vaddr ph))) at 1 by lia.
      erewrite load8_store_bytes_in by (apply file_read_lookup; lia).
      rewrite Z2Nat.id by lia. apply u8_id. unfold byte_at. rewrite nth_lookup.
      destruct (lookup_lt_is_Some_2 file (Z.to_nat (ph_offset ph + (a - ph_vaddr ph)))) as [x Hx]; [lia|].
      rewrite Hx. rewrite Forall_forall in Hf. apply Hf. by eapply list_elem_of_lookup_2.
    - apply load8_store_bytes_ne. rewrite length_file_read by lia. lia. }
  eexists. split; [reflexivity|]. intros a. unfold seg_byte.
  destruct (Z.ltb_spec (ph_filesz ph) (ph_memsz ph)) as [Hlt|Hge].
  - rewrite load8_clear, H1 by lia.
    destruct (Z.leb_spec (ph_vaddr ph) a); cbn [andb];
      destruct (Z.ltb_spec a (ph_vaddr ph + Z.max (ph_filesz ph) (ph_memsz ph)));
      destruct (Z.ltb_spec a (ph_vaddr ph + ph_filesz ph));
      repeat destruct (decide _); first [done|lia].
  - rewrite H1. 
    destruct (Z.leb_spec (ph_vaddr ph) a); cbn [andb];
      destruct (Z.ltb_spec a (ph_vaddr ph + Z.max (ph_filesz ph) (ph_memsz ph)));
      destruct (Z.ltb_spec a (ph_vaddr ph + ph_filesz ph));
      repeat destruct (decide _); first [done|lia].
Qed.

Lemma load_segments_spec file phoff n : forall i ph m,
  Forall is_u8 file -> length ph = ELF_PHEADER -> 0 <= phoff ->
  phoff + (Z.of_nat i + Z.of_nat n) * 32 <= Z.of_nat (length file) -> Z.of_nat (length file) <= 2 ^ 32 ->
  (forall j, (i <= j < i + n)%nat -> segment_ok file (file_read file (phoff + Z.of_nat j * 32) 32)) ->
  exists m', load_segments n file phoff (Z.of_nat i) ph m = Ok m' /\
    forall a, load8 m' a =
      image_byte file ((fun j => file_read file (phoff + Z.of_nat j * 32) 32) <$> seq i n) (load8 m a) a.
Proof.
  induction n as [|n IH]; intros i ph m Hf Hph H0 Hend H32 Hok; cbn [load_segments seq fmap list_fmap].
  { by exists m. }
  unfold u32. rewrite Z.mod_small by lia.
  set (ph1 := file_read file (phoff + Z.of_nat i * 32) 32).
  assert (L1 : length ph1 = ELF_PHEADER) by (unfold ph1; rewrite length_file_read by lia; done).
  assert (Es : splice ph 0 ph1 = ph1).
  { rewrite splice_0, L1, <- Hph, drop_all. apply app_nil_r. }
  rewrite Es.
  destruct (load_segment_spec file ph1 m Hf (Hok i ltac:(lia))) as (m1 & E1 & H1). rewrite E1. cbn [rbind].
  replace (Z.of_nat i + 1) with (Z.of_nat (S i)) by lia.
  destruct (IH (S i) ph1 m1 Hf L1 H0) as (m2 & E2 & H2); [lia|done|intros j Hj; apply Hok; lia|].
  exists m2. split; [exact E2|]. intros a. rewrite H2, H1. done.
Qed.

(** An ELF file this loader can load. *)
Record elf_ok (file : list Z) : Prop := {
  elf_bytes : Forall is_u8 file;
  elf_size : Z.of_nat ELF_HEADER <= Z.of_nat (length file) <= 2 ^ 32;
  elf_magic : u32_at file 0 = ELF_MAGIC;
  elf_phoff : 0 <= hdr_phoff file;
  elf_phnum : 0 <= hdr_phnum file;
  elf_headers : hdr_phoff file + hdr_phnum file * 32 <= Z.of_nat (length file);
  elf_segments : Forall (segment_ok file) (pheaders file);
}.

Lemma u32_at_take l n i : (i + 3 < n)%nat -> u32_at (take n l) i = u32_at l i.
Proof. intros H. unfold u32_at. by rewrite !u16_at_take by lia. Qed.

Lemma load_manually_spec file_open junk path file s :
  elf_ok file -> file_open path = Some file -> length junk = ELF_PHEADER ->
  exists m', load_manually file_open junk path s = Ok (Started (hdr_entry file) 0, set_e_mem m' s) /\
    forall a, load8 m' a = image_byte file (pheaders file) (load8 (e_mem s) a) a.
Proof.
  intros [Hf Hsz Hmag Hpo Hpn Hh Hsg] Ho Hj. unfold load_manually. rewrite Ho.
  assert (Eh : file_read file 0 (Z.of_nat ELF_HEADER) = take ELF_HEADER file)
    by (unfold file_read; by rewrite Nat2Z.id, drop_0).
  assert (Lh : length (take ELF_HEADER file) = ELF_HEADER) by (rewrite length_take; lia).
  rewrite Eh, Lh, Nat.eqb_refl. cbn [negb].
  unfold hdr_phnum, hdr_phoff, hdr_entry in *. unfold ELF_HEADER in *.
  rewrite !u32_at_take, u16_at_take, Hmag by lia. cbn [Z.eqb Pos.eqb negb].
  destruct (load_segments_spec file (u32_at file 28) (Z.to_nat (u16_at file 44)) 0 junk (e_mem s))
    as (m' & E & H); try done; [lia|lia| |].
  { intros j Hji. rewrite Forall_forall in Hsg. apply Hsg. unfold pheaders, hdr_phnum, hdr_phoff.
    apply list_elem_of_fmap. exists j. split; [done|]. apply elem_of_seq. lia. }
  change (Z.of_nat 0) with 0 in E. rewrite E. cbn [rbind]. by exists m'.
Qed.


(** A file with one segment of 4 bytes and 4 bytes of zeros behind it. *)
Definition sample_elf : list Z :=
  le32 ELF_MAGIC ++ replicate 20 0 ++ le32 0x00100008 ++ le32 52 ++ replicate 12 0 ++ le16 1 ++
  replicate 6 0 ++ le32 ELF_PT_LOAD ++ le32 84 ++ le32 0x00100000 ++ replicate 4 0 ++ le32 4 ++
  le32 8 ++ replicate 8 0 ++ [1; 2; 3; 4].

