(* ===== verification/SCache.v ===== *)
(** * The sector cache of the USB mass storage driver (iop/usb_mass/scache.c)

    32 slots of 4096 bytes between the file system and the disk, with write back. *)

From S2P Require Import Prelude Bytes.
Local Open Scope ps2rd_scope.

Definition CACHE_SIZE : nat := 32.
Definition FLUSH_TRIGGER : Z := 16.

(** The sector number of a slot that is not in use. *)
Definition NO_SECTOR : Z := 0xFFFFFFF0.

Record cache_record : Type := CRec {
  sector : Z;
  tax : Z;
  writeDirty : Z;
}.

(** The cache, and the disk behind it: its bytes and the results of the next transfers (a
    transfer succeeds when the script has ended). *)
Record scache : Type := SCache {
  sectorSize : Z;
  indexLimit : Z;
  sectorBuf : option (list Z);
  crec : list cache_record;
  cacheAccess : Z;
  cacheHits : Z;
  writeFlag : Z;
  flushCounter : Z;
  disk : gmap Z Z;
  disk_rets : list Z;
}.

Definition set_buf (b : option (list Z)) (s : scache) : scache :=
  SCache (sectorSize s) (indexLimit s) b (crec s) (cacheAccess s) (cacheHits s) (writeFlag s)
    (flushCounter s) (disk s) (disk_rets s).
Definition set_rec (r : list cache_record) (s : scache) : scache :=
  SCache (sectorSize s) (indexLimit s) (sectorBuf s) r (cacheAccess s) (cacheHits s) (writeFlag s)
    (flushCounter s) (disk s) (disk_rets s).
Definition set_stat (a h : Z) (s : scache) : scache :=
  SCache (sectorSize s) (indexLimit s) (sectorBuf s) (crec s) a h (writeFlag s)
    (flushCounter s) (disk s) (disk_rets s).
Definition set_flags (w f : Z) (s : scache) : scache :=
  SCache (sectorSize s) (indexLimit s) (sectorBuf s) (crec s) (cacheAccess s) (cacheHits s) w f
    (disk s) (disk_rets s).
Definition set_disk (d : gmap Z Z) (r : list Z) (s : scache) : scache :=
  SCache (sectorSize s) (indexLimit s) (sectorBuf s) (crec s) (cacheAccess s) (cacheHits s)
    (writeFlag s) (flushCounter s) d r.
Definition set_geometry (ss il : Z) (s : scache) : scache :=
  SCache ss il (sectorBuf s) (crec s) (cacheAccess s) (cacheHits s) (writeFlag s)
    (flushCounter s) (disk s) (disk_rets s).

(** The cache buffer; there is none before [scache_init]. *)
Definition the_buf : M scache (list Z) := fun s =>
  match sectorBuf s with Some b => Ok (b, s) | None => Err NullDeref end.

(** ** The disk: 4096 bytes from a sector on *)

Definition WRITE_SECTOR_4096 (sec : Z) (bs : list Z) : M scache Z := fun s =>
  let r := default 0 (head (disk_rets s)) in
  if r <? 0 then Ok (r, set_disk (disk s) (tail (disk_rets s)) s)
  else Ok (r, set_disk (store_bytes (disk s) (sec * sectorSize s) bs) (tail (disk_rets s)) s).

(** The bytes go to offset [off] of the cache buffer. *)
Definition READ_SECTOR_4096 (sec : Z) (off : nat) : M scache Z := fun s =>
  let r := default 0 (head (disk_rets s)) in
  if r <? 0 then Ok (r, set_disk (disk s) (tail (disk_rets s)) s)
  else match sectorBuf s with
       | None => Err NullDeref
       | Some b =>
           if (length b <? off + 4096)%nat then Err OutOfBounds
           else Ok (r, set_buf (Some (splice b off (load_bytes (disk s) (sec * sectorSize s) 4096)))
                         (set_disk (disk s) (tail (disk_rets s)) s))
       end.

(** The 4096 bytes of a slot. *)
Definition slot_bytes (b : list Z) (i : nat) : list Z := take 4096 (drop (i * 4096) b).

(** ** Records *)

Definition initRecords : M scache unit :=
  modify (fun s => set_flags 0 0 (set_rec (replicate CACHE_SIZE (CRec NO_SECTOR 0 0)) s)).

Definition hit (il sec : Z) (r : cache_record) : bool :=
  (sector r <=? sec) && (sec <? u32 (sector r + il)).

(** The first record of the sector. *)
Fixpoint slot_from (il sec : Z) (l : list cache_record) (i : nat) : option nat :=
  match l with
  | [] => None
  | r :: l' => if hit il sec r then Some i else slot_from il sec l' (S i)
  end.

Definition getSlot (sec : Z) : M scache (option nat) :=
  gets (fun s => slot_from (indexLimit s) sec (crec s) 0).

(** The reward of a hit, and the tax every record pays. *)
Definition pay (il sec : Z) (r : cache_record) : cache_record :=
  let t := if hit il sec r then s32 ((if tax r <? 0 then 0 else tax r) + 2) else tax r in
  CRec (sector r) (s32 (t - 1)) (writeDirty r).

(** The last record of the sector, since the loop does not stop. *)
Fixpoint last_hit (il sec : Z) (l : list cache_record) (i : nat) (idx : option nat) : option nat :=
  match l with
  | [] => idx
  | r :: l' => last_hit il sec l' (S i) (if hit il sec r then Some i else idx)
  end.

Definition getIndexRead (sec : Z) : M scache Z := fun s =>
  let il := indexLimit s in
  let idx := last_hit il sec (crec s) 0 None in
  let s := set_rec (pay il sec <$> crec s) s in
  match idx with
  | None => Ok (-1, s)
  | Some i =>
      let? r := of_option OutOfBounds (crec s !! i) in
      Ok (s32 (Z.of_nat i * il + (sec - sector r)), s)
  end.

(** The record with the smallest tax. *)
Fixpoint min_tax (l : list cache_record) (i index : nat) (minTax : Z) : nat :=
  match l with
  | [] => index
  | r :: l' => if tax r <? minTax then min_tax l' (S i) i (tax r) else min_tax l' (S i) index minTax
  end.

Definition getIndexWrite (sec : Z) : M scache Z :=
  let* l := gets crec in
  let index := min_tax l 0 0 0x0FFFFFFF in
  let* r := lift (of_option OutOfBounds (l !! index)) in
  let* r :=
    if negb (writeDirty r =? 0) then
      let* b := the_buf in
      WRITE_SECTOR_4096 (sector r) (slot_bytes b index);;
      ret (CRec (sector r) (tax r) 0)
    else ret r in
  modify (fun s => set_rec (<[index := CRec sec (s32 (tax r + 2)) (writeDirty r)]> (crec s)) s);;
  let* il := gets indexLimit in
  ret (Z.of_nat index * il).

(** ** Flushing *)

(** [for (i = 0; i < CACHE_SIZE; i++)]; [inl] is the early return. *)
Fixpoint flush_loop (n i : nat) (counter : Z) : M scache (Z + Z) :=
  match n with
  | O => ret (inr counter)
  | S n' =>
      let* l := gets crec in
      let* r := lift (of_option OutOfBounds (l !! i)) in
      if negb (writeDirty r =? 0) then
        let* b := the_buf in
        let* ret_ := WRITE_SECTOR_4096 (sector r) (slot_bytes b i) in
        modify (fun s => set_rec (<[i := CRec (sector r) (tax r) 0]> (crec s)) s);;
        if ret_ <? 0 then ret (inl ret_) else flush_loop n' (S i) (counter + 1)
      else flush_loop n' (S i) counter
  end.

Definition scache_flushSectors : M scache Z :=
  let* w := gets writeFlag in
  modify (set_flags w 0);;
  if w =? 0 then ret 0
  else
    let* r := flush_loop CACHE_SIZE 0 0 in
    match r with
    | inl e => ret e
    | inr counter => modify (fun s => set_flags 0 (flushCounter s) s);; ret counter
    end.

(** "write precaution" *)
Definition count_flush : M scache unit :=
  let* f := gets flushCounter in
  let f := u32 (f + 1) in
  modify (fun s => set_flags (writeFlag s) f s);;
  if f =? FLUSH_TRIGGER then scache_flushSectors;; ret tt else ret tt.

(** ** Operations: the result, and the offset of the sector in the cache buffer *)

Definition scache_readSector (sec : Z) : M scache (Z * option Z) :=
  modify (fun s => set_stat (u32 (cacheAccess s + 1)) (cacheHits s) s);;
  let* index := getIndexRead sec in
  let* ss := gets sectorSize in
  if 0 <=? index then
    modify (fun s => set_stat (cacheAccess s) (u32 (cacheHits s + 1)) s);;
    ret (ss, Some (index * ss))
  else
    let* il := gets indexLimit in
    let allignedSector := sec / il * il in
    let* index := getIndexWrite allignedSector in
    let* r := READ_SECTOR_4096 allignedSector (Z.to_nat (index * ss)) in
    if r <? 0 then ret (r, None)
    else
      count_flush;;
      ret (ss, Some (index * ss + sec mod il * ss)).

(** The sector's slot is taken without reading its other sectors. *)
Definition scache_allocSector (sec : Z) : M scache (Z * option Z) :=
  let* index := getIndexRead sec in
  let* ss := gets sectorSize in
  if 0 <=? index then ret (ss, Some (index * ss))
  else
    let* il := gets indexLimit in
    let* index := getIndexWrite (sec / il * il) in
    ret (ss, Some (index * ss + sec mod il * ss)).

Definition scache_writeSector (sec : Z) : M scache Z :=
  let* slot := getSlot sec in
  match slot with
  | None => ret (-1)
  | Some i =>
      let* l := gets crec in
      let* r := lift (of_option OutOfBounds (l !! i)) in
      modify (set_rec (<[i := CRec (sector r) (s32 (tax r + 2)) (s8 (writeDirty r + 1))]> l));;
      modify (fun s => set_flags (u32 (writeFlag s + 1)) (flushCounter s) s);;
      count_flush;;
      gets sectorSize
  end.

(** [alloc] is what [malloc] returns, a buffer with any contents. *)
Definition scache_init (alloc : option (list Z)) (disk_init sectSize : Z) : M scache Z :=
  modify (set_geometry sectSize (Z.quot 4096 sectSize));;
  let* b := gets sectorBuf in
  let* ok :=
    match b, alloc with
    | Some _, _ => ret true
    | None, None => ret false
    | None, Some b => modify (set_buf (Some b));; ret true
    end in
  if negb ok then ret (-1)
  else modify (set_stat 0 0);; initRecords;; ret disk_init.

Definition scache_getStat : M scache (Z * Z) := gets (fun s => (cacheAccess s, cacheHits s)).

Definition scache_close : M scache unit :=
  scache_flushSectors;; modify (set_buf None).

(** ** What the cache stands for *)

(** A record in use holds an aligned sector below the mark of unused slots. *)
Definition rec_ok (il : Z) (r : cache_record) : Prop :=
  (sector r = NO_SECTOR /\ writeDirty r = 0) \/
  (exists k, 0 <= k /\ sector r = k * il /\ sector r + il <= NO_SECTOR).

Definition BUF_LEN : nat := CACHE_SIZE * 4096.

Record core (s : scache) (b : list Z) : Prop := {
  co_geo : 0 < sectorSize s /\ 0 < indexLimit s /\ sectorSize s * indexLimit s = 4096;
  co_buf : sectorBuf s = Some b;
  co_blen : length b = BUF_LEN;
  co_len : length (crec s) = CACHE_SIZE;
  co_rec : forall i r, crec s !! i = Some r -> rec_ok (indexLimit s) r;
  co_uniq : forall i j r r', crec s !! i = Some r -> crec s !! j = Some r' -> sector r = sector r' ->
              sector r <> NO_SECTOR -> i = j;
  co_clean : forall i r, crec s !! i = Some r -> sector r <> NO_SECTOR -> writeDirty r = 0 ->
               slot_bytes b i = load_bytes (disk s) (sector r * sectorSize s) 4096;
  co_dirty : forall i r, crec s !! i = Some r -> 0 <= writeDirty r <= writeFlag s;
  co_io : disk_rets s = [];
  co_u8 : Forall is_u8 b;
}.

(** The sector an address of the disk belongs to, aligned to a slot. *)
Definition base (s : scache) (a : Z) : Z := a / 4096 * indexLimit s.

(** The contents of the disk as the file system sees it. *)
Definition logical (s : scache) (a : Z) : Z :=
  match list_find (fun r => sector r = base s a) (crec s), sectorBuf s with
  | Some (i, _), Some b => byte_at b (i * 4096 + Z.to_nat (a mod 4096))
  | _, _ => load8 (disk s) a
  end.

(** Addresses of sectors that can be cached. *)
Definition addr_ok (s : scache) (a : Z) : Prop := 0 <= a /\ base s a + indexLimit s <= NO_SECTOR.

Lemma logical_cached s b i r a :
  core s b -> addr_ok s a -> crec s !! i = Some r -> sector r = base s a ->
  logical s a = byte_at b (i * 4096 + Z.to_nat (a mod 4096)).
Proof.
  intros C [Ha Hb] Hi Hr. unfold logical. rewrite (co_buf _ _ C).
  destruct (list_find _ (crec s)) as [[j r']|] eqn:E.
  - apply list_find_Some in E as (Hj & Hr' & _).
    rewrite (co_uniq _ _ C i j r r' Hi Hj); [done|congruence|].
    destruct (co_geo _ _ C) as (? & ? & ?). unfold NO_SECTOR in *. lia.
  - apply list_find_None in E. rewrite Forall_forall in E. exfalso.
    apply (E r); [by eapply list_elem_of_lookup_2|done].
Qed.

Lemma logical_uncached s b a :
  core s b -> (forall i r, crec s !! i = Some r -> sector r <> base s a) ->
  logical s a = load8 (disk s) a.
Proof.
  intros C H. unfold logical. destruct (list_find _ (crec s)) as [[j r']|] eqn:E; [|done].
  apply list_find_Some in E as (Hj & Hr' & _). by apply H in Hj.
Qed.

(** The cases of an address. *)
Lemma cached_or_not s a :
  (exists i r, crec s !! i = Some r /\ sector r = base s a) \/
  (forall i r, crec s !! i = Some r -> sector r <> base s a).
Proof.
  destruct (list_find (fun r => sector r = base s a) (crec s)) as [[j r]|] eqn:E.
  - apply list_find_Some in E as (Hj & Hr & _). left. by exists j, r.
  - right. intros i r Hi Hr. apply list_find_None in E. rewrite Forall_forall in E.
    apply (E r); [by eapply list_elem_of_lookup_2|done].
Qed.

(** Two states that show the same disk. *)
Definition same_disk (s s' : scache) : Prop :=
  sectorSize s' = sectorSize s /\ indexLimit s' = indexLimit s /\
  forall a, addr_ok s a -> logical s' a = logical s a.

Lemma same_disk_refl s : same_disk s s.
Proof. done. Qed.

Lemma same_disk_trans s1 s2 s3 : same_disk s1 s2 -> same_disk s2 s3 -> same_disk s1 s3.
Proof.
  intros (H1 & H2 & H3) (H4 & H5 & H6). split; [congruence|]. split; [congruence|].
  intros a Ha. rewrite H6, H3; try done. unfold addr_ok, base in *. by rewrite H2.
Qed.

(** The block of a record in use. *)
Lemma rec_block s b i r :
  core s b -> crec s !! i = Some r -> sector r <> NO_SECTOR ->
  exists k, 0 <= k /\ sector r = k * indexLimit s /\ sector r * sectorSize s = k * 4096 /\
    sector r + indexLimit s <= NO_SECTOR.
Proof.
  intros C Hi Hn. destruct (co_rec _ _ C i r Hi) as [[? _]|(k & Hk & Hr & Hl)]; [done|].
  exists k. split; [done|]. split; [done|]. split; [|done].
  destruct (co_geo _ _ C) as (_ & _ & <-). rewrite Hr. lia.
Qed.

Lemma block_base s b k a :
  core s b -> k * indexLimit s = base s a <-> k = a / 4096.
Proof.
  intros C. unfold base. destruct (co_geo _ _ C) as (_ & H & _). split; [|by intros ->].
  intros E. apply Z.mul_cancel_r in E; lia.
Qed.

(** Bytes of a block on the disk. *)
Lemma load8_block d k bs a :
  0 <= k -> 0 <= a -> length bs = 4096%nat -> Forall is_u8 bs ->
  load8 (store_bytes d (k * 4096) bs) a =
  if decide (k = a / 4096) then byte_at bs (Z.to_nat (a mod 4096)) else load8 d a.
Proof.
  intros Hk Ha Hl Hu. pose proof (Z.div_mod a 4096 ltac:(lia)). pose proof (Z.mod_pos_bound a 4096 ltac:(lia)).
  destruct (decide (k = a / 4096)) as [E|E].
  - destruct (lookup_lt_is_Some_2 bs (Z.to_nat (a mod 4096))) as [x Hx]; [lia|].
    replace a with (k * 4096 + Z.of_nat (Z.to_nat (a mod 4096))) at 1 by lia.
    rewrite (load8_store_bytes_in _ _ _ _ x Hx). unfold byte_at. rewrite nth_lookup, Hx. cbn.
    apply u8_id. rewrite Forall_forall in Hu. apply Hu. by eapply list_elem_of_lookup_2.
  - apply load8_store_bytes_ne. rewrite Hl. lia.
Qed.

Lemma byte_at_slot b i j :
  (j < 4096)%nat -> byte_at (slot_bytes b i) j = byte_at b (i * 4096 + j).
Proof.
  intros Hj. unfold slot_bytes. pose proof (byte_at_take b (i * 4096 + j) 4096 (i * 4096) ltac:(lia)) as H.
  replace (i * 4096 + j - i * 4096)%nat with j in H by lia. exact H.
Qed.

Lemma length_slot b i : length b = BUF_LEN -> (i < CACHE_SIZE)%nat -> length (slot_bytes b i) = 4096%nat.
Proof.
  intros Hb Hi. unfold slot_bytes. rewrite length_take, length_drop, Hb. unfold BUF_LEN, CACHE_SIZE in *. lia.
Qed.

Lemma byte_at_load d a n j : (j < n)%nat -> byte_at (load_bytes d a n) j = load8 d (a + Z.of_nat j).
Proof. intros Hj. unfold byte_at. by rewrite nth_lookup, lookup_load_bytes. Qed.

(** ** Writing a slot back *)

(** Records with the same sectors. *)
Definition same_sectors (l l' : list cache_record) : Prop := sector <$> l' = sector <$> l.

Lemma same_sectors_lookup l l' i r' :
  same_sectors l l' -> l' !! i = Some r' -> exists r, l !! i = Some r /\ sector r = sector r'.
Proof.
  intros H Hi. assert (E : (sector <$> l') !! i = Some (sector r')) by (by rewrite list_lookup_fmap, Hi).
  rewrite H, list_lookup_fmap in E. destruct (l !! i) as [r|]; [|done]. exists r. by simplify_eq/=.
Qed.

Lemma same_sectors_sym l l' : same_sectors l l' -> same_sectors l' l.
Proof. by intros H. Qed.

Lemma same_sectors_insert l i r t w :
  l !! i = Some r -> same_sectors l (<[i := CRec (sector r) t w]> l).
Proof.
  intros Hi. unfold same_sectors. rewrite list_fmap_insert. cbn [sector].
  apply list_insert_id. by rewrite list_lookup_fmap, Hi.
Qed.

Lemma same_sectors_uniq l l' :
  same_sectors l l' ->
  (forall i j r r', l !! i = Some r -> l !! j = Some r' -> sector r = sector r' ->
     sector r <> NO_SECTOR -> i = j) ->
  forall i j r r', l' !! i = Some r -> l' !! j = Some r' -> sector r = sector r' ->
     sector r <> NO_SECTOR -> i = j.
Proof.
  intros H U i j r r' Hi Hj E Hn.
  destruct (same_sectors_lookup _ _ _ _ H Hi) as (q & Hq & Eq).
  destruct (same_sectors_lookup _ _ _ _ H Hj) as (q' & Hq' & Eq').
  apply (U i j q q'); congruence.
Qed.

(** The disk is the same when the cached blocks are and the others on disk are. *)
Lemma same_disk_intro s s' b :
  core s b -> core s' b -> sectorSize s' = sectorSize s -> indexLimit s' = indexLimit s ->
  same_sectors (crec s) (crec s') ->
  (forall a, 0 <= a -> (forall i r, crec s !! i = Some r -> sector r <> base s a) ->
     load8 (disk s') a = load8 (disk s) a) ->
  same_disk s s'.
Proof.
  intros C C' Hs Hl Hsec Hd. split; [done|]. split; [done|]. intros a Ha.
  assert (Hb : base s' a = base s a) by (unfold base; by rewrite Hl).
  assert (Ha' : addr_ok s' a) by (unfold addr_ok; rewrite Hb, Hl; exact Ha).
  destruct (cached_or_not s a) as [(i & r & Hi & Hr)|Hno].
  - rewrite (logical_cached s b i r a) by done.
    destruct (same_sectors_lookup _ _ _ _ (same_sectors_sym _ _ Hsec) Hi) as (r' & Hi' & E).
    apply (logical_cached s' b i r' a); congruence.
  - rewrite (logical_uncached s b) by done. rewrite (logical_uncached s' b); [apply Hd; [apply Ha|exact Hno]|done|].
    intros i r' Hi'. destruct (same_sectors_lookup _ _ _ _ Hsec Hi') as (r & Hi & <-).
    rewrite Hb. exact (Hno i r Hi).
Qed.

Lemma store_block_other d k k' bs :
  length bs = 4096%nat -> k <> k' ->
  load_bytes (store_bytes d (k * 4096) bs) (k' * 4096) 4096 = load_bytes d (k' * 4096) 4096.
Proof.
  intros Hl Hk. apply load_bytes_ext. intros a Ha. apply load8_store_bytes_ne. rewrite Hl. lia.
Qed.

Lemma Forall_u8_slot b i : Forall is_u8 b -> Forall is_u8 (slot_bytes b i).
Proof. intros H. unfold slot_bytes. by apply Forall_take, Forall_drop. Qed.

(** The state after slot [i], with record [r], was written to the disk. *)
Definition written_back (s : scache) (b : list Z) (i : nat) (r : cache_record) : scache :=
  set_rec (<[i := CRec (sector r) (tax r) 0]> (crec s))
    (set_disk (store_bytes (disk s) (sector r * sectorSize s) (slot_bytes b i)) [] s).

Lemma write_back s b i r :
  core s b -> crec s !! i = Some r -> sector r <> NO_SECTOR ->
  core (written_back s b i r) b /\ same_disk s (written_back s b i r).
Proof.
  intros C Hi Hn. destruct (rec_block s b i r C Hi Hn) as (k & Hk & Ek & Ekb & Hlim).
  pose proof (lookup_lt_Some _ _ _ Hi) as Hlt. rewrite (co_len _ _ C) in Hlt.
  pose proof (length_slot b i (co_blen _ _ C) Hlt) as Hls.
  pose proof (Forall_u8_slot b i (co_u8 _ _ C)) as Hu.
  assert (Hss : same_sectors (crec s) (crec (written_back s b i r))) by (by apply same_sectors_insert).
  assert (C' : core (written_back s b i r) b).
  { destruct C as [Cg Cb Cbl Cl Cr Cu Cc Cd Cio Cu8]. split; try done.
    - cbn. by rewrite length_insert.
    - intros j q Hj. cbn in Hj. apply list_lookup_insert_Some in Hj as [(-> & <- & _)|[_ Hj]]; [|by eapply Cr].
      right. by exists k.
    - by apply (same_sectors_uniq (crec s)).
    - intros j q Hj Hq Hw. cbn [disk written_back set_rec set_disk sectorSize].
      cbn in Hj. apply list_lookup_insert_Some in Hj as [(-> & <- & _)|[Hne Hj]].
      + cbn [sector]. pose proof (load_store_bytes (disk s) (sector r * sectorSize s) _ Hu) as E.
        rewrite Hls in E. by symmetry.
      + rewrite (Cc j q Hj Hq Hw).
        destruct (Cr j q Hj) as [[? _]|(k' & Hk' & Er' & _)]; [done|].
        destruct Cg as (G1 & G2 & G3).
        assert (E' : sector q * sectorSize s = k' * 4096) by (rewrite Er'; nia). rewrite E', Ekb.
        symmetry. apply store_block_other; [done|]. intros ->. apply Hne.
        apply (Cu i j r q Hi Hj); [congruence|done].
    - intros j q Hj. cbn in Hj. apply list_lookup_insert_Some in Hj as [(-> & <- & _)|[_ Hj]]; [|by eapply Cd].
      cbn. specialize (Cd _ _ Hi). lia. }
  split; [done|]. apply (same_disk_intro s _ b); try done.
  intros a Ha Hno. cbn [disk written_back set_rec set_disk]. rewrite Ekb, load8_block by done.
  destruct (decide (k = a / 4096)) as [E|]; [|done]. exfalso. apply (Hno i r Hi). rewrite Ek.
  by apply (block_base s b).
Qed.

Lemma WRITE_ok sec bs s :
  disk_rets s = [] ->
  WRITE_SECTOR_4096 sec bs s = Ok (0, set_disk (store_bytes (disk s) (sec * sectorSize s) bs) [] s).
Proof. intros H. unfold WRITE_SECTOR_4096. by rewrite H. Qed.

Lemma the_buf_ok s b : core s b -> the_buf s = Ok (b, s).
Proof. intros C. unfold the_buf. by rewrite (co_buf _ _ C). Qed.

Lemma core_flags s b w f :
  core s b -> (forall i r, crec s !! i = Some r -> 0 <= writeDirty r <= w) -> core (set_flags w f s) b.
Proof. intros [] H. by split. Qed.

Lemma dirty_used s b i r : core s b -> crec s !! i = Some r -> writeDirty r <> 0 -> sector r <> NO_SECTOR.
Proof.
  intros C Hi Hw. destruct (co_rec _ _ C i r Hi) as [[_ ?]|(k & Hk & Hr & Hl)]; [done|].
  destruct (co_geo _ _ C) as (_ & ? & _). lia.
Qed.

Definition all_clean (s : scache) : Prop := forall i r, crec s !! i = Some r -> writeDirty r = 0.

(** A step that keeps the buffer, the sectors of the records and the disk as seen. *)
Record keeps (s s' : scache) (b : list Z) : Prop := {
  kp_core : core s' b;
  kp_disk : same_disk s s';
  kp_sec : same_sectors (crec s) (crec s');
}.

Lemma keeps_trans s1 s2 s3 b : keeps s1 s2 b -> keeps s2 s3 b -> keeps s1 s3 b.
Proof.
  intros [A1 A2 A3] [B1 B2 B3]. split; [done|by eapply same_disk_trans|].
  unfold same_sectors in *. congruence.
Qed.

Lemma flush_loop_spec n : forall i counter s b,
  core s b -> (i + n)%nat = CACHE_SIZE ->
  (forall j r, (j < i)%nat -> crec s !! j = Some r -> writeDirty r = 0) ->
  exists c s', flush_loop n i counter s = Ok (inr c, s') /\ keeps s s' b /\ all_clean s' /\
    writeFlag s' = writeFlag s /\ flushCounter s' = flushCounter s.
Proof.
  induction n as [|n IH]; intros i counter s b C Hin Hcl; cbn [flush_loop].
  { exists counter, s. split; [done|]. split; [by split|]. split; [|done].
    intros j r Hj. apply (Hcl j); [|done]. apply lookup_lt_Some in Hj. rewrite (co_len _ _ C) in Hj. lia. }
  rewrite (bind_ok _ _ s (crec s) s) by done.
  destruct (lookup_lt_is_Some_2 (crec s) i) as [r Hr]; [rewrite (co_len _ _ C); lia|].
  rewrite (bind_ok _ _ s r s) by (unfold lift; by rewrite Hr).
  destruct (Z.eqb_spec (writeDirty r) 0) as [H0|H0]; cbn [negb].
  - destruct (IH (S i) counter s b C ltac:(lia)) as (c & s' & E & H).
    { intros j q Hj Hq. destruct (decide (j = i)) as [->|]; [congruence|]. apply (Hcl j); [lia|done]. }
    by exists c, s'.
  - rewrite (bind_ok _ _ s b s) by (by apply the_buf_ok).
    rewrite (bind_ok _ _ _ _ _ (WRITE_ok _ _ s (co_io _ _ C))).
    rewrite (bind_ok _ _ _ tt (written_back s b i r)) by done. cbn [Z.ltb].
    destruct (write_back s b i r C Hr) as (C1 & D1); [by eapply dirty_used|].
    destruct (IH (S i) (counter + 1) (written_back s b i r) b C1 ltac:(lia))
      as (c & s' & E & K & Hc & Hf).
    { intros j q Hj Hq. cbn in Hq. apply list_lookup_insert_Some in Hq as [(-> & <- & _)|[Hne Hq]]; [done|].
      apply (Hcl j); [lia|done]. }
    exists c, s'. split; [exact E|]. split; [|done].
    eapply keeps_trans; [|exact K]. split; [done|done|by apply same_sectors_insert].
Qed.

Lemma flush_spec s b :
  core s b -> exists c s', scache_flushSectors s = Ok (c, s') /\ keeps s s' b /\ all_clean s' /\
    writeFlag s' = 0 /\ flushCounter s' = 0.
Proof.
  intros C. unfold scache_flushSectors. rewrite (bind_ok _ _ s (writeFlag s) s) by done.
  set (s1 := set_flags (writeFlag s) 0 s). rewrite (bind_ok _ _ s tt s1) by done.
  assert (C1 : core s1 b) by (apply core_flags; [done|apply (co_dirty _ _ C)]).
  destruct (Z.eqb_spec (writeFlag s) 0) as [Hw|Hw].
  - exists 0, s1. split; [done|]. split; [by split|]. split; [|by split].
    intros i r Hi. pose proof (co_dirty _ _ C1 i r Hi) as H. cbn in H. lia.
  - destruct (flush_loop_spec CACHE_SIZE 0 0 s1 b C1 eq_refl) as (c & s2 & E & [C2 D2 S2] & Hc & Hf1 & Hf2);
      [lia|].
    rewrite (bind_ok _ _ _ _ _ E). exists c, (set_flags 0 (flushCounter s2) s2). split; [done|].
    split; [|by split]. split; [|done|done].
    apply core_flags; [done|]. intros i r Hi. rewrite (Hc i r Hi). lia.
Qed.

(** The counters between operations. *)
Definition flags_ok (s : scache) (limit : Z) : Prop :=
  0 <= writeFlag s <= flushCounter s /\ flushCounter s <= limit.

Lemma count_flush_spec s b :
  core s b -> 0 <= writeFlag s <= flushCounter s + 1 -> 0 <= flushCounter s <= 15 ->
  exists s', count_flush s = Ok (tt, s') /\ keeps s s' b /\ flags_ok s' 15.
Proof.
  intros C Hw Hf. unfold count_flush. rewrite (bind_ok _ _ s (flushCounter s) s) by done.
  assert (E : u32 (flushCounter s + 1) = flushCounter s + 1) by (apply Z.mod_small; lia). rewrite E.
  set (s1 := set_flags (writeFlag s) (flushCounter s + 1) s).
  rewrite (bind_ok _ _ s tt s1) by done.
  assert (C1 : core s1 b) by (apply core_flags; [done|apply (co_dirty _ _ C)]).
  destruct (Z.eqb_spec (flushCounter s + 1) FLUSH_TRIGGER) as [Ht|Ht].
  - destruct (flush_spec s1 b C1) as (c & s2 & E2 & K & _ & W & F).
    rewrite (bind_ok _ _ _ _ _ E2). exists s2. split; [done|]. split; [|unfold flags_ok; lia].
    eapply keeps_trans; [|exact K]. by split.
  - exists s1. split; [done|]. split; [by split|]. unfold flags_ok, FLUSH_TRIGGER in *. cbn. lia.
Qed.

(** ** Looking a sector up *)

(** The aligned sector of a sector that can be cached. *)
Definition sec_ok (s : scache) (sec : Z) : Prop :=
  0 <= sec /\ sec / indexLimit s * indexLimit s + indexLimit s <= NO_SECTOR.

Lemma hit_iff s b i r sec :
  core s b -> crec s !! i = Some r -> sec_ok s sec ->
  hit (indexLimit s) sec r = true <-> sector r = sec / indexLimit s * indexLimit s.
Proof.
  intros C Hi [H0 Hs]. destruct (co_geo _ _ C) as (_ & Hil & _).
  pose proof (co_rec _ _ C i r Hi) as Hr. revert Hil Hr Hs. generalize (indexLimit s) as il. intros il Hil Hr Hs.
  pose proof (Z.div_mod sec il ltac:(lia)). pose proof (Z.mod_pos_bound sec il ltac:(lia)).
  unfold hit. rewrite andb_true_iff, Z.leb_le, Z.ltb_lt.
  destruct Hr as [[Hr _]|(k & Hk & Hr & Hl)].
  - rewrite Hr. split; [|lia]. intros [Hle _]. nia.
  - rewrite Hr in *. unfold u32. rewrite Z.mod_small by (unfold NO_SECTOR in *; nia). split.
    + intros [Hle Hlt]. f_equal. apply (Z.div_unique sec il k (sec - k * il)); lia.
    + intros E. apply Z.mul_cancel_r in E; [|lia]. subst k. lia.
Qed.

Lemma last_hit_none il sec l i idx :
  (forall j r, l !! j = Some r -> hit il sec r = false) -> last_hit il sec l i idx = idx.
Proof.
  revert i idx. induction l as [|r l IH]; intros i idx H; [done|]. cbn [last_hit].
  rewrite (H 0%nat r eq_refl). apply IH. intros j q Hj. exact (H (S j) q Hj).
Qed.

Lemma last_hit_one il sec l j r i idx :
  l !! j = Some r -> hit il sec r = true ->
  (forall j' r', l !! j' = Some r' -> hit il sec r' = true -> j' = j) ->
  last_hit il sec l i idx = Some (i + j)%nat.
Proof.
  revert i j idx. induction l as [|q l IH]; intros i [|j] idx Hj Hh Hu; try done; cbn [last_hit].
  - injection Hj as ->. rewrite Hh, last_hit_none; [f_equal; lia|].
    intros k q Hk. apply not_true_is_false. intros Hq. by specialize (Hu (S k) q Hk Hq).
  - destruct (hit il sec q) eqn:Eq; [by specialize (Hu 0%nat q eq_refl Eq)|].
    rewrite (IH (S i) j); [f_equal; lia|done|done|].
    intros k r' Hk Hr'. specialize (Hu (S k) r' Hk Hr'). lia.
Qed.

Lemma slot_from_one il sec l j r i :
  l !! j = Some r -> hit il sec r = true ->
  (forall j' r', l !! j' = Some r' -> hit il sec r' = true -> j' = j) ->
  slot_from il sec l i = Some (i + j)%nat.
Proof.
  revert i j. induction l as [|q l IH]; intros i [|j] Hj Hh Hu; try done; cbn [slot_from].
  - injection Hj as ->. rewrite Hh. f_equal. lia.
  - destruct (hit il sec q) eqn:Eq; [by specialize (Hu 0%nat q eq_refl Eq)|].
    rewrite (IH (S i) j); [f_equal; lia|done|done|].
    intros k r' Hk Hr'. specialize (Hu (S k) r' Hk Hr'). lia.
Qed.

(** Changes of the tax only. *)
Lemma core_retax s b l' :
  core s b -> length l' = length (crec s) ->
  (forall i r', l' !! i = Some r' -> exists r, crec s !! i = Some r /\ sector r' = sector r /\
     writeDirty r' = writeDirty r) ->
  keeps s (set_rec l' s) b.
Proof.
  intros C Hl H.
  assert (S1 : same_sectors (crec s) l').
  { apply list_eq. intros i. rewrite !list_lookup_fmap. destruct (l' !! i) as [r'|] eqn:E.
    - destruct (H i r' E) as (r & -> & E1 & _). cbn. by rewrite E1.
    - apply lookup_ge_None in E. rewrite (proj2 (lookup_ge_None (crec s) i)); [done|lia]. }
  assert (C1 : core (set_rec l' s) b).
  { destruct C as [Cg Cb Cbl Cl Cr Cu Cc Cd Cio Cu8]. split; try done.
    - cbn. lia.
    - intros i r' Hi. destruct (H i r' Hi) as (r & Hr & E1 & E2). specialize (Cr i r Hr).
      unfold rec_ok in *. cbn. by rewrite E1, E2.
    - by apply (same_sectors_uniq (crec s)).
    - intros i r' Hi Hn Hw. destruct (H i r' Hi) as (r & Hr & E1 & E2). rewrite E1 in *.
      apply (Cc i r); congruence.
    - intros i r' Hi. destruct (H i r' Hi) as (r & Hr & E1 & E2). rewrite E2. by apply (Cd i). }
  split; [done| |done]. by apply (same_disk_intro s _ b).
Qed.

Lemma keeps_pay s b sec : core s b -> keeps s (set_rec (pay (indexLimit s) sec <$> crec s) s) b.
Proof.
  intros C. apply core_retax; [done|apply length_fmap|].
  intros i r' Hi. apply list_lookup_fmap_Some in Hi as (r & -> & Hr). by exists r.
Qed.

Lemma min_tax_lt l : forall i index t, (min_tax l i index t < i + length l \/ min_tax l i index t = index)%nat.
Proof.
  induction l as [|r l IH]; intros i index t; cbn [min_tax length]; [by right|].
  destruct (tax r <? t).
  - destruct (IH (S i) i (tax r)) as [H|H]; left; lia.
  - destruct (IH (S i) index t) as [H|H]; [left; lia|by right].
Qed.

(** ** Taking a slot *)

(** Slot [i] now holds the block at [sec]. *)
Definition loaded (s : scache) (b : list Z) (i : nat) (sec t : Z) : scache :=
  set_buf (Some (splice b (i * 4096) (load_bytes (disk s) (sec * sectorSize s) 4096)))
    (set_rec (<[i := CRec sec t 0]> (crec s)) s).

Lemma splice_slot b i bs j :
  length b = BUF_LEN -> length bs = 4096%nat -> (i < CACHE_SIZE)%nat -> (j < CACHE_SIZE)%nat ->
  slot_bytes (splice b (i * 4096) bs) j = if decide (j = i) then bs else slot_bytes b j.
Proof.
  intros Hb Hbs Hi Hj. unfold BUF_LEN, CACHE_SIZE in *.
  assert (L : length (splice b (i * 4096) bs) = length b) by (apply length_splice; lia).
  unfold slot_bytes. destruct (decide (j = i)) as [->|Hne].
  - pose proof (read_splice b (i * 4096) bs ltac:(lia)) as H. rewrite Hbs in H. exact H.
  - apply window_ext; [lia|lia|]. intros x Hx. rewrite lookup_splice by lia.
    destruct (decide _); [lia|done].
Qed.

Section LoadSlot.
  Context (s : scache) (b : list Z) (i : nat) (r : cache_record) (sec t k : Z).
  Context (C : core s b) (Hi : crec s !! i = Some r) (Hw : writeDirty r = 0).
  Context (Hk : 0 <= k) (Ek : sec = k * indexLimit s) (Hlim : sec + indexLimit s <= NO_SECTOR).
  Context (Hno : forall j q, crec s !! j = Some q -> sector q <> sec).

Let bs := load_bytes (disk s) (sec * sectorSize s) 4096.
Let b2 := splice b (i * 4096) bs.

Lemma load_slot_lt : (i < CACHE_SIZE)%nat.
Proof using C Hi. pose proof (lookup_lt_Some _ _ _ Hi) as H. by rewrite (co_len _ _ C) in H. Qed.

Lemma load_slot_bytes j :
  (j < CACHE_SIZE)%nat -> slot_bytes b2 j = if decide (j = i) then bs else slot_bytes b j.
Proof using C Hi.
  intros Hj. apply splice_slot; [apply (co_blen _ _ C)|apply length_load_bytes|apply load_slot_lt|done].
Qed.

Lemma load_slot_byte j x :
  (j < CACHE_SIZE)%nat -> (x < 4096)%nat ->
  byte_at b2 (j * 4096 + x) = if decide (j = i) then byte_at bs x else byte_at b (j * 4096 + x).
Proof using C Hi.
  intros Hj Hx. rewrite <- byte_at_slot, load_slot_bytes by assumption.
  destruct (decide (j = i)); [reflexivity|]. by apply byte_at_slot.
Qed.

Lemma load_slot_core : core (loaded s b i sec t) b2.
Proof using C Hi Hw Hk Ek Hlim Hno.
  pose proof load_slot_lt as Hlt. pose proof load_slot_bytes as Hslot.
  pose proof C as [Cg Cb Cbl Cl Cr Cu Cc Cd Cio Cu8]. split.
  - exact Cg.
  - reflexivity.
  - unfold b2. rewrite length_splice; [exact Cbl|]. unfold bs. rewrite length_load_bytes, Cbl.
    unfold BUF_LEN, CACHE_SIZE in *. lia.
  - cbn [crec loaded set_buf set_rec]. by rewrite length_insert.
  - intros j q Hj. apply list_lookup_insert_Some in Hj as [(-> & <- & _)|[_ Hj]]; [|exact (Cr j q Hj)].
    right. exists k. split; [exact Hk|]. split; [exact Ek|exact Hlim].
  - intros j j' q q' Hj Hj' E Hq.
    apply list_lookup_insert_Some in Hj as [(-> & <- & _)|[Hne Hj]];
      apply list_lookup_insert_Some in Hj' as [(-> & <- & _)|[Hne' Hj']]; [reflexivity| | |].
    + by destruct (Hno j' q' Hj').
    + by destruct (Hno j q Hj).
    + exact (Cu j j' q q' Hj Hj' E Hq).
  - intros j q Hj Hq Hwq. pose proof (lookup_lt_Some _ _ _ Hj) as Hjl.
    cbn [crec loaded set_buf set_rec] in Hjl, Hj. rewrite length_insert, Cl in Hjl. rewrite Hslot by exact Hjl.
    apply list_lookup_insert_Some in Hj as [(-> & <- & _)|[Hne Hj]].
    + by rewrite decide_True.
    + rewrite decide_False by congruence. exact (Cc j q Hj Hq Hwq).
  - intros j q Hj. apply list_lookup_insert_Some in Hj as [(-> & <- & _)|[_ Hj]]; [|exact (Cd j q Hj)].
    cbn [writeDirty]. specialize (Cd _ _ Hi). cbn [writeFlag loaded set_buf set_rec]. lia.
  - exact Cio.
  - unfold b2, splice. repeat (apply Forall_app; split); [by apply Forall_take| |by apply Forall_drop].
    apply Forall_u8_load_bytes.
Qed.

Lemma load_slot_disk : same_disk s (loaded s b i sec t).
Proof using C Hi Hw Hk Ek Hlim Hno.
  pose proof load_slot_core as C'. split; [reflexivity|]. split; [reflexivity|]. intros a Ha.
  destruct (co_geo _ _ C) as (Gs & Gi & Gm).
  pose proof (Z.div_mod a 4096 ltac:(lia)) as Hdm. pose proof (Z.mod_pos_bound a 4096 ltac:(lia)) as Hmod.
  assert (Hm : (Z.to_nat (a mod 4096) < 4096)%nat) by lia.
  destruct (decide (sec = base s a)) as [Hsec|Hsec].
  { rewrite (logical_uncached s b); [|done|intros j q Hj; rewrite <- Hsec; by eapply Hno].
    rewrite (logical_cached _ b2 i (CRec sec t 0) a); [|done|done| |done].
    2:{ cbn. by apply list_lookup_insert_eq; rewrite (co_len _ _ C); apply load_slot_lt. }
    rewrite load_slot_byte, decide_True by (done || apply load_slot_lt).
    unfold bs. rewrite byte_at_load by exact Hm. f_equal.
    rewrite Ek in Hsec |- *. apply (block_base s b) in Hsec; [|done]. nia. }
  destruct (cached_or_not s a) as [(j & q & Hj & Hq)|Hnc].
  2:{ rewrite (logical_uncached s b) by done. rewrite (logical_uncached _ b2); [done|done|].
      intros j q Hj. apply list_lookup_insert_Some in Hj as [(-> & <- & _)|[_ Hj]]; [done|].
      exact (Hnc j q Hj). }
  destruct (decide (j = i)) as [->|Hne].
  - rewrite (logical_cached s b i q a) by done. rewrite Hi in Hj. injection Hj as <-.
    rewrite (logical_uncached _ b2); [|done|].
    2:{ intros j q Hj. change (base (loaded s b i sec t) a) with (base s a).
        apply list_lookup_insert_Some in Hj as [(-> & <- & _)|[Hne Hj]]; [done|].
        intros E. apply Hne. apply (co_uniq _ _ C i j r q Hi Hj); [congruence|].
        rewrite Hq. destruct Ha as [_ Ha]. unfold NO_SECTOR in *. lia. }
    rewrite <- byte_at_slot by done.
    rewrite (co_clean _ _ C i r Hi); [|rewrite Hq; destruct Ha; unfold NO_SECTOR in *; lia|done].
    rewrite byte_at_load by done. cbn [disk loaded set_buf set_rec]. f_equal. rewrite Hq. unfold base.
    replace (a / 4096 * indexLimit s * sectorSize s) with (a / 4096 * 4096) by (rewrite <- Gm; ring). lia.
  - rewrite (logical_cached s b j q a) by done.
    pose proof (lookup_lt_Some _ _ _ Hj) as Hjl. rewrite (co_len _ _ C) in Hjl.
    rewrite (logical_cached _ b2 j q a); [|done|done| |done].
    2:{ cbn. by rewrite list_lookup_insert_ne. }
    rewrite load_slot_byte by done. by rewrite decide_False.
Qed.
End LoadSlot.

Lemma READ_ok sec i s b :
  disk_rets s = [] -> sectorBuf s = Some b -> length b = BUF_LEN -> (i < CACHE_SIZE)%nat ->
  READ_SECTOR_4096 sec (i * 4096) s =
  Ok (0, set_buf (Some (splice b (i * 4096) (load_bytes (disk s) (sec * sectorSize s) 4096))) s).
Proof.
  intros Hr Hb Hl Hi. unfold READ_SECTOR_4096. rewrite Hr, Hb. cbn [head default from_option Z.ltb Z.compare].
  rewrite (proj2 (Nat.ltb_ge _ _)) by (rewrite Hl; unfold BUF_LEN, CACHE_SIZE in *; lia).
  unfold set_buf, set_disk. cbn [disk sectorSize indexLimit crec cacheAccess cacheHits writeFlag flushCounter disk_rets tail].
  by rewrite Hr.
Qed.

Lemma retake s d i x y :
  let s1 := set_rec (<[i := y]> (crec s)) (set_disk d [] s) in
  set_rec (<[i := x]> (crec s1)) s1 = set_rec (<[i := x]> (crec s)) (set_disk d [] s).
Proof. unfold set_rec, set_disk. cbn [crec]. rewrite list_insert_insert_eq. reflexivity. Qed.

(** The record with the least tax gives its slot to the block at [sec]. *)
Lemma evict_spec s b sec :
  core s b -> (exists k, 0 <= k /\ sec = k * indexLimit s /\ sec + indexLimit s <= NO_SECTOR) ->
  (forall j q, crec s !! j = Some q -> sector q <> sec) ->
  exists i t s1 s2 b2, getIndexWrite sec s = Ok (Z.of_nat i * indexLimit s, s1) /\ (i < CACHE_SIZE)%nat /\
    sectorSize s1 = sectorSize s /\
    READ_SECTOR_4096 sec (i * 4096) s1 = Ok (0, s2) /\ core s2 b2 /\ same_disk s s2 /\
    crec s2 !! i = Some (CRec sec t 0) /\ writeFlag s2 = writeFlag s /\ flushCounter s2 = flushCounter s.
Proof.
  intros C Hsec Hno. unfold getIndexWrite. rewrite (bind_ok _ _ s (crec s) s) by done.
  set (i := min_tax (crec s) 0 0 0x0FFFFFFF).
  assert (Hi : (i < CACHE_SIZE)%nat).
  { destruct (min_tax_lt (crec s) 0 0 0x0FFFFFFF) as [H|H]; fold i in H.
    - rewrite (co_len _ _ C) in H. lia.
    - rewrite H. unfold CACHE_SIZE. lia. }
  clearbody i. destruct (lookup_lt_is_Some_2 (crec s) i) as [r Hr]; [by rewrite (co_len _ _ C)|].
  rewrite (bind_ok _ _ s r s) by (unfold lift; by rewrite Hr).
  set (t := s32 (tax r + 2)).
  assert (Hgo : forall s' s'', core s' b -> same_disk s s' -> crec s' !! i = Some (CRec (sector r) (tax r) 0) ->
    same_sectors (crec s) (crec s') -> writeFlag s' = writeFlag s -> flushCounter s' = flushCounter s ->
    s'' = set_rec (<[i := CRec sec t 0]> (crec s')) s' ->
    exists s2 b2, READ_SECTOR_4096 sec (i * 4096) s'' = Ok (0, s2) /\
      core s2 b2 /\ same_disk s s2 /\ crec s2 !! i = Some (CRec sec t 0) /\
      writeFlag s2 = writeFlag s /\ flushCounter s2 = flushCounter s).
  { intros s' s'' C' D' Hr' Hss Hw Hf ->. destruct Hsec as (k & Hk & Ek & Hlim).
    rewrite (READ_ok _ _ _ b); [|apply (co_io _ _ C')|apply (co_buf _ _ C')|apply (co_blen _ _ C')|done].
    pose proof (proj1 (proj2 D')) as Hil. rewrite <- Hil in Ek, Hlim.
    assert (Hno' : forall j q, crec s' !! j = Some q -> sector q <> sec).
    { intros j q Hj. destruct (same_sectors_lookup _ _ _ _ Hss Hj) as (q0 & Hq0 & <-). by eapply Hno. }
    do 2 eexists. split; [reflexivity|].
    split; [exact (load_slot_core s' b i _ sec t k C' Hr' eq_refl Hk Ek Hlim Hno')|].
    split; [exact (same_disk_trans _ _ _ D' (load_slot_disk s' b i _ sec t k C' Hr' eq_refl Hk Ek Hlim Hno'))|].
    split; [|by split]. cbn. apply list_lookup_insert_eq. by rewrite (co_len _ _ C'). }
  destruct (Z.eqb_spec (writeDirty r) 0) as [H0|H0]; cbn [negb].
  - rewrite (bind_ok _ _ s r s) by done. rewrite (bind_ok _ _ _ _ _ eq_refl).
    destruct (Hgo s (set_rec (<[i := CRec sec t 0]> (crec s)) s)) as (s2 & b2 & H); try done.
    { rewrite Hr. f_equal. destruct r. cbn in *. by subst. }
    rewrite H0. exists i, t. do 3 eexists. split; [reflexivity|]. split; [exact Hi|]. split; [reflexivity|exact H].
  - rewrite (bind_ok _ _ s (CRec (sector r) (tax r) 0)
      (set_disk (store_bytes (disk s) (sector r * sectorSize s) (slot_bytes b i)) [] s)).
    2:{ rewrite (bind_ok _ _ s b s) by (by apply the_buf_ok).
        rewrite (bind_ok _ _ _ _ _ (WRITE_ok _ _ s (co_io _ _ C))). done. }
    rewrite (bind_ok _ _ _ _ _ eq_refl).
    destruct (write_back s b i r C Hr) as (C1 & D1); [by eapply dirty_used|].
    cbn [writeDirty tax]. fold t.
    set (sd := set_disk (store_bytes (disk s) (sector r * sectorSize s) (slot_bytes b i)) [] s).
    assert (Hi1 : crec (written_back s b i r) !! i = Some (CRec (sector r) (tax r) 0)).
    { cbn [crec written_back set_rec]. apply list_lookup_insert_eq. by rewrite (co_len _ _ C). }
    destruct (Hgo (written_back s b i r) (set_rec (<[i := CRec sec t 0]> (crec sd)) sd) C1 D1 Hi1
      (same_sectors_insert _ _ _ _ _ Hr) eq_refl eq_refl (eq_sym (retake s _ i _ _))) as (s2 & b2 & H).
    exists i, t. do 3 eexists. split; [reflexivity|]. split; [exact Hi|]. split; [reflexivity|exact H].
Qed.

Lemma aligned_ok s b sec :
  core s b -> sec_ok s sec ->
  exists k, 0 <= k /\ sec / indexLimit s * indexLimit s = k * indexLimit s /\
    sec / indexLimit s * indexLimit s + indexLimit s <= NO_SECTOR.
Proof.
  intros C [H0 H1]. destruct (co_geo _ _ C) as (_ & ? & _). exists (sec / indexLimit s).
  split; [by apply Z.div_pos|done].
Qed.

(** The sector is in slot [i], at offset [p] of the buffer. *)
Definition at_slot (s : scache) (sec p : Z) : Prop :=
  exists i r, crec s !! i = Some r /\ sector r = sec / indexLimit s * indexLimit s /\
    p = Z.of_nat i * 4096 + sec mod indexLimit s * sectorSize s.

(** [getIndexRead] finds the slot of the block, or returns -1 when there is none; it counts the
    tax in any case. *)
Lemma getIndexRead_spec s b sec :
  core s b -> sec_ok s sec ->
  let al := sec / indexLimit s * indexLimit s in
  let s1 := set_rec (pay (indexLimit s) sec <$> crec s) s in
  (exists i r, crec s !! i = Some r /\ sector r = al /\ (i < CACHE_SIZE)%nat /\
     getIndexRead sec s = Ok (Z.of_nat i * indexLimit s + (sec - al), s1)) \/
  ((forall j q, crec s !! j = Some q -> sector q <> al) /\ getIndexRead sec s = Ok (-1, s1)).
Proof.
  intros C Hs al s1. destruct (co_geo _ _ C) as (Gs & Gi & Gm).
  pose proof (Z.div_mod sec (indexLimit s) ltac:(lia)) as Hdm.
  pose proof (Z.mod_pos_bound sec (indexLimit s) ltac:(lia)) as Hmb.
  destruct (list_find (fun r => sector r = al) (crec s)) as [[i r]|] eqn:Hfind.
  - left. exists i, r. apply list_find_Some in Hfind as (Hi & Hr & _). split; [done|]. split; [done|].
    assert (Hidx : last_hit (indexLimit s) sec (crec s) 0 None = Some i).
    { apply (last_hit_one _ _ _ i r 0 None); [done|by apply (hit_iff s b i)|].
      intros j q Hj Hq. apply (hit_iff s b j) in Hq; [|done..].
      apply (co_uniq _ _ C j i q r Hj Hi); [unfold al in *; congruence|].
      rewrite Hq. destruct Hs. unfold NO_SECTOR in *. lia. }
    assert (Hi1 : crec s1 !! i = Some (pay (indexLimit s) sec r)) by (cbn; by rewrite list_lookup_fmap, Hi).
    pose proof (lookup_lt_Some _ _ _ Hi) as Hlt. rewrite (co_len _ _ C) in Hlt. split; [done|]. unfold CACHE_SIZE in Hlt.
    unfold getIndexRead. cbn zeta. rewrite Hidx. change (set_rec _ s) with s1. rewrite Hi1. cbn [of_option rbind pay sector].
    rewrite Hr, s32_id; [done|]. unfold al. nia.
  - right. assert (Hnone : forall j q, crec s !! j = Some q -> sector q <> al).
    { intros j q Hj. apply list_find_None in Hfind. exact (proj1 (Forall_lookup _ _) Hfind j q Hj). }
    split; [done|].
    assert (Hidx : last_hit (indexLimit s) sec (crec s) 0 None = None).
    { apply last_hit_none. intros j q Hj. apply not_true_is_false. intros Hq.
      apply (hit_iff s b j) in Hq; [|done..]. by apply (Hnone j q). }
    unfold getIndexRead. cbn zeta. by rewrite Hidx.
Qed.

Lemma readSector_spec s b sec :
  core s b -> flags_ok s 15 -> sec_ok s sec ->
  exists p s' b', scache_readSector sec s = Ok ((sectorSize s, Some p), s') /\ core s' b' /\
    flags_ok s' 15 /\ same_disk s s' /\ at_slot s' sec p.
Proof.
  intros C Hf Hs. destruct (co_geo _ _ C) as (Gs & Gi & Gm). unfold scache_readSector.
  set (s0 := set_stat (u32 (cacheAccess s + 1)) (cacheHits s) s).
  rewrite (bind_ok _ _ s tt s0) by done.
  assert (C0 : core s0 b) by (by destruct C; split).
  set (s1 := set_rec (pay (indexLimit s) sec <$> crec s) s0).
  assert (K1 : keeps s0 s1 b) by (apply (keeps_pay s0 b sec C0)).
  assert (D01 : same_disk s s1) by (exact (kp_disk _ _ _ K1)).
  assert (Hs1 : sec_ok s1 sec) by done.
  pose proof (kp_core _ _ _ K1) as C1.
  pose proof (getIndexRead_spec s0 b sec C0 Hs) as Hg. cbn zeta in Hg.
  change (indexLimit s0) with (indexLimit s) in Hg. change (crec s0) with (crec s) in Hg. fold s1 in Hg.
  set (al := sec / indexLimit s * indexLimit s) in *.
  pose proof (Z.div_mod sec (indexLimit s) ltac:(lia)) as Hdm.
  pose proof (Z.mod_pos_bound sec (indexLimit s) ltac:(lia)) as Hmb.
  destruct Hg as [(i & r & Hi & Hr & Hlt & E)|(Hnone & E)]; rewrite (bind_ok _ _ _ _ _ E); clear E.
  - assert (Hi1 : crec s1 !! i = Some (pay (indexLimit s) sec r)) by (cbn; by rewrite list_lookup_fmap, Hi).
    rewrite (bind_ok _ _ s1 (sectorSize s) s1) by done.
    destruct (Z.leb_spec 0 (Z.of_nat i * indexLimit s + (sec - al))) as [_|H]; [|unfold al in *; nia].
    rewrite (bind_ok _ _ _ _ _ eq_refl). do 3 eexists. split; [reflexivity|].
    split; [by destruct C1; split|]. split; [done|]. split; [exact D01|].
    exists i, (pay (indexLimit s) sec r). split; [exact Hi1|]. split; [exact Hr|].
    cbn [indexLimit sectorSize set_stat s1 set_rec s0]. unfold al. nia.
  - rewrite (bind_ok _ _ s1 (sectorSize s) s1) by done. cbn [Z.leb Z.compare].
    rewrite (bind_ok _ _ s1 (indexLimit s) s1) by done. cbn zeta. fold al.
    destruct (evict_spec s1 b al C1) as (i & t & s2 & s3 & b3 & E2 & Hi & Hss & E3 & C3 & D3 & Hi3 & Hw3 & Hf3).
    { exact (aligned_ok s1 b sec C1 Hs1). }
    { intros j q Hj. destruct (same_sectors_lookup _ _ _ _ (kp_sec _ _ _ K1) Hj) as (q0 & Hq0 & <-).
      by apply (Hnone j). }
    rewrite (bind_ok _ _ _ _ _ E2). change (indexLimit s1) with (indexLimit s) in *.
    assert (Eoff : Z.to_nat (Z.of_nat i * indexLimit s * sectorSize s) = (i * 4096)%nat) by nia.
    rewrite Eoff, (bind_ok _ _ _ _ _ E3). cbn [Z.ltb Z.compare].
    destruct Hf as [[Hf1 Hf2] Hf3'].
    change (writeFlag s1) with (writeFlag s) in Hw3. change (flushCounter s1) with (flushCounter s) in Hf3.
    destruct (count_flush_spec s3 b3 C3) as (s4 & E4 & K4 & F4); [lia|lia|].
    rewrite (bind_ok _ _ _ _ _ E4). do 3 eexists. split; [reflexivity|].
    split; [exact (kp_core _ _ _ K4)|]. split; [exact F4|].
    assert (D4 : same_disk s s4).
    { eapply same_disk_trans; [exact D01|]. eapply same_disk_trans; [exact D3|exact (kp_disk _ _ _ K4)]. }
    split; [exact D4|]. destruct D4 as (Ess & Eil & _).
    destruct (same_sectors_lookup _ _ _ _ (same_sectors_sym _ _ (kp_sec _ _ _ K4)) Hi3) as (r4 & Hr4 & Er4).
    exists i, r4. split; [exact Hr4|]. rewrite Eil, Ess. split; [rewrite Er4; done|nia].
Qed.

(** ** The bytes of a sector *)

Lemma sector_addr s b sec j :
  core s b -> 0 <= sec -> 0 <= j < sectorSize s ->
  (sec * sectorSize s + j) / 4096 = sec / indexLimit s /\
  (sec * sectorSize s + j) mod 4096 = sec mod indexLimit s * sectorSize s + j.
Proof.
  intros C Hs Hj. destruct (co_geo _ _ C) as (Gs & Gi & Gm).
  pose proof (Z.div_mod sec (indexLimit s) ltac:(lia)) as Hdm.
  pose proof (Z.mod_pos_bound sec (indexLimit s) ltac:(lia)) as Hmb.
  assert (Hr : 0 <= sec mod indexLimit s * sectorSize s + j < 4096) by nia.
  assert (E : sec * sectorSize s + j = 4096 * (sec / indexLimit s) + (sec mod indexLimit s * sectorSize s + j)).
  { rewrite <- Gm. rewrite Hdm at 1. ring. }
  split.
  - symmetry. exact (Z.div_unique_pos _ _ _ _ Hr E).
  - symmetry. exact (Z.mod_unique_pos _ _ _ _ Hr E).
Qed.

Lemma sector_addr_ok s b sec j :
  core s b -> sec_ok s sec -> 0 <= j < sectorSize s ->
  addr_ok s (sec * sectorSize s + j) /\ base s (sec * sectorSize s + j) = sec / indexLimit s * indexLimit s.
Proof.
  intros C [Hs Hl] Hj. destruct (sector_addr s b sec j C Hs Hj) as (E & _).
  destruct (co_geo _ _ C) as (Gs & Gi & _).
  assert (Eb : base s (sec * sectorSize s + j) = sec / indexLimit s * indexLimit s) by (unfold base; by rewrite E).
  split; [|exact Eb]. split; [nia|]. by rewrite Eb.
Qed.

Lemma at_slot_bounds s b sec p :
  core s b -> 0 <= sec -> at_slot s sec p -> 0 <= p /\ p + sectorSize s <= Z.of_nat BUF_LEN.
Proof.
  intros C Hs (i & r & Hi & _ & ->). destruct (co_geo _ _ C) as (Gs & Gi & Gm).
  pose proof (Z.mod_pos_bound sec (indexLimit s) ltac:(lia)) as Hmb.
  apply lookup_lt_Some in Hi. rewrite (co_len _ _ C) in Hi. unfold BUF_LEN, CACHE_SIZE in *. nia.
Qed.

(** The buffer shows the sector's bytes. *)
Lemma at_slot_byte s b sec p j :
  core s b -> sec_ok s sec -> at_slot s sec p -> 0 <= j < sectorSize s ->
  byte_at b (Z.to_nat (p + j)) = logical s (sec * sectorSize s + j).
Proof.
  intros C Hs (i & r & Hi & Hr & ->) Hj. destruct (sector_addr_ok s b sec j C Hs Hj) as (Ha & Hb).
  rewrite (logical_cached s b i r) by congruence.
  rewrite (proj2 (sector_addr s b sec j C (proj1 Hs) Hj)). f_equal.
  destruct (co_geo _ _ C) as (Gs & Gi & Gm).
  pose proof (Z.mod_pos_bound sec (indexLimit s) ltac:(lia)) as Hmb. nia.
Qed.

(** ** Writing a sector *)

Lemma byte_at_splice l off bs i :
  (off + length bs <= length l)%nat ->
  byte_at (splice l off bs) i =
  if decide (off <= i < off + length bs)%nat then byte_at bs (i - off) else byte_at l i.
Proof.
  intros H. unfold byte_at. rewrite !nth_lookup, lookup_splice by done. by destruct (decide _).
Qed.

(** [data] was copied to the sector at [p], and its slot [i] marked. *)
Definition marked (s : scache) (b : list Z) (i : nat) (r : cache_record) (p : Z) (data : list Z) : scache :=
  set_flags (writeFlag s + 1) (flushCounter s)
    (set_rec (<[i := CRec (sector r) (s32 (tax r + 2)) (writeDirty r + 1)]> (crec s))
       (set_buf (Some (splice b (Z.to_nat p) data)) s)).

Section WriteSector.
  Context (s : scache) (b : list Z) (sec p : Z) (i : nat) (r : cache_record) (data : list Z).
  Context (C : core s b) (Hs : sec_ok s sec) (Hi : crec s !! i = Some r).
  Context (Hr : sector r = sec / indexLimit s * indexLimit s).
  Context (Hp : p = Z.of_nat i * 4096 + sec mod indexLimit s * sectorSize s).
  Context (Hl : Z.of_nat (length data) = sectorSize s) (Hu : Forall is_u8 data).

Let b2 := splice b (Z.to_nat p) data.

Lemma marked_fits : 0 <= p /\ (Z.to_nat p + length data <= length b)%nat.
Proof using C Hs Hi Hr Hp Hl.
  destruct (at_slot_bounds s b sec p C (proj1 Hs)) as [H1 H2]; [by exists i, r|].
  rewrite (co_blen _ _ C). lia.
Qed.

Lemma marked_slot j : j <> i -> (j < CACHE_SIZE)%nat -> slot_bytes b2 j = slot_bytes b j.
Proof using C Hs Hi Hr Hp Hl.
  intros Hj Hjl. destruct marked_fits as [H1 H2]. pose proof (co_blen _ _ C) as Hb.
  assert (L : length b2 = length b) by (by apply length_splice).
  destruct (co_geo _ _ C) as (Gs & Gi & Gm).
  pose proof (Z.mod_pos_bound sec (indexLimit s) ltac:(lia)) as Hmb.
  assert (sec mod indexLimit s * sectorSize s + sectorSize s <= 4096) by nia.
  unfold slot_bytes. apply window_ext; rewrite ?L, ?Hb; unfold BUF_LEN, CACHE_SIZE in *; [lia..|].
  intros x Hx. unfold b2. rewrite lookup_splice by exact H2.
  destruct (decide _) as [[A B]|]; [|reflexivity]. exfalso. nia.
Qed.

Lemma marked_core : core (marked s b i r p data) b2.
Proof using C Hs Hi Hr Hp Hl Hu.
  destruct marked_fits as [Hp0 Hf]. pose proof C as [Cg Cb Cbl Cl Cr Cu Cc Cd Cio Cu8].
  pose proof (Cd _ _ Hi) as Hd. split.
  - exact Cg.
  - reflexivity.
  - unfold b2. rewrite length_splice by exact Hf. exact Cbl.
  - cbn [crec marked set_flags set_rec set_buf]. by rewrite length_insert.
  - intros j q Hj. apply list_lookup_insert_Some in Hj as [(-> & <- & _)|[_ Hj]]; [|exact (Cr j q Hj)].
    right. destruct Hs as [H0 H1]. exists (sec / indexLimit s).
    split; [apply Z.div_pos; lia|]. cbn [sector indexLimit marked set_flags set_rec set_buf]. by rewrite Hr.
  - apply (same_sectors_uniq (crec s)); [|exact Cu]. by apply same_sectors_insert.
  - intros j q Hj Hq Hwq. apply list_lookup_insert_Some in Hj as [(-> & <- & _)|[Hne Hj]].
    + cbn [writeDirty] in Hwq. lia.
    + cbn [disk sectorSize marked set_flags set_rec set_buf]. rewrite <- (Cc j q Hj Hq Hwq).
      apply marked_slot; [congruence|]. apply lookup_lt_Some in Hj. by rewrite Cl in Hj.
  - intros j q Hj. cbn [writeFlag marked set_flags].
    apply list_lookup_insert_Some in Hj as [(-> & <- & _)|[_ Hj]]; [cbn [writeDirty]; lia|].
    specialize (Cd j q Hj). lia.
  - exact Cio.
  - unfold b2, splice. repeat (apply Forall_app; split); [by apply Forall_take|exact Hu|by apply Forall_drop].
Qed.

(** The bytes of the sector are the data, the others are what they were. *)
Lemma marked_logical a :
  addr_ok s a ->
  logical (marked s b i r p data) a =
  if decide (sec * sectorSize s <= a < sec * sectorSize s + sectorSize s)
  then byte_at data (Z.to_nat (a - sec * sectorSize s)) else logical s a.
Proof using C Hs Hi Hr Hp Hl Hu.
  intros Ha. pose proof marked_core as C2. destruct marked_fits as [Hp0 Hf].
  set (s2 := marked s b i r p data) in *.
  assert (S2 : same_sectors (crec s) (crec s2)) by (by apply same_sectors_insert).
  assert (Hm : (Z.to_nat (a mod 4096) < 4096)%nat) by (pose proof (Z.mod_pos_bound a 4096); lia).
  destruct (decide _) as [Hin|Hout].
  { set (j := a - sec * sectorSize s). assert (Ej : a = sec * sectorSize s2 + j) by (cbn; lia).
    rewrite Ej, <- (at_slot_byte s2 b2 sec p j C2 Hs); [| |cbn; lia].
    - unfold b2. rewrite byte_at_splice by exact Hf. rewrite decide_True by lia. f_equal. lia.
    - exists i, (CRec (sector r) (s32 (tax r + 2)) (writeDirty r + 1)).
      split; [|by split]. cbn. apply list_lookup_insert_eq. by eapply lookup_lt_Some. }
  destruct (cached_or_not s a) as [(j & q & Hj & Hq)|Hno].
  2:{ rewrite (logical_uncached s b), (logical_uncached s2 b2); [reflexivity|done| |done|done].
      intros j q Hj. destruct (same_sectors_lookup _ _ _ _ S2 Hj) as (q0 & Hq0 & <-). exact (Hno j q0 Hq0). }
  destruct (same_sectors_lookup _ _ _ _ (same_sectors_sym _ _ S2) Hj) as (q2 & Hj2 & Eq2).
  rewrite (logical_cached s b j q), (logical_cached s2 b2 j q2)
    by (done || (change (base s2 a) with (base s a); congruence)).
  destruct (decide (j = i)) as [->|Hne].
  2:{ apply lookup_lt_Some in Hj. rewrite (co_len _ _ C) in Hj. by rewrite <- !byte_at_slot, marked_slot. }
  unfold b2. rewrite byte_at_splice by exact Hf. rewrite decide_False; [reflexivity|].
  rewrite Hi in Hj. injection Hj as <-. rewrite Hr in Hq. apply (block_base s b) in Hq; [|done].
  destruct (co_geo _ _ C) as (Gs & Gi & Gm).
  pose proof (Z.div_mod a 4096 ltac:(lia)). pose proof (Z.mod_pos_bound a 4096 ltac:(lia)).
  pose proof (Z.div_mod sec (indexLimit s) ltac:(lia)) as Hdm.
  assert (E : sec * sectorSize s = 4096 * (a / 4096) + sec mod indexLimit s * sectorSize s).
  { rewrite <- Hq, <- Gm. rewrite Hdm at 1. ring. }
  lia.
Qed.
End WriteSector.

Lemma writeSector_spec s b sec p data :
  core s b -> flags_ok s 15 -> sec_ok s sec -> at_slot s sec p ->
  Z.of_nat (length data) = sectorSize s -> Forall is_u8 data ->
  exists s' b', scache_writeSector sec (set_buf (Some (splice b (Z.to_nat p) data)) s) = Ok (sectorSize s, s') /\
    core s' b' /\ flags_ok s' 15 /\ sectorSize s' = sectorSize s /\ indexLimit s' = indexLimit s /\
    forall a, addr_ok s a -> logical s' a =
      if decide (sec * sectorSize s <= a < sec * sectorSize s + sectorSize s)
      then byte_at data (Z.to_nat (a - sec * sectorSize s)) else logical s a.
Proof.
  intros C [[Hf1 Hf2] Hf3] Hs (i & r & Hi & Hr & Hp) Hl Hu.
  set (s0 := set_buf _ s). pose proof (co_dirty _ _ C i r Hi) as Hd.
  assert (Hslot : slot_from (indexLimit s) sec (crec s) 0 = Some i).
  { apply (slot_from_one _ _ _ i r 0); [done|by apply (hit_iff s b i)|].
    intros j q Hj Hq. apply (hit_iff s b j) in Hq; [|done..].
    apply (co_uniq _ _ C j i q r Hj Hi); [congruence|].
    rewrite Hq. destruct (co_geo _ _ C) as (? & ? & ?). destruct Hs. unfold NO_SECTOR in *. lia. }
  unfold scache_writeSector. rewrite (bind_ok _ _ s0 (Some i) s0) by (cbn; by rewrite <- Hslot).
  rewrite (bind_ok _ _ s0 (crec s) s0) by done.
  rewrite (bind_ok _ _ s0 r s0) by (unfold lift; by rewrite Hi).
  rewrite (bind_ok _ _ _ _ _ eq_refl), (bind_ok _ _ _ _ _ eq_refl).
  set (s1 := set_flags _ _ _).
  assert (E1 : s1 = marked s b i r p data).
  { unfold s1, marked, s0. cbn [writeFlag flushCounter set_rec set_buf].
    rewrite (s8_id (writeDirty r + 1)), (u32_id (writeFlag s + 1)) by lia. reflexivity. }
  rewrite E1. pose proof (marked_core s b sec p i r data C Hs Hi Hr Hp Hl Hu) as C1.
  destruct (count_flush_spec _ _ C1) as (s2 & E2 & [C2 (D1 & D2 & D3) _] & F2); [cbn; lia..|].
  rewrite (bind_ok _ _ _ _ _ E2). exists s2. eexists. split; [unfold gets; by rewrite D1|].
  split; [exact C2|]. split; [exact F2|]. split; [exact D1|]. split; [exact D2|].
  intros a Ha. rewrite D3 by exact Ha.
  exact (marked_logical s b sec p i r data C Hs Hi Hr Hp Hl Hu a Ha).
Qed.

(** ** The cache against the disk it stands for *)

(** What the file system does: it reads a sector in the buffer, or reads it, changes its bytes
    and marks it, or flushes. *)
Inductive cop : Type :=
  | CRead (sec : Z)
  | CWrite (sec : Z) (data : list Z)
  | CFlush.

Definition sector_data (r : Z * option Z) : M scache (list Z) :=
  let* p := lift (of_option NullDeref r.2) in
  let* b := the_buf in
  let* ss := gets sectorSize in
  ret (take (Z.to_nat ss) (drop (Z.to_nat p) b)).

Definition put_data (r : Z * option Z) (data : list Z) : M scache unit :=
  let* p := lift (of_option NullDeref r.2) in
  let* b := the_buf in
  modify (set_buf (Some (splice b (Z.to_nat p) data))).

Definition run_cop (o : cop) : M scache (list Z) :=
  match o with
  | CRead sec => let* r := scache_readSector sec in sector_data r
  | CWrite sec data =>
      let* r := scache_readSector sec in
      put_data r data;; scache_writeSector sec;; ret []
  | CFlush => scache_flushSectors;; ret []
  end.

Fixpoint run_cops (os : list cop) : M scache (list (list Z)) :=
  match os with
  | [] => ret []
  | o :: os' =>
      let* x := run_cop o in
      let* xs := run_cops os' in
      ret (x :: xs)
  end.

(** A disk is its bytes. *)
Definition write_at (d : Z -> Z) (a : Z) (bs : list Z) (x : Z) : Z :=
  if decide (a <= x < a + Z.of_nat (length bs)) then byte_at bs (Z.to_nat (x - a)) else d x.

Definition read_at (d : Z -> Z) (a : Z) (n : nat) : list Z :=
  (fun j => d (a + Z.of_nat j)) <$> seq 0 n.

Definition disk_op (ss : Z) (o : cop) (d : Z -> Z) : list Z * (Z -> Z) :=
  match o with
  | CRead sec => (read_at d (sec * ss) (Z.to_nat ss), d)
  | CWrite sec data => ([], write_at d (sec * ss) data)
  | CFlush => ([], d)
  end.

Fixpoint disk_ops (ss : Z) (os : list cop) (d : Z -> Z) : list (list Z) * (Z -> Z) :=
  match os with
  | [] => ([], d)
  | o :: os' =>
      let '(x, d1) := disk_op ss o d in
      let '(xs, d2) := disk_ops ss os' d1 in
      (x :: xs, d2)
  end.

(** A whole slot of sectors lies below the mark of unused slots. *)
Definition in_range (il sec : Z) : Prop := 0 <= sec /\ sec / il * il + il <= NO_SECTOR.

Definition cop_ok (ss il : Z) (o : cop) : Prop :=
  match o with
  | CRead sec => in_range il sec
  | CWrite sec data => in_range il sec /\ Z.of_nat (length data) = ss /\ Forall is_u8 data
  | CFlush => True
  end.

(** The cache [s] stands for the disk [d]. *)
Definition stands_for (s : scache) (d : Z -> Z) : Prop :=
  (exists b, core s b) /\ flags_ok s 15 /\ forall a, addr_ok s a -> logical s a = d a.

Lemma sector_data_ok s b sec p :
  core s b -> sec_ok s sec -> at_slot s sec p ->
  sector_data (sectorSize s, Some p) s =
  Ok (read_at (logical s) (sec * sectorSize s) (Z.to_nat (sectorSize s)), s).
Proof.
  intros C Hs Hp. unfold sector_data. rewrite (bind_ok _ _ s p s) by done.
  rewrite (bind_ok _ _ s b s) by (by apply the_buf_ok). rewrite (bind_ok _ _ s (sectorSize s) s) by done.
  unfold ret. do 2 f_equal. destruct (at_slot_bounds s b sec p C (proj1 Hs) Hp) as [H1 H2].
  destruct (co_geo _ _ C) as (Gs & _ & _). unfold read_at.
  apply (list_eq_same_length _ _ (Z.to_nat (sectorSize s))).
  - by rewrite length_fmap, length_seq.
  - rewrite length_take, length_drop, (co_blen _ _ C). lia.
  - intros j x y Hj Hx Hy. rewrite lookup_take_lt, lookup_drop in Hx by done.
    rewrite list_lookup_fmap, lookup_seq_lt in Hy by done. injection Hy as <-.
    rewrite <- (at_slot_byte s b sec p) by (done || lia). unfold byte_at.
    replace (Z.to_nat (p + _)) with (Z.to_nat p + j)%nat by lia.
    by rewrite nth_lookup, Hx.
Qed.

Lemma read_at_ext d d' a n :
  (forall j, (j < n)%nat -> d (a + Z.of_nat j) = d' (a + Z.of_nat j)) -> read_at d a n = read_at d' a n.
Proof.
  intros H. unfold read_at. apply list_fmap_ext. intros j x Hx. apply lookup_seq in Hx as [-> Hx]. by apply H.
Qed.

(** One operation: the same data, and the cache stands for the disk after it. *)
Lemma run_cop_ok s d o :
  stands_for s d -> cop_ok (sectorSize s) (indexLimit s) o ->
  exists s', run_cop o s = Ok ((disk_op (sectorSize s) o d).1, s') /\
    stands_for s' (disk_op (sectorSize s) o d).2 /\
    sectorSize s' = sectorSize s /\ indexLimit s' = indexLimit s.
Proof.
  intros ((b & C) & F & L) Ho. destruct o as [sec|sec data|]; cbn [run_cop disk_op fst snd].
  - destruct (readSector_spec s b sec C F Ho) as (p & s1 & b1 & E1 & C1 & F1 & (D1 & D2 & D3) & P1).
    rewrite (bind_ok _ _ _ _ _ E1). rewrite <- D1 in *.
    assert (Hs1 : sec_ok s1 sec) by (unfold sec_ok; by rewrite D2).
    rewrite (sector_data_ok s1 b1 sec p C1 Hs1 P1). exists s1. split; [|split; [|done]].
    + do 2 f_equal. apply read_at_ext. intros j Hj.
      destruct (sector_addr_ok s1 b1 sec (Z.of_nat j) C1 Hs1 ltac:(lia)) as [Ha _].
      assert (Ha' : addr_ok s (sec * sectorSize s1 + Z.of_nat j)).
      { unfold addr_ok, base in *. by rewrite <- D2. }
      by rewrite D3, L.
    + split; [by exists b1|]. split; [done|]. intros a Ha.
      assert (Ha' : addr_ok s a) by (unfold addr_ok, base in *; by rewrite <- D2). by rewrite D3, L.
  - destruct Ho as (Hs & Hl & Hu).
    destruct (readSector_spec s b sec C F Hs) as (p & s1 & b1 & E1 & C1 & F1 & (D1 & D2 & D3) & P1).
    rewrite (bind_ok _ _ _ _ _ E1). rewrite <- D1 in *.
    assert (Hs1 : sec_ok s1 sec) by (unfold sec_ok; by rewrite D2).
    destruct (writeSector_spec s1 b1 sec p data C1 F1 Hs1 P1 Hl Hu)
      as (s2 & b2 & E2 & C2 & F2 & G1 & G2 & G3).
    rewrite (bind_ok _ _ s1 tt (set_buf (Some (splice b1 (Z.to_nat p) data)) s1)).
    2:{ unfold put_data. rewrite (bind_ok _ _ s1 p s1) by done.
        by rewrite (bind_ok _ _ s1 b1 s1) by (by apply the_buf_ok). }
    rewrite (bind_ok _ _ _ _ _ E2). exists s2. split; [done|]. split; [|split; congruence].
    split; [by exists b2|]. split; [done|]. intros a Ha.
    assert (Ha1 : addr_ok s1 a) by (unfold addr_ok, base in *; by rewrite <- G2).
    assert (Ha0 : addr_ok s a) by (unfold addr_ok, base in *; by rewrite <- D2).
    rewrite G3 by done. unfold write_at. rewrite Hl. destruct (decide _); [done|]. by rewrite D3, L.
  - destruct (flush_spec s b C) as (c & s1 & E1 & [C1 (D1 & D2 & D3) _] & _ & F1 & F2).
    rewrite (bind_ok _ _ _ _ _ E1). exists s1. split; [done|]. split; [|done].
    split; [by exists b|]. split; [unfold flags_ok; rewrite F1, F2; lia|]. intros a Ha.
    assert (Ha0 : addr_ok s a) by (unfold addr_ok, base in *; by rewrite <- D2). by rewrite D3, L.
Qed.

Lemma run_cops_ok os : forall s d,
  stands_for s d -> Forall (cop_ok (sectorSize s) (indexLimit s)) os ->
  exists s', run_cops os s = Ok ((disk_ops (sectorSize s) os d).1, s') /\
    stands_for s' (disk_ops (sectorSize s) os d).2 /\
    sectorSize s' = sectorSize s /\ indexLimit s' = indexLimit s.
Proof.
  induction os as [|o os IH]; intros s d Hd Hos; cbn [run_cops disk_ops].
  { by exists s. }
  inversion Hos as [|? ? Ho Hos']; subst.
  destruct (run_cop_ok s d o Hd Ho) as (s1 & E1 & Hd1 & G1 & G2).
  rewrite (bind_ok _ _ _ _ _ E1). destruct (disk_op (sectorSize s) o d) as [x d1]. cbn [fst snd] in *.
  rewrite <- G1, <- G2 in Hos'. destruct (IH s1 d1 Hd1 Hos') as (s2 & E2 & Hd2 & G3 & G4).
  rewrite (bind_ok _ _ _ _ _ E2). rewrite G1 in *. destruct (disk_ops (sectorSize s) os d1) as [xs d2].
  exists s2. split; [done|]. split; [exact Hd2|]. split; congruence.
Qed.

Lemma clean_disk s b a : core s b -> all_clean s -> addr_ok s a -> load8 (disk s) a = logical s a.
Proof.
  intros C H Ha. destruct (cached_or_not s a) as [(i & r & Hi & Hr)|Hno].
  2:{ symmetry. by apply (logical_uncached s b). }
  pose proof (Z.div_mod a 4096 ltac:(lia)). pose proof (Z.mod_pos_bound a 4096 ltac:(lia)).
  rewrite (logical_cached s b i r a) by done. rewrite <- byte_at_slot by lia.
  destruct (co_geo _ _ C) as (Gs & Gi & Gm).
  rewrite (co_clean _ _ C i r Hi); [|rewrite Hr; destruct Ha; unfold NO_SECTOR in *; lia|by eapply H].
  rewrite byte_at_load by lia. f_equal. rewrite Hr. unfold base.
  replace (a / 4096 * indexLimit s * sectorSize s) with (a / 4096 * 4096) by (rewrite <- Gm; ring). lia.
Qed.

Lemma init_stands s b dret ss :
  sectorBuf s = None -> disk_rets s = [] -> length b = BUF_LEN -> Forall is_u8 b -> 0 < ss -> (ss | 4096) ->
  exists s', scache_init (Some b) dret ss s = Ok (dret, s') /\ stands_for s' (load8 (disk s)) /\
    sectorSize s' = ss /\ indexLimit s' = 4096 / ss.
Proof.
  intros Hb Hio Hl Hu Hss Hdiv. unfold scache_init. rewrite (bind_ok _ _ _ _ _ eq_refl).
  rewrite (bind_ok _ _ _ None (set_geometry ss (Z.quot 4096 ss) s)) by (unfold gets; cbn; by rewrite Hb).
  rewrite (bind_ok _ _ _ true (set_buf (Some b) (set_geometry ss (Z.quot 4096 ss) s))) by done.
  cbn [negb]. rewrite (bind_ok _ _ _ _ _ eq_refl). unfold initRecords. rewrite (bind_ok _ _ _ _ _ eq_refl).
  set (s' := set_flags _ _ _). exists s'. split; [done|].
  assert (E : indexLimit s' = 4096 / ss) by (cbn; apply Z.quot_div_nonneg; lia).
  assert (G : 0 < sectorSize s' /\ 0 < indexLimit s' /\ sectorSize s' * indexLimit s' = 4096).
  { rewrite E. change (sectorSize s') with ss. destruct Hdiv as [k Hk]. rewrite Hk, Z.div_mul by lia. nia. }
  assert (Hrec : forall i r, crec s' !! i = Some r -> r = CRec NO_SECTOR 0 0).
  { intros i r Hi. by apply lookup_replicate in Hi as [-> _]. }
  assert (C : core s' b).
  { split; [done|done|done|done| | | | |exact Hio|done].
    - intros i r Hi. rewrite (Hrec i r Hi). by left.
    - intros i j r r' Hi Hj _ Hn. by rewrite (Hrec i r Hi) in Hn.
    - intros i r Hi Hn. by rewrite (Hrec i r Hi) in Hn.
    - intros i r Hi. rewrite (Hrec i r Hi). cbn. lia. }
  split; [|done]. split; [by exists b|]. split; [unfold flags_ok; cbn; lia|].
  intros a [Ha1 Ha2]. rewrite (logical_uncached s' b); [done|done|].
  intros i r Hi. rewrite (Hrec i r Hi). cbn [sector]. unfold NO_SECTOR in *. lia.
Qed.

(** C38: without transfer errors the sector cache is transparent: from [scache_init] on, any
    sequence of reads, writes (read the sector, change its bytes in the buffer,
    [scache_writeSector]) and flushes of sectors below the mark of unused slots runs without
    error and returns what the same sequence returns on the bare disk, whatever slots are hit,
    evicted or written back on the way; and after a final [scache_flushSectors] the disk holds
    exactly what the bare disk would. *)
Theorem scache_transparent (s : scache) (b : list Z) (dret ss : Z) (os : list cop) :
  sectorBuf s = None -> disk_rets s = [] -> length b = BUF_LEN -> Forall is_u8 b ->
  0 < ss -> (ss | 4096) -> Forall (cop_ok ss (4096 / ss)) os ->
  exists s1 s2 s3 c,
    scache_init (Some b) dret ss s = Ok (dret, s1) /\
    run_cops os s1 = Ok ((disk_ops ss os (load8 (disk s))).1, s2) /\
    scache_flushSectors s2 = Ok (c, s3) /\
    forall a, 0 <= a -> in_range (4096 / ss) (a / ss) ->
      load8 (disk s3) a = (disk_ops ss os (load8 (disk s))).2 a.
Proof.
  intros Hb Hio Hl Hu Hss Hdiv Hos.
  destruct (init_stands s b dret ss Hb Hio Hl Hu Hss Hdiv) as (s1 & E1 & Hd1 & G1 & G2).
  destruct (run_cops_ok os s1 (load8 (disk s)) Hd1) as (s2 & E2 & ((b2 & C2) & _ & L2) & G3 & G4);
    [by rewrite G1, G2|].
  destruct (flush_spec s2 b2 C2) as (c & s3 & E3 & [C3 (D1 & D2 & D3) _] & Hc & _).
  rewrite G1 in E2, L2. exists s1, s2, s3, c. split; [done|]. split; [done|]. split; [done|].
  intros a Ha [_ Hr].
  assert (Ha2 : addr_ok s2 a).
  { split; [done|]. unfold base. rewrite G4, G2. destruct Hdiv as [k Hk].
    rewrite Hk, Z.div_mul in * by lia. rewrite Z.div_div in Hr by nia. by rewrite (Z.mul_comm k ss). }
  rewrite (clean_disk s3 b2) by (done || (unfold addr_ok, base in *; by rewrite D2)).
  by rewrite D3, L2.
Qed.

Lemma scache_transparent_witness :
  let s := SCache 0 0 None [] 0 0 0 0 (store_bytes ∅ 512 [7; 8; 9]) [] in
  let os := [CRead 1; CWrite 9 (replicate 512 5); CRead 9; CWrite 300 (replicate 512 6); CFlush; CRead 9] in
  exists s1 s2 s3 c,
    scache_init (Some (replicate BUF_LEN 0)) 1 512 s = Ok (1, s1) /\
    run_cops os s1 = Ok ((disk_ops 512 os (load8 (disk s))).1, s2) /\
    scache_flushSectors s2 = Ok (c, s3) /\
    forall a, 0 <= a -> in_range (4096 / 512) (a / 512) ->
      load8 (disk s3) a = (disk_ops 512 os (load8 (disk s))).2 a.
Proof.
  intros s os. apply scache_transparent.
  - reflexivity.
  - reflexivity.
  - apply length_replicate.
  - apply Forall_replicate. unfold is_u8. lia.
  - lia.
  - exists 8. reflexivity.
  - unfold os. change (4096 / 512) with 8.
    repeat (apply Forall_cons; split); try apply Forall_nil; cbn [cop_ok]; unfold in_range;
      try (split; [vm_compute; split; discriminate|]; split; [reflexivity|apply Forall_replicate; unfold is_u8; lia]);
      vm_compute; repeat split; discriminate.
Defined.
