(* ===== verification/MassStor.v ===== *)
(** * USB mass storage devices (iop/usb_mass/mass_stor.c)

    SCSI commands in the packets of the bulk-only transport, the detection of devices, and the
    sectors that the cache reads and writes. *)

From S2P Require Import Prelude Bytes.
Local Open Scope ps2rd_scope.
Local Open Scope Z_scope.

(** ** The USB driver *)

(** The functions of the USB driver with what they do to the bus.  A call gives its return code,
    and what the callback gets once the transfer has ended: the result, the number of bytes and
    the buffer; [None] when the callback never comes.  The constants and the sizes of the
    descriptors are from its header; [stack_junk] is what a packet on the stack holds. *)
Class UsbDriver : Type := {
  usb : Type;
  USB_RC_OK : Z;
  USB_RC_STALL : Z;
  USB_CLASS_MASS_STORAGE : Z;
  USB_ENDPOINT_XFER_BULK : Z;
  sizeof_UsbConfigDescriptor : Z;
  sizeof_UsbInterfaceDescriptor : Z;
  UsbBulkTransfer : Z -> list Z -> usb -> Z * option (Z * Z * list Z) * usb;
  UsbControlTransfer : Z -> Z -> Z -> Z -> Z -> usb -> Z * option (Z * Z) * usb;
  UsbSetDeviceConfiguration : Z -> Z -> usb -> Z * option (Z * Z) * usb;
  UsbSetInterface : Z -> Z -> Z -> usb -> Z * option (Z * Z) * usb;
  UsbSetDeviceFeature : Z -> Z -> usb -> Z * option (Z * Z) * usb;
  UsbClearEndpointFeature : Z -> Z -> Z -> usb -> Z * option (Z * Z) * usb;
  UsbOpenEndpoint : Z -> usb -> Z * usb;
  UsbOpenEndpointAligned : Z -> list Z -> usb -> Z * usb;
  UsbCloseEndpoint : Z -> usb -> usb;
  device_descriptor : usb -> Z -> option (list Z);
  config_descriptor : usb -> Z -> option (list Z);
  endpoint_descriptor : usb -> Z -> option (list Z);
  stack_junk : list Z;
}.

(** ** Constants *)

Definition USB_SUBCLASS_MASS_SFF_8070I : Z := 0x05.
Definition USB_SUBCLASS_MASS_SCSI : Z := 0x06.
Definition USB_PROTOCOL_MASS_BULK_ONLY : Z := 0x50.

Definition TAG_TEST_UNIT_READY : Z := 0.
Definition TAG_REQUEST_SENSE : Z := 3.
Definition TAG_INQUIRY : Z := 18.
Definition TAG_READ_CAPACITY : Z := 37.
Definition TAG_READ : Z := 40.
Definition TAG_START_STOP_UNIT : Z := 33.
Definition TAG_WRITE : Z := 42.

Definition DEVICE_DETECTED : Z := 1.
Definition DEVICE_CONFIGURED : Z := 2.
Definition DEVICE_DISCONNECTED : Z := 4.

Definition MASS_CONNECT_CALLBACK : Z := 0x0012.
Definition MASS_DISCONNECT_CALLBACK : Z := 0x0013.

Definition CSW_PHASE_ERROR : Z := 0x02.
Definition CBW_SIGNATURE : Z := 0x43425355.
Definition CSW_SIGNATURE : Z := 0x53425355.

Definition getBI32 (buf : list Z) : Z :=
  s32 (byte_at buf 3 + Z.shiftl (byte_at buf 2) 8 + Z.shiftl (byte_at buf 1) 16 + Z.shiftl (byte_at buf 0) 24).

(** ** State *)

Record mass_dev : Type := MassDev {
  controlEp : Z;
  bulkEpI : Z;
  bulkEpIAddr : Z;
  bulkEpO : Z;
  bulkEpOAddr : Z;
  packetSzI : Z;
  packetSzO : Z;
  devId : Z;
  configId : Z;
  status : Z;
  interfaceNumber : Z;
  interfaceAlt : Z;
}.

(** What happens on the bus while a thread sleeps. *)
Inductive usb_event : Type := Quiet | Plug (dev : Z) | Unplug (dev : Z).

(** The globals of the module; [semas] is the number of semaphores that were created and not
    deleted, [ready_signal] whether the main thread has signalled [driver_ready_sema],
    [ee_cmds] what was sent to the EE. *)
Record mass `{UsbDriver} : Type := Mass {
  mass_device : mass_dev;
  Size_Sector : Z;
  g_MaxLBA : Z;
  returnCode : Z;
  returnSize : Z;
  residue : Z;
  driver_ready : bool;
  ready_signal : bool;
  semas : Z;
  ee_cmds : list Z;
  bus : usb;
  events : list usb_event;
}.
Arguments Mass {_} _ _ _ _ _ _ _ _ _ _ _ _.

Section Setters.
  Context `{UsbDriver}.

Definition set_dev (d : mass_dev) (s : mass) : mass :=
  Mass d (Size_Sector s) (g_MaxLBA s) (returnCode s) (returnSize s) (residue s) (driver_ready s) (ready_signal s) (semas s) (ee_cmds s) (bus s) (events s).
Definition set_capacity (ss lba : Z) (s : mass) : mass :=
  Mass (mass_device s) ss lba (returnCode s) (returnSize s) (residue s) (driver_ready s) (ready_signal s) (semas s) (ee_cmds s) (bus s) (events s).
Definition set_return (code size : Z) (s : mass) : mass :=
  Mass (mass_device s) (Size_Sector s) (g_MaxLBA s) code size (residue s) (driver_ready s) (ready_signal s) (semas s) (ee_cmds s) (bus s) (events s).
Definition set_residue (r : Z) (s : mass) : mass :=
  Mass (mass_device s) (Size_Sector s) (g_MaxLBA s) (returnCode s) (returnSize s) r (driver_ready s) (ready_signal s) (semas s) (ee_cmds s) (bus s) (events s).
Definition set_ready (s : mass) : mass :=
  Mass (mass_device s) (Size_Sector s) (g_MaxLBA s) (returnCode s) (returnSize s) (residue s) true (ready_signal s) (semas s - 1) (ee_cmds s) (bus s) (events s).
Definition add_semas (n : Z) (s : mass) : mass :=
  Mass (mass_device s) (Size_Sector s) (g_MaxLBA s) (returnCode s) (returnSize s) (residue s) (driver_ready s) (ready_signal s) (semas s + n) (ee_cmds s) (bus s) (events s).
Definition add_cmd (c : Z) (s : mass) : mass :=
  Mass (mass_device s) (Size_Sector s) (g_MaxLBA s) (returnCode s) (returnSize s) (residue s) (driver_ready s) (ready_signal s) (semas s) (ee_cmds s ++ [c]) (bus s) (events s).
Definition set_bus (u : usb) (s : mass) : mass :=
  Mass (mass_device s) (Size_Sector s) (g_MaxLBA s) (returnCode s) (returnSize s) (residue s) (driver_ready s) (ready_signal s) (semas s) (ee_cmds s) u (events s).
Definition set_events (l : list usb_event) (s : mass) : mass :=
  Mass (mass_device s) (Size_Sector s) (g_MaxLBA s) (returnCode s) (returnSize s) (residue s) (driver_ready s) (ready_signal s) (semas s) (ee_cmds s) (bus s) l.
End Setters.

Definition with_status (x : Z) (d : mass_dev) : mass_dev :=
  MassDev (controlEp d) (bulkEpI d) (bulkEpIAddr d) (bulkEpO d) (bulkEpOAddr d) (packetSzI d) (packetSzO d) (devId d) (configId d) x
    (interfaceNumber d) (interfaceAlt d).

(** ** Packets *)

Record cbw_packet : Type := CBW {
  cbw_signature : Z;
  cbw_tag : Z;
  dataTransferLength : Z;
  cbw_flags : Z;
  cbw_lun : Z;
  comLength : Z;
  comData : list Z;
}.

(** The 31 bytes of the packet. *)
Definition cbw_bytes (p : cbw_packet) : list Z :=
  le32 (cbw_signature p) ++ le32 (cbw_tag p) ++ le32 (dataTransferLength p) ++ [u8 (cbw_flags p); u8 (cbw_lun p); u8 (comLength p)] ++ comData p.

Definition initCBWPacket (p : cbw_packet) : cbw_packet :=
  CBW CBW_SIGNATURE (cbw_tag p) (dataTransferLength p) 0x80 0 (comLength p) (comData p).

(** A packet on the stack. *)
Definition junk_cbw `{UsbDriver} : cbw_packet := CBW 0 0 0 0 0 0 (take 16 (stack_junk ++ replicate 16 0)).

(** The fields that a command sets: the tag, the length, the direction and the first bytes of
    the command. *)
Definition cbw_scsi (tag len flags : Z) (com : list Z) (p : cbw_packet) : cbw_packet :=
  CBW (cbw_signature p) (u32 tag) (u32 len) flags (cbw_lun p) (Z.of_nat (length com)) (splice (comData p) 0 com).

Definition cbw_scsi_test_unit_ready : cbw_packet -> cbw_packet := cbw_scsi TAG_TEST_UNIT_READY 0 0x80 [0x00; 0; 0; 0; 0; 0].
Definition cbw_scsi_request_sense : cbw_packet -> cbw_packet := cbw_scsi (- TAG_REQUEST_SENSE) 18 0x80 [0x03; 0; 0; 0; 18; 0].
Definition cbw_scsi_inquiry : cbw_packet -> cbw_packet := cbw_scsi (- TAG_INQUIRY) 36 0x80 [0x12; 0; 0; 0; 36; 0].
Definition cbw_scsi_start_stop_unit : cbw_packet -> cbw_packet := cbw_scsi (- TAG_START_STOP_UNIT) 0 0x80 [0x1B; 1; 0; 0; 1; 0].
Definition cbw_scsi_read_capacity : cbw_packet -> cbw_packet := cbw_scsi (- TAG_READ_CAPACITY) 8 0x80 [0x25; 0; 0; 0; 0; 0; 0; 0; 0; 0].

Definition cbw_scsi_sectors (op lba count : Z) : list Z :=
  [op; 0; Z.shiftr (Z.land (u32 lba) 0xFF000000) 24; Z.shiftr (Z.land lba 0xFF0000) 16; Z.shiftr (Z.land lba 0xFF00) 8; Z.land lba 0xFF;
   0; Z.shiftr (Z.land count 0xFF00) 8; Z.land count 0xFF; 0].
Definition cbw_scsi_read_sector (lba sectorSize sectorCount : Z) : cbw_packet -> cbw_packet :=
  cbw_scsi (- TAG_READ) (sectorSize * sectorCount) 0x80 (cbw_scsi_sectors 0x28 lba sectorCount).
Definition cbw_scsi_write_sector (lba sectorSize sectorCount : Z) : cbw_packet -> cbw_packet :=
  cbw_scsi (- TAG_WRITE) (sectorSize * sectorCount) 0x00 (cbw_scsi_sectors 0x2A lba sectorCount).

(** A status packet; 13 bytes are read into it. *)
Record csw_packet : Type := CSW {
  csw_signature : Z;
  csw_tag : Z;
  dataResidue : Z;
  csw_status : Z;
}.
Definition csw_bytes (p : csw_packet) : list Z := le32 (csw_signature p) ++ le32 (csw_tag p) ++ le32 (dataResidue p) ++ [u8 (csw_status p)].
Definition csw_of (b : list Z) : csw_packet := CSW (u32_at b 0) (u32_at b 4) (u32_at b 8) (byte_at b 12).

Section Mass.
  Context `{UsbDriver}.

(** ** Transfers *)

Definition CreateSema : M mass unit := modify (add_semas 1).
Definition DeleteSema : M mass unit := modify (add_semas (-1)).

(** The callback signals the semaphore that the caller waits for. *)
Definition usb_callback (code bytes : Z) : M mass unit := modify (set_return code bytes).

(** A request without data; the semaphore is deleted by the caller. *)
Definition control_request (call : usb -> Z * option (Z * Z) * usb) : M mass Z :=
  CreateSema;;
  let* u := gets bus in
  let '(r, done, u') := call u in
  modify (set_bus u');;
  if r =? USB_RC_OK then
    match done with
    | None => fail Hang
    | Some (code, bytes) => usb_callback code bytes;; ret r
    end
  else ret r.

(** A bulk transfer, with the buffer behind it. *)
Definition bulk_request (pipe : Z) (buf : list Z) : M mass (Z * list Z) :=
  let* u := gets bus in
  let '(r, done, u') := UsbBulkTransfer pipe buf u in
  modify (set_bus u');;
  if r =? USB_RC_OK then
    match done with
    | None => fail Hang
    | Some (code, bytes, buf') => usb_callback code bytes;; ret (r, buf')
    end
  else ret (r, buf).

Definition set_configuration (d : mass_dev) (configNumber : Z) : M mass unit :=
  control_request (UsbSetDeviceConfiguration (controlEp d) configNumber);; DeleteSema.
Definition set_interface (d : mass_dev) (interface altSetting : Z) : M mass unit :=
  control_request (UsbSetInterface (controlEp d) interface altSetting);; DeleteSema.
Definition set_device_feature (d : mass_dev) (feature : Z) : M mass unit :=
  control_request (UsbSetDeviceFeature (controlEp d) feature);; DeleteSema.

(** When the request cannot be sent the semaphore stays. *)
Definition usb_bulk_clear_halt (d : mass_dev) (direction : Z) : M mass unit :=
  let endpoint := if direction =? 0 then bulkEpIAddr d else bulkEpOAddr d in
  let* r := control_request (UsbClearEndpointFeature (controlEp d) 0 endpoint) in
  if r =? USB_RC_OK then DeleteSema else ret tt.

Definition usb_bulk_reset (d : mass_dev) (mode : Z) : M mass unit :=
  let* r := control_request (UsbControlTransfer (controlEp d) 0x21 0xFF 0 (interfaceNumber d)) in
  if negb (r =? USB_RC_OK) then ret tt
  else
    DeleteSema;;
    (if Z.testbit mode 0 then usb_bulk_clear_halt d 0 else ret tt);;
    (if Z.testbit mode 1 then usb_bulk_clear_halt d 1 else ret tt).

(** The status packet: what is in front of the 13 bytes that arrive stays in place. *)
Definition usb_bulk_status (d : mass_dev) (tag : Z) : M mass (Z * csw_packet) :=
  CreateSema;;
  let* res := gets residue in
  let* '(r, b) := bulk_request (bulkEpI d) (csw_bytes (CSW CSW_SIGNATURE (u32 tag) (u32 res) 0)) in
  DeleteSema;;
  ret (r, csw_of b).

Definition usb_bulk_manage_status (d : mass_dev) (tag : Z) : M mass Z :=
  let* '(r, csw) := usb_bulk_status d tag in
  let* '(r, csw) :=
    if negb (r =? USB_RC_OK) then usb_bulk_clear_halt d 0;; usb_bulk_status d tag else ret (r, csw) in
  (if negb (r =? USB_RC_OK) || (csw_status csw =? CSW_PHASE_ERROR) || negb (csw_signature csw =? CSW_SIGNATURE) || negb (csw_tag csw =? u32 tag)
   then usb_bulk_reset d 3 else ret tt);;
  ret 0.

Definition usb_bulk_command (d : mass_dev) (p : cbw_packet) : M mass unit :=
  CreateSema;;
  bulk_request (bulkEpO d) (cbw_bytes p);;
  DeleteSema.

(** The loop; [fuel] bounds its passes, since a transfer of no bytes is repeated. *)
Fixpoint transfer_loop (fuel : nat) (pipe offset blockSize transferSize : Z) (buf : list Z) : M mass (list Z) :=
  match fuel with
  | O => fail OutOfFuel
  | S fuel' =>
      if transferSize <=? 0 then ret buf
      else
        let blockSize := Z.min blockSize transferSize in
        if (offset <? 0) || (Z.of_nat (length buf) <? offset + blockSize) then fail OutOfBounds
        else
          let* '(r, b) := bulk_request pipe (take (Z.to_nat blockSize) (drop (Z.to_nat offset) buf)) in
          let buf := splice buf (Z.to_nat offset) b in
          if negb (r =? USB_RC_OK) then
            let* size := gets returnSize in
            modify (set_return (-1) size);;
            ret buf
          else
            let* code := gets returnCode in
            if 0 <? code then modify (set_residue blockSize);; ret buf
            else
              let* size := gets returnSize in
              transfer_loop fuel' pipe (offset + size) blockSize (transferSize - size) buf
  end.

(** The return code, and the buffer. *)
Definition usb_bulk_transfer (fuel : nat) (pipe : Z) (buf : list Z) (transferSize : Z) : M mass (Z * list Z) :=
  CreateSema;;
  let* buf := transfer_loop fuel pipe 0 transferSize transferSize buf in
  DeleteSema;;
  let* code := gets returnCode in
  ret (code, buf).

(** ** Sectors *)

(** The loops of the sector functions: a command, its data, its status. *)
Fixpoint sector_loop (fuel steps : nat) (cbw : cbw_packet) (pipe : mass_dev -> Z) (tag stat : Z) (buf : list Z) : M mass (list Z) :=
  match fuel with
  | O => fail OutOfFuel
  | S fuel' =>
      if stat =? 0 then ret buf
      else
        let* d := gets mass_device in
        usb_bulk_command d cbw;;
        let* '(_, buf) := usb_bulk_transfer steps (pipe d) buf 4096 in
        let* stat := usb_bulk_manage_status d tag in
        sector_loop fuel' steps cbw pipe tag stat buf
  end.

(** 4096 bytes from [sector] on; a division by zero traps. *)
Definition mass_stor_readSector4096 (fuel : nat) (sector : Z) (buffer : list Z) : M mass (Z * list Z) :=
  let* sectorSize := gets (fun s => s32 (Size_Sector s)) in
  if sectorSize =? 0 then fail Hang
  else
    let cbw := cbw_scsi_read_sector (s32 sector) sectorSize (Z.quot 4096 sectorSize) (initCBWPacket junk_cbw) in
    let* buffer := sector_loop fuel fuel cbw bulkEpI (- TAG_READ) 1 buffer in
    ret (4096, buffer).
Definition mass_stor_writeSector4096 (fuel : nat) (sector : Z) (buffer : list Z) : M mass Z :=
  let* sectorSize := gets (fun s => s32 (Size_Sector s)) in
  if sectorSize =? 0 then fail Hang
  else
    let cbw := cbw_scsi_write_sector (s32 sector) sectorSize (Z.quot 4096 sectorSize) (initCBWPacket junk_cbw) in
    sector_loop fuel fuel cbw bulkEpO (- TAG_WRITE) 1 buffer;;
    ret 4096.

(** ** Devices *)

(** A field of a descriptor. *)
Definition field (b : list Z) (i : nat) : res Z := of_option OutOfBounds (b !! i).

Definition usb_bulk_probeEndpoint (endpoint : list Z) : M mass unit :=
  let* d := gets mass_device in
  let* bmAttributes := lift (field endpoint 3) in
  if negb (bmAttributes =? USB_ENDPOINT_XFER_BULK) then ret tt
  else
    let* addr := lift (field endpoint 2) in
    if (Z.land addr 0x80 =? 0) && (bulkEpO d <? 0) then
      let* u := gets bus in
      let '(ep, u') := UsbOpenEndpointAligned (devId d) endpoint u in
      modify (set_bus u');;
      let* hb := lift (field endpoint 5) in
      let* lb := lift (field endpoint 4) in
      modify (set_dev (MassDev (controlEp d) (bulkEpI d) (bulkEpIAddr d) ep addr (packetSzI d) (hb * 256 + lb) (devId d) (configId d) (status d)
        (interfaceNumber d) (interfaceAlt d)))
    else if negb (Z.land addr 0x80 =? 0) && (bulkEpI d <? 0) then
      let* u := gets bus in
      let '(ep, u') := UsbOpenEndpointAligned (devId d) endpoint u in
      modify (set_bus u');;
      let* hb := lift (field endpoint 5) in
      let* lb := lift (field endpoint 4) in
      modify (set_dev (MassDev (controlEp d) ep addr (bulkEpO d) (bulkEpOAddr d) (hb * 256 + lb) (packetSzO d) (devId d) (configId d) (status d)
        (interfaceNumber d) (interfaceAlt d)))
    else ret tt.

Definition mass_stor_probe (dev : Z) : M mass Z :=
  let* d := gets mass_device in
  let* u := gets bus in
  if Z.testbit (status d) 0 then ret 0
  else
    match device_descriptor u dev with
    | None => ret 0
    | Some device =>
        let* bNumConfigurations := lift (field device 17) in
        if bNumConfigurations <? 1 then ret 0
        else
          match config_descriptor u dev with
          | None => ret 0
          | Some config =>
              let* bNumInterfaces := lift (field config 4) in
              let wTotalLength := u16_at config 2 in
              if (bNumInterfaces <? 1) || (wTotalLength <? sizeof_UsbConfigDescriptor + sizeof_UsbInterfaceDescriptor) then ret 0
              else
                let* bLength := lift (field config 0) in
                let intf := drop (Z.to_nat bLength) config in
                let* cls := lift (field intf 5) in
                let* sub := lift (field intf 6) in
                let* protocol := lift (field intf 7) in
                let* eps := lift (field intf 4) in
                if negb (cls =? USB_CLASS_MASS_STORAGE) ||
                   (negb (sub =? USB_SUBCLASS_MASS_SCSI) && negb (sub =? USB_SUBCLASS_MASS_SFF_8070I)) ||
                   negb (protocol =? USB_PROTOCOL_MASS_BULK_ONLY) || (eps <? 2)
                then ret 0 else ret 1
          end
    end.

Definition sif_send_cmd (id : Z) : M mass unit := modify (add_cmd id).

(** The endpoints behind the first one. *)
Fixpoint probe_endpoints (n : nat) (endpoint : list Z) : M mass unit :=
  match n with
  | O => ret tt
  | S n' =>
      let* bLength := lift (field endpoint 0) in
      let endpoint := drop (Z.to_nat bLength) endpoint in
      usb_bulk_probeEndpoint endpoint;;
      probe_endpoints n' endpoint
  end.

Definition mass_stor_connect (dev : Z) : M mass Z :=
  let* d := gets mass_device in
  if Z.testbit (status d) 0 then ret 1
  else
    let* u := gets bus in
    let '(ep, u') := UsbOpenEndpoint dev u in
    modify (set_bus u');;
    let* config := lift (of_option NullDeref (config_descriptor u' dev)) in
    let* bLength := lift (field config 0) in
    let interface := drop (Z.to_nat bLength) config in
    let* number := lift (field interface 2) in
    let* alt := lift (field interface 3) in
    modify (set_dev (MassDev ep (-1) (bulkEpIAddr d) (-1) (bulkEpOAddr d) (packetSzI d) (packetSzO d) dev (configId d) (status d) number alt));;
    let* epCount := lift (field interface 4) in
    let* endpoint := lift (of_option NullDeref (endpoint_descriptor u' dev)) in
    usb_bulk_probeEndpoint endpoint;;
    probe_endpoints (Z.to_nat (epCount - 1)) endpoint;;
    let* d := gets mass_device in
    if bulkEpI d <? 0 then
      (if 0 <=? bulkEpO d then modify (fun s => set_bus (UsbCloseEndpoint (bulkEpO d) (bus s)) s) else ret tt);;
      ret (-1)
    else
      let* value := lift (field config 5) in
      modify (set_dev (MassDev (controlEp d) (bulkEpI d) (bulkEpIAddr d) (bulkEpO d) (bulkEpOAddr d) (packetSzI d) (packetSzO d) (devId d) value
        (Z.lor (status d) DEVICE_DETECTED) (interfaceNumber d) (interfaceAlt d)));;
      sif_send_cmd MASS_CONNECT_CALLBACK;;
      ret 0.

Definition mass_stor_release : M mass unit :=
  let* d := gets mass_device in
  (if 0 <=? bulkEpI d then modify (fun s => set_bus (UsbCloseEndpoint (bulkEpI d) (bus s)) s) else ret tt);;
  (if 0 <=? bulkEpO d then modify (fun s => set_bus (UsbCloseEndpoint (bulkEpO d) (bus s)) s) else ret tt);;
  modify (set_dev (MassDev (-1) (-1) (bulkEpIAddr d) (-1) (bulkEpOAddr d) (packetSzI d) (packetSzO d) (-1) (configId d) DEVICE_DISCONNECTED
    (interfaceNumber d) (interfaceAlt d))).

Definition mass_stor_disconnect (dev : Z) : M mass Z :=
  let* d := gets mass_device in
  (if Z.testbit (status d) 0 && (dev =? devId d) then mass_stor_release;; sif_send_cmd MASS_DISCONNECT_CALLBACK else ret tt);;
  ret 0.

(** ** Warm-up *)

Fixpoint test_unit_ready (fuel : nat) (d : mass_dev) (cbw : cbw_packet) : M mass unit :=
  match fuel with
  | O => fail OutOfFuel
  | S fuel' =>
      usb_bulk_command d cbw;;
      let* r := usb_bulk_manage_status d (- TAG_TEST_UNIT_READY) in
      if r =? 0 then ret tt else test_unit_ready fuel' d cbw
  end.

Fixpoint read_capacity (fuel retryCount : nat) (d : mass_dev) (cbw : cbw_packet) (stat : Z) (buffer : list Z) : M mass (Z * list Z) :=
  match retryCount with
  | O => ret (stat, buffer)
  | S retryCount' =>
      if stat =? 0 then ret (stat, buffer)
      else
        usb_bulk_command d cbw;;
        let* '(_, buffer) := usb_bulk_transfer fuel (bulkEpI d) buffer 8 in
        let* code := gets returnCode in
        let* stat := if code =? USB_RC_STALL then usb_bulk_reset d 1;; ret stat else usb_bulk_manage_status d (- TAG_READ_CAPACITY) in
        read_capacity fuel retryCount' d cbw stat buffer
  end.

Definition mass_stor_warmup (fuel : nat) : M mass Z :=
  let* d := gets mass_device in
  if negb (Z.testbit (status d) 0) then ret (-1)
  else
    let cbw := cbw_scsi_inquiry (initCBWPacket junk_cbw) in
    usb_bulk_command d cbw;;
    let* '(_, buffer) := usb_bulk_transfer fuel (bulkEpI d) (replicate 64 0) 36 in
    modify (set_residue 0);;
    usb_bulk_manage_status d (- TAG_INQUIRY);;
    let* size := gets returnSize in
    if size <=? 0 then ret (-1)
    else
      let cbw := cbw_scsi_start_stop_unit cbw in
      usb_bulk_command d cbw;;
      usb_bulk_manage_status d (- TAG_START_STOP_UNIT);;
      let cbw := cbw_scsi_test_unit_ready cbw in
      test_unit_ready fuel d cbw;;
      let cbw := cbw_scsi_request_sense cbw in
      usb_bulk_command d cbw;;
      let* '(_, buffer) := usb_bulk_transfer fuel (bulkEpI d) buffer 18 in
      usb_bulk_manage_status d (- TAG_REQUEST_SENSE);;
      let cbw := cbw_scsi_read_capacity cbw in
      let* '(stat, buffer) := read_capacity fuel 6 d cbw 1 buffer in
      if negb (stat =? 0) then ret 1
      else
        modify (set_capacity (u32 (getBI32 (drop 4 buffer))) (u32 (getBI32 buffer)));;
        ret 0.

(** ** Status *)

(** What the USB driver does while the thread sleeps. *)
Definition DelayThread : M mass unit :=
  let* l := gets events in
  match l with
  | [] => ret tt
  | e :: l' =>
      modify (set_events l');;
      match e with
      | Quiet => ret tt
      | Plug dev =>
          let* r := mass_stor_probe dev in
          if r =? 0 then ret tt else mass_stor_connect dev;; ret tt
      | Unplug dev => mass_stor_disconnect dev;; ret tt
      end
  end.

Fixpoint wait_detected (n : nat) : M mass unit :=
  match n with
  | O => ret tt
  | S n' =>
      let* d := gets mass_device in
      if Z.testbit (status d) 0 then ret tt else DelayThread;; wait_detected n'
  end.

Definition mass_stor_getStatus (fuel : nat) : M mass Z :=
  let* ready := gets driver_ready in
  let* signal := gets ready_signal in
  (if ready then ret tt else if signal then modify set_ready else fail Hang);;
  wait_detected 999;;
  let* d := gets mass_device in
  if negb (Z.testbit (status d) 0) then ret (-1)
  else if Z.testbit (status d) 1 then ret (status d)
  else
    set_configuration d (configId d);;
    set_interface d (interfaceNumber d) (interfaceAlt d);;
    let* d := gets mass_device in
    modify (set_dev (with_status (Z.lor (status d) DEVICE_CONFIGURED) d));;
    let* i := mass_stor_warmup fuel in
    if i <? 0 then mass_stor_release;; ret i
    else
      let* d := gets mass_device in
      ret (status d).

Definition mass_stor_init : M mass unit :=
  let* d := gets mass_device in
  modify (set_dev (with_status 0 d)).
End Mass.
