(* ===== verification/MassStorProps.v ===== *)
(** * USB mass storage: the driver on a device of the bulk-only transport

    What the driver relies on (the bulk-only transport and the SCSI commands of a disk), and
    that its sectors are the sectors of the disk. *)

From S2P Require Import Prelude Bytes SCache MassStor.
Local Open Scope ps2rd_scope.
Local Open Scope Z_scope.

(** ** Devices *)

(** What a device does next: it has to be configured, it waits for a command, it has data to
    send, it expects data for the bytes of the disk from [addr] on, it has a status to send. *)
Inductive bot_phase : Type :=
| BUnconfigured
| BIdle
| BDataIn (data : list Z) (tag : Z)
| BDataOut (addr : Z) (count : nat) (tag : Z)
| BStatus (tag : Z).

Definition data_in (data : list Z) (tag : Z) : bot_phase := match data with [] => BStatus tag | _ => BDataIn data tag end.
Definition data_out (addr : Z) (count : nat) (tag : Z) : bot_phase := match count with O => BStatus tag | _ => BDataOut addr count tag end.

Definition be16 (b : list Z) (i : nat) : Z := byte_at b i * 256 + byte_at b (i + 1).
Definition be32 (b : list Z) (i : nat) : Z := be16 b i * 65536 + be16 b (i + 2).
Definition to_be32 (x : Z) : list Z := [u8 (x / 2 ^ 24); u8 (x / 2 ^ 16); u8 (x / 2 ^ 8); u8 x].

(** A disk: [blocks] blocks of [blk] bytes, and the data it answers inquiries with. *)
Record geometry : Type := Geometry { blk : Z; blocks : Z; inquiry_data : list Z; sense_data : list Z }.

(** The command in a packet, [None] when the packet or the command is not valid. *)
Definition scsi (g : geometry) (d : gmap Z Z) (cbw : list Z) : option bot_phase :=
  let tag := u32_at cbw 4 in
  let len := u32_at cbw 8 in
  let com := drop 15 cbw in
  let op := byte_at com 0 in
  let lba := be32 com 2 in
  let count := be16 com 7 in
  let fits := (0 <? count) && (lba + count <=? blocks g) && (len =? count * blk g) in
  if negb (length cbw =? 31)%nat || negb (u32_at cbw 0 =? CBW_SIGNATURE) then None
  else if (op =? 0x00) || (op =? 0x1B) then if len =? 0 then Some (BStatus tag) else None
  else if op =? 0x12 then if len =? Z.of_nat (length (inquiry_data g)) then Some (data_in (inquiry_data g) tag) else None
  else if op =? 0x03 then if len =? Z.of_nat (length (sense_data g)) then Some (data_in (sense_data g) tag) else None
  else if op =? 0x25 then if len =? 8 then Some (data_in (to_be32 (blocks g - 1) ++ to_be32 (blk g)) tag) else None
  else if op =? 0x28 then if fits then Some (data_in (load_bytes d (lba * blk g) (Z.to_nat (count * blk g))) tag) else None
  else if op =? 0x2A then if fits then Some (data_out (lba * blk g) (Z.to_nat (count * blk g)) tag) else None
  else None.

(** The bulk-only transport: the bus [u] has a device with the disk [d] in a phase.  Data may
    come in pieces. *)
Class BulkOnly `{UsbDriver} (g : geometry) (epI epO : Z) : Type := {
  bot : usb -> gmap Z Z -> bot_phase -> Prop;
  stall_code : USB_RC_STALL <> 0;
  bot_command u d cbw ph : bot u d BIdle -> scsi g d cbw = Some ph ->
    exists u', UsbBulkTransfer epO cbw u = (USB_RC_OK, Some (0, 31, cbw), u') /\ bot u' d ph;
  bot_in u d data tag buf : bot u d (BDataIn data tag) -> buf <> [] -> (length buf <= length data)%nat ->
    exists n u', (1 <= n <= length buf)%nat /\
      UsbBulkTransfer epI buf u = (USB_RC_OK, Some (0, Z.of_nat n, take n data ++ drop n buf), u') /\ bot u' d (data_in (drop n data) tag);
  bot_out u d a count tag buf : bot u d (BDataOut a count tag) -> buf <> [] -> (length buf <= count)%nat ->
    exists n u', (1 <= n <= length buf)%nat /\
      UsbBulkTransfer epO buf u = (USB_RC_OK, Some (0, Z.of_nat n, buf), u') /\
      bot u' (store_bytes d a (take n buf)) (data_out (a + Z.of_nat n) (count - n) tag);
  bot_status u d tag buf : bot u d (BStatus tag) -> length buf = 13%nat ->
    exists rs u', UsbBulkTransfer epI buf u = (USB_RC_OK, Some (0, 13, csw_bytes (CSW CSW_SIGNATURE tag rs 0)), u') /\ bot u' d BIdle;
  bot_configure u d ep n : bot u d BUnconfigured ->
    exists c b u', UsbSetDeviceConfiguration ep n u = (USB_RC_OK, Some (c, b), u') /\ bot u' d BIdle;
  bot_interface u d ep i a : bot u d BIdle ->
    exists c b u', UsbSetInterface ep i a u = (USB_RC_OK, Some (c, b), u') /\ bot u' d BIdle;
}.

(** ** Packets *)

Lemma u8_byte x : u8 x = x mod 256.
Proof. done. Qed.

Lemma le32_len x : length (le32 x) = 4%nat.
Proof. done. Qed.

Lemma u32_at_le32 x l : is_u32 x -> u32_at (le32 x ++ l) 0 = x.
Proof. intros Hx. apply u32_at_read; [done|]. by rewrite drop_0, take_app_le by done. Qed.

Lemma drop_u32_at b k i : u32_at (drop k b) i = u32_at b (k + i).
Proof.
  assert (E : forall j, byte_at (drop k b) j = byte_at b (k + j)).
  { intros j. unfold byte_at. rewrite !nth_lookup, lookup_drop. done. }
  unfold u32_at, u16_at. rewrite !E. repeat (f_equal; try lia).
Qed.

(** The fields of a packet. *)
Lemma cbw_fields p : is_u32 (cbw_signature p) -> is_u32 (cbw_tag p) -> is_u32 (dataTransferLength p) -> length (comData p) = 16%nat ->
  length (cbw_bytes p) = 31%nat /\ u32_at (cbw_bytes p) 0 = cbw_signature p /\ u32_at (cbw_bytes p) 4 = cbw_tag p /\
  u32_at (cbw_bytes p) 8 = dataTransferLength p /\ drop 15 (cbw_bytes p) = comData p.
Proof.
  intros H1 H2 H3 H4. unfold cbw_bytes. split; [by rewrite !length_app, H4|]. split; [by apply u32_at_le32|].
  split; [|split].
  - rewrite <- (drop_u32_at _ 4 0). by apply u32_at_le32.
  - rewrite <- (drop_u32_at _ 8 0). by apply u32_at_le32.
  - done.
Qed.

Lemma csw_fields tag rs : is_u32 tag ->
  csw_signature (csw_of (csw_bytes (CSW CSW_SIGNATURE tag rs 0))) = CSW_SIGNATURE /\
  csw_tag (csw_of (csw_bytes (CSW CSW_SIGNATURE tag rs 0))) = tag /\ csw_status (csw_of (csw_bytes (CSW CSW_SIGNATURE tag rs 0))) = 0.
Proof.
  intros Ht. split; [reflexivity|]. split; [|reflexivity]. unfold csw_bytes, csw_of. cbn [csw_tag csw_signature].
  rewrite <- (drop_u32_at _ 4 0). by apply u32_at_le32.
Qed.

(** A command of ten or of six bytes in front of what was in the packet. *)
Lemma cbw_scsi_ok tag len flags com p : cbw_signature p = CBW_SIGNATURE -> length (comData p) = 16%nat -> (length com <= 16)%nat ->
  cbw_signature (cbw_scsi tag len flags com p) = CBW_SIGNATURE /\ length (comData (cbw_scsi tag len flags com p)) = 16%nat /\
  length (cbw_bytes (cbw_scsi tag len flags com p)) = 31%nat /\ u32_at (cbw_bytes (cbw_scsi tag len flags com p)) 0 = CBW_SIGNATURE /\
  u32_at (cbw_bytes (cbw_scsi tag len flags com p)) 4 = u32 tag /\ u32_at (cbw_bytes (cbw_scsi tag len flags com p)) 8 = u32 len /\
  forall i, (i < length com)%nat -> byte_at (drop 15 (cbw_bytes (cbw_scsi tag len flags com p))) i = byte_at com i.
Proof.
  intros Hs Hl Hc. assert (Hl' : length (comData (cbw_scsi tag len flags com p)) = 16%nat).
  { cbn [comData cbw_scsi]. rewrite length_splice; [done|lia]. }
  split; [done|]. split; [done|].
  destruct (cbw_fields (cbw_scsi tag len flags com p)) as (E1 & E2 & E3 & E4 & E5); [cbn [cbw_signature cbw_scsi]; by rewrite Hs|apply u32_range|apply u32_range|done|].
  split; [done|]. split; [rewrite E2; exact Hs|]. split; [done|]. split; [done|]. intros i Hi. rewrite E5. cbn [comData cbw_scsi].
  rewrite splice_0. unfold byte_at. by rewrite app_nth1.
Qed.

(** The bytes of a sector command. *)
Lemma byte_shift x k : 0 <= k -> Z.shiftr (Z.land x (Z.shiftl 0xFF k)) k = u8 (x / 2 ^ k).
Proof.
  intros Hk. rewrite Z.shiftr_land, Z.shiftr_shiftl_l by done. replace (k - k) with 0 by lia. rewrite Z.shiftl_0_r.
  change 0xFF with (Z.ones 8). rewrite Z.land_ones by done. rewrite Z.shiftr_div_pow2 by done. done.
Qed.
Lemma sectors_lba op lba count : be32 (cbw_scsi_sectors op lba count) 2 = u32 lba.
Proof.
  unfold cbw_scsi_sectors, be32, be16, byte_at. cbn [nth Nat.add].
  pose proof (byte_shift (u32 lba) 24 ltac:(lia)) as E1. change (Z.shiftl 0xFF 24) with 0xFF000000 in E1.
  pose proof (byte_shift lba 16 ltac:(lia)) as E2. change (Z.shiftl 0xFF 16) with 0xFF0000 in E2.
  pose proof (byte_shift lba 8 ltac:(lia)) as E3. change (Z.shiftl 0xFF 8) with 0xFF00 in E3.
  rewrite E1, E2, E3. change 0xFF with (Z.ones 8). rewrite Z.land_ones by lia. zlia.
Qed.
Lemma sectors_count op lba count : be16 (cbw_scsi_sectors op lba count) 7 = u16 count.
Proof.
  unfold cbw_scsi_sectors, be16, byte_at. cbn [nth Nat.add].
  pose proof (byte_shift count 8 ltac:(lia)) as E3. change (Z.shiftl 0xFF 8) with 0xFF00 in E3.
  rewrite E3. change 0xFF with (Z.ones 8). rewrite Z.land_ones by lia. zlia.
Qed.

(** ** Transfers *)

Section Device.
  Context `{BulkOnly g epI epO}.

(** What a transfer leaves alone. *)
Record same (s s' : mass) : Prop := {
  sm_dev : mass_device s' = mass_device s;
  sm_size : Size_Sector s' = Size_Sector s;
  sm_lba : g_MaxLBA s' = g_MaxLBA s;
  sm_ready : driver_ready s' = driver_ready s;
  sm_semas : semas s' = semas s;
  sm_cmds : ee_cmds s' = ee_cmds s;
}.

Lemma same_trans s1 s2 s3 : same s1 s2 -> same s2 s3 -> same s1 s3.
Proof. intros [] []. split; congruence. Qed.

Lemma bulk_done pipe buf s c n b u' : UsbBulkTransfer pipe buf (bus s) = (USB_RC_OK, Some (c, n, b), u') ->
  bulk_request pipe buf s = Ok (USB_RC_OK, b, set_return c n (set_bus u' s)).
Proof. intros E. unfold bulk_request, gets, bind. cbn. rewrite E. cbn. by rewrite Z.eqb_refl. Qed.

Lemma same_done c n u' s : same s (add_semas (-1) (set_return c n (set_bus u' (add_semas 1 s)))).
Proof. split; try done. cbn. lia. Qed.

Lemma command_sent d cbw s dk ph : bulkEpO d = epO -> bot (bus s) dk BIdle -> scsi g dk (cbw_bytes cbw) = Some ph ->
  exists s', usb_bulk_command d cbw s = Ok (tt, s') /\ same s s' /\ bot (bus s') dk ph /\ residue s' = residue s.
Proof.
  intros Hep Hb Hc. destruct (bot_command _ _ _ _ Hb Hc) as (u' & E & Hb'). unfold usb_bulk_command, CreateSema, DeleteSema. rewrite Hep.
  rewrite (bind_ok _ _ _ _ _ eq_refl). rewrite (bind_ok _ _ _ _ _ (bulk_done epO _ (add_semas 1 s) _ _ _ _ E)).
  eexists. split; [reflexivity|]. split; [apply same_done|]. done.
Qed.

Lemma status_received d tag s dk : bulkEpI d = epI -> bot (bus s) dk (BStatus (u32 tag)) ->
  exists rs u', usb_bulk_status d tag s =
      Ok (USB_RC_OK, csw_of (csw_bytes (CSW CSW_SIGNATURE (u32 tag) rs 0)), add_semas (-1) (set_return 0 13 (set_bus u' (add_semas 1 s)))) /\
    bot u' dk BIdle.
Proof.
  intros Hep Hb. destruct (bot_status _ _ _ (csw_bytes (CSW CSW_SIGNATURE (u32 tag) (u32 (residue s)) 0)) Hb eq_refl) as (rs & u' & E & Hb').
  exists rs, u'. split; [|done]. unfold usb_bulk_status, CreateSema, DeleteSema. rewrite Hep. rewrite (bind_ok _ _ _ _ _ eq_refl).
  rewrite (bind_ok _ _ _ _ _ eq_refl). rewrite (bind_ok _ _ _ _ _ (bulk_done epI _ (add_semas 1 s) _ _ _ _ E)). reflexivity.
Qed.

Lemma status_read d tag s dk : bulkEpI d = epI -> bot (bus s) dk (BStatus (u32 tag)) ->
  exists s', usb_bulk_manage_status d tag s = Ok (0, s') /\ same s s' /\ bot (bus s') dk BIdle /\ returnSize s' = 13 /\ residue s' = residue s.
Proof.
  intros Hep Hb. destruct (status_received d tag s dk Hep Hb) as (rs & u' & E & Hb'). unfold usb_bulk_manage_status.
  rewrite (bind_ok _ _ _ _ _ E). rewrite Z.eqb_refl. cbn [negb]. rewrite bind_ret. cbv beta iota.
  destruct (csw_fields (u32 tag) rs (u32_range tag)) as (E1 & E2 & E3). rewrite E1, E2, E3, !Z.eqb_refl. cbn [negb orb]. change (0 =? CSW_PHASE_ERROR) with false.
  eexists. split; [reflexivity|]. split; [apply same_done|]. done.
Qed.

(** What was read so far, and the rest. *)
Lemma splice_twice buf off n data r : (n <= length data)%nat -> (off + length data <= length buf)%nat -> length (take n data ++ r) = length data ->
  splice (splice buf off (take n data ++ r)) (off + n) (drop n data) = splice buf off data.
Proof.
  intros Hn Hl Hr. apply list_eq. intros i. assert (Ld : length (drop n data) = (length data - n)%nat) by apply length_drop.
  rewrite !lookup_splice by (rewrite ?length_splice; lia). repeat case_decide; try lia; try done.
  - rewrite lookup_drop. f_equal. lia.
  - rewrite lookup_app_l, lookup_take_lt; [done|lia|rewrite length_take; lia].
Qed.

(** Data from the device. *)
Lemma in_loop fuel : forall s dk data tag off bsize buf,
  (length data <= fuel)%nat -> bot (bus s) dk (data_in data tag) -> (off + length data <= length buf)%nat -> Z.of_nat (length data) <= bsize ->
  exists s', transfer_loop (S fuel) epI (Z.of_nat off) bsize (Z.of_nat (length data)) buf s = Ok (splice buf off data, s') /\
    same s s' /\ bot (bus s') dk (BStatus tag) /\ residue s' = residue s /\ (data <> [] \/ returnCode s = 0 -> returnCode s' = 0).
Proof.
  induction fuel as [|fuel IH]; intros s dk data tag off bsize buf Hf Hb Hl Hbs.
  { destruct data; [|cbn in Hf; lia]. exists s. split; [|split; [by split|split; [done|split; [done|by intros [?|?]]]]]. cbn. unfold ret. repeat f_equal.
    unfold splice. cbn. by rewrite Nat.add_0_r, take_drop. }
  destruct data as [|x data0]; [exists s; split; [|split; [by split|split; [done|split; [done|by intros [?|?]]]]]; cbn; unfold ret; repeat f_equal; unfold splice; cbn; by rewrite Nat.add_0_r, take_drop|].
  set (data := x :: data0) in *. assert (Hne : (0 < length data)%nat) by (cbn; lia). change (data_in data tag) with (BDataIn data tag) in Hb.
  set (b := take (length data) (drop off buf)). assert (Lb : length b = length data) by (unfold b; rewrite length_take, length_drop; lia).
  destruct (bot_in _ _ _ _ b Hb) as (n & u' & Hn & E & Hb'); [destruct b; [cbn in Lb; lia|done]|lia|]. rewrite Lb in Hn.
  assert (Ebs : Z.min bsize (Z.of_nat (length data)) = Z.of_nat (length data)) by lia.
  remember (S fuel) as f eqn:Ef. cbn [transfer_loop]. rewrite Ebs. rewrite (proj2 (Z.leb_gt _ _)) by lia.
  rewrite (proj2 (Z.ltb_ge (Z.of_nat off) 0)), (proj2 (Z.ltb_ge (Z.of_nat (length buf)) _)) by lia. cbn [orb]. rewrite !Nat2Z.id. fold b.
  rewrite (bind_ok _ _ _ _ _ (bulk_done epI b s _ _ _ _ E)). rewrite Z.eqb_refl. cbn [negb].
  rewrite (bind_ok _ _ _ _ _ eq_refl). cbn [returnCode set_return]. change (0 <? 0) with false. cbv iota. rewrite (bind_ok _ _ _ _ _ eq_refl). cbn [returnSize set_return]. subst f.
  set (s1 := set_return 0 (Z.of_nat n) (set_bus u' s)). set (buf1 := splice buf off (take n data ++ drop n b)).
  assert (Lt : length (take n data ++ drop n b) = length data) by (rewrite length_app, length_take, length_drop; lia).
  assert (L1 : length buf1 = length buf) by (unfold buf1; rewrite length_splice; lia).
  assert (Ld : length (drop n data) = (length data - n)%nat) by apply length_drop.
  destruct (IH s1 dk (drop n data) tag (off + n)%nat (Z.of_nat (length data)) buf1) as (s' & E2 & Hs & Hb2 & Hr & Hc); [lia|exact Hb'|lia|lia|].
  replace (Z.of_nat off + Z.of_nat n) with (Z.of_nat (off + n)) by lia. replace (Z.of_nat (length data) - Z.of_nat n) with (Z.of_nat (length (drop n data))) by lia.
  exists s'. split; [|split; [|split; [done|split; [done|]]]].
  - rewrite E2. unfold buf1. by rewrite splice_twice by lia.
  - apply (same_trans s s1); [by split|done].
  - intros _. apply Hc. by right.
Qed.

(** Data to the device: the buffer stays as it is. *)
Lemma splice_same buf off k : (off + k <= length buf)%nat -> splice buf off (take k (drop off buf)) = buf.
Proof.
  intros Hl. unfold splice. rewrite length_take, length_drop. replace (off + Nat.min k (length buf - off))%nat with (off + k)%nat by lia.
  rewrite <- drop_drop, take_drop, take_drop. done.
Qed.
Lemma store_bytes_app d a l1 l2 : store_bytes d a (l1 ++ l2) = store_bytes (store_bytes d a l1) (a + Z.of_nat (length l1)) l2.
Proof.
  revert d a. induction l1 as [|x l1 IH]; intros d a; cbn [app store_bytes length]; [f_equal; lia|]. rewrite IH. f_equal. lia.
Qed.

Lemma out_loop fuel : forall s dk a count tag off bsize buf,
  (count <= fuel)%nat -> bot (bus s) dk (data_out a count tag) -> (off + count <= length buf)%nat -> Z.of_nat count <= bsize ->
  exists s', transfer_loop (S fuel) epO (Z.of_nat off) bsize (Z.of_nat count) buf s = Ok (buf, s') /\
    same s s' /\ bot (bus s') (store_bytes dk a (take count (drop off buf))) (BStatus tag) /\ residue s' = residue s.
Proof.
  induction fuel as [|fuel IH]; intros s dk a count tag off bsize buf Hf Hb Hl Hbs.
  { assert (count = 0%nat) as -> by lia. exists s. split; [done|]. split; [by split|done]. }
  destruct (decide (count = 0%nat)) as [->|Hne]; [exists s; split; [done|]; split; [by split|done]|].
  assert (data_out a count tag = BDataOut a count tag) as E0 by (by destruct count). rewrite E0 in Hb. clear E0.
  set (b := take count (drop off buf)). assert (Lb : length b = count) by (unfold b; rewrite length_take, length_drop; lia).
  destruct (bot_out _ _ _ _ _ b Hb) as (n & u' & Hn & E & Hb'); [destruct b; [cbn in Lb; lia|done]|lia|]. rewrite Lb in Hn.
  remember (S fuel) as f eqn:Ef. cbn [transfer_loop]. replace (Z.min bsize (Z.of_nat count)) with (Z.of_nat count) by lia.
  rewrite (proj2 (Z.leb_gt _ _)) by lia.
  rewrite (proj2 (Z.ltb_ge (Z.of_nat off) 0)), (proj2 (Z.ltb_ge (Z.of_nat (length buf)) _)) by lia. cbn [orb]. rewrite !Nat2Z.id. fold b.
  rewrite (bind_ok _ _ _ _ _ (bulk_done epO b s _ _ _ _ E)). rewrite Z.eqb_refl. cbn [negb]. unfold b at 1 2. rewrite splice_same by lia.
  rewrite (bind_ok _ _ _ _ _ eq_refl). cbn [returnCode set_return]. change (0 <? 0) with false. cbv iota.
  rewrite (bind_ok _ _ _ _ _ eq_refl). cbn [returnSize set_return]. subst f.
  set (s1 := set_return 0 (Z.of_nat n) (set_bus u' s)).
  destruct (IH s1 (store_bytes dk a (take n b)) (a + Z.of_nat n) (count - n)%nat tag (off + n)%nat (Z.of_nat count) buf) as (s' & E2 & Hs & Hb2 & Hr);
    [lia|exact Hb'|lia|lia|].
  replace (Z.of_nat off + Z.of_nat n) with (Z.of_nat (off + n)) by lia. replace (Z.of_nat count - Z.of_nat n) with (Z.of_nat (count - n)) by lia.
  exists s'. split; [exact E2|]. split; [apply (same_trans s s1); [by split|done]|]. split; [|done].
  replace (store_bytes dk a b) with (store_bytes (store_bytes dk a (take n b)) (a + Z.of_nat n) (take (count - n) (drop (off + n) buf))); [done|].
  assert (Eb : take n b ++ take (count - n) (drop (off + n) buf) = b).
  { unfold b. rewrite take_take, Nat.min_l by lia. rewrite <- (take_drop n (take count (drop off buf))). rewrite take_take, Nat.min_l by lia.
    f_equal. rewrite skipn_firstn_comm, drop_drop. done. }
  rewrite <- Eb at 2. rewrite store_bytes_app, length_take. do 2 f_equal. lia.
Qed.

(** Whole transfers. *)
Lemma read_data fuel s dk data tag buf : (length data <= fuel)%nat -> bot (bus s) dk (data_in data tag) -> (length data <= length buf)%nat ->
  exists s' r, usb_bulk_transfer (S fuel) epI buf (Z.of_nat (length data)) s = Ok (r, data ++ drop (length data) buf, s') /\
    same s s' /\ bot (bus s') dk (BStatus tag) /\ residue s' = residue s /\ (data <> [] -> returnCode s' = 0).
Proof.
  intros Hf Hb Hl. destruct (in_loop fuel (add_semas 1 s) dk data tag 0 (Z.of_nat (length data)) buf Hf Hb Hl ltac:(lia)) as (s' & E & Hs & Hb' & Hr & Hc).
  unfold usb_bulk_transfer, CreateSema, DeleteSema. rewrite (bind_ok _ _ _ _ _ eq_refl). rewrite (bind_ok _ _ _ _ _ E).
  eexists _, _. split; [reflexivity|]. split; [|split; [done|split; [done|intros Hne; apply Hc; by left]]].
  destruct Hs. split; try done. cbn in *. lia.
Qed.
Lemma write_data fuel s dk a tag buf : (length buf <= fuel)%nat -> bot (bus s) dk (data_out a (length buf) tag) ->
  exists s' r, usb_bulk_transfer (S fuel) epO buf (Z.of_nat (length buf)) s = Ok (r, buf, s') /\
    same s s' /\ bot (bus s') (store_bytes dk a buf) (BStatus tag) /\ residue s' = residue s.
Proof.
  intros Hf Hb. destruct (out_loop fuel (add_semas 1 s) dk a (length buf) tag 0 (Z.of_nat (length buf)) buf Hf Hb ltac:(lia) ltac:(lia))
    as (s' & E & Hs & Hb' & Hr).
  unfold usb_bulk_transfer, CreateSema, DeleteSema. rewrite (bind_ok _ _ _ _ _ eq_refl). rewrite (bind_ok _ _ _ _ _ E).
  eexists _, _. split; [reflexivity|]. split; [|split; [|done]].
  - destruct Hs. split; try done. cbn in *. lia.
  - rewrite drop_0, take_ge in Hb' by lia. exact Hb'.
Qed.

(** ** Sectors *)

(** A disk that the driver can use: whole blocks in 4096 bytes, an address in 32 bits. *)
Record disk_ok : Prop := {
  do_blk : 0 < blk g <= 4096;
  do_div : 4096 mod blk g = 0;
  do_blocks : 0 < blocks g <= 2 ^ 32;
  do_inquiry : length (inquiry_data g) = 36%nat;
  do_sense : length (sense_data g) = 18%nat;
}.

Context (Hdisk : disk_ok).

Definition per_page : Z := 4096 / blk g.
#[local] Opaque load_bytes.

Lemma per_page_ok : 0 < per_page <= 4096 /\ blk g * per_page = 4096 /\ per_page * blk g = 4096.
Proof using Hdisk.
  destruct Hdisk as [Hb Hd _ _ _]. unfold per_page. pose proof (Z.div_mod 4096 (blk g) ltac:(lia)) as E. rewrite Hd in E.
  split; [|lia]. split; [apply Z.div_str_pos; lia|]. apply Z.div_le_upper_bound; nia.
Qed.

Definition in_range (sec : Z) : Prop := 0 <= sec /\ sec + per_page <= blocks g.

Lemma com_bytes com com' : (forall i, (i < length com)%nat -> byte_at com' i = byte_at com i) -> (10 <= length com)%nat ->
  byte_at com' 0 = byte_at com 0 /\ be32 com' 2 = be32 com 2 /\ be16 com' 7 = be16 com 7.
Proof. intros Hc Hl. unfold be32, be16. rewrite !Hc by lia. done. Qed.

Lemma sector_command op tag flags sec dk p : cbw_signature p = CBW_SIGNATURE -> length (comData p) = 16%nat -> in_range sec -> op = 0x28 \/ op = 0x2A ->
  scsi g dk (cbw_bytes (cbw_scsi tag (blk g * per_page) flags (cbw_scsi_sectors op (s32 sec) per_page) p)) =
  Some (if op =? 0x28 then data_in (load_bytes dk (sec * blk g) 4096) (u32 tag) else data_out (sec * blk g) 4096 (u32 tag)).
Proof using Hdisk.
  intros Hs Hl [Hr1 Hr2] Hop. destruct per_page_ok as (P1 & P2 & P3). pose proof (do_blocks Hdisk) as Hblocks.
  destruct (cbw_scsi_ok tag (blk g * per_page) flags (cbw_scsi_sectors op (s32 sec) per_page) p Hs Hl ltac:(cbn; lia))
    as (_ & _ & L & S1 & S2 & S3 & Hcom).
  destruct (com_bytes _ _ Hcom ltac:(cbn; lia)) as (E1 & E2 & E3). rewrite sectors_lba in E2. rewrite sectors_count in E3.
  assert (u32 (s32 sec) = sec) as Es by zlia. rewrite Es in E2. rewrite (u16_id per_page) in E3 by lia.
  unfold scsi. rewrite L, S1, S2, S3, E1, E2, E3. rewrite P2, P3. change (u32 4096) with 4096. change (Z.to_nat 4096) with 4096%nat.
  rewrite (proj2 (Z.ltb_lt 0 per_page)), (proj2 (Z.leb_le (sec + per_page) _)) by lia.
  change (byte_at (cbw_scsi_sectors op (s32 sec) per_page) 0) with op. by destruct Hop as [->| ->].
Qed.

(** Ready for sectors. *)
Record ready (s : mass) (dk : gmap Z Z) : Prop := {
  rd_in : bulkEpI (mass_device s) = epI;
  rd_out : bulkEpO (mass_device s) = epO;
  rd_size : Size_Sector s = blk g;
  rd_bot : bot (bus s) dk BIdle;
}.

Lemma junk_ok : cbw_signature (initCBWPacket junk_cbw) = CBW_SIGNATURE /\ length (comData (initCBWPacket junk_cbw)) = 16%nat.
Proof. split; [done|]. cbn [comData initCBWPacket junk_cbw]. rewrite length_take, length_app, length_replicate. lia. Qed.

Lemma page_size s dk : ready s dk -> s32 (Size_Sector s) = blk g /\ Z.quot 4096 (blk g) = per_page.
Proof using Hdisk.
  intros Hr. rewrite (rd_size _ _ Hr). destruct Hdisk as [Hb _ _ _ _]. split; [apply s32_id; lia|]. apply Z.quot_div_nonneg; lia.
Qed.

(** The loop body once: command, data, status. *)
Lemma read_sector fuel s dk sec buf : ready s dk -> in_range sec -> length buf = 4096%nat -> (4097 <= fuel)%nat ->
  exists s', mass_stor_readSector4096 fuel sec buf s = Ok (4096, load_bytes dk (sec * blk g) 4096, s') /\ same s s' /\ ready s' dk.
Proof using Hdisk.
  intros Hr Hin Hl Hf. destruct (page_size s dk Hr) as [E1 E2]. unfold mass_stor_readSector4096. rewrite (bind_ok _ _ _ _ _ eq_refl). rewrite E1.
  pose proof (do_blk Hdisk) as Hblk. rewrite (proj2 (Z.eqb_neq (blk g) 0)) by lia. rewrite E2. unfold cbw_scsi_read_sector.
  destruct junk_ok as [J1 J2]. pose proof (sector_command 0x28 (- TAG_READ) 0x80 sec dk _ J1 J2 Hin (or_introl eq_refl)) as Hc. cbn [Z.eqb] in Hc.
  set (cbw := cbw_scsi _ _ _ _ _) in *. set (data := load_bytes dk (sec * blk g) 4096) in *.
  assert (Ld : length data = 4096%nat) by apply length_load_bytes.
  destruct (command_sent (mass_device s) cbw s dk _ (rd_out _ _ Hr) (rd_bot _ _ Hr) Hc) as (s1 & C1 & F1 & B1 & _).
  destruct fuel as [|fuel]; [lia|]. destruct (read_data fuel s1 dk data _ buf ltac:(lia) B1 ltac:(lia)) as (s2 & r & C2 & F2 & B2 & _ & _).
  destruct (status_read (mass_device s) (- TAG_READ) s2 dk (rd_in _ _ Hr) B2) as (s3 & C3 & F3 & B3 & _).
  remember (S fuel) as f eqn:Ef. exists s3. split; [|split].
  - assert (Hloop : sector_loop f f cbw bulkEpI (- TAG_READ) 1 buf s = Ok (data, s3)); [|by rewrite (bind_ok _ _ _ _ _ Hloop)].
    rewrite Ef at 1. cbn [sector_loop]. change (1 =? 0) with false. cbv iota. rewrite (bind_ok _ _ _ _ _ eq_refl). rewrite (bind_ok _ _ _ _ _ C1).
    rewrite (rd_in _ _ Hr). rewrite Ld in C2. change (Z.of_nat 4096) with 4096 in C2. rewrite (bind_ok _ _ _ _ _ C2). rewrite (bind_ok _ _ _ _ _ C3).
    destruct fuel as [|fuel]; [lia|]. cbn [sector_loop]. rewrite drop_ge by lia. by rewrite app_nil_r.
  - exact (same_trans _ _ _ F1 (same_trans _ _ _ F2 F3)).
  - destruct (same_trans _ _ _ F1 (same_trans _ _ _ F2 F3)) as [D1 D2 _ _ _ _], Hr. split; congruence.
Qed.
Lemma write_sector fuel s dk sec buf : ready s dk -> in_range sec -> length buf = 4096%nat -> (4097 <= fuel)%nat ->
  exists s', mass_stor_writeSector4096 fuel sec buf s = Ok (4096, s') /\ same s s' /\ ready s' (store_bytes dk (sec * blk g) buf).
Proof using Hdisk.
  intros Hr Hin Hl Hf. destruct (page_size s dk Hr) as [E1 E2]. unfold mass_stor_writeSector4096. rewrite (bind_ok _ _ _ _ _ eq_refl). rewrite E1.
  pose proof (do_blk Hdisk) as Hblk. rewrite (proj2 (Z.eqb_neq (blk g) 0)) by lia. rewrite E2. unfold cbw_scsi_write_sector.
  destruct junk_ok as [J1 J2]. pose proof (sector_command 0x2A (- TAG_WRITE) 0 sec dk _ J1 J2 Hin (or_intror eq_refl)) as Hc. cbn [Z.eqb] in Hc.
  set (cbw := cbw_scsi _ _ _ _ _) in *.
  destruct (command_sent (mass_device s) cbw s dk _ (rd_out _ _ Hr) (rd_bot _ _ Hr) Hc) as (s1 & C1 & F1 & B1 & _).
  destruct fuel as [|fuel]; [lia|]. rewrite <- Hl in B1. destruct (write_data fuel s1 dk _ _ buf ltac:(lia) B1) as (s2 & r & C2 & F2 & B2 & _).
  destruct (status_read (mass_device s) (- TAG_WRITE) s2 _ (rd_in _ _ Hr) B2) as (s3 & C3 & F3 & B3 & _).
  remember (S fuel) as f eqn:Ef. exists s3. split; [|split].
  - assert (Hloop : sector_loop f f cbw bulkEpO (- TAG_WRITE) 1 buf s = Ok (buf, s3)); [|by rewrite (bind_ok _ _ _ _ _ Hloop)].
    rewrite Ef at 1. cbn [sector_loop]. change (1 =? 0) with false. cbv iota. rewrite (bind_ok _ _ _ _ _ eq_refl). rewrite (bind_ok _ _ _ _ _ C1).
    rewrite (rd_out _ _ Hr). rewrite Hl in C2. change (Z.of_nat 4096) with 4096 in C2. rewrite (bind_ok _ _ _ _ _ C2). rewrite (bind_ok _ _ _ _ _ C3).
    destruct fuel as [|fuel]; [lia|]. reflexivity.
  - exact (same_trans _ _ _ F1 (same_trans _ _ _ F2 F3)).
  - destruct (same_trans _ _ _ F1 (same_trans _ _ _ F2 F3)) as [D1 D2 _ _ _ _], Hr. split; congruence.
Qed.

(** ** Warm-up *)

Definition packet_ok (p : cbw_packet) : Prop := cbw_signature p = CBW_SIGNATURE /\ length (comData p) = 16%nat.
Lemma packet_scsi tag len flags com p : packet_ok p -> (length com <= 16)%nat -> packet_ok (cbw_scsi tag len flags com p).
Proof. intros [Hs Hl] Hc. destruct (cbw_scsi_ok tag len flags com p Hs Hl Hc) as (? & ? & _). done. Qed.

(** The commands without a sector. *)
Lemma scsi_command tag len flags op com p dk : packet_ok p -> (length (op :: com) <= 16)%nat -> op ∈ [0x00; 0x1B; 0x12; 0x03; 0x25] ->
  scsi g dk (cbw_bytes (cbw_scsi tag len flags (op :: com) p)) =
  if (op =? 0x00) || (op =? 0x1B) then if u32 len =? 0 then Some (BStatus (u32 tag)) else None
  else if op =? 0x12 then if u32 len =? Z.of_nat (length (inquiry_data g)) then Some (data_in (inquiry_data g) (u32 tag)) else None
  else if op =? 0x03 then if u32 len =? Z.of_nat (length (sense_data g)) then Some (data_in (sense_data g) (u32 tag)) else None
  else if u32 len =? 8 then Some (data_in (to_be32 (blocks g - 1) ++ to_be32 (blk g)) (u32 tag)) else None.
Proof.
  intros [Hs Hl] Hc Hop. destruct (cbw_scsi_ok tag len flags (op :: com) p Hs Hl Hc) as (_ & _ & L & S1 & S2 & S3 & Hcom).
  specialize (Hcom 0%nat ltac:(cbn; lia)). change (byte_at (op :: com) 0) with op in Hcom.
  unfold scsi. rewrite L, S1, S2, S3, Hcom. cbn [negb orb Nat.eqb]. rewrite Z.eqb_refl. cbn [negb].
  rewrite !elem_of_cons, elem_of_nil in Hop. by destruct Hop as [->|[->|[->|[->|[->|[]]]]]].
Qed.

(** A command without data, and one whose data go to [buf]. *)
Lemma exchange_status d cbw tag s dk : bulkEpI d = epI -> bulkEpO d = epO -> bot (bus s) dk BIdle ->
  scsi g dk (cbw_bytes cbw) = Some (BStatus (u32 tag)) ->
  exists s1 s', usb_bulk_command d cbw s = Ok (tt, s1) /\ usb_bulk_manage_status d tag s1 = Ok (0, s') /\ same s s' /\ bot (bus s') dk BIdle.
Proof.
  intros HI HO Hb Hc. destruct (command_sent d cbw s dk _ HO Hb Hc) as (s1 & C1 & F1 & B1 & _).
  destruct (status_read d tag s1 dk HI B1) as (s2 & C2 & F2 & B2 & _). exists s1, s2. by pose proof (same_trans _ _ _ F1 F2).
Qed.
Lemma exchange_in d cbw tag s dk data buf fuel : bulkEpI d = epI -> bulkEpO d = epO -> bot (bus s) dk BIdle ->
  scsi g dk (cbw_bytes cbw) = Some (data_in data (u32 tag)) -> (length data <= fuel)%nat -> (length data <= length buf)%nat -> data <> [] ->
  exists s1 s2 r, usb_bulk_command d cbw s = Ok (tt, s1) /\
    usb_bulk_transfer (S fuel) epI buf (Z.of_nat (length data)) s1 = Ok (r, data ++ drop (length data) buf, s2) /\ same s s2 /\
    bot (bus s2) dk (BStatus (u32 tag)) /\ returnCode s2 = 0.
Proof.
  intros HI HO Hb Hc Hf Hl Hne. destruct (command_sent d cbw s dk _ HO Hb Hc) as (s1 & C1 & F1 & B1 & _).
  destruct (read_data fuel s1 dk data _ buf Hf B1 Hl) as (s2 & r & C2 & F2 & B2 & _ & HC0). exists s1, s2, r.
  pose proof (same_trans _ _ _ F1 F2). by specialize (HC0 Hne).
Qed.

Lemma getBI32_be x l : u32 (getBI32 (to_be32 x ++ l)) = u32 x.
Proof.
  unfold getBI32, to_be32, byte_at. cbn [app nth]. rewrite !Z.shiftl_mul_pow2 by lia. zlia.
Qed.

(** The packets of the warm-up, made in one another's place. *)
Definition p_inquiry : cbw_packet := cbw_scsi_inquiry (initCBWPacket junk_cbw).
Definition p_start : cbw_packet := cbw_scsi_start_stop_unit p_inquiry.
Definition p_test : cbw_packet := cbw_scsi_test_unit_ready p_start.
Definition p_sense : cbw_packet := cbw_scsi_request_sense p_test.
Definition p_capacity : cbw_packet := cbw_scsi_read_capacity p_sense.
Definition capacity_data : list Z := to_be32 (blocks g - 1) ++ to_be32 (blk g).

Lemma warmup_packets dk :
  scsi g dk (cbw_bytes p_inquiry) = Some (data_in (inquiry_data g) (u32 (- TAG_INQUIRY))) /\
  scsi g dk (cbw_bytes p_start) = Some (BStatus (u32 (- TAG_START_STOP_UNIT))) /\
  scsi g dk (cbw_bytes p_test) = Some (BStatus (u32 (- TAG_TEST_UNIT_READY))) /\
  scsi g dk (cbw_bytes p_sense) = Some (data_in (sense_data g) (u32 (- TAG_REQUEST_SENSE))) /\
  scsi g dk (cbw_bytes p_capacity) = Some (data_in capacity_data (u32 (- TAG_READ_CAPACITY))).
Proof using Hdisk.
  destruct Hdisk as [_ _ _ Hinq Hsen]. assert (P0 : packet_ok (initCBWPacket junk_cbw)) by apply junk_ok.
  assert (P1 : packet_ok p_inquiry) by (apply packet_scsi; [done|cbn; lia]). assert (P2 : packet_ok p_start) by (apply packet_scsi; [done|cbn; lia]).
  assert (P3 : packet_ok p_test) by (apply packet_scsi; [done|cbn; lia]). assert (P4 : packet_ok p_sense) by (apply packet_scsi; [done|cbn; lia]).
  unfold p_capacity, p_sense, p_test, p_start, p_inquiry in *.
  unfold cbw_scsi_read_capacity, cbw_scsi_request_sense, cbw_scsi_test_unit_ready, cbw_scsi_start_stop_unit, cbw_scsi_inquiry in *.
  split_and!; (rewrite scsi_command; [|assumption|cbn; lia|set_solver]); by rewrite ?Hinq, ?Hsen.
Qed.

Lemma warmup_ok fuel s dk : Z.testbit (status (mass_device s)) 0 = true -> bulkEpI (mass_device s) = epI -> bulkEpO (mass_device s) = epO ->
  bot (bus s) dk BIdle -> (37 <= fuel)%nat ->
  exists s', mass_stor_warmup fuel s = Ok (0, set_capacity (blk g) (blocks g - 1) s') /\ same s s' /\ bot (bus s') dk BIdle.
Proof using Hdisk.
  intros Hst HI HO Hb Hf. destruct Hdisk as [Hblk _ Hblocks Hinq Hsen]. destruct fuel as [|fuel]; [lia|].
  set (d := mass_device s) in *. destruct (warmup_packets dk) as (Q1 & Q2 & Q3 & Q4 & Q5).
  unfold mass_stor_warmup. rewrite (bind_ok _ _ _ _ _ eq_refl). fold d. rewrite Hst. cbn [negb]. fold p_inquiry.
  destruct (exchange_in d p_inquiry _ s dk _ (replicate 64 0) fuel HI HO Hb Q1 ltac:(lia) ltac:(rewrite length_replicate; lia) ltac:(by intros E; rewrite E in Hinq))
    as (s1 & s2 & r1 & C1 & C2 & F2 & B2 & _).
  rewrite Hinq in C2. change (Z.of_nat 36) with 36 in C2. rewrite (bind_ok _ _ _ _ _ C1), HI, (bind_ok _ _ _ _ _ C2), (bind_ok _ _ _ _ _ eq_refl).
  destruct (status_read d (- TAG_INQUIRY) (set_residue 0 s2) dk HI B2) as (s3 & C3 & F3 & B3 & R3 & _).
  rewrite (bind_ok _ _ _ _ _ C3), (bind_ok _ _ _ _ _ eq_refl), R3. change (13 <=? 0) with false. cbv iota. fold p_start.
  destruct (exchange_status d p_start _ s3 dk HI HO B3 Q2) as (s4 & s5 & C4 & C5 & F5 & B5). rewrite (bind_ok _ _ _ _ _ C4), (bind_ok _ _ _ _ _ C5). fold p_test.
  destruct (exchange_status d p_test _ s5 dk HI HO B5 Q3) as (s6 & s7 & C6 & C7 & F7 & B7).
  assert (T3 : test_unit_ready (S fuel) d p_test s5 = Ok (tt, s7)) by (cbn [test_unit_ready]; by rewrite (bind_ok _ _ _ _ _ C6), (bind_ok _ _ _ _ _ C7)).
  rewrite (bind_ok _ _ _ _ _ T3). fold p_sense. set (buf1 := inquiry_data g ++ _).
  assert (L1 : length buf1 = 64%nat) by (unfold buf1; rewrite length_app, length_drop, length_replicate, Hinq; done).
  destruct (exchange_in d p_sense _ s7 dk _ buf1 fuel HI HO B7 Q4 ltac:(lia) ltac:(lia) ltac:(by intros E; rewrite E in Hsen))
    as (s8 & s9 & r8 & C8 & C9 & F9 & B9 & _).
  rewrite Hsen in C9. change (Z.of_nat 18) with 18 in C9. rewrite (bind_ok _ _ _ _ _ C8), (bind_ok _ _ _ _ _ C9).
  destruct (status_read d (- TAG_REQUEST_SENSE) s9 dk HI B9) as (s10 & C10 & F10 & B10 & _). rewrite (bind_ok _ _ _ _ _ C10). fold p_capacity.
  set (buf2 := sense_data g ++ _). assert (L2 : length buf2 = 64%nat) by (unfold buf2; rewrite length_app, length_drop, Hsen; lia).
  destruct (exchange_in d p_capacity _ s10 dk _ buf2 fuel HI HO B10 Q5 ltac:(cbn; lia) ltac:(cbn; lia) ltac:(done)) as (s11 & s12 & r11 & C11 & C12 & F12 & B12 & R12).
  destruct (status_read d (- TAG_READ_CAPACITY) s12 dk HI B12) as (s13 & C13 & F13 & B13 & _).
  assert (T5 : read_capacity (S fuel) 6 d p_capacity 1 buf2 s10 = Ok (0, capacity_data ++ drop (length capacity_data) buf2, s13)).
  { remember 5%nat as k. cbn [read_capacity]. change (1 =? 0) with false. cbv iota. rewrite (bind_ok _ _ _ _ _ C11), HI.
    change (Z.of_nat (length capacity_data)) with 8 in C12. rewrite (bind_ok _ _ _ _ _ C12), (bind_ok _ _ _ _ _ eq_refl), R12.
    rewrite (proj2 (Z.eqb_neq 0 USB_RC_STALL)) by (intros E; by apply stall_code). rewrite (bind_ok _ _ _ _ _ C13). by subst k. }
  rewrite (bind_ok _ _ _ _ _ T5). cbn [negb Z.eqb]. exists s13. split; [|split; [|done]].
  - rewrite (bind_ok _ _ _ _ _ eq_refl). unfold ret. do 3 f_equal.
    + change (drop 4 (capacity_data ++ drop (length capacity_data) buf2)) with (to_be32 (blk g) ++ drop 8 buf2). rewrite getBI32_be. apply u32_id. lia.
    + unfold capacity_data. rewrite <- app_assoc, getBI32_be. apply u32_id. lia.
  - assert (F3' : same s2 s3) by (apply (same_trans _ _ _ (Build_same s2 (set_residue 0 s2) eq_refl eq_refl eq_refl eq_refl eq_refl eq_refl) F3)).
    exact (same_trans _ _ _ F2 (same_trans _ _ _ F3' (same_trans _ _ _ F5 (same_trans _ _ _ F7 (same_trans _ _ _ F9 (same_trans _ _ _ F10 (same_trans _ _ _ F12 F13))))))).
Qed.

(** ** Sessions *)

Lemma wait_done n s : Z.testbit (status (mass_device s)) 0 = true -> wait_detected (S n) s = Ok (tt, s).
Proof. intros Hd. cbn [wait_detected]. rewrite (bind_ok _ _ _ _ _ eq_refl). by rewrite Hd. Qed.

Lemma control_done call s c b u' : call (bus s) = (USB_RC_OK, Some (c, b), u') ->
  exists s', (control_request call;; DeleteSema) s = Ok (tt, s') /\ same s s' /\ bus s' = u'.
Proof.
  intros E. unfold control_request, CreateSema, DeleteSema, gets, bind, modify, usb_callback, ret. cbn. rewrite E. cbn. rewrite Z.eqb_refl. cbn.
  eexists. split; [reflexivity|]. split; [|done]. split; try done. cbn. lia.
Qed.

(** A device that was plugged in, before its first use. *)
Record plugged (s : mass) (dk : gmap Z Z) : Prop := {
  pl_in : bulkEpI (mass_device s) = epI;
  pl_out : bulkEpO (mass_device s) = epO;
  pl_status : status (mass_device s) = DEVICE_DETECTED;
  pl_ready : driver_ready s = true \/ ready_signal s = true;
  pl_bot : bot (bus s) dk BUnconfigured;
}.

Lemma getStatus_ok fuel s dk : plugged s dk -> (37 <= fuel)%nat ->
  exists s', mass_stor_getStatus fuel s = Ok (3, s') /\ ready s' dk /\ g_MaxLBA s' = blocks g - 1 /\ ee_cmds s' = ee_cmds s /\
    semas s' = (if driver_ready s then semas s else semas s - 1).
Proof using Hdisk.
  intros [HI HO Hst Hrd Hb] Hf. set (s0 := if driver_ready s then s else set_ready s).
  assert (E0 : (if driver_ready s then ret tt else if ready_signal s then modify set_ready else fail Hang) s = Ok (tt, s0)).
  { unfold s0. destruct (driver_ready s); [done|]. by destruct Hrd as [?| ->]. }
  assert (D0 : mass_device s0 = mass_device s /\ bus s0 = bus s /\ ee_cmds s0 = ee_cmds s /\ semas s0 = (if driver_ready s then semas s else semas s - 1)).
  { unfold s0. by destruct (driver_ready s). }
  destruct D0 as (D1 & D2 & D3 & D4). set (d := mass_device s) in *.
  unfold mass_stor_getStatus. do 2 rewrite (bind_ok _ _ _ _ _ eq_refl). rewrite (bind_ok _ _ _ _ _ E0).
  rewrite (bind_ok _ _ _ _ _ (wait_done 998 s0 ltac:(by rewrite D1, Hst))). rewrite (bind_ok _ _ _ _ _ eq_refl). rewrite D1, Hst.
  change (Z.testbit DEVICE_DETECTED 0) with true. change (Z.testbit DEVICE_DETECTED 1) with false. cbn [negb].
  destruct (bot_configure _ _ (controlEp d) (configId d) Hb) as (c1 & b1 & u1 & U1 & B1). rewrite <- D2 in U1.
  destruct (control_done _ _ _ _ _ U1) as (s1 & C1 & F1 & V1). unfold set_configuration. rewrite (bind_ok _ _ _ _ _ C1).
  destruct (bot_interface _ _ (controlEp d) (interfaceNumber d) (interfaceAlt d) B1) as (c2 & b2 & u2 & U2 & B2). rewrite <- V1 in U2.
  destruct (control_done _ _ _ _ _ U2) as (s2 & C2 & F2 & V2). unfold set_interface. rewrite (bind_ok _ _ _ _ _ C2).
  pose proof (same_trans _ _ _ F1 F2) as F. rewrite (bind_ok _ _ _ _ _ eq_refl). rewrite (sm_dev _ _ F), D1, Hst.
  rewrite (bind_ok _ _ _ _ _ eq_refl). set (s3 := set_dev _ s2). rewrite <- V2 in B2.
  destruct (warmup_ok fuel s3 dk eq_refl HI HO B2 Hf) as (s4 & C4 & F4 & B4). rewrite (bind_ok _ _ _ _ _ C4). change (0 <? 0) with false. cbv iota.
  destruct F as [G1 G2 G3 G4 G5 G6], F4 as [K1 K2 K3 K4 K5 K6].
  eexists. split; [rewrite (bind_ok _ _ _ _ _ eq_refl); cbn [mass_device set_capacity]; rewrite K1; reflexivity|]. split; [split; cbn|split; [done|split; cbn]].
  - by rewrite K1.
  - by rewrite K1.
  - done.
  - done.
  - rewrite K6. cbn. congruence.
  - rewrite K5. cbn. congruence.
Qed.

(** Reads and writes of pages, with the buffer of the caller. *)
Inductive sector_op : Type := SRead (sec : Z) (buf : list Z) | SWrite (sec : Z) (bytes : list Z).
Definition op_ok (o : sector_op) : Prop :=
  match o with SRead sec buf | SWrite sec buf => in_range sec /\ length buf = 4096%nat end.

(** The driver: the status, and then the pages. *)
Definition run_op (fuel : nat) (o : sector_op) : M mass (Z * list Z) :=
  match o with
  | SRead sec buf => mass_stor_readSector4096 fuel sec buf
  | SWrite sec bytes => let* r := mass_stor_writeSector4096 fuel sec bytes in ret (r, bytes)
  end.
Fixpoint run_ops (fuel : nat) (l : list sector_op) : M mass (list (Z * list Z)) :=
  match l with
  | [] => ret []
  | o :: l' => let* x := run_op fuel o in let* r := run_ops fuel l' in ret (x :: r)
  end.
Definition session (fuel : nat) (l : list sector_op) : M mass (Z * list (Z * list Z)) :=
  let* st := mass_stor_getStatus fuel in
  let* r := run_ops fuel l in
  ret (st, r).

(** The disk below the sector cache. *)
Definition disk_op (o : sector_op) : M scache (Z * list Z) :=
  match o with
  | SRead sec buf =>
      modify (SCache.set_buf (Some buf));;
      let* r := READ_SECTOR_4096 sec 0 in
      let* b := the_buf in
      ret (r, b)
  | SWrite sec bytes => let* r := WRITE_SECTOR_4096 sec bytes in ret (r, bytes)
  end.
Fixpoint disk_ops (l : list sector_op) : M scache (list (Z * list Z)) :=
  match l with
  | [] => ret []
  | o :: l' => let* x := disk_op o in let* r := disk_ops l' in ret (x :: r)
  end.

(** A disk whose transfers succeed. *)
Record below (sc : scache) (dk : gmap Z Z) (n : nat) : Prop := {
  bl_size : sectorSize sc = blk g;
  bl_disk : disk sc = dk;
  bl_rets : disk_rets sc = replicate n 4096;
}.

Lemma op_refines fuel o s sc dk n : ready s dk -> below sc dk (S n) -> op_ok o -> (4097 <= fuel)%nat ->
  exists x dk' s' sc', run_op fuel o s = Ok (x, s') /\ disk_op o sc = Ok (x, sc') /\ ready s' dk' /\ below sc' dk' n /\ same s s'.
Proof using Hdisk.
  intros Hr [B1 B2 B3] Ho Hf. destruct o as [sec buf|sec bytes]; destruct Ho as [Hin Hl]; cbn [run_op disk_op].
  - destruct (read_sector fuel s dk sec buf Hr Hin Hl Hf) as (s' & E & F & Hr'). exists (4096, load_bytes dk (sec * blk g) 4096), dk, s'.
    eexists. split; [done|]. rewrite (bind_ok _ _ _ _ _ eq_refl). unfold READ_SECTOR_4096, bind. cbn [disk_rets SCache.set_buf]. rewrite B3.
    cbn [replicate head default tail Z.ltb Z.compare sectorBuf SCache.set_buf]. rewrite (proj2 (Nat.ltb_ge _ _)) by lia.
    rewrite splice_0, drop_ge, app_nil_r by (rewrite length_load_bytes; lia).
    cbn [disk sectorSize SCache.set_buf]. rewrite B1, B2. split; [reflexivity|]. split; [done|]. split; [by split|done].
  - destruct (write_sector fuel s dk sec bytes Hr Hin Hl Hf) as (s' & E & F & Hr'). exists (4096, bytes), (store_bytes dk (sec * blk g) bytes), s'.
    eexists. split; [by rewrite (bind_ok _ _ _ _ _ E)|]. unfold WRITE_SECTOR_4096, bind. rewrite B3. cbn [replicate head default tail Z.ltb Z.compare].
    rewrite B1, B2. split; [reflexivity|]. split; [done|]. split; [by split|done].
Qed.

Lemma ops_refine fuel l : forall s sc dk, ready s dk -> below sc dk (length l) -> Forall op_ok l -> (4097 <= fuel)%nat ->
  exists r dk' s' sc', run_ops fuel l s = Ok (r, s') /\ disk_ops l sc = Ok (r, sc') /\ ready s' dk' /\ below sc' dk' 0 /\ same s s'.
Proof using Hdisk.
  induction l as [|o l IH]; intros s sc dk Hr Hb Ho Hf; [exists [], dk, s, sc; repeat (split; [done|]); by split|].
  apply Forall_cons in Ho as [Ho Hl]. cbn [length] in Hb.
  destruct (op_refines fuel o s sc dk _ Hr Hb Ho Hf) as (x & dk1 & s1 & sc1 & E1 & E2 & Hr1 & Hb1 & F1).
  destruct (IH s1 sc1 dk1 Hr1 Hb1 Hl Hf) as (r & dk2 & s2 & sc2 & E3 & E4 & Hr2 & Hb2 & F2).
  exists (x :: r), dk2, s2, sc2. cbn [run_ops disk_ops]. rewrite (bind_ok _ _ _ _ _ E1), (bind_ok _ _ _ _ _ E3), (bind_ok _ _ _ _ _ E2), (bind_ok _ _ _ _ _ E4).
  repeat (split; [done|]). exact (same_trans _ _ _ F1 F2).
Qed.
End Device.


(** ** A device that does not answer *)

Section Dead.
  Context `{UsbDriver}.
  Context (Hbulk : forall pipe b u, exists r done u', UsbBulkTransfer pipe b u = (r, done, u') /\ r <> USB_RC_OK)
    (Hclear : forall ep f a u, exists r done u', UsbClearEndpointFeature ep f a u = (r, done, u') /\ r <> USB_RC_OK)
    (Hctl : forall ep a b c i u, exists r done u', UsbControlTransfer ep a b c i u = (r, done, u') /\ r <> USB_RC_OK).

(** [n] semaphores more. *)
Definition leaks (n : Z) (s s' : mass) : Prop := semas s' = semas s + n.

Lemma refused_bulk pipe b s : exists r s', bulk_request pipe b s = Ok (r, b, s') /\ r <> USB_RC_OK /\ leaks 0 s s'.
Proof using Hbulk.
  destruct (Hbulk pipe b (bus s)) as (r & done & u' & E & Hr). exists r, (set_bus u' s). split; [|split; [done|unfold leaks; cbn; lia]].
  unfold bulk_request. rewrite (bind_ok _ _ _ _ _ eq_refl), E. rewrite (bind_ok _ _ _ _ _ eq_refl). by rewrite (proj2 (Z.eqb_neq _ _) Hr).
Qed.
Lemma refused_control call s : (forall u, exists r done u', call u = (r, done, u') /\ r <> USB_RC_OK) ->
  exists r s', control_request call s = Ok (r, s') /\ r <> USB_RC_OK /\ leaks 1 s s'.
Proof.
  intros Hcall. destruct (Hcall (bus s)) as (r & done & u' & E & Hr). exists r, (set_bus u' (add_semas 1 s)). split; [|done].
  unfold control_request, CreateSema. rewrite (bind_ok _ _ _ _ _ eq_refl), (bind_ok _ _ _ _ _ eq_refl). cbn [bus add_semas]. rewrite E.
  rewrite (bind_ok _ _ _ _ _ eq_refl). by rewrite (proj2 (Z.eqb_neq _ _) Hr).
Qed.

Lemma dead_command d cbw s : exists s', usb_bulk_command d cbw s = Ok (tt, s') /\ leaks 0 s s'.
Proof using Hbulk.
  unfold usb_bulk_command, CreateSema, DeleteSema. destruct (refused_bulk (bulkEpO d) (cbw_bytes cbw) (add_semas 1 s)) as (r & s1 & E & _ & Hs).
  rewrite (bind_ok _ _ _ _ _ eq_refl), (bind_ok _ _ _ _ _ E). eexists. split; [reflexivity|]. unfold leaks in *. cbn in *. lia.
Qed.
Lemma dead_transfer fuel pipe buf s : length buf = 4096%nat -> exists r s', usb_bulk_transfer (S fuel) pipe buf 4096 s = Ok (r, buf, s') /\ leaks 0 s s'.
Proof using Hbulk.
  intros Hl. unfold usb_bulk_transfer, CreateSema, DeleteSema. destruct (refused_bulk pipe buf (add_semas 1 s)) as (r & s1 & E & Hr & Hs).
  assert (T : transfer_loop (S fuel) pipe 0 4096 4096 buf (add_semas 1 s) = Ok (buf, set_return (-1) (returnSize s1) s1)).
  { cbn [transfer_loop]. change (4096 <=? 0) with false. change (Z.min 4096 4096) with 4096. change (0 <? 0) with false. rewrite Hl. cbn [orb Z.add].
    change (Z.of_nat 4096 <? 0 + 4096) with false. cbv iota zeta. change (Z.to_nat 4096) with 4096%nat. change (Z.to_nat 0) with 0%nat. rewrite drop_0, take_ge by lia.
    rewrite (bind_ok _ _ _ _ _ E). rewrite (proj2 (Z.eqb_neq _ _) Hr). cbn [negb]. rewrite splice_0, drop_ge, app_nil_r by lia. done. }
  rewrite (bind_ok _ _ _ _ _ eq_refl), (bind_ok _ _ _ _ _ T). eexists _, _. split; [reflexivity|]. unfold leaks in *. cbn in *. lia.
Qed.
Lemma dead_csw d tag s : exists r csw s', usb_bulk_status d tag s = Ok (r, csw, s') /\ r <> USB_RC_OK /\ leaks 0 s s'.
Proof using Hbulk.
  unfold usb_bulk_status, CreateSema, DeleteSema.
  destruct (refused_bulk (bulkEpI d) (csw_bytes (CSW CSW_SIGNATURE (u32 tag) (u32 (residue s)) 0)) (add_semas 1 s)) as (r & s1 & E & Hr & Hs).
  do 2 rewrite (bind_ok _ _ _ _ _ eq_refl). rewrite (bind_ok _ _ _ _ _ E). eexists _, _, _. split; [reflexivity|]. split; [done|]. unfold leaks in *. cbn in *. lia.
Qed.
Lemma dead_status d tag s : exists s', usb_bulk_manage_status d tag s = Ok (0, s') /\ leaks 2 s s'.
Proof using Hbulk Hclear Hctl.
  unfold usb_bulk_manage_status. destruct (dead_csw d tag s) as (r1 & c1 & s1 & E1 & H1 & L1). rewrite (bind_ok _ _ _ _ _ E1).
  rewrite (proj2 (Z.eqb_neq _ _) H1). cbn [negb]. rewrite bind_assoc.
  destruct (refused_control (UsbClearEndpointFeature (controlEp d) 0 (bulkEpIAddr d)) s1 ltac:(intros u; apply Hclear)) as (r2 & s2 & E2 & H2 & L2).
  assert (T2 : usb_bulk_clear_halt d 0 s1 = Ok (tt, s2)).
  { unfold usb_bulk_clear_halt. cbn [Z.eqb]. rewrite (bind_ok _ _ _ _ _ E2). by rewrite (proj2 (Z.eqb_neq _ _) H2). }
  rewrite (bind_ok _ _ _ _ _ T2). destruct (dead_csw d tag s2) as (r3 & c3 & s3 & E3 & H3 & L3). rewrite (bind_ok _ _ _ _ _ E3).
  rewrite (proj2 (Z.eqb_neq _ _) H3). cbn [negb orb].
  destruct (refused_control (UsbControlTransfer (controlEp d) 0x21 0xFF 0 (interfaceNumber d)) s3 ltac:(intros u; apply Hctl)) as (r4 & s4 & E4 & H4 & L4).
  assert (T4 : usb_bulk_reset d 3 s3 = Ok (tt, s4)).
  { unfold usb_bulk_reset. rewrite (bind_ok _ _ _ _ _ E4). by rewrite (proj2 (Z.eqb_neq _ _) H4). }
  rewrite (bind_ok _ _ _ _ _ T4). exists s4. split; [done|]. unfold leaks in *. lia.
Qed.
End Dead.

(** C24: errors of the device are lost.  When no request can be sent to the device at all, a read
    of a sector still returns 4096, the size of a good read: the return code of the data transfer
    is overwritten by that of [usb_bulk_manage_status], which is always 0.  The buffer is as it
    was before, so that the cache takes what the slot held for the sector, and each such read
    leaves two semaphores behind. *)
Theorem mass_stor_errors_lost `{UsbDriver} s sec buf fuel :
  (forall pipe b u, exists r done u', UsbBulkTransfer pipe b u = (r, done, u') /\ r <> USB_RC_OK) ->
  (forall ep f a u, exists r done u', UsbClearEndpointFeature ep f a u = (r, done, u') /\ r <> USB_RC_OK) ->
  (forall ep a b c i u, exists r done u', UsbControlTransfer ep a b c i u = (r, done, u') /\ r <> USB_RC_OK) ->
  length buf = 4096%nat -> s32 (Size_Sector s) <> 0 -> (2 <= fuel)%nat ->
  exists s', mass_stor_readSector4096 fuel sec buf s = Ok (4096, buf, s') /\ semas s' = semas s + 2.
Proof.
  intros Hbulk Hclear Hctl Hl Hss Hf. unfold mass_stor_readSector4096. rewrite (bind_ok _ _ _ _ _ eq_refl). rewrite (proj2 (Z.eqb_neq _ _) Hss).
  set (cbw := cbw_scsi_read_sector _ _ _ _). destruct fuel as [|[|fuel]]; [lia|lia|].
  destruct (dead_command Hbulk (mass_device s) cbw s) as (s1 & E1 & L1).
  destruct (dead_transfer Hbulk (S fuel) (bulkEpI (mass_device s)) buf s1 Hl) as (r & s2 & E2 & L2).
  destruct (dead_status Hbulk Hclear Hctl (mass_device s) (- TAG_READ) s2) as (s3 & E3 & L3).
  assert (T : sector_loop (S (S fuel)) (S (S fuel)) cbw bulkEpI (- TAG_READ) 1 buf s = Ok (buf, s3)).
  { remember (S (S fuel)) as f eqn:Ef. rewrite Ef at 1. cbn [sector_loop]. change (1 =? 0) with false. cbv iota.
    rewrite (bind_ok _ _ _ _ _ eq_refl), (bind_ok _ _ _ _ _ E1), (bind_ok _ _ _ _ _ E2), (bind_ok _ _ _ _ _ E3). done. }
  exists s3. rewrite (bind_ok _ _ _ _ _ T). split; [done|]. unfold leaks in *. lia.
Qed.

(** ** A device *)

(** A disk of 64 blocks that sends and takes at most 512 bytes at a time. *)
Definition sample_geometry : geometry := Geometry 512 64 (replicate 36 32) (replicate 18 0).

Definition sample_transfer (pipe : Z) (buf : list Z) (u : gmap Z Z * bot_phase) : Z * option (Z * Z * list Z) * (gmap Z Z * bot_phase) :=
  let n := Nat.min 512 (length buf) in
  match u.2 with
  | BIdle =>
      match scsi sample_geometry u.1 buf with
      | Some ph => if pipe =? 2 then (0, Some (0, 31, buf), (u.1, ph)) else (1, None, u)
      | None => (1, None, u)
      end
  | BDataIn data tag => if pipe =? 1 then (0, Some (0, Z.of_nat n, take n data ++ drop n buf), (u.1, data_in (drop n data) tag)) else (1, None, u)
  | BDataOut a count tag => if pipe =? 2 then (0, Some (0, Z.of_nat n, buf), (store_bytes u.1 a (take n buf), data_out (a + Z.of_nat n) (count - n) tag)) else (1, None, u)
  | BStatus tag => if pipe =? 1 then (0, Some (0, 13, csw_bytes (CSW CSW_SIGNATURE tag 0 0)), (u.1, BIdle)) else (1, None, u)
  | BUnconfigured => (1, None, u)
  end.

Definition sample_config : list Z := [9; 2; 32; 0; 1; 1; 0; 0x80; 50] ++ [9; 4; 0; 0; 2; 8; 6; 0x50; 0].
Definition sample_endpoints : list Z := [7; 5; 0x81; 2; 64; 0; 0] ++ [7; 5; 0x02; 2; 64; 0; 0].

#[local] Instance sample_usb : UsbDriver := {|
  usb := gmap Z Z * bot_phase;
  USB_RC_OK := 0; USB_RC_STALL := 4; USB_CLASS_MASS_STORAGE := 8; USB_ENDPOINT_XFER_BULK := 2;
  sizeof_UsbConfigDescriptor := 9; sizeof_UsbInterfaceDescriptor := 9;
  UsbBulkTransfer := sample_transfer;
  UsbControlTransfer := fun _ _ _ _ _ u => (0, Some (0, 0), u);
  UsbSetDeviceConfiguration := fun _ _ u => (0, Some (0, 0), (u.1, BIdle));
  UsbSetInterface := fun _ _ _ u => (0, Some (0, 0), u);
  UsbSetDeviceFeature := fun _ _ u => (0, Some (0, 0), u);
  UsbClearEndpointFeature := fun _ _ _ u => (0, Some (0, 0), u);
  UsbOpenEndpoint := fun _ u => (0, u);
  UsbOpenEndpointAligned := fun _ ep u => (Z.land (byte_at ep 2) 0x7F, u);
  UsbCloseEndpoint := fun _ u => u;
  device_descriptor := fun _ dev => if dev =? 5 then Some (replicate 17 0 ++ [1]) else None;
  config_descriptor := fun _ dev => if dev =? 5 then Some sample_config else None;
  endpoint_descriptor := fun _ dev => if dev =? 5 then Some sample_endpoints else None;
  stack_junk := [];
|}.

#[local] Instance sample_bot : BulkOnly sample_geometry 1 2.
Proof.
  refine {| bot := fun u d ph => u = (d, ph) |}.
  - done.
  - intros u d cbw ph -> E. exists (d, ph). split; [|done]. cbn [UsbBulkTransfer sample_usb]. unfold sample_transfer. cbn [fst snd]. by rewrite E.
  - intros u d data tag buf -> Hne Hl. exists (Nat.min 512 (length buf)), (d, data_in (drop (Nat.min 512 (length buf)) data) tag).
    split; [destruct buf; [done|]; cbn [length]; lia|]. split; [|done]. reflexivity.
  - intros u d a count tag buf -> Hne Hl. eexists (Nat.min 512 (length buf)), _. split; [destruct buf; [done|]; cbn [length]; lia|]. split; reflexivity.
  - intros u d tag buf -> _. eexists 0, _. split; reflexivity.
  - intros u d ep n ->. eexists 0, 0, _. split; reflexivity.
  - intros u d ep i a ->. eexists 0, 0, _. split; reflexivity.
Defined.

(** Plugged in while the driver waits: the device is found and its endpoints are opened. *)
Definition empty_device : mass_dev := MassDev 0 (-1) 0 (-1) 0 0 0 0 0 0 0 0.
Definition before_plug : mass := Mass empty_device 512 0 0 0 0 false true 1 [] (∅, BUnconfigured) [Quiet; Plug 7; Plug 5].
Definition after_plug : mass := Mass (MassDev 0 1 0x81 2 0x02 64 64 5 1 1 0 0) 512 0 0 0 0 false true 1 [MASS_CONNECT_CALLBACK] (∅, BUnconfigured) [].
Example sample_plugged : (DelayThread;; DelayThread;; DelayThread) before_plug = Ok (tt, after_plug).
Proof. reflexivity. Qed.

Definition sample_ops : list sector_op := [SWrite 3 (replicate 4096 7); SRead 8 (replicate 4096 0)].
Definition sample_disk : scache := SCache 512 8 None [] 0 0 0 0 ∅ (replicate 2 4096).


(** A driver that refuses every request. *)
Definition dead_usb : UsbDriver := {|
  usb := unit;
  USB_RC_OK := 0; USB_RC_STALL := 4; USB_CLASS_MASS_STORAGE := 8; USB_ENDPOINT_XFER_BULK := 2;
  sizeof_UsbConfigDescriptor := 9; sizeof_UsbInterfaceDescriptor := 9;
  UsbBulkTransfer := fun _ _ u => (1, None, u);
  UsbControlTransfer := fun _ _ _ _ _ u => (1, None, u);
  UsbSetDeviceConfiguration := fun _ _ u => (1, None, u);
  UsbSetInterface := fun _ _ _ u => (1, None, u);
  UsbSetDeviceFeature := fun _ _ u => (1, None, u);
  UsbClearEndpointFeature := fun _ _ _ u => (1, None, u);
  UsbOpenEndpoint := fun _ u => (-1, u);
  UsbOpenEndpointAligned := fun _ _ u => (-1, u);
  UsbCloseEndpoint := fun _ u => u;
  device_descriptor := fun _ _ => None;
  config_descriptor := fun _ _ => None;
  endpoint_descriptor := fun _ _ => None;
  stack_junk := [];
|}.
Definition dead_state : @mass dead_usb := @Mass dead_usb empty_device 512 0 0 0 0 true true 0 [] tt [].

Lemma mass_stor_errors_lost_witness :
  exists s', @mass_stor_readSector4096 dead_usb 2 100 (replicate 4096 1) dead_state = Ok (4096, replicate 4096 1, s') /\ semas s' = 2.
Proof.
  apply (@mass_stor_errors_lost dead_usb dead_state 100 (replicate 4096 1) 2).
  - intros pipe b u. exists 1, None, u. done.
  - intros ep f a u. exists 1, None, u. done.
  - intros ep a b c i u. exists 1, None, u. done.
  - apply length_replicate.
  - vm_compute. discriminate.
  - lia.
Defined.
