(* ===== verification/Fat.v ===== *)
(** * The FAT file system of the USB mass storage driver (iop/usb_mass/fat_driver.c)

    The driver as it is built (read only: the Makefile has WRITE_SUPPORT=0), on a device that
    reads sectors.  [sbuf], a pointer into the sector cache, is the bytes it shows: nothing but
    the next [READ_SECTOR] changes them. *)

From S2P Require Import Prelude Bytes.
Local Open Scope ps2rd_scope.

(** ** The device *)

(** What the layer below offers: [DISK_INIT], [READ_SECTOR] (the result and the bytes the buffer
    pointer shows), [mass_stor_getStatus], [Size_Sector] and [g_MaxLBA]. *)
Class SectorDev (D : Type) : Type := {
  dev_init : Z -> M D Z;
  dev_read : Z -> M D (Z * list Z);
  dev_status : M D Z;
  Size_Sector : D -> Z;
  g_MaxLBA : D -> Z;
}.

(** ** Data *)

Definition FAT12 : Z := 0x0C.
Definition FAT16 : Z := 0x10.
Definition FAT32 : Z := 0x20.
Definition FAT_MAX_NAME : nat := 128.
Definition DIR_CHAIN_SIZE : nat := 32.
Definition MAX_DIR_CLUSTER : nat := 512.
Definition MAX_FILES : nat := 16.
Definition FAT_ERROR : Z := -1.

Definition EFAULT : Z := 14.
Definition ENOENT : Z := 2.
Definition EMFILE : Z := 24.
Definition EROFS : Z := 30.

Record part_record : Type := PartRec { sid : Z; pr_start : Z; pr_count : Z }.

Record fat_bpb : Type := Bpb {
  bpb_sectorSize : Z;
  bpb_clusterSize : Z;
  bpb_resSectors : Z;
  bpb_fatCount : Z;
  bpb_rootSize : Z;
  bpb_fatSize : Z;
  bpb_trackSize : Z;
  bpb_headCount : Z;
  bpb_hiddenCount : Z;
  bpb_sectorCount : Z;
  bpb_partStart : Z;
  bpb_rootDirStart : Z;
  bpb_rootDirCluster : Z;
  bpb_activeFat : Z;
  bpb_fatType : Z;
  bpb_fatId : list Z;
}.

(** A directory entry as it is scanned; [e_name] and [e_sname] are the arrays. *)
Record fat_direntry : Type := DirEntry {
  e_attr : Z;
  e_name : list Z;
  e_sname : list Z;
  e_size : Z;
  e_cluster : Z;
}.

(** A file or directory; the chain records are (cluster, index). *)
Record fat_dir : Type := FatDir {
  d_attr : Z;
  d_name : list Z;
  d_date : list Z;
  d_time : list Z;
  d_size : Z;
  lastCluster : Z;
  d_chain : list (Z * Z);
}.

Record fs_rec : Type := FsRec { fd : Z; filePos : Z; fmode : Z; sizeChange : Z }.

(** The globals of the driver. *)
Record fat (D : Type) : Type := Fat {
  dev : D;
  sbuf : list Z;
  cbuf : list Z;
  lastChainCluster : Z;
  lastChainResult : Z;
  partTable : list part_record;
  workPartition : Z;
  partBpb : fat_bpb;
  mounted : Z;
  direntryCluster : Z;
  direntryIndex : Z;
  fsRec : list fs_rec;
  fsDir : list fat_dir;
  fsCounter : Z;
}.
Arguments Fat {D}.
Arguments dev {D}.
Arguments sbuf {D}.
Arguments cbuf {D}.
Arguments lastChainCluster {D}.
Arguments lastChainResult {D}.
Arguments partTable {D}.
Arguments workPartition {D}.
Arguments partBpb {D}.
Arguments mounted {D}.
Arguments direntryCluster {D}.
Arguments direntryIndex {D}.
Arguments fsRec {D}.
Arguments fsDir {D}.
Arguments fsCounter {D}.

Section Setters.
  Context {D : Type}.

Definition set_dev (d : D) (b : list Z) (s : fat D) : fat D :=
  Fat d b (cbuf s) (lastChainCluster s) (lastChainResult s) (partTable s) (workPartition s)
    (partBpb s) (mounted s) (direntryCluster s) (direntryIndex s) (fsRec s) (fsDir s) (fsCounter s).
Definition set_cbuf (c : list Z) (s : fat D) : fat D :=
  Fat (dev s) (sbuf s) c (lastChainCluster s) (lastChainResult s) (partTable s) (workPartition s)
    (partBpb s) (mounted s) (direntryCluster s) (direntryIndex s) (fsRec s) (fsDir s) (fsCounter s).
Definition set_last (c r : Z) (s : fat D) : fat D :=
  Fat (dev s) (sbuf s) (cbuf s) c r (partTable s) (workPartition s)
    (partBpb s) (mounted s) (direntryCluster s) (direntryIndex s) (fsRec s) (fsDir s) (fsCounter s).
Definition set_part (t : list part_record) (w : Z) (s : fat D) : fat D :=
  Fat (dev s) (sbuf s) (cbuf s) (lastChainCluster s) (lastChainResult s) t w
    (partBpb s) (mounted s) (direntryCluster s) (direntryIndex s) (fsRec s) (fsDir s) (fsCounter s).
Definition set_bpb (b : fat_bpb) (s : fat D) : fat D :=
  Fat (dev s) (sbuf s) (cbuf s) (lastChainCluster s) (lastChainResult s) (partTable s) (workPartition s)
    b (mounted s) (direntryCluster s) (direntryIndex s) (fsRec s) (fsDir s) (fsCounter s).
Definition set_mounted (m : Z) (s : fat D) : fat D :=
  Fat (dev s) (sbuf s) (cbuf s) (lastChainCluster s) (lastChainResult s) (partTable s) (workPartition s)
    (partBpb s) m (direntryCluster s) (direntryIndex s) (fsRec s) (fsDir s) (fsCounter s).
Definition set_direntry (c i : Z) (s : fat D) : fat D :=
  Fat (dev s) (sbuf s) (cbuf s) (lastChainCluster s) (lastChainResult s) (partTable s) (workPartition s)
    (partBpb s) (mounted s) c i (fsRec s) (fsDir s) (fsCounter s).
Definition set_fs (r : list fs_rec) (d : list fat_dir) (c : Z) (s : fat D) : fat D :=
  Fat (dev s) (sbuf s) (cbuf s) (lastChainCluster s) (lastChainResult s) (partTable s) (workPartition s)
    (partBpb s) (mounted s) (direntryCluster s) (direntryIndex s) r d c.
End Setters.

(** ** Integers in buffers, names *)

(** [getI32(buf + i)], an int; out of the buffer it faults. *)
Definition buf_byte (b : list Z) (i : Z) : res Z :=
  if i <? 0 then Err OutOfBounds else of_option OutOfBounds (b !! Z.to_nat i).

Definition getI32 (b : list Z) (i : Z) : res Z :=
  let? b0 := buf_byte b i in
  let? b1 := buf_byte b (i + 1) in
  let? b2 := buf_byte b (i + 2) in
  let? b3 := buf_byte b (i + 3) in
  Ok (s32 (b0 + Z.shiftl b1 8 + Z.shiftl b2 16 + Z.shiftl b3 24)).

Definition getI32_2 (b : list Z) (i j : Z) : res Z :=
  let? b0 := buf_byte b i in
  let? b1 := buf_byte b (i + 1) in
  let? b2 := buf_byte b j in
  let? b3 := buf_byte b (j + 1) in
  Ok (s32 (b0 + Z.shiftl b1 8 + Z.shiftl b2 16 + Z.shiftl b3 24)).

Definition getI16 (b : list Z) (i : Z) : res Z :=
  let? b0 := buf_byte b i in
  let? b1 := buf_byte b (i + 1) in
  Ok (b0 + Z.shiftl b1 8).

Definition fold_case (u : Z) : Z := if (64 <? u) && (u <? 91) then u + 32 else u.

(** 0 when the strings in two arrays are equal up to case, -1 otherwise. *)
Fixpoint strEqual (s1 s2 : list Z) : res Z :=
  match s1, s2 with
  | u1 :: s1', u2 :: s2' =>
      if negb (fold_case u1 =? fold_case u2) then Ok (-1)
      else if fold_case u1 =? 0 then Ok 0
      else strEqual s1' s2'
  | _, _ => Err OutOfBounds
  end.

(** [l[i] = v] *)
Definition poke (l : list Z) (i v : Z) : res (list Z) :=
  if (i <? 0) || (Z.of_nat (length l) <=? i) then Err OutOfBounds else Ok (<[Z.to_nat i := v]> l).

(** ** Clusters and sectors *)

Definition fat_cluster2sector1216 (bpb : fat_bpb) (cluster : Z) : Z :=
  u32 (bpb_rootDirStart bpb + bpb_rootSize bpb / Z.shiftr (bpb_sectorSize bpb) 5 +
       bpb_clusterSize bpb * u32 (cluster - 2)).

Definition fat_cluster2sector32 (bpb : fat_bpb) (cluster : Z) : Z :=
  u32 (bpb_rootDirStart bpb + bpb_clusterSize bpb * u32 (cluster - 2)).

Definition fat_cluster2sector (bpb : fat_bpb) (cluster : Z) : Z :=
  if bpb_fatType bpb =? FAT32 then fat_cluster2sector32 bpb cluster
  else fat_cluster2sector1216 bpb cluster.

Definition fat_getClusterRecord12 (b : list Z) (i type : Z) : res Z :=
  let? b0 := buf_byte b i in
  let? b1 := buf_byte b (i + 1) in
  Ok (if negb (type =? 0) then Z.shiftl b1 4 + Z.shiftr b0 4 else Z.shiftl (Z.land b1 0x0F) 8 + b0).

Section Driver.
  Context {D : Type} `{SectorDev D}.

Definition READ_SECTOR (sec : Z) : M (fat D) Z := fun s =>
  let? '((r, b), d) := dev_read sec (dev s) in
  Ok (r, set_dev d (if r <? 0 then sbuf s else b) s).

(** ** Cluster chains *)

(** A sector of the FAT, when it is not the one in [sbuf]; [false] is a failed read. *)
Definition read_fat (bpb : fat_bpb) (fatSector : Z) : M (fat D) bool :=
  let* r := READ_SECTOR (u32 (bpb_partStart bpb + bpb_resSectors bpb + fatSector)) in
  ret (negb (r <? 0)).

(** The record of a cluster: the next cluster and the FAT sector read last.  A record of FAT12
    can lie across two sectors. *)
Definition record12 (bpb : fat_bpb) (lastFatSector cluster : Z) : M (fat D) (option (Z * Z)) :=
  let ss := bpb_sectorSize bpb in
  let recordOffset := s32 (u32 (cluster * 3) / 2) in
  let fatSector := s32 (u32 recordOffset / ss) in
  let off := u32 recordOffset mod ss in
  if off =? ss - 1 then
    let* ok := read_fat bpb fatSector in
    if negb ok then ret None
    else
      let* b := gets sbuf in
      let* x0 := lift (buf_byte b (ss - 2)) in
      let* x1 := lift (buf_byte b (ss - 1)) in
      let* ok := read_fat bpb (fatSector + 1) in
      if negb ok then ret None
      else
        let* b := gets sbuf in
        let* x2 := lift (buf_byte b 0) in
        let* x3 := lift (buf_byte b 1) in
        let* c := lift (fat_getClusterRecord12 [x0; x1; x2; x3] (off - (ss - 2)) (cluster mod 2)) in
        ret (Some (c, fatSector))
  else
    let* ok := if negb (lastFatSector =? fatSector) then read_fat bpb fatSector else ret true in
    if negb ok then ret None
    else
      let* b := gets sbuf in
      let* c := lift (fat_getClusterRecord12 b off (cluster mod 2)) in
      ret (Some (c, fatSector)).

Definition record16 (bpb : fat_bpb) (lastFatSector cluster : Z) : M (fat D) (option (Z * Z)) :=
  let indexCount := bpb_sectorSize bpb / 2 in
  let fatSector := s32 (cluster / indexCount) in
  let* ok := if negb (lastFatSector =? fatSector) then read_fat bpb fatSector else ret true in
  if negb ok then ret None
  else
    let* b := gets sbuf in
    let* c := lift (getI16 b (cluster mod indexCount * 2)) in
    ret (Some (c, fatSector)).

Definition record32 (bpb : fat_bpb) (lastFatSector cluster : Z) : M (fat D) (option (Z * Z)) :=
  let indexCount := bpb_sectorSize bpb / 4 in
  let fatSector := s32 (cluster / indexCount) in
  let* ok := if negb (lastFatSector =? fatSector) then read_fat bpb fatSector else ret true in
  if negb ok then ret None
  else
    let* b := gets sbuf in
    let* c := lift (getI32 b (cluster mod indexCount * 4)) in
    ret (Some (u32 c, fatSector)).

Definition put_cluster (i : nat) (c : Z) : M (fat D) unit :=
  let* l := gets cbuf in
  let* l := lift (poke l (Z.of_nat i) c) in
  modify (set_cbuf l).

(** [while (i < bufSize && cont)], with [n] entries of the buffer left; [record] reads a
    record, [entry] is its part that is compared with the end mark and stored. *)
Fixpoint chain_loop (record : Z -> Z -> M (fat D) (option (Z * Z))) (entry : Z -> Z) (eoc : Z)
    (n i : nat) (lastFatSector cluster : Z) : M (fat D) Z :=
  match n with
  | O => ret 0
  | S n' =>
      let* r := record lastFatSector cluster in
      match r with
      | None => ret (-1)
      | Some (c, last) =>
          if eoc <=? entry c then ret (Z.of_nat i)
          else put_cluster i (entry c);; chain_loop record entry eoc n' (S i) last c
      end
  end.

(** The first cluster is stored when [start] is set. *)
Definition chain_from (record : Z -> Z -> M (fat D) (option (Z * Z))) (entry : Z -> Z) (eoc : Z)
    (cluster : Z) (bufSize : nat) (start : bool) : M (fat D) Z :=
  if start then put_cluster 0 cluster;; chain_loop record entry eoc (bufSize - 1) 1 (-1) cluster
  else chain_loop record entry eoc bufSize 0 (-1) cluster.

Definition fat_getClusterChain12 (bpb : fat_bpb) (cluster : Z) (bufSize : nat) (start : bool) : M (fat D) Z :=
  chain_from (record12 bpb) (fun c => c) 0xFF8 cluster bufSize start.
Definition fat_getClusterChain16 (bpb : fat_bpb) (cluster : Z) (bufSize : nat) (start : bool) : M (fat D) Z :=
  chain_from (record16 bpb) (fun c => c) 0xFFF8 cluster bufSize start.
Definition fat_getClusterChain32 (bpb : fat_bpb) (cluster : Z) (bufSize : nat) (start : bool) : M (fat D) Z :=
  chain_from (record32 bpb) (fun c => Z.land c 0xFFFFFFF) 0xFFFFFF8 cluster bufSize start.

(** The chain goes to [cbuf]; the chain of the cluster asked for last is not read again. *)
Definition fat_getClusterChain (bpb : fat_bpb) (cluster : Z) (bufSize : nat) (start : bool) : M (fat D) Z :=
  let* last := gets lastChainCluster in
  if cluster =? last then gets lastChainResult
  else
    let* r :=
      if bpb_fatType bpb =? FAT12 then fat_getClusterChain12 bpb cluster bufSize start
      else if bpb_fatType bpb =? FAT16 then fat_getClusterChain16 bpb cluster bufSize start
      else if bpb_fatType bpb =? FAT32 then fat_getClusterChain32 bpb cluster bufSize start
      else gets lastChainResult in
    modify (set_last cluster r);; ret r.

Definition fat_invalidateLastChainResult : M (fat D) unit :=
  modify (fun s => set_last 0 (lastChainResult s) s).

(** ** Mounting *)

Definition fat_getPartitionRecord (b : list Z) (off : Z) : res part_record :=
  let? sid := buf_byte b (off + 4) in
  let? start := getI32 b (off + 8) in
  let? count := getI32 b (off + 12) in
  Ok (PartRec sid (u32 start) (u32 count)).

Definition is_fat_sid (x : Z) : bool :=
  (x =? 6) || (x =? 4) || (x =? 1) || (x =? 0x0B) || (x =? 0x0C) || (x =? 0x0E).

(** [for (i = 0; i < 4; ++i)] *)
Fixpoint partition_records (n : nat) (b : list Z) (i : Z) (t : list part_record) (w : Z) :
    res (list part_record * Z) :=
  match n with
  | O => Ok (t, w)
  | S n' =>
      let? r := fat_getPartitionRecord b (0x1BE + i * 16) in
      partition_records n' b (i + 1) (<[Z.to_nat i := r]> t) (if is_fat_sid (sid r) then i else w)
  end.

Definition fat_getPartitionTable : M (fat D) unit :=
  modify (fun s => set_part (partTable s) (-1) s);;
  let* r := READ_SECTOR 0 in
  if r <? 0 then ret tt
  else
    let* b := gets sbuf in
    let* t := gets partTable in
    let* p := lift (partition_records 4 b 0 t (-1)) in
    let '(t, w) := p in
    let* lba := gets (fun s => g_MaxLBA (dev s)) in
    if w =? -1 then modify (set_part (<[0%nat := PartRec 0 0 lba]> t) 0)
    else modify (set_part t w).

Definition with_fatType (ft : Z) (b : fat_bpb) : fat_bpb :=
  Bpb (bpb_sectorSize b) (bpb_clusterSize b) (bpb_resSectors b) (bpb_fatCount b) (bpb_rootSize b)
    (bpb_fatSize b) (bpb_trackSize b) (bpb_headCount b) (bpb_hiddenCount b) (bpb_sectorCount b)
    (bpb_partStart b) (bpb_rootDirStart b) (bpb_rootDirCluster b) (bpb_activeFat b) ft (bpb_fatId b).

Definition fat_determineFatType (bpb : fat_bpb) : fat_bpb :=
  let sector := s32 (fat_cluster2sector bpb 0) in
  let sector := s32 (sector - bpb_partStart bpb) in
  let sector := s32 (bpb_sectorCount bpb - sector) in
  let clusterCount := Z.quot sector (bpb_clusterSize bpb) in
  with_fatType (if clusterCount <? 4085 then FAT12 else if clusterCount <? 65525 then FAT16 else FAT32) bpb.

(** The fields of the boot sector [b]; [old] holds what is not set. *)
Definition boot_sector (b : list Z) (start : Z) (old : fat_bpb) : res fat_bpb :=
  let? ss := getI16 b 11 in
  let? cs := buf_byte b 13 in
  let? rs := getI16 b 14 in
  let? fc := buf_byte b 16 in
  let? rt := getI16 b 17 in
  let? fs := getI16 b 22 in
  let? ts := getI16 b 24 in
  let? hc := getI16 b 26 in
  let? hid := getI32 b 28 in
  let? sc := getI16 b 19 in
  let? sc32 := getI32 b 32 in
  let bpb := fat_determineFatType
    (Bpb ss cs rs fc rt fs ts hc (u32 hid) (if sc =? 0 then u32 sc32 else sc) start
       (u32 (start + fc * fs + rs)) 0 (bpb_activeFat old) (bpb_fatType old) (take 8 (drop 54 b) ++ [0])) in
  if (bpb_fatType bpb =? FAT32) && (fs =? 0) then
    let? fs := getI32 b 36 in
    let? act := getI16 b 40 in
    let? rdc := getI32 b 44 in
    let fs := u32 fs in
    Ok (Bpb ss cs rs fc rt fs ts hc (u32 hid) (if sc =? 0 then u32 sc32 else sc) start
       (u32 (start + fc * fs + rs)) (u32 rdc)
       (if negb (Z.land act 0x80 =? 0) then Z.land act 0xF else 0) (bpb_fatType bpb)
       (take 8 (drop 82 b) ++ [0]))
  else Ok bpb.

Definition fat_getPartitionBootSector (part_rec : part_record) : M (fat D) unit :=
  let* r := READ_SECTOR (pr_start part_rec) in
  if r <? 0 then ret tt
  else
    let* b := gets sbuf in
    let* old := gets partBpb in
    let* bpb := lift (boot_sector b (pr_start part_rec) old) in
    modify (set_bpb bpb).

(** ** Directory entries *)

(** A part of a long name, two bytes per character; [cont] is cleared at its end. *)
Fixpoint lfn_part (part : list Z) (offset : Z) (cont : bool) (name : list Z) : res (Z * bool * list Z) :=
  match part with
  | c0 :: c1 :: part' =>
      if negb cont then Ok (offset, cont, name)
      else if (c0 =? 0) && (c1 =? 0) then
        let? name := poke name offset 0 in
        Ok (offset, false, name)
      else
        let? name := poke name offset c0 in
        lfn_part part' (offset + 1) cont name
  | _ => Ok (offset, cont, name)
  end.

Definition lfn_name (e : list Z) (name : list Z) : res (list Z) :=
  let? seq := buf_byte e 0 in
  let offset := (Z.land seq 0x3f - 1) * 13 in
  let? '(offset, cont, name) := lfn_part (take 10 (drop 1 e)) offset true name in
  let? '(offset, cont, name) := lfn_part (take 12 (drop 14 e)) offset cont name in
  let? '(offset, _, name) := lfn_part (take 4 (drop 28 e)) offset cont name in
  if negb (Z.land seq 0x40 =? 0) then poke name offset 0 else Ok name.

(** The characters before the first space. *)
Fixpoint before_space (l : list Z) : list Z :=
  match l with
  | [] => []
  | c :: l' => if c =? 32 then [] else c :: before_space l'
  end.

(** The short name: name, a dot and the extension when there is one, the terminator; the
    rest of the array is kept. *)
Definition sfn_name (e : list Z) : list Z :=
  let n := before_space (take 8 e) in
  let x := before_space (take 3 (drop 8 e)) in
  n ++ (match x with [] => [] | _ => 46 :: x end) ++ [0].

(** The bytes of a C string with its terminator. *)
Fixpoint upto_nul (l : list Z) : res (list Z) :=
  match l with
  | [] => Err OutOfBounds
  | c :: l' => if c =? 0 then Ok [0] else let? r := upto_nul l' in Ok (c :: r)
  end.

(** 0: no more entries, 1: short name, 2: long name, 3: deleted. *)
Definition fat_getDirentry (e : list Z) (dir : fat_direntry) : res (Z * fat_direntry) :=
  let? n0 := buf_byte e 0 in
  let? n1 := buf_byte e 1 in
  let? rshv := buf_byte e 11 in
  let? res1 := buf_byte e 12 in
  let? res2 := buf_byte e 26 in
  if (n0 =? 0) && (n1 =? 0) then Ok (0, dir)
  else if n0 =? 0xE5 then Ok (3, dir)
  else if (rshv =? 0x0F) && (res1 =? 0) && (res2 =? 0) then
    let? name := lfn_name e (e_name dir) in
    Ok (2, DirEntry (e_attr dir) name (e_sname dir) (e_size dir) (e_cluster dir))
  else
    let sname := splice (e_sname dir) 0 (sfn_name e) in
    let? first := buf_byte (e_name dir) 0 in
    let? name :=
      if first =? 0 then
        let? n := upto_nul sname in
        Ok (splice (e_name dir) 0 n)
      else Ok (e_name dir) in
    let? size := getI32 e 28 in
    let? cluster := getI32_2 e 26 20 in
    Ok (1, DirEntry rshv name sname (u32 size) (u32 cluster)).

(** ** The cluster table of a file *)

(** [while (fileSize >= (j * blockSize) && j < DIR_CHAIN_SIZE)], [n] entries left. *)
Fixpoint set_entries (n j : nat) (fileSize blockSize cluster index : Z) (chain : list (Z * Z)) :
    nat * list (Z * Z) :=
  match n with
  | O => (j, chain)
  | S n' =>
      if s32 (Z.of_nat j * blockSize) <=? fileSize then
        set_entries n' (S j) fileSize blockSize cluster index (<[j := (cluster, index)]> chain)
      else (j, chain)
  end.

(** [for (i = clusterChainStart; i < chainSize; i++)] over the clusters of [cbuf]. *)
Fixpoint process_chain (cs : list Z) (clusterBytes blockSize : Z) (st : nat * Z * Z * list (Z * Z)) :
    nat * Z * Z * list (Z * Z) :=
  match cs with
  | [] => st
  | c :: cs' =>
      let '(j, index, fileSize, chain) := st in
      let fileSize := s32 (fileSize + clusterBytes) in
      let '(j, chain) := set_entries (DIR_CHAIN_SIZE - j) j fileSize blockSize c index chain in
      process_chain cs' clusterBytes blockSize (j, index + 1, fileSize, chain)
  end.

(** [while (nextChain)]; a FAT with a cycle keeps it going, which [fuel] cuts. *)
Fixpoint setChain_loop (fuel : nat) (bpb : fat_bpb) (fileCluster blockSize : Z) (start : nat)
    (st : nat * Z * Z * list (Z * Z)) : M (fat D) (Z * list (Z * Z)) :=
  match fuel with
  | O => fail OutOfFuel
  | S fuel' =>
      let* chainSize := fat_getClusterChain bpb fileCluster MAX_DIR_CLUSTER true in
      let* cb := gets cbuf in
      let n := if chainSize =? 0 then MAX_DIR_CLUSTER else Z.to_nat chainSize in
      let st := process_chain (drop start (take n cb)) (bpb_clusterSize bpb * bpb_sectorSize bpb) blockSize st in
      if chainSize =? 0 then
        let* c := lift (buf_byte cb (Z.of_nat MAX_DIR_CLUSTER - 1)) in
        setChain_loop fuel' bpb c blockSize 1 st
      else
        let* l := lift (buf_byte cb (Z.of_nat (Nat.max start n) - 1)) in
        ret (l, st.2)
  end.

Definition with_chain (l : Z) (c : list (Z * Z)) (d : fat_dir) : fat_dir :=
  FatDir (d_attr d) (d_name d) (d_date d) (d_time d) (d_size d) l c.

Definition chain_entry (d : fat_dir) (i : nat) : res (Z * Z) := of_option OutOfBounds (d_chain d !! i).

Definition fat_setFatDirChain (fuel : nat) (bpb : fat_bpb) (fatDir : fat_dir) : M (fat D) fat_dir :=
  let* '(fileCluster, _) := lift (chain_entry fatDir 0) in
  if fileCluster <? 2 then ret fatDir
  else
    let blockSize := Z.quot (s32 (d_size fatDir)) (Z.of_nat DIR_CHAIN_SIZE) in
    let* '(l, c) := setChain_loop fuel bpb fileCluster blockSize 0 (1%nat, 0, 0, d_chain fatDir) in
    ret (with_chain l c fatDir).

(** Name, attributes, size, date and time; the clusters too when [getClusterInfo] is set. *)
Definition fat_setFatDir (fuel : nat) (bpb : fat_bpb) (fatDir : fat_dir) (e : list Z) (dir : fat_direntry)
    (getClusterInfo : bool) : M (fat D) fat_dir :=
  let* first := lift (buf_byte (e_name dir) 0) in
  let* n := lift (upto_nul (if negb (first =? 0) then e_name dir else e_sname dir)) in
  if (FAT_MAX_NAME <? length n)%nat then fail OutOfBounds
  else
    let* attr := lift (buf_byte e 11) in
    let* t0 := lift (buf_byte e 22) in
    let* t1 := lift (buf_byte e 23) in
    let* d0 := lift (buf_byte e 24) in
    let* d1 := lift (buf_byte e 25) in
    let year := 1980 + Z.shiftr d1 1 in
    let date := [Z.land d0 0x1F; Z.shiftr d0 5 + Z.shiftl (Z.land d1 1) 3;
                 Z.land year 0xFF; Z.shiftr (Z.land year 0xFF00) 8] in
    let time := [Z.shiftr (Z.land t1 0xF8) 3;
                 Z.shiftl (Z.land t1 0x07) 3 + Z.shiftr (Z.land t0 0xE0) 5;
                 Z.shiftl (Z.land t0 0x1F) 1] in
    let fatDir := FatDir attr (splice (d_name fatDir) 0 n) date time (e_size dir) (lastCluster fatDir)
                    (<[0%nat := (e_cluster dir, 0)]> (d_chain fatDir)) in
    if getClusterInfo then fat_setFatDirChain fuel bpb fatDir else ret fatDir.

(** ** Directories *)

(** The first sector of a directory, its number of sectors and the cluster used; the number
    is not set ([None]) when the chain cannot be read. *)
Definition fat_getDirentrySectorData (bpb : fat_bpb) (startCluster : Z) : M (fat D) (Z * Z * option Z) :=
  if (startCluster =? 0) && (bpb_fatType bpb <? FAT32) then
    ret (startCluster, bpb_rootDirStart bpb, Some (bpb_rootSize bpb / (bpb_sectorSize bpb / 32)))
  else
    let startCluster :=
      if (startCluster =? 0) && (bpb_fatType bpb =? FAT32) then bpb_rootDirCluster bpb else startCluster in
    let startSector := fat_cluster2sector bpb startCluster in
    let* chainSize := fat_getClusterChain bpb startCluster MAX_DIR_CLUSTER true in
    ret (startCluster, startSector,
         if 0 <? chainSize then Some (chainSize * bpb_clusterSize bpb) else None).

Definition clear_names (dir : fat_direntry) : fat_direntry :=
  DirEntry (e_attr dir) (<[0%nat := 0]> (e_name dir)) (<[0%nat := 0]> (e_sname dir)) (e_size dir) (e_cluster dir).

(** What a search does at a short name entry: [inl] ends it with a result. *)
Definition visitor (A B : Type) : Type := list Z -> fat_direntry -> A -> M (fat D) (B + A).

(** [while (cont && dirPos < bpb->sectorSize)], [n] entries of the sector left.  The result
    says whether to go on. *)
Fixpoint scan_sector {A B} (visit : visitor A B) (n : nat) (b : list Z) (dirPos : nat) (dir : fat_direntry)
    (a : A) : M (fat D) (B + (bool * fat_direntry * A)) :=
  match n with
  | O => ret (inr (true, dir, a))
  | S n' =>
      let e := take 32 (drop dirPos b) in
      let* '(cont, dir) := lift (fat_getDirentry e dir) in
      if cont =? 0 then ret (inr (false, dir, a))
      else if cont =? 1 then
        let* r := visit e dir a in
        match r with
        | inl x => ret (inl x)
        | inr a => scan_sector visit n' b (dirPos + 32) (clear_names dir) a
        end
      else scan_sector visit n' b (dirPos + 32) dir a
  end.

(** [for (i = 0; i < dirSector && cont; i++)], [n] sectors left; [err] is the result of a
    failed read.  At the end of a cluster the next one is looked up in [cbuf]. *)
Fixpoint scan_dir {A B} (visit : visitor A B) (err : B) (bpb : fat_bpb) (startCluster : Z) (n : nat) (i : Z)
    (startSector : Z) (dir : fat_direntry) (a : A) : M (fat D) (B + A) :=
  match n with
  | O => ret (inr a)
  | S n' =>
      let* r := READ_SECTOR (u32 (startSector + i)) in
      if r <? 0 then ret (inl err)
      else
        let* cb := gets cbuf in
        let* startSector :=
          if negb (startCluster =? 0) && (i mod bpb_clusterSize bpb =? bpb_clusterSize bpb - 1) then
            let* c := lift (buf_byte cb (i / bpb_clusterSize bpb + 1)) in
            ret (u32 (fat_cluster2sector bpb c - (i + 1)))
          else ret startSector in
        let* b := gets sbuf in
        let* r := scan_sector visit (Z.to_nat ((bpb_sectorSize bpb + 31) / 32)) b 0 dir a in
        match r with
        | inl x => ret (inl x)
        | inr (cont, dir, a) =>
            if negb cont then ret (inr a)
            else scan_dir visit err bpb startCluster n' (i + 1) startSector dir a
        end
  end.

(** The local entry of the searches: only the first characters of the names are set. *)
Definition no_names : fat_direntry := DirEntry 0 (replicate FAT_MAX_NAME 0) (replicate 13 0) 0 0.

Definition is_name (dir : fat_direntry) (dirName : list Z) : res bool :=
  let? x := strEqual (e_sname dir) dirName in
  if x =? 0 then Ok true
  else let? y := strEqual (e_name dir) dirName in Ok (y =? 0).

(** The result of the search: attributes or an error, the cluster, the directory record. *)
Definition found : Type := Z * Z * fat_dir.

Definition find_name (fuel : nat) (bpb : fat_bpb) (dirName : list Z) : visitor (Z * fat_dir) found :=
  fun e dir '(startCluster, fatDir) =>
    if negb (Z.land (e_attr dir) 0x08 =? 0) then ret (inr (startCluster, fatDir))
    else
      let* eq := lift (is_name dir dirName) in
      if (eq : bool) then
        let* fatDir := fat_setFatDir fuel bpb fatDir e dir true in
        ret (inl (e_attr dir, e_cluster dir, fatDir))
      else ret (inr (startCluster, fatDir)).

Definition fat_getDirentryStartCluster (fuel : nat) (bpb : fat_bpb) (dirName : list Z) (startCluster : Z)
    (fatDir : fat_dir) : M (fat D) found :=
  let* '(startCluster, startSector, dirSector) := fat_getDirentrySectorData bpb startCluster in
  let* n := lift (of_option OutOfBounds dirSector) in
  let* r := scan_dir (find_name fuel bpb dirName) (FAT_ERROR, startCluster, fatDir) bpb startCluster
              (Z.to_nat n) 0 startSector no_names (startCluster, fatDir) in
  match r with
  | inl x => ret x
  | inr (startCluster, fatDir) => ret (- EFAULT, startCluster, fatDir)
  end.

Definition is_slash (c : Z) : bool := (c =? 47) || (c =? 92).

(** [tmpName], an array of 257 bytes, holds the path component read so far. *)
Definition add_char (tmp : list Z) (c : Z) : res (list Z) :=
  if (257 <=? length tmp)%nat then Err OutOfBounds else Ok (tmp ++ [c]).

(** [for ( ; fname[i] != 0; i++)] over the path; [inl] is the early return. *)
Fixpoint path_loop (fuel : nat) (bpb : fat_bpb) (fname tmp : list Z) (startCluster : Z) (fatDir : fat_dir) :
    M (fat D) (found + (list Z * Z * fat_dir)) :=
  match fname with
  | [] => ret (inr (tmp, startCluster, fatDir))
  | c :: fname' =>
      if is_slash c then
        let* name := lift (add_char tmp 0) in
        let* '(r, startCluster, fatDir) := fat_getDirentryStartCluster fuel bpb name startCluster fatDir in
        if r <? 0 then ret (inl (- ENOENT, startCluster, fatDir))
        else path_loop fuel bpb fname' [] startCluster fatDir
      else
        let* tmp := lift (add_char tmp c) in
        path_loop fuel bpb fname' tmp startCluster fatDir
  end.

(** [fname] is the string without its terminator; [fatDir] is not NULL. *)
Definition fat_getFileStartCluster (fuel : nat) (bpb : fat_bpb) (fname : list Z) (startCluster : Z)
    (fatDir : fat_dir) : M (fat D) found :=
  let rest := match fname with c :: r => if is_slash c then r else fname | [] => [] end in
  let* r := path_loop fuel bpb rest [] startCluster fatDir in
  match r with
  | inl x => ret x
  | inr (tmp, startCluster, fatDir) =>
      if (length tmp =? 0)%nat && (1 <? length fname)%nat then ret (1, startCluster, fatDir)
      else
        let* name := lift (add_char tmp 0) in
        let* '(r, startCluster, fatDir) := fat_getDirentryStartCluster fuel bpb name startCluster fatDir in
        ret (if r <? 0 then r else 1, startCluster, fatDir)
  end.

(** ** Reading files *)

(** The entry of the cluster table to start from: the last one when none fits. *)
Fixpoint entry_at (chain : list (Z * Z)) (blockSize pos : Z) : Z * Z :=
  match chain with
  | [] => (0, 0)
  | a :: rest =>
      match rest with
      | [] => a
      | b :: _ =>
          if (u32 (a.2 * blockSize) <=? pos) && (pos <? u32 (b.2 * blockSize)) then a
          else entry_at rest blockSize pos
      end
  end.

Definition fat_getClusterAtFilePos (bpb : fat_bpb) (fatDir : fat_dir) (pos : Z) : Z * Z :=
  let blockSize := s32 (bpb_clusterSize bpb * bpb_sectorSize bpb) in
  let '(c, i) := entry_at (d_chain fatDir) blockSize pos in
  (c, u32 (i * blockSize)).

(** [MEMCPY(buffer+bufferPos, sbuf + dataSkip, bufSize - dataSkip)]: the bytes copied. *)
Definition sector_part (b : list Z) (dataSkip bufSize : Z) : res (list Z) :=
  if (bufSize <? dataSkip) || (dataSkip <? 0) || (Z.of_nat (length b) <? bufSize) then Err OutOfBounds
  else Ok (take (Z.to_nat (bufSize - dataSkip)) (drop (Z.to_nat dataSkip) b)).

(** The sectors of a cluster from [j] on, [n] of them left; [out] is the buffer up to
    [bufferPos].  [inl] is the return after a failed read. *)
Fixpoint read_sectors (n : nat) (startSector j size dataSkip : Z) (out : list Z) :
    M (fat D) (list Z + (Z * Z * list Z)) :=
  match n with
  | O => ret (inr (size, dataSkip, out))
  | S n' =>
      if size <=? 0 then ret (inr (size, dataSkip, out))
      else
        let* r := READ_SECTOR (u32 (startSector + j)) in
        if r <? 0 then ret (inl out)
        else
          let* SECTOR_SIZE := gets (fun s => Size_Sector (dev s)) in
          let bufSize := if size <? SECTOR_SIZE then size + dataSkip else SECTOR_SIZE in
          let bufSize := if SECTOR_SIZE <? bufSize then SECTOR_SIZE else bufSize in
          let* b := gets sbuf in
          let* bytes := lift (sector_part b dataSkip bufSize) in
          read_sectors n' startSector (j + 1) (size - (bufSize - dataSkip)) 0 (out ++ bytes)
  end.

(** The clusters of the chain buffer; sectors are skipped in the first one only. *)
Fixpoint read_clusters (bpb : fat_bpb) (cs : list Z) (sectorSkip size dataSkip : Z) (out : list Z) :
    M (fat D) (list Z + (Z * Z * Z * list Z)) :=
  match cs with
  | [] => ret (inr (sectorSkip, size, dataSkip, out))
  | c :: cs' =>
      if size <=? 0 then ret (inr (sectorSkip, size, dataSkip, out))
      else
        let* r := read_sectors (Z.to_nat (bpb_clusterSize bpb - sectorSkip)) (fat_cluster2sector bpb c)
                    sectorSkip size dataSkip out in
        match r with
        | inl x => ret (inl x)
        | inr (size, dataSkip, out) => read_clusters bpb cs' 0 size dataSkip out
        end
  end.

(** The next part of the chain: its size, where it goes on, whether it does. *)
Definition next_part (bpb : fat_bpb) (fileCluster : Z) (start next : bool) : M (fat D) (Z * Z * bool) :=
  let* chainSize := fat_getClusterChain bpb fileCluster MAX_DIR_CLUSTER start in
  if chainSize =? 0 then
    let* cb := gets cbuf in
    let* c := lift (buf_byte cb (Z.of_nat MAX_DIR_CLUSTER - 1)) in
    ret (Z.of_nat MAX_DIR_CLUSTER, c, next)
  else ret (chainSize, fileCluster, false).

(** [while (clusterSkip >= MAX_DIR_CLUSTER)] *)
Fixpoint skip_parts (n : nat) (bpb : fat_bpb) (p : Z * Z * bool) : M (fat D) (Z * Z * bool) :=
  match n with
  | O => ret p
  | S n' =>
      let '(_, fileCluster, next) := p in
      let* p := next_part bpb fileCluster false next in
      skip_parts n' bpb p
  end.

(** [while (nextChain && size > 0)] *)
Fixpoint read_parts (fuel : nat) (bpb : fat_bpb) (fileCluster : Z) (start next : bool)
    (clusterSkip sectorSkip size dataSkip : Z) (out : list Z) : M (fat D) (list Z) :=
  if negb next || (size <=? 0) then ret out
  else match fuel with
  | O => fail OutOfFuel
  | S fuel' =>
      let* p := next_part bpb fileCluster start next in
      let* '(chainSize, fileCluster, next) := skip_parts (Z.to_nat (clusterSkip / Z.of_nat MAX_DIR_CLUSTER)) bpb p in
      let skip := clusterSkip mod Z.of_nat MAX_DIR_CLUSTER in
      let* cb := gets cbuf in
      let* r := read_clusters bpb (drop (Z.to_nat skip) (take (Z.to_nat chainSize) cb)) sectorSkip size dataSkip out in
      match r with
      | inl out => ret out
      | inr (sectorSkip, size, dataSkip, out) =>
          read_parts fuel' bpb fileCluster false next 0 sectorSkip size dataSkip out
      end
  end.

(** The bytes that were copied to the buffer; [bufferPos] is their number. *)
Definition fat_readFile (fuel : nat) (bpb : fat_bpb) (fatDir : fat_dir) (pos size : Z) : M (fat D) (list Z) :=
  let '(fileCluster, clusterPos) := fat_getClusterAtFilePos bpb fatDir pos in
  let sectorSkip := u32 (pos - clusterPos) / bpb_sectorSize bpb in
  let clusterSkip := Z.quot sectorSkip (bpb_clusterSize bpb) in
  let sectorSkip := Z.rem sectorSkip (bpb_clusterSize bpb) in
  let dataSkip := pos mod bpb_sectorSize bpb in
  if fileCluster <? 2 then ret []
  else read_parts fuel bpb fileCluster true true clusterSkip sectorSkip size dataSkip [].

(** ** Mounting, listing directories *)

Definition on_dev {A} (c : M D A) : M (fat D) A := fun s =>
  let? '(x, d) := c (dev s) in
  Ok (x, set_dev d (sbuf s) s).

Definition fat_initDriver : M (fat D) Z :=
  modify (set_mounted 0);;
  modify (set_last 0xFFFFFFFF (-1));;
  modify (set_direntry 0xFFFFFFFF 0);;
  let* ss := gets (fun s => Size_Sector (dev s)) in
  let* r := on_dev (dev_init ss) in
  if r <? 0 then ret r
  else
    fat_getPartitionTable;;
    let* t := gets partTable in
    let* w := gets workPartition in
    let* p := lift (if w <? 0 then Err OutOfBounds else of_option OutOfBounds (t !! Z.to_nat w)) in
    fat_getPartitionBootSector p;;
    modify (set_mounted 1);;
    ret r.

Definition fat_mountCheck : M (fat D) Z :=
  let* mediaStatus := on_dev dev_status in
  if mediaStatus <? 0 then modify (set_mounted 0);; ret mediaStatus
  else if Z.land mediaStatus 0x03 =? 3 then
    let* m := gets mounted in
    if Z.land mediaStatus 0x04 =? 4 then modify (set_mounted 0);; fat_initDriver
    else if negb (m =? 0) then ret 1
    else fat_initDriver
  else modify (set_mounted 0);; ret (-10).

(** The entry with number [direntryIndex]. *)
Definition nth_entry (bpb : fat_bpb) : visitor (Z * fat_dir) (Z * fat_dir) :=
  fun e dir '(index, fatDir) =>
    let* wanted := gets direntryIndex in
    if index =? wanted then
      modify (fun s => set_direntry (direntryCluster s) (s32 (direntryIndex s + 1)) s);;
      let* fatDir := fat_setFatDir 0 bpb fatDir e dir false in
      ret (inl (1, fatDir))
    else ret (inr (index + 1, fatDir)).

Definition fat_getNextDirentry (fatDir : fat_dir) : M (fat D) (Z * fat_dir) :=
  let* dirCluster := gets direntryCluster in
  if dirCluster =? 0xFFFFFFFF then ret (-2, fatDir)
  else
    let* bpb := gets partBpb in
    let* '(dirCluster, startSector, dirSector) := fat_getDirentrySectorData bpb dirCluster in
    let* n := lift (of_option OutOfBounds dirSector) in
    let* r := scan_dir (nth_entry bpb) (-3, fatDir) bpb dirCluster (Z.to_nat n) 0 startSector no_names (0, fatDir) in
    match r with
    | inl x => ret x
    | inr (_, fatDir) =>
        modify (fun s => set_direntry 0xFFFFFFFF (direntryIndex s) s);;
        ret (-1, fatDir)
    end.

Definition is_root_name (dirName : list Z) : bool :=
  match dirName with
  | [] => true
  | c :: rest =>
      (c =? 46) || (is_slash c && match rest with [] => true | c' :: _ => c' =? 46 end)
  end.

Definition fat_getFirstDirentry (fuel : nat) (dirName : list Z) (fatDir : fat_dir) : M (fat D) (Z * fat_dir) :=
  let* ret_ := fat_mountCheck in
  if ret_ <? 0 then ret (ret_, fatDir)
  else if is_root_name dirName then
    modify (set_direntry 0 0);; fat_getNextDirentry fatDir
  else
    let* bpb := gets partBpb in
    let* '(r, startCluster, fatDir) := fat_getFileStartCluster fuel bpb dirName 0 fatDir in
    if r <? 0 then ret (-4, fatDir)
    else if Z.land (d_attr fatDir) 0x10 =? 0 then ret (-3, fatDir)
    else modify (set_direntry startCluster 0);; fat_getNextDirentry fatDir.

(** ** File operations; a file handle is the index of its record in [fsRec] *)

Definition slot_of (x : Z) (l : list fs_rec) : Z :=
  match list_find (fun r => fd r = x) l with Some (i, _) => Z.of_nat i | None => -1 end.

Definition fs_findFreeFileSlot (x : Z) : M (fat D) Z := gets (fun s => slot_of x (fsRec s)).

(** The record behind the handle gives the descriptor, the first record with it the slot. *)
Definition fs_findFileSlot (file : nat) : M (fat D) Z :=
  let* l := gets fsRec in
  let* r := lift (of_option NullDeref (l !! file)) in
  ret (slot_of (fd r) l).

Definition fs_reset : M (fat D) unit :=
  modify (fun s => set_fs ((fun r => FsRec (-1) (filePos r) (fmode r) (sizeChange r)) <$> fsRec s) (fsDir s) (fsCounter s) s).

Definition O_RDONLY : Z := 1.

(** The descriptor or an error, and the handle. *)
Definition fs_open (fuel : nat) (name : list Z) (mode : Z) : M (fat D) (Z * option nat) :=
  let* r := fat_mountCheck in
  if r <? 0 then ret (r, None)
  else if negb (mode =? 0) && negb (mode =? O_RDONLY) then ret (- EROFS, None)
  else
    let* index := fs_findFreeFileSlot (-1) in
    if index <? 0 then ret (- EMFILE, None)
    else
      let i := Z.to_nat index in
      let* bpb := gets partBpb in
      let* dirs := gets fsDir in
      let* dir := lift (of_option OutOfBounds (dirs !! i)) in
      let* '(r, _, dir) := fat_getFileStartCluster fuel bpb name 0 dir in
      modify (fun s => set_fs (fsRec s) (<[i := dir]> (fsDir s)) (fsCounter s) s);;
      if r <? 0 then ret (r, None)
      else
        let* c := gets (fun s => s32 (fsCounter s + 1)) in
        modify (fun s => set_fs (<[i := FsRec c 0 mode 0]> (fsRec s)) (fsDir s) c s);;
        ret (c, Some i).

Definition the_rec (i : nat) : M (fat D) fs_rec :=
  let* l := gets fsRec in lift (of_option OutOfBounds (l !! i)).
Definition the_dir (i : nat) : M (fat D) fat_dir :=
  let* l := gets fsDir in lift (of_option OutOfBounds (l !! i)).
Definition put_rec (i : nat) (r : fs_rec) : M (fat D) unit :=
  modify (fun s => set_fs (<[i := r]> (fsRec s)) (fsDir s) (fsCounter s) s).

Definition fs_close (file : nat) : M (fat D) Z :=
  let* index := fs_findFileSlot file in
  if index <? 0 then ret (- EFAULT)
  else
    let* r := the_rec (Z.to_nat index) in
    put_rec (Z.to_nat index) (FsRec (-1) (filePos r) (fmode r) (sizeChange r));;
    ret 0.

Definition SEEK_SET : Z := 0.
Definition SEEK_CUR : Z := 1.
Definition SEEK_END : Z := 2.

(** The position is unsigned: it is never below 0, and one before the start of the file is
    behind its end. *)
Definition fs_lseek (file : nat) (offset whence : Z) : M (fat D) Z :=
  let* index := fs_findFileSlot file in
  if index <? 0 then ret (- EFAULT)
  else
    let i := Z.to_nat index in
    let* r := the_rec i in
    let* d := the_dir i in
    let go pos :=
      let pos := if d_size d <? pos then d_size d else pos in
      put_rec i (FsRec (fd r) pos (fmode r) (sizeChange r));; ret (s32 pos) in
    if whence =? SEEK_SET then go (u32 offset)
    else if whence =? SEEK_CUR then go (u32 (filePos r + offset))
    else if whence =? SEEK_END then go (u32 (d_size d + offset))
    else ret (-1).

(** The result, and the bytes that were copied to the buffer. *)
Definition fs_read (fuel : nat) (file : nat) (size : Z) : M (fat D) (Z * list Z) :=
  let* index := fs_findFileSlot file in
  if index <? 0 then ret (-1, [])
  else if size <=? 0 then ret (0, [])
  else
    let i := Z.to_nat index in
    let* r := the_rec i in
    let* d := the_dir i in
    let size := if d_size d <? u32 (filePos r + size) then s32 (d_size d - filePos r) else size in
    let* bpb := gets partBpb in
    let* bytes := fat_readFile fuel bpb d (filePos r) size in
    let result := Z.of_nat (length bytes) in
    (if 0 <? result then put_rec i (FsRec (fd r) (u32 (filePos r + result)) (fmode r) (sizeChange r))
     else ret tt);;
    ret (result, bytes).

(** Read-only file system, and what is not supported. *)
Definition fs_write : M (fat D) Z := ret (- EROFS).
Definition fs_dummy : M (fat D) Z := ret (-5).

(** Directory handles hold a status and the entry to show next. *)
Record D_PRIVATE : Type := DPrivate { dp_status : Z; dp_fatdir : fat_dir }.

(** [junk] is the uninitialised local. *)
Definition fs_dopen (fuel : nat) (junk : fat_dir) (name : list Z) : M (fat D) (Z * option D_PRIVATE) :=
  modify (fun s => set_fs (fsRec s) (fsDir s) (s32 (fsCounter s + 1)) s);;
  let* r := fat_mountCheck in
  if r <? 0 then ret (-1, None)
  else
    let* '(r, d) := fat_getFirstDirentry fuel name junk in
    if r <? 1 then ret (-1, None)
    else
      let* c := gets fsCounter in
      ret (c, Some (DPrivate 0 d)).

Definition FIO_SO_IFREG : Z := 0x0010.
Definition FIO_SO_IFDIR : Z := 0x0020.

Record fio_dirent : Type := FioDirent { de_mode : Z; de_size : Z; de_name : list Z }.

(** [do ... while (notgood)]: volume labels are passed over. *)
Fixpoint fs_dread (n : nat) (p : D_PRIVATE) : M (fat D) (Z * option fio_dirent * D_PRIVATE) :=
  match n with
  | O => fail OutOfFuel
  | S n' =>
      if negb (dp_status p =? 0) then ret (0, None, p)
      else
        let d := dp_fatdir p in
        let mode := if negb (Z.land (d_attr d) 0x10 =? 0) then FIO_SO_IFDIR else FIO_SO_IFREG in
        let* name := lift (upto_nul (d_name d)) in
        let* '(r, d') := fat_getNextDirentry d in
        let p := DPrivate (if r <? 1 then 1 else 0) d' in
        if negb (Z.land (d_attr d) 0x08 =? 0) then fs_dread n' p
        else ret (1, Some (FioDirent mode (d_size d) name), p)
  end.

Definition fs_getstat (fuel : nat) (junk : fat_dir) (name : list Z) : M (fat D) (Z * option (Z * Z)) :=
  let* r := fat_mountCheck in
  if r <? 0 then ret (-1, None)
  else
    let* bpb := gets partBpb in
    let* '(r, _, d) := fat_getFileStartCluster fuel bpb name 0 junk in
    if r <? 0 then ret (-1, None)
    else ret (0, Some (if negb (Z.land (d_attr d) 10 =? 0) then FIO_SO_IFDIR else FIO_SO_IFREG, d_size d)).
End Driver.
