(* ===== verification/FatChain.v ===== *)
(** * Cluster chains of the FAT driver

    What the chain functions of [Fat] compute, for a device that shows a disk: the clusters
    linked by the records of the FAT. *)

From S2P Require Import Prelude Bytes Fat.
Local Open Scope ps2rd_scope.

(** ** Disks, and devices that show them *)

(** The size of a sector, the last block, the sectors of a disk that can be read, and their
    bytes. *)
Record disk_img : Type := Img {
  dk_size : Z;
  dk_lba : Z;
  dk_in : Z -> Prop;
  dk_sector : Z -> list Z;
}.

(** The promise of the layer below while the medium stays in: reading a sector gives its bytes
    and changes nothing that later reads could see, and the status says that it is ready and
    was not changed. *)
Class SectorDevLaws (D : Type) `{SectorDev D} : Type := {
  shows : D -> disk_img -> Prop;
  shows_size : forall d k, shows d k -> Size_Sector d = dk_size k;
  shows_lba : forall d k, shows d k -> g_MaxLBA d = dk_lba k;
  shows_read : forall d k sec, shows d k -> dk_in k sec ->
    exists r d', dev_read sec d = Ok ((r, dk_sector k sec), d') /\ 0 <= r /\ shows d' k;
  shows_ready : forall d k, shows d k ->
    exists st d', dev_status d = Ok (st, d') /\ 0 <= st /\ Z.land st 3 = 3 /\ Z.land st 4 <> 4 /\ shows d' k;
}.

Record img_ok (k : disk_img) : Prop := {
  im_size : 0 < dk_size k < 2 ^ 16;
  im_range : forall sec, dk_in k sec -> 0 <= sec < 2 ^ 32;
  im_len : forall sec, dk_in k sec -> Z.of_nat (length (dk_sector k sec)) = dk_size k;
  im_u8 : forall sec, dk_in k sec -> Forall is_u8 (dk_sector k sec);
}.

(** ** Records of the FAT *)

Section Fat.
  Context (k : disk_img) (bpb : fat_bpb).

Definition fat_start : Z := bpb_partStart bpb + bpb_resSectors bpb.

(** Byte [off] of the FAT. *)
Definition fat_byte (off : Z) : Z :=
  byte_at (dk_sector k (fat_start + off / bpb_sectorSize bpb)) (Z.to_nat (off mod bpb_sectorSize bpb)).

(** The offset of a cluster's record, the sector it starts in, whether it crosses into the
    next one. *)
Definition rec_offset (c : Z) : Z :=
  if bpb_fatType bpb =? FAT12 then c * 3 / 2 else if bpb_fatType bpb =? FAT16 then c * 2 else c * 4.
Definition sector_of (c : Z) : Z := rec_offset c / bpb_sectorSize bpb.
Definition spans (c : Z) : bool :=
  (bpb_fatType bpb =? FAT12) && (rec_offset c mod bpb_sectorSize bpb =? bpb_sectorSize bpb - 1).

Definition next_of (c : Z) : Z :=
  let o := rec_offset c in
  if bpb_fatType bpb =? FAT12 then
    if c mod 2 =? 0 then Z.shiftl (Z.land (fat_byte (o + 1)) 0x0F) 8 + fat_byte o
    else Z.shiftl (fat_byte (o + 1)) 4 + Z.shiftr (fat_byte o) 4
  else if bpb_fatType bpb =? FAT16 then fat_byte o + 2 ^ 8 * fat_byte (o + 1)
  else fat_byte o + 2 ^ 8 * fat_byte (o + 1) + 2 ^ 16 * fat_byte (o + 2) + 2 ^ 24 * fat_byte (o + 3).

Definition eoc : Z :=
  if bpb_fatType bpb =? FAT12 then 0xFF8 else if bpb_fatType bpb =? FAT16 then 0xFFF8 else 0xFFFFFF8.

(** The part of a record that is a cluster number. *)
Definition entry_of (c : Z) : Z :=
  if bpb_fatType bpb =? FAT12 then c else if bpb_fatType bpb =? FAT16 then c else Z.land c 0xFFFFFFF.

(** A cluster whose record can be read. *)
Definition cluster_ok (c : Z) : Prop :=
  2 <= c < eoc /\ dk_in k (fat_start + sector_of c) /\
  (spans c = true -> dk_in k (fat_start + sector_of c + 1)).

(** A step from a record across two sectors must not lead back to the first of them: the
    driver takes the sector in its buffer for it. *)
Definition step_ok (c c' : Z) : Prop := spans c = true -> spans c' = true \/ sector_of c' <> sector_of c.

(** [rest] follows cluster [c], up to the end mark. *)
Fixpoint links (c : Z) (rest : list Z) : Prop :=
  cluster_ok c /\
  match rest with
  | [] => eoc <= entry_of (next_of c)
  | c' :: rest' => next_of c = c' /\ step_ok c c' /\ links c' rest'
  end.

(** The volume's FAT type is known and its sectors are the device's. *)
Record vol_ok : Prop := {
  vo_type : bpb_fatType bpb = FAT12 \/ bpb_fatType bpb = FAT16 \/ bpb_fatType bpb = FAT32;
  vo_size : bpb_sectorSize bpb = dk_size k;
  vo_align : (4 | dk_size k);
  vo_img : img_ok k;
  vo_start : 0 <= fat_start;
}.
End Fat.

Section Records.
  Context {D : Type} `{SectorDevLaws D} (k : disk_img) (bpb : fat_bpb).
  Context (V : vol_ok k bpb).

Abbreviation ss := (bpb_sectorSize bpb).

Lemma ss_pos : 0 < ss < 2 ^ 16.
Proof using V. rewrite (vo_size _ _ V). apply (im_size _ (vo_img _ _ V)). Qed.

Lemma READ_SECTOR_ok (s : fat D) sec :
  shows (dev s) k -> dk_in k sec ->
  exists r d', READ_SECTOR sec s = Ok (r, set_dev d' (dk_sector k sec) s) /\ 0 <= r /\ shows d' k.
Proof using.
  intros Hd Hin. destruct (shows_read _ _ _ Hd Hin) as (r & d' & E & Hr & Hd').
  exists r, d'. split; [|by split]. unfold READ_SECTOR. rewrite E. cbn [rbind].
  destruct (Z.ltb_spec r 0); [lia|done].
Qed.

Lemma read_fat_ok (s : fat D) f :
  shows (dev s) k -> dk_in k (fat_start bpb + f) ->
  exists d', read_fat bpb f s = Ok (true, set_dev d' (dk_sector k (fat_start bpb + f)) s) /\ shows d' k.
Proof using V.
  intros Hd Hin. destruct (READ_SECTOR_ok s _ Hd Hin) as (r & d' & E & Hr & Hd').
  exists d'. split; [|done]. unfold read_fat. fold (fat_start bpb).
  rewrite u32_id by apply (im_range _ (vo_img _ _ V) _ Hin).
  rewrite (bind_ok _ _ _ _ _ E). destruct (Z.ltb_spec r 0); [lia|done].
Qed.

Lemma sector_byte sec i :
  dk_in k sec -> 0 <= i < ss -> buf_byte (dk_sector k sec) i = Ok (byte_at (dk_sector k sec) (Z.to_nat i)).
Proof using V.
  intros Hin Hi. unfold buf_byte, byte_at. destruct (Z.ltb_spec i 0); [lia|].
  pose proof (im_len _ (vo_img _ _ V) _ Hin) as L. rewrite (vo_size _ _ V) in Hi.
  destruct (lookup_lt_is_Some_2 (dk_sector k sec) (Z.to_nat i)) as [x Hx]; [lia|].
  by rewrite nth_lookup, Hx.
Qed.

(** A byte of the FAT in the sector buffer. *)
Lemma fat_byte_at o j :
  dk_in k (fat_start bpb + o / ss) -> 0 <= o -> 0 <= j -> o mod ss + j < ss ->
  buf_byte (dk_sector k (fat_start bpb + o / ss)) (o mod ss + j) = Ok (fat_byte k bpb (o + j)).
Proof using V.
  intros Hin Ho Hj Hlt. pose proof ss_pos. pose proof (Z.mod_pos_bound o ss ltac:(lia)).
  pose proof (Z.div_mod o ss ltac:(lia)) as Hdm.
  assert (E : o + j = ss * (o / ss) + (o mod ss + j)) by lia.
  assert (B : 0 <= o mod ss + j < ss) by lia.
  rewrite sector_byte by done. unfold fat_byte.
  by rewrite <- (Z.div_unique_pos _ _ _ _ B E), <- (Z.mod_unique_pos _ _ _ _ B E).
Qed.

Lemma fat_byte_u8 o : dk_in k (fat_start bpb + o / ss) -> 0 <= fat_byte k bpb o < 256.
Proof using V.
  intros Hin. unfold fat_byte, byte_at. pose proof (im_u8 _ (vo_img _ _ V) _ Hin) as U.
  rewrite nth_lookup. destruct (_ !! _) as [x|] eqn:E; [|cbn; lia]. cbn.
  rewrite Forall_forall in U. apply U. by eapply list_elem_of_lookup_2.
Qed.

(** The sector buffer is good for the record of [c]. *)
Definition buffer_ok (s : fat D) (last c : Z) : Prop :=
  spans bpb c = false -> sector_of bpb c = last -> sbuf s = dk_sector k (fat_start bpb + last).

(** What reading a record does. *)
Definition record_spec (record : Z -> Z -> M (fat D) (option (Z * Z))) : Prop :=
  forall s last c, shows (dev s) k -> cluster_ok k bpb c -> buffer_ok s last c ->
    exists d' b', record last c s = Ok (Some (next_of k bpb c, sector_of bpb c), set_dev d' b' s) /\
      shows d' k /\ (spans bpb c = false -> b' = dk_sector k (fat_start bpb + sector_of bpb c)).

(** The sector of a record that does not cross, read when it is not in the buffer. *)
Lemma fetch_ok s last c :
  shows (dev s) k -> cluster_ok k bpb c -> buffer_ok s last c -> spans bpb c = false ->
  exists d', (if negb (last =? sector_of bpb c) then read_fat bpb (sector_of bpb c) else ret true) s =
      Ok (true, set_dev d' (dk_sector k (fat_start bpb + sector_of bpb c)) s) /\ shows d' k.
Proof using V.
  intros Hd (_ & Hin & _) Hb Hs. destruct (Z.eqb_spec last (sector_of bpb c)) as [E|E]; cbn [negb].
  - exists (dev s). split; [|done]. rewrite <- E, <- Hb by done. by destruct s.
  - by apply read_fat_ok.
Qed.

Lemma record16_ok : bpb_fatType bpb = FAT16 -> record_spec (record16 bpb).
Proof using V.
  intros T s last c Hd Hc Hb. pose proof ss_pos as Hss.
  assert (Eo : rec_offset bpb c = c * 2) by (unfold rec_offset; by rewrite T).
  assert (Hs : spans bpb c = false) by (unfold spans; by rewrite T).
  pose proof Hc as ((Hc1 & Hc2) & Hin & _).
  assert (H2 : ss = ss / 2 * 2).
  { rewrite (vo_size _ _ V). destruct (vo_align _ _ V) as [q Hq]. rewrite Hq. zlia. }
  assert (Es : sector_of bpb c = c / (ss / 2)).
  { unfold sector_of. rewrite Eo, H2 at 1. apply Z.div_mul_cancel_r; lia. }
  assert (Em : rec_offset bpb c mod ss = c mod (ss / 2) * 2).
  { rewrite Eo, H2 at 1. apply Z.mul_mod_distr_r; lia. }
  assert (Ec : c < 65528) by (unfold eoc in Hc2; rewrite T in Hc2; exact Hc2).
  assert (Er : s32 (c / (ss / 2)) = sector_of bpb c).
  { rewrite Es. apply s32_id. pose proof (Z.div_le_upper_bound c (ss / 2) c ltac:(lia) ltac:(nia)).
    pose proof (Z.div_pos c (ss / 2) ltac:(lia) ltac:(lia)). lia. }
  unfold record16. cbn zeta. rewrite Er.
  destruct (fetch_ok s last c Hd Hc Hb Hs) as (d' & E & Hd'). rewrite (bind_ok _ _ _ _ _ E). cbn [negb].
  set (s' := set_dev _ _ s). rewrite (bind_ok _ _ s' (sbuf s') s') by done.
  pose proof (Z.mod_pos_bound c (ss / 2) ltac:(lia)).
  assert (Eg : getI16 (sbuf s') (c mod (ss / 2) * 2) = Ok (next_of k bpb c)).
  { unfold getI16. rewrite <- Em. cbn [sbuf s' set_dev]. unfold sector_of.
    replace (rec_offset bpb c mod ss) with (rec_offset bpb c mod ss + 0) at 1 by lia.
    rewrite !fat_byte_at by (done || lia). cbn [rbind]. unfold next_of. rewrite T, Z.add_0_r, Z.shiftl_mul_pow2 by lia.
    cbn. f_equal. lia. }
  rewrite Eg. exists d', (dk_sector k (fat_start bpb + sector_of bpb c)). split; [done|]. by split.
Qed.

Lemma u32_s32 x : 0 <= x < 2 ^ 32 -> u32 (s32 x) = x.
Proof using. intros. zlia. Qed.

Lemma record32_ok : bpb_fatType bpb = FAT32 -> record_spec (record32 bpb).
Proof using V.
  intros T s last c Hd Hc Hb. pose proof ss_pos as Hss.
  assert (Eo : rec_offset bpb c = c * 4) by (unfold rec_offset; by rewrite T).
  assert (Hs : spans bpb c = false) by (unfold spans; by rewrite T).
  pose proof Hc as ((Hc1 & Hc2) & Hin & _).
  assert (H2 : ss = ss / 4 * 4).
  { rewrite (vo_size _ _ V). destruct (vo_align _ _ V) as [q Hq]. rewrite Hq. zlia. }
  assert (Es : sector_of bpb c = c / (ss / 4)).
  { unfold sector_of. rewrite Eo, H2 at 1. apply Z.div_mul_cancel_r; lia. }
  assert (Em : rec_offset bpb c mod ss = c mod (ss / 4) * 4).
  { rewrite Eo, H2 at 1. apply Z.mul_mod_distr_r; lia. }
  assert (Ec : c < 0xFFFFFF8) by (unfold eoc in Hc2; rewrite T in Hc2; exact Hc2).
  assert (Er : s32 (c / (ss / 4)) = sector_of bpb c).
  { rewrite Es. apply s32_id. pose proof (Z.div_le_upper_bound c (ss / 4) c ltac:(lia) ltac:(nia)).
    pose proof (Z.div_pos c (ss / 4) ltac:(lia) ltac:(lia)). lia. }
  unfold record32. cbn zeta. rewrite Er.
  destruct (fetch_ok s last c Hd Hc Hb Hs) as (d' & E & Hd'). rewrite (bind_ok _ _ _ _ _ E). cbn [negb].
  set (s' := set_dev _ _ s). rewrite (bind_ok _ _ s' (sbuf s') s') by done.
  pose proof (Z.mod_pos_bound c (ss / 4) ltac:(lia)).
  set (o := rec_offset bpb c) in *.
  assert (Hu : forall j, 0 <= j < 4 -> 0 <= fat_byte k bpb (o + j) < 256).
  { intros j Hj. apply fat_byte_u8. replace ((o + j) / ss) with (o / ss); [exact Hin|].
    apply Z.div_unique_pos with (o mod ss + j); [lia|]. pose proof (Z.div_mod o ss ltac:(lia)). lia. }
  assert (Eg : getI32 (sbuf s') (c mod (ss / 4) * 4) = Ok (s32 (next_of k bpb c))).
  { unfold getI32. rewrite <- Em. cbn [sbuf s' set_dev]. unfold sector_of. fold o.
    replace (o mod ss) with (o mod ss + 0) at 1 by lia.
    rewrite !fat_byte_at by (done || lia). cbn [rbind]. unfold next_of. fold o.
    rewrite T, Z.add_0_r, !Z.shiftl_mul_pow2 by lia. cbn -[s32 Z.pow]. do 2 f_equal. lia. }
  rewrite Eg, (bind_ok _ _ s' (s32 (next_of k bpb c)) s') by done. rewrite u32_s32.
  - exists d', (dk_sector k (fat_start bpb + sector_of bpb c)). split; [done|]. by split.
  - pose proof (Hu 0 ltac:(lia)) as B0. rewrite Z.add_0_r in B0.
    pose proof (Hu 1 ltac:(lia)). pose proof (Hu 2 ltac:(lia)). pose proof (Hu 3 ltac:(lia)).
    unfold next_of. fold o. rewrite T. cbn -[Z.pow]. lia.
Qed.

Lemma record12_value o c x0 x1 :
  x0 = fat_byte k bpb o -> x1 = fat_byte k bpb (o + 1) -> bpb_fatType bpb = FAT12 -> o = rec_offset bpb c ->
  (if negb (c mod 2 =? 0) then Z.shiftl x1 4 + Z.shiftr x0 4 else Z.shiftl (Z.land x1 0x0F) 8 + x0) =
  next_of k bpb c.
Proof using. intros -> -> T ->. unfold next_of. rewrite T. cbn [Z.eqb Pos.eqb FAT12]. by destruct (c mod 2 =? 0). Qed.

(** The record of FAT12 across two sectors. *)
Lemma record12_span_ok s last c :
  bpb_fatType bpb = FAT12 -> 2 <= ss -> shows (dev s) k -> cluster_ok k bpb c -> spans bpb c = true ->
  s32 (u32 (c * 3) / 2) = rec_offset bpb c -> 0 <= rec_offset bpb c < 2 ^ 31 ->
  exists d' b', record12 bpb last c s = Ok (Some (next_of k bpb c, sector_of bpb c), set_dev d' b' s) /\ shows d' k.
Proof using V.
  intros T H2 Hd (Hc & Hin & Hin') Hs Eo Ho. pose proof ss_pos as Hss. specialize (Hin' Hs).
  set (o := rec_offset bpb c) in *.
  assert (Em : o mod ss = ss - 1).
  { unfold spans in Hs. rewrite T in Hs. apply andb_prop in Hs as [_ Hs]. by apply Z.eqb_eq in Hs. }
  pose proof (Z.div_mod o ss ltac:(lia)) as Hdm. pose proof (Z.div_pos o ss ltac:(lia) ltac:(lia)).
  assert (Hle : o / ss <= o) by (apply Z.div_le_upper_bound; nia).
  unfold record12. cbn zeta. rewrite Eo, (u32_id o), s32_id by lia. fold (sector_of bpb c).
  destruct (Z.eqb_spec (o mod ss) (ss - 1)); [|done].
  destruct (read_fat_ok s (sector_of bpb c) Hd Hin) as (d1 & E1 & Hd1). rewrite (bind_ok _ _ _ _ _ E1). cbn [negb].
  set (s1 := set_dev d1 _ s). rewrite (bind_ok _ _ s1 (sbuf s1) s1) by done. cbn [sbuf s1 set_dev].
  rewrite !sector_byte by (done || lia).
  rewrite (bind_ok _ _ s1 _ s1 eq_refl), (bind_ok _ _ s1 _ s1 eq_refl).
  destruct (read_fat_ok s1 (sector_of bpb c + 1) Hd1) as (d2 & E2 & Hd2); [by rewrite Z.add_assoc|].
  rewrite (bind_ok _ _ _ _ _ E2). cbn [negb].
  set (s2 := set_dev d2 _ s1). rewrite (bind_ok _ _ s2 (sbuf s2) s2) by done. cbn [sbuf s2 set_dev].
  rewrite !sector_byte by (rewrite ?Z.add_assoc; done || lia).
  rewrite (bind_ok _ _ s2 _ s2 eq_refl), (bind_ok _ _ s2 _ s2 eq_refl).
  replace (o mod ss - (ss - 2)) with 1 by lia.
  unfold fat_getClusterRecord12. cbn [buf_byte Z.ltb Z.compare Z.add Pos.add Pos.succ of_option rbind lookup list_lookup
    Z.to_nat Pos.to_nat Pos.iter_op Init.Nat.add].
  erewrite (bind_ok _ _ s2 _ s2) by (cbn; reflexivity).
  rewrite (record12_value o c); [|unfold fat_byte, sector_of; by rewrite Em| |done|done].
  { exists d2, (sbuf s2). by split. }
  unfold fat_byte. replace ((o + 1) / ss) with (sector_of bpb c + 1).
  - replace ((o + 1) mod ss) with 0; [by rewrite Z.add_assoc|].
    apply (Z.mod_unique_pos _ _ (o / ss + 1)); lia.
  - unfold sector_of. fold o. apply Z.div_unique_pos with 0; lia.
Qed.

Lemma record12_ok : bpb_fatType bpb = FAT12 -> record_spec (record12 bpb).
Proof using V.
  intros T s last c Hd Hc Hb. pose proof ss_pos as Hss.
  assert (H4 : 4 <= ss).
  { rewrite (vo_size _ _ V) in *. destruct (vo_align _ _ V) as [q Hq]. lia. }
  pose proof Hc as ((Hc1 & Hc2) & Hin & _).
  assert (Ec : c < 0xFF8) by (unfold eoc in Hc2; rewrite T in Hc2; exact Hc2).
  assert (Eo : rec_offset bpb c = c * 3 / 2) by (unfold rec_offset; by rewrite T).
  assert (Ho : 0 <= rec_offset bpb c < 2 ^ 31) by (rewrite Eo; zlia).
  assert (Er : s32 (u32 (c * 3) / 2) = rec_offset bpb c) by (rewrite Eo; zlia).
  destruct (spans bpb c) eqn:Hs.
  { destruct (record12_span_ok s last c T ltac:(lia) Hd Hc Hs Er Ho) as (d' & b' & E & Hd').
    by exists d', b'. }
  set (o := rec_offset bpb c) in *.
  pose proof (Z.div_pos o ss ltac:(lia) ltac:(lia)).
  assert (Hle : o / ss <= o) by (apply Z.div_le_upper_bound; nia).
  pose proof (Z.mod_pos_bound o ss ltac:(lia)).
  assert (Hne : o mod ss <> ss - 1).
  { unfold spans in Hs. rewrite T in Hs. by apply Z.eqb_neq in Hs. }
  unfold record12. cbn zeta. rewrite Er, (u32_id o), s32_id by lia. fold (sector_of bpb c).
  destruct (Z.eqb_spec (o mod ss) (ss - 1)); [done|].
  destruct (fetch_ok s last c Hd Hc Hb Hs) as (d' & E & Hd'). rewrite (bind_ok _ _ _ _ _ E). cbn [negb].
  set (s' := set_dev _ _ s). rewrite (bind_ok _ _ s' (sbuf s') s') by done.
  assert (Eg : fat_getClusterRecord12 (sbuf s') (o mod ss) (c mod 2) = Ok (next_of k bpb c)).
  { unfold fat_getClusterRecord12. cbn [sbuf s' set_dev]. unfold sector_of. fold o.
    replace (o mod ss) with (o mod ss + 0) at 1 by lia.
    rewrite !fat_byte_at by (done || lia). cbn [rbind]. f_equal. rewrite Z.add_0_r.
    by apply (record12_value o c). }
  rewrite Eg. exists d', (dk_sector k (fat_start bpb + sector_of bpb c)). split; [done|]. by split.
Qed.
End Records.

(** ** Chains *)

Lemma splice_nil (l : list Z) i : splice l i [] = l.
Proof. unfold splice. cbn. by rewrite Nat.add_0_r, take_drop. Qed.

Lemma splice_insert (l : list Z) i x xs :
  (i < length l)%nat -> splice (<[i := x]> l) (S i) xs = splice l i (x :: xs).
Proof.
  intros Hi. unfold splice. rewrite (take_S_r _ _ x) by (by apply list_lookup_insert_eq).
  rewrite take_insert_ge, drop_insert_lt by lia. rewrite <- app_assoc. cbn.
  by replace (S (i + length xs)) with (i + S (length xs))%nat by lia.
Qed.

Section Chains.
  Context {D : Type} `{SectorDevLaws D} (k : disk_img) (bpb : fat_bpb).
  Context (V : vol_ok k bpb).

Lemma put_cluster_ok i c (s : fat D) :
  (i < length (cbuf s))%nat -> put_cluster i c s = Ok (tt, set_cbuf (<[i := c]> (cbuf s)) s).
Proof using.
  intros Hi. unfold put_cluster. rewrite (bind_ok _ _ s (cbuf s) s) by done.
  rewrite (bind_ok _ _ s (<[i := c]> (cbuf s)) s); [done|].
  unfold lift, poke. destruct (Z.ltb_spec (Z.of_nat i) 0); [lia|].
  destruct (Z.leb_spec (Z.of_nat (length (cbuf s))) (Z.of_nat i)); [lia|]. cbn. by rewrite Nat2Z.id.
Qed.

Lemma entry_cluster c : cluster_ok k bpb c -> entry_of bpb c = c.
Proof using V.
  intros ((H1 & H2) & _). unfold entry_of, eoc in *.
  destruct (bpb_fatType bpb =? FAT12); [done|]. destruct (bpb_fatType bpb =? FAT16); [done|].
  change 0xFFFFFFF with (Z.ones 28). rewrite Z.land_ones by lia. apply Z.mod_small. lia.
Qed.

Lemma chain_loop_ok record :
  record_spec k bpb record ->
  forall n i last c rest (s : fat D),
    shows (dev s) k -> links k bpb c rest -> buffer_ok k bpb s last c -> (i + n <= length (cbuf s))%nat ->
    exists d' b', chain_loop record (entry_of bpb) (eoc bpb) n i last c s =
        Ok (if (n <=? length rest)%nat then 0 else Z.of_nat (i + length rest),
            set_cbuf (splice (cbuf s) i (take n rest)) (set_dev d' b' s)) /\ shows d' k.
Proof using V.
  intros R n. induction n as [|n IH]; intros i last c rest s Hd Hl Hb Hi.
  { exists (dev s), (sbuf s). cbn. rewrite splice_nil. split; [by destruct s|done]. }
  cbn [chain_loop].
  assert (Hc : cluster_ok k bpb c) by (by destruct rest, Hl).
  destruct (R s last c Hd Hc Hb) as (d1 & b1 & E1 & Hd1 & Hb1). rewrite (bind_ok _ _ _ _ _ E1).
  destruct rest as [|c' rest].
  - destruct Hl as [_ Hend]. destruct (Z.leb_spec (eoc bpb) (entry_of bpb (next_of k bpb c))); [|lia].
    exists d1, b1. rewrite take_nil, splice_nil, Nat.add_0_r. by split.
  - destruct Hl as (_ & En & St & Hl). rewrite En.
    assert (Hc' : cluster_ok k bpb c') by (by destruct rest, Hl).
    rewrite entry_cluster by done. pose proof Hc' as ((_ & Hc2) & _).
    destruct (Z.leb_spec (eoc bpb) c'); [lia|].
    rewrite (bind_ok _ _ _ _ _ (put_cluster_ok i c' (set_dev d1 b1 s) ltac:(cbn; lia))).
    destruct (IH (S i) (sector_of bpb c) c' rest (set_cbuf (<[i := c']> (cbuf s)) (set_dev d1 b1 s)))
      as (d2 & b2 & E2 & Hd2); [done|done| |cbn; rewrite length_insert; lia|].
    { intros Hs' Es. cbn [sbuf set_cbuf set_dev]. destruct (spans bpb c) eqn:Hs; [|by apply Hb1].
      by destruct (St Hs) as [?|?]; [congruence|]. }
    exists d2, b2. split; [|done]. cbn [cbuf set_cbuf set_dev] in *. rewrite E2.
    cbn [take length Nat.leb]. rewrite splice_insert by lia. do 2 f_equal.
    destruct (n <=? length rest)%nat; [done|]. lia.
Qed.

(** The chain function of the volume's type. *)
Definition chain_of_type (c : Z) (n : nat) (start : bool) : M (fat D) Z :=
  if bpb_fatType bpb =? FAT12 then fat_getClusterChain12 bpb c n start
  else if bpb_fatType bpb =? FAT16 then fat_getClusterChain16 bpb c n start
  else fat_getClusterChain32 bpb c n start.

Lemma chain_of_type_from c n start :
  exists record, record_spec k bpb record /\
    chain_of_type c n start = chain_from record (entry_of bpb) (eoc bpb) c n start.
Proof using V.
  unfold chain_of_type, entry_of, eoc. destruct (vo_type _ _ V) as [T|[T|T]]; rewrite T; cbn [Z.eqb Pos.eqb FAT12 FAT16 FAT32].
  - exists (record12 bpb). split; [by apply record12_ok|done].
  - exists (record16 bpb). split; [by apply record16_ok|done].
  - exists (record32 bpb). split; [by apply record32_ok|done].
Qed.

Lemma sector_of_pos c : cluster_ok k bpb c -> 0 <= sector_of bpb c.
Proof using V.
  intros ((H1 & _) & _). pose proof (ss_pos k bpb V). apply Z.div_pos; [|lia]. unfold rec_offset.
  destruct (bpb_fatType bpb =? FAT12); [zlia|]. destruct (bpb_fatType bpb =? FAT16); lia.
Qed.

Lemma chain_of_type_ok c rest n (start : bool) (s : fat D) :
  shows (dev s) k -> links k bpb c rest -> (0 < n <= length (cbuf s))%nat ->
  let cs := if start then c :: rest else rest in
  exists d' b', chain_of_type c n start s =
      Ok (if (n <=? length cs)%nat then 0 else Z.of_nat (length cs),
          set_cbuf (splice (cbuf s) 0 (take n cs)) (set_dev d' b' s)) /\ shows d' k.
Proof using V.
  intros Hd Hl Hn cs. destruct (chain_of_type_from c n start) as (record & R & E). rewrite E.
  assert (Hc : cluster_ok k bpb c) by (by destruct rest, Hl).
  assert (Hb : forall s' : fat D, buffer_ok k bpb s' (-1) c).
  { intros s' _ Es. pose proof (sector_of_pos c Hc). lia. }
  unfold chain_from. destruct start.
  - rewrite (bind_ok _ _ _ _ _ (put_cluster_ok 0 c s ltac:(lia))).
    destruct (chain_loop_ok record R (n - 1) 1 (-1) c rest (set_cbuf (<[0%nat := c]> (cbuf s)) s))
      as (d' & b' & E' & Hd'); [done|done|done|cbn; rewrite length_insert; lia|].
    exists d', b'. split; [|done]. rewrite E'. cbn [cbuf set_cbuf set_dev cs].
    rewrite splice_insert by lia. replace n with (S (n - 1)) at 3 4 by lia. cbn [take length Nat.leb].
    do 2 f_equal.
  - apply (chain_loop_ok record R n 0 (-1) c rest s); [done|done|apply Hb|lia].
Qed.

Lemma links_det c : forall rest rest', links k bpb c rest -> links k bpb c rest' -> rest' = rest.
Proof using V.
  intros rest. revert c. induction rest as [|c1 rest IH]; intros c [|c2 rest'] H1 H2; [done| | |].
  - destruct H1 as [_ H1], H2 as (_ & H2 & _ & H3). assert (Hc : cluster_ok k bpb c2) by (by destruct rest', H3).
    rewrite H2, entry_cluster in H1 by done. destruct Hc as ((_ & ?) & _). lia.
  - destruct H2 as [_ H2], H1 as (_ & H1 & _ & H3). assert (Hc : cluster_ok k bpb c1) by (by destruct rest, H3).
    rewrite H1, entry_cluster in H2 by done. destruct Hc as ((_ & ?) & _). lia.
  - destruct H1 as (_ & E1 & _ & H1), H2 as (_ & E2 & _ & H2). rewrite E1 in E2. subst c2.
    f_equal. by apply (IH c1).
Qed.

Lemma links_drop c rest i c' :
  links k bpb c rest -> (c :: rest) !! i = Some c' -> links k bpb c' (drop i rest).
Proof using.
  revert c i. induction rest as [|c1 rest IH]; intros c [|i] Hl Hi; try (by injection Hi as <-); [done|].
  destruct Hl as (_ & _ & _ & Hl). cbn [drop]. by apply (IH c1).
Qed.

(** The chain of the cluster asked for last is in [cbuf]: true as long as the chains fit. *)
Definition memo_ok (s : fat D) : Prop :=
  forall rest, links k bpb (lastChainCluster s) rest ->
    (S (length rest) < MAX_DIR_CLUSTER)%nat /\ lastChainResult s = Z.of_nat (S (length rest)) /\
    take (S (length rest)) (cbuf s) = lastChainCluster s :: rest.

Record drv_ok (s : fat D) : Prop := {
  dv_shows : shows (dev s) k;
  dv_cbuf : length (cbuf s) = MAX_DIR_CLUSTER;
  dv_memo : memo_ok s;
}.

(** Only the device, the buffers and the memo changed. *)
Definition moved (s s' : fat D) : Prop :=
  exists d b cb c r, s' = set_last c r (set_cbuf cb (set_dev d b s)).

Lemma moved_refl s : moved s s.
Proof using. exists (dev s), (sbuf s), (cbuf s), (lastChainCluster s), (lastChainResult s). by destruct s. Qed.

Lemma moved_trans s1 s2 s3 : moved s1 s2 -> moved s2 s3 -> moved s1 s3.
Proof using.
  intros (d & b & cb & c & r & ->) (d' & b' & cb' & c' & r' & ->). by exists d', b', cb', c', r'.
Qed.

Lemma drv_ok_dev s d b : drv_ok s -> shows d k -> drv_ok (set_dev d b s) /\ moved s (set_dev d b s).
Proof using.
  intros [H1 H2 H3] Hd. split; [by split|].
  exists d, b, (cbuf s), (lastChainCluster s), (lastChainResult s). by destruct s.
Qed.

Lemma getClusterChain_ok c rest (s : fat D) :
  drv_ok s -> links k bpb c rest -> (S (length rest) < MAX_DIR_CLUSTER)%nat ->
  exists s', fat_getClusterChain bpb c MAX_DIR_CLUSTER true s = Ok (Z.of_nat (S (length rest)), s') /\
    drv_ok s' /\ moved s s' /\ take (S (length rest)) (cbuf s') = c :: rest.
Proof using V.
  intros Hs Hl Hn. unfold fat_getClusterChain. rewrite (bind_ok _ _ s (lastChainCluster s) s) by done.
  destruct (Z.eqb_spec c (lastChainCluster s)) as [->|Hne].
  { destruct (dv_memo _ Hs rest Hl) as (_ & Er & Ec). exists s. split; [by rewrite <- Er|].
    split; [done|]. split; [apply moved_refl|done]. }
  destruct (chain_of_type_ok c rest MAX_DIR_CLUSTER true s (dv_shows _ Hs) Hl) as (d & b & E & Hd).
  { rewrite (dv_cbuf _ Hs). unfold MAX_DIR_CLUSTER. lia. }
  cbn [length] in E. rewrite (proj2 (Nat.leb_gt _ _) Hn) in E.
  rewrite (bind_ok _ _ s (Z.of_nat (S (length rest)))
    (set_cbuf (splice (cbuf s) 0 (take MAX_DIR_CLUSTER (c :: rest))) (set_dev d b s))).
  2:{ rewrite <- E. unfold chain_of_type. destruct (vo_type _ _ V) as [T|[T|T]]; by rewrite T. }
  rewrite (bind_ok _ _ _ _ _ eq_refl). eexists. split; [reflexivity|].
  set (cb := splice (cbuf s) 0 _).
  assert (Ecb : cb = (c :: rest) ++ drop (S (length rest)) (cbuf s)).
  { unfold cb. rewrite (take_ge (c :: rest)) by (cbn; lia). by rewrite splice_0. }
  assert (Et : take (S (length rest)) cb = c :: rest).
  { rewrite Ecb. change (S (length rest)) with (length (c :: rest)) at 1. by rewrite take_app_length. }
  split; [|split; [|exact Et]].
  - split; [done| |].
    + cbn [cbuf set_last set_cbuf]. rewrite Ecb, length_app, length_drop, (dv_cbuf _ Hs). cbn [length]. lia.
    + intros rest' Hl'. cbn [lastChainCluster set_last] in Hl'. rewrite (links_det c rest rest' Hl Hl'). by split.
  - by exists d, b, cb, c, (Z.of_nat (S (length rest))).
Qed.
End Chains.
