(* ===== verification/FatRead.v ===== *)
(** * Reading files through the FAT driver

    [fat_readFile] gives the bytes of the file's clusters, and an open file behaves as a byte
    array with a position. *)

From S2P Require Import Prelude Bytes Fat FatChain.
Local Open Scope ps2rd_scope.

(** ** The contents of a file *)

Section Contents.
  Context (k : disk_img) (bpb : fat_bpb).

(** The first data sector, and the sectors of a cluster. *)
Definition data_start : Z :=
  bpb_rootDirStart bpb +
  if bpb_fatType bpb =? FAT32 then 0 else bpb_rootSize bpb / (bpb_sectorSize bpb / 32).
Definition cluster_sector (c : Z) : Z := data_start + bpb_clusterSize bpb * (c - 2).

Definition sectors (start : Z) (j n : nat) : list Z :=
  concat ((fun i => dk_sector k (start + Z.of_nat i)) <$> seq j n).
Definition cluster_bytes (c : Z) : list Z := sectors (cluster_sector c) 0 (Z.to_nat (bpb_clusterSize bpb)).
Definition chain_bytes (cs : list Z) : list Z := concat (cluster_bytes <$> cs).

(** Bytes per cluster. *)
Definition cluster_size : Z := bpb_clusterSize bpb * bpb_sectorSize bpb.

(** The sectors of a cluster can be read. *)
Definition data_ok (c : Z) : Prop :=
  forall j, 0 <= j < bpb_clusterSize bpb -> dk_in k (cluster_sector c + j).

Record geometry_ok : Prop := {
  ge_vol : vol_ok k bpb;
  ge_cluster : 0 < bpb_clusterSize bpb < 2 ^ 8;
  ge_data : 0 <= data_start;
}.
End Contents.

Section Read.
  Context {D : Type} `{SectorDevLaws D} (k : disk_img) (bpb : fat_bpb).
  Context (G : geometry_ok k bpb).

Abbreviation ss := (bpb_sectorSize bpb).
Abbreviation csize := (bpb_clusterSize bpb).

Lemma ss_range : 0 < ss < 2 ^ 16.
Proof using G. exact (ss_pos k bpb (ge_vol _ _ G)). Qed.

Lemma length_sector sec : dk_in k sec -> Z.of_nat (length (dk_sector k sec)) = ss.
Proof using G.
  intros Hin. rewrite (im_len _ (vo_img _ _ (ge_vol _ _ G)) _ Hin). symmetry. apply (vo_size _ _ (ge_vol _ _ G)).
Qed.

Lemma cluster2sector_ok c : 2 <= c -> data_ok k bpb c -> fat_cluster2sector bpb c = cluster_sector bpb c.
Proof using G.
  intros Hc Hd. pose proof (ge_cluster _ _ G). pose proof (ge_data _ _ G).
  pose proof (im_range _ (vo_img _ _ (ge_vol _ _ G)) _ (Hd 0 ltac:(lia))) as Hr.
  unfold fat_cluster2sector, fat_cluster2sector32, fat_cluster2sector1216, cluster_sector, data_start in *.
  assert (Hc2 : u32 (c - 2) = c - 2) by (apply u32_id; destruct (bpb_fatType bpb =? FAT32); nia).
  rewrite Hc2, Z.shiftr_div_pow2 by lia. change (2 ^ 5) with 32.
  destruct (bpb_fatType bpb =? FAT32); rewrite u32_id; lia.
Qed.

Lemma sectors_S start j n :
  sectors k start j (S n) = dk_sector k (start + Z.of_nat j) ++ sectors k start (S j) n.
Proof using. done. Qed.

Lemma length_sectors start n : forall j,
  (forall i, Z.of_nat j <= i < Z.of_nat (j + n) -> dk_in k (start + i)) ->
  Z.of_nat (length (sectors k start j n)) = Z.of_nat n * ss.
Proof using G.
  induction n as [|n IH]; intros j Hin; [done|].
  rewrite sectors_S, length_app, Nat2Z.inj_add, IH, length_sector by (first [apply Hin; lia | intros; apply Hin; lia]).
  lia.
Qed.

Lemma length_cluster c : data_ok k bpb c -> Z.of_nat (length (cluster_bytes k bpb c)) = cluster_size bpb.
Proof using G.
  intros Hd. pose proof (ge_cluster _ _ G). unfold cluster_bytes, cluster_size.
  rewrite length_sectors; [lia|]. intros i Hi. apply Hd. lia.
Qed.

(** Skipping whole sectors of a cluster. *)
Lemma drop_sectors start m : forall j n,
  (forall i, Z.of_nat j <= i < Z.of_nat (j + (m + n)) -> dk_in k (start + i)) ->
  drop (m * Z.to_nat ss) (sectors k start j (m + n)) = sectors k start (j + m) n.
Proof using G.
  induction m as [|m IH]; intros j n Hin; [by rewrite Nat.add_0_r|].
  cbn [Nat.add]. rewrite sectors_S. pose proof ss_range.
  pose proof (length_sector (start + Z.of_nat j) ltac:(apply Hin; lia)) as L.
  replace (S m * Z.to_nat ss)%nat with (length (dk_sector k (start + Z.of_nat j)) + m * Z.to_nat ss)%nat by lia.
  rewrite drop_app_add, IH by (intros; apply Hin; lia). by replace (S j + m)%nat with (j + S m)%nat by lia.
Qed.

(** Skipping whole clusters. *)
Lemma drop_chain i : forall cs,
  Forall (data_ok k bpb) cs -> (i <= length cs)%nat ->
  drop (i * Z.to_nat (cluster_size bpb)) (chain_bytes k bpb cs) = chain_bytes k bpb (drop i cs).
Proof using G.
  induction i as [|i IH]; intros cs Hd Hi; [done|]. destruct cs as [|c cs]; [cbn in Hi; lia|].
  inversion Hd as [|? ? Hc Hcs]; subst. pose proof (length_cluster c Hc) as L. unfold chain_bytes. cbn [fmap list_fmap concat drop].
  replace (S i * Z.to_nat (cluster_size bpb))%nat
    with (length (cluster_bytes k bpb c) + i * Z.to_nat (cluster_size bpb))%nat by lia.
  rewrite drop_app_add. apply IH; [done|cbn in Hi; lia].
Qed.

Lemma length_chain cs :
  Forall (data_ok k bpb) cs ->
  Z.of_nat (length (chain_bytes k bpb cs)) = Z.of_nat (length cs) * cluster_size bpb.
Proof using G.
  induction 1 as [|c cs Hc _ IH]; [done|]. unfold chain_bytes in *. cbn [fmap list_fmap concat length].
  rewrite length_app, Nat2Z.inj_add, length_cluster by done. lia.
Qed.

(** ** Reading sectors and clusters *)

(** The bytes copied from a sector. *)
Lemma sector_part_ok b size dataSkip :
  Z.of_nat (length b) = ss -> 0 <= dataSkip < ss -> 0 < size ->
  let bufSize := if size <? ss then size + dataSkip else ss in
  let bufSize := if ss <? bufSize then ss else bufSize in
  sector_part b dataSkip bufSize = Ok (take (Z.to_nat size) (drop (Z.to_nat dataSkip) b)) /\
  bufSize - dataSkip = Z.min size (ss - dataSkip).
Proof using.
  intros L Hd Hs bufSize bufSize'.
  assert (E : bufSize' - dataSkip = Z.min size (ss - dataSkip)).
  { unfold bufSize', bufSize. destruct (Z.ltb_spec size ss); destruct (Z.ltb_spec ss (size + dataSkip));
      rewrite ?Z.ltb_irrefl; lia. }
  split; [|exact E]. unfold sector_part.
  destruct (Z.ltb_spec bufSize' dataSkip); [lia|]. destruct (Z.ltb_spec dataSkip 0); [lia|].
  destruct (Z.ltb_spec (Z.of_nat (length b)) bufSize'); [lia|]. cbn [orb]. f_equal. rewrite E.
  destruct (Z.min_spec size (ss - dataSkip)) as [[_ ->]|[? ->]]; [done|].
  rewrite !take_ge by (rewrite length_drop; lia). done.
Qed.

Lemma Size_Sector_ok (s : fat D) : shows (dev s) k -> Size_Sector (dev s) = ss.
Proof using G. intros Hd. rewrite (shows_size _ _ Hd). symmetry. apply (vo_size _ _ (ge_vol _ _ G)). Qed.

Lemma read_sectors_ok start m : forall j size dataSkip out (s : fat D),
  shows (dev s) k -> 0 <= size -> 0 <= dataSkip < ss -> (m = 0%nat -> dataSkip = 0) ->
  (forall i, Z.of_nat j <= i < Z.of_nat (j + m) -> dk_in k (start + i)) ->
  let rem := drop (Z.to_nat dataSkip) (sectors k start j m) in
  exists size' ds d b,
    read_sectors m start (Z.of_nat j) size dataSkip out s =
      Ok (inr (size', ds, out ++ take (Z.to_nat size) rem), set_dev d b s) /\
    shows d k /\ size' = Z.max 0 (size - Z.of_nat (length rem)) /\ (0 < size' -> ds = 0).
Proof using G.
  induction m as [|m IH]; intros j size dataSkip out s Hd Hs Hds Hm0 Hin rem.
  { exists size, dataSkip, (dev s), (sbuf s). unfold rem. cbn. rewrite drop_nil, take_nil, app_nil_r.
    split; [by destruct s|]. split; [done|]. cbn. split; [lia|auto]. }
  cbn [read_sectors]. destruct (Z.leb_spec size 0) as [Hz|Hz].
  { exists size, dataSkip, (dev s), (sbuf s). replace size with 0 by lia. cbn [Z.to_nat take].
    rewrite app_nil_r. split; [by destruct s|]. split; [done|]. lia. }
  pose proof (Hin (Z.of_nat j) ltac:(lia)) as Hj.
  rewrite u32_id by apply (im_range _ (vo_img _ _ (ge_vol _ _ G)) _ Hj).
  destruct (READ_SECTOR_ok k s _ Hd Hj) as (r & d1 & E1 & Hr & Hd1). rewrite (bind_ok _ _ _ _ _ E1).
  destruct (Z.ltb_spec r 0); [lia|]. set (s1 := set_dev d1 _ s).
  rewrite (bind_ok _ _ s1 ss s1) by (unfold gets; by rewrite (Size_Sector_ok s1 Hd1)). cbn zeta.
  rewrite (bind_ok _ _ s1 (sbuf s1) s1) by done. cbn [sbuf s1 set_dev].
  set (b := dk_sector k (start + Z.of_nat j)) in *.
  pose proof (length_sector _ Hj) as L. fold b in L.
  destruct (sector_part_ok b size dataSkip L Hds Hz) as (Ep & Eb). cbn zeta in Ep, Eb.
  rewrite Ep, Eb, (bind_ok _ _ s1 _ s1 eq_refl).
  replace (Z.of_nat j + 1) with (Z.of_nat (S j)) by lia. pose proof ss_range.
  destruct (IH (S j) (size - Z.min size (ss - dataSkip)) 0
    (out ++ take (Z.to_nat size) (drop (Z.to_nat dataSkip) b)) s1)
    as (size' & ds & d & b' & E & Hd' & Es & Hds'); [done|lia|lia|done|intros; apply Hin; lia|].
  exists size', ds, d, b'. split; [|split; [done|split; [|done]]].
  - rewrite E. do 4 f_equal. rewrite <- app_assoc. f_equal. unfold rem. rewrite sectors_S. fold b.
    rewrite drop_app_le, take_app, length_drop by lia. f_equal. cbn [Z.to_nat]. rewrite ?drop_0. f_equal. lia.
  - rewrite Es. unfold rem. rewrite sectors_S. fold b. rewrite drop_app_le, length_app, !length_drop by lia. lia.
Qed.

(** The clusters [cs], from sector [sectorSkip] and byte [dataSkip] of the first on. *)
Lemma read_clusters_ok cs : forall sectorSkip size dataSkip out (s : fat D),
  shows (dev s) k -> Forall (fun c => 2 <= c /\ data_ok k bpb c) cs -> 0 <= size ->
  (0 < size -> 0 <= dataSkip < ss /\ 0 <= sectorSkip < csize) ->
  let rem := drop (Z.to_nat (sectorSkip * ss + dataSkip)) (chain_bytes k bpb cs) in
  exists sk size' ds d b,
    read_clusters bpb cs sectorSkip size dataSkip out s =
      Ok (inr (sk, size', ds, out ++ take (Z.to_nat size) rem), set_dev d b s) /\
    shows d k /\ size' = Z.max 0 (size - Z.of_nat (length rem)).
Proof using G.
  induction cs as [|c cs IH]; intros sectorSkip size dataSkip out s Hd Hcs Hs Hsk rem.
  { exists sectorSkip, size, dataSkip, (dev s), (sbuf s). unfold rem. cbn [chain_bytes fmap list_fmap concat].
    rewrite drop_nil, take_nil, app_nil_r. split; [by destruct s|]. split; [done|]. cbn. lia. }
  cbn [read_clusters]. destruct (Z.leb_spec size 0) as [Hz|Hz].
  { exists sectorSkip, size, dataSkip, (dev s), (sbuf s). replace size with 0 by lia. cbn [Z.to_nat take].
    rewrite app_nil_r. split; [by destruct s|]. split; [done|]. lia. }
  inversion Hcs as [|? ? [Hc2 Hc] Hcs']; subst. destruct (Hsk Hz) as (Hds & Hsec).
  pose proof ss_range as Hss. pose proof (ge_cluster _ _ G) as Hcl.
  rewrite cluster2sector_ok by done.
  destruct (read_sectors_ok (cluster_sector bpb c) (Z.to_nat (csize - sectorSkip)) (Z.to_nat sectorSkip) size dataSkip out s)
    as (size1 & ds1 & d1 & b1 & E1 & Hd1 & Es1 & Hds1); [done|lia|done|lia|intros; apply Hc; lia|].
  rewrite Z2Nat.id in E1 by lia. rewrite (bind_ok _ _ _ _ _ E1). clear E1.
  assert (Er : drop (Z.to_nat dataSkip) (sectors k (cluster_sector bpb c) (Z.to_nat sectorSkip) (Z.to_nat (csize - sectorSkip)))
    = drop (Z.to_nat (sectorSkip * ss + dataSkip)) (cluster_bytes k bpb c)).
  { unfold cluster_bytes. replace (Z.to_nat csize) with (Z.to_nat sectorSkip + Z.to_nat (csize - sectorSkip))%nat by lia.
    replace (Z.to_nat (sectorSkip * ss + dataSkip)) with (Z.to_nat sectorSkip * Z.to_nat ss + Z.to_nat dataSkip)%nat by nia.
    rewrite <- drop_drop, drop_sectors; [done|]. intros i Hi. apply Hc. lia. }
  rewrite Er in *. clear Er.
  destruct (IH 0 size1 ds1 (out ++ take (Z.to_nat size) (drop (Z.to_nat (sectorSkip * ss + dataSkip)) (cluster_bytes k bpb c)))
    (set_dev d1 b1 s)) as (sk & size2 & ds2 & d2 & b2 & E2 & Hd2 & Es2); [done|done|lia| |].
  { intros Hp. rewrite Hds1 by done. lia. }
  exists sk, size2, ds2, d2, b2. split; [|split; [done|]].
  - rewrite E2, <- app_assoc. do 5 f_equal. unfold rem, chain_bytes. cbn [fmap list_fmap concat].
    pose proof (length_cluster c Hc) as L. unfold cluster_size in L.
    assert (Hle : (Z.to_nat (sectorSkip * ss + dataSkip) <= length (cluster_bytes k bpb c))%nat) by nia.
    rewrite drop_app_le, take_app by done. f_equal. rewrite length_drop.
    destruct (Z.leb_spec size1 0) as [Hn|Hp].
    + replace (Z.to_nat size1) with 0%nat by lia.
      replace (Z.to_nat size - _)%nat with 0%nat; [done|]. rewrite length_drop in Es1. lia.
    + rewrite Hds1 by done. cbn [Z.mul Z.add Z.to_nat]. rewrite drop_0. f_equal. rewrite length_drop in Es1. lia.
  - rewrite Es2. unfold rem, chain_bytes. cbn [fmap list_fmap concat].
    pose proof (length_cluster c Hc) as L. unfold cluster_size in L.
    assert (Hle : (Z.to_nat (sectorSkip * ss + dataSkip) <= length (cluster_bytes k bpb c))%nat) by nia.
    rewrite drop_app_le by done. rewrite length_app, !length_drop in *. fold (chain_bytes k bpb cs).
    destruct (Z.leb_spec size1 0) as [Hn|Hp]; [lia|]. rewrite Hds1 by done. lia.
Qed.

(** ** Files *)

(** A file whose first cluster is [c], with less than [MAX_DIR_CLUSTER] clusters. *)
Record file_ok (c : Z) (rest : list Z) : Prop := {
  fi_links : links k bpb c rest;
  fi_short : (S (length rest) < MAX_DIR_CLUSTER)%nat;
  fi_data : Forall (data_ok k bpb) (c :: rest);
  fi_bytes : Z.of_nat (S (length rest)) * cluster_size bpb < 2 ^ 31;
}.

Lemma links_ge2 c rest : links k bpb c rest -> Forall (fun c => 2 <= c) (c :: rest).
Proof using.
  revert c. induction rest as [|c' rest IH]; intros c Hl.
  - destruct Hl as [((? & _) & _) _]. by repeat constructor.
  - destruct Hl as [((? & _) & _) (_ & _ & Hl)]. constructor; [done|by apply IH].
Qed.

Lemma file_tail c rest i c' :
  file_ok c rest -> (c :: rest) !! i = Some c' -> file_ok c' (drop i rest).
Proof using G.
  intros [Hl Hs Hd Hb] Hi. pose proof (lookup_lt_Some _ _ _ Hi) as Hlt. cbn [length] in Hlt. split.
  - by eapply links_drop.
  - rewrite length_drop. lia.
  - change (drop i rest) with (drop (S i) (c :: rest)). rewrite <- (drop_S (c :: rest) c' i Hi). by apply Forall_drop.
  - rewrite length_drop. pose proof ss_range. pose proof (ge_cluster _ _ G). unfold cluster_size in *. nia.
Qed.

Lemma cluster_size_pos : 0 < cluster_size bpb < 2 ^ 24.
Proof using G. pose proof ss_range. pose proof (ge_cluster _ _ G). unfold cluster_size. nia. Qed.

(** The loop over the parts of the chain: one part. *)
Lemma read_parts_ok fuel c rest skip sk size ds (s : fat D) :
  drv_ok k bpb s -> file_ok c rest -> 0 < size -> 0 <= ds < ss -> 0 <= sk < csize ->
  0 <= skip < Z.of_nat MAX_DIR_CLUSTER -> (Z.to_nat skip <= S (length rest))%nat ->
  exists s', read_parts (S fuel) bpb c true true skip sk size ds [] s =
      Ok (take (Z.to_nat size)
            (drop (Z.to_nat (skip * cluster_size bpb + sk * ss + ds)) (chain_bytes k bpb (c :: rest))), s') /\
    drv_ok k bpb s' /\ moved s s'.
Proof using G.
  intros Hs Hf Hz Hds Hsk Hskip Hle. pose proof ss_range. pose proof cluster_size_pos.
  destruct (getClusterChain_ok k bpb (ge_vol _ _ G) c rest s Hs (fi_links _ _ Hf) (fi_short _ _ Hf))
    as (s1 & E1 & Hs1 & M1 & Ec).
  cbn [read_parts negb orb]. destruct (Z.leb_spec size 0); [lia|].
  rewrite (bind_ok _ _ s (Z.of_nat (S (length rest)), c, false) s1).
  2:{ unfold next_part. rewrite (bind_ok _ _ _ _ _ E1). by destruct (Z.eqb_spec (Z.of_nat (S (length rest))) 0); [lia|]. }
  rewrite Z.div_small by lia. cbn [Z.to_nat skip_parts]. rewrite (bind_ok _ _ s1 _ s1 eq_refl).
  rewrite Z.mod_small by lia. rewrite (bind_ok _ _ s1 (cbuf s1) s1) by done.
  rewrite Nat2Z.id, Ec.
  pose proof (links_ge2 _ _ (fi_links _ _ Hf)) as Hge. pose proof (fi_data _ _ Hf) as Hd.
  destruct (read_clusters_ok (drop (Z.to_nat skip) (c :: rest)) sk size ds [] s1)
    as (sk' & size' & ds' & d & b & E & Hd' & _); [apply (dv_shows _ _ _ Hs1)| |lia|done|].
  { apply Forall_drop. apply Forall_and. by split. }
  rewrite (bind_ok _ _ _ _ _ E). destruct (drv_ok_dev k bpb s1 d b Hs1 Hd') as (Hs2 & M2).
  exists (set_dev d b s1). split; [|split; [done|by eapply moved_trans]].
  replace (read_parts _ _ _ _ _ _ _ _ _ _ _) with
    (Ok (([] : list Z) ++ take (Z.to_nat size) (drop (Z.to_nat (sk * ss + ds))
       (chain_bytes k bpb (drop (Z.to_nat skip) (c :: rest)))), set_dev d b s1)) by (by destruct fuel).
  cbn [app]. do 2 f_equal. rewrite <- (drop_chain (Z.to_nat skip)) by (done || cbn [length]; lia).
  rewrite drop_drop. f_equal. f_equal. nia.
Qed.

(** The table of a file: entries (cluster, index) of its chain, the first one for its start. *)
Definition table_ok (t : list (Z * Z)) (cs : list Z) : Prop :=
  (exists c t', t = (c, 0) :: t') /\
  Forall (fun e => 0 <= e.2 /\ cs !! Z.to_nat e.2 = Some e.1) t.

Lemma entry_at_cons a a' t bs pos :
  entry_at (a :: a' :: t) bs pos =
  if (u32 (a.2 * bs) <=? pos) && (pos <? u32 (a'.2 * bs)) then a else entry_at (a' :: t) bs pos.
Proof using. reflexivity. Qed.

Lemma entry_at_ok t bs pos :
  Forall (fun e => 0 <= e.2 /\ e.2 * bs < 2 ^ 32) t -> 0 < bs ->
  (exists e t', t = e :: t' /\ e.2 * bs <= pos) ->
  entry_at t bs pos ∈ t /\ (entry_at t bs pos).2 * bs <= pos.
Proof using.
  intros Ht Hb. induction t as [|a t IH]; intros (e & t' & E & He); [done|].
  injection E as <- <-. inversion Ht as [|? ? [Ha1 Ha2] Ht']; subst. destruct t as [|a' t].
  { split; [apply list_elem_of_here|done]. }
  inversion Ht' as [|? ? [Hb1 Hb2] _]; subst. rewrite entry_at_cons, (u32_id (a.2 * bs)), (u32_id (a'.2 * bs)) by nia.
  destruct (Z.leb_spec (a.2 * bs) pos); [|lia]. destruct (Z.ltb_spec pos (a'.2 * bs)) as [Hlt|Hge]; cbn [andb].
  { split; [apply list_elem_of_here|done]. }
  destruct (IH Ht') as (H1' & H2'); [by exists a', t|]. split; [apply list_elem_of_further, H1'|exact H2'].
Qed.

(** [fat_readFile] copies the bytes of the file. *)
Lemma readFile_ok fuel d c rest pos size (s : fat D) :
  drv_ok k bpb s -> file_ok c rest -> table_ok (d_chain d) (c :: rest) ->
  0 <= pos -> 0 <= size -> pos + size <= Z.of_nat (S (length rest)) * cluster_size bpb ->
  exists s', fat_readFile (S fuel) bpb d pos size s =
      Ok (take (Z.to_nat size) (drop (Z.to_nat pos) (chain_bytes k bpb (c :: rest))), s') /\
    drv_ok k bpb s' /\ moved s s'.
Proof using G.
  intros Hs Hf ((c0 & t' & Et) & Ht) Hp Hz Hle. pose proof cluster_size_pos as Hcs. pose proof ss_range as Hss.
  pose proof (ge_cluster _ _ G) as Hcl. pose proof (fi_bytes _ _ Hf) as Hb.
  unfold fat_readFile, fat_getClusterAtFilePos. fold (cluster_size bpb). rewrite (s32_id (cluster_size bpb)) by lia.
  destruct (entry_at_ok (d_chain d) (cluster_size bpb) pos) as (Hin & Hidx).
  { eapply Forall_impl; [exact Ht|]. intros e [He1 He2]. split; [done|].
    apply lookup_lt_Some in He2. cbn [length] in He2. nia. }
  { lia. }
  { exists (c0, 0), t'. split; [done|]. cbn. lia. }
  destruct (entry_at (d_chain d) (cluster_size bpb) pos) as [c' i]. cbn [snd] in *.
  rewrite Forall_forall in Ht. destruct (Ht _ Hin) as [Hi Hlk]. cbn [fst snd] in *.
  rewrite (u32_id (i * cluster_size bpb)), (u32_id (pos - i * cluster_size bpb)) by nia.
  pose proof (links_ge2 _ _ (fi_links _ _ Hf)) as Hge. rewrite Forall_forall in Hge.
  pose proof (Hge c' ltac:(by eapply list_elem_of_lookup_2)) as Hc'. destruct (Z.ltb_spec c' 2); [lia|].
  destruct (Z.leb_spec size 0) as [Hz0|Hz0].
  { exists s. replace size with 0 by lia. split; [|split; [done|apply moved_refl]]. done. }
  pose proof (lookup_lt_Some _ _ _ Hlk) as Hlt. cbn [length] in Hlt.
  set (q := (pos - i * cluster_size bpb) / ss).
  assert (Hq : 0 <= q) by (apply Z.div_pos; lia).
  assert (Epos : pos - i * cluster_size bpb = ss * q + pos mod ss).
  { unfold q. replace (pos mod ss) with ((pos - i * cluster_size bpb) mod ss).
    - apply Z.div_mod. lia.
    - unfold cluster_size. rewrite Z.mul_assoc, Zminus_mod, Z.mod_mul, Z.sub_0_r, Zmod_mod by lia. done. }
  rewrite Z.quot_div_nonneg, Z.rem_mod_nonneg by lia.
  pose proof (Z.div_mod q csize ltac:(lia)) as Eq. pose proof (Z.mod_pos_bound q csize ltac:(lia)).
  pose proof (Z.mod_pos_bound pos ss ltac:(lia)). pose proof (Z.div_pos q csize ltac:(lia) ltac:(lia)).
  assert (Hsk : q / csize * cluster_size bpb <= pos - i * cluster_size bpb) by (unfold cluster_size in *; nia).
  assert (Hsk2 : q / csize < Z.of_nat (S (length rest)) - i) by nia.
  pose proof (fi_short _ _ Hf) as Hshort.
  destruct (read_parts_ok fuel c' (drop (Z.to_nat i) rest) (q / csize) (q mod csize) size (pos mod ss) s)
    as (s' & E & Hs' & M'); [done|by eapply file_tail|lia|lia|lia|lia|rewrite length_drop; lia|].
  exists s'. split; [|by split]. rewrite E. do 2 f_equal.
  change (drop (Z.to_nat i) rest) with (drop (S (Z.to_nat i)) (c :: rest)).
  rewrite <- (drop_S (c :: rest) c' (Z.to_nat i) Hlk), <- drop_chain by (apply Hf || cbn [length]; lia).
  rewrite drop_drop. do 2 f_equal. unfold cluster_size in *. nia.
Qed.

(** ** The cluster table *)

(** Entries below [j] are set. *)
Record table_upto (cs : list Z) (j : nat) (t : list (Z * Z)) : Prop := {
  tu_len : length t = DIR_CHAIN_SIZE;
  tu_head : exists c t', t = (c, 0) :: t';
  tu_ok : forall i e, (i < j)%nat -> t !! i = Some e -> 0 <= e.2 /\ cs !! Z.to_nat e.2 = Some e.1;
}.

Lemma set_entries_ok cs fs bs c idx n : forall j t,
  (0 < j)%nat -> (j + n)%nat = DIR_CHAIN_SIZE -> 0 <= bs -> Z.of_nat DIR_CHAIN_SIZE * bs < 2 ^ 31 ->
  0 <= idx -> cs !! Z.to_nat idx = Some c -> table_upto cs j t ->
  exists j' t', set_entries n j fs bs c idx t = (j', t') /\ table_upto cs j' t' /\
    (j <= j' <= DIR_CHAIN_SIZE)%nat /\ ((j' < DIR_CHAIN_SIZE)%nat -> fs < Z.of_nat j' * bs).
Proof using.
  induction n as [|n IH]; intros j t Hj Hn Hb Hb' Hi Hc Ht; cbn [set_entries].
  { exists j, t. split; [done|]. split; [done|]. lia. }
  rewrite s32_id by (unfold DIR_CHAIN_SIZE in *; nia).
  destruct (Z.leb_spec (Z.of_nat j * bs) fs) as [Hle|Hgt].
  2:{ exists j, t. split; [done|]. split; [done|]. split; [lia|]. intros _. lia. }
  destruct (IH (S j) (<[j := (c, idx)]> t)) as (j' & t' & E & Ht' & Hj' & Hend); [lia..|done|done|done| |].
  { destruct Ht as [L (c0 & t0 & E) Ho]. split.
    - by rewrite length_insert.
    - rewrite E. destruct j as [|j]; [lia|]. cbn. eauto.
    - intros i e Hij Hlk. apply list_lookup_insert_Some in Hlk as [(-> & <- & _)|[Hne Hlk]]; [by split|].
      apply (Ho i); [lia|done]. }
  exists j', t'. split; [done|]. split; [done|]. split; [lia|done].
Qed.

Lemma process_chain_ok cs bs todo : forall prev j fs t,
  cs = prev ++ todo -> 0 <= bs -> Z.of_nat DIR_CHAIN_SIZE * bs < 2 ^ 31 ->
  Z.of_nat (length cs) * cluster_size bpb < 2 ^ 31 -> fs = Z.of_nat (length prev) * cluster_size bpb ->
  (0 < j <= DIR_CHAIN_SIZE)%nat -> table_upto cs j t ->
  (prev <> [] -> (j < DIR_CHAIN_SIZE)%nat -> fs < Z.of_nat j * bs) ->
  exists j' i' fs' t', process_chain todo (cluster_size bpb) bs (j, Z.of_nat (length prev), fs, t) = (j', i', fs', t') /\
    table_upto cs j' t' /\ (0 < j' <= DIR_CHAIN_SIZE)%nat /\
    (cs <> [] -> (j' < DIR_CHAIN_SIZE)%nat -> Z.of_nat (length cs) * cluster_size bpb < Z.of_nat j' * bs).
Proof using G.
  pose proof cluster_size_pos as Hp.
  induction todo as [|c todo IH]; intros prev j fs t Ecs Hb Hb' Hcs Hfs Hj Ht Hend; cbn [process_chain].
  { rewrite app_nil_r in Ecs. subst. by exists j, (Z.of_nat (length prev)), (Z.of_nat (length prev) * cluster_size bpb), t. }
  assert (L : (length cs = length prev + S (length todo))%nat) by (by rewrite Ecs, length_app).
  rewrite (s32_id (fs + cluster_size bpb)) by nia.
  destruct (set_entries_ok cs (fs + cluster_size bpb) bs c (Z.of_nat (length prev)) (DIR_CHAIN_SIZE - j) j t)
    as (j1 & t1 & E1 & Ht1 & Hj1 & Hend1); [lia|lia|done|done|lia| |done|].
  { rewrite Nat2Z.id, Ecs, lookup_app_r by lia. by rewrite Nat.sub_diag. }
  rewrite E1.
  destruct (IH (prev ++ [c]) j1 (fs + cluster_size bpb) t1) as (j' & i' & fs' & t' & E & H'); [|done|done|done| |lia|done| |].
  - by rewrite <- app_assoc.
  - rewrite length_app. cbn [length]. lia.
  - intros _. exact Hend1.
  - exists j', i', fs', t'. split; [|exact H']. rewrite <- E. rewrite length_app. cbn [length]. do 4 f_equal. lia.
Qed.

Lemma table_full cs t : table_upto cs DIR_CHAIN_SIZE t -> table_ok t cs.
Proof using.
  intros [L Hh Ho]. split; [done|]. apply Forall_lookup. intros i e Hi. apply (Ho i); [|done].
  rewrite <- L. by eapply lookup_lt_Some.
Qed.

(** [fat_setFatDirChain] fills the table. *)
Lemma setFatDirChain_ok fuel d c rest (s : fat D) t :
  drv_ok k bpb s -> file_ok c rest -> d_chain d = (c, 0) :: t -> length (d_chain d) = DIR_CHAIN_SIZE ->
  0 <= d_size d <= Z.of_nat (S (length rest)) * cluster_size bpb ->
  exists l t' s', fat_setFatDirChain (S fuel) bpb d s = Ok (with_chain l t' d, s') /\
    table_ok t' (c :: rest) /\ length t' = DIR_CHAIN_SIZE /\ drv_ok k bpb s' /\ moved s s'.
Proof using G.
  intros Hs Hf Et Hl Hsz. pose proof cluster_size_pos as Hp. pose proof (fi_bytes _ _ Hf) as Hb.
  assert (H2 : 2 <= c) by exact (Forall_inv (links_ge2 _ _ (fi_links _ _ Hf))).
  unfold fat_setFatDirChain. rewrite (bind_ok _ _ s (c, 0) s) by (unfold lift, chain_entry; by rewrite Et).
  destruct (Z.ltb_spec c 2); [lia|]. rewrite s32_id by lia.
  set (bs := Z.quot (d_size d) (Z.of_nat DIR_CHAIN_SIZE)).
  assert (Hbs : 0 <= bs /\ Z.of_nat DIR_CHAIN_SIZE * bs <= d_size d).
  { unfold bs. rewrite Z.quot_div_nonneg by (unfold DIR_CHAIN_SIZE; lia). unfold DIR_CHAIN_SIZE. zlia. }
  destruct (getClusterChain_ok k bpb (ge_vol _ _ G) c rest s Hs (fi_links _ _ Hf) (fi_short _ _ Hf))
    as (s1 & E1 & Hs1 & M1 & Ec).
  destruct (process_chain_ok (c :: rest) bs (c :: rest) [] 1 0 (d_chain d))
    as (j' & i' & fs' & t' & E & Ht & Hj & Hend); [done|lia|lia|cbn [length]; lia|done|unfold DIR_CHAIN_SIZE; lia| |done|].
  { split; [done|eauto|]. intros i e Hi Hlk. destruct i; [|lia]. rewrite Et in Hlk. injection Hlk as <-. cbn. by split. }
  assert (Ej : j' = DIR_CHAIN_SIZE).
  { destruct (decide (j' = DIR_CHAIN_SIZE)) as [|Hne]; [done|]. exfalso.
    specialize (Hend ltac:(done) ltac:(lia)). cbn [length] in Hend. nia. }
  destruct (lookup_lt_is_Some_2 (cbuf s1) (length rest)) as [l El].
  { rewrite (dv_cbuf _ _ _ Hs1). pose proof (fi_short _ _ Hf). lia. }
  exists l, t', s1. split; [|split; [|split; [apply (tu_len _ _ _ Ht)|by split]]].
  - rewrite (bind_ok _ _ s (l, t') s1); [done|]. cbn [setChain_loop]. rewrite (bind_ok _ _ _ _ _ E1).
    rewrite (bind_ok _ _ s1 (cbuf s1) s1) by done.
    destruct (Z.eqb_spec (Z.of_nat (S (length rest))) 0); [lia|]. rewrite Nat2Z.id, Ec.
    fold (cluster_size bpb). change (Z.of_nat (length [])) with 0 in E. cbn [drop]. rewrite E.
    rewrite (bind_ok _ _ s1 l s1); [done|]. unfold lift, buf_byte.
    destruct (Z.ltb_spec (Z.of_nat (Nat.max 0 (S (length rest))) - 1) 0); [lia|].
    replace (Z.to_nat _) with (length rest) by lia. by rewrite El.
  - apply table_full. by rewrite <- Ej.
Qed.
End Read.
