(* ===== verification/FatFile.v ===== *)
(** * Open files of the FAT driver

    Any number of open files, read and positioned in any order, behave as byte arrays with a
    position each. *)

From S2P Require Import Prelude Bytes Fat FatChain FatRead.
Local Open Scope ps2rd_scope.

(** ** Files as byte arrays *)

Record afile : Type := AFile { a_bytes : list Z; a_pos : Z }.

Inductive fop : Type :=
  | FOpen (slash : bool) (names : list (list Z)) (mode : Z)
  | FRead (file : nat) (size : Z)
  | FSeek (file : nat) (offset whence : Z)
  | FClose (file : nat).

Inductive fans : Type :=
  | AnsOpen (fd : Z) (file : option nat)
  | AnsBytes (n : Z) (bytes : list Z)
  | AnsNum (n : Z).

(** The open files and the number of files opened so far. *)
Record avol : Type := AVol { a_files : gmap nat afile; a_count : Z }.

(** Names joined by slashes. *)
Fixpoint path_of (names : list (list Z)) : list Z :=
  match names with
  | [] => []
  | n :: names' => match names' with [] => n | _ => n ++ 47 :: path_of names' end
  end.

Definition aread (f : afile) (size : Z) : fans * afile :=
  let bs := if size <=? 0 then [] else take (Z.to_nat size) (drop (Z.to_nat (a_pos f)) (a_bytes f)) in
  let n := Z.of_nat (length bs) in
  (AnsBytes n bs, AFile (a_bytes f) (a_pos f + n)).

(** A position before the start or behind the end is the end. *)
Definition aseek (f : afile) (offset whence : Z) : fans * afile :=
  let size := Z.of_nat (length (a_bytes f)) in
  let go t := let t := if (0 <=? t) && (t <=? size) then t else size in (AnsNum t, AFile (a_bytes f) t) in
  if whence =? SEEK_SET then go offset
  else if whence =? SEEK_CUR then go (a_pos f + offset)
  else if whence =? SEEK_END then go (size + offset)
  else (AnsNum (-1), f).

Definition upd_file (v : avol) (i : nat) (f : afile) : avol := AVol (<[i := f]> (a_files v)) (a_count v).

(** The first handle that is not in use. *)
Definition free_slot (m : gmap nat afile) : option nat := head (filter (fun i => m !! i = None) (seq 0 MAX_FILES)).

(** An operation on the files of a volume, [fsys] gives their bytes; only operations on files
    that exist and handles that are open have a meaning. *)
Definition afop (fsys : list (list Z) -> option (list Z)) (o : fop) (v : avol) : option (fans * avol) :=
  match o with
  | FOpen _ names mode =>
      if negb (mode =? 0) && negb (mode =? O_RDONLY) then Some (AnsOpen (- EROFS) None, v)
      else match free_slot (a_files v) with
           | None => Some (AnsOpen (- EMFILE) None, v)
           | Some i =>
               bytes ← fsys names;
               Some (AnsOpen (a_count v + 1) (Some i), AVol (<[i := AFile bytes 0]> (a_files v)) (a_count v + 1))
           end
  | FRead i size =>
      f ← a_files v !! i;
      let '(r, f) := aread f size in Some (r, upd_file v i f)
  | FSeek i off wh =>
      f ← a_files v !! i;
      let '(r, f) := aseek f off wh in Some (r, upd_file v i f)
  | FClose i =>
      f ← a_files v !! i;
      Some (AnsNum 0, AVol (delete i (a_files v)) (a_count v))
  end.

Fixpoint afops (fsys : list (list Z) -> option (list Z)) (os : list fop) (v : avol) : option (list fans * avol) :=
  match os with
  | [] => Some ([], v)
  | o :: os' =>
      '(r, v) ← afop fsys o v;
      '(rs, v) ← afops fsys os' v;
      Some (r :: rs, v)
  end.

(** ** The driver's operations *)

Lemma upd_file_id v i f : a_files v !! i = Some f -> upd_file v i f = v.
Proof. intros H. unfold upd_file. rewrite insert_id by done. by destruct v. Qed.

Section Run.
  Context {D : Type} `{SectorDev D}.

Definition run_fop (fuel : nat) (o : fop) : M (fat D) fans :=
  match o with
  | FOpen slash names mode =>
      let* '(n, h) := fs_open fuel ((if slash : bool then [47] else []) ++ path_of names) mode in
      ret (AnsOpen n h)
  | FRead i size => let* '(n, bs) := fs_read fuel i size in ret (AnsBytes n bs)
  | FSeek i off wh => let* n := fs_lseek i off wh in ret (AnsNum n)
  | FClose i => let* n := fs_close i in ret (AnsNum n)
  end.

Fixpoint run_fops (fuel : nat) (os : list fop) : M (fat D) (list fans) :=
  match os with
  | [] => ret []
  | o :: os' =>
      let* r := run_fop fuel o in
      let* rs := run_fops fuel os' in
      ret (r :: rs)
  end.
End Run.

(** Arguments in the range of the C types, the names of a path without NULs. *)
Definition fop_ok (o : fop) : Prop :=
  match o with
  | FOpen _ names _ => Forall (Forall (fun c => 0 < c < 256)) names
  | FRead _ size => size < 2 ^ 31
  | FSeek _ off _ => - 2 ^ 31 <= off < 2 ^ 31
  | FClose _ => True
  end.

Lemma slot_of_ext x l l' : fd <$> l' = fd <$> l -> slot_of x l' = slot_of x l.
Proof.
  unfold slot_of. revert l'. induction l as [|r l IH]; intros [|r' l'] E; try done.
  injection E as E1 E2. specialize (IH l' E2). cbn [list_find]. rewrite E1. destruct (decide (fd r = x)); [done|].
  destruct (list_find _ l) as [[i y]|], (list_find _ l') as [[i' y']|]; cbn in *; try lia; try done.
Qed.

(** Another record does not matter for the slot of a descriptor. *)
Lemma slot_of_other x l i r r' :
  l !! i = Some r -> fd r <> x -> fd r' <> x -> slot_of x (<[i := r']> l) = slot_of x l.
Proof.
  unfold slot_of. revert i. induction l as [|a l IH]; intros [|i] Hi H1 H2; try done.
  - injection Hi as ->. cbn [insert list_insert list_find]. by rewrite !decide_False.
  - specialize (IH i Hi H1 H2). cbn [insert list_insert list_find]. destruct (decide (fd a = x)); [done|].
    destruct (list_find _ l) as [[j y]|], (list_find _ (<[i := r']> l)) as [[j' y']|]; cbn in *; try lia; try done.
Qed.

Section Files.
  Context {D : Type} `{SectorDevLaws D} (k : disk_img) (bpb : fat_bpb).
  Context (G : geometry_ok k bpb).

(** The directory record of a file with these bytes. *)
Definition holds_file (d : fat_dir) (bytes : list Z) : Prop :=
  d_size d = Z.of_nat (length bytes) /\
  (bytes = [] \/ exists c rest, file_ok k bpb c rest /\ table_ok (d_chain d) (c :: rest) /\
     bytes = take (Z.to_nat (d_size d)) (chain_bytes k bpb (c :: rest))).

(** Slot [i] is the open file [f]. *)
Record slot_open (s : fat D) (i : nat) (f : afile) : Prop := {
  so_rec : exists r, fsRec s !! i = Some r /\ 0 <= fd r /\ filePos r = a_pos f /\ slot_of (fd r) (fsRec s) = Z.of_nat i;
  so_dir : exists d, fsDir s !! i = Some d /\ holds_file d (a_bytes f);
  so_pos : 0 <= a_pos f <= Z.of_nat (length (a_bytes f));
}.

(** The tables of the driver: a record not in [m] is free, and new descriptors are new. *)
Record slots_ok (s : fat D) (v : avol) : Prop := {
  sl_rec : length (fsRec s) = MAX_FILES;
  sl_dir : length (fsDir s) = MAX_FILES;
  sl_chain : Forall (fun d => length (d_chain d) = DIR_CHAIN_SIZE) (fsDir s);
  sl_count : Forall (fun r => fd r <= fsCounter s) (fsRec s);
  sl_free : forall i r, fsRec s !! i = Some r -> a_files v !! i = None -> fd r = -1;
  sl_counter : 0 <= fsCounter s;
  sl_number : fsCounter s = a_count v;
}.

(** The driver with the open files [m]. *)
Record files_ok (s : fat D) (v : avol) : Prop := {
  fo_drv : drv_ok k bpb s;
  fo_bpb : partBpb s = bpb;
  fo_mounted : mounted s <> 0;
  fo_slots : slots_ok s v;
  fo_open : forall i f, a_files v !! i = Some f -> slot_open s i f;
}.

Lemma slot_len d f : holds_file d (a_bytes f) -> Z.of_nat (length (a_bytes f)) < 2 ^ 31.
Proof using G.
  intros [Hz [->|(c & rest & Hf & _ & Eb)]]; [cbn; lia|].
  pose proof (length_chain k bpb G (c :: rest) (fi_data _ _ _ _ Hf)) as L. pose proof (fi_bytes _ _ _ _ Hf).
  rewrite Eb, length_take. cbn [length] in L. lia.
Qed.

Lemma findFileSlot_ok s i f : slot_open s i f -> fs_findFileSlot i s = Ok (Z.of_nat i, s).
Proof using.
  intros [(r & Hr & _ & _ & Hs) _ _]. unfold fs_findFileSlot. rewrite (bind_ok _ _ s (fsRec s) s) by done.
  rewrite (bind_ok _ _ s r s) by (unfold lift; by rewrite Hr). unfold ret. by rewrite Hs.
Qed.

(** Moving in the device keeps the open files. *)
Lemma files_moved s s' v : files_ok s v -> drv_ok k bpb s' -> moved s s' -> files_ok s' v.
Proof using.
  intros [_ Hb Hm Hsl Ho] Hd (d & b & cb & c & r & ->). split; [done|exact Hb|exact Hm|by destruct Hsl|].
  intros i f Hi. destruct (Ho i f Hi) as [Hr Hdir Hp]. by split.
Qed.

(** A new position of one file. *)
Lemma files_seek s v i f r p :
  files_ok s v -> a_files v !! i = Some f -> fsRec s !! i = Some r -> 0 <= p <= Z.of_nat (length (a_bytes f)) ->
  files_ok (set_fs (<[i := FsRec (fd r) p (fmode r) (sizeChange r)]> (fsRec s)) (fsDir s) (fsCounter s) s)
    (upd_file v i (AFile (a_bytes f) p)).
Proof using.
  intros [Hd Hb Hm Hsl Ho] Hi Hr Hp. split; [by destruct Hd|exact Hb|exact Hm| |].
  { destruct Hsl as [S1 S2 S3 S4 S5 S6 S7]. split; [cbn; by rewrite length_insert|done|done| | |done|done].
    - apply Forall_insert; [done|]. rewrite Forall_lookup in S4. exact (S4 _ _ Hr).
    - intros j q Hj Hjm. cbn [a_files upd_file] in Hjm. destruct (decide (j = i)) as [->|Hne]; [by rewrite lookup_insert_eq in Hjm|].
      cbn [fsRec set_fs] in Hj. rewrite list_lookup_insert_ne in Hj by done. rewrite lookup_insert_ne in Hjm by done.
      exact (S5 _ _ Hj Hjm). }
  intros j g Hj. cbn [a_files upd_file] in Hj.
  assert (Efd : fd <$> <[i := FsRec (fd r) p (fmode r) (sizeChange r)]> (fsRec s) = fd <$> fsRec s).
  { rewrite list_fmap_insert. cbn [fd]. apply list_insert_id. by rewrite list_lookup_fmap, Hr. }
  destruct (decide (j = i)) as [->|Hne].
  - rewrite lookup_insert_eq in Hj. injection Hj as <-. destruct (Ho i f Hi) as [(r' & Hr' & Hfd & _ & Hs) Hdir _].
    rewrite Hr in Hr'. injection Hr' as <-. split; [|exact Hdir|done].
    exists (FsRec (fd r) p (fmode r) (sizeChange r)). cbn [fsRec set_fs fd filePos a_pos].
    split; [apply list_lookup_insert_eq; by eapply lookup_lt_Some|]. split; [done|]. split; [done|].
    by rewrite (slot_of_ext _ _ _ Efd).
  - rewrite lookup_insert_ne in Hj by done. destruct (Ho j g Hj) as [(r' & Hr' & Hfd & Hpos & Hs) Hdir Hp'].
    split; [|exact Hdir|done]. exists r'. cbn [fsRec set_fs]. rewrite list_lookup_insert_ne by done.
    split; [done|]. split; [done|]. split; [done|]. by rewrite (slot_of_ext _ _ _ Efd).
Qed.

Lemma the_rec_ok (s : fat D) i r : fsRec s !! i = Some r -> the_rec i s = Ok (r, s).
Proof using. intros Hr. unfold the_rec. rewrite (bind_ok _ _ s (fsRec s) s) by done. unfold lift. by rewrite Hr. Qed.

Lemma the_dir_ok (s : fat D) i d : fsDir s !! i = Some d -> the_dir i s = Ok (d, s).
Proof using. intros Hr. unfold the_dir. rewrite (bind_ok _ _ s (fsDir s) s) by done. unfold lift. by rewrite Hr. Qed.

Lemma readFile_nothing fuel d pos (s : fat D) : fat_readFile (S fuel) bpb d pos 0 s = Ok ([], s).
Proof using.
  unfold fat_readFile. destruct (fat_getClusterAtFilePos bpb d pos) as [c p]. by destruct (c <? 2).
Qed.

(** [fat_readFile] on the record of a file. *)
Lemma readFile_holds fuel d f size (s : fat D) :
  drv_ok k bpb s -> holds_file d (a_bytes f) -> 0 <= a_pos f -> 0 <= size ->
  a_pos f + size <= Z.of_nat (length (a_bytes f)) ->
  exists s', fat_readFile (S fuel) bpb d (a_pos f) size s =
      Ok (take (Z.to_nat size) (drop (Z.to_nat (a_pos f)) (a_bytes f)), s') /\ drv_ok k bpb s' /\ moved s s'.
Proof using G.
  intros Hs [Hz [E|(c & rest & Hf & Ht & Eb)]] Hp Hsz Hle.
  { rewrite E in *. cbn in Hle. replace size with 0 by lia. exists s. rewrite readFile_nothing.
    split; [done|]. split; [done|apply moved_refl]. }
  pose proof (length_chain k bpb G (c :: rest) (fi_data _ _ _ _ Hf)) as L. cbn [length] in L.
  pose proof Hz as Hz'. rewrite Eb, length_take in Hz'.
  destruct (readFile_ok k bpb G fuel d c rest (a_pos f) size s) as (s' & E & H'); [done|done|done|lia|lia|lia|].
  exists s'. split; [|exact H']. rewrite E, Eb, skipn_firstn_comm, take_take. do 3 f_equal. lia.
Qed.

Lemma fs_read_ok fuel s v i f size :
  files_ok s v -> a_files v !! i = Some f -> size < 2 ^ 31 ->
  let bs := if size <=? 0 then [] else take (Z.to_nat size) (drop (Z.to_nat (a_pos f)) (a_bytes f)) in
  exists s', fs_read (S fuel) i size s = Ok ((Z.of_nat (length bs), bs), s') /\
    files_ok s' (upd_file v i (AFile (a_bytes f) (a_pos f + Z.of_nat (length bs)))).
Proof using G.
  intros Hs Hi Hsz bs. pose proof (fo_open _ _ Hs i f Hi) as Hso. unfold fs_read.
  rewrite (bind_ok _ _ _ _ _ (findFileSlot_ok s i f Hso)). destruct (Z.ltb_spec (Z.of_nat i) 0); [lia|].
  assert (Hsame : forall s1, files_ok s1 v -> files_ok s1 (upd_file v i (AFile (a_bytes f) (a_pos f + 0)))).
  { intros s1 Hs1. rewrite Z.add_0_r, upd_file_id; [done|]. by destruct f. }
  destruct Hso as [(r & Hr & Hfd & Hpos & Hslot) (d & Hd & Hh) Hp].
  unfold bs in *. clear bs. destruct (Z.leb_spec size 0) as [Hz|Hz].
  { exists s. split; [done|]. by apply Hsame. }
  rewrite Nat2Z.id, (bind_ok _ _ _ _ _ (the_rec_ok s i r Hr)), (bind_ok _ _ _ _ _ (the_dir_ok s i d Hd)).
  pose proof (slot_len _ _ Hh) as Hl. pose proof (proj1 Hh) as Hds. rewrite Hpos, u32_id, s32_id by lia.
  set (size' := if d_size d <? a_pos f + size then d_size d - a_pos f else size).
  rewrite (bind_ok _ _ s bpb s) by (unfold gets; by rewrite (fo_bpb _ _ Hs)).
  assert (Hs' : 0 <= size' /\ a_pos f + size' <= Z.of_nat (length (a_bytes f)) /\
    take (Z.to_nat size) (drop (Z.to_nat (a_pos f)) (a_bytes f)) =
    take (Z.to_nat size') (drop (Z.to_nat (a_pos f)) (a_bytes f))).
  { unfold size'. destruct (Z.ltb_spec (d_size d) (a_pos f + size)); [|by split; [lia|split; [lia|]]].
    split; [lia|]. split; [lia|]. by rewrite !take_ge by (rewrite length_drop; lia). }
  destruct Hs' as (Hs1 & Hs2 & ->).
  destruct (readFile_holds fuel d f size' s (fo_drv _ _ Hs) Hh ltac:(lia) Hs1 Hs2) as (s1 & E & Hd1 & M1).
  rewrite (bind_ok _ _ _ _ _ E). pose proof (files_moved s s1 v Hs Hd1 M1) as Hf1.
  set (bs := take (Z.to_nat size') _) in *. assert (Lb : Z.of_nat (length bs) = size').
  { unfold bs. rewrite length_take, length_drop. lia. }
  destruct (Z.ltb_spec 0 (Z.of_nat (length bs))) as [Hpos'|Hz'].
  - assert (Hr1 : fsRec s1 !! i = Some r) by (destruct M1 as (? & ? & ? & ? & ? & ->); exact Hr).
    rewrite (bind_ok _ _ _ _ _ eq_refl). rewrite u32_id by lia.
    eexists. split; [reflexivity|]. apply (files_seek s1 v i f r); [done|done|done|lia].
  - exists s1. split; [done|]. replace (Z.of_nat (length bs)) with 0 by lia. by apply Hsame.
Qed.

Lemma fs_lseek_ok s v i f off wh :
  files_ok s v -> a_files v !! i = Some f -> - 2 ^ 31 <= off < 2 ^ 31 ->
  exists s', run_fop 0 (FSeek i off wh) s = Ok ((aseek f off wh).1, s') /\
    files_ok s' (upd_file v i ((aseek f off wh).2)).
Proof using G.
  intros Hs Hi Hoff. pose proof (fo_open _ _ Hs i f Hi) as Hso. cbn [run_fop]. unfold fs_lseek.
  rewrite bind_assoc, (bind_ok _ _ _ _ _ (findFileSlot_ok s i f Hso)). destruct (Z.ltb_spec (Z.of_nat i) 0); [lia|].
  destruct Hso as [(r & Hr & Hfd & Hpos & Hslot) (d & Hd & Hh) Hp].
  rewrite Nat2Z.id, bind_assoc, (bind_ok _ _ _ _ _ (the_rec_ok s i r Hr)), bind_assoc,
    (bind_ok _ _ _ _ _ (the_dir_ok s i d Hd)).
  pose proof (slot_len _ _ Hh) as Hl. pose proof (proj1 Hh) as Hds. unfold aseek. rewrite Hpos, Hds.
  set (size := Z.of_nat (length (a_bytes f))) in *.
  assert (Hgo : forall t, - 2 ^ 31 <= t < 2 ^ 32 ->
    exists s', bind (put_rec i (FsRec (fd r) (if size <? u32 t then size else u32 t) (fmode r) (sizeChange r));;
        ret (s32 (if size <? u32 t then size else u32 t))) (fun n => ret (AnsNum n)) s =
      Ok (AnsNum (if (0 <=? t) && (t <=? size) then t else size), s') /\
      files_ok s' (upd_file v i (AFile (a_bytes f) (if (0 <=? t) && (t <=? size) then t else size)))).
  { intros t Ht. set (t' := if (0 <=? t) && (t <=? size) then t else size).
    assert (Ec : (if size <? u32 t then size else u32 t) = t').
    { unfold t'. destruct (Z.leb_spec 0 t) as [H0t|H0t]; cbn [andb].
      - rewrite u32_id by lia. destruct (Z.ltb_spec size t), (Z.leb_spec t size); lia.
      - destruct (Z.ltb_spec size (u32 t)) as [|Hle]; [done|]. zlia. }
    rewrite Ec. assert (0 <= t' <= size).
    { unfold t'. destruct (Z.leb_spec 0 t), (Z.leb_spec t size); cbn [andb]; lia. }
    rewrite bind_assoc, (bind_ok _ _ _ _ _ eq_refl), (bind_ok _ _ _ _ _ eq_refl), s32_id by lia.
    eexists. split; [reflexivity|]. by apply (files_seek s v i f r). }
  destruct (Z.eqb_spec wh SEEK_SET); [apply Hgo; lia|].
  destruct (Z.eqb_spec wh SEEK_CUR); [apply Hgo; lia|].
  destruct (Z.eqb_spec wh SEEK_END); [apply Hgo; lia|].
  exists s. split; [done|]. cbn [snd]. by rewrite upd_file_id.
Qed.

Lemma fs_close_ok s v i f :
  files_ok s v -> a_files v !! i = Some f ->
  exists s', run_fop 0 (FClose i) s = Ok (AnsNum 0, s') /\ files_ok s' (AVol (delete i (a_files v)) (a_count v)).
Proof using.
  intros Hs Hi. pose proof (fo_open _ _ Hs i f Hi) as Hso. cbn [run_fop]. unfold fs_close.
  rewrite bind_assoc, (bind_ok _ _ _ _ _ (findFileSlot_ok s i f Hso)). destruct (Z.ltb_spec (Z.of_nat i) 0); [lia|].
  destruct Hso as [(r & Hr & Hfd & Hpos & Hslot) _ _].
  rewrite Nat2Z.id, bind_assoc, (bind_ok _ _ _ _ _ (the_rec_ok s i r Hr)), bind_assoc, (bind_ok _ _ _ _ _ eq_refl).
  eexists. split; [reflexivity|]. destruct Hs as [Hd Hb Hm Hsl Ho]. split; [by destruct Hd|exact Hb|exact Hm| |].
  { destruct Hsl as [S1 S2 S3 S4 S5 S6 S7]. split; [cbn; by rewrite length_insert|done|done| | |done|done].
    - apply Forall_insert; [done|]. cbn [fd fsCounter set_fs]. lia.
    - intros j q Hj Hjm. cbn [fsRec set_fs] in Hj. apply list_lookup_insert_Some in Hj as [(-> & <- & _)|[Hne Hj]]; [done|].
      cbn [a_files] in Hjm. rewrite lookup_delete_ne in Hjm by done. exact (S5 _ _ Hj Hjm). }
  intros j g Hj. cbn [a_files] in Hj. rewrite lookup_delete in Hj. destruct (decide (i = j)) as [|Hne]; [done|].
  destruct (Ho j g Hj) as [(r' & Hr' & Hfd' & Hpos' & Hs') Hdir Hp]. split; [|exact Hdir|done].
  exists r'. cbn [fsRec set_fs]. rewrite list_lookup_insert_ne by done. split; [done|]. split; [done|]. split; [done|].
  rewrite (slot_of_other _ _ _ r) by (first [done | cbn [fd]; lia | intros E; rewrite E in Hslot; lia]). done.
Qed.

End Files.
