(* ===== verification/FatDir.v ===== *)
(** * Directories of the FAT driver

    The search through the sectors of a directory is a search through the list of its entries,
    and opening a path yields an open file with the contents of the entry it leads to. *)

From S2P Require Import Prelude Bytes Fat FatChain FatRead FatFile.
Local Open Scope ps2rd_scope.

(** ** Searching a list of entries *)

(** The entry that was found, the end mark, or the state of the search behind the list. *)
Inductive search : Type :=
  | Hit (e : list Z) (de : fat_direntry)
  | Stop (de : fat_direntry)
  | More (de : fat_direntry).

Definition is_label (de : fat_direntry) : bool := negb (Z.land (e_attr de) 0x08 =? 0).

(** Long name parts are collected until their short name entry; volume labels do not count. *)
Fixpoint search_in (es : list (list Z)) (name : list Z) (de : fat_direntry) : res search :=
  match es with
  | [] => Ok (More de)
  | e :: es' =>
      let? '(cont, de) := fat_getDirentry e de in
      if cont =? 0 then Ok (Stop de)
      else if cont =? 1 then
        if is_label de then search_in es' name (clear_names de)
        else
          let? b := is_name de name in
          if (b : bool) then Ok (Hit e de) else search_in es' name (clear_names de)
      else search_in es' name de
  end.

Lemma search_in_app es1 es2 name : forall de,
  search_in (es1 ++ es2) name de =
  let? r := search_in es1 name de in
  match r with More de' => search_in es2 name de' | _ => Ok r end.
Proof.
  induction es1 as [|e es1 IH]; intros de; [done|]. cbn [app search_in].
  destruct (fat_getDirentry e de) as [[cont de']|f]; [|done]. cbn [rbind].
  destruct (cont =? 0); [done|]. destruct (cont =? 1); [|apply IH].
  destruct (is_label de'); [apply IH|]. destruct (is_name de' name) as [b|f]; [|done]. cbn [rbind].
  destruct b; [done|apply IH].
Qed.

(** The entries of a sector. *)
Definition entries (b : list Z) (i n : nat) : list (list Z) := (fun j => take 32 (drop (j * 32) b)) <$> seq i n.

Lemma u32_shift x i : u32 (u32 (x - i) + i) = u32 x.
Proof. zlia. Qed.

Lemma u32_next x i : 0 <= u32 (x + i) + 1 < 2 ^ 32 -> u32 (x + (i + 1)) = u32 (x + i) + 1.
Proof. zlia. Qed.

(** Stepping through blocks of [n]. *)
Lemma step_inside i n : 0 < n -> i mod n <> n - 1 -> (i + 1) / n = i / n /\ (i + 1) mod n = i mod n + 1.
Proof.
  intros Hn Hm. pose proof (Z.div_mod i n ltac:(lia)) as E. pose proof (Z.mod_pos_bound i n Hn) as B.
  assert (B' : 0 <= i mod n + 1 < n) by lia. assert (E' : i + 1 = n * (i / n) + (i mod n + 1)) by lia.
  split; symmetry; [exact (Z.div_unique_pos _ _ _ _ B' E')|exact (Z.mod_unique_pos _ _ _ _ B' E')].
Qed.

Lemma step_over i n : 0 < n -> i mod n = n - 1 -> (i + 1) / n = i / n + 1 /\ (i + 1) mod n = 0.
Proof.
  intros Hn Hm. pose proof (Z.div_mod i n ltac:(lia)) as E.
  assert (B' : 0 <= 0 < n) by lia. assert (E' : i + 1 = n * (i / n + 1) + 0) by lia.
  split; symmetry; [exact (Z.div_unique_pos _ _ _ _ B' E')|exact (Z.mod_unique_pos _ _ _ _ B' E')].
Qed.

Section Search.
  Context {D : Type} `{SectorDevLaws D} (k : disk_img) (bpb : fat_bpb).
  Context (G : geometry_ok k bpb) (Halign : (32 | bpb_sectorSize bpb)).

Abbreviation ss := (bpb_sectorSize bpb).
Abbreviation csize := (bpb_clusterSize bpb).

Definition per_sector : nat := Z.to_nat (ss / 32).

(** What a search through a sector returns, given the search through its entries. *)
Definition sector_result (fuel : nat) (r : res search) (a : Z * fat_dir) :
    M (fat D) (found + (bool * fat_direntry * (Z * fat_dir))) :=
  match r with
  | Err f => fail f
  | Ok (Hit e de) =>
      let* fatDir := fat_setFatDir fuel bpb a.2 e de true in
      ret (inl (e_attr de, e_cluster de, fatDir))
  | Ok (Stop de) => ret (inr (false, de, a))
  | Ok (More de) => ret (inr (true, de, a))
  end.

Lemma scan_sector_ok fuel name n b a (s : fat D) : forall i de,
  scan_sector (find_name fuel bpb name) n b (i * 32) de a s =
  sector_result fuel (search_in (entries b i n) name de) a s.
Proof using.
  induction n as [|n IH]; intros i de; [done|].
  unfold entries. cbn [seq fmap list_fmap search_in scan_sector]. fold (entries b (S i) n).
  set (e := take 32 (drop (i * 32) b)). destruct (fat_getDirentry e de) as [[cont de1]|f] eqn:E; [|done].
  cbn [rbind]. rewrite (bind_ok _ _ s (cont, de1) s) by done.
  assert (Enext : (i * 32 + 32 = S i * 32)%nat) by lia. rewrite Enext.
  destruct (cont =? 0); [done|]. destruct (cont =? 1); [|apply IH].
  destruct a as [cl fatDir]. unfold is_label.
  destruct (negb (Z.land (e_attr de1) 0x08 =? 0)) eqn:Ea.
  { rewrite (bind_ok _ _ s (inr (cl, fatDir)) s) by (unfold find_name; by rewrite Ea). apply IH. }
  destruct (is_name de1 name) as [bb|f] eqn:En; cbn [rbind].
  2:{ unfold bind at 1. unfold find_name at 1. rewrite Ea. unfold bind. cbn. by rewrite En. }
  destruct bb.
  - unfold bind at 1. unfold find_name at 1. rewrite Ea. unfold bind at 1. unfold lift at 1. rewrite En.
    cbn [sector_result snd]. unfold bind. by destruct (fat_setFatDir fuel bpb fatDir e de1 true s) as [[d s']|f].
  - rewrite (bind_ok _ _ s (inr (cl, fatDir)) s); [apply IH|]. unfold find_name. rewrite Ea. unfold bind, lift. by rewrite En.
Qed.

(** What a search through a directory returns. *)
Definition dir_result (fuel : nat) (r : res search) (a : Z * fat_dir) : M (fat D) (found + (Z * fat_dir)) :=
  match r with
  | Err f => fail f
  | Ok (Hit e de) =>
      let* fatDir := fat_setFatDir fuel bpb a.2 e de true in
      ret (inl (e_attr de, e_cluster de, fatDir))
  | Ok _ => ret (inr a)
  end.

(** The entries of [n] sectors. *)
Definition entries_of (sec : Z -> Z) (i : Z) (n : nat) : list (list Z) :=
  concat ((fun j => entries (dk_sector k (sec (i + Z.of_nat j))) 0 per_sector) <$> seq 0 n).

Lemma entries_of_S sec i n :
  entries_of sec i (S n) = entries (dk_sector k (sec i)) 0 per_sector ++ entries_of sec (i + 1) n.
Proof using.
  unfold entries_of. cbn [seq fmap list_fmap concat]. rewrite Z.add_0_r. f_equal. f_equal.
  rewrite <- fmap_S_seq, <- list_fmap_compose. apply list_fmap_ext. intros ? j _. cbn [compose].
  replace (i + Z.of_nat (S j)) with (i + 1 + Z.of_nat j) by lia. done.
Qed.

(** The driver's walk goes through the sectors [sec 0 .. sec (N - 1)]. *)
Record walk (startCluster : Z) (cb : list Z) (N : nat) (sec : Z -> Z) : Prop := {
  wk_in : forall i, 0 <= i < Z.of_nat N -> dk_in k (sec i);
  wk_next : forall i, 0 <= i < Z.of_nat N ->
    (startCluster =? 0) = false -> i mod csize = csize - 1 ->
    exists c, buf_byte cb (i / csize + 1) = Ok c /\
      (i + 1 < Z.of_nat N -> u32 (fat_cluster2sector bpb c) = sec (i + 1));
  wk_step : forall i, 0 <= i -> i + 1 < Z.of_nat N ->
    (startCluster =? 0) = true \/ i mod csize <> csize - 1 -> sec (i + 1) = sec i + 1;
}.

Lemma scan_dir_ok fuel name err startCluster cb N sec a :
  walk startCluster cb N sec ->
  forall n i startSector de (s : fat D),
    shows (dev s) k -> cbuf s = cb -> 0 <= i -> i + Z.of_nat n = Z.of_nat N ->
    ((0 < n)%nat -> u32 (startSector + i) = sec i) ->
    exists d b, shows d k /\
      scan_dir (find_name fuel bpb name) err bpb startCluster n i startSector de a s =
      dir_result fuel (search_in (entries_of sec i n) name de) a (set_dev d b s).
Proof using G Halign.
  intros W. induction n as [|n IH]; intros i startSector de s Hd Hcb Hi HN Hsec.
  { exists (dev s), (sbuf s). split; [done|]. by destruct s. }
  cbn [scan_dir]. rewrite Hsec by lia. pose proof (wk_in _ _ _ _ W i ltac:(lia)) as Hin.
  destruct (READ_SECTOR_ok k s _ Hd Hin) as (r & d1 & E1 & Hr & Hd1). rewrite (bind_ok _ _ _ _ _ E1).
  destruct (Z.ltb_spec r 0); [lia|]. set (s1 := set_dev d1 _ s).
  rewrite (bind_ok _ _ s1 cb s1) by (unfold gets; by rewrite <- Hcb).
  assert (Hst : exists st, (if negb (startCluster =? 0) && (i mod csize =? csize - 1) then
       let* c := lift (buf_byte cb (i / csize + 1)) in ret (u32 (fat_cluster2sector bpb c - (i + 1)))
       else ret startSector) s1 = Ok (st, s1) /\ ((0 < n)%nat -> u32 (st + (i + 1)) = sec (i + 1))).
  { destruct (startCluster =? 0) eqn:E0; cbn [negb andb].
    - exists startSector. split; [done|]. intros Hn. rewrite (wk_step _ _ _ _ W i) by (lia || auto).
      pose proof (im_range _ (vo_img _ _ (ge_vol _ _ G)) _ (wk_in _ _ _ _ W (i + 1) ltac:(lia))) as Hr1.
      rewrite (wk_step _ _ _ _ W i) in Hr1 by (lia || auto). rewrite <- (Hsec ltac:(lia)) in Hr1 |- *. by apply u32_next.
    - destruct (Z.eqb_spec (i mod csize) (csize - 1)) as [Em|Em].
      + destruct (wk_next _ _ _ _ W i ltac:(lia) E0 Em) as (c & Ec & Hc). exists (u32 (fat_cluster2sector bpb c - (i + 1))).
        split; [by rewrite (bind_ok _ _ s1 c s1) by (unfold lift; by rewrite Ec)|].
        intros Hn. rewrite u32_shift. apply Hc. lia.
      + exists startSector. split; [done|]. intros Hn. rewrite (wk_step _ _ _ _ W i) by (lia || auto).
        pose proof (im_range _ (vo_img _ _ (ge_vol _ _ G)) _ (wk_in _ _ _ _ W (i + 1) ltac:(lia))) as Hr1.
        rewrite (wk_step _ _ _ _ W i) in Hr1 by (lia || auto). rewrite <- (Hsec ltac:(lia)) in Hr1 |- *. by apply u32_next. }
  destruct Hst as (st & Est & Hst). rewrite (bind_ok _ _ _ _ _ Est), (bind_ok _ _ s1 (sbuf s1) s1) by done.
  assert (Eper : Z.to_nat ((ss + 31) / 32) = per_sector).
  { unfold per_sector. destruct Halign as [q Hq]. rewrite Hq. f_equal. zlia. }
  rewrite Eper, entries_of_S, search_in_app. unfold bind at 1.
  change (scan_sector (find_name fuel bpb name) per_sector (sbuf s1) 0 de a)
    with (scan_sector (find_name fuel bpb name) per_sector (sbuf s1) (0 * 32) de a).
  rewrite scan_sector_ok. cbn [sbuf s1 set_dev].
  destruct (search_in (entries (dk_sector k (sec i)) 0 per_sector) name de) as [[e de'|de'|de']|f];
    cbn [rbind sector_result dir_result].
  - exists d1, (dk_sector k (sec i)). split; [done|]. unfold bind. fold s1.
    by destruct (fat_setFatDir fuel bpb a.2 e de' true s1) as [[x s']|f].
  - exists d1, (dk_sector k (sec i)). split; [done|]. by destruct a.
  - destruct (IH (i + 1) st de' s1) as (d2 & b2 & Hd2 & E2); [done|done|lia|lia|done|].
    exists d2, b2. split; [done|]. exact E2.
  - exists d1, (dk_sector k (sec i)). by split.
Qed.

(** ** Directories *)

Definition root_sectors : nat := Z.to_nat (bpb_rootSize bpb / (ss / 32)).
Definition root_sector (i : Z) : Z := bpb_rootDirStart bpb + i.
Definition chain_sector (cs : list Z) (i : Z) : Z :=
  cluster_sector bpb (nth (Z.to_nat (i / csize)) cs 0) + i mod csize.

(** The directory at a cluster, 0 for the root, has these entries. *)
Inductive is_dir : Z -> list (list Z) -> Prop :=
  | dir_root :
      bpb_fatType bpb < FAT32 -> (forall i, 0 <= i < Z.of_nat root_sectors -> dk_in k (root_sector i)) ->
      is_dir 0 (entries_of root_sector 0 root_sectors)
  | dir_root32 rest :
      bpb_fatType bpb = FAT32 -> file_ok k bpb (bpb_rootDirCluster bpb) rest ->
      is_dir 0 (entries_of (chain_sector (bpb_rootDirCluster bpb :: rest)) 0 (S (length rest) * Z.to_nat csize))
  | dir_chain c rest :
      file_ok k bpb c rest ->
      is_dir c (entries_of (chain_sector (c :: rest)) 0 (S (length rest) * Z.to_nat csize)).

Lemma walk_root cb :
  (forall i, 0 <= i < Z.of_nat root_sectors -> dk_in k (root_sector i)) -> walk 0 cb root_sectors root_sector.
Proof using.
  intros Hin. split; [exact Hin|done|]. intros i _ _ _. unfold root_sector. lia.
Qed.

Lemma walk_chain c rest cb :
  file_ok k bpb c rest -> length cb = MAX_DIR_CLUSTER -> take (S (length rest)) cb = c :: rest ->
  walk c cb (S (length rest) * Z.to_nat csize) (chain_sector (c :: rest)).
Proof using G.
  intros Hf Hl Hc. pose proof (ge_cluster _ _ G) as Hcs. pose proof (fi_short _ _ _ _ Hf) as Hsh.
  pose proof (links_ge2 k bpb _ _ (fi_links _ _ _ _ Hf)) as Hge. pose proof (fi_data _ _ _ _ Hf) as Hd.
  assert (Hidx : forall i, 0 <= i < Z.of_nat (S (length rest) * Z.to_nat csize) ->
    exists c', (c :: rest) !! Z.to_nat (i / csize) = Some c' /\ nth (Z.to_nat (i / csize)) (c :: rest) 0 = c' /\
      2 <= c' /\ data_ok k bpb c').
  { intros i Hi. assert (0 <= i / csize < Z.of_nat (S (length rest))).
    { split; [apply Z.div_pos; lia|]. apply Z.div_lt_upper_bound; lia. }
    destruct (lookup_lt_is_Some_2 (c :: rest) (Z.to_nat (i / csize))) as [c' Hc']; [cbn [length]; lia|].
    exists c'. split; [done|]. split; [by rewrite nth_lookup, Hc'|].
    rewrite Forall_lookup in Hge, Hd. split; [by eapply Hge|by eapply Hd]. }
  split.
  - intros i Hi. destruct (Hidx i Hi) as (c' & _ & Ec & _ & Hdc). unfold chain_sector. rewrite Ec. apply Hdc.
    apply Z.mod_pos_bound. lia.
  - intros i Hi _ Em. destruct (step_over i csize ltac:(lia) Em) as (Ed & Em').
    assert (Hb : 0 <= i / csize + 1 <= Z.of_nat (S (length rest))).
    { split; [pose proof (Z.div_pos i csize); lia|].
      pose proof (Z.div_lt_upper_bound i csize (Z.of_nat (S (length rest))) ltac:(lia) ltac:(lia)). lia. }
    destruct (lookup_lt_is_Some_2 cb (Z.to_nat (i / csize + 1))) as [x Hx]; [lia|].
    exists x. split.
    { unfold buf_byte. destruct (Z.ltb_spec (i / csize + 1) 0); [lia|]. by rewrite Hx. }
    intros Hi1. destruct (Hidx (i + 1) ltac:(lia)) as (c' & Hlk & Ec & H2 & Hdc).
    pose proof (lookup_lt_Some _ _ _ Hlk) as Hlt. rewrite Ed in Hlk, Hlt. cbn [length] in Hlt.
    rewrite <- Hc, lookup_take_lt in Hlk by exact Hlt.
    rewrite Hx in Hlk. injection Hlk as ->. unfold chain_sector. rewrite Ec, Em', Z.add_0_r.
    rewrite (cluster2sector_ok k bpb G) by done. apply u32_id.
    pose proof (im_range _ (vo_img _ _ (ge_vol _ _ G)) _ (Hdc 0 ltac:(lia))) as Hr. rewrite Z.add_0_r in Hr. exact Hr.
  - intros i Hi Hi1 Hor. destruct Hor as [E0|Em].
    { apply Z.eqb_eq in E0. pose proof (Forall_inv Hge) as H2. cbn in H2. lia. }
    destruct (step_inside i csize ltac:(lia) Em) as (Ed & Em'). unfold chain_sector. rewrite Ed, Em'. lia.
Qed.

(** The search of the driver is the search through the entries. *)
Lemma getDirentryStartCluster_ok fuel name cl es fatDir (s : fat D) :
  drv_ok k bpb s -> is_dir cl es ->
  exists cl' s1, drv_ok k bpb s1 /\ moved s s1 /\
    fat_getDirentryStartCluster fuel bpb name cl fatDir s =
    bind (dir_result fuel (search_in es name no_names) (cl', fatDir))
      (fun r => match r with inl x => ret x | inr (c, f) => ret (- EFAULT, c, f) end) s1.
Proof using G Halign.
  intros Hs Hdir. pose proof (ge_cluster _ _ G) as Hcs.
  assert (Hchain : forall c rest cl0, file_ok k bpb c rest ->
    fat_getDirentrySectorData bpb cl0 s =
      bind (fat_getClusterChain bpb c MAX_DIR_CLUSTER true)
        (fun n => ret (c, fat_cluster2sector bpb c, if 0 <? n then Some (n * csize) else None)) s ->
    exists cl' s1, drv_ok k bpb s1 /\ moved s s1 /\
      fat_getDirentryStartCluster fuel bpb name cl0 fatDir s =
      bind (dir_result fuel (search_in (entries_of (chain_sector (c :: rest)) 0 (S (length rest) * Z.to_nat csize)) name no_names) (cl', fatDir))
        (fun r => match r with inl x => ret x | inr (c, f) => ret (- EFAULT, c, f) end) s1).
  { intros c rest cl0 Hf E0.
    destruct (getClusterChain_ok k bpb (ge_vol _ _ G) c rest s Hs (fi_links _ _ _ _ Hf) (fi_short _ _ _ _ Hf))
      as (s1 & E1 & Hs1 & M1 & Ec).
    unfold fat_getDirentryStartCluster. unfold bind at 1. rewrite E0, (bind_ok _ _ _ _ _ E1).
    destruct (Z.ltb_spec 0 (Z.of_nat (S (length rest)))); [|lia]. unfold ret at 1.
    rewrite (bind_ok _ _ s1 (Z.of_nat (S (length rest)) * csize) s1) by done.
    pose proof (walk_chain c rest (cbuf s1) Hf (dv_cbuf _ _ _ Hs1) Ec) as W.
    replace (Z.to_nat (Z.of_nat (S (length rest)) * csize)) with (S (length rest) * Z.to_nat csize)%nat by nia.
    destruct (scan_dir_ok fuel name (FAT_ERROR, c, fatDir) c (cbuf s1) _ _ (c, fatDir) W
      (S (length rest) * Z.to_nat csize) 0 (fat_cluster2sector bpb c) no_names s1) as (d & b & Hd & E);
      [apply (dv_shows _ _ _ Hs1)|done|lia|lia| |].
    { intros _. assert (H2 : 2 <= c) by exact (Forall_inv (links_ge2 k bpb _ _ (fi_links _ _ _ _ Hf))).
      pose proof (Forall_inv (fi_data _ _ _ _ Hf)) as Hdc. rewrite (cluster2sector_ok k bpb G) by done.
      unfold chain_sector. rewrite Z.div_0_l, Z.mod_0_l by lia. cbn [Z.to_nat nth]. apply u32_id.
      apply (im_range _ (vo_img _ _ (ge_vol _ _ G))). apply Hdc. lia. }
    destruct (drv_ok_dev k bpb s1 d b Hs1 Hd) as (Hs2 & M2).
    exists c, (set_dev d b s1). split; [done|]. split; [by eapply moved_trans|]. unfold bind at 1. rewrite E.
    unfold bind at 1. by destruct (dir_result _ _ _ _) as [[[x|[x y]] s']|f]. }
  destruct Hdir as [Ht Hin|rest Ht Hf|c rest Hf].
  - unfold fat_getDirentryStartCluster. rewrite (bind_ok _ _ s (0, bpb_rootDirStart bpb, Some (bpb_rootSize bpb / (ss / 32))) s).
    2:{ unfold fat_getDirentrySectorData. cbn [Z.eqb andb]. destruct (Z.ltb_spec (bpb_fatType bpb) FAT32); [done|lia]. }
    rewrite (bind_ok _ _ s (bpb_rootSize bpb / (ss / 32)) s) by done. fold root_sectors.
    destruct (scan_dir_ok fuel name (FAT_ERROR, 0, fatDir) 0 (cbuf s) _ _ (0, fatDir) (walk_root (cbuf s) Hin)
      root_sectors 0 (bpb_rootDirStart bpb) no_names s) as (d & b & Hd & E); [apply (dv_shows _ _ _ Hs)|done|lia|lia| |].
    { intros Hn. apply u32_id. apply (im_range _ (vo_img _ _ (ge_vol _ _ G))). apply Hin. lia. }
    destruct (drv_ok_dev k bpb s d b Hs Hd) as (Hs2 & M2). exists 0, (set_dev d b s). split; [done|]. split; [done|].
    unfold bind at 1. rewrite E. unfold bind at 1. by destruct (dir_result _ _ _ _) as [[[x|[x y]] s']|f].
  - apply Hchain; [done|]. unfold fat_getDirentrySectorData. rewrite Ht. done.
  - apply Hchain; [done|]. assert (H2 : 2 <= c) by exact (Forall_inv (links_ge2 k bpb _ _ (fi_links _ _ _ _ Hf))).
    unfold fat_getDirentrySectorData. destruct (Z.eqb_spec c 0); [lia|]. done.
Qed.

(** ** Entries *)

Lemma search_hit es name : forall de0 e de,
  search_in es name de0 = Ok (Hit e de) -> e ∈ es /\ exists de1, fat_getDirentry e de1 = Ok (1, de).
Proof using.
  induction es as [|e1 es IH]; intros de0 e de E; [done|]. cbn [search_in] in E.
  destruct (fat_getDirentry e1 de0) as [[cont de1]|f] eqn:Eg; [|done]. cbn [rbind] in E.
  assert (Hrec : forall de', search_in es name de' = Ok (Hit e de) ->
    e ∈ e1 :: es /\ exists de1, fat_getDirentry e de1 = Ok (1, de)).
  { intros de' E'. destruct (IH _ _ _ E') as [H1 H2]. split; [by apply list_elem_of_further|done]. }
  destruct (cont =? 0); [done|]. destruct (Z.eqb_spec cont 1) as [->|]; [|by eapply Hrec].
  destruct (is_label de1); [by eapply Hrec|]. destruct (is_name de1 name) as [[|]|f]; cbn [rbind] in E; [|by eapply Hrec|done].
  injection E as <- <-. split; [apply list_elem_of_here|by exists de0].
Qed.

Lemma entries_facts sec i n e :
  (forall j, 0 <= j < Z.of_nat n -> dk_in k (sec (i + j))) -> e ∈ entries_of sec i n ->
  length e = 32%nat /\ Forall is_u8 e.
Proof using G Halign.
  intros Hin He. unfold entries_of in He. apply list_elem_of_In, in_concat in He as (l & Hl & He).
  apply list_elem_of_In, list_elem_of_fmap in Hl as (j & -> & Hj). apply elem_of_seq in Hj.
  apply list_elem_of_In, list_elem_of_fmap in He as (q & -> & Hq). apply elem_of_seq in Hq.
  pose proof (Hin (Z.of_nat j) ltac:(lia)) as Hs.
  pose proof (length_sector k bpb G _ Hs) as L. pose proof (im_u8 _ (vo_img _ _ (ge_vol _ _ G)) _ Hs) as U.
  split; [|by apply Forall_take, Forall_drop]. rewrite length_take, length_drop.
  unfold per_sector in Hq. destruct Halign as [a Ha]. rewrite Ha in Hq, L. rewrite Z.div_mul in Hq by lia. lia.
Qed.

Lemma is_dir_facts cl es e : is_dir cl es -> e ∈ es -> length e = 32%nat /\ Forall is_u8 e.
Proof using G Halign.
  pose proof (ge_cluster _ _ G) as Hcs.
  assert (Hc : forall c rest, file_ok k bpb c rest ->
    e ∈ entries_of (chain_sector (c :: rest)) 0 (S (length rest) * Z.to_nat csize) -> length e = 32%nat /\ Forall is_u8 e).
  { intros c rest Hf. apply entries_facts. intros j Hj. rewrite Z.add_0_l.
    assert (0 <= j / csize < Z.of_nat (S (length rest))).
    { split; [apply Z.div_pos; lia|]. apply Z.div_lt_upper_bound; lia. }
    destruct (lookup_lt_is_Some_2 (c :: rest) (Z.to_nat (j / csize))) as [c' Hc']; [cbn [length]; lia|].
    pose proof (fi_data _ _ _ _ Hf) as Hd. rewrite Forall_lookup in Hd. unfold chain_sector. rewrite nth_lookup, Hc'. cbn [default].
    apply (Hd _ _ Hc'). apply Z.mod_pos_bound. lia. }
  destruct 1 as [_ Hin|rest _ Hf|c rest Hf]; [apply entries_facts; exact Hin|by apply Hc..].
Qed.

Lemma byte_ok e i : length e = 32%nat -> Forall is_u8 e -> 0 <= i < 32 -> exists x, buf_byte e i = Ok x /\ 0 <= x < 256.
Proof using.
  intros L U Hi. unfold buf_byte. destruct (Z.ltb_spec i 0); [lia|].
  destruct (lookup_lt_is_Some_2 e (Z.to_nat i)) as [x Hx]; [lia|]. rewrite Hx. exists x. split; [done|].
  rewrite Forall_lookup in U. exact (U _ _ Hx).
Qed.

Lemma getDirentry_attr e de0 de :
  Forall is_u8 e -> length e = 32%nat -> fat_getDirentry e de0 = Ok (1, de) -> 0 <= e_attr de.
Proof using.
  intros U L E. unfold fat_getDirentry in E.
  destruct (byte_ok e 0 L U ltac:(lia)) as (n0 & E0 & _). destruct (byte_ok e 1 L U ltac:(lia)) as (n1 & E1 & _).
  destruct (byte_ok e 11 L U ltac:(lia)) as (at_ & E11 & Ha). destruct (byte_ok e 12 L U ltac:(lia)) as (r1 & E12 & _).
  destruct (byte_ok e 26 L U ltac:(lia)) as (r2 & E26 & _).
  rewrite E0, E1, E11, E12, E26 in E. cbn [rbind] in E.
  destruct ((n0 =? 0) && (n1 =? 0)); [done|]. destruct (n0 =? 0xE5); [done|].
  destruct ((at_ =? 0x0F) && (r1 =? 0) && (r2 =? 0)).
  { by destruct (lfn_name e (e_name de0)). }
  destruct (buf_byte (e_name de0) 0) as [f|]; [|done]. cbn [rbind] in E.
  destruct (if f =? 0 then _ else _) as [nm|]; [|done]. cbn [rbind] in E.
  destruct (getI32 e 28) as [sz|]; [|done]. cbn [rbind] in E. destruct (getI32_2 e 26 20) as [cl|]; [|done]. cbn [rbind] in E.
  injection E as <-. cbn [e_attr]. lia.
Qed.

(** The bytes of the file an entry stands for. *)
Definition file_bytes (de : fat_direntry) (bytes : list Z) : Prop :=
  (e_cluster de < 2 /\ e_size de = 0 /\ bytes = []) \/
  exists rest, file_ok k bpb (e_cluster de) rest /\
    0 <= e_size de <= Z.of_nat (S (length rest)) * cluster_size bpb /\
    bytes = take (Z.to_nat (e_size de)) (chain_bytes k bpb (e_cluster de :: rest)).

(** The name to show is terminated. *)
Definition named (de : fat_direntry) : Prop :=
  exists first n, buf_byte (e_name de) 0 = Ok first /\
    upto_nul (if negb (first =? 0) then e_name de else e_sname de) = Ok n /\ (length n <= FAT_MAX_NAME)%nat.

Lemma setFatDir_ok fuel fatDir e de bytes (s : fat D) :
  drv_ok k bpb s -> length e = 32%nat -> Forall is_u8 e -> named de -> file_bytes de bytes ->
  length (d_chain fatDir) = DIR_CHAIN_SIZE ->
  exists d s', fat_setFatDir (S fuel) bpb fatDir e de true s = Ok (d, s') /\ drv_ok k bpb s' /\ moved s s' /\
    length (d_chain d) = DIR_CHAIN_SIZE /\ holds_file k bpb d bytes.
Proof using G.
  intros Hs L U (first & n & E1 & E2 & Hn) Hb Hl. unfold fat_setFatDir.
  rewrite (bind_ok _ _ s first s) by (unfold lift; by rewrite E1).
  rewrite (bind_ok _ _ s n s) by (unfold lift; by rewrite E2). rewrite (proj2 (Nat.ltb_ge _ _) Hn).
  destruct (byte_ok e 11 L U ltac:(lia)) as (x1 & F1 & _). destruct (byte_ok e 22 L U ltac:(lia)) as (x2 & F2 & _).
  destruct (byte_ok e 23 L U ltac:(lia)) as (x3 & F3 & _). destruct (byte_ok e 24 L U ltac:(lia)) as (x4 & F4 & _).
  destruct (byte_ok e 25 L U ltac:(lia)) as (x5 & F5 & _). rewrite F1, F2, F3, F4, F5.
  do 5 rewrite (bind_ok _ _ s _ s eq_refl). cbn zeta.
  set (d0 := FatDir _ _ _ _ _ _ _). destruct (d_chain fatDir) as [|e0 t] eqn:Et; [done|].
  assert (Ec : d_chain d0 = (e_cluster de, 0) :: t) by done. cbn [length] in Hl.
  destruct Hb as [(Hc & Hz & ->)|(rest & Hf & Hz & ->)].
  - exists d0, s. split.
    { unfold fat_setFatDirChain. rewrite (bind_ok _ _ s (e_cluster de, 0) s) by done.
      by destruct (Z.ltb_spec (e_cluster de) 2); [|lia]. }
    split; [done|]. split; [apply moved_refl|]. split; [by rewrite Ec|]. split; [exact Hz|by left].
  - destruct (setFatDirChain_ok k bpb G fuel d0 (e_cluster de) rest s t Hs Hf Ec) as (l & t' & s' & E & Ht & Hlt & Hs' & M);
      [by rewrite Ec|exact Hz|].
    exists (with_chain l t' d0), s'. split; [exact E|]. split; [done|]. split; [done|]. split; [done|].
    pose proof (length_chain k bpb G _ (fi_data _ _ _ _ Hf)) as Lc. cbn [length] in Lc. split.
    + rewrite length_take. cbn [d_size with_chain d0]. lia.
    + right. by exists (e_cluster de), rest.
Qed.

(** ** Paths *)

(** A directory has an entry of this name. *)
Definition dir_has (cl : Z) (name : list Z) (de : fat_direntry) (bytes : list Z) : Prop :=
  exists es e, is_dir cl es /\ search_in es (name ++ [0]) no_names = Ok (Hit e de) /\ named de /\ file_bytes de bytes.

(** The names lead from directory to directory, and the last one to the bytes of a file. *)
Fixpoint resolves (cl : Z) (names : list (list Z)) (bytes : list Z) : Prop :=
  match names with
  | [] => False
  | n :: names' =>
      match names' with
      | [] => exists de, dir_has cl n de bytes
      | _ => exists de b, dir_has cl n de b /\ resolves (e_cluster de) names' bytes
      end
  end.

Lemma lookup_ok fuel name cl de bytes fatDir (s : fat D) :
  drv_ok k bpb s -> dir_has cl name de bytes -> length (d_chain fatDir) = DIR_CHAIN_SIZE ->
  exists r d s', fat_getDirentryStartCluster (S fuel) bpb (name ++ [0]) cl fatDir s = Ok ((r, e_cluster de, d), s') /\
    0 <= r /\ drv_ok k bpb s' /\ moved s s' /\ length (d_chain d) = DIR_CHAIN_SIZE /\ holds_file k bpb d bytes.
Proof using G Halign.
  intros Hs (es & e & Hdir & Hhit & Hn & Hb) Hl. destruct (search_hit _ _ _ _ _ Hhit) as (He & de1 & Eg).
  destruct (is_dir_facts cl es e Hdir He) as (Le & Ue).
  destruct (getDirentryStartCluster_ok (S fuel) (name ++ [0]) cl es fatDir s Hs Hdir) as (cl' & s1 & Hs1 & M1 & E).
  destruct (setFatDir_ok fuel fatDir e de bytes s1 Hs1 Le Ue Hn Hb Hl) as (d & s2 & E2 & Hs2 & M2 & Hl2 & Hh).
  exists (e_attr de), d, s2. split; [|split; [by eapply getDirentry_attr|split; [done|split; [by eapply moved_trans|by split]]]].
  rewrite E, Hhit. cbn [dir_result snd]. rewrite bind_assoc. by rewrite (bind_ok _ _ _ _ _ E2).
Qed.

Definition name_ok (n : list Z) : Prop :=
  n <> [] /\ Forall (fun c => is_slash c = false) n /\ (length n <= 256)%nat.

Lemma path_name fuel n rest cl fatDir (s : fat D) : forall tmp,
  Forall (fun c => is_slash c = false) n -> (length tmp + length n <= 256)%nat ->
  path_loop fuel bpb (n ++ rest) tmp cl fatDir s = path_loop fuel bpb rest (tmp ++ n) cl fatDir s.
Proof using.
  induction n as [|c n IH]; intros tmp Hc Hl; [by rewrite app_nil_r|]. inversion Hc as [|? ? H1 H2]; subst.
  cbn [app path_loop]. rewrite H1. cbn [length] in Hl.
  rewrite (bind_ok _ _ s (tmp ++ [c]) s).
  - rewrite IH by (done || rewrite length_app; cbn [length]; lia). by rewrite <- app_assoc.
  - unfold lift, add_char. by rewrite (proj2 (Nat.leb_gt _ _)) by lia.
Qed.

Lemma add_nul_ok n (s : fat D) : (length n <= 256)%nat -> lift (add_char n 0) s = Ok (n ++ [0], s).
Proof using. intros Hl. unfold lift, add_char. by rewrite (proj2 (Nat.leb_gt _ _)) by lia. Qed.

(** The loop over the path comes to the last name with the directory it is in. *)
Lemma path_loop_ok fuel names : forall cl bytes fatDir (s : fat D),
  drv_ok k bpb s -> Forall name_ok names -> resolves cl names bytes -> length (d_chain fatDir) = DIR_CHAIN_SIZE ->
  exists n cl' de d s', path_loop (S fuel) bpb (path_of names) [] cl fatDir s = Ok (inr (n, cl', d), s') /\
    name_ok n /\ dir_has cl' n de bytes /\ drv_ok k bpb s' /\ moved s s' /\ length (d_chain d) = DIR_CHAIN_SIZE.
Proof using G Halign.
  induction names as [|n names IH]; intros cl bytes fatDir s Hs Hok Hr Hl; [done|].
  inversion Hok as [|? ? (Hn1 & Hn2 & Hn3) Hok']; subst. destruct names as [|n' names].
  - destruct Hr as (de & Hde). exists n, cl, de, fatDir, s. cbn [path_of].
    rewrite <- (app_nil_r n) at 1. rewrite path_name by done. split; [done|]. split; [done|]. split; [done|].
    split; [done|]. split; [apply moved_refl|done].
  - destruct Hr as (de & b & Hde & Hr). change (path_of (n :: n' :: names)) with (n ++ 47 :: path_of (n' :: names)).
    rewrite path_name by done. cbn [app path_loop]. change (is_slash 47) with true. cbv iota.
    rewrite (bind_ok _ _ _ _ _ (add_nul_ok n s Hn3)).
    destruct (lookup_ok fuel n cl de b fatDir s Hs Hde Hl) as (r & d & s1 & E1 & Hr0 & Hs1 & M1 & Hl1 & _).
    rewrite (bind_ok _ _ _ _ _ E1). destruct (Z.ltb_spec r 0); [lia|].
    destruct (IH (e_cluster de) bytes d s1 Hs1 Hok' Hr Hl1) as (m & cl' & de' & d' & s2 & E2 & Hm & Hde' & Hs2 & M2 & Hl2).
    exists m, cl', de', d', s2. split; [exact E2|]. split; [done|]. split; [done|]. split; [done|].
    split; [by eapply moved_trans|done].
Qed.

Lemma getFileStartCluster_ok fuel names lead bytes fatDir (s : fat D) :
  drv_ok k bpb s -> Forall name_ok names -> resolves 0 names bytes -> length (d_chain fatDir) = DIR_CHAIN_SIZE ->
  lead = [] \/ lead = [47] ->
  exists cl d s', fat_getFileStartCluster (S fuel) bpb (lead ++ path_of names) 0 fatDir s = Ok ((1, cl, d), s') /\
    drv_ok k bpb s' /\ moved s s' /\ length (d_chain d) = DIR_CHAIN_SIZE /\ holds_file k bpb d bytes.
Proof using G Halign.
  intros Hs Hok Hr Hl Hlead.
  destruct (path_loop_ok fuel names 0 bytes fatDir s Hs Hok Hr Hl) as (n & cl' & de & d & s1 & E1 & (Hn & _ & Hn3) & Hde & Hs1 & M1 & Hl1).
  destruct (lookup_ok fuel n cl' de bytes d s1 Hs1 Hde Hl1) as (r & d2 & s2 & E2 & Hr0 & Hs2 & M2 & Hl2 & Hh).
  exists (e_cluster de), d2, s2. split; [|split; [done|split; [by eapply moved_trans|by split]]].
  unfold fat_getFileStartCluster.
  replace (match lead ++ path_of names with c :: r => if is_slash c then r else lead ++ path_of names | [] => [] end)
    with (path_of names).
  2:{ destruct Hlead as [->| ->]; [|done]. cbn [app]. destruct names as [|n1 names]; [done|].
      inversion Hok as [|? ? (H1 & H2 & _) _]; subst. destruct n1 as [|c n1]; [done|]. inversion H2 as [|? ? Hc _]; subst.
      destruct names; cbn [path_of app]; by rewrite Hc. }
  rewrite (bind_ok _ _ _ _ _ E1). destruct n as [|c n]; [done|]. cbn [length Nat.eqb andb].
  rewrite (bind_ok _ _ _ _ _ (add_nul_ok (c :: n) s1 Hn3)), (bind_ok _ _ _ _ _ E2).
  by destruct (Z.ltb_spec r 0); [lia|].
Qed.

(** ** Opening files *)

Lemma mountCheck_ok (s : fat D) :
  drv_ok k bpb s -> mounted s <> 0 ->
  exists s', fat_mountCheck s = Ok (1, s') /\ drv_ok k bpb s' /\ moved s s'.
Proof using.
  intros Hs Hm. destruct (shows_ready _ _ (dv_shows _ _ _ Hs)) as (st & d & E & H0' & H3 & H4 & Hd).
  destruct (drv_ok_dev k bpb s d (sbuf s) Hs Hd) as (Hs1 & M1). exists (set_dev d (sbuf s) s). split; [|by split].
  unfold fat_mountCheck. rewrite (bind_ok _ _ s st (set_dev d (sbuf s) s)).
  2:{ unfold on_dev. rewrite E. done. }
  destruct (Z.ltb_spec st 0); [lia|]. rewrite H3. cbn [Z.eqb Pos.eqb].
  rewrite (bind_ok _ _ _ (mounted s) (set_dev d (sbuf s) s)) by done.
  destruct (Z.eqb_spec (Z.land st 4) 4); [done|]. by destruct (Z.eqb_spec (mounted s) 0).
Qed.

Lemma find_free m l o :
  (forall i r, l !! i = Some r -> fd r = -1 <-> m !! (o + i)%nat = None) ->
  fst <$> list_find (fun r => fd r = -1) l =
  (fun i => i - o)%nat <$> head (filter (fun i => (m : gmap nat afile) !! i = None) (seq o (length l))).
Proof using.
  revert o. induction l as [|r l IH]; intros o Hl; [done|]. cbn [list_find length seq].
  pose proof (Hl 0%nat r eq_refl) as H1. rewrite Nat.add_0_r in H1. rewrite filter_cons.
  destruct (decide (fd r = -1)) as [E|E].
  - rewrite decide_True by (by apply H1). cbn. f_equal. lia.
  - rewrite decide_False by (by rewrite <- H1). specialize (IH (S o)).
    assert (IH' := IH ltac:(intros i q Hi; replace (S o + i)%nat with (o + S i)%nat by lia; by apply Hl)).
    destruct (list_find _ l) as [[i q]|], (head _) as [j|] eqn:Ej; cbn in *; try done.
    injection IH' as ->. f_equal.
    apply head_Some_elem_of, list_elem_of_filter in Ej as [_ Hj]. apply elem_of_seq in Hj. lia.
Qed.

Lemma free_slot_ok s v :
  files_ok k bpb s v -> slot_of (-1) (fsRec s) = match free_slot (a_files v) with Some i => Z.of_nat i | None => -1 end.
Proof using.
  intros [_ _ _ Hsl Ho]. unfold slot_of, free_slot. pose proof (find_free (a_files v) (fsRec s) 0) as E.
  rewrite (sl_rec _ _ Hsl) in E.
  assert (Hiff : forall i r, fsRec s !! i = Some r -> fd r = -1 <-> a_files v !! (0 + i)%nat = None).
  { intros i r Hi. cbn [Nat.add]. split; [|intros Hn; exact (sl_free _ _ Hsl _ _ Hi Hn)].
    intros Hfd. destruct (a_files v !! i) as [f|] eqn:Ef; [|done].
    destruct (so_rec _ _ _ _ _ (Ho i f Ef)) as (q & Hq & Hge & _). rewrite Hi in Hq. injection Hq as <-. lia. }
  specialize (E Hiff). clear Hiff. destruct (list_find _ (fsRec s)) as [[i r]|], (head _) as [j|]; cbn in E; try done.
  injection E as ->. lia.
Qed.

Lemma slot_of_new x l i r :
  Forall (fun q => fd q <> x) l -> fd r = x -> (i < length l)%nat -> slot_of x (<[i := r]> l) = Z.of_nat i.
Proof using.
  intros Hl Hr Hi. unfold slot_of. assert (E : list_find (fun q => fd q = x) (<[i := r]> l) = Some (i, r)); [|by rewrite E].
  apply list_find_Some. split; [by apply list_lookup_insert_eq|]. split; [done|].
  intros j q Hj Hlt Hq. rewrite list_lookup_insert_ne in Hj by lia. rewrite Forall_lookup in Hl. exact (Hl _ _ Hj Hq).
Qed.

(** The driver after a file was opened in slot [i]. *)
Lemma files_opened s v i d bytes mode :
  files_ok k bpb s v -> (i < MAX_FILES)%nat -> a_files v !! i = None -> a_count v + 1 < 2 ^ 31 ->
  length (d_chain d) = DIR_CHAIN_SIZE -> holds_file k bpb d bytes ->
  files_ok k bpb (set_fs (<[i := FsRec (a_count v + 1) 0 mode 0]> (fsRec s)) (<[i := d]> (fsDir s)) (a_count v + 1) s)
    (AVol (<[i := AFile bytes 0]> (a_files v)) (a_count v + 1)).
Proof using.
  intros [Hd Hb Hm Hsl Ho] Hi Hn Hc Hl Hh. pose proof Hsl as [S1 S2 S3 S4 S5 S6 S7].
  assert (Hnew : Forall (fun q => fd q <> a_count v + 1) (fsRec s)).
  { eapply Forall_impl; [exact S4|]. intros q Hq. cbn beta in *. lia. }
  split; [by destruct Hd|exact Hb|exact Hm| |].
  - split; cbn [fsRec fsDir fsCounter set_fs a_files a_count]; [by rewrite length_insert|by rewrite length_insert| | | |lia|done].
    + apply Forall_insert; [done|exact Hl].
    + apply Forall_insert; [|cbn [fd]; lia]. eapply Forall_impl; [exact S4|]. intros q Hq. cbn beta in *. lia.
    + intros j q Hj Hjm. destruct (decide (j = i)) as [->|Hne]; [by rewrite lookup_insert_eq in Hjm|].
      rewrite list_lookup_insert_ne in Hj by done. rewrite lookup_insert_ne in Hjm by done. exact (S5 _ _ Hj Hjm).
  - intros j g Hj. cbn [a_files] in Hj. destruct (decide (j = i)) as [->|Hne].
    + rewrite lookup_insert_eq in Hj. injection Hj as <-. split.
      * exists (FsRec (a_count v + 1) 0 mode 0). cbn [fsRec set_fs fd filePos a_pos].
        split; [apply list_lookup_insert_eq; lia|]. split; [lia|]. split; [done|]. apply slot_of_new; [done|done|lia].
      * exists d. split; [apply list_lookup_insert_eq; cbn [fsDir set_fs]; lia|exact Hh].
      * cbn. lia.
    + rewrite lookup_insert_ne in Hj by done. destruct (Ho j g Hj) as [(r & Hr & Hfd & Hp & Hs) (dj & Hdj & Hhj) Hpos].
      destruct (lookup_lt_is_Some_2 (fsRec s) i) as [q Hq]; [lia|].
      split; [|exists dj; cbn [fsDir set_fs]; by rewrite list_lookup_insert_ne|done].
      exists r. cbn [fsRec set_fs]. rewrite list_lookup_insert_ne by done. split; [done|]. split; [done|]. split; [done|].
      rewrite (slot_of_other _ _ _ q); [done|done| |].
      * rewrite (S5 _ _ Hq Hn). lia.
      * cbn [fd]. rewrite Forall_lookup in Hnew. intros E. by apply (Hnew _ _ Hr).
Qed.

Lemma fs_open_ok fuel s v (slash : bool) names mode bytes i :
  files_ok k bpb s v -> mode = 0 \/ mode = O_RDONLY -> free_slot (a_files v) = Some i -> a_count v + 1 < 2 ^ 31 ->
  Forall name_ok names -> resolves 0 names bytes ->
  exists s', fs_open (S fuel) ((if slash then [47] else []) ++ path_of names) mode s = Ok ((a_count v + 1, Some i), s') /\
    files_ok k bpb s' (AVol (<[i := AFile bytes 0]> (a_files v)) (a_count v + 1)).
Proof using G Halign.
  intros Hs Hmode Hfree Hc Hok Hr.
  destruct (mountCheck_ok s (fo_drv _ _ _ _ Hs) (fo_mounted _ _ _ _ Hs)) as (s1 & E1 & Hd1 & M1).
  pose proof (files_moved _ _ s s1 v Hs Hd1 M1) as Hs1. unfold fs_open. rewrite (bind_ok _ _ _ _ _ E1). cbn [Z.ltb Z.compare].
  assert (Em : negb (mode =? 0) && negb (mode =? O_RDONLY) = false) by (by destruct Hmode as [-> | ->]). rewrite Em.
  pose proof (free_slot_ok s1 v Hs1) as Eslot. rewrite Hfree in Eslot.
  rewrite (bind_ok _ _ s1 (Z.of_nat i) s1) by (unfold fs_findFreeFileSlot, gets; by rewrite Eslot).
  destruct (Z.ltb_spec (Z.of_nat i) 0); [lia|]. rewrite Nat2Z.id.
  apply head_Some_elem_of, list_elem_of_filter in Hfree as [Hnone Hi]. apply elem_of_seq in Hi.
  rewrite (bind_ok _ _ s1 bpb s1) by (unfold gets; by rewrite (fo_bpb _ _ _ _ Hs1)).
  rewrite (bind_ok _ _ s1 (fsDir s1) s1) by done. pose proof (fo_slots _ _ _ _ Hs1) as Hsl.
  destruct (lookup_lt_is_Some_2 (fsDir s1) i) as [d0 Hd0]; [rewrite (sl_dir _ _ Hsl); lia|].
  rewrite (bind_ok _ _ s1 d0 s1) by (unfold lift; by rewrite Hd0).
  pose proof (sl_chain _ _ Hsl) as Hch. rewrite Forall_lookup in Hch.
  destruct (getFileStartCluster_ok fuel names (if slash then [47] else []) bytes d0 s1 Hd1 Hok Hr (Hch _ _ Hd0))
    as (cl & d & s2 & E2 & Hd2 & M2 & Hl & Hh); [destruct slash; auto|].
  rewrite (bind_ok _ _ _ _ _ E2), (bind_ok _ _ _ _ _ eq_refl). cbn [Z.ltb Z.compare].
  pose proof (files_moved _ _ s1 s2 v Hs1 Hd2 M2) as Hs2.
  set (s3 := set_fs _ _ _ s2). assert (Ec : s32 (fsCounter s3 + 1) = a_count v + 1).
  { cbn [s3 fsCounter set_fs]. pose proof (fo_slots _ _ _ _ Hs2) as Hsl2. rewrite (sl_number _ _ Hsl2).
    apply s32_id. pose proof (sl_counter _ _ Hsl2). rewrite (sl_number _ _ Hsl2) in *. lia. }
  rewrite (bind_ok _ _ s3 (a_count v + 1) s3) by (unfold gets; by rewrite Ec).
  rewrite (bind_ok _ _ _ _ _ eq_refl). eexists. split; [reflexivity|].
  apply (files_opened s2 v i d bytes mode); [done|lia|done|done|done|done].
Qed.
End Search.
