(* ===== verification/UsbMass.v ===== *)
(** * The USB mass storage driver: FAT on the sector cache

    The sector cache is a device in the sense of the FAT driver, mounting a volume, and the
    main theorem of the driver: a volume's files as byte arrays. *)

From S2P Require Import Prelude Bytes SCache Fat FatChain FatRead FatFile FatDir.
Local Open Scope ps2rd_scope.

(** ** Sessions *)

Section Session.
  Context {D : Type} `{SectorDevLaws D} (k : disk_img) (bpb : fat_bpb).
  Context (G : geometry_ok k bpb) (Halign : (32 | bpb_sectorSize bpb)).
  Context (fsys : list (list Z) -> option (list Z)).
  Context (Hfsys : forall names bytes, fsys names = Some bytes -> Forall name_ok names /\ resolves k bpb 0 names bytes).

Lemma fs_open_refused fuel (s : fat D) v path mode r :
  files_ok k bpb s v ->
  (mode <> 0 /\ mode <> O_RDONLY /\ r = - EROFS) \/
  ((mode = 0 \/ mode = O_RDONLY) /\ free_slot (a_files v) = None /\ r = - EMFILE) ->
  exists s', fs_open fuel path mode s = Ok ((r, None), s') /\ files_ok k bpb s' v.
Proof using.
  intros Hs Hwhy. destruct (mountCheck_ok k bpb s (fo_drv _ _ _ _ Hs) (fo_mounted _ _ _ _ Hs)) as (s1 & E1 & Hd1 & M1).
  pose proof (files_moved _ _ s s1 v Hs Hd1 M1) as Hs1. exists s1. split; [|done].
  unfold fs_open. rewrite (bind_ok _ _ _ _ _ E1). cbn [Z.ltb Z.compare].
  destruct Hwhy as [(Hm1 & Hm2 & ->)|(Hm & Hfree & ->)].
  - by destruct (Z.eqb_spec mode 0), (Z.eqb_spec mode O_RDONLY).
  - assert (Em : negb (mode =? 0) && negb (mode =? O_RDONLY) = false) by (by destruct Hm as [-> | ->]). rewrite Em.
    pose proof (free_slot_ok k bpb s1 v Hs1) as Eslot. rewrite Hfree in Eslot.
    by rewrite (bind_ok _ _ s1 (-1) s1) by (unfold fs_findFreeFileSlot, gets; by rewrite Eslot).
Qed.

Lemma run_fop_ok fuel (s : fat D) v v' o r :
  files_ok k bpb s v -> fop_ok o -> a_count v + 1 < 2 ^ 31 -> afop fsys o v = Some (r, v') ->
  exists s', run_fop (S fuel) o s = Ok (r, s') /\ files_ok k bpb s' v' /\ a_count v' <= a_count v + 1.
Proof using G Halign Hfsys.
  intros Hs Ho Hc E. destruct o as [slash names mode|i size|i off wh|i]; cbn [afop run_fop] in *.
  - assert (Hopen : forall r1 h v1, (exists s1, fs_open (S fuel) ((if slash then [47] else []) ++ path_of names) mode s =
        Ok ((r1, h), s1) /\ files_ok k bpb s1 v1) -> a_count v1 <= a_count v + 1 ->
      exists s1, bind (fs_open (S fuel) ((if slash then [47] else []) ++ path_of names) mode)
        (fun x => match x with (n, h) => ret (AnsOpen n h) end) s = Ok (AnsOpen r1 h, s1) /\
        files_ok k bpb s1 v1 /\ a_count v1 <= a_count v + 1).
    { intros r1 h v1 (s1 & E1 & H1) Hle. exists s1. by rewrite (bind_ok _ _ _ _ _ E1). }
    destruct (negb (mode =? 0) && negb (mode =? O_RDONLY)) eqn:Em.
    { injection E as <- <-. apply Hopen; [|lia]. apply fs_open_refused; [done|]. left.
      apply andb_prop in Em as [H1 H2]. split; [|split; [|done]]; intros ->; done. }
    assert (Hm : mode = 0 \/ mode = O_RDONLY).
    { destruct (Z.eqb_spec mode 0); [by left|]. destruct (Z.eqb_spec mode O_RDONLY); [by right|done]. }
    destruct (free_slot (a_files v)) as [i|] eqn:Ef.
    + apply bind_Some in E as (bytes & Eb & E). injection E as <- <-. destruct (Hfsys _ _ Eb) as [Hok Hr].
      apply Hopen; [|cbn; lia]. by apply (fs_open_ok k bpb G Halign).
    + injection E as <- <-. apply Hopen; [|lia]. apply fs_open_refused; [done|]. by right.
  - apply bind_Some in E as (f & Ef & E). unfold aread in E. injection E as <- <-.
    destruct (fs_read_ok k bpb G fuel s v i f size Hs Ef Ho) as (s' & E' & H').
    exists s'. rewrite (bind_ok _ _ _ _ _ E'). split; [done|]. split; [exact H'|cbn; lia].
  - apply bind_Some in E as (f & Ef & E). destruct (fs_lseek_ok k bpb G s v i f off wh Hs Ef Ho) as (s' & E' & H').
    destruct (aseek f off wh) as [r' f']. injection E as <- <-. exists s'. split; [exact E'|]. split; [exact H'|cbn; lia].
  - apply bind_Some in E as (f & Ef & E). injection E as <- <-.
    destruct (fs_close_ok k bpb s v i f Hs Ef) as (s' & E' & H'). exists s'. split; [exact E'|]. split; [exact H'|cbn; lia].
Qed.

Lemma run_fops_ok fuel os : forall (s : fat D) v v' rs,
  files_ok k bpb s v -> Forall fop_ok os -> a_count v + Z.of_nat (length os) < 2 ^ 31 -> afops fsys os v = Some (rs, v') ->
  exists s', run_fops (S fuel) os s = Ok (rs, s') /\ files_ok k bpb s' v'.
Proof using G Halign Hfsys.
  induction os as [|o os IH]; intros s v v' rs Hs Hos Hc E; cbn [afops run_fops length] in *.
  { injection E as <- <-. by exists s. }
  inversion Hos as [|? ? Ho Hos']; subst.
  apply bind_Some in E as ([r v1] & E1 & E). apply bind_Some in E as ([rs' v2] & E2 & E). injection E as <- <-.
  destruct (run_fop_ok fuel s v v1 o r Hs Ho ltac:(lia) E1) as (s1 & R1 & Hs1 & Hle). rewrite (bind_ok _ _ _ _ _ R1).
  destruct (IH s1 v1 v2 rs' Hs1 Hos' ltac:(lia) E2) as (s2 & R2 & Hs2). rewrite (bind_ok _ _ _ _ _ R2). by exists s2.
Qed.
End Session.

(** ** Mounting *)

Section Mount.
  Context {D : Type} `{SectorDevLaws D} (k : disk_img).

(** The partition that is used, and the boot sector's description of the volume. *)
Definition volume (t : list part_record) (old bpb : fat_bpb) : Prop :=
  exists t' w p, partition_records 4 (dk_sector k 0) 0 t (-1) = Ok (t', w) /\
    (if w =? -1 then p = PartRec 0 0 (dk_lba k) /\ (0 < length t')%nat else 0 <= w /\ t' !! Z.to_nat w = Some p) /\
    dk_in k 0 /\ dk_in k (pr_start p) /\ boot_sector (dk_sector k (pr_start p)) (pr_start p) old = Ok bpb.

(** The tables are those of the driver before, and all files are closed. *)
Record fresh (s : fat D) : Prop := {
  fr_cbuf : length (cbuf s) = MAX_DIR_CLUSTER;
  fr_rec : fsRec s = replicate MAX_FILES (FsRec (-1) 0 0 0);
  fr_dir : length (fsDir s) = MAX_FILES;
  fr_chain : Forall (fun d => length (d_chain d) = DIR_CHAIN_SIZE) (fsDir s);
  fr_count : fsCounter s = 0;
}.

Lemma no_chain bpb rest : ~ links k bpb 0xFFFFFFFF rest.
Proof using.
  intros Hl. assert (Hc : cluster_ok k bpb 0xFFFFFFFF) by (by destruct rest, Hl). destruct Hc as ((_ & Hc) & _).
  unfold eoc in Hc. destruct (bpb_fatType bpb =? FAT12); [done|]. by destruct (bpb_fatType bpb =? FAT16).
Qed.

Lemma initDriver_ok (s : fat D) bpb r d :
  fresh s -> dev_init (Size_Sector (dev s)) (dev s) = Ok (r, d) -> 0 <= r -> shows d k ->
  volume (partTable s) (partBpb s) bpb ->
  exists s', fat_initDriver s = Ok (r, s') /\ files_ok k bpb s' (AVol ∅ 0).
Proof using.
  intros [F1 F2 F3 F4 F5] Ei Hr Hd (t' & w & p & Ep & Hw & Hin0 & Hinp & Eb). unfold fat_initDriver.
  do 3 rewrite (bind_ok _ _ _ _ _ eq_refl). set (s1 := set_direntry _ _ _).
  rewrite (bind_ok _ _ s1 (Size_Sector (dev s)) s1) by done.
  rewrite (bind_ok _ _ s1 r (set_dev d (sbuf s1) s1)) by (unfold on_dev; cbn [dev s1 set_direntry set_last set_mounted]; by rewrite Ei).
  destruct (Z.ltb_spec r 0); [lia|]. set (s2 := set_dev d _ s1).
  assert (Hpt : exists d3, shows d3 k /\ fat_getPartitionTable s2 =
    Ok (tt, set_part (if w =? -1 then <[0%nat := PartRec 0 0 (dk_lba k)]> t' else t') (if w =? -1 then 0 else w)
              (set_dev d3 (dk_sector k 0) s2))).
  { unfold fat_getPartitionTable. rewrite (bind_ok _ _ _ _ _ eq_refl). set (s3 := set_part _ _ s2).
    destruct (READ_SECTOR_ok k s3 0 Hd Hin0) as (r3 & d3 & E3 & Hr3 & Hd3). rewrite (bind_ok _ _ _ _ _ E3).
    exists d3. split; [done|]. destruct (Z.ltb_spec r3 0); [lia|]. set (s4 := set_dev _ _ s3).
    rewrite (bind_ok _ _ s4 (dk_sector k 0) s4), (bind_ok _ _ s4 (partTable s) s4) by done.
    rewrite (bind_ok _ _ s4 (t', w) s4) by (unfold lift; by rewrite Ep).
    rewrite (bind_ok _ _ s4 (dk_lba k) s4) by (unfold gets; cbn [dev s4 set_dev]; by rewrite (shows_lba _ _ Hd3)).
    by destruct (w =? -1). }
  destruct Hpt as (d3 & Hd3 & Ept). rewrite (bind_ok _ _ _ _ _ Ept). set (s5 := set_part _ _ _).
  rewrite (bind_ok _ _ s5 (partTable s5) s5), (bind_ok _ _ s5 (workPartition s5) s5) by done.
  rewrite (bind_ok _ _ s5 p s5).
  2:{ unfold lift. cbn [s5 partTable workPartition set_part]. destruct (w =? -1).
      - destruct Hw as [-> Hl]. cbn [Z.ltb Z.compare Z.to_nat]. by rewrite list_lookup_insert_eq by done.
      - destruct Hw as [Hw ->]. destruct (Z.ltb_spec w 0); [lia|done]. }
  destruct (READ_SECTOR_ok k s5 (pr_start p) Hd3 Hinp) as (r6 & d6 & E6 & Hr6 & Hd6).
  rewrite (bind_ok _ _ s5 tt (set_bpb bpb (set_dev d6 (dk_sector k (pr_start p)) s5))).
  2:{ unfold fat_getPartitionBootSector. rewrite (bind_ok _ _ _ _ _ E6). destruct (Z.ltb_spec r6 0); [lia|].
      set (s6 := set_dev _ _ s5). rewrite (bind_ok _ _ s6 (dk_sector k (pr_start p)) s6), (bind_ok _ _ s6 (partBpb s) s6) by done.
      by rewrite (bind_ok _ _ s6 bpb s6) by (unfold lift; by rewrite Eb). }
  rewrite (bind_ok _ _ _ _ _ eq_refl). eexists. split; [reflexivity|]. split; [|done|done| |done].
  - split; [exact Hd6|exact F1|]. intros rest Hl. by apply no_chain in Hl.
  - split; cbn [fsRec fsDir fsCounter set_mounted set_bpb set_dev s5 set_part s2 s1 set_direntry set_last a_count];
      [by rewrite F2|exact F3|exact F4| | |by rewrite F5|exact F5].
    + rewrite F2, F5. apply Forall_replicate. cbn. lia.
    + intros i q Hi _. rewrite F2 in Hi. by apply lookup_replicate in Hi as [-> _].
Qed.
End Mount.

(** ** The sector cache as the device *)

(** The cache, what [malloc] returns for its buffer, the status of the device, the size of its
    sectors and its last block. *)
Record usb : Type := Usb {
  u_cache : scache;
  u_heap : option (list Z);
  u_status : Z;
  u_size : Z;
  u_lba : Z;
}.

Definition set_cache (c : scache) (d : usb) : usb := Usb c (u_heap d) (u_status d) (u_size d) (u_lba d).

#[export] Instance usb_dev : SectorDev usb := {
  dev_init := fun ss d =>
    let? '(r, c) := scache_init (u_heap d) 1 ss (u_cache d) in Ok (r, set_cache c d);
  dev_read := fun sec d =>
    let? '(r, c) := scache_readSector sec (u_cache d) in
    if r.1 <? 0 then Ok ((r.1, []), set_cache c d)
    else let? '(b, c) := sector_data r c in Ok ((r.1, b), set_cache c d);
  dev_status := fun d => Ok (u_status d, d);
  Size_Sector := u_size;
  g_MaxLBA := u_lba;
}.

(** The cache shows the disk behind it, and the medium is ready. *)
Record usb_shows (d : usb) (k : disk_img) : Prop := {
  us_core : exists b, core (u_cache d) b;
  us_flags : flags_ok (u_cache d) 15;
  us_size : sectorSize (u_cache d) = dk_size k;
  us_dev : u_size d = dk_size k;
  us_lba : u_lba d = dk_lba k;
  us_ready : 0 <= u_status d /\ Z.land (u_status d) 3 = 3 /\ Z.land (u_status d) 4 <> 4;
  us_sector : forall sec, dk_in k sec -> sec_ok (u_cache d) sec /\
    read_at (logical (u_cache d)) (sec * dk_size k) (Z.to_nat (dk_size k)) = dk_sector k sec;
}.

Lemma usb_read d k sec :
  usb_shows d k -> dk_in k sec ->
  exists r d', dev_read sec d = Ok ((r, dk_sector k sec), d') /\ 0 <= r /\ usb_shows d' k.
Proof.
  intros [(b & C) F Es Ed El Er Hs] Hin. destruct (Hs sec Hin) as (Hok & Hb).
  destruct (readSector_spec (u_cache d) b sec C F Hok) as (p & c1 & b1 & E1 & C1 & F1 & (D1 & D2 & D3) & P1).
  assert (Hok1 : forall x, sec_ok (u_cache d) x -> sec_ok c1 x) by (intros x Hx; unfold sec_ok in *; by rewrite D2).
  pose proof (sector_data_ok c1 b1 sec p C1 (Hok1 _ Hok) P1) as E2. destruct (co_geo _ _ C) as (Gs & _ & _).
  assert (Hsame : forall x, sec_ok (u_cache d) x ->
    read_at (logical c1) (x * dk_size k) (Z.to_nat (dk_size k)) = read_at (logical (u_cache d)) (x * dk_size k) (Z.to_nat (dk_size k))).
  { intros x Hx. apply read_at_ext. intros j Hj. apply D3. rewrite <- Es in *.
    apply (sector_addr_ok (u_cache d) b x (Z.of_nat j) C Hx). lia. }
  exists (sectorSize (u_cache d)), (set_cache c1 d). split; [|split; [lia|]].
  - cbn [dev_read usb_dev]. rewrite E1. cbn [rbind fst]. destruct (Z.ltb_spec (sectorSize (u_cache d)) 0); [lia|].
    rewrite <- D1, E2. cbn [rbind]. by rewrite D1, Es, Hsame, Hb.
  - split; [by exists b1|done|cbn; congruence|done|done|done|]. intros x Hx. destruct (Hs x Hx) as (Hox & Hbx).
    split; [by apply Hok1|]. cbn [u_cache set_cache]. by rewrite Hsame.
Qed.

#[export] Instance usb_laws : SectorDevLaws usb.
Proof.
  refine {| shows := usb_shows |}.
  - intros d k Hd. exact (us_dev _ _ Hd).
  - intros d k Hd. exact (us_lba _ _ Hd).
  - exact usb_read.
  - intros d k Hd. exists (u_status d), d. destruct (us_ready _ _ Hd) as (? & ? & ?). done.
Defined.

(** The disk in the drive. *)
Definition disk_of (d : usb) : disk_img :=
  Img (u_size d) (u_lba d) (in_range (4096 / u_size d))
    (fun sec => read_at (load8 (disk (u_cache d))) (sec * u_size d) (Z.to_nat (u_size d))).

Lemma usb_init d b :
  sectorBuf (u_cache d) = None -> disk_rets (u_cache d) = [] -> u_heap d = Some b -> length b = BUF_LEN ->
  Forall is_u8 b -> 0 < u_size d -> (u_size d | 4096) -> 0 <= u_status d -> Z.land (u_status d) 3 = 3 ->
  Z.land (u_status d) 4 <> 4 ->
  exists d', dev_init (Size_Sector d) d = Ok (1, d') /\ shows d' (disk_of d).
Proof.
  intros Hb Hio Hh Hl Hu Hss Hdiv S1 S2 S3.
  destruct (init_stands (u_cache d) b 1 (u_size d) Hb Hio Hl Hu Hss Hdiv) as (c & E & ((b' & C) & F & L) & G1 & G2).
  exists (set_cache c d). split; [cbn [dev_init usb_dev Size_Sector]; by rewrite Hh, E|].
  split; [by exists b'|done|done|done|done|done|]. intros sec Hin. cbn [dk_in disk_of dk_size dk_sector] in *.
  assert (Hok : sec_ok c sec) by (unfold sec_ok; by rewrite G2). split; [exact Hok|].
  apply read_at_ext. intros j Hj. cbn [u_cache set_cache]. apply L.
  rewrite <- G1. apply (sector_addr_ok c b' sec (Z.of_nat j) C Hok). rewrite G1. lia.
Qed.

(** ** The theorem *)


Lemma disk_of_ok d : 0 < u_size d <= 4096 -> img_ok (disk_of d).
Proof.
  intros Hs. split; cbn [dk_size disk_of dk_in dk_sector].
  - lia.
  - intros sec [Hlo Hhi]. split; [done|]. unfold NO_SECTOR in Hhi.
    assert (Hil : 0 < 4096 / u_size d) by (apply Z.div_str_pos; lia).
    pose proof (Z.div_mod sec (4096 / u_size d) ltac:(lia)). pose proof (Z.mod_pos_bound sec (4096 / u_size d) Hil). lia.
  - intros sec _. unfold read_at. rewrite length_fmap, length_seq. lia.
  - intros sec _. unfold read_at. apply Forall_fmap, Forall_forall. intros j _. apply load8_range.
Qed.

(** *** A volume: FAT16 with the files A.TXT, of two clusters, and D/B *)

Definition sample_entry (name : list Z) (attr cluster size : Z) : list Z :=
  name ++ replicate (11 - length name) 32 ++ [attr] ++ replicate 14 0 ++ le16 cluster ++ le32 size.

Definition sample_bytes : gmap Z Z :=
  let d := store_bytes ∅ 11 (le16 512 ++ [1; 1; 0; 1; 16; 0] ++ le16 5000 ++ [0] ++ le16 20) in
  let d := store_bytes d 516 (le16 3 ++ le16 0xFFFF ++ le16 0xFFFF ++ le16 0xFFFF) in
  let d := store_bytes d (21 * 512) (sample_entry [65; 32; 32; 32; 32; 32; 32; 32; 84; 88; 84] 0x20 2 700) in
  let d := store_bytes d (21 * 512 + 32) (sample_entry [68] 0x10 4 0) in
  let d := store_bytes d (22 * 512) [10; 11; 12] in
  let d := store_bytes d (23 * 512 + 180) [20; 21; 22; 23] in
  let d := store_bytes d (24 * 512) (sample_entry [66] 0x20 5 3) in
  store_bytes d (25 * 512) [1; 2; 3].

Definition sample_usb : usb :=
  Usb (SCache 0 0 None [] 0 0 0 0 sample_bytes []) (Some (replicate BUF_LEN 0)) 3 512 5000.

Definition sample_fat : fat usb :=
  Fat sample_usb [] (replicate MAX_DIR_CLUSTER 0) 0 0 (replicate 4 (PartRec 0 0 0)) 0
    (Bpb 0 0 0 0 0 0 0 0 0 0 0 0 0 0 0 []) 0 0 0 (replicate MAX_FILES (FsRec (-1) 0 0 0))
    (replicate MAX_FILES (FatDir 0 (replicate FAT_MAX_NAME 0) [] [] 0 0 (replicate DIR_CHAIN_SIZE (0, 0)))) 0.

Definition sample_bpb : fat_bpb := Bpb 512 1 1 1 16 20 0 0 0 5000 0 21 0 0 FAT16 (replicate 9 0).

Lemma sample_geometry : geometry_ok (disk_of sample_usb) sample_bpb.
Proof.
  split; [split|..].
  - right. left. reflexivity.
  - reflexivity.
  - exists 128. reflexivity.
  - apply disk_of_ok. cbn [u_size sample_usb]. lia.
  - vm_compute. discriminate.
  - cbn [bpb_clusterSize sample_bpb]. lia.
  - vm_compute. discriminate.
Qed.

(** Membership of a literal list; sectors in range, by evaluation. *)
Ltac in_list := first [apply list_elem_of_here | apply list_elem_of_further; in_list].
Ltac in_img := vm_compute; split; [discriminate|discriminate].

Lemma sample_file c rest :
  (c, rest) ∈ [(2, [3]); (4, []); (5, [])] -> file_ok (disk_of sample_usb) sample_bpb c rest.
Proof.
  assert (Hdata : forall c, c ∈ [2; 3; 4; 5] -> data_ok (disk_of sample_usb) sample_bpb c).
  { intros c' Hc j Hj. cbn [bpb_clusterSize sample_bpb] in Hj. replace j with 0 by lia.
    repeat (apply elem_of_cons in Hc as [->|Hc]; [in_img|]). by apply elem_of_nil in Hc. }
  assert (Hcl : forall c, c ∈ [2; 3; 4; 5] -> cluster_ok (disk_of sample_usb) sample_bpb c).
  { intros c' Hc. repeat (apply elem_of_cons in Hc as [->|Hc];
      [split; [vm_compute; split; [discriminate|reflexivity]|split; [in_img|vm_compute; discriminate]]|]).
    by apply elem_of_nil in Hc. }
  intros Hin. repeat (apply elem_of_cons in Hin as [E|Hin]; [injection E as -> ->|]).
  - split; [|cbn [length]; unfold MAX_DIR_CLUSTER; lia| |reflexivity].
    + split; [apply Hcl; in_list|]. split; [vm_compute; reflexivity|]. split; [vm_compute; discriminate|].
      split; [apply Hcl; in_list|vm_compute; discriminate].
    + repeat (apply Forall_cons; split; [apply Hdata; in_list|]); by apply Forall_nil.
  - split; [|cbn [length]; unfold MAX_DIR_CLUSTER; lia| |reflexivity].
    + split; [apply Hcl; in_list|vm_compute; discriminate].
    + repeat (apply Forall_cons; split; [apply Hdata; in_list|]); by apply Forall_nil.
  - split; [|cbn [length]; unfold MAX_DIR_CLUSTER; lia| |reflexivity].
    + split; [apply Hcl; in_list|vm_compute; discriminate].
    + repeat (apply Forall_cons; split; [apply Hdata; in_list|]); by apply Forall_nil.
  - by apply elem_of_nil in Hin.
Qed.

Definition sample_root : list (list Z) := entries_of (disk_of sample_usb) sample_bpb (root_sector sample_bpb) 0 1.

Lemma sample_is_root : is_dir (disk_of sample_usb) sample_bpb 0 sample_root.
Proof.
  apply (dir_root (disk_of sample_usb) sample_bpb); [reflexivity|]. intros i Hi.
  assert (E : root_sectors sample_bpb = 1%nat) by (vm_compute; reflexivity). rewrite E in Hi. replace i with 0 by lia. in_img.
Qed.

Definition sample_sub : list (list Z) := entries_of (disk_of sample_usb) sample_bpb (chain_sector sample_bpb [4]) 0 1.

Lemma sample_is_sub : is_dir (disk_of sample_usb) sample_bpb 4 sample_sub.
Proof. apply (dir_chain (disk_of sample_usb) sample_bpb 4 []). apply sample_file. in_list. Qed.

Definition name_A : list Z := [97; 46; 116; 120; 116].
Definition name_D : list Z := [68].
Definition name_B : list Z := [98].

Definition bytes_A : list Z := take 700 (chain_bytes (disk_of sample_usb) sample_bpb [2; 3]).
Definition bytes_B : list Z := [1; 2; 3].

(** A name of a directory, by evaluation of the search. *)
Ltac dir_entry :=
  do 2 eexists; split; [eassumption|]; split; [vm_compute; reflexivity|];
  split; [do 2 eexists; split; [vm_compute; reflexivity|]; split; [vm_compute; reflexivity|apply Nat.leb_le; vm_compute; reflexivity]|].

Lemma sample_A : resolves (disk_of sample_usb) sample_bpb 0 [name_A] bytes_A.
Proof.
  pose proof sample_is_root. eexists. dir_entry. right. exists [3].
  split; [apply sample_file; in_list|]. split; [vm_compute; split; discriminate|reflexivity].
Qed.

Lemma sample_B : resolves (disk_of sample_usb) sample_bpb 0 [name_D; name_B] bytes_B.
Proof.
  pose proof sample_is_root. pose proof sample_is_sub. eexists _, _. split.
  - dir_entry. right. exists []. split; [apply sample_file; in_list|]. split; [vm_compute; split; discriminate|reflexivity].
  - eexists. dir_entry. right. exists []. split; [apply sample_file; in_list|].
    split; [vm_compute; split; discriminate|vm_compute; reflexivity].
Qed.

Definition sample_fsys (names : list (list Z)) : option (list Z) :=
  if decide (names = [name_A]) then Some bytes_A
  else if decide (names = [name_D; name_B]) then Some bytes_B else None.

Lemma sample_fsys_ok names bytes :
  sample_fsys names = Some bytes ->
  Forall name_ok names /\ resolves (disk_of sample_usb) sample_bpb 0 names bytes.
Proof.
  assert (Hok : forall n, n ∈ [name_A; name_D; name_B] -> name_ok n).
  { intros n Hn. repeat (apply elem_of_cons in Hn as [->|Hn];
      [split; [done|split; [repeat constructor|apply Nat.leb_le; reflexivity]]|]). by apply elem_of_nil in Hn. }
  unfold sample_fsys. destruct (decide _) as [-> |_].
  { intros E. apply (inj Some) in E as <-. split; [|exact sample_A]. apply Forall_singleton, Hok. in_list. }
  destruct (decide _) as [-> |_]; [|done]. intros E. apply (inj Some) in E as <-. split; [|exact sample_B].
  apply Forall_cons; split; [apply Hok; in_list|]. apply Forall_singleton, Hok. in_list.
Qed.

Lemma sample_mounted : exists s, fat_initDriver sample_fat = Ok (1, s) /\ files_ok (disk_of sample_usb) sample_bpb s (AVol ∅ 0).
Proof.
  destruct (usb_init sample_usb (replicate BUF_LEN 0) eq_refl eq_refl eq_refl (length_replicate _ _)) as (d & E & Hd).
  - apply Forall_replicate. split; [done|reflexivity].
  - reflexivity.
  - exists 8. reflexivity.
  - done.
  - reflexivity.
  - done.
  - apply (initDriver_ok (disk_of sample_usb) sample_fat sample_bpb 1 d).
    + split; [apply length_replicate|reflexivity|apply length_replicate| |reflexivity].
      apply Forall_replicate. apply length_replicate.
    + exact E.
    + done.
    + exact Hd.
    + do 3 eexists. split; [vm_compute; reflexivity|]. split; [split; [reflexivity|apply Nat.ltb_lt; reflexivity]|].
      split; [in_img|]. split; [in_img|vm_compute; reflexivity].
Qed.

(** Two files open at once: the cluster boundary, the end of a file, a position, a closed
    handle taken again and the refusal to write. *)
Definition sample_fops : list fop :=
  [FOpen true [name_A] 0; FOpen false [name_D; name_B] 1; FRead 0 600; FRead 1 10; FSeek 0 (-8) SEEK_END;
   FRead 0 100; FClose 0; FOpen false [name_A] 2; FOpen true [name_D; name_B] 0; FRead 0 2].

Lemma sample_fops_ok : Forall fop_ok sample_fops.
Proof.
  assert (Hn : Forall (Forall (fun c => 0 < c < 256)) [name_A; name_D; name_B]).
  { apply (proj2 (Forall_forall _ _)). intros n Hn. apply (proj2 (Forall_forall _ _)). intros c Hc.
    assert (E : forallb (forallb (fun c => (0 <? c) && (c <? 256))) [name_A; name_D; name_B] = true) by reflexivity.
    apply list_elem_of_In in Hn, Hc. rewrite forallb_forall in E. specialize (E n Hn). rewrite forallb_forall in E.
    specialize (E c Hc). lia. }
  inversion Hn as [|? ? HA Hn1]; inversion Hn1 as [|? ? HD Hn2]; inversion Hn2 as [|? ? HB Hn3]; subst.
  repeat (apply Forall_cons; split); try apply Forall_nil_2; cbn [fop_ok]; try (split; discriminate);
    try reflexivity; try done.
Qed.

