(* ===== verification/LibConfig.v ===== *)
(** * libconfig: settings (ee/libconfig/src/libconfig.c, include/libconfig.h)

    A configuration is a tree of settings on the heap: each setting points to its parent and,
    when it is a group, an array or a list, to the list of its elements.  Memory for settings
    is always there (the code does not check [calloc]); names and string values are kept by
    value; hooks and the destructor for them, which the loader never sets, are left out. *)

From S2P Require Import Prelude CString Queue.
From Stdlib Require Import SpecFloat.
Local Open Scope ps2rd_scope.
Local Open Scope Z_scope.

(** ** Types *)

Definition CONFIG_TYPE_NONE : Z := 0.
Definition CONFIG_TYPE_GROUP : Z := 1.
Definition CONFIG_TYPE_INT : Z := 2.
Definition CONFIG_TYPE_INT64 : Z := 3.
Definition CONFIG_TYPE_FLOAT : Z := 4.
Definition CONFIG_TYPE_STRING : Z := 5.
Definition CONFIG_TYPE_BOOL : Z := 6.
Definition CONFIG_TYPE_ARRAY : Z := 7.
Definition CONFIG_TYPE_LIST : Z := 8.

Definition CONFIG_FORMAT_DEFAULT : Z := 0.
Definition CONFIG_FORMAT_HEX : Z := 1.
Definition CONFIG_OPTION_AUTOCONVERT : Z := 1.
Definition CONFIG_TRUE : Z := 1.
Definition CONFIG_FALSE : Z := 0.

(** The union, with the member that was written last; [VZero] is zeroed memory: a null
    pointer and the number zero.  A list has its elements and room for [cap] of them. *)
Inductive config_value_t : Type :=
| VZero
| VInt (ival : Z)
| VInt64 (llval : Z)
| VFloat (fval : spec_float)
| VStr (sval : cstring)
| VList (elements : list loc) (cap : nat).

Record config_setting_t : Type := Setting {
  s_name : option cstring;
  s_type : Z;
  s_format : Z;
  s_value : config_value_t;
  s_parent : option loc;
}.

Inductive config_error_t : Type := CONFIG_ERR_NONE | CONFIG_ERR_FILE_IO | CONFIG_ERR_PARSE.

(** The object, the heap with its settings, and the next free location. *)
Record config_t : Type := Config {
  c_heap : gmap loc config_setting_t;
  c_fresh : loc;
  c_root : option loc;
  c_flags : Z;
  c_tab_width : Z;
  c_error : config_error_t;
}.

Definition set_heap (h : gmap loc config_setting_t) (c : config_t) : config_t :=
  Config h (c_fresh c) (c_root c) (c_flags c) (c_tab_width c) (c_error c).
Definition set_error (e : config_error_t) (c : config_t) : config_t :=
  Config (c_heap c) (c_fresh c) (c_root c) (c_flags c) (c_tab_width c) e.
Definition set_flags (f : Z) (c : config_t) : config_t :=
  Config (c_heap c) (c_fresh c) (c_root c) f (c_tab_width c) (c_error c).

Definition with_value (v : config_value_t) (s : config_setting_t) : config_setting_t :=
  Setting (s_name s) (s_type s) (s_format s) v (s_parent s).
Definition with_scalar (t : Z) (v : config_value_t) (s : config_setting_t) : config_setting_t :=
  Setting (s_name s) t (s_format s) v (s_parent s).
Definition with_format (f : Z) (s : config_setting_t) : config_setting_t :=
  Setting (s_name s) (s_type s) f (s_value s) (s_parent s).

(** ** Members of the union *)

Definition v_ival (v : config_value_t) : res Z :=
  match v with VZero => Ok 0 | VInt x => Ok x | _ => Err OutOfBounds end.
Definition v_llval (v : config_value_t) : res Z :=
  match v with VZero => Ok 0 | VInt64 x => Ok x | _ => Err OutOfBounds end.
Definition v_fval (v : config_value_t) : res spec_float :=
  match v with VZero => Ok (S754_zero false) | VFloat x => Ok x | _ => Err OutOfBounds end.
Definition v_sval (v : config_value_t) : res (option cstring) :=
  match v with VZero => Ok None | VStr x => Ok (Some x) | _ => Err OutOfBounds end.
Definition v_list (v : config_value_t) : res (option (list loc * nat)) :=
  match v with VZero => Ok None | VList l n => Ok (Some (l, n)) | _ => Err OutOfBounds end.

(** ** Numbers *)

Definition INT32_MAX : Z := 0x7FFFFFFF.
Definition INT32_MIN : Z := - 0x80000000.

(** An integer as a [double], and as a [float] stored in a [double]. *)
Definition double_of (x : Z) : spec_float := binary_normalize 53 1024 x 0 false.
Definition widen (f : spec_float) : spec_float :=
  match f with
  | S754_finite s m e => binary_normalize 53 1024 (if s then Z.neg m else Z.pos m) e false
  | f => f
  end.
Definition float_of (x : Z) : spec_float := widen (binary_normalize 24 128 x 0 false).

(** A [double] as an integer: towards zero; a value that does not fit has no meaning. *)
Definition trunc (lo hi : Z) (f : spec_float) : res Z :=
  match f with
  | S754_zero _ => Ok 0
  | S754_finite s m e =>
      let a := Z.shiftl (Z.pos m) e in
      let v := if s then - a else a in
      if (lo <=? v) && (v <=? hi) then Ok v else Err OutOfBounds
  | _ => Err OutOfBounds
  end.
Definition int_of (f : spec_float) : res Z := trunc INT32_MIN INT32_MAX f.
Definition llong_of (f : spec_float) : res Z := trunc (- 2 ^ 63) (2 ^ 63 - 1) f.

Definition auto_convert (flags : Z) : bool := negb (Z.land flags CONFIG_OPTION_AUTOCONVERT =? 0).

(** ** Names *)

Definition PATH_TOKENS : cstring := [58; 46; 47].
Definition is_sep (c : Z) : bool := bool_decide (c ∈ PATH_TOKENS).

Fixpoint __config_name_compare (a b : cstring) : Z :=
  let pd := match a with [] => true | p :: _ => is_sep p end in
  let qd := match b with [] => true | q :: _ => is_sep q end in
  if pd && qd then 0
  else if pd then -1
  else if qd then 1
  else match a, b with
       | p :: a', q :: b' =>
           if s8 p <? s8 q then -1
           else if s8 q <? s8 p then 1
           else __config_name_compare a' b'
       | _, _ => 0
       end.

Definition isalpha (c : Z) : bool := ((65 <=? c) && (c <=? 90)) || ((97 <=? c) && (c <=? 122)).

Definition name_char (c : Z) : bool :=
  isalpha c || isdigit c || bool_decide (c ∈ [42; 95; 45]).

Definition __config_validate_name (name : cstring) : bool :=
  match name with
  | [] => false
  | c :: rest => (isalpha c || (c =? 42)) && forallb name_char rest
  end.

(** ** Dereferences *)

Definition setting (p : loc) : M config_t config_setting_t :=
  fun c => let? s := deref (c_heap c) p in Ok (s, c).

Definition store (p : loc) (s : config_setting_t) : M config_t unit :=
  modify (fun c => set_heap (<[p := s]> (c_heap c)) c).

Definition is_aggregate (t : Z) : bool :=
  (t =? CONFIG_TYPE_GROUP) || (t =? CONFIG_TYPE_ARRAY) || (t =? CONFIG_TYPE_LIST).

(** ** Lists of settings *)

Definition CHUNK_SIZE : nat := 16.

Definition __config_list_add (l : list loc) (cap : nat) (p : loc) : res (list loc * nat) :=
  let cap := if (length l mod CHUNK_SIZE =? 0)%nat then (length l + CHUNK_SIZE)%nat else cap in
  if (cap <=? length l)%nat then Err OutOfBounds else Ok (l ++ [p], cap).

(** The elements from index [i] on. *)
Fixpoint search_from (h : gmap loc config_setting_t) (i : nat) (l : list loc) (name : option cstring) :
    res (option (nat * loc)) :=
  match l with
  | [] => Ok None
  | p :: l' =>
      let? s := deref h p in
      match s_name s with
      | None => search_from h (S i) l' name
      | Some n =>
          let? name' := of_option NullDeref name in
          if __config_name_compare name' n =? 0 then Ok (Some (i, p)) else search_from h (S i) l' name
      end
  end.

Definition __config_list_search (h : gmap loc config_setting_t) (l : option (list loc * nat)) (name : option cstring) :
    res (option (nat * loc)) :=
  match l with None => Ok None | Some (l, _) => search_from h 0 l name end.

(** The element and the list without it. *)
Definition __config_list_remove (l : list loc) (idx : nat) : res (loc * list loc) :=
  let? p := of_option OutOfBounds (l !! idx) in
  Ok (p, delete idx l).

Section Destroy.
  Context (destroy : loc -> gmap loc config_setting_t -> res (gmap loc config_setting_t)).

Fixpoint __config_list_destroy (l : list loc) (h : gmap loc config_setting_t) : res (gmap loc config_setting_t) :=
  match l with
  | [] => Ok h
  | p :: l' => let? h := destroy p h in __config_list_destroy l' h
  end.
End Destroy.

Fixpoint destroy_fuel (fuel : nat) (p : loc) (h : gmap loc config_setting_t) : res (gmap loc config_setting_t) :=
  match fuel with
  | O => Err OutOfFuel
  | S fuel' =>
      let? s := deref h p in
      let? h :=
        if is_aggregate (s_type s) then
          let? l := v_list (s_value s) in
          match l with
          | None => Ok h
          | Some (l, _) => __config_list_destroy (destroy_fuel fuel') l h
          end
        else if s_type s =? CONFIG_TYPE_STRING then let? _ := v_sval (s_value s) in Ok h
        else Ok h in
      let? _ := deref h p in
      Ok (delete p h)
  end.

(** The number of settings bounds the depth of the recursion. *)
Definition __config_setting_destroy (p : option loc) : M config_t unit := fun c =>
  match p with
  | None => Ok (tt, c)
  | Some p => let? h := destroy_fuel (S (size (c_heap c))) p (c_heap c) in Ok (tt, set_heap h c)
  end.

(** ** Creation *)

Definition config_init : M config_t unit := fun c =>
  let p := c_fresh c in
  Ok (tt, Config (<[p := Setting None CONFIG_TYPE_GROUP 0 VZero None]> (c_heap c)) (Pos.succ p) (Some p) 0 2
            CONFIG_ERR_NONE).

Definition config_destroy : M config_t unit :=
  let* r := gets c_root in
  __config_setting_destroy r;;
  modify (fun c => Config (c_heap c) (c_fresh c) None 0 0 CONFIG_ERR_NONE).

Definition config_set_auto_convert (flag : bool) : M config_t unit :=
  modify (fun c => set_flags (if flag then Z.lor (c_flags c) CONFIG_OPTION_AUTOCONVERT
                              else Z.land (c_flags c) (Z.lnot CONFIG_OPTION_AUTOCONVERT)) c).

Definition config_get_auto_convert : M config_t bool := gets (fun c => auto_convert (c_flags c)).

(** [calloc] of a setting. *)
Definition new_setting (s : config_setting_t) : M config_t loc := fun c =>
  let p := c_fresh c in
  Ok (p, Config (<[p := s]> (c_heap c)) (Pos.succ p) (c_root c) (c_flags c) (c_tab_width c) (c_error c)).

Definition config_setting_create (parent : loc) (name : option cstring) (type : Z) : M config_t (option loc) :=
  let* ps := setting parent in
  if negb (is_aggregate (s_type ps)) then ret None
  else
    let* p := new_setting (Setting name type 0 VZero (Some parent)) in
    let* ps := setting parent in
    let* l := lift (v_list (s_value ps)) in
    let '(l, cap) := default ([], 0%nat) l in
    let* '(l, cap) := lift (__config_list_add l cap p) in
    store parent (with_value (VList l cap) ps);;
    ret (Some p).

(** ** Elements and members *)

Definition config_setting_get_elem (vector : loc) (idx : Z) : M config_t (option loc) :=
  let* s := setting vector in
  if negb (is_aggregate (s_type s)) then ret None
  else
    let* l := lift (v_list (s_value s)) in
    match l with
    | None => ret None
    | Some (l, _) => if Z.of_nat (length l) <=? u32 idx then ret None else ret (l !! Z.to_nat (u32 idx))
    end.

Definition config_setting_get_member (p : loc) (name : option cstring) : M config_t (option loc) :=
  let* s := setting p in
  if negb (s_type s =? CONFIG_TYPE_GROUP) then ret None
  else
    let* l := lift (v_list (s_value s)) in
    let* h := gets c_heap in
    let* f := lift (__config_list_search h l name) in
    ret (snd <$> f).

Definition config_setting_length (p : loc) : M config_t Z :=
  let* s := setting p in
  if negb (is_aggregate (s_type s)) then ret 0
  else
    let* l := lift (v_list (s_value s)) in
    ret (match l with None => 0 | Some (l, _) => Z.of_nat (length l) end).

Definition config_setting_index (p : loc) : M config_t Z :=
  let* s := setting p in
  match s_parent s with
  | None => ret (-1)
  | Some q =>
      let* ps := setting q in
      let* l := lift (v_list (s_value ps)) in
      let* '(l, _) := lift (of_option NullDeref l) in
      ret (match list_find (fun x => x = p) l with Some (i, _) => Z.of_nat i | None => -1 end)
  end.

Definition config_setting_add (parent : option loc) (name : option cstring) (type : Z) : M config_t (option loc) :=
  if (type <? CONFIG_TYPE_NONE) || (CONFIG_TYPE_LIST <? type) then ret None
  else match parent with
  | None => ret None
  | Some parent =>
      let* ps := setting parent in
      let name := if (s_type ps =? CONFIG_TYPE_ARRAY) || (s_type ps =? CONFIG_TYPE_LIST) then None else name in
      if match name with Some n => negb (__config_validate_name n) | None => false end then ret None
      else
        let* m := config_setting_get_member parent name in
        match m with
        | Some _ => ret None
        | None => config_setting_create parent name type
        end
  end.

Definition config_setting_remove (parent : option loc) (name : option cstring) : M config_t Z :=
  match parent with
  | None => ret CONFIG_FALSE
  | Some parent =>
      let* ps := setting parent in
      if negb (s_type ps =? CONFIG_TYPE_GROUP) then ret CONFIG_FALSE
      else
        let* l := lift (v_list (s_value ps)) in
        let* h := gets c_heap in
        let* f := lift (__config_list_search h l name) in
        match f, l with
        | Some (idx, p), Some (l, cap) =>
            let* '(_, l) := lift (__config_list_remove l idx) in
            store parent (with_value (VList l cap) ps);;
            __config_setting_destroy (Some p);;
            ret CONFIG_TRUE
        | _, _ => ret CONFIG_FALSE
        end
  end.

Definition config_setting_remove_elem (parent : option loc) (idx : Z) : M config_t Z :=
  match parent with
  | None => ret CONFIG_FALSE
  | Some parent =>
      let* ps := setting parent in
      if negb (is_aggregate (s_type ps)) then ret CONFIG_FALSE
      else
        let* l := lift (v_list (s_value ps)) in
        match l with
        | None => ret CONFIG_FALSE
        | Some (l, cap) =>
            if Z.of_nat (length l) <=? u32 idx then ret CONFIG_FALSE
            else
              let* '(p, l) := lift (__config_list_remove l (Z.to_nat (u32 idx))) in
              store parent (with_value (VList l cap) ps);;
              __config_setting_destroy (Some p);;
              ret CONFIG_TRUE
        end
  end.

(** ** Values *)

Definition setting_get_int (flags : Z) (s : config_setting_t) : res Z :=
  if s_type s =? CONFIG_TYPE_INT then v_ival (s_value s)
  else if s_type s =? CONFIG_TYPE_INT64 then
    let? x := v_llval (s_value s) in
    Ok (if (INT32_MAX <? x) || (x <? INT32_MIN) then 0 else x)
  else if (s_type s =? CONFIG_TYPE_FLOAT) && auto_convert flags then
    let? f := v_fval (s_value s) in int_of f
  else Ok 0.

Definition setting_get_int64 (flags : Z) (s : config_setting_t) : res Z :=
  if s_type s =? CONFIG_TYPE_INT64 then v_llval (s_value s)
  else if s_type s =? CONFIG_TYPE_INT then v_ival (s_value s)
  else if (s_type s =? CONFIG_TYPE_FLOAT) && auto_convert flags then
    let? f := v_fval (s_value s) in llong_of f
  else Ok 0.

Definition setting_get_float (flags : Z) (s : config_setting_t) : res spec_float :=
  if s_type s =? CONFIG_TYPE_FLOAT then v_fval (s_value s)
  else if (s_type s =? CONFIG_TYPE_INT) && auto_convert flags then
    let? x := v_ival (s_value s) in Ok (double_of x)
  else if (s_type s =? CONFIG_TYPE_INT64) && auto_convert flags then
    let? x := v_llval (s_value s) in Ok (double_of x)
  else Ok (S754_zero false).

Definition setting_get_bool (s : config_setting_t) : res Z :=
  if s_type s =? CONFIG_TYPE_BOOL then v_ival (s_value s) else Ok 0.

Definition setting_get_string (s : config_setting_t) : res (option cstring) :=
  if s_type s =? CONFIG_TYPE_STRING then v_sval (s_value s) else Ok None.

(** A setting after the assignment, [None] when the type does not allow it. *)
Definition setting_set_int (flags value : Z) (s : config_setting_t) : res (option config_setting_t) :=
  if (s_type s =? CONFIG_TYPE_NONE) || (s_type s =? CONFIG_TYPE_INT) then
    Ok (Some (with_scalar CONFIG_TYPE_INT (VInt value) s))
  else if (s_type s =? CONFIG_TYPE_FLOAT) && auto_convert flags then
    Ok (Some (with_value (VFloat (float_of value)) s))
  else Ok None.

Definition setting_set_int64 (flags value : Z) (s : config_setting_t) : res (option config_setting_t) :=
  if (s_type s =? CONFIG_TYPE_NONE) || (s_type s =? CONFIG_TYPE_INT64) then
    Ok (Some (with_scalar CONFIG_TYPE_INT64 (VInt64 value) s))
  else if s_type s =? CONFIG_TYPE_INT then
    Ok (Some (with_value (VInt (if (INT32_MAX <? value) || (value <? INT32_MIN) then 0 else value)) s))
  else if (s_type s =? CONFIG_TYPE_FLOAT) && auto_convert flags then
    Ok (Some (with_value (VFloat (float_of value)) s))
  else Ok None.

Definition setting_set_float (flags : Z) (value : spec_float) (s : config_setting_t) : res (option config_setting_t) :=
  if (s_type s =? CONFIG_TYPE_NONE) || (s_type s =? CONFIG_TYPE_FLOAT) then
    Ok (Some (with_scalar CONFIG_TYPE_FLOAT (VFloat value) s))
  else if (s_type s =? CONFIG_TYPE_INT) && auto_convert flags then
    let? x := int_of value in Ok (Some (with_value (VInt x) s))
  else if (s_type s =? CONFIG_TYPE_INT64) && auto_convert flags then
    let? x := llong_of value in Ok (Some (with_value (VInt64 x) s))
  else Ok None.

Definition setting_set_bool (value : Z) (s : config_setting_t) : res (option config_setting_t) :=
  if (s_type s =? CONFIG_TYPE_NONE) || (s_type s =? CONFIG_TYPE_BOOL) then
    Ok (Some (with_scalar CONFIG_TYPE_BOOL (VInt value) s))
  else Ok None.

(** The old string is freed. *)
Definition setting_set_string (value : option cstring) (s : config_setting_t) : res (option config_setting_t) :=
  if (s_type s =? CONFIG_TYPE_NONE) || (s_type s =? CONFIG_TYPE_STRING) then
    let? _ := v_sval (s_value s) in
    Ok (Some (with_scalar CONFIG_TYPE_STRING (match value with Some x => VStr x | None => VZero end) s))
  else Ok None.

Definition setting_set_format (format : Z) (s : config_setting_t) : res (option config_setting_t) :=
  if negb (s_type s =? CONFIG_TYPE_INT) && negb (s_type s =? CONFIG_TYPE_INT64) ||
     negb (format =? CONFIG_FORMAT_DEFAULT) && negb (format =? CONFIG_FORMAT_HEX) then Ok None
  else Ok (Some (with_format format s)).

(** Read and write a setting through a pointer. *)
Definition read_setting {A} (f : Z -> config_setting_t -> res A) (p : option loc) : M config_t A :=
  let* p := lift (of_option NullDeref p) in
  let* s := setting p in
  let* flags := gets c_flags in
  lift (f flags s).

Definition write_setting (f : Z -> config_setting_t -> res (option config_setting_t)) (p : option loc) : M config_t Z :=
  let* p := lift (of_option NullDeref p) in
  let* s := setting p in
  let* flags := gets c_flags in
  let* r := lift (f flags s) in
  match r with
  | None => ret CONFIG_FALSE
  | Some s => store p s;; ret CONFIG_TRUE
  end.

Definition config_setting_get_int : option loc -> M config_t Z := read_setting setting_get_int.
Definition config_setting_get_int64 : option loc -> M config_t Z := read_setting setting_get_int64.
Definition config_setting_get_float : option loc -> M config_t spec_float := read_setting setting_get_float.
Definition config_setting_get_bool : option loc -> M config_t Z := read_setting (fun _ => setting_get_bool).
Definition config_setting_get_string : option loc -> M config_t (option cstring) :=
  read_setting (fun _ => setting_get_string).
Definition config_setting_get_format : option loc -> M config_t Z := read_setting (fun _ s => Ok (s_format s)).

Definition config_setting_set_int (p : option loc) (value : Z) : M config_t Z :=
  write_setting (fun flags => setting_set_int flags value) p.
Definition config_setting_set_int64 (p : option loc) (value : Z) : M config_t Z :=
  write_setting (fun flags => setting_set_int64 flags value) p.
Definition config_setting_set_float (p : option loc) (value : spec_float) : M config_t Z :=
  write_setting (fun flags => setting_set_float flags value) p.
Definition config_setting_set_bool (p : option loc) (value : Z) : M config_t Z :=
  write_setting (fun _ => setting_set_bool value) p.
Definition config_setting_set_string (p : option loc) (value : option cstring) : M config_t Z :=
  write_setting (fun _ => setting_set_string value) p.
Definition config_setting_set_format (p : option loc) (format : Z) : M config_t Z :=
  write_setting (fun _ => setting_set_format format) p.

(** ** Values of elements *)

Definition config_setting_get_int_elem (vector : loc) (idx : Z) : M config_t Z :=
  let* e := config_setting_get_elem vector idx in
  match e with None => ret 0 | Some _ => config_setting_get_int e end.
Definition config_setting_get_int64_elem (vector : loc) (idx : Z) : M config_t Z :=
  let* e := config_setting_get_elem vector idx in
  match e with None => ret 0 | Some _ => config_setting_get_int64 e end.
Definition config_setting_get_float_elem (vector : loc) (idx : Z) : M config_t spec_float :=
  let* e := config_setting_get_elem vector idx in
  match e with None => ret (S754_zero false) | Some _ => config_setting_get_float e end.
Definition config_setting_get_bool_elem (vector : loc) (idx : Z) : M config_t Z :=
  let* e := config_setting_get_elem vector idx in
  match e with None => ret CONFIG_FALSE | Some _ => config_setting_get_bool e end.
Definition config_setting_get_string_elem (vector : loc) (idx : Z) : M config_t (option cstring) :=
  let* e := config_setting_get_elem vector idx in
  match e with None => ret None | Some _ => config_setting_get_string e end.

(** The first element determines the type of an array. *)
Definition __config_vector_checktype (vector : loc) (type : Z) : M config_t bool :=
  let* s := setting vector in
  let* l := lift (v_list (s_value s)) in
  match l with
  | None | Some ([], _) => ret true
  | Some (p :: _, _) =>
      if s_type s =? CONFIG_TYPE_LIST then ret true
      else let* e := setting p in ret (s_type e =? type)
  end.

(** A negative index adds an element. *)
Definition set_elem (vector : loc) (idx type : Z) (set : option loc -> M config_t Z) : M config_t (option loc) :=
  let* s := setting vector in
  if negb (s_type s =? CONFIG_TYPE_ARRAY) && negb (s_type s =? CONFIG_TYPE_LIST) then ret None
  else
    let* e :=
      if idx <? 0 then
        let* ok := __config_vector_checktype vector type in
        if (ok : bool) then config_setting_create vector None type else ret None
      else config_setting_get_elem vector idx in
    match e with
    | None => ret None
    | Some _ =>
        let* r := set e in
        if r =? 0 then ret None else ret e
    end.

Definition config_setting_set_int_elem (vector : loc) (idx value : Z) : M config_t (option loc) :=
  set_elem vector idx CONFIG_TYPE_INT (fun e => config_setting_set_int e value).
Definition config_setting_set_int64_elem (vector : loc) (idx value : Z) : M config_t (option loc) :=
  set_elem vector idx CONFIG_TYPE_INT64 (fun e => config_setting_set_int64 e value).
Definition config_setting_set_float_elem (vector : loc) (idx : Z) (value : spec_float) : M config_t (option loc) :=
  set_elem vector idx CONFIG_TYPE_FLOAT (fun e => config_setting_set_float e value).
Definition config_setting_set_bool_elem (vector : loc) (idx value : Z) : M config_t (option loc) :=
  set_elem vector idx CONFIG_TYPE_BOOL (fun e => config_setting_set_bool e value).
Definition config_setting_set_string_elem (vector : loc) (idx : Z) (value : option cstring) : M config_t (option loc) :=
  set_elem vector idx CONFIG_TYPE_STRING (fun e => config_setting_set_string e value).

(** ** Paths *)

(** [atoi]: blanks, a sign, digits. *)
Fixpoint digits (acc : Z) (s : cstring) : Z :=
  match s with
  | [] => acc
  | c :: s' => if isdigit c then digits (10 * acc + (c - 48)) s' else acc
  end.

Fixpoint atoi (s : cstring) : Z :=
  match s with
  | [] => 0
  | c :: s' =>
      if isspace c then atoi s'
      else if c =? 45 then s32 (- digits 0 s')
      else if c =? 43 then s32 (digits 0 s')
      else s32 (digits 0 s)
  end.

Fixpoint skip_seps (p : cstring) : cstring :=
  match p with c :: p' => if is_sep c then skip_seps p' else p | [] => [] end.
Fixpoint skip_name (p : cstring) : cstring :=
  match p with c :: p' => if is_sep c then p else skip_name p' | [] => [] end.

(** Every round takes a character: the length of the path is fuel enough. *)
Fixpoint lookup_loop (fuel : nat) (p : loc) (path : cstring) : M config_t (option loc) :=
  match fuel with
  | O => fail OutOfFuel
  | S fuel' =>
      match skip_seps path with
      | [] => ret (Some p)
      | c :: rest =>
          let q := if c =? 91 then rest else c :: rest in
          let* found := if c =? 91 then config_setting_get_elem p (atoi rest)
                        else config_setting_get_member p (Some q) in
          match found with
          | None => ret (match q with [] => Some p | _ => None end)
          | Some p' => lookup_loop fuel' p' (skip_name q)
          end
      end
  end.

Definition config_lookup_from (p : loc) (path : cstring) : M config_t (option loc) :=
  lookup_loop (S (length path)) p path.

Definition config_lookup (path : cstring) : M config_t (option loc) :=
  let* r := gets c_root in
  let* r := lift (of_option NullDeref r) in
  config_lookup_from r path.

(** The value at a setting that is there and has the type; [None] is CONFIG_FALSE. *)
Definition typed {A} (type : Z) (get : option loc -> M config_t A) (p : option loc) : M config_t (option A) :=
  match p with
  | None => ret None
  | Some q =>
      let* s := setting q in
      if negb (s_type s =? type) then ret None
      else let* x := get p in ret (Some x)
  end.

Definition config_lookup_int (path : cstring) : M config_t (option Z) :=
  let* s := config_lookup path in typed CONFIG_TYPE_INT config_setting_get_int s.
Definition config_lookup_int64 (path : cstring) : M config_t (option Z) :=
  let* s := config_lookup path in typed CONFIG_TYPE_INT64 config_setting_get_int64 s.
Definition config_lookup_float (path : cstring) : M config_t (option spec_float) :=
  let* s := config_lookup path in typed CONFIG_TYPE_FLOAT config_setting_get_float s.
Definition config_lookup_bool (path : cstring) : M config_t (option Z) :=
  let* s := config_lookup path in typed CONFIG_TYPE_BOOL config_setting_get_bool s.
Definition config_lookup_string (path : cstring) : M config_t (option (option cstring)) :=
  let* s := config_lookup path in typed CONFIG_TYPE_STRING config_setting_get_string s.

Definition config_setting_lookup_int (p : loc) (name : option cstring) : M config_t (option Z) :=
  let* m := config_setting_get_member p name in typed CONFIG_TYPE_INT config_setting_get_int m.
Definition config_setting_lookup_int64 (p : loc) (name : option cstring) : M config_t (option Z) :=
  let* m := config_setting_get_member p name in typed CONFIG_TYPE_INT64 config_setting_get_int64 m.
Definition config_setting_lookup_float (p : loc) (name : option cstring) : M config_t (option spec_float) :=
  let* m := config_setting_get_member p name in typed CONFIG_TYPE_FLOAT config_setting_get_float m.
Definition config_setting_lookup_bool (p : loc) (name : option cstring) : M config_t (option Z) :=
  let* m := config_setting_get_member p name in typed CONFIG_TYPE_BOOL config_setting_get_bool m.
Definition config_setting_lookup_string (p : loc) (name : option cstring) : M config_t (option (option cstring)) :=
  let* m := config_setting_get_member p name in typed CONFIG_TYPE_STRING config_setting_get_string m.
