(* ===== verification/LibConfigTree.v ===== *)
(** * Settings as a tree

    The heap of libconfig is exactly a tree of settings: no setting is shared, none is lost,
    every value has the type of its setting, the members of a group have different valid
    names.  Every function of the interface keeps it that way. *)

From S2P Require Import Prelude CString Queue LibConfig.
From Stdlib Require Import SpecFloat.
Local Open Scope ps2rd_scope.
Local Open Scope Z_scope.

(** ** Trees *)

Inductive ltree : Type := LNode (p : loc) (s : config_setting_t) (kids : list ltree).

Section LtreeInd.
  Context (P : ltree -> Prop) (Hnode : forall p s kids, Forall P kids -> P (LNode p s kids)).

Fixpoint ltree_ind' (t : ltree) : P t :=
  match t with
  | LNode p s kids =>
      Hnode p s kids ((fix go (l : list ltree) : Forall P l :=
                         match l with [] => Forall_nil_2 P | x :: l' => Forall_cons_2 P x l' (ltree_ind' x) (go l') end) kids)
  end.
End LtreeInd.

Definition t_loc (t : ltree) : loc := match t with LNode p _ _ => p end.
Definition t_set (t : ltree) : config_setting_t := match t with LNode _ s _ => s end.
Definition t_kids (t : ltree) : list ltree := match t with LNode _ _ k => k end.

Fixpoint entries (t : ltree) : list (loc * config_setting_t) :=
  match t with LNode p s kids => (p, s) :: flat_map entries kids end.

Definition locs (t : ltree) : list loc := (entries t).*1.

(** The subtree at a location. *)
Fixpoint find (q : loc) (t : ltree) : option ltree :=
  match t with
  | LNode p _ kids => if decide (q = p) then Some t else foldr (fun k r => match find q k with None => r | x => x end) None kids
  end.

Definition find_in (q : loc) (l : list ltree) : option ltree :=
  foldr (fun k r => match find q k with None => r | x => x end) None l.

(** Another subtree at a location. *)
Fixpoint replace (q : loc) (n t : ltree) : ltree :=
  match t with LNode p s kids => if decide (q = p) then n else LNode p s (replace q n <$> kids) end.

(** ** Well-typed settings *)

Definition kid_name (k : ltree) : option cstring := s_name (t_set k).

Definition names_ok (type : Z) (kids : list ltree) : Prop :=
  if type =? CONFIG_TYPE_GROUP then
    NoDup (kid_name <$> kids) /\
    Forall (fun k => exists n, s_name (t_set k) = Some n /\ __config_validate_name n = true) kids
  else Forall (fun k => s_name (t_set k) = None) kids.

(** The memory that the elements of a list need: whole chunks. *)
Definition room (n : nat) : nat := (n + 15) / CHUNK_SIZE * CHUNK_SIZE.

(** The member of the union that is in use is the one of the type. *)
Definition scalar_ok (s : config_setting_t) : Prop :=
  match s_value s with
  | VZero => True
  | VInt _ => s_type s = CONFIG_TYPE_INT \/ s_type s = CONFIG_TYPE_BOOL
  | VInt64 _ => s_type s = CONFIG_TYPE_INT64
  | VFloat _ => s_type s = CONFIG_TYPE_FLOAT
  | VStr _ => s_type s = CONFIG_TYPE_STRING
  | VList _ _ => False
  end.

Definition value_ok (s : config_setting_t) (kids : list ltree) : Prop :=
  if is_aggregate (s_type s) then
    names_ok (s_type s) kids /\
    ((s_value s = VZero /\ kids = []) \/
     exists cap, s_value s = VList (t_loc <$> kids) cap /\ (room (length kids) <= cap)%nat)
  else kids = [] /\ scalar_ok s.

Inductive wt : option loc -> ltree -> Prop :=
  wt_node par p s kids :
    CONFIG_TYPE_NONE <= s_type s <= CONFIG_TYPE_LIST -> s_parent s = par -> value_ok s kids ->
    Forall (wt (Some p)) kids -> wt par (LNode p s kids).

(** The heap is the tree. *)
Record crep (c : config_t) (t : ltree) : Prop := {
  cr_root : c_root c = Some (t_loc t);
  cr_heap : c_heap c = list_to_map (entries t);
  cr_nodup : NoDup (locs t);
  cr_fresh : Forall (fun p => (p < c_fresh c)%positive) (locs t);
  cr_wt : wt None t;
}.

(** ** Subtrees *)

Lemma entries_node p s kids : entries (LNode p s kids) = (p, s) :: flat_map entries kids.
Proof. done. Qed.

Lemma locs_flat l : (flat_map entries l).*1 = flat_map locs l.
Proof. induction l as [|k l IH]; [done|]. cbn [flat_map]. by rewrite fmap_app, IH. Qed.

Lemma locs_node p s kids : locs (LNode p s kids) = p :: flat_map locs kids.
Proof. unfold locs at 1. rewrite entries_node. cbn. by rewrite locs_flat. Qed.

Lemma loc_in n : t_loc n ∈ locs n.
Proof. destruct n as [p s kids]. rewrite locs_node. left. Qed.

Lemma find_node q p s kids : find q (LNode p s kids) = if decide (q = p) then Some (LNode p s kids) else find_in q kids.
Proof. done. Qed.

Lemma find_in_cons q k l : find_in q (k :: l) = match find q k with None => find_in q l | x => x end.
Proof. done. Qed.

(** A location that does not occur. *)
Lemma absent q t : q ∉ locs t -> find q t = None /\ forall n, replace q n t = t.
Proof.
  induction t as [p s kids IH] using ltree_ind'. rewrite locs_node, find_node. intros Hq.
  apply not_elem_of_cons in Hq as [Hp Hk]. rewrite decide_False by done.
  assert (Hkids : find_in q kids = None /\ forall n, replace q n <$> kids = kids).
  { clear Hp. induction IH as [|k l Hkid _ IHl]; [done|]. cbn [flat_map] in Hk. apply not_elem_of_app in Hk as [Hk1 Hk2].
    destruct (Hkid Hk1) as [Hf Hr], (IHl Hk2) as [Hfl Hrl]. rewrite find_in_cons, Hf. split; [done|].
    intros n. cbn. by rewrite Hr, Hrl. }
  destruct Hkids as [-> Hr]. split; [done|]. intros n. cbn [replace]. rewrite decide_False by done. by rewrite Hr.
Qed.

Lemma absent_in q l : q ∉ flat_map locs l -> forall n, replace q n <$> l = l.
Proof.
  intros Hq n. induction l as [|x l IH]; [done|]. cbn [flat_map] in Hq. apply not_elem_of_app in Hq as [H1 H2].
  cbn. rewrite (proj2 (absent q x H1)). f_equal. by apply IH.
Qed.

(** A subtree is a part of the entries, and replacing it replaces this part. *)
Lemma find_split q t n :
  NoDup (locs t) -> find q t = Some n ->
  exists l1 l2, t_loc n = q /\ entries t = l1 ++ entries n ++ l2 /\
    forall n', entries (replace q n' t) = l1 ++ entries n' ++ l2.
Proof.
  induction t as [p s kids IH] using ltree_ind'. rewrite locs_node, find_node. intros Hnd Hf.
  apply NoDup_cons in Hnd as [Hp Hnd]. destruct (decide (q = p)) as [-> |Hne].
  { apply (inj Some) in Hf as <-. exists [], []. split; [done|]. split; [by rewrite app_nil_r|].
    intros n'. cbn [replace]. rewrite decide_True by done. by rewrite app_nil_r. }
  assert (Hkids : exists l1 l2, t_loc n = q /\ flat_map entries kids = l1 ++ entries n ++ l2 /\
    forall n', flat_map entries (replace q n' <$> kids) = l1 ++ entries n' ++ l2).
  { clear Hp Hne. induction IH as [|k l Hkid _ IHl]; [done|]. cbn [flat_map] in Hnd.
    apply NoDup_app in Hnd as (Hn1 & Hn2 & Hn3). rewrite find_in_cons in Hf. destruct (find q k) as [m|] eqn:E.
    - apply (inj Some) in Hf as ->. destruct (Hkid Hn1 eq_refl) as (l1 & l2 & Hq & E1 & E2).
      assert (Hl : forall n', replace q n' <$> l = l).
      { intros n'. apply absent_in, Hn2. unfold locs. rewrite E1, !fmap_app. apply elem_of_app. right.
        apply elem_of_app. left. rewrite <- Hq. apply loc_in. }
      exists l1, (l2 ++ flat_map entries l). split; [done|]. split.
      + cbn [flat_map]. by rewrite E1, <- !app_assoc.
      + intros n'. cbn [fmap list_fmap flat_map]. rewrite Hl, E2. by rewrite <- !app_assoc.
    - destruct (IHl Hn3 Hf) as (l1 & l2 & Hq & E1 & E2). exists (entries k ++ l1), l2. split; [done|].
      assert (Hk : forall n', replace q n' k = k).
      { intros n'. apply absent. intros Hin. apply (Hn2 q Hin). rewrite <- locs_flat, E1, !fmap_app.
        apply elem_of_app. right. apply elem_of_app. left. rewrite <- Hq. apply loc_in. }
      split.
      + cbn [flat_map]. by rewrite E1, <- !app_assoc.
      + intros n'. cbn [fmap list_fmap flat_map]. rewrite Hk, E2. by rewrite <- !app_assoc. }
  destruct Hkids as (l1 & l2 & Hq & E1 & E2). exists ((p, s) :: l1), l2. split; [done|]. split.
  - rewrite entries_node, E1. done.
  - intros n'. cbn [replace]. rewrite decide_False by done. rewrite entries_node, E2. done.
Qed.

Lemma find_loc q t n : find q t = Some n -> t_loc n = q /\ q ∈ locs t.
Proof.
  induction t as [p s kids IH] using ltree_ind'. rewrite locs_node, find_node.
  destruct (decide (q = p)) as [-> |_]; [intros E; apply (inj Some) in E as <-; split; [done|left]|].
  induction IH as [|k l Hk _ IHl]; [done|]. rewrite find_in_cons. cbn [flat_map]. destruct (find q k) as [m|] eqn:E.
  - intros Em. apply (inj Some) in Em as ->. destruct (Hk eq_refl) as [Hq Hin]. split; [done|].
    right. apply elem_of_app. by left.
  - intros Em. destruct (IHl Em) as [Hq Hin]. split; [done|]. apply elem_of_cons in Hin as [->|Hin]; [left|].
    right. apply elem_of_app. by right.
Qed.

Lemma find_some q t : q ∈ locs t -> exists n, find q t = Some n.
Proof.
  induction t as [p s kids IH] using ltree_ind'. rewrite locs_node, find_node.
  destruct (decide (q = p)) as [-> |Hne]; [by eexists|]. intros Hin. apply elem_of_cons in Hin as [->|Hin]; [done|].
  induction IH as [|k l Hk _ IHl]; [by apply elem_of_nil in Hin|]. rewrite find_in_cons. cbn [flat_map] in Hin.
  apply elem_of_app in Hin as [Hin|Hin]; [destruct (Hk Hin) as [m ->]; by exists m|].
  destruct (find q k); [by eexists|by apply IHl].
Qed.

Lemma find_replace q t n n' : find q t = Some n -> t_loc n' = q -> find q (replace q n' t) = Some n'.
Proof.
  intros Hf Hq. revert Hf. induction t as [p s kids IH] using ltree_ind'. rewrite find_node. cbn [replace].
  destruct (decide (q = p)) as [-> |Hne]; [intros _; destruct n'; cbn in Hq; subst; rewrite find_node; by rewrite decide_True|].
  rewrite find_node, decide_False by done. induction IH as [|k l Hk _ IHl]; [done|].
  cbn [fmap list_fmap]. rewrite !find_in_cons. destruct (find q k) as [m|] eqn:E.
  - intros Em. by rewrite (Hk Em).
  - intros Em. rewrite (proj2 (absent q k ltac:(intros Hin; destruct (find_some _ _ Hin); congruence))), E. by apply IHl.
Qed.

(** At most one of the elements has the location below it. *)
Lemma find_kids q l n :
  NoDup (flat_map locs l) -> find_in q l = Some n -> Forall (fun k => find q k = Some n \/ q ∉ locs k) l.
Proof.
  induction l as [|k l IH]; [done|]. cbn [flat_map]. intros (H1 & H2 & H3)%NoDup_app. rewrite find_in_cons.
  destruct (find q k) as [m|] eqn:E.
  - intros Em. apply (inj Some) in Em as ->. apply Forall_cons. split; [by left|]. apply Forall_forall. intros x Hx. right.
    intros Hq. apply (H2 q (proj2 (find_loc _ _ _ E))). apply list_elem_of_In, in_flat_map. exists x.
    by rewrite <- !list_elem_of_In.
  - intros Em. apply Forall_cons. split; [|by apply IH]. right. intros Hq. destruct (find_some _ _ Hq) as [? ?]. congruence.
Qed.

Lemma find_wt q t n par : wt par t -> find q t = Some n -> wt (s_parent (t_set n)) n.
Proof.
  revert par. induction t as [p s kids IH] using ltree_ind'. intros par Hw. rewrite find_node.
  inversion Hw as [par' p' s' kids' Ht Hp Hv Hk]; subst. destruct (decide (q = p)) as [-> |_].
  { intros E. by apply (inj Some) in E as <-. }
  clear Hw Ht Hv. induction IH as [|k l Hkid _ IHl]; [done|]. rewrite find_in_cons.
  apply Forall_cons in Hk as [Hk1 Hk2]. destruct (find q k) as [m|] eqn:E; [|by apply IHl].
  intros Em. apply (inj Some) in Em as ->. by apply (Hkid _ Hk1).
Qed.

(** What the parent of a subtree looks at. *)
Definition same_head (n n' : ltree) : Prop :=
  t_loc n' = t_loc n /\ s_name (t_set n') = s_name (t_set n) /\ s_parent (t_set n') = s_parent (t_set n).

Lemma replace_head q t n n' : find q t = Some n -> same_head n n' -> same_head t (replace q n' t).
Proof.
  destruct t as [p s kids]. rewrite find_node. cbn [replace]. destruct (decide (q = p)); [|done].
  intros E Hh. by apply (inj Some) in E as <-.
Qed.

Lemma value_ok_heads s kids kids' : Forall2 same_head kids kids' -> value_ok s kids -> value_ok s kids'.
Proof.
  intros Hh.
  assert (E1 : t_loc <$> kids' = t_loc <$> kids) by (induction Hh as [|k k' l l' (H1 & _) _ IH]; cbn; congruence).
  assert (E2 : kid_name <$> kids' = kid_name <$> kids)
    by (clear E1; induction Hh as [|k k' l l' (_ & H1 & _) _ IH]; [done|]; cbn [fmap list_fmap]; f_equal; [exact H1|exact IH]).
  assert (E3 : length kids' = length kids) by (symmetry; by eapply Forall2_length).
  assert (E4 : forall P, Forall (fun k => P (s_name (t_set k))) kids -> Forall (fun k => P (s_name (t_set k))) kids').
  { intros P Hp. clear -Hh Hp. induction Hh as [|k k' l l' (_ & H1 & _) _ IH]; [done|].
    apply Forall_cons in Hp as [Hp1 Hp2]. apply Forall_cons. split; [by rewrite H1|by apply IH]. }
  assert (E5 : kids = [] -> kids' = []) by (intros ->; by inversion Hh).
  unfold value_ok, names_ok. rewrite E1, E2, E3. destruct (is_aggregate (s_type s)).
  - intros [Hn Hv]. split.
    + destruct (s_type s =? CONFIG_TYPE_GROUP).
      * destruct Hn as [Hn1 Hn2]. split; [done|].
        by apply (E4 (fun o => exists n, o = Some n /\ __config_validate_name n = true)).
      * by apply (E4 (fun o => o = None)).
    + destruct Hv as [[Hv He]|Hv]; [left; auto|by right].
  - intros [He Hv]. auto.
Qed.

Lemma replace_wt q t n n' par :
  NoDup (locs t) -> wt par t -> find q t = Some n -> same_head n n' -> wt (s_parent (t_set n)) n' ->
  wt par (replace q n' t).
Proof.
  revert par. induction t as [p s kids IH] using ltree_ind'. intros par Hnd Hw. rewrite find_node. cbn [replace].
  rewrite locs_node in Hnd. apply NoDup_cons in Hnd as [_ Hnd].
  inversion Hw as [par' p' s' kids' Ht Hp Hv Hk]; subst. destruct (decide (q = p)) as [-> |_].
  { intros E Hh Hw'. by apply (inj Some) in E as <-. }
  intros Hf Hh Hw'. pose proof (find_kids q kids n Hnd Hf) as Hfk.
  assert (Hkids : forall k, k ∈ kids -> NoDup (locs k)).
  { clear -Hnd. induction kids as [|x l IH]; intros k Hin; [by apply elem_of_nil in Hin|]. cbn [flat_map] in Hnd.
    apply NoDup_app in Hnd as (H1 & _ & H2). apply elem_of_cons in Hin as [->|Hin]; [done|by apply IH]. }
  constructor; [done|done| |].
  - apply (value_ok_heads s kids); [|done]. apply Forall2_fmap_r, Forall_Forall2_diag.
    apply (Forall_impl _ _ _ Hfk). intros k [Ef|Hq]; [by apply (replace_head q k n)|].
    change (same_head k (replace q n' k)). by rewrite (proj2 (absent q k Hq)).
  - apply Forall_fmap, Forall_forall. intros k Hin. cbn. rewrite Forall_forall in IH, Hk, Hfk.
    destruct (Hfk k Hin) as [Ef|Hq]; [by apply IH; auto|]. rewrite (proj2 (absent q k Hq)). auto.
Qed.

(** ** The heap *)

Lemma list_to_map_mid {A} (l1 l2 : list (loc * A)) q x :
  NoDup (l1 ++ (q, x) :: l2).*1 -> (list_to_map (l1 ++ (q, x) :: l2) : gmap loc A) = <[q := x]> (list_to_map (l1 ++ l2)).
Proof.
  intros Hnd. rewrite (list_to_map_proper _ ((q, x) :: l1 ++ l2)); [done|done|]. symmetry. apply Permutation_middle.
Qed.

Lemma crep_lookup c t q n : crep c t -> find q t = Some n -> c_heap c !! q = Some (t_set n).
Proof.
  intros [_ Hh Hnd _ _] Hf. destruct (find_split q t n Hnd Hf) as (l1 & l2 & Hq & E & _). rewrite Hh.
  apply elem_of_list_to_map; [exact Hnd|]. rewrite E. apply elem_of_app. right. apply elem_of_app. left.
  destruct n. cbn in *. subst. left.
Qed.

(** A live setting is a node of the tree. *)
Lemma crep_find c t q s : crep c t -> c_heap c !! q = Some s -> exists kids, find q t = Some (LNode q s kids).
Proof.
  intros Hc Hq. pose proof Hc as [_ Hh Hnd _ _]. rewrite Hh in Hq. apply elem_of_list_to_map in Hq; [|exact Hnd].
  destruct (find_some q t) as [n Hf]; [unfold locs; apply list_elem_of_fmap; by exists (q, s)|].
  pose proof (crep_lookup c t q n Hc Hf) as Hl. rewrite Hh in Hl. apply elem_of_list_to_map in Hq; [|exact Hnd].
  destruct (find_loc _ _ _ Hf) as [Hloc _]. destruct n as [p s' kids]. cbn in *. exists kids. congruence.
Qed.

Lemma crep_node c t q p s kids : crep c t -> find q t = Some (LNode p s kids) ->
  p = q /\ CONFIG_TYPE_NONE <= s_type s <= CONFIG_TYPE_LIST /\ value_ok s kids /\ Forall (wt (Some q)) kids.
Proof.
  intros Hc Hf. destruct (find_loc _ _ _ Hf) as [Hq _]. cbn in Hq. subst.
  pose proof (find_wt _ _ _ _ (cr_wt _ _ Hc) Hf) as Hw. cbn in Hw. by inversion Hw.
Qed.

(** Replacing a subtree in the tree and in the heap. *)
Lemma crep_replace c t q n n' h f l1 l2 :
  crep c t -> find q t = Some n -> same_head n n' -> wt (s_parent (t_set n)) n' ->
  entries (replace q n' t) = l1 ++ entries n' ++ l2 -> NoDup (l1 ++ entries n' ++ l2).*1 ->
  h = list_to_map (l1 ++ entries n' ++ l2) -> Forall (fun p => (p < f)%positive) (l1 ++ entries n' ++ l2).*1 ->
  crep (Config h f (c_root c) (c_flags c) (c_tab_width c) (c_error c)) (replace q n' t).
Proof.
  intros [Hr Hh Hnd Hfr Hw] Hf Hhd Hw' Er H1 H2 H3. split; cbn; unfold locs; rewrite ?Er; [|done|done|done|].
  - rewrite Hr. f_equal. symmetry. by apply (replace_head q t n n').
  - by apply (replace_wt q t n).
Qed.

Lemma crep_write c t q s kids s' :
  crep c t -> find q t = Some (LNode q s kids) -> s_name s' = s_name s -> s_parent s' = s_parent s ->
  CONFIG_TYPE_NONE <= s_type s' <= CONFIG_TYPE_LIST -> value_ok s' kids ->
  crep (set_heap (<[q := s']> (c_heap c)) c) (replace q (LNode q s' kids) t).
Proof.
  intros Hc Hf Hn Hp Ht Hv. pose proof Hc as [_ Hh Hnd Hfr _]. destruct (find_split q t _ Hnd Hf) as (l1 & l2 & _ & E & Er).
  unfold locs in Hnd, Hfr. rewrite E in Hnd, Hfr.
  apply (crep_replace c t q (LNode q s kids) _ _ _ l1 l2); [done|done|done| |done|..].
  - cbn [t_set]. rewrite <- Hp. constructor; [done|done|done|]. by destruct (crep_node _ _ _ _ _ _ Hc Hf) as (_ & _ & _ & ?).
  - rewrite !entries_node, !fmap_app in *. done.
  - rewrite Hh, E, !entries_node in *. cbn [app] in *.
    rewrite !list_to_map_mid by (rewrite fmap_app in *; done). by rewrite insert_insert_eq.
  - rewrite !entries_node, !fmap_app in *. done.
Qed.

Lemma list_add_ok l cap p :
  (room (length l) <= cap)%nat ->
  exists cap', __config_list_add l cap p = Ok (l ++ [p], cap') /\ (room (S (length l)) <= cap')%nat.
Proof.
  unfold room, __config_list_add, CHUNK_SIZE. intros Hr. destruct (Nat.eqb_spec (length l mod 16) 0) as [E|E].
  - exists (length l + 16)%nat. destruct (Nat.leb_spec (length l + 16) (length l)); [lia|]. split; [done|].
    pose proof (Nat.div_mod_eq (length l) 16). replace (S (length l) + 15)%nat with (length l / 16 * 16 + 1 * 16)%nat by lia.
    rewrite <- Nat.mul_add_distr_r, Nat.div_mul by lia. lia.
  - pose proof (Nat.div_mod_eq (length l) 16). pose proof (Nat.mod_upper_bound (length l) 16 ltac:(lia)).
    assert (E1 : ((length l + 15) / 16 = length l / 16 + 1)%nat).
    { symmetry. apply (Nat.div_unique _ 16 _ (length l mod 16 - 1)); lia. }
    assert (E2 : ((S (length l) + 15) / 16 = length l / 16 + 1)%nat).
    { symmetry. apply (Nat.div_unique _ 16 _ (length l mod 16)); lia. }
    rewrite E1 in Hr. destruct (Nat.leb_spec cap (length l)); [lia|]. exists cap. split; [done|]. rewrite E2. lia.
Qed.

Lemma room_le n m : (n <= m -> room n <= room m)%nat.
Proof. intros H. unfold room, CHUNK_SIZE. apply Nat.mul_le_mono_r, Nat.Div0.div_le_mono. lia. Qed.

(** A new leaf as the last element. *)
Lemma crep_append c t q s kids s' leaf :
  crep c t -> find q t = Some (LNode q s kids) -> s_name s' = s_name s -> s_parent s' = s_parent s ->
  CONFIG_TYPE_NONE <= s_type s' <= CONFIG_TYPE_LIST -> value_ok s' (kids ++ [LNode (c_fresh c) leaf []]) ->
  wt (Some q) (LNode (c_fresh c) leaf []) ->
  crep (Config (<[q := s']> (<[c_fresh c := leaf]> (c_heap c))) (Pos.succ (c_fresh c)) (c_root c) (c_flags c) (c_tab_width c) (c_error c))
    (replace q (LNode q s' (kids ++ [LNode (c_fresh c) leaf []])) t).
Proof.
  intros Hc Hf Hn Hp Ht Hv Hl. pose proof Hc as [_ Hh Hnd Hfr _]. destruct (find_split q t _ Hnd Hf) as (l1 & l2 & _ & E & Er).
  specialize (Er (LNode q s' (kids ++ [LNode (c_fresh c) leaf []]))). rewrite !entries_node, flat_map_app in *.
  cbn [flat_map entries app] in *. set (f := c_fresh c) in *.
  assert (Hperm : l1 ++ (q, s') :: (flat_map entries kids ++ [(f, leaf)]) ++ l2 ≡ₚ
      (f, leaf) :: l1 ++ (q, s') :: flat_map entries kids ++ l2).
    { symmetry. replace (l1 ++ (q, s') :: flat_map entries kids ++ l2) with ((l1 ++ (q, s') :: flat_map entries kids) ++ l2)
        by (by rewrite <- app_assoc).
      rewrite Permutation_middle. cbn [app]. rewrite <- !app_assoc. cbn [app]. by rewrite <- ?app_assoc. }
    assert (Hfn : f ∉ (l1 ++ (q, s') :: flat_map entries kids ++ l2).*1).
    { intros Hin. assert (Hin' : f ∈ locs t) by (unfold locs; rewrite E; cbn; rewrite !fmap_app in *; cbn in *; by rewrite fmap_app in *).
      rewrite Forall_forall in Hfr. specialize (Hfr f Hin'). subst f. lia. }
    assert (Hnd' : NoDup (l1 ++ (q, s') :: flat_map entries kids ++ l2).*1).
    { unfold locs in Hnd. rewrite E in Hnd. cbn in Hnd. by rewrite !fmap_app in *. }
    assert (Hfull : NoDup ((f, leaf) :: l1 ++ (q, s') :: flat_map entries kids ++ l2).*1) by (cbn; by apply NoDup_cons).
  assert (Hkeys := fmap_Permutation fst _ _ Hperm).
  apply (crep_replace c t q (LNode q s kids) _ _ _ l1 l2); rewrite ?entries_node, ?flat_map_app; cbn [flat_map entries app];
    [done|done|done| |done|by rewrite Hkeys|..].
  - cbn [t_set]. rewrite <- Hp. constructor; [done|done|done|]. apply Forall_app. split; [|by apply Forall_singleton].
    by destruct (crep_node _ _ _ _ _ _ Hc Hf) as (_ & _ & _ & ?).
  - rewrite (list_to_map_proper (M := gmap loc) _ _ ltac:(by rewrite Hkeys) Hperm). rewrite list_to_map_cons.
    rewrite Hh, E. rewrite list_to_map_mid by (unfold locs in Hnd; by rewrite E in Hnd). rewrite list_to_map_mid by done.
    rewrite (insert_insert_ne _ q f); [by rewrite insert_insert_eq|]. intros Hfq. apply Hfn. rewrite <- Hfq, fmap_app.
    apply elem_of_app. right. left.
  - rewrite Hkeys. cbn. apply Forall_cons. split; [lia|].
    assert (Hk : (l1 ++ (q, s') :: flat_map entries kids ++ l2).*1 = locs t)
      by (unfold locs; rewrite E; cbn; rewrite !fmap_app; cbn; by rewrite fmap_app).
    rewrite Hk. apply (Forall_impl _ _ _ Hfr). intros p Hp'. lia.
Qed.

(** ** Destruction *)

(** The settings of a subtree are gone, the others are as before. *)
Definition without (ps : list loc) (h h' : gmap loc config_setting_t) : Prop :=
  forall x, h' !! x = if decide (x ∈ ps) then None else h !! x.

Lemma destroy_ok t : forall fuel par h,
  (length (entries t) <= fuel)%nat -> wt par t -> NoDup (locs t) -> (forall x, x ∈ entries t -> h !! x.1 = Some x.2) ->
  exists h', destroy_fuel fuel (t_loc t) h = Ok h' /\ without (locs t) h h'.
Proof.
  induction t as [p s kids IH] using ltree_ind'. intros [|fuel] par h Hfuel Hw Hnd Hh; [cbn in Hfuel; lia|].
  inversion Hw as [par' p' s' kids' Ht Hp Hv Hk]; subst. rewrite entries_node in Hfuel, Hh. rewrite locs_node in *.
  cbn [length] in Hfuel. apply NoDup_cons in Hnd as [Hpn Hnd].
  assert (Hs : h !! p = Some s) by (apply (Hh (p, s)); left).
  assert (Hlist : exists h', __config_list_destroy (destroy_fuel fuel) (t_loc <$> kids) h = Ok h' /\
    without (flat_map locs kids) h h').
  { assert (Hin : forall x, x ∈ flat_map entries kids -> h !! x.1 = Some x.2) by (intros x Hx; apply Hh; by right).
    assert (Hlen : (length (flat_map entries kids) <= fuel)%nat) by lia.
    clear Hh Hs Hfuel Hw Hv Hpn. revert h Hin. induction IH as [|k l Hkid _ IHl]; intros h Hin.
    { exists h. split; [done|]. intros x. by rewrite decide_False by apply not_elem_of_nil. }
    cbn [flat_map fmap list_fmap __config_list_destroy] in *. rewrite length_app in Hlen.
    apply Forall_cons in Hk as [Hk1 Hk2]. apply NoDup_app in Hnd as (Hn1 & Hn2 & Hn3).
    destruct (Hkid fuel _ h ltac:(lia) Hk1 Hn1) as (h1 & E1 & W1); [intros x Hx; apply Hin, elem_of_app; by left|].
    rewrite E1. cbn [rbind]. destruct (IHl Hn3 Hk2 ltac:(lia) h1) as (h2 & E2 & W2).
    { intros x Hx. rewrite (W1 x.1), decide_False; [apply Hin, elem_of_app; by right|]. intros Hx'. apply (Hn2 _ Hx').
      rewrite <- locs_flat. apply list_elem_of_fmap. by exists x. }
    exists h2. split; [done|]. intros x. rewrite (W2 x), (W1 x). destruct (decide (x ∈ locs k ++ flat_map locs l)) as [Hx|Hx].
    - repeat case_decide; try done. apply elem_of_app in Hx. tauto.
    - rewrite !decide_False; [done|..]; intros Hx'; apply Hx, elem_of_app; auto. }
  destruct Hlist as (h1 & E1 & W1). cbn [destroy_fuel t_loc]. unfold deref. rewrite Hs. cbn [of_option rbind].
  assert (Hrest : exists h2, (if is_aggregate (s_type s) then
      let? l := v_list (s_value s) in
      match l with None => Ok h | Some (l, _) => __config_list_destroy (destroy_fuel fuel) l h end
    else if s_type s =? CONFIG_TYPE_STRING then let? _ := v_sval (s_value s) in Ok h else Ok h) = Ok h2 /\
    without (flat_map locs kids) h h2).
  { unfold value_ok in Hv. destruct (is_aggregate (s_type s)) eqn:Ea.
    - destruct Hv as [_ [[-> ->]|(cap & -> & _)]]; cbn [v_list rbind].
      + exists h. split; [done|]. intros x. by rewrite decide_False by apply not_elem_of_nil.
      + by exists h1.
    - destruct Hv as [-> Hv]. exists h. split; [|intros x; by rewrite decide_False by apply not_elem_of_nil].
      destruct (Z.eqb_spec (s_type s) CONFIG_TYPE_STRING) as [Es|]; [|done].
      unfold scalar_ok in Hv. rewrite Es in Hv. destruct (s_value s); try done. by destruct Hv. }
  destruct Hrest as (h2 & -> & W2). cbn [rbind]. rewrite (W2 p), decide_False by done. rewrite Hs. cbn [of_option rbind].
  eexists. split; [done|]. intros x. destruct (decide (x = p)) as [-> |Hx].
  - by rewrite lookup_delete_eq, decide_True by left.
  - rewrite lookup_delete_ne by done. rewrite (W2 x). repeat case_decide; try done; set_solver.
Qed.

Lemma flat_map_delete {A B} (f : A -> list B) l i k :
  l !! i = Some k -> flat_map f l ≡ₚ f k ++ flat_map f (delete i l).
Proof.
  revert i. induction l as [|x l IH]; intros [|i] Hi; try done; cbn in *.
  - by injection Hi as ->.
  - rewrite (IH i Hi). rewrite !app_assoc. apply Permutation_app_tail, Permutation_app_comm.
Qed.

(** An element is taken out of the list and destroyed. *)
Lemma crep_remove c t q s kids i k s' :
  crep c t -> find q t = Some (LNode q s kids) -> kids !! i = Some k -> s_name s' = s_name s -> s_parent s' = s_parent s ->
  CONFIG_TYPE_NONE <= s_type s' <= CONFIG_TYPE_LIST -> value_ok s' (delete i kids) ->
  exists h, __config_setting_destroy (Some (t_loc k)) (set_heap (<[q := s']> (c_heap c)) c) = Ok (tt, set_heap h c) /\
    crep (set_heap h c) (replace q (LNode q s' (delete i kids)) t).
Proof.
  intros Hc Hf Hi Hn Hp Ht Hv. pose proof Hc as [_ Hh Hnd Hfr _]. destruct (crep_node _ _ _ _ _ _ Hc Hf) as (_ & _ & _ & Hk).
  destruct (find_split q t _ Hnd Hf) as (l1 & l2 & _ & E & Er). rewrite entries_node in E. cbn [app] in E.
  set (rest := l1 ++ (q, s') :: flat_map entries (delete i kids) ++ l2).
  assert (Hperm : l1 ++ (q, s') :: flat_map entries kids ++ l2 ≡ₚ entries k ++ rest).
  { subst rest. rewrite (flat_map_delete entries kids i k Hi), <- app_assoc.
    change ((q, s') :: ?x) with ([(q, s')] ++ x). rewrite (Permutation_app_swap_app [(q, s')] (entries k)).
    by rewrite (Permutation_app_swap_app l1 (entries k)). }
  assert (Hnd1 : NoDup (l1 ++ (q, s') :: flat_map entries kids ++ l2).*1).
  { unfold locs in Hnd. rewrite E in Hnd. by rewrite !fmap_app in *. }
  assert (Hh1 : <[q := s']> (c_heap c) = list_to_map (l1 ++ (q, s') :: flat_map entries kids ++ l2)).
  { rewrite list_to_map_mid by done. rewrite Hh, E, list_to_map_mid by (unfold locs in Hnd; by rewrite E in Hnd).
    by rewrite insert_insert_eq. }
  assert (Hkeys := fmap_Permutation fst _ _ Hperm). rewrite (fmap_app _ (entries k)) in Hkeys.
  assert (Hnd2 := Hnd1). rewrite Hkeys in Hnd2. apply NoDup_app in Hnd2 as (Hnk & Hdisj & Hnr).
  rewrite (list_to_map_proper (M := gmap loc) _ _ Hnd1 Hperm) in Hh1.
  assert (Hkw : wt (Some q) k) by (rewrite Forall_forall in Hk; apply Hk; by apply list_elem_of_lookup_2 with i).
  destruct (destroy_ok k (S (size (<[q := s']> (c_heap c)))) (Some q) (<[q := s']> (c_heap c))) as (h & Ed & Wd).
  { rewrite Hh1. rewrite map_size_list_to_map; [rewrite length_app; lia|]. by rewrite fmap_app, <- Hkeys. }
  { exact Hkw. }
  { exact Hnk. }
  { intros x Hx. rewrite Hh1. apply elem_of_list_to_map_1; [by rewrite fmap_app, <- Hkeys|].
    apply elem_of_app. left. by destruct x. }
  exists h. split; [unfold __config_setting_destroy; cbn [set_heap c_heap]; by rewrite Ed|].
  assert (Hrest : h = list_to_map rest).
  { apply map_eq. intros x. rewrite (Wd x), Hh1, list_to_map_app. destruct (decide (x ∈ locs k)) as [Hx|Hx].
    - symmetry. apply not_elem_of_list_to_map. by apply Hdisj.
    - rewrite lookup_union_r; [done|]. by apply not_elem_of_list_to_map. }
  apply (crep_replace c t q (LNode q s kids) _ _ _ l1 l2); [done|done|done| |done|by rewrite entries_node|by rewrite entries_node|].
  - cbn [t_set]. rewrite <- Hp. constructor; [done|done|done|]. by apply Forall_delete.
  - rewrite entries_node. cbn [app]. fold rest. unfold locs in Hfr. rewrite E in Hfr.
    assert (Hall : Forall (fun p => (p < c_fresh c)%positive) ((entries k).*1 ++ rest.*1))
      by (rewrite <- Hkeys; by rewrite !fmap_app in *). by apply Forall_app in Hall as [_ ?].
Qed.
