(* ===== verification/LibConfigProps.v ===== *)
(** * The interface of libconfig is safe

    Any sequence of calls on live settings runs without a fault and keeps the settings a
    well-typed tree; destroying the configuration frees all of them. *)

From S2P Require Import Prelude CString Queue LibConfig LibConfigTree.
From Stdlib Require Import SpecFloat.
Local Open Scope ps2rd_scope.
Local Open Scope Z_scope.

(** ** Reading and writing values *)

Definition node_at (c : config_t) (t : ltree) (p : loc) (s : config_setting_t) (kids : list ltree) : Prop :=
  crep c t /\ find p t = Some (LNode p s kids).

Lemma node_live c t p s : crep c t -> c_heap c !! p = Some s -> exists kids, node_at c t p s kids.
Proof. intros Hc Hp. destruct (crep_find c t p s Hc Hp) as [kids Hf]. by exists kids. Qed.

Lemma setting_at c t p s kids : node_at c t p s kids -> setting p c = Ok (s, c).
Proof. intros [Hc Hf]. unfold setting, deref. by rewrite (crep_lookup c t p _ Hc Hf). Qed.

Lemma node_facts c t p s kids : node_at c t p s kids ->
  CONFIG_TYPE_NONE <= s_type s <= CONFIG_TYPE_LIST /\ value_ok s kids /\ Forall (wt (Some p)) kids.
Proof. intros [Hc Hf]. by destruct (crep_node _ _ _ _ _ _ Hc Hf) as (_ & ? & ? & ?). Qed.

(** An element of a live setting is live. *)
Lemma kid_node c t p s kids i k :
  node_at c t p s kids -> kids !! i = Some k -> exists ks, node_at c t (t_loc k) (t_set k) ks.
Proof.
  intros [Hc Hf] Hi. apply node_live; [done|]. pose proof Hc as [_ Hh Hnd _ _]. rewrite Hh.
  destruct (find_split p t _ Hnd Hf) as (l1 & l2 & _ & E & _). apply elem_of_list_to_map_1; [exact Hnd|].
  rewrite E, entries_node. apply elem_of_app. right. apply elem_of_app. left. right.
  apply list_elem_of_In, in_flat_map. exists k. split; [apply list_elem_of_In; by apply list_elem_of_lookup_2 with i|].
  apply list_elem_of_In. destruct k. left.
Qed.

(** A reader of a well-typed setting has a result. *)
Definition reader_ok {A} (f : Z -> config_setting_t -> res A) : Prop :=
  forall flags s kids, auto_convert flags = false -> value_ok s kids -> exists x, f flags s = Ok x.

(** A writer leaves a well-typed setting. *)
Definition writer_ok (f : Z -> config_setting_t -> res (option config_setting_t)) : Prop :=
  forall flags s kids, auto_convert flags = false -> CONFIG_TYPE_NONE <= s_type s <= CONFIG_TYPE_LIST -> value_ok s kids ->
    exists r, f flags s = Ok r /\
      forall s', r = Some s' -> s_name s' = s_name s /\ s_parent s' = s_parent s /\
        CONFIG_TYPE_NONE <= s_type s' <= CONFIG_TYPE_LIST /\ value_ok s' kids.

(** The values that a scalar type can have. *)
Lemma scalar_cases s kids : value_ok s kids -> is_aggregate (s_type s) = false -> kids = [] /\ scalar_ok s.
Proof. unfold value_ok. intros Hv Ha. by rewrite Ha in Hv. Qed.

Ltac types :=
  repeat match goal with
  | |- context [?a =? ?b] => destruct (Z.eqb_spec a b)
  end.

Ltac untype :=
  unfold CONFIG_TYPE_NONE, CONFIG_TYPE_GROUP, CONFIG_TYPE_INT, CONFIG_TYPE_INT64, CONFIG_TYPE_FLOAT, CONFIG_TYPE_STRING,
    CONFIG_TYPE_BOOL, CONFIG_TYPE_ARRAY, CONFIG_TYPE_LIST in *.

Ltac by_type Hv :=
  match type of Hv with value_ok ?s ?kids =>
    let Ha := fresh "Ha" in
    assert (Ha : is_aggregate (s_type s) = false) by
      (match goal with E : s_type s = _ |- _ => rewrite E; reflexivity end);
    destruct (scalar_cases s kids Hv Ha) as [? Hv']; unfold scalar_ok in Hv';
    destruct (s_value s); cbn; try (eexists; reflexivity); try (exfalso; untype; lia)
  end.

Lemma get_int_ok : reader_ok setting_get_int.
Proof. intros flags s kids Hf Hv. unfold setting_get_int. rewrite Hf, andb_false_r. types; try (by_type Hv); eexists; reflexivity. Qed.
Lemma get_int64_ok : reader_ok setting_get_int64.
Proof. intros flags s kids Hf Hv. unfold setting_get_int64. rewrite Hf, andb_false_r. types; try (by_type Hv); eexists; reflexivity. Qed.
Lemma get_float_ok : reader_ok setting_get_float.
Proof. intros flags s kids Hf Hv. unfold setting_get_float. rewrite Hf, !andb_false_r. types; try (by_type Hv); eexists; reflexivity. Qed.
Lemma get_bool_ok : reader_ok (fun _ => setting_get_bool).
Proof. intros flags s kids Hf Hv. unfold setting_get_bool. types; try (by_type Hv); eexists; reflexivity. Qed.
Lemma get_string_ok : reader_ok (fun _ => setting_get_string).
Proof. intros flags s kids Hf Hv. unfold setting_get_string. types; try (by_type Hv); eexists; reflexivity. Qed.

Ltac not_aggregate s :=
  match goal with E : s_type s = _ |- _ => rewrite E; reflexivity end.

(** Writers that keep a scalar a scalar. *)
Lemma scalar_written s s' kids :
  value_ok s kids -> is_aggregate (s_type s) = false -> is_aggregate (s_type s') = false -> scalar_ok s' -> value_ok s' kids.
Proof.
  intros Hv Ha Ha' Hs. destruct (scalar_cases s kids Hv Ha) as [-> _]. unfold value_ok. by rewrite Ha'.
Qed.

Ltac written :=
  eexists; split; [reflexivity|]; intros ? E; injection E as <-;
  split; [reflexivity|]; split; [reflexivity|]; split; [cbn; untype; lia|];
  eapply scalar_written; [eassumption|match goal with E : s_type ?s = _ |- is_aggregate (s_type ?s) = false => by rewrite E end|
    cbn; try (match goal with E : s_type ?s = _ |- context [s_type ?s] => rewrite E end); reflexivity|
    unfold scalar_ok; cbn; auto].

Ltac refused := eexists; split; [reflexivity|done].

Lemma set_int_ok v : writer_ok (fun flags => setting_set_int flags v).
Proof. intros flags s kids Hf Ht Hv. unfold setting_set_int. rewrite Hf, andb_false_r. types; cbn [orb]; first [written|refused]. Qed.
Lemma set_int64_ok v : writer_ok (fun flags => setting_set_int64 flags v).
Proof. intros flags s kids Hf Ht Hv. unfold setting_set_int64. rewrite Hf, andb_false_r. types; cbn [orb]; first [written|refused]. Qed.
Lemma set_float_ok v : writer_ok (fun flags => setting_set_float flags v).
Proof. intros flags s kids Hf Ht Hv. unfold setting_set_float. rewrite Hf, !andb_false_r. types; cbn [orb]; first [written|refused]. Qed.
Lemma set_bool_ok v : writer_ok (fun _ => setting_set_bool v).
Proof. intros flags s kids Hf Ht Hv. unfold setting_set_bool. types; cbn [orb]; first [written|refused]. Qed.
Lemma set_string_ok v : writer_ok (fun _ => setting_set_string v).
Proof.
  intros flags s kids Hf Ht Hv. unfold setting_set_string.
  assert (Hs : s_type s = CONFIG_TYPE_NONE \/ s_type s = CONFIG_TYPE_STRING -> exists o, v_sval (s_value s) = Ok o).
  { intros [E|E]; by_type Hv. }
  types; cbn [orb]; [destruct Hs as [o ->]; [auto|]; cbn [rbind]; destruct v; written..|refused].
Qed.
Lemma set_format_ok v : writer_ok (fun _ => setting_set_format v).
Proof.
  intros flags s kids Hf Ht Hv. unfold setting_set_format. destruct (_ || _); [refused|].
  eexists. split; [reflexivity|]. intros s' E. injection E as <-. done.
Qed.

Lemma read_setting_ok {A} (f : Z -> config_setting_t -> res A) c t p s kids :
  reader_ok f -> auto_convert (c_flags c) = false -> node_at c t p s kids ->
  exists x, f (c_flags c) s = Ok x /\ read_setting f (Some p) c = Ok (x, c).
Proof.
  intros Hok Hf Hn. destruct (node_facts _ _ _ _ _ Hn) as (_ & Hv & _). destruct (Hok _ s kids Hf Hv) as [x E].
  exists x. split; [done|]. unfold read_setting. rewrite (bind_ok _ _ c p c) by done.
  rewrite (bind_ok _ _ _ _ _ (setting_at _ _ _ _ _ Hn)). rewrite (bind_ok _ _ c (c_flags c) c) by done.
  unfold lift. by rewrite E.
Qed.

Lemma write_setting_ok f c t p s kids :
  writer_ok f -> auto_convert (c_flags c) = false -> node_at c t p s kids ->
  exists r c' t' s', write_setting f (Some p) c = Ok (r, c') /\ node_at c' t' p s' kids /\ c_flags c' = c_flags c /\
    ((f (c_flags c) s = Ok None /\ r = CONFIG_FALSE /\ s' = s) \/ (f (c_flags c) s = Ok (Some s') /\ r = CONFIG_TRUE)).
Proof.
  intros Hok Hf Hn. destruct (node_facts _ _ _ _ _ Hn) as (Ht & Hv & Hk). destruct (Hok _ s kids Hf Ht Hv) as (r & E & Hr).
  unfold write_setting. rewrite (bind_ok _ _ c p c) by done.
  rewrite (bind_ok _ _ _ _ _ (setting_at _ _ _ _ _ Hn)). rewrite (bind_ok _ _ c (c_flags c) c) by done.
  rewrite (bind_ok _ _ c r c) by (unfold lift; by rewrite E). destruct r as [s'|].
  - destruct (Hr s' eq_refl) as (H1 & H2 & H3 & H4). destruct Hn as [Hc Hfd].
    exists CONFIG_TRUE, (set_heap (<[p := s']> (c_heap c)) c), (replace p (LNode p s' kids) t), s'.
    pose proof (crep_write c t p s kids s' Hc Hfd H1 H2 H3 H4) as Hc'. split; [done|]. split; [split; [done|]|].
    + by apply (find_replace p t (LNode p s kids)).
    + split; [done|]. by right.
  - exists CONFIG_FALSE, c, t, s. split; [done|]. split; [done|]. split; [done|]. by left.
Qed.

(** ** Elements and members *)

(** The elements of an aggregate. *)
Lemma list_at c t p s kids : node_at c t p s kids -> is_aggregate (s_type s) = true ->
  exists o, v_list (s_value s) = Ok o /\ names_ok (s_type s) kids /\
    match o with None => kids = [] | Some (l, cap) => s_value s = VList l cap /\ l = t_loc <$> kids /\ (room (length kids) <= cap)%nat end.
Proof.
  intros Hn Ha. destruct (node_facts _ _ _ _ _ Hn) as (_ & Hv & _). unfold value_ok in Hv. rewrite Ha in Hv.
  destruct Hv as [Hnm [[-> ->]|(cap & -> & Hr)]]; eexists; cbn [v_list]; split; try reflexivity; done.
Qed.

Lemma get_elem_ok c t p s kids idx : node_at c t p s kids ->
  config_setting_get_elem p idx c =
    Ok (if is_aggregate (s_type s) then t_loc <$> kids !! Z.to_nat (u32 idx) else None, c).
Proof.
  intros Hn. unfold config_setting_get_elem. rewrite (bind_ok _ _ _ _ _ (setting_at _ _ _ _ _ Hn)).
  destruct (is_aggregate (s_type s)) eqn:Ha; cbn [negb]; [|done].
  destruct (list_at _ _ _ _ _ Hn Ha) as (o & E & _ & Ho). rewrite (bind_ok _ _ c o c) by (unfold lift; by rewrite E).
  pose proof (u32_range idx). destruct o as [[l cap]|]; [|by rewrite Ho].
  destruct Ho as (_ & -> & _). rewrite length_fmap. destruct (Z.leb_spec (Z.of_nat (length kids)) (u32 idx)).
  - rewrite lookup_ge_None_2 by lia. done.
  - unfold ret. by rewrite list_lookup_fmap.
Qed.

(** The first element whose name compares equal. *)
Definition named (n : cstring) (k : ltree) : Prop :=
  exists m, s_name (t_set k) = Some m /\ __config_name_compare n m = 0.

#[export] Instance named_dec n k : Decision (named n k).
Proof.
  unfold named. destruct (s_name (t_set k)) as [m|]; [|right; by intros (m & ? & _)].
  destruct (decide (__config_name_compare n m = 0)); [left; by exists m|]. right. intros (m' & E & ?). congruence.
Defined.

Lemma search_ok (h : gmap loc config_setting_t) n kids : forall i,
  (forall k, k ∈ kids -> h !! t_loc k = Some (t_set k)) ->
  search_from h i (t_loc <$> kids) (Some n) = Ok ((fun '(j, k) => ((i + j)%nat, t_loc k)) <$> list_find (named n) kids).
Proof.
  induction kids as [|k l IH]; intros i Hh; [done|]. cbn [fmap list_fmap search_from list_find]. unfold deref.
  rewrite (Hh k) by left. cbn [of_option rbind]. assert (Hl : forall x, x ∈ l -> h !! t_loc x = Some (t_set x)) by (intros; apply Hh; by right).
  assert (Hrest : search_from h (S i) (t_loc <$> l) (Some n) =
    Ok ((fun '(j, k) => ((i + j)%nat, t_loc k)) <$> (prod_map S id <$> list_find (named n) l))).
  { rewrite (IH (S i) Hl). f_equal. rewrite <- option_fmap_compose. apply option_fmap_ext. intros [j x]. cbn. f_equal. lia. }
  destruct (s_name (t_set k)) as [m|] eqn:Em.
  - destruct (Z.eqb_spec (__config_name_compare n m) 0) as [Ec|Ec].
    + rewrite decide_True by (by exists m). cbn. do 3 f_equal. lia.
    + rewrite decide_False by (intros (m' & E & ?); congruence). exact Hrest.
  - rewrite decide_False by (intros (m' & E & ?); congruence). exact Hrest.
Qed.

Lemma kids_heap c t p s kids k : node_at c t p s kids -> k ∈ kids -> c_heap c !! t_loc k = Some (t_set k).
Proof.
  intros Hn Hk. apply list_elem_of_lookup_1 in Hk as [i Hi]. destruct (kid_node _ _ _ _ _ i k Hn Hi) as [ks [Hc Hf]].
  by apply (crep_lookup c t _ _ Hc) in Hf.
Qed.

Lemma get_member_ok c t p s kids n : node_at c t p s kids ->
  config_setting_get_member p (Some n) c =
    Ok (if s_type s =? CONFIG_TYPE_GROUP then t_loc ∘ snd <$> list_find (named n) kids else None, c).
Proof.
  intros Hn. unfold config_setting_get_member. rewrite (bind_ok _ _ _ _ _ (setting_at _ _ _ _ _ Hn)).
  destruct (Z.eqb_spec (s_type s) CONFIG_TYPE_GROUP) as [Et|]; cbn [negb]; [|done].
  assert (Ha : is_aggregate (s_type s) = true) by (by rewrite Et).
  destruct (list_at _ _ _ _ _ Hn Ha) as (o & E & _ & Ho). rewrite (bind_ok _ _ c o c) by (unfold lift; by rewrite E).
  rewrite (bind_ok _ _ c (c_heap c) c) by done. destruct o as [[l cap]|]; [|by rewrite Ho].
  destruct Ho as (_ & -> & _). cbn [__config_list_search].
  rewrite (bind_ok _ _ c ((fun '(j, k) => ((0 + j)%nat, t_loc k)) <$> list_find (named n) kids) c).
  - unfold ret. rewrite <- option_fmap_compose. do 2 f_equal. apply option_fmap_ext. by intros [j k].
  - unfold lift. by rewrite search_ok by (intros; by apply (kids_heap c t p s kids)).
Qed.

(** ** Adding and removing *)

Lemma compare_refl n : __config_name_compare n n = 0.
Proof.
  induction n as [|a n IH]; [done|]. cbn [__config_name_compare]. destruct (is_sep a); [done|]. cbn [andb].
  by rewrite Z.ltb_irrefl.
Qed.

(** A name that no member has. *)
Lemma new_name type kids k :
  names_ok type kids ->
  match kid_name k with
  | Some n => type = CONFIG_TYPE_GROUP /\ __config_validate_name n = true /\ list_find (named n) kids = None
  | None => type <> CONFIG_TYPE_GROUP
  end -> names_ok type (kids ++ [k]).
Proof.
  unfold names_ok. destruct (Z.eqb_spec type CONFIG_TYPE_GROUP) as [Et|Et]; intros Hn Hk; unfold kid_name in *;
    destruct (s_name (t_set k)) as [n|] eqn:En; try tauto.
  - destruct Hn as [Hd Hf], Hk as (_ & Hv & Hl). split.
    + rewrite fmap_app. apply NoDup_app. split; [done|]. split; [|apply NoDup_singleton].
      intros x Hx Hx'. apply list_elem_of_singleton in Hx' as ->. unfold kid_name in Hx. rewrite En in Hx.
      apply list_elem_of_fmap in Hx as (k' & E & Hin). apply list_find_None in Hl. rewrite Forall_forall in Hl.
      apply (Hl k' Hin). exists n. split; [done|apply compare_refl].
    + apply Forall_app. split; [done|]. apply Forall_singleton. by exists n.
  - apply Forall_app. split; [done|]. by apply Forall_singleton.
Qed.

Lemma names_delete type kids i k : kids !! i = Some k -> names_ok type kids -> names_ok type (delete i kids).
Proof.
  intros Hi. unfold names_ok. destruct (type =? CONFIG_TYPE_GROUP); [|by apply Forall_delete].
  intros [Hd Hf]. split; [|by apply Forall_delete]. rewrite list_fmap_delete.
  assert (E : (kid_name <$> kids) !! i = Some (kid_name k)) by (by rewrite list_lookup_fmap, Hi).
  rewrite (delete_Permutation _ _ _ E) in Hd. by apply NoDup_cons in Hd as [_ ?].
Qed.

(** A leaf without a value has any type. *)
Lemma leaf_wt p name type parent : CONFIG_TYPE_NONE <= type <= CONFIG_TYPE_LIST ->
  wt (Some parent) (LNode p (Setting name type 0 VZero (Some parent)) []).
Proof.
  intros Ht. constructor; [done|done| |done]. unfold value_ok, names_ok. cbn [s_type s_value].
  destruct (is_aggregate type); [|done]. split; [|by left]. destruct (type =? CONFIG_TYPE_GROUP); [|done].
  split; [apply NoDup_nil_2|done].
Qed.

Lemma create_ok c t p s kids name type :
  node_at c t p s kids -> is_aggregate (s_type s) = true -> CONFIG_TYPE_NONE <= type <= CONFIG_TYPE_LIST ->
  names_ok (s_type s) (kids ++ [LNode (c_fresh c) (Setting name type 0 VZero (Some p)) []]) ->
  exists c' s', config_setting_create p name type c = Ok (Some (c_fresh c), c') /\ c_flags c' = c_flags c /\
    node_at c' (replace p (LNode p s' (kids ++ [LNode (c_fresh c) (Setting name type 0 VZero (Some p)) []])) t) p s'
      (kids ++ [LNode (c_fresh c) (Setting name type 0 VZero (Some p)) []]) /\
    c_heap c' !! c_fresh c = Some (Setting name type 0 VZero (Some p)) /\ exists v, s' = with_value v s.
Proof.
  intros Hn Ha Ht Hnm. set (leaf := Setting name type 0 VZero (Some p)). pose proof Hn as [Hc Hf].
  assert (Hne : c_fresh c <> p).
  { intros E. pose proof (cr_fresh _ _ Hc) as Hfr. rewrite Forall_forall in Hfr.
    specialize (Hfr p (proj2 (find_loc _ _ _ Hf))). rewrite <- E in Hfr. lia. }
  unfold config_setting_create. rewrite (bind_ok _ _ _ _ _ (setting_at _ _ _ _ _ Hn)). rewrite Ha. cbn [negb].
  rewrite (bind_ok _ _ _ _ _ eq_refl). fold leaf. set (c1 := Config (<[c_fresh c := leaf]> (c_heap c)) _ _ _ _ _).
  rewrite (bind_ok _ _ c1 s c1).
  2:{ unfold setting, deref. cbn [c_heap c1]. rewrite lookup_insert_ne by done. by rewrite (crep_lookup c t p _ Hc Hf). }
  destruct (list_at _ _ _ _ _ Hn Ha) as (o & E & _ & Ho). rewrite (bind_ok _ _ c1 o c1) by (unfold lift; by rewrite E).
  assert (Hd : exists cap, default ([], 0%nat) o = (t_loc <$> kids, cap) /\ (room (length kids) <= cap)%nat).
  { destruct o as [[l cap]|]; [destruct Ho as (_ & -> & ?); by exists cap|]. rewrite Ho. exists 0%nat. split; [done|apply Nat.le_refl]. }
  destruct Hd as (cap & -> & Hr). destruct (list_add_ok (t_loc <$> kids) cap (c_fresh c)) as (cap' & El & Hr'); [by rewrite length_fmap|].
  rewrite (bind_ok _ _ c1 ((t_loc <$> kids) ++ [c_fresh c], cap') c1) by (unfold lift; by rewrite El).
  rewrite (bind_ok _ _ _ _ _ eq_refl). set (s' := with_value (VList ((t_loc <$> kids) ++ [c_fresh c]) cap') s).
  do 2 eexists. split; [reflexivity|]. split; [reflexivity|].
  destruct (node_facts _ _ _ _ _ Hn) as (Hts & _ & _).
  pose proof (crep_append c t p s kids s' leaf Hc Hf eq_refl eq_refl Hts) as Happ. cbn in Happ. split; [split|split; [|by eexists]].
  - apply Happ; [|by apply leaf_wt]. unfold value_ok. cbn [s_type s' with_value]. rewrite Ha. split; [done|]. right.
    exists cap'. split; [cbn; by rewrite fmap_app|]. rewrite length_app, Nat.add_1_r. by rewrite length_fmap in Hr'.
  - by apply (find_replace p t (LNode p s kids)).
  - cbn. rewrite lookup_insert_ne by done. apply lookup_insert_eq.
Qed.

(** A name for a new member of a group; elements of arrays and lists have none. *)
Lemma add_ok c t p s kids name type :
  node_at c t p s kids -> (s_type s = CONFIG_TYPE_GROUP -> name <> None) ->
  exists r c' t', config_setting_add (Some p) name type c = Ok (r, c') /\ crep c' t' /\ c_flags c' = c_flags c.
Proof.
  intros Hn Hname. unfold config_setting_add.
  destruct ((type <? CONFIG_TYPE_NONE) || (CONFIG_TYPE_LIST <? type)) eqn:Er; [exists None, c, t; by destruct Hn|].
  assert (Ht : CONFIG_TYPE_NONE <= type <= CONFIG_TYPE_LIST) by lia.
  rewrite (bind_ok _ _ _ _ _ (setting_at _ _ _ _ _ Hn)).
  set (nm := if (s_type s =? CONFIG_TYPE_ARRAY) || (s_type s =? CONFIG_TYPE_LIST) then None else name).
  destruct (match nm with Some n => negb (__config_validate_name n) | None => false end) eqn:Ev.
  { exists None, c, t. by destruct Hn. }
  assert (Hmem : exists o, config_setting_get_member p nm c = Ok (o, c) /\
    (o = None -> is_aggregate (s_type s) = true ->
       names_ok (s_type s) (kids ++ [LNode (c_fresh c) (Setting nm type 0 VZero (Some p)) []]))).
  { destruct nm as [n|] eqn:En.
    - eexists. split; [by apply (get_member_ok c t p s kids)|]. intros Ho Ha.
      destruct (list_at _ _ _ _ _ Hn Ha) as (_ & _ & Hnm & _). apply new_name; [done|]. cbn.
      destruct (Z.eqb_spec (s_type s) CONFIG_TYPE_GROUP) as [Eg|Eg].
      + split; [done|]. split; [by apply negb_false_iff in Ev|]. by destruct (list_find (named n) kids).
      + exfalso. subst nm. unfold is_aggregate in Ha. rewrite (proj2 (Z.eqb_neq _ _) Eg) in Ha. cbn in Ha. by rewrite Ha in En.
    - assert (Eg : s_type s <> CONFIG_TYPE_GROUP).
      { intros Eg. subst nm. rewrite Eg in En. cbn in En. by apply (Hname Eg). }
      eexists. split.
      + unfold config_setting_get_member. rewrite (bind_ok _ _ _ _ _ (setting_at _ _ _ _ _ Hn)).
        rewrite (proj2 (Z.eqb_neq _ _) Eg). done.
      + intros _ Ha. destruct (list_at _ _ _ _ _ Hn Ha) as (_ & _ & Hnm & _). by apply new_name. }
  destruct Hmem as (o & Em & Hnm). rewrite (bind_ok _ _ _ _ _ Em). destruct o as [q|].
  { exists None, c, t. by destruct Hn. }
  destruct (is_aggregate (s_type s)) eqn:Ha.
  - destruct (create_ok c t p s kids nm type Hn Ha Ht (Hnm eq_refl eq_refl)) as (c' & s' & E & Hfl & [Hc' _] & _).
    eexists _, c', _. split; [exact E|]. by split.
  - exists None, c, t. unfold config_setting_create. rewrite (bind_ok _ _ _ _ _ (setting_at _ _ _ _ _ Hn)). rewrite Ha.
    by destruct Hn.
Qed.

Lemma list_remove_ok kids i k (c : config_t) : kids !! i = Some k ->
  lift (__config_list_remove (t_loc <$> kids) i) c = Ok ((t_loc k, t_loc <$> delete i kids), c).
Proof. intros Hi. unfold lift, __config_list_remove. rewrite list_lookup_fmap, Hi. cbn. by rewrite list_fmap_delete. Qed.

(** Taking out element [i] and destroying it. *)
Lemma take_out c t p s kids i k l cap :
  node_at c t p s kids -> kids !! i = Some k -> is_aggregate (s_type s) = true -> s_value s = VList l cap ->
  l = t_loc <$> kids -> (room (length kids) <= cap)%nat -> names_ok (s_type s) kids ->
  exists c' t',
    (let* '(q, l') := lift (__config_list_remove l i) in
     store p (with_value (VList l' cap) s);;
     __config_setting_destroy (Some q);;
     ret CONFIG_TRUE) c = Ok (CONFIG_TRUE, c') /\ crep c' t' /\ c_flags c' = c_flags c.
Proof.
  intros Hn Hi Ha Ev -> Hr Hnm. pose proof Hn as [Hc Hf]. destruct (node_facts _ _ _ _ _ Hn) as (Ht & _ & _).
  rewrite (bind_ok _ _ _ _ _ (list_remove_ok kids i k c Hi)).
  rewrite (bind_ok _ _ _ _ _ eq_refl). set (s' := with_value (VList (t_loc <$> delete i kids) cap) s).
  destruct (crep_remove c t p s kids i k s' Hc Hf Hi eq_refl eq_refl Ht) as (h & E & Hc').
  { unfold value_ok. cbn [s_type s' with_value]. rewrite Ha. split; [by apply (names_delete _ _ _ k)|]. right.
    exists cap. split; [done|]. apply (Nat.le_trans _ (room (length kids))); [|done]. apply room_le.
    rewrite length_delete by (by rewrite Hi). lia. }
  rewrite (bind_ok _ _ _ _ _ E). by eexists _, _.
Qed.

Lemma remove_ok c t p s kids name :
  node_at c t p s kids -> exists r c' t', config_setting_remove (Some p) (Some name) c = Ok (r, c') /\ crep c' t' /\ c_flags c' = c_flags c.
Proof.
  intros Hn. unfold config_setting_remove. rewrite (bind_ok _ _ _ _ _ (setting_at _ _ _ _ _ Hn)).
  assert (Hsame : crep c t /\ c_flags c = c_flags c) by (by destruct Hn).
  destruct (Z.eqb_spec (s_type s) CONFIG_TYPE_GROUP) as [Et|]; cbn [negb]; [|by exists CONFIG_FALSE, c, t].
  assert (Ha : is_aggregate (s_type s) = true) by (by rewrite Et).
  destruct (list_at _ _ _ _ _ Hn Ha) as (o & E & Hnm & Ho). rewrite (bind_ok _ _ c o c) by (unfold lift; by rewrite E).
  rewrite (bind_ok _ _ c (c_heap c) c) by done. destruct o as [[l cap]|]; [|by exists CONFIG_FALSE, c, t].
  destruct Ho as (Ev & -> & Hr). cbn [__config_list_search].
  rewrite (bind_ok _ _ c ((fun '(j, k) => ((0 + j)%nat, t_loc k)) <$> list_find (named name) kids) c)
    by (unfold lift; by rewrite search_ok by (intros; by apply (kids_heap c t p s kids))).
  destruct (list_find (named name) kids) as [[j k]|] eqn:Ef; cbn [fmap option_fmap option_map]; [|by exists CONFIG_FALSE, c, t].
  apply list_find_Some in Ef as (Hj & _). cbn [Nat.add].
  destruct (take_out c t p s kids j k (t_loc <$> kids) cap Hn Hj Ha Ev eq_refl Hr Hnm) as (c' & t' & E' & H').
  exists CONFIG_TRUE, c', t'. split; [|exact H'].
  rewrite (bind_ok _ _ _ _ _ (list_remove_ok kids j k c Hj)) in E'. by rewrite (bind_ok _ _ _ _ _ (list_remove_ok kids j k c Hj)).
Qed.

Lemma remove_elem_ok c t p s kids idx :
  node_at c t p s kids -> exists r c' t', config_setting_remove_elem (Some p) idx c = Ok (r, c') /\ crep c' t' /\ c_flags c' = c_flags c.
Proof.
  intros Hn. unfold config_setting_remove_elem. rewrite (bind_ok _ _ _ _ _ (setting_at _ _ _ _ _ Hn)).
  assert (Hsame : crep c t /\ c_flags c = c_flags c) by (by destruct Hn).
  destruct (is_aggregate (s_type s)) eqn:Ha; cbn [negb]; [|by exists CONFIG_FALSE, c, t].
  destruct (list_at _ _ _ _ _ Hn Ha) as (o & E & Hnm & Ho). rewrite (bind_ok _ _ c o c) by (unfold lift; by rewrite E).
  destruct o as [[l cap]|]; [|by exists CONFIG_FALSE, c, t]. destruct Ho as (Ev & -> & Hr). rewrite length_fmap.
  destruct (Z.leb_spec (Z.of_nat (length kids)) (u32 idx)); [by exists CONFIG_FALSE, c, t|]. pose proof (u32_range idx).
  destruct (lookup_lt_is_Some_2 kids (Z.to_nat (u32 idx))) as [k Hk]; [lia|].
  destruct (take_out c t p s kids _ k _ cap Hn Hk Ha Ev eq_refl Hr Hnm) as (c' & t' & E' & H'). by exists CONFIG_TRUE, c', t'.
Qed.

(** ** Values of elements *)

Lemma check_ok c t p s kids type : node_at c t p s kids -> is_aggregate (s_type s) = true ->
  exists b, __config_vector_checktype p type c = Ok (b, c).
Proof.
  intros Hn Ha. unfold __config_vector_checktype. rewrite (bind_ok _ _ _ _ _ (setting_at _ _ _ _ _ Hn)).
  destruct (list_at _ _ _ _ _ Hn Ha) as (o & E & _ & Ho). rewrite (bind_ok _ _ c o c) by (unfold lift; by rewrite E).
  destruct o as [[l cap]|]; [|by eexists]. destruct Ho as (_ & -> & _). destruct kids as [|k kids]; [by eexists|]. cbn.
  destruct (s_type s =? CONFIG_TYPE_LIST); [by eexists|]. destruct (kid_node _ _ _ _ _ 0 k Hn eq_refl) as [ks Hk].
  rewrite (bind_ok _ _ _ _ _ (setting_at _ _ _ _ _ Hk)). by eexists.
Qed.

Lemma set_elem_ok f c t p s kids idx type :
  writer_ok f -> auto_convert (c_flags c) = false -> CONFIG_TYPE_NONE <= type <= CONFIG_TYPE_LIST -> node_at c t p s kids ->
  exists r c' t', set_elem p idx type (write_setting f) c = Ok (r, c') /\ crep c' t' /\ c_flags c' = c_flags c.
Proof.
  intros Hw Hfl Ht Hn. unfold set_elem. rewrite (bind_ok _ _ _ _ _ (setting_at _ _ _ _ _ Hn)).
  destruct (negb (s_type s =? CONFIG_TYPE_ARRAY) && negb (s_type s =? CONFIG_TYPE_LIST)) eqn:Ev; [exists None, c, t; by destruct Hn|].
  assert (Ha : is_aggregate (s_type s) = true) by (unfold is_aggregate; destruct (s_type s =? CONFIG_TYPE_GROUP); lia).
  assert (Hg : s_type s <> CONFIG_TYPE_GROUP) by (untype; lia).
  assert (He : exists e c1 t1, (if idx <? 0 then
        let* ok := __config_vector_checktype p type in
        if (ok : bool) then config_setting_create p None type else ret None
      else config_setting_get_elem p idx) c = Ok (e, c1) /\ crep c1 t1 /\ c_flags c1 = c_flags c /\
      forall q, e = Some q -> exists s1 ks, node_at c1 t1 q s1 ks).
  { destruct (idx <? 0).
    - destruct (check_ok c t p s kids type Hn Ha) as [[] Ec]; rewrite (bind_ok _ _ _ _ _ Ec); [|exists None, c, t; by destruct Hn].
      destruct (list_at _ _ _ _ _ Hn Ha) as (_ & _ & Hnm & _).
      destruct (create_ok c t p s kids None type Hn Ha Ht) as (c' & s' & E & Hfl' & [Hc' _] & Hl & _); [by apply new_name|].
      do 3 eexists. split; [exact E|]. split; [exact Hc'|]. split; [done|]. intros q Eq. apply (inj Some) in Eq as <-.
      destruct (node_live _ _ _ _ Hc' Hl) as [ks Hk]. by do 2 eexists.
    - eexists _, c, t. split; [by apply (get_elem_ok c t p s kids)|]. split; [by destruct Hn|]. split; [done|].
      rewrite Ha. intros q Eq. destruct (kids !! _) as [k|] eqn:Ek; [|done]. cbn in Eq. apply (inj Some) in Eq as <-.
      destruct (kid_node _ _ _ _ _ _ k Hn Ek) as [ks Hk]. by do 2 eexists. }
  destruct He as (e & c1 & t1 & E & Hc1 & Hf1 & Hq). rewrite (bind_ok _ _ _ _ _ E). destruct e as [q|]; [|by exists None, c1, t1].
  destruct (Hq q eq_refl) as (s1 & ks & Hnq).
  destruct (write_setting_ok f c1 t1 q s1 ks Hw ltac:(by rewrite Hf1) Hnq) as (r & c2 & t2 & s2 & Er & [Hc2 _] & Hf2 & _).
  rewrite (bind_ok _ _ _ _ _ Er). destruct (r =? 0); eexists _, c2, t2; (split; [reflexivity|]); split; [done|congruence|done|congruence].
Qed.

(** ** Paths *)

Lemma skip_name_le p : (length (skip_name p) <= length p)%nat.
Proof. induction p as [|c p IH]; cbn; [done|]. destruct (is_sep c); cbn; lia. Qed.

Lemma skip_seps_head p c rest : skip_seps p = c :: rest -> is_sep c = false /\ (length rest < length p)%nat.
Proof.
  induction p as [|x p IH]; cbn; [done|]. destruct (is_sep x) eqn:E.
  - intros H. destruct (IH H) as [? ?]. split; [done|lia].
  - intros H. injection H as -> ->. split; [done|lia].
Qed.

(** A lookup ends and gives a live setting or nothing. *)
Lemma lookup_live c t fuel : forall p s kids path,
  node_at c t p s kids -> (length path < fuel)%nat ->
  exists r, lookup_loop fuel p path c = Ok (r, c) /\ forall q, r = Some q -> exists s' ks, node_at c t q s' ks.
Proof.
  induction fuel as [|fuel IH]; intros p s kids path Hn Hlen; [lia|]. cbn [lookup_loop].
  destruct (skip_seps path) as [|ch rest] eqn:E.
  { exists (Some p). split; [done|]. intros q Eq. apply (inj Some) in Eq as <-. by exists s, kids. }
  destruct (skip_seps_head _ _ _ E) as [Hs Hl]. set (q := if ch =? 91 then rest else ch :: rest).
  assert (Hq : (length (skip_name q) < fuel)%nat).
  { pose proof (skip_name_le rest). subst q. destruct (ch =? 91); [lia|]. cbn. rewrite Hs. lia. }
  assert (Hf : exists o, (if ch =? 91 then config_setting_get_elem p (atoi rest) else config_setting_get_member p (Some q)) c = Ok (o, c) /\
    forall x, o = Some x -> exists k i, kids !! i = Some k /\ x = t_loc k).
  { destruct (ch =? 91).
    - eexists. split; [by apply (get_elem_ok c t p s kids)|]. intros x Ex. destruct (is_aggregate (s_type s)); [|done].
      destruct (kids !! _) as [k|] eqn:Ek; [|done]. cbn in Ex. apply (inj Some) in Ex as <-. by eexists _, _.
    - eexists. split; [by apply (get_member_ok c t p s kids)|]. intros x Ex. destruct (s_type s =? CONFIG_TYPE_GROUP); [|done].
      destruct (list_find (named q) kids) as [[i k]|] eqn:Ek; [|done]. cbn in Ex. apply (inj Some) in Ex as <-.
      apply list_find_Some in Ek as (Hi & _). by exists k, i. }
  destruct Hf as (o & Eo & Ho). rewrite (bind_ok _ _ _ _ _ Eo). destruct o as [x|].
  - destruct (Ho x eq_refl) as (k & i & Hi & ->). destruct (kid_node _ _ _ _ _ _ _ Hn Hi) as [ks Hk].
    by apply (IH _ _ _ _ Hk).
  - eexists. split; [done|]. destruct q; [|done]. intros x Ex. apply (inj Some) in Ex as <-. by exists s, kids.
Qed.

Lemma config_lookup_ok c t path : crep c t ->
  exists r, config_lookup path c = Ok (r, c) /\ forall q, r = Some q -> exists s ks, node_at c t q s ks.
Proof.
  intros Hc. unfold config_lookup. rewrite (bind_ok _ _ c (Some (t_loc t)) c) by (unfold gets; by rewrite (cr_root _ _ Hc)).
  rewrite (bind_ok _ _ c (t_loc t) c) by done. destruct t as [p s kids]. apply (lookup_live _ _ _ p s kids); [|lia].
  split; [done|]. rewrite find_node. by rewrite decide_True.
Qed.

(** ** The place of a setting *)

Lemma parent_of p t n par :
  wt par t -> find p t = Some n -> t_loc t = p \/
  exists q s l cap, s_parent (t_set n) = Some q /\ (q, s) ∈ entries t /\ s_value s = VList l cap /\ p ∈ l.
Proof.
  revert par. induction t as [p' s kids IH] using ltree_ind'. intros par Hw. rewrite find_node.
  inversion Hw as [par' p0 s0 kids0 Ht Hp Hv Hk]; subst. destruct (decide (p = p')) as [-> |Hne]; [by left|]. intros Hf. right.
  assert (Hin : exists k, k ∈ kids /\ find p k = Some n).
  { clear -Hf. induction kids as [|k l IHl]; [done|]. rewrite find_in_cons in Hf. destruct (find p k) as [m|] eqn:E.
    - exists k. split; [left|]. congruence.
    - destruct (IHl Hf) as (k' & ? & ?). exists k'. split; [by right|done]. }
  destruct Hin as (k & Hin & Hfk). rewrite Forall_forall in IH, Hk. specialize (Hk k Hin).
  destruct (IH k Hin _ Hk Hfk) as [Hl|(q & sq & l & cap & E & Hall & Hn)].
  - assert (k = n) as -> by (destruct k; cbn in Hl; subst; rewrite find_node, decide_True in Hfk by done; congruence).
    unfold value_ok in Hv. destruct (is_aggregate (s_type s)); [|destruct Hv as [-> _]; by apply elem_of_nil in Hin].
    destruct Hv as [_ [[_ ->]|(cap & Ev & _)]]; [by apply elem_of_nil in Hin|].
    exists p', s, (t_loc <$> kids), cap. split; [by inversion Hk; subst|]. split; [left|]. split; [done|].
    apply list_elem_of_fmap. by exists n.
  - exists q, sq, l, cap. split; [done|]. split; [|done]. right. apply list_elem_of_In, in_flat_map. exists k.
    by rewrite <- !list_elem_of_In.
Qed.

Lemma index_ok c t p s kids : node_at c t p s kids -> exists i, config_setting_index p c = Ok (i, c).
Proof.
  intros Hn. pose proof Hn as [Hc Hf]. unfold config_setting_index. rewrite (bind_ok _ _ _ _ _ (setting_at _ _ _ _ _ Hn)).
  destruct (parent_of p t _ None (cr_wt _ _ Hc) Hf) as [Hl|(q & sq & l & cap & E & Hq & Ev & _)].
  - pose proof (cr_wt _ _ Hc) as Hw. destruct t as [p' s' ks]. cbn in Hl. subst. rewrite find_node, decide_True in Hf by done.
    injection Hf as <- <-. inversion Hw as [? ? ? ? _ Hpar _ _]; subst. rewrite Hpar. by eexists.
  - cbn in E. rewrite E. assert (Hq' : c_heap c !! q = Some sq).
    { rewrite (cr_heap _ _ Hc). apply elem_of_list_to_map_1; [exact (cr_nodup _ _ Hc)|done]. }
    rewrite (bind_ok _ _ c sq c) by (unfold setting, deref; by rewrite Hq').
    rewrite (bind_ok _ _ c (Some (l, cap)) c) by (unfold lift; by rewrite Ev). rewrite (bind_ok _ _ c (l, cap) c) by done. by eexists.
Qed.

Lemma length_ok c t p s kids : node_at c t p s kids ->
  config_setting_length p c = Ok (if is_aggregate (s_type s) then Z.of_nat (length kids) else 0, c).
Proof.
  intros Hn. unfold config_setting_length. rewrite (bind_ok _ _ _ _ _ (setting_at _ _ _ _ _ Hn)).
  destruct (is_aggregate (s_type s)) eqn:Ha; cbn [negb]; [|done].
  destruct (list_at _ _ _ _ _ Hn Ha) as (o & E & _ & Ho). rewrite (bind_ok _ _ c o c) by (unfold lift; by rewrite E).
  destruct o as [[l cap]|]; [|by rewrite Ho]. destruct Ho as (_ & -> & _). by rewrite length_fmap.
Qed.

(** ** The whole configuration *)

Lemma init_ok c : c_heap c = ∅ -> exists c', config_init c = Ok (tt, c') /\ c_flags c' = 0 /\
  crep c' (LNode (c_fresh c) (Setting None CONFIG_TYPE_GROUP 0 VZero None) []).
Proof.
  intros Hh. eexists. split; [reflexivity|]. split; [done|]. split; cbn.
  - done.
  - by rewrite Hh.
  - apply NoDup_singleton.
  - apply Forall_singleton. lia.
  - constructor; [cbn; untype; lia|done| |done]. unfold value_ok, names_ok. cbn. split; [split; [apply NoDup_nil_2|done]|by left].
Qed.

Lemma config_destroy_ok c t : crep c t -> exists c', config_destroy c = Ok (tt, c') /\ c_heap c' = ∅ /\ c_root c' = None.
Proof.
  intros [Hr Hh Hnd Hfr Hw]. unfold config_destroy. rewrite (bind_ok _ _ c (Some (t_loc t)) c) by (unfold gets; by rewrite Hr).
  destruct (destroy_ok t (S (size (c_heap c))) None (c_heap c)) as (h & E & W).
  - rewrite Hh, map_size_list_to_map by exact Hnd. lia.
  - done.
  - done.
  - intros x Hx. rewrite Hh. apply elem_of_list_to_map_1; [exact Hnd|by destruct x].
  - rewrite (bind_ok _ _ c tt (set_heap h c)) by (unfold __config_setting_destroy; by rewrite E).
    eexists. split; [reflexivity|]. split; [|done]. cbn. apply map_eq. intros x. rewrite (W x), lookup_empty.
    destruct (decide (x ∈ locs t)) as [|Hx]; [done|]. rewrite Hh. by apply not_elem_of_list_to_map.
Qed.

(** ** Sessions *)

Inductive vkind : Type := KInt | KInt64 | KFloat | KBool | KString.
Inductive cval : Type := CInt (x : Z) | CInt64 (x : Z) | CFloat (x : spec_float) | CBool (x : Z) | CStr (x : option cstring).

(** The functions of the interface. *)
Inductive capi : Type :=
| ApiAdd (parent : loc) (name : option cstring) (type : Z)
| ApiRemove (parent : loc) (name : cstring)
| ApiRemoveElem (parent : loc) (idx : Z)
| ApiSet (p : loc) (v : cval)
| ApiSetFormat (p : loc) (format : Z)
| ApiSetElem (p : loc) (idx : Z) (v : cval)
| ApiGet (k : vkind) (p : loc)
| ApiGetFormat (p : loc)
| ApiGetElemValue (k : vkind) (p : loc) (idx : Z)
| ApiGetElem (p : loc) (idx : Z)
| ApiGetMember (p : loc) (name : cstring)
| ApiLength (p : loc)
| ApiIndex (p : loc)
| ApiLookup (path : cstring)
| ApiLookupFrom (p : loc) (path : cstring)
| ApiLookupValue (k : vkind) (path : cstring)
| ApiMemberValue (k : vkind) (p : loc) (name : cstring).

Inductive cans : Type :=
| AnsSetting (p : option loc)
| AnsCode (x : Z)
| AnsValue (v : cval)
| AnsFound (v : option cval).

Definition map_m {S A B} (f : A -> B) (m : M S A) : M S B := let* x := m in ret (f x).

Definition run_capi (o : capi) : M config_t cans :=
  match o with
  | ApiAdd p name type => map_m AnsSetting (config_setting_add (Some p) name type)
  | ApiRemove p name => map_m AnsCode (config_setting_remove (Some p) (Some name))
  | ApiRemoveElem p idx => map_m AnsCode (config_setting_remove_elem (Some p) idx)
  | ApiSet p (CInt x) => map_m AnsCode (config_setting_set_int (Some p) x)
  | ApiSet p (CInt64 x) => map_m AnsCode (config_setting_set_int64 (Some p) x)
  | ApiSet p (CFloat x) => map_m AnsCode (config_setting_set_float (Some p) x)
  | ApiSet p (CBool x) => map_m AnsCode (config_setting_set_bool (Some p) x)
  | ApiSet p (CStr x) => map_m AnsCode (config_setting_set_string (Some p) x)
  | ApiSetFormat p f => map_m AnsCode (config_setting_set_format (Some p) f)
  | ApiSetElem p idx (CInt x) => map_m AnsSetting (config_setting_set_int_elem p idx x)
  | ApiSetElem p idx (CInt64 x) => map_m AnsSetting (config_setting_set_int64_elem p idx x)
  | ApiSetElem p idx (CFloat x) => map_m AnsSetting (config_setting_set_float_elem p idx x)
  | ApiSetElem p idx (CBool x) => map_m AnsSetting (config_setting_set_bool_elem p idx x)
  | ApiSetElem p idx (CStr x) => map_m AnsSetting (config_setting_set_string_elem p idx x)
  | ApiGet KInt p => map_m (AnsValue ∘ CInt) (config_setting_get_int (Some p))
  | ApiGet KInt64 p => map_m (AnsValue ∘ CInt64) (config_setting_get_int64 (Some p))
  | ApiGet KFloat p => map_m (AnsValue ∘ CFloat) (config_setting_get_float (Some p))
  | ApiGet KBool p => map_m (AnsValue ∘ CBool) (config_setting_get_bool (Some p))
  | ApiGet KString p => map_m (AnsValue ∘ CStr) (config_setting_get_string (Some p))
  | ApiGetFormat p => map_m AnsCode (config_setting_get_format (Some p))
  | ApiGetElemValue KInt p idx => map_m (AnsValue ∘ CInt) (config_setting_get_int_elem p idx)
  | ApiGetElemValue KInt64 p idx => map_m (AnsValue ∘ CInt64) (config_setting_get_int64_elem p idx)
  | ApiGetElemValue KFloat p idx => map_m (AnsValue ∘ CFloat) (config_setting_get_float_elem p idx)
  | ApiGetElemValue KBool p idx => map_m (AnsValue ∘ CBool) (config_setting_get_bool_elem p idx)
  | ApiGetElemValue KString p idx => map_m (AnsValue ∘ CStr) (config_setting_get_string_elem p idx)
  | ApiGetElem p idx => map_m AnsSetting (config_setting_get_elem p idx)
  | ApiGetMember p name => map_m AnsSetting (config_setting_get_member p (Some name))
  | ApiLength p => map_m AnsCode (config_setting_length p)
  | ApiIndex p => map_m AnsCode (config_setting_index p)
  | ApiLookup path => map_m AnsSetting (config_lookup path)
  | ApiLookupFrom p path => map_m AnsSetting (config_lookup_from p path)
  | ApiLookupValue KInt path => map_m (AnsFound ∘ fmap CInt) (config_lookup_int path)
  | ApiLookupValue KInt64 path => map_m (AnsFound ∘ fmap CInt64) (config_lookup_int64 path)
  | ApiLookupValue KFloat path => map_m (AnsFound ∘ fmap CFloat) (config_lookup_float path)
  | ApiLookupValue KBool path => map_m (AnsFound ∘ fmap CBool) (config_lookup_bool path)
  | ApiLookupValue KString path => map_m (AnsFound ∘ fmap CStr) (config_lookup_string path)
  | ApiMemberValue KInt p n => map_m (AnsFound ∘ fmap CInt) (config_setting_lookup_int p (Some n))
  | ApiMemberValue KInt64 p n => map_m (AnsFound ∘ fmap CInt64) (config_setting_lookup_int64 p (Some n))
  | ApiMemberValue KFloat p n => map_m (AnsFound ∘ fmap CFloat) (config_setting_lookup_float p (Some n))
  | ApiMemberValue KBool p n => map_m (AnsFound ∘ fmap CBool) (config_setting_lookup_bool p (Some n))
  | ApiMemberValue KString p n => map_m (AnsFound ∘ fmap CStr) (config_setting_lookup_string p (Some n))
  end.

Fixpoint run_capis (os : list capi) : M config_t (list cans) :=
  match os with
  | [] => ret []
  | o :: os' =>
      let* r := run_capi o in
      let* rs := run_capis os' in
      ret (r :: rs)
  end.

Definition live (c : config_t) (p : loc) : Prop := is_Some (c_heap c !! p).

(** Calls with settings that exist; a member that is added to a group has a name. *)
Definition legal (c : config_t) (o : capi) : Prop :=
  match o with
  | ApiAdd p name _ => exists s, c_heap c !! p = Some s /\ (s_type s = CONFIG_TYPE_GROUP -> name <> None)
  | ApiLookup _ | ApiLookupValue _ _ => True
  | ApiRemove p _ | ApiRemoveElem p _ | ApiSet p _ | ApiSetFormat p _ | ApiSetElem p _ _ | ApiGet _ p | ApiGetFormat p
  | ApiGetElemValue _ p _ | ApiGetElem p _ | ApiGetMember p _ | ApiLength p | ApiIndex p | ApiLookupFrom p _
  | ApiMemberValue _ p _ => live c p
  end.

Fixpoint legal_run (os : list capi) (c : config_t) : Prop :=
  match os with
  | [] => True
  | o :: os' => legal c o /\ forall r c', run_capi o c = Ok (r, c') -> legal_run os' c'
  end.

Lemma elem_read_ok {A} (f : Z -> config_setting_t -> res A) d c t p s kids idx :
  reader_ok f -> auto_convert (c_flags c) = false -> node_at c t p s kids ->
  exists x, (let* e := config_setting_get_elem p idx in
             match e with None => ret d | Some _ => read_setting f e end) c = Ok (x, c).
Proof.
  intros Hr Hf Hn. rewrite (bind_ok _ _ _ _ _ (get_elem_ok c t p s kids idx Hn)).
  destruct (is_aggregate (s_type s)); [|by eexists]. destruct (kids !! _) as [k|] eqn:Ek; [|by eexists].
  destruct (kid_node _ _ _ _ _ _ _ Hn Ek) as [ks Hk]. destruct (read_setting_ok f c t _ _ _ Hr Hf Hk) as (x & _ & E). by exists x.
Qed.

Lemma typed_ok {A} (f : Z -> config_setting_t -> res A) type c t o :
  reader_ok f -> auto_convert (c_flags c) = false -> (forall q, o = Some q -> exists s ks, node_at c t q s ks) ->
  exists x, typed type (read_setting f) o c = Ok (x, c).
Proof.
  intros Hr Hf Ho. destruct o as [q|]; [|by eexists]. destruct (Ho q eq_refl) as (s & ks & Hn). unfold typed.
  rewrite (bind_ok _ _ _ _ _ (setting_at _ _ _ _ _ Hn)). destruct (negb (s_type s =? type)); [by eexists|].
  destruct (read_setting_ok f c t _ _ _ Hr Hf Hn) as (x & _ & E). rewrite (bind_ok _ _ _ _ _ E). by eexists.
Qed.

Lemma lookup_typed_ok {A} (f : Z -> config_setting_t -> res A) type c t path :
  reader_ok f -> auto_convert (c_flags c) = false -> crep c t ->
  exists x, (let* s := config_lookup path in typed type (read_setting f) s) c = Ok (x, c).
Proof.
  intros Hr Hf Hc. destruct (config_lookup_ok c t path Hc) as (o & E & Ho). rewrite (bind_ok _ _ _ _ _ E). by apply (typed_ok _ _ _ t).
Qed.

Lemma member_typed_ok {A} (f : Z -> config_setting_t -> res A) type c t p s kids n :
  reader_ok f -> auto_convert (c_flags c) = false -> node_at c t p s kids ->
  exists x, (let* m := config_setting_get_member p (Some n) in typed type (read_setting f) m) c = Ok (x, c).
Proof.
  intros Hr Hf Hn. rewrite (bind_ok _ _ _ _ _ (get_member_ok c t p s kids n Hn)). apply (typed_ok _ _ _ t); [done|done|].
  intros q Eq. destruct (s_type s =? CONFIG_TYPE_GROUP); [|done].
  destruct (list_find (named n) kids) as [[i k]|] eqn:Ek; [|done]. cbn in Eq. apply (inj Some) in Eq as <-.
  apply list_find_Some in Ek as (Hi & _). destruct (kid_node _ _ _ _ _ _ _ Hn Hi) as [ks Hk]. by eexists _, _.
Qed.

Lemma format_ok : reader_ok (fun _ s => Ok (s_format s)).
Proof. intros flags s kids _ _. by eexists. Qed.

#[local] Hint Resolve get_int_ok get_int64_ok get_float_ok get_bool_ok get_string_ok format_ok
  set_int_ok set_int64_ok set_float_ok set_bool_ok set_string_ok set_format_ok : config.

(** A call and its answer. *)
Definition steps {A} (m : M config_t A) (c : config_t) : Prop :=
  exists r c' t', m c = Ok (r, c') /\ crep c' t' /\ c_flags c' = c_flags c.

Lemma map_steps {A B} (f : A -> B) m c : steps m c -> steps (map_m f m) c.
Proof. intros (r & c' & t' & E & H'). exists (f r), c', t'. unfold map_m. by rewrite (bind_ok _ _ _ _ _ E). Qed.

(** Calls that only read. *)
Lemma reads_steps {A} (m : M config_t A) c t : crep c t -> (exists x, m c = Ok (x, c)) -> steps m c.
Proof. intros Hc (x & E). by exists x, c, t. Qed.

Lemma read_value {A} (f : Z -> config_setting_t -> res A) c t p s kids :
  reader_ok f -> auto_convert (c_flags c) = false -> node_at c t p s kids -> exists x, read_setting f (Some p) c = Ok (x, c).
Proof. intros Hr Hf Hn. destruct (read_setting_ok f c t p s kids Hr Hf Hn) as (x & _ & E). by exists x. Qed.

Lemma writes_steps f c t p s kids :
  writer_ok f -> auto_convert (c_flags c) = false -> node_at c t p s kids -> steps (write_setting f (Some p)) c.
Proof. intros Hw Hf Hn. destruct (write_setting_ok f c t p s kids Hw Hf Hn) as (r & c' & t' & s' & E & [Hc _] & Hf' & _). by exists r, c', t'. Qed.

Ltac use_node Hl Hc p :=
  let s := fresh "s" in let Hs := fresh "Hs" in let kids := fresh "kids" in
  destruct Hl as [s Hs]; destruct (node_live _ _ p s Hc Hs) as [kids Hn].

Lemma capi_ok c t o : crep c t -> auto_convert (c_flags c) = false -> legal c o -> steps (run_capi o) c.
Proof.
  intros Hc Hf Hl. destruct o as [p name type|p name|p idx|p v|p v|p idx v|k p|p|k p idx|p idx|p n|p|p|path|p path|k path|k p n];
    cbn [legal] in Hl.
  - destruct Hl as (s & Hs & Hname). destruct (node_live c t p s Hc Hs) as [kids Hn]. apply map_steps. by apply (add_ok c t p s kids).
  - use_node Hl Hc p. apply map_steps. by apply (remove_ok c t p s kids).
  - use_node Hl Hc p. apply map_steps. by apply (remove_elem_ok c t p s kids).
  - use_node Hl Hc p. destruct v; apply map_steps; apply (writes_steps _ c t p s kids); auto with config.
  - use_node Hl Hc p. apply map_steps. apply (writes_steps _ c t p s kids); auto with config.
  - use_node Hl Hc p. destruct v; apply map_steps; apply (set_elem_ok _ c t p s kids); auto with config; untype; lia.
  - use_node Hl Hc p. destruct k; apply map_steps, (reads_steps _ c t Hc); apply (read_value _ c t p s kids); auto with config.
  - use_node Hl Hc p. apply map_steps, (reads_steps _ c t Hc), (read_value _ c t p s kids); auto with config.
  - use_node Hl Hc p. destruct k; apply map_steps, (reads_steps _ c t Hc); apply (elem_read_ok _ _ c t p s kids); auto with config.
  - use_node Hl Hc p. apply map_steps, (reads_steps _ c t Hc). eexists. by apply (get_elem_ok c t p s kids).
  - use_node Hl Hc p. apply map_steps, (reads_steps _ c t Hc). eexists. by apply (get_member_ok c t p s kids).
  - use_node Hl Hc p. apply map_steps, (reads_steps _ c t Hc). eexists. by apply (length_ok c t p s kids).
  - use_node Hl Hc p. apply map_steps, (reads_steps _ c t Hc). by apply (index_ok c t p s kids).
  - apply map_steps, (reads_steps _ c t Hc). destruct (config_lookup_ok c t path Hc) as (r & E & _). by exists r.
  - use_node Hl Hc p. apply map_steps, (reads_steps _ c t Hc).
    destruct (lookup_live c t (S (length path)) p s kids path Hn ltac:(lia)) as (r & E & _). by exists r.
  - destruct k; apply map_steps, (reads_steps _ c t Hc); apply (lookup_typed_ok _ _ c t); auto with config.
  - use_node Hl Hc p. destruct k; apply map_steps, (reads_steps _ c t Hc); apply (member_typed_ok _ _ c t p s kids); auto with config.
Qed.

Lemma capis_ok os : forall c t, crep c t -> auto_convert (c_flags c) = false -> legal_run os c -> steps (run_capis os) c.
Proof.
  induction os as [|o os IH]; intros c t Hc Hf Hl; [by exists [], c, t|]. destruct Hl as [Ho Hl].
  destruct (capi_ok c t o Hc Hf Ho) as (r & c1 & t1 & E1 & Hc1 & Hf1).
  destruct (IH c1 t1 Hc1 ltac:(by rewrite Hf1) (Hl r c1 E1)) as (rs & c2 & t2 & E2 & Hc2 & Hf2).
  exists (r :: rs), c2, t2. cbn [run_capis]. rewrite (bind_ok _ _ _ _ _ E1), (bind_ok _ _ _ _ _ E2). split; [done|].
  split; [done|congruence].
Qed.

(** C40: the interface of libconfig is type safe.  Any sequence of calls on settings that exist
    (with automatic conversion off, as it is by default) runs without a fault: no member of the
    value union is read as another, no freed or null setting is used, no element list is
    overrun.  The heap stays a tree of settings in which every value has its setting's type and
    the members of a group have different valid names, and [config_destroy] then frees every
    setting. *)
Theorem config_api_typed (os : list capi) (c : config_t) :
  c_heap c = ∅ -> (forall c1, config_init c = Ok (tt, c1) -> legal_run os c1) ->
  exists c1 rs c2 t c3, config_init c = Ok (tt, c1) /\ run_capis os c1 = Ok (rs, c2) /\ crep c2 t /\
    config_destroy c2 = Ok (tt, c3) /\ c_heap c3 = ∅.
Proof.
  intros Hh Hl. destruct (init_ok c Hh) as (c1 & E1 & Hf & Hc1).
  destruct (capis_ok os c1 _ Hc1 ltac:(by rewrite Hf) (Hl c1 E1)) as (rs & c2 & t2 & E2 & Hc2 & _).
  destruct (config_destroy_ok c2 t2 Hc2) as (c3 & E3 & He & _). by exists c1, rs, c2, t2, c3.
Qed.

(** A group with an array of strings: an element of another type and a second member of the
    same name are refused, a path finds the element, and the group is removed again. *)
Definition sample_config : config_t := Config ∅ 1 None 0 0 CONFIG_ERR_NONE.
Definition sample_calls : list capi :=
  [ApiAdd 1 (Some (str "loader")) CONFIG_TYPE_GROUP; ApiAdd 2 (Some (str "boot2")) CONFIG_TYPE_ARRAY;
   ApiSetElem 3 (-1) (CStr (Some (str "cdrom0:x"))); ApiSetElem 3 (-1) (CInt 5);
   ApiAdd 2 (Some (str "boot2")) CONFIG_TYPE_INT; ApiAdd 2 (Some (str "usb")) CONFIG_TYPE_BOOL; ApiSet 5 (CBool 1);
   ApiLookupValue KString (str "loader.boot2.[0]"); ApiLookupValue KBool (str "loader/usb"); ApiIndex 5;
   ApiRemove 1 (str "loader"); ApiLookup (str "loader")].

(** Every call of a session is legal, by evaluation. *)
Ltac legal_steps :=
  repeat (split; [first [exact I | (eexists; split; [vm_compute; reflexivity|vm_compute; discriminate]) | (eexists; vm_compute; reflexivity)]|];
    let E := fresh "E" in intros ? ? E; vm_compute in E; injection E as <- <-); exact I.

Lemma config_api_typed_witness :
  exists c1 rs c2 t c3, config_init sample_config = Ok (tt, c1) /\ run_capis sample_calls c1 = Ok (rs, c2) /\ crep c2 t /\
    config_destroy c2 = Ok (tt, c3) /\ c_heap c3 = ∅ /\
    AnsFound (Some (CStr (Some (str "cdrom0:x")))) ∈ rs /\ AnsFound (Some (CBool 1)) ∈ rs /\ AnsSetting None ∈ rs.
Proof.
  destruct (config_api_typed sample_calls sample_config eq_refl) as (c1 & rs & c2 & t & c3 & E1 & E2 & Hc & E3 & He).
  { intros c1 E1. vm_compute in E1. injection E1 as <-. legal_steps. }
  exists c1, rs, c2, t, c3. split; [done|]. split; [done|]. split; [done|]. split; [done|]. split; [done|].
  clear E3 He Hc. vm_compute in E1. injection E1 as <-. vm_compute in E2. injection E2 as <- _.
  repeat split; repeat (first [apply list_elem_of_here | apply list_elem_of_further]).
Defined.
