(* ===== verification/LibConfigWrite.v ===== *)
(** * libconfig: writing a configuration (ee/libconfig/src/libconfig.c)

    [config_write]: the text of all settings.  What is written to the stream is the result. *)

From S2P Require Import Prelude CString Queue LibConfig.
From Stdlib Require Import SpecFloat.
Local Open Scope ps2rd_scope.
Local Open Scope Z_scope.

(** [printf] with the format [%.*g] and FLOAT_PRECISION. *)
Class CFormat : Type := { printf_g : spec_float -> cstring }.

(** ** Numbers *)

(** The digits of a number that is not negative; [fuel] bounds their number. *)
Fixpoint print_base (base : Z) (fuel : nat) (x : Z) : cstring :=
  match fuel with
  | O => [hex_digit (x mod base)]
  | S fuel' => if x <? base then [hex_digit x] else print_base base fuel' (x / base) ++ [hex_digit (x mod base)]
  end.

(** [%d] and [%lld] *)
Definition print_d (x : Z) : cstring := if x <? 0 then 45 :: print_base 10 64 (- x) else print_base 10 64 x.
(** [%X] and [%llX] *)
Definition print_X (x : Z) : cstring := print_base 16 64 x.

(** The loop over the zeros at the end of [fbuf]: the first character is never looked at. *)
Fixpoint skip_zeros (s : cstring) : cstring :=
  match s with c :: s' => if c =? 48 then skip_zeros s' else s | [] => [] end.
Definition strip_zeros (s : cstring) : cstring :=
  match s with
  | [] => []
  | c :: s' => match skip_zeros (reverse s') with [] => s | r => c :: reverse r end
  end.

Definition write_float `{CFormat} (x : spec_float) : cstring :=
  let fbuf := take 60 (printf_g x) in
  if bool_decide (101 ∈ fbuf) then fbuf
  else if bool_decide (46 ∈ fbuf) then strip_zeros fbuf
  else fbuf ++ str ".0".

(** ** Strings *)

(** A byte of a string. *)
Definition escape (c : Z) : cstring :=
  if (c =? 34) || (c =? 92) then [92; c]
  else if c =? 10 then str "\n"
  else if c =? 13 then str "\r"
  else if c =? 12 then str "\f"
  else if c =? 9 then str "\t"
  else if 32 <=? c then [c]
  else str "\x" ++ hex_digits 2 c.

Definition quoted (s : cstring) : cstring := 34 :: flat_map escape s ++ [34].

(** ** Settings *)

Definition __config_indent (depth w : Z) : cstring :=
  if w =? 0 then replicate (Z.to_nat (depth - 1)) 9 else replicate (Nat.max 1 (Z.to_nat ((depth - 1) * w))) 32.

Section Write.
  Context `{CFormat} (h : gmap loc config_setting_t) (tab_width : Z).

(** The elements of a list or of an array, [write] writes the value of a setting. *)
Fixpoint write_elements (write : config_setting_t -> res cstring) (l : list loc) : res cstring :=
  match l with
  | [] => Ok []
  | p :: l' =>
      let? s := deref h p in
      let? t := write s in
      let? r := write_elements write l' in
      Ok (t ++ (match l' with [] => [] | _ => [44] end) ++ [32] ++ r)
  end.

(** The members of a group, [write] writes a whole setting. *)
Fixpoint write_members (write : config_setting_t -> res cstring) (l : list loc) : res cstring :=
  match l with
  | [] => Ok []
  | p :: l' =>
      let? s := deref h p in
      let? t := write s in
      let? r := write_members write l' in
      Ok (t ++ r)
  end.

Definition __config_write_setting (value : Z -> config_setting_t -> res cstring) (depth : Z) (s : config_setting_t) : res cstring :=
  let? v := value depth s in
  Ok ((if 1 <? depth then __config_indent depth tab_width else []) ++
      match s_name s with
      | Some n => n ++ [32; if s_type s =? CONFIG_TYPE_GROUP then 58 else 61; 32]
      | None => []
      end ++ v ++ (if 0 <? depth then [59; 10] else [])).

(** [fuel] bounds the depth of the settings. *)
Fixpoint __config_write_value (fuel : nat) (depth : Z) (s : config_setting_t) : res cstring :=
  match fuel with
  | O => Err OutOfFuel
  | S fuel' =>
      if s_type s =? CONFIG_TYPE_BOOL then
        let? x := v_ival (s_value s) in Ok (if x =? 0 then str "false" else str "true")
      else if s_type s =? CONFIG_TYPE_INT then
        let? x := v_ival (s_value s) in
        Ok (if s_format s =? CONFIG_FORMAT_HEX then str "0x" ++ print_X (u32 x) else print_d x)
      else if s_type s =? CONFIG_TYPE_INT64 then
        let? x := v_llval (s_value s) in
        Ok (if s_format s =? CONFIG_FORMAT_HEX then str "0x" ++ print_X (x mod 2 ^ 64) ++ [76] else print_d x ++ [76])
      else if s_type s =? CONFIG_TYPE_FLOAT then
        let? x := v_fval (s_value s) in Ok (write_float x)
      else if s_type s =? CONFIG_TYPE_STRING then
        let? x := v_sval (s_value s) in Ok (quoted (default [] x))
      else if s_type s =? CONFIG_TYPE_LIST then
        let? l := v_list (s_value s) in
        let? t := match l with None => Ok [] | Some (l, _) => write_elements (__config_write_value fuel' (depth + 1)) l end in
        Ok ([40; 32] ++ t ++ [41])
      else if s_type s =? CONFIG_TYPE_ARRAY then
        let? l := v_list (s_value s) in
        let? t := match l with None => Ok [] | Some (l, _) => write_elements (__config_write_value fuel' (depth + 1)) l end in
        Ok ([91; 32] ++ t ++ [93])
      else if s_type s =? CONFIG_TYPE_GROUP then
        let? l := v_list (s_value s) in
        let? t := match l with
                  | None => Ok []
                  | Some (l, _) => write_members (__config_write_setting (__config_write_value fuel') (depth + 1)) l
                  end in
        Ok ((if 0 <? depth then [10] ++ (if 1 <? depth then __config_indent depth tab_width else []) ++ [123; 10] else []) ++ t ++
            (if 1 <? depth then __config_indent depth tab_width else []) ++ (if 0 <? depth then [125] else []))
      else Ok (str "???")
  end.
End Write.

(** The number of settings bounds their depth. *)
Definition config_write `{CFormat} : M config_t cstring :=
  let* r := gets c_root in
  let* r := lift (of_option NullDeref r) in
  let* s := setting r in
  let* c := get in
  lift (__config_write_setting (c_tab_width c) (__config_write_value (c_heap c) (c_tab_width c) (S (size (c_heap c)))) 0 s).

(** The result and the file that was written; [opens] when it can be opened. *)
Definition config_write_file `{CFormat} (opens : bool) : M config_t (Z * option cstring) :=
  if negb opens then modify (set_error CONFIG_ERR_FILE_IO);; ret (CONFIG_FALSE, None)
  else
    let* t := config_write in
    modify (set_error CONFIG_ERR_NONE);;
    ret (CONFIG_TRUE, Some t).
