(* ===== verification/Grammar.v ===== *)
(** * libconfig: the parser (ee/libconfig/src/grammar.c, parsectx.h, strbuf.c)

    The LALR automaton with its tables, its driver and the actions of its rules, on the tokens
    of the scanner.  Reading the look-ahead token early is not observable: the input is the
    list of the tokens that were not shifted yet. *)

From S2P Require Import Prelude CString Queue LibConfig.
From Stdlib Require Import SpecFloat.
Local Open Scope ps2rd_scope.
Local Open Scope Z_scope.

(** ** Tokens *)

Inductive token : Type :=
| TOK_BOOLEAN (ival : Z)
| TOK_INTEGER (ival : Z)
| TOK_HEX (ival : Z)
| TOK_INTEGER64 (llval : Z)
| TOK_HEX64 (llval : Z)
| TOK_FLOAT (fval : spec_float)
| TOK_STRING (sval : cstring)
| TOK_NAME (sval : cstring)
| TOK_EQUALS
| TOK_NEWLINE
| TOK_ARRAY_START
| TOK_ARRAY_END
| TOK_LIST_START
| TOK_LIST_END
| TOK_COMMA
| TOK_GROUP_START
| TOK_GROUP_END
| TOK_END
| TOK_GARBAGE
| TOK_ERROR.

(** YYTRANSLATE *)
Definition yytranslate (t : token) : Z :=
  match t with
  | TOK_BOOLEAN _ => 3 | TOK_INTEGER _ => 4 | TOK_HEX _ => 5 | TOK_INTEGER64 _ => 6 | TOK_HEX64 _ => 7
  | TOK_FLOAT _ => 8 | TOK_STRING _ => 9 | TOK_NAME _ => 10 | TOK_EQUALS => 11 | TOK_NEWLINE => 12
  | TOK_ARRAY_START => 13 | TOK_ARRAY_END => 14 | TOK_LIST_START => 15 | TOK_LIST_END => 16 | TOK_COMMA => 17
  | TOK_GROUP_START => 18 | TOK_GROUP_END => 19 | TOK_END => 20 | TOK_GARBAGE => 21 | TOK_ERROR => 22
  end.

(** The symbol of the next token; 0 at the end of the input. *)
Definition yytoken (input : list token) : Z := match input with [] => 0 | t :: _ => yytranslate t end.

(** ** Tables *)

Definition YYFINAL : Z := 6.
Definition YYLAST : Z := 33.
Definition YYNTOKENS : Z := 23.
Definition YYMAXDEPTH : nat := 10000.
Definition YYPACT_NINF : Z := -19.
Definition YYTABLE_NINF : Z := -1.
Definition YYTERROR : Z := 1.

Definition yyr1 : list Z :=
  [0; 23; 24; 24; 25; 25; 26; 26; 28; 27; 30; 29; 32; 31; 33; 33; 33; 33; 34; 34; 35; 35; 35; 35; 35; 35; 35; 36; 36; 37;
   37; 38; 38; 39; 39; 41; 40].
Definition yyr2 : list Z :=
  [0; 2; 0; 1; 1; 2; 0; 1; 0; 5; 0; 4; 0; 4; 1; 1; 1; 1; 1; 2; 1; 1; 1; 1; 1; 1; 1; 1; 3; 0; 1; 1; 3; 0; 1; 0; 4].
Definition yydefact : list Z :=
  [2; 8; 0; 3; 4; 0; 1; 5; 0; 20; 21; 23; 22; 24; 25; 18; 10; 12; 35; 15; 16; 0; 26; 14; 17; 33; 29; 6; 9; 19; 31; 34; 0; 27;
   30; 0; 7; 0; 0; 11; 0; 13; 36; 32; 28].
Definition yydefgoto : list Z := [-1; 2; 3; 37; 4; 5; 19; 25; 20; 26; 21; 22; 23; 34; 35; 31; 32; 24; 27].
Definition yypact : list Z :=
  [-1; -19; 12; -1; -19; 3; -19; -19; -2; -19; -19; -19; -19; -19; -19; -19; -19; -19; -19; -19; -19; -5; 8; -19; -19; 21; -2;
   -1; -19; -19; -19; 1; 5; -19; 4; 15; -1; 13; 21; -19; -2; -19; -19; -19; -19].
Definition yypgoto : list Z := [-19; -19; -7; -19; -3; -19; -19; -19; -19; -19; -18; -19; -15; -19; -19; -19; -19; -19; -19].
Definition yytable : list Z :=
  [7; 9; 10; 11; 12; 13; 14; 15; 33; 1; 30; 16; 6; 17; 8; 28; 18; 29; 38; 39; 36; 40; 44; 43; 9; 10; 11; 12; 13; 14; 15; 41; 42; 7].
Definition yycheck : list Z :=
  [3; 3; 4; 5; 6; 7; 8; 9; 26; 10; 25; 13; 0; 15; 11; 20; 18; 9; 17; 14; 27; 17; 40; 38; 3; 4; 5; 6; 7; 8; 9; 16; 19; 36].

(** An entry of a table. *)
Definition entry (tab : list Z) (i : Z) : res Z :=
  if i <? 0 then Err OutOfBounds else of_option OutOfBounds (tab !! Z.to_nat i).

(** ** The context of the actions *)

Record parse_context : Type := PCtx {
  x_parent : option loc;
  x_setting : option loc;
  x_string : option cstring;
}.

Record pstate : Type := PState { p_config : config_t; p_ctx : parse_context }.

Definition in_config {A} (m : M config_t A) : M pstate A := fun s =>
  let? '(x, c) := m (p_config s) in Ok (x, PState c (p_ctx s)).
Definition set_parent (p : option loc) : M pstate unit :=
  modify (fun s => PState (p_config s) (PCtx p (x_setting (p_ctx s)) (x_string (p_ctx s)))).
Definition set_setting (p : option loc) : M pstate unit :=
  modify (fun s => PState (p_config s) (PCtx (x_parent (p_ctx s)) p (x_string (p_ctx s)))).
Definition set_string (x : option cstring) : M pstate unit :=
  modify (fun s => PState (p_config s) (PCtx (x_parent (p_ctx s)) (x_setting (p_ctx s)) x)).

Definition parsectx_append_string (x : cstring) : M pstate unit :=
  let* s := gets (fun s => x_string (p_ctx s)) in set_string (Some (default [] s ++ x)).
Definition parsectx_take_string : M pstate (option cstring) :=
  let* s := gets (fun s => x_string (p_ctx s)) in set_string None;; ret s.

(** IN_ARRAY and IN_LIST *)
Definition in_type (type : Z) : M pstate bool :=
  let* p := gets (fun s => x_parent (p_ctx s)) in
  match p with
  | None => ret false
  | Some p => let* s := in_config (setting p) in ret (s_type s =? type)
  end.
Definition IN_ARRAY : M pstate bool := in_type CONFIG_TYPE_ARRAY.
Definition IN_LIST : M pstate bool := in_type CONFIG_TYPE_LIST.

(** [capture_parse_pos] stores the position in the setting. *)
Definition CAPTURE_PARSE_POS (p : option loc) : M pstate unit :=
  let* p := lift (of_option NullDeref p) in
  let* _ := in_config (setting p) in
  ret tt.

(** ** Actions; the result is [false] for YYABORT *)

(** Rules 10, 12 and 35: an array, a list or a group begins. *)
Definition begin_aggregate (type : Z) : M pstate bool :=
  let* l := IN_LIST in
  if (l : bool) then
    let* p := gets (fun s => x_parent (p_ctx s)) in
    let* q := in_config (config_setting_add p None type) in
    set_parent q;;
    CAPTURE_PARSE_POS q;;
    ret true
  else
    let* p := gets (fun s => x_setting (p_ctx s)) in
    let* q := lift (of_option NullDeref p) in
    let* s := in_config (setting q) in
    in_config (store q (with_scalar type (s_value s) s));;
    set_parent p;;
    set_setting None;;
    ret true.

(** Rules 11, 13 and 36: it ends. *)
Definition end_aggregate : M pstate bool :=
  let* p := gets (fun s => x_parent (p_ctx s)) in
  match p with
  | None => ret true
  | Some p => let* s := in_config (setting p) in set_parent (s_parent s);; ret true
  end.

(** Rules 20 to 26: a value for the setting, or a new element. *)
Definition scalar_value (elem : loc -> M config_t (option loc)) (set : option loc -> M config_t Z)
    (format : option Z) : M pstate bool :=
  let* a := IN_ARRAY in
  let* l := IN_LIST in
  if (a || l)%bool then
    let* p := gets (fun s => x_parent (p_ctx s)) in
    let* p := lift (of_option NullDeref p) in
    let* e := in_config (elem p) in
    match e with
    | None => ret false
    | Some _ =>
        match format with
        | Some f => let* _ := in_config (config_setting_set_format e f) in ret tt
        | None => ret tt
        end;;
        CAPTURE_PARSE_POS e;;
        ret true
    end
  else
    let* p := gets (fun s => x_setting (p_ctx s)) in
    let* _ := in_config (set p) in
    match format with
    | Some f => let* _ := in_config (config_setting_set_format p f) in ret true
    | None => ret true
    end.

Definition int_value (x f : Z) : M pstate bool :=
  scalar_value (fun p => config_setting_set_int_elem p (-1) x) (fun p => config_setting_set_int p x) (Some f).
Definition int64_value (x f : Z) : M pstate bool :=
  scalar_value (fun p => config_setting_set_int64_elem p (-1) x) (fun p => config_setting_set_int64 p x) (Some f).

(** The action of a rule, [v] is the value on top of the stack. *)
Definition action (rule : Z) (v : option token) : M pstate bool :=
  if rule =? 8 then
    match v with
    | Some (TOK_NAME n) =>
        let* p := gets (fun s => x_parent (p_ctx s)) in
        let* q := in_config (config_setting_add p (Some n) CONFIG_TYPE_NONE) in
        set_setting q;;
        match q with
        | None => ret false
        | Some _ => CAPTURE_PARSE_POS q;; ret true
        end
    | _ => fail OutOfBounds
    end
  else if rule =? 10 then begin_aggregate CONFIG_TYPE_ARRAY
  else if rule =? 11 then end_aggregate
  else if rule =? 12 then begin_aggregate CONFIG_TYPE_LIST
  else if rule =? 13 then end_aggregate
  else if (rule =? 18) || (rule =? 19) then
    match v with Some (TOK_STRING x) => parsectx_append_string x;; ret true | _ => fail OutOfBounds end
  else if rule =? 20 then
    match v with
    | Some (TOK_BOOLEAN x) =>
        scalar_value (fun p => config_setting_set_bool_elem p (-1) x) (fun p => config_setting_set_bool p x) None
    | _ => fail OutOfBounds
    end
  else if rule =? 21 then match v with Some (TOK_INTEGER x) => int_value x CONFIG_FORMAT_DEFAULT | _ => fail OutOfBounds end
  else if rule =? 22 then match v with Some (TOK_INTEGER64 x) => int64_value x CONFIG_FORMAT_DEFAULT | _ => fail OutOfBounds end
  else if rule =? 23 then match v with Some (TOK_HEX x) => int_value x CONFIG_FORMAT_HEX | _ => fail OutOfBounds end
  else if rule =? 24 then match v with Some (TOK_HEX64 x) => int64_value x CONFIG_FORMAT_HEX | _ => fail OutOfBounds end
  else if rule =? 25 then
    match v with
    | Some (TOK_FLOAT x) =>
        scalar_value (fun p => config_setting_set_float_elem p (-1) x) (fun p => config_setting_set_float p x) None
    | _ => fail OutOfBounds
    end
  else if rule =? 26 then
    let* x := parsectx_take_string in
    scalar_value (fun p => config_setting_set_string_elem p (-1) x) (fun p => config_setting_set_string p x) None
  else if rule =? 35 then begin_aggregate CONFIG_TYPE_GROUP
  else if rule =? 36 then end_aggregate
  else ret true.

(** ** The driver *)

(** The stack of states and values, the top first. *)
Definition lr_stack : Type := list (Z * option token).

Inductive outcome : Type :=
| Goes (stack : lr_stack) (input : list token)
| Stops (yyresult : Z).

(** Errors: no state takes the error token, so all of them are popped. *)
Fixpoint yyerrlab (stack : lr_stack) : res Z :=
  match stack with
  | [] => Ok 1
  | (s, _) :: rest =>
      let? n := entry yypact s in
      if n =? YYPACT_NINF then yyerrlab rest
      else
        let n := n + YYTERROR in
        if (0 <=? n) && (n <=? YYLAST) then
          let? k := entry yycheck n in
          if k =? YYTERROR then Err OutOfBounds else yyerrlab rest
        else yyerrlab rest
  end.

Definition push_state (s : Z) (v : option token) (stack : lr_stack) (input : list token) : outcome :=
  if (YYMAXDEPTH <=? S (length stack))%nat then Stops 2 else Goes ((s, v) :: stack) input.

(** The state after the reduction, from the state that [rule] was popped back to. *)
Definition yygoto (rule : Z) (yyval : option token) (stack : lr_stack) (input : list token) : res outcome :=
  let? k := entry yyr1 rule in
  let? top := of_option OutOfBounds (fst <$> head stack) in
  let? g := entry yypgoto (k - YYNTOKENS) in
  let? c := if (0 <=? g + top) && (g + top <=? YYLAST) then
              let? x := entry yycheck (g + top) in Ok (x =? top) else Ok false in
  let? s := if (c : bool) then entry yytable (g + top) else entry yydefgoto (k - YYNTOKENS) in
  Ok (push_state s yyval stack input).

Definition yyreduce (rule : Z) (stack : lr_stack) (input : list token) : M pstate outcome :=
  let* yylen := lift (entry yyr2 rule) in
  let yyval := (if yylen =? 0 then None else stack !! Z.to_nat (yylen - 1)) ≫= snd in
  let* ok := action rule (head stack ≫= snd) in
  if negb ok then ret (Stops 1)
  else lift (yygoto rule yyval (drop (Z.to_nat yylen) stack) input).

Definition yyerror_stop (stack : lr_stack) : M pstate outcome :=
  let* r := lift (yyerrlab stack) in ret (Stops r).

Definition yydefault (s : Z) (stack : lr_stack) (input : list token) : M pstate outcome :=
  let* n := lift (entry yydefact s) in
  if n =? 0 then yyerror_stop stack else yyreduce n stack input.

Definition yybackup (stack : lr_stack) (input : list token) : M pstate outcome :=
  let* s := lift (of_option OutOfBounds (fst <$> head stack)) in
  let* n := lift (entry yypact s) in
  if n =? YYPACT_NINF then yydefault s stack input
  else
    let n := n + yytoken input in
    let* c := lift (if (n <? 0) || (YYLAST <? n) then Ok false else let? x := entry yycheck n in Ok (x =? yytoken input)) in
    if negb c then yydefault s stack input
    else
      let* a := lift (entry yytable n) in
      if a <=? 0 then
        if (a =? 0) || (a =? YYTABLE_NINF) then yyerror_stop stack else yyreduce (- a) stack input
      else if a =? YYFINAL then ret (Stops 0)
      else ret (push_state a (head input) stack (tail input)).

Fixpoint yyloop (fuel : nat) (stack : lr_stack) (input : list token) : M pstate Z :=
  match fuel with
  | O => fail OutOfFuel
  | S fuel' =>
      let* o := yybackup stack input in
      match o with
      | Stops r => ret r
      | Goes stack input => yyloop fuel' stack input
      end
  end.

Definition libconfig_yyparse (fuel : nat) (tokens : list token) : M pstate Z := yyloop fuel [(0, None)] tokens.

(** ** Reading a configuration *)

(** [__config_read] on the tokens of the text: the settings before are destroyed. *)
Definition __config_read (fuel : nat) (tokens : list token) : M config_t Z :=
  let* flags := gets c_flags in
  let* tab_width := gets c_tab_width in
  config_destroy;;
  config_init;;
  modify (fun c => Config (c_heap c) (c_fresh c) (c_root c) flags tab_width (c_error c));;
  let* root := gets c_root in
  let* r := (fun c => let? '(r, s) := libconfig_yyparse fuel tokens (PState c (PCtx root root None)) in Ok (r, p_config s)) in
  if negb (r =? 0) then modify (set_error CONFIG_ERR_PARSE);; ret CONFIG_FALSE
  else ret CONFIG_TRUE.

(** [None] when the file cannot be opened. *)
Definition config_read_file (fuel : nat) (file : option (list token)) : M config_t Z :=
  match file with
  | None => modify (set_error CONFIG_ERR_FILE_IO);; ret CONFIG_FALSE
  | Some tokens => __config_read fuel tokens
  end.
