(* ===== verification/GrammarProps.v ===== *)
(** * libconfig: runs of the parser (ee/libconfig/src/grammar.c)

    The decisions of the automaton as a function of the state and the next token, runs of
    its driver, and the exact effect of the actions on the tree of settings. *)

From S2P Require Import Prelude CString Queue LibConfig LibConfigTree LibConfigProps Grammar.
From Stdlib Require Import SpecFloat.
Local Open Scope ps2rd_scope.
Local Open Scope Z_scope.

(** ** Decisions *)

Inductive decision : Type := Shift (s : Z) | Reduce (rule : Z) | Accept | Reject.

Definition decide_default (s : Z) : res decision :=
  let? n := entry yydefact s in Ok (if n =? 0 then Reject else Reduce n).

Definition decide_act (s tok : Z) : res decision :=
  let? n := entry yypact s in
  if n =? YYPACT_NINF then decide_default s
  else
    let n := n + tok in
    let? c := if (n <? 0) || (YYLAST <? n) then Ok false else let? x := entry yycheck n in Ok (x =? tok) in
    if negb c then decide_default s
    else
      let? a := entry yytable n in
      Ok (if a <=? 0 then if (a =? 0) || (a =? YYTABLE_NINF) then Reject else Reduce (- a)
          else if a =? YYFINAL then Accept else Shift a).

Lemma yybackup_act s v stack input d x :
  decide_act s (yytoken input) = Ok d ->
  yybackup ((s, v) :: stack) input x =
    match d with
    | Shift a => ret (push_state a (head input) ((s, v) :: stack) (tail input))
    | Reduce n => yyreduce n ((s, v) :: stack) input
    | Accept => ret (Stops 0)
    | Reject => yyerror_stop ((s, v) :: stack)
    end x.
Proof.
  unfold decide_act, yybackup, yydefault, decide_default. cbn [head fmap option_fmap option_map fst of_option].
  unfold bind, lift. intros Hd. cbn [rbind of_option].
  destruct (entry yypact s) as [n|]; cbn [rbind] in *; [|done].
  assert (Hdef : (let? n := entry yydefact s in Ok (if n =? 0 then Reject else Reduce n)) = Ok d ->
    match d with Shift _ | Accept => False | _ => True end /\
    exists m, entry yydefact s = Ok m /\ d = if m =? 0 then Reject else Reduce m).
  { destruct (entry yydefact s) as [m|]; cbn; [|done]. intros E. injection E as <-. split; [by destruct (m =? 0)|]. by exists m. }
  destruct (n =? YYPACT_NINF).
  { destruct (Hdef Hd) as (_ & m & -> & ->). cbn [rbind]. by destruct (m =? 0). }
  match type of Hd with rbind ?e _ = _ => destruct e as [b|]; cbn [rbind] in *; [|done] end. destruct b; cbn [negb] in *.
  - destruct (entry yytable _) as [a|]; cbn [rbind] in *; [|done]. injection Hd as <-.
    destruct (a <=? 0); [by destruct (_ || _)|]. by destruct (a =? YYFINAL).
  - destruct (Hdef Hd) as (_ & m & -> & ->). cbn [rbind]. by destruct (m =? 0).
Qed.

(** ** Runs of the driver *)

Inductive runs : nat -> lr_stack -> list token -> pstate -> lr_stack -> list token -> pstate -> Prop :=
| runs_none st i x : runs 0 st i x st i x
| runs_step n st i x st1 i1 x1 st2 i2 x2 :
    yybackup st i x = Ok (Goes st1 i1, x1) -> runs n st1 i1 x1 st2 i2 x2 -> runs (S n) st i x st2 i2 x2.

Lemma runs_trans n m st i x st1 i1 x1 st2 i2 x2 :
  runs n st i x st1 i1 x1 -> runs m st1 i1 x1 st2 i2 x2 -> runs (n + m) st i x st2 i2 x2.
Proof. induction 1; [done|]. intros Hr. cbn. econstructor; [eassumption|auto]. Qed.

Lemma runs_loop n m st i x st1 i1 x1 : runs n st i x st1 i1 x1 -> yyloop (n + m) st i x = yyloop m st1 i1 x1.
Proof. induction 1 as [|n st i x st1 i1 x1 st2 i2 x2 E _ IH]; [done|]. cbn [yyloop Nat.add]. rewrite (bind_ok _ _ _ _ _ E). exact IH. Qed.

Lemma push_goes s v stack input : (S (length stack) < YYMAXDEPTH)%nat -> push_state s v stack input = Goes ((s, v) :: stack) input.
Proof. intros Hl. unfold push_state. destruct (Nat.leb_spec YYMAXDEPTH (S (length stack))); [lia|done]. Qed.

Lemma run_shift s v stack t input x a :
  decide_act s (yytranslate t) = Ok (Shift a) -> (S (S (length stack)) < YYMAXDEPTH)%nat ->
  runs 1 ((s, v) :: stack) (t :: input) x ((a, Some t) :: (s, v) :: stack) input x.
Proof.
  intros Hd Hl. econstructor; [|constructor]. rewrite (yybackup_act s v stack (t :: input) _ x Hd).
  cbn [head tail]. by rewrite push_goes by (cbn [length]; lia).
Qed.

(** The state after reducing [rule] to the state [top]. *)
Definition goto (rule top : Z) : res Z :=
  let? k := entry yyr1 rule in
  let? g := entry yypgoto (k - YYNTOKENS) in
  let? c := if (0 <=? g + top) && (g + top <=? YYLAST) then let? x := entry yycheck (g + top) in Ok (x =? top) else Ok false in
  if (c : bool) then entry yytable (g + top) else entry yydefgoto (k - YYNTOKENS).

Lemma yygoto_goto rule yyval top v stack input a :
  goto rule top = Ok a -> yygoto rule yyval ((top, v) :: stack) input = Ok (push_state a yyval ((top, v) :: stack) input).
Proof.
  unfold goto, yygoto. cbn [head fmap option_fmap option_map fst of_option].
  destruct (entry yyr1 rule) as [k|]; cbn [rbind]; [|done]. destruct (entry yypgoto _) as [g|]; cbn [rbind]; [|done].
  match goal with |- rbind ?e _ = _ -> _ => destruct e as [b|]; cbn [rbind]; [|done] end. by intros ->.
Qed.

(** A reduction pops [popped], runs its action and goes on from [top]. *)
Lemma run_reduce rule s v popped top w stack input x x' a :
  decide_act s (yytoken input) = Ok (Reduce rule) ->
  entry yyr2 rule = Ok (Z.of_nat (length popped)) ->
  (exists pre, popped ++ (top, w) :: stack = (s, v) :: pre) ->
  action rule v x = Ok (true, x') -> goto rule top = Ok a -> (S (S (length stack)) < YYMAXDEPTH)%nat ->
  exists u, runs 1 (popped ++ (top, w) :: stack) input x ((a, u) :: (top, w) :: stack) input x'.
Proof.
  intros Hd Hn [pre Hp] Ha Hg Hl.
  assert (E : exists u, yyreduce rule (popped ++ (top, w) :: stack) input x = Ok (Goes ((a, u) :: (top, w) :: stack) input, x')).
  { unfold yyreduce. rewrite (bind_ok _ _ x (Z.of_nat (length popped)) x) by (unfold lift; by rewrite Hn).
    assert (Hh : head (popped ++ (top, w) :: stack) ≫= snd = v) by (rewrite Hp; done).
    rewrite Hh, (bind_ok _ _ _ _ _ Ha). cbn [negb]. rewrite Nat2Z.id, drop_app_length. unfold lift.
    rewrite (yygoto_goto _ _ _ _ _ _ _ Hg), push_goes by (cbn [length]; lia). by eexists. }
  destruct E as [u E]. exists u. econstructor; [|constructor]. rewrite Hp. rewrite (yybackup_act s v pre input _ x Hd). rewrite <- Hp. exact E.
Qed.

(** ** Trees after several changes *)

Lemma replace_again q n1 n2 t : t_loc n1 = q -> replace q n2 (replace q n1 t) = replace q n2 t.
Proof.
  intros Hq. induction t as [p s kids IH] using ltree_ind'. cbn [replace]. destruct (decide (q = p)) as [-> |Hne].
  - destruct n1 as [p1 s1 k1]. cbn in Hq. subst. cbn [replace]. by rewrite decide_True.
  - cbn [replace]. rewrite decide_False by done. f_equal. rewrite <- list_fmap_compose.
    clear Hne. induction IH as [|k l Hk _ IHl]; [done|]. cbn. by rewrite Hk, IHl.
Qed.

(** A change inside a subtree that was put in before. *)
Lemma replace_inside q k p n t : q ∉ locs t -> replace q k (replace p n t) = replace p (replace q k n) t.
Proof.
  induction t as [p' s kids IH] using ltree_ind'. rewrite locs_node. intros Hq. apply not_elem_of_cons in Hq as [Hp Hk].
  cbn [replace]. destruct (decide (p = p')) as [-> |Hne]; [done|]. cbn [replace]. rewrite decide_False by done. f_equal.
  rewrite <- list_fmap_compose. clear Hne Hp. induction IH as [|x l Hx _ IHl]; [done|]. cbn [flat_map] in Hk.
  apply not_elem_of_app in Hk as [Hk1 Hk2]. cbn [fmap list_fmap]. f_equal; [by apply Hx|by apply IHl].
Qed.

(** The last element of a node. *)
Lemma replace_last q k p s kids leaf : q <> p -> q ∉ flat_map locs kids -> t_loc leaf = q ->
  replace q k (LNode p s (kids ++ [leaf])) = LNode p s (kids ++ [k]).
Proof.
  intros Hne Hk Hl. cbn [replace]. rewrite decide_False by done. rewrite fmap_app, (absent_in q kids Hk). cbn.
  destruct leaf as [p' s' ks]. cbn in Hl. subst. cbn [replace]. by rewrite decide_True.
Qed.

Lemma fresh_absent c t : crep c t -> c_fresh c ∉ locs t.
Proof.
  intros Hc Hin. pose proof (cr_fresh _ _ Hc) as Hf. rewrite Forall_forall in Hf. specialize (Hf _ Hin). lia.
Qed.

Lemma node_locs t p s kids : NoDup (locs t) -> find p t = Some (LNode p s kids) -> forall q, q ∈ flat_map locs kids -> q ∈ locs t.
Proof.
  intros Hnd Hf q Hq. destruct (find_split p t _ Hnd Hf) as (l1 & l2 & _ & E & _). unfold locs. rewrite E, entries_node, !fmap_app.
  apply elem_of_app. right. apply elem_of_app. left. cbn. right. by rewrite locs_flat.
Qed.

Lemma replace_appended c t p s kids s1 leaf k :
  node_at c t p s kids -> t_loc leaf = c_fresh c ->
  replace (c_fresh c) k (replace p (LNode p s1 (kids ++ [leaf])) t) = replace p (LNode p s1 (kids ++ [k])) t.
Proof.
  intros [Hc Hf] Hl. pose proof (fresh_absent c t Hc) as Hfr. rewrite replace_inside by done. f_equal. apply replace_last; [| |done].
  - intros E. apply Hfr. rewrite E. exact (proj2 (find_loc _ _ _ Hf)).
  - intros Hin. apply Hfr. by apply (node_locs t p s kids (cr_nodup _ _ Hc) Hf).
Qed.

Lemma find_in_locs q l n : find_in q l = Some n -> q ∈ flat_map locs l.
Proof.
  induction l as [|x l IH]; [done|]. rewrite find_in_cons. cbn [flat_map]. intros Hf. apply elem_of_app.
  destruct (find q x) as [m|] eqn:E; [left; exact (proj2 (find_loc _ _ _ E))|right; by apply IH].
Qed.

(** A part of a part is a part. *)
Lemma find_trans p q n k t : NoDup (locs t) -> find p t = Some n -> find q n = Some k -> find q t = Some k.
Proof.
  induction t as [p' s ks IH] using ltree_ind'. rewrite find_node, locs_node. intros Hnd Hf Hq.
  destruct (decide (p = p')) as [_|_]; [by apply (inj Some) in Hf as <-|]. apply NoDup_cons in Hnd as [Hp' Hnd].
  assert (Hks : find_in q ks = Some k).
  { clear Hp'. induction IH as [|x l Hx _ IHl]; [done|]. rewrite find_in_cons in *. cbn [flat_map] in Hnd.
    apply NoDup_app in Hnd as (Hn1 & Hd & Hn2). destruct (find p x) as [m|].
    - apply (inj Some) in Hf as ->. by rewrite (Hx Hn1 eq_refl Hq).
    - specialize (IHl Hn2 Hf). destruct (find q x) as [m|] eqn:E; [|done]. exfalso.
      apply (Hd q (proj2 (find_loc _ _ _ E))). by apply (find_in_locs _ _ k). }
  rewrite find_node, decide_False; [done|]. intros ->. by apply Hp', (find_in_locs _ _ k).
Qed.

(** The last element of a node is a node. *)
Lemma last_node c t p s kids k : node_at c t p s (kids ++ [k]) -> node_at c t (t_loc k) (t_set k) (t_kids k).
Proof.
  intros [Hc Hf]. split; [done|]. pose proof (cr_nodup _ _ Hc) as Hnd. apply (find_trans p _ _ _ t Hnd Hf).
  destruct (find_split p t _ Hnd Hf) as (l1 & l2 & _ & E & _). unfold locs in Hnd. rewrite E, !fmap_app in Hnd.
  apply NoDup_app in Hnd as (_ & _ & Hnd). apply NoDup_app in Hnd as (Hnd & _ & _). rewrite entries_node in Hnd. cbn [fmap list_fmap] in Hnd.
  rewrite locs_flat, flat_map_app in Hnd. cbn [flat_map] in Hnd. rewrite app_nil_r in Hnd. apply NoDup_cons in Hnd as [Hp Hnd].
  apply NoDup_app in Hnd as (_ & Hd & _). rewrite find_node, decide_False.
  2:{ intros Ek. apply Hp. cbn. rewrite <- Ek. apply elem_of_app. right. apply loc_in. }
  clear -Hd. induction kids as [|x l IH].
  - rewrite app_nil_l, find_in_cons. destruct k as [pk sk kk]. rewrite find_node. by rewrite decide_True.
  - rewrite <- app_comm_cons, find_in_cons. destruct (find (t_loc k) x) as [m|] eqn:Ex.
    + exfalso. apply (Hd (t_loc k)); [cbn; apply elem_of_app; left; exact (proj2 (find_loc _ _ _ Ex))|apply loc_in].
    + apply IH. intros y Hy. apply Hd. cbn. apply elem_of_app. by right.
Qed.

(** ** Exact effects *)

Lemma write_exact f c t p s kids s' :
  writer_ok f -> auto_convert (c_flags c) = false -> node_at c t p s kids -> f (c_flags c) s = Ok (Some s') ->
  exists c', write_setting f (Some p) c = Ok (CONFIG_TRUE, c') /\ c_flags c' = c_flags c /\
    node_at c' (replace p (LNode p s' kids) t) p s' kids.
Proof.
  intros Hok Hf Hn E. destruct (node_facts _ _ _ _ _ Hn) as (Ht & Hv & _). destruct (Hok _ s kids Hf Ht Hv) as (r & E' & Hr).
  rewrite E in E'. injection E' as <-. destruct (Hr s' eq_refl) as (H1 & H2 & H3 & H4). pose proof Hn as [Hc Hfd].
  exists (set_heap (<[p := s']> (c_heap c)) c). split; [|split; [done|split]].
  - unfold write_setting. rewrite (bind_ok _ _ c p c) by done. rewrite (bind_ok _ _ _ _ _ (setting_at _ _ _ _ _ Hn)).
    rewrite (bind_ok _ _ c (c_flags c) c) by done. by rewrite (bind_ok _ _ c (Some s') c) by (unfold lift; by rewrite E).
  - by apply (crep_write c t p s kids s').
  - by apply (find_replace p t (LNode p s kids)).
Qed.

(** Leaf [k] is the last element of [p] now. *)
Definition appended (c : config_t) (t : ltree) (p : loc) (s : config_setting_t) (kids : list ltree) (k : ltree) (c' : config_t) : Prop :=
  exists v, node_at c' (replace p (LNode p (with_value v s) (kids ++ [k])) t) p (with_value v s) (kids ++ [k]) /\
    c_flags c' = c_flags c.

Definition new_leaf (c : config_t) (p : loc) (name : option cstring) (type : Z) : ltree :=
  LNode (c_fresh c) (Setting name type 0 VZero (Some p)) [].

Lemma create_exact c t p s kids name type :
  node_at c t p s kids -> is_aggregate (s_type s) = true -> CONFIG_TYPE_NONE <= type <= CONFIG_TYPE_LIST ->
  names_ok (s_type s) (kids ++ [new_leaf c p name type]) ->
  exists c', config_setting_create p name type c = Ok (Some (c_fresh c), c') /\ appended c t p s kids (new_leaf c p name type) c'.
Proof.
  intros Hn Ha Ht Hnm. destruct (create_ok c t p s kids name type Hn Ha Ht Hnm) as (c' & s' & E & Hf & Hn' & _ & v & ->).
  exists c'. split; [done|]. by exists v.
Qed.

(** A member with a new name. *)
Lemma add_member c t p s kids n :
  node_at c t p s kids -> s_type s = CONFIG_TYPE_GROUP -> __config_validate_name n = true -> list_find (named n) kids = None ->
  exists c', config_setting_add (Some p) (Some n) CONFIG_TYPE_NONE c = Ok (Some (c_fresh c), c') /\
    appended c t p s kids (new_leaf c p (Some n) CONFIG_TYPE_NONE) c'.
Proof.
  intros Hn Et Hv Hl. assert (Ha : is_aggregate (s_type s) = true) by (by rewrite Et).
  destruct (list_at _ _ _ _ _ Hn Ha) as (_ & _ & Hnm & _).
  destruct (create_exact c t p s kids (Some n) CONFIG_TYPE_NONE Hn Ha ltac:(untype; lia)) as (c' & E & Hc'); [by apply new_name|].
  exists c'. split; [|done]. unfold config_setting_add. cbn [orb Z.ltb Z.compare CONFIG_TYPE_NONE CONFIG_TYPE_LIST]. rewrite (bind_ok _ _ _ _ _ (setting_at _ _ _ _ _ Hn)).
  rewrite Et. cbn [Z.eqb CONFIG_TYPE_GROUP CONFIG_TYPE_ARRAY CONFIG_TYPE_LIST Pos.eqb orb]. rewrite Hv. cbn [negb].
  rewrite (bind_ok _ _ _ _ _ (get_member_ok c t p s kids n Hn)). by rewrite Et, Hl.
Qed.

(** An element of a list. *)
Lemma add_elem c t p s kids type :
  node_at c t p s kids -> s_type s = CONFIG_TYPE_LIST -> CONFIG_TYPE_NONE <= type <= CONFIG_TYPE_LIST ->
  exists c', config_setting_add (Some p) None type c = Ok (Some (c_fresh c), c') /\ appended c t p s kids (new_leaf c p None type) c'.
Proof.
  intros Hn Et Ht. assert (Ha : is_aggregate (s_type s) = true) by (by rewrite Et).
  destruct (list_at _ _ _ _ _ Hn Ha) as (_ & _ & Hnm & _).
  destruct (create_exact c t p s kids None type Hn Ha Ht) as (c' & E & Hc'); [apply new_name; [done|]; cbn; rewrite Et; untype; lia|].
  exists c'. split; [|done]. unfold config_setting_add.
  replace ((type <? CONFIG_TYPE_NONE) || (CONFIG_TYPE_LIST <? type)) with false by lia.
  rewrite (bind_ok _ _ _ _ _ (setting_at _ _ _ _ _ Hn)). rewrite Et. cbn [Z.eqb CONFIG_TYPE_ARRAY CONFIG_TYPE_LIST Pos.eqb orb].
  rewrite (bind_ok _ _ c None c); [done|]. unfold config_setting_get_member.
  rewrite (bind_ok _ _ _ _ _ (setting_at _ _ _ _ _ Hn)). by rewrite Et.
Qed.

(** The first element of an array has the type of the new one. *)
Definition fits (s : config_setting_t) (kids : list ltree) (type : Z) : Prop :=
  s_type s = CONFIG_TYPE_LIST \/
  s_type s = CONFIG_TYPE_ARRAY /\ match kids with [] => True | k :: _ => s_type (t_set k) = type end.

Lemma set_elem_exact f c t p s kids type s' :
  writer_ok f -> auto_convert (c_flags c) = false -> CONFIG_TYPE_NONE <= type <= CONFIG_TYPE_LIST -> node_at c t p s kids ->
  fits s kids type -> (forall flags, f flags (t_set (new_leaf c p None type)) = Ok (Some s')) ->
  exists c', set_elem p (-1) type (write_setting f) c = Ok (Some (c_fresh c), c') /\ appended c t p s kids (LNode (c_fresh c) s' []) c'.
Proof.
  intros Hw Hf Ht Hn Hfit Hs'. assert (Ha : is_aggregate (s_type s) = true) by (by destruct Hfit as [->|[-> _]]).
  assert (Hg : s_type s <> CONFIG_TYPE_GROUP) by (destruct Hfit as [->|[-> _]]; untype; lia).
  destruct (list_at _ _ _ _ _ Hn Ha) as (o & Eo & Hnm & Ho).
  destruct (create_exact c t p s kids None type Hn Ha Ht) as (c1 & E1 & v & Hn1 & Hf1); [by apply new_name|].
  destruct (write_exact f c1 _ _ _ _ s' Hw ltac:(by rewrite Hf1) (last_node _ _ _ _ _ _ Hn1) (Hs' _)) as (c2 & E2 & Hf2 & Hn2).
  cbn [t_loc new_leaf t_kids] in E2, Hn2. rewrite (replace_appended c t p s kids _ (new_leaf c p None type) _ Hn eq_refl) in Hn2.
  exists c2. split.
  - unfold set_elem. rewrite (bind_ok _ _ _ _ _ (setting_at _ _ _ _ _ Hn)).
    replace (negb (s_type s =? CONFIG_TYPE_ARRAY) && negb (s_type s =? CONFIG_TYPE_LIST)) with false
      by (by destruct Hfit as [->|[-> _]]).
    cbn [Z.ltb Z.compare]. rewrite (bind_ok _ _ c (Some (c_fresh c)) c1).
    { by rewrite (bind_ok _ _ _ _ _ E2). }
    rewrite (bind_ok _ _ c true c); [done|]. unfold __config_vector_checktype. rewrite (bind_ok _ _ _ _ _ (setting_at _ _ _ _ _ Hn)).
    rewrite (bind_ok _ _ c o c) by (unfold lift; by rewrite Eo). destruct o as [[l cap]|]; [|done]. destruct Ho as (_ & -> & _).
    destruct kids as [|k kids]; [done|]. cbn [fmap list_fmap]. destruct (Z.eqb_spec (s_type s) CONFIG_TYPE_LIST); [done|].
    destruct (kid_node _ _ _ _ _ 0 k Hn eq_refl) as [ks Hk]. rewrite (bind_ok _ _ _ _ _ (setting_at _ _ _ _ _ Hk)).
    destruct Hfit as [?|[_ ->]]; [done|]. unfold ret. by rewrite Z.eqb_refl.
  - exists v. split; [|congruence]. split; [by destruct Hn2|].
    apply (find_replace p t (LNode p s kids)); [by destruct Hn|done].
Qed.

(** ** Actions *)

Lemma in_config_ok {A} (m : M config_t A) c x r c' : m c = Ok (r, c') -> in_config m (PState c x) = Ok (r, PState c' x).
Proof. intros E. unfold in_config. cbn. by rewrite E. Qed.

Lemma in_type_at c t p s kids st z type : node_at c t p s kids ->
  in_type type (PState c (PCtx (Some p) st z)) = Ok (s_type s =? type, PState c (PCtx (Some p) st z)).
Proof.
  intros Hn. unfold in_type. rewrite (bind_ok _ _ _ (Some p) (PState c (PCtx (Some p) st z))) by done.
  by rewrite (bind_ok _ _ _ _ _ (in_config_ok _ _ _ _ _ (setting_at _ _ _ _ _ Hn))).
Qed.

Lemma capture_ok c t p s kids x : node_at c t p s kids -> CAPTURE_PARSE_POS (Some p) (PState c x) = Ok (tt, PState c x).
Proof.
  intros Hn. unfold CAPTURE_PARSE_POS. rewrite (bind_ok _ _ _ p (PState c x)) by done.
  by rewrite (bind_ok _ _ _ _ _ (in_config_ok _ _ _ _ _ (setting_at _ _ _ _ _ Hn))).
Qed.

Definition formatted (format : option Z) (s : config_setting_t) : config_setting_t :=
  match format with Some g => with_format g s | None => s end.

Definition formats (format : option Z) (s : config_setting_t) : Prop :=
  match format with Some g => setting_set_format g s = Ok (Some (with_format g s)) | None => True end.

Lemma replace_same p n t : NoDup (locs t) -> find p t = Some n -> replace p n t = t.
Proof.
  induction t as [p' s' ks IH] using ltree_ind'. rewrite find_node, locs_node. cbn [replace]. intros Hnd Hf.
  destruct (decide (p = p')) as [-> |Hne]; [congruence|]. f_equal. apply NoDup_cons in Hnd as [_ Hnd].
  pose proof (find_kids p ks n Hnd Hf) as Hk. clear Hf Hne.
  induction IH as [|k l IHk _ IHl]; [done|]. cbn [flat_map] in Hnd. apply NoDup_app in Hnd as (Hn1 & _ & Hn2).
  apply Forall_cons in Hk as [Hk Hkl]. cbn. rewrite (IHl Hn2 Hkl). f_equal.
  destruct Hk as [Hk|Hk]; [by apply IHk|by apply absent].
Qed.

(** The value that a writer with a format leaves. *)
Lemma format_exact format c t p s kids x :
  auto_convert (c_flags c) = false -> node_at c t p s kids -> formats format s ->
  exists c', (match format with
              | Some f => let* _ := in_config (config_setting_set_format (Some p) f) in ret tt
              | None => ret tt
              end) (PState c x) = Ok (tt, PState c' x) /\ c_flags c' = c_flags c /\
    node_at c' (replace p (LNode p (formatted format s) kids) t) p (formatted format s) kids.
Proof.
  intros Hf Hn Hfm. destruct format as [g|]; cbn [formatted formats] in *.
  - destruct (write_exact (fun _ => setting_set_format g) c t p s kids _ (set_format_ok g) Hf Hn Hfm) as (c' & E & Hf' & Hn').
    exists c'. split; [|done]. by rewrite (bind_ok _ _ _ _ _ (in_config_ok _ _ x _ _ E)).
  - exists c. split; [done|]. split; [done|]. destruct Hn as [Hc Hfd].
    rewrite (replace_same p _ t (cr_nodup _ _ Hc) Hfd). by split.
Qed.

(** Rules 20 to 26 in an array or a list. *)
Lemma scalar_elem f type format c t p s kids s1 set st z :
  writer_ok f -> auto_convert (c_flags c) = false -> CONFIG_TYPE_NONE <= type <= CONFIG_TYPE_LIST -> node_at c t p s kids ->
  fits s kids type -> (forall flags, f flags (t_set (new_leaf c p None type)) = Ok (Some s1)) -> formats format s1 ->
  exists c', scalar_value (fun p => set_elem p (-1) type (write_setting f)) set format (PState c (PCtx (Some p) st z)) =
      Ok (true, PState c' (PCtx (Some p) st z)) /\
    appended c t p s kids (LNode (c_fresh c) (formatted format s1) []) c'.
Proof.
  intros Hw Hf Ht Hn Hfit Hs1 Hfm.
  destruct (set_elem_exact f c t p s kids type s1 Hw Hf Ht Hn Hfit Hs1) as (c1 & E1 & v & Hn1 & Hf1).
  destruct (format_exact format c1 _ _ _ _ (PCtx (Some p) st z) ltac:(by rewrite Hf1) (last_node _ _ _ _ _ _ Hn1) Hfm)
    as (c2 & E2 & Hf2 & Hn2).
  cbn [t_loc t_kids] in *. pose proof (capture_ok _ _ _ _ _ (PCtx (Some p) st z) Hn2) as Hcap.
  rewrite (replace_appended c t p s kids _ (LNode (c_fresh c) s1 []) _ Hn eq_refl) in Hn2.
  exists c2. split.
  - unfold scalar_value, IN_ARRAY, IN_LIST. rewrite !(bind_ok _ _ _ _ _ (in_type_at c t p s kids st z _ Hn)).
    replace ((s_type s =? CONFIG_TYPE_ARRAY) || (s_type s =? CONFIG_TYPE_LIST)) with true by (by destruct Hfit as [->|[-> _]]).
    rewrite (bind_ok _ _ _ (Some p) (PState c (PCtx (Some p) st z))) by done.
    rewrite (bind_ok _ _ _ p (PState c (PCtx (Some p) st z))) by done.
    rewrite (bind_ok _ _ _ _ _ (in_config_ok _ _ _ _ _ E1)). by rewrite (bind_ok _ _ _ _ _ E2), (bind_ok _ _ _ _ _ Hcap).
  - exists v. split; [|congruence]. split; [by destruct Hn2|]. apply (find_replace p t (LNode p s kids)); [by destruct Hn|done].
Qed.

(** Rules 20 to 26 for the setting of a group. *)
Lemma scalar_setting elem f format c t p sp pk q s kids s1 z :
  writer_ok f -> auto_convert (c_flags c) = false -> node_at c t p sp pk -> s_type sp = CONFIG_TYPE_GROUP ->
  node_at c t q s kids -> (forall flags, f flags s = Ok (Some s1)) -> formats format s1 ->
  exists c', scalar_value elem (write_setting f) format (PState c (PCtx (Some p) (Some q) z)) =
      Ok (true, PState c' (PCtx (Some p) (Some q) z)) /\ c_flags c' = c_flags c /\
    node_at c' (replace q (LNode q (formatted format s1) kids) t) q (formatted format s1) kids.
Proof.
  intros Hw Hf Hn Et Hq Hs1 Hfm. destruct (write_exact f c t q s kids s1 Hw Hf Hq (Hs1 _)) as (c1 & E1 & Hf1 & Hn1).
  destruct (format_exact format c1 _ _ _ _ (PCtx (Some p) (Some q) z) ltac:(by rewrite Hf1) Hn1 Hfm) as (c2 & E2 & Hf2 & Hn2).
  rewrite replace_again in Hn2 by done. exists c2. split; [|split; [congruence|done]].
  unfold scalar_value, IN_ARRAY, IN_LIST. rewrite !(bind_ok _ _ _ _ _ (in_type_at c t p sp pk _ z _ Hn)).
  rewrite Et. cbn [Z.eqb CONFIG_TYPE_GROUP CONFIG_TYPE_ARRAY CONFIG_TYPE_LIST Pos.eqb orb].
  rewrite (bind_ok _ _ _ (Some q) (PState c (PCtx (Some p) (Some q) z))) by done.
  rewrite (bind_ok _ _ _ _ _ (in_config_ok _ _ _ _ _ E1)). destruct format as [g|]; [|cbn in E2; by injection E2 as ->].
  apply bind_inv in E2 as (r & x & E2 & E3). rewrite (bind_ok _ _ _ _ _ E2). injection E3 as ->. done.
Qed.

(** ** Groups, arrays and lists begin and end *)

(** The place of the next value: the setting [q] of a group, or the end of a list. *)
Inductive place : Type := InGroup (q : loc) (n : cstring) | InList (s : config_setting_t) (kids : list ltree).

Definition place_name (m : place) : option cstring := match m with InGroup _ n => Some n | InList _ _ => None end.

Definition ready (c : config_t) (t : ltree) (p : loc) (m : place) (st : option loc) : Prop :=
  match m with
  | InGroup q n =>
      st = Some q /\ node_at c t q (Setting (Some n) CONFIG_TYPE_NONE 0 VZero (Some p)) [] /\
      exists sp pk, node_at c t p sp pk /\ s_type sp = CONFIG_TYPE_GROUP
  | InList s kids => node_at c t p s kids /\ s_type s = CONFIG_TYPE_LIST
  end.

Definition filled (c : config_t) (t : ltree) (p : loc) (m : place) (k : ltree) (c' : config_t) : Prop :=
  match m with
  | InGroup q _ => t_loc k = q /\ crep c' (replace q k t) /\ c_flags c' = c_flags c
  | InList s kids => appended c t p s kids k c'
  end.

Lemma begin_ok c t p m st type :
  ready c t p m st -> is_aggregate type = true ->
  exists c1 t1 q st1, begin_aggregate type (PState c (PCtx (Some p) st None)) = Ok (true, PState c1 (PCtx (Some q) st1 None)) /\
    c_flags c1 = c_flags c /\ node_at c1 t1 q (Setting (place_name m) type 0 VZero (Some p)) [] /\
    forall s kids c2, node_at c2 (replace q (LNode q s kids) t1) q s kids -> c_flags c2 = c_flags c1 ->
      filled c t p m (LNode q s kids) c2.
Proof.
  intros Hr Ha. assert (Ht : CONFIG_TYPE_NONE <= type <= CONFIG_TYPE_LIST).
  { unfold is_aggregate in Ha. untype. lia. }
  unfold begin_aggregate, IN_LIST. destruct m as [q n|s kids]; cbn [ready place_name] in *.
  - destruct Hr as (-> & Hq & sp & pk & Hn & Et). rewrite (bind_ok _ _ _ _ _ (in_type_at c t p sp pk _ None _ Hn)). rewrite Et.
    cbn [Z.eqb CONFIG_TYPE_GROUP CONFIG_TYPE_LIST Pos.eqb]. rewrite (bind_ok _ _ _ _ _ eq_refl). rewrite (bind_ok _ _ _ q _ eq_refl).
    rewrite (bind_ok _ _ _ _ _ (in_config_ok _ _ _ _ _ (setting_at _ _ _ _ _ Hq))). pose proof Hq as [Hc Hf].
    set (s1 := Setting (Some n) type 0 VZero (Some p)).
    pose proof (crep_write c t q _ [] s1 Hc Hf eq_refl eq_refl Ht) as Hc1.
    do 4 eexists. split; [reflexivity|]. cbn [p_config p_ctx]. split; [reflexivity|]. cbn [with_scalar s_value s_name s_format s_parent]. split.
    + split; [apply Hc1|by apply (find_replace q t _ (LNode q s1 []) Hf)]. unfold value_ok. cbn [s_type s1 s_value]. rewrite Ha.
      split; [|by left]. unfold names_ok. destruct (type =? CONFIG_TYPE_GROUP); [|done]. split; [apply NoDup_nil_2|done].
    + intros s kids c2 [Hc2 _] Hf2. split; [done|]. by rewrite replace_again in Hc2 by done.
  - destruct Hr as [Hn Et]. rewrite (bind_ok _ _ _ _ _ (in_type_at c t p s kids _ None _ Hn)). rewrite Et.
    cbn [Z.eqb CONFIG_TYPE_LIST Pos.eqb]. rewrite (bind_ok _ _ _ _ _ eq_refl).
    destruct (add_elem c t p s kids type Hn Et Ht) as (c1 & E & v & Hn1 & Hf1).
    cbn [p_ctx x_parent]. rewrite (bind_ok _ _ _ _ _ (in_config_ok _ _ _ _ _ E)). rewrite (bind_ok _ _ _ _ _ eq_refl).
    pose proof (last_node _ _ _ _ _ _ Hn1) as Hq. cbn [t_loc t_set t_kids new_leaf] in Hq.
    eexists c1, _, _, _. split; [|split; [done|split; [exact Hq|]]].
    + cbn [p_config p_ctx x_parent x_setting x_string]. by rewrite (bind_ok _ _ _ _ _ (capture_ok _ _ _ _ _ _ Hq)).
    + intros s' kids' c2 [Hc2 _] Hf2. rewrite (replace_appended c t p s kids _ (new_leaf c p None type) _ Hn eq_refl) in Hc2.
      exists v. split; [|congruence]. split; [done|]. apply (find_replace p t (LNode p s kids)); [by destruct Hn|done].
Qed.

Lemma end_ok c t q s kids p st :
  node_at c t q s kids -> s_parent s = Some p ->
  end_aggregate (PState c (PCtx (Some q) st None)) = Ok (true, PState c (PCtx (Some p) st None)).
Proof.
  intros Hn Hp. unfold end_aggregate. rewrite (bind_ok _ _ _ _ _ eq_refl). cbn [p_ctx x_parent].
  rewrite (bind_ok _ _ _ _ _ (in_config_ok _ _ _ _ _ (setting_at _ _ _ _ _ Hn))). by rewrite Hp.
Qed.

(** ** Names *)

Lemma name_char_plain a : name_char a = true -> is_sep a = false /\ 0 <= a < 128.
Proof.
  unfold name_char, isalpha, isdigit, is_sep, PATH_TOKENS. intros H. split.
  - apply bool_decide_eq_false_2. intros Hin. rewrite !elem_of_cons in Hin.
    destruct Hin as [->|[->|[->|Hin]]]; try discriminate. by apply elem_of_nil in Hin.
  - destruct (bool_decide_reflect (a ∈ [42; 95; 45])) as [Hin|Hin]; [|lia].
    rewrite !elem_of_cons in Hin. destruct Hin as [->|[->|[->|Hin]]]; try lia. by apply elem_of_nil in Hin.
Qed.

Lemma compare_plain a : forall b, forallb name_char a = true -> forallb name_char b = true -> __config_name_compare a b = 0 -> a = b.
Proof.
  induction a as [|x a IH]; intros [|y b] Ha Hb E; cbn in *; [done| | |].
  - apply andb_prop in Hb as [Hy _]. apply name_char_plain in Hy as [Hy _]. by rewrite Hy in E.
  - apply andb_prop in Ha as [Hx _]. apply name_char_plain in Hx as [Hx _]. by rewrite Hx in E.
  - apply andb_prop in Ha as [Hx Ha], Hb as [Hy Hb]. apply name_char_plain in Hx as [Hx Rx], Hy as [Hy Ry].
    rewrite Hx, Hy in E. cbn [andb] in E.
    assert (Es : forall z, 0 <= z < 128 -> s8 z = z) by (intros; apply s8_id; lia).
    rewrite !Es in E by lia. destruct (Z.ltb_spec x y); [done|]. destruct (Z.ltb_spec y x); [done|].
    rewrite (IH b Ha Hb E). f_equal. lia.
Qed.

Lemma validate_chars n : __config_validate_name n = true -> forallb name_char n = true.
Proof.
  destruct n as [|a n]; [done|]. cbn. intros H. apply andb_prop in H as [Ha ->]. rewrite andb_true_r. unfold name_char.
  apply orb_prop in Ha as [->|Ha]; [done|]. apply Z.eqb_eq in Ha as ->. done.
Qed.

(** Valid names compare equal when they are. *)
Lemma compare_valid a b : __config_validate_name a = true -> __config_validate_name b = true ->
  __config_name_compare a b = 0 -> a = b.
Proof. intros Ha Hb. by apply compare_plain; apply validate_chars. Qed.
