(* ===== verification/ConfigParse.v ===== *)
(** * libconfig: what a configuration file means (grammar.c on top of libconfig.c)

    The settings that a sequence of tokens denotes, and the proof that the parser builds
    exactly this tree. *)

From S2P Require Import Prelude CString Queue LibConfig LibConfigTree LibConfigProps Grammar GrammarProps.
From Stdlib Require Import SpecFloat.
Local Open Scope ps2rd_scope.
Local Open Scope Z_scope.

(** ** Settings without locations *)

Inductive snode : Type := SNode (name : option cstring) (type format : Z) (v : config_value_t) (kids : list snode).

Fixpoint erase (t : ltree) : snode :=
  match t with
  | LNode _ s kids =>
      SNode (s_name s) (s_type s) (s_format s) (if is_aggregate (s_type s) then VZero else s_value s) (erase <$> kids)
  end.

(** ** The language *)

(** A string is a sequence of string tokens. *)
Inductive scalar : Type :=
| SBool (x : Z)
| SInt (x : Z)
| SHex (x : Z)
| SInt64 (x : Z)
| SHex64 (x : Z)
| SFloat (x : spec_float)
| SString (part : cstring) (parts : list cstring).

Inductive cfg : Type :=
| CScalar (x : scalar)
| CArray (xs : list scalar)
| CList (vs : list cfg)
| CGroup (ms : list (cstring * cfg)).

Section CfgInd.
  Context (P : cfg -> Prop) (Hs : forall x, P (CScalar x)) (Ha : forall xs, P (CArray xs))
    (Hl : forall vs, Forall P vs -> P (CList vs)) (Hg : forall ms, Forall (fun m => P m.2) ms -> P (CGroup ms)).

Fixpoint cfg_ind' (v : cfg) : P v :=
  match v with
  | CScalar x => Hs x
  | CArray xs => Ha xs
  | CList vs =>
      Hl vs ((fix go (l : list cfg) : Forall P l :=
                match l with [] => Forall_nil_2 P | x :: l' => Forall_cons_2 P x l' (cfg_ind' x) (go l') end) vs)
  | CGroup ms =>
      Hg ms ((fix go (l : list (cstring * cfg)) : Forall (fun m => P m.2) l :=
                match l with
                | [] => Forall_nil_2 _
                | x :: l' => Forall_cons_2 (fun m : cstring * cfg => P m.2) x l' (cfg_ind' x.2) (go l')
                end) ms)
  end.
End CfgInd.

(** *** Its tokens *)

Definition scalar_toks (x : scalar) : list token :=
  match x with
  | SBool x => [TOK_BOOLEAN x]
  | SInt x => [TOK_INTEGER x]
  | SHex x => [TOK_HEX x]
  | SInt64 x => [TOK_INTEGER64 x]
  | SHex64 x => [TOK_HEX64 x]
  | SFloat x => [TOK_FLOAT x]
  | SString p ps => TOK_STRING p :: (TOK_STRING <$> ps)
  end.

(** Items with commas in between. *)
Fixpoint commas (l : list (list token)) : list token :=
  match l with
  | [] => []
  | x :: l' => x ++ match l' with [] => [] | _ => TOK_COMMA :: commas l' end
  end.

Fixpoint value_toks (v : cfg) : list token :=
  match v with
  | CScalar x => scalar_toks x
  | CArray xs => TOK_ARRAY_START :: commas (scalar_toks <$> xs) ++ [TOK_ARRAY_END]
  | CList vs => TOK_LIST_START :: commas (value_toks <$> vs) ++ [TOK_LIST_END]
  | CGroup ms =>
      TOK_GROUP_START :: flat_map (fun '(n, v) => TOK_NAME n :: TOK_EQUALS :: value_toks v ++ [TOK_END]) ms ++ [TOK_GROUP_END]
  end.

Definition member_toks (m : cstring * cfg) : list token := TOK_NAME m.1 :: TOK_EQUALS :: value_toks m.2 ++ [TOK_END].
Definition settings_toks (ms : list (cstring * cfg)) : list token := flat_map member_toks ms.

(** *** The settings it stands for *)

Definition scalar_type (x : scalar) : Z :=
  match x with
  | SBool _ => CONFIG_TYPE_BOOL
  | SInt _ | SHex _ => CONFIG_TYPE_INT
  | SInt64 _ | SHex64 _ => CONFIG_TYPE_INT64
  | SFloat _ => CONFIG_TYPE_FLOAT
  | SString _ _ => CONFIG_TYPE_STRING
  end.
Definition scalar_format (x : scalar) : Z :=
  match x with SHex _ | SHex64 _ => CONFIG_FORMAT_HEX | _ => CONFIG_FORMAT_DEFAULT end.
Definition scalar_val (x : scalar) : config_value_t :=
  match x with
  | SBool x | SInt x | SHex x => VInt x
  | SInt64 x | SHex64 x => VInt64 x
  | SFloat x => VFloat x
  | SString p ps => VStr (concat (p :: ps))
  end.

Definition scalar_tree (name : option cstring) (x : scalar) : snode :=
  SNode name (scalar_type x) (scalar_format x) (scalar_val x) [].

Fixpoint value_tree (name : option cstring) (v : cfg) : snode :=
  match v with
  | CScalar x => scalar_tree name x
  | CArray xs => SNode name CONFIG_TYPE_ARRAY 0 VZero (scalar_tree None <$> xs)
  | CList vs => SNode name CONFIG_TYPE_LIST 0 VZero (value_tree None <$> vs)
  | CGroup ms => SNode name CONFIG_TYPE_GROUP 0 VZero ((fun '(n, v) => value_tree (Some n) v) <$> ms)
  end.

Definition member_tree (m : cstring * cfg) : snode := value_tree (Some m.1) m.2.

(** *** Which of it is well formed *)

(** Arrays have elements of one type; the members of a group have different valid names. *)
Fixpoint cfg_ok (v : cfg) : Prop :=
  match v with
  | CScalar _ => True
  | CArray xs => exists ty, Forall (fun x => scalar_type x = ty) xs
  | CList vs => foldr (fun v r => cfg_ok v /\ r) True vs
  | CGroup ms =>
      NoDup ms.*1 /\ Forall (fun n => __config_validate_name n = true) ms.*1 /\ foldr (fun m r => cfg_ok m.2 /\ r) True ms
  end.

Definition settings_ok (ms : list (cstring * cfg)) : Prop := cfg_ok (CGroup ms).

(** How many entries of the parser's stack it takes. *)
Fixpoint need (v : cfg) : nat :=
  match v with
  | CScalar _ => 3
  | CArray _ => 8
  | CList vs => 6 + foldr (fun v r => Nat.max (need v) r) 3 vs
  | CGroup ms => 8 + foldr (fun m r => Nat.max (need m.2) r) 3 ms
  end%nat.

(** ** Scalars *)

(** The rule of a scalar, the string that is collected for it, and the token on the stack. *)
Definition scalar_rule (x : scalar) : Z :=
  match x with
  | SBool _ => 20 | SInt _ => 21 | SInt64 _ => 22 | SHex _ => 23 | SHex64 _ => 24 | SFloat _ => 25 | SString _ _ => 26
  end.
Definition scalar_string (x : scalar) : option cstring :=
  match x with SString p ps => Some (concat (p :: ps)) | _ => None end.
Definition scalar_token (x : scalar) (v : option token) : Prop :=
  match x with SString _ _ => True | _ => v = head (scalar_toks x) end.

Definition value_state (s : Z) : Prop := s = 8 \/ s = 26 \/ s = 40.
Definition value_goto (s : Z) : Z := if s =? 8 then 21 else if s =? 26 then 33 else 44.
Definition scalar_state (s : Z) : Prop := value_state s \/ s = 25 \/ s = 38.
Definition scalar_goto (s : Z) : Z := if s =? 25 then 30 else if s =? 38 then 43 else 23.

Ltac in_states H :=
  unfold scalar_state, value_state in H; repeat match type of H with _ \/ _ => destruct H as [H|H] end; rewrite H; reflexivity.

(** The string tokens behind the first one. *)
Lemma run_parts ps : forall st0 w stk u0 input c p st z,
  scalar_state st0 -> yytoken input <> 9 -> (length stk + 5 < YYMAXDEPTH)%nat ->
  exists u, runs (2 * length ps) ((22, u0) :: (st0, w) :: stk) ((TOK_STRING <$> ps) ++ input) (PState c (PCtx p st (Some z)))
    ((22, u) :: (st0, w) :: stk) input (PState c (PCtx p st (Some (z ++ concat ps)))).
Proof.
  induction ps as [|a ps IH]; intros st0 w stk u0 input c p st z Hs Hi Hd.
  { exists u0. cbn. rewrite app_nil_r. constructor. }
  pose proof (run_shift 22 u0 ((st0, w) :: stk) (TOK_STRING a) ((TOK_STRING <$> ps) ++ input) (PState c (PCtx p st (Some z))) 29
    eq_refl ltac:(cbn [length]; lia)) as R1.
  destruct (run_reduce 19 29 (Some (TOK_STRING a)) [(29, Some (TOK_STRING a)); (22, u0)] st0 w stk ((TOK_STRING <$> ps) ++ input)
    (PState c (PCtx p st (Some z))) (PState c (PCtx p st (Some (z ++ a)))) 22) as [u1 R2];
    [reflexivity|reflexivity|by eexists|reflexivity|in_states Hs|lia|].
  destruct (IH st0 w stk u1 input c p st (z ++ a) Hs Hi Hd) as [u R3]. exists u.
  rewrite <- app_assoc in R3. cbn [concat app] in R2 |- *.
  replace (2 * length (a :: ps))%nat with (1 + (1 + 2 * length ps))%nat by (cbn [length]; lia).
  exact (runs_trans _ _ _ _ _ _ _ _ _ _ _ R1 (runs_trans _ _ _ _ _ _ _ _ _ _ _ R2 R3)).
Qed.

Lemma run_scalar x st0 w stk input c p st x' :
  scalar_state st0 -> yytoken input <> 9 -> (length stk + 5 < YYMAXDEPTH)%nat ->
  (forall v, scalar_token x v -> action (scalar_rule x) v (PState c (PCtx p st (scalar_string x))) = Ok (true, x')) ->
  exists n u, (n <= 3 * length (scalar_toks x))%nat /\
    runs n ((st0, w) :: stk) (scalar_toks x ++ input) (PState c (PCtx p st None)) ((scalar_goto st0, u) :: (st0, w) :: stk) input x'.
Proof.
  intros Hs Hi Hd Hact. set (y := PState c (PCtx p st None)).
  assert (Hone : forall t a, scalar_toks x = [t] -> scalar_token x (Some t) -> scalar_string x = None ->
    decide_act st0 (yytranslate t) = Ok (Shift a) -> decide_act a (yytoken input) = Ok (Reduce (scalar_rule x)) ->
    entry yyr2 (scalar_rule x) = Ok 1 -> goto (scalar_rule x) st0 = Ok (scalar_goto st0) ->
    exists n u, (n <= 3 * length (scalar_toks x))%nat /\
      runs n ((st0, w) :: stk) (scalar_toks x ++ input) y ((scalar_goto st0, u) :: (st0, w) :: stk) input x').
  { intros t a -> Ht Hz H1 H2 H3 H4. specialize (Hact (Some t) Ht). rewrite Hz in Hact.
    pose proof (run_shift st0 w stk t input y a H1 ltac:(lia)) as R1.
    destruct (run_reduce (scalar_rule x) a (Some t) [(a, Some t)] st0 w stk input y x' _ H2 H3 ltac:(by eexists) Hact H4 ltac:(lia)) as [u R2].
    exists 2%nat, u. split; [cbn; lia|]. exact (runs_trans 1 1 _ _ _ _ _ _ _ _ _ R1 R2). }
  destruct x as [b|b|b|b|b|b|a ps]; cbn [scalar_rule scalar_string scalar_token scalar_toks head] in *.
  1: apply (Hone (TOK_BOOLEAN b) 9); first [reflexivity|in_states Hs].
  1: apply (Hone (TOK_INTEGER b) 10); first [reflexivity|in_states Hs].
  1: apply (Hone (TOK_HEX b) 11); first [reflexivity|in_states Hs].
  1: apply (Hone (TOK_INTEGER64 b) 12); first [reflexivity|in_states Hs].
  1: apply (Hone (TOK_HEX64 b) 13); first [reflexivity|in_states Hs].
  1: apply (Hone (TOK_FLOAT b) 14); first [reflexivity|in_states Hs].
  pose proof (run_shift st0 w stk (TOK_STRING a) ((TOK_STRING <$> ps) ++ input) y 15 ltac:(in_states Hs) ltac:(lia)) as R1.
  destruct (run_reduce 18 15 (Some (TOK_STRING a)) [(15, Some (TOK_STRING a))] st0 w stk ((TOK_STRING <$> ps) ++ input)
    y (PState c (PCtx p st (Some a))) 22) as [u1 R2]; [reflexivity|reflexivity|by eexists|reflexivity|in_states Hs|lia|].
  destruct (run_parts ps st0 w stk u1 input c p st a Hs Hi Hd) as [u2 R3].
  assert (Hdef : decide_act 22 (yytoken input) = Ok (Reduce 26)).
  { destruct input as [|[] ?]; cbn in Hi; try done; reflexivity. }
  destruct (run_reduce 26 22 u2 [(22, u2)] st0 w stk input _ x' (scalar_goto st0) Hdef eq_refl ltac:(by eexists) (Hact u2 I)
    ltac:(in_states Hs) ltac:(lia)) as [u R4].
  exists (1 + (1 + (2 * length ps + 1)))%nat, u. split; [cbn [length]; rewrite length_fmap; lia|].
  exact (runs_trans _ _ _ _ _ _ _ _ _ _ _ R1 (runs_trans _ _ _ _ _ _ _ _ _ _ _ R2 (runs_trans _ _ _ _ _ _ _ _ _ _ _ R3 R4))).
Qed.

(** The function that stores a scalar. *)
Definition scalar_writer (x : scalar) (flags : Z) (s : config_setting_t) : res (option config_setting_t) :=
  match x with
  | SBool x => setting_set_bool x s
  | SInt x | SHex x => setting_set_int flags x s
  | SInt64 x | SHex64 x => setting_set_int64 flags x s
  | SFloat x => setting_set_float flags x s
  | SString p ps => setting_set_string (Some (concat (p :: ps))) s
  end.
Definition scalar_fmt (x : scalar) : option Z :=
  match x with SInt _ | SInt64 _ => Some CONFIG_FORMAT_DEFAULT | SHex _ | SHex64 _ => Some CONFIG_FORMAT_HEX | _ => None end.

Lemma scalar_writer_ok x : writer_ok (scalar_writer x).
Proof.
  destruct x; [apply set_bool_ok|apply set_int_ok|apply set_int_ok|apply set_int64_ok|apply set_int64_ok|apply set_float_ok|apply set_string_ok].
Qed.

(** A fresh setting takes any scalar. *)
Definition scalar_stored (x : scalar) (s : config_setting_t) : config_setting_t := with_scalar (scalar_type x) (scalar_val x) s.

Lemma scalar_written_fresh x name type p flags : type = CONFIG_TYPE_NONE \/ type = scalar_type x ->
  scalar_writer x flags (Setting name type 0 VZero (Some p)) = Ok (Some (scalar_stored x (Setting name type 0 VZero (Some p)))).
Proof. destruct x; intros [->| ->]; reflexivity. Qed.

Lemma scalar_formats x s : s_type s = scalar_type x -> formats (scalar_fmt x) s.
Proof. intros E. unfold formats. destruct x; cbn [scalar_fmt]; try done; unfold setting_set_format; rewrite E; reflexivity. Qed.

(** The leaf that a scalar becomes. *)
Definition scalar_leaf (q : loc) (name : option cstring) (p : loc) (x : scalar) : ltree :=
  LNode q (Setting name (scalar_type x) (scalar_format x) (scalar_val x) (Some p)) [].

Lemma erase_leaf q name p x : erase (scalar_leaf q name p x) = scalar_tree name x.
Proof. by destruct x. Qed.

Lemma formatted_stored x name type p :
  formatted (scalar_fmt x) (scalar_stored x (Setting name type 0 VZero (Some p))) =
  Setting name (scalar_type x) (scalar_format x) (scalar_val x) (Some p).
Proof. by destruct x. Qed.

(** The action is [scalar_value] with that writer. *)
Lemma scalar_action x v c p st : scalar_token x v ->
  action (scalar_rule x) v (PState c (PCtx p st (scalar_string x))) =
  scalar_value (fun q => set_elem q (-1) (scalar_type x) (write_setting (scalar_writer x))) (write_setting (scalar_writer x)) (scalar_fmt x)
    (PState c (PCtx p st None)).
Proof. destruct x; cbn [scalar_token scalar_toks head]; try (intros ->); try reflexivity. Qed.

Lemma scalar_type_range x : CONFIG_TYPE_NONE <= scalar_type x <= CONFIG_TYPE_LIST.
Proof. destruct x; untype; cbn; untype; lia. Qed.

(** As an element. *)
Lemma scalar_as_elem x c t p s kids st :
  auto_convert (c_flags c) = false -> node_at c t p s kids -> fits s kids (scalar_type x) ->
  exists c', (forall v, scalar_token x v -> action (scalar_rule x) v (PState c (PCtx (Some p) st (scalar_string x))) =
      Ok (true, PState c' (PCtx (Some p) st None))) /\
    appended c t p s kids (scalar_leaf (c_fresh c) None p x) c'.
Proof.
  intros Hf Hn Hfit.
  destruct (scalar_elem (scalar_writer x) (scalar_type x) (scalar_fmt x) c t p s kids
    (scalar_stored x (Setting None (scalar_type x) 0 VZero (Some p))) (write_setting (scalar_writer x)) st None
    (scalar_writer_ok x) Hf (scalar_type_range x) Hn Hfit) as (c' & E & Happ).
  - intros flags. apply scalar_written_fresh. by right.
  - by apply scalar_formats.
  - exists c'. rewrite formatted_stored in Happ. split; [|done]. intros v Hv. by rewrite scalar_action.
Qed.

(** As the value of a setting, or as an element of a list. *)
Lemma scalar_placed x c t p m st :
  auto_convert (c_flags c) = false -> ready c t p m st ->
  exists c' k, (forall v, scalar_token x v -> action (scalar_rule x) v (PState c (PCtx (Some p) st (scalar_string x))) =
      Ok (true, PState c' (PCtx (Some p) st None))) /\
    filled c t p m k c' /\ erase k = scalar_tree (place_name m) x.
Proof.
  intros Hf Hr. destruct m as [q n|s kids]; cbn [ready filled place_name] in *.
  - destruct Hr as (-> & Hq & sp & pk & Hn & Et).
    destruct (scalar_setting (fun q => set_elem q (-1) (scalar_type x) (write_setting (scalar_writer x))) (scalar_writer x) (scalar_fmt x)
      c t p sp pk q _ [] (scalar_stored x (Setting (Some n) CONFIG_TYPE_NONE 0 VZero (Some p))) None
      (scalar_writer_ok x) Hf Hn Et Hq) as (c' & E & Hf' & [Hc' _]).
    + intros flags. apply scalar_written_fresh. by left.
    + by apply scalar_formats.
    + rewrite formatted_stored in Hc'. exists c', (scalar_leaf q (Some n) p x). split; [intros v Hv; by rewrite scalar_action|].
      split; [done|apply erase_leaf].
  - destruct Hr as [Hn Et]. destruct (scalar_as_elem x c t p s kids st Hf Hn (or_introl Et)) as (c' & E & Happ).
    exists c', (scalar_leaf (c_fresh c) None p x). split; [done|]. split; [done|apply erase_leaf].
Qed.

(** ** Sequences of elements *)

(** [ks] are the last elements of [p] now. *)
Definition extended (c : config_t) (t : ltree) (p : loc) (s : config_setting_t) (kids ks : list ltree) (c' : config_t) : Prop :=
  exists v, node_at c' (replace p (LNode p (with_value v s) (kids ++ ks)) t) p (with_value v s) (kids ++ ks) /\
    c_flags c' = c_flags c.

Lemma extended_none c t p s kids : node_at c t p s kids -> extended c t p s kids [] c.
Proof.
  intros [Hc Hf]. exists (s_value s). rewrite app_nil_r. assert (E : with_value (s_value s) s = s) by (by destruct s).
  rewrite E. rewrite (replace_same p _ t (cr_nodup _ _ Hc) Hf). split; [by split|done].
Qed.

Lemma extended_more c t p s kids v ks c1 k c2 :
  node_at c1 (replace p (LNode p (with_value v s) (kids ++ ks)) t) p (with_value v s) (kids ++ ks) -> c_flags c1 = c_flags c ->
  appended c1 (replace p (LNode p (with_value v s) (kids ++ ks)) t) p (with_value v s) (kids ++ ks) k c2 ->
  extended c t p s kids (ks ++ [k]) c2.
Proof.
  intros Hn Hf (v2 & Hn2 & Hf2). rewrite replace_again in Hn2 by done. rewrite <- app_assoc in Hn2.
  exists v2. split; [exact Hn2|congruence].
Qed.

Definition with_comma (l : list token) : list token := TOK_COMMA :: l.

Lemma commas_cons x l : commas (x :: l) = x ++ flat_map with_comma l.
Proof. revert x. induction l as [|y l IH]; intros x; [done|]. cbn [commas flat_map with_comma]. f_equal. cbn. f_equal. apply IH. Qed.

Lemma fits_extended s v kids ks ty :
  s_type s = CONFIG_TYPE_ARRAY -> Forall (fun k => s_type (t_set k) = ty) (kids ++ ks) -> fits (with_value v s) (kids ++ ks) ty.
Proof. intros Et Hk. right. split; [done|]. destruct (kids ++ ks); [done|]. by apply Forall_cons in Hk as [? _]. Qed.

(** The elements of an array from the second on. *)
Lemma run_array_rest xs : forall u w stk input c t p s kids ks0 c0 st ty,
  Forall (fun x => scalar_type x = ty) xs -> (yytoken input <> 9) -> (length stk + 8 < YYMAXDEPTH)%nat ->
  auto_convert (c_flags c0) = false -> s_type s = CONFIG_TYPE_ARRAY -> Forall (fun k => s_type (t_set k) = ty) (kids ++ ks0) ->
  extended c t p s kids ks0 c0 -> c_flags c0 = c_flags c ->
  exists n c' ks u', (n <= 5 * length (flat_map with_comma (scalar_toks <$> xs)))%nat /\
    runs n ((31, u) :: (25, w) :: stk) (flat_map with_comma (scalar_toks <$> xs) ++ input) (PState c0 (PCtx (Some p) st None))
      ((31, u') :: (25, w) :: stk) input (PState c' (PCtx (Some p) st None)) /\
    extended c t p s kids (ks0 ++ ks) c' /\ erase <$> ks = scalar_tree None <$> xs.
Proof.
  induction xs as [|x xs IH]; intros u w stk input c t p s kids ks0 c0 st ty Hty Hi Hd Hf Et Hk Hx Hfl.
  { exists 0%nat, c0, [], u. split; [done|]. split; [constructor|]. by rewrite app_nil_r. }
  apply Forall_cons in Hty as [<- Htys]. set (rest := flat_map with_comma (scalar_toks <$> xs) ++ input).
  replace (flat_map with_comma (scalar_toks <$> x :: xs) ++ input) with (TOK_COMMA :: scalar_toks x ++ rest)
    by (subst rest; cbn; by rewrite <- app_assoc).
  assert (Hr : yytoken rest <> 9) by (subst rest; destruct xs; [done|]; cbn; lia).
  pose proof (run_shift 31 u ((25, w) :: stk) TOK_COMMA (scalar_toks x ++ rest) (PState c0 (PCtx (Some p) st None)) 38 eq_refl
    ltac:(cbn [length]; lia)) as R1.
  destruct Hx as (v & Hn & Hf0).
  destruct (scalar_as_elem x c0 _ p _ _ st Hf Hn (fits_extended s v kids ks0 _ Et Hk)) as (c1 & Ha & Happ).
  destruct (run_scalar x 38 (Some TOK_COMMA) ((31, u) :: (25, w) :: stk) rest c0 (Some p) st _ ltac:(right; by right) Hr
    ltac:(cbn [length]; lia) Ha) as (n2 & u2 & Hn2 & R2).
  set (x1 := PState c1 (PCtx (Some p) st None)) in R2.
  destruct (run_reduce 32 43 u2 [(43, u2); (38, Some TOK_COMMA); (31, u)] 25 w stk rest x1 x1 31) as [u3 R3];
    [reflexivity|reflexivity|by eexists|reflexivity|reflexivity|lia|].
  assert (Hf1 : c_flags c1 = c_flags c0) by (destruct Happ as (? & _ & ?); done).
  pose proof (extended_more c t p s kids v ks0 c0 _ c1 Hn Hfl Happ) as Hx1.
  destruct (IH u3 w stk input c t p s kids (ks0 ++ [scalar_leaf (c_fresh c0) None p x]) c1 st (scalar_type x)) as (n4 & c' & ks & u' & Hn4 & R4 & Hx4 & He);
    [done|done|done|congruence|done| |done|congruence|].
  { rewrite app_assoc. apply Forall_app. split; [done|]. by apply Forall_singleton. }
  exists (1 + (n2 + (1 + n4)))%nat, c', (scalar_leaf (c_fresh c0) None p x :: ks), u'. split; [|split; [|split]].
  - cbn [fmap list_fmap flat_map with_comma app length]. rewrite length_app. lia.
  - exact (runs_trans _ _ _ _ _ _ _ _ _ _ _ R1 (runs_trans _ _ _ _ _ _ _ _ _ _ _ R2 (runs_trans _ _ _ _ _ _ _ _ _ _ _ R3 R4))).
  - by rewrite <- app_assoc in Hx4.
  - cbn [fmap list_fmap]. by rewrite erase_leaf, He.
Qed.

(** ** Arrays, lists and groups *)

(** Their tokens, rules and states: after the first token, before and after the elements,
    after the last token, and after the reduction. *)
Inductive akind : Type := KArray | KList | KGroup.

Definition a_start (a : akind) : token := match a with KArray => TOK_ARRAY_START | KList => TOK_LIST_START | KGroup => TOK_GROUP_START end.
Definition a_end (a : akind) : token := match a with KArray => TOK_ARRAY_END | KList => TOK_LIST_END | KGroup => TOK_GROUP_END end.
Definition a_type (a : akind) : Z := match a with KArray => CONFIG_TYPE_ARRAY | KList => CONFIG_TYPE_LIST | KGroup => CONFIG_TYPE_GROUP end.
Definition a_open (a : akind) : Z := match a with KArray => 16 | KList => 17 | KGroup => 18 end.
Definition a_first (a : akind) : Z := match a with KArray => 25 | KList => 26 | KGroup => 27 end.
Definition a_last (a : akind) : Z := match a with KArray => 32 | KList => 35 | KGroup => 37 end.
Definition a_close (a : akind) : Z := match a with KArray => 39 | KList => 41 | KGroup => 42 end.
Definition a_symbol (a : akind) : Z := match a with KArray => 19 | KList => 20 | KGroup => 24 end.
Definition a_begin (a : akind) : Z := match a with KArray => 10 | KList => 12 | KGroup => 35 end.
Definition a_done (a : akind) : Z := match a with KArray => 11 | KList => 13 | KGroup => 36 end.
Definition a_value (a : akind) : Z := match a with KArray => 15 | KList => 16 | KGroup => 17 end.

(** What a run over the elements of [q] does. *)
Definition body_runs (a : akind) (body : list token) (stk : lr_stack) (trees : list snode) (q p : loc) (nm : option cstring) : Prop :=
  forall u0 input c t st, node_at c t q (Setting nm (a_type a) 0 VZero (Some p)) [] -> auto_convert (c_flags c) = false ->
  exists n c' st' ks u, (n <= 5 * length body + 2)%nat /\
    runs n ((a_first a, u0) :: stk) (body ++ a_end a :: input) (PState c (PCtx (Some q) st None))
      ((a_last a, u) :: (a_first a, u0) :: stk) (a_end a :: input) (PState c' (PCtx (Some q) st' None)) /\
    extended c t q (Setting nm (a_type a) 0 VZero (Some p)) [] ks c' /\ erase <$> ks = trees.

Lemma run_aggregate a body trees st0 w stk input c t p m st :
  value_state st0 -> (length stk + 8 < YYMAXDEPTH)%nat -> auto_convert (c_flags c) = false -> ready c t p m st ->
  (forall q, body_runs a body ((a_open a, Some (a_start a)) :: (st0, w) :: stk) trees q p (place_name m)) ->
  exists n c' st' k u, (n <= 5 * length (a_start a :: body ++ [a_end a]))%nat /\
    runs n ((st0, w) :: stk) ((a_start a :: body ++ [a_end a]) ++ input) (PState c (PCtx (Some p) st None))
      ((value_goto st0, u) :: (st0, w) :: stk) input (PState c' (PCtx (Some p) st' None)) /\
    filled c t p m k c' /\ erase k = SNode (place_name m) (a_type a) 0 VZero trees.
Proof.
  intros Hs Hd Hf Hr Hbody. cbn [app]. rewrite <- app_assoc. cbn [app].
  pose proof (run_shift st0 w stk (a_start a) (body ++ a_end a :: input) (PState c (PCtx (Some p) st None)) (a_open a)
    ltac:(destruct a; in_states Hs) ltac:(lia)) as R1.
  destruct (begin_ok c t p m st (a_type a) Hr ltac:(by destruct a)) as (c1 & t1 & q & st1 & E1 & Hf1 & Hq & Hfill).
  destruct (run_reduce (a_begin a) (a_open a) (Some (a_start a)) [] (a_open a) (Some (a_start a)) ((st0, w) :: stk)
    (body ++ a_end a :: input) (PState c (PCtx (Some p) st None)) (PState c1 (PCtx (Some q) st1 None)) (a_first a)) as [u1 R2];
    [destruct a; reflexivity|destruct a; reflexivity|by eexists|destruct a; exact E1|destruct a; reflexivity|cbn [length]; lia|].
  destruct (Hbody q u1 input c1 t1 st1 Hq ltac:(by rewrite Hf1)) as (n3 & c2 & st2 & ks & u3 & Hn3 & R3 & (v & Hn2 & Hf2) & He).
  set (x2 := PState c2 (PCtx (Some q) st2 None)) in R3. set (x4 := PState c2 (PCtx (Some p) st2 None)).
  pose proof (run_shift (a_last a) u3 ((a_first a, u1) :: (a_open a, Some (a_start a)) :: (st0, w) :: stk) (a_end a) input x2 (a_close a)
    ltac:(destruct a; reflexivity) ltac:(cbn [length]; lia)) as R4.
  destruct (run_reduce (a_done a) (a_close a) (Some (a_end a))
    [(a_close a, Some (a_end a)); (a_last a, u3); (a_first a, u1); (a_open a, Some (a_start a))] st0 w stk input x2 x4 (a_symbol a)) as [u5 R5];
    [destruct a; reflexivity|destruct a; reflexivity|by eexists| |destruct a; in_states Hs|lia|].
  { pose proof (end_ok c2 _ q _ _ p st2 Hn2 eq_refl) as Ee. destruct a; exact Ee. }
  destruct (run_reduce (a_value a) (a_symbol a) u5 [(a_symbol a, u5)] st0 w stk input x4 x4 (value_goto st0)) as [u6 R6];
    [destruct a; reflexivity|destruct a; reflexivity|by eexists|destruct a; reflexivity|destruct a; in_states Hs|lia|].
  exists (1 + (1 + (n3 + (1 + (1 + 1)))))%nat, c2, st2, (LNode q (with_value v (Setting (place_name m) (a_type a) 0 VZero (Some p))) ks), u6.
  split; [cbn [length]; rewrite length_app; cbn [length]; lia|]. split; [|split].
  - exact (runs_trans _ _ _ _ _ _ _ _ _ _ _ R1 (runs_trans _ _ _ _ _ _ _ _ _ _ _ R2 (runs_trans _ _ _ _ _ _ _ _ _ _ _ R3
      (runs_trans _ _ _ _ _ _ _ _ _ _ _ R4 (runs_trans _ _ _ _ _ _ _ _ _ _ _ R5 R6))))).
  - apply Hfill; [exact Hn2|done].
  - cbn [erase with_value s_name s_type s_format s_value]. rewrite He. by replace (is_aggregate (a_type a)) with true by (by destruct a).
Qed.

Lemma array_body xs stk q p nm ty :
  Forall (fun x => scalar_type x = ty) xs -> (length stk + 8 < YYMAXDEPTH)%nat ->
  body_runs KArray (commas (scalar_toks <$> xs)) stk (scalar_tree None <$> xs) q p nm.
Proof.
  intros Hty Hd u0 input c t st Hn Hf. cbn [a_first a_last a_end a_type] in *. destruct xs as [|x xs].
  - destruct (run_reduce 33 25 u0 [] 25 u0 stk (TOK_ARRAY_END :: input) (PState c (PCtx (Some q) st None))
      (PState c (PCtx (Some q) st None)) 32) as [u R]; [reflexivity|reflexivity|by eexists|reflexivity|reflexivity|lia|].
    exists 1%nat, c, st, [], u. split; [cbn; lia|]. split; [exact R|]. split; [by apply extended_none|done].
  - apply Forall_cons in Hty as [<- Htys]. cbn [fmap list_fmap]. rewrite commas_cons, <- app_assoc.
    set (rest := flat_map with_comma (scalar_toks <$> xs) ++ TOK_ARRAY_END :: input).
    assert (Hr : yytoken rest <> 9) by (subst rest; destruct xs; cbn; lia).
    destruct (scalar_as_elem x c t q _ [] st Hf Hn) as (c1 & Ha & Happ); [right; done|].
    destruct (run_scalar x 25 u0 stk rest c (Some q) st _ ltac:(right; by left) Hr ltac:(lia) Ha) as (n1 & u1 & Hn1 & R1).
    set (x1 := PState c1 (PCtx (Some q) st None)) in R1.
    destruct (run_reduce 31 30 u1 [(30, u1)] 25 u0 stk rest x1 x1 31) as [u2 R2];
      [reflexivity|reflexivity|by eexists|reflexivity|reflexivity|lia|].
    assert (Hf1 : c_flags c1 = c_flags c) by (destruct Happ as (? & _ & ?); done).
    destruct (run_array_rest xs u2 u0 stk (TOK_ARRAY_END :: input) c t q (Setting nm CONFIG_TYPE_ARRAY 0 VZero (Some p)) [] [scalar_leaf (c_fresh c) None q x] c1 st (scalar_type x)
      Htys ltac:(cbn; lia) Hd ltac:(by rewrite Hf1) eq_refl ltac:(by apply Forall_singleton) Happ Hf1)
      as (n3 & c3 & ks & u3 & Hn3 & R3 & Hx3 & He).
    destruct (run_reduce 34 31 u3 [(31, u3)] 25 u0 stk (TOK_ARRAY_END :: input) (PState c3 (PCtx (Some q) st None))
      (PState c3 (PCtx (Some q) st None)) 32) as [u R4]; [reflexivity|reflexivity|by eexists|reflexivity|reflexivity|lia|].
    exists (n1 + (1 + (n3 + 1)))%nat, c3, st, (scalar_leaf (c_fresh c) None q x :: ks), u. split; [|split; [|split]].
    + rewrite length_app. assert (0 < length (scalar_toks x))%nat by (destruct x; cbn; lia). lia.
    + exact (runs_trans _ _ _ _ _ _ _ _ _ _ _ R1 (runs_trans _ _ _ _ _ _ _ _ _ _ _ R2 (runs_trans _ _ _ _ _ _ _ _ _ _ _ R3 R4))).
    + exact Hx3.
    + cbn [fmap list_fmap]. by rewrite erase_leaf, He.
Qed.

(** What a run over a value does. *)
Definition value_runs (v : cfg) : Prop := forall st0 w stk input c t p m st,
  value_state st0 -> cfg_ok v -> (length stk + need v + 2 < YYMAXDEPTH)%nat -> yytoken input <> 9 ->
  auto_convert (c_flags c) = false -> ready c t p m st ->
  exists n c' st' k u, (n <= 5 * length (value_toks v))%nat /\
    runs n ((st0, w) :: stk) (value_toks v ++ input) (PState c (PCtx (Some p) st None))
      ((value_goto st0, u) :: (st0, w) :: stk) input (PState c' (PCtx (Some p) st' None)) /\
    filled c t p m k c' /\ erase k = value_tree (place_name m) v.

Lemma scalar_runs x : value_runs (CScalar x).
Proof.
  intros st0 w stk input c t p m st Hs _ Hd Hi Hf Hr. destruct (scalar_placed x c t p m st Hf Hr) as (c' & k & Ha & Hfill & He).
  cbn [need] in Hd.
  destruct (run_scalar x st0 w stk input c (Some p) st _ (or_introl Hs) Hi ltac:(lia) Ha) as (n1 & u1 & Hn1 & R1).
  set (x1 := PState c' (PCtx (Some p) st None)) in R1.
  destruct (run_reduce 14 (scalar_goto st0) u1 [(scalar_goto st0, u1)] st0 w stk input x1 x1 (value_goto st0)) as [u R2];
    [in_states Hs|reflexivity|by eexists|reflexivity|in_states Hs|lia|].
  exists (n1 + 1)%nat, c', st, k, u. split; [|split; [|done]].
  - cbn [value_toks]. assert (0 < length (scalar_toks x))%nat by (destruct x; cbn; lia). lia.
  - exact (runs_trans _ _ _ _ _ _ _ _ _ _ _ R1 R2).
Qed.

Lemma array_runs xs : value_runs (CArray xs).
Proof.
  intros st0 w stk input c t p m st Hs [ty Hty] Hd Hi Hf Hr. cbn [need] in Hd.
  apply (run_aggregate KArray (commas (scalar_toks <$> xs)) (scalar_tree None <$> xs) st0 w stk input c t p m st Hs ltac:(lia) Hf Hr).
  intros q. apply (array_body xs _ q p _ ty Hty). cbn [length]. lia.
Qed.

(** ** Lists *)

Lemma run_list_rest vs : Forall value_runs vs -> forall u w stk input c t p s kids ks0 c0 st N,
  Forall cfg_ok vs -> Forall (fun v => (need v <= N)%nat) vs -> yytoken input <> 9 -> (3 <= N)%nat -> (length stk + N + 4 < YYMAXDEPTH)%nat ->
  auto_convert (c_flags c0) = false -> s_type s = CONFIG_TYPE_LIST -> extended c t p s kids ks0 c0 -> c_flags c0 = c_flags c ->
  exists n c' st' ks u', (n <= 5 * length (flat_map with_comma (value_toks <$> vs)))%nat /\
    runs n ((34, u) :: (26, w) :: stk) (flat_map with_comma (value_toks <$> vs) ++ input) (PState c0 (PCtx (Some p) st None))
      ((34, u') :: (26, w) :: stk) input (PState c' (PCtx (Some p) st' None)) /\
    extended c t p s kids (ks0 ++ ks) c' /\ erase <$> ks = value_tree None <$> vs.
Proof.
  induction 1 as [|v vs Hv _ IH]; intros u w stk input c t p s kids ks0 c0 st N Hok Hneed Hi HN Hd Hf Et Hx Hfl.
  { exists 0%nat, c0, st, [], u. split; [done|]. split; [constructor|]. by rewrite app_nil_r. }
  apply Forall_cons in Hok as [Hok Hoks], Hneed as [Hnv Hns]. set (rest := flat_map with_comma (value_toks <$> vs) ++ input).
  replace (flat_map with_comma (value_toks <$> v :: vs) ++ input) with (TOK_COMMA :: value_toks v ++ rest)
    by (subst rest; cbn; by rewrite <- app_assoc).
  assert (Hr : yytoken rest <> 9) by (subst rest; destruct vs; [done|]; cbn; lia).
  pose proof (run_shift 34 u ((26, w) :: stk) TOK_COMMA (value_toks v ++ rest) (PState c0 (PCtx (Some p) st None)) 40 eq_refl
    ltac:(cbn [length]; lia)) as R1.
  destruct Hx as (b & Hn & Hf0).
  destruct (Hv 40 (Some TOK_COMMA) ((34, u) :: (26, w) :: stk) rest c0 _ p (InList (with_value b s) (kids ++ ks0)) st
    ltac:(right; by right) Hok ltac:(cbn [length]; lia) Hr Hf (conj Hn Et)) as (n2 & c1 & st1 & k & u2 & Hn2 & R2 & Happ & Hek).
  set (x1 := PState c1 (PCtx (Some p) st1 None)) in R2. cbn [filled place_name] in Happ, Hek.
  destruct (run_reduce 28 44 u2 [(44, u2); (40, Some TOK_COMMA); (34, u)] 26 w stk rest x1 x1 34) as [u3 R3];
    [reflexivity|reflexivity|by eexists|reflexivity|reflexivity|lia|].
  assert (Hf1 : c_flags c1 = c_flags c0) by (destruct Happ as (? & _ & ?); done).
  pose proof (extended_more c t p s kids b ks0 c0 _ c1 Hn Hfl Happ) as Hx1.
  destruct (IH u3 w stk input c t p s kids (ks0 ++ [k]) c1 st1 N) as (n4 & c' & st' & ks & u' & Hn4 & R4 & Hx4 & He);
    [done|done|done|done|done|congruence|done|done|congruence|].
  exists (1 + (n2 + (1 + n4)))%nat, c', st', (k :: ks), u'. split; [|split; [|split]].
  - cbn [fmap list_fmap flat_map with_comma app length]. rewrite length_app. lia.
  - exact (runs_trans _ _ _ _ _ _ _ _ _ _ _ R1 (runs_trans _ _ _ _ _ _ _ _ _ _ _ R2 (runs_trans _ _ _ _ _ _ _ _ _ _ _ R3 R4))).
  - by rewrite <- app_assoc in Hx4.
  - cbn [fmap list_fmap]. by rewrite Hek, He.
Qed.

Lemma toks_nonempty v : (0 < length (value_toks v))%nat.
Proof. destruct v as [x| | |]; cbn; [destruct x; cbn|..]; lia. Qed.

Lemma list_body vs stk q p nm N :
  Forall value_runs vs -> Forall cfg_ok vs -> Forall (fun v => (need v <= N)%nat) vs -> (3 <= N)%nat -> (length stk + N + 4 < YYMAXDEPTH)%nat ->
  body_runs KList (commas (value_toks <$> vs)) stk (value_tree None <$> vs) q p nm.
Proof.
  intros Hvs Hok Hneed HN Hd u0 input c t st Hn Hf. cbn [a_first a_last a_end a_type] in *. destruct vs as [|v vs].
  - destruct (run_reduce 29 26 u0 [] 26 u0 stk (TOK_LIST_END :: input) (PState c (PCtx (Some q) st None))
      (PState c (PCtx (Some q) st None)) 35) as [u R]; [reflexivity|reflexivity|by eexists|reflexivity|reflexivity|lia|].
    exists 1%nat, c, st, [], u. split; [cbn; lia|]. split; [exact R|]. split; [by apply extended_none|done].
  - apply Forall_cons in Hok as [Hokv Hok], Hneed as [Hnv Hneed], Hvs as [Hv Hvs].
    cbn [fmap list_fmap]. rewrite commas_cons, <- app_assoc.
    set (rest := flat_map with_comma (value_toks <$> vs) ++ TOK_LIST_END :: input).
    assert (Hr : yytoken rest <> 9) by (subst rest; destruct vs; cbn; lia).
    destruct (Hv 26 u0 stk rest c t q (InList _ []) st ltac:(right; by left) Hokv ltac:(lia) Hr Hf (conj Hn eq_refl))
      as (n1 & c1 & st1 & k & u1 & Hn1 & R1 & Happ & Hek).
    set (x1 := PState c1 (PCtx (Some q) st1 None)) in R1. cbn [filled place_name] in Happ, Hek.
    destruct (run_reduce 27 33 u1 [(33, u1)] 26 u0 stk rest x1 x1 34) as [u2 R2];
      [reflexivity|reflexivity|by eexists|reflexivity|reflexivity|lia|].
    assert (Hf1 : c_flags c1 = c_flags c) by (destruct Happ as (? & _ & ?); done).
    destruct (run_list_rest vs Hvs u2 u0 stk (TOK_LIST_END :: input) c t q (Setting nm CONFIG_TYPE_LIST 0 VZero (Some p)) [] [k] c1 st1 N
      Hok Hneed ltac:(cbn; lia) HN Hd ltac:(by rewrite Hf1) eq_refl Happ Hf1)
      as (n3 & c3 & st3 & ks & u3 & Hn3 & R3 & Hx3 & He).
    destruct (run_reduce 30 34 u3 [(34, u3)] 26 u0 stk (TOK_LIST_END :: input) (PState c3 (PCtx (Some q) st3 None))
      (PState c3 (PCtx (Some q) st3 None)) 35) as [u R4]; [reflexivity|reflexivity|by eexists|reflexivity|reflexivity|lia|].
    exists (n1 + (1 + (n3 + 1)))%nat, c3, st3, (k :: ks), u. split; [|split; [|split]].
    + rewrite length_app. pose proof (toks_nonempty v). lia.
    + exact (runs_trans _ _ _ _ _ _ _ _ _ _ _ R1 (runs_trans _ _ _ _ _ _ _ _ _ _ _ R2 (runs_trans _ _ _ _ _ _ _ _ _ _ _ R3 R4))).
    + exact Hx3.
    + cbn [fmap list_fmap]. by rewrite Hek, He.
Qed.

(** ** Groups *)

(** A member can start in these states. *)
Definition member_state (s : Z) : Prop := s = 0 \/ s = 27 \/ s = 3 \/ s = 36.
Definition member_goto (s : Z) : Z := if (s =? 0) || (s =? 27) then 4 else 7.

Ltac in_member H := unfold member_state in H; destruct H as [->|[->|[->| ->]]]; reflexivity.

Lemma name_action c t p s kids n st :
  node_at c t p s kids -> s_type s = CONFIG_TYPE_GROUP -> __config_validate_name n = true -> list_find (named n) kids = None ->
  exists c1, action 8 (Some (TOK_NAME n)) (PState c (PCtx (Some p) st None)) =
      Ok (true, PState c1 (PCtx (Some p) (Some (c_fresh c)) None)) /\
    appended c t p s kids (new_leaf c p (Some n) CONFIG_TYPE_NONE) c1.
Proof.
  intros Hn Et Hv Hl. destruct (add_member c t p s kids n Hn Et Hv Hl) as (c1 & E & b & Hn1 & Hf1).
  exists c1. split; [|by exists b]. cbn [action Z.eqb Pos.eqb]. rewrite (bind_ok _ _ _ _ _ eq_refl). cbn [p_ctx x_parent].
  rewrite (bind_ok _ _ _ _ _ (in_config_ok _ _ _ _ _ E)). rewrite (bind_ok _ _ _ _ _ eq_refl).
  pose proof (last_node _ _ _ _ _ _ Hn1) as Hq. cbn [t_loc t_set t_kids new_leaf p_config p_ctx x_parent x_string] in *.
  by rewrite (bind_ok _ _ _ _ _ (capture_ok _ _ _ _ _ _ Hq)).
Qed.

Lemma run_member n v b u stk input c t p s kids st :
  value_runs v -> cfg_ok v -> member_state b -> (length stk + need v + 6 < YYMAXDEPTH)%nat -> auto_convert (c_flags c) = false ->
  node_at c t p s kids -> s_type s = CONFIG_TYPE_GROUP -> __config_validate_name n = true -> list_find (named n) kids = None ->
  exists j c' st' k u', (j <= 5 * length (value_toks v) + 5)%nat /\
    runs j ((b, u) :: stk) (member_toks (n, v) ++ input) (PState c (PCtx (Some p) st None))
      ((member_goto b, u') :: (b, u) :: stk) input (PState c' (PCtx (Some p) st' None)) /\
    appended c t p s kids k c' /\ erase k = member_tree (n, v).
Proof.
  intros Hv Hok Hb Hd Hf Hn Et Hval Hl. unfold member_toks. cbn [fst snd app]. rewrite <- app_assoc. cbn [app].
  set (x0 := PState c (PCtx (Some p) st None)). set (body := value_toks v ++ TOK_END :: input).
  destruct (name_action c t p s kids n st Hn Et Hval Hl) as (c1 & E1 & b1 & Hn1 & Hf1).
  pose proof (last_node _ _ _ _ _ _ Hn1) as Hq. cbn [t_loc t_set t_kids new_leaf] in Hq.
  pose proof (run_shift b u stk (TOK_NAME n) (TOK_EQUALS :: body) x0 1 ltac:(in_member Hb) ltac:(lia)) as R1.
  destruct (run_reduce 8 1 (Some (TOK_NAME n)) [] 1 (Some (TOK_NAME n)) ((b, u) :: stk) (TOK_EQUALS :: body) x0 _ 5 eq_refl eq_refl
    ltac:(by eexists) E1 eq_refl ltac:(cbn [length]; lia)) as [u2 R2].
  set (x1 := PState c1 (PCtx (Some p) (Some (c_fresh c)) None)) in R2.
  pose proof (run_shift 5 u2 ((1, Some (TOK_NAME n)) :: (b, u) :: stk) TOK_EQUALS body x1 8 eq_refl ltac:(cbn [length]; lia)) as R3.
  destruct (Hv 8 (Some TOK_EQUALS) ((5, u2) :: (1, Some (TOK_NAME n)) :: (b, u) :: stk) (TOK_END :: input) c1 _ p (InGroup (c_fresh c) n)
    (Some (c_fresh c)) ltac:(by left) Hok ltac:(cbn [length]; lia) ltac:(cbn; lia) ltac:(by rewrite Hf1)
    (conj eq_refl (conj Hq (ex_intro _ _ (ex_intro _ _ (conj Hn1 Et)))))) as (j4 & c4 & st4 & k & u4 & Hj4 & R4 & Hfill & He).
  set (x4 := PState c4 (PCtx (Some p) st4 None)) in R4.
  pose proof (run_shift 21 u4 ((8, Some TOK_EQUALS) :: (5, u2) :: (1, Some (TOK_NAME n)) :: (b, u) :: stk) TOK_END input x4 28 eq_refl
    ltac:(cbn [length]; lia)) as R5.
  destruct (run_reduce 9 28 (Some TOK_END) [(28, Some TOK_END); (21, u4); (8, Some TOK_EQUALS); (5, u2); (1, Some (TOK_NAME n))] b u stk
    input x4 x4 (member_goto b)) as [u6 R6]; [reflexivity|reflexivity|by eexists|reflexivity|in_member Hb|lia|].
  exists (1 + (1 + (1 + (j4 + (1 + 1)))))%nat, c4, st4, k, u6. split; [lia|]. split; [|split; [|exact He]].
  - exact (runs_trans _ _ _ _ _ _ _ _ _ _ _ R1 (runs_trans _ _ _ _ _ _ _ _ _ _ _ R2 (runs_trans _ _ _ _ _ _ _ _ _ _ _ R3
      (runs_trans _ _ _ _ _ _ _ _ _ _ _ R4 (runs_trans _ _ _ _ _ _ _ _ _ _ _ R5 R6))))).
  - destruct Hfill as (Hk & Hc4 & Hf4). rewrite (replace_appended c t p s kids _ (new_leaf c p (Some n) CONFIG_TYPE_NONE) _ Hn eq_refl) in Hc4.
    exists b1. split; [|congruence]. split; [done|]. apply (find_replace p t (LNode p s kids)); [by destruct Hn|done].
Qed.

(** The members so far have the names [names]. *)
Definition has_names (ks : list ltree) (names : list cstring) : Prop := (fun k => s_name (t_set k)) <$> ks = Some <$> names.

Lemma erase_name k : match erase k with SNode n _ _ _ _ => n end = s_name (t_set k).
Proof. by destruct k. Qed.

Lemma tree_name n v : match value_tree n v with SNode m _ _ _ _ => m end = n.
Proof. by destruct v. Qed.

Lemma unused_name ks names n :
  has_names ks names -> Forall (fun m => __config_validate_name m = true) names -> __config_validate_name n = true ->
  n ∉ names -> list_find (named n) ks = None.
Proof.
  intros Hn Hv Hval Hin. apply list_find_None, Forall_forall. intros k Hk (m & Em & Ec).
  assert (Hm : Some m ∈ Some <$> names) by (rewrite <- Hn, <- Em; by apply (list_elem_of_fmap_2 (fun k => s_name (t_set k)))).
  apply list_elem_of_fmap in Hm as (m' & E & Hm). injection E as <-. rewrite Forall_forall in Hv.
  apply Hin. by rewrite (compare_valid n m Hval (Hv m Hm) Ec).
Qed.

Definition list_state (b : Z) : Z := if b =? 0 then 3 else 36.
Definition base_state (b : Z) : Prop := b = 0 \/ b = 27.

Ltac in_base H := destruct H as [->| ->]; reflexivity.

(** The members from the second on. *)
Lemma run_members_rest ms : Forall (fun m => value_runs m.2) ms -> forall b u w stk input c t p s ks0 c0 st N names,
  base_state b -> Forall (fun m => cfg_ok m.2) ms -> Forall (fun m => (need m.2 <= N)%nat) ms -> (3 <= N)%nat ->
  (length stk + N + 7 < YYMAXDEPTH)%nat -> auto_convert (c_flags c0) = false -> s_type s = CONFIG_TYPE_GROUP ->
  NoDup (names ++ ms.*1) -> Forall (fun n => __config_validate_name n = true) (names ++ ms.*1) -> has_names ks0 names ->
  extended c t p s [] ks0 c0 -> c_flags c0 = c_flags c ->
  exists n c' st' ks u', (n <= 5 * length (settings_toks ms))%nat /\
    runs n ((list_state b, u) :: (b, w) :: stk) (settings_toks ms ++ input) (PState c0 (PCtx (Some p) st None))
      ((list_state b, u') :: (b, w) :: stk) input (PState c' (PCtx (Some p) st' None)) /\
    extended c t p s [] (ks0 ++ ks) c' /\ erase <$> ks = member_tree <$> ms.
Proof.
  induction 1 as [|[n v] ms Hv _ IH]; intros b u w stk input c t p s ks0 c0 st N names Hb Hok Hneed HN Hd Hf Et Hnd Hval Hnm Hx Hfl.
  { exists 0%nat, c0, st, [], u. split; [done|]. split; [constructor|]. by rewrite app_nil_r. }
  apply Forall_cons in Hok as [Hok Hoks], Hneed as [Hnv Hns]. cbn [fmap list_fmap fst snd] in *.
  unfold settings_toks. cbn [flat_map]. fold (settings_toks ms). rewrite <- app_assoc. destruct Hx as (b0 & Hn & Hf0).
  apply Forall_app in Hval as [Hval1 Hval2]. apply Forall_cons in Hval2 as [Hvn Hval2]. cbn [app] in Hn.
  assert (Hin : n ∉ names) by (apply NoDup_app in Hnd as (_ & Hdis & _); intros Hin; apply (Hdis n Hin); left).
  destruct (run_member n v (list_state b) u ((b, w) :: stk) (settings_toks ms ++ input) c0 _ p _ ks0 st Hv Hok
    ltac:(destruct Hb as [->| ->]; [right; right; by left|right; right; by right]) ltac:(cbn [length]; lia) Hf Hn Et Hvn
    (unused_name _ _ _ Hnm Hval1 Hvn Hin)) as (n1 & c1 & st1 & k & u1 & Hn1 & R1 & Happ & He).
  set (x1 := PState c1 (PCtx (Some p) st1 None)) in R1.
  destruct (run_reduce 5 7 u1 [(7, u1); (list_state b, u)] b w stk (settings_toks ms ++ input) x1 x1 (list_state b)) as [u2 R2];
    [destruct (settings_toks ms ++ input); reflexivity|reflexivity|by eexists|reflexivity|in_base Hb|lia|].
  replace (member_goto (list_state b)) with 7 in R1 by (by destruct Hb as [->| ->]).
  assert (Hf1 : c_flags c1 = c_flags c0) by (destruct Happ as (? & _ & ?); done).
  pose proof (extended_more c t p s [] b0 ks0 c0 _ c1 Hn Hfl Happ) as Hx1.
  destruct (IH b u2 w stk input c t p s (ks0 ++ [k]) c1 st1 N (names ++ [n])) as (n3 & c' & st' & ks & u' & Hn3 & R3 & Hx3 & He3);
    [done|done|done|done|done|congruence|done|by rewrite <- app_assoc| | |done|congruence|].
  { rewrite <- app_assoc. apply Forall_app. split; [done|]. by apply Forall_cons. }
  { unfold has_names. rewrite !fmap_app. f_equal; [done|]. cbn. f_equal. rewrite <- erase_name, He. apply tree_name. }
  exists (n1 + (1 + n3))%nat, c', st', (k :: ks), u'. split; [|split; [|split]].
  - unfold member_toks. cbn [length fst snd app]. rewrite !length_app. cbn [length]. lia.
  - exact (runs_trans _ _ _ _ _ _ _ _ _ _ _ R1 (runs_trans _ _ _ _ _ _ _ _ _ _ _ R2 R3)).
  - by rewrite <- app_assoc in Hx3.
  - cbn [fmap list_fmap]. by rewrite He, He3.
Qed.

Lemma run_members m ms b w stk input c t p s st N :
  Forall (fun m => value_runs m.2) (m :: ms) -> base_state b -> Forall (fun m => cfg_ok m.2) (m :: ms) ->
  Forall (fun m => (need m.2 <= N)%nat) (m :: ms) -> (3 <= N)%nat -> (length stk + N + 7 < YYMAXDEPTH)%nat ->
  auto_convert (c_flags c) = false -> s_type s = CONFIG_TYPE_GROUP ->
  NoDup (m :: ms).*1 -> Forall (fun n => __config_validate_name n = true) (m :: ms).*1 -> node_at c t p s [] ->
  exists n c' st' ks u', (n <= 5 * length (settings_toks (m :: ms)))%nat /\
    runs n ((b, w) :: stk) (settings_toks (m :: ms) ++ input) (PState c (PCtx (Some p) st None))
      ((list_state b, u') :: (b, w) :: stk) input (PState c' (PCtx (Some p) st' None)) /\
    extended c t p s [] ks c' /\ erase <$> ks = member_tree <$> m :: ms.
Proof.
  intros Hvs Hb Hok Hneed HN Hd Hf Et Hnd Hval Hn. destruct m as [n v].
  apply Forall_cons in Hvs as [Hv Hvs], Hok as [Hokv Hok], Hneed as [Hnv Hneed]. cbn [fmap list_fmap fst snd] in *.
  unfold settings_toks. cbn [flat_map]. fold (settings_toks ms). rewrite <- app_assoc.
  destruct (run_member n v b w stk (settings_toks ms ++ input) c t p s [] st Hv Hokv
    ltac:(destruct Hb as [->| ->]; [by left|right; by left]) ltac:(lia) Hf Hn Et ltac:(by apply Forall_cons in Hval as [? _]) eq_refl)
    as (n1 & c1 & st1 & k & u1 & Hn1 & R1 & Happ & He).
  set (x1 := PState c1 (PCtx (Some p) st1 None)) in R1.
  replace (member_goto b) with 4 in R1 by (by destruct Hb as [->| ->]).
  destruct (run_reduce 4 4 u1 [(4, u1)] b w stk (settings_toks ms ++ input) x1 x1 (list_state b)) as [u2 R2];
    [destruct (settings_toks ms ++ input); reflexivity|reflexivity|by eexists|reflexivity|in_base Hb|lia|].
  assert (Hf1 : c_flags c1 = c_flags c) by (destruct Happ as (? & _ & ?); done).
  destruct (run_members_rest ms Hvs b u2 w stk input c t p s [k] c1 st1 N [n]) as (n3 & c' & st' & ks & u' & Hn3 & R3 & Hx3 & He3);
    [done|done|done|done|done|congruence|done|done|done| |done|congruence|].
  { unfold has_names. cbn. f_equal. rewrite <- erase_name, He. apply tree_name. }
  exists (n1 + (1 + n3))%nat, c', st', (k :: ks), u'. split; [|split; [|split]].
  - unfold member_toks. cbn [length fst snd app]. rewrite !length_app. cbn [length]. lia.
  - exact (runs_trans _ _ _ _ _ _ _ _ _ _ _ R1 (runs_trans _ _ _ _ _ _ _ _ _ _ _ R2 R3)).
  - exact Hx3.
  - cbn [fmap list_fmap]. by rewrite He, He3.
Qed.

Lemma group_body ms stk q p nm N :
  Forall (fun m => value_runs m.2) ms -> Forall (fun m => cfg_ok m.2) ms -> Forall (fun m => (need m.2 <= N)%nat) ms -> (3 <= N)%nat ->
  (length stk + N + 7 < YYMAXDEPTH)%nat -> NoDup ms.*1 -> Forall (fun n => __config_validate_name n = true) ms.*1 ->
  body_runs KGroup (settings_toks ms) stk (member_tree <$> ms) q p nm.
Proof.
  intros Hvs Hok Hneed HN Hd Hnd Hval u0 input c t st Hn Hf. cbn [a_first a_last a_end a_type] in *. destruct ms as [|m ms].
  - destruct (run_reduce 6 27 u0 [] 27 u0 stk (TOK_GROUP_END :: input) (PState c (PCtx (Some q) st None))
      (PState c (PCtx (Some q) st None)) 37) as [u R]; [reflexivity|reflexivity|by eexists|reflexivity|reflexivity|lia|].
    exists 1%nat, c, st, [], u. split; [cbn; lia|]. split; [exact R|]. split; [by apply extended_none|done].
  - destruct (run_members m ms 27 u0 stk (TOK_GROUP_END :: input) c t q (Setting nm CONFIG_TYPE_GROUP 0 VZero (Some p)) st N Hvs ltac:(by right) Hok Hneed HN Hd Hf eq_refl Hnd Hval Hn)
      as (n1 & c1 & st1 & ks & u1 & Hn1 & R1 & Hx & He).
    set (x1 := PState c1 (PCtx (Some q) st1 None)) in R1. change (list_state 27) with 36 in R1.
    destruct (run_reduce 7 36 u1 [(36, u1)] 27 u0 stk (TOK_GROUP_END :: input) x1 x1 37) as [u R2];
      [reflexivity|reflexivity|by eexists|reflexivity|reflexivity|lia|].
    exists (n1 + 1)%nat, c1, st1, ks, u. split; [lia|]. split; [|done]. exact (runs_trans _ _ _ _ _ _ _ _ _ _ _ R1 R2).
Qed.

(** ** Values *)

Lemma fold_forall {A} (P : A -> Prop) l : foldr (fun x r => P x /\ r) True l -> Forall P l.
Proof. induction l as [|x l IH]; [done|]. intros [? ?]. apply Forall_cons. auto. Qed.

Lemma fold_max {A} (f : A -> nat) d l : Forall (fun x => (f x <= foldr (fun x r => Nat.max (f x) r) d l)%nat) l /\
  (d <= foldr (fun x r => Nat.max (f x) r) d l)%nat.
Proof.
  induction l as [|x l [IH1 IH2]]; [done|]. cbn [foldr]. split; [apply Forall_cons; split; [lia|]|lia].
  eapply Forall_impl; [exact IH1|]. cbn. lia.
Qed.

Lemma group_toks ms : flat_map (fun '(n, v) => TOK_NAME n :: TOK_EQUALS :: value_toks v ++ [TOK_END]) ms = settings_toks ms.
Proof. unfold settings_toks. induction ms as [|[n v] ms IH]; [done|]. cbn [flat_map]. by rewrite IH. Qed.

Lemma group_tree (ms : list (cstring * cfg)) : (fun '(n, v) => value_tree (Some n) v) <$> ms = member_tree <$> ms.
Proof. apply list_fmap_ext. by intros _ [n v] _. Qed.

Lemma value_run v : value_runs v.
Proof.
  induction v as [x|xs|vs IH|ms IH] using cfg_ind'; [apply scalar_runs|apply array_runs|..];
    intros st0 w stk input c t p m st Hs Hok Hd Hi Hf Hr; cbn [need cfg_ok] in Hd, Hok.
  - destruct (fold_max need 3 vs) as [H1 H2]. set (N := foldr (fun v r => Nat.max (need v) r) 3%nat vs) in *.
    apply (run_aggregate KList (commas (value_toks <$> vs)) (value_tree None <$> vs) st0 w stk input c t p m st Hs ltac:(lia) Hf Hr).
    intros q. apply (list_body vs _ q p _ N IH (fold_forall _ _ Hok) H1 H2). cbn [length]. lia.
  - destruct (fold_max (fun m : cstring * cfg => need m.2) 3 ms) as [H1 H2].
    set (N := foldr (fun (m : cstring * cfg) r => Nat.max (need m.2) r) 3%nat ms) in *. destruct Hok as (Hnd & Hval & Hok).
    destruct (run_aggregate KGroup (settings_toks ms) (member_tree <$> ms) st0 w stk input c t p m st Hs ltac:(lia) Hf Hr)
      as (n & c' & st' & k & u & Hn & R & Hfill & He).
    { intros q. apply (group_body ms _ q p _ N IH (fold_forall _ _ Hok) H1 H2); [cbn [length]; lia|done|done]. }
    exists n, c', st', k, u. cbn [value_toks value_tree]. rewrite group_toks, group_tree. done.
Qed.

(** ** Reading a configuration *)

Definition settings_depth (ms : list (cstring * cfg)) : nat := foldr (fun m r => Nat.max (need m.2) r) 3%nat ms.

(** The whole parse, from a root without members. *)
Lemma parse_settings ms c t p s fuel :
  settings_ok ms -> (settings_depth ms + 7 < YYMAXDEPTH)%nat -> (5 * length (settings_toks ms) + 2 <= fuel)%nat ->
  auto_convert (c_flags c) = false -> s_type s = CONFIG_TYPE_GROUP -> node_at c t p s [] ->
  exists c' st ks, libconfig_yyparse fuel (settings_toks ms) (PState c (PCtx (Some p) (Some p) None)) =
      Ok (0, PState c' (PCtx (Some p) st None)) /\
    extended c t p s [] ks c' /\ erase <$> ks = member_tree <$> ms.
Proof.
  intros (Hnd & Hval & Hok) Hd Hfuel Hf Et Hn. set (x0 := PState c (PCtx (Some p) (Some p) None)).
  destruct (fold_max (fun m : cstring * cfg => need m.2) 3 ms) as [H1 H2]. fold (settings_depth ms) in H1, H2.
  assert (Hend : forall n u x, runs n [(0, None)] (settings_toks ms) x0 [(2, u); (0, None)] [] x -> (n < fuel)%nat ->
    libconfig_yyparse fuel (settings_toks ms) x0 = Ok (0, x)).
  { intros n u x R Hlt. unfold libconfig_yyparse. replace fuel with (n + S (fuel - n - 1))%nat by lia.
    rewrite (runs_loop _ _ _ _ _ _ _ _ R). reflexivity. }
  destruct ms as [|m ms].
  - destruct (run_reduce 2 0 None [] 0 None [] [] x0 x0 2 eq_refl eq_refl ltac:(by eexists) eq_refl eq_refl ltac:(cbn [length]; lia)) as [u R].
    exists c, (Some p), []. split; [apply (Hend 1%nat u); [exact R|cbn in Hfuel; lia]|]. split; [by apply extended_none|done].
  - assert (Hvs : Forall (fun m => value_runs m.2) (m :: ms)) by (apply Forall_forall; intros; apply value_run).
    destruct (run_members m ms 0 None [] [] c t p s (Some p) _ Hvs ltac:(by left) (fold_forall _ _ Hok) H1 H2 ltac:(cbn [length]; lia)
      Hf Et Hnd Hval Hn) as (n1 & c1 & st1 & ks & u1 & Hn1 & R1 & Hx & He).
    rewrite app_nil_r in R1. set (x1 := PState c1 (PCtx (Some p) st1 None)) in R1. change (list_state 0) with 3 in R1.
    destruct (run_reduce 3 3 u1 [(3, u1)] 0 None [] [] x1 x1 2 eq_refl eq_refl ltac:(by eexists) eq_refl eq_refl ltac:(cbn [length]; lia)) as [u R2].
    exists c1, st1, ks. split; [|done]. apply (Hend (n1 + 1)%nat u); [|lia]. exact (runs_trans _ _ _ _ _ _ _ _ _ _ _ R1 R2).
Qed.

(** [__config_read] on the tokens of some settings, whatever the configuration was before. *)
Lemma config_read_over ms c c1 fuel :
  config_destroy c = Ok (tt, c1) -> c_heap c1 = ∅ -> auto_convert (c_flags c) = false -> settings_ok ms -> (settings_depth ms + 7 < YYMAXDEPTH)%nat ->
  (5 * length (settings_toks ms) + 2 <= fuel)%nat ->
  exists c' t', __config_read fuel (settings_toks ms) c = Ok (CONFIG_TRUE, c') /\ crep c' t' /\ c_flags c' = c_flags c /\
    erase t' = SNode None CONFIG_TYPE_GROUP 0 VZero (member_tree <$> ms).
Proof.
  intros E1 Hh Hf Hok Hd Hfuel. unfold __config_read. rewrite (bind_ok _ _ c (c_flags c) c) by done.
  rewrite (bind_ok _ _ c (c_tab_width c) c) by done.
  rewrite (bind_ok _ _ _ _ _ E1). destruct (init_ok c1 Hh) as (c2 & E2 & _ & Hc2). rewrite (bind_ok _ _ _ _ _ E2).
  rewrite (bind_ok _ _ _ _ _ eq_refl).
  set (c3 := Config (c_heap c2) (c_fresh c2) (c_root c2) (c_flags c) (c_tab_width c) (c_error c2)).
  set (t3 := LNode (c_fresh c1) (Setting None CONFIG_TYPE_GROUP 0 VZero None) []) in *.
  assert (Hc3 : crep c3 t3) by (destruct Hc2; by split). rewrite (bind_ok _ _ c3 (Some (c_fresh c1)) c3).
  2:{ unfold gets. by rewrite (cr_root _ _ Hc3). }
  destruct (parse_settings ms c3 t3 (c_fresh c1) (Setting None CONFIG_TYPE_GROUP 0 VZero None) fuel Hok Hd Hfuel Hf eq_refl)
    as (c4 & st & ks & E4 & (v & [Hc4 Hfd] & Hf4) & He).
  { split; [done|]. unfold t3. rewrite find_node. by rewrite decide_True. }
  rewrite (bind_ok _ _ c3 0 c4) by (by rewrite E4). cbn [negb Z.eqb].
  exists c4, (LNode (c_fresh c1) (with_value v (Setting None CONFIG_TYPE_GROUP 0 VZero None)) ks). split; [done|]. split; [|split; [done|]].
  - unfold t3 in Hc4. cbn [replace app] in Hc4. by rewrite decide_True in Hc4 by done.
  - cbn [erase with_value s_name s_type s_format s_value]. by rewrite He.
Qed.

Lemma config_read_settings ms c t fuel :
  crep c t -> auto_convert (c_flags c) = false -> settings_ok ms -> (settings_depth ms + 7 < YYMAXDEPTH)%nat ->
  (5 * length (settings_toks ms) + 2 <= fuel)%nat ->
  exists c' t', __config_read fuel (settings_toks ms) c = Ok (CONFIG_TRUE, c') /\ crep c' t' /\ c_flags c' = c_flags c /\
    erase t' = SNode None CONFIG_TYPE_GROUP 0 VZero (member_tree <$> ms).
Proof. intros Hc. destruct (config_destroy_ok c t Hc) as (c1 & E1 & Hh & _). by apply (config_read_over ms c c1). Qed.

(** ** Looking up what was read *)

Definition member (n : cstring) (ms : list (cstring * cfg)) : option cfg := snd ∘ snd <$> list_find (fun m => m.1 = n) ms.

Fixpoint cfg_at (v : cfg) (ns : list cstring) : option cfg :=
  match ns with
  | [] => Some v
  | n :: ns' => match v with CGroup ms => member n ms ≫= fun v' => cfg_at v' ns' | _ => None end
  end.

(** A path: names with dots. *)
Definition dotted (ns : list cstring) : cstring := flat_map (cons 46) ns.
Definition path_of (ns : list cstring) : cstring := tail (dotted ns).

Definition plain (n : cstring) : Prop := __config_validate_name n = true.

Lemma compare_prefix n : forall rest m, forallb name_char n = true -> forallb name_char m = true ->
  match rest with [] => True | c :: _ => is_sep c = true end ->
  __config_name_compare (n ++ rest) m = 0 <-> n = m.
Proof.
  induction n as [|a n IH]; intros rest m Hn Hm Hr; cbn [app].
  - destruct m as [|b m].
    + destruct rest as [|c rest]; cbn [__config_name_compare]; [done|]. by rewrite Hr.
    + cbn [forallb] in Hm. apply andb_prop in Hm as [Hb _]. apply name_char_plain in Hb as [Hb _].
      destruct rest as [|c rest]; cbn [__config_name_compare]; rewrite ?Hr, Hb; cbn; done.
  - cbn [forallb] in Hn. apply andb_prop in Hn as [Ha Hn]. apply name_char_plain in Ha as [Ha Ra].
    destruct m as [|b m]; cbn [__config_name_compare]; rewrite Ha; [cbn; done|].
    cbn [forallb] in Hm. apply andb_prop in Hm as [Hb Hm]. apply name_char_plain in Hb as [Hb Rb]. rewrite Hb. cbn [andb].
    rewrite !s8_id by lia. destruct (Z.ltb_spec a b); [split; [done|]; intros E; injection E as -> _; lia|].
    destruct (Z.ltb_spec b a); [split; [done|]; intros E; injection E as -> _; lia|].
    assert (a = b) as -> by lia. rewrite (IH rest m Hn Hm Hr). split; [by intros ->|intros E; by injection E].
Qed.

Lemma dotted_sep ns : match dotted ns with [] => True | c :: _ => is_sep c = true end.
Proof. by destruct ns. Qed.

Lemma plain_head n rest : plain n -> exists c n', n = c :: n' /\ is_sep c = false /\ c <> 91 /\
  skip_seps (n ++ rest) = n ++ rest.
Proof.
  unfold plain. destruct n as [|c n]; [done|]. intros Hv. pose proof (validate_chars _ Hv) as Hc. cbn in Hc.
  apply andb_prop in Hc as [Hc _]. pose proof (name_char_plain c Hc) as [Hs _]. exists c, n. split; [done|]. split; [done|]. split.
  - intros ->. by vm_compute in Hc.
  - cbn. by rewrite Hs.
Qed.

Lemma skip_name_plain n rest : forallb name_char n = true -> match rest with [] => True | c :: _ => is_sep c = true end ->
  skip_name (n ++ rest) = rest.
Proof.
  intros Hn Hr. induction n as [|a n IH]; cbn [app skip_name].
  - destruct rest as [|c rest]; [done|]. cbn. by rewrite Hr.
  - cbn in Hn. apply andb_prop in Hn as [Ha Hn]. apply name_char_plain in Ha as [Ha _]. rewrite Ha. by apply IH.
Qed.

(** The members that a lookup finds are the ones of the file. *)
Lemma find_member ms kids n rest :
  erase <$> kids = member_tree <$> ms -> Forall plain ms.*1 -> plain n ->
  match rest with [] => True | c :: _ => is_sep c = true end ->
  match list_find (fun m => m.1 = n) ms with
  | None => list_find (named (n ++ rest)) kids = None
  | Some (i, m) => exists k, list_find (named (n ++ rest)) kids = Some (i, k) /\ erase k = member_tree m /\ kids !! i = Some k
  end.
Proof.
  revert ms. induction kids as [|k kids IH]; intros [|m ms] He Hv Hn Hr; try done.
  cbn [fmap list_fmap] in He, Hv. injection He as Hk He. apply Forall_cons in Hv as [Hm Hv]. cbn [list_find].
  assert (Hkn : s_name (t_set k) = Some m.1) by (rewrite <- erase_name, Hk; apply tree_name).
  assert (Hiff : named (n ++ rest) k <-> m.1 = n).
  { unfold named. rewrite Hkn. pose proof (compare_prefix n rest m.1 (validate_chars _ Hn) (validate_chars _ Hm) Hr) as Hcp. split.
    - intros (x & E & Ec). injection E as <-. symmetry. by apply Hcp.
    - intros E. exists m.1. split; [done|]. by apply Hcp. }
  specialize (IH ms He Hv Hn Hr). destruct (decide (m.1 = n)) as [E|E].
  - rewrite (decide_True (P := named (n ++ rest) k)) by (by apply Hiff). by exists k.
  - rewrite (decide_False (P := named (n ++ rest) k)) by (by rewrite Hiff).
    destruct (list_find (fun m => m.1 = n) ms) as [[i m']|]; cbn [fmap option_fmap option_map prod_map].
    + destruct IH as (k' & -> & ? & ?). by exists k'.
    + by rewrite IH.
Qed.

Lemma kid_at c t p s kids i k : node_at c t p s kids -> kids !! i = Some k ->
  exists ks, node_at c t (t_loc k) (t_set k) ks /\ LNode (t_loc k) (t_set k) ks = k.
Proof.
  intros [Hc Hf] Hi. exists (t_kids k). split; [|by destruct k]. split; [done|]. pose proof (cr_nodup _ _ Hc) as Hnd.
  apply (find_trans p _ _ _ t Hnd Hf). destruct (find_split p t _ Hnd Hf) as (l1 & l2 & _ & E & _).
  unfold locs in Hnd. rewrite E, !fmap_app in Hnd.
  apply NoDup_app in Hnd as (_ & _ & Hnd). apply NoDup_app in Hnd as (Hnd & _ & _). rewrite entries_node in Hnd. cbn [fmap list_fmap] in Hnd.
  rewrite locs_flat in Hnd. apply NoDup_cons in Hnd as [Hp Hnd]. rewrite find_node, decide_False.
  2:{ intros Ek. apply Hp. cbn. rewrite <- Ek. apply list_elem_of_In, in_flat_map. exists k. rewrite <- !list_elem_of_In.
      split; [by apply list_elem_of_lookup_2 with i|apply loc_in]. }
  clear -Hi Hnd. revert i Hi. induction kids as [|x l IH]; intros i Hi; [done|]. rewrite find_in_cons. cbn [flat_map] in Hnd.
  apply NoDup_app in Hnd as (_ & Hd & Hnd). destruct i as [|i]; cbn in Hi.
  - injection Hi as ->. destruct k as [pk sk kk]. rewrite find_node. by rewrite decide_True.
  - destruct (find (t_loc k) x) as [m|] eqn:Ex; [|by apply (IH Hnd i)]. exfalso.
    apply (Hd (t_loc k) (proj2 (find_loc _ _ _ Ex))). apply list_elem_of_In, in_flat_map. exists k. rewrite <- !list_elem_of_In.
    split; [by apply list_elem_of_lookup_2 with i|apply loc_in].
Qed.

Lemma value_tree_type name v : match value_tree name v with SNode _ ty _ _ _ => ty end = CONFIG_TYPE_GROUP <-> exists ms, v = CGroup ms.
Proof.
  split; [|by intros [ms ->]]. destruct v as [x| | |ms]; [|done|done|by exists ms]. destruct x; done.
Qed.

Definition found (c : config_t) (t : ltree) (name : option cstring) (v : cfg) (o : option loc) : Prop :=
  exists q s kids, o = Some q /\ node_at c t q s kids /\ erase (LNode q s kids) = value_tree name v.

(** One round of a lookup. *)
Lemma lookup_round fuel p n ns c : plain n ->
  lookup_loop (S fuel) p (dotted (n :: ns)) c =
  (let* m := config_setting_get_member p (Some (n ++ dotted ns)) in
   match m with None => ret None | Some p' => lookup_loop fuel p' (dotted ns) end) c.
Proof.
  intros Hn. destruct (plain_head n (dotted ns) Hn) as (ch & n' & En & Hs & Hch & Es).
  cbn [lookup_loop dotted flat_map app skip_seps]. change (is_sep 46) with true. cbv iota. fold (dotted ns). rewrite Es.
  pose proof (skip_name_plain n (dotted ns) (validate_chars _ Hn) (dotted_sep ns)) as Ek. revert Ek. rewrite En. cbn [app]. intros Ek.
  rewrite (proj2 (Z.eqb_neq _ _) Hch), Ek. unfold bind. destruct (config_setting_get_member _ _ c) as [[[q|] c']|]; done.
Qed.

Lemma lookup_path ns : forall fuel c t p s kids name v,
  node_at c t p s kids -> erase (LNode p s kids) = value_tree name v -> cfg_ok v -> Forall plain ns -> (length ns < fuel)%nat ->
  match cfg_at v ns with
  | None => lookup_loop fuel p (dotted ns) c = Ok (None, c)
  | Some v' => exists o name', lookup_loop fuel p (dotted ns) c = Ok (o, c) /\ found c t name' v' o /\ cfg_ok v'
  end.
Proof.
  induction ns as [|n ns IH]; intros [|fuel] c t p s kids name v Hn He Hok Hv Hfuel; try (cbn in Hfuel; lia).
  { cbn. exists (Some p), name. split; [done|]. split; [by exists p, s, kids|done]. }
  apply Forall_cons in Hv as [Hpn Hv]. cbn [cfg_at]. rewrite (lookup_round fuel p n ns c Hpn).
  rewrite (bind_ok _ _ _ _ _ (get_member_ok c t p s kids (n ++ dotted ns) Hn)).
  assert (Et : s_type s = match value_tree name v with SNode _ ty _ _ _ => ty end) by (by rewrite <- He).
  destruct (Z.eqb_spec (s_type s) CONFIG_TYPE_GROUP) as [Eg|Eg].
  2:{ by destruct v. }
  rewrite Et in Eg. apply value_tree_type in Eg as [ms ->]. cbn [erase value_tree] in He. injection He as _ _ _ _ Hk.
  rewrite group_tree in Hk. destruct Hok as (Hnd & Hval & Hok).
  pose proof (find_member ms kids n (dotted ns) Hk Hval Hpn (dotted_sep ns)) as Hf. unfold member.
  destruct (list_find (fun m => m.1 = n) ms) as [[i m]|] eqn:Em; cbn [fmap option_fmap option_map mbind option_bind compose snd].
  - destruct Hf as (k & -> & Hek & Hi). cbn [fmap option_fmap option_map compose snd].
    destruct (kid_at _ _ _ _ _ _ _ Hn Hi) as (ks & Hnk & Ek).
    apply (IH fuel c t (t_loc k) (t_set k) ks (Some m.1) m.2); [done|by rewrite Ek| |done|cbn in Hfuel; lia].
    apply list_find_Some in Em as (Em & _). pose proof (fold_forall (fun m : cstring * cfg => cfg_ok m.2) ms Hok) as Hall.
    rewrite Forall_forall in Hall. apply Hall. by apply list_elem_of_lookup_2 with i.
  - by rewrite Hf.
Qed.

(** [config_lookup] on what was read. *)
Lemma lookup_settings ns c t ms :
  crep c t -> erase t = SNode None CONFIG_TYPE_GROUP 0 VZero (member_tree <$> ms) -> settings_ok ms -> Forall plain ns -> ns <> [] ->
  match cfg_at (CGroup ms) ns with
  | None => config_lookup (path_of ns) c = Ok (None, c)
  | Some v => exists o name, config_lookup (path_of ns) c = Ok (o, c) /\ found c t name v o /\ cfg_ok v
  end.
Proof.
  intros Hc He Hok Hv Hne. assert (E : config_lookup (path_of ns) c = lookup_loop (S (length (path_of ns))) (t_loc t) (dotted ns) c).
  { unfold config_lookup. rewrite (bind_ok _ _ c (Some (t_loc t)) c) by (unfold gets; by rewrite (cr_root _ _ Hc)).
    rewrite (bind_ok _ _ c (t_loc t) c) by done. unfold config_lookup_from. destruct ns as [|n ns]; [done|]. cbn [path_of dotted flat_map tail].
    cbn [lookup_loop]. f_equal. }
  rewrite E. destruct t as [p s kids]. apply (lookup_path ns _ c _ p s kids None (CGroup ms)); [|by rewrite He; cbn; rewrite group_tree|done|done|].
  - split; [done|]. rewrite find_node. by rewrite decide_True.
  - assert (2 * length ns <= length (dotted ns))%nat.
    { unfold dotted. clear -Hv. induction Hv as [|n ns Hn _ IH]; [done|]. cbn [flat_map app length]. rewrite length_app.
      destruct n; [done|]. cbn [length]. lia. }
    unfold path_of. destruct ns as [|n ns]; [done|]. destruct (dotted (n :: ns)); cbn [tail length] in *; lia.
Qed.

(** C10: a configuration file is read as it is written.  For the tokens of any settings
    (scalars in every notation, strings in several parts, arrays of one type, lists and groups
    nested as deep as the parser's stack allows, members with different valid names)
    [__config_read] throws the old settings away, returns CONFIG_TRUE and leaves exactly these
    settings, with their names, types, formats, values and order; [config_lookup] then finds
    the value at every path of names that the file has, and nothing at the others. *)
Theorem config_read_correct (ms : list (cstring * cfg)) (c : config_t) (t : ltree) (fuel : nat) :
  crep c t -> auto_convert (c_flags c) = false -> settings_ok ms -> (settings_depth ms + 7 < YYMAXDEPTH)%nat ->
  (5 * length (settings_toks ms) + 2 <= fuel)%nat ->
  exists c' t', __config_read fuel (settings_toks ms) c = Ok (CONFIG_TRUE, c') /\ crep c' t' /\
    erase t' = SNode None CONFIG_TYPE_GROUP 0 VZero (member_tree <$> ms) /\
    forall ns, ns <> [] -> Forall plain ns ->
      match cfg_at (CGroup ms) ns with
      | None => config_lookup (path_of ns) c' = Ok (None, c')
      | Some v => exists o name, config_lookup (path_of ns) c' = Ok (o, c') /\ found c' t' name v o
      end.
Proof.
  intros Hc Hf Hok Hd Hfuel. destruct (config_read_settings ms c t fuel Hc Hf Hok Hd Hfuel) as (c' & t' & E & Hc' & _ & He).
  exists c', t'. split; [done|]. split; [done|]. split; [done|]. intros ns Hne Hv.
  pose proof (lookup_settings ns c' t' ms Hc' He Hok Hv Hne) as Hl. destruct (cfg_at (CGroup ms) ns); [|exact Hl].
  destruct Hl as (o & name & El & Hfd & _). by exists o, name.
Qed.

(** A file with a nested list, two string parts and a hexadecimal number. *)
Definition sample_file : list (cstring * cfg) :=
  [(str "loader", CGroup [(str "iop_reset", CScalar (SBool 1)); (str "boot2", CArray [SString (str "cdrom0:") [str "X"]; SString (str "mass:Y") []])]);
   (str "engine", CGroup [(str "addr", CScalar (SHex 0x80000))]);
   (str "more", CList [CScalar (SInt 1); CList []; CGroup [(str "x", CArray [])]])].

Lemma config_read_correct_witness :
  exists c1 c' t', config_init (Config ∅ 1 None 0 0 CONFIG_ERR_NONE) = Ok (tt, c1) /\
    __config_read 400 (settings_toks sample_file) c1 = Ok (CONFIG_TRUE, c') /\
    erase t' = SNode None CONFIG_TYPE_GROUP 0 VZero (member_tree <$> sample_file) /\
    exists o name, config_lookup (str "engine.addr") c' = Ok (o, c') /\ found c' t' name (CScalar (SHex 0x80000)) o.
Proof.
  destruct (init_ok (Config ∅ 1 None 0 0 CONFIG_ERR_NONE) eq_refl) as (c1 & E1 & Hf & Hc1).
  destruct (config_read_correct sample_file c1 _ 400 Hc1 ltac:(by rewrite Hf)) as (c' & t' & E2 & _ & He & Hl).
  - split; [|split; [|split; [|split; [|split; [|exact I]]]]].
    + apply (bool_decide_unpack _). vm_compute. exact I.
    + cbn [sample_file fmap list_fmap fst]. repeat (apply Forall_cons; split; [reflexivity|]). apply Forall_nil_2.
    + split; [apply (bool_decide_unpack _); vm_compute; exact I|]. split; [repeat (apply Forall_cons; split; [reflexivity|]); apply Forall_nil_2|].
      split; [exact I|]. split; [|exact I]. exists CONFIG_TYPE_STRING. repeat (apply Forall_cons; split; [reflexivity|]). apply Forall_nil_2.
    + split; [apply (bool_decide_unpack _); vm_compute; exact I|]. split; [repeat (apply Forall_cons; split; [reflexivity|]); apply Forall_nil_2|].
      by split.
    + split; [exact I|]. split; [exact I|]. split; [|exact I]. split; [apply (bool_decide_unpack _); vm_compute; exact I|].
      split; [repeat (apply Forall_cons; split; [reflexivity|]); apply Forall_nil_2|]. split; [|exact I]. by exists CONFIG_TYPE_NONE.
  - apply Nat.leb_le. vm_compute. reflexivity.
  - apply Nat.leb_le. vm_compute. reflexivity.
  - exists c1, c', t'. split; [exact E1|]. split; [exact E2|]. split; [exact He|].
    specialize (Hl [str "engine"; str "addr"] ltac:(done)). apply Hl.
    repeat (apply Forall_cons; split; [reflexivity|]). apply Forall_nil_2.
Defined.
