(* ===== verification/Scanner.v ===== *)
(** * libconfig: the scanner (ee/libconfig/src/scanner.c, scanctx.c, strbuf.c)

    The automaton that flex generated, its buffers, the actions of its rules and the files that
    a configuration includes.  A file is the list of the bytes that were not read yet, reads do
    not fail, and memory is always there.  The NUL that ends [yytext] for the time of an action,
    and [yy_hold_char] which undoes it, are not in the buffer: [yytext] is a copy. *)

From S2P Require Import Prelude CString Queue LibConfig Grammar.
From Stdlib Require Import SpecFloat.
Local Open Scope ps2rd_scope.
Local Open Scope Z_scope.

(** The C library: files that can be opened, [atof], and the largest [unsigned long]. *)
Class CLib : Type := {
  fopen : cstring -> option (list Z);
  atof : cstring -> spec_float;
  ULONG_MAX : Z;
}.

(** ** Tables *)

Definition yy_accept : list Z :=
  [0; 0; 0; 0; 0; 0; 0; 0; 0; 42; 40; 40; 20; 20; 5; 40; 36; 37; 28; 40; 23; 29; 40; 30; 30; 22; 38; 28; 28; 34;
   35; 24; 25; 40; 40; 3; 4; 3; 6; 14; 41; 16; 19; 41; 21; 21; 0; 39; 28; 29; 30; 29; 0; 1; 0; 29; 0; 31; 0; 28;
   28; 21; 0; 0; 2; 6; 12; 0; 11; 10; 7; 8; 9; 16; 18; 17; 0; 29; 29; 0; 0; 29; 31; 32; 28; 28; 0; 0; 0; 29; 33;
   28; 26; 0; 13; 33; 27; 0; 0; 0; 0; 0; 15; 0].
Definition yy_ec : list Z :=
  [0; 1; 1; 1; 1; 1; 1; 1; 1; 2; 3; 1; 4; 5; 1; 1; 1; 1; 1; 1; 1; 1; 1; 1; 1; 1; 1; 1; 1; 1; 1; 1; 2; 1; 6; 7; 1;
   1; 1; 1; 8; 9; 10; 11; 12; 13; 14; 15; 16; 17; 17; 17; 17; 17; 17; 17; 17; 17; 18; 19; 1; 20; 1; 1; 21; 22; 23;
   23; 23; 24; 25; 26; 26; 26; 26; 26; 27; 26; 26; 26; 26; 26; 28; 29; 30; 31; 26; 26; 32; 26; 26; 33; 34; 35; 1;
   36; 1; 22; 23; 37; 38; 39; 40; 26; 26; 41; 26; 26; 42; 26; 43; 26; 26; 26; 44; 29; 45; 46; 26; 26; 32; 26; 26;
   47; 1; 48; 1; 1; 1; 1; 1; 1; 1; 1; 1; 1; 1; 1; 1; 1; 1; 1; 1; 1; 1; 1; 1; 1; 1; 1; 1; 1; 1; 1; 1; 1; 1; 1; 1;
   1; 1; 1; 1; 1; 1; 1; 1; 1; 1; 1; 1; 1; 1; 1; 1; 1; 1; 1; 1; 1; 1; 1; 1; 1; 1; 1; 1; 1; 1; 1; 1; 1; 1; 1; 1; 1;
   1; 1; 1; 1; 1; 1; 1; 1; 1; 1; 1; 1; 1; 1; 1; 1; 1; 1; 1; 1; 1; 1; 1; 1; 1; 1; 1; 1; 1; 1; 1; 1; 1; 1; 1; 1; 1;
   1; 1; 1; 1; 1; 1; 1; 1; 1; 1; 1; 1; 1; 1; 1; 1; 1; 1; 1; 1; 1; 1; 1].
Definition yy_meta : list Z :=
  [0; 1; 1; 1; 1; 1; 2; 1; 1; 1; 3; 1; 1; 3; 1; 1; 4; 4; 1; 1; 1; 5; 4; 4; 4; 4; 3; 3; 3; 3; 3; 3; 3; 1; 2; 1; 3;
   4; 4; 4; 4; 3; 3; 3; 3; 3; 3; 1; 1].
Definition yy_base : list Z :=
  [0; 0; 47; 47; 48; 46; 47; 48; 49; 213; 214; 210; 214; 214; 214; 208; 214; 214; 0; 45; 214; 47; 50; 60; 74; 214;
   214; 188; 28; 214; 214; 214; 214; 64; 168; 214; 214; 193; 0; 214; 63; 0; 214; 83; 214; 205; 203; 214; 0; 88;
   102; 98; 62; 214; 199; 104; 119; 170; 0; 67; 65; 121; 127; 124; 214; 0; 214; 0; 214; 214; 214; 214; 214; 0;
   214; 214; 108; 117; 122; 134; 132; 136; 214; 139; 136; 116; 126; 0; 140; 142; 135; 130; 0; 102; 214; 214; 0;
   85; 72; 63; 98; 158; 214; 214; 169; 174; 179; 184; 188; 191; 195; 200; 89; 66; 63].
Definition yy_def : list Z :=
  [0; 103; 1; 104; 104; 105; 105; 106; 106; 103; 103; 107; 103; 103; 103; 108; 103; 103; 109; 103; 103; 103; 103;
   103; 103; 103; 103; 109; 109; 103; 103; 103; 103; 107; 103; 103; 103; 103; 110; 103; 103; 111; 103; 103; 103;
   107; 108; 103; 109; 103; 103; 103; 103; 103; 108; 103; 103; 103; 112; 109; 109; 107; 103; 103; 103; 110; 103;
   113; 103; 103; 103; 103; 103; 111; 103; 103; 103; 103; 103; 103; 103; 103; 103; 112; 109; 109; 103; 114; 103;
   103; 103; 109; 109; 103; 103; 103; 109; 103; 103; 103; 103; 103; 103; 0; 103; 103; 103; 103; 103; 103; 103;
   103; 103; 103; 103].
Definition yy_nxt : list Z :=
  [0; 10; 11; 12; 13; 13; 14; 15; 16; 17; 18; 19; 20; 19; 21; 22; 23; 24; 25; 26; 25; 10; 18; 18; 18; 27; 18; 18;
   18; 18; 28; 18; 18; 29; 10; 30; 10; 18; 18; 18; 27; 18; 18; 18; 18; 28; 18; 31; 32; 33; 36; 36; 39; 39; 42; 42;
   60; 37; 37; 49; 53; 50; 50; 51; 51; 54; 61; 94; 34; 66; 87; 52; 60; 76; 55; 76; 50; 50; 77; 77; 40; 40; 43; 43;
   56; 62; 52; 57; 55; 74; 50; 50; 58; 83; 84; 67; 85; 68; 56; 56; 101; 57; 100; 69; 51; 51; 70; 71; 72; 84; 99;
   85; 52; 56; 51; 51; 55; 75; 50; 50; 78; 78; 52; 61; 77; 77; 56; 52; 79; 57; 80; 98; 80; 77; 77; 81; 81; 52; 78;
   78; 92; 56; 62; 79; 97; 88; 79; 88; 81; 81; 89; 89; 81; 81; 96; 92; 89; 89; 89; 89; 101; 79; 95; 93; 102; 91;
   90; 86; 63; 96; 35; 35; 35; 35; 35; 38; 38; 38; 38; 38; 41; 41; 41; 41; 41; 44; 44; 44; 44; 46; 46; 46; 46; 46;
   48; 48; 65; 82; 65; 65; 65; 73; 47; 73; 73; 73; 47; 45; 64; 63; 59; 47; 45; 103; 9; 103; 103; 103; 103; 103;
   103; 103; 103; 103; 103; 103; 103; 103; 103; 103; 103; 103; 103; 103; 103; 103; 103; 103; 103; 103; 103; 103;
   103; 103; 103; 103; 103; 103; 103; 103; 103; 103; 103; 103; 103; 103; 103; 103; 103; 103; 103; 103; 103].
Definition yy_chk : list Z :=
  [0; 1; 1; 1; 1; 1; 1; 1; 1; 1; 1; 1; 1; 1; 1; 1; 1; 1; 1; 1; 1; 1; 1; 1; 1; 1; 1; 1; 1; 1; 1; 1; 1; 1; 1; 1; 1;
   1; 1; 1; 1; 1; 1; 1; 1; 1; 1; 1; 1; 2; 3; 4; 5; 6; 7; 8; 28; 3; 4; 19; 22; 19; 19; 21; 21; 22; 33; 114; 2; 40;
   113; 21; 28; 52; 23; 52; 23; 23; 52; 52; 5; 6; 7; 8; 23; 33; 21; 23; 24; 43; 24; 24; 23; 112; 59; 40; 60; 40;
   24; 23; 100; 24; 99; 40; 49; 49; 40; 40; 40; 59; 98; 60; 49; 24; 51; 51; 50; 43; 50; 50; 55; 55; 51; 61; 76;
   76; 50; 49; 55; 50; 56; 97; 56; 77; 77; 56; 56; 51; 78; 78; 85; 50; 61; 55; 93; 79; 78; 79; 80; 80; 79; 79; 81;
   81; 91; 85; 88; 88; 89; 89; 101; 78; 90; 86; 101; 84; 83; 63; 62; 91; 104; 104; 104; 104; 104; 105; 105; 105;
   105; 105; 106; 106; 106; 106; 106; 107; 107; 107; 107; 108; 108; 108; 108; 108; 109; 109; 110; 57; 110; 110;
   110; 111; 54; 111; 111; 111; 46; 45; 37; 34; 27; 15; 11; 9; 103; 103; 103; 103; 103; 103; 103; 103; 103; 103;
   103; 103; 103; 103; 103; 103; 103; 103; 103; 103; 103; 103; 103; 103; 103; 103; 103; 103; 103; 103; 103; 103;
   103; 103; 103; 103; 103; 103; 103; 103; 103; 103; 103; 103; 103; 103; 103; 103; 103].
Definition yy_rule_can_match_eol : list Z :=
  [0; 0; 0; 0; 1; 0; 1; 0; 0; 0; 0; 0; 0; 0; 0; 0; 1; 0; 0; 0; 1; 1; 0; 0; 0; 0; 0; 0; 0; 0; 0; 0; 0; 0; 0; 0; 0;
   0; 0; 0; 0; 0].

Definition YY_NUM_RULES : Z := 41.
Definition YY_END_OF_BUFFER : Z := 42.
Definition YY_JAM_BASE : Z := 214.
Definition YY_JAM : Z := 103.
Definition YY_READ_BUF_SIZE : Z := 8192.
Definition YY_BUF_SIZE : Z := 16384.

Definition INITIAL : Z := 0.
Definition COMMENT : Z := 1.
Definition STRING : Z := 2.
Definition INCLUDE : Z := 3.

(** The state after a character of class [c]; entries of other states are found through the
    defaults, and there is no cycle of defaults. *)
Fixpoint yy_follow (fuel : nat) (s c : Z) : res Z :=
  match fuel with
  | O => Err OutOfFuel
  | S fuel' =>
      let? b := entry yy_base s in
      let? k := entry yy_chk (b + c) in
      if k =? s then entry yy_nxt (b + c)
      else
        let? s' := entry yy_def s in
        let? c' := if 104 <=? s' then entry yy_meta c else Ok c in
        yy_follow fuel' s' c'
  end.
Definition yy_trans (s c : Z) : res Z := yy_follow 114 s c.

(** ** Numbers *)

Definition u64 (x : Z) : Z := x mod 2 ^ 64.
Definition s64 (x : Z) : Z := (x + 2 ^ 63) mod 2 ^ 64 - 2 ^ 63.

Fixpoint hex_prefix (acc : Z) (s : cstring) : Z :=
  match s with
  | [] => acc
  | c :: s' => if isxdigit c then hex_prefix (16 * acc + digit_val c) s' else acc
  end.

(** The digits of base 16, behind an optional [0x]. *)
Definition hex_magnitude (s : cstring) : Z :=
  match s with
  | z :: x :: d :: _ =>
      if (z =? 48) && ((x =? 120) || (x =? 88)) && isxdigit d then hex_prefix 0 (drop 2 s) else hex_prefix 0 s
  | _ => hex_prefix 0 s
  end.

(** [strtoul(s, NULL, 16)] *)
Fixpoint strtoul16 `{CLib} (s : cstring) : Z :=
  match s with
  | [] => 0
  | c :: s' =>
      if isspace c then strtoul16 s'
      else
        let neg := c =? 45 in
        let m := hex_magnitude (if neg || (c =? 43) then s' else s) in
        if ULONG_MAX <? m then ULONG_MAX else if neg then (- m) mod (ULONG_MAX + 1) else m
  end.

(** [strtol(s, NULL, 16)] *)
Fixpoint strtol16 `{CLib} (s : cstring) : Z :=
  match s with
  | [] => 0
  | c :: s' =>
      if isspace c then strtol16 s'
      else
        let neg := c =? 45 in
        let m := hex_magnitude (if neg || (c =? 43) then s' else s) in
        if neg then Z.max (- m) (- (ULONG_MAX / 2) - 1) else Z.min m (ULONG_MAX / 2)
  end.

Fixpoint fromhex_loop (val : Z) (p : cstring) : Z :=
  match p with
  | [] => val
  | c :: p' =>
      if isxdigit c then
        fromhex_loop (Z.lor (u64 (Z.shiftl val 4)) (if c <? 65 then Z.land c 0xF else 9 + Z.land c 0x7)) p'
      else val
  end.

Definition fromhex (s : cstring) : Z :=
  match s with
  | z :: x :: p => if negb (z =? 48) then 0 else if negb (x =? 120) && negb (x =? 88) then 0 else fromhex_loop 0 p
  | _ => 0
  end.

(** The function of the EE. *)
Definition atoll (nptr : cstring) : Z := 0.

(** ** String buffers *)

Definition STRING_BLOCK_SIZE : Z := 64.

(** [None] is the null pointer. *)
Record strbuf_t : Type := StrBuf { sb_string : option cstring; sb_length : Z; sb_capacity : Z }.
Definition strbuf_zero : strbuf_t := StrBuf None 0 0.

Definition strbuf_release (b : strbuf_t) : option cstring * strbuf_t := (sb_string b, strbuf_zero).

Definition strbuf_append (text : cstring) (b : strbuf_t) : res strbuf_t :=
  let len := strlen text in
  let newlen := sb_length b + len + 1 in
  let '(string, capacity) :=
    if sb_capacity b <? newlen then
      (Some (default [] (sb_string b)), Z.land (newlen + (STRING_BLOCK_SIZE - 1)) (Z.lnot (STRING_BLOCK_SIZE - 1)))
    else (sb_string b, sb_capacity b) in
  let? s := of_option NullDeref string in
  if capacity <? newlen then Err OutOfBounds
  else Ok (StrBuf (Some (take (Z.to_nat (sb_length b)) s ++ text)) (sb_length b + len) capacity).

(** ** The context: the string that is collected, the files that are open *)

Definition MAX_INCLUDE_DEPTH : nat := 10.
Definition FILENAMES_CHUNK : nat := 32.

Inductive scan_error : Type := err_bad_include | err_include_too_deep.

(** [e_files] are the names of the included files, the innermost first; the buffers and the
    streams that belong to them are in the scanner's state.  [e_out] is what was echoed. *)
Record scan_env : Type := Env {
  e_start : Z;
  e_string : strbuf_t;
  e_top : option cstring;
  e_files : list cstring;
  e_filenames : list cstring;
  e_names_cap : nat;
  e_out : list Z;
  e_error : option (scan_error * option cstring * Z);
}.

Definition with_start (st : Z) (e : scan_env) : scan_env :=
  Env st (e_string e) (e_top e) (e_files e) (e_filenames e) (e_names_cap e) (e_out e) (e_error e).
Definition with_string (b : strbuf_t) (e : scan_env) : scan_env :=
  Env (e_start e) b (e_top e) (e_files e) (e_filenames e) (e_names_cap e) (e_out e) (e_error e).
Definition with_files (l : list cstring) (e : scan_env) : scan_env :=
  Env (e_start e) (e_string e) (e_top e) l (e_filenames e) (e_names_cap e) (e_out e) (e_error e).
Definition with_filenames (l : list cstring) (cap : nat) (e : scan_env) : scan_env :=
  Env (e_start e) (e_string e) (e_top e) (e_files e) l cap (e_out e) (e_error e).
Definition with_out (o : list Z) (e : scan_env) : scan_env :=
  Env (e_start e) (e_string e) (e_top e) (e_files e) (e_filenames e) (e_names_cap e) o (e_error e).
Definition with_err (x : scan_error * option cstring * Z) (e : scan_env) : scan_env :=
  Env (e_start e) (e_string e) (e_top e) (e_files e) (e_filenames e) (e_names_cap e) (e_out e) (Some x).

Definition BEGIN (st : Z) (e : scan_env) : scan_env := with_start (1 + 2 * st) e.

Definition __scanctx_add_filename (filename : cstring) (e : scan_env) : res (cstring * scan_env) :=
  if existsb (fun f => strcmp_eq f filename) (e_filenames e) then Ok (filename, e)
  else
    let n := length (e_filenames e) in
    let cap := if (n mod FILENAMES_CHUNK =? 0)%nat then (n + FILENAMES_CHUNK)%nat else e_names_cap e in
    if (cap <=? n)%nat then Err OutOfBounds
    else Ok (filename, with_filenames (e_filenames e ++ [filename]) cap e).

Definition scanctx_init (top_filename : option cstring) : res scan_env :=
  let e := Env 0 strbuf_zero None [] [] 0 [] None in
  match top_filename with
  | None => Ok e
  | Some f =>
      let? '(f, e) := __scanctx_add_filename f e in
      Ok (Env (e_start e) (e_string e) (Some f) (e_files e) (e_filenames e) (e_names_cap e) (e_out e) (e_error e))
  end.

Definition scanctx_append_string (text : cstring) (e : scan_env) : res scan_env :=
  let? b := strbuf_append text (e_string e) in Ok (with_string b e).

Definition scanctx_take_string (e : scan_env) : cstring * scan_env :=
  let '(r, b) := strbuf_release (e_string e) in (default [] r, with_string b e).

Definition scanctx_current_filename (e : scan_env) : option cstring :=
  match e_files e with [] => e_top e | f :: _ => Some f end.

(** The content of the file, or the error. *)
Definition scanctx_push_include `{CLib} (e : scan_env) : res ((list Z + scan_error) * scan_env) :=
  if (length (e_files e) =? MAX_INCLUDE_DEPTH)%nat then Ok (inr err_include_too_deep, e)
  else
    let '(file, e) := scanctx_take_string e in
    match fopen file with
    | None => Ok (inr err_bad_include, e)
    | Some content =>
        let? '(f, e) := __scanctx_add_filename file e in
        Ok (inl content, with_files (f :: e_files e) e)
    end.

(** ** Actions *)

(** What happens after an action: go on, a token for the parser, a new buffer. *)
Inductive reaction : Type := Again | Tok (t : token) | Open (content : list Z).

Definition skips (e : scan_env) : res (reaction * scan_env) := Ok (Again, e).
Definition gives (t : token) (e : scan_env) : res (reaction * scan_env) := Ok (Tok t, e).
Definition append (s : cstring) (e : scan_env) : res (reaction * scan_env) :=
  let? e := scanctx_append_string s e in skips e.

(** Rule 19. *)
Definition include_file `{CLib} (lineno : Z) (e : scan_env) : res (reaction * scan_env) :=
  let? '(r, e) := scanctx_push_include e in
  match r with
  | inl content => Ok (Open content, BEGIN INITIAL e)
  | inr err => gives TOK_ERROR (with_err (err, scanctx_current_filename e, lineno) e)
  end.

(** The rules 1 to 41, on the bytes that were matched. *)
Definition rule_action `{CLib} (act : Z) (bytes : list Z) (lineno : Z) (e : scan_env) : res (reaction * scan_env) :=
  let yytext := cstr bytes in
  if act =? 1 then skips (BEGIN COMMENT e)
  else if act =? 2 then skips (BEGIN INITIAL e)
  else if (act =? 3) || (act =? 4) then skips e
  else if act =? 5 then skips (BEGIN STRING e)
  else if act =? 6 then append yytext e
  else if act =? 7 then append [10] e
  else if act =? 8 then append [13] e
  else if act =? 9 then append [9] e
  else if act =? 10 then append [12] e
  else if act =? 11 then append [92] e
  else if act =? 12 then append [34] e
  else if act =? 13 then append (cstr [Z.land (strtol16 (drop 2 yytext)) 0xFF]) e
  else if act =? 14 then let '(s, e) := scanctx_take_string e in gives (TOK_STRING s) (BEGIN INITIAL e)
  else if act =? 15 then skips (BEGIN INCLUDE e)
  else if act =? 16 then append yytext e
  else if act =? 17 then append [92] e
  else if act =? 18 then append [34] e
  else if act =? 19 then include_file lineno e
  else if (act =? 20) || (act =? 21) then skips e
  else if act =? 22 then gives TOK_EQUALS e
  else if act =? 23 then gives TOK_COMMA e
  else if act =? 24 then gives TOK_GROUP_START e
  else if act =? 25 then gives TOK_GROUP_END e
  else if act =? 26 then gives (TOK_BOOLEAN 1) e
  else if act =? 27 then gives (TOK_BOOLEAN 0) e
  else if act =? 28 then gives (TOK_NAME yytext) e
  else if act =? 29 then gives (TOK_FLOAT (atof yytext)) e
  else if act =? 30 then gives (TOK_INTEGER (atoi yytext)) e
  else if act =? 31 then gives (TOK_INTEGER64 (atoll yytext)) e
  else if act =? 32 then gives (TOK_HEX (s32 (strtoul16 yytext))) e
  else if act =? 33 then gives (TOK_HEX64 (s64 (fromhex yytext))) e
  else if act =? 34 then gives TOK_ARRAY_START e
  else if act =? 35 then gives TOK_ARRAY_END e
  else if act =? 36 then gives TOK_LIST_START e
  else if act =? 37 then gives TOK_LIST_END e
  else if act =? 38 then gives TOK_END e
  else if act =? 39 then skips e
  else if act =? 40 then gives TOK_GARBAGE e
  else if act =? 41 then skips (with_out (e_out e ++ bytes) e)
  else Err OutOfBounds.

(** ** Buffers *)

Inductive yy_buffer_status : Type := YY_BUFFER_NEW | YY_BUFFER_NORMAL | YY_BUFFER_EOF_PENDING.

(** [b_input] is what was not read from the file, [b_chars] are the [yy_n_chars] characters in
    [yy_ch_buf]; the two end-of-buffer characters follow them. *)
Record yy_buffer_state : Type := Buffer {
  b_input : list Z;
  b_chars : list Z;
  b_buf_size : Z;
  b_fill_buffer : bool;
  b_buf_pos : nat;
  b_at_bol : bool;
  b_status : yy_buffer_status;
  b_lineno : Z;
}.

(** [yy_text] and [yy_cp] are [yytext_ptr] and [yy_c_buf_p], positions in the buffer;
    [y_saved] are the buffers of the files that include, the innermost first. *)
Record yyguts_t : Type := Guts {
  y_env : scan_env;
  y_buffer : yy_buffer_state;
  y_saved : list yy_buffer_state;
  y_text : nat;
  y_cp : nat;
  y_last_state : Z;
  y_last_cpos : nat;
}.

Definition set_env (e : scan_env) : M yyguts_t unit :=
  modify (fun g => Guts e (y_buffer g) (y_saved g) (y_text g) (y_cp g) (y_last_state g) (y_last_cpos g)).
Definition set_buffer (b : yy_buffer_state) : M yyguts_t unit :=
  modify (fun g => Guts (y_env g) b (y_saved g) (y_text g) (y_cp g) (y_last_state g) (y_last_cpos g)).
Definition set_saved (l : list yy_buffer_state) : M yyguts_t unit :=
  modify (fun g => Guts (y_env g) (y_buffer g) l (y_text g) (y_cp g) (y_last_state g) (y_last_cpos g)).
Definition set_text (i : nat) : M yyguts_t unit :=
  modify (fun g => Guts (y_env g) (y_buffer g) (y_saved g) i (y_cp g) (y_last_state g) (y_last_cpos g)).
Definition set_cp (i : nat) : M yyguts_t unit :=
  modify (fun g => Guts (y_env g) (y_buffer g) (y_saved g) (y_text g) i (y_last_state g) (y_last_cpos g)).
Definition set_last (s : Z) (i : nat) : M yyguts_t unit :=
  modify (fun g => Guts (y_env g) (y_buffer g) (y_saved g) (y_text g) (y_cp g) s i).

Definition with_bol (x : bool) (b : yy_buffer_state) : yy_buffer_state :=
  Buffer (b_input b) (b_chars b) (b_buf_size b) (b_fill_buffer b) (b_buf_pos b) x (b_status b) (b_lineno b).
Definition with_lineno (n : Z) (b : yy_buffer_state) : yy_buffer_state :=
  Buffer (b_input b) (b_chars b) (b_buf_size b) (b_fill_buffer b) (b_buf_pos b) (b_at_bol b) (b_status b) n.
Definition with_status (s : yy_buffer_status) (b : yy_buffer_state) : yy_buffer_state :=
  Buffer (b_input b) (b_chars b) (b_buf_size b) (b_fill_buffer b) (b_buf_pos b) (b_at_bol b) s (b_lineno b).
Definition with_pos (i : nat) (b : yy_buffer_state) : yy_buffer_state :=
  Buffer (b_input b) (b_chars b) (b_buf_size b) (b_fill_buffer b) i (b_at_bol b) (b_status b) (b_lineno b).
Definition with_chars (chars input : list Z) (size : Z) (b : yy_buffer_state) : yy_buffer_state :=
  Buffer input chars size (b_fill_buffer b) (b_buf_pos b) (b_at_bol b) (b_status b) (b_lineno b).

(** A character of the buffer. *)
Definition yy_ch (i : nat) : M yyguts_t Z :=
  let* b := gets y_buffer in
  match b_chars b !! i with
  | Some c => ret c
  | None => if (i <=? S (length (b_chars b)))%nat then ret 0 else fail OutOfBounds
  end.

Definition libconfig_yy_load_buffer_state : M yyguts_t unit :=
  let* b := gets y_buffer in
  set_text (b_buf_pos b);;
  set_cp (b_buf_pos b).

Definition libconfig_yy_flush_buffer (b : yy_buffer_state) : yy_buffer_state :=
  Buffer (b_input b) [] (b_buf_size b) (b_fill_buffer b) 0 true YY_BUFFER_NEW (b_lineno b).

(** A file; nothing on the EE is interactive. *)
Definition libconfig_yy_create_buffer (file : list Z) (size : Z) : yy_buffer_state :=
  Buffer file [] size true 0 true YY_BUFFER_NEW 1.

(** [libconfig_yyrestart] on the current buffer and its own file. *)
Definition libconfig_yyrestart : M yyguts_t unit :=
  let* b := gets y_buffer in
  set_buffer (libconfig_yy_flush_buffer b);;
  libconfig_yy_load_buffer_state.

(** The buffer that is left keeps its position. *)
Definition libconfig_yy_switch_to_buffer (b : yy_buffer_state) : M yyguts_t unit :=
  set_buffer b;;
  libconfig_yy_load_buffer_state.

(** ** States *)

Definition note_accepting (s : Z) (i : nat) : M yyguts_t unit :=
  let* a := lift (entry yy_accept s) in
  if a =? 0 then ret tt else set_last s i.

Definition yy_start_state : M yyguts_t Z :=
  let* e := gets y_env in
  let* b := gets y_buffer in
  ret (e_start e + if b_at_bol b then 1 else 0).

(** The loop at [yy_match]; it ends in a state from which no character leads on. *)
Fixpoint yy_match_loop (fuel : nat) (cp : nat) (s : Z) : M yyguts_t (nat * Z) :=
  match fuel with
  | O => fail OutOfFuel
  | S fuel' =>
      let* c := yy_ch cp in
      let* k := lift (entry yy_ec c) in
      note_accepting s cp;;
      let* s := lift (yy_trans s k) in
      let* b := lift (entry yy_base s) in
      if b =? YY_JAM_BASE then ret (S cp, s) else yy_match_loop fuel' (S cp) s
  end.
Definition yy_match (cp : nat) (s : Z) : M yyguts_t (nat * Z) :=
  let* b := gets y_buffer in yy_match_loop (length (b_chars b) + 3) cp s.

(** [n] characters from [i] on. *)
Fixpoint previous_loop (n i : nat) (s : Z) : M yyguts_t Z :=
  match n with
  | O => ret s
  | S n' =>
      let* c := yy_ch i in
      let* k := lift (if c =? 0 then Ok 1 else entry yy_ec c) in
      note_accepting s i;;
      let* s := lift (yy_trans s k) in
      previous_loop n' (S i) s
  end.
Definition yy_get_previous_state : M yyguts_t Z :=
  let* s := yy_start_state in
  let* g := get in
  previous_loop (y_cp g - y_text g) (y_text g) s.

(** [None] when it jams. *)
Definition yy_try_NUL_trans (s : Z) : M yyguts_t (option Z) :=
  let* g := get in
  note_accepting s (y_cp g);;
  let* s := lift (yy_trans s 1) in
  ret (if s =? YY_JAM then None else Some s).

(** ** Reading *)

Inductive eob_act : Type := EOB_ACT_CONTINUE_SCAN | EOB_ACT_END_OF_FILE | EOB_ACT_LAST_MATCH.

Definition fread (max : Z) (input : list Z) : list Z * list Z := (take (Z.to_nat max) input, drop (Z.to_nat max) input).

(** The size of the buffer that has room behind [moved] characters. *)
Fixpoint yy_grow (fuel : nat) (size moved : Z) : res Z :=
  match fuel with
  | O => Err OutOfFuel
  | S fuel' =>
      if size - moved - 1 <=? 0 then
        let new_size := s32 (size * 2) in
        yy_grow fuel' (if new_size <=? 0 then size + size / 8 else size * 2) moved
      else Ok size
  end.

(** YY_INPUT behind [moved] characters: what was read, the rest of the file, the size of the
    buffer. *)
Definition yy_read_more (moved : nat) (b : yy_buffer_state) : res (list Z * list Z * Z) :=
  match b_status b with
  | YY_BUFFER_EOF_PENDING => Ok ([], b_input b, b_buf_size b)
  | _ =>
      let? size := yy_grow 64 (b_buf_size b) (Z.of_nat moved) in
      let num_to_read := Z.min (size - Z.of_nat moved - 1) YY_READ_BUF_SIZE in
      let '(got, input) := fread num_to_read (b_input b) in
      Ok (got, input, size)
  end.

(** The reallocation behind the read is for a read of more than was asked for: it is an error
    here, and never happens. *)
Definition yy_get_next_buffer : M yyguts_t eob_act :=
  let* g := get in
  let b := y_buffer g in
  if (S (length (b_chars b)) <? y_cp g)%nat then fail OutOfBounds
  else if negb (b_fill_buffer b) then
    ret (if (y_cp g - y_text g =? 1)%nat then EOB_ACT_END_OF_FILE else EOB_ACT_LAST_MATCH)
  else
    let number_to_move := (y_cp g - y_text g - 1)%nat in
    let moved := take number_to_move (drop (y_text g) (b_chars b)) in
    let* '(got, input, size) := lift (yy_read_more number_to_move b) in
    let* r :=
      match got with
      | [] =>
          if (number_to_move =? 0)%nat then
            set_buffer (with_chars (b_chars b) input size b);;
            libconfig_yyrestart;;
            ret EOB_ACT_END_OF_FILE
          else
            set_buffer (with_status YY_BUFFER_EOF_PENDING (with_chars (b_chars b) input size b));;
            ret EOB_ACT_LAST_MATCH
      | _ =>
          set_buffer (with_chars (b_chars b) input size b);;
          ret EOB_ACT_CONTINUE_SCAN
      end in
    let* b := gets y_buffer in
    if b_buf_size b <? Z.of_nat (number_to_move + length got) then fail OutOfBounds
    else
      set_buffer (with_chars (moved ++ got) (b_input b) (b_buf_size b) b);;
      set_text 0;;
      ret r.

(** ** The scanner *)

(** Where the scanner goes on: the next token, [yy_match], [yy_find_action]. *)
Inductive label : Type :=
| YYBegin
| YYMatch (cp : nat) (s : Z)
| YYFindAction (cp : nat) (s : Z).

Inductive buffer_end : Type :=
| Goto (l : label)
| Token (t : token)
| YY_NULL.

(** The bytes of [yytext]. *)
Definition yytext : M yyguts_t (list Z) :=
  let* g := get in
  ret (take (y_cp g - y_text g) (drop (y_text g) (b_chars (y_buffer g)))).

Definition newlines (l : list Z) : Z := Z.of_nat (length (filter (fun c => c = 10) l)).

(** Rules with a character of context behind them. *)
Definition has_context (act : Z) : bool := (act =? 21) || (act =? 39).

(** YY_RULE_SETUP *)
Definition yy_rule_setup (bytes : list Z) : M yyguts_t unit :=
  let* b := gets y_buffer in
  match last bytes with
  | None => ret tt
  | Some c => set_buffer (with_bol (c =? 10) b)
  end.

(** The cases 1 to 41. *)
Definition yy_rule `{CLib} (act : Z) : M yyguts_t buffer_end :=
  (if has_context act then let* g := get in set_cp (pred (y_cp g)) else ret tt);;
  let* bytes := yytext in
  yy_rule_setup bytes;;
  let* g := get in
  let* '(r, e) := lift (rule_action act bytes (b_lineno (y_buffer g)) (y_env g)) in
  set_env e;;
  match r with
  | Again => ret (Goto YYBegin)
  | Tok t => ret (Token t)
  | Open content =>
      let* g := get in
      set_saved (with_pos (y_cp g) (y_buffer g) :: y_saved g);;
      libconfig_yy_switch_to_buffer (libconfig_yy_create_buffer content YY_BUF_SIZE);;
      ret (Goto YYBegin)
  end.

(** The end of a file: back to the one that included it. *)
Definition yy_eof : M yyguts_t buffer_end :=
  let* g := get in
  match y_saved g, e_files (y_env g) with
  | b :: l, _ :: fs =>
      set_saved l;;
      set_env (with_files fs (y_env g));;
      libconfig_yy_switch_to_buffer b;;
      ret (Goto YYBegin)
  | _, _ => ret YY_NULL
  end.

(** The case YY_END_OF_BUFFER. *)
Definition yy_end_of_buffer (cp : nat) : M yyguts_t buffer_end :=
  let* g := get in
  let amount := (cp - y_text g - 1)%nat in
  (match b_status (y_buffer g) with
   | YY_BUFFER_NEW => set_buffer (with_status YY_BUFFER_NORMAL (y_buffer g))
   | _ => ret tt
   end);;
  if (y_cp g <=? length (b_chars (y_buffer g)))%nat then
    set_cp (y_text g + amount);;
    let* s := yy_get_previous_state in
    let* s' := yy_try_NUL_trans s in
    match s' with
    | Some s' => set_cp (S (y_text g + amount));; ret (Goto (YYMatch (S (y_text g + amount)) s'))
    | None => ret (Goto (YYFindAction (y_text g + amount) s))
    end
  else
    let* r := yy_get_next_buffer in
    let* g := get in
    match r with
    | EOB_ACT_END_OF_FILE => set_cp (y_text g);; yy_eof
    | EOB_ACT_CONTINUE_SCAN =>
        set_cp (y_text g + amount);;
        let* s := yy_get_previous_state in
        ret (Goto (YYMatch (y_text g + amount) s))
    | EOB_ACT_LAST_MATCH =>
        let n := length (b_chars (y_buffer g)) in
        set_cp n;;
        let* s := yy_get_previous_state in
        ret (Goto (YYFindAction n s))
    end.

(** What follows a match: newlines are counted, then the action; for 0 the text is backed up. *)
Definition yy_accepted `{CLib} (act : Z) : M yyguts_t buffer_end :=
  let* eol := lift (entry yy_rule_can_match_eol act) in
  let* bytes := yytext in
  let* b := gets y_buffer in
  (if eol =? 0 then ret tt else set_buffer (with_lineno (b_lineno b + newlines bytes) b));;
  if act =? 0 then let* g := get in ret (Goto (YYFindAction (y_last_cpos g) (y_last_state g)))
  else yy_rule act.

(** [yy_find_action] and the actions; [cp] is behind the text that was matched. *)
Definition yy_find_action `{CLib} (cp : nat) (s : Z) : M yyguts_t buffer_end :=
  let* g := get in
  let* act := lift (entry yy_accept s) in
  let* '(cp, act) :=
    if act =? 0 then let* a := lift (entry yy_accept (y_last_state g)) in ret (y_last_cpos g, a)
    else ret (cp, act) in
  set_cp cp;;
  if act =? YY_END_OF_BUFFER then yy_end_of_buffer cp else yy_accepted act.

Definition yy_step `{CLib} (l : label) : M yyguts_t buffer_end :=
  match l with
  | YYBegin =>
      let* g := get in
      let* s := yy_start_state in
      set_text (y_cp g);;
      ret (Goto (YYMatch (y_cp g) s))
  | YYMatch cp s => let* '(cp, s) := yy_match cp s in ret (Goto (YYFindAction cp s))
  | YYFindAction cp s => yy_find_action cp s
  end.

Fixpoint yylex_loop `{CLib} (fuel : nat) (l : label) : M yyguts_t (option token) :=
  match fuel with
  | O => fail OutOfFuel
  | S fuel' =>
      let* v := yy_step l in
      match v with
      | Goto l => yylex_loop fuel' l
      | Token t => ret (Some t)
      | YY_NULL => ret None
      end
  end.

(** One token, [None] at the end; the first call selects the first start state. *)
Definition libconfig_yylex `{CLib} (fuel : nat) : M yyguts_t (option token) :=
  let* g := get in
  (if e_start (y_env g) =? 0 then set_env (with_start 1 (y_env g)) else ret tt);;
  yylex_loop fuel YYBegin.

(** All tokens up to the end; both the tokens and the steps for each are bounded by [fuel]. *)
Fixpoint yylex_all `{CLib} (fuel steps : nat) : M yyguts_t (list token) :=
  match fuel with
  | O => fail OutOfFuel
  | S fuel' =>
      let* t := libconfig_yylex steps in
      match t with
      | None => ret []
      | Some t => let* l := yylex_all fuel' steps in ret (t :: l)
      end
  end.

(** [libconfig_yylex_init_extra] and [libconfig_yyrestart] on a stream. *)
Definition yy_open_stream (e : scan_env) (stream : list Z) : yyguts_t :=
  Guts e (libconfig_yy_create_buffer stream YY_BUF_SIZE) [] 0 0 0 0.

(** [libconfig_yy_scan_string]: the buffer holds the string and is not filled again. *)
Definition libconfig_yy_scan_string (e : scan_env) (str : cstring) : yyguts_t :=
  Guts e (Buffer [] str (strlen str) false 0 true YY_BUFFER_NEW 0) [] 0 0 0 0.

(** The tokens of a file, and of a string. *)
Definition scan_file `{CLib} (fuel : nat) (filename : option cstring) (stream : list Z) : res (list token * yyguts_t) :=
  let? e := scanctx_init filename in yylex_all fuel fuel (yy_open_stream e stream).
Definition scan_string `{CLib} (fuel : nat) (s : cstring) : res (list token * yyguts_t) :=
  let? e := scanctx_init None in yylex_all fuel fuel (libconfig_yy_scan_string e s).

(** ** Reading a configuration *)

(** The parser asks for the tokens one by one; what it does with them does not change what the
    scanner finds. *)
Definition config_read `{CLib} (fuel : nat) (stream : list Z) : M config_t Z := fun c =>
  let? '(ts, _) := scan_file fuel None stream in __config_read fuel ts c.
Definition config_read_string `{CLib} (fuel : nat) (s : cstring) : M config_t Z := fun c =>
  let? '(ts, _) := scan_string fuel s in __config_read fuel ts c.
(** [config_read_file] *)
Definition config_read_named `{CLib} (fuel : nat) (filename : cstring) : M config_t Z :=
  match fopen filename with
  | None => config_read_file fuel None
  | Some stream => fun c => let? '(ts, _) := scan_file fuel (Some filename) stream in config_read_file fuel (Some ts) c
  end.
