(* ===== verification/ScannerProps.v ===== *)
(** * libconfig: what the scanner does (scanner.c)

    The reference: the next token is the longest prefix of the text that the automaton accepts.
    It knows no buffers, no end-of-buffer characters and no backing up.  The scanner computes
    the same tokens, for every text, whatever the buffers hold, with all included files. *)

From S2P Require Import Prelude CString Queue LibConfig Grammar Scanner.
From Stdlib Require Import SpecFloat.
Local Open Scope ps2rd_scope.
Local Open Scope Z_scope.

(** ** The automaton *)

(** NUL is an ordinary character, and there is no end-of-buffer character. *)
Definition yy_class (c : Z) : res Z := if c =? 0 then Ok 1 else entry yy_ec c.
Definition delta (s c : Z) : Z := match rbind (yy_class c) (yy_trans s) with Ok s' => s' | Err _ => YY_JAM end.
Definition accept (s : Z) : Z := match entry yy_accept s with Ok a => a | Err _ => 0 end.

Fixpoint deltas (s : Z) (w : list Z) : Z :=
  match w with [] => s | c :: w' => deltas (delta s c) w' end.

(** A state of a scan that goes on. *)
Definition live (s : Z) : Prop := 1 <= s <= 102 /\ s <> 9.
Global Instance live_dec s : Decision (live s).
Proof. unfold live. apply _. Defined.

Definition bytes : list Z := seqZ 0 256.
Definition states : list Z := seqZ 1 102.

Lemma in_bytes c : is_u8 c -> c ∈ bytes.
Proof. intros [? ?]. apply elem_of_seqZ. lia. Qed.
Lemma in_states_of s : live s -> s ∈ states.
Proof. intros [? ?]. apply elem_of_seqZ. lia. Qed.

(** The facts about the tables that the proofs rest on, checked for every live state and
    every class: each class leads to a live state or jams; in a state without entries of its
    own everything jams; from a start state, one character is always accepted, by a rule
    without context. *)
Definition res_is (r : res Z) (x : Z) : bool := match r with Ok y => y =? x | Err _ => false end.
Lemma res_is_ok r x : res_is r x = true -> r = Ok x.
Proof. destruct r; [|done]. cbn. intros E. by apply Z.eqb_eq in E as ->. Qed.

Definition class_good (s k : Z) : bool :=
  match yy_trans s k with
  | Err _ => false
  | Ok s' =>
      (bool_decide (live s') || (s' =? YY_JAM)) &&
      (if res_is (entry yy_base s) YY_JAM_BASE then s' =? YY_JAM else true) &&
      (if s <=? 8 then bool_decide (live s') && negb (accept s' =? 0) && negb (has_context (accept s')) else true)
  end.
Definition state_good (s : Z) : bool :=
  forallb (class_good s) (seqZ 1 48) && res_is (yy_trans s 0) 9 && is_ok (entry yy_base s) &&
  res_is (entry yy_accept s) (accept s) && (0 <=? accept s) && (accept s <=? 41) && (if s <=? 8 then accept s =? 0 else true).

Lemma states_good : forallb (fun s => implb (bool_decide (live s)) (state_good s)) states = true.
Proof. vm_compute. reflexivity. Qed.
Lemma classes_good : forallb (fun c => match yy_class c with
  | Ok k => (1 <=? k) && (k <=? 48) && res_is (yy_trans 9 k) YY_JAM | Err _ => false end) bytes = true.
Proof. vm_compute. reflexivity. Qed.

Lemma class_ok c : is_u8 c -> exists k, yy_class c = Ok k /\ k ∈ seqZ 1 48 /\ yy_trans 9 k = Ok YY_JAM.
Proof.
  intros Hc. pose proof classes_good as H. rewrite forallb_forall in H. specialize (H c ltac:(by apply list_elem_of_In, in_bytes)).
  cbv beta in H. destruct (yy_class c) as [k|]; [|done]. exists k. split; [done|].
  apply andb_prop in H as [H H3]. split; [apply elem_of_seqZ; lia|by apply res_is_ok].
Qed.
Lemma state_ok s : live s -> state_good s = true.
Proof.
  intros Hs. pose proof states_good as H. rewrite forallb_forall in H. specialize (H s ltac:(by apply list_elem_of_In, in_states_of)).
  by rewrite (bool_decide_eq_true_2 _ Hs) in H.
Qed.

Lemma class_at s c : live s -> is_u8 c -> exists k, yy_class c = Ok k /\ yy_trans s k = Ok (delta s c) /\ class_good s k = true.
Proof.
  intros Hs Hc. destruct (class_ok c Hc) as (k & Ek & Hk & _). exists k. split; [done|].
  pose proof (state_ok s Hs) as H. unfold state_good in H. do 6 apply andb_prop in H as [H _]. rewrite forallb_forall in H.
  specialize (H k ltac:(by apply list_elem_of_In)). split; [|done].
  unfold delta. rewrite Ek. cbn [rbind]. unfold class_good in H. by destruct (yy_trans s k).
Qed.

Lemma delta_ok s c : live s -> is_u8 c -> live (delta s c) \/ delta s c = YY_JAM.
Proof.
  intros Hs Hc. destruct (class_at s c Hs Hc) as (k & _ & E & H). unfold class_good in H. rewrite E in H.
  do 2 apply andb_prop in H as [H _]. apply orb_prop in H as [H|H]; [left; by apply bool_decide_eq_true in H|right; by apply Z.eqb_eq].
Qed.
Lemma delta_base s c : live s -> is_u8 c -> entry yy_base s = Ok YY_JAM_BASE -> delta s c = YY_JAM.
Proof.
  intros Hs Hc Eb. destruct (class_at s c Hs Hc) as (k & _ & E & H). unfold class_good in H. rewrite E, Eb in H.
  apply andb_prop in H as [H _]. apply andb_prop in H as [_ H]. by apply Z.eqb_eq in H.
Qed.

Definition starts (s : Z) : Prop := 1 <= s <= 8.
Lemma start_live s : starts s -> live s.
Proof. unfold starts, live. lia. Qed.

Lemma first_ok s c : starts s -> is_u8 c ->
  live (delta s c) /\ accept (delta s c) <> 0 /\ has_context (accept (delta s c)) = false.
Proof.
  intros Hs Hc. destruct (class_at s c (start_live s Hs) Hc) as (k & _ & E & H). unfold class_good in H. rewrite E in H.
  apply andb_prop in H as [_ H]. rewrite (proj2 (Z.leb_le s 8)) in H by apply Hs.
  apply andb_prop in H as [H H3]. apply andb_prop in H as [H1 H2]. split; [by apply bool_decide_eq_true in H1|].
  split; [apply negb_true_iff in H2; by apply Z.eqb_neq|by apply negb_true_iff].
Qed.

(** The rest of [state_good]. *)
Lemma state_facts s : live s -> yy_trans s 0 = Ok 9 /\ (exists b, entry yy_base s = Ok b) /\
  entry yy_accept s = Ok (accept s) /\ 0 <= accept s <= 41 /\ (starts s -> accept s = 0).
Proof.
  intros Hs. pose proof (state_ok s Hs) as H. unfold state_good in H.
  apply andb_prop in H as [H H7]. apply andb_prop in H as [H H6]. apply andb_prop in H as [H H5]. apply andb_prop in H as [H H4].
  apply andb_prop in H as [H H3]. apply andb_prop in H as [_ H2]. split; [by apply res_is_ok|].
  split; [destruct (entry yy_base s) as [b|]; [by exists b|done]|]. split; [by apply res_is_ok|]. split; [lia|].
  intros [_ Hl]. rewrite (proj2 (Z.leb_le s 8) Hl) in H7. by apply Z.eqb_eq.
Qed.

(** ** The longest match *)

(** The rule for the longest prefix of [w] that is accepted, and its length; [n] characters
    lead to the state [s], [b] is the longest match among them. *)
Definition noted (s : Z) (b : option (nat * Z)) (n : nat) : option (nat * Z) :=
  if accept s =? 0 then b else Some (n, accept s).
Fixpoint munch (s : Z) (b : option (nat * Z)) (n : nat) (w : list Z) : option (nat * Z) :=
  match w with
  | [] => noted s b n
  | c :: w' => if delta s c =? YY_JAM then noted s b n else munch (delta s c) (noted s b n) (S n) w'
  end.

(** The longest match after [w], without its last state. *)
Fixpoint best (s : Z) (b : option (nat * Z)) (n : nat) (w : list Z) : option (nat * Z) :=
  match w with [] => b | c :: w' => best (delta s c) (noted s b n) (S n) w' end.

Fixpoint lives (s : Z) (w : list Z) : Prop :=
  match w with [] => True | c :: w' => live (delta s c) /\ lives (delta s c) w' end.

Lemma live_jam s : live s -> (s =? YY_JAM) = false.
Proof. unfold live, YY_JAM. intros. apply Z.eqb_neq. lia. Qed.

Lemma munch_app w : forall s b n r, lives s w ->
  munch s b n (w ++ r) = munch (deltas s w) (best s b n w) (n + length w) r.
Proof.
  induction w as [|c w IH]; intros s b n r Hl; cbn [app munch deltas best length]; [by rewrite Nat.add_0_r|].
  destruct Hl as [Hc Hl]. rewrite (live_jam _ Hc), IH by done. by rewrite Nat.add_succ_r.
Qed.

Lemma lives_app w1 w2 s : lives s (w1 ++ w2) <-> lives s w1 /\ lives (deltas s w1) w2.
Proof. revert s. induction w1 as [|c w1 IH]; intros s; cbn; [tauto|]. rewrite IH. tauto. Qed.
Lemma deltas_app w1 w2 s : deltas s (w1 ++ w2) = deltas (deltas s w1) w2.
Proof. revert s. induction w1 as [|c w1 IH]; intros s; cbn; [done|]. by rewrite IH. Qed.
Lemma best_app w1 w2 s b n : best s b n (w1 ++ w2) = best (deltas s w1) (best s b n w1) (n + length w1) w2.
Proof.
  revert s b n. induction w1 as [|c w1 IH]; intros s b n; cbn; [by rewrite Nat.add_0_r|].
  by rewrite IH, Nat.add_succ_r.
Qed.
Lemma lives_live s w : live s -> lives s w -> live (deltas s w).
Proof. revert s. induction w as [|c w IH]; intros s Hs; cbn; [done|]. intros [Hc Hl]. by apply IH. Qed.

(** ** Registers *)

(** The last accepting state and its position, for a match that starts at [tx]. *)
Definition reg (tx : nat) (b : option (nat * Z)) (ls : Z) (lc : nat) : Prop :=
  match b with
  | None => True
  | Some (m, a) => lc = (tx + m)%nat /\ entry yy_accept ls = Ok a /\ 1 <= a <= 41
  end.

Lemma note_ok s i e bf sv tx cp ls lc b n : live s -> i = (tx + n)%nat -> reg tx b ls lc ->
  exists ls' lc', note_accepting s i (Guts e bf sv tx cp ls lc) = Ok (tt, Guts e bf sv tx cp ls' lc') /\
    reg tx (noted s b n) ls' lc'.
Proof.
  intros Hs -> Hr. destruct (state_facts s Hs) as (_ & _ & Ea & Hra & _). unfold note_accepting, noted.
  rewrite (bind_ok _ _ _ (accept s) _) by (unfold lift; by rewrite Ea).
  destruct (Z.eqb_spec (accept s) 0) as [E|E].
  - by exists ls, lc.
  - exists s, (tx + n)%nat. split; [done|]. split; [done|]. split; [done|lia].
Qed.

Lemma ch_in e bf sv tx cp ls lc i c : b_chars bf !! i = Some c -> yy_ch i (Guts e bf sv tx cp ls lc) = Ok (c, Guts e bf sv tx cp ls lc).
Proof. intros E. unfold yy_ch. rewrite (bind_ok _ _ _ _ _ eq_refl). cbn [y_buffer]. by rewrite E. Qed.
Lemma ch_eob e bf sv tx cp ls lc i : (i = length (b_chars bf) \/ i = S (length (b_chars bf))) ->
  yy_ch i (Guts e bf sv tx cp ls lc) = Ok (0, Guts e bf sv tx cp ls lc).
Proof.
  intros Hi. unfold yy_ch. rewrite (bind_ok _ _ _ _ _ eq_refl). cbn [y_buffer].
  rewrite lookup_ge_None_2 by lia. by rewrite (proj2 (Nat.leb_le _ _)) by lia.
Qed.

Lemma drop_cons {A} (l : list A) i c l' : drop i l = c :: l' -> l !! i = Some c /\ drop (S i) l = l'.
Proof.
  intros E. split; [by rewrite <- (Nat.add_0_r i), <- lookup_drop, E|].
  replace (S i) with (i + 1)%nat by lia. rewrite <- drop_drop, E. done.
Qed.

(** Scanning text again that did not jam. *)
Lemma previous_ok e bf sv tx cp w : forall i s n b ls lc r,
  drop i (b_chars bf) = w ++ r -> Forall is_u8 w -> i = (tx + n)%nat -> live s -> lives s w -> reg tx b ls lc ->
  exists ls' lc', previous_loop (length w) i s (Guts e bf sv tx cp ls lc) = Ok (deltas s w, Guts e bf sv tx cp ls' lc') /\
    reg tx (best s b n w) ls' lc'.
Proof.
  induction w as [|c w IH]; intros i s n b ls lc r Ed Hw Hi Hs Hl Hr; cbn [previous_loop length deltas best app] in *.
  { by exists ls, lc. }
  apply drop_cons in Ed as [Ec Ed]. apply Forall_cons in Hw as [Hc Hw]. destruct Hl as [Hc' Hl].
  rewrite (bind_ok _ _ _ _ _ (ch_in e bf sv tx cp ls lc i c Ec)).
  destruct (class_at s c Hs Hc) as (k & Ek & Et & _). unfold yy_class in Ek.
  rewrite (bind_ok _ _ _ k _) by (unfold lift; by rewrite Ek).
  destruct (note_ok s i e bf sv tx cp ls lc b n Hs Hi Hr) as (ls1 & lc1 & En & Hr1). rewrite (bind_ok _ _ _ _ _ En).
  rewrite (bind_ok _ _ _ (delta s c) _) by (unfold lift; by rewrite Et).
  apply (IH (S i) (delta s c) (S n) _ ls1 lc1 r); [done|done|lia|done|done|done].
Qed.

(** ** The loop *)

(** What [yy_find_action] makes of a state and the registers. *)
Definition finds (tx : nat) (r : option (nat * Z)) (cp : nat) (s : Z) (ls : Z) (lc : nat) : Prop :=
  exists m a a0, r = Some (m, a) /\ 1 <= a <= 41 /\ entry yy_accept s = Ok a0 /\
    (a0 = 0 /\ lc = (tx + m)%nat /\ entry yy_accept ls = Ok a \/ a0 = a /\ cp = (tx + m)%nat).

Lemma found_noted tx s b n ls lc : live s -> (accept s = 0 -> reg tx b ls lc) -> noted s b n <> None -> finds tx (noted s b n) (tx + n) s ls lc.
Proof.
  intros Hs Hr Hn. destruct (state_facts s Hs) as (_ & _ & Ea & Hra & _). unfold noted in *.
  destruct (Z.eqb_spec (accept s) 0) as [E|E].
  - destruct b as [[m a]|]; [|done]. destruct (Hr E) as (-> & Hl & Ha). exists m, a, 0. rewrite Ea, E. eauto 10.
  - exists n, (accept s), (accept s). split; [done|]. split; [lia|]. eauto.
Qed.
Lemma found_jam tx b cp ls lc : reg tx b ls lc -> b <> None -> finds tx b cp YY_JAM ls lc.
Proof. destruct b as [[m a]|]; [|done]. intros (-> & Hl & Ha) _. exists m, a, 0. eauto 10. Qed.

(** Something is accepted, or it is the beginning and the next character will be. *)
Definition sure (s : Z) (b : option (nat * Z)) : Prop := b <> None \/ accept s <> 0 \/ starts s.

Lemma sure_noted s b n c : live s -> is_u8 c -> sure s b -> noted s b n <> None \/ live (delta s c) /\ accept (delta s c) <> 0.
Proof.
  intros Hs Hc [H|[H|H]].
  - left. unfold noted. by destruct (accept s =? 0).
  - left. unfold noted. by rewrite (proj2 (Z.eqb_neq _ _) H).
  - right. destruct (first_ok s c H Hc) as (? & ? & _). done.
Qed.

Inductive match_end (tx n : nat) (s : Z) (b : option (nat * Z)) (buf : list Z) (cp : nat) (s' ls : Z) (lc : nat) : Prop :=
| match_jams : (forall ext, Forall is_u8 ext -> finds tx (munch s b n (buf ++ ext)) cp s' ls lc) ->
    match_end tx n s b buf cp s' ls lc
| match_eob w r : buf = w ++ r -> r = [] \/ head r = Some 0 -> lives s w -> s' = YY_JAM -> ls = 9 ->
    lc = S (tx + n + length w) -> match_end tx n s b buf cp s' ls lc.

(** The end-of-buffer character or a NUL. *)
Lemma match_at_eob e bf sv tx cp0 ls lc i s n b fuel : Forall is_u8 (b_chars bf) ->
  yy_ch i (Guts e bf sv tx cp0 ls lc) = Ok (0, Guts e bf sv tx cp0 ls lc) -> (i <= length (b_chars bf))%nat ->
  live s -> i = (tx + n)%nat -> reg tx b ls lc ->
  yy_match_loop (S (S fuel)) i s (Guts e bf sv tx cp0 ls lc) = Ok ((S (S i), YY_JAM), Guts e bf sv tx cp0 9 (S i)).
Proof.
  intros Hb Ec Hle Hs Hi Hr. cbn [yy_match_loop]. rewrite (bind_ok _ _ _ _ _ Ec), (bind_ok _ _ _ 0 _) by done.
  destruct (note_ok s i e bf sv tx cp0 ls lc b n Hs Hi Hr) as (ls1 & lc1 & En & _). rewrite (bind_ok _ _ _ _ _ En).
  destruct (state_facts s Hs) as (Et & _). rewrite (bind_ok _ _ _ 9 _) by (unfold lift; by rewrite Et).
  rewrite (bind_ok _ _ _ 213 _) by done. change (213 =? YY_JAM_BASE) with false. cbv iota. cbn [yy_match_loop].
  assert (exists c k, yy_ch (S i) (Guts e bf sv tx cp0 ls1 lc1) = Ok (c, Guts e bf sv tx cp0 ls1 lc1) /\ entry yy_ec c = Ok k /\
    yy_trans 9 k = Ok YY_JAM) as (c & k & Ec' & Ek & Et').
  { destruct (b_chars bf !! S i) as [c|] eqn:El.
    - exists c. assert (is_u8 c) as Hc by (rewrite Forall_lookup in Hb; by apply (Hb (S i))).
      destruct (Z.eq_dec c 0) as [->|Hn0]; [exists 0; split; [by apply ch_in|done]|].
      destruct (class_ok c Hc) as (k & Ek & _ & Et9). exists k. split; [by apply ch_in|]. split; [|done].
      unfold yy_class in Ek. by rewrite (proj2 (Z.eqb_neq _ _) Hn0) in Ek.
    - exists 0, 0. split; [|done]. apply lookup_ge_None in El. apply ch_eob. lia. }
  rewrite (bind_ok _ _ _ _ _ Ec'), (bind_ok _ _ _ k _) by (unfold lift; by rewrite Ek).
  rewrite (bind_ok _ _ _ tt (Guts e bf sv tx cp0 9 (S i))) by done.
  rewrite (bind_ok _ _ _ YY_JAM _) by (unfold lift; by rewrite Et'). done.
Qed.

Lemma match_ok e bf sv tx cp0 buf : forall fuel i s n b ls lc,
  drop i (b_chars bf) = buf -> (i <= length (b_chars bf))%nat -> Forall is_u8 (b_chars bf) ->
  i = (tx + n)%nat -> live s -> sure s b -> reg tx b ls lc -> (length buf + 2 <= fuel)%nat ->
  exists cp s' ls' lc', yy_match_loop fuel i s (Guts e bf sv tx cp0 ls lc) = Ok ((cp, s'), Guts e bf sv tx cp0 ls' lc') /\
    match_end tx n s b buf cp s' ls' lc'.
Proof.
  induction buf as [|c buf IH]; intros [|fuel] i s n b ls lc Ed Hle Hb Hi Hs Hsure Hr Hfuel; try (cbn in Hfuel; lia).
  { destruct fuel as [|fuel]; [cbn in Hfuel; lia|]. assert (i = length (b_chars bf)) as Ei.
    { apply (f_equal length) in Ed. rewrite length_drop in Ed. cbn in Ed. lia. }
    rewrite (match_at_eob e bf sv tx cp0 ls lc i s n b fuel) by (try done; apply ch_eob; lia).
    eexists _, _, _, _. split; [done|]. apply (match_eob _ _ _ _ _ _ _ _ _ [] []); [done|by left|done|done|done|]. cbn. lia. }
  apply drop_cons in Ed as [Ec Ed]. assert (is_u8 c) as Hc by (rewrite Forall_lookup in Hb; by apply (Hb i)).
  destruct (Z.eq_dec c 0) as [->|Hn0].
  { destruct fuel as [|fuel]; [cbn in Hfuel; lia|].
    rewrite (match_at_eob e bf sv tx cp0 ls lc i s n b fuel) by (try done; by apply ch_in).
    eexists _, _, _, _. split; [done|]. apply (match_eob _ _ _ _ _ _ _ _ _ [] (0 :: buf)); [done|by right|done|done|done|]. cbn. lia. }
  cbn [yy_match_loop]. rewrite (bind_ok _ _ _ _ _ (ch_in e bf sv tx cp0 ls lc i c Ec)).
  destruct (class_at s c Hs Hc) as (k & Ek & Et & _). unfold yy_class in Ek. rewrite (proj2 (Z.eqb_neq _ _) Hn0) in Ek.
  rewrite (bind_ok _ _ _ k _) by (unfold lift; by rewrite Ek).
  destruct (note_ok s i e bf sv tx cp0 ls lc b n Hs Hi Hr) as (ls1 & lc1 & En & Hr1). rewrite (bind_ok _ _ _ _ _ En).
  rewrite (bind_ok _ _ _ (delta s c) _) by (unfold lift; by rewrite Et).
  pose proof (sure_noted s b n c Hs Hc Hsure) as Hsn. destruct (delta_ok s c Hs Hc) as [Hl|Ej].
  2:{ rewrite Ej, (bind_ok _ _ _ YY_JAM_BASE _) by done. eexists _, _, _, _. split; [done|]. apply match_jams.
      intros ext _. cbn [app munch]. rewrite Ej. apply found_jam; [done|]. destruct Hsn as [?|[Hx _]]; [done|].
      rewrite Ej in Hx. unfold live, YY_JAM in Hx. lia. }
  destruct (state_facts _ Hl) as (_ & [bs Eb] & _). rewrite (bind_ok _ _ _ bs _) by (unfold lift; by rewrite Eb).
  assert (sure (delta s c) (noted s b n)) as Hsure' by (unfold sure; tauto).
  destruct (Z.eqb_spec bs YY_JAM_BASE) as [->|Hnb].
  - eexists _, _, _, _. split; [done|]. apply match_jams. intros ext Hext. cbn [app munch]. rewrite (live_jam _ Hl).
    replace (munch (delta s c) (noted s b n) (S n) (buf ++ ext)) with (noted (delta s c) (noted s b n) (S n)).
    + replace (S i) with (tx + S n)%nat by lia. apply found_noted; [done|done|]. unfold noted at 1.
      destruct (Z.eqb_spec (accept (delta s c)) 0); [|done]. by destruct Hsn as [?|[_ ?]].
    + assert (Forall is_u8 (buf ++ ext)) as Hx.
      { apply Forall_app. split; [|done]. rewrite <- Ed. by apply Forall_drop. }
      destruct (buf ++ ext) as [|d l]; [done|]. apply Forall_cons in Hx as [Hd _]. cbn [munch].
      by rewrite (delta_base _ _ Hl Hd Eb).
  - destruct (IH fuel (S i) (delta s c) (S n) (noted s b n) ls1 lc1) as (cp & s' & ls' & lc' & E & Hend);
      [done|apply lookup_lt_Some in Ec; lia|done|lia|done|done|done|cbn in Hfuel; lia|].
    exists cp, s', ls', lc'. split; [done|]. destruct Hend as [Hf|w r Ew Hr' Hlw ? ? ?].
    + apply match_jams. intros ext Hext. cbn [app munch]. rewrite (live_jam _ Hl). by apply Hf.
    + apply (match_eob _ _ _ _ _ _ _ _ _ (c :: w) r); [by rewrite Ew|done|done|done|done|]. cbn [length]. lia.
Qed.

(** ** Buffers *)

Record buf_ok (b : yy_buffer_state) : Prop := {
  bo_chars : Forall is_u8 (b_chars b);
  bo_input : Forall is_u8 (b_input b);
  bo_fill : b_fill_buffer b = false -> b_input b = [];
  bo_eof : b_status b = YY_BUFFER_EOF_PENDING -> b_input b = [];
  bo_size : b_fill_buffer b = true -> 16 <= b_buf_size b /\ Z.of_nat (length (b_chars b)) <= b_buf_size b;
}.

Lemma grow_ok size moved : 16 <= size -> 0 <= moved <= size ->
  exists size', yy_grow 64 size moved = Ok size' /\ size <= size' /\ moved + 1 < size'.
Proof.
  intros Hs Hm. assert (Hstep : forall f sz, yy_grow (S f) sz moved =
    if sz - moved - 1 <=? 0 then yy_grow f (if s32 (sz * 2) <=? 0 then sz + sz / 8 else sz * 2) moved else Ok sz) by done.
  change 64%nat with (S (S 62)). rewrite Hstep.
  destruct (Z.leb_spec (size - moved - 1) 0); [|exists size; repeat split; lia].
  assert (1 < size / 8) by (apply (Z.lt_le_trans _ (16 / 8)); [done|apply Z.div_le_mono; lia]).
  set (size' := if s32 (size * 2) <=? 0 then _ else _). assert (size + 2 <= size') by (unfold size'; destruct (_ <=? _); lia).
  rewrite Hstep, (proj2 (Z.leb_gt _ _)) by lia. exists size'. repeat split; lia.
Qed.

Definition same_src (b b' : yy_buffer_state) : Prop := b_at_bol b' = b_at_bol b /\ b_lineno b' = b_lineno b.

(** Reading behind the text that starts at [tx]. *)
Inductive refilled (bf : yy_buffer_state) (tx : nat) : eob_act -> yy_buffer_state -> nat -> Prop :=
| refill_more got bf' : buf_ok bf' -> same_src bf bf' -> got <> [] -> b_chars bf' = drop tx (b_chars bf) ++ got ->
    b_input bf = got ++ b_input bf' -> refilled bf tx EOB_ACT_CONTINUE_SCAN bf' 0
| refill_last bf' tx' : buf_ok bf' -> same_src bf bf' -> drop tx (b_chars bf) <> [] -> b_input bf = [] -> b_input bf' = [] ->
    drop tx' (b_chars bf') = drop tx (b_chars bf) -> refilled bf tx EOB_ACT_LAST_MATCH bf' tx'
| refill_eof bf' tx' : buf_ok bf' -> b_lineno bf' = b_lineno bf -> drop tx (b_chars bf) = [] -> b_input bf = [] -> b_input bf' = [] ->
    drop tx' (b_chars bf') = [] -> (tx' <= length (b_chars bf'))%nat -> refilled bf tx EOB_ACT_END_OF_FILE bf' tx'.

Lemma read_more_ok bf moved : 16 <= b_buf_size bf -> Z.of_nat moved <= b_buf_size bf ->
  (b_status bf = YY_BUFFER_EOF_PENDING -> b_input bf = []) ->
  exists got input size, yy_read_more moved bf = Ok (got, input, size) /\ b_input bf = got ++ input /\
    (got = [] -> b_input bf = []) /\ b_buf_size bf <= size /\ Z.of_nat (moved + length got) <= size.
Proof.
  intros H16 Hm He. unfold yy_read_more.
  assert (Hread : exists got input size, (let? size := yy_grow 64 (b_buf_size bf) (Z.of_nat moved) in
      let num_to_read := Z.min (size - Z.of_nat moved - 1) YY_READ_BUF_SIZE in
      let '(got, input) := fread num_to_read (b_input bf) in Ok (got, input, size)) = Ok (got, input, size) /\
      b_input bf = got ++ input /\ (got = [] -> b_input bf = []) /\ b_buf_size bf <= size /\ Z.of_nat (moved + length got) <= size).
  { destruct (grow_ok (b_buf_size bf) (Z.of_nat moved) H16 ltac:(lia)) as (size & -> & Hs1 & Hs2). cbn [rbind]. cbv zeta.
    set (k := Z.min _ _). assert (0 < k <= size - Z.of_nat moved - 1) by (unfold k, YY_READ_BUF_SIZE; lia).
    unfold fread. eexists _, _, _. split; [reflexivity|]. split; [by rewrite take_drop|]. rewrite length_take. split; [|lia].
    intros E. apply (f_equal length) in E. rewrite length_take in E. cbn in E. apply nil_length_inv. lia. }
  destruct (b_status bf); [done|done|]. exists [], (b_input bf), (b_buf_size bf). split; [done|]. split; [done|].
  split; [auto|]. cbn. lia.
Qed.

Lemma next_buffer_ok e bf sv tx ls lc : buf_ok bf -> (tx <= length (b_chars bf))%nat ->
  exists r bf' tx' cp', yy_get_next_buffer (Guts e bf sv tx (S (length (b_chars bf))) ls lc) = Ok (r, Guts e bf' sv tx' cp' ls lc) /\
    refilled bf tx r bf' tx'.
Proof.
  intros Hb Htx. destruct Hb as [Hc Hi Hf He Hs] eqn:Eb. clear Eb. unfold yy_get_next_buffer.
  rewrite (bind_ok _ _ _ _ _ eq_refl). cbn [y_buffer y_cp y_text]. rewrite (proj2 (Nat.ltb_ge _ _)) by lia. cbv zeta.
  assert (Hlen : length (drop tx (b_chars bf)) = (length (b_chars bf) - tx)%nat) by apply length_drop.
  destruct (b_fill_buffer bf) eqn:Ef; cbn [negb].
  2:{ pose proof (Hf eq_refl) as Ei. destruct (Nat.eqb_spec (S (length (b_chars bf)) - tx) 1) as [E|E].
      - eexists _, _, _, _. split; [reflexivity|]. apply refill_eof; first [done|apply nil_length_inv; lia|lia].
      - eexists _, _, _, _. split; [reflexivity|]. apply refill_last; [done|done| |done|done|done]. intros En. rewrite En in Hlen. cbn in Hlen. lia. }
  destruct (Hs eq_refl) as [H16 Hsz].
  replace (S (length (b_chars bf)) - tx - 1)%nat with (length (drop tx (b_chars bf))) by lia. rewrite take_ge by done.
  set (W := drop tx (b_chars bf)) in *.
  destruct (read_more_ok bf (length W) H16 ltac:(lia) He) as (got & input & size & Er & Ei & Hg & Hsize & Hroom).
  rewrite (bind_ok _ _ _ (got, input, size) _) by (unfold lift; by rewrite Er). cbv iota beta.
  assert (Forall is_u8 got /\ Forall is_u8 input) as [Hg8 Hi8] by (rewrite Ei, Forall_app in Hi; done).
  assert (Forall is_u8 W) as HW8 by (by apply Forall_drop).
  destruct got as [|c got].
  - cbn in Ei. pose proof (Hg eq_refl) as Einp. rewrite Einp in Ei. subst input. cbn [length] in Hroom. rewrite Nat.add_0_r in *.
    destruct (Nat.eqb_spec (length W) 0) as [E0|E0].
    + apply nil_length_inv in E0. rewrite E0. eexists _, _, _, _. split.
      { rewrite (bind_ok _ _ _ EOB_ACT_END_OF_FILE
          (Guts e (libconfig_yy_flush_buffer (with_chars (b_chars bf) [] size bf)) sv 0 0 ls lc)) by done.
        rewrite (bind_ok _ _ _ _ _ eq_refl). cbn [y_buffer libconfig_yy_flush_buffer with_chars b_buf_size b_input length].
        rewrite (proj2 (Z.ltb_ge _ _)) by (cbn; lia). reflexivity. }
      apply refill_eof; [|done..]. constructor; cbn; try done. intros _. split; lia.
    + eexists _, _, _, _. split.
      { rewrite (bind_ok _ _ _ EOB_ACT_LAST_MATCH
          (Guts e (with_status YY_BUFFER_EOF_PENDING (with_chars (b_chars bf) [] size bf)) sv tx (S (length (b_chars bf))) ls lc)) by done.
        rewrite (bind_ok _ _ _ _ _ eq_refl). cbn [y_buffer with_status with_chars b_buf_size b_input length].
        rewrite (proj2 (Z.ltb_ge _ _)) by lia. reflexivity. }
      apply refill_last; [|done|intros En; apply E0; unfold W; by rewrite En|done|done|cbn; by rewrite app_nil_r].
      constructor; cbn; rewrite ?app_nil_r; try done. intros _. split; lia.
  - eexists _, _, _, _. split.
    { rewrite (bind_ok _ _ _ EOB_ACT_CONTINUE_SCAN
        (Guts e (with_chars (b_chars bf) input size bf) sv tx (S (length (b_chars bf))) ls lc)) by done.
      rewrite (bind_ok _ _ _ _ _ eq_refl). cbn [y_buffer with_chars b_buf_size b_input].
      rewrite (proj2 (Z.ltb_ge _ _)) by lia. reflexivity. }
    apply (refill_more bf tx (c :: got)); try done. constructor; cbn.
    + by apply Forall_app.
    + done.
    + congruence.
    + intros Est. rewrite (He Est) in Ei. done.
    + intros _. rewrite length_app. split; lia.
Qed.

(** ** One token *)

Lemma munch_bound w : forall s b n m a, munch s b n w = Some (m, a) ->
  (match b with Some (x, _) => (x <= n)%nat | None => True end) -> (m <= n + length w)%nat.
Proof.
  assert (Hn : forall s b n m a, noted s b n = Some (m, a) -> match b with Some (x, _) => (x <= n)%nat | None => True end -> (m <= n)%nat).
  { intros s b n m a. unfold noted. destruct (accept s =? 0); [by intros ->|]. intros [= -> _] _. lia. }
  induction w as [|c w IH]; intros s b n m a; cbn [munch length].
  { intros E Hb. pose proof (Hn _ _ _ _ _ E Hb). lia. }
  destruct (delta s c =? YY_JAM); intros E Hb; [pose proof (Hn _ _ _ _ _ E Hb); lia|].
  apply IH in E; [lia|]. destruct (noted s b n) as [[x ?]|] eqn:En; [|done]. pose proof (Hn _ _ _ _ _ En Hb). lia.
Qed.

Lemma best_bound w : forall s b n, (match b with Some (x, _) => (x <= n)%nat | None => True end) ->
  match best s b n w with Some (x, _) => (x <= n + length w)%nat | None => True end.
Proof.
  induction w as [|c w IH]; intros s b n Hb; cbn [best length]; [by rewrite Nat.add_0_r|].
  specialize (IH (delta s c) (noted s b n) (S n)). rewrite Nat.add_succ_r. apply IH. unfold noted.
  destruct (accept s =? 0); [|lia]. destruct b as [[x ?]|]; [lia|done].
Qed.

Lemma best_some w : forall s b n, b <> None -> best s b n w <> None.
Proof.
  induction w as [|c w IH]; intros s b n Hb; cbn [best]; [done|]. apply IH. unfold noted. by destruct (accept s =? 0).
Qed.

(** From a start state there is always something to accept. *)
Lemma path_accepts s0 w : starts s0 -> Forall is_u8 w -> w <> [] -> best s0 None 0 w <> None \/ accept (deltas s0 w) <> 0.
Proof.
  intros Hs Hw Hne. destruct w as [|c w]; [done|]. apply Forall_cons in Hw as [Hc _]. cbn [deltas best].
  destruct (first_ok s0 c Hs Hc) as (_ & Ha & _). destruct w as [|d w]; [by right|]. left. cbn [best]. apply best_some.
  unfold noted at 1. by rewrite (proj2 (Z.eqb_neq _ _) Ha).
Qed.
Lemma sure_path s0 w : starts s0 -> Forall is_u8 w -> sure (deltas s0 w) (best s0 None 0 w).
Proof.
  intros Hs Hw. destruct w as [|c w]; [by right; right|].
  destruct (path_accepts s0 (c :: w) Hs Hw ltac:(done)); [by left|by right; left].
Qed.

Section Scan.
  Context `{CLib}.

Lemma find_ok e bf sv tx cp0 ls lc cp s m a : finds tx (Some (m, a)) cp s ls lc ->
  yy_find_action cp s (Guts e bf sv tx cp0 ls lc) = yy_accepted a (Guts e bf sv tx (tx + m) ls lc).
Proof.
  intros (m' & a' & a0 & [= <- <-] & Ha & Es & Hcase). unfold yy_find_action.
  rewrite (bind_ok _ _ _ _ _ eq_refl), (bind_ok _ _ _ a0 _) by (unfold lift; by rewrite Es).
  assert (Hne : (a =? YY_END_OF_BUFFER) = false) by (apply Z.eqb_neq; unfold YY_END_OF_BUFFER; lia).
  destruct Hcase as [(-> & -> & El)|[-> ->]].
  - change (0 =? 0) with true. cbv iota. cbn [y_last_state y_last_cpos].
    rewrite (bind_ok _ _ _ ((tx + m)%nat, a) (Guts e bf sv tx cp0 ls (tx + m))).
    + cbv iota. rewrite (bind_ok _ _ _ _ _ eq_refl), Hne. done.
    + rewrite (bind_ok _ _ _ a _) by (unfold lift; by rewrite El). done.
  - rewrite (proj2 (Z.eqb_neq a 0)) by lia. rewrite (bind_ok _ _ _ _ _ eq_refl), (bind_ok _ _ _ _ _ eq_refl), Hne. done.
Qed.

(** The state before position [tx + n], computed again. *)
Lemma previous_state_ok e bf sv tx ls lc n w r s0 :
  drop tx (b_chars bf) = w ++ r -> Forall is_u8 w -> n = length w -> s0 = e_start e + (if b_at_bol bf then 1 else 0) ->
  starts s0 -> lives s0 w ->
  exists ls' lc', yy_get_previous_state (Guts e bf sv tx (tx + n) ls lc) = Ok (deltas s0 w, Guts e bf sv tx (tx + n) ls' lc') /\
    reg tx (best s0 None 0 w) ls' lc'.
Proof.
  intros Ed Hw -> -> Hs Hl. unfold yy_get_previous_state. do 2 rewrite (bind_ok _ _ _ _ _ eq_refl). cbn [y_cp y_text].
  replace (tx + length w - tx)%nat with (length w) by lia.
  apply (previous_ok e bf sv tx (tx + length w) w tx _ 0 None ls lc r); [done|done|lia|by apply start_live|done|done].
Qed.

Definition resume (fuel : nat) (v : buffer_end) : M yyguts_t (option token) :=
  match v with Goto l => yylex_loop fuel l | Token t => ret (Some t) | YY_NULL => ret None end.

Lemma loop_step fuel l g : yylex_loop (S fuel) l g = bind (yy_step l) (resume fuel) g.
Proof. cbn [yylex_loop]. unfold bind. destruct (yy_step l g) as [[[] ?]|]; done. Qed.

(** A run from [l] accepts [m] characters by rule [a]. *)
Definition accepts_at (e : scan_env) (bf : yy_buffer_state) (sv : list yy_buffer_state) (tx : nat) (l : label) (g : yyguts_t)
    (r : option (nat * Z)) : Prop :=
  exists j bf' tx' ls' lc' m a, r = Some (m, a) /\ 1 <= a <= 41 /\
    (forall fuel, yylex_loop (j + fuel) l g = bind (yy_accepted a) (resume fuel) (Guts e bf' sv tx' (tx' + m) ls' lc')) /\
    buf_ok bf' /\ drop tx' (b_chars bf') ++ b_input bf' = drop tx (b_chars bf) ++ b_input bf /\
    (tx' + m <= length (b_chars bf'))%nat /\ same_src bf bf'.

(** Steps before, in a buffer with the same text. *)
Lemma accepts_steps k e bf sv tx bf1 tx1 l g l1 g1 r :
  (forall fuel, yylex_loop (k + fuel) l g = yylex_loop fuel l1 g1) ->
  drop tx1 (b_chars bf1) ++ b_input bf1 = drop tx (b_chars bf) ++ b_input bf -> same_src bf bf1 ->
  accepts_at e bf1 sv tx1 l1 g1 r -> accepts_at e bf sv tx l g r.
Proof.
  intros Hk Hfull [Hb Hl] (j & bf' & tx' & ls' & lc' & m & a & -> & Ha & Hj & Hok & Hf & Hm & [Hb' Hl']).
  exists (k + j)%nat, bf', tx', ls', lc', m, a. split; [done|]. split; [done|]. split; [|split; [done|]].
  - intros fuel. rewrite <- Nat.add_assoc, Hk. apply Hj.
  - split; [by rewrite Hf|]. split; [done|]. split; congruence.
Qed.

(** Where [yy_find_action] knows the answer. *)
Lemma accepts_found e bf sv tx cp0 ls lc cp s r : buf_ok bf -> (tx <= length (b_chars bf))%nat -> finds tx r cp s ls lc ->
  (match r with Some (m, _) => (m <= length (drop tx (b_chars bf)))%nat | None => True end) ->
  accepts_at e bf sv tx (YYFindAction cp s) (Guts e bf sv tx cp0 ls lc) r.
Proof.
  intros Hb Htx Hf Hm. pose proof Hf as (m & a & a0 & -> & Ha & _). rewrite length_drop in Hm.
  exists 1%nat, bf, tx, ls, lc, m, a. split; [done|]. split; [done|]. split.
  { intros fuel. change (1 + fuel)%nat with (S fuel). rewrite loop_step. cbn [yy_step]. unfold bind. by rewrite (find_ok _ _ _ _ _ _ _ _ _ m a Hf). }
  split; [done|]. split; [done|]. split; [lia|done].
Qed.

Lemma noted_found s0 W tx ls lc : starts s0 -> Forall is_u8 W -> live (deltas s0 W) ->
  (accept (deltas s0 W) = 0 -> reg tx (best s0 None 0 W) ls lc) ->
  noted (deltas s0 W) (best s0 None 0 W) (length W) <> None ->
  finds tx (noted (deltas s0 W) (best s0 None 0 W) (length W)) (tx + length W) (deltas s0 W) ls lc /\
  match noted (deltas s0 W) (best s0 None 0 W) (length W) with Some (m, _) => (m <= length W)%nat | None => True end.
Proof.
  intros Hs HW Hl Hr Hn. split; [by apply found_noted|]. destruct (noted _ _ _) as [[m a]|] eqn:En; [|done].
  apply (munch_bound [] (deltas s0 W) (best s0 None 0 W) (length W) m a) in En; [cbn in En; lia|]. apply (best_bound W s0 None 0 I).
Qed.

Lemma found_inj tx r1 r2 cp s ls lc : finds tx r1 cp s ls lc -> finds tx r2 cp s ls lc -> r1 = r2.
Proof.
  intros (m1 & a1 & x1 & -> & H1 & E1 & C1) (m2 & a2 & x2 & -> & H2 & E2 & C2). rewrite E1 in E2. injection E2 as <-.
  destruct C1 as [(X1 & P1 & L1)|[X1 P1]], C2 as [(X2 & P2 & L2)|[X2 P2]]; try lia.
  - rewrite L1 in L2. injection L2 as ->. do 2 f_equal. lia.
  - subst. do 2 f_equal. lia.
Qed.

(** The buffer after the first end of it was seen. *)
Definition seen (bf : yy_buffer_state) : yy_buffer_state :=
  match b_status bf with YY_BUFFER_NEW => with_status YY_BUFFER_NORMAL bf | _ => bf end.
Lemma seen_ok bf : buf_ok bf -> buf_ok (seen bf) /\ b_chars (seen bf) = b_chars bf /\ b_input (seen bf) = b_input bf /\ same_src bf (seen bf).
Proof.
  intros [H1 H2 H3 H4 H5]. unfold seen. destruct (b_status bf) eqn:E; (split; [|done]); constructor; cbn; auto; congruence.
Qed.

Lemma eob_step e bf sv tx cp0 cp n fuel :
  yylex_loop (S fuel) (YYFindAction cp YY_JAM) (Guts e bf sv tx cp0 9 (S (tx + n))) =
  bind (if (S (tx + n) <=? length (b_chars bf))%nat then
      set_cp (tx + n);;
      let* s := yy_get_previous_state in
      let* s' := yy_try_NUL_trans s in
      match s' with
      | Some s' => set_cp (S (tx + n));; ret (Goto (YYMatch (S (tx + n)) s'))
      | None => ret (Goto (YYFindAction (tx + n) s))
      end
    else
      let* r := yy_get_next_buffer in
      let* g := get in
      match r with
      | EOB_ACT_END_OF_FILE => set_cp (y_text g);; yy_eof
      | EOB_ACT_CONTINUE_SCAN =>
          set_cp (y_text g + n);; let* s := yy_get_previous_state in ret (Goto (YYMatch (y_text g + n) s))
      | EOB_ACT_LAST_MATCH =>
          let n := length (b_chars (y_buffer g)) in
          set_cp n;; let* s := yy_get_previous_state in ret (Goto (YYFindAction n s))
      end) (resume fuel) (Guts e (seen bf) sv tx (S (tx + n)) 9 (S (tx + n))).
Proof.
  rewrite loop_step. unfold bind at 1 3. f_equal. cbn [yy_step]. unfold yy_find_action.
  rewrite (bind_ok _ _ _ _ _ eq_refl), (bind_ok _ _ _ 0 _) by done. change (0 =? 0) with true. cbv iota. cbn [y_last_state y_last_cpos].
  rewrite (bind_ok _ _ _ (S (tx + n), YY_END_OF_BUFFER) (Guts e bf sv tx cp0 9 (S (tx + n)))) by done.
  rewrite (bind_ok _ _ _ _ _ eq_refl). cbv iota. change (YY_END_OF_BUFFER =? YY_END_OF_BUFFER) with true. cbv iota.
  unfold yy_end_of_buffer. rewrite (bind_ok _ _ _ _ _ eq_refl).
  cbn [y_text y_cp y_buffer y_env y_saved y_last_state y_last_cpos b_chars]. cbv zeta.
  replace (tx + (S (tx + n) - tx - 1))%nat with (tx + n)%nat by lia. replace (S (tx + n) - tx - 1)%nat with n by lia.
  rewrite (bind_ok _ _ _ tt (Guts e (seen bf) sv tx (S (tx + n)) 9 (S (tx + n)))); [done|]. unfold seen. by destruct (b_status bf).
Qed.

(** What the end of the buffer, or a NUL, leads to after the text [W]: the match goes on behind
    the NUL or behind the old text, or the answer is known. *)
Inductive after_eob (e : scan_env) (bf : yy_buffer_state) (sv : list yy_buffer_state) (s0 : Z) (W r : list Z) : label -> yyguts_t -> Prop :=
| eob_goes bf' tx' w' r' cp' ls lc : buf_ok bf' -> same_src bf bf' -> (tx' <= length (b_chars bf'))%nat ->
    drop tx' (b_chars bf') = w' ++ r' -> w' ++ r' ++ b_input bf' = W ++ r ++ b_input bf -> lives s0 w' ->
    reg tx' (best s0 None 0 w') ls lc -> (length r' + 2 * length (b_input bf') < length r + 2 * length (b_input bf))%nat ->
    after_eob e bf sv s0 W r (YYMatch (tx' + length w') (deltas s0 w')) (Guts e bf' sv tx' cp' ls lc)
| eob_known bf' tx' cp' ls lc : buf_ok bf' -> same_src bf bf' -> (tx' <= length (b_chars bf'))%nat ->
    drop tx' (b_chars bf') ++ b_input bf' = W ++ r ++ b_input bf -> (length W <= length (drop tx' (b_chars bf')))%nat ->
    (accept (deltas s0 W) = 0 -> reg tx' (best s0 None 0 W) ls lc) ->
    match r ++ b_input bf with [] => True | c :: _ => delta (deltas s0 W) c = YY_JAM end ->
    after_eob e bf sv s0 W r (YYFindAction (tx' + length W) (deltas s0 W)) (Guts e bf' sv tx' cp' ls lc).

Lemma eob_buffer e bf sv tx cp0 cp s0 W r : buf_ok bf -> (tx <= length (b_chars bf))%nat -> drop tx (b_chars bf) = W ++ r ->
  s0 = e_start e + (if b_at_bol bf then 1 else 0) -> starts s0 -> lives s0 W -> Forall is_u8 W -> W ++ r ++ b_input bf <> [] -> r = [] ->
  exists l1 g1, after_eob e bf sv s0 W r l1 g1 /\
  forall fuel, yylex_loop (S fuel) (YYFindAction cp YY_JAM) (Guts e bf sv tx cp0 9 (S (tx + length W))) = yylex_loop fuel l1 g1.
Proof.
  intros Hb Htx Ed Es0 Hs0 HlW HW8 Hne ->. rewrite app_nil_r in Ed. destruct (seen_ok bf Hb) as (Hsb & Esc & Esi & [Hsbol Hsl]).
  assert (Hlen : length W = (length (b_chars bf) - tx)%nat) by (rewrite <- Ed; apply length_drop).
  destruct (next_buffer_ok e (seen bf) sv tx 9 (S (tx + length W)) Hsb ltac:(by rewrite Esc)) as (q & bf' & tx' & cp' & Enb & Hq).
  replace (S (length (b_chars (seen bf)))) with (S (tx + length W)) in Enb by (rewrite Esc; lia).
  assert (Hleb : (S (tx + length W) <=? length (b_chars bf))%nat = false) by (apply Nat.leb_gt; lia).
  destruct Hq as [got bf' Hb' [Hb1 Hb2] Hgot Ech Ein|bf' tx' Hb' [Hb1 Hb2] Hne' Ein Ein' Ech|bf' tx' Hb' Hln Ech Ein _ _ _];
    rewrite Esc, Ed in Ech; rewrite Esi in Ein; cbn [app] in *.
  - assert (Ed' : drop 0 (b_chars bf') = W ++ got) by (by rewrite drop_0).
    destruct (previous_state_ok e bf' sv 0 9 (S (tx + length W)) (length W) W got s0 Ed' HW8 eq_refl ltac:(by rewrite Hb1, Hsbol) Hs0 HlW)
      as (ls1 & lc1 & Ep & Hr1). eexists _, _. split; [apply (eob_goes _ _ _ _ _ _ bf' 0 W got); [done|split; congruence|lia|done|by rewrite Ein|done|done|]|].
    + rewrite Ein, length_app. destruct got; [done|cbn [length]; lia].
    + intros fuel. rewrite eob_step, Hleb. rewrite bind_assoc, (bind_ok _ _ _ _ _ Enb), bind_assoc, (bind_ok _ _ _ _ _ eq_refl).
      cbn [y_text]. rewrite bind_assoc. rewrite (bind_ok _ _ _ _ _ eq_refl), bind_assoc. by rewrite (bind_ok _ _ _ _ _ Ep).
  - assert (Hl' : length (b_chars bf') = (tx' + length W)%nat).
    { apply (f_equal length) in Ech. rewrite length_drop in Ech. destruct W; [by rewrite Esc, Ed in Hne'|cbn [length] in *; lia]. }
    destruct (previous_state_ok e bf' sv tx' 9 (S (tx + length W)) (length W) W [] s0 ltac:(by rewrite app_nil_r) HW8 eq_refl
      ltac:(by rewrite Hb1, Hsbol) Hs0 HlW) as (ls1 & lc1 & Ep & Hr1). eexists _, _. split; [apply (eob_known _ _ _ _ _ _ bf' tx'); [done|split; congruence|lia|by rewrite Ech, Ein, Ein'|by rewrite Ech|done|by rewrite Ein]|].
    + intros fuel. rewrite eob_step, Hleb. rewrite bind_assoc, (bind_ok _ _ _ _ _ Enb), bind_assoc, (bind_ok _ _ _ _ _ eq_refl).
      cbn [y_text y_buffer]. cbv zeta. rewrite Hl', bind_assoc, (bind_ok _ _ _ _ _ eq_refl), bind_assoc. by rewrite (bind_ok _ _ _ _ _ Ep).
  - exfalso. apply Hne. by rewrite Ech, Ein.
Qed.

Lemma eob_nul e bf sv tx cp0 cp s0 W r : buf_ok bf -> (tx <= length (b_chars bf))%nat -> drop tx (b_chars bf) = W ++ r ->
  s0 = e_start e + (if b_at_bol bf then 1 else 0) -> starts s0 -> lives s0 W -> Forall is_u8 W -> head r = Some 0 ->
  exists l1 g1, after_eob e bf sv s0 W r l1 g1 /\
  forall fuel, yylex_loop (S fuel) (YYFindAction cp YY_JAM) (Guts e bf sv tx cp0 9 (S (tx + length W))) = yylex_loop fuel l1 g1.
Proof.
  intros Hb Htx Ed Es0 Hs0 HlW HW8 Hr. destruct r as [|z r2]; [done|]. injection Hr as ->.
  destruct (seen_ok bf Hb) as (Hsb & Esc & Esi & Hsame). assert (live (deltas s0 W)) as Hlive by (apply lives_live; [by apply start_live|done]).
  assert (Hlen : (length W + S (length r2) = length (b_chars bf) - tx)%nat)
    by (rewrite <- length_drop, Ed, length_app; done).
  destruct (previous_state_ok e (seen bf) sv tx 9 (S (tx + length W)) (length W) W (0 :: r2) s0 ltac:(by rewrite Esc) HW8 eq_refl
    ltac:(by rewrite (proj1 Hsame)) Hs0 HlW) as (ls1 & lc1 & Ep & Hr1).
  destruct (note_ok (deltas s0 W) (tx + length W) e (seen bf) sv tx (tx + length W) ls1 lc1 _ (length W) Hlive eq_refl Hr1)
    as (ls2 & lc2 & En & Hr2).
  destruct (class_at (deltas s0 W) 0 Hlive ltac:(done)) as (k1 & [= <-] & Et & _).
  assert (Hstep : forall fuel, yylex_loop (S fuel) (YYFindAction cp YY_JAM) (Guts e bf sv tx cp0 9 (S (tx + length W))) =
    if delta (deltas s0 W) 0 =? YY_JAM then
      yylex_loop fuel (YYFindAction (tx + length W) (deltas s0 W)) (Guts e (seen bf) sv tx (tx + length W) ls2 lc2)
    else yylex_loop fuel (YYMatch (S (tx + length W)) (delta (deltas s0 W) 0)) (Guts e (seen bf) sv tx (S (tx + length W)) ls2 lc2)).
  { intros fuel. rewrite eob_step, (proj2 (Nat.leb_le _ _)) by lia.
    unfold bind at 1. rewrite (bind_ok _ _ _ _ _ eq_refl), (bind_ok _ _ _ _ _ Ep). unfold yy_try_NUL_trans. rewrite bind_assoc.
    rewrite (bind_ok _ _ _ _ _ eq_refl). cbn [y_cp]. rewrite bind_assoc, (bind_ok _ _ _ _ _ En), bind_assoc.
    rewrite (bind_ok _ _ _ (delta (deltas s0 W) 0) _) by (unfold lift; by rewrite Et).
    by destruct (delta (deltas s0 W) 0 =? YY_JAM). }
  destruct (delta_ok _ 0 Hlive ltac:(done)) as [Hd|Hd].
  - rewrite (live_jam _ Hd) in Hstep. eexists _, _. split; [|exact Hstep].
    replace (S (tx + length W)) with (tx + length (W ++ [0%Z]))%nat by (rewrite length_app; cbn; lia).
    replace (delta (deltas s0 W) 0) with (deltas s0 (W ++ [0])) by (by rewrite deltas_app).
    apply (eob_goes _ _ _ _ _ _ (seen bf) tx (W ++ [0]) r2); [done|done|by rewrite Esc|by rewrite Esc, Ed, <- app_assoc|by rewrite Esi, <- app_assoc| | |].
    + apply lives_app. by split.
    + by rewrite best_app.
    + rewrite Esi. cbn [length]. lia.
  - rewrite Hd in Hstep. eexists _, _. split; [|exact Hstep].
    apply eob_known; [done|done|by rewrite Esc|by rewrite Esc, Esi, Ed, <- app_assoc|rewrite Esc, Ed, length_app; lia| |done].
    intros Ea. unfold noted in Hr2. by rewrite Ea in Hr2.
Qed.

Lemma scan_run k : forall e bf sv tx cp0 ls lc w r s0,
  (length r + 2 * length (b_input bf) < k)%nat -> buf_ok bf -> (tx <= length (b_chars bf))%nat -> drop tx (b_chars bf) = w ++ r ->
  s0 = e_start e + (if b_at_bol bf then 1 else 0) -> starts s0 -> lives s0 w -> reg tx (best s0 None 0 w) ls lc ->
  w ++ r ++ b_input bf <> [] ->
  accepts_at e bf sv tx (YYMatch (tx + length w) (deltas s0 w)) (Guts e bf sv tx cp0 ls lc) (munch s0 None 0 (w ++ r ++ b_input bf)).
Proof.
  induction k as [|k IH]; intros e bf sv tx cp0 ls lc w r s0 Hk Hb Htx Ed Es0 Hs0 Hl Hr Hne; [lia|].
  assert (Forall is_u8 (w ++ r)) as Hwr by (rewrite <- Ed; apply Forall_drop, Hb). apply Forall_app in Hwr as [Hw8 Hr8].
  assert (Hlen : length (b_chars bf) = (tx + length w + length r)%nat).
  { apply (f_equal length) in Ed. rewrite length_drop, length_app in Ed. lia. }
  destruct (match_ok e bf sv tx cp0 r (length (b_chars bf) + 3) (tx + length w) (deltas s0 w) (length w) (best s0 None 0 w) ls lc)
    as (cp & s' & ls' & lc' & Em & Hend);
    [rewrite <- drop_drop, Ed; apply drop_app_length|lia|apply Hb|done|apply lives_live; [by apply start_live|done]|by apply sure_path|done|lia|].
  apply (accepts_steps 1 _ _ _ _ bf tx _ _ (YYFindAction cp s') (Guts e bf sv tx cp0 ls' lc')); [|done|done|].
  { intros fuel. change (1 + fuel)%nat with (S fuel). rewrite loop_step.
    rewrite (bind_ok _ _ _ (Goto (YYFindAction cp s')) (Guts e bf sv tx cp0 ls' lc')); [done|]. cbn [yy_step].
    by rewrite (bind_ok _ _ _ (cp, s') (Guts e bf sv tx cp0 ls' lc')). }
  destruct Hend as [Hf|w1 r1 Er Hr1 Hl1 -> -> ->].
  { rewrite (munch_app w) by done. pose proof (Hf (b_input bf) (bo_input _ Hb)) as Hf1. apply accepts_found; [done|done|done|].
    cbn [Nat.add]. rewrite (found_inj _ _ _ _ _ _ _ Hf1 (Hf [] ltac:(constructor))), app_nil_r.
    destruct (munch _ _ _ r) as [[m a]|] eqn:Emu; [|done]. apply munch_bound in Emu; [rewrite Ed, length_app; lia|].
    apply (best_bound w s0 None 0 I). }
  subst r. replace (w ++ (w1 ++ r1) ++ b_input bf) with ((w ++ w1) ++ r1 ++ b_input bf) in * by (by rewrite <- !app_assoc).
  rewrite app_assoc in Ed. apply Forall_app in Hr8 as [Hw18 _].
  replace (S (tx + length w + length w1)) with (S (tx + length (w ++ w1))) by (rewrite length_app; lia).
  assert (lives s0 (w ++ w1)) as HlW by (by apply lives_app). assert (Forall is_u8 (w ++ w1)) as HW8 by (by apply Forall_app).
  rewrite length_app in Hk. generalize dependent (w ++ w1). intros W Ed Hne HlW HW8.
  assert (exists l1 g1, after_eob e bf sv s0 W r1 l1 g1 /\
    forall fuel, yylex_loop (S fuel) (YYFindAction cp YY_JAM) (Guts e bf sv tx cp0 9 (S (tx + length W))) = yylex_loop fuel l1 g1)
    as (l1 & g1 & Hafter & Hstep) by (destruct Hr1 as [?|?]; [by apply eob_buffer|by apply eob_nul]).
  destruct Hafter as [bf' tx' w' r' cp' ls1 lc1 Hb' Hsame Htx' Ed' Eall Hl' Hreg Hm|bf' tx' cp' ls1 lc1 Hb' Hsame Htx' Eall HlenW Hreg Hjam].
  - apply (accepts_steps 1 _ _ _ _ bf' tx' _ _ _ _ _ Hstep); [by rewrite Ed', Ed, <- !app_assoc|done|]. rewrite <- Eall in Hne |- *.
    apply IH; [lia|done|done|done|by rewrite (proj1 Hsame)|done|done|done|done].
  - apply (accepts_steps 1 _ _ _ _ bf' tx' _ _ _ _ _ Hstep); [by rewrite Ed, <- app_assoc|done|].
    assert (Hlive : live (deltas s0 W)) by (apply lives_live; [by apply start_live|done]).
    assert (Hmu : munch s0 None 0 (W ++ r1 ++ b_input bf) = noted (deltas s0 W) (best s0 None 0 W) (length W)).
    { rewrite (munch_app W) by done. destruct (r1 ++ b_input bf); cbn [munch]; [done|]. by rewrite Hjam. }
    assert (Hnn : noted (deltas s0 W) (best s0 None 0 W) (length W) <> None).
    { unfold noted. destruct (Z.eqb_spec (accept (deltas s0 W)) 0); [|done]. destruct W as [|c W']; [|by destruct (path_accepts s0 (c :: W') Hs0 HW8)].
      exfalso. destruct (r1 ++ b_input bf) as [|c l] eqn:El; [done|]. cbn in Hjam.
      assert (is_u8 c) as Hc.
      { assert (Forall is_u8 (r1 ++ b_input bf)) as Hx; [|rewrite El in Hx; by apply Forall_cons in Hx as [? _]].
        apply Forall_app. split; [|apply Hb]. cbn in Ed. rewrite <- Ed. apply Forall_drop, Hb. }
      destruct (first_ok s0 c Hs0 Hc) as (Hx & _). rewrite Hjam in Hx. unfold live, YY_JAM in Hx. lia. }
    destruct (noted_found s0 W tx' ls1 lc1 Hs0 HW8 Hlive Hreg Hnn) as [Hfd Hle].
    rewrite Hmu. apply accepts_found; [done|done|done|]. destruct (noted _ _ _) as [[m a]|]; [lia|done].
Qed.

(** ** The reference scanner *)

(** The rule [a] accepts the first [m] characters of [w], and none accepts more of them. *)
Definition longest (s : Z) (w : list Z) (m : nat) (a : Z) : Prop :=
  (m <= length w)%nat /\ lives s (take m w) /\ accept (deltas s (take m w)) = a /\ a <> 0 /\
  forall m', (m < m' <= length w)%nat -> lives s (take m' w) -> accept (deltas s (take m' w)) = 0.

(** What is left of a text, whether a line begins here, and the number of the line. *)
Record source : Type := Src { r_rest : list Z; r_bol : bool; r_line : Z }.
Record rstate : Type := RState { r_env : scan_env; r_src : source; r_saved : list source }.

Definition start_of (e : scan_env) (bol : bool) : Z := e_start e + (if bol then 1 else 0).
Definition counts (act : Z) (w : list Z) : Z :=
  match entry yy_rule_can_match_eol act with Ok 0 | Err _ => 0 | Ok _ => newlines w end.

(** The action of a rule that matches [m] characters; context is not consumed. *)
Definition ref_rule (m : nat) (act : Z) (r : rstate) : res (option token * rstate) :=
  let '(RState e (Src rest bol line) saved) := r in
  let line := line + counts act (take m rest) in
  let m := if has_context act then pred m else m in
  let bol := match last (take m rest) with Some c => c =? 10 | None => bol end in
  let? '(x, e) := rule_action act (take m rest) line e in
  let src := Src (drop m rest) bol line in
  Ok (match x with
      | Again => (None, RState e src saved)
      | Tok t => (Some t, RState e src saved)
      | Open content => (None, RState e (Src content true 1) (src :: saved))
      end).

(** One match, or the end of an included file. *)
Inductive lex_step : rstate -> option token -> rstate -> Prop :=
| lex_rule r m act x r' : r_rest (r_src r) <> [] -> longest (start_of (r_env r) (r_bol (r_src r))) (r_rest (r_src r)) m act ->
    ref_rule m act r = Ok (x, r') -> lex_step r x r'
| lex_pop e bol line src saved f files : e_files e = f :: files ->
    lex_step (RState e (Src [] bol line) (src :: saved)) None (RState (with_files files e) src saved).

Inductive lex_steps : rstate -> list token -> rstate -> Prop :=
| lex_nil r : lex_steps r [] r
| lex_cons r x r' ts r'' : lex_step r x r' -> lex_steps r' ts r'' ->
    lex_steps r (match x with Some t => t :: ts | None => ts end) r''.

(** The tokens up to the end of the text. *)
Definition lexes (r : rstate) (ts : list token) : Prop :=
  exists e bol line, lex_steps r ts (RState e (Src [] bol line) []).

(** The scanner at the beginning of a text. *)
Definition reading (e : scan_env) (w : list Z) (line : Z) : rstate := RState (with_start 1 e) (Src w true line) [].

(** *** The longest match is what the automaton finds *)

Lemma noted_cases s b n m a : noted s b n = Some (m, a) -> accept s = a /\ a <> 0 /\ m = n \/ accept s = 0 /\ b = Some (m, a).
Proof.
  unfold noted. destruct (Z.eqb_spec (accept s) 0); [by right|]. intros [= <- <-]. by left.
Qed.

Lemma munch_longest_gen w : forall s b n m a, live s -> Forall is_u8 w -> munch s b n w = Some (m, a) ->
  (exists k, m = (n + k)%nat /\ longest s w k a) \/
  (b = Some (m, a) /\ forall k, (k <= length w)%nat -> lives s (take k w) -> accept (deltas s (take k w)) = 0).
Proof.
  induction w as [|c w IH]; intros s b n m a Hs Hw E; cbn [munch] in E.
  { apply noted_cases in E as [(Ha & Hn & ->)|[H0 ->]].
    - left. exists 0%nat. rewrite Nat.add_0_r. split; [done|]. repeat split; try done. intros m' ?. cbn in *. lia.
    - right. split; [done|]. intros k Hk _. cbn in Hk. by replace k with 0%nat by lia. }
  destruct (Z.eqb_spec (delta s c) YY_JAM) as [Ej|Ej].
  - assert (Hdead : forall k, lives s (take (S k) (c :: w)) -> False).
    { intros k [Hl _]. rewrite Ej in Hl. unfold live, YY_JAM in Hl. lia. }
    apply noted_cases in E as [(Ha & Hn & ->)|[H0 ->]].
    + left. exists 0%nat. rewrite Nat.add_0_r. split; [done|]. repeat split; try done; [cbn; lia|].
      intros [|k] ? Hl; [lia|by apply Hdead in Hl].
    + right. split; [done|]. intros [|k] _ Hl; [done|by apply Hdead in Hl].
  - apply Forall_cons in Hw as [Hc Hw]. destruct (delta_ok s c Hs Hc) as [Hlive|?]; [|done].
    apply IH in E as [(k & -> & Hle & Hl & Ha & Hn & Hmax)|[Eb Hmax]]; [| |done|done].
    + left. exists (S k). split; [lia|]. split; [cbn; lia|]. split; [by split|]. split; [done|]. split; [done|].
      intros [|m'] Hm' Hl'; [lia|]. cbn [length] in Hm'. apply Hmax; [lia|apply Hl'].
    + apply noted_cases in Eb as [(Ha & Hn & ->)|[H0 ->]].
      * left. exists 0%nat. rewrite Nat.add_0_r. split; [done|]. repeat split; try done; [cbn; lia|].
        intros [|k] Hk Hl; [lia|]. cbn [length] in Hk. apply Hmax; [lia|apply Hl].
      * right. split; [done|]. intros [|k] Hk Hl; [done|]. cbn [length] in Hk. apply Hmax; [lia|apply Hl].
Qed.

Lemma munch_longest s w m a : live s -> Forall is_u8 w -> munch s None 0 w = Some (m, a) -> longest s w m a.
Proof. intros Hs Hw E. destruct (munch_longest_gen w s None 0 m a Hs Hw E) as [(k & -> & Hk)|[? _]]; done. Qed.

(** From a start state it takes at least one character, two for the rules with context. *)
Lemma longest_takes s w m a : starts s -> Forall is_u8 w -> longest s w m a -> (1 <= (if has_context a then pred m else m))%nat.
Proof.
  intros Hs Hw (Hle & Hl & Ha & Hn & Hmax). destruct (state_facts s (start_live s Hs)) as (_ & _ & _ & _ & H0).
  destruct m as [|m]; [change (accept s = a) in Ha; rewrite (H0 Hs) in Ha; by symmetry in Ha|]. destruct m as [|m]; [|destruct (has_context a); cbn; lia].
  destruct w as [|c w]; [cbn in Hle; lia|]. apply Forall_cons in Hw as [Hc _].
  destruct (first_ok s c Hs Hc) as (_ & _ & Hctx). change (accept (delta s c) = a) in Ha. rewrite Ha in Hctx. by rewrite Hctx.
Qed.

(** ** The environment *)

(** The string buffer holds its string with the terminator; the list of names has room. *)
Definition strbuf_ok (b : strbuf_t) : Prop :=
  match sb_string b with
  | None => sb_length b = 0 /\ sb_capacity b = 0
  | Some s => sb_length b = strlen s /\ sb_length b + 1 <= sb_capacity b
  end.

Record env_ok (e : scan_env) : Prop := {
  eo_start : exists st, e_start e = 1 + 2 * st /\ 0 <= st <= 3;
  eo_string : strbuf_ok (e_string e);
  eo_depth : (length (e_files e) <= MAX_INCLUDE_DEPTH)%nat;
  eo_names : (length (e_filenames e) <= e_names_cap e)%nat /\ (e_names_cap e mod FILENAMES_CHUNK = 0)%nat;
}.

Lemma block_room n : n <= Z.land (n + (STRING_BLOCK_SIZE - 1)) (Z.lnot (STRING_BLOCK_SIZE - 1)).
Proof.
  unfold STRING_BLOCK_SIZE. change (64 - 1) with (Z.ones 6). rewrite <- Z.ldiff_land, Z.ldiff_ones_r by lia.
  rewrite Z.shiftl_mul_pow2, Z.shiftr_div_pow2 by lia. change (Z.ones 6) with 63. change (2 ^ 6) with 64.
  pose proof (Z.div_mod (n + 63) 64 ltac:(lia)). pose proof (Z.mod_pos_bound (n + 63) 64 ltac:(lia)). lia.
Qed.

Lemma strbuf_append_ok text b : strbuf_ok b ->
  exists b', strbuf_append text b = Ok b' /\ strbuf_ok b' /\ sb_string b' = Some (default [] (sb_string b) ++ text).
Proof.
  intros Hb. unfold strbuf_append. pose proof (block_room (sb_length b + strlen text + 1)) as Hroom. unfold strbuf_ok in Hb.
  assert (0 <= strlen text) as Ht by (unfold strlen; lia).
  assert (Htake : take (Z.to_nat (sb_length b)) (default [] (sb_string b)) = default [] (sb_string b)).
  { destruct (sb_string b) as [s|]; [|by destruct Hb as [-> _]]. destruct Hb as [-> _]. apply take_ge. unfold strlen. cbn. lia. }
  assert (Hlen : strlen (default [] (sb_string b) ++ text) = sb_length b + strlen text).
  { unfold strlen. rewrite length_app, Nat2Z.inj_add. destruct (sb_string b); destruct Hb as [-> _]; done. }
  destruct (Z.ltb_spec (sb_capacity b) (sb_length b + strlen text + 1)).
  - cbn [of_option rbind]. rewrite (proj2 (Z.ltb_ge _ _)) by lia. eexists. split; [done|]. rewrite Htake. split; [|done].
    unfold strbuf_ok. cbn [sb_string sb_length sb_capacity]. rewrite Hlen. lia.
  - destruct (sb_string b) as [s|]; [|lia]. cbn in Htake, Hlen, Hb |- *.
    rewrite (proj2 (Z.ltb_ge _ _)) by lia. eexists. split; [done|]. rewrite Htake. split; [|done].
    unfold strbuf_ok. cbn [sb_string sb_length sb_capacity]. rewrite Hlen. lia.
Qed.

Lemma env_with_string b e : env_ok e -> strbuf_ok b -> env_ok (with_string b e).
Proof. intros [] ?. by constructor. Qed.
Lemma env_begin st e : env_ok e -> 0 <= st <= 3 -> env_ok (BEGIN st e).
Proof. intros [? ? ? ?] Hst. constructor; cbn; try done. by exists st. Qed.

(** An action keeps the environment and the files, but for the file that it opens. *)
Definition reacts (e : scan_env) (r : res (reaction * scan_env)) : Prop :=
  exists x e', r = Ok (x, e') /\ env_ok e' /\
    match x with
    | Open content => (length (e_files e) < MAX_INCLUDE_DEPTH)%nat /\ exists f, fopen f = Some content /\ e_files e' = f :: e_files e
    | _ => e_files e' = e_files e
    end.

Lemma reacts_skips e e' : env_ok e' -> e_files e' = e_files e -> reacts e (skips e').
Proof. intros. by exists Again, e'. Qed.
Lemma reacts_gives t e e' : env_ok e' -> e_files e' = e_files e -> reacts e (gives t e').
Proof. intros. by exists (Tok t), e'. Qed.
Lemma reacts_append s e : env_ok e -> reacts e (append s e).
Proof.
  intros He. unfold append, scanctx_append_string. destruct (strbuf_append_ok s (e_string e) (eo_string e He)) as (b & -> & Hb & _).
  apply reacts_skips; [by apply env_with_string|done].
Qed.

Lemma add_filename_ok f e : env_ok e -> exists e', __scanctx_add_filename f e = Ok (f, e') /\ env_ok e' /\ e_files e' = e_files e.
Proof.
  intros He. unfold __scanctx_add_filename. destruct (existsb _ _); [by exists e|]. destruct He as [? ? ? [Hn Hm]].
  destruct (Nat.eqb_spec (length (e_filenames e) mod FILENAMES_CHUNK) 0) as [E|E].
  - rewrite (proj2 (Nat.leb_gt _ _)) by (unfold FILENAMES_CHUNK; lia). eexists. split; [done|]. split; [|done]. constructor; try done.
    cbn [with_filenames e_filenames e_names_cap]. rewrite length_app. cbn [length]. split; [unfold FILENAMES_CHUNK; lia|]. by rewrite Nat.Div0.add_mod, E.
  - assert (length (e_filenames e) < e_names_cap e)%nat.
    { destruct (Nat.eq_dec (length (e_filenames e)) (e_names_cap e)) as [E'|]; [|lia]. by rewrite E' in E. }
    rewrite (proj2 (Nat.leb_gt _ _)) by lia. eexists. split; [done|]. split; [|done]. constructor; try done.
    cbn [with_filenames e_filenames e_names_cap]. rewrite length_app. cbn [length]. split; [lia|done].
Qed.

Lemma reacts_include line e : env_ok e -> reacts e (include_file line e).
Proof.
  intros He. unfold include_file, scanctx_push_include. destruct (Nat.eqb_spec (length (e_files e)) MAX_INCLUDE_DEPTH) as [E|E].
  { cbn [rbind]. apply reacts_gives; [|done]. by destruct He. }
  assert (env_ok (with_string strbuf_zero e)) as He1 by (by apply env_with_string).
  unfold scanctx_take_string. cbn [strbuf_release]. destruct (fopen _) as [content|] eqn:Ef.
  - destruct (add_filename_ok (default [] (sb_string (e_string e))) _ He1) as (e2 & -> & He2 & Ee2). cbn [rbind].
    exists (Open content). eexists. split; [done|]. split.
    + apply env_begin; [|done]. destruct He2 as [? ? ? ?]. constructor; cbn; try done. rewrite Ee2. cbn.
      destruct He as [_ _ ? _]. lia.
    + split; [destruct He; lia|]. eexists. split; [exact Ef|]. cbn. by rewrite Ee2.
  - cbn [rbind]. apply reacts_gives; [|done]. by destruct He1.
Qed.

Lemma rule_action_ok act bs line e : env_ok e -> 1 <= act <= 41 -> reacts e (rule_action act bs line e).
Proof.
  intros He Ha. unfold rule_action. 
  repeat (match goal with |- reacts _ (if ?b then _ else _) => destruct b eqn:? end;
    [first [by apply reacts_append|by apply reacts_include|by apply reacts_skips|by apply reacts_gives
      |by apply reacts_skips; [by apply env_begin|]|idtac]|]).
  - unfold scanctx_take_string. cbn [strbuf_release]. apply reacts_gives; [|done]. apply env_begin; [by apply env_with_string|done].
  - apply reacts_skips; [by destruct He|done].
  - exfalso. rewrite ?orb_false_iff, ?Z.eqb_neq in *. lia.
Qed.

(** ** The scanner and the reference *)

Definition src_of (b : yy_buffer_state) (i : nat) : source := Src (drop i (b_chars b) ++ b_input b) (b_at_bol b) (b_lineno b).

Definition saved_ok (b : yy_buffer_state) : Prop := buf_ok b /\ (b_buf_pos b <= length (b_chars b))%nat.

(** The state of the scanner between two matches, and what it stands for. *)
Record scans (g : yyguts_t) (r : rstate) : Prop := {
  sc_env : r_env r = y_env g;
  sc_src : r_src r = src_of (y_buffer g) (y_cp g);
  sc_saved : r_saved r = (fun b => src_of b (b_buf_pos b)) <$> y_saved g;
  sc_buf : buf_ok (y_buffer g);
  sc_pos : (y_cp g <= length (b_chars (y_buffer g)))%nat;
  sc_bufs : Forall saved_ok (y_saved g);
  sc_ok : env_ok (y_env g);
  sc_depth : length (y_saved g) = length (e_files (y_env g));
}.

Lemma start_state_ok e bol : env_ok e -> starts (start_of e bol).
Proof. intros [(st & E & Hst) _ _ _]. unfold start_of, starts. rewrite E. destruct bol; lia. Qed.

Lemma with_bol_ok x b : buf_ok b -> buf_ok (with_bol x b).
Proof. by intros []. Qed.
Lemma with_lineno_ok n b : buf_ok b -> buf_ok (with_lineno n b).
Proof. by intros []. Qed.
Lemma with_pos_ok n b : buf_ok b -> buf_ok (with_pos n b).
Proof. by intros []. Qed.
Lemma created_ok content : Forall is_u8 content -> buf_ok (libconfig_yy_create_buffer content YY_BUF_SIZE).
Proof. intros Hc. constructor; cbn; try done. Qed.

(** A run of the scanner between two matches, as a step of the reference. *)
Definition simulates (g : yyguts_t) (r : rstate) (x : option token) (r' : rstate) : Prop :=
  exists j g', scans g' r' /\ forall fuel, yylex_loop (j + fuel) YYBegin g =
    match x with None => yylex_loop fuel YYBegin g' | Some t => Ok (Some t, g') end.

Context (Hfiles : forall f content, fopen f = Some content -> Forall is_u8 content).

Lemma eol_entry a : 1 <= a <= 41 -> exists eol, entry yy_rule_can_match_eol a = Ok eol /\
  forall w, counts a w = if eol =? 0 then 0 else newlines w.
Proof.
  intros Ha. unfold counts.
  assert (exists eol, entry yy_rule_can_match_eol a = Ok eol) as [eol ->].
  { unfold entry. rewrite (proj2 (Z.ltb_ge _ _)) by lia. destruct (yy_rule_can_match_eol !! Z.to_nat a) eqn:E; [by eexists|].
    apply lookup_ge_None in E. cbn [yy_rule_can_match_eol length] in E. lia. }
  exists eol. split; [done|]. intros w. by destruct eol.
Qed.

(** The bytes between two positions of the buffer, as a prefix of the rest of the text. *)
Lemma text_prefix bf tx m : (tx + m <= length (b_chars bf))%nat ->
  take (tx + m - tx) (drop tx (b_chars bf)) = take m (drop tx (b_chars bf) ++ b_input bf) /\
  drop (tx + m) (b_chars bf) ++ b_input bf = drop m (drop tx (b_chars bf) ++ b_input bf).
Proof.
  intros Hm. rewrite Nat.add_comm, Nat.add_sub, Nat.add_comm. pose proof (length_drop (b_chars bf) tx).
  rewrite take_app_le by lia. rewrite drop_app_le by lia. by rewrite drop_drop.
Qed.

(** The end of [yy_accepted], for any counted line and the text that the rule consumes. *)
Lemma rule_run a e bf sv tx m ls lc : 1 <= a <= 41 -> buf_ok bf -> (tx + m <= length (b_chars bf))%nat -> env_ok e ->
  Forall saved_ok sv -> length sv = length (e_files e) -> (1 <= (if has_context a then pred m else m))%nat ->
  let rest := drop tx (b_chars bf) ++ b_input bf in
  let m' := if has_context a then pred m else m in
  let bol := match last (take m' rest) with Some c => c =? 10 | None => b_at_bol bf end in
  exists x e' y r', rule_action a (take m' rest) (b_lineno bf) e = Ok (x, e') /\
    (let src := Src (drop m' rest) bol (b_lineno bf) in
     let saved := (fun b => src_of b (b_buf_pos b)) <$> sv in
     (y, r') = match x with
               | Again => (None, RState e' src saved)
               | Tok t => (Some t, RState e' src saved)
               | Open content => (None, RState e' (Src content true 1) (src :: saved))
               end) /\
    exists g', scans g' r' /\ forall fuel, bind (yy_rule a) (resume fuel) (Guts e bf sv tx (tx + m) ls lc) =
      match y with None => yylex_loop fuel YYBegin g' | Some t => Ok (Some t, g') end.
Proof using Hfiles.
  intros Ha Hb Hm He Hsv Hd Hm1 rest m' bol. assert (Hm' : (tx + m' <= length (b_chars bf))%nat) by (unfold m'; destruct (has_context a); lia).
  destruct (text_prefix bf tx m' Hm') as [Ht Hdrop]. fold rest in Ht, Hdrop.
  destruct (rule_action_ok a (take m' rest) (b_lineno bf) e He Ha) as (x & e' & Er & He' & Hx).
  set (bf1 := with_bol bol bf).
  assert (Hrun : forall fuel, bind (yy_rule a) (resume fuel) (Guts e bf sv tx (tx + m) ls lc) =
    match x with
    | Again => yylex_loop fuel YYBegin (Guts e' bf1 sv tx (tx + m') ls lc)
    | Tok t => Ok (Some t, Guts e' bf1 sv tx (tx + m') ls lc)
    | Open content => yylex_loop fuel YYBegin (Guts e' (libconfig_yy_create_buffer content YY_BUF_SIZE) (with_pos (tx + m') bf1 :: sv) 0 0 ls lc)
    end).
  { intros fuel. unfold yy_rule. rewrite bind_assoc.
    rewrite (bind_ok _ _ _ tt (Guts e bf sv tx (tx + m') ls lc)).
    2:{ unfold m'. destruct (has_context a); [|done]. rewrite (bind_ok _ _ _ _ _ eq_refl). cbn [y_cp].
        by replace (pred (tx + m)) with (tx + pred m)%nat by lia. }
    rewrite bind_assoc, (bind_ok _ _ _ (take m' rest) (Guts e bf sv tx (tx + m') ls lc)) by (cbn; by rewrite <- Ht).
    rewrite bind_assoc, (bind_ok _ _ _ tt (Guts e bf1 sv tx (tx + m') ls lc)).
    2:{ unfold yy_rule_setup. rewrite (bind_ok _ _ _ _ _ eq_refl). cbn [y_buffer]. unfold bf1, bol. destruct (last _) eqn:El; [done|].
        exfalso. apply last_None in El. apply (f_equal length) in El. rewrite <- Ht, length_take, length_drop in El. cbn in El.
        unfold m' in *. lia. }
    rewrite bind_assoc, (bind_ok _ _ _ _ _ eq_refl). cbn [y_buffer y_env]. change (b_lineno bf1) with (b_lineno bf).
    rewrite bind_assoc, (bind_ok _ _ _ (x, e') (Guts e bf1 sv tx (tx + m') ls lc)) by (unfold lift; by rewrite Er).
    cbv iota beta. rewrite bind_assoc, (bind_ok _ _ _ _ _ eq_refl). by destruct x. }
  exists x, e'. assert (Hsrc : src_of bf1 (tx + m') = Src (drop m' rest) bol (b_lineno bf)).
  { unfold src_of. cbn. by rewrite Hdrop. }
  destruct x as [|t|content]; eexists _, _; (split; [exact Er|]); (split; [reflexivity|]); eexists; (split; [|exact Hrun]).
  - constructor; first [done|exact (eq_sym Hsrc)|by apply with_bol_ok|cbn; congruence].
  - constructor; first [done|exact (eq_sym Hsrc)|by apply with_bol_ok|cbn; congruence].
  - destruct Hx as (Hlt & f & Ef & Efs). constructor; try done.
    + cbn [r_saved y_saved fmap list_fmap]. f_equal. exact (eq_sym Hsrc).
    + apply created_ok. by apply (Hfiles f).
    + constructor; [|done]. split; [by apply with_pos_ok, with_bol_ok|done].
    + cbn [y_saved y_env length]. rewrite Efs. cbn. congruence.
Qed.

Lemma accepted_run a e bf sv tx m ls lc : 1 <= a <= 41 -> buf_ok bf -> (tx + m <= length (b_chars bf))%nat -> env_ok e ->
  Forall saved_ok sv -> length sv = length (e_files e) -> (1 <= (if has_context a then pred m else m))%nat ->
  exists x r' g', ref_rule m a (RState e (src_of bf tx) ((fun b => src_of b (b_buf_pos b)) <$> sv)) = Ok (x, r') /\ scans g' r' /\
    forall fuel, bind (yy_accepted a) (resume fuel) (Guts e bf sv tx (tx + m) ls lc) =
      match x with None => yylex_loop fuel YYBegin g' | Some t => Ok (Some t, g') end.
Proof using Hfiles.
  intros Ha Hb Hm He Hsv Hd Hm1. destruct (eol_entry a Ha) as (eol & Eeol & Hcount). destruct (text_prefix bf tx m Hm) as [Ht _].
  set (bf1 := with_lineno (b_lineno bf + counts a (take m (drop tx (b_chars bf) ++ b_input bf))) bf).
  destruct (rule_run a e bf1 sv tx m ls lc Ha (with_lineno_ok _ _ Hb) Hm He Hsv Hd Hm1) as (x & e' & y & r' & Er & Ey & g' & Hs & Hrun).
  exists y, r', g'. split; [|split; [done|]].
  - unfold src_of, ref_rule. cbn [b_chars b_input b_lineno b_at_bol bf1 with_lineno] in Er, Ey. rewrite Er. cbn [rbind].
    cbv zeta in Ey. by rewrite Ey.
  - intros fuel. rewrite <- Hrun. unfold yy_accepted. rewrite bind_assoc, (bind_ok _ _ _ eol _) by (unfold lift; by rewrite Eeol).
    rewrite bind_assoc, (bind_ok _ _ _ (take m (drop tx (b_chars bf) ++ b_input bf)) (Guts e bf sv tx (tx + m) ls lc)) by (cbn; by rewrite <- Ht).
    rewrite bind_assoc, (bind_ok _ _ _ _ _ eq_refl), bind_assoc. cbn [y_buffer].
    rewrite (bind_ok _ _ _ tt (Guts e bf1 sv tx (tx + m) ls lc)).
    + by rewrite (proj2 (Z.eqb_neq a 0)) by lia.
    + unfold bf1. rewrite Hcount. destruct (eol =? 0); [|done]. rewrite Z.add_0_r. by destruct bf.
Qed.

Lemma begin_step g fuel : yylex_loop (S fuel) YYBegin g =
  yylex_loop fuel (YYMatch (y_cp g) (start_of (y_env g) (b_at_bol (y_buffer g))))
    (Guts (y_env g) (y_buffer g) (y_saved g) (y_cp g) (y_cp g) (y_last_state g) (y_last_cpos g)).
Proof. by rewrite loop_step. Qed.

(** As long as there is text, the scanner takes the longest match. *)
Lemma scan_rule g r : scans g r -> r_rest (r_src r) <> [] ->
  exists m a x r', longest (start_of (r_env r) (r_bol (r_src r))) (r_rest (r_src r)) m a /\ ref_rule m a r = Ok (x, r') /\
    simulates g r x r'.
Proof using Hfiles.
  intros Hsc Hne. destruct r as [re rs rsv], g as [e bf sv tx0 cp ls lc]. destruct Hsc as [Ee Es Esv Hb Hp Hbs He Hd].
  cbn [r_env r_src r_saved y_env y_buffer y_saved y_cp] in *. subst re rs rsv. set (s0 := start_of e (b_at_bol bf)).
  pose proof (start_state_ok e (b_at_bol bf) He) as Hst.
  assert (H8 : Forall is_u8 (drop cp (b_chars bf) ++ b_input bf)) by (apply Forall_app; split; [apply Forall_drop|]; apply Hb).
  destruct (scan_run (S (length (drop cp (b_chars bf)) + 2 * length (b_input bf))) e bf sv cp cp ls lc [] (drop cp (b_chars bf)) s0)
    as (j & bf' & tx' & ls' & lc' & m & a & Emu & Ha & Hj & Hb' & Hfull & Hm & [Hbol Hline]); [lia|done|done|done|done|done|done|done|done|].
  cbn [app] in Emu. apply munch_longest in Emu; [|by apply start_live|done].
  destruct (accepted_run a e bf' sv tx' m ls' lc' Ha Hb' Hm He Hbs Hd (longest_takes s0 _ m a Hst H8 Emu)) as (x & r' & g' & Er & Hs' & Hrun).
  exists m, a, x, r'. split; [done|]. split.
  - rewrite <- Er. f_equal. unfold src_of. by rewrite Hfull, Hbol, Hline.
  - exists (S j), g'. split; [done|]. intros fuel. cbn [Nat.add]. rewrite begin_step. cbn [y_env y_buffer y_saved y_cp y_last_state y_last_cpos].
    rewrite <- Hrun, <- Hj. by rewrite Nat.add_0_r.
Qed.

(** At the end of the text. *)
Lemma at_end g r : scans g r -> r_rest (r_src r) = [] ->
  exists j bf' tx' ls' lc', buf_ok bf' /\ forall fuel,
    yylex_loop (j + fuel) YYBegin g = bind yy_eof (resume fuel) (Guts (y_env g) bf' (y_saved g) tx' tx' ls' lc').
Proof.
  intros Hsc Hnil. destruct r as [re rs rsv], g as [e bf sv tx0 cp ls lc]. destruct Hsc as [Ee Es Esv Hb Hp Hbs He Hd].
  cbn [r_env r_src r_saved y_env y_buffer y_saved y_cp] in *. subst re rs rsv. cbn [src_of r_rest] in Hnil. apply app_nil in Hnil as [Hnil Hin].
  pose proof (start_state_ok e (b_at_bol bf) He) as Hst.
  assert (Hcp : cp = length (b_chars bf)) by (apply (f_equal length) in Hnil; rewrite length_drop in Hnil; cbn in Hnil; lia).
  destruct (seen_ok bf Hb) as (Hsb & Esc & Esi & _).
  destruct (next_buffer_ok e (seen bf) sv cp 9 (S cp) Hsb ltac:(by rewrite Esc)) as (q & bf' & tx' & cp' & Enb & Hq).
  rewrite Esc, <- Hcp in Enb.
  destruct Hq as [got bf' _ _ Hgot _ Ein|bf' tx' _ _ Hne _ _ _|bf' tx' Hb' _ _ _ _ _ _].
  { rewrite Esi, Hin in Ein. by destruct got. }
  { by rewrite Esc, Hnil in Hne. }
  exists 3%nat, bf', tx', 9, (S cp). split; [done|]. intros fuel. change (3 + fuel)%nat with (S (S (S fuel))).
  rewrite begin_step. cbn [y_env y_buffer y_saved y_cp y_last_state y_last_cpos]. rewrite loop_step.
  rewrite (bind_ok _ _ _ (Goto (YYFindAction (S (S cp)) YY_JAM)) (Guts e bf sv cp cp 9 (S cp))).
  2:{ cbn [yy_step]. rewrite (bind_ok _ _ _ (S (S cp), YY_JAM) (Guts e bf sv cp cp 9 (S cp))); [done|]. unfold yy_match.
      rewrite (bind_ok _ _ _ _ _ eq_refl). cbn [y_buffer]. replace (length (b_chars bf) + 3)%nat with (S (S (length (b_chars bf) + 1))) by lia.
      apply (match_at_eob e bf sv cp cp ls lc cp _ 0 None); [apply Hb|apply ch_eob; lia|lia|by apply start_live|lia|done]. }
  cbn [resume]. pose proof (eob_step e bf sv cp cp (S (S cp)) 0 fuel) as Hes. rewrite !Nat.add_0_r in Hes. rewrite Hes.
  rewrite (proj2 (Nat.leb_gt _ _)) by lia. rewrite bind_assoc, (bind_ok _ _ _ _ _ Enb), bind_assoc, (bind_ok _ _ _ _ _ eq_refl), bind_assoc.
  by rewrite (bind_ok _ _ _ _ _ eq_refl).
Qed.

Lemma scan_pop g r src saved : scans g r -> r_rest (r_src r) = [] -> r_saved r = src :: saved ->
  exists r', lex_step r None r' /\ simulates g r None r' /\ r_src r' = src /\ r_saved r' = saved /\
    exists f, e_files (r_env r) = f :: e_files (r_env r').
Proof.
  intros Hsc Hnil Hsaved. destruct (at_end g r Hsc Hnil) as (j & bf' & tx' & ls' & lc' & Hb' & Hj).
  destruct r as [re [rest rbol rline] rsv], g as [e bf sv tx0 cp ls lc]. destruct Hsc as [Ee Es Esv Hb Hp Hbs He Hd].
  cbn [r_env r_src r_saved r_rest y_env y_buffer y_saved y_cp] in *. subst re rest. rewrite Hsaved in Esv. subst rsv. destruct sv as [|b sv]; [done|].
  cbn [fmap list_fmap] in Esv. injection Esv as -> ->.
  destruct (e_files e) as [|f fs] eqn:Ef; [done|]. apply Forall_cons in Hbs as [[Hbb Hbp] Hbs].
  eexists. split; [by apply (lex_pop e rbol rline _ _ f fs)|]. split; [|split; [done|split; [done|by exists f]]].
  exists j, (Guts (with_files fs e) b sv (b_buf_pos b) (b_buf_pos b) ls' lc'). split.
  - constructor; try done.
    + destruct He as [? ? Hdep ?]. constructor; try done. cbn. rewrite Ef in Hdep. cbn in Hdep. lia.
    + cbn in *. lia.
  - intros fuel. rewrite Hj. unfold yy_eof. rewrite bind_assoc, (bind_ok _ _ _ _ _ eq_refl). cbn [y_saved y_env]. by rewrite Ef.
Qed.

Lemma scan_end g r : scans g r -> r_rest (r_src r) = [] -> r_saved r = [] ->
  exists j g', forall fuel, yylex_loop (j + fuel) YYBegin g = Ok (None, g').
Proof.
  intros Hsc Hnil Hsaved. destruct (at_end g r Hsc Hnil) as (j & bf' & tx' & ls' & lc' & Hb' & Hj).
  destruct Hsc as [_ _ Esv _ _ _ _ _]. rewrite Hsaved in Esv. symmetry in Esv. apply fmap_nil_inv in Esv.
  exists j. eexists. intros fuel. rewrite Hj, Esv. reflexivity.
Qed.

(** What a rule leaves. *)
Lemma ref_rule_shape m a r x r' : env_ok (r_env r) -> starts (start_of (r_env r) (r_bol (r_src r))) ->
  Forall is_u8 (r_rest (r_src r)) -> longest (start_of (r_env r) (r_bol (r_src r))) (r_rest (r_src r)) m a -> ref_rule m a r = Ok (x, r') ->
  (r_saved r' = r_saved r /\ e_files (r_env r') = e_files (r_env r) /\ (length (r_rest (r_src r')) < length (r_rest (r_src r)))%nat) \/
  (x = None /\ (length (e_files (r_env r)) < MAX_INCLUDE_DEPTH)%nat /\ exists src f, r_saved r' = src :: r_saved r /\
    e_files (r_env r') = f :: e_files (r_env r) /\ (length (r_rest src) < length (r_rest (r_src r)))%nat).
Proof.
  destruct r as [e [rest bol line] saved]. cbn [r_env r_src r_saved r_rest r_bol]. intros He Hst H8 Hlong Er.
  pose proof (longest_takes _ _ _ _ Hst H8 Hlong) as Htake. destruct Hlong as (Hle & Hl & Ha & Hn & _).
  assert (1 <= a <= 41) as Ha'.
  { destruct (state_facts _ (lives_live _ _ (start_live _ Hst) Hl)) as (_ & _ & _ & Hr & _). rewrite Ha in Hr. lia. }
  cbn [ref_rule] in Er. cbv zeta in Er. set (m' := if has_context a then pred m else m) in *.
  assert (Hlt : (length (drop m' rest) < length rest)%nat) by (rewrite length_drop; unfold m' in *; destruct (has_context a); lia).
  destruct (rule_action_ok a (take m' rest) (line + counts a (take m rest)) e He Ha') as (y & e' & Ey & He' & Hy). rewrite Ey in Er.
  cbn [rbind] in Er. destruct y as [|t|content]; injection Er as <- <-; cbn [r_env r_src r_saved r_rest].
  - by left.
  - by left.
  - right. destruct Hy as (Hdep & f & _ & Ef). split; [done|]. split; [done|]. eexists _, f. done.
Qed.

Inductive sim_steps : yyguts_t -> rstate -> list token -> yyguts_t -> rstate -> Prop :=
| sim_nil g r : sim_steps g r [] g r
| sim_cons g r x r1 j g1 ts g2 r2 : lex_step r x r1 ->
    (forall fuel, yylex_loop (j + fuel) YYBegin g = match x with None => yylex_loop fuel YYBegin g1 | Some t => Ok (Some t, g1) end) ->
    e_start (y_env g1) <> 0 -> sim_steps g1 r1 ts g2 r2 -> sim_steps g r (match x with Some t => t :: ts | None => ts end) g2 r2.

Lemma sim_app g1 r1 ts1 g2 r2 : sim_steps g1 r1 ts1 g2 r2 -> forall ts2 g3 r3, sim_steps g2 r2 ts2 g3 r3 -> sim_steps g1 r1 (ts1 ++ ts2) g3 r3.
Proof.
  induction 1 as [|g r x r1 j g1 ts g2 r2 Hl Hj H0 _ IH]; intros ts2 g3 r3 H2; [done|]. specialize (IH _ _ _ H2).
  pose proof (sim_cons g r x r1 j g1 _ g3 r3 Hl Hj H0 IH). by destruct x.
Qed.
Lemma sim_lex g1 r1 ts g2 r2 : sim_steps g1 r1 ts g2 r2 -> lex_steps r1 ts r2.
Proof. induction 1; [constructor|by eapply lex_cons]. Qed.

Lemma env_started e : env_ok e -> e_start e <> 0.
Proof. intros [(st & -> & ?) _ _ _]. lia. Qed.

Lemma scans_bytes g r : scans g r -> Forall is_u8 (r_rest (r_src r)).
Proof. intros [_ -> _ Hb _ _ _ _]. cbn. apply Forall_app. split; [apply Forall_drop|]; apply Hb. Qed.

(** A text is scanned to its end, with the files that it includes: the depth of inclusion is
    limited, and every match takes a character. *)
Lemma source_ends d : forall n g r, scans g r -> (length (r_rest (r_src r)) <= n)%nat ->
  (MAX_INCLUDE_DEPTH - length (e_files (r_env r)) = d)%nat ->
  exists ts g' r', sim_steps g r ts g' r' /\ scans g' r' /\ r_rest (r_src r') = [] /\ r_saved r' = r_saved r /\
    e_files (r_env r') = e_files (r_env r).
Proof using Hfiles.
  induction d as [d IHd] using lt_wf_ind. induction n as [n IHn] using lt_wf_ind. intros g r Hsc Hn Hd.
  destruct (decide (r_rest (r_src r) = [])) as [Hnil|Hne].
  { exists [], g, r. split; [constructor|done]. }
  destruct (scan_rule g r Hsc Hne) as (m & a & x & r1 & Hlong & Er & j & g1 & Hs1 & Hj).
  assert (He : env_ok (r_env r)) by (rewrite (sc_env _ _ Hsc); apply Hsc).
  pose proof (start_state_ok (r_env r) (r_bol (r_src r)) He) as Hst.
  pose proof (env_started _ (sc_ok _ _ Hs1)) as H0.
  destruct (ref_rule_shape m a r x r1 He Hst (scans_bytes g r Hsc) Hlong Er) as [(Esv & Ef & Hlt)|(-> & Hdep & src & f & Esv & Ef & Hlt)].
  - destruct (IHn (length (r_rest (r_src r1))) ltac:(lia) g1 r1 Hs1 ltac:(lia) ltac:(by rewrite Ef)) as (ts & g' & r' & Hsim & Hs' & Hnil & Esv' & Ef').
    eexists _, g', r'. split; [apply (sim_cons g r x r1 j g1 ts); [by apply (lex_rule r m a)|done|done|done]|]. split; [done|]. split; [done|]. split; congruence.
  - destruct (IHd (MAX_INCLUDE_DEPTH - length (e_files (r_env r1)))%nat ltac:(rewrite Ef; cbn [length]; lia) _ g1 r1 Hs1 (le_n _) eq_refl)
      as (ts1 & g2 & r2 & Hsim1 & Hs2 & Hnil2 & Esv2 & Ef2). rewrite Esv in Esv2. rewrite Ef in Ef2.
    destruct (scan_pop g2 r2 src (r_saved r) Hs2 Hnil2 Esv2) as (r3 & Hpop & (j3 & g3 & Hs3 & Hj3) & Esrc3 & Esv3 & f3 & Ef3).
    rewrite Ef2 in Ef3. injection Ef3 as _ Ef3.
    destruct (IHn (length (r_rest (r_src r3))) ltac:(rewrite Esrc3; lia) g3 r3 Hs3 ltac:(done) ltac:(by rewrite <- Ef3)) as (ts & g' & r' & Hsim & Hs' & Hnil & Esv' & Ef').
    eexists _, g', r'. split.
    + apply (sim_cons g r None r1 j g1 (ts1 ++ ts)); [by apply (lex_rule r m a)|done|done|]. apply (sim_app _ _ _ _ _ Hsim1).
      apply (sim_cons g2 r2 None r3 j3 g3 ts); [done|done|by apply env_started, Hs3|done].
    + split; [done|]. split; [done|]. split; congruence.
Qed.

(** ** The tokens of a text *)

(** The rest of [yylex_all], in the middle of a call. *)
Definition lex_rest (fuel steps k : nat) : M yyguts_t (list token) :=
  let* t := yylex_loop k YYBegin in
  match t with None => ret [] | Some t => let* l := yylex_all fuel steps in ret (t :: l) end.

Lemma yylex_all_rest fuel steps g : e_start (y_env g) <> 0 -> yylex_all (S fuel) steps g = lex_rest fuel steps steps g.
Proof.
  intros H0. cbn [yylex_all]. unfold lex_rest, libconfig_yylex. rewrite bind_assoc, (bind_ok _ _ _ _ _ eq_refl), bind_assoc.
  by rewrite (proj2 (Z.eqb_neq _ _) H0), (bind_ok _ _ _ _ _ eq_refl).
Qed.

Lemma sim_tokens g r ts g' r' : sim_steps g r ts g' r' -> scans g' r' -> r_rest (r_src r') = [] -> r_saved r' = [] ->
  exists N g'', forall fuel steps k, (N <= fuel)%nat -> (N <= steps)%nat -> (N <= k)%nat -> lex_rest fuel steps k g = Ok (ts, g'').
Proof.
  intros Hsim Hsc Hnil Hsv. induction Hsim as [g r|g r x r1 j g1 ts g2 r2 Hl Hj H0 Hsim IH].
  - destruct (scan_end g r Hsc Hnil Hsv) as (j & g'' & Hj). exists j, g''. intros fuel steps k _ _ Hk. unfold lex_rest.
    replace k with (j + (k - j))%nat by lia. by rewrite (bind_ok _ _ _ _ _ (Hj _)).
  - destruct (IH Hsc Hnil Hsv) as (N & g'' & HN). exists (S (j + N)), g''. intros fuel steps k Hf Hs Hk.
    replace k with (j + (k - j))%nat by lia. destruct x as [t|].
    + unfold lex_rest. rewrite (bind_ok _ _ _ _ _ (Hj _)). destruct fuel as [|fuel]; [lia|].
      assert (E : yylex_all (S fuel) steps g1 = Ok (ts, g'')) by (rewrite yylex_all_rest by done; apply HN; lia).
      by rewrite (bind_ok _ _ _ _ _ E).
    + rewrite <- (HN fuel steps (k - j)%nat) by lia. unfold lex_rest, bind. by rewrite Hj.
Qed.

Lemma lex_deterministic r ts r1 : lex_steps r ts r1 -> forall ts2 r2, lex_steps r ts2 r2 ->
  r_rest (r_src r1) = [] -> r_saved r1 = [] -> r_rest (r_src r2) = [] -> r_saved r2 = [] -> ts = ts2.
Proof.
  assert (Hend : forall r x r', lex_step r x r' -> r_rest (r_src r) = [] -> r_saved r = [] -> False).
  { intros r0 x r' Hs Hn Hsv. by destruct Hs. }
  induction 1 as [r|r x r' ts r1 Hs Hsteps IH]; intros ts2 r2 H2 E1 S1 E2 S2.
  - destruct H2 as [r|r x r' ts r2 Hs _]; [done|]. by destruct (Hend _ _ _ Hs E1 S1).
  - destruct H2 as [r|r y r'' ts2 r2 Hs' Hsteps']; [by destruct (Hend _ _ _ Hs E2 S2)|].
    assert ((x, r') = (y, r'')) as [= <- <-].
    { destruct Hs as [r m a x r' Hne Hlong Er|e bol line src saved f fs Ef].
      - inversion Hs' as [r3 m2 a2 y2 r4 _ Hlong2 Er2|]; subst; [|done].
        assert (m = m2 /\ a = a2) as [<- <-].
        { destruct Hlong as (L1 & V1 & A1 & N1 & M1), Hlong2 as (L2 & V2 & A2 & N2 & M2).
          destruct (Nat.lt_trichotomy m m2) as [Hlt|[<-|Hlt]].
          - rewrite (M1 m2 ltac:(lia) V2) in A2. by subst.
          - split; congruence.
          - rewrite (M2 m ltac:(lia) V1) in A1. by subst. }
        rewrite Er in Er2. injection Er2 as -> ->. done.
      - inversion Hs' as [|e2 bol2 line2 src2 saved2 f2 fs2 Ef2]; subst; [done|]. rewrite Ef in Ef2. by injection Ef2 as _ ->. }
    assert (ts = ts2) as -> by (by apply (IH _ r2)). done.
Qed.

(** From any buffer with a text. *)
Lemma lex_text e bf : env_ok (with_start 1 e) -> e_start e = 0 -> buf_ok bf -> b_buf_pos bf = 0%nat -> b_at_bol bf = true -> e_files e = [] ->
  exists ts N, lexes (reading e (b_chars bf ++ b_input bf) (b_lineno bf)) ts /\
    (forall ts', lexes (reading e (b_chars bf ++ b_input bf) (b_lineno bf)) ts' -> ts' = ts) /\
    forall fuel, (N <= fuel)%nat -> exists g, yylex_all fuel fuel (Guts e bf [] 0 0 0 0) = Ok (ts, g).
Proof using Hfiles.
  intros He H0 Hb Hp Hbol Hf. set (g := Guts (with_start 1 e) bf [] 0 0 0 0). set (r := reading e (b_chars bf ++ b_input bf) (b_lineno bf)).
  assert (Hsc : scans g r).
  { constructor; try done.
    - unfold r, reading, src_of. cbn. by rewrite drop_0, Hbol.
    - cbn. lia.
    - cbn. by rewrite Hf. }
  destruct (source_ends _ _ g r Hsc (le_n _) eq_refl) as (ts & g' & r' & Hsim & Hs' & Hnil & Hsv & _).
  destruct (sim_tokens _ _ _ _ _ Hsim Hs' Hnil Hsv) as (N & g'' & HN). pose proof (sim_lex _ _ _ _ _ Hsim) as Hlex.
  exists ts, (S (S N)). split; [|split].
  - destruct r' as [e' [rest bol line] sv']. cbn in Hnil, Hsv. subst rest sv'. by exists e', bol, line.
  - intros ts' (e' & bol & line & Hlex'). by apply (lex_deterministic _ _ _ Hlex' _ _ Hlex).
  - intros [|fuel] Hfuel; [lia|]. exists g''. rewrite <- (HN fuel (S fuel) (S fuel)) by lia.
    rewrite <- yylex_all_rest by done. cbn [yylex_all]. unfold libconfig_yylex, bind, get. cbn [y_env e_start with_start g]. by rewrite H0.
Qed.
End Scan.

(** The context at the beginning. *)
Lemma scanctx_init_ok filename : exists e, scanctx_init filename = Ok e /\ env_ok (with_start 1 e) /\ e_start e = 0 /\ e_files e = [].
Proof.
  assert (H0 : exists st, 1 = 1 + 2 * st /\ 0 <= st <= 3) by (exists 0; lia).
  destruct filename as [f|]; eexists; (split; [reflexivity|]); (split; [|done]); constructor;
    first [exact H0|by split|cbn; lia|split; [apply Nat.leb_le; reflexivity|reflexivity]].
Qed.

(** C6: the scanner finds the tokens of every text.  Whatever bytes a configuration file and
    the files that it includes hold, and however they fall into the 8 KB blocks of the input
    buffer (a token across two blocks, a buffer that has to grow, NUL bytes that look like the
    end of the buffer, a match that has to be backed up, the end of a file within a token),
    [libconfig_yylex] ends and returns exactly the tokens of the reference: the longest match
    of the automaton on the rest of the text, its action, and at the end of an included file
    the rest of the including one.  The same holds for a string. *)
Theorem scanner_longest_match `{CLib} (filename : option cstring) (text : list Z) :
  (forall f content, fopen f = Some content -> Forall is_u8 content) -> Forall is_u8 text ->
  exists e ts tss fuel0, scanctx_init filename = Ok e /\
    lexes (reading e text 1) ts /\ (forall ts', lexes (reading e text 1) ts' -> ts' = ts) /\
    (forall fuel, (fuel0 <= fuel)%nat -> exists g, scan_file fuel filename text = Ok (ts, g)) /\
    exists e0, scanctx_init None = Ok e0 /\ lexes (reading e0 text 0) tss /\
    forall fuel, (fuel0 <= fuel)%nat -> exists g, scan_string fuel text = Ok (tss, g).
Proof.
  intros Hfiles H8. destruct (scanctx_init_ok filename) as (e & Ee & He & He0 & Hf).
  destruct (scanctx_init_ok None) as (e0 & Ee0 & He' & He0' & Hf').
  destruct (lex_text Hfiles e (libconfig_yy_create_buffer text YY_BUF_SIZE) He He0 (created_ok text H8) eq_refl eq_refl Hf) as (ts & N & Hl & Hu & HN).
  destruct (lex_text Hfiles e0 (Buffer [] text (strlen text) false 0 true YY_BUFFER_NEW 0) He' He0') as (tss & N' & Hl' & _ & HN'); try done.
  cbn [b_chars b_input b_lineno libconfig_yy_create_buffer] in *. rewrite app_nil_r in Hl'.
  exists e, ts, tss, (Nat.max N N'). split; [done|]. split; [done|]. split; [done|]. split.
  - intros fuel Hfuel. unfold scan_file. rewrite Ee. apply HN. lia.
  - exists e0. split; [done|]. split; [done|]. intros fuel Hfuel. unfold scan_string. rewrite Ee0. apply HN'. lia.
Qed.

(** A file that includes another one, with a comment, a string and a NUL. *)
Definition scan_lib : CLib := {|
  fopen := fun f => if strcmp_eq f (str "a.cfg") then Some (str "zz = 0x1F; ") else None;
  atof := fun _ => S754_zero false;
  ULONG_MAX := 2 ^ 64 - 1 |}.
Definition sample_text : list Z :=
  str "@include " ++ [34] ++ str "a.cfg" ++ [34; 10] ++ str "b = -5; /* x */ c = " ++ [34; 92; 110; 0; 34] ++ str " # end".

Lemma sample_files : forall f content, @fopen scan_lib f = Some content -> Forall is_u8 content.
Proof.
  intros f content. cbn [fopen scan_lib]. destruct (strcmp_eq f (str "a.cfg")); [|done]. intros E. injection E as <-.
  apply Forall_forall. intros c Hc. apply (bool_decide_unpack _). revert c Hc. apply Forall_forall.
  repeat (apply Forall_cons; split; [vm_compute; exact I|]). apply Forall_nil_2.
Qed.

Lemma scanner_longest_match_witness : Forall is_u8 sample_text /\
  exists e ts fuel0, scanctx_init (Some (str "top.cfg")) = Ok e /\ lexes (H := scan_lib) (reading e sample_text 1) ts /\
    forall fuel, (fuel0 <= fuel)%nat -> exists g, scan_file (H := scan_lib) fuel (Some (str "top.cfg")) sample_text = Ok (ts, g).
Proof.
  assert (H8 : Forall is_u8 sample_text).
  { apply Forall_forall. intros c Hc. apply (bool_decide_unpack _). revert c Hc. apply Forall_forall.
    repeat (apply Forall_cons; split; [vm_compute; exact I|]). apply Forall_nil_2. }
  split; [exact H8|].
  destruct (@scanner_longest_match scan_lib (Some (str "top.cfg")) sample_text sample_files H8)
    as (e & ts & tss & fuel0 & Ee & Hl & _ & Hrun & _).
  exists e, ts, fuel0. split; [exact Ee|]. split; [exact Hl|exact Hrun].
Defined.

(** The tokens of this file: an unterminated comment at the end is not one. *)
Example sample_tokens : match scan_file (H := scan_lib) 400 None sample_text with Ok (ts, _) => ts | Err _ => [] end =
  [TOK_NAME (str "zz"); TOK_EQUALS; TOK_HEX 31; TOK_END; TOK_GARBAGE; TOK_NAME (str "b"); TOK_EQUALS; TOK_INTEGER (-5); TOK_END;
   TOK_NAME (str "c"); TOK_EQUALS; TOK_STRING [10]; TOK_GARBAGE; TOK_NAME (str "end")].
Proof. vm_compute. reflexivity. Qed.
