(* ===== verification/ScannerTokens.v ===== *)
(** * libconfig: the tokens of a piece of text (scanner.c)

    What the scanner makes of names, numbers, strings, blanks and punctuation, as pieces that
    can be put together. *)

From S2P Require Import Prelude CString Queue LibConfig LibConfigWrite Grammar Scanner ScannerProps.
From Stdlib Require Import SpecFloat.
Local Open Scope ps2rd_scope.
Local Open Scope Z_scope.

(** ** Pieces of text *)

Section Pieces.
  Context `{CLib}.

(** Between two tokens, outside of comments and strings. *)
Definition idle (e : scan_env) : Prop := env_ok e /\ e_start e = 1 /\ sb_string (e_string e) = None.

(** The piece [w] in front of [rest] has the tokens [ts], at the beginning of a line and within. *)
Definition lexed (w rest : list Z) (ts : list token) : Prop :=
  forall e bol line saved, idle e -> exists e' bol' line', idle e' /\
    lex_steps (RState e (Src (w ++ rest) bol line) saved) ts (RState e' (Src rest bol' line') saved).

Lemma lex_steps_app r1 ts1 r2 : lex_steps r1 ts1 r2 -> forall ts2 r3, lex_steps r2 ts2 r3 -> lex_steps r1 (ts1 ++ ts2) r3.
Proof.
  induction 1 as [|r x r' ts r'' Hs _ IH]; intros ts2 r3 H2; [done|].
  pose proof (lex_cons r x r' _ r3 Hs (IH _ _ H2)). by destruct x.
Qed.

Lemma lexed_nil rest : lexed [] rest [].
Proof. intros e bol line saved He. exists e, bol, line. split; [done|constructor]. Qed.

Lemma lexed_app w1 w2 rest ts1 ts2 : lexed w1 (w2 ++ rest) ts1 -> lexed w2 rest ts2 -> lexed (w1 ++ w2) rest (ts1 ++ ts2).
Proof.
  intros H1 H2 e bol line saved He. destruct (H1 e bol line saved He) as (e1 & b1 & l1 & He1 & S1).
  destruct (H2 e1 b1 l1 saved He1) as (e2 & b2 & l2 & He2 & S2). exists e2, b2, l2. split; [done|].
  rewrite <- app_assoc. by apply (lex_steps_app _ _ _ S1).
Qed.

(** ** Words of the automaton *)

Definition stuck (s : Z) (rest : list Z) : Prop := match rest with [] => True | c :: _ => ~ live (delta s c) end.

Lemma longest_word s w rest a : lives s w -> accept (deltas s w) = a -> a <> 0 -> stuck (deltas s w) rest -> longest s (w ++ rest) (length w) a.
Proof.
  intros Hl Ha Hn Hst. assert (Et : take (length w) (w ++ rest) = w) by apply take_app_length.
  split; [rewrite length_app; lia|]. rewrite Et. split; [done|]. split; [done|]. split; [done|].
  intros m' Hm Hl'. exfalso. destruct rest as [|c rest]; [rewrite app_nil_r in Hm; lia|].
  replace m' with (length w + S (m' - length w - 1))%nat in Hl' by lia. rewrite take_app_add in Hl'. cbn [take] in Hl'.
  apply lives_app in Hl' as [_ [Hx _]]. done.
Qed.

Global Instance lives_dec s w : Decision (lives s w).
Proof. revert s. induction w as [|c w IH]; intros s; cbn [lives]; [left; exact I|]. apply and_dec; [apply _|apply IH]. Defined.

(** The word [w] leads from the states [S] to the states [S']. *)
Definition leads (S : list Z) (w : list Z) (S' : list Z) : Prop := forall s, s ∈ S -> lives s w /\ deltas s w ∈ S'.

Lemma in_one (s : Z) : s ∈ [s].
Proof. set_solver. Qed.

Lemma leads_app S1 w1 S2 w2 S3 : leads S1 w1 S2 -> leads S2 w2 S3 -> leads S1 (w1 ++ w2) S3.
Proof.
  intros H1 H2 s Hs. destruct (H1 s Hs) as [L1 D1]. destruct (H2 _ D1) as [L2 D2]. rewrite deltas_app. split; [|done]. by apply lives_app.
Qed.

(** One character of [cs], checked. *)
Definition leads_b (S cs S' : list Z) : bool :=
  forallb (fun s => forallb (fun c => bool_decide (delta s c ∈ S') && bool_decide (live (delta s c))) cs) S.
Lemma leads_char S cs S' c : leads_b S cs S' = true -> c ∈ cs -> leads S [c] S'.
Proof.
  intros HS Hc s Hs. unfold leads_b in HS. rewrite forallb_forall in HS. specialize (HS s (proj1 (list_elem_of_In _ _) Hs)).
  rewrite forallb_forall in HS. specialize (HS c (proj1 (list_elem_of_In _ _) Hc)). apply andb_prop in HS as [H1 H2].
  by apply bool_decide_eq_true in H1, H2.
Qed.
(** Characters of [cs] that keep the automaton in [S]. *)
Lemma leads_loop S cs w : leads_b S cs S = true -> Forall (fun c => c ∈ cs) w -> leads S w S.
Proof.
  intros HS Hw. induction Hw as [|c w Hc Hw IH]; [by intros s Hs|].
  change (c :: w) with ([c] ++ w). apply (leads_app _ _ S); [by apply (leads_char S cs)|done].
Qed.

(** The beginning of a line matters for blanks and for [@] only. *)
Definition inner (c : Z) : Prop := is_u8 c /\ c ∉ [9; 32; 64].
Lemma line_start_same : forallb (fun c => bool_decide (c ∈ [9; 32; 64]) || (delta 2 c =? delta 1 c)) bytes = true.
Proof. vm_compute. reflexivity. Qed.
Lemma start_same c : inner c -> delta 2 c = delta 1 c.
Proof.
  intros [Hc Hn]. pose proof line_start_same as E. rewrite forallb_forall in E. specialize (E c (proj1 (list_elem_of_In _ _) (in_bytes c Hc))).
  rewrite (bool_decide_eq_false_2 _ Hn) in E. by apply Z.eqb_eq.
Qed.

(** One match. *)
Lemma lex_match e w rest bol line saved a x e' : w <> [] -> longest (start_of e bol) (w ++ rest) (length w) a -> has_context a = false ->
  rule_action a w (line + counts a w) e = Ok (x, e') -> (match x with Open _ => False | _ => True end) ->
  exists bol' line', lex_steps (RState e (Src (w ++ rest) bol line) saved) (match x with Tok t => [t] | _ => [] end)
    (RState e' (Src rest bol' line') saved).
Proof.
  intros Hw Hlong Hctx Hact Hx.
  assert (Er : ref_rule (length w) a (RState e (Src (w ++ rest) bol line) saved) =
    Ok (match x with Tok t => Some t | _ => None end, RState e' (Src rest (match last w with Some c => c =? 10 | None => bol end)
      (line + counts a w)) saved)).
  { unfold ref_rule. rewrite Hctx. cbv zeta iota. rewrite take_app_length, Hact, drop_app_length. cbn [rbind]. by destruct x. }
  assert (Hne : r_rest (r_src (RState e (Src (w ++ rest) bol line) saved)) <> []) by (by destruct w).
  eexists _, _. pose proof (lex_cons _ _ _ [] _ (lex_rule _ _ _ _ _ Hne Hlong Er) (lex_nil _)) as Hs. by destruct x.
Qed.

(** One match that leaves the environment as it is. *)
Lemma lexed_word w rest a x : match w with c :: _ => inner c | [] => False end -> lives 1 w -> accept (deltas 1 w) = a -> a <> 0 ->
  has_context a = false -> stuck (deltas 1 w) rest -> (forall line e, rule_action a w line e = Ok (x, e)) ->
  (match x with Open _ => False | _ => True end) -> lexed w rest (match x with Tok t => [t] | _ => [] end).
Proof.
  intros Hc Hl Ha Hn Hctx Hst Hact Hx e bol line saved He. destruct w as [|c w]; [done|].
  assert (Hlong : longest (start_of e bol) ((c :: w) ++ rest) (length (c :: w)) a).
  { unfold start_of. destruct He as (_ & -> & _). assert (Es : delta (1 + (if bol then 1 else 0)) c = delta 1 c).
    { destruct bol; [by apply start_same|done]. }
    apply longest_word; cbn [lives deltas] in *; by rewrite ?Es. }
  destruct (lex_match e (c :: w) rest bol line saved a x e) as (bol' & line' & Hs); [done|done|done|apply Hact|done|].
  by exists e, bol', line'.
Qed.

(** Punctuation and line ends: whatever follows. *)
Definition punctuation (c : Z) : option reaction :=
  if bool_decide (c ∈ [58; 61]) then Some (Tok TOK_EQUALS)
  else if c =? 44 then Some (Tok TOK_COMMA)
  else if c =? 59 then Some (Tok TOK_END)
  else if c =? 40 then Some (Tok TOK_LIST_START)
  else if c =? 41 then Some (Tok TOK_LIST_END)
  else if c =? 91 then Some (Tok TOK_ARRAY_START)
  else if c =? 93 then Some (Tok TOK_ARRAY_END)
  else if c =? 123 then Some (Tok TOK_GROUP_START)
  else if c =? 125 then Some (Tok TOK_GROUP_END)
  else if c =? 10 then Some Again
  else None.

Lemma lexed_char c rest x : c ∈ [58; 61; 44; 59; 40; 41; 91; 93; 123; 125; 10] -> punctuation c = Some x -> Forall is_u8 rest ->
  lexed [c] rest (match x with Tok t => [t] | _ => [] end).
Proof.
  intros Hc Hp Hr. assert (Hst : live (delta 1 c) /\ entry yy_base (delta 1 c) = Ok YY_JAM_BASE /\ inner c /\ accept (delta 1 c) <> 0 /\
    has_context (accept (delta 1 c)) = false /\ (match x with Open _ => False | _ => True end) /\
    forall line e, rule_action (accept (delta 1 c)) [c] line e = Ok (x, e)).
  { rewrite !elem_of_cons in Hc. repeat destruct Hc as [->|Hc]; try (by apply not_elem_of_nil in Hc).
    all: vm_compute in Hp; injection Hp as <-; (split; [by vm_compute|]); (split; [done|]); (split; [split; [by vm_compute|set_solver]|]).
    all: split; [by vm_compute|]; split; [by vm_compute|]; split; [done|]; reflexivity. }
  destruct Hst as (Hl & Hb & Hi & Ha & Hctx & Hx & Hact). apply (lexed_word [c] rest (accept (delta 1 c)) x); try done.
  destruct rest as [|d rest]; [done|]. apply Forall_cons in Hr as [Hd _]. cbn [stuck deltas]. rewrite (delta_base _ _ Hl Hd Hb).
  unfold live, YY_JAM. lia.
Qed.

(** ** Blanks *)

Definition blank (c : Z) : Prop := c ∈ [9; 32].

Lemma blanks_closed : leads_b [11; 33; 45; 61] [9; 32] [11; 33; 45; 61] = true.
Proof. vm_compute. reflexivity. Qed.
Lemma blanks_end : forallb (fun s => forallb (fun c => bool_decide (c ∈ [9; 32; 64]) || (delta s c =? 44)) bytes) [11; 33; 45; 61] = true.
Proof. vm_compute. reflexivity. Qed.

Lemma lexed_blanks w c rest : w <> [] -> Forall blank w -> inner c -> Forall is_u8 rest -> lexed w (c :: rest) [].
Proof.
  intros Hne Hw [Hc Hci] Hr e bol line saved He. destruct w as [|b w]; [done|]. apply Forall_cons in Hw as [Hb Hw].
  assert (Hst : start_of e bol = 1 \/ start_of e bol = 2).
  { unfold start_of. destruct He as (_ & -> & _). destruct bol; [by right|by left]. }
  assert (Hd : live (delta (start_of e bol) b) /\ delta (start_of e bol) b ∈ [11; 33; 45; 61]).
  { unfold blank in Hb. rewrite !elem_of_cons in Hb. destruct Hst as [->| ->], Hb as [->|[->|Hb]]; try (by apply not_elem_of_nil in Hb);
      (split; apply (bool_decide_unpack _); by vm_compute). }
  destruct (leads_loop _ _ w blanks_closed Hw _ (proj2 Hd)) as [Hl HS].
  assert (E44 : delta (deltas (start_of e bol) (b :: w)) c = 44).
  { pose proof blanks_end as E. rewrite forallb_forall in E. specialize (E _ (proj1 (list_elem_of_In _ _) HS)). rewrite forallb_forall in E.
    specialize (E c (proj1 (list_elem_of_In _ _) (in_bytes c Hc))). rewrite (bool_decide_eq_false_2 _ Hci) in E. by apply Z.eqb_eq. }
  assert (Hlong : longest (start_of e bol) (((b :: w) ++ [c]) ++ rest) (length ((b :: w) ++ [c])) 21).
  { apply longest_word.
    - apply lives_app. split; [by split; [apply Hd|]|]. cbn [lives]. rewrite E44. by vm_compute.
    - rewrite deltas_app. cbn [deltas]. cbn [deltas] in E44. by rewrite E44.
    - done.
    - rewrite deltas_app. cbn [deltas] in *. rewrite E44. destruct rest as [|d rest]; [done|]. apply Forall_cons in Hr as [Hd8 _].
      cbn [stuck]. rewrite (delta_base 44 d); [unfold live, YY_JAM; lia|by vm_compute|done|reflexivity]. }
  rewrite <- app_assoc in Hlong. cbn [app] in Hlong.
  assert (Er : ref_rule (length ((b :: w) ++ [c])) 21 (RState e (Src (b :: w ++ c :: rest) bol line) saved) =
    Ok (None, RState e (Src (c :: rest) (match last (b :: w) with Some c => c =? 10 | None => bol end)
      (line + counts 21 ((b :: w) ++ [c]))) saved)).
  { unfold ref_rule. change (has_context 21) with true. cbv zeta iota. rewrite length_app. cbn [length]. rewrite Nat.add_1_r. cbn [pred].
    change (b :: w ++ c :: rest) with ((b :: w) ++ c :: rest). change (S (length w)) with (length (b :: w)).
    rewrite take_app_length, drop_app_length. replace (take (S (length (b :: w))) ((b :: w) ++ c :: rest)) with ((b :: w) ++ [c]); [done|].
    change (c :: rest) with ([c] ++ rest). rewrite app_assoc. replace (S (length (b :: w))) with (length ((b :: w) ++ [c])) by (rewrite length_app; cbn; lia).
    by rewrite take_app_length. }
  assert (Hne' : r_rest (r_src (RState e (Src (b :: w ++ c :: rest) bol line) saved)) <> []) by done.
  eexists e, _, _. split; [done|]. exact (lex_cons _ _ _ [] _ (lex_rule _ _ _ _ _ Hne' Hlong Er) (lex_nil _)).
Qed.

(** ** Words in front of a separator *)

Definition follows (rest : list Z) : Prop := match rest with c :: _ => c ∈ [32; 44; 59] | [] => False end.

(** A set of states in which a rule accepts and a separator ends the word. *)
Definition ends (S : list Z) (a : Z) : bool :=
  forallb (fun s => (accept s =? a) && forallb (fun c => negb (bool_decide (live (delta s c)))) [32; 44; 59]) S.
Lemma ends_word S a s rest : ends S a = true -> s ∈ S -> follows rest -> accept s = a /\ stuck s rest.
Proof.
  intros HE Hs Hf. unfold ends in HE. rewrite forallb_forall in HE. specialize (HE s (proj1 (list_elem_of_In _ _) Hs)).
  apply andb_prop in HE as [E1 E2]. split; [by apply Z.eqb_eq|]. destruct rest as [|c rest]; [done|]. cbn [stuck follows] in *.
  rewrite forallb_forall in E2. specialize (E2 c (proj1 (list_elem_of_In _ _) Hf)). apply negb_true_iff in E2.
  by apply bool_decide_eq_false in E2.
Qed.

Lemma lexed_leads c w S a rest t : inner c -> leads [1] (c :: w) S -> ends S a = true -> follows rest -> a <> 0 -> has_context a = false ->
  (forall line e, rule_action a (c :: w) line e = Ok (Tok t, e)) -> lexed (c :: w) rest [t].
Proof.
  intros Hc Hl He Hf Ha Hctx Hact. destruct (Hl 1 ltac:(set_solver)) as [H1 H2]. destruct (ends_word S a _ rest He H2 Hf) as [Eacc Hst].
  by apply (lexed_word (c :: w) rest a (Tok t)).
Qed.

(** ** Booleans and numbers *)

Definition digit_chars : list Z := seqZ 48 10.
Definition hex_chars : list Z := seqZ 48 10 ++ seqZ 65 6 ++ seqZ 97 6.
Definition digits_only (w : list Z) : Prop := Forall (fun c => c ∈ digit_chars) w.
Definition hex_only (w : list Z) : Prop := Forall (fun c => c ∈ hex_chars) w.

Lemma digit_inner c : c ∈ digit_chars -> inner c.
Proof. intros Hc. apply elem_of_seqZ in Hc. split; [split; lia|]. rewrite !elem_of_cons, elem_of_nil. lia. Qed.
Lemma hex_range c : c ∈ hex_chars -> 48 <= c <= 57 \/ 65 <= c <= 70 \/ 97 <= c <= 102.
Proof. unfold hex_chars. rewrite !elem_of_app, !elem_of_seqZ. lia. Qed.
Lemma digits_nul_free w : digits_only w -> nul_free w.
Proof. intros Hw. apply (Forall_impl _ _ _ Hw). intros c Hc. apply elem_of_seqZ in Hc. lia. Qed.
Lemma hex_nul_free w : hex_only w -> nul_free w.
Proof. intros Hw. apply (Forall_impl _ _ _ Hw). intros c Hc. apply hex_range in Hc. lia. Qed.

Ltac checked := vm_compute; reflexivity.
Ltac member := apply (bool_decide_unpack _); vm_compute; exact I.
(** Each character of a fixed word leads to one state. *)
Ltac fixed S := match goal with |- leads _ [?c] _ => apply (leads_char _ [c] S); [checked|set_solver] end.

Lemma lexed_true rest : follows rest -> lexed (str "true") rest [TOK_BOOLEAN 1].
Proof.
  intros Hf. change (str "true") with ([116; 114; 117; 101]). apply (lexed_leads _ _ [92] 26); [split; [done|set_solver]| |checked|done|done|done|reflexivity].
  apply (leads_app _ [116] [28]); [fixed [28]|]. apply (leads_app _ [114] [60]); [fixed [60]|].
  apply (leads_app _ [117] [85]); [fixed [85]|fixed [92]].
Qed.
Lemma lexed_false rest : follows rest -> lexed (str "false") rest [TOK_BOOLEAN 0].
Proof.
  intros Hf. change (str "false") with ([102; 97; 108; 115; 101]). apply (lexed_leads _ _ [96] 27); [split; [done|set_solver]| |checked|done|done|done|reflexivity].
  apply (leads_app _ [102] [27]); [fixed [27]|]. apply (leads_app _ [97] [59]); [fixed [59]|].
  apply (leads_app _ [108] [84]); [fixed [84]|]. apply (leads_app _ [115] [91]); [fixed [91]|fixed [96]].
Qed.

(** Digits with an optional sign. *)
Definition int_text (w : list Z) : Prop := exists sg d ds, w = sg ++ d :: ds /\ (sg = [] \/ sg = [45]) /\ d ∈ digit_chars /\ digits_only ds.

Lemma int_leads w : int_text w -> leads [1] w [23; 24; 50] /\ nul_free w /\ match w with c :: _ => inner c | [] => False end.
Proof.
  intros (sg & d & ds & -> & Hsg & Hd & Hds). change (d :: ds) with ([d] ++ ds).
  assert (Hl : leads [23; 24; 50] ds [23; 24; 50]) by (apply (leads_loop _ digit_chars); [checked|done]).
  assert (Hn : nul_free ([d] ++ ds)) by (by apply digits_nul_free, Forall_cons).
  destruct Hsg as [->| ->].
  - split; [|split; [done|by apply digit_inner]]. apply (leads_app _ [d] [23; 24; 50] ds); [|done]. apply (leads_char _ digit_chars); [checked|done].
  - split; [|split; [by apply Forall_cons|split; [done|set_solver]]]. apply (leads_app _ [45] [19]); [fixed [19]|].
    apply (leads_app _ [d] [23; 24; 50] ds); [|done]. apply (leads_char _ digit_chars); [checked|done].
Qed.

Lemma lexed_int w rest : int_text w -> follows rest -> lexed w rest [TOK_INTEGER (atoi w)].
Proof.
  intros Hw Hf. destruct (int_leads w Hw) as (Hl & Hn & Hi). destruct w as [|c w]; [done|].
  apply (lexed_leads c w [23; 24; 50] 30); [done|done|checked|done|done|done|]. intros line e. unfold rule_action. by rewrite cstr_id.
Qed.
(** The conversion of 64-bit integers is not there on the EE. *)
Lemma lexed_int64 w rest : int_text w -> follows rest -> lexed (w ++ [76]) rest [TOK_INTEGER64 0].
Proof.
  intros Hw Hf. destruct (int_leads w Hw) as (Hl & Hn & Hi). destruct w as [|c w]; [done|]. cbn [app].
  apply (lexed_leads c (w ++ [76]) [57] 31); [done| |checked|done|done|done|reflexivity].
  apply (leads_app _ (c :: w) [23; 24; 50]); [done|]. fixed [57].
Qed.

(** Hexadecimal numbers. *)
Lemma hex_leads d w : d ∈ hex_chars -> hex_only w -> leads [1] ([48; 120; d] ++ w) [83].
Proof.
  intros Hd Hw. apply (leads_app _ [48; 120; d] [83]); [|apply (leads_loop _ hex_chars); [checked|done]].
  apply (leads_app _ [48] [23]); [fixed [23]|]. apply (leads_app _ [120] [58]); [fixed [58]|].
  apply (leads_char _ hex_chars); [checked|done].
Qed.
Lemma lexed_hex d w rest : d ∈ hex_chars -> hex_only w -> follows rest ->
  lexed (48 :: 120 :: d :: w) rest [TOK_HEX (s32 (strtoul16 (48 :: 120 :: d :: w)))].
Proof.
  intros Hd Hw Hf. apply (lexed_leads 48 (120 :: d :: w) [83] 32); [split; [done|set_solver]|by apply hex_leads|checked|done|done|done|].
  intros line e. unfold rule_action. rewrite cstr_id; [reflexivity|]. apply Forall_cons. split; [done|]. apply Forall_cons. split; [done|].
  by apply (hex_nul_free (d :: w)), Forall_cons.
Qed.
Lemma lexed_hex64 d w rest : d ∈ hex_chars -> hex_only w -> follows rest ->
  lexed (48 :: 120 :: d :: w ++ [76]) rest [TOK_HEX64 (s64 (fromhex (48 :: 120 :: d :: w ++ [76])))].
Proof.
  intros Hd Hw Hf. apply (lexed_leads 48 (120 :: d :: w ++ [76]) [90] 33); [split; [done|set_solver]| |checked|done|done|done|].
  - apply (leads_app _ ([48; 120; d] ++ w) [83]); [by apply hex_leads|fixed [90]].
  - intros line e. unfold rule_action. rewrite cstr_id; [reflexivity|]. apply Forall_cons. split; [done|]. apply Forall_cons. split; [done|].
    apply (Forall_app _ (d :: w) [76]). split; [by apply (hex_nul_free (d :: w)), Forall_cons|by apply Forall_cons].
Qed.

(** Floating-point numbers: a fraction, an exponent, or both. *)
Definition float_text (w : list Z) : Prop :=
  exists i fr ex, w = i ++ fr ++ ex /\ int_text i /\ (fr = [] /\ ex <> [] \/ exists ds, fr = 46 :: ds /\ digits_only ds) /\
    (ex = [] \/ exists sg d ds, ex = 101 :: sg :: d :: ds /\ sg ∈ [43; 45] /\ d ∈ digit_chars /\ digits_only ds).

Lemma exponent_leads S S1 S2 S3 sg d ds : leads_b S [101] S1 = true -> leads_b S1 [43; 45] S2 = true -> leads_b S2 digit_chars S3 = true ->
  leads_b S3 digit_chars S3 = true -> sg ∈ [43; 45] -> d ∈ digit_chars -> digits_only ds -> leads S (101 :: sg :: d :: ds) S3.
Proof.
  intros H1 H2 H3 H4 Hsg Hd Hds. apply (leads_app _ [101] S1); [apply (leads_char _ [101]); [done|set_solver]|].
  apply (leads_app _ [sg] S2); [by apply (leads_char _ [43; 45])|]. apply (leads_app _ [d] S3); [by apply (leads_char _ digit_chars)|].
  by apply (leads_loop _ digit_chars).
Qed.

Lemma float_leads w : float_text w -> leads [1] w [55; 78; 81; 89] /\ nul_free w /\ match w with c :: _ => inner c | [] => False end.
Proof.
  intros (i & fr & ex & -> & Hi & Hfr & Hex). destruct (int_leads i Hi) as (Hl & Hn & Hin). split; [|split].
  - apply (leads_app _ i [23; 24; 50]); [done|]. destruct Hfr as [[-> Hne]|(ds & -> & Hds)].
    + destruct Hex as [->|(sg & d & es & -> & Hsg & Hd & Hes)]; [done|]. cbn [app].
      intros s Hs. destruct (exponent_leads [23; 24; 50] [56] [80] [81] sg d es ltac:(checked) ltac:(checked) ltac:(checked) ltac:(checked) Hsg Hd Hes s Hs).
      split; [done|set_solver].
    + apply (leads_app _ (46 :: ds) [55; 78]).
      * apply (leads_app _ [46] [55; 78]); [apply (leads_char _ [46]); [checked|set_solver]|]. apply (leads_loop _ digit_chars); [checked|done].
      * destruct Hex as [->|(sg & d & es & -> & Hsg & Hd & Hes)]; [intros s Hs; split; [done|cbn; set_solver]|].
        intros s Hs. destruct (exponent_leads [55; 78] [79] [88] [89] sg d es ltac:(checked) ltac:(checked) ltac:(checked) ltac:(checked) Hsg Hd Hes s Hs).
        split; [done|set_solver].
  - apply Forall_app. split; [done|]. apply Forall_app. split.
    + destruct Hfr as [[-> _]|(ds & -> & Hds)]; [constructor|]. apply Forall_cons. split; [done|by apply digits_nul_free].
    + destruct Hex as [->|(sg & d & es & -> & Hsg & Hd & Hes)]; [constructor|]. apply Forall_cons. split; [done|]. apply Forall_cons.
      split; [set_solver|]. by apply (digits_nul_free (d :: es)), Forall_cons.
  - destruct i; [done|exact Hin].
Qed.
Lemma lexed_float w rest : float_text w -> follows rest -> lexed w rest [TOK_FLOAT (atof w)].
Proof.
  intros Hw Hf. destruct (float_leads w Hw) as (Hl & Hn & Hi). destruct w as [|c w]; [done|].
  apply (lexed_leads c w [55; 78; 81; 89] 29); [done|done|checked|done|done|done|]. intros line e. unfold rule_action. by rewrite cstr_id.
Qed.

(** ** Names *)

Definition tolower (c : Z) : Z := if (65 <=? c) && (c <=? 90) then c + 32 else c.
(** Names that are taken for a boolean. *)
Definition boolean_name (n : cstring) : Prop := tolower <$> n ∈ [str "true"; str "false"].

Definition name_states : list Z := [18; 27; 28; 48; 59; 60; 84; 85; 91; 92; 96].
Definition first_chars : list Z := filter (fun c => (isalpha c || (c =? 42))%bool = true) bytes.
Definition name_chars : list Z := filter (fun c => name_char c = true) bytes.

Lemma valid_name n : __config_validate_name n = true -> exists c w, n = c :: w /\ c ∈ first_chars /\ Forall (fun c => c ∈ name_chars) w.
Proof.
  destruct n as [|c w]; [done|]. cbn. intros E. apply andb_prop in E as [Hc Hw]. exists c, w. split; [done|].
  assert (Hb : forall x, name_char x = true -> x ∈ bytes).
  { intros x Hx. apply in_bytes. unfold name_char, isalpha, isdigit in Hx.
    rewrite !orb_true_iff, !andb_true_iff, !Z.leb_le, bool_decide_eq_true, !elem_of_cons, elem_of_nil in Hx. split; lia. }
  split.
  - apply list_elem_of_filter. split; [done|]. apply Hb. unfold name_char. apply orb_true_iff in Hc as [->|Hc]; [done|].
    apply Z.eqb_eq in Hc as ->. reflexivity.
  - rewrite forallb_forall in Hw. apply Forall_forall. intros x Hx. apply list_elem_of_In in Hx.
    apply list_elem_of_filter. split; [by apply Hw|]. by apply Hb, Hw.
Qed.

Lemma name_leads c w : c ∈ first_chars -> Forall (fun c => c ∈ name_chars) w -> leads [1] (c :: w) name_states.
Proof.
  intros Hc Hw. apply (leads_app _ [c] name_states w); [apply (leads_char _ first_chars); [checked|exact Hc]|].
  apply (leads_loop _ name_chars); [checked|exact Hw].
Qed.

(** The states of a boolean are reached by its letters only. *)
Definition letters : list (Z * Z * Z) :=
  [(92, 85, 101); (85, 60, 117); (60, 28, 114); (28, 1, 116); (96, 91, 101); (91, 84, 115); (84, 59, 108); (59, 27, 97); (27, 1, 102)].
Lemma letters_ok : forallb (fun s => forallb (fun c => forallb (fun '(t, p, l) =>
  if delta s c =? t then (s =? p) && (tolower c =? l) else true) letters) (first_chars ++ name_chars)) (1 :: name_states) = true.
Proof. vm_compute. reflexivity. Qed.

Lemma letter_back w c t p l : (t, p, l) ∈ letters -> w = [] \/ deltas 1 w ∈ name_states -> c ∈ first_chars ++ name_chars ->
  deltas 1 (w ++ [c]) = t -> deltas 1 w = p /\ tolower c = l.
Proof.
  intros Hl Hw Hc Ht. rewrite deltas_app in Ht. cbn [deltas] in Ht. pose proof letters_ok as E. rewrite forallb_forall in E.
  assert (deltas 1 w ∈ 1 :: name_states) as Hs by (destruct Hw as [->|?]; [left|by right]).
  specialize (E _ (proj1 (list_elem_of_In _ _) Hs)). rewrite forallb_forall in E. specialize (E c (proj1 (list_elem_of_In _ _) Hc)).
  rewrite forallb_forall in E. specialize (E _ (proj1 (list_elem_of_In _ _) Hl)). cbv beta iota in E.
  rewrite Ht, Z.eqb_refl in E. apply andb_prop in E as [E1 E2]. by apply Z.eqb_eq in E1, E2.
Qed.

(** A prefix of a name. *)
Definition name_prefix (w : list Z) : Prop := w = [] \/ exists c v, w = c :: v /\ c ∈ first_chars /\ Forall (fun c => c ∈ name_chars) v.
Lemma prefix_state w : name_prefix w -> w = [] \/ deltas 1 w ∈ name_states.
Proof.
  intros [->|(c & v & -> & Hc & Hv)]; [by left|right]. exact (proj2 (name_leads c v Hc Hv 1 (in_one 1))).
Qed.
Lemma prefix_snoc w c : name_prefix (w ++ [c]) -> name_prefix w /\ c ∈ first_chars ++ name_chars.
Proof.
  intros [E|(d & v & E & Hd & Hv)]; [by destruct w|]. destruct w as [|x w].
  - injection E as -> _. split; [by left|]. apply elem_of_app. by left.
  - injection E as <- <-. apply Forall_app in Hv as [Hv Hc]. apply Forall_cons in Hc as [Hc _].
    split; [right; by exists x, w|]. apply elem_of_app. by right.
Qed.
Lemma spelled_back w t p l word : (t, p, l) ∈ letters -> name_prefix w -> deltas 1 w = t ->
  (forall v, name_prefix v -> deltas 1 v = p -> tolower <$> v = word) -> tolower <$> w = word ++ [l].
Proof.
  intros Hl Hw Ht Hprev. destruct w as [|c w _] using rev_ind.
  { cbn in Ht. subst t. exfalso. revert Hl. apply (bool_decide_unpack _). vm_compute. exact I. }
  apply prefix_snoc in Hw as [Hw Hc]. destruct (letter_back w c t p l Hl (prefix_state w Hw) Hc Ht) as [Hp <-].
  by rewrite fmap_app, (Hprev w Hw Hp).
Qed.
Lemma spelled_nil w : name_prefix w -> deltas 1 w = 1 -> tolower <$> w = [].
Proof. intros Hw E. destruct (prefix_state w Hw) as [->|Hs]; [done|]. rewrite E in Hs. by vm_compute in Hs; set_solver. Qed.

Ltac spelled t p l := eapply (spelled_back _ t p l); [member|eassumption|eassumption|].
Lemma spelled_true w : name_prefix w -> deltas 1 w = 92 -> tolower <$> w = str "true".
Proof.
  intros Hw E. change (str "true") with (((([] ++ [116]) ++ [114]) ++ [117]) ++ [101]).
  spelled 92 85 101. clear w Hw E. intros w Hw E. spelled 85 60 117. clear w Hw E. intros w Hw E.
  spelled 60 28 114. clear w Hw E. intros w Hw E. spelled 28 1 116. exact spelled_nil.
Qed.
Lemma spelled_false w : name_prefix w -> deltas 1 w = 96 -> tolower <$> w = str "false".
Proof.
  intros Hw E. change (str "false") with ((((([] ++ [102]) ++ [97]) ++ [108]) ++ [115]) ++ [101]).
  spelled 96 91 101. clear w Hw E. intros w Hw E. spelled 91 84 115. clear w Hw E. intros w Hw E.
  spelled 84 59 108. clear w Hw E. intros w Hw E. spelled 59 27 97. clear w Hw E. intros w Hw E. spelled 27 1 102. exact spelled_nil.
Qed.

Lemma first_inner : forallb (fun c => bool_decide (is_u8 c) && bool_decide (c ∉ [9; 32; 64]) && negb (c =? 0)) (first_chars ++ name_chars) = true.
Proof. vm_compute. reflexivity. Qed.
Lemma name_char_inner c : c ∈ first_chars ++ name_chars -> inner c /\ c <> 0.
Proof.
  intros Hc. pose proof first_inner as E. rewrite forallb_forall in E. specialize (E c (proj1 (list_elem_of_In _ _) Hc)).
  apply andb_prop in E as [E E3]. apply andb_prop in E as [E1 E2]. apply bool_decide_eq_true in E1, E2. apply negb_true_iff in E3.
  apply Z.eqb_neq in E3. done.
Qed.

(** A name that is not a boolean. *)
Lemma lexed_name n rest : __config_validate_name n = true -> ~ boolean_name n -> follows rest -> lexed n rest [TOK_NAME n].
Proof.
  intros Hv Hb Hf. destruct (valid_name n Hv) as (c & w & -> & Hc & Hw).
  assert (Hp : name_prefix (c :: w)) by (right; by exists c, w). pose proof (name_leads c w Hc Hw) as Hl.
  assert (Hl' : leads [1] (c :: w) [18; 27; 28; 48; 59; 60; 84; 85; 91]).
  { intros s Hs. destruct (Hl s Hs) as [H1 H2]. split; [done|]. apply list_elem_of_singleton in Hs as ->.
    unfold name_states in H2. rewrite !elem_of_cons, elem_of_nil in H2.
    assert (deltas 1 (c :: w) <> 92) by (intros E; apply Hb; unfold boolean_name; rewrite (spelled_true _ Hp E); by left).
    assert (deltas 1 (c :: w) <> 96) by (intros E; apply Hb; unfold boolean_name; rewrite (spelled_false _ Hp E); by right; left).
    rewrite !elem_of_cons, elem_of_nil. tauto. }
  assert (Hall : Forall (fun x => x ∈ first_chars ++ name_chars) (c :: w)).
  { apply Forall_cons. split; [apply elem_of_app; by left|]. apply (Forall_impl _ _ _ Hw). intros x Hx. apply elem_of_app. by right. }
  apply (lexed_leads c w [18; 27; 28; 48; 59; 60; 84; 85; 91] 28); [|exact Hl'|checked|exact Hf|done|done|].
  - apply Forall_cons in Hall as [Hx _]. exact (proj1 (name_char_inner c Hx)).
  - intros line e. unfold rule_action. rewrite cstr_id; [reflexivity|]. apply (Forall_impl _ _ _ Hall). intros x Hx.
    exact (proj2 (name_char_inner x Hx)).
Qed.

(** ** Strings *)

Context (Hulong : 2 ^ 32 - 1 <= ULONG_MAX).

(** Within a string, of which [acc] was read. *)
Definition in_string (acc : cstring) (e : scan_env) : Prop :=
  env_ok e /\ e_start e = 5 /\ default [] (sb_string (e_string e)) = acc.

Definition plain_chars : list Z := filter (fun c => 32 <= c /\ c <> 34 /\ c <> 92) bytes.

(** A match in a string, by a rule that appends [x]. *)
Lemma string_match e acc w rest bol line saved a x : in_string acc e -> w <> [] ->
  lives 5 w -> accept (deltas 5 w) = a -> delta 6 (default 0 (head w)) = delta 5 (default 0 (head w)) -> a <> 0 -> has_context a = false ->
  stuck (deltas 5 w) rest -> (forall line, rule_action a w line e = append x e) ->
  exists e' bol' line', in_string (acc ++ x) e' /\
    lex_steps (RState e (Src (w ++ rest) bol line) saved) [] (RState e' (Src rest bol' line') saved).
Proof.
  intros (He & Hs & Hacc) Hne Hl Ha E6 Hn Hctx Hst Hact. destruct w as [|c w]; [done|]. cbn [head default] in E6.
  assert (Hlong : longest (start_of e bol) ((c :: w) ++ rest) (length (c :: w)) a).
  { unfold start_of. rewrite Hs. assert (Es : delta (5 + (if bol then 1 else 0)) c = delta 5 c) by (by destruct bol).
    apply longest_word; cbn [lives deltas] in *; by rewrite ?Es. }
  destruct (strbuf_append_ok x (e_string e) (eo_string e He)) as (b & Eb & Hb & Ebs).
  destruct (lex_match e (c :: w) rest bol line saved a Again (with_string b e)) as (bol' & line' & Hsteps); [done|done|done| |done|].
  { rewrite Hact. unfold append, scanctx_append_string. by rewrite Eb. }
  exists (with_string b e), bol', line'. split; [|done]. split; [by apply env_with_string|]. split; [done|].
  cbn. rewrite Ebs. cbn. by rewrite Hacc.
Qed.

Lemma string_same : forallb (fun c => delta 6 c =? delta 5 c) bytes = true.
Proof. vm_compute. reflexivity. Qed.
Lemma string_start c : is_u8 c -> delta 6 c = delta 5 c.
Proof.
  intros Hc. pose proof string_same as E. rewrite forallb_forall in E. apply Z.eqb_eq, E, list_elem_of_In. by apply in_bytes.
Qed.

(** A run of plain characters ends at a quote or a backslash. *)
Lemma string_plain e acc c w d rest bol line saved : in_string acc e -> Forall (fun c => c ∈ plain_chars) (c :: w) -> d ∈ [34; 92] ->
  exists e' bol' line', in_string (acc ++ c :: w) e' /\
    lex_steps (RState e (Src ((c :: w) ++ d :: rest) bol line) saved) [] (RState e' (Src (d :: rest) bol' line') saved).
Proof.
  intros He Hw Hd. pose proof (Forall_inv Hw) as Hc. assert (Hl : leads [5] (c :: w) [38; 65]).
  { apply (leads_app _ [c] [38; 65] w); [apply (leads_char _ plain_chars); [checked|exact Hc]|].
    apply (leads_loop _ plain_chars); [checked|exact (Forall_inv_tail Hw)]. }
  destruct (Hl 5 (in_one 5)) as [H1 H2].
  assert (Hend : accept (deltas 5 (c :: w)) = 6 /\ ~ live (delta (deltas 5 (c :: w)) d)).
  { revert H2. generalize (deltas 5 (c :: w)). intros s Hs. rewrite !elem_of_cons, elem_of_nil in Hs, Hd.
    destruct Hs as [->|[->|[]]], Hd as [->|[->|[]]]; (split; [reflexivity|member]). }
  assert (Hplain : forall x, x ∈ plain_chars -> is_u8 x /\ x <> 0).
  { intros x Hx. apply list_elem_of_filter in Hx as [Hx1 Hx2]. apply elem_of_seqZ in Hx2. split; [split|]; lia. }
  apply (string_match e acc (c :: w) (d :: rest) bol line saved 6 (c :: w)); [done|done|done|apply Hend| |done|done|apply Hend|].
  - apply string_start. exact (proj1 (Hplain c Hc)).
  - intros l. unfold rule_action. rewrite cstr_id; [reflexivity|]. apply (Forall_impl _ _ _ Hw). intros x Hx. exact (proj2 (Hplain x Hx)).
Qed.

(** The closing quote. *)
Lemma string_quote e acc rest bol line saved : in_string acc e -> Forall is_u8 rest ->
  exists e' bol' line', idle e' /\
    lex_steps (RState e (Src (34 :: rest) bol line) saved) [TOK_STRING acc] (RState e' (Src rest bol' line') saved).
Proof.
  intros (He & Hs & Hacc) Hr. assert (Hlong : longest (start_of e bol) ([34] ++ rest) (length [34]) 14).
  { unfold start_of. rewrite Hs. assert (Es : delta (5 + (if bol then 1 else 0)) 34 = 39) by (by destruct bol).
    apply longest_word; cbn [lives deltas]; rewrite ?Es; [by vm_compute|done|done|]. destruct rest as [|d rest]; [done|].
    apply Forall_cons in Hr as [Hd _]. cbn [stuck]. rewrite (delta_base 39 d); [unfold live, YY_JAM; lia|by vm_compute|done|reflexivity]. }
  destruct (lex_match e [34] rest bol line saved 14 (Tok (TOK_STRING acc)) (BEGIN INITIAL (with_string strbuf_zero e)))
    as (bol' & line' & Hsteps); [done|done|done| |done|].
  { unfold rule_action, scanctx_take_string. cbn -[counts]. by rewrite <- Hacc. }
  eexists _, bol', line'. split; [|exact Hsteps]. split; [|done]. apply env_begin; [by apply env_with_string|done].
Qed.

(** An escape sequence. *)
Lemma escape_check : forallb (fun c =>
  bool_decide (c ∈ plain_chars) || (match escape c with [] => false | _ => true end &&
    bool_decide (lives 5 (escape c)) && res_is (entry yy_base (deltas 5 (escape c))) YY_JAM_BASE &&
    bool_decide (accept (deltas 5 (escape c)) ∈ [7; 8; 9; 10; 11; 12; 13]) && bool_decide (default 0 (head (escape c)) = 92)))
  (seqZ 1 255) = true.
Proof. vm_compute. reflexivity. Qed.

(** The other control characters: two hexadecimal digits. *)
Lemma hex_check : forallb (fun c => bool_decide (c ∈ [9; 10; 12; 13]) ||
  match escape c with
  | [a; b; x; y] => (accept (deltas 5 (escape c)) =? 13) && forallb (fun z => negb (z =? 0)) (escape c) && negb (isspace x) && negb (x =? 45) &&
      negb (x =? 43) && (hex_magnitude [x; y] =? c) && (Z.land c 0xFF =? c)
  | _ => false
  end) (seqZ 1 31) = true.
Proof. vm_compute. reflexivity. Qed.
Lemma escape_hex c : 1 <= c < 256 -> c ∉ plain_chars -> c ∉ [9; 10; 12; 13; 34; 92] ->
  accept (deltas 5 (escape c)) = 13 /\ forall l e, rule_action 13 (escape c) l e = append [c] e.
Proof using Hulong.
  intros Hc Hp Hs. rewrite !not_elem_of_cons in Hs. assert (c < 32) as Hlt.
  { destruct (Z.lt_ge_cases c 32); [done|]. exfalso. apply Hp, list_elem_of_filter. split; [tauto|]. apply elem_of_seqZ. lia. }
  pose proof hex_check as E. rewrite forallb_forall in E. specialize (E c ltac:(apply list_elem_of_In, elem_of_seqZ; lia)).
  rewrite bool_decide_eq_false_2 in E by (rewrite !not_elem_of_cons; split_and!; try tauto; apply not_elem_of_nil). cbn [orb] in E.
  destruct (escape c) as [|a [|b [|x [|y [|]]]]] eqn:Ee; try done.
  apply andb_prop in E as [E E7]. apply andb_prop in E as [E E6]. apply andb_prop in E as [E E5]. apply andb_prop in E as [E E4].
  apply andb_prop in E as [E E3]. apply andb_prop in E as [E1 E2]. apply Z.eqb_eq in E1, E6, E7. apply negb_true_iff in E3, E4, E5.
  split; [done|]. intros l e. assert (Hnf : nul_free [a; b; x; y]).
  { apply Forall_forall. intros z Hz. rewrite forallb_forall in E2. specialize (E2 z (proj1 (list_elem_of_In _ _) Hz)).
    apply negb_true_iff in E2. by apply Z.eqb_neq. }
  unfold rule_action. rewrite cstr_id by done. change (drop 2 [a; b; x; y]) with [x; y].
  assert (Est : strtol16 [x; y] = c).
  { cbn [strtol16]. rewrite E3, E4, E5. cbn [orb]. rewrite E6. assert (255 <= ULONG_MAX / 2); [|lia].
    apply Z.le_trans with ((2 ^ 32 - 1) / 2); [by vm_compute|]. by apply Z.div_le_mono. }
  rewrite Est, E7. cbn [cstr]. rewrite (proj2 (Z.eqb_neq c 0)) by lia. reflexivity.
Qed.

Lemma string_escape e acc c rest bol line saved : in_string acc e -> 1 <= c < 256 -> c ∉ plain_chars -> Forall is_u8 rest ->
  exists e' bol' line', in_string (acc ++ [c]) e' /\
    lex_steps (RState e (Src (escape c ++ rest) bol line) saved) [] (RState e' (Src rest bol' line') saved).
Proof using Hulong.
  intros He Hc Hp Hr. pose proof escape_check as E. rewrite forallb_forall in E.
  specialize (E c ltac:(apply list_elem_of_In, elem_of_seqZ; lia)). rewrite (bool_decide_eq_false_2 _ Hp) in E. cbn [orb] in E.
  apply andb_prop in E as [E E5]. apply andb_prop in E as [E E4]. apply andb_prop in E as [E E3]. apply andb_prop in E as [E1 E2].
  apply bool_decide_eq_true in E2, E4, E5. apply res_is_ok in E3.
  apply (string_match e acc (escape c) rest bol line saved (accept (deltas 5 (escape c))) [c]); [done|by destruct (escape c)|done|done| | | | |].
  - rewrite E5. by apply string_start.
  - intros E0. rewrite E0 in E4. rewrite !elem_of_cons, elem_of_nil in E4. lia.
  - rewrite !elem_of_cons, elem_of_nil in E4. unfold has_context. apply orb_false_iff. rewrite !Z.eqb_neq. lia.
  - destruct rest as [|d rest]; [done|]. apply Forall_cons in Hr as [Hd _]. cbn [stuck].
    rewrite (delta_base _ d); [unfold live, YY_JAM; lia| |done|done]. apply lives_live; [by vm_compute|done].
  - intros l. destruct (decide (c ∈ [9; 10; 12; 13; 34; 92])) as [Hs|Hs].
    + rewrite !elem_of_cons, elem_of_nil in Hs. destruct Hs as [->|[->|[->|[->|[->|[->|[]]]]]]]; reflexivity.
    + destruct (escape_hex c Hc Hp Hs) as (E & Hact). rewrite E, Hact. reflexivity.
Qed.

Definition string_bytes (s : cstring) : Prop := Forall (fun c => 1 <= c < 256) s.

Lemma escape_bytes_check : forallb (fun c => bool_decide (Forall is_u8 (escape c)) &&
  (if bool_decide (c ∈ plain_chars) then bool_decide (escape c = [c]) else bool_decide (head (escape c) = Some 92))) (seqZ 1 255) = true.
Proof. vm_compute. reflexivity. Qed.
Lemma escape_bytes c : 1 <= c < 256 -> Forall is_u8 (escape c) /\ (c ∈ plain_chars -> escape c = [c]) /\
  (c ∉ plain_chars -> head (escape c) = Some 92).
Proof.
  intros Hc. pose proof escape_bytes_check as E. rewrite forallb_forall in E. specialize (E c ltac:(apply list_elem_of_In, elem_of_seqZ; lia)).
  apply andb_prop in E as [E1 E2]. apply bool_decide_eq_true in E1. split; [done|].
  split; intros Hp; [rewrite (bool_decide_eq_true_2 _ Hp) in E2|rewrite (bool_decide_eq_false_2 _ Hp) in E2]; by apply bool_decide_eq_true in E2.
Qed.
Lemma escaped_bytes s : string_bytes s -> Forall is_u8 (flat_map escape s).
Proof.
  induction 1 as [|c s Hc _ IH]; cbn [flat_map]; [constructor|]. apply Forall_app. split; [by apply escape_bytes|done].
Qed.

(** The plain characters at the beginning. *)
Lemma plain_prefix s : exists p r, s = p ++ r /\ Forall (fun c => c ∈ plain_chars) p /\ match r with [] => True | c :: _ => c ∉ plain_chars end.
Proof.
  induction s as [|c s (p & r & -> & Hp & Hr)]; [by exists [], []|]. destruct (decide (c ∈ plain_chars)) as [Hc|Hc].
  - exists (c :: p), r. split; [done|]. split; [by apply Forall_cons|done].
  - exists [], (c :: p ++ r). split; [done|]. split; [constructor|done].
Qed.
Lemma escape_plain p : string_bytes p -> Forall (fun c => c ∈ plain_chars) p -> flat_map escape p = p.
Proof.
  intros Hb Hp. induction Hb as [|c p Hc _ IH]; [done|]. apply Forall_cons in Hp as [Hpc Hp]. cbn [flat_map].
  rewrite (proj1 (proj2 (escape_bytes c Hc)) Hpc), IH by exact Hp. reflexivity.
Qed.

Lemma string_body n : forall s e acc rest bol line saved, (length s <= n)%nat -> in_string acc e -> string_bytes s -> Forall is_u8 rest ->
  exists e' bol' line', idle e' /\
    lex_steps (RState e (Src (flat_map escape s ++ 34 :: rest) bol line) saved) [TOK_STRING (acc ++ s)] (RState e' (Src rest bol' line') saved).
Proof using Hulong.
  induction n as [|n IH]; intros s e acc rest bol line saved Hn He Hs Hr.
  { destruct s; [|cbn in Hn; lia]. rewrite app_nil_r. by apply string_quote. }
  destruct s as [|c s]; [rewrite app_nil_r; by apply string_quote|]. pose proof (Forall_inv Hs) as Hc. pose proof (Forall_inv_tail Hs) as Hs'.
  cbv beta in Hc. destruct (decide (c ∈ plain_chars)) as [Hp|Hp].
  - destruct (plain_prefix s) as (p & r & -> & Hpp & Hrp). apply Forall_app in Hs' as [Hsp Hsr].
    assert (Hcp : Forall (fun c => c ∈ plain_chars) (c :: p)) by (apply Forall_cons; split; [exact Hp|exact Hpp]).
    assert (Hd : exists d t, flat_map escape r ++ 34 :: rest = d :: t /\ d ∈ [34; 92]).
    { destruct r as [|x r]; [by exists 34, rest; split; [|left]|]. pose proof (Forall_inv Hsr) as Hx. cbv beta in Hx.
      pose proof (proj2 (proj2 (escape_bytes x Hx)) Hrp) as Eh. cbn [flat_map]. destruct (escape x) as [|y l]; [done|]. injection Eh as ->.
      eexists 92, _. split; [reflexivity|right; left]. }
    destruct Hd as (d & t & Et & Hd).
    destruct (string_plain e acc c p d t bol line saved He Hcp Hd) as (e1 & b1 & l1 & He1 & S1).
    destruct (IH r e1 (acc ++ c :: p) rest b1 l1 saved) as (e2 & b2 & l2 & He2 & S2);
      [cbn [length] in Hn; rewrite length_app in Hn; lia|exact He1|exact Hsr|exact Hr|].
    exists e2, b2, l2. split; [exact He2|]. rewrite <- app_assoc in S2. cbn [app] in S2.
    change (c :: p ++ r) with ((c :: p) ++ r). rewrite flat_map_app, (escape_plain (c :: p)) by (exact Hcp || by apply Forall_cons).
    rewrite <- app_assoc, Et. rewrite Et in S2. exact (lex_steps_app _ _ _ S1 _ _ S2).
  - assert (Hr' : Forall is_u8 (flat_map escape s ++ 34 :: rest)) by (apply Forall_app; split; [by apply escaped_bytes|by apply Forall_cons]).
    destruct (string_escape e acc c _ bol line saved He Hc Hp Hr') as (e1 & b1 & l1 & He1 & S1).
    destruct (IH s e1 (acc ++ [c]) rest b1 l1 saved) as (e2 & b2 & l2 & He2 & S2); [cbn [length] in Hn; lia|exact He1|exact Hs'|exact Hr|].
    exists e2, b2, l2. split; [exact He2|]. rewrite <- app_assoc in S2. cbn [flat_map]. rewrite <- app_assoc.
    exact (lex_steps_app _ _ _ S1 _ _ S2).
Qed.

Lemma lexed_string s rest : string_bytes s -> Forall is_u8 rest -> lexed (quoted s) rest [TOK_STRING s].
Proof using Hulong.
  intros Hs Hr e bol line saved He.
  assert (Hlong : longest (start_of e bol) ([34] ++ flat_map escape s ++ 34 :: rest) (length [34]) 5).
  { unfold start_of. destruct He as (_ & -> & _). assert (Es : delta (1 + (if bol then 1 else 0)) 34 = 14) by (by destruct bol).
    apply longest_word; cbn [lives deltas]; rewrite ?Es; [by vm_compute|done|done|].
    assert (Forall is_u8 (flat_map escape s ++ 34 :: rest)) as Hall by (apply Forall_app; split; [by apply escaped_bytes|by apply Forall_cons]).
    destruct (flat_map escape s ++ 34 :: rest) as [|d l]; [done|]. apply Forall_cons in Hall as [Hd _]. cbn [stuck].
    rewrite (delta_base 14 d); [unfold live, YY_JAM; lia|by vm_compute|done|reflexivity]. }
  destruct (lex_match e [34] _ bol line saved 5 Again (BEGIN STRING e) ltac:(done) Hlong eq_refl eq_refl I) as (b1 & l1 & S1).
  destruct He as (He & Hst & Hstr). destruct (string_body (length s) s (BEGIN STRING e) [] rest b1 l1 saved (le_n _)) as (e2 & b2 & l2 & He2 & S2).
  - split; [by apply env_begin|]. split; [done|]. cbn. by rewrite Hstr.
  - exact Hs.
  - exact Hr.
  - exists e2, b2, l2. split; [exact He2|]. unfold quoted. cbn [app]. rewrite <- app_assoc. cbn [app].
    exact (lex_steps_app _ _ _ S1 _ _ S2).
Qed.
End Pieces.
