(* ===== verification/ConfigRoundTrip.v ===== *)
(** * libconfig: what is written can be read again

    The text of a configuration, and the proof that the scanner and the parser make the same
    settings of it. *)

From S2P Require Import Prelude CString Queue LibConfig LibConfigTree LibConfigProps LibConfigWrite Grammar GrammarProps ConfigParse.
From S2P Require Import Scanner ScannerProps ScannerTokens.
From Stdlib Require Import SpecFloat.
Local Open Scope ps2rd_scope.
Local Open Scope Z_scope.

(** ** Numbers *)

Lemma digits_snoc w d acc : digits_only w -> d ∈ digit_chars -> digits acc (w ++ [d]) = 10 * digits acc w + (d - 48).
Proof.
  intros Hw Hd. assert (Hdig : forall c, c ∈ digit_chars -> isdigit c = true).
  { intros c Hc. apply elem_of_seqZ in Hc. unfold isdigit. apply andb_true_iff. rewrite !Z.leb_le. lia. }
  revert acc. induction Hw as [|c w Hc _ IH]; intros acc; cbn [digits app]; rewrite (Hdig _ Hd) || rewrite (Hdig _ Hc); [done|apply IH].
Qed.

Lemma hex_is c : c ∈ hex_chars -> isxdigit c = true.
Proof. intros Hc. apply hex_range in Hc. unfold isxdigit, isdigit. rewrite !orb_true_iff, !andb_true_iff, !Z.leb_le. lia. Qed.
Lemma hex_prefix_snoc w d acc : hex_only w -> d ∈ hex_chars -> hex_prefix acc (w ++ [d]) = 16 * hex_prefix acc w + digit_val d.
Proof.
  intros Hw Hd. revert acc. induction Hw as [|c w Hc _ IH]; intros acc; cbn [hex_prefix app]; rewrite (hex_is _ Hd) || rewrite (hex_is _ Hc); [done|apply IH].
Qed.

Lemma dec_digit x : 0 <= x < 10 -> hex_digit x ∈ digit_chars /\ hex_digit x - 48 = x.
Proof. intros Hx. unfold hex_digit. rewrite (proj2 (Z.ltb_lt _ _)) by lia. split; [apply elem_of_seqZ; lia|lia]. Qed.
Lemma hex_digit_ok x : 0 <= x < 16 -> hex_digit x ∈ hex_chars /\ digit_val (hex_digit x) = x.
Proof.
  intros Hx. assert (Hc : x ∈ seqZ 0 16) by (apply elem_of_seqZ; lia).
  pose proof (eq_refl : forallb (fun x => bool_decide (hex_digit x ∈ hex_chars) && (digit_val (hex_digit x) =? x)) (seqZ 0 16) = true) as E.
  rewrite forallb_forall in E. specialize (E x (proj1 (list_elem_of_In _ _) Hc)). apply andb_prop in E as [E1 E2].
  apply bool_decide_eq_true in E1. by apply Z.eqb_eq in E2.
Qed.

Lemma print_dec fuel : forall x, 0 <= x < 10 ^ (Z.of_nat fuel + 1) ->
  print_base 10 fuel x <> [] /\ digits_only (print_base 10 fuel x) /\ digits 0 (print_base 10 fuel x) = x.
Proof.
  induction fuel as [|fuel IH]; intros x Hx; cbn [print_base].
  - change (10 ^ (Z.of_nat 0 + 1)) with 10 in Hx. rewrite Z.mod_small by lia. destruct (dec_digit x Hx) as [H1 H2].
    split; [done|]. split; [by apply Forall_singleton|]. rewrite <- H2 at 2. exact (digits_snoc [] _ 0 (Forall_nil_2 _) H1).
  - destruct (Z.ltb_spec x 10).
    + destruct (dec_digit x ltac:(lia)) as [H1 H2]. split; [done|]. split; [by apply Forall_singleton|].
      rewrite <- H2 at 2. exact (digits_snoc [] _ 0 (Forall_nil_2 _) H1).
    + assert (Hq : 0 <= x / 10 < 10 ^ (Z.of_nat fuel + 1)).
      { split; [apply Z.div_pos; lia|]. apply Z.div_lt_upper_bound; [lia|]. rewrite <- Z.pow_succ_r by lia.
        replace (Z.succ (Z.of_nat fuel + 1)) with (Z.of_nat (S fuel) + 1) by lia. apply Hx. }
      destruct (IH _ Hq) as (H1 & H2 & H3). pose proof (Z.mod_pos_bound x 10 ltac:(lia)) as Hm. destruct (dec_digit _ Hm) as [D1 D2].
      split; [by destruct (print_base 10 fuel (x / 10))|]. split; [apply Forall_app; split; [done|by apply Forall_singleton]|].
      rewrite (digits_snoc _ _ _ H2 D1). rewrite H3, D2. pose proof (Z.div_mod x 10 ltac:(lia)). lia.
Qed.

Lemma print_hex fuel : forall x, 0 <= x < 16 ^ (Z.of_nat fuel + 1) ->
  print_base 16 fuel x <> [] /\ hex_only (print_base 16 fuel x) /\ hex_prefix 0 (print_base 16 fuel x) = x.
Proof.
  induction fuel as [|fuel IH]; intros x Hx; cbn [print_base].
  - change (16 ^ (Z.of_nat 0 + 1)) with 16 in Hx. rewrite Z.mod_small by lia. destruct (hex_digit_ok x Hx) as [H1 H2].
    split; [done|]. split; [by apply Forall_singleton|]. rewrite <- H2 at 2. exact (hex_prefix_snoc [] _ 0 (Forall_nil_2 _) H1).
  - destruct (Z.ltb_spec x 16).
    + destruct (hex_digit_ok x ltac:(lia)) as [H1 H2]. split; [done|]. split; [by apply Forall_singleton|].
      rewrite <- H2 at 2. exact (hex_prefix_snoc [] _ 0 (Forall_nil_2 _) H1).
    + assert (Hq : 0 <= x / 16 < 16 ^ (Z.of_nat fuel + 1)).
      { split; [apply Z.div_pos; lia|]. apply Z.div_lt_upper_bound; [lia|]. rewrite <- Z.pow_succ_r by lia.
        replace (Z.succ (Z.of_nat fuel + 1)) with (Z.of_nat (S fuel) + 1) by lia. apply Hx. }
      destruct (IH _ Hq) as (H1 & H2 & H3). pose proof (Z.mod_pos_bound x 16 ltac:(lia)) as Hm. destruct (hex_digit_ok _ Hm) as [D1 D2].
      split; [by destruct (print_base 16 fuel (x / 16))|]. split; [apply Forall_app; split; [done|by apply Forall_singleton]|].
      rewrite (hex_prefix_snoc _ _ _ H2 D1). rewrite H3, D2. pose proof (Z.div_mod x 16 ltac:(lia)). lia.
Qed.

(** Enough digits for every machine word. *)
Lemma print_dec64 x : 0 <= x < 18446744073709551616 -> exists d w, print_base 10 64 x = d :: w /\ digits_only (d :: w) /\ digits 0 (d :: w) = x.
Proof.
  intros [H1 H2]. destruct (print_dec 64 x) as (Hne & Hd & Hv).
  - split; [exact H1|]. apply Z.lt_trans with (1 := H2). vm_compute. reflexivity.
  - destruct (print_base 10 64 x) as [|d w]; [done|]. by exists d, w.
Qed.
Lemma print_hex64 x : 0 <= x < 18446744073709551616 -> exists d w, print_X x = d :: w /\ hex_only (d :: w) /\ hex_prefix 0 (d :: w) = x.
Proof.
  intros [H1 H2]. unfold print_X. destruct (print_hex 64 x) as (Hne & Hd & Hv).
  - split; [exact H1|]. apply Z.lt_trans with (1 := H2). vm_compute. reflexivity.
  - destruct (print_base 16 64 x) as [|d w]; [done|]. by exists d, w.
Qed.

(** [%d], read by [atoi]. *)
Lemma print_d_int x : INT32_MIN <= x <= INT32_MAX -> int_text (print_d x) /\ atoi (print_d x) = x.
Proof.
  unfold INT32_MIN, INT32_MAX. intros Hx. unfold print_d. destruct (Z.ltb_spec x 0) as [Hn|Hn].
  - destruct (print_dec64 (- x) ltac:(lia)) as (d & w & -> & Hd & Hv). split.
    + apply Forall_cons in Hd as [Hd Hw]. exists [45], d, w. split; [done|]. split; [by right|done].
    + unfold atoi; fold atoi. change (isspace 45) with false. change (45 =? 45) with true. cbv iota.
      rewrite Hv, Z.opp_involutive. apply s32_id. lia.
  - destruct (print_dec64 x ltac:(lia)) as (d & w & -> & Hd & Hv). apply Forall_cons in Hd as [Hd Hw]. split.
    + exists [], d, w. split; [done|]. split; [by left|done].
    + apply elem_of_seqZ in Hd. cbn [atoi]. assert (isspace d = false) as ->.
      { unfold isspace. apply orb_false_iff. rewrite andb_false_iff, Z.eqb_neq, !Z.leb_gt. lia. }
      rewrite !(proj2 (Z.eqb_neq _ _)) by lia. rewrite Hv. apply s32_id. lia.
Qed.

(** [%X], read by [strtoul] and by [fromhex]. *)
Lemma hex_not_space c : c ∈ hex_chars -> isspace c = false /\ (c =? 45) = false /\ (c =? 43) = false.
Proof.
  intros Hc. apply hex_range in Hc. unfold isspace. rewrite orb_false_iff, andb_false_iff, !Z.eqb_neq, !Z.leb_gt. lia.
Qed.

Lemma strtoul_print `{CLib} x : 2 ^ 32 - 1 <= ULONG_MAX -> 0 <= x < 2 ^ 32 -> exists d w,
  print_X x = d :: w /\ hex_only (d :: w) /\ strtoul16 (48 :: 120 :: d :: w) = x.
Proof.
  intros HU Hx. destruct (print_hex64 x ltac:(lia)) as (d & w & E & Hw & Hv). exists d, w. split; [done|]. split; [done|].
  apply Forall_cons in Hw as [Hd Hw]. unfold strtoul16. change (isspace 48) with false. change (48 =? 45) with false. change (48 =? 43) with false.
  cbv iota zeta. cbn [orb]. unfold hex_magnitude. change ((48 =? 48) && ((120 =? 120) || (120 =? 88))) with true. rewrite (hex_is _ Hd).
  cbn [andb]. change (drop 2 (48 :: 120 :: d :: w)) with (d :: w). rewrite Hv. rewrite (proj2 (Z.ltb_ge _ _)) by lia. done.
Qed.

(** A digit in the loop of [fromhex]. *)
Lemma fromhex_digit c : c ∈ hex_chars -> (if c <? 65 then Z.land c 0xF else 9 + Z.land c 0x7) = digit_val c /\ 0 <= digit_val c < 16.
Proof.
  intros Hc. pose proof (eq_refl : forallb (fun c => ((if c <? 65 then Z.land c 0xF else 9 + Z.land c 0x7) =? digit_val c) &&
    (0 <=? digit_val c) && (digit_val c <? 16)) hex_chars = true) as E.
  rewrite forallb_forall in E. specialize (E c (proj1 (list_elem_of_In _ _) Hc)). apply andb_prop in E as [E E3]. apply andb_prop in E as [E1 E2].
  apply Z.eqb_eq in E1. apply Z.leb_le in E2. apply Z.ltb_lt in E3. done.
Qed.
Lemma lor_digit v d : 0 <= v -> 0 <= d < 16 -> Z.lor (Z.shiftl v 4) d = 16 * v + d.
Proof.
  intros Hv Hd. pose proof (Z.add_lor_land (Z.shiftl v 4) d) as E. assert (Z.land (Z.shiftl v 4) d = 0) as E0; [clear E|rewrite E0 in E; rewrite Z.shiftl_mul_pow2 in * by lia; lia].
  apply Z.bits_inj'. intros n Hn. rewrite Z.land_spec, Z.bits_0, Z.shiftl_spec by done. destruct (Z.lt_ge_cases n 4).
  - by rewrite Z.testbit_neg_r by lia.
  - rewrite (Z.bits_above_log2 d n); [apply andb_false_r|lia|]. destruct (Z.eq_dec d 0) as [->|]; [cbn; lia|].
    apply Z.log2_lt_pow2; [lia|]. apply Z.lt_le_trans with (2 ^ 4); [lia|]. apply Z.pow_le_mono_r; lia.
Qed.
Lemma hex_prefix_mono w : forall acc, 0 <= acc -> hex_only w -> acc <= hex_prefix acc w.
Proof.
  induction w as [|c w IH]; intros acc Ha Hw; cbn [hex_prefix]; [lia|]. apply Forall_cons in Hw as [Hc Hw]. rewrite (hex_is _ Hc).
  destruct (fromhex_digit c Hc) as [_ Hd]. specialize (IH (16 * acc + digit_val c) ltac:(lia) Hw). lia.
Qed.
Lemma fromhex_prefix w : forall acc rest, 0 <= acc -> hex_only w -> hex_prefix acc w < 2 ^ 64 -> match rest with c :: _ => isxdigit c = false | [] => True end ->
  fromhex_loop acc (w ++ rest) = hex_prefix acc w.
Proof.
  induction w as [|c w IH]; intros acc rest Ha Hw Hlt Hr; cbn [hex_prefix app].
  - destruct rest as [|c rest]; [done|]. cbn [fromhex_loop]. by rewrite Hr.
  - apply Forall_cons in Hw as [Hc Hw]. cbn [hex_prefix fromhex_loop] in *. rewrite (hex_is _ Hc) in *. destruct (fromhex_digit c Hc) as [-> Hd].
    pose proof (hex_prefix_mono w (16 * acc + digit_val c) ltac:(lia) Hw) as Hm.
    assert (u64 (Z.shiftl acc 4) = Z.shiftl acc 4) as ->.
    { unfold u64. apply Z.mod_small. rewrite Z.shiftl_mul_pow2 by lia. change (2 ^ 4) with 16. lia. }
    rewrite lor_digit by lia. apply IH; [lia|done|done|done].
Qed.
Lemma fromhex_print x : 0 <= x < 2 ^ 64 -> exists d w, print_X x = d :: w /\ hex_only (d :: w) /\ fromhex (48 :: 120 :: d :: w ++ [76]) = x.
Proof.
  intros Hx. destruct (print_hex64 x ltac:(lia)) as (d & w & E & Hw & Hv). exists d, w. split; [done|]. split; [done|].
  unfold fromhex. change (negb (48 =? 48)) with false. change (negb (120 =? 120)) with false. cbn [andb]. cbv iota.
  change (d :: w ++ [76]) with ((d :: w) ++ [76]). rewrite fromhex_prefix; [done|done|done|lia|done].
Qed.

(** ** The text of a configuration *)

Section Text.
  Context `{CFormat}.

Definition scalar_text (x : scalar) : cstring :=
  match x with
  | SBool x => if x =? 0 then str "false" else str "true"
  | SInt x => print_d x
  | SHex x => str "0x" ++ print_X (u32 x)
  | SInt64 x => print_d x ++ [76]
  | SHex64 x => str "0x" ++ print_X (x mod 2 ^ 64) ++ [76]
  | SFloat x => write_float x
  | SString p ps => quoted (concat (p :: ps))
  end.

(** Elements, with commas in between and a blank behind each. *)
Fixpoint items_text (l : list cstring) : cstring :=
  match l with
  | [] => []
  | x :: l' => x ++ (match l' with [] => [] | _ => [44] end) ++ [32] ++ items_text l'
  end.

Definition indent (w depth : Z) : cstring := if 1 <? depth then __config_indent depth w else [].
Definition separator (v : cfg) : Z := match v with CGroup _ => 58 | _ => 61 end.

Fixpoint value_text (w depth : Z) (v : cfg) : cstring :=
  match v with
  | CScalar x => scalar_text x
  | CArray xs => [91; 32] ++ items_text (scalar_text <$> xs) ++ [93]
  | CList vs => [40; 32] ++ items_text (value_text w (depth + 1) <$> vs) ++ [41]
  | CGroup ms =>
      (if 0 <? depth then [10] ++ indent w depth ++ [123; 10] else []) ++
      concat ((fun m => indent w (depth + 1) ++ m.1 ++ [32; separator m.2; 32] ++ value_text w (depth + 1) m.2 ++
                        (if 0 <? depth + 1 then [59; 10] else [])) <$> ms) ++
      indent w depth ++ (if 0 <? depth then [125] else [])
  end.

(** ** What is written *)

Section Written.
  Context (h : gmap loc config_setting_t) (w : Z).

Definition stored (t : ltree) : Prop := forall x, x ∈ entries t -> h !! x.1 = Some x.2.

Lemma stored_root t : stored t -> h !! t_loc t = Some (t_set t).
Proof. destruct t as [p s kids]. intros Hh. apply (Hh (p, s)). left. Qed.

Lemma elements_written f kids texts : Forall2 (fun k x => h !! t_loc k = Some (t_set k) /\ f (t_set k) = Ok x) kids texts ->
  write_elements h f (t_loc <$> kids) = Ok (items_text texts).
Proof.
  induction 1 as [|k x kids texts [Hk Hx] HF IH]; [done|]. cbn [fmap list_fmap write_elements]. unfold deref. rewrite Hk. cbn [of_option rbind].
  rewrite Hx. cbn [rbind]. change (list_fmap _ _ t_loc kids) with (t_loc <$> kids). rewrite IH. cbn [rbind items_text]. by destruct HF.
Qed.
Lemma members_written f kids texts : Forall2 (fun k x => h !! t_loc k = Some (t_set k) /\ f (t_set k) = Ok x) kids texts ->
  write_members h f (t_loc <$> kids) = Ok (concat texts).
Proof.
  induction 1 as [|k x kids texts [Hk Hx] HF IH]; [done|]. cbn [fmap list_fmap write_members]. unfold deref. rewrite Hk. cbn [of_option rbind].
  rewrite Hx. cbn [rbind]. change (list_fmap _ _ t_loc kids) with (t_loc <$> kids). by rewrite IH.
Qed.

(** The kids of a node fit the elements of a value. *)
Lemma kids_match {A} (g : A -> snode) (P : ltree -> Prop) (Q : A -> Prop) (R : ltree -> A -> Prop) kids vs :
  erase <$> kids = g <$> vs -> Forall P kids -> Forall Q vs -> (forall k v, erase k = g v -> P k -> Q v -> R k v) -> Forall2 R kids vs.
Proof.
  intros E HP HQ Himp. revert vs E HQ. induction HP as [|k kids Hk _ IH]; intros [|v vs] E HQ; try done.
  cbn in E. injection E as E1 E2. apply Forall_cons in HQ as [Hv HQ]. constructor; [by apply Himp|by apply IH].
Qed.

(** A node that is written with [fuel]. *)
Definition fueled (fuel : nat) (p : loc) (t : ltree) : Prop := wt (Some p) t /\ stored t /\ (length (entries t) <= fuel)%nat.
Lemma kids_fueled par fuel p s kids : wt par (LNode p s kids) -> stored (LNode p s kids) ->
  (length (entries (LNode p s kids)) <= S fuel)%nat -> Forall (fueled fuel p) kids.
Proof.
  intros Hw Hh Hf. inversion Hw as [? ? ? ? _ _ _ Hk]; subst. unfold stored in Hh. rewrite entries_node in Hh, Hf. cbn [length] in Hf.
  assert (Hh' : forall x, x ∈ flat_map entries kids -> h !! x.1 = Some x.2) by (intros x Hx; apply Hh; by right).
  assert (Hf' : (length (flat_map entries kids) <= fuel)%nat) by lia. clear Hw Hh Hf.
  induction Hk as [|k kids Hk _ IH]; [constructor|]. cbn [flat_map] in *. rewrite length_app in Hf'. constructor.
  - split; [done|]. split; [intros x Hx; apply Hh', elem_of_app; by left|lia].
  - apply IH; [intros x Hx; apply Hh', elem_of_app; by right|lia].
Qed.

(** The list of a node with kids. *)
Lemma aggregate_list par p s kids : wt par (LNode p s kids) -> is_aggregate (s_type s) = true ->
  s_value s = VZero /\ kids = [] \/ exists cap, s_value s = VList (t_loc <$> kids) cap.
Proof.
  intros Hw Ha. inversion Hw as [? ? ? ? _ _ Hv _]; subst. unfold value_ok in Hv. rewrite Ha in Hv.
  destruct Hv as [_ [?|(cap & ? & _)]]; [by left|right; by exists cap].
Qed.

Lemma scalar_value_written name x fuel depth p s kids : erase (LNode p s kids) = scalar_tree name x ->
  __config_write_value h w (S fuel) depth s = Ok (scalar_text x).
Proof.
  destruct s as [nm ty fm v par]. intros E. cbn [erase scalar_tree s_name s_type s_format s_value] in E. injection E as -> -> -> Ev _.
  assert (is_aggregate (scalar_type x) = false) as Ha by (by destruct x). rewrite Ha in Ev. subst v. by destruct x.
Qed.

Lemma element_written {A} (g : A -> snode) (text : A -> cstring) f fuel p kids vs :
  erase <$> kids = g <$> vs -> Forall (fueled fuel p) kids ->
  Forall (fun v => forall k, erase k = g v -> fueled fuel p k -> f (t_set k) = Ok (text v)) vs ->
  Forall2 (fun k x => h !! t_loc k = Some (t_set k) /\ f (t_set k) = Ok x) kids (text <$> vs).
Proof.
  intros E Hk Hv. apply Forall2_fmap_r. apply (kids_match g _ _ _ kids vs E Hk Hv). intros k v Ek Hfk Hfv.
  split; [apply stored_root, Hfk|by apply Hfv].
Qed.

Lemma value_written v : forall name t fuel depth par, erase t = value_tree name v -> wt par t -> stored t -> (length (entries t) <= fuel)%nat ->
  __config_write_value h w fuel depth (t_set t) = Ok (value_text w depth v).
Proof.
  induction v as [x|xs|vs IH|ms IH] using cfg_ind'; intros name [p s kids] [|fuel] depth par E Hw Hh Hf;
    try (rewrite entries_node in Hf; cbn in Hf; lia).
  - exact (scalar_value_written name x fuel depth p s kids E).
  - pose proof (kids_fueled _ _ _ _ _ Hw Hh Hf) as Hk. pose proof (aggregate_list _ _ _ _ Hw) as Hl.
    destruct s as [nm ty fm v sp]. cbn [erase value_tree s_name s_type s_format s_value t_set] in *. injection E as -> -> -> _ Ek.
    assert (HF : Forall2 (fun k x => h !! t_loc k = Some (t_set k) /\ __config_write_value h w fuel (depth + 1) (t_set k) = Ok x)
      kids (scalar_text <$> xs)).
    { apply (element_written (scalar_tree None) scalar_text _ fuel p); [done|done|]. apply Forall_forall. intros x _ [q s' ks] Ex (_ & _ & Hfx).
      destruct fuel as [|fuel]; [cbn in Hfx; lia|]. exact (scalar_value_written None x fuel _ q s' ks Ex). }
    pose proof (elements_written _ _ _ HF) as Ew. cbn -[write_elements]. destruct (Hl eq_refl) as [[-> ->]|(cap & ->)]; cbn -[write_elements].
    + destruct xs; [done|by inversion HF].
    + by rewrite Ew.
  - pose proof (kids_fueled _ _ _ _ _ Hw Hh Hf) as Hk. pose proof (aggregate_list _ _ _ _ Hw) as Hl.
    destruct s as [nm ty fm v sp]. cbn [erase value_tree s_name s_type s_format s_value t_set] in *. injection E as -> -> -> _ Ek.
    assert (HF : Forall2 (fun k x => h !! t_loc k = Some (t_set k) /\ __config_write_value h w fuel (depth + 1) (t_set k) = Ok x)
      kids (value_text w (depth + 1) <$> vs)).
    { apply (element_written (value_tree None) _ _ fuel p); [done|done|]. apply (Forall_impl _ _ _ IH). intros v' IHv k Ev (H1 & H2 & H3).
      exact (IHv None k fuel (depth + 1) (Some p) Ev H1 H2 H3). }
    pose proof (elements_written _ _ _ HF) as Ew. cbn -[write_elements]. destruct (Hl eq_refl) as [[-> ->]|(cap & ->)]; cbn -[write_elements].
    + destruct vs; [done|by inversion HF].
    + by rewrite Ew.
  - pose proof (kids_fueled _ _ _ _ _ Hw Hh Hf) as Hk. pose proof (aggregate_list _ _ _ _ Hw) as Hl.
    destruct s as [nm ty fm v sp]. cbn [erase value_tree s_name s_type s_format s_value t_set] in *. injection E as -> -> -> _ Ek.
    set (mt := fun m : cstring * cfg => indent w (depth + 1) ++ m.1 ++ [32; separator m.2; 32] ++ value_text w (depth + 1) m.2 ++
      (if 0 <? depth + 1 then [59; 10] else [])).
    assert (HF : Forall2 (fun k x => h !! t_loc k = Some (t_set k) /\ __config_write_setting w (__config_write_value h w fuel) (depth + 1) (t_set k) = Ok x)
      kids (mt <$> ms)).
    { apply (element_written member_tree mt _ fuel p); [|done|].
      - rewrite Ek. apply list_fmap_ext. by intros _ [] _.
      - apply (Forall_impl _ _ _ IH). intros [n v'] IHv k Ev (H1 & H2 & H3). unfold __config_write_setting. cbn [fst snd] in *.
        rewrite (IHv (Some n) k fuel (depth + 1) (Some p) Ev H1 H2 H3). cbn [rbind]. destruct k as [q [n' ty fm vv pp] ks].
        unfold member_tree in Ev. cbn [fst snd erase s_name s_type s_format s_value t_set] in *.
        assert (n' = Some n /\ (if ty =? CONFIG_TYPE_GROUP then 58 else 61) = separator v') as [-> ->];
          [destruct v' as [[]| | |]; cbn in Ev; injection Ev as -> -> _ _ _; done|]. unfold mt, indent. cbn [fst snd]. by rewrite <- !app_assoc. }
    pose proof (members_written _ _ _ HF) as Ew. cbn -[write_members]. destruct (Hl eq_refl) as [[-> ->]|(cap & ->)]; cbn -[write_members].
    + destruct ms; [done|by inversion HF].
    + by rewrite Ew.
Qed.
End Written.
End Text.

(** ** What is read *)

Section Reading.
  Context `{CFormat} `{CLib} (Hulong : 2 ^ 32 - 1 <= ULONG_MAX).

(** The values that the text of a number or of a string stands for.  The EE has no conversion
    of decimal numbers of 64 bits; the digits of a [double] must be enough. *)
Definition scalar_writable (x : scalar) : Prop :=
  match x with
  | SBool x => x = 0 \/ x = 1
  | SInt x | SHex x => INT32_MIN <= x <= INT32_MAX
  | SInt64 x => x = 0
  | SHex64 x => - 2 ^ 63 <= x < 2 ^ 63
  | SFloat x => float_text (write_float x) /\ atof (write_float x) = x
  | SString p ps => string_bytes p /\ ps = []
  end.

(** Names that are words of the language cannot be read. *)
Fixpoint writable (v : cfg) : Prop :=
  match v with
  | CScalar x => scalar_writable x
  | CArray xs => Forall scalar_writable xs
  | CList vs => foldr (fun v r => writable v /\ r) True vs
  | CGroup ms => foldr (fun m r => (~ boolean_name m.1 /\ writable m.2) /\ r) True ms
  end.

Lemma foldr_Forall {A} (P : A -> Prop) l : foldr (fun x r => P x /\ r) True l <-> Forall P l.
Proof. induction l as [|x l IH]; cbn [foldr]; [split; [constructor|done]|]. by rewrite Forall_cons, IH. Qed.

(** A word that can stand for a value: what it starts with, its bytes, and its tokens. *)
Record word (w : cstring) (ts : list token) : Prop := {
  w_starts : match w with c :: _ => inner c | [] => False end;
  w_bytes : Forall is_u8 w;
  w_lexed : forall rest, follows rest -> Forall is_u8 rest -> lexed w rest ts;
}.

Lemma chars_bytes w : Forall is_u8 w -> forall c, is_u8 c -> Forall is_u8 (c :: w).
Proof. intros. by apply Forall_cons. Qed.
Lemma app_bytes w1 w2 : Forall is_u8 w1 -> Forall is_u8 w2 -> Forall is_u8 (w1 ++ w2).
Proof. intros. by apply Forall_app. Qed.
Lemma blank_inner c rest : inner c -> Forall is_u8 rest -> lexed [32] (c :: rest) [].
Proof. intros Hc Hr. apply lexed_blanks; [done|by apply Forall_singleton; right; left|done|done]. Qed.

Lemma digit_bytes w : digits_only w -> Forall is_u8 w.
Proof. intros Hw. apply (Forall_impl _ _ _ Hw). intros c Hc. by apply digit_inner. Qed.
Lemma hex_bytes w : hex_only w -> Forall is_u8 w.
Proof. intros Hw. apply (Forall_impl _ _ _ Hw). intros c Hc. apply hex_range in Hc. split; lia. Qed.
Lemma int_bytes w : int_text w -> Forall is_u8 w.
Proof.
  intros (sg & d & ds & -> & Hsg & Hd & Hds). apply app_bytes; [destruct Hsg as [->| ->]; [done|by apply Forall_singleton]|].
  by apply digit_bytes, Forall_cons.
Qed.
Lemma float_bytes w : float_text w -> Forall is_u8 w.
Proof.
  intros (i & fr & ex & -> & Hi & Hfr & Hex). apply app_bytes; [by apply int_bytes|apply app_bytes].
  - destruct Hfr as [[-> _]|(ds & -> & Hds)]; [done|]. apply chars_bytes; [by apply digit_bytes|done].
  - destruct Hex as [->|(sg & d & ds & -> & Hsg & Hd & Hds)]; [done|]. apply chars_bytes; [|done]. apply chars_bytes.
    + by apply digit_bytes, Forall_cons.
    + rewrite !elem_of_cons, elem_of_nil in Hsg. destruct Hsg as [->|[->|[]]]; done.
Qed.

Lemma hex_word x : INT32_MIN <= x <= INT32_MAX -> word (str "0x" ++ print_X (u32 x)) [TOK_HEX x].
Proof using Hulong.
  unfold INT32_MIN, INT32_MAX. intros Hx. pose proof (Z.mod_pos_bound x (2 ^ 32) ltac:(done)) as Hm.
  destruct (strtoul_print (u32 x) Hulong Hm) as (d & w & -> & Hw & Ev). apply Forall_cons in Hw as [Hd Hw].
  change (str "0x" ++ d :: w) with (48 :: 120 :: d :: w). split.
  - split; [done|set_solver].
  - do 2 (apply chars_bytes; [|done]). by apply hex_bytes, Forall_cons.
  - intros rest Hf Hr. pose proof (lexed_hex d w rest Hd Hw Hf) as Hl. rewrite Ev in Hl.
    assert (s32 (u32 x) = x) as E; [|by rewrite E in Hl]. rewrite s32_u32. apply s32_id. lia.
Qed.
Lemma hex64_word x : - 2 ^ 63 <= x < 2 ^ 63 -> word (str "0x" ++ print_X (x mod 2 ^ 64) ++ [76]) [TOK_HEX64 x].
Proof.
  intros Hx. pose proof (Z.mod_pos_bound x (2 ^ 64) ltac:(done)) as Hm.
  destruct (fromhex_print (x mod 2 ^ 64) Hm) as (d & w & -> & Hw & Ev). apply Forall_cons in Hw as [Hd Hw].
  change (str "0x" ++ (d :: w) ++ [76]) with (48 :: 120 :: d :: w ++ [76]). split.
  - split; [done|set_solver].
  - do 2 (apply chars_bytes; [|done]). apply (app_bytes (d :: w) [76]); [by apply hex_bytes, Forall_cons|by apply Forall_singleton].
  - intros rest Hf Hr. pose proof (lexed_hex64 d w rest Hd Hw Hf) as Hl. rewrite Ev in Hl.
    assert (s64 (x mod 2 ^ 64) = x) as E; [|by rewrite E in Hl]. unfold s64. rewrite Z.add_mod_idemp_l by done. rewrite Z.mod_small by lia. lia.
Qed.
Lemma string_word s : string_bytes s -> word (quoted s) [TOK_STRING s].
Proof using Hulong.
  intros Hs. split.
  - split; [done|set_solver].
  - apply chars_bytes; [|done]. apply app_bytes; [by apply escaped_bytes|by apply Forall_singleton].
  - intros rest _ Hr. by apply lexed_string.
Qed.

Lemma scalar_word x : scalar_writable x -> word (scalar_text x) (scalar_toks x).
Proof using Hulong.
  destruct x as [x|x|x|x|x|x|p ps]; cbn [scalar_writable scalar_text scalar_toks]; intros Hx.
  - destruct Hx as [->| ->]; (split; [split; [done|set_solver]|apply (bool_decide_unpack _); by vm_compute|]); intros rest Hf _;
      [by apply lexed_false|by apply lexed_true].
  - destruct (print_d_int x Hx) as [Hi Ev]. split; [by apply int_leads|by apply int_bytes|]. intros rest Hf _. rewrite <- Ev at 2. by apply lexed_int.
  - by apply hex_word.
  - subst x. destruct (print_d_int 0 ltac:(done)) as [Hi _]. split.
    + split; [done|set_solver].
    + apply app_bytes; [by apply int_bytes|by apply Forall_singleton].
    + intros rest Hf _. by apply lexed_int64.
  - by apply hex64_word.
  - destruct Hx as [Hx Ev]. split; [by apply float_leads|by apply float_bytes|]. intros rest Hf _. rewrite <- Ev at 2. by apply lexed_float.
  - destruct Hx as [Hp ->]. cbn [concat fmap list_fmap]. rewrite app_nil_r. by apply string_word.
Qed.

(** Elements up to a closing bracket. *)
Lemma items_bytes ws tss : Forall2 word ws tss -> Forall is_u8 (items_text ws).
Proof.
  induction 1 as [|w ts ws tss Hw HF IH]; [done|]. cbn [items_text]. apply app_bytes; [apply Hw|]. apply app_bytes; [|by apply chars_bytes].
  destruct ws; [done|by apply Forall_singleton].
Qed.
Lemma items_lexed ws tss : Forall2 word ws tss -> forall c rest, inner c -> Forall is_u8 rest -> lexed ([32] ++ items_text ws) (c :: rest) (commas tss).
Proof.
  induction 1 as [|w ts ws tss Hw HF IH]; intros c rest Hc Hr; [rewrite app_nil_r; by apply blank_inner|].
  pose proof (items_bytes _ _ HF) as Hb. assert (Hcr : Forall is_u8 (c :: rest)) by (apply chars_bytes; [done|apply Hc]).
  assert (Hw' := w_starts _ _ Hw). assert (Hwb := w_bytes _ _ Hw). cbn [items_text commas].
  apply (lexed_app [32] _ (c :: rest) [] (ts ++ _)).
  { assert (Hall : Forall is_u8 (items_text (w :: ws) ++ c :: rest)) by (apply app_bytes; [by apply (items_bytes _ (ts :: tss)), Forall2_cons|done]).
    cbn [items_text] in Hall. destruct w as [|d w]; [done|]. cbn [app] in *. apply Forall_cons in Hall as [_ Hall]. by apply blank_inner. }
  specialize (IH c rest Hc Hr). destruct HF as [|w2 ts2 ws tss Hw2 HF].
  - cbn [items_text app]. apply (lexed_app w [32] (c :: rest) ts []); [|by apply blank_inner].
    apply (w_lexed _ _ Hw); [left|]. by apply chars_bytes.
  - set (it := items_text (w2 :: ws)) in *. set (cm := commas (ts2 :: tss)) in *.
    assert (Hrest : Forall is_u8 (([32] ++ it) ++ c :: rest)) by (apply app_bytes; [by apply chars_bytes|done]).
    apply lexed_app.
    + apply (w_lexed _ _ Hw); [right; left|]. rewrite <- app_assoc. by apply chars_bytes.
    + apply (lexed_app [44] _ (c :: rest) [TOK_COMMA] cm); [|done].
      apply (lexed_char 44 _ (Tok TOK_COMMA)); [set_solver|done|done].
Qed.

(** A pair of brackets. *)
Lemma bracket_word a b ta tb ws tss : a ∈ [40; 91] -> b ∈ [41; 93] -> punctuation a = Some (Tok ta) -> punctuation b = Some (Tok tb) ->
  Forall2 word ws tss -> word ([a; 32] ++ items_text ws ++ [b]) (ta :: commas tss ++ [tb]).
Proof.
  intros Ha Hb Pa Pb HF. assert (Hai : inner a) by (rewrite !elem_of_cons, elem_of_nil in Ha; destruct Ha as [->|[->|[]]]; (split; [done|set_solver])).
  assert (Hbi : inner b) by (rewrite !elem_of_cons, elem_of_nil in Hb; destruct Hb as [->|[->|[]]]; (split; [done|set_solver])).
  pose proof (items_bytes _ _ HF) as Hit. assert (Hb1 : Forall is_u8 [b]) by (apply Forall_singleton, Hbi). split; [done| |].
  - cbn [app]. apply chars_bytes; [|apply Hai]. apply chars_bytes; [by apply app_bytes|done].
  - intros rest _ Hr. change ([a; 32] ++ items_text ws ++ [b]) with ([a] ++ [32] ++ items_text ws ++ [b]). rewrite (app_assoc [32]).
    apply (lexed_app [a] _ rest [ta]).
    + apply (lexed_char a _ (Tok ta)); [set_solver|done|]. repeat apply app_bytes; try done. by apply Forall_singleton.
    + apply lexed_app; [by apply items_lexed|]. apply (lexed_char b _ (Tok tb)); [set_solver|done|done].
Qed.

(** Members of a group. *)
Lemma indent_blank w depth : Forall blank (indent w depth).
Proof.
  unfold indent, __config_indent. destruct (1 <? depth); [|done].
  destruct (w =? 0); apply Forall_replicate; [left|right; left].
Qed.
Lemma blank_bytes w : Forall blank w -> Forall is_u8 w.
Proof.
  intros Hw. apply (Forall_impl _ _ _ Hw). intros c Hc. unfold blank in Hc. rewrite !elem_of_cons, elem_of_nil in Hc.
  destruct Hc as [->|[->|[]]]; done.
Qed.
Lemma indent_lexed w depth c rest : inner c -> Forall is_u8 rest -> lexed (indent w depth) (c :: rest) [].
Proof.
  intros Hc Hr. pose proof (indent_blank w depth) as Hb. destruct (indent w depth) as [|b bs]; [apply lexed_nil|]. by apply lexed_blanks.
Qed.

Definition member_text (w depth : Z) (m : cstring * cfg) : cstring :=
  indent w depth ++ m.1 ++ [32; separator m.2; 32] ++ value_text w depth m.2 ++ [59; 10].

Definition good_member (w depth : Z) (m : cstring * cfg) : Prop :=
  (__config_validate_name m.1 = true /\ ~ boolean_name m.1) /\ word (value_text w depth m.2) (value_toks m.2).

Lemma name_word n : __config_validate_name n = true -> ~ boolean_name n -> word n [TOK_NAME n].
Proof.
  intros Hv Hb. destruct (valid_name n Hv) as (c & w & E & Hc & Hw).
  assert (Hall : Forall (fun x => x ∈ first_chars ++ name_chars) n).
  { subst n. apply Forall_cons. split; [apply elem_of_app; by left|]. apply (Forall_impl _ _ _ Hw). intros x Hx. apply elem_of_app. by right. }
  split.
  - subst n. apply Forall_cons in Hall as [Hx _]. exact (proj1 (name_char_inner c Hx)).
  - apply (Forall_impl _ _ _ Hall). intros x Hx. exact (proj1 (proj1 (name_char_inner x Hx))).
  - intros rest Hf _. by apply lexed_name.
Qed.

Lemma member_bytes w depth m : good_member w depth m -> Forall is_u8 (member_text w depth m).
Proof.
  intros [[Hv Hb] Hw]. unfold member_text. apply app_bytes; [apply blank_bytes, indent_blank|]. apply app_bytes; [apply (name_word m.1 Hv Hb)|].
  apply app_bytes; [by destruct m.2; apply (bool_decide_unpack _); vm_compute|]. apply app_bytes; [apply Hw|]. apply (bool_decide_unpack _). by vm_compute.
Qed.
Lemma member_lexed w depth m rest : good_member w depth m -> Forall is_u8 rest -> lexed (member_text w depth m) rest (member_toks m).
Proof.
  intros Hm Hr. pose proof (member_bytes w depth m Hm) as Hmb. destruct Hm as [[Hv Hb] Hw]. pose proof (name_word m.1 Hv Hb) as Hn.
  unfold member_text in *. apply Forall_app in Hmb as [_ Hmb]. set (tail := [32; separator m.2; 32] ++ value_text w depth m.2 ++ [59; 10]) in *.
  assert (Hnr : Forall is_u8 ((m.1 ++ tail) ++ rest)) by (by apply app_bytes). apply Forall_app in Hmb as [_ Ht].
  assert (Htr : Forall is_u8 (tail ++ rest)) by (by apply app_bytes).
  apply (lexed_app _ _ rest [] (member_toks m)).
  { assert (Hs := w_starts _ _ Hn). destruct m.1 as [|c n]; [done|]. cbn [app] in *. apply Forall_cons in Hnr as [_ Hnr]. by apply indent_lexed. }
  apply (lexed_app _ _ rest [TOK_NAME m.1] (TOK_EQUALS :: value_toks m.2 ++ [TOK_END])).
  { apply (w_lexed _ _ Hn); [left|done]. }
  unfold tail in *. clear tail Hnr Ht. assert (Hs := w_starts _ _ Hw). assert (Hvb := w_bytes _ _ Hw).
  assert (Hend : Forall is_u8 ([59; 10] ++ rest)) by (by do 2 (apply chars_bytes; [|done])).
  assert (Hvr : Forall is_u8 ((value_text w depth m.2 ++ [59; 10]) ++ rest)) by (rewrite <- app_assoc; by apply app_bytes).
  assert (Hsep : separator m.2 ∈ [58; 61]) by (destruct m.2; set_solver).
  assert (Hsi : inner (separator m.2)) by (destruct m.2; (split; [done|set_solver])).
  change ([32; separator m.2; 32] ++ value_text w depth m.2 ++ [59; 10]) with ([32] ++ [separator m.2] ++ [32] ++ value_text w depth m.2 ++ [59; 10]).
  apply (lexed_app [32] _ rest [] (TOK_EQUALS :: value_toks m.2 ++ [TOK_END])).
  { apply blank_inner; [done|]. by apply chars_bytes. }
  apply (lexed_app _ _ rest [TOK_EQUALS] (value_toks m.2 ++ [TOK_END])).
  { apply (lexed_char _ _ (Tok TOK_EQUALS)); [set_solver|by destruct m.2|by apply chars_bytes]. }
  apply (lexed_app [32] _ rest [] (value_toks m.2 ++ [TOK_END])).
  { destruct (value_text w depth m.2) as [|c t]; [done|]. cbn [app] in *. apply Forall_cons in Hvr as [_ Hvr]. by apply blank_inner. }
  apply lexed_app; [apply (w_lexed _ _ Hw); [right; right; left|done]|].
  apply (lexed_app [59] [10] rest [TOK_END] []).
  - apply (lexed_char 59 _ (Tok TOK_END)); [set_solver|done|by apply chars_bytes].
  - by apply (lexed_char 10 _ Again); [set_solver| |].
Qed.

Lemma members_bytes w depth ms : Forall (good_member w depth) ms -> Forall is_u8 (concat (member_text w depth <$> ms)).
Proof. induction 1 as [|m ms Hm _ IH]; [done|]. cbn [fmap list_fmap concat]. apply app_bytes; [by apply member_bytes|done]. Qed.
Lemma members_lexed w depth ms : Forall (good_member w depth) ms -> forall rest, Forall is_u8 rest ->
  lexed (concat (member_text w depth <$> ms)) rest (settings_toks ms).
Proof.
  induction 1 as [|m ms Hm Hms IH]; intros rest Hr; [apply lexed_nil|]. cbn [fmap list_fmap concat settings_toks flat_map].
  apply lexed_app; [|by apply IH]. apply member_lexed; [done|]. apply app_bytes; [by apply members_bytes|done].
Qed.

Lemma group_value_toks ms : value_toks (CGroup ms) = TOK_GROUP_START :: settings_toks ms ++ [TOK_GROUP_END].
Proof. cbn [value_toks]. f_equal. f_equal. apply flat_map_ext. by intros []. Qed.
Lemma group_text w depth ms : 0 < depth -> value_text w depth (CGroup ms) =
  [10] ++ indent w depth ++ [123] ++ [10] ++ concat (member_text w (depth + 1) <$> ms) ++ indent w depth ++ [125].
Proof.
  intros Hd. cbn [value_text]. rewrite !(proj2 (Z.ltb_lt _ _)) by lia. rewrite <- !app_assoc. done.
Qed.
Lemma group_word w depth ms : 0 < depth -> Forall (good_member w (depth + 1)) ms -> word (value_text w depth (CGroup ms)) (value_toks (CGroup ms)).
Proof.
  intros Hd Hms. rewrite group_value_toks, group_text by done. pose proof (members_bytes _ _ _ Hms) as Hb. pose proof (blank_bytes _ (indent_blank w depth)) as Hi.
  assert (Hi1 : inner 123) by (split; [done|set_solver]). assert (Hi2 : inner 125) by (split; [done|set_solver]).
  split; [split; [done|set_solver]| |].
  - repeat apply app_bytes; try done; by apply Forall_singleton.
  - intros rest _ Hr.
    assert (Hend : Forall is_u8 ((indent w depth ++ [125]) ++ rest)) by (repeat apply app_bytes; try done; by apply Forall_singleton).
    assert (Hmem : Forall is_u8 ((concat (member_text w (depth + 1) <$> ms) ++ indent w depth ++ [125]) ++ rest))
      by (repeat apply app_bytes; try done; by apply Forall_singleton).
    apply (lexed_app [10] _ rest [] (TOK_GROUP_START :: settings_toks ms ++ [TOK_GROUP_END])).
    { apply (lexed_char 10 _ Again); [set_solver|done|]. rewrite <- app_assoc. apply app_bytes; [done|].
      cbn [app]. by do 2 (apply chars_bytes; [|done]). }
    apply (lexed_app _ _ rest [] (TOK_GROUP_START :: settings_toks ms ++ [TOK_GROUP_END])).
    { cbn [app]. apply indent_lexed; [done|]. by apply chars_bytes. }
    apply (lexed_app [123] _ rest [TOK_GROUP_START] (settings_toks ms ++ [TOK_GROUP_END])).
    { apply (lexed_char 123 _ (Tok TOK_GROUP_START)); [set_solver|done|]. by apply chars_bytes. }
    apply (lexed_app [10] _ rest [] (settings_toks ms ++ [TOK_GROUP_END])); [by apply (lexed_char 10 _ Again); [set_solver| |]|].
    apply lexed_app; [by apply members_lexed|]. apply (lexed_app _ _ rest [] [TOK_GROUP_END]); [cbn [app]; by apply indent_lexed|].
    by apply (lexed_char 125 _ (Tok TOK_GROUP_END)); [set_solver| |].
Qed.

(** Every writable value. *)
Lemma words_all (text : cfg -> cstring) vs : Forall (fun v => word (text v) (value_toks v)) vs -> Forall2 word (text <$> vs) (value_toks <$> vs).
Proof. induction 1; [constructor|]. by apply Forall2_cons. Qed.

Lemma value_word w v : forall depth, 0 < depth -> cfg_ok v -> writable v -> word (value_text w depth v) (value_toks v).
Proof using Hulong.
  induction v as [x|xs|vs IH|ms IH] using cfg_ind'; intros depth Hd Hok Hw.
  - by apply scalar_word.
  - cbn [writable] in Hw. apply (bracket_word 91 93 TOK_ARRAY_START TOK_ARRAY_END); [set_solver|set_solver|done|done|].
    induction Hw as [|x xs Hx _ IHx]; [constructor|]. cbn [fmap list_fmap]. apply Forall2_cons. split; [by apply scalar_word|].
    apply IHx. destruct Hok as [ty Hty]. apply Forall_cons in Hty as [_ Hty]. by exists ty.
  - cbn [writable cfg_ok] in Hw, Hok. apply foldr_Forall in Hw, Hok. apply (bracket_word 40 41 TOK_LIST_START TOK_LIST_END); [set_solver|set_solver|done|done|].
    apply words_all. rewrite Forall_forall in *. intros v Hv. apply IH; [done|lia|by apply Hok|by apply Hw].
  - apply group_word; [done|]. cbn [writable cfg_ok] in Hw, Hok. destruct Hok as (_ & Hn & Hok). rewrite Forall_fmap in Hn.
    apply (foldr_Forall (fun m => cfg_ok m.2)) in Hok. apply (foldr_Forall (fun m => ~ boolean_name m.1 /\ writable m.2)) in Hw.
    rewrite Forall_forall in *. intros m Hm. destruct (Hw m Hm) as [Hb Hwm]. split; [split; [by apply Hn|done]|].
    apply IH; [done|lia|by apply Hok|done].
Qed.

Lemma settings_lexed w ms : settings_ok ms -> writable (CGroup ms) ->
  Forall is_u8 (concat (member_text w 1 <$> ms)) /\ lexed (concat (member_text w 1 <$> ms)) [] (settings_toks ms).
Proof using Hulong.
  intros Hok Hw. assert (Hms : Forall (good_member w 1) ms).
  { cbn [writable settings_ok cfg_ok] in Hw, Hok. destruct Hok as (_ & Hn & Hok). rewrite Forall_fmap in Hn.
    apply (foldr_Forall (fun m => cfg_ok m.2)) in Hok. apply (foldr_Forall (fun m => ~ boolean_name m.1 /\ writable m.2)) in Hw.
    rewrite Forall_forall in *. intros m Hm. destruct (Hw m Hm) as [Hb Hwm]. split; [split; [by apply Hn|done]|].
    apply value_word; [lia|by apply Hok|done]. }
  split; [by apply members_bytes|]. by apply members_lexed.
Qed.

(** The scanner on such a text. *)
Lemma lexed_reads name e text ts line : scanctx_init name = Ok e -> lexed text [] ts -> lexes (reading e text line) ts.
Proof using.
  intros Ee Hl. destruct (scanctx_init_ok name) as (e' & Ee' & He & _). assert (e' = e) as -> by congruence.
  assert (Hidle : idle (with_start 1 e)) by (split; [done|]; destruct name; injection Ee as <-; done).
  destruct (Hl (with_start 1 e) true line [] Hidle) as (e2 & b2 & l2 & _ & Hs). rewrite app_nil_r in Hs. by exists e2, b2, l2.
Qed.

Lemma lexes_scanned (Hfiles : forall f content, fopen f = Some content -> Forall is_u8 content) name e text ts :
  scanctx_init name = Ok e -> Forall is_u8 text -> lexes (reading e text 1) ts ->
  exists N, forall fuel, (N <= fuel)%nat -> exists g, scan_file fuel name text = Ok (ts, g).
Proof using.
  intros Ee H8 Hl. destruct (scanctx_init_ok name) as (e' & Ee' & He & He0 & Hf). assert (e' = e) as -> by congruence.
  destruct (lex_text Hfiles e (libconfig_yy_create_buffer text YY_BUF_SIZE) He He0 (created_ok text H8) eq_refl eq_refl Hf) as (t1 & N1 & _ & U1 & H1).
  cbn [b_chars b_input b_lineno libconfig_yy_create_buffer app] in *. rewrite <- (U1 ts Hl) in H1.
  exists N1. intros fuel Hfuel. unfold scan_file. rewrite Ee. cbn [rbind]. by apply H1.
Qed.

Lemma lexed_scanned (Hfiles : forall f content, fopen f = Some content -> Forall is_u8 content) text ts : Forall is_u8 text -> lexed text [] ts ->
  exists N, forall fuel, (N <= fuel)%nat ->
    (exists g, scan_file fuel None text = Ok (ts, g)) /\ (exists g, scan_string fuel text = Ok (ts, g)).
Proof using.
  intros H8 Hl. destruct (scanctx_init_ok None) as (e & Ee & He & He0 & Hf).
  destruct (lexes_scanned Hfiles None e text ts Ee H8 (lexed_reads None e text ts 1 Ee Hl)) as (N1 & H1).
  destruct (lex_text Hfiles e (Buffer [] text (strlen text) false 0 true YY_BUFFER_NEW 0) He He0) as (t2 & N2 & _ & U2 & H2); try done.
  cbn [b_chars b_input b_lineno] in *. rewrite ?app_nil_r in *. rewrite <- (U2 ts (lexed_reads None e text ts _ Ee Hl)) in H2.
  exists (Nat.max N1 N2). intros fuel Hfuel. split; [apply H1; lia|]. unfold scan_string. rewrite Ee. cbn [rbind]. apply H2. lia.
Qed.
End Reading.

Lemma config_written `{CFormat} c t ms : crep c t -> erase t = SNode None CONFIG_TYPE_GROUP 0 VZero (member_tree <$> ms) ->
  config_write c = Ok (concat (member_text (c_tab_width c) 1 <$> ms), c).
Proof.
  intros Hc E. assert (Et : erase t = value_tree None (CGroup ms)).
  { rewrite E. cbn [value_tree]. f_equal. apply list_fmap_ext. by intros _ [] _. }
  assert (Hh : stored (c_heap c) t).
  { intros [p s] Hx. rewrite (cr_heap _ _ Hc). apply elem_of_list_to_map_1; [apply (cr_nodup _ _ Hc)|done]. }
  assert (Hsize : size (c_heap c) = length (entries t)).
  { rewrite (cr_heap _ _ Hc). apply map_size_list_to_map. apply (cr_nodup _ _ Hc). }
  unfold config_write. rewrite (bind_ok _ _ c (c_root c) c eq_refl), (cr_root _ _ Hc). rewrite (bind_ok _ _ c (t_loc t) c eq_refl).
  rewrite (bind_ok _ _ c (t_set t) c).
  2:{ unfold setting, gets, lift, deref. cbn. by rewrite (stored_root _ _ Hh). }
  rewrite (bind_ok _ _ c c c eq_refl). unfold lift, __config_write_setting.
  rewrite (value_written (c_heap c) (c_tab_width c) (CGroup ms) None t (S (size (c_heap c))) 0 None Et (cr_wt _ _ Hc) Hh ltac:(lia)). cbn [rbind].
  destruct t as [p s kids]. cbn [t_set erase] in *. injection E as -> _ _ _ _. cbn [value_text app]. rewrite !app_nil_r. done.
Qed.

(** C7: what is written is read again.  The text that [config_write] makes of a configuration,
    with its indentation, its numbers in decimal, hexadecimal and floating-point notation, its
    escaped strings and its nested groups, arrays and lists, is read by the scanner and the
    parser into the same settings: the same names, types, formats, values and order.  The
    settings may have any names but [true] and [false] and any values but decimal integers of
    64 bits and those [double]s for which ten digits are not enough. *)
Theorem config_write_read `{CFormat} `{CLib} c t ms :
  (forall f content, fopen f = Some content -> Forall is_u8 content) -> 2 ^ 32 - 1 <= ULONG_MAX ->
  crep c t -> erase t = SNode None CONFIG_TYPE_GROUP 0 VZero (member_tree <$> ms) ->
  settings_ok ms -> writable (CGroup ms) -> (settings_depth ms + 7 < YYMAXDEPTH)%nat ->
  exists text fuel0, config_write c = Ok (text, c) /\
    forall c2 t2 fuel, crep c2 t2 -> auto_convert (c_flags c2) = false -> (fuel0 <= fuel)%nat ->
    exists c' t', config_read fuel text c2 = Ok (CONFIG_TRUE, c') /\ config_read_string fuel text c2 = Ok (CONFIG_TRUE, c') /\
      crep c' t' /\ erase t' = erase t.
Proof.
  intros Hfiles Hulong Hc E Hok Hw Hd. destruct (settings_lexed Hulong (c_tab_width c) ms Hok Hw) as [H8 Hl].
  destruct (lexed_scanned Hfiles _ _ H8 Hl) as (N & HN).
  exists (concat (member_text (c_tab_width c) 1 <$> ms)), (Nat.max N (5 * length (settings_toks ms) + 2)).
  split; [by apply (config_written c t)|]. intros c2 t2 fuel Hc2 Hf Hfuel. destruct (HN fuel ltac:(lia)) as [[g1 E1] [g2 E2]].
  destruct (config_read_settings ms c2 t2 fuel Hc2 Hf Hok Hd ltac:(lia)) as (c' & t' & E3 & Hc' & _ & Et').
  exists c', t'. unfold config_read, config_read_string. rewrite E1, E2. cbn [rbind]. by rewrite E, Et'.
Qed.

(** Every kind of value, a string with a quote and a control character, an empty group. *)
Definition zero_format : CFormat := {| printf_g := fun _ => str "0" |}.
Definition written_file : list (cstring * cfg) :=
  [(str "loader", CGroup [(str "iop_reset", CScalar (SBool 1)); (str "x", CScalar (SFloat (S754_zero false)));
      (str "boot2", CArray [SString (str "a" ++ [34; 10; 1; 255]) []; SString [] []])]);
   (str "n", CScalar (SInt (-2147483648))); (str "h", CScalar (SHex (-1))); (str "l", CScalar (SHex64 (-1))); (str "e", CGroup []);
   (str "more", CList [CScalar (SInt64 0); CList []; CGroup [(str "t", CArray [SInt 7; SHex 5])]])].

Lemma written_ok : settings_ok written_file.
Proof.
  assert (Hn : forall l, bool_decide (NoDup l /\ Forall (fun n => __config_validate_name n = true) l) = true ->
    NoDup l /\ Forall (fun n => __config_validate_name n = true) l) by (intros l Hl; by apply bool_decide_eq_true in Hl).
  assert (Hg : forall ms, bool_decide (NoDup ms.*1 /\ Forall (fun n => __config_validate_name n = true) ms.*1) = true ->
    foldr (fun m r => cfg_ok m.2 /\ r) True ms -> cfg_ok (CGroup ms)).
  { intros ms H1 H2. destruct (Hn _ H1). done. }
  apply Hg; [vm_compute; reflexivity|]. cbn [foldr written_file snd]. split_and!; try exact I.
  - apply Hg; [vm_compute; reflexivity|]. cbn [foldr snd]. split_and!; try exact I. exists CONFIG_TYPE_STRING. by repeat constructor.
  - apply Hg; [vm_compute; reflexivity|exact I].
  - split; [exact I|]. split; [exact I|]. split; [|exact I]. apply Hg; [vm_compute; reflexivity|]. cbn [foldr snd]. split; [|exact I].
    exists CONFIG_TYPE_INT. by repeat constructor.
Qed.

Lemma written_writable : writable (H := zero_format) (H0 := scan_lib) (CGroup written_file).
Proof.
  assert (Hb : forall n, bool_decide (boolean_name n) = false -> ~ boolean_name n) by (intros n Hn; by apply bool_decide_eq_false in Hn).
  assert (Hs : forall s, bool_decide (Forall (fun c => 1 <= c < 256) s) = true -> string_bytes s) by (intros s Hx; by apply bool_decide_eq_true in Hx).
  cbn [writable foldr written_file fst snd]. split_and!; try exact I; try (apply Hb; vm_compute; reflexivity).
  - by right.
  - split; [|reflexivity]. exists [48], [46; 48], []. split; [reflexivity|].
    split; [exists [], 48, []; repeat (split; [first [reflexivity|by left|set_solver]|]); constructor|].
    split; [right; exists [48]; split; [done|by repeat constructor]|by left].
  - repeat (apply Forall_cons; split; [split; [apply Hs; vm_compute; reflexivity|reflexivity]|]). apply Forall_nil_2.
  - by vm_compute.
  - by vm_compute.
  - by vm_compute.
  - reflexivity.
  - repeat (apply Forall_cons; split; [by vm_compute|]). apply Forall_nil_2.
Qed.

Lemma config_write_read_witness :
  exists c t text fuel0, crep c t /\ erase t = SNode None CONFIG_TYPE_GROUP 0 VZero (member_tree <$> written_file) /\
    config_write (H := zero_format) c = Ok (text, c) /\
    forall fuel, (fuel0 <= fuel)%nat ->
    exists c' t', config_read (H := scan_lib) fuel text c = Ok (CONFIG_TRUE, c') /\ crep c' t' /\ erase t' = erase t.
Proof.
  destruct (init_ok (Config ∅ 1 None 0 0 CONFIG_ERR_NONE) eq_refl) as (c1 & E1 & Hf & Hc1).
  assert (Hd : (settings_depth written_file + 7 < YYMAXDEPTH)%nat) by (apply Nat.leb_le; vm_compute; reflexivity).
  destruct (config_read_settings written_file c1 _ 800 Hc1 ltac:(by rewrite Hf) written_ok Hd) as (c & t & _ & Hc & Hfl & He);
    [apply Nat.leb_le; vm_compute; reflexivity|].
  destruct (@config_write_read zero_format scan_lib c t written_file sample_files ltac:(by vm_compute) Hc He written_ok written_writable Hd)
    as (text & fuel0 & Ew & Hr).
  exists c, t, text, fuel0. split; [exact Hc|]. split; [exact He|]. split; [exact Ew|]. intros fuel Hfuel.
  destruct (Hr c t fuel Hc ltac:(by rewrite Hfl, Hf) Hfuel) as (c' & t' & R & _ & Hc' & He'). by exists c', t'.
Defined.

(** What such a text looks like. *)
Example written_text : concat (member_text (H := zero_format) 2 1 <$> [(str "a", CGroup [(str "b", CArray [SInt (-5); SHex 255])]); (str "s", CScalar (SString [34] []))]) =
  str "a : " ++ [10] ++ str "{" ++ [10] ++ str "  b = [ -5, 0xFF ];" ++ [10] ++ str "};" ++ [10] ++ str "s = " ++ [34; 92; 34; 34; 59; 10].
Proof. reflexivity. Qed.
