(* ===== verification/ConfigMan.v ===== *)
(** * The configuration of the loader (ee/loader/configman.c, configman.h)

    The settings with their defaults, and the accessors on top of libconfig. *)

From S2P Require Import Prelude CString Queue LibConfig LibConfigTree LibConfigProps Grammar GrammarProps ConfigParse.
From Stdlib Require Import SpecFloat.
Local Open Scope ps2rd_scope.
Local Open Scope Z_scope.

(** ** Defaults and keys *)

Definition IOP_RESET : Z := 1.
Definition SBV_PATCHES : Z := 1.
Definition USB_SUPPORT : Z := 1.
Definition CHEATS_FILE : cstring := str "cheats.txt".
Definition ENGINE_INSTALL : Z := 1.
Definition ENGINE_ADDR : Z := 0x00080000.
Definition DEBUGGER_INSTALL : Z := 1.
Definition DEBUGGER_ADDR : Z := 0x00090000.
Definition DEBUGGER_RPC_MODE : Z := 1.
Definition DEBUGGER_LOAD_MODULES : Z := 1.
Definition DEBUGGER_SMS_MODULES : Z := 1.
Definition DEBUGGER_IPADDR : cstring := str "192.168.0.10".
Definition DEBUGGER_NETMASK : cstring := str "255.255.255.0".
Definition DEBUGGER_GATEWAY : cstring := str "192.168.0.1".
Definition SDKLIBS_INSTALL : Z := 1.
Definition SDKLIBS_ADDR : Z := 0x000c0000.
Definition ELFLDR_INSTALL : Z := 1.
Definition ELFLDR_ADDR : Z := 0x000ff000.

Definition SET_IOP_RESET : cstring := str "loader.iop_reset".
Definition SET_SBV_PATCHES : cstring := str "loader.sbv_patches".
Definition SET_USB_SUPPORT : cstring := str "loader.usb_support".
Definition SET_BOOT2 : cstring := str "loader.boot2".
Definition SET_CHEATS_FILE : cstring := str "loader.cheats".
Definition SET_ENGINE_INSTALL : cstring := str "engine.install".
Definition SET_ENGINE_ADDR : cstring := str "engine.addr".
Definition SET_DEBUGGER_INSTALL : cstring := str "debugger.install".
Definition SET_DEBUGGER_ADDR : cstring := str "debugger.addr".
Definition SET_DEBUGGER_AUTO_HOOK : cstring := str "debugger.auto_hook".
Definition SET_DEBUGGER_PATCH_LOADMODULE : cstring := str "debugger.patch_loadmodule".
Definition SET_DEBUGGER_UNHOOK_IOP_RESET : cstring := str "debugger.unhook_iop_reset".
Definition SET_DEBUGGER_RPC_MODE : cstring := str "debugger.rpc_mode".
Definition SET_DEBUGGER_LOAD_MODULES : cstring := str "debugger.load_modules".
Definition SET_DEBUGGER_SMS_MODULES : cstring := str "debugger.sms_modules".
Definition SET_DEBUGGER_IPADDR : cstring := str "debugger.ipaddr".
Definition SET_DEBUGGER_NETMASK : cstring := str "debugger.netmask".
Definition SET_DEBUGGER_GATEWAY : cstring := str "debugger.gateway".
Definition SET_SDKLIBS_INSTALL : cstring := str "sdklibs.install".
Definition SET_SDKLIBS_ADDR : cstring := str "sdklibs.addr".
Definition SET_ELFLDR_INSTALL : cstring := str "elfldr.install".
Definition SET_ELFLDR_ADDR : cstring := str "elfldr.addr".

(** ** Accessors *)

Definition config_get_int (path : cstring) : M config_t Z :=
  let* s := config_lookup path in config_setting_get_int s.
Definition config_get_int64 (path : cstring) : M config_t Z :=
  let* s := config_lookup path in config_setting_get_int64 s.
Definition config_get_float (path : cstring) : M config_t spec_float :=
  let* s := config_lookup path in config_setting_get_float s.
Definition config_get_bool (path : cstring) : M config_t Z :=
  let* s := config_lookup path in config_setting_get_bool s.
Definition config_get_string (path : cstring) : M config_t (option cstring) :=
  let* s := config_lookup path in config_setting_get_string s.
Definition config_get_string_elem (path : cstring) (index : Z) : M config_t (option cstring) :=
  let* s := config_lookup path in
  let* s := lift (of_option NullDeref s) in
  config_setting_get_string_elem s index.

(** ** The default configuration *)

Definition add_bool (group : option loc) (name : cstring) (v : option Z) : M config_t unit :=
  let* s := config_setting_add group (Some name) CONFIG_TYPE_BOOL in
  match v with Some v => let* _ := config_setting_set_bool s v in ret tt | None => ret tt end.
Definition add_int (group : option loc) (name : cstring) (v : Z) : M config_t unit :=
  let* s := config_setting_add group (Some name) CONFIG_TYPE_INT in
  let* _ := config_setting_set_int s v in ret tt.
Definition add_string (group : option loc) (name v : cstring) : M config_t unit :=
  let* s := config_setting_add group (Some name) CONFIG_TYPE_STRING in
  let* _ := config_setting_set_string s (Some v) in ret tt.

Definition config_build : M config_t unit :=
  config_init;;
  let* root := gets c_root in
  let* group := config_setting_add root (Some (str "loader")) CONFIG_TYPE_GROUP in
  add_bool group (str "iop_reset") (Some IOP_RESET);;
  add_bool group (str "sbv_patches") (Some SBV_PATCHES);;
  add_bool group (str "usb_support") (Some USB_SUPPORT);;
  let* _ := config_setting_add group (Some (str "boot2")) CONFIG_TYPE_ARRAY in
  add_string group (str "cheats") CHEATS_FILE;;
  let* group := config_setting_add root (Some (str "engine")) CONFIG_TYPE_GROUP in
  add_bool group (str "install") (Some ENGINE_INSTALL);;
  add_int group (str "addr") ENGINE_ADDR;;
  let* group := config_setting_add root (Some (str "debugger")) CONFIG_TYPE_GROUP in
  add_bool group (str "install") (Some DEBUGGER_INSTALL);;
  add_int group (str "addr") DEBUGGER_ADDR;;
  add_bool group (str "auto_hook") None;;
  add_bool group (str "patch_loadmodule") None;;
  add_bool group (str "unhook_iop_reset") None;;
  add_int group (str "rpc_mode") DEBUGGER_RPC_MODE;;
  add_bool group (str "load_modules") (Some DEBUGGER_LOAD_MODULES);;
  add_bool group (str "sms_modules") (Some DEBUGGER_SMS_MODULES);;
  add_string group (str "ipaddr") DEBUGGER_IPADDR;;
  add_string group (str "netmask") DEBUGGER_NETMASK;;
  add_string group (str "gateway") DEBUGGER_GATEWAY;;
  let* group := config_setting_add root (Some (str "sdklibs")) CONFIG_TYPE_GROUP in
  add_bool group (str "install") (Some SDKLIBS_INSTALL);;
  add_int group (str "addr") SDKLIBS_ADDR;;
  let* group := config_setting_add root (Some (str "elfldr")) CONFIG_TYPE_GROUP in
  add_bool group (str "install") (Some ELFLDR_INSTALL);;
  add_int group (str "addr") ELFLDR_ADDR.

(** ** Settings of a file *)

(** The settings [ms] are the configuration. *)
Definition configured (c : config_t) (t : ltree) (ms : list (cstring * cfg)) : Prop :=
  crep c t /\ erase t = SNode None CONFIG_TYPE_GROUP 0 VZero (member_tree <$> ms) /\ settings_ok ms.

Lemma configured_at c t ms ns v :
  configured c t ms -> Forall plain ns -> ns <> [] -> cfg_at (CGroup ms) ns = Some v ->
  exists q s kids name, config_lookup (path_of ns) c = Ok (Some q, c) /\ node_at c t q s kids /\
    erase (LNode q s kids) = value_tree name v.
Proof.
  intros (Hc & He & Hok) Hv Hne Ha. pose proof (lookup_settings ns c t ms Hc He Hok Hv Hne) as Hl. rewrite Ha in Hl.
  destruct Hl as (o & name & E & (q & s & kids & -> & Hn & Hk) & _). by exists q, s, kids, name.
Qed.

(** An accessor at a scalar sees its type and its value. *)
Lemma read_scalar_at {A} (f : Z -> config_setting_t -> res A) c t ms ns x r :
  configured c t ms -> Forall plain ns -> ns <> [] -> cfg_at (CGroup ms) ns = Some (CScalar x) ->
  (forall flags s, s_type s = scalar_type x -> s_value s = scalar_val x -> f flags s = Ok r) ->
  (let* p := config_lookup (path_of ns) in read_setting f p) c = Ok (r, c).
Proof.
  intros Hc Hv Hne Ha Hf. destruct (configured_at c t ms ns _ Hc Hv Hne Ha) as (q & s & kids & name & E & Hn & He).
  rewrite (bind_ok _ _ _ _ _ E). cbn [erase value_tree scalar_tree] in He. injection He as _ Et _ Ev _.
  unfold read_setting. rewrite (bind_ok _ _ c q c) by done. rewrite (bind_ok _ _ _ _ _ (setting_at _ _ _ _ _ Hn)).
  rewrite (bind_ok _ _ c (c_flags c) c) by done. rewrite Et in Ev.
  replace (is_aggregate (scalar_type x)) with false in Ev by (by destruct x). unfold lift. by rewrite Hf.
Qed.

Lemma get_bool_at c t ms ns x :
  configured c t ms -> Forall plain ns -> ns <> [] -> cfg_at (CGroup ms) ns = Some (CScalar (SBool x)) ->
  config_get_bool (path_of ns) c = Ok (x, c).
Proof.
  intros Hc Hv Hne Ha. apply (read_scalar_at _ c t ms ns _ x Hc Hv Hne Ha). intros _ s Et Ev. unfold setting_get_bool. by rewrite Et, Ev.
Qed.

(** Decimal and hexadecimal integers. *)
Definition is_int (v : option cfg) (x : Z) : Prop := v = Some (CScalar (SInt x)) \/ v = Some (CScalar (SHex x)).

Lemma get_int_at c t ms ns x :
  configured c t ms -> Forall plain ns -> ns <> [] -> is_int (cfg_at (CGroup ms) ns) x -> config_get_int (path_of ns) c = Ok (x, c).
Proof.
  intros Hc Hv Hne [Ha|Ha]; apply (read_scalar_at _ c t ms ns _ x Hc Hv Hne Ha); intros flags s Et Ev;
    unfold setting_get_int; by rewrite Et, Ev.
Qed.

Lemma get_string_at c t ms ns a ps :
  configured c t ms -> Forall plain ns -> ns <> [] -> cfg_at (CGroup ms) ns = Some (CScalar (SString a ps)) ->
  config_get_string (path_of ns) c = Ok (Some (concat (a :: ps)), c).
Proof.
  intros Hc Hv Hne Ha. apply (read_scalar_at _ c t ms ns _ _ Hc Hv Hne Ha). intros _ s Et Ev. unfold setting_get_string. by rewrite Et, Ev.
Qed.

(** The string of an element, NULL when it is none. *)
Definition string_of (x : scalar) : option cstring := match x with SString p ps => Some (concat (p :: ps)) | _ => None end.

Lemma get_string_elem_at c t ms ns xs i :
  configured c t ms -> Forall plain ns -> ns <> [] -> cfg_at (CGroup ms) ns = Some (CArray xs) -> 0 <= i < 2 ^ 32 ->
  config_get_string_elem (path_of ns) i c = Ok (xs !! Z.to_nat i ≫= string_of, c).
Proof.
  intros Hc Hv Hne Ha Hi. destruct (configured_at c t ms ns _ Hc Hv Hne Ha) as (q & s & kids & name & E & Hn & He).
  unfold config_get_string_elem. rewrite (bind_ok _ _ _ _ _ E). rewrite (bind_ok _ _ c q c) by done. cbn [erase value_tree] in He.
  injection He as _ Et _ _ Ek. unfold config_setting_get_string_elem. rewrite (bind_ok _ _ _ _ _ (get_elem_ok c t q s kids i Hn)).
  rewrite Et. cbn [is_aggregate Z.eqb CONFIG_TYPE_GROUP CONFIG_TYPE_ARRAY CONFIG_TYPE_LIST Pos.eqb orb]. rewrite u32_id by lia.
  assert (El : erase <$> kids !! Z.to_nat i = scalar_tree None <$> xs !! Z.to_nat i) by (by rewrite <- !list_lookup_fmap, Ek).
  destruct (kids !! Z.to_nat i) as [k|] eqn:Eki, (xs !! Z.to_nat i) as [x|]; cbn in El; try done. injection El as El.
  destruct (kid_at _ _ _ _ _ _ _ Hn Eki) as (ks & Hk & Hkk). cbn [fmap option_fmap option_map].
  unfold config_setting_get_string, read_setting. rewrite (bind_ok _ _ c (t_loc k) c) by done.
  rewrite (bind_ok _ _ _ _ _ (setting_at _ _ _ _ _ Hk)). rewrite (bind_ok _ _ c (c_flags c) c) by done.
  rewrite <- Hkk in El. cbn [erase] in El. unfold scalar_tree in El. injection El as _ Ty _ Vl _. unfold lift, setting_get_string.
  destruct x; cbn [scalar_type scalar_val] in *; rewrite Ty in *; try done. cbn in Vl. by rewrite Vl.
Qed.
