(* ===== verification/ErlMan.v ===== *)
(** * The ERL modules of the loader (ee/loader/erlman.c)

    Which relocatable modules are installed and where, how the functions of the cheat engine
    reach the loader, and what the debugger is told.  The loader for ERL files is part of the
    SDK: what it makes of a file at an address is a parameter. *)

From S2P Require Import Prelude CString Queue LibConfig LibConfigTree LibConfigProps Grammar GrammarProps ConfigParse ConfigMan.
Local Open Scope ps2rd_scope.
Local Open Scope Z_scope.

Definition ALIGN (x a : Z) : Z := Z.land (u32 (x + a - 1)) (Z.lnot (a - 1)).

(** ** Files *)

Inductive erl_file : Type := ERL_FILE_ENGINE | ERL_FILE_LIBKERNEL | ERL_FILE_LIBPATCHES | ERL_FILE_DEBUGGER | ERL_FILE_ELFLDR.

#[export] Instance erl_file_eq_dec : EqDecision erl_file.
Proof. solve_decision. Defined.

Definition _erl_files : list erl_file :=
  [ERL_FILE_ENGINE; ERL_FILE_LIBKERNEL; ERL_FILE_LIBPATCHES; ERL_FILE_DEBUGGER; ERL_FILE_ELFLDR].

(** What the SDK's loader returns: the size in memory and the symbols. *)
Record erl_record_t : Type := Erl {
  erl_fullsize : Z;
  erl_symbol : cstring -> option Z;
}.

(** ** State *)

Record debugger_opts : Type := DebuggerOpts {
  o_auto_hook : Z;
  o_patch_loadmodule : Z;
  o_unhook_iop_reset : Z;
  o_rpc_mode : Z;
  o_load_modules : Z;
  o_ipaddr : list Z;
  o_netmask : list Z;
  o_gateway : list Z;
}.

(** Calls into the modules and the SDK, in their order. *)
Inductive erl_event : Type :=
| Loaded (f : erl_file) (addr : Z)
| Unloaded (f : erl_file)
| Exported (name : cstring)
| RegisteredCallback (addr : Z)
| SetOpts (addr : Z) (o : debugger_opts).

(** The [erl] field of the files, the members of [engine_t] that are set, and the events. *)
Record erlman : Type := ErlMan {
  em_erl : erl_file -> option erl_record_t;
  em_engine : list (cstring * Z);
  em_log : list erl_event;
  em_config : config_t;
}.

Definition log (ev : erl_event) : M erlman unit :=
  modify (fun s => ErlMan (em_erl s) (em_engine s) (em_log s ++ [ev]) (em_config s)).
Definition set_erl (f : erl_file) (r : option erl_record_t) : M erlman unit :=
  modify (fun s => ErlMan (fun g => if decide (g = f) then r else em_erl s g) (em_engine s) (em_log s) (em_config s)).
Definition set_member (name : cstring) (a : Z) : M erlman unit :=
  modify (fun s => ErlMan (em_erl s) (em_engine s ++ [(name, a)]) (em_log s) (em_config s)).
Definition conf {A} (m : M config_t A) : M erlman A := fun s =>
  let? '(x, c) := m (em_config s) in Ok (x, ErlMan (em_erl s) (em_engine s) (em_log s) c).

Section Install.
Context (load_erl_from_mem_to_addr : erl_file -> Z -> option erl_record_t) (unload_erl : erl_file -> bool).

Definition __install_erl (f : erl_file) (addr : Z) : M erlman Z :=
  match load_erl_from_mem_to_addr f addr with
  | None => set_erl f None;; ret (-1)
  | Some r => set_erl f (Some r);; log (Loaded f addr);; ret 0
  end.

Definition __uninstall_erl (f : erl_file) : M erlman Z :=
  if unload_erl f then set_erl f None;; log (Unloaded f);; ret 0 else ret (-1).

(** The file's record, which is set when this is called. *)
Definition erl_of (f : erl_file) : M erlman erl_record_t :=
  let* r := gets (fun s => em_erl s f) in lift (of_option NullDeref r).

(** GET_SYMBOL: [None] when the symbol is not there. *)
Definition GET_SYMBOL (f : erl_file) (name : cstring) : M erlman (option Z) :=
  let* r := erl_of f in ret (erl_symbol r name).

Definition ENGINE_SYMBOLS : list cstring :=
  [str "get_max_hooks"; str "get_num_hooks"; str "add_hook"; str "clear_hooks"; str "get_max_codes"; str "set_max_codes";
   str "get_num_codes"; str "add_code"; str "clear_codes"; str "register_callback"].

(** The members of [engine_t], in their order; the first symbol that is missing stops it. *)
Fixpoint get_members (names : list cstring) : M erlman bool :=
  match names with
  | [] => ret true
  | n :: names =>
      let* a := GET_SYMBOL ERL_FILE_ENGINE n in
      match a with
      | None => ret false
      | Some a => set_member n a;; get_members names
      end
  end.

Definition install_sdklibs : M erlman bool :=
  let* inst := conf (config_get_bool SET_SDKLIBS_INSTALL) in
  if negb (inst =? 0) then
    let* addr := conf (config_get_int SET_SDKLIBS_ADDR) in
    let addr := u32 addr in
    let* r := __install_erl ERL_FILE_LIBKERNEL addr in
    if r <? 0 then ret false
    else
      let* rec := erl_of ERL_FILE_LIBKERNEL in
      let addr := u32 (addr + ALIGN (erl_fullsize rec) 64) in
      let* r := __install_erl ERL_FILE_LIBPATCHES addr in
      ret (negb (r <? 0))
  else
    log (Exported (str "GetSyscallHandler"));;
    log (Exported (str "SetSyscall"));;
    ret true.

Definition install_engine : M erlman bool :=
  let* inst := conf (config_get_bool SET_ENGINE_INSTALL) in
  if inst =? 0 then ret true
  else
    let* addr := conf (config_get_int SET_ENGINE_ADDR) in
    let* r := __install_erl ERL_FILE_ENGINE (u32 addr) in
    if r <? 0 then ret false else get_members ENGINE_SYMBOLS.

(** [strncpy] of 15 bytes to a cleared field of 16. *)
Definition ip_field (s : option cstring) : res (list Z) :=
  let? s := of_option NullDeref s in
  Ok (take 15 (take 15 s ++ replicate 15 0) ++ [0]).

Definition get_opts : M erlman debugger_opts :=
  let* auto_hook := conf (config_get_bool SET_DEBUGGER_AUTO_HOOK) in
  let* patch_loadmodule := conf (config_get_bool SET_DEBUGGER_PATCH_LOADMODULE) in
  let* unhook_iop_reset := conf (config_get_bool SET_DEBUGGER_UNHOOK_IOP_RESET) in
  let* rpc_mode := conf (config_get_int SET_DEBUGGER_RPC_MODE) in
  let* load_modules := conf (config_get_bool SET_DEBUGGER_LOAD_MODULES) in
  let* ipaddr := conf (config_get_string SET_DEBUGGER_IPADDR) in
  let* ipaddr := lift (ip_field ipaddr) in
  let* netmask := conf (config_get_string SET_DEBUGGER_NETMASK) in
  let* netmask := lift (ip_field netmask) in
  let* gateway := conf (config_get_string SET_DEBUGGER_GATEWAY) in
  let* gateway := lift (ip_field gateway) in
  ret (DebuggerOpts auto_hook patch_loadmodule unhook_iop_reset rpc_mode load_modules ipaddr netmask gateway).

(** The callback of the debugger for the engine. *)
Definition add_callback : M erlman bool :=
  let* inst := conf (config_get_bool SET_ENGINE_INSTALL) in
  if inst =? 0 then ret true
  else
    let* a := GET_SYMBOL ERL_FILE_DEBUGGER (str "debugger_loop") in
    match a with
    | None => ret false
    | Some a => log (RegisteredCallback a);; ret true
    end.

Definition install_debugger : M erlman bool :=
  let* inst := conf (config_get_bool SET_DEBUGGER_INSTALL) in
  if inst =? 0 then ret true
  else
    let* addr := conf (config_get_int SET_DEBUGGER_ADDR) in
    let* libs := conf (config_get_bool SET_SDKLIBS_INSTALL) in
    if libs =? 0 then ret false
    else
      let* r := __install_erl ERL_FILE_DEBUGGER (u32 addr) in
      if r <? 0 then ret false
      else
        let* ok := add_callback in
        if negb ok then ret false
        else
          let* a := GET_SYMBOL ERL_FILE_DEBUGGER (str "set_debugger_opts") in
          match a with
          | None => ret false
          | Some a => let* o := get_opts in log (SetOpts a o);; ret true
          end.

Definition install_elfldr : M erlman bool :=
  let* inst := conf (config_get_bool SET_ELFLDR_INSTALL) in
  if inst =? 0 then ret true
  else
    let* addr := conf (config_get_int SET_ELFLDR_ADDR) in
    let* libs := conf (config_get_bool SET_SDKLIBS_INSTALL) in
    if libs =? 0 then ret false
    else
      let* r := __install_erl ERL_FILE_ELFLDR (u32 addr) in
      ret (negb (r <? 0)).

Definition install_erls : M erlman Z :=
  let* ok := install_sdklibs in
  if negb ok then ret (-1)
  else
    let* ok := install_engine in
    if negb ok then ret (-1)
    else
      let* ok := install_debugger in
      if negb ok then ret (-1)
      else
        let* ok := install_elfldr in
        ret (if (ok : bool) then 0 else -1).

(** The loop over the files. *)
Fixpoint uninstall_loop (files : list erl_file) : M erlman unit :=
  match files with
  | [] => ret tt
  | f :: files =>
      let* r := gets (fun s => em_erl s f) in
      match r with
      | None => ret tt
      | Some _ => let* _ := __uninstall_erl f in ret tt
      end;;
      uninstall_loop files
  end.

Definition uninstall_erls : M erlman unit := uninstall_loop _erl_files.

End Install.

(** ** What is installed *)

(** The settings that are read. *)
Record erl_settings : Type := ErlSettings {
  z_libs : Z; z_libs_addr : Z; z_engine : Z; z_engine_addr : Z; z_debugger : Z; z_debugger_addr : Z; z_elfldr : Z; z_elfldr_addr : Z;
  z_auto_hook : Z; z_patch : Z; z_unhook : Z; z_rpc_mode : Z; z_modules : Z;
  z_ipaddr : cstring; z_netmask : cstring; z_gateway : cstring;
}.

Definition is_bool (v : option cfg) (x : Z) : Prop := v = Some (CScalar (SBool x)).
Definition is_str (v : option cfg) (s : cstring) : Prop := exists a ps, v = Some (CScalar (SString a ps)) /\ s = concat (a :: ps).

Definition at_ (ms : list (cstring * cfg)) (g n : cstring) : option cfg := cfg_at (CGroup ms) [g; n].

(** They are the ones of the configuration file. *)
Record settings_of (ms : list (cstring * cfg)) (z : erl_settings) : Prop := {
  so_libs : is_bool (at_ ms (str "sdklibs") (str "install")) (z_libs z);
  so_libs_addr : is_int (at_ ms (str "sdklibs") (str "addr")) (z_libs_addr z);
  so_engine : is_bool (at_ ms (str "engine") (str "install")) (z_engine z);
  so_engine_addr : is_int (at_ ms (str "engine") (str "addr")) (z_engine_addr z);
  so_debugger : is_bool (at_ ms (str "debugger") (str "install")) (z_debugger z);
  so_debugger_addr : is_int (at_ ms (str "debugger") (str "addr")) (z_debugger_addr z);
  so_elfldr : is_bool (at_ ms (str "elfldr") (str "install")) (z_elfldr z);
  so_elfldr_addr : is_int (at_ ms (str "elfldr") (str "addr")) (z_elfldr_addr z);
  so_auto_hook : is_bool (at_ ms (str "debugger") (str "auto_hook")) (z_auto_hook z);
  so_patch : is_bool (at_ ms (str "debugger") (str "patch_loadmodule")) (z_patch z);
  so_unhook : is_bool (at_ ms (str "debugger") (str "unhook_iop_reset")) (z_unhook z);
  so_rpc_mode : is_int (at_ ms (str "debugger") (str "rpc_mode")) (z_rpc_mode z);
  so_modules : is_bool (at_ ms (str "debugger") (str "load_modules")) (z_modules z);
  so_ipaddr : is_str (at_ ms (str "debugger") (str "ipaddr")) (z_ipaddr z);
  so_netmask : is_str (at_ ms (str "debugger") (str "netmask")) (z_netmask z);
  so_gateway : is_str (at_ ms (str "debugger") (str "gateway")) (z_gateway z);
}.

(** What the accessors read from a configuration. *)
Record gives (c : config_t) (z : erl_settings) : Prop := {
  gi_libs : config_get_bool SET_SDKLIBS_INSTALL c = Ok (z_libs z, c);
  gi_libs_addr : config_get_int SET_SDKLIBS_ADDR c = Ok (z_libs_addr z, c);
  gi_engine : config_get_bool SET_ENGINE_INSTALL c = Ok (z_engine z, c);
  gi_engine_addr : config_get_int SET_ENGINE_ADDR c = Ok (z_engine_addr z, c);
  gi_debugger : config_get_bool SET_DEBUGGER_INSTALL c = Ok (z_debugger z, c);
  gi_debugger_addr : config_get_int SET_DEBUGGER_ADDR c = Ok (z_debugger_addr z, c);
  gi_elfldr : config_get_bool SET_ELFLDR_INSTALL c = Ok (z_elfldr z, c);
  gi_elfldr_addr : config_get_int SET_ELFLDR_ADDR c = Ok (z_elfldr_addr z, c);
  gi_auto_hook : config_get_bool SET_DEBUGGER_AUTO_HOOK c = Ok (z_auto_hook z, c);
  gi_patch : config_get_bool SET_DEBUGGER_PATCH_LOADMODULE c = Ok (z_patch z, c);
  gi_unhook : config_get_bool SET_DEBUGGER_UNHOOK_IOP_RESET c = Ok (z_unhook z, c);
  gi_rpc_mode : config_get_int SET_DEBUGGER_RPC_MODE c = Ok (z_rpc_mode z, c);
  gi_modules : config_get_bool SET_DEBUGGER_LOAD_MODULES c = Ok (z_modules z, c);
  gi_ipaddr : config_get_string SET_DEBUGGER_IPADDR c = Ok (Some (z_ipaddr z), c);
  gi_netmask : config_get_string SET_DEBUGGER_NETMASK c = Ok (Some (z_netmask z), c);
  gi_gateway : config_get_string SET_DEBUGGER_GATEWAY c = Ok (Some (z_gateway z), c);
}.

Definition pad16 (s : cstring) : list Z := take 15 (take 15 s ++ replicate 15 0) ++ [0].

Definition opts_of (z : erl_settings) : debugger_opts :=
  DebuggerOpts (z_auto_hook z) (z_patch z) (z_unhook z) (z_rpc_mode z) (z_modules z) (pad16 (z_ipaddr z)) (pad16 (z_netmask z)) (pad16 (z_gateway z)).

Section Plan.
Context (load : erl_file -> Z -> option erl_record_t) (z : erl_settings).

(** The events of a part of the installation and whether it succeeds; the next part only
    follows then. *)
Definition part : Type := list erl_event * bool.
Definition and_then (p q : part) : part := if p.2 then (p.1 ++ q.1, q.2) else p.

Definition loads (f : erl_file) (a : Z) : part := match load f a with Some _ => ([Loaded f a], true) | None => ([], false) end.
Definition symbol (f : erl_file) (a : Z) (name : cstring) : option Z := load f a ≫= fun r => erl_symbol r name.

Definition libpatches_addr : Z :=
  match load ERL_FILE_LIBKERNEL (u32 (z_libs_addr z)) with
  | Some r => u32 (u32 (z_libs_addr z) + ALIGN (erl_fullsize r) 64)
  | None => 0
  end.

Definition libs_plan : part :=
  if z_libs z =? 0 then ([Exported (str "GetSyscallHandler"); Exported (str "SetSyscall")], true)
  else and_then (loads ERL_FILE_LIBKERNEL (u32 (z_libs_addr z))) (loads ERL_FILE_LIBPATCHES libpatches_addr).

Definition engine_members : option (list (cstring * Z)) :=
  mapM (fun n => (fun a => (n, a)) <$> symbol ERL_FILE_ENGINE (u32 (z_engine_addr z)) n) ENGINE_SYMBOLS.

Definition engine_plan : part :=
  if z_engine z =? 0 then ([], true)
  else and_then (loads ERL_FILE_ENGINE (u32 (z_engine_addr z))) ([], bool_decide (is_Some engine_members)).

Definition calls (name : cstring) (ev : Z -> erl_event) : part :=
  match symbol ERL_FILE_DEBUGGER (u32 (z_debugger_addr z)) name with Some a => ([ev a], true) | None => ([], false) end.

Definition callback_plan : part :=
  if z_engine z =? 0 then ([], true) else calls (str "debugger_loop") RegisteredCallback.

Definition debugger_plan : part :=
  if z_debugger z =? 0 then ([], true)
  else if z_libs z =? 0 then ([], false)
  else
    and_then (loads ERL_FILE_DEBUGGER (u32 (z_debugger_addr z)))
      (and_then callback_plan
         (calls (str "set_debugger_opts") (fun a => SetOpts a (opts_of z)))).

Definition elfldr_plan : part :=
  if z_elfldr z =? 0 then ([], true)
  else if z_libs z =? 0 then ([], false)
  else loads ERL_FILE_ELFLDR (u32 (z_elfldr_addr z)).

Definition plan : part := and_then libs_plan (and_then engine_plan (and_then debugger_plan elfldr_plan)).
End Plan.

(** ** The installation follows the plan *)

Lemma two_plain g n : plain g -> plain n -> Forall plain [g; n].
Proof. intros. repeat (apply Forall_cons; split; [done|]). apply Forall_nil_2. Qed.

Lemma settings_give c t ms z : configured c t ms -> settings_of ms z -> gives c z.
Proof.
  intros Hc Hz.
  assert (Hb : forall g n x, is_bool (at_ ms g n) x -> plain g -> plain n -> config_get_bool (path_of [g; n]) c = Ok (x, c)).
  { intros g n x Hx Hg Hn. by apply (get_bool_at c t ms _ _ Hc (two_plain g n Hg Hn)). }
  assert (Hi : forall g n x, is_int (at_ ms g n) x -> plain g -> plain n -> config_get_int (path_of [g; n]) c = Ok (x, c)).
  { intros g n x Hx Hg Hn. by apply (get_int_at c t ms _ _ Hc (two_plain g n Hg Hn)). }
  assert (Hs : forall g n x, is_str (at_ ms g n) x -> plain g -> plain n -> config_get_string (path_of [g; n]) c = Ok (Some x, c)).
  { intros g n x (a & ps & Hx & ->) Hg Hn. by apply (get_string_at c t ms _ _ _ Hc (two_plain g n Hg Hn)). }
  split; [exact (Hb _ _ _ (so_libs _ _ Hz) eq_refl eq_refl)
    |exact (Hi _ _ _ (so_libs_addr _ _ Hz) eq_refl eq_refl)
    |exact (Hb _ _ _ (so_engine _ _ Hz) eq_refl eq_refl)
    |exact (Hi _ _ _ (so_engine_addr _ _ Hz) eq_refl eq_refl)
    |exact (Hb _ _ _ (so_debugger _ _ Hz) eq_refl eq_refl)
    |exact (Hi _ _ _ (so_debugger_addr _ _ Hz) eq_refl eq_refl)
    |exact (Hb _ _ _ (so_elfldr _ _ Hz) eq_refl eq_refl)
    |exact (Hi _ _ _ (so_elfldr_addr _ _ Hz) eq_refl eq_refl)
    |exact (Hb _ _ _ (so_auto_hook _ _ Hz) eq_refl eq_refl)
    |exact (Hb _ _ _ (so_patch _ _ Hz) eq_refl eq_refl)
    |exact (Hb _ _ _ (so_unhook _ _ Hz) eq_refl eq_refl)
    |exact (Hi _ _ _ (so_rpc_mode _ _ Hz) eq_refl eq_refl)
    |exact (Hb _ _ _ (so_modules _ _ Hz) eq_refl eq_refl)
    |exact (Hs _ _ _ (so_ipaddr _ _ Hz) eq_refl eq_refl)
    |exact (Hs _ _ _ (so_netmask _ _ Hz) eq_refl eq_refl)
    |exact (Hs _ _ _ (so_gateway _ _ Hz) eq_refl eq_refl)].
Qed.

Section PlanProof.
Context (load : erl_file -> Z -> option erl_record_t) (c : config_t) (z : erl_settings) (Hg : gives c z).

Lemma conf_ok {A} (m : M config_t A) s x : em_config s = c -> m c = Ok (x, c) -> conf m s = Ok (x, s).
Proof using. intros Es Em. unfold conf. rewrite Es, Em. destruct s; cbn in *. by subst. Qed.

Lemma install_erl_ok f a s : exists s',
  __install_erl load f a s = Ok (if (loads load f a).2 then 0 else -1, s') /\ em_log s' = em_log s ++ (loads load f a).1 /\
  em_config s' = em_config s /\ em_engine s' = em_engine s /\ em_erl s' f = load f a.
Proof using.
  unfold __install_erl, loads. destruct (load f a) as [r|]; rewrite !(bind_ok _ _ _ _ _ eq_refl); (eexists; split; [reflexivity|]); cbn.
  - by rewrite decide_True by done.
  - rewrite app_nil_r, decide_True by done. done.
Qed.

(** What a part of the installation does. *)
Definition does (m : M erlman bool) (p : part) (members : list (cstring * Z)) : Prop :=
  forall s, em_config s = c -> exists s', m s = Ok (p.2, s') /\ em_log s' = em_log s ++ p.1 /\ em_config s' = c /\
    (p.2 = true -> em_engine s' = em_engine s ++ members).

Lemma negb_code (b : bool) : negb ((if b then 0 else -1) <? 0) = b.
Proof using. by destruct b. Qed.

Lemma loads_fails f a : (loads load f a).2 = false -> (loads load f a).1 = [].
Proof using. unfold loads. by destruct (load f a). Qed.

Lemma libs_does : does (install_sdklibs load) (libs_plan load z) [].
Proof using Hg.
  intros s Es. unfold install_sdklibs, libs_plan.
  rewrite (bind_ok _ _ _ _ _ (conf_ok _ _ _ Es (gi_libs _ _ Hg))).
  destruct (z_libs z =? 0); cbn [negb].
  { rewrite !(bind_ok _ _ _ _ _ eq_refl). eexists. split; [reflexivity|]. cbn. rewrite <- app_assoc. by rewrite app_nil_r. }
  rewrite (bind_ok _ _ _ _ _ (conf_ok _ _ _ Es (gi_libs_addr _ _ Hg))).
  set (a := u32 (z_libs_addr z)). destruct (install_erl_ok ERL_FILE_LIBKERNEL a s) as (s1 & E1 & Hl1 & Hc1 & He1 & Hr1).
  rewrite (bind_ok _ _ _ _ _ E1). unfold and_then, libpatches_addr. fold a.
  assert (Hk : loads load ERL_FILE_LIBKERNEL a = match load ERL_FILE_LIBKERNEL a with
    Some _ => ([Loaded ERL_FILE_LIBKERNEL a], true) | None => ([], false) end) by done.
  rewrite Hk in Hl1 |- *. clear E1 Hk. destruct (load ERL_FILE_LIBKERNEL a) as [r|]; cbn [fst snd] in *; cbn [Z.ltb Z.compare].
  2:{ exists s1. split; [done|]. split; [done|]. split; [congruence|done]. }
  unfold erl_of. rewrite (bind_ok _ _ s1 r s1).
  2:{ rewrite (bind_ok _ _ s1 (Some r) s1) by (unfold gets; by rewrite Hr1). done. }
  set (b := u32 (a + ALIGN (erl_fullsize r) 64)). destruct (install_erl_ok ERL_FILE_LIBPATCHES b s1) as (s2 & E2 & Hl2 & Hc2 & He2 & _).
  rewrite (bind_ok _ _ _ _ _ E2). exists s2. unfold ret. rewrite negb_code. split; [done|].
  rewrite Hl2, Hl1, <- app_assoc, app_nil_r. split; [done|]. split; [congruence|]. intros _. congruence.
Qed.

Lemma get_members_ok r names : forall s, em_erl s ERL_FILE_ENGINE = Some r ->
  let l := mapM (fun n => (fun a => (n, a)) <$> erl_symbol r n) names in
  exists s', get_members names s = Ok (bool_decide (is_Some l), s') /\ em_log s' = em_log s /\ em_config s' = em_config s /\
    (forall l', l = Some l' -> em_engine s' = em_engine s ++ l').
Proof using.
  induction names as [|n names IH]; intros s Hr; cbn [mapM get_members].
  { exists s. split; [done|]. split; [done|]. split; [done|]. intros l' E. injection E as <-. by rewrite app_nil_r. }
  rewrite (bind_ok _ _ s (erl_symbol r n) s).
  2:{ unfold GET_SYMBOL, erl_of. rewrite (bind_ok _ _ s r s); [done|]. rewrite (bind_ok _ _ s (Some r) s); [done|]. unfold gets. by rewrite Hr. }
  destruct (erl_symbol r n) as [a|]; [|by exists s]. cbn [fmap option_fmap option_map mbind option_bind].
  rewrite (bind_ok _ _ _ _ _ eq_refl).
  destruct (IH (ErlMan (em_erl s) (em_engine s ++ [(n, a)]) (em_log s) (em_config s)) Hr) as (s' & E & Hl & Hcf & He).
  exists s'. rewrite E. split; [|split; [done|split; [done|]]].
  - destruct (mapM _ names); done.
  - intros l' El. destruct (mapM _ names) as [l|]; [|done]. injection El as <-. rewrite (He l eq_refl). cbn. by rewrite <- app_assoc.
Qed.

(** The members that end up in [engine_t]. *)
Definition members_of : list (cstring * Z) := if z_engine z =? 0 then [] else default [] (engine_members load z).

Lemma engine_does : does (install_engine load) (engine_plan load z) members_of.
Proof using Hg.
  intros s Es. unfold install_engine, engine_plan, members_of, engine_members, symbol.
  rewrite (bind_ok _ _ _ _ _ (conf_ok _ _ _ Es (gi_engine _ _ Hg))).
  destruct (z_engine z =? 0); [exists s; split; [done|]; by rewrite !app_nil_r|].
  rewrite (bind_ok _ _ _ _ _ (conf_ok _ _ _ Es (gi_engine_addr _ _ Hg))).
  set (a := u32 (z_engine_addr z)). destruct (install_erl_ok ERL_FILE_ENGINE a s) as (s1 & E1 & Hl1 & Hc1 & He1 & Hr1).
  rewrite (bind_ok _ _ _ _ _ E1). unfold and_then, loads in *. clear E1.
  destruct (load ERL_FILE_ENGINE a) as [r|]; cbn [fst snd] in *; cbn [Z.ltb Z.compare].
  2:{ exists s1. split; [done|]. split; [done|]. split; [congruence|done]. }
  destruct (get_members_ok r ENGINE_SYMBOLS s1 Hr1) as (s2 & E2 & Hl2 & Hc2 & He2). exists s2. cbn [mbind option_bind]. rewrite E2.
  split; [done|]. rewrite Hl2, app_nil_r. split; [done|]. split; [congruence|]. intros Hb. apply bool_decide_eq_true in Hb as [l El].
  rewrite (He2 l El), El. cbn. congruence.
Qed.

Lemma opts_ok s : em_config s = c -> get_opts s = Ok (opts_of z, s).
Proof using Hg.
  intros Es. unfold get_opts.
  rewrite (bind_ok _ _ _ _ _ (conf_ok _ _ _ Es (gi_auto_hook _ _ Hg))).
  rewrite (bind_ok _ _ _ _ _ (conf_ok _ _ _ Es (gi_patch _ _ Hg))).
  rewrite (bind_ok _ _ _ _ _ (conf_ok _ _ _ Es (gi_unhook _ _ Hg))).
  rewrite (bind_ok _ _ _ _ _ (conf_ok _ _ _ Es (gi_rpc_mode _ _ Hg))).
  rewrite (bind_ok _ _ _ _ _ (conf_ok _ _ _ Es (gi_modules _ _ Hg))).
  rewrite (bind_ok _ _ _ _ _ (conf_ok _ _ _ Es (gi_ipaddr _ _ Hg))), (bind_ok _ _ s (pad16 (z_ipaddr z)) s) by done.
  rewrite (bind_ok _ _ _ _ _ (conf_ok _ _ _ Es (gi_netmask _ _ Hg))), (bind_ok _ _ s (pad16 (z_netmask z)) s) by done.
  rewrite (bind_ok _ _ _ _ _ (conf_ok _ _ _ Es (gi_gateway _ _ Hg))), (bind_ok _ _ s (pad16 (z_gateway z)) s) by done.
  done.
Qed.

Lemma get_symbol_ok f r n s : em_erl s f = Some r -> GET_SYMBOL f n s = Ok (erl_symbol r n, s).
Proof using. intros Hr. unfold GET_SYMBOL, erl_of. rewrite (bind_ok _ _ s r s); [done|]. rewrite (bind_ok _ _ s (Some r) s); [done|]. unfold gets. by rewrite Hr. Qed.

(** A function of the debugger that is called when it is there. *)
Lemma callback_ok r s : em_config s = c -> em_erl s ERL_FILE_DEBUGGER = Some r -> load ERL_FILE_DEBUGGER (u32 (z_debugger_addr z)) = Some r ->
  exists s', add_callback s = Ok ((callback_plan load z).2, s') /\ em_log s' = em_log s ++ (callback_plan load z).1 /\ em_config s' = c /\ em_engine s' = em_engine s /\ em_erl s' = em_erl s.
Proof using Hg.
  intros Es Hr Hl. unfold add_callback, callback_plan, calls, symbol. rewrite Hl. cbn [mbind option_bind].
  rewrite (bind_ok _ _ _ _ _ (conf_ok _ _ _ Es (gi_engine _ _ Hg))).
  destruct (z_engine z =? 0); [exists s; by rewrite app_nil_r|].
  rewrite (bind_ok _ _ _ _ _ (get_symbol_ok _ r _ s Hr)). destruct (erl_symbol r (str "debugger_loop")) as [a|].
  - rewrite (bind_ok _ _ _ _ _ eq_refl). by eexists.
  - exists s. by rewrite app_nil_r.
Qed.

Lemma debugger_does : does (install_debugger load) (debugger_plan load z) [].
Proof using Hg.
  intros s Es. unfold install_debugger, debugger_plan.
  rewrite (bind_ok _ _ _ _ _ (conf_ok _ _ _ Es (gi_debugger _ _ Hg))).
  destruct (z_debugger z =? 0); [exists s; split; [done|]; by rewrite !app_nil_r|].
  rewrite (bind_ok _ _ _ _ _ (conf_ok _ _ _ Es (gi_debugger_addr _ _ Hg))).
  rewrite (bind_ok _ _ _ _ _ (conf_ok _ _ _ Es (gi_libs _ _ Hg))).
  destruct (z_libs z =? 0); [exists s; split; [done|]; by rewrite !app_nil_r|].
  destruct (install_erl_ok ERL_FILE_DEBUGGER (u32 (z_debugger_addr z)) s) as (s1 & E1 & Hl1 & Hc1 & He1 & Hr1).
  rewrite (bind_ok _ _ _ _ _ E1). unfold and_then at 1. unfold loads in *. clear E1.
  destruct (load ERL_FILE_DEBUGGER (u32 (z_debugger_addr z))) as [r|] eqn:El; cbn [fst snd] in *; cbn [Z.ltb Z.compare].
  2:{ exists s1. split; [done|]. split; [done|]. split; [congruence|done]. }
  destruct (callback_ok r s1 ltac:(congruence) Hr1 El) as (s2 & E2 & Hl2 & Hc2 & He2 & Hr2). rewrite (bind_ok _ _ _ _ _ E2).
  unfold and_then. destruct (callback_plan load z) as [evs ok]. cbn [fst snd] in *. destruct ok; cbn [negb].
  2:{ exists s2. split; [done|]. rewrite Hl2, Hl1, <- app_assoc. split; [done|]. split; [done|]. done. }
  rewrite (bind_ok _ _ _ _ _ (get_symbol_ok ERL_FILE_DEBUGGER r (str "set_debugger_opts") s2 ltac:(by rewrite Hr2))).
  unfold calls, symbol. rewrite El. cbn [mbind option_bind]. destruct (erl_symbol r (str "set_debugger_opts")) as [a|]; cbn [fst snd].
  - rewrite (bind_ok _ _ _ _ _ (opts_ok s2 Hc2)), (bind_ok _ _ _ _ _ eq_refl). eexists. split; [reflexivity|]. cbn.
    rewrite Hl2, Hl1, <- !app_assoc, app_nil_r. split; [done|]. split; [done|]. intros _. congruence.
  - exists s2. split; [done|]. rewrite Hl2, Hl1, <- app_assoc, app_nil_r. done.
Qed.

Lemma elfldr_does : does (install_elfldr load) (elfldr_plan load z) [].
Proof using Hg.
  intros s Es. unfold install_elfldr, elfldr_plan.
  rewrite (bind_ok _ _ _ _ _ (conf_ok _ _ _ Es (gi_elfldr _ _ Hg))).
  destruct (z_elfldr z =? 0); [exists s; split; [done|]; by rewrite !app_nil_r|].
  rewrite (bind_ok _ _ _ _ _ (conf_ok _ _ _ Es (gi_elfldr_addr _ _ Hg))).
  rewrite (bind_ok _ _ _ _ _ (conf_ok _ _ _ Es (gi_libs _ _ Hg))).
  destruct (z_libs z =? 0); [exists s; split; [done|]; by rewrite !app_nil_r|].
  destruct (install_erl_ok ERL_FILE_ELFLDR (u32 (z_elfldr_addr z)) s) as (s1 & E1 & Hl1 & Hc1 & He1 & _).
  rewrite (bind_ok _ _ _ _ _ E1). exists s1. unfold ret. rewrite negb_code, app_nil_r. split; [done|]. split; [done|].
  split; [congruence|]. intros _. congruence.
Qed.

(** Two parts after another. *)
Lemma does_then m p e1 m' q e2 :
  does m p e1 -> does m' q e2 -> does (let* ok := m in if negb ok then ret false else m') (and_then p q) (e1 ++ e2).
Proof using.
  intros H1 H2 s Es. destruct (H1 s Es) as (s1 & E1 & Hl1 & Hc1 & He1). rewrite (bind_ok _ _ _ _ _ E1). unfold and_then.
  destruct p as [evs ok]. cbn [fst snd] in *. destruct ok; cbn [negb fst snd].
  - destruct (H2 s1 Hc1) as (s2 & E2 & Hl2 & Hc2 & He2). exists s2. split; [done|]. rewrite Hl2, Hl1, <- app_assoc. split; [done|].
    split; [done|]. intros Hq. rewrite (He2 Hq), (He1 eq_refl). by rewrite <- app_assoc.
  - exists s1. split; [done|]. split; [done|]. split; [done|]. done.
Qed.

Lemma install_runs s : em_config s = c ->
  exists s', install_erls load s = Ok (if (plan load z).2 then 0 else -1, s') /\ em_log s' = em_log s ++ (plan load z).1 /\ em_config s' = c /\
    ((plan load z).2 = true -> em_engine s' = em_engine s ++ members_of).
Proof using Hg.
  intros Es. destruct (does_then _ _ _ _ _ _ libs_does (does_then _ _ _ _ _ _ engine_does (does_then _ _ _ _ _ _ debugger_does elfldr_does)) s Es)
    as (s' & E & Hl & Hc' & He). cbn [app] in He. rewrite !app_nil_r in He. exists s'. fold (plan load z) in *. split; [|done].
  clear -E. unfold install_erls. revert E. unfold bind. destruct (install_sdklibs load s) as [[[] s1]|]; cbn [negb]; [| |done].
  2:{ intros E. injection E as <- <-. done. }
  destruct (install_engine load s1) as [[[] s2]|]; cbn [negb]; [| |done].
  2:{ intros E. injection E as <- <-. done. }
  destruct (install_debugger load s2) as [[[] s3]|]; cbn [negb]; [| |done].
  2:{ intros E. injection E as <- <-. done. }
  destruct (install_elfldr load s3) as [[b s4]|]; [|done]. intros E. by injection E as <- <-.
Qed.
End PlanProof.

Lemma ALIGN_up x : 0 <= x -> x + 63 < 2 ^ 32 -> x <= ALIGN x 64 < x + 64 /\ ALIGN x 64 mod 64 = 0.
Proof.
  intros Hx Hb. unfold ALIGN. rewrite u32_id by lia. change (Z.lnot (64 - 1)) with (Z.lnot (Z.ones 6)).
  rewrite <- Z.ldiff_land, Z.ldiff_ones_r by lia. rewrite Z.shiftr_div_pow2, Z.shiftl_mul_pow2 by lia. change (2 ^ 6) with 64.
  pose proof (Z.div_mod (x + 64 - 1) 64 ltac:(lia)) as E. pose proof (Z.mod_pos_bound (x + 64 - 1) 64 ltac:(lia)).
  rewrite Z.mod_mul by lia. lia.
Qed.

(** Without the SDK libraries the debugger and the ELF loader are refused. *)
Lemma plan_dependency load z : z_libs z = 0 -> z_debugger z <> 0 \/ z_elfldr z <> 0 ->
  (plan load z).2 = false /\ forall f a, f = ERL_FILE_DEBUGGER \/ f = ERL_FILE_ELFLDR -> Loaded f a ∉ (plan load z).1.
Proof.
  intros Hl Hd. unfold plan, libs_plan, debugger_plan, elfldr_plan. rewrite Hl. cbn [Z.eqb].
  assert (Hrest : (and_then (if z_debugger z =? 0 then ([], true) else ([], false)) (if z_elfldr z =? 0 then ([], true) else ([], false)) : part) =
    ([], false)).
  { destruct (Z.eqb_spec (z_debugger z) 0), (Z.eqb_spec (z_elfldr z) 0); try done. destruct Hd; done. }
  rewrite Hrest. clear Hrest Hd. unfold engine_plan, and_then, loads. destruct (z_engine z =? 0); cbn [fst snd].
  - split; [done|]. intros f a Hf Hin. cbn in Hin. rewrite !elem_of_cons in Hin. destruct Hin as [?|[?|Hin]]; [done|done|]. by apply elem_of_nil in Hin.
  - destruct (load ERL_FILE_ENGINE (u32 (z_engine_addr z))); cbn [fst snd].
    + destruct (bool_decide _); cbn [fst snd]; (split; [done|]); intros f a Hf Hin; cbn in Hin; rewrite !elem_of_cons in Hin;
        destruct Hin as [?|[?|[E|Hin]]]; try done; try (by apply elem_of_nil in Hin); injection E as -> _; destruct Hf; done.
    + split; [done|]. intros f a Hf Hin. cbn in Hin. rewrite !elem_of_cons in Hin. destruct Hin as [?|[?|Hin]]; [done|done|]. by apply elem_of_nil in Hin.
Qed.

Lemma erl_files_all f : f ∈ _erl_files.
Proof. destruct f; repeat (first [apply list_elem_of_here|apply list_elem_of_further]). Qed.

Lemma uninstall_none unload (Hu : forall f, unload f = true) files : forall s, exists s', uninstall_loop unload files s = Ok (tt, s') /\ em_config s' = em_config s /\
  forall f, f ∈ files \/ em_erl s f = None -> em_erl s' f = None.
Proof.
  induction files as [|f files IH]; intros s; cbn [uninstall_loop].
  { exists s. split; [done|]. split; [done|]. intros f [Hf|Hf]; [by apply elem_of_nil in Hf|done]. }
  rewrite (bind_ok _ _ s (em_erl s f) s) by done.
  assert (H1 : exists s1, (match em_erl s f with None => ret tt | Some _ => let* _ := __uninstall_erl unload f in ret tt end) s = Ok (tt, s1) /\
    em_config s1 = em_config s /\ em_erl s1 f = None /\ forall g, em_erl s g = None -> em_erl s1 g = None).
  { destruct (em_erl s f) as [r|] eqn:Ef; [|by exists s]. unfold __uninstall_erl. rewrite Hu. eexists. split; [reflexivity|]. cbn.
    split; [done|]. split; [by rewrite decide_True|]. intros g Hg. by destruct (decide (g = f)). }
  destruct H1 as (s1 & E1 & Hc1 & Hf1 & Hg1). rewrite (bind_ok _ _ _ _ _ E1). destruct (IH s1) as (s' & E & Hc' & Hs'). exists s'. split; [done|]. split; [congruence|].
  intros g [Hg|Hg]; apply Hs'; [|right; by apply Hg1]. apply elem_of_cons in Hg as [->|Hg]; [by right|by left].
Qed.


(** A file that enables everything, for modules of 100 bytes with all their symbols. *)
Definition erl_file_sample : list (cstring * cfg) :=
  [(str "sdklibs", CGroup [(str "install", CScalar (SBool 1)); (str "addr", CScalar (SHex 0xc0000))]);
   (str "engine", CGroup [(str "install", CScalar (SBool 1)); (str "addr", CScalar (SHex 0x80000))]);
   (str "debugger", CGroup [(str "install", CScalar (SBool 1)); (str "addr", CScalar (SHex 0x90000)); (str "auto_hook", CScalar (SBool 0));
      (str "patch_loadmodule", CScalar (SBool 0)); (str "unhook_iop_reset", CScalar (SBool 0)); (str "rpc_mode", CScalar (SInt 1));
      (str "load_modules", CScalar (SBool 1)); (str "ipaddr", CScalar (SString (str "192.168.0.10") []));
      (str "netmask", CScalar (SString (str "255.255.255.0") [])); (str "gateway", CScalar (SString (str "192.168.0.1") []))]);
   (str "elfldr", CGroup [(str "install", CScalar (SBool 1)); (str "addr", CScalar (SHex 0xff000))])].

Definition sample_settings : erl_settings :=
  ErlSettings 1 0xc0000 1 0x80000 1 0x90000 1 0xff000 0 0 0 1 1 (str "192.168.0.10") (str "255.255.255.0") (str "192.168.0.1").

Definition sample_load (f : erl_file) (a : Z) : option erl_record_t := Some (Erl 100 (fun _ => Some (a + 8))).

Ltac group_ok := split; [apply (bool_decide_unpack _); vm_compute; exact I|]; split;
  [cbn [erl_file_sample fmap list_fmap fst]; repeat (apply Forall_cons; split; [reflexivity|]); apply Forall_nil_2|].

