(* ===== verification/Loader.v ===== *)
(** * The menu of the loader (ee/loader/loader.c)

    The loop of [main] that reads the pad, selects cheats and an ELF, hands the cheats to the
    engine and starts the game.  The bits of the buttons, the files and the kernel's
    [LoadExecPS2] belong to the SDK and are parameters. *)

From S2P Require Import Prelude CString MyString Queue CheatList Parser ParserProps LibCheats.
From S2P Require Import LoaderUtil ElfId Engine EngineTest EngineSpec EngineProps CheatMan.
From S2P Require Import LibConfig LibConfigTree LibConfigProps Grammar GrammarProps ConfigParse ConfigMan.
Local Open Scope ps2rd_scope.
Local Open Scope Z_scope.

(** ** Parameters *)

(** The bits of libpad.h. *)
Record pad_bits : Type := PadBits {
  PAD_LEFT : Z; PAD_DOWN : Z; PAD_RIGHT : Z; PAD_UP : Z; PAD_START : Z; PAD_SELECT : Z;
  PAD_CROSS : Z; PAD_CIRCLE : Z; PAD_TRIANGLE : Z;
}.

(** SYSTEM.CNF, the files, and whether [LoadExecPS2] starts a program; it returns only when
    it does not. *)
Record env : Type := Env {
  v_cnf : option (list Z);
  v_fs : fsys;
  v_exec : cstring -> list cstring -> bool;
}.

Definition fsize (e : env) (f : cstring) : option Z := (fun b => Z.of_nat (length b)) <$> fs_file (v_fs e) f.

(** ** State *)

Inductive ending : Type :=
| Running
| Started (elf : cstring) (args : list cstring)
| Quit.

(** The variables of [main]: the selected game and ELF, the next index into boot2, the
    buttons that were down before; [config] and [engine] are reached from it. *)
Record menu (S : Type) : Type := Menu {
  m_game : option loc;
  m_boot2 : option cstring;
  m_select : Z;
  m_old_pad : Z;
  m_config : config_t;
  m_engine : S;
}.
Arguments Menu {S}. Arguments m_game {S}. Arguments m_boot2 {S}. Arguments m_select {S}.
Arguments m_old_pad {S}. Arguments m_config {S}. Arguments m_engine {S}.

(** ** Starting an ELF *)

(** The ELF and its arguments, [None] for the result -1. *)
Definition __start_elf (e : env) (boot2 : option cstring) : res (option (cstring * list cstring)) :=
  match (match boot2 with Some b => Some b | None => snd (cdGetElf (v_cnf e)) end) with
  | None => Ok None
  | Some b =>
      let argv := build_argv b 16 in
      match argv0 argv with
      | None => Err NullDeref
      | Some elf =>
          if negb (file_exists (v_fs e) elf) then Ok None
          else if v_exec e elf (tail argv) then Ok (Some (elf, tail argv))
          else Ok None
      end
  end.

Section Menu.
Context {S : Type} (pad : pad_bits) (env : env) (engine : engine_t S) (cheats : cheats_t) (h : heap) (junk : Z).

Definition in_settings {A} (m : M config_t A) : M (menu S) A := fun s =>
  let? '(x, c) := m (m_config s) in
  Ok (x, Menu (m_game s) (m_boot2 s) (m_select s) (m_old_pad s) c (m_engine s)).
Definition in_engine {A} (m : M S A) : M (menu S) A := fun s =>
  let? '(x, e) := m (m_engine s) in
  Ok (x, Menu (m_game s) (m_boot2 s) (m_select s) (m_old_pad s) (m_config s) e).
Definition set_game (g : option loc) : M (menu S) unit :=
  modify (fun s => Menu g (m_boot2 s) (m_select s) (m_old_pad s) (m_config s) (m_engine s)).
Definition set_boot2 (b : option cstring) (n : Z) : M (menu S) unit :=
  modify (fun s => Menu (m_game s) b n (m_old_pad s) (m_config s) (m_engine s)).
Definition set_old_pad (p : Z) : M (menu S) unit :=
  modify (fun s => Menu (m_game s) (m_boot2 s) (m_select s) p (m_config s) (m_engine s)).

(** ** The branches of the loop *)

Definition press_start : M (menu S) ending :=
  let* install := in_settings (config_get_bool SET_ENGINE_INSTALL) in
  (if install =? 0 then ret tt
   else
     in_engine (reset_cheats engine);;
     let* game := gets m_game in
     match game with
     | None => ret tt
     | Some g => in_engine (activate_cheats engine g h)
     end);;
  let* boot2 := gets m_boot2 in
  let* r := lift (__start_elf env boot2) in
  ret (match r with Some (elf, args) => Started elf args | None => Running end).

Definition press_circle : M (menu S) ending :=
  let* boot2 := gets m_boot2 in
  let* game := lift (find_cheats boot2 (v_cnf env) (fsize env) cheats junk h) in
  set_game game;;
  ret Running.

Definition press_left_right (right : bool) : M (menu S) ending :=
  let* select := gets m_select in
  let* boot2 := if right then in_settings (config_get_string_elem SET_BOOT2 select) else ret None in
  let select := if right then select + 1 else select in
  set_boot2 boot2 (match boot2 with Some _ => select | None => 0 end);;
  ret Running.

Definition press_down : M (menu S) ending :=
  let* game := gets m_game in
  let* next := match game with
               | Some g => lift (STAILQ_NEXT (h_games h) g)
               | None => ret (STAILQ_FIRST (games cheats))
               end in
  set_game next;;
  ret Running.

(** A button that is down now and was not before. *)
Definition pressed (new_pad bit : Z) : bool := negb (Z.land new_pad bit =? 0).

(** One round with the buttons [btns] of [padRead], active low. *)
Definition menu_step (btns : Z) : M (menu S) ending :=
  let paddata := Z.lxor 0xFFFF btns in
  let* old_pad := gets m_old_pad in
  let new_pad := Z.land paddata (Z.lnot old_pad) in
  set_old_pad paddata;;
  if pressed new_pad (PAD_START pad) || pressed new_pad (PAD_CROSS pad) then press_start
  else if pressed new_pad (PAD_SELECT pad) then ret Running
  else if pressed new_pad (PAD_CIRCLE pad) then press_circle
  else if pressed new_pad (PAD_TRIANGLE pad) then ret Quit
  else if pressed new_pad (PAD_LEFT pad) || pressed new_pad (PAD_RIGHT pad) then press_left_right (pressed new_pad (PAD_RIGHT pad))
  else if pressed new_pad (PAD_DOWN pad) then press_down
  else if pressed new_pad (PAD_UP pad) then set_game None;; ret Running
  else ret Running.

(** The loop over the results of [padRead]; without a result it goes on. *)
Fixpoint menu_loop (reads : list (option Z)) : M (menu S) ending :=
  match reads with
  | [] => ret Running
  | None :: reads => menu_loop reads
  | Some btns :: reads =>
      let* o := menu_step btns in
      match o with
      | Running => menu_loop reads
      | o => ret o
      end
  end.

End Menu.

(** ** The menu as its user sees it *)

(** A cursor over the games and one over the ELFs of the configuration ([None]: no cheats, and
    the ELF of SYSTEM.CNF), the buttons held, and the tables of the engine. *)
Record amenu : Type := AMenu {
  a_game : option nat;
  a_boot : option nat;
  a_held : Z;
  a_tables : list line * list line;
}.

Inductive command : Type := GoStart | GoNothing | GoAuto | GoQuit | GoBoot | GoCnf | GoNext | GoClear.

(** The buttons in the order of their priority. *)
Definition commands (pad : pad_bits) : list (list Z * command) :=
  [([PAD_START pad; PAD_CROSS pad], GoStart); ([PAD_SELECT pad], GoNothing); ([PAD_CIRCLE pad], GoAuto);
   ([PAD_TRIANGLE pad], GoQuit); ([PAD_RIGHT pad], GoBoot); ([PAD_LEFT pad], GoCnf); ([PAD_DOWN pad], GoNext);
   ([PAD_UP pad], GoClear)].

Definition command_of (pad : pad_bits) (new_pad : Z) : command :=
  match list_find (fun c => existsb (pressed new_pad) c.1 = true) (commands pad) with Some (_, (_, c)) => c | None => GoNothing end.

(** The position after a cursor in a list of [n]; behind the last one it is none again. *)
Definition next_of (n : nat) (o : option nat) : option nat :=
  let i := match o with None => O | Some i => Datatypes.S i end in if (i <? n)%nat then Some i else None.

Section Spec.
Context (pad : pad_bits) (e : env) (gs : list agame) (boots : list cstring) (install : bool) (max_codes max_hooks : nat).

Definition boot_elf (a : amenu) : option cstring :=
  match a_boot a with Some i => boots !! i | None => snd (cdGetElf (v_cnf e)) end.

(** The first game whose id agrees with the ELF. *)
Definition auto_game (a : amenu) : option nat :=
  match boot_elf a ≫= fun b => argv0 (build_argv b 1) with
  | None => None
  | Some elf =>
      let '(r, id) := elfid_generate (fsize e) elf zero_id in
      if r <? 0 then None else fst <$> list_find (fun g => title_matches id (cstr (ag_title g)) = true) gs
  end.

(** What starting does. *)
Definition start_result (a : amenu) : ending :=
  match boot_elf a with
  | None => Running
  | Some b =>
      match build_argv b 16 with
      | [] => Running
      | elf :: args => if file_exists (v_fs e) elf && v_exec e elf args then Started elf args else Running
      end
  end.

(** The tables for the selected game. *)
Definition selected_tables (a : amenu) : list line * list line :=
  match a_game a ≫= fun i => gs !! i with
  | None => ([], [])
  | Some g =>
      let '(cs, hs) := game_tables (game_codes (ag_cheats g)) in (take max_codes cs, take max_hooks hs)
  end.

Definition run_command (c : command) (a : amenu) : amenu * ending :=
  match c with
  | GoStart => (AMenu (a_game a) (a_boot a) (a_held a) (if install then selected_tables a else a_tables a), start_result a)
  | GoNothing => (a, Running)
  | GoAuto => (AMenu (auto_game a) (a_boot a) (a_held a) (a_tables a), Running)
  | GoQuit => (a, Quit)
  | GoBoot => (AMenu (a_game a) (next_of (length boots) (a_boot a)) (a_held a) (a_tables a), Running)
  | GoCnf => (AMenu (a_game a) None (a_held a) (a_tables a), Running)
  | GoNext => (AMenu (next_of (length gs) (a_game a)) (a_boot a) (a_held a) (a_tables a), Running)
  | GoClear => (AMenu None (a_boot a) (a_held a) (a_tables a), Running)
  end.

Definition astep (btns : Z) (a : amenu) : amenu * ending :=
  let down := Z.lxor 0xFFFF btns in
  run_command (command_of pad (Z.land down (Z.lnot (a_held a)))) (AMenu (a_game a) (a_boot a) down (a_tables a)).

Fixpoint aloop (reads : list (option Z)) (a : amenu) : amenu * ending :=
  match reads with
  | [] => (a, Running)
  | None :: reads => aloop reads a
  | Some btns :: reads =>
      let '(a, o) := astep btns a in match o with Running => aloop reads a | o => (a, o) end
  end.
End Spec.

(** ** The loop implements it *)

Definition bootable (b : cstring) : Prop := nul_free b /\ build_argv b 1 <> [].

Lemma bootable_argv b : bootable b ->
  exists elf, argv0 (build_argv b 1) = Some elf /\ argv0 (build_argv b 16) = Some elf /\ nul_free elf /\
    build_argv b 16 = elf :: tail (build_argv b 16).
Proof.
  unfold bootable, build_argv, argv0. intros [Hn Hb].
  pose proof (strtok_nul_free (length (take 255 b)) ARG_SEP (take 255 b) (nul_free_take 255 b Hn)) as Hf.
  change (strtok_all (length (take 255 b)) ARG_SEP (take 255 b)) with (strtok ARG_SEP (take 255 b)) in Hf.
  destruct (strtok ARG_SEP (take 255 b)) as [|elf l]; [done|]. apply Forall_cons in Hf as [Hf _]. exists elf. by repeat split.
Qed.

Lemma generate_nul_free fs elf r id : nul_free elf -> elfid_generate fs elf zero_id = (r, id) -> nul_free (id_name id).
Proof.
  unfold elfid_generate, elfid_set. intros Hn. destruct (fs elf) as [n|]; [|intros E; injection E as _ <-; constructor].
  destruct (u32 n <? 0); [intros E; injection E as _ <-; constructor|]. cbn [snd]. intros E. injection E as _ <-.
  destruct (0 <? u32 n); cbn; by apply nul_free_take.
Qed.

(** A game and the one behind it. *)
Lemma chain_next {T} {L : Linked T} (m : gmap loc T) xs : forall p i x, chain m p xs None -> xs !! i = Some x ->
  STAILQ_NEXT m x = Ok (xs !! Datatypes.S i).
Proof.
  induction xs as [|y xs IH]; intros p i x; [done|]. cbn [chain]. intros (-> & o & Ho & Hc) Hi. destruct i as [|i]; cbn in Hi |- *.
  - injection Hi as ->. unfold STAILQ_NEXT, deref. rewrite Ho. cbn. destruct xs as [|z xs]; cbn in Hc |- *; [by rewrite Hc|].
    by destruct Hc as (-> & _).
  - by apply (IH (stqe_next o)).
Qed.

Definition LOADER_BOOT2 : list cstring := [str "loader"; str "boot2"].
Definition ENGINE_INSTALL_AT : list cstring := [str "engine"; str "install"].

(** The settings of a file that the menu reads. *)
Section MenuSettings.
Context (c : config_t) (t : ltree) (ms : list (cstring * cfg)) (xs : list scalar) (boots : list cstring) (inst : Z).
Context (Hconf : configured c t ms) (Hxs : cfg_at (CGroup ms) LOADER_BOOT2 = Some (CArray xs)) (Hlen : Z.of_nat (length xs) < 2 ^ 31).
Context (Hstr : string_of <$> xs = Some <$> boots) (Hinst : cfg_at (CGroup ms) ENGINE_INSTALL_AT = Some (CScalar (SBool inst))).

Lemma elem_boot i : 0 <= i <= Z.of_nat (length boots) -> config_get_string_elem SET_BOOT2 i c = Ok (boots !! Z.to_nat i, c).
Proof using Hconf Hxs Hlen Hstr.
  assert (Hbl : length boots = length xs) by (rewrite <- (length_fmap (Some : cstring -> option cstring) boots), <- Hstr; apply length_fmap).
  intros Hi. change SET_BOOT2 with (path_of LOADER_BOOT2).
  rewrite (get_string_elem_at c t ms LOADER_BOOT2 xs i Hconf); [|repeat (apply Forall_cons; split; [reflexivity|]); apply Forall_nil_2|done|done|lia].
  assert (E : string_of <$> xs !! Z.to_nat i = Some <$> boots !! Z.to_nat i) by (by rewrite <- !list_lookup_fmap, Hstr).
  destruct (xs !! Z.to_nat i), (boots !! Z.to_nat i); cbn in *; congruence.
Qed.

Lemma install_setting : config_get_bool SET_ENGINE_INSTALL c = Ok (inst, c).
Proof using Hconf Hinst.
  change SET_ENGINE_INSTALL with (path_of ENGINE_INSTALL_AT). apply (get_bool_at c t ms _ _ Hconf); [|done|done].
  repeat (apply Forall_cons; split; [reflexivity|]). apply Forall_nil_2.
Qed.
End MenuSettings.

Section Refinement.
Context {S : Type} (pad : pad_bits) (e : env) (engine : engine_t S) {L : EngineLaws engine} (ch : cheats_t) (h : heap) (junk : Z).
Context (gs : list agame) (c : config_t) (boots : list cstring) (inst : Z).
Context (max_codes max_hooks : nat).
Context (Hgs : games_rep h (games ch) gs).
Context (Htitles : Forall (fun g => 0 ∈ ag_title g /\ (length (ag_title g) < ELFID_NAME_MAX)%nat) gs).
Context (Hcodes : Forall (fun g => Forall (fun d => is_u32 d.1 /\ is_u32 d.2) (game_codes (ag_cheats g))) gs).
Context (Hboot : forall i, 0 <= i <= Z.of_nat (length boots) -> config_get_string_elem SET_BOOT2 i c = Ok (boots !! Z.to_nat i, c)).
Context (Hinst : config_get_bool SET_ENGINE_INSTALL c = Ok (inst, c)).
Context (Hboots : Forall bootable boots) (Hcnf : forall b, snd (cdGetElf (v_cnf e)) = Some b -> bootable b).

Definition shows (a : amenu) (m : menu S) : Prop :=
  match a_game a with Some i => exists g, gs !! i = Some g /\ m_game m = Some (ag_loc g) | None => m_game m = None end /\
  match a_boot a with
  | Some i => exists b, boots !! i = Some b /\ m_boot2 m = Some b /\ m_select m = Z.of_nat i + 1
  | None => m_boot2 m = None /\ m_select m = 0
  end /\
  m_old_pad m = a_held a /\ m_config m = c /\ e_inv (m_engine m) /\
  (e_codes (m_engine m), e_hooks (m_engine m)) = a_tables a /\ e_code_max (m_engine m) = max_codes /\ e_hook_max (m_engine m) = max_hooks.

(** The ELF that is selected. *)
Lemma elf_shown a m : shows a m ->
  match m_boot2 m with Some b => Some b | None => snd (cdGetElf (v_cnf e)) end = boot_elf e boots a /\
  forall b, boot_elf e boots a = Some b -> bootable b.
Proof.
  intros (_ & Hb & _). unfold boot_elf. destruct (a_boot a) as [i|].
  - destruct Hb as (b & Hi & -> & _). rewrite Hi. split; [done|]. intros b' E. injection E as <-.
    rewrite Forall_forall in Hboots. apply Hboots. by apply list_elem_of_lookup_2 with i.
  - destruct Hb as [-> _]. split; [done|]. apply Hcnf.
Qed.

Lemma start_shown a m : shows a m ->
  exists r, __start_elf e (m_boot2 m) = Ok r /\
    match r with Some (elf, args) => Started elf args | None => Running end = start_result e boots a.
Proof.
  intros Hs. destruct (elf_shown a m Hs) as [E Hb]. unfold __start_elf, start_result. rewrite E.
  destruct (boot_elf e boots a) as [b|]; [|by eexists]. destruct (bootable_argv b (Hb b eq_refl)) as (elf & _ & -> & _ & ->).
  destruct (file_exists (v_fs e) elf); cbn [negb andb]; [|by eexists].
  cbn [tail]. destruct (v_exec e elf (tail (build_argv b 16))); by eexists.
Qed.

Lemma circle_shown a m : shows a m ->
  exists o, find_cheats (m_boot2 m) (v_cnf e) (fsize e) ch junk h = Ok o /\
    match auto_game e gs boots a with Some i => exists g, gs !! i = Some g /\ o = Some (ag_loc g) | None => o = None end.
Proof.
  intros Hs. destruct (elf_shown a m Hs) as [E Hb]. unfold find_cheats, auto_game. rewrite E.
  destruct (boot_elf e boots a) as [b|]; cbn [mbind option_bind]; [|by eexists].
  destruct (bootable_argv b (Hb b eq_refl)) as (elf & -> & _ & Hn & _).
  destruct (elfid_generate (fsize e) elf zero_id) as [r id] eqn:Eid. destruct (r <? 0); [by eexists|].
  pose proof (find_cheats_index h (games ch) gs id junk Hgs Htitles (generate_nul_free _ _ _ _ Hn Eid)) as Hf.
  destruct (list_find _ gs) as [[i g]|] eqn:El; rewrite Hf; (eexists; split; [reflexivity|]); [|done].
  cbn. exists g. split; [|done]. by apply list_find_Some in El as (? & _).
Qed.

Lemma down_shown a m : shows a m ->
  exists o, match m_game m with Some g => STAILQ_NEXT (h_games h) g | None => Ok (STAILQ_FIRST (games ch)) end = Ok o /\
    match next_of (length gs) (a_game a) with Some i => exists g, gs !! i = Some g /\ o = Some (ag_loc g) | None => o = None end.
Proof.
  intros (Hg & _). destruct Hgs as (((Hc & _ & _) & _) & _). unfold next_of.
  assert (Hend : forall i o, (ag_loc <$> gs) !! i = o -> match (if (i <? length gs)%nat then Some i else None) with
    | Some i => exists g, gs !! i = Some g /\ o = Some (ag_loc g) | None => o = None end).
  { intros i o Eo. rewrite list_lookup_fmap in Eo. destruct (Nat.ltb_spec i (length gs)) as [Hi|Hi].
    - destruct (lookup_lt_is_Some_2 gs i Hi) as [g Eg]. rewrite Eg in Eo. exists g. by rewrite <- Eo.
    - rewrite lookup_ge_None_2 in Eo by lia. by rewrite <- Eo. }
  destruct (a_game a) as [i|].
  - destruct Hg as (g & Hi & ->). eexists. split; [|by apply (Hend (Datatypes.S i))].
    apply (chain_next _ _ _ i _ Hc). by rewrite list_lookup_fmap, Hi.
  - rewrite Hg. eexists. split; [reflexivity|]. apply Hend. unfold STAILQ_FIRST. destruct gs as [|g gs']; cbn in Hc |- *; [done|].
    by destruct Hc as (-> & _).
Qed.

Lemma boot_shown a m : shows a m ->
  config_get_string_elem SET_BOOT2 (m_select m) c = Ok (next_of (length boots) (a_boot a) ≫= (fun i => boots !! i), c) /\
  match next_of (length boots) (a_boot a) with Some i => m_select m = Z.of_nat i /\ is_Some (boots !! i) | None => True end.
Proof.
  intros (_ & Hb & _).
  assert (Hsel : m_select m = Z.of_nat (match a_boot a with None => O | Some i => Datatypes.S i end) /\ 0 <= m_select m <= Z.of_nat (length boots)).
  { destruct (a_boot a) as [i|]; [|destruct Hb as [_ ->]; split; lia]. destruct Hb as (b & Hi & _ & ->).
    apply lookup_lt_Some in Hi. lia. }
  destruct Hsel as [Es Hr]. rewrite (Hboot _ Hr), Es, Nat2Z.id. unfold next_of.
  set (j := match a_boot a with None => O | Some i => Datatypes.S i end). destruct (Nat.ltb_spec j (length boots)) as [Hj|Hj].
  - split; [done|]. split; [done|]. by apply lookup_lt_is_Some_2.
  - split; [|done]. by rewrite lookup_ge_None_2 by lia.
Qed.

Lemma in_settings_ok {A} (f : M config_t A) (m : menu S) r : f (m_config m) = Ok (r, m_config m) -> in_settings f m = Ok (r, m).
Proof using. intros E. unfold in_settings. rewrite E. by destruct m. Qed.

(** Starting fills the tables. *)
Lemma tables_shown a m : shows a m -> inst <> 0 ->
  exists s', (in_engine (reset_cheats engine);;
      let* game := gets m_game in
      match game with None => ret tt | Some g => in_engine (activate_cheats engine g h) end) m =
      Ok (tt, Menu (m_game m) (m_boot2 m) (m_select m) (m_old_pad m) (m_config m) s') /\
    e_inv s' /\ (e_codes s', e_hooks s') = selected_tables gs max_codes max_hooks a /\ e_code_max s' = max_codes /\ e_hook_max s' = max_hooks.
Proof.
  intros (Hg & _ & _ & _ & Hi & _ & Hmc & Hmh) _. unfold selected_tables. destruct (a_game a) as [i|]; cbn [mbind option_bind].
  - destruct Hg as (g & Hgi & Eg). rewrite Hgi. destruct (list_elem_of_split_length gs i g Hgi) as (gs1 & gs2 & Egs & _).
    destruct (reset_activate engine h (games ch) gs1 g gs2 (m_engine m)) as (s' & E & Hi' & Hc' & Hh' & Hm1 & Hm2).
    { by rewrite <- Egs. }
    { rewrite Forall_forall in Hcodes. apply Hcodes. by apply list_elem_of_lookup_2 with i. }
    { done. }
    apply bind_inv in E as (x & s1 & E1 & E2). destruct x.
    rewrite (bind_ok _ _ m tt (Menu (m_game m) (m_boot2 m) (m_select m) (m_old_pad m) (m_config m) s1)) by (unfold in_engine; by rewrite E1).
    rewrite (bind_ok _ _ _ _ _ eq_refl). cbn [m_game]. rewrite Eg. exists s'. split; [unfold in_engine; cbn [m_engine]; by rewrite E2|].
    split; [done|]. rewrite Hc', Hh', Hmc, Hmh. split; [by destruct (game_tables _)|]. split; congruence.
  - destruct (reset_cheats_clears engine (m_engine m) Hi) as (s' & E & Hi' & Hc' & Hh' & Hm1 & Hm2).
    rewrite (bind_ok _ _ m tt (Menu (m_game m) (m_boot2 m) (m_select m) (m_old_pad m) (m_config m) s')) by (unfold in_engine; by rewrite E).
    rewrite (bind_ok _ _ _ _ _ eq_refl). cbn [m_game]. rewrite Hg. exists s'. rewrite Hc', Hh'. split; [done|]. split; [done|]. split; [done|].
    split; congruence.
Qed.

Definition inst_flag : bool := negb (inst =? 0).

(** The branches of the loop. *)
Definition branch (cmd : command) : M (menu S) ending :=
  match cmd with
  | GoStart => press_start e engine h
  | GoNothing => ret Running
  | GoAuto => press_circle e ch h junk
  | GoQuit => ret Quit
  | GoBoot => press_left_right true
  | GoCnf => press_left_right false
  | GoNext => press_down ch h
  | GoClear => set_game None;; ret Running
  end.

Lemma branch_shown cmd a m : shows a m ->
  exists m', branch cmd m = Ok ((run_command e gs boots inst_flag max_codes max_hooks cmd a).2, m') /\
    shows (run_command e gs boots inst_flag max_codes max_hooks cmd a).1 m'.
Proof.
  intros Hs. pose proof Hs as (Hg & Hb & Ho & Hc & Hi & Htab & Hm1 & Hm2). destruct cmd; cbn [branch run_command fst snd].
  - unfold press_start. rewrite (bind_ok _ _ m inst m) by (apply in_settings_ok; rewrite Hc; apply Hinst).
    destruct (start_shown a m Hs) as (r & Er & Ers). unfold inst_flag. destruct (Z.eqb_spec inst 0) as [Ei|Ei]; cbn [negb].
    + rewrite (bind_ok _ _ m tt m) by done. rewrite (bind_ok _ _ m (m_boot2 m) m) by done.
      rewrite (bind_ok _ _ m r m) by (unfold lift; by rewrite Er). exists m. rewrite Ers. by split.
    + destruct (tables_shown a m Hs Ei) as (s' & Et & Hi' & Hts & Hc' & Hh'). rewrite (bind_ok _ _ _ _ _ Et).
      rewrite (bind_ok _ _ _ _ _ eq_refl). cbn [m_boot2]. rewrite (bind_ok _ _ _ r _) by (unfold lift; by rewrite Er).
      eexists. rewrite Ers. split; [reflexivity|]. by repeat split.
  - by exists m.
  - unfold press_circle. destruct (circle_shown a m Hs) as (o & Eo & Hog). rewrite (bind_ok _ _ m (m_boot2 m) m) by done.
    rewrite (bind_ok _ _ m o m) by (unfold lift; by rewrite Eo). rewrite (bind_ok _ _ _ _ _ eq_refl). eexists. split; [reflexivity|].
    by repeat split.
  - by exists m.
  - unfold press_left_right. rewrite (bind_ok _ _ m (m_select m) m) by done. destruct (boot_shown a m Hs) as [Eb Hn].
    rewrite (bind_ok _ _ m _ m) by (apply in_settings_ok; rewrite Hc; exact Eb). rewrite (bind_ok _ _ _ _ _ eq_refl).
    eexists. split; [reflexivity|]. split; [exact Hg|]. split; [|by repeat split]. cbn [a_boot m_boot2 m_select].
    destruct (next_of (length boots) (a_boot a)) as [i|]; cbn [mbind option_bind]; [|done].
    destruct Hn as [-> [b Hbi]]. rewrite Hbi. by exists b.
  - unfold press_left_right. rewrite (bind_ok _ _ m (m_select m) m) by done. rewrite (bind_ok _ _ m None m) by done.
    rewrite (bind_ok _ _ _ _ _ eq_refl). eexists. split; [reflexivity|]. by repeat split.
  - unfold press_down. destruct (down_shown a m Hs) as (o & Eo & Hog). rewrite (bind_ok _ _ m (m_game m) m) by done.
    rewrite (bind_ok _ _ m o m) by (destruct (m_game m); unfold lift, ret; [by rewrite Eo|congruence]).
    rewrite (bind_ok _ _ _ _ _ eq_refl). eexists. split; [reflexivity|]. by repeat split.
  - rewrite (bind_ok _ _ _ _ _ eq_refl). eexists. split; [reflexivity|]. by repeat split.
Qed.

Lemma step_branch btns m :
  menu_step pad e engine ch h junk btns m =
  (set_old_pad (Z.lxor 0xFFFF btns);;
   branch (command_of pad (Z.land (Z.lxor 0xFFFF btns) (Z.lnot (m_old_pad m))))) m.
Proof using.
  unfold menu_step. rewrite (bind_ok _ _ m (m_old_pad m) m) by done. rewrite !(bind_ok _ _ _ _ _ eq_refl).
  unfold command_of, commands. set (n := Z.land _ _). cbn [list_find existsb fst].
  destruct (pressed n (PAD_START pad)), (pressed n (PAD_CROSS pad)), (pressed n (PAD_SELECT pad)), (pressed n (PAD_CIRCLE pad)), (pressed n (PAD_TRIANGLE pad)),
    (pressed n (PAD_RIGHT pad)), (pressed n (PAD_LEFT pad)), (pressed n (PAD_DOWN pad)), (pressed n (PAD_UP pad)); reflexivity.
Qed.

Lemma step_shown btns a m : shows a m ->
  exists m', menu_step pad e engine ch h junk btns m = Ok ((astep pad e gs boots inst_flag max_codes max_hooks btns a).2, m') /\
    shows (astep pad e gs boots inst_flag max_codes max_hooks btns a).1 m'.
Proof.
  intros Hs. rewrite step_branch, (bind_ok _ _ _ _ _ eq_refl). destruct Hs as (Hg & Hb & Ho & Hrest). rewrite Ho. unfold astep.
  apply branch_shown. split; [exact Hg|]. split; [exact Hb|]. split; [done|exact Hrest].
Qed.

Lemma loop_shown reads : forall a m, shows a m ->
  exists m', menu_loop pad e engine ch h junk reads m = Ok ((aloop pad e gs boots inst_flag max_codes max_hooks reads a).2, m') /\
    shows (aloop pad e gs boots inst_flag max_codes max_hooks reads a).1 m'.
Proof.
  induction reads as [|[btns|] reads IH]; intros a m Hs; [by exists m| |by apply IH]. cbn [menu_loop aloop].
  destruct (step_shown btns a m Hs) as (m1 & E & Hs1). rewrite (bind_ok _ _ _ _ _ E).
  destruct (astep pad e gs boots inst_flag max_codes max_hooks btns a) as [a1 o]. cbn [fst snd] in *.
  destruct o; [by apply IH|by exists m1|by exists m1].
Qed.
End Refinement.

(** What the menu starts from: the cheats in memory, a configuration with the settings it
    asks for, and ELF names that are not blank. *)
Record menu_ready (e : env) (ch : cheats_t) (h : heap) (gs : list agame) (c : config_t) (t : ltree) (ms : list (cstring * cfg))
    (xs : list scalar) (boots : list cstring) (inst : Z) : Prop := {
  mr_games : games_rep h (games ch) gs;
  mr_titles : Forall (fun g => 0 ∈ ag_title g /\ (length (ag_title g) < ELFID_NAME_MAX)%nat) gs;
  mr_codes : Forall (fun g => Forall (fun d => is_u32 d.1 /\ is_u32 d.2) (game_codes (ag_cheats g))) gs;
  mr_config : configured c t ms;
  mr_boot2 : cfg_at (CGroup ms) LOADER_BOOT2 = Some (CArray xs);
  mr_length : Z.of_nat (length xs) < 2 ^ 31;
  mr_strings : string_of <$> xs = Some <$> boots;
  mr_install : cfg_at (CGroup ms) ENGINE_INSTALL_AT = Some (CScalar (SBool inst));
  mr_boots : Forall bootable boots;
  mr_cnf : forall b, snd (cdGetElf (v_cnf e)) = Some b -> bootable b;
}.

(** C9: the menu does what its user sees.  From the settings of the configuration file and the
    cheats in memory, for every sequence of pad readings, the loop of [main] never faults and
    behaves like two cursors: DOWN and UP move through the games, CIRCLE selects the first game
    whose id agrees with the ELF, RIGHT and LEFT move through the ELFs of loader.boot2 and back
    to SYSTEM.CNF, a button held down counts once, and of several buttons the first in the order
    of priority counts.  START or CROSS leaves in the engine exactly the codes of the selected
    game, within its limits, or leaves the engine alone when engine.install is off, and starts
    the selected ELF with its arguments when it is there; when that fails the menu goes on. *)
Theorem menu_refines {S} (pad : pad_bits) (e : env) (engine : engine_t S) {L : EngineLaws engine} (ch : cheats_t) (h : heap) (junk : Z)
    gs c t ms xs boots inst (s : S) (reads : list (option Z)) :
  menu_ready e ch h gs c t ms xs boots inst -> e_inv s ->
  let a := aloop pad e gs boots (inst_flag inst) (e_code_max s) (e_hook_max s) reads (AMenu None None 0 (e_codes s, e_hooks s)) in
  exists m, menu_loop pad e engine ch h junk reads (Menu None None 0 0 c s) = Ok (a.2, m) /\
    shows engine gs c boots (e_code_max s) (e_hook_max s) a.1 m.
Proof.
  intros [Hg Ht Hc Hcf Hx Hl Hs Hin Hb Hcnf] Hi.
  apply (loop_shown pad e engine ch h junk gs c boots inst (e_code_max s) (e_hook_max s)); try done.
  - by apply (elem_boot c t ms xs).
  - by apply (install_setting c t ms).
Qed.

(** The bits of the pad as libpad.h has them, a memory stick with one ELF. *)
Definition sample_pad : pad_bits := PadBits 0x80 0x40 0x20 0x10 0x8 0x1 0x4000 0x2000 0x1000.
Definition sample_env : env :=
  Env None (Fsys (fun f => if decide (f = str "mass:Y") then Some [] else None) (fun _ n => n)) (fun _ _ => true).
Definition menu_file : list (cstring * cfg) :=
  [(str "loader", CGroup [(str "boot2", CArray [SString (str "mass:Y arg") []])]);
   (str "engine", CGroup [(str "install", CScalar (SBool 1))])].

(** RIGHT, then DOWN while RIGHT is held, then START. *)
Definition sample_reads : list (option Z) := [Some (Z.lxor 0xFFFF 0x20); None; Some (Z.lxor 0xFFFF 0x60); Some (Z.lxor 0xFFFF 0x8)].

Lemma menu_refines_witness :
  exists c m, menu_loop sample_pad sample_env (engine_c sample_symbols) (Cheats (StailQ (Some 1%positive) (AtNext 1)) [] 0) sample_heap 0
      sample_reads (Menu None None 0 0 c sample_mem) = Ok (Started (str "mass:Y") [str "arg"], m) /\
    EngineProps.codes sample_symbols (m_engine m) = [(0x20345678, 1)] /\ hooks sample_symbols (m_engine m) = [].
Proof.
  destruct (init_ok (Config ∅ 1 None 0 0 CONFIG_ERR_NONE) eq_refl) as (c1 & _ & Hf & Hc1).
  assert (Hok : settings_ok menu_file).
  { split; [apply (bool_decide_unpack _); vm_compute; exact I|].
    split; [cbn [menu_file fmap list_fmap fst]; repeat (apply Forall_cons; split; [reflexivity|]); apply Forall_nil_2|].
    split; [|split; [|exact I]].
    - split; [apply (bool_decide_unpack _); vm_compute; exact I|]. split; [repeat (apply Forall_cons; split; [reflexivity|]); apply Forall_nil_2|].
      split; [|exact I]. exists CONFIG_TYPE_STRING. by apply Forall_singleton.
    - split; [apply (bool_decide_unpack _); vm_compute; exact I|]. split; [repeat (apply Forall_cons; split; [reflexivity|]); apply Forall_nil_2|].
      by split. }
  destruct (config_read_settings menu_file c1 _ 400 Hc1 ltac:(by rewrite Hf) Hok) as (c & t & _ & Hc & _ & He);
    [apply Nat.leb_le; vm_compute; reflexivity|apply Nat.leb_le; vm_compute; reflexivity|].
  destruct (menu_refines sample_pad sample_env (engine_c sample_symbols) (Cheats (StailQ (Some 1%positive) (AtNext 1)) [] 0) sample_heap 0
    [AGame 1 [66; 0] [ACheat 2 [65; 0] [ACode 3 0x20345678 1]]] c t menu_file [SString (str "mass:Y arg") []] [str "mass:Y arg"] 1
    sample_mem sample_reads) as (m & E & Hs).
  - split.
    + exact sample_heap_rep.
    + apply Forall_singleton. split; [right; left|vm_compute; lia].
    + apply Forall_singleton. apply Forall_singleton. split; vm_compute; split; congruence.
    + by split.
    + reflexivity.
    + vm_compute. reflexivity.
    + reflexivity.
    + reflexivity.
    + apply Forall_singleton. split; [repeat constructor; vm_compute; congruence|vm_compute; discriminate].
    + intros b Eb. vm_compute in Eb. discriminate.
  - exact sample_engine_inv.
  - exists c, m. destruct Hs as (_ & _ & _ & _ & _ & Htab & _).
    set (L := engine_c_laws sample_symbols) in *.
    assert (Ea : aloop sample_pad sample_env [AGame 1 [66; 0] [ACheat 2 [65; 0] [ACode 3 0x20345678 1]]] [str "mass:Y arg"] (inst_flag 1)
      (@e_code_max _ _ L sample_mem) (@e_hook_max _ _ L sample_mem) sample_reads (AMenu None None 0 (@e_codes _ _ L sample_mem, @e_hooks _ _ L sample_mem)) =
      (AMenu (Some 0%nat) (Some 0%nat) 8 ([(0x20345678, 1)], []), Started (str "mass:Y") [str "arg"])) by (vm_compute; reflexivity).
    rewrite Ea in E, Htab. split; [exact E|]. cbn [fst a_tables] in Htab. injection Htab as H1 H2. by split.
Defined.
