(* ===== verification/LoaderMain.v ===== *)
(** * The loader from start to end (ee/loader/loader.c, irxman.c)

    [main]: where the loader was started from, its configuration, the modules of the IOP, the
    ERL modules, the modules kept in kernel RAM and the cheats, then the menu of Loader.v and
    the clean-up.  The parts of the other files are put together here and the result is
    compared with a plan that the settings alone determine.

    The SDK's loaders, the images of the modules and the kernel are parameters. *)

From S2P Require Import Prelude CString MyString Queue CheatList Parser ParserProps LibCheats.
From S2P Require Import LoaderUtil ElfId Engine EngineTest EngineSpec EngineProps CheatMan RamFile.
From S2P Require Import LibConfig LibConfigTree LibConfigProps LibConfigWrite Grammar GrammarProps ConfigParse.
From S2P Require Import Scanner ScannerProps ScannerTokens ConfigRoundTrip ConfigMan ErlMan Loader.
Local Open Scope ps2rd_scope.
Local Open Scope Z_scope.

Definition CONFIG_FILE : cstring := str "ps2rd.conf".

(** Default IOP modules to load *)
Definition _modules : list cstring := [str "rom0:SIO2MAN"; str "rom0:MCMAN"; str "rom0:MCSERV"; str "rom0:PADMAN"].

(** The statically linked IRX files: address and bytes. *)
Record irx_files : Type := IrxFiles {
  _ps2ip_irx : Z * list Z; _ps2smap_irx : Z * list Z;
  _ps2ip_sms_irx : Z * list Z; _ps2smap_sms_irx : Z * list Z;
  _ps2dev9_irx : Z * list Z; _debugger_irx : Z * list Z; _memdisk_irx : Z * list Z; _eesync_irx : Z * list Z;
}.

(** Calls of the SDK that change the machine, in their order. *)
Inductive boot_event : Type :=
| ResetIop (cmd : cstring)
| EnableLmb
| DisablePrefixCheck
| UserMemClear (start : Z)
| LoadModule (path : cstring)
| ExecModule (name : cstring)
| InitDrive
| InitPad.

(** ** State *)

(** The configuration is the one of [mc_em]; [mc_cheats] is the variable [cheats] of [main],
    which nothing initialises before [cheats_init]. *)
Record machine (S : Type) : Type := Machine {
  mc_em : erlman;
  mc_cheats : cheats_t;
  mc_lib : lib;
  mc_kmem : gmap Z Z;
  mc_engine : S;
  mc_log : list boot_event;
}.
Arguments Machine {S}. Arguments mc_em {S}. Arguments mc_cheats {S}. Arguments mc_lib {S}. Arguments mc_kmem {S}.
Arguments mc_engine {S}. Arguments mc_log {S}.

(** What the loader does not contain itself: the environment of the menu, the results of the
    SDK's loaders, the modules, the C library, the outcome of [malloc] for the cheat file and the
    bytes of memory that is not initialised. *)
Record platform (S : Type) : Type := Platform {
  pf_env : Loader.env;
  pf_pad : pad_bits;
  pf_engine : engine_t S;
  pf_SifLoadModule : cstring -> Z;
  pf_load_erl : erl_file -> Z -> option erl_record_t;
  pf_unload_erl : erl_file -> bool;
  pf_irx : irx_files;
  pf_atof : cstring -> SpecFloat.spec_float;
  pf_ULONG_MAX : Z;
  pf_alloc : bool;
  pf_junk : Z;
  pf_line : list Z;
}.
Arguments Platform {S}. Arguments pf_env {S}. Arguments pf_pad {S}. Arguments pf_engine {S}. Arguments pf_SifLoadModule {S}.
Arguments pf_load_erl {S}. Arguments pf_unload_erl {S}. Arguments pf_irx {S}. Arguments pf_atof {S}. Arguments pf_ULONG_MAX {S}.
Arguments pf_alloc {S}. Arguments pf_junk {S}. Arguments pf_line {S}.

(** The C library of the console: [fopen] opens the files of the devices. *)
Definition pf_clib {S} (p : platform S) : CLib := {| fopen := fs_file (v_fs (pf_env p)); atof := pf_atof p; ULONG_MAX := pf_ULONG_MAX p |}.

Section Main.
Context {S : Type} (p : platform S).

Definition in_em {A} (m : M erlman A) : M (machine S) A := fun s =>
  let? '(x, e) := m (mc_em s) in Ok (x, Machine e (mc_cheats s) (mc_lib s) (mc_kmem s) (mc_engine s) (mc_log s)).
Definition in_conf {A} (m : M config_t A) : M (machine S) A := in_em (conf m).
Definition in_lib {A} (m : M lib A) : M (machine S) A := fun s =>
  let? '(x, l) := m (mc_lib s) in Ok (x, Machine (mc_em s) (mc_cheats s) l (mc_kmem s) (mc_engine s) (mc_log s)).
Definition set_cheats (c : cheats_t) : M (machine S) unit :=
  modify (fun s => Machine (mc_em s) c (mc_lib s) (mc_kmem s) (mc_engine s) (mc_log s)).
Definition boot (ev : boot_event) : M (machine S) unit :=
  modify (fun s => Machine (mc_em s) (mc_cheats s) (mc_lib s) (mc_kmem s) (mc_engine s) (mc_log s ++ [ev])).

(** ** irxman.c *)

Fixpoint load_rom_modules (mods : list cstring) : M (machine S) Z :=
  match mods with
  | [] => ret 0
  | m :: mods =>
      boot (LoadModule m);;
      if pf_SifLoadModule p m <? 0 then ret (-1) else load_rom_modules mods
  end.

(** What becomes of the USB modules is only printed. *)
Definition load_modules : M (machine S) Z :=
  let* r := load_rom_modules _modules in
  if r <? 0 then ret (-1)
  else
    let* usb := in_conf (config_get_bool SET_USB_SUPPORT) in
    (if usb =? 0 then ret tt else boot (ExecModule (str "usbd"));; boot (ExecModule (str "usb_mass")));;
    ret 0.

(** The modules in the order of the table, which [install_modules] of RamFile.v copies. *)
Definition irx_table (sms : Z) : list (Z * list Z) :=
  let f := pf_irx p in
  (if sms =? 0 then [_ps2ip_irx f; _ps2smap_irx f] else [_ps2ip_sms_irx f; _ps2smap_sms_irx f]) ++
  [_ps2dev9_irx f; _debugger_irx f; _memdisk_irx f; _eesync_irx f].

Definition install_irx_modules : M (machine S) unit :=
  let* sms := in_conf (config_get_bool SET_DEBUGGER_SMS_MODULES) in
  modify (fun s => Machine (mc_em s) (mc_cheats s) (mc_lib s) (install_modules (irx_table sms).*1 (irx_table sms).*2 (mc_kmem s))
                     (mc_engine s) (mc_log s)).

(** ** loader.c *)

(** [load_cheats] on the file: its result is only printed. *)
Definition load_cheats_from (cheatfile : cstring) : M (machine S) unit :=
  let txt := read_text_file (v_fs (pf_env p)) (pf_alloc p) cheatfile 0 in
  let* c := gets mc_cheats in
  let* '(_, c) := in_lib (load_cheats txt c (pf_junk p) (pf_line p)) in
  set_cheats c.

(** [strcpy(_bootpath, argv[0]); __dirname(_bootpath)] *)
Definition boot_path (argv0 : cstring) : res cstring :=
  if (length argv0 <? FIO_PATH_MAX)%nat then Ok (default argv0 (__dirname (Some argv0)).2) else Err OutOfBounds.

Definition reset_if_set (bootdev : dev_id) : M (machine S) unit :=
  if decide (bootdev = DEV_HOST) then ret tt
  else
    let* reset := in_conf (config_get_bool SET_IOP_RESET) in
    if reset =? 0 then ret tt else boot (ResetIop (str "rom0:UDNL rom0:EELOADCNF")).

Definition patch_if_set : M (machine S) unit :=
  let* sbv := in_conf (config_get_bool SET_SBV_PATCHES) in
  if sbv =? 0 then ret tt else boot EnableLmb;; boot DisablePrefixCheck;; boot (UserMemClear 0x00100000).

(** What is installed once the IOP is ready; [false] for [goto end]. *)
Definition main_install (_bootpath : cstring) : M (machine S) bool :=
  let* r := in_em (install_erls (pf_load_erl p)) in
  if r <? 0 then ret false
  else
    install_irx_modules;;
    set_cheats cheats_init;;
    let* name := in_conf (config_get_string SET_CHEATS_FILE) in
    let* name := lift (of_option NullDeref name) in
    let* cheatfile := lift (__pathname _bootpath name) in
    load_cheats_from cheatfile;;
    ret true.

Definition main_boot (_bootdev : dev_id) (_bootpath : cstring) : M (machine S) bool :=
  reset_if_set _bootdev;;
  patch_if_set;;
  let* r := load_modules in
  if r <? 0 then ret false
  else
    boot InitDrive;;
    boot InitPad;;
    main_install _bootpath.

(** [main] up to the loop. *)
Definition main_init (fuel : nat) (argv0 : cstring) : M (machine S) bool :=
  let* _bootpath := lift (boot_path argv0) in
  in_conf config_build;;
  let* file := lift (__pathname _bootpath CONFIG_FILE) in
  let* _ := in_conf (config_read_named (H := pf_clib p) fuel file) in
  main_boot (get_dev _bootpath) _bootpath.

(** The loop of [main] on its variables. *)
Definition main_menu (reads : list (option Z)) : M (machine S) ending := fun s =>
  let e := mc_em s in
  let? '(o, m) := menu_loop (pf_pad p) (pf_env p) (pf_engine p) (mc_cheats s) (l_heap (mc_lib s)) (pf_junk p) reads
                    (Menu None None 0 0 (em_config e) (mc_engine s)) in
  Ok (o, Machine (ErlMan (em_erl e) (em_engine e) (em_log e) (m_config m)) (mc_cheats s) (mc_lib s) (mc_kmem s) (m_engine m) (mc_log s)).

(** [end:] *)
Definition main_end : M (machine S) unit :=
  in_conf config_destroy;;
  let* c := gets mc_cheats in
  let* c := in_lib (cheats_destroy c) in
  set_cheats c;;
  in_em (uninstall_erls (pf_unload_erl p)).

(** [Running]: the loop waits for more readings of the pad. *)
Definition main (fuel : nat) (argv0 : cstring) (reads : list (option Z)) : M (machine S) ending :=
  let* ok := main_init fuel argv0 in
  let* o := if ok : bool then main_menu reads else ret Quit in
  match o with
  | Quit => main_end;; ret Quit
  | o => ret o
  end.
End Main.

(** ** What the settings ask for *)

Record loader_settings : Type := LoaderSettings {
  y_erl : erl_settings;
  y_reset : Z; y_sbv : Z; y_usb : Z; y_sms : Z;
  y_cheats : cstring;
  y_boots : list cstring;
}.

(** The defaults of configman.h. *)
Definition default_settings : loader_settings :=
  LoaderSettings (ErlSettings 1 0xc0000 1 0x80000 1 0x90000 1 0xff000 0 0 0 1 1 (str "192.168.0.10") (str "255.255.255.0") (str "192.168.0.1"))
    1 1 1 1 (str "cheats.txt") [].

(** The settings of a file. *)
Record file_settings (ms : list (cstring * cfg)) (y : loader_settings) : Prop := {
  fs_erl : settings_of ms (y_erl y);
  fs_reset : is_bool (at_ ms (str "loader") (str "iop_reset")) (y_reset y);
  fs_sbv : is_bool (at_ ms (str "loader") (str "sbv_patches")) (y_sbv y);
  fs_usb : is_bool (at_ ms (str "loader") (str "usb_support")) (y_usb y);
  fs_sms : is_bool (at_ ms (str "debugger") (str "sms_modules")) (y_sms y);
  fs_cheats : is_str (at_ ms (str "loader") (str "cheats")) (y_cheats y);
  fs_boots : exists xs, cfg_at (CGroup ms) LOADER_BOOT2 = Some (CArray xs) /\ Z.of_nat (length xs) < 2 ^ 31 /\
    string_of <$> xs = Some <$> y_boots y;
}.

(** What the accessors make of a configuration, and that it can be destroyed. *)
Record conf_gives (c : config_t) (y : loader_settings) : Prop := {
  cg_erl : gives c (y_erl y);
  cg_reset : config_get_bool SET_IOP_RESET c = Ok (y_reset y, c);
  cg_sbv : config_get_bool SET_SBV_PATCHES c = Ok (y_sbv y, c);
  cg_usb : config_get_bool SET_USB_SUPPORT c = Ok (y_usb y, c);
  cg_sms : config_get_bool SET_DEBUGGER_SMS_MODULES c = Ok (y_sms y, c);
  cg_cheats : config_get_string SET_CHEATS_FILE c = Ok (Some (y_cheats y), c);
  cg_boots : forall i, 0 <= i <= Z.of_nat (length (y_boots y)) -> config_get_string_elem SET_BOOT2 i c = Ok (y_boots y !! Z.to_nat i, c);
  cg_destroy : exists c', config_destroy c = Ok (tt, c') /\ c_heap c' = ∅;
}.

Lemma file_gives c t ms y : configured c t ms -> file_settings ms y -> conf_gives c y.
Proof.
  intros Hc Hy.
  assert (Hb : forall g n x, is_bool (at_ ms g n) x -> plain g -> plain n -> config_get_bool (path_of [g; n]) c = Ok (x, c)).
  { intros g n x Hx Hg Hn. by apply (get_bool_at c t ms _ _ Hc (two_plain g n Hg Hn)). }
  split.
  - exact (settings_give c t ms _ Hc (fs_erl _ _ Hy)).
  - exact (Hb _ _ _ (fs_reset _ _ Hy) eq_refl eq_refl).
  - exact (Hb _ _ _ (fs_sbv _ _ Hy) eq_refl eq_refl).
  - exact (Hb _ _ _ (fs_usb _ _ Hy) eq_refl eq_refl).
  - exact (Hb _ _ _ (fs_sms _ _ Hy) eq_refl eq_refl).
  - destruct (fs_cheats _ _ Hy) as (a & ps & Hx & ->).
    exact (get_string_at c t ms _ _ _ Hc (two_plain (str "loader") (str "cheats") eq_refl eq_refl) ltac:(discriminate) Hx).
  - destruct (fs_boots _ _ Hy) as (xs & Hx & Hl & Hs). intros i Hi. by apply (elem_boot c t ms xs (y_boots y) Hc Hx Hl Hs).
  - destruct (config_destroy_ok c t (proj1 Hc)) as (c' & E & Hh & _). by exists c'.
Qed.

(** The configuration at the start of [main] is an object without settings. *)
Definition config_new : config_t := Config ∅ 1 None 0 0 CONFIG_ERR_NONE.
Definition built : config_t := match config_build config_new with Ok (_, c) => c | Err _ => config_new end.

Lemma built_ok : config_build config_new = Ok (tt, built).
Proof. vm_compute. reflexivity. Qed.

(** Without a file the defaults are read. *)
Lemma defaults_given : conf_gives (set_error CONFIG_ERR_FILE_IO built) default_settings.
Proof.
  split; try (vm_compute; reflexivity).
  - split; vm_compute; reflexivity.
  - eexists. split; vm_compute; reflexivity.
Qed.

Lemma built_destroyed : exists c, config_destroy built = Ok (tt, c) /\ c_heap c = ∅.
Proof. eexists. split; vm_compute; reflexivity. Qed.
Lemma built_flags : auto_convert (c_flags built) = false.
Proof. vm_compute. reflexivity. Qed.
#[local] Opaque built.

(** The settings in effect: those of the configuration file, whose text the scanner and the
    parser read (comments and included files may be part of it), or the defaults when there is
    no file. *)
Inductive settings_found {S} (p : platform S) (file : cstring) : loader_settings -> Prop :=
| no_file : fs_file (v_fs (pf_env p)) file = None -> settings_found p file default_settings
| from_file text e ms y :
    fs_file (v_fs (pf_env p)) file = Some text ->
    scanctx_init (Some file) = Ok e -> lexes (H := pf_clib p) (reading e text 1) (settings_toks ms) ->
    settings_ok ms -> (settings_depth ms + 7 < YYMAXDEPTH)%nat -> file_settings ms y -> settings_found p file y.

(** The cheats of the cheat file: what its lines say, none when it cannot be read or when a
    line is wrong. *)
Definition cheats_of (ls : list cstring) : tree :=
  match spec_lines ls [] 1 TOK_GAME_TITLE [] with Parsed t => t | _ => [] end.

Inductive cheats_found {S} (p : platform S) (file : cstring) : tree -> Prop :=
| no_cheats : read_text_file (v_fs (pf_env p)) (pf_alloc p) file 0 = None -> cheats_found p file []
| from_text ls : read_text_file (v_fs (pf_env p)) (pf_alloc p) file 0 = Some (unlines ls) ->
    Forall line_ok ls -> ParserProps.names_ok ls -> cheats_found p file (cheats_of ls).

Section Plan.
Context {S : Type} (p : platform S) (y : loader_settings).

(** The IOP is reset unless the loader comes from the host. *)
Definition reset_plan (dev : dev_id) : list boot_event :=
  if bool_decide (dev = DEV_HOST) || (y_reset y =? 0) then [] else [ResetIop (str "rom0:UDNL rom0:EELOADCNF")].
Definition sbv_plan : list boot_event :=
  if y_sbv y =? 0 then [] else [EnableLmb; DisablePrefixCheck; UserMemClear 0x00100000].

(** The modules up to the first that does not load. *)
Definition loadable (m : cstring) : bool := 0 <=? pf_SifLoadModule p m.
Definition tried (mods : list cstring) : list cstring :=
  match list_find (fun m => loadable m = false) mods with Some (i, _) => take (Datatypes.S i) mods | None => mods end.
Definition usb_plan : list boot_event :=
  if y_usb y =? 0 then [] else [ExecModule (str "usbd"); ExecModule (str "usb_mass")].

Definition boot_plan (dev : dev_id) : list boot_event * bool :=
  let l := reset_plan dev ++ sbv_plan ++ (LoadModule <$> tried _modules) in
  if forallb loadable _modules then (l ++ usb_plan ++ [InitDrive; InitPad], true) else (l, false).
End Plan.

(** ** The start follows the plan *)

Section Start.
Context {S : Type} (p : platform S) (y : loader_settings) (c : config_t) (Hg : conf_gives c y).

Definition logs (l : list boot_event) (s : machine S) : machine S :=
  Machine (mc_em s) (mc_cheats s) (mc_lib s) (mc_kmem s) (mc_engine s) (mc_log s ++ l).

Lemma logs_app l1 l2 s : logs l2 (logs l1 s) = logs (l1 ++ l2) s.
Proof using. unfold logs. cbn. by rewrite app_assoc. Qed.
Lemma logs_nil s : logs [] s = s.
Proof using. unfold logs. rewrite app_nil_r. by destruct s. Qed.

Lemma in_conf_ok {A} (m : M config_t A) (s : machine S) x : em_config (mc_em s) = c -> m c = Ok (x, c) -> in_conf m s = Ok (x, s).
Proof using.
  intros Es Em. unfold in_conf, in_em. rewrite (conf_ok c m (mc_em s) x Es Em). by destruct s.
Qed.

Lemma reset_ok dev (s : machine S) : em_config (mc_em s) = c -> reset_if_set dev s = Ok (tt, logs (reset_plan y dev) s).
Proof using Hg.
  intros Es. unfold reset_if_set, reset_plan. destruct (decide (dev = DEV_HOST)) as [E|E].
  - rewrite bool_decide_eq_true_2 by done. cbn [orb]. by rewrite logs_nil.
  - rewrite bool_decide_eq_false_2 by done. rewrite (bind_ok _ _ _ _ _ (in_conf_ok _ s _ Es (cg_reset _ _ Hg))). cbn [orb].
    destruct (y_reset y =? 0); [by rewrite logs_nil|done].
Qed.

Lemma patch_ok (s : machine S) : em_config (mc_em s) = c -> patch_if_set s = Ok (tt, logs (sbv_plan y) s).
Proof using Hg.
  intros Es. unfold patch_if_set, sbv_plan. rewrite (bind_ok _ _ _ _ _ (in_conf_ok _ s _ Es (cg_sbv _ _ Hg))).
  destruct (y_sbv y =? 0); [by rewrite logs_nil|]. rewrite !(bind_ok _ _ _ _ _ eq_refl). unfold boot, modify, logs. cbn. by rewrite <- !app_assoc.
Qed.

Lemma rom_ok mods : forall s, load_rom_modules p mods s = Ok (if forallb (loadable p) mods then 0 else -1, logs (LoadModule <$> tried p mods) s).
Proof using.
  induction mods as [|m mods IH]; intros s; cbn [load_rom_modules forallb]; [by rewrite logs_nil|]. rewrite (bind_ok _ _ _ _ _ eq_refl).
  change (Machine (mc_em s) (mc_cheats s) (mc_lib s) (mc_kmem s) (mc_engine s) (mc_log s ++ [LoadModule m])) with (logs [LoadModule m] s).
  unfold tried, loadable in *. cbn [list_find]. destruct (Z.ltb_spec (pf_SifLoadModule p m) 0) as [Hm|Hm].
  - rewrite decide_True by lia. destruct (Z.leb_spec 0 (pf_SifLoadModule p m)); [lia|]. done.
  - rewrite decide_False by lia. destruct (Z.leb_spec 0 (pf_SifLoadModule p m)); [|lia]. cbn [andb]. rewrite IH, logs_app.
    destruct (list_find _ mods) as [[i x]|]; done.
Qed.

Lemma load_modules_ok s : em_config (mc_em s) = c ->
  load_modules p s = Ok (if forallb (loadable p) _modules then 0 else -1,
    logs ((LoadModule <$> tried p _modules) ++ (if forallb (loadable p) _modules then usb_plan y else [])) s).
Proof using Hg.
  intros Es. unfold load_modules. rewrite (bind_ok _ _ _ _ _ (rom_ok _modules s)). set (s1 := logs _ s).
  destruct (forallb (loadable p) _modules); cbn [Z.ltb Z.compare].
  - rewrite (bind_ok _ _ _ _ _ (in_conf_ok _ s1 _ Es (cg_usb _ _ Hg))). unfold usb_plan. destruct (y_usb y =? 0).
    + by rewrite (bind_ok _ _ s1 tt s1), app_nil_r by done.
    + rewrite <- logs_app. fold s1. rewrite (bind_ok _ _ s1 tt (logs [ExecModule (str "usbd"); ExecModule (str "usb_mass")] s1)); [done|].
      rewrite !(bind_ok _ _ _ _ _ eq_refl). unfold boot, modify, logs. cbn [mc_em mc_cheats mc_lib mc_kmem mc_engine mc_log]. by rewrite <- !app_assoc.
  - by rewrite app_nil_r.
Qed.

(** *** The cheats *)

(** What the menu may walk through: a list, or the cleared head that [cheats_destroy] leaves. *)
Definition cheats_ready (h : heap) (ch : cheats_t) (gs : list agame) : Prop :=
  games_rep h (games ch) gs \/ ch = zero_cheats /\ gs = [].

Lemma load_cheats_ok file t s : cheats_found p file t -> heap_wf (l_heap (mc_lib s)) -> h_oracle (l_heap (mc_lib s)) = [] ->
  mc_cheats s = cheats_init ->
  exists gs ch l, load_cheats_from p file s = Ok (tt, Machine (mc_em s) ch l (mc_kmem s) (mc_engine s) (mc_log s)) /\
    tree_of gs = t /\ Forall game_stored gs /\ cheats_ready (l_heap l) ch gs.
Proof using.
  intros Ht Hw Ho Hs. unfold load_cheats_from. rewrite (bind_ok _ _ s cheats_init s) by (unfold gets; by rewrite Hs).
  assert (Hd : forall l, games_rep (l_heap l) (games cheats_init) []) by (intros l; apply games_rep_empty).
  assert (E0 : cheats_destroy cheats_init (mc_lib s) = Ok (zero_cheats, set_l_heap (del_games [] (l_heap (mc_lib s))) (mc_lib s))).
  { unfold cheats_destroy. rewrite (bind_ok _ _ (mc_lib s) STAILQ_INIT (set_l_heap (del_games [] (l_heap (mc_lib s))) (mc_lib s))); [done|].
    unfold in_heap. by rewrite (free_games_spec [] _ _ (Hd (mc_lib s))). }
  set (l0 := set_l_heap _ _) in E0.
  assert (Hrun : forall r ch l, load_cheats (read_text_file (v_fs (pf_env p)) (pf_alloc p) file 0) cheats_init (pf_junk p) (pf_line p) (mc_lib s) = Ok ((r, ch), l) ->
    (let* '(_, c) := in_lib (load_cheats (read_text_file (v_fs (pf_env p)) (pf_alloc p) file 0) cheats_init (pf_junk p) (pf_line p)) in set_cheats c) s =
    Ok (tt, Machine (mc_em s) ch l (mc_kmem s) (mc_engine s) (mc_log s))).
  { intros r ch l E. unfold bind, in_lib. by rewrite E. }
  unfold load_cheats in *. destruct Ht as [E|ls E Hok Hn]; rewrite E in *.
  - exists [], zero_cheats, l0. split; [apply (Hrun (-1)); by rewrite (bind_ok _ _ _ _ _ E0)|]. split; [done|]. split; [constructor|by right].
  - destruct (cheats_read_buf_spec cheats_init l0 [] ls (pf_junk p) (pf_line p) (Hd l0) (heap_wf_del [] _ Hw) Hok Hn)
      as (z & ch & l & gs & Er & Hgr & Hst & Hv). change (h_oracle (l_heap l0)) with (h_oracle (l_heap (mc_lib s))) in Hv. rewrite Ho in Hv. unfold cheats_of.
    assert (Hbad : z = CHEATS_FALSE -> exists gs ch l, (let* '(_, c) := in_lib (let* _ := cheats_destroy cheats_init in
        let* '(r, c) := cheats_read_buf cheats_init (Some (unlines ls)) (pf_junk p) (pf_line p) in
        if r =? CHEATS_TRUE then ret (0, c) else let* c := cheats_destroy c in ret (-1, c)) in set_cheats c) s =
        Ok (tt, Machine (mc_em s) ch l (mc_kmem s) (mc_engine s) (mc_log s)) /\
      tree_of gs = [] /\ Forall game_stored gs /\ cheats_ready (l_heap l) ch gs).
    { intros ->. exists [], zero_cheats, (set_l_heap (del_games gs (l_heap l)) l). split; [|split; [done|split; [constructor|by right]]].
      apply (Hrun (-1)). rewrite (bind_ok _ _ _ _ _ E0). rewrite (bind_ok _ _ _ _ _ Er). cbn [Z.eqb CHEATS_FALSE CHEATS_TRUE].
      unfold cheats_destroy. rewrite bind_assoc. rewrite (bind_ok _ _ l STAILQ_INIT (set_l_heap (del_games gs (l_heap l)) l)); [done|].
      unfold in_heap. by rewrite (free_games_spec _ _ _ Hgr). }
    destruct (spec_lines ls [] 1 TOK_GAME_TITLE []) as [t| |]; [|by apply Hbad|by apply Hbad]. destruct Hv as [-> Ht].
    exists gs, ch, l. split; [|split; [done|split; [done|by left]]].
    apply (Hrun 0). rewrite (bind_ok _ _ _ _ _ E0). by rewrite (bind_ok _ _ _ _ _ Er).
Qed.

(** *** The modules *)

Lemma install_irx_ok s : em_config (mc_em s) = c ->
  install_irx_modules p s = Ok (tt, Machine (mc_em s) (mc_cheats s) (mc_lib s)
    (install_modules (irx_table p (y_sms y)).*1 (irx_table p (y_sms y)).*2 (mc_kmem s)) (mc_engine s) (mc_log s)).
Proof using Hg.
  intros Es. unfold install_irx_modules. by rewrite (bind_ok _ _ _ _ _ (in_conf_ok _ s _ Es (cg_sms _ _ Hg))).
Qed.

Definition sized_images : Prop := Forall (fun i => 0 < Z.of_nat (length i.2) <= BUFSIZE /\ Forall is_u8 i.2) (irx_table p (y_sms y)).

Lemma irx_found m : sized_images ->
  Forall2 (fun h i => get_module_from_kernel (install_modules (irx_table p (y_sms y)).*1 (irx_table p (y_sms y)).*2 m) h BUFSIZE = Ok (Some i.2))
    module_hashes (irx_table p (y_sms y)).
Proof using.
  intros Hi. assert (Hl : length (irx_table p (y_sms y)) = IRX_NUM) by (unfold irx_table; by destruct (y_sms y =? 0)).
  apply Forall2_same_length_lookup. split; [by rewrite Hl|]. intros i h im Hh Him.
  apply (module_installed _ _ _ i); rewrite ?length_fmap; [done|done|by apply Forall_fmap|done|]. by rewrite list_lookup_fmap, Him.
Qed.

(** *** From the configuration on *)

(** What the start leaves in the machine. *)
Record started (dev : dev_id) (t : tree) (s s1 : machine S) : Prop := {
  st_log : mc_log s1 = mc_log s ++ (boot_plan p y dev).1;
  st_erls : em_log (mc_em s1) = em_log (mc_em s) ++ (if (boot_plan p y dev).2 then (plan (pf_load_erl p) (y_erl y)).1 else []);
  st_config : em_config (mc_em s1) = c;
  st_engine : mc_engine s1 = mc_engine s;
  st_rest : if (boot_plan p y dev).2 && (plan (pf_load_erl p) (y_erl y)).2 then
      em_engine (mc_em s1) = em_engine (mc_em s) ++ members_of (pf_load_erl p) (y_erl y) /\
      Forall2 (fun h i => get_module_from_kernel (mc_kmem s1) h BUFSIZE = Ok (Some i.2)) module_hashes (irx_table p (y_sms y)) /\
      exists gs, tree_of gs = t /\ Forall game_stored gs /\ cheats_ready (l_heap (mc_lib s1)) (mc_cheats s1) gs
    else mc_cheats s1 = mc_cheats s;
}.

Lemma boot_ok ev (s : machine S) : boot ev s = Ok (tt, logs [ev] s).
Proof using. done. Qed.

Lemma main_install_ok path cheatfile t s : em_config (mc_em s) = c -> sized_images ->
  heap_wf (l_heap (mc_lib s)) -> h_oracle (l_heap (mc_lib s)) = [] ->
  __pathname path (y_cheats y) = Ok cheatfile -> cheats_found p cheatfile t ->
  exists s1, main_install p path s = Ok ((plan (pf_load_erl p) (y_erl y)).2, s1) /\
    mc_log s1 = mc_log s /\ em_log (mc_em s1) = em_log (mc_em s) ++ (plan (pf_load_erl p) (y_erl y)).1 /\
    em_config (mc_em s1) = c /\ mc_engine s1 = mc_engine s /\
    if (plan (pf_load_erl p) (y_erl y)).2 then
      em_engine (mc_em s1) = em_engine (mc_em s) ++ members_of (pf_load_erl p) (y_erl y) /\
      Forall2 (fun h i => get_module_from_kernel (mc_kmem s1) h BUFSIZE = Ok (Some i.2)) module_hashes (irx_table p (y_sms y)) /\
      exists gs, tree_of gs = t /\ Forall game_stored gs /\ cheats_ready (l_heap (mc_lib s1)) (mc_cheats s1) gs
    else mc_cheats s1 = mc_cheats s.
Proof using Hg.
  intros Es Hi Hw Ho Hp Ht. unfold main_install.
  destruct (install_runs (pf_load_erl p) c (y_erl y) (cg_erl _ _ Hg) (mc_em s) Es) as (em & Ee & Hl & Hc & Hm).
  rewrite (bind_ok _ _ s _ (Machine em (mc_cheats s) (mc_lib s) (mc_kmem s) (mc_engine s) (mc_log s))) by (unfold in_em; by rewrite Ee).
  destruct (plan (pf_load_erl p) (y_erl y)) as [evs ok]. cbn [fst snd] in *. destruct ok; cbn [Z.ltb Z.compare].
  2:{ eexists. split; [reflexivity|]. cbn. by repeat split. }
  rewrite (bind_ok _ _ _ _ _ (install_irx_ok (Machine em _ _ _ _ _) Hc)). rewrite (bind_ok _ _ _ _ _ eq_refl).
  cbn [mc_em mc_cheats mc_lib mc_kmem mc_engine mc_log]. set (s2 := Machine em cheats_init _ _ _ _).
  rewrite (bind_ok _ _ _ _ _ (in_conf_ok _ s2 _ Hc (cg_cheats _ _ Hg))). rewrite (bind_ok _ _ s2 (y_cheats y) s2) by done.
  rewrite (bind_ok _ _ s2 cheatfile s2) by (unfold lift; by rewrite Hp).
  destruct (load_cheats_ok cheatfile t s2 Ht Hw Ho eq_refl) as (gs & ch & l & El & Hgs). rewrite (bind_ok _ _ _ _ _ El).
  eexists. split; [reflexivity|]. cbn. split; [done|]. split; [done|]. split; [done|]. split; [done|]. split; [by apply Hm|].
  split; [by apply irx_found|]. by exists gs.
Qed.

Lemma main_boot_ok dev path cheatfile t s : em_config (mc_em s) = c -> sized_images ->
  heap_wf (l_heap (mc_lib s)) -> h_oracle (l_heap (mc_lib s)) = [] ->
  __pathname path (y_cheats y) = Ok cheatfile -> cheats_found p cheatfile t ->
  exists s1, main_boot p dev path s = Ok ((boot_plan p y dev).2 && (plan (pf_load_erl p) (y_erl y)).2, s1) /\ started dev t s s1.
Proof using Hg.
  intros Es Hi Hw Ho Hp Ht. unfold main_boot. rewrite (bind_ok _ _ _ _ _ (reset_ok dev s Es)). rewrite (bind_ok _ _ _ _ _ (patch_ok (logs _ s) Es)).
  rewrite logs_app, (bind_ok _ _ _ _ _ (load_modules_ok (logs _ s) Es)), logs_app. set (plan_of := boot_plan p y dev).
  assert (Eb : plan_of = boot_plan p y dev) by done. unfold boot_plan in Eb. rewrite (app_assoc (reset_plan y dev)) in Eb. rewrite app_assoc.
  set (l0 := (reset_plan y dev ++ sbv_plan y) ++ (LoadModule <$> tried p _modules)) in *.
  destruct (forallb (loadable p) _modules) eqn:Er; cbn [Z.ltb Z.compare].
  2:{ rewrite Eb, app_nil_r. exists (logs l0 s). split; [done|]. split; fold plan_of; rewrite ?Eb; cbn; by rewrite ?app_nil_r. }
  rewrite (bind_ok _ _ _ _ _ (boot_ok _ _)), logs_app, (bind_ok _ _ _ _ _ (boot_ok _ _)), logs_app. rewrite <- !app_assoc. cbn [app].
  destruct (main_install_ok path cheatfile t (logs (l0 ++ usb_plan y ++ [InitDrive; InitPad]) s) Es Hi Hw Ho Hp Ht)
    as (s1 & E & H1 & H2 & H3 & H4 & H5). exists s1. rewrite E, Eb. split; [done|]. split; fold plan_of; by rewrite ?Eb.
Qed.
End Start.

(** ** The configuration *)

Lemma config_found {S} (p : platform S) file y :
  (forall f content, fs_file (v_fs (pf_env p)) f = Some content -> Forall is_u8 content) -> settings_found p file y ->
  exists N, forall fuel, (N <= fuel)%nat -> exists r c, config_read_named (H := pf_clib p) fuel file built = Ok (r, c) /\ conf_gives c y.
Proof.
  intros Hfiles Hy. destruct Hy as [Hf|text e ms y Hf He Hl Hok Hd Hy].
  - exists O. intros fuel _. exists CONFIG_FALSE, (set_error CONFIG_ERR_FILE_IO built). split; [|exact defaults_given]. unfold config_read_named. cbn [fopen pf_clib].
    rewrite Hf. reflexivity.
  - destruct (lexes_scanned (H0 := pf_clib p) Hfiles (Some file) e text _ He (Hfiles _ _ Hf) Hl) as (N & HN).
    exists (Nat.max N (5 * length (settings_toks ms) + 2)). intros fuel Hfuel. destruct (HN fuel ltac:(lia)) as [g Eg].
    destruct built_destroyed as (c1 & E1 & Hh).
    destruct (config_read_over ms built c1 fuel E1 Hh built_flags Hok Hd ltac:(lia)) as (c & t & Er & Hc & _ & Ht).
    exists CONFIG_TRUE, c. split; [|exact (file_gives c t ms y (conj Hc (conj Ht Hok)) Hy)].
    unfold config_read_named. cbn [fopen pf_clib]. rewrite Hf, Eg. exact Er.
Qed.

(** ** The whole program *)

(** What the loader is started with: its own path, the configuration and the cheat file next to
    it, modules that fit, ELF names that are not blank. *)
Record start_ready {S} (p : platform S) (argv0 : cstring) (y : loader_settings) (t : tree) (path file cheatfile : cstring) : Prop := {
  sr_path : boot_path argv0 = Ok path;
  sr_file : __pathname path CONFIG_FILE = Ok file;
  sr_settings : settings_found p file y;
  sr_cheatfile : __pathname path (y_cheats y) = Ok cheatfile;
  sr_cheats : cheats_found p cheatfile t;
  sr_bytes : forall f content, fs_file (v_fs (pf_env p)) f = Some content -> Forall is_u8 content;
  sr_images : sized_images p y;
  sr_unload : forall f, pf_unload_erl p f = true;
  sr_boots : Forall bootable (y_boots y);
  sr_cnf : forall b, snd (cdGetElf (v_cnf (pf_env p))) = Some b -> bootable b;
}.

(** The machine before: nothing is installed, [cheats] holds whatever the stack holds. *)
Record machine_fresh {S} (engine : engine_t S) {L : EngineLaws engine} (s : machine S) : Prop := {
  mf_em : mc_em s = ErlMan (fun _ => None) [] [] config_new;
  mf_log : mc_log s = [];
  mf_heap : heap_wf (l_heap (mc_lib s));
  mf_malloc : h_oracle (l_heap (mc_lib s)) = [];
  mf_engine : e_inv (mc_engine s);
}.

Section Whole.
Context {S : Type} (p : platform S) {L : EngineLaws (pf_engine p)} (y : loader_settings) (reads : list (option Z)).

(** The menu on the games [gs], from the tables of the engine at the start. *)
Definition menu_of (gs : list agame) (s : S) : amenu * ending :=
  aloop (pf_pad p) (pf_env p) gs (y_boots y) (inst_flag (z_engine (y_erl y))) (e_code_max s) (e_hook_max s) reads
    (AMenu None None 0 (e_codes s, e_hooks s)).

Lemma menu_zero pad e (engine : engine_t S) h junk rs : forall m,
  menu_loop pad e engine zero_cheats h junk rs m = menu_loop pad e engine cheats_init h junk rs m.
Proof using. reflexivity. Qed.

Lemma main_menu_ok c gs s : em_config (mc_em s) = c -> conf_gives c y -> Forall game_stored gs ->
  cheats_ready (l_heap (mc_lib s)) (mc_cheats s) gs -> e_inv (mc_engine s) ->
  Forall bootable (y_boots y) -> (forall b, snd (cdGetElf (v_cnf (pf_env p))) = Some b -> bootable b) ->
  exists m, main_menu p reads s = Ok ((menu_of gs (mc_engine s)).2, Machine (mc_em s) (mc_cheats s) (mc_lib s) (mc_kmem s) m (mc_log s)) /\
    (e_codes m, e_hooks m) = a_tables (menu_of gs (mc_engine s)).1.
Proof using.
  intros Es Hg Hst Hr Hi Hb Hcnf.
  assert (Hmain : forall ch, games_rep (l_heap (mc_lib s)) (games ch) gs ->
    exists m, menu_loop (pf_pad p) (pf_env p) (pf_engine p) ch (l_heap (mc_lib s)) (pf_junk p) reads (Menu None None 0 0 c (mc_engine s)) =
      Ok ((menu_of gs (mc_engine s)).2, m) /\ m_config m = c /\ (e_codes (m_engine m), e_hooks (m_engine m)) = a_tables (menu_of gs (mc_engine s)).1).
  { intros ch Hgs. destruct (loop_shown (pf_pad p) (pf_env p) (pf_engine p) ch (l_heap (mc_lib s)) (pf_junk p) gs c (y_boots y) (z_engine (y_erl y))
      (e_code_max (mc_engine s)) (e_hook_max (mc_engine s))) with (reads := reads) (a := AMenu None None 0 (e_codes (mc_engine s), e_hooks (mc_engine s)))
      (m := Menu None None 0 0 c (mc_engine s)) as (m & E & _ & _ & _ & Hc & _ & Ht & _); try done.
    - eapply Forall_impl; [exact Hst|]. intros g (H1 & H2 & _). split; [done|]. unfold GAME_TITLE_MAX, ELFID_NAME_MAX in *. lia.
    - eapply Forall_impl; [exact Hst|]. intros g (_ & _ & Hc). unfold game_codes. apply Forall_bind. eapply Forall_impl; [exact Hc|].
      intros ch' Hch. apply Forall_fmap. eapply Forall_impl; [exact Hch|]. done.
    - exact (cg_boots _ _ Hg).
    - exact (gi_engine _ _ (cg_erl _ _ Hg)).
    - by exists m. }
  assert (Hch : exists ch, games_rep (l_heap (mc_lib s)) (games ch) gs /\ forall m,
    menu_loop (pf_pad p) (pf_env p) (pf_engine p) (mc_cheats s) (l_heap (mc_lib s)) (pf_junk p) reads m =
    menu_loop (pf_pad p) (pf_env p) (pf_engine p) ch (l_heap (mc_lib s)) (pf_junk p) reads m).
  { destruct Hr as [Hr|[-> ->]]; [by exists (mc_cheats s)|]. exists cheats_init. split; [apply games_rep_empty|]. apply menu_zero. }
  destruct Hch as (ch & Hgs & Em). destruct (Hmain ch Hgs) as (m & E & Hc & Ht). exists (m_engine m). split; [|done].
  unfold main_menu. rewrite Em, Es, E. cbn [rbind]. rewrite Hc, <- Es. by destruct (mc_em s).
Qed.

(** The end releases everything. *)
Lemma main_end_ok c gs s : em_config (mc_em s) = c -> conf_gives c y -> cheats_ready (l_heap (mc_lib s)) (mc_cheats s) gs ->
  (forall f, pf_unload_erl p f = true) ->
  exists s', main_end p s = Ok (tt, s') /\ c_heap (em_config (mc_em s')) = ∅ /\ (forall f, em_erl (mc_em s') f = None) /\
    (forall g, g ∈ gs -> h_games (l_heap (mc_lib s')) !! ag_loc g = None) /\ mc_engine s' = mc_engine s.
Proof using.
  intros Es Hg Hr Hu. destruct (cg_destroy _ _ Hg) as (c' & Ed & Hh). unfold main_end.
  set (em1 := ErlMan (em_erl (mc_em s)) (em_engine (mc_em s)) (em_log (mc_em s)) c').
  rewrite (bind_ok _ _ s tt (Machine em1 (mc_cheats s) (mc_lib s) (mc_kmem s) (mc_engine s) (mc_log s))).
  2:{ unfold in_conf, in_em, conf. by rewrite Es, Ed. }
  rewrite (bind_ok _ _ _ _ _ eq_refl). cbn [mc_cheats].
  assert (Hc : exists l, cheats_destroy (mc_cheats s) (mc_lib s) = Ok (zero_cheats, l) /\ forall g, g ∈ gs -> h_games (l_heap l) !! ag_loc g = None).
  { unfold cheats_destroy. destruct Hr as [Hr|[-> ->]].
    - rewrite (bind_ok _ _ (mc_lib s) STAILQ_INIT (set_l_heap (del_games gs (l_heap (mc_lib s))) (mc_lib s))).
      2:{ unfold in_heap. by rewrite (free_games_spec _ _ _ Hr). }
      eexists. split; [reflexivity|]. intros g Hgin. cbn. rewrite lookup_del_locs, decide_True; [done|]. by apply list_elem_of_fmap_2.
    - exists (mc_lib s). split; [|intros g Hgin; by apply elem_of_nil in Hgin].
      rewrite (bind_ok _ _ (mc_lib s) (games zero_cheats) (mc_lib s)); [done|]. unfold in_heap, free_games, __remove_games.
      rewrite (bind_ok _ _ _ _ _ eq_refl). destruct (stdpp.base.size (h_games (l_heap (mc_lib s)))); cbn; by destruct (mc_lib s). }
  destruct Hc as (l & Ec & Hgone).
  rewrite (bind_ok _ _ _ zero_cheats (Machine em1 (mc_cheats s) l (mc_kmem s) (mc_engine s) (mc_log s))) by (unfold in_lib; cbn; by rewrite Ec).
  rewrite (bind_ok _ _ _ _ _ eq_refl). cbn [mc_em mc_cheats mc_lib mc_kmem mc_engine mc_log].
  destruct (uninstall_none _ Hu _erl_files em1) as (em2 & Eu & Hc2 & Hn). eexists. split; [unfold in_em, uninstall_erls; cbn [mc_em]; by rewrite Eu|].
  cbn [mc_em mc_lib mc_engine]. split; [by rewrite Hc2|]. split; [intros f; apply Hn; left; apply erl_files_all|]. by split.
Qed.
End Whole.


(** A loader on a memory stick: its configuration as [config_write] would write it, a cheat file
    with one game, modules of a few bytes, and a user who quits. *)
Definition main_file : list (cstring * cfg) :=
  [(str "loader", CGroup [(str "iop_reset", CScalar (SBool 1)); (str "sbv_patches", CScalar (SBool 1)); (str "usb_support", CScalar (SBool 0));
      (str "boot2", CArray [SString (str "mass:Y arg") []]); (str "cheats", CScalar (SString (str "c.txt") []))]);
   (str "engine", CGroup [(str "install", CScalar (SBool 1)); (str "addr", CScalar (SHex 0x80000))]);
   (str "debugger", CGroup [(str "install", CScalar (SBool 1)); (str "addr", CScalar (SHex 0x90000)); (str "auto_hook", CScalar (SBool 0));
      (str "patch_loadmodule", CScalar (SBool 0)); (str "unhook_iop_reset", CScalar (SBool 0)); (str "rpc_mode", CScalar (SInt 1));
      (str "load_modules", CScalar (SBool 1)); (str "sms_modules", CScalar (SBool 1)); (str "ipaddr", CScalar (SString (str "192.168.0.10") []));
      (str "netmask", CScalar (SString (str "255.255.255.0") [])); (str "gateway", CScalar (SString (str "192.168.0.1") []))]);
   (str "sdklibs", CGroup [(str "install", CScalar (SBool 1)); (str "addr", CScalar (SHex 0xc0000))]);
   (str "elfldr", CGroup [(str "install", CScalar (SBool 1)); (str "addr", CScalar (SHex 0xff000))])].

Definition main_settings : loader_settings := LoaderSettings sample_settings 1 1 0 1 (str "c.txt") [str "mass:Y arg"].

Definition main_text : cstring := concat (member_text (H := zero_format) 2 1 <$> main_file).
Definition main_cheats : list cstring := [34 :: str "Rez" ++ [34]; str "Energy"; str "202E1B50 24020063"].

Definition main_fs : fsys := Fsys (fun f =>
  if decide (f = str "mass:ps2rd.conf") then Some main_text
  else if decide (f = str "mass:c.txt") then Some (unlines main_cheats)
  else if decide (f = str "mass:Y") then Some [] else None) (fun _ n => n).

Definition main_platform : platform (gmap Z Z) :=
  Platform (Loader.Env None main_fs (fun _ _ => true)) sample_pad (engine_c sample_symbols) (fun _ => 0) sample_load (fun _ => true)
    (IrxFiles (1, [1]) (2, [2]) (3, [3]) (4, [4]) (5, [5]) (6, [6]) (7, [7]) (8, [8])) (fun _ => SpecFloat.S754_zero false) (2 ^ 32 - 1) true 0 [].

Definition main_machine : machine (gmap Z Z) :=
  Machine (ErlMan (fun _ => None) [] [] config_new) (Cheats (StailQ (Some 7%positive) LastNull) [] 0)
    (Lib (empty_heap [] 205 None) [] 0 ∅ (fun _ => true)) ∅ sample_mem [].

Lemma main_ok : settings_ok main_file.
Proof.
  assert (Hg : forall ms, bool_decide (NoDup ms.*1 /\ Forall (fun n => __config_validate_name n = true) ms.*1) = true ->
    foldr (fun m r => cfg_ok m.2 /\ r) True ms -> cfg_ok (CGroup ms)).
  { intros ms H1 H2. apply bool_decide_eq_true in H1 as [? ?]. done. }
  apply Hg; [vm_compute; reflexivity|]. cbn [foldr main_file snd].
  split; [|split; [|split; [|split; [|split; [|exact I]]]]]; (apply Hg; [vm_compute; reflexivity|]); cbn [foldr snd]; split_and!; try exact I.
  exists CONFIG_TYPE_STRING. by apply Forall_singleton.
Qed.

Lemma main_writable : writable (H := zero_format) (H0 := pf_clib main_platform) (CGroup main_file).
Proof.
  assert (Hb : forall n, bool_decide (boolean_name n) = false -> ~ boolean_name n) by (intros n Hn; by apply bool_decide_eq_false in Hn).
  assert (Hs : forall s, bool_decide (Forall (fun c => 1 <= c < 256) s) = true -> string_bytes s) by (intros s Hx; by apply bool_decide_eq_true in Hx).
  cbn [writable foldr main_file fst snd]. split_and!; try exact I; try (apply Hb; vm_compute; reflexivity);
    lazymatch goal with
    | |- scalar_writable (SBool 0) => by left
    | |- scalar_writable (SBool _) => by right
    | |- scalar_writable (SString _ _) => split; [apply Hs; vm_compute; reflexivity|reflexivity]
    | |- Forall _ _ => apply Forall_singleton; split; [apply Hs; vm_compute; reflexivity|reflexivity]
    | |- _ => by vm_compute
    end.
Qed.

Lemma main_bytes f content : fs_file main_fs f = Some content -> Forall is_u8 content.
Proof.
  cbn [main_fs fs_file]. repeat case_decide; intros E; try discriminate; injection E as <-.
  - exact (proj1 (settings_lexed (H := zero_format) (H0 := pf_clib main_platform) ltac:(vm_compute; discriminate) 2 main_file main_ok main_writable)).
  - apply (bool_decide_unpack _). vm_compute. exact I.
  - constructor.
Qed.

Lemma main_ready : start_ready main_platform (str "mass:loader.elf") main_settings [(str "Rez", [(str "Energy", [(0x202E1B50, 0x24020063)])])]
  (str "mass:") (str "mass:ps2rd.conf") (str "mass:c.txt").
Proof.
  split.
  - reflexivity.
  - reflexivity.
  - destruct (scanctx_init_ok (Some (str "mass:ps2rd.conf"))) as (e & Ee & _). apply (from_file _ _ main_text e main_file).
    + reflexivity.
    + exact Ee.
    + apply (lexed_reads (H0 := pf_clib main_platform) (Some (str "mass:ps2rd.conf"))); [exact Ee|].
      exact (proj2 (settings_lexed (H := zero_format) (H0 := pf_clib main_platform) ltac:(vm_compute; discriminate) 2 main_file main_ok main_writable)).
    + exact main_ok.
    + apply Nat.leb_le. vm_compute. reflexivity.
    + split; try reflexivity; [split; try reflexivity; try (right; reflexivity); try (left; reflexivity); (do 2 eexists; split; [reflexivity|]; reflexivity)| |].
      * do 2 eexists. split; [reflexivity|]. reflexivity.
      * eexists. split; [reflexivity|]. split; [vm_compute; reflexivity|reflexivity].
  - reflexivity.
  - apply (from_text main_platform (str "mass:c.txt") main_cheats); [reflexivity|apply line_okb_ok; vm_compute; reflexivity|apply names_okb_ok; vm_compute; reflexivity].
  - exact main_bytes.
  - repeat (apply Forall_cons; split; [split; [vm_compute; split; congruence|apply (bool_decide_unpack _); vm_compute; exact I]|]). apply Forall_nil_2.
  - done.
  - apply Forall_singleton. split; [repeat constructor; vm_compute; congruence|vm_compute; discriminate].
  - intros b Eb. vm_compute in Eb. discriminate.
Qed.

